(* ===== verification/_CoqProject ===== *)
-Q . S2P
Prelude.v
UintOps.v
UintLaws.v
Uint256.v
MathConvert.v
Cbuf.v
Base64.v
AesTables.v
Aes.v
Enc.v
Tsd.v
Base58.v
BinaryTree.v
Crc64.v
Cluster.v
Gossip.v
GdbPkt.v
GdbDriver.v
GdbMdbx.v
GdbCore.v
GdbAccess.v
GdbClean.v
GdbFetch.v
GdbCh.v
GdbSync.v
Esocket.v
Session.v
Stream.v
StreamTx.v
StreamRx.v
StreamRun.v
StreamReg.v
ProcThread.v
HttpParse.v
Http.v
HttpRun.v
EncKey.v
HttpSimple.v
DilithiumOpen.v
SigDilithium.v
Sign.v
SignRun.v
Cert.v
CertFile.v
Client.v
ClientRun.v
ClientSpec.v
Links.v
LinksRun.v
LinksSpec.v
LinksRetry.v
ClientHttp.v
ClientHttpRun.v
