(* ===== verification/Prelude.v ===== *)
(** * A verified model of the DAP SDK

    The DAP SDK (core, crypto, io, net and global-db of this repository) is the
    C base of a peer-to-peer node.  This development models the parts that
    carry its own logic as executable Rocq functions and proves what makes them
    correct, in the units below, from the bottom up.

    ** The program and its parts

    Nodes talk over encrypted streams.  A stream belongs to a session, carries
    the packets of its channels over the buffers of a socket, and is registered
    under the address of its peer; links are grouped in clusters, over which
    the gossip channel spreads messages; the database keeps signed records in
    groups, spreads new ones by gossip and compares whole groups with linked
    nodes; amounts are 256-bit integers; buffers, containers and codecs serve
    all of them.

    - [Prelude] (this file): machine words ([wrap], [fits]), byte memory
      ([mem_read], [mem_write], [mem_le]), little-endian fields, tactics.
    - [UintOps], [UintLaws], [Uint256]: core/include/dap_math_ops.h, the
      128-, 256- and 512-bit integers, in its two builds (with [__int128] and
      portable), behind one interface of operations and laws.
    - [MathConvert]: core/src/dap_math_convert.c, parsing and printing amounts.
    - [Cbuf]: core/src/dap_cbuf.c, the circular byte buffer.
    - [Base64], [Base58]: crypto/src/dap_enc_base64.c, dap_enc_base58.c.
    - [AesTables], [Aes]: crypto/src/iaes, the AES-256 kernels and tables.
    - [Enc]: crypto/src/dap_enc_iaes.c and dap_enc.c, CBC mode and the calls
      that encrypt and encode; the class [SymCipher] states what users of a key
      rely on, [iaes_cipher] proves it for AES.
    - [Tsd]: core/src/dap_tsd.c, type-size-data records.
    - [BinaryTree]: core/src/dap_binary_tree.c.
    - [Crc64]: core/src/dap_crc64.c.
    - [Cluster]: net/stream/stream/dap_stream_cluster.c, clusters of links.
    - [Gossip]: net/stream/ch/dap_stream_ch_gossip.c, on top of [Cluster].
    - [GdbPkt]: global-db/dap_global_db_pkt.c, database record packets.
    - [GdbDriver]: the driver interface of dap_global_db_driver.c as the class
      [Driver], with the laws its users rely on ([DriverSpec], [Reliable],
      [Erasing], [Fetching]): one table per group, ordered by time and checksum;
      a batch is enclosed by the transaction callbacks of the driver, if it
      registers any ([Direct]: it registers none).
    - [GdbMdbx], [GdbFetch]: dap_global_db_driver_mdbx.c over an interface of
      libmdbx (class [Mdbx]), whose calls and commits may fail ([MdbxHealthy]: they
      do not); the instances that discharge those laws, and the
      packs of records it builds for a peer.
    - [GdbCore]: dap_global_db.c, the acceptance of a record
      ([s_store_obj_apply]), setting, deleting, pinning, paging and cleaning.
      [GdbAccess] and [GdbClean] are its theory.
    - [GdbCh]: dap_global_db_ch.c, the handlers that exchange hashes and
      records, and the timer of dap_global_db_cluster.c that starts them;
      [GdbSync] composes them over two nodes.
    - [Esocket]: the buffers of io/dap_events_socket.c.
    - [Session]: net/stream/session/dap_stream_session.c.
    - [Stream]: net/stream/stream/dap_stream.c and dap_stream_pkt.c,
      net/stream/ch/dap_stream_ch_pkt.c: sending and receiving, on top of
      [Enc], [Esocket] and [Session]; [StreamTx], [StreamRx], [StreamRun] are
      its theory (sender, receiver, both).
    - [StreamReg]: the registry of streams in dap_stream.c, on top of
      [Cluster] and [Session].
    - [ProcThread]: io/dap_proc_thread.c, the worker threads and their queues
      by priority, as a step relation over the interleavings of callers and
      threads.
    - [HttpParse], [Http]: net/server/http_server/http_client/dap_http_header.c
      and dap_http_client.c, the parsers of the request line and of the header
      fields and the reader of requests; [HttpRun] is its theory.
    - [HttpSimple]: net/server/http_server/dap_http_simple.c, the processors the
      program registers (key exchange, stream control, remote commands) up to the
      call they queue, and that they are what [HttpRun] asks of a processor
      ([reader_proc]).
    - [EncKey]: crypto/src/dap_enc_key.c and the packing of arguments in
      core/src/dap_common.c, keys of any scheme through its callbacks;
      [SigDilithium]: crypto/src/dap_enc_dilithium.c, the callbacks of
      Dilithium over the class [DilithiumCore]; [DilithiumOpen]:
      crypto/src/sig_dilithium, the unpacking of keys, signatures and hints and
      the check of a signature, the arithmetic of its equation being an argument.
    - [Sign]: crypto/src/dap_sign.c, signatures with such keys; [SignRun]
      proves for Dilithium what [Sign] relies on, and gives the instance of the
      class [GdbPkt.SignScheme] that the database packets use.
    - [Cert], [CertFile]: crypto/src/dap_cert.c and dap_cert_file.c, metadata
      of certificates on top of [BinaryTree], their bytes, their table.
    - [Client]: net/client/dap_client.c and dap_client_pvt.c, the stages of a
      connection to an uplink, driven by targets, answers, sockets and timers;
      [ClientRun] and [ClientSpec] are its theory.
    - [Links]: net/link_manager/dap_link_manager.c, the links to peers with
      their clusters, nets and clients; [LinksRun] proves that its tables stay
      consistent, [LinksSpec] states what it does, [LinksRetry] composes it with
      [Client].
    - [ClientHttp]: net/client/dap_client_http.c, one HTTP request over one
      socket, on top of [Esocket]; [ClientHttpRun] is its theory and composes it
      with the server of [Http].

    ** Conventions

    A [w]-bit unsigned integer is a [Z] in [[0, 2^w)], with [wrap w] written
    where the C arithmetic wraps.  A block of memory is a list of bytes; an
    access outside it, a division by zero, a use of freed memory and a lock
    that would never be obtained are [None], so a theorem that a function
    returns [Some] says that none of these happens.  Error codes are values.
    Structures with a packed layout are read and written at their offsets.
    State is passed explicitly: a record per component, one function per
    operation, with the source's names.  What lies outside (the clock, random
    numbers, the outcome of allocations, callbacks, signature schemes) is an
    argument.  Logging is left out.

    ** What the theorems show

    - Streams: whatever is written to a channel is delivered once, complete and
      in order, for any sizes and any cutting of the bytes ([stream_delivers]);
      the scan of the input ends on arbitrary bytes and finds exactly the packets a
      byte-by-byte specification does ([proc_read_scans]); sessions and the registry keep their invariants, and
      the registry agrees with the members of the global cluster, when the streams
      of a node are authorized together and none moves to another worker
      ([sessions_well_formed], [registry_tracks_streams]); socket buffers are
      queues ([es_buffers_are_queues]).
    - Gossip and clusters: a message reaches a linked node exactly once
      ([gossip_exchange_delivers]); no packet makes the engine read outside its
      buffers, block, or keep its lock or one of a cluster ([gossip_safe]); registration and membership.
    - Encryption: the AES kernel is the cipher of FIPS-197 given in [Aes.Fips]
      ([aes_is_fips197]); decryption inverts encryption for the kernel, for CBC
      with padding and through the interface with Base64.
    - Records: round trips, safety on untrusted bytes, the signature check.
    - Database: the MDBX driver refines tables, also when its store fails
      ([mdbx_keeps_tables]); what a node that may write sets it reads back, other
      records being kept ([gdb_set_get]); nodes that receive the same
      records in any order end with the same, newest ones
      ([replicas_converge]); a node that synchronizes a group with another ends
      with the newest records of both, and two that do so in turn agree
      ([sync_pull_newest], [sync_converges]); pages and cleaning
      ([get_all_pages], [clean_group_removes_expired]).  Convergence is for records
      of root signers that are neither pinned nor expired, and for storages
      that do not fail and register no transactions.
    - Arithmetic: the 256-bit operations compute what they should on both
      builds, which agree; amounts survive printing and parsing.
    - Containers and codecs: the circular buffer refines a bounded queue, sends to
      a socket included, the tree a map with what its deletions release; Base64, Base58 and TSD round trips and bounds; the CRC is the
      bit-serial one and detects bursts.
    - Worker threads: a callback is run exactly once, in the order of its queue,
      in every interleaving ([proc_threads_in_order]).
    - HTTP: a well-formed request is read into its parts and handed to the
      processor of its address ([http_request_read]); what the client sends for
      a [POST] request is such a request, and the block of a simple processor
      holds exactly its data when the call that answers is queued
      ([http_post_served]); an answer with a length is handed over once and
      whole, however it is cut ([http_answer_delivered]); a request that awaits
      its connection ends with exactly one call, in any order of events and as long
      as headers and answer keep to the sizes of its arrays
      ([http_client_one_callback]).
    - Keys, signatures, certificates: keys and certificates survive their bytes
      ([key_roundtrip], [cert_roundtrip]); a signature is accepted for the data
      it was made for, unless its hash type is one the check does not know, which
      is refused ([sign_create_verify]), and also by the database
      ([signed_record_accepted]); untrusted bytes that claim a Dilithium
      signature, or no known one, are checked safely ([sign_verify_all_safe]), and
      untrusted keys of schemes with safe deserializers ([key_deserialize_safe]);
      the scan for signers,
      the balanced tree of metadata and the table of certificates
      ([unique_signs_found], [balance_rebuilds], [cert_registry_spec]).
    - Client: its events are handled, in any order, and keep the invariant of the
      stages, except for three the code does not guard against
      ([client_never_fails], [client_failures]); an uplink that answers is connected, one
      that refuses is given up ([client_connects], [client_gives_up]).
    - Link manager: no operation that respects what the manager leaves to its
      callers follows a freed pointer or fails an assertion, and links, clusters
      and nets agree ([links_never_fail], [unchecked_operations_fail]); a lost link is
      connected again, its client restarted from any state, and given up after
      the configured attempts ([link_reconnects], [link_given_up]); the array of
      the links of a net ([net_links_partition]).
    - Departures: theorems that a defect is reachable (for example
      [fragment_overflow], [replay_second_accepted],
      [unauthorized_stream_dangles], [es_failed_realloc_overflows],
      [cluster_new_refused_deadlocks], [div_256_coin_diverges],
      [iaes_empty_underread], [mult_256_misses_overflow],
      [unterminated_group_overread], [pinned_record_issue_refused],
      [http_header_name_overflow], [meta_keys_lost], [scalar_over_read],
      [sizes_wrap], [client_stalls], [add_net_twice_hangs],
      [removed_net_dangles], [static_downlink_no_client],
      [unchecked_operations_fail], [client_failures],
      [transaction_breaks_convergence], [failed_commit_reported_as_success],
      [write_in_socket_partial_corrupts], [delete_two_children_dangles],
      [long_word_overflows], [immediate_connection_lost], [headers_truncated],
      [headers_overflow]).

    ** Fuel

    Loops that are not structural take fuel, always enough by a theorem: the
    length of the buffer for scans ([proc_read_loop], the TSD scans), the size
    of the data for the fragments of a packet, the bit length for divisions.
    [draw_id] of [Session] takes as much fuel as the random source needs to
    leave the identifiers in use, which is a hypothesis on that source.
    The reader of a group takes one unit per page of hashes and the paged
    requests one per page, so the number of records is enough.
    The scan for signers takes one unit per byte, the balancing of a tree one
    per item; the client's machine calls itself at most five times, and once per
    queued packet; numbers are printed with 20 digits of fuel, more than 64 bits
    need.  The fuel of the HTTP reader is the bound of 1000 passes the source sets.
    Two loops need no more than the stated fuel on their good inputs and are
    proved to exhaust any fuel on the others: [DIV_256_COIN] at [2^256 - 1] and
    the cleaning of a group with a pinned expired record.

    ** Not modelled

    The event loop, workers, timers and real sockets (operating-system state);
    the request queue of the database, restoring its pinned records, its
    SQLite and PostgreSQL drivers; the replies of the HTTP server and its cache,
    the calls of its simple processors that answer, its folders, JSON-RPC; SSL, the Windows branches and the settings of
    the HTTP client; the hot list, the checks of
    addresses and the printing of the link manager, its start and end; the bytes
    of a client's requests and answers and its deletion; certificate files and folders, key stores, the
    callbacks of signature schemes other than Dilithium, and the post-quantum
    and other imported cryptographic primitives themselves; strings, lists, files and
    configuration; vendored code.  Inside the modelled files: reports in JSON
    and text of the clusters, the 128-bit conversions and roundings of
    amounts, the hexadecimal helpers of Base58, the HTTP entry of streams and
    the calls that pass packets between workers.  Threads are modelled where a
    lock can be left held; operations run one at a time. *)

From stdpp Require Export base numbers list option.
From Stdlib Require Export ZArith Lia Btauto.

Declare Scope dap_scope.
Delimit Scope dap_scope with dap.
Local Open Scope Z_scope.

(** ** Machine words

    A [w]-bit unsigned integer of the C code is a [Z] in [[0, 2^w)]; [wrap w]
    is the reduction every unsigned operation of that width performs. *)

Definition wrap (w z : Z) : Z := z mod 2 ^ w.

Definition fits (w z : Z) : Prop := 0 <= z < 2 ^ w.

#[global] Instance fits_dec w z : Decision (fits w z).
Proof. unfold fits. apply _. Defined.

(** C's conversion of a comparison to [int]. *)
Abbreviation flag b := (Z.b2z b).

Lemma flag_cases b : flag b = 0 \/ flag b = 1.
Proof. destruct b; auto. Qed.

Lemma flag_fits w b : 0 < w -> fits w (flag b).
Proof.
  intros. unfold fits. pose proof (Z.pow_le_mono_r 2 1 w).
  destruct (flag_cases b) as [-> | ->]; lia.
Qed.

Create HintDb words.
Create Rewrite HintDb words.

Lemma wrap_fits w z : 0 <= w -> fits w (wrap w z).
Proof. intros. apply Z.mod_pos_bound. lia. Qed.

Lemma wrap_id w z : fits w z -> wrap w z = z.
Proof. apply Z.mod_small. Qed.

Lemma wrap_wrap w z : 0 <= w -> wrap w (wrap w z) = wrap w z.
Proof. intros. apply wrap_id, wrap_fits. lia. Qed.

Lemma wrap_add_full w z : 0 <= w -> wrap w (z + 2 ^ w) = wrap w z.
Proof.
  intros. unfold wrap. replace (z + 2 ^ w) with (z + 1 * 2 ^ w) by lia.
  apply Z.mod_add. lia.
Qed.

#[export] Hint Resolve wrap_fits : words.
#[export] Hint Rewrite wrap_wrap using lia : words.

(** [bdestr] splits on every integer comparison of the goal, innermost
    first. *)
Ltac no_if t :=
  lazymatch t with context [if _ then _ else _] => fail | _ => idtac end.
Ltac bdestr1 :=
  match goal with
  | |- context [Z.ltb ?a ?b] => no_if a; no_if b; destruct (Z.ltb_spec a b)
  | |- context [Z.leb ?a ?b] => no_if a; no_if b; destruct (Z.leb_spec a b)
  | |- context [Z.eqb ?a ?b] => no_if a; no_if b; destruct (Z.eqb_spec a b)
  end.
Ltac bdestr := repeat (bdestr1; cbn [Z.b2z andb orb negb]).

(** [lia] after turning divisions and remainders into their defining
    equations. *)
Ltac dlia := unfold wrap, fits in *; Z.div_mod_to_equations; lia.

(** Side conditions [fits w e] of the word lemmas. *)
Ltac word_side :=
  first [ done | apply wrap_fits; lia | apply flag_fits; lia | lia | unfold fits in *; lia ].

(** ** Carries and borrows of fixed-width addition *)

Lemma wrap_small_add w a b : 0 <= w -> fits w a -> fits w b ->
  wrap w (a + b) = if a + b <? 2 ^ w then a + b else a + b - 2 ^ w.
Proof.
  unfold fits, wrap; intros ? Ha Hb. destruct (Z.ltb_spec (a + b) (2 ^ w)).
  - apply Z.mod_small. lia.
  - symmetry. apply Z.mod_unique with (q := 1); lia.
Qed.

Lemma wrap_small_sub w a b : 0 <= w -> fits w a -> fits w b ->
  wrap w (a - b) = if a <? b then a - b + 2 ^ w else a - b.
Proof.
  unfold fits, wrap; intros ? Ha Hb. destruct (Z.ltb_spec a b).
  - symmetry. apply Z.mod_unique with (q := -1); lia.
  - apply Z.mod_small. lia.
Qed.

(** The test [c < a] on [c = a + b] is the carry. *)
Lemma add_carry w a b : 0 <= w -> fits w a -> fits w b ->
  flag (wrap w (a + b) <? a) = flag (2 ^ w <=? a + b).
Proof.
  intros ? Ha Hb. rewrite wrap_small_add by done. unfold fits in *. bdestr; lia.
Qed.

Lemma add_carry_value w a b : 0 <= w -> fits w a -> fits w b ->
  wrap w (a + b) + 2 ^ w * flag (2 ^ w <=? a + b) = a + b.
Proof.
  intros ? Ha Hb. rewrite wrap_small_add by done. unfold fits in *. bdestr; lia.
Qed.

(** The branch-free borrow of the header: the top bit of the average of
    [c = a - b] and [b]. *)
Lemma land_1_mod x : Z.land x 1 = x mod 2.
Proof. change 1 with (Z.ones 1). rewrite Z.land_ones by lia. done. Qed.

Lemma land_land_1 x y : Z.land (Z.land x y) 1 = (x mod 2) * (y mod 2).
Proof.
  replace (Z.land (Z.land x y) 1) with (Z.land (Z.land x 1) (Z.land y 1)).
  - rewrite !land_1_mod. pose proof (Z.mod_pos_bound x 2). pose proof (Z.mod_pos_bound y 2).
    assert (x mod 2 = 0 \/ x mod 2 = 1) as [-> | ->] by lia;
      assert (y mod 2 = 0 \/ y mod 2 = 1) as [-> | ->] by lia; done.
  - apply Z.bits_inj'. intros i ?. rewrite !Z.land_spec. destruct (Z.testbit 1 i); btauto.
Qed.

Lemma half_sum x y :
  Z.land (Z.land x y) 1 + Z.shiftr y 1 + Z.shiftr x 1 = (x + y) / 2.
Proof.
  rewrite land_land_1, !Z.shiftr_div_pow2 by lia. change (2 ^ 1) with 2.
  pose proof (Z.mod_pos_bound x 2). pose proof (Z.mod_pos_bound y 2).
  assert (x mod 2 = 0 \/ x mod 2 = 1) as [Ex | Ex] by lia;
    assert (y mod 2 = 0 \/ y mod 2 = 1) as [Ey | Ey] by lia;
    rewrite Ex, Ey; dlia.
Qed.

(** Limbs: [x = x / 2^k * 2^k + x mod 2^k] with both parts in range. *)
Lemma land_ones_mod k x : 0 <= k -> Z.land x (Z.ones k) = x mod 2 ^ k.
Proof. intros. by apply Z.land_ones. Qed.

Lemma shiftr_div k x : 0 <= k -> Z.shiftr x k = x / 2 ^ k.
Proof. intros. by apply Z.shiftr_div_pow2. Qed.

Lemma shiftl_mul k x : 0 <= k -> Z.shiftl x k = x * 2 ^ k.
Proof. intros. by apply Z.shiftl_mul_pow2. Qed.

Lemma limb_bounds k w x : 0 <= k -> k <= w -> fits w x ->
  fits k (x mod 2 ^ k) /\ fits (w - k) (x / 2 ^ k).
Proof.
  unfold fits. intros ? ? Hx. split; [apply Z.mod_pos_bound; lia|].
  split; [apply Z.div_pos; lia|]. apply Z.div_lt_upper_bound; [lia|].
  rewrite <- Z.pow_add_r by lia. replace (k + (w - k)) with w by lia. lia.
Qed.

Lemma two_limbs B C x y : 0 <= x < B -> 0 <= y < C -> 0 <= x * C + y < B * C.
Proof.
  intros. assert (0 <= x * C) by (apply Z.mul_nonneg_nonneg; lia).
  assert (x * C <= (B - 1) * C) by (apply Z.mul_le_mono_nonneg_r; lia). lia.
Qed.

Lemma limb_product_eq B a1 a0 b1 b0 k0 r0 k1 r1 k2 r2 :
  a0 * b0 = B * k0 + r0 -> a1 * b0 + k0 = B * k1 + r1 -> a0 * b1 + r1 = B * k2 + r2 ->
  (a1 * b1 + k1 + k2) * (B * B) + (r2 * B + r0) = (a1 * B + a0) * (b1 * B + b0).
Proof.
  intros. replace r0 with (a0 * b0 - B * k0) by lia.
  replace r2 with (a0 * b1 + r1 - B * k2) by lia.
  replace r1 with (a1 * b0 + k0 - B * k1) by lia. ring.
Qed.

(** Schoolbook product of two 2-limb numbers, the shape shared by
    [MULT_64_128] and [MULT_128_256].  [B] is the limb base. *)
Lemma limb_product B a1 a0 b1 b0 :
  0 < B -> 0 <= a1 < B -> 0 <= a0 < B -> 0 <= b1 < B -> 0 <= b0 < B ->
  let p0 := a0 * b0 in
  let p1 := a1 * b0 + p0 / B in
  let p2 := a0 * b1 + p1 mod B in
  let h := a1 * b1 + p1 / B + p2 / B in
  let l := (p2 * B) mod (B * B) + p0 mod B in
  (0 <= p0 < B * B /\ 0 <= p1 < B * B /\ 0 <= p2 < B * B /\
   0 <= h < B * B /\ 0 <= l < B * B) /\
  h * (B * B) + l = (a1 * B + a0) * (b1 * B + b0).
Proof.
  intros HB Ha1 Ha0 Hb1 Hb0 p0 p1 p2 h l.
  pose proof (Z.div_mod p0 B ltac:(lia)) as e0. pose proof (Z.mod_pos_bound p0 B HB) as b0'.
  pose proof (Z.div_mod p1 B ltac:(lia)) as e1. pose proof (Z.mod_pos_bound p1 B HB) as b1'.
  pose proof (Z.div_mod p2 B ltac:(lia)) as e2. pose proof (Z.mod_pos_bound p2 B HB) as b2'.
  assert (Hp0 : 0 <= p0 <= (B - 1) * (B - 1)).
  { subst p0; split; [apply Z.mul_nonneg_nonneg; lia|]. apply Z.mul_le_mono_nonneg; lia. }
  assert (Hk0 : 0 <= p0 / B <= B - 1).
  { split; [apply Z.div_pos; lia|].
    assert (p0 / B < B) by (apply Z.div_lt_upper_bound; lia). lia. }
  assert (Hm1 : 0 <= a1 * b0 <= (B - 1) * (B - 1)).
  { split; [apply Z.mul_nonneg_nonneg; lia|]. apply Z.mul_le_mono_nonneg; lia. }
  assert (Hm2 : 0 <= a0 * b1 <= (B - 1) * (B - 1)).
  { split; [apply Z.mul_nonneg_nonneg; lia|]. apply Z.mul_le_mono_nonneg; lia. }
  assert (HBB : (B - 1) * (B - 1) + (B - 1) < B * B) by lia.
  assert (Hp1 : 0 <= p1 < B * B) by (subst p1; lia).
  assert (Hp2 : 0 <= p2 < B * B) by (subst p2; lia).
  assert (El : l = (p2 mod B) * B + p0 mod B).
  { subst l. rewrite Z.mul_mod_distr_r by lia. lia. }
  assert (Hl : 0 <= l < B * B) by (rewrite El; apply two_limbs; lia).
  assert (E : h * (B * B) + l = (a1 * B + a0) * (b1 * B + b0)).
  { rewrite El. subst h. by apply limb_product_eq with (p0 / B) (p1 mod B). }
  assert (0 <= h).
  { subst h. pose proof (Z.div_pos p1 B). pose proof (Z.div_pos p2 B).
    pose proof (Z.mul_nonneg_nonneg a1 b1). lia. }
  assert (h < B * B).
  { apply (Z.mul_lt_mono_pos_r (B * B)); [lia|].
    apply Z.le_lt_trans with ((a1 * B + a0) * (b1 * B + b0)); [lia|].
    pose proof (two_limbs B B a1 a0 Ha1 Ha0). pose proof (two_limbs B B b1 b0 Hb1 Hb0).
    apply Z.mul_lt_mono_nonneg; lia. }
  repeat split; lia.
Qed.

(** [|] of a shifted word and a word below the shift is their sum. *)
Lemma lor_disjoint n a b : 0 <= n -> fits n b -> Z.lor (a * 2 ^ n) b = a * 2 ^ n + b.
Proof.
  intros Hn Hb. assert (Z.land (a * 2 ^ n) b = 0) as E.
  { apply Z.bits_inj'. intros i ?. rewrite Z.land_spec, Z.bits_0, <- shiftl_mul by done.
    rewrite Z.shiftl_spec by done. destruct (Z.ltb_spec i n).
    - by rewrite Z.testbit_neg_r by lia.
    - rewrite <- (wrap_id n b Hb). unfold wrap.
      by rewrite Z.mod_pow2_bits_high, andb_false_r by lia. }
  by rewrite <- Z.lxor_lor, <- Z.add_nocarry_lxor.
Qed.

(** A decidable fact about a small range is a computation. *)
Lemma range_all (P : Z -> bool) n : forallb P (seqZ 0 n) = true ->
  forall x, 0 <= x < n -> P x = true.
Proof.
  intros H x Hx. rewrite forallb_forall in H. apply H.
  apply list_elem_of_In, elem_of_seqZ. lia.
Qed.

(** Three elements at a time. *)
Lemma list_ind3 {A} (P : list A -> Prop) : P [] -> (forall a, P [a]) -> (forall a b, P [a; b]) ->
  (forall a b c l, P l -> P (a :: b :: c :: l)) -> forall l, P l.
Proof.
  intros P0 P1 P2 P3. fix IH 1. intros [|a [|b [|c l]]]; [exact P0 | apply P1 | apply P2 | apply P3, IH].
Qed.

(** ** Byte buffers

    [mem_read] and [mem_write] are [memcpy] out of and into an object: a copy
    that leaves the object's bounds is undefined behaviour, [None]. *)

Definition mem_read {A} (m : list A) (off len : Z) : option (list A) :=
  if (0 <=? off) && (0 <=? len) && (off + len <=? Z.of_nat (length m))
  then Some (take (Z.to_nat len) (drop (Z.to_nat off) m)) else None.

Definition splice {A} (o : nat) (d m : list A) : list A :=
  take o m ++ d ++ drop (o + length d) m.

Definition mem_write {A} (m : list A) (off : Z) (d : list A) : option (list A) :=
  if (0 <=? off) && (off + Z.of_nat (length d) <=? Z.of_nat (length m))
  then Some (splice (Z.to_nat off) d m) else None.

Section Buffers.
Context {A : Type}.
Implicit Types m d : list A.

Lemma mem_read_nat m o n : (o + n <= length m)%nat ->
  mem_read m (Z.of_nat o) (Z.of_nat n) = Some (take n (drop o m)).
Proof.
  intros. unfold mem_read.
  rewrite !(proj2 (Z.leb_le _ _)), !Nat2Z.id by lia. done.
Qed.

Lemma mem_write_nat m o d : (o + length d <= length m)%nat ->
  mem_write m (Z.of_nat o) d = Some (splice o d m).
Proof.
  intros. unfold mem_write.
  rewrite !(proj2 (Z.leb_le _ _)), Nat2Z.id by lia. done.
Qed.

Lemma mem_read_bound m off len r : mem_read m off len = Some r ->
  0 <= off /\ 0 <= len /\ off + len <= Z.of_nat (length m) /\ length r = Z.to_nat len.
Proof.
  unfold mem_read. intros E.
  destruct (Z.leb_spec 0 off), (Z.leb_spec 0 len), (Z.leb_spec (off + len) (Z.of_nat (length m)));
    simplify_eq/=. rewrite length_take, length_drop. lia.
Qed.

Lemma length_splice m o d : (o + length d <= length m)%nat -> length (splice o d m) = length m.
Proof. intros. unfold splice. rewrite !length_app, length_take, length_drop. lia. Qed.

Lemma lookup_splice m o d i : (o + length d <= length m)%nat ->
  splice o d m !! i = if decide (o <= i < o + length d)%nat then d !! (i - o)%nat else m !! i.
Proof.
  intros H. unfold splice. rewrite !lookup_app, length_take. destruct (decide _).
  - rewrite lookup_take_ge by lia. replace (o `min` length m)%nat with o by lia.
    destruct (d !! (i - o)%nat) eqn:E; [done|]. apply lookup_ge_None in E. lia.
  - destruct (decide (i < o)%nat) as [Hi | Hi].
    + rewrite lookup_take_lt by done. destruct (m !! i) eqn:E; [done|].
      apply lookup_ge_None in E. lia.
    + rewrite lookup_take_ge by lia. replace (o `min` length m)%nat with o by lia.
      rewrite (proj2 (lookup_ge_None d _)) by lia. rewrite lookup_drop. f_equal. lia.
Qed.

Lemma splice_nil m o : splice o [] m = m.
Proof. unfold splice. simpl. rewrite Nat.add_0_r. apply take_drop. Qed.

Lemma lookup_sub m o n i :
  take n (drop o m) !! i = if decide (i < n)%nat then m !! (o + i)%nat else None.
Proof.
  destruct (decide _).
  - by rewrite lookup_take_lt, lookup_drop.
  - by rewrite lookup_take_ge by lia.
Qed.

(** The last [n] elements. *)
Definition lastn (n : nat) m : list A := drop (length m - n) m.

Lemma lookup_lastn n m i : lastn n m !! i = m !! (length m - n + i)%nat.
Proof. apply lookup_drop. Qed.

End Buffers.

(** ** Texts

    The characters before the first zero; [None] when there is none. *)
Fixpoint c_text (m : list Z) : option (list Z) :=
  match m with
  | [] => None
  | c :: m => if c =? 0 then Some [] else l ← c_text m; Some (c :: l)
  end.

Lemma c_text_app l m : Forall (λ c, c <> 0) l -> c_text (l ++ 0 :: m) = Some l.
Proof.
  induction 1 as [|c l Hc _ IH]; [done|]. cbn [app c_text]. destruct (Z.eqb_spec c 0); [done|]. by rewrite IH.
Qed.

(** [strndup]: copies up to the first NUL, reading at most [n] bytes. *)
Fixpoint strndup_at (m : list Z) (n : nat) {struct n} : option (list Z) :=
  match n with
  | O => Some []
  | S n =>
    match m with
    | [] => None
    | c :: m => if c =? 0 then Some [] else s ← strndup_at m n; Some (c :: s)
    end
  end.

Lemma strndup_text s : Forall (λ c, c <> 0) s -> strndup_at s (length s) = Some s.
Proof. induction 1 as [|c s Hc _ IH]; [done|]. cbn [length strndup_at]. by rewrite (proj2 (Z.eqb_neq c 0)), IH. Qed.

Lemma strndup_terminated s m n : Forall (λ c, c <> 0) s -> (length s <= n)%nat -> strndup_at (s ++ 0 :: m) n = Some s.
Proof.
  intros H. revert n. induction H as [|c s Hc _ IH]; intros n Hn; [by destruct n|]. cbn [length] in Hn.
  destruct n as [|n]; [lia|]. cbn [app strndup_at]. destruct (Z.eqb_spec c 0); [done|]. by rewrite IH by lia.
Qed.

(** ** Little-endian integers in memory *)

Fixpoint le_bytes (n : nat) (z : Z) : list Z :=
  match n with O => [] | S n => z mod 256 :: le_bytes n (z / 256) end.

Fixpoint le_value (l : list Z) : Z :=
  match l with [] => 0 | b :: l => b + 256 * le_value l end.

(** Load of an [n]-byte integer. *)
Definition mem_le (m : list Z) (off : Z) (n : nat) : option Z :=
  d ← mem_read m off (Z.of_nat n); Some (le_value d).

Lemma length_le_bytes n z : length (le_bytes n z) = n.
Proof. revert z. induction n; intros; simpl; auto. Qed.

Lemma le_bytes_fits n z : Forall (fits 8) (le_bytes n z).
Proof.
  revert z. induction n; intros; constructor; auto. apply (wrap_fits 8). lia.
Qed.

Lemma le_value_bytes n z : le_value (le_bytes n z) = wrap (8 * Z.of_nat n) z.
Proof.
  revert z. induction n as [|n IH]; intros z.
  - symmetry. apply Z.mod_1_r.
  - cbn [le_bytes le_value]. rewrite IH. unfold wrap.
    replace (8 * Z.of_nat (S n)) with (8 + 8 * Z.of_nat n) by lia.
    rewrite Z.pow_add_r, Z.rem_mul_r by lia. done.
Qed.

Lemma le_value_bound l : Forall (fits 8) l -> 0 <= le_value l < 2 ^ (8 * Z.of_nat (length l)).
Proof.
  induction 1 as [|b l Hb _ IH]; [done|]. cbn [le_value length].
  replace (8 * Z.of_nat (S (length l))) with (8 + 8 * Z.of_nat (length l)) by lia.
  rewrite Z.pow_add_r by lia. unfold fits in Hb. change (2 ^ 8) with 256 in *. lia.
Qed.

Lemma le_bytes_value l : Forall (fits 8) l -> le_bytes (length l) (le_value l) = l.
Proof.
  induction 1 as [|b l Hb _ IH]; [done|]. cbn [le_value length le_bytes]. f_equal.
  - rewrite Z.mul_comm, Z.mod_add by lia. apply Z.mod_small. done.
  - rewrite Z.mul_comm, Z.div_add, Z.div_small by (done || lia). by rewrite Z.add_0_l, IH.
Qed.

(** Reading back a field of a buffer laid out as [pre ++ d ++ post]. *)
Lemma mem_read_app {A} (pre d post : list A) :
  mem_read (pre ++ d ++ post) (Z.of_nat (length pre)) (Z.of_nat (length d)) = Some d.
Proof.
  rewrite mem_read_nat by (rewrite !length_app; lia).
  by rewrite drop_app_length, take_app_length.
Qed.

Lemma mem_read_all {A} (l : list A) n : n = Z.of_nat (length l) -> mem_read l 0 n = Some l.
Proof. intros ->. pose proof (mem_read_app [] l []) as H. by rewrite app_nil_r in H. Qed.

Lemma mem_read_prefix {A} (l : list A) n : 0 <= n <= Z.of_nat (length l) ->
  mem_read l 0 n = Some (take (Z.to_nat n) l).
Proof.
  intros. pose proof (mem_read_nat l 0 (Z.to_nat n) ltac:(lia)) as E.
  rewrite Z2Nat.id in E by lia. by rewrite drop_0 in E.
Qed.

Lemma mem_le_app pre n z post : fits (8 * Z.of_nat n) z ->
  mem_le (pre ++ le_bytes n z ++ post) (Z.of_nat (length pre)) n = Some z.
Proof.
  intros Hz. unfold mem_le. rewrite <- (length_le_bytes n z) at 2. rewrite mem_read_app.
  cbn [mbind option_bind]. by rewrite le_value_bytes, wrap_id.
Qed.

Lemma mem_le_Some m off n : 0 <= off -> off + Z.of_nat n <= Z.of_nat (length m) ->
  exists v, mem_le m off n = Some v.
Proof.
  intros. unfold mem_le, mem_read. rewrite !(proj2 (Z.leb_le _ _)) by lia. eauto.
Qed.

Lemma mem_write_app {A} (pre old d post : list A) : length old = length d ->
  mem_write (pre ++ old ++ post) (Z.of_nat (length pre)) d = Some (pre ++ d ++ post).
Proof.
  intros E. rewrite mem_write_nat by (rewrite !length_app; lia). unfold splice.
  rewrite take_app_length, <- E. do 2 f_equal.
  by rewrite <- drop_drop, !drop_app_length.
Qed.

Lemma mem_le_fits m off k v : Forall (fits 8) m -> mem_le m off k = Some v -> fits (8 * Z.of_nat k) v.
Proof.
  intros Hm. unfold mem_le. destruct (mem_read m off (Z.of_nat k)) as [d|] eqn:E; [|done]. intros [= <-].
  pose proof (mem_read_bound _ _ _ _ E) as (_ & _ & _ & L). rewrite Nat2Z.id in L. rewrite <- L.
  apply le_value_bound. unfold mem_read in E. case_match; [|done]. injection E as <-.
  by apply Forall_take, Forall_drop.
Qed.

(** What is read inside a block is read the same inside a larger one. *)
Lemma mem_read_inside {A} (pre m post : list A) off n d o : mem_read m off n = Some d ->
  o = Z.of_nat (length pre) + off -> mem_read (pre ++ m ++ post) o n = Some d.
Proof.
  intros E ->. pose proof (mem_read_bound _ _ _ _ E) as (Ho & Hn & Hle & _).
  unfold mem_read in *. rewrite !length_app. rewrite !(proj2 (Z.leb_le _ _)) in E by lia.
  rewrite !(proj2 (Z.leb_le _ _)) by lia. cbn [andb] in *. rewrite <- E. f_equal.
  replace (Z.to_nat (Z.of_nat (length pre) + off)) with (length pre + Z.to_nat off)%nat by lia.
  rewrite <- drop_drop, drop_app_length. rewrite drop_app_le, take_app_le; [done | rewrite length_drop; lia | lia].
Qed.

Lemma mem_le_inside pre m post off n v o : mem_le m off n = Some v ->
  o = Z.of_nat (length pre) + off -> mem_le (pre ++ m ++ post) o n = Some v.
Proof.
  intros E Ho. unfold mem_le in *. destruct (mem_read m off (Z.of_nat n)) as [d|] eqn:Ed; [|done].
  by rewrite (mem_read_inside pre m post off _ d o Ed Ho).
Qed.

(** ** Packed headers: integer fields of given widths, one after the other *)

Definition fields (l : list (nat * Z)) : list Z := concat (map (λ f, le_bytes f.1 f.2) l).

Fixpoint fields_len (l : list (nat * Z)) : nat :=
  match l with [] => O | f :: l => (f.1 + fields_len l)%nat end.

Lemma length_fields l : length (fields l) = fields_len l.
Proof.
  induction l as [|f l IH]; [done|]. change (fields (f :: l)) with (le_bytes f.1 f.2 ++ fields l).
  by rewrite length_app, length_le_bytes, IH.
Qed.

Lemma fields_app l l' : fields (l ++ l') = fields l ++ fields l'.
Proof. unfold fields. by rewrite map_app, concat_app. Qed.

Lemma fields_fits l : Forall (fits 8) (fields l).
Proof.
  induction l as [|f l IH]; [constructor|]. change (fields (f :: l)) with (le_bytes f.1 f.2 ++ fields l).
  apply Forall_app. split; [apply le_bytes_fits | done].
Qed.

Lemma mem_le_field l1 n z l2 post : fits (8 * Z.of_nat n) z ->
  mem_le (fields (l1 ++ (n, z) :: l2) ++ post) (Z.of_nat (fields_len l1)) n = Some z.
Proof.
  intros. rewrite fields_app. change (fields ((n, z) :: l2)) with (le_bytes n z ++ fields l2).
  rewrite <- !app_assoc, <- length_fields. by apply mem_le_app.
Qed.

Lemma mem_write_field l1 n z z' l2 post :
  mem_write (fields (l1 ++ (n, z) :: l2) ++ post) (Z.of_nat (fields_len l1)) (le_bytes n z')
  = Some (fields (l1 ++ (n, z') :: l2) ++ post).
Proof.
  rewrite !fields_app. change (fields ((n, z) :: l2)) with (le_bytes n z ++ fields l2).
  change (fields ((n, z') :: l2)) with (le_bytes n z' ++ fields l2).
  rewrite <- !app_assoc, <- length_fields. apply mem_write_app. by rewrite !length_le_bytes.
Qed.
