(* ===== verification/UintOps.v ===== *)
(** * 128-bit and 256-bit words in both builds (core/include/dap_math_ops.h)

    The header has two builds selected by [DAP_GLOBAL_IS_INT128]: [uint128_t]
    is the compiler's [unsigned __int128] ([Module Native]) or a pair of
    64-bit halves ([Module Portable]).  Every function whose body the switch
    changes is modelled once per build, with the same name.  [Uint128Ops] is
    the interface the build-independent code of the header is written
    against and [Uint128Laws] what it relies on; both builds are instances.

    An output parameter is part of the result, an [int] overflow flag comes
    first.  Undefined behaviour and failed assertions (a shift by a negative
    count or by the whole width, a division by zero) are [None]. *)

From S2P Require Import Prelude.
Local Open Scope Z_scope.

(** [uint256_t] and [uint512_t]: two halves of the next smaller width. *)
Record uint256 (T : Type) := U256 { hi : T; lo : T }.
Arguments U256 {T} _ _.
Arguments hi {T} _.
Arguments lo {T} _.

Record uint512 (T : Type) := U512 { hi512 : uint256 T; lo512 : uint256 T }.
Arguments U512 {T} _ _.
Arguments hi512 {T} _.
Arguments lo512 {T} _.

(** ** Functions on [uint64_t], the same in both builds *)

Definition SUM_64_64 (a b : Z) : Z * Z :=
  let c := wrap 64 (a + b) in (flag (c <? a), c).

Definition OVERFLOW_SUM_64_64 (a b : Z) : Z := flag (wrap 64 (a + b) <? a).

Definition OVERFLOW_MULT_64_64 (a b : Z) : option Z :=
  if b =? 0 then None else Some (flag ((2 ^ 64 - 1) / b <? a)).

Definition MULT_64_64 (a b : Z) : option (Z * Z) :=
  f ← OVERFLOW_MULT_64_64 a b; Some (f, wrap 64 (a * b)).

(** One halving step of [nlz64]: with [I] a power-of-two test of the high
    part, add [I] to the count and shift the word left by it. *)
Definition nlz64 (N : Z) : Z :=
  let I := 2 ^ 64 - 1 - N in
  let C := Z.shiftr (Z.land (Z.lxor I (wrap 64 (I + 1))) I) 63 in
  let I := wrap 64 (Z.shiftr N 32 + 0xffffffff) in
  let I := Z.shiftr (Z.lxor (Z.land I 0x100000000) 0x100000000) 27 in
  let C := C + I in let N := wrap 64 (Z.shiftl N I) in
  let I := wrap 64 (Z.shiftr N 48 + 0xffff) in
  let I := Z.shiftr (Z.lxor (Z.land I 0x10000) 0x10000) 12 in
  let C := C + I in let N := wrap 64 (Z.shiftl N I) in
  let I := wrap 64 (Z.shiftr N 56 + 0xff) in
  let I := Z.shiftr (Z.lxor (Z.land I 0x100) 0x100) 5 in
  let C := C + I in let N := wrap 64 (Z.shiftl N I) in
  let I := wrap 64 (Z.shiftr N 60 + 0xf) in
  let I := Z.shiftr (Z.lxor (Z.land I 0x10) 0x10) 2 in
  let C := C + I in let N := wrap 64 (Z.shiftl N I) in
  let I := wrap 64 (Z.shiftr N 62 + 3) in
  let I := Z.shiftr (Z.lxor (Z.land I 4) 4) 1 in
  let C := C + I in let N := wrap 64 (Z.shiftl N I) in
  C + Z.lxor (Z.shiftr N 63) 1.

(** ** The build with a native 128-bit integer *)

Module Native.

Definition GET_128_FROM_64 (n : Z) : Z := n.

Definition GET_128_FROM_64_64 (hi lo : Z) : Z :=
  wrap 128 (lo + wrap 128 (Z.shiftl hi 64)).

Definition EQUAL_128 (a b : Z) : bool := a =? b.

Definition EQUAL_256 (a b : uint256 Z) : bool :=
  (lo a =? lo b) && (hi a =? hi b).

Definition AND_128 (a b : Z) : Z := Z.land a b.

Definition OR_128 (a b : Z) : Z := Z.lor a b.

Definition LEFT_SHIFT_128 (a n : Z) : option Z :=
  if (0 <=? n) && (n <? 128) then Some (wrap 128 (Z.shiftl a n)) else None.

Definition RIGHT_SHIFT_128 (a n : Z) : option Z :=
  if (0 <=? n) && (n <? 128) then Some (Z.shiftr a n) else None.

Definition INCR_128 (a : Z) : Z := wrap 128 (a + 1).

Definition DECR_128 (a : Z) : Z := wrap 128 (a - 1).

Definition INCR_256 (a : uint256 Z) : uint256 Z :=
  let l := wrap 128 (lo a + 1) in
  U256 (if l =? 0 then wrap 128 (hi a + 1) else hi a) l.

Definition DECR_256 (a : uint256 Z) : uint256 Z :=
  U256 (if lo a =? 0 then wrap 128 (hi a - 1) else hi a) (wrap 128 (lo a - 1)).

Definition ADD_64_INTO_128 (a c : Z) : Z * Z :=
  let c' := wrap 128 (c + a) in (flag (c' <? c), c').

Definition SUM_128_128 (a b : Z) : Z * Z :=
  let c := wrap 128 (a + b) in (flag (c <? a), c).

Definition SUBTRACT_128_128 (a b : Z) : Z * Z :=
  (flag (a <? b), wrap 128 (a - b)).

Definition ADD_128_INTO_256 (a : Z) (c : uint256 Z) : Z * uint256 Z :=
  let '(overflow_flag, temp) := SUM_128_128 a (lo c) in
  let '(overflow_flag, temp') := SUM_128_128 overflow_flag (hi c) in
  (overflow_flag, U256 temp' temp).

Definition SUM_256_256 (a b : uint256 Z) : Z * uint256 Z :=
  let '(carry_in_128, c_lo) := SUM_128_128 (lo a) (lo b) in
  let '(overflow_flag, intermediate_value) := SUM_128_128 carry_in_128 (hi a) in
  let '(overflow_flag_intermediate, c_hi) := SUM_128_128 intermediate_value (hi b) in
  (Z.lor overflow_flag overflow_flag_intermediate, U256 c_hi c_lo).

Definition SUBTRACT_256_256 (a b : uint256 Z) : Z * uint256 Z :=
  let c_lo := wrap 128 (lo a - lo b) in
  let carry := wrap 64 (Z.shiftr
    (wrap 128 (Z.land (Z.land c_lo (lo b)) 1 + Z.shiftr (lo b) 1 + Z.shiftr c_lo 1)) 127) in
  let c_hi := wrap 128 (hi a - wrap 128 (hi b + carry)) in
  (carry, U256 c_hi c_lo).

Definition ADD_256_INTO_512 (a : uint256 Z) (c : uint512 Z) : Z * uint512 Z :=
  let '(overflow_flag, c_lo) := SUM_256_256 a (lo512 c) in
  let '(overflow_flag, c_hi) := SUM_256_256 (U256 0 overflow_flag) (hi512 c) in
  (overflow_flag, U512 c_hi c_lo).

Definition MULT_64_128 (a b : Z) : Z := wrap 128 (a * b).

Definition MULT_128_256 (a b : Z) : uint256 Z :=
  let a_hi := Z.land a 0xffffffffffffffff in
  let b_hi := Z.land b 0xffffffffffffffff in
  let prod_hi := wrap 128 (a_hi * b_hi) in
  let w3 := Z.land prod_hi 0xffffffffffffffff in
  let prod_hi_shift_right := Z.shiftr prod_hi 64 in
  let a := Z.shiftr a 64 in
  let prod_hi := wrap 128 (wrap 128 (a * b_hi) + prod_hi_shift_right) in
  let prod_hi_shift_right := Z.land prod_hi 0xffffffffffffffff in
  let w1 := wrap 64 (Z.shiftr prod_hi 64) in
  let b := Z.shiftr b 64 in
  let prod_hi := wrap 128 (wrap 128 (a_hi * b) + prod_hi_shift_right) in
  let prod_hi_shift_right := Z.shiftr prod_hi 64 in
  U256 (wrap 128 (wrap 128 (wrap 128 (a * b) + w1) + prod_hi_shift_right))
       (wrap 128 (wrap 128 (Z.shiftl prod_hi 64) + w3)).

Definition MULT_128_128 (a b : Z) : option (Z * Z) :=
  if b =? 0 then None
  else Some (flag ((2 ^ 128 - 1) / b <? a), wrap 128 (a * b)).

Definition compare128 (a b : Z) : Z := flag (b <? a) - flag (a <? b).

Definition nlz128 (N : Z) : Z :=
  if Z.shiftr N 64 =? 0 then nlz64 (wrap 64 N) + 64
  else nlz64 (wrap 64 (Z.shiftr N 64)).

Definition DIV_128 (a b : Z) : option Z :=
  if b =? 0 then None else Some (a / b).

End Native.

(** ** The portable build: two 64-bit halves *)

Module Portable.

Record uint128 := U128 { lo64 : Z; hi64 : Z }.

Definition uint128_0 : uint128 := U128 0 0.

Definition uint128_1 : uint128 := U128 1 0.

Definition GET_128_FROM_64 (n : Z) : uint128 := U128 n 0.

Definition GET_128_FROM_64_64 (hi lo : Z) : uint128 := U128 lo hi.

Definition EQUAL_128 (a b : uint128) : bool :=
  (lo64 a =? lo64 b) && (hi64 a =? hi64 b).

Definition EQUAL_256 (a b : uint256 uint128) : bool :=
  (lo64 (lo a) =? lo64 (lo b)) && (hi64 (lo a) =? hi64 (lo b)) &&
  (lo64 (hi a) =? lo64 (hi b)) && (hi64 (hi a) =? hi64 (hi b)).

Definition AND_128 (a b : uint128) : uint128 :=
  U128 (Z.land (lo64 a) (lo64 b)) (Z.land (hi64 a) (hi64 b)).

Definition OR_128 (a b : uint128) : uint128 :=
  U128 (Z.lor (lo64 a) (lo64 b)) (Z.lor (hi64 a) (hi64 b)).

(** The source recurses on [n - 64] while [n >= 64]; with the asserted
    [n <= 128] two recursive calls suffice. *)
Fixpoint LEFT_SHIFT_128_rec (fuel : nat) (a : uint128) (n : Z) : option uint128 :=
  if 128 <? n then None
  else if 64 <=? n then
    match fuel with
    | O => None
    | S fuel => LEFT_SHIFT_128_rec fuel (U128 0 (lo64 a)) (n - 64)
    end
  else if n =? 0 then Some (U128 (lo64 a) (hi64 a))
  else if n <? 0 then None
  else Some (U128 (wrap 64 (Z.shiftl (lo64 a) n))
                  (Z.lor (wrap 64 (Z.shiftl (hi64 a) n)) (Z.shiftr (lo64 a) (64 - n)))).

Definition LEFT_SHIFT_128 : uint128 -> Z -> option uint128 := LEFT_SHIFT_128_rec 2.

Fixpoint RIGHT_SHIFT_128_rec (fuel : nat) (a : uint128) (n : Z) : option uint128 :=
  if 128 <? n then None
  else if 64 <=? n then
    match fuel with
    | O => None
    | S fuel => RIGHT_SHIFT_128_rec fuel (U128 (hi64 a) 0) (n - 64)
    end
  else if n =? 0 then Some (U128 (lo64 a) (hi64 a))
  else if n <? 0 then None
  else Some (U128 (Z.lor (Z.shiftr (lo64 a) n) (wrap 64 (Z.shiftl (hi64 a) (64 - n))))
                  (Z.shiftr (hi64 a) n)).

Definition RIGHT_SHIFT_128 : uint128 -> Z -> option uint128 := RIGHT_SHIFT_128_rec 2.

Definition INCR_128 (a : uint128) : uint128 :=
  let l := wrap 64 (lo64 a + 1) in
  U128 l (if l =? 0 then wrap 64 (hi64 a + 1) else hi64 a).

Definition DECR_128 (a : uint128) : uint128 :=
  U128 (wrap 64 (lo64 a - 1)) (if lo64 a =? 0 then wrap 64 (hi64 a - 1) else hi64 a).

Definition INCR_256 (a : uint256 uint128) : uint256 uint128 :=
  let l := INCR_128 (lo a) in
  U256 (if EQUAL_128 l uint128_0 then INCR_128 (hi a) else hi a) l.

Definition DECR_256 (a : uint256 uint128) : uint256 uint128 :=
  U256 (if EQUAL_128 (lo a) uint128_0 then DECR_128 (hi a) else hi a) (DECR_128 (lo a)).

Definition ADD_64_INTO_128 (a : Z) (c : uint128) : Z * uint128 :=
  let '(overflow_64, c_lo) := SUM_64_64 a (lo64 c) in
  let '(overflow_flag, c_hi) := SUM_64_64 overflow_64 (hi64 c) in
  (overflow_flag, U128 c_lo c_hi).

Definition SUM_128_128 (a b : uint128) : Z * uint128 :=
  let '(carry_in_64, c_lo) := SUM_64_64 (lo64 a) (lo64 b) in
  let '(overflow_flag, intermediate_value) := SUM_64_64 carry_in_64 (hi64 a) in
  let '(overflow_flag_intermediate, c_hi) := SUM_64_64 intermediate_value (hi64 b) in
  (Z.lor overflow_flag overflow_flag_intermediate, U128 c_lo c_hi).

Definition SUBTRACT_128_128 (a b : uint128) : Z * uint128 :=
  let c_lo := wrap 64 (lo64 a - lo64 b) in
  let carry := Z.shiftr
    (wrap 64 (Z.land (Z.land c_lo (lo64 b)) 1 + Z.shiftr (lo64 b) 1 + Z.shiftr c_lo 1)) 63 in
  let c_hi := wrap 64 (hi64 a - wrap 64 (hi64 b + carry)) in
  (carry, U128 c_lo c_hi).

Definition ADD_128_INTO_256 (a : uint128) (c : uint256 uint128) : Z * uint256 uint128 :=
  let '(overflow_flag, temp) := SUM_128_128 a (lo c) in
  let '(overflow_flag, temp') := SUM_128_128 (U128 overflow_flag 0) (hi c) in
  (overflow_flag, U256 temp' temp).

Definition SUM_256_256 (a b : uint256 uint128) : Z * uint256 uint128 :=
  let '(overflow_flag, tmp_lo) := SUM_128_128 (lo a) (lo b) in
  let carry_in_128 := U128 overflow_flag 0 in
  let '(overflow_flag, intermediate_value) := SUM_128_128 carry_in_128 (hi a) in
  let '(overflow_flag_bis, tmp_hi) := SUM_128_128 intermediate_value (hi b) in
  (Z.lor overflow_flag overflow_flag_bis, U256 tmp_hi tmp_lo).

(** One limb of the borrow chain of [SUBTRACT_256_256]: subtract the incoming
    borrow from the limb [x], then the limb [y], and report the borrow of
    either. *)
Definition sub_limb (borrow x y : Z) : Z * Z :=
  let t := wrap 64 (x - borrow) in
  let borrow := flag (x <? t) in
  let r := wrap 64 (t - y) in
  (Z.lor borrow (flag (t <? r)), r).

Definition SUBTRACT_256_256 (a b : uint256 uint128) : Z * uint256 uint128 :=
  let t := lo64 (lo a) in
  let r0 := wrap 64 (t - lo64 (lo b)) in
  let borrow := flag (t <? r0) in
  let '(borrow, r1) := sub_limb borrow (hi64 (lo a)) (hi64 (lo b)) in
  let '(borrow, r2) := sub_limb borrow (lo64 (hi a)) (lo64 (hi b)) in
  let '(borrow, r3) := sub_limb borrow (hi64 (hi a)) (hi64 (hi b)) in
  (borrow, U256 (U128 r2 r3) (U128 r0 r1)).

Definition ADD_256_INTO_512 (a : uint256 uint128) (c : uint512 uint128)
    : Z * uint512 uint128 :=
  let '(overflow_flag, c_lo) := SUM_256_256 a (lo512 c) in
  let '(overflow_flag, c_hi) :=
    SUM_256_256 (U256 uint128_0 (U128 overflow_flag 0)) (hi512 c) in
  (overflow_flag, U512 c_hi c_lo).

Definition MULT_64_128 (a b : Z) : uint128 :=
  let a_hi := Z.land a 0xffffffff in
  let b_hi := Z.land b 0xffffffff in
  let prod_hi := wrap 64 (a_hi * b_hi) in
  let w3 := Z.land prod_hi 0xffffffff in
  let prod_hi_shift_right := Z.shiftr prod_hi 32 in
  let a := Z.shiftr a 32 in
  let prod_hi := wrap 64 (wrap 64 (a * b_hi) + prod_hi_shift_right) in
  let prod_hi_shift_right := Z.land prod_hi 0xffffffff in
  let w1 := Z.shiftr prod_hi 32 in
  let b := Z.shiftr b 32 in
  let prod_hi := wrap 64 (wrap 64 (a_hi * b) + prod_hi_shift_right) in
  let prod_hi_shift_right := Z.shiftr prod_hi 32 in
  U128 (wrap 64 (wrap 64 (Z.shiftl prod_hi 32) + w3))
       (wrap 64 (wrap 64 (wrap 64 (a * b) + w1) + prod_hi_shift_right)).

(** Adding a cross product at offset 64 bits, with both carry tests. *)
Definition add_cross (c : uint256 uint128) (cross_product : uint128) : uint256 uint128 :=
  let lo_hi := wrap 64 (hi64 (lo c) + lo64 cross_product) in
  let c_hi := if lo_hi <? lo64 cross_product then INCR_128 (hi c) else hi c in
  let hi_lo := wrap 64 (lo64 c_hi + hi64 cross_product) in
  let hi_hi := if hi_lo <? hi64 cross_product then wrap 64 (hi64 c_hi + 1) else hi64 c_hi in
  U256 (U128 hi_lo hi_hi) (U128 (lo64 (lo c)) lo_hi).

Definition MULT_128_256 (a b : uint128) : uint256 uint128 :=
  let c := U256 (MULT_64_128 (hi64 a) (hi64 b)) (MULT_64_128 (lo64 a) (lo64 b)) in
  let c := add_cross c (MULT_64_128 (hi64 a) (lo64 b)) in
  add_cross c (MULT_64_128 (lo64 a) (hi64 b)).

Definition MULT_128_128 (a b : uint128) : Z * uint128 :=
  let full_product_256 := MULT_128_256 a b in
  let equal_flag := EQUAL_128 (hi full_product_256) uint128_0 in
  (if negb equal_flag then 1 else 0, lo full_product_256).

Definition compare128 (a b : uint128) : Z :=
  flag ((hi64 b <? hi64 a) || ((hi64 a =? hi64 b) && (lo64 b <? lo64 a))) -
  flag ((hi64 a <? hi64 b) || ((hi64 a =? hi64 b) && (lo64 a <? lo64 b))).

Definition nlz128 (N : uint128) : Z :=
  if hi64 N =? 0 then nlz64 (lo64 N) + 64 else nlz64 (hi64 N).

Definition fls128 (n : uint128) : Z :=
  if negb (hi64 n =? 0) then 127 - nlz64 (hi64 n) else 63 - nlz64 (lo64 n).

(** Body of the [for (i = 0; i <= l_shift; ++i)] loop, run [n] times. *)
Fixpoint divmod_loop_128 (n : nat) (a_dividend l_denominator l_quotient : uint128)
    : option (uint128 * uint128) :=
  match n with
  | O => Some (l_quotient, a_dividend)
  | S n =>
    l_quotient ← LEFT_SHIFT_128 l_quotient 1;
    let '(a_dividend, l_quotient) :=
      if 0 <=? compare128 a_dividend l_denominator
      then (snd (SUBTRACT_128_128 a_dividend l_denominator), OR_128 l_quotient uint128_1)
      else (a_dividend, l_quotient) in
    l_denominator ← RIGHT_SHIFT_128 l_denominator 1;
    divmod_loop_128 n a_dividend l_denominator l_quotient
  end.

Definition divmod_impl_128 (a_dividend a_divisor : uint128) : option (uint128 * uint128) :=
  if compare128 a_divisor uint128_0 =? 0 then None
  else if compare128 a_divisor a_dividend =? 1 then Some (uint128_0, a_dividend)
  else if compare128 a_divisor a_dividend =? 0 then Some (uint128_1, uint128_0)
  else
    let l_shift := fls128 a_dividend - fls128 a_divisor in
    l_denominator ← LEFT_SHIFT_128 a_divisor l_shift;
    divmod_loop_128 (Z.to_nat (l_shift + 1)) a_dividend l_denominator uint128_0.

Definition DIV_128 (a b : uint128) : option uint128 :=
  '(l_ret, _) ← divmod_impl_128 a b; Some l_ret.

End Portable.
