(* ===== verification/UintLaws.v ===== *)
(** * What both builds of the 128-bit layer promise

    [Uint128Ops] collects the operations of dap_math_ops.h that the switch
    [DAP_GLOBAL_IS_INT128] changes and that build-independent code calls;
    [Uint128Laws] states their meaning through the value [val128] of a word.
    The instances [native_laws] and [portable_laws] discharge it for
    [Native] and [Portable]; every theorem of Uint256.v is proved from the
    class alone and so holds in both builds. *)

From S2P Require Import Prelude UintOps.
Local Open Scope Z_scope.

Class Uint128Ops (T : Type) := {
  val128 : T -> Z;
  wf128 : T -> Prop;
  uint128_0 : T;
  uint128_1 : T;
  GET_128_FROM_64 : Z -> T;
  to_u64 : T -> Z;                       (* (uint64_t)a, resp. a.lo *)
  EQUAL_128 : T -> T -> bool;
  AND_128 : T -> T -> T;
  OR_128 : T -> T -> T;
  LEFT_SHIFT_128 : T -> Z -> option T;
  RIGHT_SHIFT_128 : T -> Z -> option T;
  SUM_128_128 : T -> T -> Z * T;
  compare128 : T -> T -> Z;
  nlz128 : T -> Z;
  EQUAL_256 : uint256 T -> uint256 T -> bool;
  SUM_256_256 : uint256 T -> uint256 T -> Z * uint256 T;
  SUBTRACT_256_256 : uint256 T -> uint256 T -> Z * uint256 T;
  MULT_128_256 : T -> T -> uint256 T;
}.

Definition val256 `{Uint128Ops T} (x : uint256 T) : Z := val128 (hi x) * 2 ^ 128 + val128 (lo x).
Definition wf256 `{Uint128Ops T} (x : uint256 T) : Prop := wf128 (hi x) /\ wf128 (lo x).

(** The sign of a comparison, as [compare128] and [compare256] return it. *)
Definition cmp_sign (x y : Z) : Z := flag (y <? x) - flag (x <? y).

(** Number of leading zero bits of a [w]-bit value. *)
Definition nlz_spec (w x : Z) : Z := if x =? 0 then w else w - 1 - Z.log2 x.

Class Uint128Laws (T : Type) `{Uint128Ops T} := {
  val128_fits x : wf128 x -> fits 128 (val128 x);
  val128_inj x y : wf128 x -> wf128 y -> val128 x = val128 y -> x = y;
  uint128_0_spec : wf128 uint128_0 /\ val128 uint128_0 = 0;
  uint128_1_spec : wf128 uint128_1 /\ val128 uint128_1 = 1;
  GET_128_FROM_64_spec n : fits 64 n ->
    wf128 (GET_128_FROM_64 n) /\ val128 (GET_128_FROM_64 n) = n;
  to_u64_spec x : wf128 x -> to_u64 x = wrap 64 (val128 x);
  EQUAL_128_spec x y : wf128 x -> wf128 y -> EQUAL_128 x y = (val128 x =? val128 y);
  AND_128_spec x y : wf128 x -> wf128 y ->
    wf128 (AND_128 x y) /\ val128 (AND_128 x y) = Z.land (val128 x) (val128 y);
  OR_128_spec x y : wf128 x -> wf128 y ->
    wf128 (OR_128 x y) /\ val128 (OR_128 x y) = Z.lor (val128 x) (val128 y);
  LEFT_SHIFT_128_spec x n : wf128 x -> 0 <= n < 128 ->
    exists r, LEFT_SHIFT_128 x n = Some r /\ wf128 r /\
              val128 r = wrap 128 (val128 x * 2 ^ n);
  RIGHT_SHIFT_128_spec x n : wf128 x -> 0 <= n < 128 ->
    exists r, RIGHT_SHIFT_128 x n = Some r /\ wf128 r /\ val128 r = val128 x / 2 ^ n;
  SUM_128_128_spec x y : wf128 x -> wf128 y ->
    exists r, SUM_128_128 x y = (flag (2 ^ 128 <=? val128 x + val128 y), r) /\
              wf128 r /\ val128 r = wrap 128 (val128 x + val128 y);
  compare128_spec x y : wf128 x -> wf128 y ->
    compare128 x y = cmp_sign (val128 x) (val128 y);
  nlz128_spec x : wf128 x -> nlz128 x = nlz_spec 128 (val128 x);
  EQUAL_256_spec x y : wf256 x -> wf256 y -> EQUAL_256 x y = (val256 x =? val256 y);
  SUM_256_256_spec x y : wf256 x -> wf256 y ->
    exists r, SUM_256_256 x y = (flag (2 ^ 256 <=? val256 x + val256 y), r) /\
              wf256 r /\ val256 r = wrap 256 (val256 x + val256 y);
  SUBTRACT_256_256_spec x y : wf256 x -> wf256 y ->
    exists f r, SUBTRACT_256_256 x y = (f, r) /\
                wf256 r /\ val256 r = wrap 256 (val256 x - val256 y);
  MULT_128_256_spec x y : wf128 x -> wf128 y ->
    wf256 (MULT_128_256 x y) /\ val256 (MULT_128_256 x y) = val128 x * val128 y;
}.

(** ** [nlz64] counts leading zeros *)

Lemma land_pow2 y k : 0 <= k -> Z.land y (2 ^ k) = (y / 2 ^ k) mod 2 * 2 ^ k.
Proof.
  intros. rewrite <- land_1_mod, <- shiftr_div, <- shiftl_mul by done.
  apply Z.bits_inj'. intros i ?.
  rewrite Z.land_spec, Z.shiftl_spec, Z.land_spec by done.
  rewrite Z.pow2_bits_eqb by done.
  destruct (Z.eqb_spec k i) as [-> | ?].
  - by rewrite Z.sub_diag, Z.shiftr_spec, Z.add_0_l.
  - destruct (Z.ltb_spec (i - k) 0).
    + rewrite (Z.testbit_neg_r 1) by lia. by rewrite !andb_false_r.
    + change 1 with (2 ^ 0). rewrite Z.pow2_bits_eqb by lia.
      destruct (Z.eqb_spec 0 (i - k)); [lia | by rewrite !andb_false_r].
Qed.

Definition nlz_shift (sh m p s N : Z) : Z :=
  Z.shiftr (Z.lxor (Z.land (wrap 64 (Z.shiftr N sh + m)) p) p) s.

Definition nlz_step (sh m p s : Z) (CN : Z * Z) : Z * Z :=
  let I := nlz_shift sh m p s CN.2 in (CN.1 + I, wrap 64 (Z.shiftl CN.2 I)).

Lemma nlz_shift_spec k s N : 0 < k < 63 -> 0 <= s -> 2 ^ k / 2 ^ s = k -> fits 64 N ->
  nlz_shift (64 - k) (2 ^ k - 1) (2 ^ k) s N = if N <? 2 ^ (64 - k) then k else 0.
Proof.
  intros Hk Hs Hks HN. unfold nlz_shift. rewrite (shiftr_div (64 - k)) by lia.
  destruct (limb_bounds (64 - k) 64 N ltac:(lia) ltac:(lia) HN) as [_ Hx].
  replace (64 - (64 - k)) with k in Hx by lia.
  assert (2 ^ k <= 2 ^ 62) by (apply Z.pow_le_mono_r; lia).
  assert (0 < 2 ^ k) by lia.
  rewrite wrap_id by (unfold fits in *; lia). rewrite land_pow2 by lia.
  destruct (Z.ltb_spec N (2 ^ (64 - k))).
  - rewrite (Z.div_small N) by (unfold fits in *; lia).
    rewrite (Z.div_small (0 + _)) by lia.
    rewrite Z.mod_0_l, Z.mul_0_l, Z.lxor_0_l, shiftr_div by lia. done.
  - assert (1 <= N / 2 ^ (64 - k)) by (apply Z.div_le_lower_bound; lia).
    replace ((N / 2 ^ (64 - k) + (2 ^ k - 1)) / 2 ^ k) with 1.
    + rewrite Z.mul_1_l, Z.lxor_nilpotent. apply Z.shiftr_0_l.
    + apply Z.div_unique with (N / 2 ^ (64 - k) - 1); unfold fits in *; lia.
Qed.

(** One step keeps [count + leading zeros] and doubles the known leading part. *)
Lemma nlz_step_spec k s C N : 0 < k < 63 -> 2 * k <= 64 -> 0 <= s -> 2 ^ k / 2 ^ s = k ->
  2 ^ (64 - 2 * k) <= N < 2 ^ 64 ->
  exists C' N', nlz_step (64 - k) (2 ^ k - 1) (2 ^ k) s (C, N) = (C', N') /\ 2 ^ (64 - k) <= N' < 2 ^ 64 /\
    C' + nlz_spec 64 N' = C + nlz_spec 64 N.
Proof.
  intros Hk Hk2 Hs Hks HN. pose proof (Z.pow_pos_nonneg 2 (64 - 2 * k)).
  unfold nlz_step, nlz_spec; cbn [fst snd].
  rewrite nlz_shift_spec by (unfold fits; lia).
  destruct (Z.ltb_spec N (2 ^ (64 - k))) as [Hlt | Hge].
  - assert (2 ^ 64 = 2 ^ (64 - k) * 2 ^ k) as E by (rewrite <- Z.pow_add_r by lia; f_equal; lia).
    assert (2 ^ (64 - k) = 2 ^ (64 - 2 * k) * 2 ^ k) as E'
        by (rewrite <- Z.pow_add_r by lia; f_equal; lia).
    assert (0 < 2 ^ k) by (apply Z.pow_pos_nonneg; lia).
    assert (Hn : 2 ^ (64 - k) <= N * 2 ^ k < 2 ^ 64).
    { rewrite E, E'. split; [apply Z.mul_le_mono_nonneg_r; lia | apply Z.mul_lt_mono_pos_r; lia]. }
    rewrite shiftl_mul, wrap_id by (unfold fits; lia).
    do 2 eexists; split; [done | split; [done|]].
    rewrite (proj2 (Z.eqb_neq _ _)), (proj2 (Z.eqb_neq N 0)) by lia.
    rewrite Z.log2_mul_pow2 by lia. lia.
  - rewrite Z.shiftl_0_r, wrap_id by (unfold fits; lia).
    do 2 eexists; split; [done | split; [lia|]]. lia.
Qed.

Lemma nlz_init N : 0 < N < 2 ^ 64 ->
  let I := 2 ^ 64 - 1 - N in
  Z.shiftr (Z.land (Z.lxor I (wrap 64 (I + 1))) I) 63 = 0.
Proof.
  intros HN I. rewrite wrap_id by (subst I; unfold fits; lia).
  rewrite Z.shiftr_land, Z.shiftr_lxor, !shiftr_div by lia.
  assert (0 <= I / 2 ^ 63 < 2) by (subst I; split; [apply Z.div_pos | apply Z.div_lt_upper_bound]; lia).
  assert (I / 2 ^ 63 <= (I + 1) / 2 ^ 63 < 2).
  { split; [apply Z.div_le_mono | apply Z.div_lt_upper_bound]; subst I; lia. }
  assert (I / 2 ^ 63 = 0 \/ I / 2 ^ 63 = 1) as [E | E] by lia; rewrite E; [apply Z.land_0_r|].
  replace ((I + 1) / 2 ^ 63) with 1 by lia. done.
Qed.

Lemma nlz64_steps N :
  nlz64 N =
  let I := 2 ^ 64 - 1 - N in
  let C := Z.shiftr (Z.land (Z.lxor I (wrap 64 (I + 1))) I) 63 in
  let CN := nlz_step 32 0xffffffff 0x100000000 27 (C, N) in
  let CN := nlz_step 48 0xffff 0x10000 12 CN in
  let CN := nlz_step 56 0xff 0x100 5 CN in
  let CN := nlz_step 60 0xf 0x10 2 CN in
  let CN := nlz_step 62 3 4 1 CN in
  CN.1 + Z.lxor (Z.shiftr CN.2 63) 1.
Proof.
  unfold nlz64. cbv beta zeta delta [nlz_step nlz_shift fst snd]. reflexivity.
Qed.

Lemma nlz64_spec N : fits 64 N -> nlz64 N = nlz_spec 64 N.
Proof.
  intros HN. destruct (Z.eq_dec N 0) as [-> | Hnz]; [done|].
  assert (HN' : 0 < N < 2 ^ 64) by (unfold fits in HN; lia).
  rewrite nlz64_steps. pose proof (nlz_init N HN') as HC. cbv zeta in HC |- *. rewrite HC.
  destruct (nlz_step_spec 32 27 0 N) as (C1 & N1 & ER & H1 & E1); [lia..|done| |].
  { change (2 ^ (64 - 2 * 32)) with 1. lia. }
  change (nlz_step 32 0xffffffff 0x100000000 27 (0, N) = (C1, N1)) in ER. rewrite ER; clear ER.
  destruct (nlz_step_spec 16 12 C1 N1) as (C2 & N2 & ER & H2 & E2); [lia..|done|lia|].
  change (nlz_step 48 0xffff 0x10000 12 (C1, N1) = (C2, N2)) in ER. rewrite ER; clear ER.
  destruct (nlz_step_spec 8 5 C2 N2) as (C3 & N3 & ER & H3 & E3); [lia..|done|lia|].
  change (nlz_step 56 0xff 0x100 5 (C2, N2) = (C3, N3)) in ER. rewrite ER; clear ER.
  destruct (nlz_step_spec 4 2 C3 N3) as (C4 & N4 & ER & H4 & E4); [lia..|done|lia|].
  change (nlz_step 60 0xf 0x10 2 (C3, N3) = (C4, N4)) in ER. rewrite ER; clear ER.
  destruct (nlz_step_spec 2 1 C4 N4) as (C5 & N5 & ER & H5 & E5); [lia..|done|lia|].
  change (nlz_step 62 3 4 1 (C4, N4) = (C5, N5)) in ER. rewrite ER; clear ER.
  cbn [fst snd]. rewrite <- (Z.add_0_l (nlz_spec 64 N)), <- E1, <- E2, <- E3, <- E4, <- E5.
  f_equal. unfold nlz_spec. rewrite (proj2 (Z.eqb_neq N5 0)) by lia.
  rewrite shiftr_div by lia. change (64 - 2) with 62 in H5.
  destruct (Z.lt_ge_cases N5 (2 ^ 63)).
  - rewrite (Z.log2_unique N5 62) by lia. rewrite Z.div_small by lia. done.
  - rewrite (Z.log2_unique N5 63) by lia. replace (N5 / 2 ^ 63) with 1; [done|].
    apply Z.div_unique with (N5 - 2 ^ 63); lia.
Qed.

(** ** Values of two-half words *)

Lemma nlz_split w h l : 0 < w -> fits w h -> fits w l ->
  nlz_spec (2 * w) (h * 2 ^ w + l) =
  if h =? 0 then nlz_spec w l + w else nlz_spec w h.
Proof.
  unfold fits. intros Hw Hh Hl. unfold nlz_spec.
  destruct (Z.eqb_spec h 0) as [-> | Hnz].
  - rewrite Z.mul_0_l, Z.add_0_l. destruct (Z.eqb_spec l 0); lia.
  - assert (0 < h * 2 ^ w) by (apply Z.mul_pos_pos; lia).
    rewrite (proj2 (Z.eqb_neq _ _)) by lia.
    pose proof (Z.log2_spec h). pose proof (Z.log2_nonneg h).
    rewrite (Z.log2_unique (h * 2 ^ w + l) (Z.log2 h + w)); [lia|lia|].
    rewrite <- Z.add_succ_l, !Z.pow_add_r by lia.
    pose proof (Z.mul_le_mono_nonneg_r (2 ^ Z.log2 h) h (2 ^ w)).
    pose proof (Z.mul_le_mono_nonneg_r (h + 1) (2 ^ Z.succ (Z.log2 h)) (2 ^ w)). lia.
Qed.

Lemma cmp_sign_split w h1 l1 h2 l2 : 0 < w -> fits w l1 -> fits w l2 ->
  cmp_sign (h1 * 2 ^ w + l1) (h2 * 2 ^ w + l2) =
  flag ((h2 <? h1) || ((h1 =? h2) && (l2 <? l1))) -
  flag ((h1 <? h2) || ((h1 =? h2) && (l1 <? l2))).
Proof.
  unfold fits, cmp_sign. intros Hw Hl1 Hl2. pose proof (Z.pow_pos_nonneg 2 w).
  destruct (Z.lt_trichotomy h1 h2) as [Hc | [-> | Hc]].
  - assert ((h1 + 1) * 2 ^ w <= h2 * 2 ^ w) by (apply Z.mul_le_mono_nonneg_r; lia).
    bdestr; lia.
  - bdestr; lia.
  - assert ((h2 + 1) * 2 ^ w <= h1 * 2 ^ w) by (apply Z.mul_le_mono_nonneg_r; lia).
    bdestr; lia.
Qed.

Lemma eqb_split w h1 l1 h2 l2 : 0 < w -> fits w l1 -> fits w l2 ->
  (h1 * 2 ^ w + l1 =? h2 * 2 ^ w + l2) = (l1 =? l2) && (h1 =? h2).
Proof.
  unfold fits. intros Hw Hl1 Hl2. pose proof (Z.pow_pos_nonneg 2 w).
  destruct (Z.eqb_spec l1 l2) as [-> | ?], (Z.eqb_spec h1 h2) as [-> | ?]; cbn [andb].
  - apply Z.eqb_refl.
  - apply Z.eqb_neq. nia.
  - apply Z.eqb_neq. lia.
  - apply Z.eqb_neq. intros E.
    assert (h1 = h2); [|lia].
    apply (f_equal (fun z => z / 2 ^ w)) in E.
    rewrite !Z.div_add_l, !Z.div_small in E by lia. lia.
Qed.

(** Ripple addition: the two carries of the header never overlap, and their
    disjunction is the carry out of the whole word. *)
Lemma ripple_add w h1 l1 h2 l2 : 0 < w ->
  fits w h1 -> fits w l1 -> fits w h2 -> fits w l2 ->
  let c := flag (2 ^ w <=? l1 + l2) in
  let s := wrap w (c + h1) in
  let f1 := flag (2 ^ w <=? c + h1) in
  let f2 := flag (2 ^ w <=? s + h2) in
  Z.lor f1 f2 = flag (2 ^ (2 * w) <=? (h1 * 2 ^ w + l1) + (h2 * 2 ^ w + l2)) /\
  wrap w (s + h2) * 2 ^ w + wrap w (l1 + l2) =
  wrap (2 * w) ((h1 * 2 ^ w + l1) + (h2 * 2 ^ w + l2)).
Proof.
  intros Hw Hh1 Hl1 Hh2 Hl2 c s f1 f2.
  assert (Hc : fits w c).
  { unfold fits, c in *. pose proof (Z.pow_le_mono_r 2 1 w). bdestr; lia. }
  pose proof (add_carry_value w l1 l2 ltac:(lia) Hl1 Hl2) as E0.
  pose proof (add_carry_value w c h1 ltac:(lia) Hc Hh1) as E1.
  assert (Hs : fits w s) by (apply wrap_fits; lia).
  pose proof (add_carry_value w s h2 ltac:(lia) Hs Hh2) as E2.
  pose proof (wrap_fits w (l1 + l2) ltac:(lia)) as Hw0.
  pose proof (wrap_fits w (s + h2) ltac:(lia)) as Hw2.
  fold c in E0. fold s f1 in E1. fold f2 in E2.
  set (L := wrap w (l1 + l2)) in *. set (H' := wrap w (s + h2)) in *.
  replace (2 * w) with (w + w) by lia. unfold wrap, fits in *. rewrite Z.pow_add_r by lia.
  set (B := 2 ^ w) in *.
  assert (Hf1 : f1 = 0 \/ f1 = 1) by apply flag_cases.
  assert (Hf2 : f2 = 0 \/ f2 = 1) by apply flag_cases.
  clearbody f1 f2 H' L s c.
  assert (Et : (h1 * B + l1) + (h2 * B + l2) = (f1 + f2) * (B * B) + (H' * B + L)).
  { transitivity ((c + h1) * B + h2 * B + (l1 + l2 - B * c)); [ring|].
    rewrite <- E0, <- E1. transitivity ((s + h2) * B + f1 * (B * B) + L); [ring|].
    rewrite <- E2. ring. }
  pose proof (two_limbs B B H' L Hw2 Hw0).
  assert (Hsum : f1 + f2 <= 1).
  { pose proof (two_limbs B B h1 l1 Hh1 Hl1). pose proof (two_limbs B B h2 l2 Hh2 Hl2).
    destruct Hf1 as [-> | ->], Hf2 as [-> | ->]; lia. }
  rewrite Et. split.
  - destruct Hf1 as [-> | ->], Hf2 as [-> | ->]; bdestr; first [reflexivity | lia].
  - rewrite (Z.add_comm (_ * (B * B))), Z.mod_add by lia. by rewrite Z.mod_small by lia.
Qed.

(** ** The native build *)

#[export] Instance native_ops : Uint128Ops Z := {
  val128 := fun x => x;
  wf128 := fits 128;
  uint128_0 := 0;
  uint128_1 := 1;
  GET_128_FROM_64 := Native.GET_128_FROM_64;
  to_u64 := wrap 64;
  EQUAL_128 := Native.EQUAL_128;
  AND_128 := Native.AND_128;
  OR_128 := Native.OR_128;
  LEFT_SHIFT_128 := Native.LEFT_SHIFT_128;
  RIGHT_SHIFT_128 := Native.RIGHT_SHIFT_128;
  SUM_128_128 := Native.SUM_128_128;
  compare128 := Native.compare128;
  nlz128 := Native.nlz128;
  EQUAL_256 := Native.EQUAL_256;
  SUM_256_256 := Native.SUM_256_256;
  SUBTRACT_256_256 := Native.SUBTRACT_256_256;
  MULT_128_256 := Native.MULT_128_256;
}.

Lemma log2_fits w x : 0 < w -> 0 <= x -> (fits w x <-> x = 0 \/ Z.log2 x < w).
Proof.
  unfold fits. intros ? ?. destruct (Z.eq_dec x 0) as [-> | ?].
  - split; [by left|]. intros _. lia.
  - rewrite Z.log2_lt_pow2 by lia. lia.
Qed.

Lemma land_fits w x y : 0 < w -> fits w x -> fits w y -> fits w (Z.land x y).
Proof.
  intros Hw Hx Hy. assert (Hx0 : 0 <= x) by (unfold fits in *; lia).
  assert (Hy0 : 0 <= y) by (unfold fits in *; lia).
  apply log2_fits; [done | apply Z.land_nonneg; by left|].
  apply log2_fits in Hx; [|done..].
  pose proof (Z.log2_land x y Hx0 Hy0). destruct Hx as [-> | ?]; [by left | right; lia].
Qed.

Lemma lor_fits w x y : 0 < w -> fits w x -> fits w y -> fits w (Z.lor x y).
Proof.
  intros Hw Hx Hy. assert (Hx0 : 0 <= x) by (unfold fits in *; lia).
  assert (Hy0 : 0 <= y) by (unfold fits in *; lia).
  apply log2_fits; [done | by apply Z.lor_nonneg|].
  apply log2_fits in Hx; [|done..]. apply log2_fits in Hy; [|done..].
  destruct (Z.eq_dec (Z.lor x y) 0); [by left | right].
  rewrite Z.log2_lor by done. destruct Hx as [-> | ?], Hy as [-> | ?]; cbn; lia.
Qed.

(** The product code of [MULT_64_128] (limbs of [k = 32] bits) and
    [MULT_128_256] (limbs of [k = 64] bits): none of its wrapping operations
    wraps, and the two result words are the exact product. *)
Lemma schoolbook k x y : 0 < k -> fits (2 * k) x -> fits (2 * k) y ->
  let a_hi := Z.land x (Z.ones k) in
  let b_hi := Z.land y (Z.ones k) in
  let prod := wrap (2 * k) (a_hi * b_hi) in
  let w3 := Z.land prod (Z.ones k) in
  let sr := Z.shiftr prod k in
  let a := Z.shiftr x k in
  let prod := wrap (2 * k) (wrap (2 * k) (a * b_hi) + sr) in
  let sr := Z.land prod (Z.ones k) in
  let w1 := Z.shiftr prod k in
  let b := Z.shiftr y k in
  let prod := wrap (2 * k) (wrap (2 * k) (a_hi * b) + sr) in
  let sr := Z.shiftr prod k in
  let h := wrap (2 * k) (wrap (2 * k) (wrap (2 * k) (a * b) + w1) + sr) in
  let l := wrap (2 * k) (wrap (2 * k) (Z.shiftl prod k) + w3) in
  fits (2 * k) h /\ fits (2 * k) l /\ h * 2 ^ (2 * k) + l = x * y.
Proof.
  intros Hk Hx Hy. cbv zeta. rewrite !land_ones_mod, !shiftr_div, !shiftl_mul by lia.
  destruct (limb_bounds k (2 * k) x ltac:(lia) ltac:(lia) Hx) as [Bx0 Bx1].
  destruct (limb_bounds k (2 * k) y ltac:(lia) ltac:(lia) Hy) as [By0 By1].
  replace (2 * k - k) with k in * by lia.
  pose proof (limb_product (2 ^ k) (x / 2 ^ k) (x mod 2 ^ k) (y / 2 ^ k) (y mod 2 ^ k)
                ltac:(lia) Bx1 Bx0 By1 By0) as LP.
  cbv zeta in LP. rewrite <- Z.pow_add_r in LP by lia.
  replace (k + k) with (2 * k) in LP by lia.
  destruct LP as [(P0 & P1 & P2 & PH & PL) E].
  set (a1 := x / 2 ^ k) in *. set (a0 := x mod 2 ^ k) in *.
  set (b1 := y / 2 ^ k) in *. set (b0 := y mod 2 ^ k) in *.
  assert (Hd0 : 0 <= a0 * b0 / 2 ^ k) by (apply Z.div_pos; lia).
  assert (Hd1 : 0 <= (a1 * b0 + a0 * b0 / 2 ^ k) / 2 ^ k) by (apply Z.div_pos; lia).
  pose proof (Z.mod_pos_bound (a1 * b0 + a0 * b0 / 2 ^ k) (2 ^ k) ltac:(lia)) as Hm1.
  assert (Hd2 : 0 <= (a0 * b1 + (a1 * b0 + a0 * b0 / 2 ^ k) mod 2 ^ k) / 2 ^ k)
    by (apply Z.div_pos; lia).
  assert (forall u v, fits k u -> fits k v -> 0 <= u * v) as Hnn
    by (unfold fits; intros; apply Z.mul_nonneg_nonneg; lia).
  pose proof (Hnn _ _ Bx1 By0). pose proof (Hnn _ _ Bx0 By1). pose proof (Hnn _ _ Bx1 By1).
  rewrite (wrap_id (2 * k) (a0 * b0)) by done.
  rewrite (wrap_id (2 * k) (a1 * b0)) by (unfold fits; lia).
  rewrite (wrap_id (2 * k) (a1 * b0 + _)) by done.
  rewrite (wrap_id (2 * k) (a0 * b1)) by (unfold fits; lia).
  rewrite (wrap_id (2 * k) (a0 * b1 + _)) by done.
  rewrite (wrap_id (2 * k) (a1 * b1)) by (unfold fits; lia).
  rewrite (wrap_id (2 * k) (a1 * b1 + _)) by (unfold fits; lia).
  rewrite (wrap_id (2 * k) (a1 * b1 + _ + _)) by done.
  rewrite (wrap_id (2 * k) (wrap (2 * k) _ + _)) by exact PL.
  split; [exact PH | split; [exact PL|]]. unfold wrap. rewrite E.
  subst a1 a0 b1 b0. rewrite !(Z.mul_comm (_ / _)), <- !Z.div_mod by lia. done.
Qed.

Lemma native_mult_128_256 (x y : Z) : fits 128 x -> fits 128 y ->
  wf256 (MULT_128_256 x y) /\ val256 (MULT_128_256 x y) = x * y.
Proof.
  intros Hx Hy. unfold val256, wf256. cbn [MULT_128_256 native_ops val128 wf128].
  unfold Native.MULT_128_256. change 0xffffffffffffffff with (Z.ones 64). cbv zeta.
  set (p1 := wrap 128 (wrap 128 (Z.shiftr x 64 * Z.land y (Z.ones 64)) + _)).
  assert (E : wrap 64 (Z.shiftr p1 64) = Z.shiftr p1 64).
  { apply wrap_id. rewrite shiftr_div by lia.
    apply (limb_bounds 64 128); [lia..|]. apply wrap_fits. lia. }
  rewrite E. subst p1. cbn [hi lo].
  destruct (schoolbook 64 x y ltac:(lia) Hx Hy) as (Fh & Fl & Ev). done.
Qed.

(** The branch-free borrow: the top bit of the half-sum of the difference and
    the subtrahend is set exactly when the subtraction borrows. *)
Lemma borrow_bit w a b : 0 < w -> fits w a -> fits w b ->
  let c := wrap w (a - b) in
  Z.shiftr (wrap w (Z.land (Z.land c b) 1 + Z.shiftr b 1 + Z.shiftr c 1)) (w - 1) =
  flag (a <? b).
Proof.
  intros Hw Ha Hb c. pose proof (wrap_fits w (a - b) ltac:(lia)) as Hc. fold c in Hc.
  rewrite half_sum, shiftr_div by lia.
  assert (E : 2 ^ w = 2 * 2 ^ (w - 1)).
  { rewrite <- (Z.pow_succ_r 2 (w - 1)) by lia. f_equal. lia. }
  assert (Hh : fits w ((c + b) / 2)).
  { unfold fits in *. split; [apply Z.div_pos; lia | apply Z.div_lt_upper_bound; lia]. }
  rewrite wrap_id by done. rewrite Z.div_div by lia. rewrite <- E.
  pose proof (wrap_small_sub w a b ltac:(lia) Ha Hb) as Ec. fold c in Ec.
  unfold fits in *. destruct (Z.ltb_spec a b); cbn.
  - symmetry. apply Z.div_unique with (c + b - 2 ^ w); lia.
  - apply Z.div_small. lia.
Qed.

(** Subtracting halves with the low borrow: correct modulo the whole width. *)
Lemma ripple_sub w h1 l1 h2 l2 : 0 < w ->
  fits w h1 -> fits w l1 -> fits w h2 -> fits w l2 ->
  wrap w (h1 - wrap w (h2 + flag (l1 <? l2))) * 2 ^ w + wrap w (l1 - l2) =
  wrap (2 * w) ((h1 * 2 ^ w + l1) - (h2 * 2 ^ w + l2)).
Proof.
  intros Hw Hh1 Hl1 Hh2 Hl2.
  replace (wrap w (h1 - wrap w (h2 + flag (l1 <? l2))))
    with (wrap w (h1 - h2 - flag (l1 <? l2))).
  2:{ unfold wrap. rewrite Zminus_mod_idemp_r. f_equal. lia. }
  pose proof (wrap_fits w (h1 - h2 - flag (l1 <? l2)) ltac:(lia)) as F1.
  pose proof (wrap_fits w (l1 - l2) ltac:(lia)) as F2.
  replace (2 * w) with (w + w) by lia. unfold wrap at 3. rewrite Z.pow_add_r by lia.
  apply Z.mod_unique with ((h1 - h2 - flag (l1 <? l2)) / 2 ^ w).
  - left. apply two_limbs; done.
  - unfold wrap at 1. rewrite Z.mod_eq, wrap_small_sub by (done || lia).
    destruct (l1 <? l2); cbn [Z.b2z]; ring.
Qed.

Lemma native_sub_256 (x y : uint256 Z) : wf256 x -> wf256 y ->
  exists r, Native.SUBTRACT_256_256 x y = (flag (lo x <? lo y), r) /\
    wf256 r /\ val256 r = wrap 256 (val256 x - val256 y).
Proof.
  destruct x as [xh xl], y as [yh yl]. unfold wf256, val256. cbn [hi lo wf128 val128 native_ops].
  intros [Hxh Hxl] [Hyh Hyl]. unfold Native.SUBTRACT_256_256. cbn [hi lo].
  pose proof (borrow_bit 128 xl yl ltac:(lia) Hxl Hyl) as E. cbv zeta in E.
  change (128 - 1) with 127 in E. rewrite E.
  rewrite (wrap_id 64) by (destruct (flag_cases (xl <? yl)) as [-> | ->]; unfold fits; lia).
  eexists; split; [done|]. cbn [hi lo].
  split; [split; apply wrap_fits; lia|]. by apply (ripple_sub 128).
Qed.

#[export] Instance native_laws : Uint128Laws Z.
Proof.
  split; cbn [val128 wf128 native_ops].
  - done.
  - intros ????; done.
  - split; [split; done | done].
  - split; [split; done | done].
  - intros n Hn. split; [|done]. change (fits 128 n). unfold fits in *. lia.
  - done.
  - done.
  - intros x y Hx Hy. split; [by apply land_fits | done].
  - intros x y Hx Hy. split; [by apply lor_fits | done].
  - intros x n Hx Hn. cbn. unfold Native.LEFT_SHIFT_128.
    rewrite (proj2 (Z.leb_le _ _)), (proj2 (Z.ltb_lt _ _)) by lia. cbn [andb].
    eexists; split; [done|]. rewrite shiftl_mul by lia. split; [apply wrap_fits; lia | done].
  - intros x n Hx Hn. cbn. unfold Native.RIGHT_SHIFT_128.
    rewrite (proj2 (Z.leb_le _ _)), (proj2 (Z.ltb_lt _ _)) by lia. cbn [andb].
    eexists; split; [done|]. rewrite shiftr_div by lia. split; [|done].
    unfold fits in *. split; [apply Z.div_pos; lia|].
    apply Z.le_lt_trans with x; [|lia]. apply Z.div_le_upper_bound; [lia|].
    pose proof (Z.pow_pos_nonneg 2 n). nia.
  - intros x y Hx Hy. cbn. unfold Native.SUM_128_128. rewrite add_carry by (done || lia).
    eexists; split; [done|]. split; [apply wrap_fits; lia | done].
  - done.
  - intros x Hx. cbn. unfold Native.nlz128. rewrite shiftr_div by lia.
    destruct (limb_bounds 64 128 x ltac:(lia) ltac:(lia) Hx) as [B0 B1].
    rewrite (wrap_id 64 (x / 2 ^ 64)) by done.
    rewrite !nlz64_spec by (try apply wrap_fits; done || lia).
    rewrite (Z.div_mod x (2 ^ 64)) at 4 by lia. rewrite (Z.mul_comm (2 ^ 64)).
    by rewrite <- (nlz_split 64).
  - intros [xh xl] [yh yl] [? Hx] [? Hy]. cbn. unfold Native.EQUAL_256, val256; cbn [hi lo val128].
    symmetry. by apply (eqb_split 128).
  - intros [xh xl] [yh yl] [Hxh Hxl] [Hyh Hyl]. unfold wf256, val256.
    cbn -[Z.lor Z.pow wrap]. unfold Native.SUM_256_256, Native.SUM_128_128. cbn [hi lo].
    cbn [hi lo wf128 native_ops] in *.
    destruct (ripple_add 128 xh xl yh yl ltac:(lia) Hxh Hxl Hyh Hyl) as [Ef Ev].
    rewrite (add_carry 128 xl yl) by (done || lia).
    rewrite (add_carry 128 (flag _) xh) by word_side.
    rewrite (add_carry 128 (wrap 128 _) yh) by word_side.
    change (2 * 128) with 256 in *. rewrite Ef.
    eexists; split; [done|]. split; [split; apply wrap_fits; lia | exact Ev].
  - intros x y Hx Hy. destruct (native_sub_256 x y Hx Hy) as (r & E & ?). eauto.
  - apply native_mult_128_256.
Qed.

(** ** The portable build *)

Import Portable.

Definition pval (x : uint128) : Z := hi64 x * 2 ^ 64 + lo64 x.
Definition pwf (x : uint128) : Prop := fits 64 (hi64 x) /\ fits 64 (lo64 x).

(** Shifting a two-half word by [0 < n < w]. *)
Lemma shl_halves w n h l : 0 < n < w -> fits w h -> fits w l ->
  let lo' := wrap w (Z.shiftl l n) in
  let hi' := Z.lor (wrap w (Z.shiftl h n)) (Z.shiftr l (w - n)) in
  fits w lo' /\ fits w hi' /\ hi' * 2 ^ w + lo' = wrap (2 * w) ((h * 2 ^ w + l) * 2 ^ n).
Proof.
  intros Hn Hh Hl lo' hi'. subst lo' hi'.
  rewrite !shiftl_mul, shiftr_div by lia.
  destruct (limb_bounds (w - n) w h ltac:(lia) ltac:(lia) Hh) as [Bhr Bhq].
  destruct (limb_bounds (w - n) w l ltac:(lia) ltac:(lia) Hl) as [Blr Blq].
  replace (w - (w - n)) with n in * by lia.
  assert (EW : 2 ^ w = 2 ^ (w - n) * 2 ^ n) by (rewrite <- Z.pow_add_r by lia; f_equal; lia).
  assert (Em : forall x, wrap w (x * 2 ^ n) = (x mod 2 ^ (w - n)) * 2 ^ n).
  { intros x. unfold wrap. rewrite EW, Z.mul_mod_distr_r by lia. done. }
  rewrite !Em, lor_disjoint by (done || lia).
  unfold fits in *.
  assert (F1 : 0 <= (l mod 2 ^ (w - n)) * 2 ^ n < 2 ^ w).
  { rewrite EW. pose proof (two_limbs (2 ^ (w - n)) (2 ^ n) (l mod 2 ^ (w - n)) 0). lia. }
  assert (F2 : 0 <= (h mod 2 ^ (w - n)) * 2 ^ n + l / 2 ^ (w - n) < 2 ^ w).
  { rewrite EW. apply two_limbs; lia. }
  split; [done | split; [done|]].
  replace (2 * w) with (w + w) by lia. unfold wrap. rewrite Z.pow_add_r by lia.
  apply Z.mod_unique with (h / 2 ^ (w - n)).
  - left. apply two_limbs; done.
  - pose proof (Z.div_mod h (2 ^ (w - n)) ltac:(lia)) as Dh.
    pose proof (Z.div_mod l (2 ^ (w - n)) ltac:(lia)) as Dl.
    rewrite Dh at 1. rewrite Dl at 1. rewrite EW. ring.
Qed.

Lemma shr_halves w n h l : 0 < n < w -> fits w h -> fits w l ->
  let lo' := Z.lor (Z.shiftr l n) (wrap w (Z.shiftl h (w - n))) in
  let hi' := Z.shiftr h n in
  fits w lo' /\ fits w hi' /\ hi' * 2 ^ w + lo' = (h * 2 ^ w + l) / 2 ^ n.
Proof.
  intros Hn Hh Hl lo' hi'. subst lo' hi'.
  rewrite !shiftr_div, shiftl_mul by lia.
  destruct (limb_bounds n w h ltac:(lia) ltac:(lia) Hh) as [Bhr Bhq].
  destruct (limb_bounds n w l ltac:(lia) ltac:(lia) Hl) as [Blr Blq].
  assert (EW : 2 ^ w = 2 ^ n * 2 ^ (w - n)) by (rewrite <- Z.pow_add_r by lia; f_equal; lia).
  assert (Em : wrap w (h * 2 ^ (w - n)) = (h mod 2 ^ n) * 2 ^ (w - n)).
  { unfold wrap. rewrite EW, Z.mul_mod_distr_r by lia. done. }
  rewrite Em, Z.lor_comm, lor_disjoint by (done || lia).
  unfold fits in *.
  assert (F1 : 0 <= (h mod 2 ^ n) * 2 ^ (w - n) + l / 2 ^ n < 2 ^ w).
  { rewrite EW. apply two_limbs; lia. }
  assert (F2 : 0 <= h / 2 ^ n < 2 ^ w).
  { assert (2 ^ (w - n) <= 2 ^ w) by (apply Z.pow_le_mono_r; lia). lia. }
  split; [done | split; [done|]].
  apply Z.div_unique with (l mod 2 ^ n); [left; lia|].
  pose proof (Z.div_mod h (2 ^ n) ltac:(lia)) as Dh.
  pose proof (Z.div_mod l (2 ^ n) ltac:(lia)) as Dl.
  rewrite Dh at 1. rewrite Dl at 1. rewrite EW. ring.
Qed.

Lemma portable_shl x n : pwf x -> 0 <= n <= 128 ->
  exists r, Portable.LEFT_SHIFT_128 x n = Some r /\ pwf r /\ pval r = wrap 128 (pval x * 2 ^ n).
Proof.
  assert (base : forall f y m, pwf y -> 0 <= m < 64 -> exists r,
    Portable.LEFT_SHIFT_128_rec f y m = Some r /\ pwf r /\ pval r = wrap 128 (pval y * 2 ^ m)).
  { intros f [l h] m [Hh Hl] Hm. cbn [hi64 lo64] in Hh, Hl.
    assert (LEFT_SHIFT_128_rec f (U128 l h) m =
      if m =? 0 then Some (U128 l h) else Some (U128 (wrap 64 (Z.shiftl l m))
        (Z.lor (wrap 64 (Z.shiftl h m)) (Z.shiftr l (64 - m))))) as ->.
    { destruct f; cbn -[Z.shiftl Z.shiftr wrap]; bdestr; (done || lia). }
    destruct (Z.eqb_spec m 0) as [-> | ?].
    - eexists; split; [done|]. split; [done|]. unfold pval; cbn [hi64 lo64].
      rewrite Z.mul_1_r, wrap_id; [done|]. by apply (two_limbs (2 ^ 64) (2 ^ 64)).
    - destruct (shl_halves 64 m h l) as (F1 & F2 & E); [lia|done|done|].
      eexists; split; [done|]. split; [by split|]. exact E. }
  intros Hx Hn. unfold Portable.LEFT_SHIFT_128. destruct x as [l h].
  destruct (Z.lt_ge_cases n 64); [apply base; [done|lia]|].
  pose proof Hx as [Hh Hl]; cbn [hi64 lo64] in Hh, Hl.
  assert (E1 : wrap 128 (pval (U128 l h) * 2 ^ n) =
               wrap 128 (pval (U128 0 l) * 2 ^ (n - 64))).
  { unfold pval; cbn [hi64 lo64]. replace n with (64 + (n - 64)) at 1 by lia.
    rewrite Z.pow_add_r by lia. unfold wrap.
    replace ((h * 2 ^ 64 + l) * (2 ^ 64 * 2 ^ (n - 64)))
      with ((l * 2 ^ 64 + 0) * 2 ^ (n - 64) + h * 2 ^ (n - 64) * 2 ^ 128) by ring.
    by rewrite Z.mod_add by lia. }
  rewrite E1. assert (Hx1 : pwf (U128 0 l)) by (split; cbn; [done | unfold fits; lia]).
  destruct (Z.lt_ge_cases (n - 64) 64).
  - destruct (base 1%nat (U128 0 l) (n - 64) Hx1 ltac:(lia)) as (r & Er & ? & ?).
    exists r. split; [|done]. cbn -[LEFT_SHIFT_128_rec Z.shiftl Z.shiftr wrap Z.sub].
    cbn [LEFT_SHIFT_128_rec]. rewrite <- Er. cbn [lo64].
    rewrite (proj2 (Z.ltb_ge 128 n)), (proj2 (Z.leb_le 64 n)) by lia. done.
  - assert (n = 128) as -> by lia. eexists; split; [reflexivity|].
    split; [split; cbn; unfold fits; lia|]. unfold pval; cbn [hi64 lo64].
    unfold wrap. change (2 ^ (128 - 64)) with (2 ^ 64).
    replace ((l * 2 ^ 64 + 0) * 2 ^ 64) with (l * 2 ^ 128) by ring.
    by rewrite Z.mod_mul by lia.
Qed.

Lemma portable_shr x n : pwf x -> 0 <= n <= 128 ->
  exists r, Portable.RIGHT_SHIFT_128 x n = Some r /\ pwf r /\ pval r = pval x / 2 ^ n.
Proof.
  assert (base : forall f y m, pwf y -> 0 <= m < 64 -> exists r,
    Portable.RIGHT_SHIFT_128_rec f y m = Some r /\ pwf r /\ pval r = pval y / 2 ^ m).
  { intros f [l h] m [Hh Hl] Hm. cbn [hi64 lo64] in Hh, Hl.
    assert (RIGHT_SHIFT_128_rec f (U128 l h) m =
      if m =? 0 then Some (U128 l h) else Some (U128
        (Z.lor (Z.shiftr l m) (wrap 64 (Z.shiftl h (64 - m)))) (Z.shiftr h m))) as ->.
    { destruct f; cbn -[Z.shiftl Z.shiftr wrap]; bdestr; (done || lia). }
    destruct (Z.eqb_spec m 0) as [-> | ?].
    - eexists; split; [done|]. split; [done|]. by rewrite Z.div_1_r.
    - destruct (shr_halves 64 m h l) as (F1 & F2 & E); [lia|done|done|].
      eexists; split; [done|]. split; [by split|]. exact E. }
  intros Hx Hn. unfold Portable.RIGHT_SHIFT_128. destruct x as [l h].
  destruct (Z.lt_ge_cases n 64); [apply base; [done|lia]|].
  pose proof Hx as [Hh Hl]; cbn [hi64 lo64] in Hh, Hl.
  assert (E1 : pval (U128 l h) / 2 ^ n = pval (U128 h 0) / 2 ^ (n - 64)).
  { unfold pval; cbn [hi64 lo64]. replace n with (64 + (n - 64)) at 1 by lia.
    rewrite Z.pow_add_r, <- Z.div_div, Z.div_add_l, (Z.div_small l) by (done || lia).
    f_equal. lia. }
  rewrite E1. assert (Hx1 : pwf (U128 h 0)) by (split; cbn; [unfold fits; lia | done]).
  destruct (Z.lt_ge_cases (n - 64) 64).
  - destruct (base 1%nat (U128 h 0) (n - 64) Hx1 ltac:(lia)) as (r & Er & ? & ?).
    exists r. split; [|done].
    cbn [RIGHT_SHIFT_128_rec]. rewrite <- Er. cbn [hi64].
    rewrite (proj2 (Z.ltb_ge 128 n)), (proj2 (Z.leb_le 64 n)) by lia. done.
  - assert (n = 128) as -> by lia. eexists; split; [reflexivity|].
    split; [split; cbn; unfold fits; lia|]. unfold pval; cbn [hi64 lo64].
    rewrite Z.div_small; [done|]. unfold fits in Hh. change (2 ^ (128 - 64)) with (2 ^ 64). lia.
Qed.

Lemma sum_64_64_spec a b : fits 64 a -> fits 64 b ->
  SUM_64_64 a b = (flag (2 ^ 64 <=? a + b), wrap 64 (a + b)).
Proof. intros. unfold SUM_64_64. by rewrite add_carry by word_side. Qed.

Lemma portable_sum_128 x y : pwf x -> pwf y ->
  exists r, Portable.SUM_128_128 x y = (flag (2 ^ 128 <=? pval x + pval y), r) /\
    pwf r /\ pval r = wrap 128 (pval x + pval y).
Proof.
  destruct x as [xl xh], y as [yl yh]. intros [Hxh Hxl] [Hyh Hyl]. cbn [hi64 lo64] in *.
  unfold Portable.SUM_128_128. cbn [hi64 lo64].
  destruct (ripple_add 64 xh xl yh yl ltac:(lia) Hxh Hxl Hyh Hyl) as [Ef Ev].
  rewrite !sum_64_64_spec by word_side. change (2 * 64) with 128 in *.
  rewrite Ef. eexists; split; [done|]. split; [split; apply wrap_fits; lia | exact Ev].
Qed.

Lemma portable_incr x : pwf x ->
  pwf (Portable.INCR_128 x) /\ pval (Portable.INCR_128 x) = wrap 128 (pval x + 1).
Proof.
  destruct x as [l h]. intros [Hh Hl]. cbn [hi64 lo64] in *.
  unfold Portable.INCR_128, pval, pwf; cbn [hi64 lo64].
  rewrite wrap_small_add by word_side. unfold fits in *.
  destruct (Z.ltb_spec (l + 1) (2 ^ 64)).
  - rewrite (proj2 (Z.eqb_neq _ _)) by lia. rewrite wrap_id by (unfold fits; lia). lia.
  - replace (l + 1 - 2 ^ 64) with 0 by lia. cbn [Z.eqb].
    rewrite wrap_small_add by (unfold fits; lia).
    destruct (Z.ltb_spec (h + 1) (2 ^ 64)).
    + rewrite wrap_id by (unfold fits; lia). lia.
    + split; [lia|]. unfold wrap. symmetry.
      replace (h * 2 ^ 64 + l + 1) with (1 * 2 ^ 128) by lia.
      rewrite Z.mod_mul by lia. lia.
Qed.

Lemma portable_mult_64 a b : fits 64 a -> fits 64 b ->
  pwf (Portable.MULT_64_128 a b) /\ pval (Portable.MULT_64_128 a b) = a * b.
Proof.
  intros Ha Hb. destruct (schoolbook 32 a b ltac:(lia) Ha Hb) as (Fh & Fl & Ev).
  split; [split|]; done.
Qed.

Definition pval256 (x : uint256 uint128) : Z := pval (hi x) * 2 ^ 128 + pval (lo x).
Definition pwf256 (x : uint256 uint128) : Prop := pwf (hi x) /\ pwf (lo x).

Lemma pval_fits x : pwf x -> fits 128 (pval x).
Proof. intros [Hh Hl]. by apply (two_limbs (2 ^ 64) (2 ^ 64)). Qed.

Lemma add_cross_spec c p : pwf256 c -> pwf p -> pval256 c + pval p * 2 ^ 64 < 2 ^ 256 ->
  pwf256 (Portable.add_cross c p) /\
  pval256 (Portable.add_cross c p) = pval256 c + pval p * 2 ^ 64.
Proof.
  destruct c as [[hl hh] [ll lh]], p as [pl ph]. intros [Hch Hcl] [Hph Hpl] Hlt.
  unfold Portable.add_cross, pwf256. cbn [hi lo hi64 lo64] in *.
  rewrite (Z.add_comm lh pl). set (c_hi := if _ <? pl then _ else _).
  destruct Hcl as [Hlh Hll]. cbn [hi64 lo64] in *.
  assert (Hc : pwf c_hi /\ pval c_hi = pval (U128 hl hh) + flag (2 ^ 64 <=? pl + lh)).
  { pose proof (add_carry 64 pl lh ltac:(lia) Hpl Hlh) as Ec. subst c_hi.
    pose proof (portable_incr (U128 hl hh) Hch) as [W V].
    revert Ec. destruct (wrap 64 (pl + lh) <? pl), (Z.leb_spec (2 ^ 64) (pl + lh));
      cbn [Z.b2z]; try done; intros _; [|split; [done|lia]].
    split; [done|]. rewrite V. apply wrap_id.
    unfold pval256, pval, pwf, fits in *; cbn [hi lo hi64 lo64] in *. lia. }
  clearbody c_hi. destruct c_hi as [cl chh], Hc as [[Hchh Hcl'] Vc]. cbn [hi64 lo64] in *.
  pose proof (add_carry_value 64 pl lh ltac:(lia) Hpl Hlh) as E0.
  rewrite (Z.add_comm cl ph).
  pose proof (add_carry 64 ph cl ltac:(lia) Hph Hcl') as Ec1.
  pose proof (add_carry_value 64 ph cl ltac:(lia) Hph Hcl') as E1.
  pose proof (wrap_fits 64 (pl + lh) ltac:(lia)) as W0.
  pose proof (wrap_fits 64 (ph + cl) ltac:(lia)) as W1.
  set (f0 := flag (2 ^ 64 <=? pl + lh)) in *. clearbody f0.
  set (l1 := wrap 64 (pl + lh)) in *. clearbody l1.
  assert (Hhh : (if wrap 64 (ph + cl) <? ph then wrap 64 (chh + 1) else chh)
                = chh + flag (2 ^ 64 <=? ph + cl)).
  { revert Ec1. destruct (wrap 64 (ph + cl) <? ph), (Z.leb_spec (2 ^ 64) (ph + cl));
      cbn [Z.b2z]; try done; intros _; [|lia]. apply wrap_id.
    unfold pval256, pval, pwf, fits in *; cbn [hi lo hi64 lo64] in *. lia. }
  rewrite Hhh. set (f1 := flag (2 ^ 64 <=? ph + cl)) in *.
  assert (0 <= f1 <= 1) by (destruct (flag_cases (2 ^ 64 <=? ph + cl)); lia). clearbody f1.
  set (h1 := wrap 64 (ph + cl)) in *. clearbody h1.
  unfold pval256, pval, pwf, fits in *; cbn [hi lo hi64 lo64] in *.
  repeat split; lia.
Qed.

Lemma portable_mult_128_256 x y : pwf x -> pwf y ->
  pwf256 (Portable.MULT_128_256 x y) /\ pval256 (Portable.MULT_128_256 x y) = pval x * pval y.
Proof.
  intros Hx Hy. pose proof (pval_fits x Hx) as Fx. pose proof (pval_fits y Hy) as Fy.
  destruct x as [xl xh], y as [yl yh], Hx as [Hxh Hxl], Hy as [Hyh Hyl].
  unfold Portable.MULT_128_256. cbn [hi64 lo64] in *.
  destruct (portable_mult_64 xh yh Hxh Hyh) as [W1 V1].
  destruct (portable_mult_64 xl yl Hxl Hyl) as [W2 V2].
  destruct (portable_mult_64 xh yl Hxh Hyl) as [W3 V3].
  destruct (portable_mult_64 xl yh Hxl Hyh) as [W4 V4].
  set (c0 := U256 _ _).
  assert (V0 : pval256 c0 = xh * yh * 2 ^ 128 + xl * yl) by (unfold pval256, c0; cbn [hi lo]; lia).
  assert (Hbound : pval (U128 xl xh) * pval (U128 yl yh) < 2 ^ 256).
  { unfold fits in *. change (2 ^ 256) with (2 ^ 128 * 2 ^ 128).
    apply Z.mul_lt_mono_nonneg; lia. }
  assert (Etot : pval (U128 xl xh) * pval (U128 yl yh) =
    xh * yh * 2 ^ 128 + xl * yl + (xh * yl) * 2 ^ 64 + (xl * yh) * 2 ^ 64).
  { unfold pval; cbn [hi64 lo64]. ring. }
  assert (0 <= xl * yh) by (unfold fits in *; apply Z.mul_nonneg_nonneg; lia).
  destruct (add_cross_spec c0 (MULT_64_128 xh yl)) as [Wc1 Vc1]; [done|done|lia|].
  destruct (add_cross_spec (add_cross c0 (MULT_64_128 xh yl)) (MULT_64_128 xl yh))
    as [Wc2 Vc2]; [done|done|lia|].
  split; [done|]. lia.
Qed.

Lemma sub_limb_spec b x y : 0 <= b <= 1 -> fits 64 x -> fits 64 y ->
  exists r, sub_limb b x y = (flag (x <? y + b), r) /\ fits 64 r /\
    r - 2 ^ 64 * flag (x <? y + b) = x - y - b.
Proof.
  intros Hb Hx Hy. unfold sub_limb.
  rewrite (wrap_small_sub 64 x b) by word_side. unfold fits in Hx, Hy.
  destruct (Z.ltb_spec x b).
  - assert (x = 0 /\ b = 1) as [-> ->] by lia. change (0 - 1 + 2 ^ 64) with (2 ^ 64 - 1).
    rewrite (wrap_small_sub 64) by word_side.
    rewrite (proj2 (Z.ltb_ge (2 ^ 64 - 1) y)) by lia.
    eexists; split; [f_equal; bdestr; first [reflexivity|lia]|].
    unfold fits; bdestr; lia.
  - rewrite (wrap_small_sub 64) by word_side.
    rewrite (proj2 (Z.ltb_ge x (x - b))) by lia.
    destruct (Z.ltb_spec (x - b) y); (eexists; split;
      [f_equal; bdestr; first [reflexivity|lia] | unfold fits; bdestr; lia]).
Qed.

Lemma portable_sub_256 x y : pwf256 x -> pwf256 y ->
  exists r, Portable.SUBTRACT_256_256 x y = (flag (pval256 x <? pval256 y), r) /\
    pwf256 r /\ pval256 r = wrap 256 (pval256 x - pval256 y).
Proof.
  destruct x as [[x2 x3] [x0 x1]], y as [[y2 y3] [y0 y1]].
  intros [[H3 H2] [H1 H0]] [[G3 G2] [G1 G0]]. cbn [hi lo hi64 lo64] in *.
  unfold Portable.SUBTRACT_256_256. cbn [hi lo hi64 lo64].
  assert (E0 : flag (x0 <? wrap 64 (x0 - y0)) = flag (x0 <? y0)).
  { rewrite wrap_small_sub by word_side. unfold fits in *. bdestr; first [reflexivity | lia]. }
  pose proof (wrap_small_sub 64 x0 y0 ltac:(lia) H0 G0) as V0.
  pose proof (wrap_fits 64 (x0 - y0) ltac:(lia)) as W0.
  rewrite E0. set (r0 := wrap 64 (x0 - y0)) in *. clearbody r0. clear E0.
  assert (B0 : r0 - 2 ^ 64 * flag (x0 <? y0) = x0 - y0) by (rewrite V0; bdestr; lia).
  assert (Hb0 : 0 <= flag (x0 <? y0) <= 1) by (destruct (flag_cases (x0 <? y0)); lia).
  set (b0 := flag (x0 <? y0)) in *. clearbody b0.
  destruct (sub_limb_spec b0 x1 y1 Hb0 H1 G1) as (r1 & -> & W1 & B1).
  assert (Hb1 : 0 <= flag (x1 <? y1 + b0) <= 1) by (destruct (flag_cases (x1 <? y1 + b0)); lia).
  set (b1 := flag (x1 <? y1 + b0)) in *. clearbody b1.
  destruct (sub_limb_spec b1 x2 y2 Hb1 H2 G2) as (r2 & -> & W2 & B2).
  assert (Hb2 : 0 <= flag (x2 <? y2 + b1) <= 1) by (destruct (flag_cases (x2 <? y2 + b1)); lia).
  set (b2 := flag (x2 <? y2 + b1)) in *. clearbody b2.
  destruct (sub_limb_spec b2 x3 y3 Hb2 H3 G3) as (r3 & -> & W3 & B3).
  set (b3 := flag (x3 <? y3 + b2)) in *.
  assert (Hb3 : b3 = 0 \/ b3 = 1) by apply flag_cases. clearbody b3.
  unfold pwf256, pval256, pwf, pval; cbn [hi lo hi64 lo64].
  set (X := (x3 * 2 ^ 64 + x2) * 2 ^ 128 + (x1 * 2 ^ 64 + x0)) in *.
  set (Y := (y3 * 2 ^ 64 + y2) * 2 ^ 128 + (y1 * 2 ^ 64 + y0)) in *.
  assert (ER : (r3 * 2 ^ 64 + r2) * 2 ^ 128 + (r1 * 2 ^ 64 + r0) - 2 ^ 256 * b3 = X - Y)
    by (subst X Y; lia).
  assert (FR : 0 <= (r3 * 2 ^ 64 + r2) * 2 ^ 128 + (r1 * 2 ^ 64 + r0) < 2 ^ 256)
    by (unfold fits in *; lia).
  exists (U256 (U128 r2 r3) (U128 r0 r1)). cbn [hi lo hi64 lo64].
  split; [|split; [done|]].
  - f_equal. destruct Hb3 as [-> | ->]; bdestr; first [reflexivity | lia].
  - unfold wrap. apply Z.mod_unique with (- b3); [left; exact FR | lia].
Qed.

#[export] Instance portable_ops : Uint128Ops uint128 := {
  val128 := pval;
  wf128 := pwf;
  uint128_0 := Portable.uint128_0;
  uint128_1 := Portable.uint128_1;
  GET_128_FROM_64 := Portable.GET_128_FROM_64;
  to_u64 := lo64;
  EQUAL_128 := Portable.EQUAL_128;
  AND_128 := Portable.AND_128;
  OR_128 := Portable.OR_128;
  LEFT_SHIFT_128 := Portable.LEFT_SHIFT_128;
  RIGHT_SHIFT_128 := Portable.RIGHT_SHIFT_128;
  SUM_128_128 := Portable.SUM_128_128;
  compare128 := Portable.compare128;
  nlz128 := Portable.nlz128;
  EQUAL_256 := Portable.EQUAL_256;
  SUM_256_256 := Portable.SUM_256_256;
  SUBTRACT_256_256 := Portable.SUBTRACT_256_256;
  MULT_128_256 := Portable.MULT_128_256;
}.

(** Bitwise operations act on the halves. *)
Lemma land_halves w h1 l1 h2 l2 : 0 < w -> fits w l1 -> fits w l2 ->
  Z.land (h1 * 2 ^ w + l1) (h2 * 2 ^ w + l2) = Z.land h1 h2 * 2 ^ w + Z.land l1 l2.
Proof.
  intros Hw H1 H2. rewrite <- !lor_disjoint by (done || lia || by apply land_fits).
  rewrite <- !shiftl_mul, Z.shiftl_land by lia. apply Z.bits_inj'. intros i ?.
  rewrite !Z.land_spec, !Z.lor_spec, !Z.land_spec, !Z.shiftl_spec by done.
  destruct (Z.ltb_spec i w).
  - rewrite !(Z.testbit_neg_r _ (i - w)) by lia. done.
  - rewrite <- (wrap_id w l1), <- (wrap_id w l2) by done. unfold wrap.
    rewrite !Z.mod_pow2_bits_high by lia. by rewrite !orb_false_r.
Qed.

Lemma lor_halves w h1 l1 h2 l2 : 0 < w -> fits w l1 -> fits w l2 ->
  Z.lor (h1 * 2 ^ w + l1) (h2 * 2 ^ w + l2) = Z.lor h1 h2 * 2 ^ w + Z.lor l1 l2.
Proof.
  intros Hw H1 H2. rewrite <- !lor_disjoint by (done || lia || by apply lor_fits).
  rewrite <- !shiftl_mul, Z.shiftl_lor by lia. apply Z.bits_inj'. intros i ?.
  rewrite !Z.lor_spec. btauto.
Qed.

Lemma portable_mult_law (x y : uint128) : wf128 x -> wf128 y ->
  wf256 (UintLaws.MULT_128_256 x y) /\
  val256 (UintLaws.MULT_128_256 x y) = val128 x * val128 y.
Proof.
  intros Hx Hy. change (UintLaws.MULT_128_256 x y) with (Portable.MULT_128_256 x y).
  destruct (portable_mult_128_256 x y Hx Hy) as [W V].
  generalize dependent (Portable.MULT_128_256 x y). intros m W V. split; [exact W | exact V].
Qed.

#[export] Instance portable_laws : Uint128Laws uint128.
Proof.
  split; cbn [val128 wf128 portable_ops].
  - apply pval_fits.
  - intros [xl xh] [yl yh] [? Hx] [? Hy] E. unfold pval in E. cbn [hi64 lo64] in *.
    apply Z.eqb_eq in E. rewrite (eqb_split 64) in E by (done || lia).
    apply andb_prop in E as [->%Z.eqb_eq ->%Z.eqb_eq]. done.
  - split; [repeat split; done | done].
  - split; [repeat split; done | done].
  - intros n Hn. split; [by repeat split; try apply Hn | done].
  - intros [l h] [? Hl]. cbn. unfold pval, wrap; cbn [hi64 lo64].
    rewrite Z.add_comm, Z.mod_add by lia. by rewrite Z.mod_small.
  - intros [xl xh] [yl yh] [? Hx] [? Hy]. unfold pval. cbn [hi64 lo64] in *.
    by rewrite (eqb_split 64) by (done || lia).
  - intros [xl xh] [yl yh] [??] [??]. cbn [hi64 lo64] in *. split.
    + split; cbn [hi64 lo64]; by apply land_fits.
    + unfold pval. cbn [hi64 lo64]. by rewrite (land_halves 64).
  - intros [xl xh] [yl yh] [??] [??]. cbn [hi64 lo64] in *. split.
    + split; cbn [hi64 lo64]; by apply lor_fits.
    + unfold pval. cbn [hi64 lo64]. by rewrite (lor_halves 64).
  - intros x n Hx Hn. apply portable_shl; [done|lia].
  - intros x n Hx Hn. apply portable_shr; [done|lia].
  - apply portable_sum_128.
  - intros [xl xh] [yl yh] [? Hx] [? Hy]. unfold pval. cbn [hi64 lo64] in *.
    by rewrite (cmp_sign_split 64).
  - intros [l h] [Hh Hl]. cbn [hi64 lo64] in *. unfold pval; cbn [hi64 lo64].
    rewrite (nlz_split 64) by (done || lia). rewrite <- !nlz64_spec by done. done.
  - intros [xh xl] [yh yl] [Hxh Hxl] [Hyh Hyl]. unfold val256. cbn [hi lo val128 wf128] in *.
    cbn [portable_ops wf128 val128] in *.
    rewrite (eqb_split 128) by (lia || by apply pval_fits).
    destruct xh as [x2 x3], xl as [x0 x1], yh as [y2 y3], yl as [y0 y1].
    destruct Hxh, Hxl, Hyh, Hyl. unfold pval; cbn [hi64 lo64] in *.
    rewrite !(eqb_split 64) by (done || lia). rewrite andb_assoc. reflexivity.
  - intros [xh xl] [yh yl] [Hxh Hxl] [Hyh Hyl]. unfold wf256, val256.
    cbn [hi lo val128 wf128 portable_ops UintLaws.SUM_256_256] in *.
    unfold Portable.SUM_256_256. cbn [hi lo].
    pose proof (pval_fits _ Hxh). pose proof (pval_fits _ Hxl).
    pose proof (pval_fits _ Hyh). pose proof (pval_fits _ Hyl).
    destruct (ripple_add 128 (pval xh) (pval xl) (pval yh) (pval yl)) as [Ef Ev]; [done..|].
    destruct (portable_sum_128 xl yl Hxl Hyl) as (r0 & -> & W0 & V0).
    set (f0 := flag (2 ^ 128 <=? pval xl + pval yl)) in *.
    assert (Wf : pwf (U128 f0 0)) by (split; cbn; [done | by apply flag_fits]).
    destruct (portable_sum_128 (U128 f0 0) xh Wf Hxh) as (r1 & -> & W1 & V1).
    change (pval (U128 f0 0)) with f0 in *.
    destruct (portable_sum_128 r1 yh W1 Hyh) as (r2 & -> & W2 & V2).
    rewrite V1. rewrite Ef. eexists; split; [done|]. cbn [hi lo].
    split; [done|]. rewrite V2, V0, V1. exact Ev.
  - intros x y Hx Hy. destruct (portable_sub_256 x y Hx Hy) as (r & E & ?). eauto.
  - apply portable_mult_law.
Qed.
