(* ===== verification/Uint256.v ===== *)
(** * 256-bit arithmetic (core/include/dap_math_ops.h, build-independent part)

    The functions of the header that exist once for both builds: shifts,
    comparison, bit scan, product, division and the fixed-point "coin"
    operations.  They are written over [Uint128Ops] as the source is written
    over the build's [uint128_t], and every theorem is proved from
    [Uint128Laws], so it holds for [Native] and for [Portable].

    [divmod_impl_256] by zero raises [SIGFPE]: [None].  Loops whose trip
    count is computed beforehand are structural in it; the scaling loop of
    [DIV_256_COIN] takes [fuel], and running out of fuel is [None]. *)

From S2P Require Import Prelude UintOps UintLaws.
Local Open Scope Z_scope.

Section Definitions.
Context {T : Type} {ops : Uint128Ops T}.
Abbreviation uint256_t := (uint256 T).

Definition uint256_0 : uint256_t := U256 uint128_0 uint128_0.

Definition uint256_1 : uint256_t := U256 uint128_0 uint128_1.

Definition GET_256_FROM_64 (n : Z) : uint256_t := U256 uint128_0 (GET_128_FROM_64 n).

Definition GET_256_FROM_128 (n : T) : uint256_t := U256 uint128_0 n.

Definition IS_ZERO_128 (a : T) : bool := EQUAL_128 a uint128_0.

Definition IS_ZERO_256 (a : uint256_t) : bool := EQUAL_256 a uint256_0.

Definition AND_256 (a b : uint256_t) : uint256_t :=
  U256 (AND_128 (hi a) (hi b)) (AND_128 (lo a) (lo b)).

Definition OR_256 (a b : uint256_t) : uint256_t :=
  U256 (OR_128 (hi a) (hi b)) (OR_128 (lo a) (lo b)).

(** With the asserted [n <= 256] two recursive calls on [n - 128] suffice. *)
Fixpoint LEFT_SHIFT_256_rec (fuel : nat) (a : uint256_t) (n : Z) : option uint256_t :=
  if 256 <? n then None
  else if 128 <=? n then
    match fuel with
    | O => None
    | S fuel => LEFT_SHIFT_256_rec fuel (U256 (lo a) uint128_0) (n - 128)
    end
  else if n =? 0 then Some (U256 (hi a) (lo a))
  else
    b_lo ← LEFT_SHIFT_128 (lo a) n;
    shift_temp_or_left ← LEFT_SHIFT_128 (hi a) n;
    shift_temp_or_right ← RIGHT_SHIFT_128 (lo a) (128 - n);
    Some (U256 (OR_128 shift_temp_or_left shift_temp_or_right) b_lo).

Definition LEFT_SHIFT_256 : uint256_t -> Z -> option uint256_t := LEFT_SHIFT_256_rec 2.

Fixpoint RIGHT_SHIFT_256_rec (fuel : nat) (a : uint256_t) (n : Z) : option uint256_t :=
  if 256 <? n then None
  else if 128 <=? n then
    match fuel with
    | O => None
    | S fuel => RIGHT_SHIFT_256_rec fuel (U256 uint128_0 (hi a)) (n - 128)
    end
  else if n =? 0 then Some (U256 (hi a) (lo a))
  else
    b_hi ← RIGHT_SHIFT_128 (hi a) n;
    shift_temp_or_left ← RIGHT_SHIFT_128 (lo a) n;
    shift_temp_or_right ← LEFT_SHIFT_128 (hi a) (128 - n);
    Some (U256 b_hi (OR_128 shift_temp_or_left shift_temp_or_right)).

Definition RIGHT_SHIFT_256 : uint256_t -> Z -> option uint256_t := RIGHT_SHIFT_256_rec 2.

Definition MULT_256_512 (a b : uint256_t) : option (uint512 T) :=
  let c_hi := MULT_128_256 (hi a) (hi b) in
  let c_lo := MULT_128_256 (lo a) (lo b) in
  let cross_product_first_term := MULT_128_256 (hi a) (lo b) in
  let cross_product_second_term := MULT_128_256 (lo a) (hi b) in
  let '(_overflow, cross_product) :=
    SUM_256_256 cross_product_first_term cross_product_second_term in
  cross_product_shift_128 ← LEFT_SHIFT_256 cross_product 128;
  let '(_dummy_overflow, c_lo) := SUM_256_256 c_lo cross_product_shift_128 in
  cross_product_shift_128 ← RIGHT_SHIFT_256 cross_product 128;
  let '(_dummy_overflow, c_hi) := SUM_256_256 c_hi cross_product_shift_128 in
  Some (U512 c_hi c_lo).

Definition MULT_256_256 (a b : uint256_t) : option (Z * uint256_t) :=
  full_product_512 ← MULT_256_512 a b;
  let equal_flag := EQUAL_256 (hi512 full_product_512) uint256_0 in
  Some (if negb equal_flag then 1 else 0, lo512 full_product_512).

Definition compare256 (a b : uint256_t) : Z :=
  flag ((compare128 (hi a) (hi b) =? 1) ||
        ((compare128 (hi a) (hi b) =? 0) && (compare128 (lo a) (lo b) =? 1))) -
  flag ((compare128 (hi a) (hi b) =? -1) ||
        ((compare128 (hi a) (hi b) =? 0) && (compare128 (lo a) (lo b) =? -1))).

Definition nlz256 (N : uint256_t) : Z :=
  if EQUAL_128 (hi N) uint128_0 then nlz128 (lo N) + 128 else nlz128 (hi N).

Definition fls256 (n : uint256_t) : Z :=
  if negb (compare128 (hi n) uint128_0 =? 0) then 255 - nlz128 (hi n)
  else 127 - nlz128 (lo n).

(** Body of the [for (i = 0; i <= l_shift; ++i)] loop, run [n] times. *)
Fixpoint divmod_loop_256 (n : nat) (a_dividend l_denominator l_quotient : uint256_t)
    : option (uint256_t * uint256_t) :=
  match n with
  | O => Some (l_quotient, a_dividend)
  | S n =>
    l_quotient ← LEFT_SHIFT_256 l_quotient 1;
    let '(a_dividend, l_quotient) :=
      if 0 <=? compare256 a_dividend l_denominator
      then (snd (SUBTRACT_256_256 a_dividend l_denominator), OR_256 l_quotient uint256_1)
      else (a_dividend, l_quotient) in
    l_denominator ← RIGHT_SHIFT_256 l_denominator 1;
    divmod_loop_256 n a_dividend l_denominator l_quotient
  end.

Definition divmod_impl_256 (a_dividend a_divisor : uint256_t) : option (uint256_t * uint256_t) :=
  if compare256 a_divisor uint256_0 =? 0 then None
  else if compare256 a_divisor a_dividend =? 1 then Some (uint256_0, a_dividend)
  else if compare256 a_divisor a_dividend =? 0 then Some (uint256_1, uint256_0)
  else
    let l_shift := fls256 a_dividend - fls256 a_divisor in
    l_denominator ← LEFT_SHIFT_256 a_divisor l_shift;
    divmod_loop_256 (Z.to_nat (l_shift + 1)) a_dividend l_denominator uint256_0.

Definition DIV_256 (a b : uint256_t) : option uint256_t :=
  '(l_ret, _) ← divmod_impl_256 a b; Some l_ret.

Definition ten18 : Z := 1000000000000000000.

Definition _MULT_256_COIN (a_val b_val : uint256_t) (round_result : bool)
    : option (Z * uint256_t) :=
  '(overflow, tmp) ← MULT_256_256 a_val b_val;
  '(tmp, rem) ← divmod_impl_256 tmp (GET_256_FROM_64 ten18);
  let tmp :=
    if round_result && (0 <=? compare256 rem (GET_256_FROM_64 500000000000000000))
    then snd (SUM_256_256 tmp uint256_1) else tmp in
  Some (overflow, tmp).

(** [while (compare256(a_copy, b) < 0)]: multiply by ten until at least [b]. *)
Fixpoint coin_scale (fuel : nat) (counter_integer : nat) (a_copy b : uint256_t)
    : option (nat * uint256_t) :=
  if compare256 a_copy b <? 0 then
    match fuel with
    | O => None
    | S fuel =>
      '(_, a_copy) ← MULT_256_256 a_copy (GET_256_FROM_64 10);
      coin_scale fuel (S counter_integer) a_copy b
    end
  else Some (counter_integer, a_copy).

(** [while (rem > 0 && counter_fraction < 18)], [n = 18 - counter_fraction]:
    digits of the fraction; also returns the iterations left. *)
Fixpoint coin_fraction (n : nat) (fraction rem b : uint256_t) : option (nat * uint256_t) :=
  match n with
  | O => Some (O, fraction)
  | S m =>
    if 0 <? compare256 rem uint256_0 then
      '(_, fraction) ← MULT_256_256 fraction (GET_256_FROM_64 10);
      '(_, rem) ← MULT_256_256 rem (GET_256_FROM_64 10);
      '(tmp, rem) ← divmod_impl_256 rem b;
      let fraction := snd (SUM_256_256 fraction tmp) in
      coin_fraction m fraction rem b
    else Some (n, fraction)
  end.

(** [n] multiplications by ten: the padding and the loan loops. *)
Fixpoint coin_times10 (n : nat) (x : uint256_t) : option uint256_t :=
  match n with
  | O => Some x
  | S n => '(_, x) ← MULT_256_256 x (GET_256_FROM_64 10); coin_times10 n x
  end.

Definition DIV_256_COIN (fuel : nat) (a b : uint256_t) : option uint256_t :=
  if compare256 a uint256_0 =? 0 then Some uint256_0
  else
    '(counter_integer, a_copy) ← coin_scale fuel 0 a b;
    '(a_copy, rem) ← divmod_impl_256 a_copy b;
    '(n_left, fraction) ← coin_fraction 18 uint256_0 rem b;
    '(_, a_copy) ← MULT_256_256 a_copy (GET_256_FROM_64 ten18);
    fraction ← coin_times10 n_left fraction;
    let a_copy := snd (SUM_256_256 a_copy fraction) in
    loan ← coin_times10 counter_integer (GET_256_FROM_64 1);
    DIV_256 a_copy loan.

End Definitions.

(** ** Meaning of the operations, from the interface alone *)

Section Laws.
Context {T : Type} `{laws : Uint128Laws T}.

Lemma val256_fits (x : uint256 T) : wf256 x -> fits 256 (val256 x).
Proof.
  intros [Hh Hl]. apply val128_fits in Hh, Hl.
  by apply (two_limbs (2 ^ 128) (2 ^ 128)).
Qed.

Lemma uint256_0_spec : wf256 (uint256_0 (T := T)) /\ val256 (uint256_0 (T := T)) = 0.
Proof.
  destruct uint128_0_spec as [W V]. split; [done|]. unfold val256. cbn [hi lo uint256_0]. lia.
Qed.

Lemma uint256_1_spec : wf256 (uint256_1 (T := T)) /\ val256 (uint256_1 (T := T)) = 1.
Proof.
  destruct uint128_0_spec as [W V], uint128_1_spec as [W1 V1].
  split; [done|]. unfold val256. cbn [hi lo uint256_1]. lia.
Qed.

Lemma GET_256_FROM_64_spec n : fits 64 n ->
  wf256 (GET_256_FROM_64 (T := T) n) /\ val256 (GET_256_FROM_64 (T := T) n) = n.
Proof.
  intros Hn. destruct uint128_0_spec as [W V], (GET_128_FROM_64_spec n Hn) as [W1 V1].
  split; [done|]. unfold val256. cbn [hi lo GET_256_FROM_64]. lia.
Qed.

Lemma OR_256_spec (x y : uint256 T) : wf256 x -> wf256 y ->
  wf256 (OR_256 x y) /\ val256 (OR_256 x y) = Z.lor (val256 x) (val256 y).
Proof.
  intros [Hxh Hxl] [Hyh Hyl].
  destruct (OR_128_spec _ _ Hxh Hyh) as [Wh Vh], (OR_128_spec _ _ Hxl Hyl) as [Wl Vl].
  split; [done|]. unfold val256. cbn [hi lo OR_256]. rewrite Vh, Vl.
  symmetry. apply lor_halves; [done|..]; by apply val128_fits.
Qed.

Lemma IS_ZERO_256_spec (x : uint256 T) : wf256 x -> IS_ZERO_256 x = (val256 x =? 0).
Proof.
  intros Hx. destruct uint256_0_spec as [W V]. unfold IS_ZERO_256.
  by rewrite EQUAL_256_spec, V.
Qed.

Lemma LEFT_SHIFT_256_small f (a : uint256 T) n : wf256 a -> 0 <= n < 128 ->
  exists r, LEFT_SHIFT_256_rec f a n = Some r /\ wf256 r /\
            val256 r = wrap 256 (val256 a * 2 ^ n).
Proof.
  intros Ha Hn. pose proof (val256_fits a Ha) as Fa. destruct Ha as [Hh Hl].
  assert (LEFT_SHIFT_256_rec f a n =
    if n =? 0 then Some (U256 (hi a) (lo a)) else
    b_lo ← LEFT_SHIFT_128 (lo a) n; l ← LEFT_SHIFT_128 (hi a) n;
    r ← RIGHT_SHIFT_128 (lo a) (128 - n); Some (U256 (OR_128 l r) b_lo)) as ->.
  { destruct f; cbn [LEFT_SHIFT_256_rec];
      rewrite (proj2 (Z.ltb_ge 256 n)), (proj2 (Z.leb_gt 128 n)) by lia; done. }
  destruct (Z.eqb_spec n 0) as [-> | ?].
  - eexists; split; [done|]. split; [done|]. rewrite Z.mul_1_r, wrap_id by done. done.
  - destruct (LEFT_SHIFT_128_spec (lo a) n Hl Hn) as (r1 & -> & W1 & V1).
    destruct (LEFT_SHIFT_128_spec (hi a) n Hh Hn) as (r2 & -> & W2 & V2).
    destruct (RIGHT_SHIFT_128_spec (lo a) (128 - n) Hl ltac:(lia)) as (r3 & -> & W3 & V3).
    destruct (OR_128_spec r2 r3 W2 W3) as [W4 V4].
    eexists; split; [done|]. split; [done|]. unfold val256. cbn [hi lo].
    destruct (shl_halves 128 n (val128 (hi a)) (val128 (lo a))) as (_ & _ & E);
      [lia | by apply val128_fits | by apply val128_fits |].
    rewrite V4, V1, V2, V3. rewrite !shiftl_mul, shiftr_div in E by lia. exact E.
Qed.

Lemma LEFT_SHIFT_256_spec (a : uint256 T) n : wf256 a -> 0 <= n <= 256 ->
  exists r, LEFT_SHIFT_256 a n = Some r /\ wf256 r /\ val256 r = wrap 256 (val256 a * 2 ^ n).
Proof.
  intros Ha Hn. unfold LEFT_SHIFT_256.
  assert (step : forall f x m, wf256 x -> 128 <= m <= 256 ->
    LEFT_SHIFT_256_rec (S f) x m = LEFT_SHIFT_256_rec f (U256 (lo x) uint128_0) (m - 128) /\
    wf256 (U256 (lo x) uint128_0) /\
    wrap 256 (val256 x * 2 ^ m) = wrap 256 (val256 (U256 (lo x) uint128_0) * 2 ^ (m - 128))).
  { intros f x m [Hh Hl] Hm. destruct uint128_0_spec as [W0 V0]. split; [|split; [done|]].
    - cbn [LEFT_SHIFT_256_rec]. by rewrite (proj2 (Z.ltb_ge 256 m)), (proj2 (Z.leb_le 128 m)) by lia.
    - unfold val256; cbn [hi lo]. rewrite V0, Z.add_0_r.
      replace m with (128 + (m - 128)) at 1 by lia. rewrite Z.pow_add_r by lia. unfold wrap.
      replace ((val128 (hi x) * 2 ^ 128 + val128 (lo x)) * (2 ^ 128 * 2 ^ (m - 128)))
        with (val128 (lo x) * 2 ^ 128 * 2 ^ (m - 128) + val128 (hi x) * 2 ^ (m - 128) * 2 ^ 256)
        by ring.
      by rewrite Z.mod_add by lia. }
  destruct (Z.lt_ge_cases n 128); [apply LEFT_SHIFT_256_small; [done|lia]|].
  destruct (step 1%nat a n Ha ltac:(lia)) as (-> & W1 & ->).
  destruct (Z.lt_ge_cases (n - 128) 128); [apply LEFT_SHIFT_256_small; [done|lia]|].
  destruct (step 0%nat _ (n - 128) W1 ltac:(lia)) as (-> & W2 & ->).
  apply LEFT_SHIFT_256_small; [done|lia].
Qed.

Lemma RIGHT_SHIFT_256_small f (a : uint256 T) n : wf256 a -> 0 <= n < 128 ->
  exists r, RIGHT_SHIFT_256_rec f a n = Some r /\ wf256 r /\ val256 r = val256 a / 2 ^ n.
Proof.
  intros Ha Hn. destruct Ha as [Hh Hl].
  assert (RIGHT_SHIFT_256_rec f a n =
    if n =? 0 then Some (U256 (hi a) (lo a)) else
    b_hi ← RIGHT_SHIFT_128 (hi a) n; l ← RIGHT_SHIFT_128 (lo a) n;
    r ← LEFT_SHIFT_128 (hi a) (128 - n); Some (U256 b_hi (OR_128 l r))) as ->.
  { destruct f; cbn [RIGHT_SHIFT_256_rec];
      rewrite (proj2 (Z.ltb_ge 256 n)), (proj2 (Z.leb_gt 128 n)) by lia; done. }
  destruct (Z.eqb_spec n 0) as [-> | ?].
  - eexists; split; [done|]. split; [done|]. by rewrite Z.div_1_r.
  - destruct (RIGHT_SHIFT_128_spec (hi a) n Hh Hn) as (r1 & -> & W1 & V1).
    destruct (RIGHT_SHIFT_128_spec (lo a) n Hl Hn) as (r2 & -> & W2 & V2).
    destruct (LEFT_SHIFT_128_spec (hi a) (128 - n) Hh ltac:(lia)) as (r3 & -> & W3 & V3).
    destruct (OR_128_spec r2 r3 W2 W3) as [W4 V4].
    eexists; split; [done|]. split; [done|]. unfold val256. cbn [hi lo].
    destruct (shr_halves 128 n (val128 (hi a)) (val128 (lo a))) as (_ & _ & E);
      [lia | by apply val128_fits | by apply val128_fits |].
    rewrite V4, V1, V2, V3. rewrite !shiftr_div, shiftl_mul in E by lia. exact E.
Qed.

Lemma RIGHT_SHIFT_256_spec (a : uint256 T) n : wf256 a -> 0 <= n <= 256 ->
  exists r, RIGHT_SHIFT_256 a n = Some r /\ wf256 r /\ val256 r = val256 a / 2 ^ n.
Proof.
  intros Ha Hn. unfold RIGHT_SHIFT_256.
  assert (step : forall f x m, wf256 x -> 128 <= m <= 256 ->
    RIGHT_SHIFT_256_rec (S f) x m = RIGHT_SHIFT_256_rec f (U256 uint128_0 (hi x)) (m - 128) /\
    wf256 (U256 uint128_0 (hi x)) /\
    val256 x / 2 ^ m = val256 (U256 uint128_0 (hi x)) / 2 ^ (m - 128)).
  { intros f x m [Hh Hl] Hm. destruct uint128_0_spec as [W0 V0]. split; [|split; [done|]].
    - cbn [RIGHT_SHIFT_256_rec]. by rewrite (proj2 (Z.ltb_ge 256 m)), (proj2 (Z.leb_le 128 m)) by lia.
    - unfold val256; cbn [hi lo]. rewrite V0, Z.mul_0_l, Z.add_0_l.
      replace m with (128 + (m - 128)) at 1 by lia. rewrite Z.pow_add_r, <- Z.div_div by lia.
      rewrite Z.div_add_l, (Z.div_small (val128 (lo x))) by (lia || by apply val128_fits).
      by rewrite Z.add_0_r. }
  destruct (Z.lt_ge_cases n 128); [apply RIGHT_SHIFT_256_small; [done|lia]|].
  destruct (step 1%nat a n Ha ltac:(lia)) as (-> & W1 & ->).
  destruct (Z.lt_ge_cases (n - 128) 128); [apply RIGHT_SHIFT_256_small; [done|lia]|].
  destruct (step 0%nat _ (n - 128) W1 ltac:(lia)) as (-> & W2 & ->).
  apply RIGHT_SHIFT_256_small; [done|lia].
Qed.

Lemma compare256_spec (a b : uint256 T) : wf256 a -> wf256 b ->
  compare256 a b = cmp_sign (val256 a) (val256 b).
Proof.
  intros [Hah Hal] [Hbh Hbl]. unfold compare256, val256.
  rewrite !compare128_spec by done.
  rewrite cmp_sign_split by (lia || by apply val128_fits).
  unfold cmp_sign. bdestr; first [reflexivity | lia].
Qed.

Lemma fls256_spec (n : uint256 T) : wf256 n -> 0 < val256 n -> fls256 n = Z.log2 (val256 n).
Proof.
  intros Hn Hpos. pose proof (nlz_split 128 (val128 (hi n)) (val128 (lo n)) ltac:(lia)) as E.
  destruct Hn as [Hh Hl], uint128_0_spec as [W0 V0].
  specialize (E (val128_fits _ Hh) (val128_fits _ Hl)).
  unfold fls256. rewrite compare128_spec, V0, !nlz128_spec by done.
  fold (val256 n) in E. unfold nlz_spec at 1 in E.
  rewrite (proj2 (Z.eqb_neq (val256 n) 0)) in E by lia.
  pose proof (val128_fits _ Hh) as F. unfold fits in F. unfold cmp_sign.
  destruct (Z.eqb_spec (val128 (hi n)) 0) as [Ez | ?].
  - rewrite Ez. change (negb (flag (0 <? 0) - flag (0 <? 0) =? 0)) with false. cbv iota. lia.
  - rewrite (proj2 (Z.ltb_lt 0 _)), (proj2 (Z.ltb_ge _ 0)) by lia. cbn [Z.b2z].
    change (1 - 0 =? 0) with false. cbn [negb]. lia.
Qed.

(** ** The product *)

Lemma MULT_256_512_spec (a b : uint256 T) : wf256 a -> wf256 b ->
  let cross := val128 (hi a) * val128 (lo b) + val128 (lo a) * val128 (hi b) in
  exists r, MULT_256_512 a b = Some r /\ wf256 (lo512 r) /\ wf256 (hi512 r) /\
    val256 (lo512 r) = wrap 256 (val256 a * val256 b) /\
    val256 (hi512 r) = wrap 256 (val128 (hi a) * val128 (hi b) + wrap 256 cross / 2 ^ 128).
Proof.
  intros [Hah Hal] [Hbh Hbl] cross. unfold MULT_256_512.
  destruct (MULT_128_256_spec _ _ Hah Hbh) as [Whh Vhh].
  destruct (MULT_128_256_spec _ _ Hal Hbl) as [Wll Vll].
  destruct (MULT_128_256_spec _ _ Hah Hbl) as [Whl Vhl].
  destruct (MULT_128_256_spec _ _ Hal Hbh) as [Wlh Vlh].
  destruct (SUM_256_256_spec _ _ Whl Wlh) as (cr & -> & Wc & Vc).
  destruct (LEFT_SHIFT_256_spec cr 128 Wc ltac:(lia)) as (s1 & -> & W1 & V1). cbn [mbind option_bind].
  destruct (SUM_256_256_spec _ _ Wll W1) as (l & -> & Wl & Vl).
  destruct (RIGHT_SHIFT_256_spec cr 128 Wc ltac:(lia)) as (s2 & -> & W2 & V2). cbn [mbind option_bind].
  destruct (SUM_256_256_spec _ _ Whh W2) as (h & -> & Wh & Vh).
  eexists; split; [done|]. cbn [hi512 lo512]. split; [done | split; [done | split]].
  - rewrite Vl, V1, Vc, Vll, Vhl, Vlh. unfold val256, wrap.
    rewrite Zmult_mod_idemp_l, Zplus_mod_idemp_r.
    rewrite <- (Z.mod_add _ (val128 (hi a) * val128 (hi b)) (2 ^ 256)) by lia.
    f_equal. change (2 ^ 256) with (2 ^ 128 * 2 ^ 128). ring.
  - rewrite Vh, V2, Vc, Vhh, Vhl, Vlh. done.
Qed.

(** The flag of [MULT_256_256]: raised when the high halves are both non-zero
    or the sum of the cross products needs more than 128 bits. *)
Definition mult_flag (a b : uint256 T) : bool :=
  negb (val128 (hi a) * val128 (hi b) =? 0) ||
  (2 ^ 128 <=? val128 (hi a) * val128 (lo b) + val128 (lo a) * val128 (hi b)).

Lemma MULT_256_256_spec (a b : uint256 T) : wf256 a -> wf256 b ->
  exists r, MULT_256_256 a b = Some (flag (mult_flag a b), r) /\ wf256 r /\
    val256 r = wrap 256 (val256 a * val256 b).
Proof.
  intros Ha Hb. unfold MULT_256_256.
  destruct (MULT_256_512_spec a b Ha Hb) as ([h l] & -> & Wl & Wh & Vl & Vh).
  cbn [hi512 lo512 mbind option_bind] in *. destruct uint256_0_spec as [W0 V0].
  rewrite EQUAL_256_spec, V0 by done. exists l. split; [|done]. do 2 f_equal.
  rewrite Vh. unfold mult_flag.
  destruct Ha as [Hah Hal], Hb as [Hbh Hbl].
  apply val128_fits in Hah, Hal, Hbh, Hbl. unfold fits in *.
  set (ah := val128 (hi a)) in *. set (al := val128 (lo a)) in *.
  set (bh := val128 (hi b)) in *. set (bl := val128 (lo b)) in *. clearbody ah al bh bl.
  assert (Hhh : 0 <= ah * bh <= (2 ^ 128 - 1) * (2 ^ 128 - 1)).
  { split; [apply Z.mul_nonneg_nonneg | apply Z.mul_le_mono_nonneg]; lia. }
  assert (Hc1 : 0 <= ah * bl < 2 ^ 256).
  { change (2 ^ 256) with (2 ^ 128 * 2 ^ 128).
    split; [apply Z.mul_nonneg_nonneg | apply Z.mul_lt_mono_nonneg]; lia. }
  assert (Hc2 : 0 <= al * bh < 2 ^ 256).
  { change (2 ^ 256) with (2 ^ 128 * 2 ^ 128).
    split; [apply Z.mul_nonneg_nonneg | apply Z.mul_lt_mono_nonneg]; lia. }
  pose proof (wrap_fits 256 (ah * bl + al * bh) ltac:(lia)) as Fw. unfold fits in Fw.
  assert (Hd : 0 <= wrap 256 (ah * bl + al * bh) / 2 ^ 128 < 2 ^ 128).
  { split; [apply Z.div_pos | apply Z.div_lt_upper_bound]; lia. }
  rewrite wrap_id by (unfold fits; lia).
  destruct (Z.eqb_spec (ah * bh) 0) as [Ez | Ez]; cbn [negb orb].
  - assert (ah * bl + al * bh < 2 ^ 256).
    { apply Z.mul_eq_0 in Ez as [-> | ->]; lia. }
    rewrite Ez, Z.add_0_l. rewrite wrap_id by (unfold fits; lia).
    destruct (Z.leb_spec (2 ^ 128) (ah * bl + al * bh)); cbn [Z.b2z].
    + rewrite (proj2 (Z.eqb_neq _ _)); [done|].
      assert (1 <= (ah * bl + al * bh) / 2 ^ 128) by (apply Z.div_le_lower_bound; lia). lia.
    + rewrite Z.div_small by lia. done.
  - rewrite (proj2 (Z.eqb_neq _ _)) by lia. done.
Qed.

Lemma mult_flag_false (a b : uint256 T) : wf256 a -> wf256 b ->
  mult_flag a b = false -> val256 a * val256 b < 2 ^ 257.
Proof.
  intros [Hah Hal] [Hbh Hbl]. unfold mult_flag, val256.
  apply val128_fits in Hah, Hal, Hbh, Hbl. unfold fits in *.
  set (ah := val128 (hi a)) in *. set (al := val128 (lo a)) in *.
  set (bh := val128 (hi b)) in *. set (bl := val128 (lo b)) in *. clearbody ah al bh bl.
  intros [Ez Ec]%orb_false_iff. apply negb_false_iff, Z.eqb_eq in Ez. apply Z.leb_gt in Ec.
  assert (al * bl <= (2 ^ 128 - 1) * (2 ^ 128 - 1)) by (apply Z.mul_le_mono_nonneg; lia).
  replace ((ah * 2 ^ 128 + al) * (bh * 2 ^ 128 + bl))
    with ((ah * bh) * 2 ^ 256 + (ah * bl + al * bh) * 2 ^ 128 + al * bl) by ring.
  lia.
Qed.

Lemma mult_flag_true (a b : uint256 T) : wf256 a -> wf256 b ->
  mult_flag a b = true -> 2 ^ 256 <= val256 a * val256 b.
Proof.
  intros [Hah Hal] [Hbh Hbl]. unfold mult_flag, val256.
  apply val128_fits in Hah, Hal, Hbh, Hbl. unfold fits in *.
  set (ah := val128 (hi a)) in *. set (al := val128 (lo a)) in *.
  set (bh := val128 (hi b)) in *. set (bl := val128 (lo b)) in *. clearbody ah al bh bl.
  assert (0 <= ah * bh) by (apply Z.mul_nonneg_nonneg; lia).
  assert (0 <= ah * bl) by (apply Z.mul_nonneg_nonneg; lia).
  assert (0 <= al * bh) by (apply Z.mul_nonneg_nonneg; lia).
  assert (0 <= al * bl) by (apply Z.mul_nonneg_nonneg; lia).
  replace ((ah * 2 ^ 128 + al) * (bh * 2 ^ 128 + bl))
    with ((ah * bh) * 2 ^ 256 + (ah * bl + al * bh) * 2 ^ 128 + al * bl) by ring.
  intros [Ez | Ec]%orb_prop.
  - apply negb_true_iff, Z.eqb_neq in Ez. lia.
  - apply Z.leb_le in Ec. lia.
Qed.

(** The comparisons of a sign with zero, as the code writes them. *)
Lemma cmp_sign_cases x y :
  x < y /\ cmp_sign x y = -1 \/ x = y /\ cmp_sign x y = 0 \/ y < x /\ cmp_sign x y = 1.
Proof. unfold cmp_sign. destruct (Z.ltb_spec y x), (Z.ltb_spec x y); cbn [Z.b2z]; lia. Qed.

Lemma cmp_sign_ge0 x y : (0 <=? cmp_sign x y) = (y <=? x).
Proof. destruct (cmp_sign_cases x y) as [[? ->] | [[? ->] | [? ->]]]; symmetry; lia. Qed.

Lemma cmp_sign_lt0 x y : (cmp_sign x y <? 0) = (x <? y).
Proof. destruct (cmp_sign_cases x y) as [[? ->] | [[? ->] | [? ->]]]; symmetry; lia. Qed.

Lemma cmp_sign_eq0 x y : (cmp_sign x y =? 0) = (x =? y).
Proof. destruct (cmp_sign_cases x y) as [[? ->] | [[? ->] | [? ->]]]; symmetry; lia. Qed.

(** ** Shift-and-subtract division *)

(** One iteration: with [d = b * 2^n] and [a < b * 2^(n+1)], subtracting [d]
    when it fits leaves [a < b * 2^n] and appends one quotient bit. *)
Lemma divmod_step b a q n : 0 < b -> 0 <= n -> 0 <= a < b * 2 ^ (n + 1) ->
  let d := b * 2 ^ n in
  let a' := if d <=? a then a - d else a in
  let q' := if d <=? a then 2 * q + 1 else 2 * q in
  0 <= a' < b * 2 ^ n /\ q' * 2 ^ n + a' / b = q * 2 ^ (n + 1) + a / b /\ a' mod b = a mod b.
Proof.
  intros Hb Hn Ha d a' q'. rewrite Z.pow_add_r in * by lia. change (2 ^ 1) with 2 in *.
  subst a' q'. destruct (Z.leb_spec d a) as [Hle | Hgt]; subst d.
  - split; [lia|]. replace (a - b * 2 ^ n) with (a + - 2 ^ n * b) by ring.
    rewrite Z.div_add, Z.mod_add by lia. split; [ring | done].
  - split; [lia|]. split; [ring | done].
Qed.

Lemma lor_1_even x : Z.lor (2 * x) 1 = 2 * x + 1.
Proof.
  replace (2 * x) with (x * 2 ^ 1) by lia. apply lor_disjoint; [lia | unfold fits; lia].
Qed.

Lemma pow2_half n : 0 < n -> 2 ^ n = 2 * 2 ^ (n - 1).
Proof. intros. rewrite <- Z.pow_succ_r by lia. f_equal. lia. Qed.

Lemma divmod_loop_256_spec (n : nat) (b : Z) (a d q : uint256 T) :
  0 < b -> wf256 a -> wf256 d -> wf256 q ->
  val256 d = (if (n =? 0)%nat then val256 d else b * 2 ^ (Z.of_nat n - 1)) ->
  val256 a < b * 2 ^ Z.of_nat n ->
  val256 q * 2 ^ Z.of_nat n + val256 a / b < 2 ^ 256 ->
  exists q' r, divmod_loop_256 n a d q = Some (q', r) /\ wf256 q' /\ wf256 r /\
    val256 q' = val256 q * 2 ^ Z.of_nat n + val256 a / b /\ val256 r = val256 a mod b.
Proof.
  revert a d q. induction n as [|n IH]; intros a d q Hb Wa Wd Wq Ed Ha Hq.
  - pose proof (val256_fits a Wa) as Fa. unfold fits in Fa.
    change (2 ^ Z.of_nat 0) with 1 in *. rewrite Z.mul_1_r in Ha.
    do 2 eexists; split; [done|]. split; [done | split; [done|]].
    rewrite Z.div_small, Z.mod_small by lia. lia.
  - pose proof (val256_fits a Wa) as Fa. pose proof (val256_fits d Wd) as Fd.
    pose proof (val256_fits q Wq) as Fq. unfold fits in Fa, Fd, Fq.
    replace (Z.of_nat (S n)) with (Z.of_nat n + 1) in * by lia.
    cbn [Nat.eqb] in Ed. replace (Z.of_nat n + 1 - 1) with (Z.of_nat n) in Ed by lia.
    destruct (divmod_step b (val256 a) (val256 q) (Z.of_nat n)) as (Ra & Eq & Em); [lia..|].
    rewrite <- Ed in Ra, Eq, Em.
    assert (Hpow : 1 <= 2 ^ Z.of_nat n) by (pose proof (Z.pow_pos_nonneg 2 (Z.of_nat n)); lia).
    assert (Hq2 : 2 * val256 q < 2 ^ 256).
    { assert (0 <= val256 a / b) by (apply Z.div_pos; lia).
      rewrite Z.pow_add_r in Hq by lia. change (2 ^ 1) with 2 in Hq.
      assert (val256 q * 2 * 1 <= val256 q * 2 * 2 ^ Z.of_nat n)
        by (apply Z.mul_le_mono_nonneg_l; lia). lia. }
    cbn [divmod_loop_256].
    destruct (LEFT_SHIFT_256_spec q 1 Wq ltac:(lia)) as (q1 & -> & W1 & V1). cbn [mbind option_bind].
    change (2 ^ 1) with 2 in V1. rewrite wrap_id in V1 by (unfold fits; lia).
    rewrite compare256_spec by done.
    destruct uint256_1_spec as [Wone Vone].
    destruct (OR_256_spec q1 uint256_1 W1 Wone) as [Wor Vor].
    rewrite Vone, V1, Z.mul_comm, lor_1_even in Vor.
    destruct (SUBTRACT_256_256_spec a d Wa Wd) as (f & r & Es & Ws & Vs).
    destruct (RIGHT_SHIFT_256_spec d 1 Wd ltac:(lia)) as (d1 & Ed1 & Wd1 & Vd1).
    rewrite cmp_sign_ge0.
    assert (Hd1 : val256 d1 = (if (n =? 0)%nat then val256 d1 else b * 2 ^ (Z.of_nat n - 1))).
    { destruct (Nat.eqb_spec n 0); [done|]. rewrite Vd1, Ed. change (2 ^ 1) with 2.
      rewrite (pow2_half (Z.of_nat n)) by lia.
      replace (b * (2 * 2 ^ (Z.of_nat n - 1))) with (b * 2 ^ (Z.of_nat n - 1) * 2) by ring.
      by rewrite Z.div_mul by lia. }
    destruct (Z.leb_spec (val256 d) (val256 a)) as [Hle | Hgt].
    + rewrite Es, Ed1. cbn [mbind option_bind snd].
      rewrite wrap_id in Vs by (unfold fits; lia). rewrite <- Vs, <- Vor in *.
      destruct (IH r d1 (OR_256 q1 uint256_1) Hb Ws Wd1 Wor Hd1) as (q' & r' & -> & ? & ? & ? & ?);
        [lia|lia|]. do 2 eexists; split; [done|]. split; [done | split; [done|]]. lia.
    + rewrite Ed1. cbn [mbind option_bind]. rewrite <- (Z.mul_comm (val256 q)), <- V1 in Eq.
      destruct (IH a d1 q1 Hb Wa Wd1 W1 Hd1) as (q' & r' & -> & ? & ? & ? & ?);
        [lia|lia|]. do 2 eexists; split; [done|]. split; [done | split; [done|]]. lia.
Qed.

(** [divmod_impl_256] fails exactly on a zero divisor, and otherwise returns
    the Euclidean quotient and remainder. *)
Lemma divmod_impl_256_spec (a b : uint256 T) : wf256 a -> wf256 b -> val256 b <> 0 ->
  exists q r, divmod_impl_256 a b = Some (q, r) /\ wf256 q /\ wf256 r /\
    val256 q = val256 a / val256 b /\ val256 r = val256 a mod val256 b.
Proof.
  intros Wa Wb Hb. pose proof (val256_fits a Wa) as Fa. pose proof (val256_fits b Wb) as Fb.
  unfold fits in Fa, Fb. unfold divmod_impl_256.
  destruct uint256_0_spec as [W0 V0], uint256_1_spec as [W1 V1].
  rewrite !compare256_spec, V0 by done. unfold cmp_sign at 1.
  rewrite (proj2 (Z.ltb_lt 0 _)), (proj2 (Z.ltb_ge _ 0)) by lia.
  change (flag true - flag false =? 0) with false. cbv iota.
  unfold cmp_sign. destruct (Z.lt_trichotomy (val256 a) (val256 b)) as [Hlt | [Heq | Hgt]].
  - rewrite (proj2 (Z.ltb_lt (val256 a) _)), (proj2 (Z.ltb_ge _ (val256 a))) by lia.
    change (flag true - flag false =? 1) with true. cbv iota.
    do 2 eexists; split; [done|]. rewrite Z.div_small, Z.mod_small, V0 by lia. done.
  - rewrite Heq, Z.ltb_irrefl. change (flag false - flag false =? 1) with false.
    change (flag false - flag false =? 0) with true. cbv iota.
    do 2 eexists; split; [done|]. rewrite Z.div_same, Z.mod_same, V1, V0 by lia. done.
  - rewrite (proj2 (Z.ltb_ge (val256 a) _)), (proj2 (Z.ltb_lt _ (val256 a))) by lia.
    change (flag false - flag true =? 1) with false.
    change (flag false - flag true =? 0) with false. cbv iota.
    rewrite !fls256_spec by (done || lia).
    set (s := Z.log2 (val256 a) - Z.log2 (val256 b)).
    pose proof (Z.log2_le_mono _ _ (Z.lt_le_incl _ _ Hgt)).
    assert (Ha0 : 0 < val256 a) by lia. assert (Hb0 : 0 < val256 b) by lia.
    pose proof (Z.log2_spec _ Ha0). pose proof (Z.log2_spec _ Hb0).
    pose proof (Z.log2_nonneg (val256 b)).
    assert (Z.log2 (val256 a) < 256) by (apply Z.log2_lt_pow2; lia).
    assert (Hsa : val256 b * 2 ^ s < 2 ^ 256).
    { apply Z.lt_le_trans with (2 ^ Z.succ (Z.log2 (val256 b)) * 2 ^ s).
      - apply Z.mul_lt_mono_pos_r; [apply Z.pow_pos_nonneg|]; lia.
      - rewrite <- Z.pow_add_r by lia. apply Z.pow_le_mono_r; lia. }
    assert (0 <= val256 b * 2 ^ s) by (apply Z.mul_nonneg_nonneg; lia).
    assert (Hup : val256 a < val256 b * 2 ^ (s + 1)).
    { apply Z.lt_le_trans with (2 ^ Z.log2 (val256 b) * 2 ^ (s + 1)).
      - rewrite <- Z.pow_add_r by lia.
        replace (Z.log2 (val256 b) + (s + 1)) with (Z.succ (Z.log2 (val256 a))) by lia. lia.
      - apply Z.mul_le_mono_nonneg_r; lia. }
    destruct (LEFT_SHIFT_256_spec b s Wb ltac:(lia)) as (d & -> & Wd & Vd). cbn [mbind option_bind].
    rewrite wrap_id in Vd by (unfold fits; lia).
    destruct (divmod_loop_256_spec (Z.to_nat (s + 1)) (val256 b) a d uint256_0)
      as (q & r & -> & Wq & Wr & Vq & Vr); try done; rewrite ?V0, ?Z2Nat.id by lia; try lia.
    { destruct (Nat.eqb_spec (Z.to_nat (s + 1)) 0); [done|]. rewrite Vd. do 2 f_equal. lia. }
    { rewrite Z.mul_0_l, Z.add_0_l. apply Z.le_lt_trans with (val256 a); [|lia].
      apply Z.div_le_upper_bound; nia. }
    do 2 eexists; split; [done|]. split; [done | split; [done|]].
    rewrite V0, Z.mul_0_l, Z.add_0_l in Vq. done.
Qed.

Lemma DIV_256_spec (a b : uint256 T) : wf256 a -> wf256 b -> val256 b <> 0 ->
  exists q, DIV_256 a b = Some q /\ wf256 q /\ val256 q = val256 a / val256 b.
Proof.
  intros Wa Wb Hb. destruct (divmod_impl_256_spec a b Wa Wb Hb) as (q & r & E & Wq & _ & Vq & _).
  exists q. unfold DIV_256. by rewrite E.
Qed.

Lemma divmod_impl_256_zero (a b : uint256 T) : wf256 b -> val256 b = 0 ->
  divmod_impl_256 a b = None.
Proof.
  intros Wb Hb. destruct uint256_0_spec as [W0 V0]. unfold divmod_impl_256.
  by rewrite compare256_spec, V0, Hb by done.
Qed.

(** ** Fixed-point operations, [10^18] being one coin *)

Lemma ten18_spec : fits 64 ten18.
Proof. done. Qed.

(** A product that stays below [2^256] is exact, whatever the flag says. *)
Lemma mult_exact (x y : uint256 T) : wf256 x -> wf256 y -> val256 x * val256 y < 2 ^ 256 ->
  exists f r, MULT_256_256 x y = Some (f, r) /\ wf256 r /\ val256 r = val256 x * val256 y.
Proof.
  intros Wx Wy Hlt. destruct (MULT_256_256_spec x y Wx Wy) as (r & E & Wr & Vr).
  pose proof (val256_fits x Wx) as Fx. pose proof (val256_fits y Wy) as Fy. unfold fits in Fx, Fy.
  rewrite wrap_id in Vr; [by eauto|]. split; [apply Z.mul_nonneg_nonneg|]; lia.
Qed.

Lemma mult_const (x : uint256 T) n : wf256 x -> fits 64 n -> val256 x * n < 2 ^ 256 ->
  exists f r, MULT_256_256 x (GET_256_FROM_64 n) = Some (f, r) /\ wf256 r /\
    val256 r = val256 x * n.
Proof.
  intros Wx Hn Hlt. destruct (GET_256_FROM_64_spec n Hn) as [Wn Vn].
  rewrite <- Vn in Hlt. destruct (mult_exact x _ Wx Wn Hlt) as (f & r & E & W & V).
  rewrite Vn in V. eauto.
Qed.

Lemma sum_exact (x y : uint256 T) : wf256 x -> wf256 y -> val256 x + val256 y < 2 ^ 256 ->
  wf256 (snd (SUM_256_256 x y)) /\ val256 (snd (SUM_256_256 x y)) = val256 x + val256 y.
Proof.
  intros Wx Wy Hlt. destruct (SUM_256_256_spec x y Wx Wy) as (r & E & Wr & Vr).
  pose proof (val256_fits x Wx) as Fx. pose proof (val256_fits y Wy) as Fy. unfold fits in Fx, Fy.
  rewrite E. cbn [snd]. split; [done|]. rewrite Vr. apply wrap_id. unfold fits. lia.
Qed.

(** [_MULT_256_COIN] rounds [a * b / 10^18] down, or to nearest. *)
Lemma MULT_256_COIN_spec (a b : uint256 T) (rnd : bool) : wf256 a -> wf256 b ->
  val256 a * val256 b < 2 ^ 256 ->
  exists f r, _MULT_256_COIN a b rnd = Some (f, r) /\ wf256 r /\
    val256 r = (if rnd then (val256 a * val256 b + ten18 / 2) / ten18
                else val256 a * val256 b / ten18).
Proof.
  intros Wa Wb Hlt. pose proof (val256_fits a Wa) as Fa. pose proof (val256_fits b Wb) as Fb.
  unfold fits in Fa, Fb. assert (0 <= val256 a * val256 b) by (apply Z.mul_nonneg_nonneg; lia).
  destruct (mult_exact a b Wa Wb Hlt) as (f & p & E & Wp & Vp). unfold _MULT_256_COIN. rewrite E.
  cbn [mbind option_bind]. destruct (GET_256_FROM_64_spec ten18 ten18_spec) as [Wt Vt].
  destruct (GET_256_FROM_64_spec 500000000000000000 ltac:(done)) as [W5 V5].
  destruct (divmod_impl_256_spec p _ Wp Wt) as (q & r & -> & Wq & Wr & Vq & Vr);
    [rewrite Vt; done|]. cbn [mbind option_bind]. rewrite Vt, Vp in Vq, Vr.
  rewrite compare256_spec, V5 by done. destruct uint256_1_spec as [W1 V1].
  unfold ten18 in *. change (1000000000000000000 / 2) with 500000000000000000.
  destruct (sum_exact q uint256_1 Wq W1) as [Ws Vs]; [rewrite V1; dlia|].
  rewrite cmp_sign_ge0. destruct rnd; cbn [andb]; [|by do 2 eexists].
  destruct (Z.leb_spec 500000000000000000 (val256 r)); do 2 eexists; (split; [done | split; [done|]]).
  - rewrite Vs, V1. dlia.
  - dlia.
Qed.

Lemma coin_times10_spec n (x : uint256 T) : wf256 x -> val256 x * 10 ^ Z.of_nat n < 2 ^ 256 ->
  exists r, coin_times10 n x = Some r /\ wf256 r /\ val256 r = val256 x * 10 ^ Z.of_nat n.
Proof.
  revert x. induction n as [|n IH]; intros x Wx Hlt.
  - exists x. rewrite Z.mul_1_r. done.
  - rewrite Nat2Z.inj_succ, Z.pow_succ_r, Z.mul_assoc in Hlt by lia.
    pose proof (val256_fits x Wx) as Fx. unfold fits in Fx.
    assert (H10 : val256 x * 10 < 2 ^ 256).
    { apply Z.le_lt_trans with (val256 x * 10 * 10 ^ Z.of_nat n); [|lia].
      pose proof (Z.pow_pos_nonneg 10 (Z.of_nat n)).
      rewrite <- (Z.mul_1_r (val256 x * 10)) at 1. apply Z.mul_le_mono_nonneg_l; lia. }
    destruct (mult_const x 10 Wx ltac:(done) H10) as (f & y & E & Wy & Vy).
    cbn [coin_times10]. rewrite E. cbn [mbind option_bind]. rewrite <- Vy in Hlt.
    destruct (IH y Wy Hlt) as (r & -> & Wr & Vr). exists r. split; [done|]. split; [done|].
    rewrite Vr, Vy, Nat2Z.inj_succ, Z.pow_succ_r by lia. ring.
Qed.

Lemma coin_digit p b (f rem : Z) : 0 < b -> 0 < p -> 0 <= f -> 0 <= rem < b ->
  (f + 1) * (10 * p) <= 2 ^ 256 -> 10 * b <= 2 ^ 256 ->
  let t := rem * 10 / b in let r := (rem * 10) mod b in
  rem * 10 < 2 ^ 256 /\ f * 10 < 2 ^ 256 /\ 0 <= t /\ f * 10 + t < 2 ^ 256 /\ 0 <= r < b /\
  (f * 10 + t + 1) * p <= 2 ^ 256 /\
  (f * 10 + t) * p + r * p / b = f * (10 * p) + rem * (10 * p) / b.
Proof.
  intros Hb Hp Hf Hrem Hfp Hb10 t r.
  pose proof (Z.div_mod (rem * 10) b ltac:(lia)) as E. fold t r in E.
  assert (0 <= r < b) by (apply Z.mod_pos_bound; lia).
  assert (0 <= t) by (apply Z.div_pos; lia).
  assert (t < 10) by (apply Z.div_lt_upper_bound; lia).
  assert ((f * 10 + t + 1) * p <= (f + 1) * (10 * p)).
  { replace ((f + 1) * (10 * p)) with ((f * 10 + 10) * p) by ring.
    apply Z.mul_le_mono_nonneg_r; lia. }
  assert ((f * 10 + t + 1) * 1 <= (f * 10 + t + 1) * p) by (apply Z.mul_le_mono_nonneg_l; lia).
  repeat split; try lia.
  replace (rem * (10 * p)) with (r * p + t * p * b)
    by (replace (rem * (10 * p)) with (rem * 10 * p) by ring; rewrite E; ring).
  rewrite Z.div_add by lia. ring.
Qed.

Lemma coin_fraction_spec n (f rem b : uint256 T) : wf256 f -> wf256 rem -> wf256 b ->
  0 <= val256 rem < val256 b -> 10 * val256 b <= 2 ^ 256 ->
  (val256 f + 1) * 10 ^ Z.of_nat n <= 2 ^ 256 ->
  exists m f', coin_fraction n f rem b = Some (m, f') /\ wf256 f' /\
    val256 f' * 10 ^ Z.of_nat m
    = val256 f * 10 ^ Z.of_nat n + val256 rem * 10 ^ Z.of_nat n / val256 b.
Proof.
  revert f rem. induction n as [|n IH]; intros f rem Wf Wr Wb Hr Hb Hf.
  - exists O, f. split; [done|]. split; [done|]. change (10 ^ Z.of_nat 0) with 1.
    rewrite !Z.mul_1_r, Z.div_small by lia. lia.
  - rewrite Nat2Z.inj_succ, Z.pow_succ_r in * by lia.
    pose proof (val256_fits f Wf) as Ff. unfold fits in Ff.
    destruct uint256_0_spec as [W0 V0]. cbn [coin_fraction].
    rewrite compare256_spec, V0 by done. unfold cmp_sign. rewrite (proj2 (Z.ltb_ge _ 0)) by lia.
    destruct (Z.ltb_spec 0 (val256 rem)) as [Hpos | Hz]; cbn [Z.b2z].
    + change (0 <? 1 - 0) with true. cbv iota.
      destruct (coin_digit (10 ^ Z.of_nat n) (val256 b) (val256 f) (val256 rem))
        as (L1 & L2 & P1 & L3 & L4 & L5 & Eq); try lia.
      destruct (mult_const f 10 Wf ltac:(done) L2) as (f1 & fr & -> & W1 & V1).
      destruct (mult_const rem 10 Wr ltac:(done) L1) as (f2 & r2 & E2 & W2 & V2).
      cbn [mbind option_bind]. rewrite E2. cbn [mbind option_bind].
      destruct (divmod_impl_256_spec r2 b W2 Wb ltac:(lia)) as (t & r3 & -> & Wt & W3 & Vt & V3).
      cbn [mbind option_bind]. rewrite V2 in Vt, V3. rewrite <- Vt, <- V3, <- V1 in *.
      destruct (sum_exact fr t W1 Wt) as [Ws Vs]; [lia|]. rewrite <- Vs in *.
      destruct (IH _ r3 Ws W3 Wb L4 Hb L5) as (m & f' & -> & Wf' & Vf'). exists m, f'.
      split; [done|]. split; [done|]. lia.
    + change (0 <? 0 - 0) with false. cbv iota. exists (S n), f. split; [done|]. split; [done|].
      replace (val256 rem) with 0 by lia. rewrite Nat2Z.inj_succ, Z.pow_succ_r by lia.
      rewrite Z.mul_0_l, Z.div_0_l by lia. lia.
Qed.

Lemma coin_scale_spec fuel c (a b : uint256 T) : wf256 a -> wf256 b -> 0 < val256 a ->
  10 * val256 b <= 2 ^ 256 -> val256 b <= val256 a * 10 ^ Z.of_nat fuel ->
  exists k a', coin_scale fuel c a b = Some ((c + k)%nat, a') /\ wf256 a' /\
    val256 a' = val256 a * 10 ^ Z.of_nat k /\ val256 b <= val256 a' /\
    (k <> O -> val256 a' < 10 * val256 b).
Proof.
  revert c a. induction fuel as [|fuel IH]; intros c a Wa Wb Ha Hb Hf;
    cbn [coin_scale]; rewrite compare256_spec by done;
    rewrite cmp_sign_lt0;
    (destruct (Z.ltb_spec (val256 a) (val256 b)) as [Hlt | Hge];
      [| exists O, a; rewrite Nat.add_0_r, Z.mul_1_r; done]).
  - rewrite Z.mul_1_r in Hf. lia.
  - destruct (mult_const a 10 Wa ltac:(done) ltac:(lia)) as (f & a1 & -> & W1 & V1).
    cbn [mbind option_bind]. rewrite Nat2Z.inj_succ, Z.pow_succ_r, Z.mul_assoc in Hf by lia.
    rewrite <- V1 in Hf.
    destruct (IH (S c) a1 W1 Wb ltac:(lia) Hb Hf) as (k & a' & -> & W' & V' & Hle & Hk).
    exists (S k), a'. split; [do 2 f_equal; lia|]. split; [done|].
    split; [rewrite V', V1, Nat2Z.inj_succ, Z.pow_succ_r by lia; ring|]. split; [done|].
    intros _. destruct k as [|k]; [rewrite V', Z.mul_1_r; lia | apply Hk; lia].
Qed.

(** With [b] at most a tenth of the range and the quotient representable,
    [DIV_256_COIN] returns within [78] iterations of its scaling loop and
    the result is [a * 10^18 / b] rounded down. *)
Lemma pow10_78 : 2 ^ 256 <= 10 ^ Z.of_nat 78.
Proof. apply Z.leb_le. vm_compute. reflexivity. Qed.

Lemma coin_quotient a b k : 0 < b -> 0 <= k ->
  (a * 10 ^ k / b * 10 ^ 18 + (a * 10 ^ k) mod b * 10 ^ 18 / b) / 10 ^ k = a * 10 ^ 18 / b.
Proof.
  intros Hb Hk. pose proof (Z.pow_pos_nonneg 10 k ltac:(lia) Hk).
  set (A := a * 10 ^ k).
  rewrite Z.add_comm, <- Z.div_add, <- Z.mul_assoc by lia.
  replace (A mod b * 10 ^ 18 + A / b * (10 ^ 18 * b)) with ((b * (A / b) + A mod b) * 10 ^ 18) by ring.
  rewrite <- Z.div_mod, Z.div_div by lia. subst A.
  replace (a * 10 ^ k * 10 ^ 18) with (a * 10 ^ 18 * 10 ^ k) by ring.
  by rewrite Z.div_mul_cancel_r by lia.
Qed.

Lemma DIV_256_COIN_spec fuel (a b : uint256 T) : wf256 a -> wf256 b -> (78 <= fuel)%nat ->
  0 < val256 b -> 10 * val256 b <= 2 ^ 256 ->
  (val256 a / val256 b + 1) * ten18 <= 2 ^ 256 ->
  exists r, DIV_256_COIN fuel a b = Some r /\ wf256 r /\
    val256 r = val256 a * ten18 / val256 b.
Proof.
  intros Wa Wb Hf Hb Hb10 Hq. pose proof (val256_fits a Wa) as Fa. unfold fits in Fa.
  destruct uint256_0_spec as [W0 V0]. unfold DIV_256_COIN.
  rewrite compare256_spec, V0, cmp_sign_eq0 by done.
  destruct (Z.eqb_spec (val256 a) 0) as [E0 | Hne].
  { exists uint256_0. rewrite E0, V0, Z.mul_0_l, Z.div_0_l by lia. done. }
  destruct (coin_scale_spec fuel 0 a b) as (k & A & -> & WA & VA & HA & Hk); try done; try lia.
  { pose proof pow10_78. pose proof (Z.pow_le_mono_r 10 (Z.of_nat 78) (Z.of_nat fuel)).
    assert (1 * 10 ^ Z.of_nat fuel <= val256 a * 10 ^ Z.of_nat fuel)
      by (apply Z.mul_le_mono_nonneg_r; lia). lia. }
  cbn [mbind option_bind Nat.add].
  destruct (divmod_impl_256_spec A b WA Wb ltac:(lia)) as (q & rem & -> & Wq & Wr & Vq & Vr).
  cbn [mbind option_bind].
  pose proof (Z.mod_pos_bound (val256 A) (val256 b) Hb) as Hrem. rewrite <- Vr in Hrem.
  destruct (coin_fraction_spec 18 uint256_0 rem b W0 Wr Wb Hrem Hb10) as (m & f & -> & Wf & Vf);
    [rewrite V0; apply Z.leb_le; vm_compute; reflexivity|]. cbn [mbind option_bind].
  rewrite V0, Z.mul_0_l, Z.add_0_l in Vf. change (10 ^ Z.of_nat 18) with ten18 in Vf.
  assert (Hfr : 0 <= val256 rem * ten18 / val256 b < ten18).
  { split; [apply Z.div_pos; unfold ten18; lia|]. apply Z.div_lt_upper_bound; [lia|].
    apply Z.mul_lt_mono_pos_r; [done | lia]. }
  assert (Hqb : (val256 q + 1) * ten18 <= 2 ^ 256).
  { rewrite Vq. destruct k as [|k]; [rewrite VA, Z.mul_1_r; done|].
    assert (val256 A / val256 b < 10) by (apply Z.div_lt_upper_bound; [|specialize (Hk ltac:(done))]; lia).
    unfold ten18. lia. }
  destruct (mult_const q ten18 Wq ten18_spec) as (f1 & q1 & -> & Wq1 & Vq1);
    [unfold ten18 in *; lia|]. cbn [mbind option_bind].
  destruct (coin_times10_spec m f Wf) as (fr & -> & Wfr & Vfr); [unfold ten18 in *; lia|].
  cbn [mbind option_bind]. rewrite Vf in Vfr.
  destruct (sum_exact q1 fr Wq1 Wfr) as [Ws Vs]; [unfold ten18 in *; lia|].
  destruct (GET_256_FROM_64_spec 1 ltac:(done)) as [W1 V1].
  assert (Hp : 0 < 10 ^ Z.of_nat k) by (apply Z.pow_pos_nonneg; lia).
  destruct (coin_times10_spec k (GET_256_FROM_64 1) W1) as (loan & -> & Wl & Vl).
  { rewrite V1. destruct k as [|k]; [done|]. specialize (Hk ltac:(done)).
    assert (1 * 10 ^ Z.of_nat (S k) <= val256 a * 10 ^ Z.of_nat (S k))
      by (apply Z.mul_le_mono_nonneg_r; lia). lia. }
  cbn [mbind option_bind]. rewrite V1, Z.mul_1_l in Vl.
  destruct (DIV_256_spec _ loan Ws Wl ltac:(lia)) as (r & -> & Wr' & Vr').
  exists r. split; [done|]. split; [done|].
  rewrite Vr', Vs, Vl, Vq1, Vfr, Vq, Vr, VA. apply (coin_quotient (val256 a) (val256 b)); lia.
Qed.

Lemma times10_even v : (wrap 256 (v * 10)) <> 2 ^ 256 - 1.
Proof.
  unfold wrap. intros E. pose proof (Z.div_mod (v * 10) (2 ^ 256) ltac:(lia)) as D.
  rewrite E in D. lia.
Qed.

Lemma coin_scale_hangs fuel c (a b : uint256 T) : wf256 a -> wf256 b ->
  val256 b = 2 ^ 256 - 1 -> val256 a <> 2 ^ 256 - 1 -> coin_scale fuel c a b = None.
Proof.
  intros Wa Wb Hb. revert c a Wa. induction fuel as [|fuel IH]; intros c a Wa Ha;
    pose proof (val256_fits a Wa) as Fa; unfold fits in Fa;
    cbn [coin_scale]; rewrite compare256_spec, cmp_sign_lt0, (proj2 (Z.ltb_lt _ _)) by (done || lia).
  - done.
  - destruct (GET_256_FROM_64_spec 10 ltac:(done)) as [W10 V10].
    destruct (MULT_256_256_spec a _ Wa W10) as (r & -> & Wr & Vr). cbn [mbind option_bind].
    apply IH; [done|]. rewrite Vr, V10. apply times10_even.
Qed.

End Laws.

(** ** Properties of the 256-bit arithmetic *)

(** C37: long division.  On either build, for every dividend and every
    non-zero divisor, [divmod_impl_256] returns the Euclidean quotient and
    remainder; on a zero divisor it raises [SIGFPE]. *)
Theorem divmod_256_correct `{laws : Uint128Laws T} (a b : uint256 T) :
  wf256 a -> wf256 b ->
  (val256 b = 0 -> divmod_impl_256 a b = None) /\
  (val256 b <> 0 -> exists q r, divmod_impl_256 a b = Some (q, r) /\ wf256 q /\ wf256 r /\
    val256 q = val256 a / val256 b /\ val256 r = val256 a mod val256 b).
Proof.
  intros Wa Wb. split; intros Hb.
  - by apply divmod_impl_256_zero.
  - by apply divmod_impl_256_spec.
Qed.

Lemma divmod_256_correct_witness :
  exists q r, divmod_impl_256 (T := Portable.uint128) (U256 (Portable.U128 5 7) (Portable.U128 1 2))
    (U256 (Portable.U128 0 0) (Portable.U128 3 1)) = Some (q, r) /\ wf256 q /\ wf256 r /\
    val256 q = val256 (U256 (Portable.U128 5 7) (Portable.U128 1 2)) / 18446744073709551619 /\
    val256 r = val256 (U256 (Portable.U128 5 7) (Portable.U128 1 2)) mod 18446744073709551619.
Proof.
  destruct (divmod_256_correct (T := Portable.uint128)
    (U256 (Portable.U128 5 7) (Portable.U128 1 2))
    (U256 (Portable.U128 0 0) (Portable.U128 3 1))) as [_ Hdiv];
    [vm_compute; intuition congruence .. |].
  apply Hdiv. vm_compute. congruence.
Defined.

(** C38: multiplication.  On either build [MULT_256_256] always returns the
    product modulo [2^256]; a raised flag means the product does not fit, and
    a clear flag means it is below [2^257]. *)
Theorem mult_256_correct `{laws : Uint128Laws T} (a b : uint256 T) :
  wf256 a -> wf256 b ->
  exists f r, MULT_256_256 a b = Some (f, r) /\ wf256 r /\
    val256 r = wrap 256 (val256 a * val256 b) /\
    (f = 1 /\ 2 ^ 256 <= val256 a * val256 b \/ f = 0 /\ val256 a * val256 b < 2 ^ 257).
Proof.
  intros Wa Wb. destruct (MULT_256_256_spec a b Wa Wb) as (r & E & Wr & Vr).
  do 2 eexists. split; [exact E|]. split; [done|]. split; [done|].
  destruct (mult_flag a b) eqn:Ef.
  - left. split; [done|]. by apply mult_flag_true.
  - right. split; [done|]. by apply mult_flag_false.
Qed.

Lemma mult_256_correct_witness :
  exists f r, MULT_256_256 (T := Z) (U256 0 (2 ^ 127)) (U256 1 3) = Some (f, r) /\
    wf256 r /\
    let p := val256 (T := Z) (U256 0 (2 ^ 127)) * val256 (T := Z) (U256 1 3) in
    val256 r = wrap 256 p /\ (f = 1 /\ 2 ^ 256 <= p \/ f = 0 /\ p < 2 ^ 257).
Proof.
  apply (mult_256_correct (T := Z) (U256 0 (2 ^ 127)) (U256 1 3));
    vm_compute; intuition congruence.
Defined.

(** The overflow flag is not the overflow.  On both builds
    [(2^129 - 1) * (2^128 - 1)] exceeds [2^256] and [MULT_256_256] returns
    the flag [0]: the carry out of the low 256 bits of the product is
    dropped by [MULT_256_512]. *)
Theorem mult_256_misses_overflow :
  (2 ^ 129 - 1) * (2 ^ 128 - 1) >= 2 ^ 256 /\
  MULT_256_256 (T := Z) (U256 1 (2 ^ 128 - 1)) (U256 0 (2 ^ 128 - 1))
    = Some (0, U256 (2 ^ 128 - 3) 1) /\
  MULT_256_256 (T := Portable.uint128)
    (U256 (Portable.U128 1 0) (Portable.U128 (2 ^ 64 - 1) (2 ^ 64 - 1)))
    (U256 (Portable.U128 0 0) (Portable.U128 (2 ^ 64 - 1) (2 ^ 64 - 1)))
    = Some (0, U256 (Portable.U128 (2 ^ 64 - 3) (2 ^ 64 - 1)) (Portable.U128 1 0)).
Proof. split; [lia | split; vm_compute; reflexivity]. Qed.

(** Fixed-point division.  For a divisor not above a tenth of the range
    and a representable quotient, [DIV_256_COIN] returns, after at most 78
    rounds of its scaling loop, [a * 10^18 / b] rounded down. *)
Theorem div_256_coin_correct `{laws : Uint128Laws T} fuel (a b : uint256 T) :
  wf256 a -> wf256 b -> (78 <= fuel)%nat -> 0 < val256 b -> 10 * val256 b <= 2 ^ 256 ->
  (val256 a / val256 b + 1) * ten18 <= 2 ^ 256 ->
  exists r, DIV_256_COIN fuel a b = Some r /\ wf256 r /\
    val256 r = val256 a * ten18 / val256 b.
Proof. apply DIV_256_COIN_spec. Qed.

Lemma div_256_coin_correct_witness :
  exists r, DIV_256_COIN (T := Z) 78 (U256 0 (7 * ten18)) (U256 0 (3 * ten18)) = Some r /\
    wf256 r /\
    val256 r = val256 (T := Z) (U256 0 (7 * ten18)) * ten18 / val256 (T := Z) (U256 0 (3 * ten18)).
Proof.
  apply (div_256_coin_correct (T := Z) 78 (U256 0 (7 * ten18)) (U256 0 (3 * ten18))).

  all: first [apply le_n | vm_compute; intuition congruence].
Defined.

(** [DIV_256_COIN] does not terminate on the largest divisor.  For every
    [a] other than [0] and [2^256 - 1], dividing by [2^256 - 1] exhausts any
    number of iterations of the scaling loop: every later value of [a_copy]
    is even and stays below the divisor. *)
Theorem div_256_coin_diverges `{laws : Uint128Laws T} fuel (a b : uint256 T) :
  wf256 a -> wf256 b -> val256 b = 2 ^ 256 - 1 -> val256 a <> 0 -> val256 a <> 2 ^ 256 - 1 ->
  DIV_256_COIN fuel a b = None.
Proof.
  intros Wa Wb Hb H0 Ha. destruct uint256_0_spec as [W0 V0]. unfold DIV_256_COIN.
  rewrite compare256_spec, V0, cmp_sign_eq0, (proj2 (Z.eqb_neq _ _)) by done.
  by rewrite coin_scale_hangs.
Qed.

Lemma div_256_coin_diverges_witness :
  DIV_256_COIN (T := Z) 500 (U256 0 1) (U256 (2 ^ 128 - 1) (2 ^ 128 - 1)) = None.
Proof.
  apply (div_256_coin_diverges (T := Z)); vm_compute; intuition congruence.
Defined.

(** Two representations of the same 256-bit number. *)
Definition same256 `{Uint128Ops T} `{Uint128Ops U} (x : uint256 T) (y : uint256 U) : Prop :=
  wf256 x /\ wf256 y /\ val256 x = val256 y.

Lemma mult_flag_agree `{Uint128Laws T} `{Uint128Laws U}
    (a b : uint256 T) (a' b' : uint256 U) :
  same256 a a' -> same256 b b' -> mult_flag a b = mult_flag a' b'.
Proof.
  assert (Hsplit : forall (x : uint256 T) (y : uint256 U), same256 x y ->
    val128 (hi x) = val128 (hi y) /\ val128 (lo x) = val128 (lo y)).
  { intros x y ([Wh Wl] & [Wh' Wl'] & E). unfold val256 in E.
    apply val128_fits in Wh, Wl, Wh', Wl'. unfold fits in *. lia. }
  intros Ha Hb. destruct (Hsplit _ _ Ha) as [E1 E2], (Hsplit _ _ Hb) as [E3 E4].
  unfold mult_flag. by rewrite E1, E2, E3, E4.
Qed.

(** C39: the two builds of the header compute the same numbers.  Any two
    lawful 128-bit types (the compiler's [__int128] and the pair of 64-bit
    halves) give the same product and overflow flag, the same quotient and
    remainder, and raise on the same inputs. *)
Theorem builds_agree `{LT : Uint128Laws T} `{LU : Uint128Laws U}
    (a b : uint256 T) (a' b' : uint256 U) :
  same256 a a' -> same256 b b' ->
  match MULT_256_256 a b, MULT_256_256 a' b' with
  | Some (f, r), Some (f', r') => f = f' /\ same256 r r'
  | _, _ => False
  end /\
  match divmod_impl_256 a b, divmod_impl_256 a' b' with
  | Some (q, r), Some (q', r') => same256 q q' /\ same256 r r'
  | None, None => val256 b = 0
  | _, _ => False
  end.
Proof.
  intros Ha Hb. pose proof (mult_flag_agree a b a' b' Ha Hb) as Ef.
  destruct Ha as (Wa & Wa' & Ea), Hb as (Wb & Wb' & Eb). split.
  - destruct (MULT_256_256_spec a b Wa Wb) as (r & -> & Wr & Vr).
    destruct (MULT_256_256_spec a' b' Wa' Wb') as (r' & -> & Wr' & Vr').
    rewrite Ef, Ea, Eb, <- Vr' in *. done.
  - destruct (decide (val256 b = 0)) as [Ez | Hnz].
    + rewrite !divmod_impl_256_zero by congruence. done.
    + destruct (divmod_impl_256_spec a b Wa Wb Hnz) as (q & r & -> & ? & ? & Vq & Vr).
      destruct (divmod_impl_256_spec a' b' Wa' Wb') as (q' & r' & -> & ? & ? & Vq' & Vr');
        [congruence|]. rewrite Ea, Eb in Vq, Vr. rewrite <- Vq' in Vq. rewrite <- Vr' in Vr. done.
Qed.

Lemma builds_agree_witness :
  match MULT_256_256 (T := Z) (U256 0 7) (U256 1 0),
    MULT_256_256 (U256 (Portable.U128 0 0) (Portable.U128 7 0))
                 (U256 (Portable.U128 1 0) (Portable.U128 0 0)) with
  | Some (f, r), Some (f', r') => f = f' /\ same256 r r'
  | _, _ => False
  end.
Proof.
  apply (builds_agree (T := Z) (U256 0 7) (U256 1 0)
    (U256 (Portable.U128 0 0) (Portable.U128 7 0)) (U256 (Portable.U128 1 0) (Portable.U128 0 0)));
    vm_compute; intuition congruence.
Defined.

(** Subtraction.  Both builds return the difference modulo [2^256], but
    only the portable build reports the borrow: the native one reports the
    borrow of the low half.  So [2^128 - 1] raises the flag although it does
    not underflow and [0 - 2^128] underflows silently. *)
Theorem subtract_256_flags :
  (forall x y : uint256 Z, wf256 x -> wf256 y ->
    exists r, Native.SUBTRACT_256_256 x y = (flag (lo x <? lo y), r) /\
      val256 r = wrap 256 (val256 x - val256 y)) /\
  (forall x y : uint256 Portable.uint128, pwf256 x -> pwf256 y ->
    exists r, Portable.SUBTRACT_256_256 x y = (flag (pval256 x <? pval256 y), r) /\
      pval256 r = wrap 256 (pval256 x - pval256 y)) /\
  fst (Native.SUBTRACT_256_256 (U256 1 0) (U256 0 1)) = 1 /\
  fst (Native.SUBTRACT_256_256 (U256 0 0) (U256 1 0)) = 0.
Proof.
  split; [|split; [|by split]].
  - intros x y Wx Wy. destruct (native_sub_256 x y Wx Wy) as (r & ? & _ & ?). eauto.
  - intros x y Wx Wy. destruct (portable_sub_256 x y Wx Wy) as (r & ? & _ & ?). eauto.
Qed.

Lemma subtract_256_flags_witness :
  exists r, Native.SUBTRACT_256_256 (U256 1 5) (U256 0 7) = (1, r) /\
    val256 r = wrap 256 (val256 (T := Z) (U256 1 5) - val256 (T := Z) (U256 0 7)).
Proof.
  apply (proj1 subtract_256_flags (U256 1 5) (U256 0 7)); vm_compute; intuition congruence.
Defined.
