(* ===== verification/MathConvert.v ===== *)
(** * Amounts as text (core/src/dap_math_convert.c)

    Parsing and printing of 256-bit amounts: unsigned integers, scientific
    notation and fixed-point numbers with 18 decimals.  A C string is the list
    of its characters before the terminator; local buffers have the size the
    source gives them and an access outside is [None].

    The only part that depends on the build is the step that adds one digit:
    the class [DigitStep] states what it promises, [native_digit] (64-bit
    table) and [portable_digit] (32-bit table) discharge it, and all theorems
    about the 256-bit functions are proved from the class. *)

From S2P Require Import Prelude UintOps UintLaws Uint256.
From stdpp Require Import list.
Local Open Scope Z_scope.

Definition DATOSHI_DEGREE : Z := 18.
Definition DATOSHI_POW : Z := 39.
Definition DATOSHI_POW256 : Z := DATOSHI_POW * 2.
Definition DAP_SZ_MAX256SCINOT : Z := DATOSHI_POW256 + 5.
Definition DATOSHI_MULT : Z := 1000000000000000000.

(** [c_pow10_double] with [DAP_GLOBAL_IS_INT128]: words from the highest. *)
Definition c_pow10_double_u64 : list (list Z) :=
  [
   [0; 0; 0; 1];
   [0; 0; 0; 10];
   [0; 0; 0; 100];
   [0; 0; 0; 1000];
   [0; 0; 0; 10000];
   [0; 0; 0; 100000];
   [0; 0; 0; 1000000];
   [0; 0; 0; 10000000];
   [0; 0; 0; 100000000];
   [0; 0; 0; 1000000000];
   [0; 0; 0; 10000000000];
   [0; 0; 0; 100000000000];
   [0; 0; 0; 1000000000000];
   [0; 0; 0; 10000000000000];
   [0; 0; 0; 100000000000000];
   [0; 0; 0; 1000000000000000];
   [0; 0; 0; 10000000000000000];
   [0; 0; 0; 100000000000000000];
   [0; 0; 0; 1000000000000000000];
   [0; 0; 0; 10000000000000000000];
   [0; 0; 5; 7766279631452241920];
   [0; 0; 54; 3875820019684212736];
   [0; 0; 542; 1864712049423024128];
   [0; 0; 5421; 200376420520689664];
   [0; 0; 54210; 2003764205206896640];
   [0; 0; 542101; 1590897978359414784];
   [0; 0; 5421010; 15908979783594147840];
   [0; 0; 54210108; 11515845246265065472];
   [0; 0; 542101086; 4477988020393345024];
   [0; 0; 5421010862; 7886392056514347008];
   [0; 0; 54210108624; 5076944270305263616];
   [0; 0; 542101086242; 13875954555633532928];
   [0; 0; 5421010862427; 9632337040368467968];
   [0; 0; 54210108624275; 4089650035136921600];
   [0; 0; 542101086242752; 4003012203950112768];
   [0; 0; 5421010862427522; 3136633892082024448];
   [0; 0; 54210108624275221; 12919594847110692864];
   [0; 0; 542101086242752217; 68739955140067328];
   [0; 0; 5421010862427522170; 687399551400673280];
   [0; 2; 17316620476856118468; 6873995514006732800];
   [0; 29; 7145508105175220139; 13399722918938673152];
   [0; 293; 16114848830623546549; 4870020673419870208];
   [0; 2938; 13574535716559052564; 11806718586779598848];
   [0; 29387; 6618148649623664334; 7386721425538678784];
   [0; 293873; 10841254275107988496; 80237960548581376];
   [0; 2938735; 16178822382532126880; 802379605485813760];
   [0; 29387358; 14214271235644855872; 8023796054858137600];
   [0; 293873587; 13015503840481697412; 6450984253743169536];
   [0; 2938735877; 1027829888850112811; 9169610316303040512];
   [0; 29387358770; 10278298888501128114; 17909126868192198656];
   [0; 293873587705; 10549268516463523069; 13070572018536022016];
   [0; 2938735877055; 13258964796087472617; 1578511669393358848];
   [0; 29387358770557; 3462439444907864858; 15785116693933588480];
   [0; 293873587705571; 16177650375369096972; 10277214349659471872];
   [0; 2938735877055718; 14202551164014556797; 10538423128046960640];
   [0; 29387358770557187; 12898303124178706663; 13150510911921848320];
   [0; 293873587705571876; 18302566799529756941; 2377900603251621888];
   [0; 2938735877055718769; 17004971331911604867; 5332261958806667264];
   [1; 10940614696847636083; 4029016655730084128; 16429131440647569408];
   [15; 17172426599928602752; 3396678409881738056; 16717361816799281152];
   [159; 5703569335900062977; 15520040025107828953; 1152921504606846976];
   [1593; 1695461137871974930; 7626447661401876602; 11529215046068469760];
   [15930; 16954611378719749304; 2477500319180559562; 4611686018427387904];
   [159309; 3525417123811528497; 6328259118096044006; 9223372036854775808];
   [1593091; 16807427164405733357; 7942358959831785217; 0];
   [15930919; 2053574980671369030; 5636613303479645706; 0];
   [159309191; 2089005733004138687; 1025900813667802212; 0];
   [1593091911; 2443313256331835254; 10259008136678022120; 0];
   [15930919111; 5986388489608800929; 10356360998232463120; 0];
   [159309191113; 4523652674959354447; 11329889613776873120; 0];
   [1593091911132; 8343038602174441244; 2618431695511421504; 0];
   [15930919111324; 9643409726906205977; 7737572881404663424; 0];
   [159309191113245; 4200376900514301694; 3588752519208427776; 0];
   [1593091911132452; 5110280857723913709; 17440781118374726144; 0];
   [15930919111324522; 14209320429820033867; 8387114520361296896; 0];
   [159309191113245227; 12965995782233477362; 10084168908774762496; 0];
   [1593091911132452277; 532749306367912313; 8607968719199866880; 0];
   [15930919111324522770; 5327493063679123134; 12292710897160462336; 0]].

(** [c_pow10_double] without it. *)
Definition c_pow10_double_u32 : list (list Z) :=
  [
   [0; 0; 0; 0; 0; 0; 0; 1];
   [0; 0; 0; 0; 0; 0; 0; 10];
   [0; 0; 0; 0; 0; 0; 0; 100];
   [0; 0; 0; 0; 0; 0; 0; 1000];
   [0; 0; 0; 0; 0; 0; 0; 10000];
   [0; 0; 0; 0; 0; 0; 0; 100000];
   [0; 0; 0; 0; 0; 0; 0; 1000000];
   [0; 0; 0; 0; 0; 0; 0; 10000000];
   [0; 0; 0; 0; 0; 0; 0; 100000000];
   [0; 0; 0; 0; 0; 0; 0; 1000000000];
   [0; 0; 0; 0; 0; 0; 2; 1410065408];
   [0; 0; 0; 0; 0; 0; 23; 1215752192];
   [0; 0; 0; 0; 0; 0; 232; 3567587328];
   [0; 0; 0; 0; 0; 0; 2328; 1316134912];
   [0; 0; 0; 0; 0; 0; 23283; 276447232];
   [0; 0; 0; 0; 0; 0; 232830; 2764472320];
   [0; 0; 0; 0; 0; 0; 2328306; 1874919424];
   [0; 0; 0; 0; 0; 0; 23283064; 1569325056];
   [0; 0; 0; 0; 0; 0; 232830643; 2808348672];
   [0; 0; 0; 0; 0; 0; 2328306436; 2313682944];
   [0; 0; 0; 0; 0; 5; 1808227885; 1661992960];
   [0; 0; 0; 0; 0; 54; 902409669; 3735027712];
   [0; 0; 0; 0; 0; 542; 434162106; 2990538752];
   [0; 0; 0; 0; 0; 5421; 46653770; 4135583744];
   [0; 0; 0; 0; 0; 54210; 466537709; 2701131776];
   [0; 0; 0; 0; 0; 542101; 370409800; 1241513984];
   [0; 0; 0; 0; 0; 5421010; 3704098002; 3825205248];
   [0; 0; 0; 0; 0; 54210108; 2681241660; 3892314112];
   [0; 0; 0; 0; 0; 542101086; 1042612833; 268435456];
   [0; 0; 0; 0; 1; 1126043566; 1836193738; 2684354560];
   [0; 0; 0; 0; 12; 2670501072; 1182068202; 1073741824];
   [0; 0; 0; 0; 126; 935206946; 3230747430; 2147483648];
   [0; 0; 0; 0; 1262; 762134875; 2242703233; 0];
   [0; 0; 0; 0; 12621; 3326381459; 952195850; 0];
   [0; 0; 0; 0; 126217; 3199043520; 932023908; 0];
   [0; 0; 0; 0; 1262177; 1925664130; 730304488; 0];
   [0; 0; 0; 0; 12621774; 2076772117; 3008077584; 0];
   [0; 0; 0; 0; 126217744; 3587851993; 16004768; 0];
   [0; 0; 0; 0; 1262177448; 1518781562; 160047680; 0];
   [0; 0; 0; 2; 4031839891; 2302913732; 1600476800; 0];
   [0; 0; 0; 29; 1663693251; 1554300843; 3119866112; 0];
   [0; 0; 0; 293; 3752030625; 2658106549; 1133890048; 0];
   [0; 0; 0; 2938; 3160567888; 811261716; 2748965888; 0];
   [0; 0; 0; 29387; 1540907809; 3817649870; 1719855104; 0];
   [0; 0; 0; 293873; 2524176210; 3816760336; 18681856; 0];
   [0; 0; 0; 2938735; 3766925628; 3807864992; 186818560; 0];
   [0; 0; 0; 29387358; 3309517920; 3718911552; 1868185600; 0];
   [0; 0; 0; 293873587; 3030408136; 2829377156; 1501986816; 0];
   [0; 0; 0; 2938735877; 239310294; 2523967787; 2134966272; 0];
   [0; 0; 6; 3617554994; 2393102945; 3764841394; 4169793536; 0];
   [0; 0; 68; 1815811577; 2456192978; 3288675581; 3043229696; 0];
   [0; 0; 684; 978246591; 3087093307; 2821984745; 367525888; 0];
   [0; 0; 6842; 1192531325; 806162004; 2450043674; 3675258880; 0];
   [0; 0; 68422; 3335378659; 3766652749; 3025600268; 2392850432; 0];
   [0; 0; 684227; 3289015526; 3306789129; 191231613; 2453667840; 0];
   [0; 0; 6842277; 2825384195; 3003120218; 1912316135; 3061841920; 0];
   [0; 0; 68422776; 2484038180; 4261398408; 1943292173; 553648128; 0];
   [0; 0; 684227765; 3365545329; 3959278420; 2253052547; 1241513984; 0];
   [0; 1; 2547310361; 3590682227; 938078541; 1055688992; 3825205248; 0];
   [0; 15; 3998267138; 1547083904; 790850820; 1966955336; 3892314112; 0];
   [0; 159; 1327965719; 2585937153; 3613540908; 2489684185; 268435456; 0];
   [0; 1593; 394755308; 89567762; 1775670717; 3422005370; 2684354560; 0];
   [0; 15930; 3947553080; 895677624; 576837993; 4155282634; 1073741824; 0];
   [0; 159309; 820825138; 366841649; 1473412643; 2898120678; 2147483648; 0];
   [0; 1593091; 3913284084; 3668416493; 1849224548; 3211403009; 0; 0];
   [0; 15930919; 478135184; 2324426566; 1312376303; 2049259018; 0; 0];
   [0; 159309191; 486384549; 1769429183; 238861146; 3312720996; 0; 0];
   [0; 1593091911; 568878198; 514422646; 2388611467; 3062438888; 0; 0];
   [3; 3046017223; 1393814685; 849259169; 2411278197; 559617808; 0; 0];
   [37; 395401161; 1053244963; 4197624399; 2637945491; 1301210784; 0; 0];
   [370; 3954011612; 1942515047; 3321538332; 609651137; 127205952; 0; 0];
   [3709; 885410460; 2245281293; 3150612249; 1801544074; 1272059520; 0; 0];
   [37092; 264170013; 977976457; 1441351422; 835571558; 4130660608; 0; 0];
   [370920; 2641700132; 1189829981; 1528612333; 4060748293; 2651900416; 0; 0];
   [3709206; 647197546; 3308365221; 2401221451; 1952777272; 749200384; 0; 0];
   [37092061; 2177008171; 3018881143; 2537378034; 2347903537; 3197036544; 0; 0];
   [370920615; 295245237; 124040363; 3898943865; 2004198897; 1905594368; 0; 0];
   [3709206150; 2952452370; 1240403639; 334732990; 2862119790; 1876074496; 0; 0]].

Definition c_pow10 : list (list Z) :=
  [
   [0; 1];
   [0; 10];
   [0; 100];
   [0; 1000];
   [0; 10000];
   [0; 100000];
   [0; 1000000];
   [0; 10000000];
   [0; 100000000];
   [0; 1000000000];
   [0; 10000000000];
   [0; 100000000000];
   [0; 1000000000000];
   [0; 10000000000000];
   [0; 100000000000000];
   [0; 1000000000000000];
   [0; 10000000000000000];
   [0; 100000000000000000];
   [0; 1000000000000000000];
   [0; 10000000000000000000];
   [5; 7766279631452241920];
   [54; 3875820019684212736];
   [542; 1864712049423024128];
   [5421; 200376420520689664];
   [54210; 2003764205206896640];
   [542101; 1590897978359414784];
   [5421010; 15908979783594147840];
   [54210108; 11515845246265065472];
   [542101086; 4477988020393345024];
   [5421010862; 7886392056514347008];
   [54210108624; 5076944270305263616];
   [542101086242; 13875954555633532928];
   [5421010862427; 9632337040368467968];
   [54210108624275; 4089650035136921600];
   [542101086242752; 4003012203950112768];
   [5421010862427522; 3136633892082024448];
   [54210108624275221; 12919594847110692864];
   [542101086242752217; 68739955140067328];
   [5421010862427522170; 687399551400673280]].

Definition cell (tbl : list (list Z)) (i j : nat) : option Z := row ← tbl !! i; row !! j.

(** ** One digit: [l_ret += l_digit * 10^i] *)

(** The outer [None] is a fault, the inner one the error return of [l_nul]. *)
Definition checked_sum {T} `{Uint128Ops T} (l_ret l_tmp : uint256 T) : option (uint256 T) :=
  let '(overflow_flag, r) := SUM_256_256 l_ret l_tmp in
  if negb (overflow_flag =? 0) then None else Some r.

(** [if (l_ret.hi == 0 && l_ret.lo == 0) return l_nul;] *)
Definition nonzero (r : uint256 Z) : option (uint256 Z) :=
  if (hi r =? 0) && (lo r =? 0) then None else Some r.

Definition native_digit_step (i : nat) (l_digit : Z) (l_ret : uint256 Z) : option (option (uint256 Z)) :=
  w3 ← cell c_pow10_double_u64 i 3;
  w2 ← cell c_pow10_double_u64 i 2;
  w1 ← cell c_pow10_double_u64 i 1;
  w0 ← cell c_pow10_double_u64 i 0;
  Some (l_ret ← checked_sum l_ret (U256 0 (wrap 128 (w3 * l_digit)));
        let l_mul := wrap 128 (w2 * l_digit) in
        l_ret ← checked_sum l_ret (U256 (Z.shiftr l_mul 64) (wrap 128 (Z.shiftl l_mul 64)));
        l_ret ← nonzero l_ret;
        l_ret ← checked_sum l_ret (U256 (wrap 128 (w1 * l_digit)) 0);
        l_ret ← nonzero l_ret;
        let l_mul := wrap 128 (w0 * l_digit) in
        if negb (Z.shiftr l_mul 64 =? 0) then None else
        l_ret ← checked_sum l_ret (U256 (wrap 128 (Z.shiftl l_mul 64)) 0);
        nonzero l_ret).

Section PortableDigit.
Context {T : Type} {ops : Uint128Ops T}.

(** The loop over [j], from [7] down; [j] is one less than the argument. *)
Fixpoint portable_digit_loop (i : nat) (l_digit : Z) (j : nat) (l_ret : uint256 T)
    : option (option (uint256 T)) :=
  match j with
  | O => Some (Some l_ret)
  | S j =>
    w ← cell c_pow10_double_u32 i j;
    let l_tmp := GET_256_FROM_64 w in
    if IS_ZERO_256 l_tmp then
      if (j <? 6)%nat then Some (Some l_ret) else portable_digit_loop i l_digit j l_ret
    else
      l_tmp ← LEFT_SHIFT_256 l_tmp (32 * (7 - Z.of_nat j));
      '(overflow_flag, l_tmp) ← MULT_256_256 l_tmp (GET_256_FROM_64 l_digit);
      if negb (overflow_flag =? 0) then Some None else
      match checked_sum l_ret l_tmp with
      | None => Some None
      | Some l_ret => portable_digit_loop i l_digit j l_ret
      end
  end.

Definition portable_digit_step (i : nat) (l_digit : Z) (l_ret : uint256 T) : option (option (uint256 T)) :=
  portable_digit_loop i l_digit 8 l_ret.
End PortableDigit.

(** What either step promises. *)
Class DigitStep (T : Type) `{Uint128Laws T} := {
  digit_step : nat -> Z -> uint256 T -> option (option (uint256 T));
  digit_step_spec i d x : (i < 78)%nat -> 0 < d < 10 -> wf256 x ->
    if val256 x + d * 10 ^ Z.of_nat i <? 2 ^ 256
    then exists r, digit_step i d x = Some (Some r) /\ wf256 r /\ val256 r = val256 x + d * 10 ^ Z.of_nat i
    else digit_step i d x = Some None;
}.

(** ** Strings *)

Definition isdigit (c : Z) : bool := (48 <=? c) && (c <=? 57).
Definition isspace (c : Z) : bool := ((9 <=? c) && (c <=? 13)) || (c =? 32).

(** Position of a character, [strchr] and [memchr]. *)
Fixpoint strchr (s : list Z) (c : Z) : option nat :=
  match s with
  | [] => None
  | x :: s => if x =? c then Some O else option_map S (strchr s c)
  end.

(** The C string at the start of a block; [None] when it has no end in it. *)
Fixpoint read_cstr (m : list Z) : option (list Z) :=
  match m with
  | [] => None
  | c :: m => if c =? 0 then Some [] else s ← read_cstr m; Some (c :: s)
  end.

Fixpoint skip_space (s : list Z) : list Z :=
  match s with c :: s' => if isspace c then skip_space s' else s | [] => [] end.

Fixpoint atoi_digits (s : list Z) (v : Z) : Z :=
  match s with c :: s => if isdigit c then atoi_digits s (10 * v + (c - 48)) else v | [] => v end.

(** [atoi]; undefined ([None]) when the number does not fit an [int]. *)
Definition atoi (s : list Z) : option Z :=
  let v := match skip_space s with
           | 45 :: s => - atoi_digits s 0
           | 43 :: s => atoi_digits s 0
           | s => atoi_digits s 0
           end in
  if (- 2 ^ 31 <=? v) && (v <? 2 ^ 31) then Some v else None.

(** ** Operations *)

Section Operations.
Context {T : Type} `{steps : DigitStep T}.

Definition dap_uint256_decimal_from_uint64 (a_uninteger : Z) : option (uint256 T) :=
  '(overflow, ret) ← MULT_256_256 (GET_256_FROM_64 a_uninteger) (GET_256_FROM_64 DATOSHI_MULT);
  Some (if negb (overflow =? 0) then uint256_0 else ret).

(** The loop over the characters, last one first; [i] counts them. *)
Fixpoint scan_loop (cs : list Z) (i : nat) (l_ret : uint256 T) : option (uint256 T) :=
  match cs with
  | [] => Some l_ret
  | c :: cs =>
    if negb (isdigit c) then Some uint256_0 else
    let l_digit := c - 48 in
    if l_digit =? 0 then scan_loop cs (S i) l_ret else
    r ← digit_step i l_digit l_ret;
    match r with
    | None => Some uint256_0
    | Some l_ret => scan_loop cs (S i) l_ret
    end
  end.

(** [for (i = l_zero_cnt; i && l_pos < DATOSHI_POW256; i--)] *)
Fixpoint pad_zeros (i : nat) (l_256bit_num : list Z) (l_pos : Z) : option (list Z * Z) :=
  match i with
  | O => Some (l_256bit_num, l_pos)
  | S i =>
    if l_pos <? DATOSHI_POW256 then
      l_256bit_num ← mem_write l_256bit_num l_pos [48]; pad_zeros i l_256bit_num (l_pos + 1)
    else Some (l_256bit_num, l_pos)
  end.

(** [xxx.yyyyE+zz] into the digits of the buffer and their number; the inner
    [None] is an error return.  [l_eptr] is the position of the [e]. *)
Definition sci_to_digits (s : list Z) (l_eptr : nat) : option (option (list Z * Z)) :=
  if DAP_SZ_MAX256SCINOT <? Z.of_nat (length s) then Some None else
  let l_exp_ptr := drop (S l_eptr) s in
  let l_exp_ptr := match l_exp_ptr with 43 :: r => r | r => r end in
  l_exp ← atoi l_exp_ptr;
  if l_exp =? 0 then Some None else
  match strchr s 46 with
  | None => Some None
  | Some l_dot_ptr =>
    if (l_eptr <? l_dot_ptr)%nat then Some None else
    let l_dot_len := Z.of_nat l_dot_ptr in
    if DATOSHI_POW256 <=? l_dot_len then Some None else
    let l_exp_len := Z.of_nat l_eptr - l_dot_len - 1 in
    if DAP_SZ_MAX256SCINOT <=? l_exp_len + l_dot_len + 1 then Some None else
    if l_exp <? l_exp_len then Some None else
    d1 ← mem_read s 0 l_dot_len;
    b ← mem_write (replicate 79 0) 0 d1;
    d2 ← mem_read s (l_dot_len + 1) l_exp_len;
    b ← mem_write b l_dot_len d2;
    let l_zero_cnt := l_exp - l_exp_len in
    if DATOSHI_POW256 <? l_zero_cnt then Some None else
    '(b, l_pos) ← pad_zeros (Z.to_nat l_zero_cnt) b (l_dot_len + l_exp_len);
    b ← mem_write b l_pos [0];
    Some (Some (b, l_pos))
  end.

Definition plain_to_digits (s : list Z) : option (option (list Z * Z)) :=
  let l_strlen := Z.of_nat (length s) in
  if DATOSHI_POW256 <? l_strlen then Some None else
  b ← mem_write (replicate 79 0) 0 s;
  b ← mem_write b l_strlen [0];
  Some (Some (b, l_strlen)).

Definition dap_uint256_scan_uninteger (a_str_uninteger : option (list Z)) : option (uint256 T) :=
  match a_str_uninteger with
  | None => Some uint256_0
  | Some s =>
    let l_eptr := match strchr s 101 with Some p => Some p | None => strchr s 69 end in
    r ← match l_eptr with Some p => sci_to_digits s p | None => plain_to_digits s end;
    match r with
    | None => Some uint256_0
    | Some (l_256bit_num, l_strlen) =>
      cs ← mem_read l_256bit_num 0 l_strlen;
      scan_loop (rev cs) 0 uint256_0
    end
  end.

Definition dap_uint256_scan_decimal (a_str_decimal : list Z) : option (uint256 T) :=
  let l_len := Z.of_nat (length a_str_decimal) in
  if DATOSHI_POW256 + 1 <? l_len then Some uint256_0 else
  l_buf ← mem_write (replicate 86 0) 0 a_str_decimal;
  let l_point := strchr a_str_decimal 46 in
  r ← match l_point with
      | None => Some (Some (l_buf, l_len, 0))
      | Some l_point =>
        let l_point := Z.of_nat l_point in
        if (l_point =? 0) || (l_point =? l_len - 1) then Some None else
        let l_pos := l_len - l_point - 1 in
        if DATOSHI_DEGREE <? l_pos then Some None else
        d ← mem_read l_buf (l_point + 1) l_pos;
        l_buf ← mem_write l_buf l_point d;
        l_buf ← mem_write l_buf (l_point + l_pos) [0];
        Some (Some (l_buf, l_point, l_pos))
      end;
  match r with
  | None => Some uint256_0
  | Some (l_buf, l_point, l_pos) =>
    l_buf ← mem_write l_buf (l_point + l_pos) (replicate (Z.to_nat (DATOSHI_DEGREE - l_pos)) 48);
    s ← read_cstr l_buf;
    dap_uint256_scan_uninteger (Some s)
  end.

(** Digits from the lowest, [do ... while (!IS_ZERO_256(l_value))]. *)
Fixpoint digits_loop (fuel : nat) (l_value : uint256 T) : option (list Z) :=
  match fuel with
  | O => None
  | S fuel =>
    '(l_value, rem) ← divmod_impl_256 l_value (GET_256_FROM_64 10);
    let c := to_u64 (lo rem) + 48 in
    if IS_ZERO_256 l_value then Some [c]
    else l ← digits_loop fuel l_value; Some (c :: l)
  end.
End Operations.

(** The swap loop over the two pointers, [n] times. *)
Fixpoint swap_loop (n : nat) (b : list Z) (i j : Z) : option (list Z) :=
  match n with
  | O => None
  | S n =>
    x ← mem_read b i 1;
    y ← mem_read b j 1;
    b ← mem_write b i y;
    b ← mem_write b j x;
    if i + 1 <? j - 1 then swap_loop n b (i + 1) (j - 1) else Some b
  end.

(** [while ( *l_c1-- == '0' && *l_c1 != '.') --l_strlen;] *)
Fixpoint strip_loop (n : nat) (b : list Z) (l_c1 l_strlen : Z) : option Z :=
  match n with
  | O => None
  | S n =>
    x ← mem_read b l_c1 1;
    if negb (bool_decide (x = [48])) then Some l_strlen else
    y ← mem_read b (l_c1 - 1) 1;
    if bool_decide (y = [46]) then Some l_strlen
    else strip_loop n b (l_c1 - 1) (l_strlen - 1)
  end.

Section Printing.
Context {T : Type} {ops : Uint128Ops T}.

(** The text in [s_buf]; 80 bytes. *)
Definition to_char_buf (a_uint256 : uint256 T) : option (list Z * Z) :=
  ds ← digits_loop 78 a_uint256;
  s_buf ← mem_write (replicate 80 0) 0 (ds ++ [0]);
  let l_strlen := Z.of_nat (length ds) in
  s_buf ← swap_loop 40 s_buf 0 (l_strlen - 1);
  Some (s_buf, l_strlen).

(** The fixed-point text, in [s_buf_frac]. *)
Definition to_frac_buf (s_buf : list Z) (l_strlen : Z) : option (list Z) :=
  let b := replicate 80 0 in
  let l_len := l_strlen - DATOSHI_DEGREE in
  '(b, l_strlen) ←
    (if 0 <? l_len then
       d ← mem_read s_buf 0 l_len;
       b ← mem_write b 0 d;
       d ← mem_read s_buf l_len DATOSHI_DEGREE;
       b ← mem_write b (l_len + 1) d;
       b ← mem_write b l_len [46];
       Some (b, l_strlen + 1)
     else
       b ← mem_write b 0 [48; 46];
       b ← mem_write b 2 (replicate (Z.to_nat (- l_len)) 48);
       d ← mem_read s_buf 0 l_strlen;
       b ← mem_write b (2 - l_len) d;
       Some (b, l_strlen + (2 - l_len)));
  l_strlen ← strip_loop 80 b (l_strlen - 1) l_strlen;
  mem_write b l_strlen [0].

Definition dap_uint256_to_char (a_uint256 : uint256 T) (a_frac : bool) : option (list Z * option (list Z)) :=
  '(s_buf, l_strlen) ← to_char_buf a_uint256;
  s ← read_cstr s_buf;
  if negb a_frac then Some (s, None) else
  b ← to_frac_buf s_buf l_strlen;
  f ← read_cstr b;
  Some (s, Some f).

Definition dap_uint256_uninteger_to_char (a_uninteger : uint256 T) : option (list Z) :=
  '(s, _) ← dap_uint256_to_char a_uninteger false; Some s.

Definition dap_uint256_decimal_to_char (a_decimal : uint256 T) : option (list Z) :=
  '(_, f) ← dap_uint256_to_char a_decimal true; f.

Definition dap_uint256_to_uint64 (a_from : uint256 T) : Z := to_u64 (lo a_from).
Definition dap_uint256_to_uint128 (a_from : uint256 T) : T := lo a_from.
End Printing.

(** ** The digit steps keep their promise *)

Lemma checked_sum_spec `{Uint128Laws T} (x y : uint256 T) : wf256 x -> wf256 y ->
  if val256 x + val256 y <? 2 ^ 256
  then exists r, checked_sum x y = Some r /\ wf256 r /\ val256 r = val256 x + val256 y
  else checked_sum x y = None.
Proof.
  intros Wx Wy. destruct (SUM_256_256_spec x y Wx Wy) as (r & E & Wr & Vr). unfold checked_sum. rewrite E.
  pose proof (val256_fits x Wx) as Fx. pose proof (val256_fits y Wy) as Fy. unfold fits in Fx, Fy.
  destruct (Z.ltb_spec (val256 x + val256 y) (2 ^ 256)).
  - rewrite (proj2 (Z.leb_gt _ _)) by lia. exists r. split; [done|]. split; [done|].
    rewrite Vr. apply wrap_id. unfold fits. lia.
  - by rewrite (proj2 (Z.leb_le _ _)) by lia.
Qed.

(** [checked_sum] with the value written out, for both outcomes. *)
Lemma checked_sum_cases `{Uint128Laws T} (x y : uint256 T) v : wf256 x -> wf256 y -> val256 y = v ->
  (val256 x + v < 2 ^ 256 /\ exists r, checked_sum x y = Some r /\ wf256 r /\ val256 r = val256 x + v) \/
  (2 ^ 256 <= val256 x + v /\ checked_sum x y = None).
Proof.
  intros Wx Wy <-. pose proof (checked_sum_spec x y Wx Wy) as Hcs.
  destruct (Z.ltb_spec (val256 x + val256 y) (2 ^ 256)); auto.
Qed.

Definition row64_ok (i : nat) : bool :=
  match cell c_pow10_double_u64 i 0, cell c_pow10_double_u64 i 1, cell c_pow10_double_u64 i 2,
        cell c_pow10_double_u64 i 3 with
  | Some w0, Some w1, Some w2, Some w3 =>
    (w3 + w2 * 2 ^ 64 + w1 * 2 ^ 128 + w0 * 2 ^ 192 =? 10 ^ Z.of_nat i) &&
    forallb (λ w, (0 <=? w) && (w <? 2 ^ 64)) [w0; w1; w2; w3] && (0 <? w3 + w2)
  | _, _, _, _ => false
  end.

Lemma rows64_ok : forallb row64_ok (seq 0 78) = true.
Proof. vm_compute. reflexivity. Qed.

Lemma seq_all (P : nat -> bool) n i : forallb P (seq 0 n) = true -> (i < n)%nat -> P i = true.
Proof. intros H Hi. rewrite List.forallb_forall in H. apply H, List.in_seq. lia. Qed.

Lemma nonzero_pos (r : uint256 Z) : 0 < val256 r -> nonzero r = Some r.
Proof.
  intros Hr. unfold nonzero, val256 in *. cbn [val128 native_ops] in Hr.
  destruct (Z.eqb_spec (hi r) 0), (Z.eqb_spec (lo r) 0); cbn [andb]; (done || lia).
Qed.

Lemma native_word (w d : Z) : fits 64 w -> 0 < d < 10 ->
  0 <= w * d < 2 ^ 68 /\ wrap 128 (w * d) = w * d.
Proof.
  intros Hw Hd. unfold fits in Hw. assert (0 <= w * d < 2 ^ 68) by (split; [apply Z.mul_nonneg_nonneg; lia | nia]).
  split; [done|]. apply wrap_id. unfold fits. lia.
Qed.

Lemma native_digit_spec i d x : (i < 78)%nat -> 0 < d < 10 -> wf256 x ->
  if val256 x + d * 10 ^ Z.of_nat i <? 2 ^ 256
  then exists r, native_digit_step i d x = Some (Some r) /\ wf256 r /\ val256 r = val256 x + d * 10 ^ Z.of_nat i
  else native_digit_step i d x = Some None.
Proof.
  intros Hi Hd Wx. pose proof (seq_all _ _ _ rows64_ok Hi) as Hrow. unfold row64_ok in Hrow.
  unfold native_digit_step.
  destruct (cell _ i 0) as [w0|]; [|done]. destruct (cell _ i 1) as [w1|]; [|done].
  destruct (cell _ i 2) as [w2|]; [|done]. destruct (cell _ i 3) as [w3|]; [|done].
  cbn [mbind option_bind]. cbn [forallb] in Hrow. rewrite !andb_true_iff, !Z.leb_le, !Z.ltb_lt, Z.eqb_eq in Hrow.
  destruct Hrow as ((Hv & H0 & H1 & H2 & H3 & _) & Hpos). rewrite <- Hv. clear Hv.
  destruct (native_word w3 d) as [B3 ->]; [unfold fits; lia | done |].
  destruct (native_word w2 d) as [B2 ->]; [unfold fits; lia | done |].
  destruct (native_word w1 d) as [B1 ->]; [unfold fits; lia | done |].
  destruct (native_word w0 d) as [B0 ->]; [unfold fits; lia | done |].
  pose proof (val256_fits x Wx) as Fx. unfold fits in Fx.
  replace (d * (w3 + w2 * 2 ^ 64 + w1 * 2 ^ 128 + w0 * 2 ^ 192))
    with (w3 * d + w2 * d * 2 ^ 64 + w1 * d * 2 ^ 128 + w0 * d * 2 ^ 192) by ring.
  assert (Hp32 : 0 < w3 * d + w2 * d) by (rewrite <- Z.mul_add_distr_r; apply Z.mul_pos_pos; lia).
  set (m0 := w0 * d) in *. set (m1 := w1 * d) in *. set (m2 := w2 * d) in *. set (m3 := w3 * d) in *.
  clearbody m0 m1 m2 m3.
  rewrite !shiftr_div, !shiftl_mul by done.
  destruct (checked_sum_cases x (U256 0 m3) m3 Wx) as [(L1 & r1 & -> & W1 & V1)|(L1 & ->)];
    [split; cbn; unfold fits; lia | unfold val256; cbn; lia | |
     cbn [mbind option_bind]; rewrite (proj2 (Z.ltb_ge _ _)) by lia; done].
  cbn [mbind option_bind].
  destruct (checked_sum_cases r1 (U256 (m2 / 2 ^ 64) (wrap 128 (m2 * 2 ^ 64))) (m2 * 2 ^ 64) W1)
    as [(L2 & r2 & -> & W2 & V2)|(L2 & ->)];
    [split; cbn [hi lo wf128 native_ops]; [unfold fits; Z.div_mod_to_equations; lia | apply wrap_fits; lia]
    | unfold val256; cbn [hi lo val128 native_ops]; unfold wrap; Z.div_mod_to_equations; lia | |
     cbn [mbind option_bind]; rewrite (proj2 (Z.ltb_ge _ _)) by lia; done].
  cbn [mbind option_bind]. rewrite (nonzero_pos r2) by lia. cbn [mbind option_bind].
  destruct (checked_sum_cases r2 (U256 m1 0) (m1 * 2 ^ 128) W2) as [(L3 & r3 & -> & W3 & V3)|(L3 & ->)];
    [split; cbn; unfold fits; lia | unfold val256; cbn; lia | |
     cbn [mbind option_bind]; rewrite (proj2 (Z.ltb_ge _ _)) by lia; done].
  cbn [mbind option_bind]. rewrite (nonzero_pos r3) by lia. cbn [mbind option_bind].
  destruct (Z.eqb_spec (m0 / 2 ^ 64) 0) as [E0|E0]; cbn [negb].
  2: { rewrite (proj2 (Z.ltb_ge _ _)); [done|]. Z.div_mod_to_equations. lia. }
  assert (m0 < 2 ^ 64) by (Z.div_mod_to_equations; lia).
  rewrite wrap_id by (unfold fits; lia).
  destruct (checked_sum_cases r3 (U256 (m0 * 2 ^ 64) 0) (m0 * 2 ^ 192) W3) as [(L4 & r4 & -> & W4 & V4)|(L4 & ->)];
    [split; cbn [hi lo wf128 native_ops]; unfold fits; lia | unfold val256; cbn [hi lo val128 native_ops]; lia | |
     cbn [mbind option_bind]; rewrite (proj2 (Z.ltb_ge _ _)) by lia; done].
  cbn [mbind option_bind]. rewrite (nonzero_pos r4) by lia. rewrite (proj2 (Z.ltb_lt _ _)) by lia.
  exists r4. split; [done|]. split; [done | lia].
Qed.

#[export] Instance native_digit : DigitStep Z := { digit_step := native_digit_step; digit_step_spec := native_digit_spec }.

(** What the loop over a row of the 32-bit table adds up, [break] included. *)
Fixpoint row32_sum (i j : nat) : Z :=
  match j with
  | O => 0
  | S j =>
    match cell c_pow10_double_u32 i j with
    | Some w => if w =? 0 then (if (j <? 6)%nat then 0 else row32_sum i j)
                else w * 2 ^ (32 * (7 - Z.of_nat j)) + row32_sum i j
    | None => 0
    end
  end.

Definition row32_ok (i : nat) : bool :=
  (row32_sum i 8 =? 10 ^ Z.of_nat i) &&
  forallb (λ j, match cell c_pow10_double_u32 i j with Some w => (0 <=? w) && (w <? 2 ^ 32) | None => false end) (seq 0 8).

Lemma rows32_ok : forallb row32_ok (seq 0 78) = true.
Proof. vm_compute. reflexivity. Qed.

Lemma row32_cell i j : (i < 78)%nat -> (j < 8)%nat -> exists w, cell c_pow10_double_u32 i j = Some w /\ fits 32 w.
Proof.
  intros Hi Hj. pose proof (seq_all _ _ _ rows32_ok Hi) as H. apply andb_true_iff in H as [_ H].
  pose proof (seq_all _ _ _ H Hj) as Hc. cbn beta in Hc. destruct (cell _ i j) as [w|]; [|done].
  exists w. split; [done|]. unfold fits. lia.
Qed.

Lemma row32_sum_nonneg i j : (i < 78)%nat -> (j <= 8)%nat -> 0 <= row32_sum i j.
Proof.
  intros Hi. induction j as [|j IH]; intros Hj; [done|]. cbn [row32_sum].
  destruct (row32_cell i j Hi) as (w & -> & Hw); [lia|]. unfold fits in Hw.
  destruct (w =? 0); [destruct (j <? 6)%nat; [done | apply IH; lia]|].
  assert (0 <= w * 2 ^ (32 * (7 - Z.of_nat j))) by (apply Z.mul_nonneg_nonneg; [lia | apply Z.pow_nonneg; lia]).
  specialize (IH ltac:(lia)). lia.
Qed.

Section PortableSpec.
Context {T : Type} `{laws : Uint128Laws T}.

Lemma val256_split (x : uint256 T) : wf256 x ->
  val128 (hi x) = val256 x / 2 ^ 128 /\ val128 (lo x) = val256 x mod 2 ^ 128.
Proof.
  intros [Hh Hl]. apply val128_fits in Hh, Hl. unfold val256, fits in *.
  Z.div_mod_to_equations. lia.
Qed.

(** A shifted table word times a digit: the flag is exact. *)
Lemma word_product (w d k : Z) : fits 32 w -> 0 < d < 10 -> 0 <= k <= 7 ->
  exists r f p, LEFT_SHIFT_256 (GET_256_FROM_64 (T := T) w) (32 * k) = Some r /\
    MULT_256_256 r (GET_256_FROM_64 d) = Some (f, p) /\ wf256 p /\
    (if w * 2 ^ (32 * k) * d <? 2 ^ 256 then f = 0 /\ val256 p = w * 2 ^ (32 * k) * d else f = 1).
Proof.
  intros Hw Hd Hk. destruct (GET_256_FROM_64_spec w) as [Ww Vw]; [unfold fits in *; lia|].
  destruct (GET_256_FROM_64_spec (T := T) d) as [Wd Vd]; [unfold fits; lia|].
  destruct (LEFT_SHIFT_256_spec _ (32 * k) Ww) as (r & Er & Wr & Vr); [lia|].
  destruct (MULT_256_256_spec r _ Wr Wd) as (p & Ep & Wp & Vp).
  exists r, (flag (mult_flag r (GET_256_FROM_64 d))), p. split; [done|]. split; [done|]. split; [done|].
  rewrite Vw in Vr. rewrite Vd in Vp. unfold mult_flag.
  destruct (val256_split r Wr) as [-> ->]. destruct (val256_split _ Wd) as [-> ->]. rewrite Vd.
  rewrite (Z.div_small d), (Z.mod_small d) by lia. rewrite !Z.mul_0_r, Z.add_0_r. cbn [Z.eqb negb orb].
  assert (Ek : k = 0 \/ k = 1 \/ k = 2 \/ k = 3 \/ k = 4 \/ k = 5 \/ k = 6 \/ k = 7) by lia.
  assert (Hwk : val256 r = w * 2 ^ (32 * k)).
  { rewrite Vr. apply wrap_id. unfold fits in *. destruct Ek as [->|[->|[->|[->|[->|[->|[->| ->]]]]]]];
      match goal with |- context [2 ^ (32 * ?k)] => let e := eval vm_compute in (2 ^ (32 * k)) in change (2 ^ (32 * k)) with e end; lia. }
  rewrite Hwk in *. clear Vr Er. rewrite Vp. unfold fits in Hw.
  assert (Hwd : 0 <= w * d < 2 ^ 32 * 10) by nia.
  replace (w * 2 ^ (32 * k) * d) with (w * d * 2 ^ (32 * k)) by ring.
  set (z := w * d) in *.
  assert (Hz : w * 2 ^ (32 * k) / 2 ^ 128 * d = if k <? 4 then 0 else z * 2 ^ (32 * (k - 4))).
  { destruct (Z.ltb_spec k 4).
    - rewrite Z.div_small; [done|]. assert (2 ^ (32 * k) <= 2 ^ 96) by (apply Z.pow_le_mono_r; lia).
      assert (0 < 2 ^ (32 * k)) by lia. nia.
    - replace (32 * k) with (32 * (k - 4) + 128) by lia. rewrite Z.pow_add_r, Z.mul_assoc, Z.div_mul by lia.
      unfold z. ring. }
  rewrite Hz. clear Hz. destruct (Z.ltb_spec k 4).
  - assert (2 ^ (32 * k) <= 2 ^ 96) by (apply Z.pow_le_mono_r; lia). assert (0 < 2 ^ (32 * k)) by lia.
    assert (0 <= z * 2 ^ (32 * k) < 2 ^ 256) by nia.
    rewrite (proj2 (Z.ltb_lt _ _)) by lia. split; [done|]. apply wrap_id. unfold fits. lia.
  - assert (E : z * 2 ^ (32 * k) = z * 2 ^ (32 * (k - 4)) * 2 ^ 128)
      by (rewrite <- Z.mul_assoc, <- Z.pow_add_r by lia; do 2 f_equal; lia).
    rewrite E. assert (0 <= z * 2 ^ (32 * (k - 4))) by (apply Z.mul_nonneg_nonneg; lia).
    destruct (Z.ltb_spec (z * 2 ^ (32 * (k - 4)) * 2 ^ 128) (2 ^ 256)).
    + rewrite (proj2 (Z.leb_gt _ _)) by lia. split; [done|]. apply wrap_id. unfold fits. lia.
    + by rewrite (proj2 (Z.leb_le _ _)) by lia.
Qed.

Lemma portable_loop_spec i d j (x : uint256 T) : (i < 78)%nat -> 0 < d < 10 -> (j <= 8)%nat -> wf256 x ->
  if val256 x + d * row32_sum i j <? 2 ^ 256
  then exists r, portable_digit_loop i d j x = Some (Some r) /\ wf256 r /\ val256 r = val256 x + d * row32_sum i j
  else portable_digit_loop i d j x = Some None.
Proof.
  intros Hi Hd. revert x. induction j as [|j IH]; intros x Hj Wx; pose proof (val256_fits x Wx) as Fx; unfold fits in Fx.
  - cbn [row32_sum portable_digit_loop]. rewrite Z.mul_0_r, Z.add_0_r, (proj2 (Z.ltb_lt _ _)) by lia. eauto.
  - cbn [row32_sum portable_digit_loop]. destruct (row32_cell i j Hi) as (w & -> & Hw); [lia|].
    cbn [mbind option_bind]. destruct (GET_256_FROM_64_spec (T := T) w) as [Ww Vw]; [unfold fits in *; lia|].
    rewrite IS_ZERO_256_spec, Vw by done. destruct (Z.eqb_spec w 0) as [->|Hw0].
    + destruct (j <? 6)%nat; [|apply IH; [lia | done]].
      rewrite Z.mul_0_r, Z.add_0_r, (proj2 (Z.ltb_lt _ _)) by lia. eauto.
    + destruct (word_product w d (7 - Z.of_nat j) Hw Hd) as (r & f & p & -> & Ep & Wp & Hf); [lia|].
      cbn [mbind option_bind]. rewrite Ep. cbn [mbind option_bind].
      pose proof (row32_sum_nonneg i j Hi ltac:(lia)) as Hrs.
      set (W := w * 2 ^ (32 * (7 - Z.of_nat j))) in *. clearbody W.
      assert (0 <= d * row32_sum i j) by (apply Z.mul_nonneg_nonneg; lia).
      rewrite Z.mul_add_distr_l, (Z.mul_comm d W).
      destruct (Z.ltb_spec (W * d) (2 ^ 256)) as [Hlt|Hge].
      * destruct Hf as [-> Vp]. cbn [Z.eqb negb].
        destruct (checked_sum_cases x p (W * d) Wx Wp Vp) as [(L & r' & -> & Wr & Vr)|(L & ->)].
        -- specialize (IH r' ltac:(lia) Wr). rewrite Vr in IH.
           replace (val256 x + (W * d + d * row32_sum i j)) with (val256 x + W * d + d * row32_sum i j) by lia. exact IH.
        -- rewrite (proj2 (Z.ltb_ge _ _)) by lia. done.
      * subst f. cbn [Z.eqb negb]. rewrite (proj2 (Z.ltb_ge _ _)) by lia. done.
Qed.

Lemma portable_digit_spec i d (x : uint256 T) : (i < 78)%nat -> 0 < d < 10 -> wf256 x ->
  if val256 x + d * 10 ^ Z.of_nat i <? 2 ^ 256
  then exists r, portable_digit_step i d x = Some (Some r) /\ wf256 r /\ val256 r = val256 x + d * 10 ^ Z.of_nat i
  else portable_digit_step i d x = Some None.
Proof.
  intros Hi Hd Wx. pose proof (seq_all _ _ _ rows32_ok Hi) as H0. apply andb_true_iff in H0 as [H0 _].
  apply Z.eqb_eq in H0. rewrite <- H0. by apply portable_loop_spec.
Qed.
End PortableSpec.

#[export] Instance portable_digit : DigitStep Portable.uint128 :=
  { digit_step := portable_digit_step; digit_step_spec := portable_digit_spec }.

(** ** Numbers and their digits *)

(** Value of a digit string, lowest digit first, and highest digit first. *)
Fixpoint lsd_val (cs : list Z) : Z :=
  match cs with [] => 0 | c :: cs => (c - 48) + 10 * lsd_val cs end.

Definition dec_value (s : list Z) : Z := lsd_val (rev s).

Definition digits (s : list Z) : Prop := Forall (λ c, isdigit c = true) s.

(** What a conversion that reports errors as zero returns. *)
Definition clamp (v : Z) : Z := if v <? 2 ^ 256 then v else 0.

Lemma isdigit_range c : isdigit c = true <-> 48 <= c <= 57.
Proof. unfold isdigit. lia. Qed.

Lemma digits_app s t : digits (s ++ t) <-> digits s /\ digits t.
Proof. apply Forall_app. Qed.

Lemma digits_rev s : digits s -> digits (rev s).
Proof. unfold digits. intros H. apply Forall_rev. exact H. Qed.

Lemma lsd_val_app s t : lsd_val (s ++ t) = lsd_val s + 10 ^ Z.of_nat (length s) * lsd_val t.
Proof.
  induction s as [|c s IH]; [cbn [app lsd_val length]; lia|].
  cbn [app lsd_val length]. rewrite IH, Nat2Z.inj_succ, Z.pow_succ_r by lia. ring.
Qed.

Lemma lsd_val_bound s : digits s -> 0 <= lsd_val s < 10 ^ Z.of_nat (length s).
Proof.
  induction 1 as [|c s Hc _ IH]; [cbn; lia|]. apply isdigit_range in Hc. cbn [lsd_val length].
  rewrite Nat2Z.inj_succ, Z.pow_succ_r by lia. lia.
Qed.

Lemma dec_value_app s t : dec_value (s ++ t) = dec_value s * 10 ^ Z.of_nat (length t) + dec_value t.
Proof. unfold dec_value. rewrite rev_app_distr, lsd_val_app, length_rev. ring. Qed.

Lemma dec_value_zeros n : dec_value (replicate n 48) = 0.
Proof. induction n as [|n IH]; [done|]. cbn [replicate]. change (48 :: ?l) with ([48] ++ l). by rewrite dec_value_app, IH. Qed.

Lemma dec_value_bound s : digits s -> 0 <= dec_value s < 10 ^ Z.of_nat (length s).
Proof. intros H. unfold dec_value. rewrite <- length_rev. by apply lsd_val_bound, digits_rev. Qed.

Lemma strchr_None s c : strchr s c = None <-> c ∉ s.
Proof.
  induction s as [|x s IH]; cbn [strchr]; [split; [intros _ H; by apply elem_of_nil in H | done]|].
  rewrite not_elem_of_cons. destruct (Z.eqb_spec x c) as [->|Hx].
  - split; [done | intros [H _]; by contradict H].
  - destruct (strchr s c); cbn; split; intuition congruence.
Qed.

Lemma digits_not_in s c : digits s -> isdigit c = false -> c ∉ s.
Proof. intros H Hc Hin. rewrite (proj1 (List.Forall_forall _ _) H c) in Hc; [done | by apply list_elem_of_In]. Qed.

Lemma strchr_split s t c : c ∉ s -> strchr (s ++ c :: t) c = Some (length s).
Proof.
  induction s as [|x s IH]; cbn [app strchr length]; intros H; [by rewrite Z.eqb_refl|].
  apply not_elem_of_cons in H as [Hx H]. rewrite (proj2 (Z.eqb_neq x c)), IH by congruence. done.
Qed.

Section Scan.
Context {T : Type} `{steps : DigitStep T}.

Lemma scan_loop_spec cs i (x : uint256 T) : digits cs -> (i + length cs <= 78)%nat -> wf256 x ->
  exists r, scan_loop cs i x = Some r /\ wf256 r /\ val256 r = clamp (val256 x + 10 ^ Z.of_nat i * lsd_val cs).
Proof.
  intros Hcs. revert i x. induction Hcs as [|c cs Hc Hcs IH]; intros i x Hi Wx.
  - exists x. cbn [scan_loop lsd_val]. split; [done|]. split; [done|]. unfold clamp.
    pose proof (val256_fits x Wx) as Fx. unfold fits in Fx. rewrite Z.mul_0_r, Z.add_0_r.
    by rewrite (proj2 (Z.ltb_lt _ _)) by lia.
  - cbn [scan_loop lsd_val length] in *. rewrite Hc. cbn [negb]. apply isdigit_range in Hc.
    assert (E : val256 x + 10 ^ Z.of_nat i * (c - 48 + 10 * lsd_val cs)
      = val256 x + (c - 48) * 10 ^ Z.of_nat i + 10 ^ Z.of_nat (S i) * lsd_val cs)
      by (rewrite Nat2Z.inj_succ, Z.pow_succ_r by lia; ring).
    rewrite E. destruct (Z.eqb_spec (c - 48) 0) as [E0|E0].
    + rewrite E0, Z.mul_0_l, Z.add_0_r. apply IH; [lia | done].
    + pose proof (digit_step_spec i (c - 48) x ltac:(lia) ltac:(lia) Wx) as Hs.
      destruct (Z.ltb_spec (val256 x + (c - 48) * 10 ^ Z.of_nat i) (2 ^ 256)) as [Hlt|Hge].
      * destruct Hs as (r & -> & Wr & Vr). cbn [mbind option_bind]. rewrite <- Vr. apply IH; [lia | done].
      * rewrite Hs. cbn [mbind option_bind]. destruct uint256_0_spec as [W0 V0]. exists uint256_0.
        split; [done|]. split; [done|]. rewrite V0. unfold clamp. rewrite (proj2 (Z.ltb_ge _ _)); [done|].
        pose proof (lsd_val_bound cs Hcs). assert (0 <= 10 ^ Z.of_nat (S i) * lsd_val cs)
          by (apply Z.mul_nonneg_nonneg; lia). lia.
Qed.

Lemma scan_loop_bad cs i (x : uint256 T) : ~ digits cs -> (i + length cs <= 78)%nat -> wf256 x ->
  scan_loop cs i x = Some uint256_0.
Proof.
  revert i x. induction cs as [|c cs IH]; intros i x Hbad Hi Wx; [contradict Hbad; constructor|].
  cbn [scan_loop length] in *. destruct (isdigit c) eqn:Hc; cbn [negb]; [|done].
  assert (Hbad' : ~ digits cs) by (contradict Hbad; by constructor).
  apply isdigit_range in Hc. destruct (Z.eqb_spec (c - 48) 0); [apply IH; [done | lia | done]|].
  pose proof (digit_step_spec i (c - 48) x ltac:(lia) ltac:(lia) Wx) as Hs.
  destruct (_ <? _); [destruct Hs as (r & -> & Wr & _); apply IH; [done | lia | done] | by rewrite Hs].
Qed.

Lemma plain_eq s : (length s <= 78)%nat ->
  exists b, plain_to_digits s = Some (Some (b, Z.of_nat (length s))) /\ mem_read b 0 (Z.of_nat (length s)) = Some s.
Proof.
  intros Hl. unfold plain_to_digits, DATOSHI_POW256, DATOSHI_POW. rewrite (proj2 (Z.ltb_ge _ _)) by lia.
  replace 79%nat with (length s + (1 + (78 - length s)))%nat by lia. rewrite !replicate_add.
  pose proof (mem_write_app [] (replicate (length s) 0) s (replicate 1 0 ++ replicate (78 - length s) 0)
    ltac:(apply length_replicate)) as E1. change (Z.of_nat (length [])) with 0 in E1. rewrite !app_nil_l in E1.
  rewrite E1. cbn [mbind option_bind]. rewrite mem_write_app by done. cbn [mbind option_bind].
  eexists. split; [done|]. pose proof (mem_read_app [] s ([0] ++ replicate (78 - length s) 0)) as E2. exact E2.
Qed.

(** Any string without an exponent. *)
Lemma scan_uninteger_eq s : 101 ∉ s -> 69 ∉ s ->
  exists r : uint256 T, dap_uint256_scan_uninteger (Some s) = Some r /\ wf256 r /\
    val256 r = if decide (digits s /\ (length s <= 78)%nat) then clamp (dec_value s) else 0.
Proof.
  intros He HE. destruct uint256_0_spec as [W0 V0]. unfold dap_uint256_scan_uninteger.
  rewrite (proj2 (strchr_None s 101) He), (proj2 (strchr_None s 69) HE).
  destruct (le_lt_dec (length s) 78) as [Hl|Hl].
  - destruct (plain_eq s Hl) as (b & -> & Eb). cbn [mbind option_bind]. rewrite Eb. cbn [mbind option_bind].
    destruct (decide _) as [[Hd _]|Hn].
    + destruct (scan_loop_spec (rev s) 0 uint256_0 (digits_rev s Hd)) as (r & -> & Wr & Vr);
        [rewrite length_rev; lia | done|]. exists r. split; [done|]. split; [done|].
      rewrite Vr, V0. unfold dec_value. f_equal. change (10 ^ Z.of_nat 0) with 1. lia.
    + exists uint256_0. split; [|done]. apply scan_loop_bad; [|rewrite length_rev; lia | done].
      intros Hr. apply Hn. split; [|done]. rewrite <- (rev_involutive s). by apply digits_rev.
  - unfold plain_to_digits, DATOSHI_POW256, DATOSHI_POW. rewrite (proj2 (Z.ltb_lt _ _)) by lia.
    cbn [mbind option_bind]. exists uint256_0. split; [done|]. split; [done|].
    rewrite decide_False; [done | lia].
Qed.
End Scan.

(** ** Fixed-point text *)

Lemma digits_nonzero s : digits s -> Forall (λ c, c <> 0) s.
Proof. unfold digits. intros H. eapply List.Forall_impl; [|exact H]. intros c Hc. apply isdigit_range in Hc. lia. Qed.

Lemma read_cstr_app s post : Forall (λ c, c <> 0) s -> read_cstr (s ++ 0 :: post) = Some s.
Proof.
  induction 1 as [|c s Hc _ IH]; [done|]. cbn [app read_cstr]. by rewrite (proj2 (Z.eqb_neq c 0)), IH.
Qed.

Lemma read_cstr_None s : Forall (λ c, c <> 0) s -> read_cstr s = None.
Proof. induction 1 as [|c s Hc _ IH]; [done|]. cbn [read_cstr]. by rewrite (proj2 (Z.eqb_neq c 0)), IH. Qed.

Lemma mem_write_front {A} (old d post : list A) : length old = length d ->
  mem_write (old ++ post) 0 d = Some (d ++ post).
Proof. intros. by apply (mem_write_app [] old d post). Qed.

Lemma mem_read_front {A} (d post : list A) : mem_read (d ++ post) 0 (Z.of_nat (length d)) = Some d.
Proof. apply (mem_read_app [] d post). Qed.

Section Decimal.
Context {T : Type} `{steps : DigitStep T}.

(** The string handed to the integer scanner: the digits without the dot,
    filled up to 18 decimals. *)
Lemma scan_decimal_tail (body : list Z) (k : nat) : digits body -> (length body + k <= 85)%nat ->
  (l_buf ← mem_write (body ++ replicate (86 - length body) 0) (Z.of_nat (length body)) (replicate k 48);
   s ← read_cstr l_buf;
   dap_uint256_scan_uninteger (T := T) (Some s))
  = dap_uint256_scan_uninteger (Some (body ++ replicate k 48)).
Proof.
  intros Hb Hk. replace (86 - length body)%nat with (k + (1 + (85 - length body - k)))%nat by lia.
  rewrite !replicate_add. rewrite mem_write_app by (by rewrite !length_replicate). cbn [mbind option_bind].
  rewrite app_assoc. change (replicate 1 0 ++ ?l) with (0 :: l). rewrite read_cstr_app; [done|].
  apply digits_nonzero, digits_app. split; [done|]. by apply Forall_replicate.
Qed.

Lemma dot_buffer (ip fp : list Z) : fp <> [] -> (length ip + length fp < 86)%nat ->
  exists b1, mem_write (replicate 86 0) 0 (ip ++ 46 :: fp) = Some b1 /\
    mem_read b1 (Z.of_nat (length ip) + 1) (Z.of_nat (length fp)) = Some fp /\
    exists b2, mem_write b1 (Z.of_nat (length ip)) fp = Some b2 /\
      mem_write b2 (Z.of_nat (length ip) + Z.of_nat (length fp)) [0]
      = Some ((ip ++ fp) ++ replicate (86 - length (ip ++ fp)) 0).
Proof.
  intros Hfp Hl. set (z := (85 - length ip - length fp)%nat).
  exists ((ip ++ 46 :: fp) ++ replicate z 0). split.
  { replace 86%nat with (length (ip ++ 46%Z :: fp) + z)%nat by (rewrite length_app; cbn [length]; lia).
    rewrite replicate_add. apply mem_write_front. apply length_replicate. }
  split.
  { replace ((ip ++ 46 :: fp) ++ replicate z 0) with ((ip ++ [46]) ++ fp ++ replicate z 0) by (by rewrite <- !app_assoc).
    replace (Z.of_nat (length ip) + 1) with (Z.of_nat (length (ip ++ [46]))) by (rewrite length_app; cbn; lia).
    apply mem_read_app. }
  assert (exists y, 46 :: fp = take (length fp) (46 :: fp) ++ [y]) as [y Ey].
  { destruct (drop (length fp) (46 :: fp)) as [|y l] eqn:E.
    - apply (f_equal length) in E. rewrite length_drop in E. cbn in E. lia.
    - exists y. rewrite <- (take_drop (length fp) (46 :: fp)) at 1. rewrite E.
      apply (f_equal length) in E. rewrite length_drop in E. cbn [length] in E.
      destruct l; [done | cbn in E; lia]. }
  exists ((ip ++ fp) ++ [y] ++ replicate z 0). split.
  { rewrite Ey at 1. rewrite <- !app_assoc. apply mem_write_app. rewrite length_take. cbn [length]. lia. }
  replace (Z.of_nat (length ip) + Z.of_nat (length fp)) with (Z.of_nat (length (ip ++ fp))) by (rewrite length_app; lia).
  rewrite mem_write_app by done. f_equal. f_equal.
  replace (86 - length (ip ++ fp))%nat with (1 + z)%nat by (rewrite length_app; lia). done.
Qed.

Lemma scan_decimal_dot (ip fp : list Z) : digits ip -> digits fp -> ip <> [] -> fp <> [] ->
  (length ip <= 60)%nat -> (length fp <= 18)%nat ->
  exists r : uint256 T, dap_uint256_scan_decimal (ip ++ 46 :: fp) = Some r /\ wf256 r /\
    val256 r = clamp (dec_value ip * 10 ^ 18 + dec_value fp * 10 ^ (18 - Z.of_nat (length fp))).
Proof.
  intros Hi Hf Hi0 Hf0 Li Lf. unfold dap_uint256_scan_decimal, DATOSHI_POW256, DATOSHI_POW, DATOSHI_DEGREE.
  rewrite length_app. cbn [length]. rewrite (proj2 (Z.ltb_ge _ _)) by lia.
  destruct (dot_buffer ip fp Hf0 ltac:(lia)) as (b1 & -> & Er & b2 & Ew & Ez). cbn [mbind option_bind].
  rewrite strchr_split by (by apply digits_not_in). cbn [mbind option_bind].
  assert (length ip <> 0)%nat by (by destruct ip). assert (length fp <> 0)%nat by (by destruct fp).
  rewrite !(proj2 (Z.eqb_neq _ _)) by lia. cbn [orb].
  replace (Z.of_nat (length ip + S (length fp)) - Z.of_nat (length ip) - 1) with (Z.of_nat (length fp)) by lia.
  rewrite (proj2 (Z.ltb_ge 18 _)) by lia. rewrite Er. cbn [mbind option_bind]. rewrite Ew. cbn [mbind option_bind].
  rewrite Ez. cbn [mbind option_bind].
  replace (Z.of_nat (length ip) + Z.of_nat (length fp)) with (Z.of_nat (length (ip ++ fp))) by (rewrite length_app; lia).
  assert (Hd : digits (ip ++ fp)) by (by apply digits_app).
  rewrite scan_decimal_tail by (done || (rewrite length_app; lia)).
  set (k := Z.to_nat (18 - Z.of_nat (length fp))).
  assert (Hdk : digits ((ip ++ fp) ++ replicate k 48)) by (apply digits_app; split; [done | by apply Forall_replicate]).
  destruct (scan_uninteger_eq (T := T) ((ip ++ fp) ++ replicate k 48)) as (r & Eq & Wr & Vr);
    [by apply digits_not_in | by apply digits_not_in|].
  exists r. split; [done|]. split; [done|]. rewrite Vr, decide_True.
  2: { split; [done|]. rewrite !length_app, length_replicate. lia. }
  f_equal. rewrite !dec_value_app, dec_value_zeros, length_replicate.
  replace (Z.of_nat k) with (18 - Z.of_nat (length fp)) by lia.
  rewrite Z.add_0_r, Z.mul_add_distr_r, <- Z.mul_assoc, <- Z.pow_add_r by lia. do 3 f_equal. lia.
Qed.

Lemma scan_decimal_plain (ip : list Z) : digits ip -> (length ip <= 60)%nat ->
  exists r : uint256 T, dap_uint256_scan_decimal ip = Some r /\ wf256 r /\ val256 r = clamp (dec_value ip * 10 ^ 18).
Proof.
  intros Hi Li. unfold dap_uint256_scan_decimal, DATOSHI_POW256, DATOSHI_POW, DATOSHI_DEGREE.
  rewrite (proj2 (Z.ltb_ge _ _)) by lia.
  replace 86%nat with (length ip + (86 - length ip))%nat by lia. rewrite replicate_add.
  rewrite mem_write_front by apply length_replicate. cbn [mbind option_bind].
  rewrite (proj2 (strchr_None ip 46)) by (by apply digits_not_in). cbn [mbind option_bind].
  rewrite Z.add_0_r, Z.sub_0_r. replace (length ip + (86 - length ip))%nat with 86%nat by lia.
  change (Z.to_nat 18) with 18%nat. rewrite scan_decimal_tail by (done || lia).
  assert (Hdk : digits (ip ++ replicate 18 48)) by (apply digits_app; split; [done | by apply Forall_replicate]).
  destruct (scan_uninteger_eq (T := T) (ip ++ replicate 18 48)) as (r & Eq & Wr & Vr);
    [by apply digits_not_in | by apply digits_not_in|].
  exists r. split; [done|]. split; [done|]. rewrite Vr, decide_True.
  2: { split; [done|]. rewrite length_app, length_replicate. lia. }
  f_equal. rewrite dec_value_app, dec_value_zeros, length_replicate. change (Z.of_nat 18) with 18. lia.
Qed.
End Decimal.

(** ** Printing *)

(** Equality of concatenations up to association. *)
Ltac app_norm := repeat first [rewrite <- app_assoc | progress cbn [app]]; reflexivity.

Lemma mem_read_one {A} (pre : list A) x post i : i = Z.of_nat (length pre) ->
  mem_read (pre ++ x :: post) i 1 = Some [x].
Proof. intros ->. apply (mem_read_app pre [x] post). Qed.

Lemma mem_write_one {A} (pre : list A) x y post i : i = Z.of_nat (length pre) ->
  mem_write (pre ++ x :: post) i [y] = Some (pre ++ y :: post).
Proof. intros ->. by apply (mem_write_app pre [x] [y] post). Qed.

(** The swap loop reverses the part between the two pointers. *)
Lemma swap_loop_rev n pre mid post : mid <> [] -> (length mid <= 2 * n)%nat ->
  swap_loop n (pre ++ mid ++ post) (Z.of_nat (length pre)) (Z.of_nat (length pre) + Z.of_nat (length mid) - 1)
  = Some (pre ++ rev mid ++ post).
Proof.
  revert pre mid post. induction n as [|n IH]; intros pre mid post Hm Hl; [destruct mid; [done | cbn in Hl; lia]|].
  destruct mid as [|x mid]; [done|]. clear Hm. destruct mid as [|y m _] using rev_ind.
  - cbn [swap_loop length app rev]. replace (Z.of_nat (length pre) + Z.of_nat 1 - 1) with (Z.of_nat (length pre)) by lia.
    rewrite mem_read_one by done. cbn [mbind option_bind]. rewrite (mem_write_one pre x x) by done. cbn [mbind option_bind].
    rewrite (mem_write_one pre x x) by done. cbn [mbind option_bind]. by rewrite (proj2 (Z.ltb_ge _ _)) by lia.
  - cbn [length] in *. rewrite length_app in *. cbn [length] in *.
    replace (Z.of_nat (length pre) + Z.of_nat (S (length m + 1)) - 1)
      with (Z.of_nat (length (pre ++ x :: m))) by (rewrite length_app; cbn [length]; lia).
    cbn [app swap_loop]. rewrite (mem_read_one pre x _ (Z.of_nat (length pre))) by done. cbn [mbind option_bind].
    replace (pre ++ x :: (m ++ [y]) ++ post) with ((pre ++ x :: m) ++ y :: post) by (by rewrite <- !app_assoc).
    rewrite (mem_read_one (pre ++ x :: m) y) by done. cbn [mbind option_bind].
    rewrite <- app_assoc, <- app_comm_cons. rewrite (mem_write_one pre x y _ (Z.of_nat (length pre))) by done. cbn [mbind option_bind].
    rewrite app_comm_cons, app_assoc.
    rewrite (mem_write_one (pre ++ y :: m) y x) by (rewrite !length_app; done). cbn [mbind option_bind].
    replace ((pre ++ y :: m) ++ x :: post) with ((pre ++ [y]) ++ m ++ x :: post) by (by rewrite <- !app_assoc).
    cbn [rev]. rewrite rev_app_distr. cbn [rev app]. rewrite !length_app. cbn [length].
    destruct (Z.ltb_spec (Z.of_nat (length pre) + 1) (Z.of_nat (length pre + S (length m)) - 1)) as [Hlt|Hge].
    + replace (Z.of_nat (length pre) + 1) with (Z.of_nat (length (pre ++ [y]))) by (rewrite length_app; cbn; lia).
      replace (Z.of_nat (length pre + S (length m)) - 1)
        with (Z.of_nat (length (pre ++ [y])) + Z.of_nat (length m) - 1) by (rewrite length_app; cbn; lia).
      rewrite IH; [| intros ->; cbn [length] in Hlt; lia | lia]. by rewrite <- !app_assoc.
    + destruct m as [|z [|? ?]]; cbn [length] in Hge; [| |lia]; cbn [rev app]; by rewrite <- !app_assoc.
Qed.

Lemma strip_loop_spec n pre fp post : fp <> [] -> 46 ∉ fp -> (length fp <= n)%nat ->
  exists fp' k, fp = fp' ++ replicate k 48 /\ fp' <> [] /\
    strip_loop n (pre ++ 46 :: fp ++ post) (Z.of_nat (length pre) + Z.of_nat (length fp))
      (Z.of_nat (length pre) + 1 + Z.of_nat (length fp))
    = Some (Z.of_nat (length pre) + 1 + Z.of_nat (length fp')).
Proof.
  revert fp post. induction n as [|n IH]; intros fp post Hfp Hdot Hl; [by destruct fp; cbn in Hl; [|lia]|].
  destruct fp as [|x f _] using rev_ind; [done|]. clear Hfp. rewrite length_app in *. cbn [length] in *.
  cbn [strip_loop].
  replace (pre ++ 46 :: (f ++ [x]) ++ post) with ((pre ++ 46 :: f) ++ x :: post) by (by rewrite <- !app_assoc).
  rewrite (mem_read_one (pre ++ 46 :: f) x _ (Z.of_nat (length pre) + Z.of_nat (length f + 1))) by (rewrite length_app; cbn [length]; lia). cbn [mbind option_bind].
  case_bool_decide as Hx; cbn [negb].
  2: { exists (f ++ [x]), O. rewrite app_nil_r, length_app. cbn [length]. by destruct f. }
  injection Hx as ->. destruct f as [|z g _] using rev_ind.
  - rewrite <- app_assoc. cbn [app length]. rewrite (mem_read_one pre 46) by lia.
    cbn [mbind option_bind]. rewrite bool_decide_true by done. exists [48], O. done.
  - replace ((pre ++ 46 :: g ++ [z]) ++ 48 :: post) with ((pre ++ 46 :: g) ++ z :: 48 :: post) by app_norm.
    rewrite (mem_read_one (pre ++ 46 :: g) z) by (rewrite !length_app; cbn [length]; lia). cbn [mbind option_bind].
    rewrite bool_decide_false.
    2: { intros [= ->]. apply Hdot. rewrite !elem_of_app. left. right. by apply list_elem_of_singleton. }
    destruct (IH (g ++ [z]) (48 :: post)) as (fp' & k & E & Hne & Es).
    { by destruct g. } { intros Hin. apply Hdot. rewrite elem_of_app. by left. } { lia. }
    exists fp', (S k). split; [|split; [done|]].
    + rewrite E, <- app_assoc. f_equal. change [48] with (replicate 1 48). by rewrite <- replicate_add, Nat.add_comm.
    + replace (pre ++ 46 :: (g ++ [z]) ++ 48 :: post) with ((pre ++ 46 :: g) ++ z :: 48 :: post) in Es
        by app_norm.
      rewrite length_app in *. cbn [length] in *. rewrite <- Es. f_equal; lia.
Qed.

Section Print.
Context {T : Type} `{steps : DigitStep T}.

Lemma val256_inj (x y : uint256 T) : wf256 x -> wf256 y -> val256 x = val256 y -> x = y.
Proof.
  intros [Hxh Hxl] [Hyh Hyl] E. destruct x as [xh xl], y as [yh yl]. unfold val256 in E. cbn [hi lo] in *.
  pose proof (val128_fits _ Hxh). pose proof (val128_fits _ Hxl). pose proof (val128_fits _ Hyh).
  pose proof (val128_fits _ Hyl). unfold fits in *. f_equal; apply val128_inj; auto; lia.
Qed.

Lemma digits_loop_spec n (v : uint256 T) : wf256 v -> val256 v < 10 ^ Z.of_nat n -> (0 < n)%nat ->
  exists ds, digits_loop n v = Some ds /\ digits ds /\ (0 < length ds <= n)%nat /\ lsd_val ds = val256 v.
Proof.
  revert v. induction n as [|n IH]; intros v Wv Hv Hn; [lia|]. cbn [digits_loop].
  destruct (GET_256_FROM_64_spec (T := T) 10) as [W10 V10]; [done|].
  destruct (divmod_impl_256_spec v (GET_256_FROM_64 10) Wv W10) as (q & r & -> & Wq & Wr & Vq & Vr); [by rewrite V10|].
  rewrite V10 in *. cbn [mbind option_bind]. pose proof (val256_fits v Wv) as Fv. unfold fits in Fv.
  assert (Er : to_u64 (lo r) = val256 v mod 10).
  { rewrite to_u64_spec by apply Wr. destruct (val256_split r Wr) as [_ ->]. rewrite Vr.
    pose proof (Z.mod_pos_bound (val256 v) 10 ltac:(lia)). rewrite (Z.mod_small (_ mod 10)) by lia.
    apply wrap_id. unfold fits. lia. }
  rewrite Er. pose proof (Z.mod_pos_bound (val256 v) 10 ltac:(lia)) as Hm.
  assert (Hd : isdigit (val256 v mod 10 + 48) = true) by (apply isdigit_range; lia).
  rewrite IS_ZERO_256_spec, Vq by done. destruct (Z.eqb_spec (val256 v / 10) 0) as [E0|E0].
  - exists [val256 v mod 10 + 48]. split; [done|]. split; [by constructor|]. split; [cbn; lia|].
    cbn [lsd_val]. Z.div_mod_to_equations. lia.
  - assert (n <> O) by (intros ->; change (10 ^ Z.of_nat 1) with 10 in Hv; Z.div_mod_to_equations; lia).
    destruct (IH q Wq) as (ds & -> & Hds & Hl & E); [| lia |].
    { rewrite Vq. apply Z.div_lt_upper_bound; [lia|]. rewrite Nat2Z.inj_succ, Z.pow_succ_r in Hv by lia. lia. }
    cbn [mbind option_bind]. eexists. split; [done|]. split; [by constructor|]. split; [cbn; lia|].
    cbn [lsd_val]. rewrite E, Vq. Z.div_mod_to_equations. lia.
Qed.

Lemma pow10_78_gt : 2 ^ 256 < 10 ^ Z.of_nat 78.
Proof. apply Z.ltb_lt. vm_compute. reflexivity. Qed.

(** The integer text of a value. *)
Lemma to_char_buf_spec (v : uint256 T) : wf256 v ->
  exists s z, to_char_buf v = Some (s ++ replicate (S z) 0, Z.of_nat (length s)) /\
    digits s /\ (0 < length s <= 78)%nat /\ dec_value s = val256 v.
Proof.
  intros Wv. destruct (digits_loop_spec 78 v Wv) as (ds & E & Hds & Hl & Ev);
    [exact (Z.lt_trans _ _ _ (proj2 (val256_fits v Wv)) pow10_78_gt) | lia |].
  exists (rev ds), (79 - length ds)%nat. unfold to_char_buf. rewrite E. cbn [mbind option_bind].
  replace 80%nat with (length (ds ++ [0%Z]) + (79 - length ds))%nat by (rewrite length_app; cbn; lia).
  rewrite replicate_add, mem_write_front by apply length_replicate. cbn [mbind option_bind].
  assert (Es : (ds ++ [0]) ++ replicate (79 - length ds) 0 = [] ++ ds ++ replicate (S (79 - length ds)) 0)
    by (by rewrite <- app_assoc).
  rewrite Es. pose proof (swap_loop_rev 40 [] ds (replicate (S (79 - length ds)) 0)) as Hs.
  change (Z.of_nat (length [])) with 0 in Hs. rewrite Z.add_0_l in Hs.
  rewrite Hs; [| intros ->; cbn in Hl; lia | lia]. cbn [mbind option_bind app].
  split; [by rewrite length_rev|]. split; [by apply digits_rev|]. split; [by rewrite length_rev|].
  unfold dec_value. by rewrite rev_involutive.
Qed.

(** The text with the dot before trailing zeros are removed. *)
Lemma frac_layout (s : list Z) z : digits s -> (0 < length s <= 78)%nat ->
  exists ip fp z',
    (let l_len := Z.of_nat (length s) - 18 in
     if 0 <? l_len then
       d ← mem_read (s ++ replicate (S z) 0) 0 l_len;
       b ← mem_write (replicate 80 0) 0 d;
       d ← mem_read (s ++ replicate (S z) 0) l_len 18;
       b ← mem_write b (l_len + 1) d;
       b ← mem_write b l_len [46];
       Some (b, Z.of_nat (length s) + 1)
     else
       b ← mem_write (replicate 80 0) 0 [48; 46];
       b ← mem_write b 2 (replicate (Z.to_nat (- l_len)) 48);
       d ← mem_read (s ++ replicate (S z) 0) 0 (Z.of_nat (length s));
       b ← mem_write b (2 - l_len) d;
       Some (b, Z.of_nat (length s) + (2 - l_len)))
    = Some (ip ++ 46 :: fp ++ replicate (S z') 0, Z.of_nat (length ip) + 1 + 18) /\
    digits ip /\ digits fp /\ ip <> [] /\ length fp = 18%nat /\ (length ip <= 60)%nat /\
    dec_value ip * 10 ^ 18 + dec_value fp = dec_value s.
Proof.
  intros Hs Hl. cbn zeta. destruct (Z.ltb_spec 0 (Z.of_nat (length s) - 18)) as [Hlt|Hge].
  - set (n := (length s - 18)%nat). set (ip := take n s). set (fp := drop n s).
    assert (Es : s = ip ++ fp) by (symmetry; apply take_drop).
    assert (Li : length ip = n) by (unfold ip; rewrite length_take; lia).
    assert (Lf : length fp = 18%nat) by (unfold fp; rewrite length_drop; lia).
    clearbody ip fp. subst s. assert (Ln : n = length ip) by lia. clearbody n. subst n. rewrite length_app in *.
    exists ip, fp, (60 - length ip)%nat. replace (Z.of_nat (length ip + length fp) - 18) with (Z.of_nat (length ip)) by lia.
    rewrite <- !app_assoc. rewrite mem_read_front. cbn [mbind option_bind].
    replace 80%nat with (length ip + (1 + (18 + S (60 - length ip))))%nat by lia. rewrite !replicate_add.
    rewrite mem_write_front by apply length_replicate. cbn [mbind option_bind].
    change 18 with (Z.of_nat 18) at 1. rewrite <- Lf at 1. rewrite mem_read_app. cbn [mbind option_bind].
    replace (Z.of_nat (length ip) + 1) with (Z.of_nat (length (ip ++ replicate 1 0))) by (rewrite length_app; cbn; lia).
    rewrite (app_assoc ip), mem_write_app by (rewrite length_replicate; lia). cbn [mbind option_bind].
    rewrite <- (app_assoc ip). rewrite mem_write_app by done. cbn [mbind option_bind].
    split. { do 2 f_equal. rewrite length_app. cbn [length replicate]. lia. }
    apply digits_app in Hs as [Hi Hf]. split; [done|]. split; [done|].
    split; [intros ->; cbn [length] in *; lia|]. split; [done|]. split; [lia|].
    by rewrite dec_value_app, Lf.
  - set (k := (18 - length s)%nat).
    exists [48], (replicate k 48 ++ s), 59%nat.
    replace (Z.to_nat (- (Z.of_nat (length s) - 18))) with k by lia.
    replace (2 - (Z.of_nat (length s) - 18)) with (Z.of_nat (2 + k)) by lia.
    change (replicate 80 0) with (replicate 2 0 ++ replicate 78 0). rewrite (mem_write_front _ [48; 46]) by done.
    cbn [mbind option_bind]. replace 78%nat with (k + (length s + 60))%nat by lia. rewrite !replicate_add.
    change 2 with (Z.of_nat (length [48; 46])) at 1. rewrite mem_write_app by (by rewrite !length_replicate).
    cbn [mbind option_bind]. rewrite mem_read_front. cbn [mbind option_bind].
    replace (Z.of_nat (2 + k)) with (Z.of_nat (length ([48; 46] ++ replicate k 48)))
      by (cbn [app length]; by rewrite length_replicate).
    rewrite app_assoc, mem_write_app by apply length_replicate. cbn [mbind option_bind].
    split. { rewrite <- !app_assoc. cbn [app]. do 2 f_equal. cbn [length]. rewrite length_replicate. lia. }
    split; [by repeat constructor|]. split; [apply digits_app; split; [by apply Forall_replicate | done]|].
    split; [done|]. split; [rewrite length_app, length_replicate; lia|]. split; [cbn; lia|].
    rewrite dec_value_app, dec_value_zeros. cbn. lia.
Qed.

(** The fixed-point text of a value. *)
Lemma decimal_to_char_spec (v : uint256 T) : wf256 v ->
  exists ip fp, dap_uint256_decimal_to_char v = Some (ip ++ 46 :: fp) /\
    digits ip /\ digits fp /\ ip <> [] /\ fp <> [] /\ (length ip <= 60)%nat /\ (length fp <= 18)%nat /\
    dec_value ip * 10 ^ 18 + dec_value fp * 10 ^ (18 - Z.of_nat (length fp)) = val256 v.
Proof.
  intros Wv. destruct (to_char_buf_spec v Wv) as (s & z & E & Hs & Hl & Ev).
  destruct (frac_layout s z Hs Hl) as (ip & fp & z' & Ef & Hi & Hf & Hi0 & Lf & Li & Edec).
  assert (Hdot : 46 ∉ fp) by (by apply digits_not_in).
  destruct (strip_loop_spec 80 ip fp (replicate (S z') 0)) as (fp' & k & Efp & Hne & Est);
    [intros ->; cbn in Lf; lia | done | lia |].
  assert (Hf' : digits fp') by (rewrite Efp in Hf; apply digits_app in Hf; apply Hf).
  exists ip, fp'. split.
  - unfold dap_uint256_decimal_to_char, dap_uint256_to_char. rewrite E. cbn [mbind option_bind].
    replace (s ++ replicate (S z) 0) with (s ++ 0 :: replicate z 0) by done.
    rewrite read_cstr_app by (by apply digits_nonzero). cbn [mbind option_bind negb].
    change (0 :: replicate z 0) with (replicate (S z) 0).
    unfold to_frac_buf, DATOSHI_DEGREE. cbn zeta in Ef. rewrite Ef. cbn [mbind option_bind].
    rewrite Lf in Est. change (Z.of_nat 18) with 18 in Est.
    replace (Z.of_nat (length ip) + 1 + 18 - 1) with (Z.of_nat (length ip) + 18) by lia. rewrite Est. cbn [mbind option_bind].
    assert (Eb : exists y l, ip ++ 46 :: fp ++ replicate (S z') 0 = (ip ++ 46 :: fp') ++ y :: l).
    { rewrite Efp, <- !app_assoc. destruct k as [|k]; cbn [replicate app]; eexists _, _; by rewrite <- app_assoc. }
    destruct Eb as (y & l & ->).
    rewrite (mem_write_one (ip ++ 46 :: fp') y 0) by (rewrite length_app; cbn [length]; lia). cbn [mbind option_bind].
    rewrite read_cstr_app; [done|]. apply Forall_app. split; [by apply digits_nonzero|].
    constructor; [done | by apply digits_nonzero].
  - assert (Lk : (length fp' + k = 18)%nat) by (rewrite <- Lf, Efp, length_app, length_replicate; done).
    split; [done|]. split; [done|]. split; [done|]. split; [done|]. split; [done|]. split; [lia|].
    rewrite <- Ev, <- Edec, Efp, dec_value_app, dec_value_zeros, length_replicate, Z.add_0_r. do 3 f_equal. lia.
Qed.
End Print.

(** ** Properties *)

(** Parsing amounts, in both builds.  A string without an exponent is
    accepted exactly when it has at most 78 characters, all decimal digits, and
    a value below 2^256, and then its value is returned; anything else gives
    zero and no input faults.  A fixed-point number with up to 60 integer and
    18 fractional digits gives its value in units of 10^-18, or zero when that
    does not fit; the fraction may be left out. *)
Theorem scan_amount_correct `{steps : DigitStep T} (s ip fp : list Z) :
  101 ∉ s -> 69 ∉ s -> digits ip -> digits fp -> ip <> [] -> fp <> [] ->
  (length ip <= 60)%nat -> (length fp <= 18)%nat ->
  (exists r : uint256 T, dap_uint256_scan_uninteger (Some s) = Some r /\ wf256 r /\
     val256 r = if decide (digits s /\ (length s <= 78)%nat) then clamp (dec_value s) else 0) /\
  (exists r : uint256 T, dap_uint256_scan_decimal (ip ++ 46 :: fp) = Some r /\ wf256 r /\
     val256 r = clamp (dec_value ip * 10 ^ 18 + dec_value fp * 10 ^ (18 - Z.of_nat (length fp)))) /\
  (exists r : uint256 T, dap_uint256_scan_decimal ip = Some r /\ wf256 r /\
     val256 r = clamp (dec_value ip * 10 ^ 18)).
Proof.
  intros. split; [by apply scan_uninteger_eq|]. split; [by apply scan_decimal_dot | by apply scan_decimal_plain].
Qed.

Lemma scan_amount_correct_witness :
  exists r : uint256 Z, dap_uint256_scan_decimal ([49; 50] ++ 46 :: [53]) = Some r /\ val256 r = 12500000000000000000.
Proof.
  destruct (scan_amount_correct (T := Z) [49; 50] [49; 50] [53]) as (_ & (r & E & _ & V) & _).
  - intros H. repeat (apply elem_of_cons in H as [H|H]; [discriminate|]). by apply elem_of_nil in H.
  - intros H. repeat (apply elem_of_cons in H as [H|H]; [discriminate|]). by apply elem_of_nil in H.
  - repeat constructor.
  - repeat constructor.
  - discriminate.
  - discriminate.
  - cbn. lia.
  - cbn. lia.
  - exists r. split; [exact E|]. rewrite V. vm_compute. reflexivity.
Defined.

(** C40: amounts survive printing and parsing, in both builds.  Every 256-bit
    value is printed without leaving the buffers, as at most 78 digits, and
    parsing them gives the value back; so does parsing its fixed-point text,
    whose trailing zeros are removed. *)
Theorem amount_roundtrip `{steps : DigitStep T} (v : uint256 T) : wf256 v ->
  (exists s, dap_uint256_uninteger_to_char v = Some s /\ digits s /\ (0 < length s <= 78)%nat /\
     dec_value s = val256 v /\ dap_uint256_scan_uninteger (Some s) = Some v) /\
  (exists f, dap_uint256_decimal_to_char v = Some f /\ dap_uint256_scan_decimal f = Some v).
Proof.
  intros Wv. pose proof (val256_fits v Wv) as Fv. unfold fits in Fv.
  assert (Hc : clamp (val256 v) = val256 v) by (unfold clamp; by rewrite (proj2 (Z.ltb_lt _ _)) by lia).
  split.
  - destruct (to_char_buf_spec v Wv) as (s & z & E & Hs & Hl & Ev). exists s.
    unfold dap_uint256_uninteger_to_char, dap_uint256_to_char. rewrite E. cbn [mbind option_bind].
    change (replicate (S z) 0) with (0 :: replicate z 0). rewrite (read_cstr_app s (replicate z 0)) by (by apply digits_nonzero). cbn [mbind option_bind negb].
    split; [done|]. split; [done|]. split; [done|]. split; [done|].
    destruct (scan_uninteger_eq (T := T) s) as (r & -> & Wr & Vr); [by apply digits_not_in | by apply digits_not_in|].
    f_equal. apply val256_inj; [done | done|]. rewrite Vr, decide_True by (split; [done | lia]). congruence.
  - destruct (decimal_to_char_spec v Wv) as (ip & fp & E & Hi & Hf & Hi0 & Hf0 & Li & Lf & Ev).
    exists (ip ++ 46 :: fp). split; [done|].
    destruct (scan_decimal_dot (T := T) ip fp) as (r & -> & Wr & Vr); auto.
    f_equal. apply val256_inj; [done | done|]. congruence.
Qed.

Lemma amount_roundtrip_witness :
  exists f, dap_uint256_decimal_to_char (U256 0 1500000000000000000 : uint256 Z) = Some f /\
    dap_uint256_scan_decimal f = Some (U256 0 1500000000000000000 : uint256 Z).
Proof.
  apply (amount_roundtrip (U256 0 1500000000000000000 : uint256 Z)). split; by vm_compute.
Defined.

(** [xxx.yyyyEzz] with 71 digits before the dot and nine behind it. *)
Definition long_sci : list Z := replicate 71 49 ++ 46 :: replicate 9 49 ++ [101; 57].

(** Three defects of the parsers.  A fixed-point amount of 68 to 79
    characters without a dot overruns the 86-byte buffer of
    [dap_uint256_scan_decimal] when the 18 zeros are appended.  In scientific
    notation a number with 80 digits overruns the 79-byte buffer of
    [dap_uint256_scan_uninteger], and 1.0e78, which does not fit 256 bits, is
    returned as 10^77 because the padding stops at 78 digits. *)
Theorem scan_amount_overruns `{steps : DigitStep T} (s : list Z) :
  46 ∉ s -> Forall (λ c, c <> 0) s -> (68 <= length s <= 79)%nat ->
  dap_uint256_scan_decimal (T := T) s = None /\
  dap_uint256_scan_uninteger (T := T) (Some long_sci) = None /\
  exists r : uint256 T, dap_uint256_scan_uninteger (Some [49; 46; 48; 101; 55; 56]) = Some r /\ val256 r = 10 ^ 77.
Proof.
  intros Hdot Hs Hl. split; [|split].
  - unfold dap_uint256_scan_decimal, DATOSHI_POW256, DATOSHI_POW, DATOSHI_DEGREE.
    rewrite (proj2 (Z.ltb_ge _ _)) by lia.
    replace 86%nat with (length s + (86 - length s))%nat by lia. rewrite replicate_add.
    rewrite mem_write_front by apply length_replicate. cbn [mbind option_bind].
    rewrite (proj2 (strchr_None s 46)) by done. cbn [mbind option_bind].
    rewrite Z.add_0_r, Z.sub_0_r. change (Z.to_nat 18) with 18%nat.
    destruct (Nat.eq_dec (length s) 68%nat) as [E|E].
    + replace (86 - length s)%nat with 18%nat by lia.
      rewrite <- (app_nil_r (replicate 18 0)), mem_write_app by done. cbn [mbind option_bind].
      rewrite read_cstr_None; [done|]. rewrite app_nil_r. apply Forall_app. split; [done|]. by apply Forall_replicate.
    + unfold mem_write. rewrite (proj2 (Z.leb_gt (_ + _) _)); [by rewrite andb_false_r|].
      rewrite length_app, !length_replicate. lia.
  - vm_compute. reflexivity.
  - destruct (scan_loop_spec (T := T) (rev (49 :: replicate 77 48)) 0 uint256_0) as (r & E & _ & V);
      [by repeat constructor | cbn; lia | apply uint256_0_spec|].
    exists r. split; [exact E|]. rewrite V. destruct uint256_0_spec as [_ ->]. vm_compute. reflexivity.
Qed.

Lemma scan_amount_overruns_witness : dap_uint256_scan_decimal (T := Z) (replicate 70 49) = None.
Proof.
  destruct (scan_amount_overruns (T := Z) (replicate 70 49)) as [E _].
  - intros H. apply elem_of_replicate in H as [H _]. discriminate.
  - apply Forall_replicate. discriminate.
  - rewrite length_replicate. lia.
  - exact E.
Defined.
