(* ===== verification/Cbuf.v ===== *)
(** * Circular byte buffer (core/src/dap_cbuf.c)

    The state is [struct dap_cbuf] with its [size_t] offsets kept at 64 bits
    ([(size_t)-1] marks the empty buffer) and the trailing storage as a list
    of bytes.  Every [memcpy] goes through [mem_read]/[mem_write], so that an
    access outside the storage, the source or the destination is [None] and
    the theorems that an operation returns [Some] are its memory safety.

    The contract of the component is a bounded FIFO of bytes, [contents]:
    pushing keeps the last [data_size_max] bytes of the queue, popping takes
    from its front, and sending moves a prefix of it to the socket.  The value
    [send] returns is chosen by the kernel: it is an argument of the model. *)

From S2P Require Import Prelude.
Local Open Scope Z_scope.

Record dap_cbuf := Cbuf {
  data_size_max : Z;
  data_size : Z;
  offset_tail : Z;
  offset_head : Z;
  buffer : list Z;
}.

(** [(size_t)-1] *)
Definition size_neg1 : Z := 2 ^ 64 - 1.

(** [sizeof(struct dap_cbuf)] on a 64-bit target. *)
Definition sizeof_cbuf : Z := 40.

Definition dap_cbuf_reset (c : dap_cbuf) : dap_cbuf :=
  Cbuf (data_size_max c) 0 size_neg1 size_neg1 (buffer c).

(** [malloc_ret] is the block [malloc] returned for the requested size. *)
Definition dap_cbuf_create (malloc_ret : Z -> option (list Z)) (size : Z) : option dap_cbuf :=
  let totalSize := wrap 64 (sizeof_cbuf + size) in
  p ← malloc_ret totalSize;
  Some (dap_cbuf_reset (Cbuf size 0 0 0 (drop (Z.to_nat sizeof_cbuf) p))).

Definition dap_cbuf_get_size_max (c : dap_cbuf) : Z := data_size_max c.

Definition dap_cbuf_get_size (c : dap_cbuf) : Z := data_size c.

Definition dap_cbuf_push (c : dap_cbuf) (src : list Z) (length : Z) : option dap_cbuf :=
  if length =? 0 then Some c else
  let '(writableLen, pSrc) :=
    if data_size_max c <? length
    then (data_size_max c, length - data_size_max c) else (length, 0) in
  '(buf, tail, resetHead) ←
    (if wrap 64 (offset_tail c + writableLen) <? data_size_max c then
       d ← mem_read src pSrc writableLen;
       buf ← mem_write (buffer c) (wrap 64 (offset_tail c + 1)) d;
       Some (buf, wrap 64 (offset_tail c + writableLen),
             (offset_tail c <? offset_head c) &&
             (offset_head c <=? wrap 64 (offset_tail c + writableLen)))
     else
       let remainSize := wrap 64 (data_size_max c - offset_tail c - 1) in
       d ← mem_read src pSrc remainSize;
       buf ← mem_write (buffer c) (wrap 64 (offset_tail c + 1)) d;
       let coverSize := wrap 64 (writableLen - remainSize) in
       d ← mem_read src (pSrc + remainSize) coverSize;
       buf ← mem_write buf 0 d;
       Some (buf, wrap 64 (coverSize - 1),
             if offset_tail c <? offset_head c then true else offset_head c <? coverSize));
  let head := if offset_head c =? size_neg1 then 0 else offset_head c in
  Some (if resetHead : bool
        then Cbuf (data_size_max c) (data_size_max c) tail
               (if wrap 64 (tail + 1) <? data_size_max c then wrap 64 (tail + 1) else 0) buf
        else Cbuf (data_size_max c)
               (if head <=? tail then wrap 64 (tail - head + 1)
                else wrap 64 (data_size_max c - wrap 64 (head - tail - 1)))
               tail head buf).

(** Returns the buffer afterwards, the length and the bytes stored through
    [dataOut] (a [NULL] [dataOut] stores nothing and reads nothing). *)
Definition inter_circularBuffer_read (c : dap_cbuf) (length : Z) (dataOut resetHead : bool)
    : option (dap_cbuf * Z * list Z) :=
  if (data_size c =? 0) || (length =? 0) then Some (c, 0, []) else
  let rdLen := if data_size c <? length then data_size c else length in
  let copy off len := if dataOut then mem_read (buffer c) off len else Some [] in
  '(out, (head, tail)) ←
    (if offset_head c <=? offset_tail c then
       out ← copy (offset_head c) rdLen;
       let head := wrap 64 (offset_head c + rdLen) in
       Some (out, if offset_tail c <? head then (size_neg1, size_neg1) else (head, offset_tail c))
     else if wrap 64 (offset_head c + rdLen) <=? data_size_max c then
       out ← copy (offset_head c) rdLen;
       let head := wrap 64 (offset_head c + rdLen) in
       Some (out, (if head =? data_size_max c then 0 else head, offset_tail c))
     else
       let frg1Len := wrap 64 (data_size_max c - offset_head c) in
       out1 ← copy (offset_head c) frg1Len;
       let frg2len := wrap 64 (rdLen - frg1Len) in
       out2 ← copy 0 frg2len;
       Some (out1 ++ out2, if offset_tail c <? frg2len then (size_neg1, size_neg1)
                           else (frg2len, offset_tail c)));
  Some (if resetHead
        then Cbuf (data_size_max c) (wrap 64 (data_size c - rdLen)) tail head (buffer c)
        else c, rdLen, out).

Definition dap_cbuf_pop (c : dap_cbuf) (length : Z) (dataOut : bool) :=
  inter_circularBuffer_read c length dataOut true.

Definition dap_cbuf_read (c : dap_cbuf) (length : Z) (dataOut : bool) :=
  inter_circularBuffer_read c length dataOut false.

(** Returns the buffer, the result and the bytes the kernel accepted.
    [send i d] is the value returned by the [i]-th call of [send] on [d]. *)
Definition dap_cbuf_write_in_socket (send : nat -> list Z -> Z) (c : dap_cbuf)
    : option (dap_cbuf * Z * list Z) :=
  if data_size c =? 0 then Some (c, 0, []) else
  let accepted (r : Z) (d : list Z) := take (Z.to_nat r) d in
  if offset_head c <=? offset_tail c then
    d ← mem_read (buffer c) (offset_head c) (data_size c);
    let rdLen := send 0%nat d in
    if rdLen <? 0 then Some (c, -1, []) else
    let head := wrap 64 (offset_head c + rdLen) in
    let '(head, tail) :=
      if offset_tail c <? head then (size_neg1, size_neg1) else (head, offset_tail c) in
    Some (Cbuf (data_size_max c) (wrap 64 (data_size c - rdLen)) tail head (buffer c),
          rdLen, accepted rdLen d)
  else if wrap 64 (offset_head c + data_size c) <=? data_size_max c then
    d ← mem_read (buffer c) (offset_head c) (data_size c);
    let rdLen := send 0%nat d in
    if rdLen <? 0 then Some (c, -1, []) else
    let head := wrap 64 (offset_head c + rdLen) in
    let head := if head =? data_size_max c then 0 else head in
    Some (Cbuf (data_size_max c) (data_size c) (offset_tail c) head (buffer c),
          rdLen, accepted rdLen d)
  else
    let countBytesToEnd := wrap 64 (data_size_max c - offset_head c) in
    d ← mem_read (buffer c) (offset_head c) countBytesToEnd;
    let rdLen := send 0%nat d in
    if rdLen <? 0 then Some (c, -1, []) else
    if rdLen <? countBytesToEnd then
      '(c, _, _) ← dap_cbuf_pop c rdLen false;
      Some (c, rdLen, accepted rdLen d)
    else
    let size := wrap 64 (data_size c - countBytesToEnd) in
    let tail := wrap 64 (size - 1) in
    d2 ← mem_read (buffer c) 0 size;
    let rdLen2 := send 1%nat d2 in
    if rdLen2 <? 0
    then Some (Cbuf (data_size_max c) size tail 0 (buffer c), rdLen, accepted rdLen d)
    else
    let head := rdLen2 in
    let '(head, tail, size) :=
      if tail <? head then (size_neg1, size_neg1, 0) else (head, tail, size) in
    Some (Cbuf (data_size_max c) size tail head (buffer c),
          countBytesToEnd + rdLen2, accepted rdLen d ++ accepted rdLen2 d2).

(** [sprintf(str + off, ...)] of a formatted text and its terminator. *)
Definition sprintf_at (str : list Z) (off : Z) (text : list Z) : option (list Z) :=
  mem_write str off (text ++ [0]).

Definition hex_digit (n : Z) : Z := if n <? 10 then 48 + n else 55 + n.

(** ["%02X|"] of a [char] promoted to [int] (sign-extended) and ["%c|"]. *)
Definition print_cell (hex : bool) (ch : Z) : list Z :=
  if hex
  then (if ch <? 128 then [] else [70; 70; 70; 70; 70; 70]) ++
       [hex_digit (ch / 16); hex_digit (ch mod 16); 124]
  else [ch; 124].

(** The character the loop body selects for position [i]. *)
Definition print_char (c : dap_cbuf) (i : nat) : option Z :=
  let i' := Z.of_nat i in
  if dap_cbuf_get_size c =? 0 then Some 95
  else if offset_tail c <? offset_head c then
    if (offset_tail c <? i') && (i' <? offset_head c) then Some 95 else buffer c !! i
  else
    if (offset_tail c <? i') || (i' <? offset_head c) then Some 95 else buffer c !! i.

Fixpoint print_loop (c : dap_cbuf) (hex : bool) (n i : nat) (str : list Z) : option (list Z) :=
  match n with
  | O => Some str
  | S n =>
    ch ← print_char c i;
    str ← sprintf_at str (Z.of_nat i * 2) (print_cell hex ch);
    print_loop c hex n (S i) str
  end.

(** The text built in [str], a block of [2 * cSize + 1] bytes. *)
Definition dap_cbuf_print (c : dap_cbuf) (hex : bool) (malloced : list Z) : option (list Z) :=
  print_loop c hex (Z.to_nat (dap_cbuf_get_size c)) 0 malloced.

(** ** The abstract queue and the representation invariant *)

(** Bytes from the oldest to the newest: [data_size] cells from the head,
    going round the end of the storage. *)
Definition contents (c : dap_cbuf) : list Z :=
  take (Z.to_nat (data_size c)) (drop (Z.to_nat (offset_head c)) (buffer c ++ buffer c)).

(** Occupied cells of a non-empty ring with head [h] and tail [t]. *)
Definition ring_size (m h t : nat) : nat :=
  if (h <=? t)%nat then (t - h + 1)%nat else (m - (h - t - 1))%nat.

Inductive ring_state (m : nat) (c : dap_cbuf) : Prop :=
  | ring_empty :
      data_size c = 0 -> offset_tail c = size_neg1 -> offset_head c = size_neg1 -> ring_state m c
  | ring_nonempty (h t : nat) :
      (h < m)%nat -> (t < m)%nat -> offset_head c = Z.of_nat h -> offset_tail c = Z.of_nat t ->
      data_size c = Z.of_nat (ring_size m h t) -> ring_state m c.

(** Capacity positive and at most [2^63] (larger objects do not exist), the
    storage of that size and offsets as the code leaves them. *)
Record cbuf_wf (m : nat) (c : dap_cbuf) : Prop := {
  wf_pos : (0 < m)%nat;
  wf_small : Z.of_nat m <= 2 ^ 63;
  wf_max : data_size_max c = Z.of_nat m;
  wf_buffer : length (buffer c) = m;
  wf_state : ring_state m c;
}.

(** ** Rings of cells *)

Definition ring_ix (m x : nat) : nat := if (x <? m)%nat then x else (x - m)%nat.

Ltac ring_cases :=
  unfold ring_ix, ring_size in *;
  repeat (match goal with
    | |- context [(?a <? ?b)%nat] => destruct (Nat.ltb_spec a b)
    | |- context [(?a <=? ?b)%nat] => destruct (Nat.leb_spec a b)
    | H : context [(?a <? ?b)%nat] |- _ => destruct (Nat.ltb_spec a b)
    | H : context [(?a <=? ?b)%nat] |- _ => destruct (Nat.leb_spec a b)
    | |- context [decide ?P] => destruct (decide P)
    end).

Lemma ring_size_bounds m h t : (h < m)%nat -> (t < m)%nat -> (1 <= ring_size m h t <= m)%nat.
Proof. intros. ring_cases; lia. Qed.

Lemma ring_size_tail m h t : (h < m)%nat -> (t < m)%nat ->
  ring_ix m (h + ring_size m h t) = ring_ix m (t + 1).
Proof. intros. ring_cases; lia. Qed.

Lemma lookup_ring (buf : list Z) h n i : (h < length buf)%nat -> (n <= length buf)%nat ->
  take n (drop h (buf ++ buf)) !! i =
  if decide (i < n)%nat then buf !! ring_ix (length buf) (h + i) else None.
Proof.
  intros. rewrite lookup_sub. destruct (decide _); [|done].
  rewrite lookup_app. ring_cases.
  - destruct (buf !! (h + i)%nat) eqn:E; [done|]. apply lookup_ge_None in E. lia.
  - by rewrite (proj2 (lookup_ge_None buf _)) by lia.
Qed.

(** Writing [d] round the ring after [n] occupied cells leaves the last
    [m] bytes of the old queue followed by [d]. *)
Lemma ring_push m h n h' (buf buf' d : list Z) :
  (h < m)%nat -> (n <= m)%nat -> (length d <= m)%nat -> length buf = m -> length buf' = m ->
  let s := ring_ix m (h + n) in
  (forall j, (j < m)%nat -> let k := if (s <=? j)%nat then (j - s)%nat else (j + m - s)%nat in
    buf' !! j = if (k <? length d)%nat then d !! k else buf !! j) ->
  h' = (if (n + length d <=? m)%nat then h else ring_ix m (s + length d)) ->
  take (min m (n + length d)) (drop h' (buf' ++ buf'))
  = lastn m (take n (drop h (buf ++ buf)) ++ d).
Proof.
  intros Hh Hn Hd Hb Hb' s Hw Hh'. apply list_eq. intros i.
  assert (h' < m)%nat by (subst h' s; ring_cases; lia).
  rewrite lookup_ring, lookup_lastn, lookup_app, lookup_ring, Hb, Hb' by lia.
  rewrite length_app, length_take, length_drop, length_app, Hb.
  replace (min n (m + m - h)) with n by lia.
  destruct (decide (i < min m (n + length d))%nat) as [Hi | Hi].
  - rewrite Hw by (ring_cases; lia).
    destruct (decide (n + length d - m + i < n)%nat) as [Ho | Ho].
    + match goal with |- (if ?k <? _ then _ else _)%nat = _ => assert (length d <= k)%nat as Hk
        by (subst s h'; ring_cases; lia) end.
      rewrite (proj2 (Nat.ltb_ge _ _) Hk).
      replace (ring_ix m (h' + i)) with (ring_ix m (h + (n + length d - m + i)))
        by (subst s h'; ring_cases; lia).
      destruct (buf !! _) eqn:E; [done|]. apply lookup_ge_None in E. ring_cases; lia.
    + match goal with |- (if ?k <? _ then _ else _)%nat = _ =>
        assert (k = n + length d - m + i - n)%nat as -> by (subst s h'; ring_cases; lia) end.
      rewrite (proj2 (Nat.ltb_lt _ _)) by lia. done.
  - destruct (decide (n + length d - m + i < n)%nat); [lia|].
    symmetry. apply lookup_ge_None. lia.
Qed.

Lemma ring_size_push m h t w : (h < m)%nat -> (t < m)%nat -> (1 <= w <= m)%nat ->
  let n := ring_size m h t in
  let h' := if (n + w <=? m)%nat then h else ring_ix m (ring_ix m (h + n) + w) in
  (h' < m)%nat /\ (ring_ix m (t + w) < m)%nat /\
  ring_size m h' (ring_ix m (t + w)) = min m (n + w).
Proof. intros. subst n h'. ring_cases; lia. Qed.

(** The splice of the first branch and the pair of splices of the second
    are both the circular write of [ring_push]. *)
Lemma splice_write m s (buf d : list Z) j : length buf = m -> (s + length d <= m)%nat ->
  (j < m)%nat -> let k := if (s <=? j)%nat then (j - s)%nat else (j + m - s)%nat in
  splice s d buf !! j = if (k <? length d)%nat then d !! k else buf !! j.
Proof.
  intros Hb Hs Hj k. rewrite lookup_splice by lia. subst k. ring_cases; try lia; done.
Qed.

Lemma splice2_write m t (buf d : list Z) j : length buf = m -> (t < m)%nat ->
  (length d <= m)%nat -> (m <= t + length d)%nat -> (j < m)%nat ->
  let r := (m - t - 1)%nat in let s := ring_ix m (t + 1) in
  let k := if (s <=? j)%nat then (j - s)%nat else (j + m - s)%nat in
  splice 0 (drop r d) (splice (t + 1) (take r d) buf) !! j
  = if (k <? length d)%nat then d !! k else buf !! j.
Proof.
  intros Hb Ht Hd Hov Hj r s k. subst r s k.
  assert (length (take (m - t - 1) d) = m - t - 1)%nat by (rewrite length_take; lia).
  rewrite lookup_splice; rewrite length_drop; [|rewrite length_splice; lia].
  rewrite lookup_splice by lia. rewrite lookup_drop.
  ring_cases; try lia; try (rewrite lookup_take_lt by lia); f_equal; lia.
Qed.

Lemma length_lastn {A} n (l : list A) : length (lastn n l) = min n (length l).
Proof. unfold lastn. rewrite length_drop. lia. Qed.

Lemma lastn_app_lastn {A} n (x l : list A) : lastn n (x ++ lastn n l) = lastn n (x ++ l).
Proof.
  apply list_eq. intros i. rewrite !lookup_lastn, !length_app, length_lastn, !lookup_app.
  destruct (decide (length l <= n)%nat).
  - replace (min n (length l)) with (length l) by lia. unfold lastn.
    replace (length l - n)%nat with O by lia. done.
  - rewrite !(proj2 (lookup_ge_None x _)) by lia. rewrite lookup_lastn. f_equal. lia.
Qed.

Lemma read_lastn m (src : list Z) k1 k2 : (k1 + k2 <= min m (length src))%nat ->
  mem_read src (Z.of_nat (length src - m + k1)) (Z.of_nat k2)
  = Some (take k2 (drop k1 (lastn m src))).
Proof.
  intros. rewrite mem_read_nat by lia. unfold lastn. by rewrite drop_drop.
Qed.

(** Removes the 64-bit reductions that do nothing, innermost first. *)
Ltac w64 :=
  repeat match goal with
  | |- context [wrap 64 ?z] =>
    lazymatch z with context [wrap] => fail | _ => rewrite (wrap_id 64 z) by (unfold fits; lia) end
  end.

(** The tests of the code on [Z] offsets, decided in [nat]. *)
Ltac zcases :=
  repeat (match goal with
    | |- context [Z.ltb ?a ?b] => destruct (Z.ltb_spec a b); cbn [andb orb]; try lia
    | |- context [Z.leb ?a ?b] => destruct (Z.leb_spec a b); cbn [andb orb]; try lia
    | |- context [Z.eqb ?a ?b] => destruct (Z.eqb_spec a b); cbn [andb orb]; try lia
    end).

Lemma push_args m c (src : list Z) : cbuf_wf m c -> src <> [] ->
  (Z.of_nat (length src) =? 0) = false /\
  (if data_size_max c <? Z.of_nat (length src)
   then (data_size_max c, Z.of_nat (length src) - data_size_max c)
   else (Z.of_nat (length src), 0))
  = (Z.of_nat (length (lastn m src)), Z.of_nat (length src - m)) /\
  (1 <= length (lastn m src) <= m)%nat.
Proof.
  intros [Hp Hs Hm _ _] Hne. rewrite Hm, length_lastn.
  assert (length src <> 0)%nat by (by destruct src).
  split; [lia|]. split; [|lia]. zcases; f_equal; lia.
Qed.

Lemma push_empty m c (src : list Z) : cbuf_wf m c -> src <> [] -> data_size c = 0 ->
  offset_tail c = size_neg1 -> offset_head c = size_neg1 ->
  let d := lastn m src in
  dap_cbuf_push c src (Z.of_nat (length src))
  = Some (Cbuf (Z.of_nat m) (Z.of_nat (length d)) (Z.of_nat (length d - 1)) 0
            (splice 0 d (buffer c))).
Proof.
  intros W Hne _ Ht Hh d. destruct (push_args m c src W Hne) as (E1 & E2 & Hd).
  destruct W as [Hp Hs Hm Hb _]. unfold dap_cbuf_push. rewrite E1, E2, Ht, Hh. fold d in Hd |- *.
  assert (Ew : forall k, (1 <= k <= m)%nat -> wrap 64 (size_neg1 + Z.of_nat k) = Z.of_nat (k - 1)).
  { intros k Hk. unfold size_neg1.
    replace (2 ^ 64 - 1 + Z.of_nat k) with (Z.of_nat (k - 1) + 2 ^ 64) by lia.
    rewrite wrap_add_full by lia. apply wrap_id. unfold fits. lia. }
  rewrite Ew by lia. change (size_neg1 + 1) with (size_neg1 + Z.of_nat 1). rewrite Ew by lia.
  rewrite Hm, (proj2 (Z.ltb_lt _ _)) by lia.
  pose proof (read_lastn m src 0 (length d)) as R. rewrite Nat.add_0_r in R.
  rewrite R by (subst d; rewrite length_lastn; lia). fold d. rewrite drop_0, firstn_all.
  change (Z.of_nat (1 - 1)) with (Z.of_nat 0).
  cbn [mbind option_bind]. rewrite mem_write_nat by lia. cbn [mbind option_bind].
  rewrite Z.ltb_irrefl. cbn [andb]. rewrite Z.eqb_refl, (proj2 (Z.leb_le _ _)) by lia.
  w64. do 2 f_equal. lia.
Qed.

Lemma push_nonempty m c (src : list Z) h t : cbuf_wf m c -> src <> [] ->
  (h < m)%nat -> (t < m)%nat -> offset_head c = Z.of_nat h -> offset_tail c = Z.of_nat t ->
  let d := lastn m src in let w := length d in let n := ring_size m h t in
  let h' := if (n + w <=? m)%nat then h else ring_ix m (ring_ix m (h + n) + w) in
  dap_cbuf_push c src (Z.of_nat (length src))
  = Some (Cbuf (Z.of_nat m) (Z.of_nat (min m (n + w))) (Z.of_nat (ring_ix m (t + w)))
            (Z.of_nat h')
            (if (t + w <? m)%nat then splice (t + 1) d (buffer c)
             else splice 0 (drop (m - t - 1) d) (splice (t + 1) (take (m - t - 1) d) (buffer c)))).
Proof.
  intros W Hne Hh Ht Eh Et d w n h'. destruct (push_args m c src W Hne) as (E1 & E2 & Hd).
  fold d in Hd, E2 |- *. fold w in Hd, E2 |- *. destruct W as [Hp Hs Hm Hb _].
  unfold dap_cbuf_push. rewrite E1, E2, Et, Eh, Hm. clear E1 E2.
  assert (Hw : w = min m (length src)) by (subst w d; apply length_lastn).
  replace (Z.of_nat t + 1) with (Z.of_nat (t + 1)) by lia. w64.
  rewrite (proj2 (Z.eqb_neq (Z.of_nat h) size_neg1)) by (unfold size_neg1; lia).
  destruct (Nat.ltb_spec (t + w) m) as [Hlt | Hge].
  - rewrite (proj2 (Z.ltb_lt _ _)) by lia.
    pose proof (read_lastn m src 0 w) as R. rewrite Nat.add_0_r in R. rewrite R by lia. fold d.
    rewrite drop_0, (take_ge d w) by (subst w; lia). cbn [mbind option_bind].
    rewrite mem_write_nat by (fold w; lia).
    cbn [mbind option_bind]. f_equal.
    subst n h'. w64. zcases; w64; f_equal; ring_cases; lia.
  - rewrite (proj2 (Z.ltb_ge _ _)) by lia.
    replace (Z.of_nat m - Z.of_nat t - 1) with (Z.of_nat (m - t - 1)) by lia.
    pose proof (read_lastn m src 0 (m - t - 1)) as R. rewrite Nat.add_0_r in R.
    rewrite R by lia. fold d. rewrite drop_0. cbn [mbind option_bind].
    assert (length (take (m - t - 1) d) = m - t - 1)%nat by (rewrite length_take; lia).
    rewrite mem_write_nat by lia. cbn [mbind option_bind].
    replace (Z.of_nat w - Z.of_nat (m - t - 1)) with (Z.of_nat (w - (m - t - 1))) by lia.
    rewrite <- Nat2Z.inj_add. w64. rewrite read_lastn by lia. fold d.
    rewrite (take_ge (drop (m - t - 1) d)) by (rewrite length_drop; fold w; lia).
    cbn [mbind option_bind].
    change 0 with (Z.of_nat 0). rewrite mem_write_nat
      by (rewrite length_drop, length_splice; fold w; lia). cbn [mbind option_bind]. f_equal.
    subst n h'. w64. zcases; w64; f_equal; ring_cases; lia.
Qed.

Lemma push_spec m c (src : list Z) : cbuf_wf m c ->
  exists c', dap_cbuf_push c src (Z.of_nat (length src)) = Some c' /\ cbuf_wf m c' /\
    contents c' = lastn m (contents c ++ src).
Proof.
  intros W. destruct (decide (src = [])) as [-> | Hne].
  { exists c. split; [done|]. split; [done|]. rewrite app_nil_r. unfold lastn.
    replace (length (contents c) - m)%nat with O; [done|].
    enough (length (contents c) <= m)%nat by lia.
    destruct W as [_ _ _ Hb [E _ _ | h t Hh Ht Eh _ E]]; unfold contents; rewrite E;
      [simpl; lia|]. rewrite length_take. pose proof (ring_size_bounds m h t Hh Ht). lia. }
  pose proof (push_args m c src W Hne) as (_ & _ & Hd). rewrite <- lastn_app_lastn.
  pose proof W as [Hp Hs Hm Hb HS]. destruct HS as [Es Et Eh | h t Hh Ht Eh Et Es].
  - rewrite (push_empty m c src W Hne Es Et Eh). eexists. split; [done|].
    set (d := lastn m src) in *. split.
    + split; cbn; [done..| |]; [rewrite length_splice; lia|].
      apply ring_nonempty with O (length d - 1)%nat; cbn; try lia.
    + pose proof (ring_push m 0 0 0 (buffer c) (splice 0 d (buffer c)) d) as R.
      unfold contents at 2. rewrite Es. cbn [Z.to_nat take app].
      unfold contents. cbn [data_size offset_head buffer]. rewrite Nat2Z.id.
      change (Z.to_nat 0) with O. replace (min m (0 + length d)) with (length d) in R by lia. rewrite R; try lia.
      * done.
      * rewrite length_splice; lia.
      * intros j Hj. replace (ring_ix m (0 + 0)) with O by (ring_cases; lia).
        apply splice_write; lia.
      * ring_cases; lia.
  - rewrite (push_nonempty m c src h t W Hne Hh Ht Eh Et). eexists. split; [done|].
    set (d := lastn m src) in *. set (n := ring_size m h t) in *.
    set (buf' := if (t + length d <? m)%nat then _ else _).
    assert (Hn : (1 <= n <= m)%nat) by (by apply ring_size_bounds).
    destruct (ring_size_push m h t (length d) Hh Ht Hd) as (B1 & B2 & B3). fold n in B1, B2, B3.
    assert (Hlen : length buf' = m).
    { subst buf'. destruct (Nat.ltb_spec (t + length d) m); [by rewrite length_splice; lia|].
      assert (length (splice (t + 1) (take (m - t - 1) d) (buffer c)) = m)
        by (rewrite length_splice; rewrite ?length_take; lia).
      rewrite length_splice; rewrite ?length_drop; lia. }
    split.
    + split; cbn [data_size_max buffer]; [done..|].
      eapply ring_nonempty; cbn; [exact B1 | exact B2 | done | done |]. by rewrite B3.
    + unfold contents. cbn [data_size offset_head buffer]. rewrite !Nat2Z.id, Es, Eh, !Nat2Z.id.
      apply ring_push; [done | lia.. | done | done | | done].
      pose proof (ring_size_tail m h t Hh Ht) as Etail. fold n in Etail. rewrite Etail.
      intros j Hj. subst buf'. destruct (Nat.ltb_spec (t + length d) m).
      * replace (ring_ix m (t + 1)) with (t + 1)%nat by (ring_cases; lia).
        apply splice_write; lia.
      * apply (splice2_write m t); lia.
Qed.

(** ** Reading from the front *)

Lemma ring_pop m h n k (buf : list Z) : length buf = m -> (h < m)%nat -> (k < n <= m)%nat ->
  take (n - k) (drop (ring_ix m (h + k)) (buf ++ buf)) = drop k (take n (drop h (buf ++ buf))).
Proof.
  intros Hb Hh Hk. apply list_eq. intros i. rewrite lookup_drop, !lookup_ring, Hb
    by (rewrite ?Hb; ring_cases; lia).
  ring_cases; try lia; f_equal; lia.
Qed.

Lemma ring_read_flat h n k (buf : list Z) : (h + k <= length buf)%nat -> (k <= n)%nat ->
  take k (drop h buf) = take k (take n (drop h (buf ++ buf))).
Proof.
  intros. rewrite take_take. replace (min k n) with k by lia.
  rewrite drop_app_le by lia. rewrite take_app_le; [done|]. rewrite length_drop. lia.
Qed.

Lemma ring_read_wrap h n k (buf : list Z) : (h <= length buf)%nat ->
  (length buf <= h + k)%nat -> (k <= n)%nat ->
  take (length buf - h) (drop h buf) ++ take (k - (length buf - h)) buf
  = take k (take n (drop h (buf ++ buf))).
Proof.
  intros. rewrite take_take. replace (min k n) with k by lia.
  rewrite drop_app_le by lia. rewrite take_app_ge; rewrite length_drop; [|lia].
  by rewrite take_ge by (rewrite length_drop; lia).
Qed.

(** Storage and offsets after [k] of the [ring_size m h t] bytes are gone. *)
Definition advanced (m h t k : nat) (buf : list Z) : dap_cbuf :=
  if (k <? ring_size m h t)%nat
  then Cbuf (Z.of_nat m) (Z.of_nat (ring_size m h t - k)) (Z.of_nat t)
         (Z.of_nat (ring_ix m (h + k))) buf
  else Cbuf (Z.of_nat m) 0 size_neg1 size_neg1 buf.

Lemma advanced_spec m h t k c : cbuf_wf m c -> (h < m)%nat -> (t < m)%nat ->
  offset_head c = Z.of_nat h -> data_size c = Z.of_nat (ring_size m h t) ->
  cbuf_wf m (advanced m h t k (buffer c)) /\
  contents (advanced m h t k (buffer c)) = drop k (contents c).
Proof.
  intros [Hp Hs Hm Hb _] Hh Ht Eh Es. pose proof (ring_size_bounds m h t Hh Ht) as Hn.
  unfold advanced. destruct (Nat.ltb_spec k (ring_size m h t)).
  - split.
    + split; cbn; [done..|]. apply ring_nonempty with (ring_ix m (h + k)) t; cbn; try done.
      all: ring_cases; lia.
    + unfold contents. cbn [data_size offset_head buffer]. rewrite Es, Eh, !Nat2Z.id.
      apply ring_pop; lia.
  - split.
    + split; cbn; [done..|]. by apply ring_empty.
    + unfold contents at 2. rewrite Es, Nat2Z.id, drop_ge; [done|]. rewrite length_take. lia.
Qed.

Lemma read_nonempty m c h t n out reset : cbuf_wf m c -> (h < m)%nat -> (t < m)%nat ->
  offset_head c = Z.of_nat h -> offset_tail c = Z.of_nat t ->
  data_size c = Z.of_nat (ring_size m h t) -> (0 < n)%nat -> Z.of_nat n < 2 ^ 64 ->
  let k := min n (ring_size m h t) in
  inter_circularBuffer_read c (Z.of_nat n) out reset
  = Some (if reset : bool then advanced m h t k (buffer c) else c, Z.of_nat k,
          if out : bool then take k (contents c) else []).
Proof.
  intros [Hp Hs Hm Hb _] Hh Ht Eh Et Es Hn Hn64 k.
  pose proof (ring_size_bounds m h t Hh Ht) as HN.
  unfold inter_circularBuffer_read, contents. rewrite Es, Eh, Et, Hm, !Nat2Z.id.
  rewrite !(proj2 (Z.eqb_neq _ _)) by lia. cbn [orb].
  assert ((if Z.of_nat (ring_size m h t) <? Z.of_nat n then Z.of_nat (ring_size m h t)
           else Z.of_nat n) = Z.of_nat k) as -> by (subst k; zcases; lia).
  assert (Hk : (1 <= k <= ring_size m h t)%nat) by (subst k; lia). clearbody k.
  replace (Z.of_nat h + Z.of_nat k) with (Z.of_nat (h + k)) by lia. w64.
  unfold advanced.
  destruct (Z.leb_spec (Z.of_nat h) (Z.of_nat t)); [|destruct (Z.leb_spec (Z.of_nat (h + k)) (Z.of_nat m))].
  - assert ((if out then mem_read (buffer c) (Z.of_nat h) (Z.of_nat k) else Some [])
      = Some (if out then take k (take (ring_size m h t) (drop h (buffer c ++ buffer c))) else [])) as ->.
    { destruct out; [|done]. rewrite mem_read_nat by (ring_cases; lia).
      rewrite <- ring_read_flat; [done | ring_cases; lia | lia]. }
    cbn [mbind option_bind]. destruct (Z.ltb_spec (Z.of_nat t) (Z.of_nat (h + k)));
      do 3 f_equal; destruct reset; try done; w64; ring_cases; try lia; f_equal; lia.
  - assert ((if out then mem_read (buffer c) (Z.of_nat h) (Z.of_nat k) else Some [])
      = Some (if out then take k (take (ring_size m h t) (drop h (buffer c ++ buffer c))) else [])) as ->.
    { destruct out; [|done]. rewrite mem_read_nat by lia.
      rewrite <- ring_read_flat; [done | lia | lia]. }
    cbn [mbind option_bind]. destruct (Z.eqb_spec (Z.of_nat (h + k)) (Z.of_nat m));
      do 3 f_equal; destruct reset; try done; w64; ring_cases; try lia; f_equal; lia.
  - replace (Z.of_nat m - Z.of_nat h) with (Z.of_nat (m - h)) by lia.
    replace (Z.of_nat k - Z.of_nat (m - h)) with (Z.of_nat (k - (m - h))) by lia. w64.
    replace (Z.of_nat k - Z.of_nat (m - h)) with (Z.of_nat (k - (m - h))) by lia. w64.
    assert (Ho : take k (take (ring_size m h t) (drop h (buffer c ++ buffer c)))
      = take (m - h) (drop h (buffer c)) ++ take (k - (m - h)) (buffer c)).
    { rewrite <- ring_read_wrap by lia. by rewrite Hb. }
    destruct out.
    + change 0 with (Z.of_nat 0). rewrite !mem_read_nat by (ring_cases; lia).
      cbn [mbind option_bind]. rewrite drop_0, <- Ho.
      destruct (Z.ltb_spec (Z.of_nat t) (Z.of_nat (k - (m - h))));
        do 3 f_equal; destruct reset; try done; w64; ring_cases; try lia; f_equal; lia.
    + cbn [mbind option_bind]. destruct (Z.ltb_spec (Z.of_nat t) (Z.of_nat (k - (m - h))));
        do 3 f_equal; destruct reset; try done; w64; ring_cases; try lia; f_equal; lia.
Qed.

Lemma length_contents m c : cbuf_wf m c -> Z.of_nat (length (contents c)) = data_size c.
Proof.
  intros [Hp Hs Hm Hb [E _ _ | h t Hh Ht Eh _ E]]; unfold contents; rewrite E; [done|].
  pose proof (ring_size_bounds m h t Hh Ht). rewrite Eh, !Nat2Z.id, length_take, length_drop,
    length_app. lia.
Qed.

Lemma read_spec m c n out reset : cbuf_wf m c -> Z.of_nat n < 2 ^ 64 ->
  exists c', inter_circularBuffer_read c (Z.of_nat n) out reset
    = Some (c', Z.of_nat (min n (length (contents c))), if out : bool then take n (contents c) else [])
  /\ cbuf_wf m c' /\ contents c' = if reset : bool then drop n (contents c) else contents c.
Proof.
  intros W Hn64. pose proof (length_contents m c W) as HL.
  destruct (decide (data_size c = 0 \/ n = O)) as [Hz | Hnz].
  - exists c. unfold inter_circularBuffer_read.
    replace ((data_size c =? 0) || (Z.of_nat n =? 0)) with true by (destruct Hz; zcases; done || lia).
    assert (Ht : take n (contents c) = []).
    { destruct Hz as [Hz | ->]; [|done]. destruct (contents c); [by rewrite take_nil | simpl in HL; lia]. }
    assert (Hd : drop n (contents c) = contents c).
    { destruct Hz as [Hz | ->]; [|done]. destruct (contents c); [by rewrite drop_nil | simpl in HL; lia]. }
    rewrite Ht, Hd. split; [|by destruct reset]. do 2 f_equal; [|by destruct out]. f_equal. lia.
  - pose proof W as [_ _ _ _ [E _ _ | h t Hh Ht Eh Et E]]; [tauto|].
    rewrite (read_nonempty m c h t n out reset W Hh Ht Eh Et E) by lia. eexists. split.
    + do 2 f_equal; [f_equal; lia|]. destruct out; [|done].
      destruct (decide (n <= ring_size m h t)%nat).
      * by replace (min n (ring_size m h t)) with n by lia.
      * replace (min n (ring_size m h t)) with (ring_size m h t) by lia. rewrite !take_ge; [done|lia..].
    + destruct reset; [|done].
      destruct (advanced_spec m h t (min n (ring_size m h t)) c W Hh Ht Eh E) as [W' ->].
      split; [done|]. destruct (decide (n <= ring_size m h t)%nat).
      * by replace (min n (ring_size m h t)) with n by lia.
      * replace (min n (ring_size m h t)) with (ring_size m h t) by lia.
        rewrite !drop_ge; [done | lia..].
Qed.

(** ** Sending *)

(** [send] accepts at most what it is given, or fails. *)
Definition send_ok (send : nat -> list Z -> Z) : Prop :=
  forall i d, send i d <= Z.of_nat (length d).

Lemma mem_read_ring0 m c n : cbuf_wf m c -> (n <= m)%nat ->
  mem_read (buffer c) 0 (Z.of_nat n) = Some (take n (buffer c)).
Proof.
  intros W Hn. change 0 with (Z.of_nat 0). rewrite mem_read_nat; [by rewrite drop_0|].
  rewrite (wf_buffer _ _ W). lia.
Qed.

Lemma write_flat m c send h t : cbuf_wf m c -> send_ok send -> (h <= t < m)%nat ->
  offset_head c = Z.of_nat h -> offset_tail c = Z.of_nat t ->
  data_size c = Z.of_nat (ring_size m h t) ->
  let r := send 0%nat (contents c) in
  dap_cbuf_write_in_socket send c
  = Some (if r <? 0 then (c, -1, [])
          else (advanced m h t (Z.to_nat r) (buffer c), r, take (Z.to_nat r) (contents c))).
Proof.
  intros W Hsend Hh Eh Et Es r. pose proof (length_contents m c W) as HL.
  pose proof W as [Hp Hs Hm Hb _]. pose proof (Hsend 0%nat (contents c)) as Hr.
  fold r in Hr. rewrite HL in Hr. unfold dap_cbuf_write_in_socket.
  pose proof (ring_size_bounds m h t ltac:(lia) ltac:(lia)) as HN.
  rewrite Es, Eh, Et, Hm, (proj2 (Z.eqb_neq _ _)), (proj2 (Z.leb_le _ _)) by lia.
  rewrite mem_read_nat by (ring_cases; lia).
  assert (take (ring_size m h t) (drop h (buffer c)) = contents c) as ->.
  { unfold contents. rewrite Es, Eh, !Nat2Z.id.
    rewrite (ring_read_flat h (ring_size m h t)) by (ring_cases; lia).
    rewrite take_take. f_equal. lia. }
  cbn [mbind option_bind]. fold r. destruct (Z.ltb_spec r 0) as [|Hr0]; [done|].
  rewrite Es in Hr. rewrite <- (Z2Nat.id r) in Hr |- * by lia. rewrite Nat2Z.id.
  set (k := Z.to_nat r) in *. clearbody k.
  w64. unfold advanced. destruct (Z.ltb_spec (Z.of_nat t) (Z.of_nat h + Z.of_nat k));
    do 3 f_equal; ring_cases; try lia; f_equal; lia.
Qed.

Lemma write_wrapped m c send h t : cbuf_wf m c -> send_ok send -> (t < h < m)%nat ->
  offset_head c = Z.of_nat h -> offset_tail c = Z.of_nat t ->
  data_size c = Z.of_nat (ring_size m h t) ->
  let d1 := take (m - h) (contents c) in let d2 := drop (m - h) (contents c) in
  let r := send 0%nat d1 in let r2 := send 1%nat d2 in
  length d1 = (m - h)%nat /\ length d2 = (t + 1)%nat /\
  dap_cbuf_write_in_socket send c
  = Some (if r <? 0 then (c, -1, [])
          else if r <? Z.of_nat (m - h) then
            (advanced m h t (Z.to_nat r) (buffer c), r, take (Z.to_nat r) (contents c))
          else if r2 <? 0 then
            (advanced m h t (m - h) (buffer c), Z.of_nat (m - h), d1)
          else if r2 =? Z.of_nat (t + 1) then
            (advanced m h t (m - h + (t + 1)) (buffer c), Z.of_nat (m - h) + r2, d1 ++ d2)
          else (Cbuf (Z.of_nat m) (Z.of_nat (t + 1)) (Z.of_nat t) r2 (buffer c),
                Z.of_nat (m - h) + r2, d1 ++ take (Z.to_nat r2) d2)).
Proof.
  intros W Hsend Hh Eh Et Es d1 d2 r r2. pose proof (length_contents m c W) as HL.
  pose proof W as [Hp Hs Hm Hb _].
  assert (HN : ring_size m h t = (m - h + (t + 1))%nat) by (ring_cases; lia).
  rewrite Es, HN in HL. split; [subst d1; rewrite length_take; lia|].
  split; [subst d2; rewrite length_drop; lia|].
  unfold dap_cbuf_write_in_socket. rewrite Es, Eh, Et, Hm, HN.
  rewrite (proj2 (Z.eqb_neq _ _)), (proj2 (Z.leb_gt (Z.of_nat h) _)) by lia. w64.
  rewrite (proj2 (Z.leb_gt _ (Z.of_nat m))) by lia.
  replace (Z.of_nat m - Z.of_nat h) with (Z.of_nat (m - h)) by lia.
  rewrite mem_read_nat by lia.
  assert (take (m - h) (drop h (buffer c)) = d1) as ->.
  { subst d1. unfold contents. rewrite Es, Eh, !Nat2Z.id, HN.
    apply ring_read_flat; lia. }
  cbn [mbind option_bind]. fold r. pose proof (Hsend 0%nat d1) as Hr. fold r in Hr.
  assert (Hd1 : length d1 = (m - h)%nat) by (subst d1; rewrite length_take; lia).
  rewrite Hd1 in Hr. destruct (Z.ltb_spec r 0) as [|Hr0]; [done|].
  destruct (Z.ltb_spec r (Z.of_nat (m - h))) as [Hlt | Hge].
  - unfold dap_cbuf_pop. rewrite <- (Z2Nat.id r) in Hlt |- * by lia. rewrite Nat2Z.id.
    set (k := Z.to_nat r) in *. clearbody k.
    assert (Et1 : take k d1 = take k (contents c)) by (subst d1; rewrite take_take; f_equal; lia).
    destruct k as [|k].
    { unfold inter_circularBuffer_read. rewrite Es, orb_true_r. cbn [mbind option_bind].
      do 3 f_equal. unfold advanced. rewrite (proj2 (Nat.ltb_lt _ _)) by lia.
      destruct c as [x1 x2 x3 x4 x5]; cbn in *. subst. f_equal; try ring_cases; lia. }
    rewrite (read_nonempty m c h t (S k) false true W) by (done || lia).
    cbn [mbind option_bind]. replace (min (S k) (ring_size m h t)) with (S k) by lia. by rewrite Et1.
  - replace (Z.of_nat (m - h + (t + 1)) - Z.of_nat (m - h)) with (Z.of_nat (t + 1)) by lia. w64.
    rewrite (mem_read_ring0 m c _ W) by lia.
    assert (take (t + 1) (buffer c) = d2) as ->.
    { subst d2. unfold contents. rewrite Es, Eh, !Nat2Z.id, HN.
      rewrite <- (take_ge (take (m - h + (t + 1)) (drop h (buffer c ++ buffer c))) (m - h + (t + 1)))
        by (rewrite length_take; lia).
      rewrite <- ring_read_wrap by lia. rewrite Hb. replace (m - h + (t + 1) - (m - h))%nat with (t + 1)%nat by lia.
      rewrite drop_app_ge; rewrite length_take, length_drop, Hb; [|lia].
      by replace (m - h - min (m - h) (m - h))%nat with O by lia. }
    cbn [mbind option_bind]. fold r2. pose proof (Hsend 1%nat d2) as Hr2. fold r2 in Hr2.
    assert (Hd2 : length d2 = (t + 1)%nat) by (subst d2; rewrite length_drop; lia).
    rewrite Hd2 in Hr2. replace (Z.to_nat r) with (m - h)%nat by lia.
    rewrite (take_ge d1) by lia. unfold advanced. rewrite HN.
    replace (Z.of_nat (t + 1) - 1) with (Z.of_nat t) by lia. w64.
    destruct (Z.ltb_spec r2 0).
    + rewrite (proj2 (Nat.ltb_lt _ _)) by lia. do 3 f_equal; [|lia].
      f_equal; ring_cases; lia.
    + destruct (Z.eqb_spec r2 (Z.of_nat (t + 1))).
      * rewrite (proj2 (Z.ltb_lt _ _)), (proj2 (Nat.ltb_ge _ _)) by lia.
        rewrite (take_ge d2) by lia. done.
      * rewrite (proj2 (Z.ltb_ge _ _)) by lia. done.
Qed.

(** Sending moves a prefix of the queue.  Whatever [send] returns on a
    well-formed buffer, short of a partial second call, nothing is lost,
    repeated or reordered: the accepted bytes followed by what remains are
    the old contents, the invariant holds again, the result is the number of
    accepted bytes, or [-1] with the buffer unchanged, and a kernel that takes
    all it is given empties the buffer. *)
Theorem write_in_socket_conserves m c send :
  cbuf_wf m c -> send_ok send ->
  (forall d, send 1%nat d <= 0 \/ send 1%nat d = Z.of_nat (length d)) ->
  exists c' ret sent, dap_cbuf_write_in_socket send c = Some (c', ret, sent) /\
    cbuf_wf m c' /\ sent ++ contents c' = contents c /\
    (ret = Z.of_nat (length sent) \/ ret = -1 /\ c' = c) /\
    ((forall i d, send i d = Z.of_nat (length d)) -> contents c' = []).
Proof.
  intros W Hsend H2. pose proof W as [Hp Hs Hm Hb [Es Et Eh | h t Hh Ht Eh Et Es]].
  { exists c, 0, []. unfold dap_cbuf_write_in_socket, contents. rewrite Es. auto 10. }
  pose proof (length_contents m c W) as HL. rewrite Es in HL.
  pose proof (fun k => advanced_spec m h t k c W Hh Ht Eh Es) as Hadv.
  destruct (decide (h <= t)%nat) as [Hle | Hgt].
  - rewrite (write_flat m c send h t W Hsend ltac:(lia) Eh Et Es).
    pose proof (Hsend 0%nat (contents c)). destruct (Z.ltb_spec (send 0%nat (contents c)) 0) as [Hneg|].
    { exists c, (-1), []. split_and!; auto. intros Hall. rewrite Hall in Hneg. lia. }
    do 3 eexists. split; [done|]. destruct (Hadv (Z.to_nat (send 0%nat (contents c)))) as [W' ->].
    split; [done|]. split; [apply take_drop|]. split; [left; rewrite length_take; lia|].
    intros Hall. apply drop_ge. rewrite Hall. lia.
  - destruct (write_wrapped m c send h t W Hsend ltac:(lia) Eh Et Es) as (L1 & L2 & ->).
    set (d1 := take (m - h) (contents c)) in *. set (d2 := drop (m - h) (contents c)) in *.
    pose proof (Hsend 0%nat d1). pose proof (Hsend 1%nat d2). pose proof (H2 d2).
    assert (Hr : ring_size m h t = (m - h + (t + 1))%nat) by (ring_cases; lia).
    destruct (Z.ltb_spec (send 0%nat d1) 0) as [Hneg|].
    { exists c, (-1), []. split_and!; auto. intros Hall. rewrite Hall in Hneg. lia. }
    destruct (Z.ltb_spec (send 0%nat d1) (Z.of_nat (m - h))) as [Hpart|].
    { do 3 eexists. split; [done|]. destruct (Hadv (Z.to_nat (send 0%nat d1))) as [W' ->].
      split; [done|]. split; [apply take_drop|]. split; [left; rewrite length_take; lia|].
      intros Hall. rewrite Hall in Hpart. lia. }
    destruct (Z.ltb_spec (send 1%nat d2) 0) as [Hneg|].
    { do 3 eexists. split; [done|]. destruct (Hadv (m - h)%nat) as [W' ->].
      split; [done|]. split; [apply take_drop|]. split; [left; lia|]. intros Hall. rewrite Hall in Hneg. lia. }
    destruct (Z.eqb_spec (send 1%nat d2) (Z.of_nat (t + 1))) as [-> | Hne].
    { do 3 eexists. split; [done|]. destruct (Hadv (m - h + (t + 1))%nat) as [W' ->].
      split; [done|]. rewrite drop_ge, app_nil_r, length_app by lia.
      split; [apply take_drop|]. split; [left; lia | done]. }
    assert (E0 : send 1%nat d2 = 0) by lia. rewrite E0. do 3 eexists. split; [done|].
    destruct (Hadv (m - h)%nat) as [W' E']. revert W' E'. unfold advanced.
    rewrite (proj2 (Nat.ltb_lt _ _)) by lia.
    replace (ring_size m h t - (m - h))%nat with (t + 1)%nat by lia.
    replace (ring_ix m (h + (m - h))) with O by (ring_cases; lia). intros W' E'.
    split; [done|]. cbn [Z.to_nat take]. rewrite app_nil_r, Z.add_0_r. change 0 with (Z.of_nat 0) at 1. rewrite E'.
    split; [apply take_drop|]. split; [lia|]. intros Hall. rewrite Hall in E0. lia.
Qed.

(** ** The queue every client sees *)

(** The calls of the interface; [OpSend] carries the answers of the kernel to
    the two [send] calls. *)
Inductive cbuf_op :=
  | OpPush (d : list Z)
  | OpPop (n : nat)
  | OpRead (n : nat)
  | OpSend (send : nat -> list Z -> Z)
  | OpReset.

(** A length argument is a [size_t].  The kernel takes at most what it is
    given, and never a proper part of what the second [send] of a call hands
    it: that corrupts the buffer, see [write_in_socket_partial_corrupts]. *)
Definition op_ok (o : cbuf_op) : Prop :=
  match o with
  | OpPop n | OpRead n => Z.of_nat n < 2 ^ 64
  | OpSend send => send_ok send /\ forall d, send 1%nat d <= 0 \/ send 1%nat d = Z.of_nat (length d)
  | _ => True
  end.

(** A call on the buffer and the bytes it hands back, or to the kernel. *)
Definition run_op (c : dap_cbuf) (o : cbuf_op) : option (dap_cbuf * list Z) :=
  match o with
  | OpPush d => c ← dap_cbuf_push c d (Z.of_nat (length d)); Some (c, [])
  | OpPop n => '(c, _, out) ← dap_cbuf_pop c (Z.of_nat n) true; Some (c, out)
  | OpRead n => '(c, _, out) ← dap_cbuf_read c (Z.of_nat n) true; Some (c, out)
  | OpSend send => '(c, _, sent) ← dap_cbuf_write_in_socket send c; Some (c, sent)
  | OpReset => Some (dap_cbuf_reset c, [])
  end.

Fixpoint run_ops (c : dap_cbuf) (ops : list cbuf_op) : option (dap_cbuf * list (list Z)) :=
  match ops with
  | [] => Some (c, [])
  | o :: ops => '(c, out) ← run_op c o; '(c, outs) ← run_ops c ops; Some (c, out :: outs)
  end.

(** The same call on a queue bounded by [m]: the queue before, the call, the
    bytes handed out, the queue after.  What a send takes is up to the kernel:
    a prefix, and everything when the kernel takes all it is given. *)
Inductive queue_step (m : nat) : list Z -> cbuf_op -> list Z -> list Z -> Prop :=
  | step_push q d : queue_step m q (OpPush d) [] (lastn m (q ++ d))
  | step_pop q n : queue_step m q (OpPop n) (take n q) (drop n q)
  | step_read q n : queue_step m q (OpRead n) (take n q) q
  | step_reset q : queue_step m q OpReset [] []
  | step_send q q' send sent : q = sent ++ q' ->
      ((forall i d, send i d = Z.of_nat (length d)) -> q' = []) -> queue_step m q (OpSend send) sent q'.

Inductive queue_run (m : nat) : list Z -> list cbuf_op -> list (list Z) -> list Z -> Prop :=
  | run_nil q : queue_run m q [] [] q
  | run_cons q o out q1 ops outs q2 : queue_step m q o out q1 -> queue_run m q1 ops outs q2 ->
      queue_run m q (o :: ops) (out :: outs) q2.

Lemma reset_spec m c : cbuf_wf m c ->
  cbuf_wf m (dap_cbuf_reset c) /\ contents (dap_cbuf_reset c) = [].
Proof.
  intros [Hp Hs Hm Hb _]. split; [|done]. split; cbn; try done. by apply ring_empty.
Qed.

Lemma run_op_spec m c o : cbuf_wf m c -> op_ok o ->
  exists c' out, run_op c o = Some (c', out) /\ cbuf_wf m c' /\ queue_step m (contents c) o out (contents c').
Proof.
  intros W Hok. destruct o as [d | n | n | send |]; cbn [run_op op_ok] in *.
  - destruct (push_spec m c d W) as (c' & -> & W' & E). exists c', []. rewrite E. split_and!; try done. constructor.
  - destruct (read_spec m c n true true W Hok) as (c' & E & W' & EC).
    exists c', (take n (contents c)). unfold dap_cbuf_pop. rewrite E, EC. split_and!; try done. constructor.
  - destruct (read_spec m c n true false W Hok) as (c' & E & W' & EC).
    exists c', (take n (contents c)). unfold dap_cbuf_read. rewrite E, EC. split_and!; try done. constructor.
  - destruct Hok as [Hs H1]. destruct (write_in_socket_conserves m c send W Hs H1) as (c' & ret & sent & -> & W' & E & _ & Hall).
    exists c', sent. split_and!; try done. by constructor.
  - destruct (reset_spec m c W) as [W' E]. exists (dap_cbuf_reset c), []. rewrite E. split_and!; try done. constructor.
Qed.

Lemma run_ops_spec m ops c : cbuf_wf m c -> Forall op_ok ops ->
  exists c' outs, run_ops c ops = Some (c', outs) /\ cbuf_wf m c' /\ queue_run m (contents c) ops outs (contents c').
Proof.
  intros W H. revert c W. induction H as [|o ops Ho _ IH]; intros c W; [exists c, []; split_and!; try done; constructor|].
  cbn [run_ops]. destruct (run_op_spec m c o W Ho) as (c1 & out & -> & W1 & E1).
  cbn [mbind option_bind]. destruct (IH c1 W1) as (c2 & outs & -> & W2 & E2). exists c2, (out :: outs).
  split_and!; try done. by econstructor.
Qed.

Lemma create_spec malloc_ret size c : (forall n p, 0 <= n -> malloc_ret n = Some p -> Z.of_nat (length p) = n) ->
  0 < size <= 2 ^ 63 -> dap_cbuf_create malloc_ret size = Some c ->
  cbuf_wf (Z.to_nat size) c /\ contents c = [].
Proof.
  intros Hm Hs E. unfold dap_cbuf_create, sizeof_cbuf in E. w64.
  rewrite wrap_id in E by (unfold fits; lia).
  destruct (malloc_ret (40 + size)) as [p|] eqn:Ep; [|done]. cbn [mbind option_bind] in E.
  injection E as <-. apply Hm in Ep; [|lia]. split; [|done]. split; cbn [data_size_max buffer dap_cbuf_reset].
  - lia.
  - lia.
  - lia.
  - rewrite length_drop. lia.
  - by apply ring_empty.
Qed.

(** ** Properties of the circular buffer *)

(** C33: the circular buffer refines a bounded byte queue.  After
    [dap_cbuf_create] of a positive size that does not exceed [2^63], every
    sequence of pushes, pops, reads, sends to a socket and resets runs without
    leaving the bounds of the storage, and hands out and leaves what a FIFO
    queue keeping its last [size] bytes does.  A send may be refused or
    shortened by the kernel, except that the second [send] of one call takes
    all or nothing: the code corrupts the buffer otherwise
    ([write_in_socket_partial_corrupts]). *)
Theorem cbuf_refines_queue malloc_ret size c ops :
  (forall n p, 0 <= n -> malloc_ret n = Some p -> Z.of_nat (length p) = n) ->
  0 < size <= 2 ^ 63 -> dap_cbuf_create malloc_ret size = Some c -> Forall op_ok ops ->
  exists c' outs, run_ops c ops = Some (c', outs) /\ queue_run (Z.to_nat size) [] ops outs (contents c') /\
    dap_cbuf_get_size c' = Z.of_nat (length (contents c')).
Proof.
  intros Hm Hs E Hops. destruct (create_spec malloc_ret size c Hm Hs E) as [W E0].
  destruct (run_ops_spec _ ops c W Hops) as (c' & outs & R & W' & EC). rewrite E0 in EC.
  exists c', outs. split_and!; try done. symmetry. by apply (length_contents _ _ W').
Qed.

(** The kernel takes one byte of the first send, which would be three, and all
    of the second, which goes round the end. *)
Lemma cbuf_refines_queue_witness :
  let ops := [OpPush [1; 2]; OpPop 1; OpPush [3; 4; 5]; OpRead 9; OpSend (λ i d, if i is O then Z.min 1 (Z.of_nat (length d)) else -1);
              OpPush [6]; OpSend (λ _ d, Z.of_nat (length d)); OpPush [7]] in
  let outs := [[]; [1]; []; [3; 4; 5]; [3]; []; [4; 5; 6]; []] in
  exists c', run_ops (Cbuf 3 0 size_neg1 size_neg1 [0; 0; 0]) ops = Some (c', outs) /\ contents c' = [7] /\
    queue_run 3 [] ops outs [7].
Proof.
  intros ops outs.
  destruct (cbuf_refines_queue (fun n => Some (replicate (Z.to_nat n) 0)) 3 (Cbuf 3 0 size_neg1 size_neg1 [0; 0; 0]) ops)
    as (c' & outs' & E & R & _).
  - intros n p Hn [= <-]. rewrite length_replicate. lia.
  - lia.
  - reflexivity.
  - unfold ops. repeat (apply List.Forall_cons; [first [done | split; [intros [|i] d; lia | intros d; lia]]|]). apply List.Forall_nil.
  - assert (E' : run_ops (Cbuf 3 0 size_neg1 size_neg1 [0; 0; 0]) ops = Some (c', outs')) by exact E.
    assert (Ev : run_ops (Cbuf 3 0 size_neg1 size_neg1 [0; 0; 0]) ops = Some (Cbuf 3 1 0 0 [7; 5; 6], outs))
      by (vm_compute; reflexivity).
    rewrite Ev in E'. injection E' as <- <-. exists (Cbuf 3 1 0 0 [7; 5; 6]). split_and!; [exact Ev | reflexivity | exact R].
Defined.

(** Capacity 4, head 3, tail 1: the queue [9; 7; 8] goes round the end. *)
Definition wrapped_example : dap_cbuf := Cbuf 4 3 1 3 [7; 8; 0; 9].

Lemma wrapped_example_wf : cbuf_wf 4 wrapped_example.
Proof. split; cbn; try lia. apply ring_nonempty with 3%nat 1%nat; cbn; try lia; done. Qed.

Lemma write_in_socket_conserves_witness :
  exists c' ret sent,
    dap_cbuf_write_in_socket (fun _ d => Z.of_nat (length d)) wrapped_example = Some (c', ret, sent) /\
    cbuf_wf 4 c' /\ sent ++ contents c' = [9; 7; 8] /\
    (ret = Z.of_nat (length sent) \/ ret = -1 /\ c' = wrapped_example) /\
    ((forall (i : nat) (d : list Z), Z.of_nat (length d) = Z.of_nat (length d)) -> contents c' = []).
Proof.
  apply (write_in_socket_conserves 4 wrapped_example (fun _ d => Z.of_nat (length d))).
  - apply wrapped_example_wf.
  - intros i d. lia.
  - intros d. right. reflexivity.
Defined.

(** A partial second [send] corrupts the buffer.  When the contents go
    round the end, the first call takes everything up to the end and the
    second takes [0 < r] bytes but not all, [offset_head] advances while
    [data_size] still counts the [r] bytes just sent; the buffer reports more
    bytes than it holds and, in the instance, a later pop hands out a cell
    that was never pushed. *)
Theorem write_in_socket_partial_corrupts :
  (forall m c send h t, cbuf_wf m c -> send_ok send -> (t < h < m)%nat ->
    offset_head c = Z.of_nat h -> offset_tail c = Z.of_nat t ->
    data_size c = Z.of_nat (ring_size m h t) ->
    send 0%nat (take (m - h) (contents c)) = Z.of_nat (m - h) ->
    0 < send 1%nat (drop (m - h) (contents c)) <= Z.of_nat t ->
    exists c' ret sent, dap_cbuf_write_in_socket send c = Some (c', ret, sent) /\
      dap_cbuf_get_size c' = Z.of_nat (length (contents c) - length sent)
                             + send 1%nat (drop (m - h) (contents c)) /\
      ~ cbuf_wf m c') /\
  (c' ← dap_cbuf_write_in_socket (fun i _ => 1) wrapped_example;
   '(_, _, out) ← dap_cbuf_pop (fst (fst c')) 2 true;
   Some (snd c', out)) = Some ([9; 7], [8; 0]).
Proof.
  split; [|reflexivity]. intros m c send h t W Hsend Hh Eh Et Es H1 H2.
  pose proof (length_contents m c W) as HL. rewrite Es in HL.
  destruct (write_wrapped m c send h t W Hsend Hh Eh Et Es) as (L1 & L2 & ->).
  set (r2 := send 1%nat (drop (m - h) (contents c))) in *. rewrite H1.
  rewrite (proj2 (Z.ltb_ge _ 0)), Z.ltb_irrefl, (proj2 (Z.ltb_ge _ 0)) by lia.
  rewrite (proj2 (Z.eqb_neq _ _)) by lia. do 3 eexists. split; [done|].
  rewrite length_app, L1, length_take, L2. cbn [dap_cbuf_get_size data_size].
  assert (ring_size m h t = (m - h + (t + 1))%nat) by (ring_cases; lia).
  split; [lia|]. intros [_ _ _ _ HS]. clear -HS H2 Hh.
  destruct HS as [E _ _ | h' t' ? ? E1 E2 E3]; cbn in *; [lia|]. ring_cases; lia.
Qed.

Lemma write_in_socket_partial_corrupts_witness :
  let send := fun (_ : nat) (d : list Z) => Z.min 1 (Z.of_nat (length d)) in
  exists c' ret sent, dap_cbuf_write_in_socket send wrapped_example = Some (c', ret, sent) /\
    dap_cbuf_get_size c' = Z.of_nat (3 - length sent) + 1 /\ ~ cbuf_wf 4 c'.
Proof.
  apply (proj1 write_in_socket_partial_corrupts 4%nat wrapped_example
    (fun (_ : nat) (d : list Z) => Z.min 1 (Z.of_nat (length d))) 3%nat 1%nat);
    try reflexivity; try (cbn; lia).
  - apply wrapped_example_wf.
  - intros i d. lia.
  - vm_compute. intuition congruence.
Defined.

(** ** Printing *)

Lemma mem_write_length {A} (m : list A) off d m' : mem_write m off d = Some m' ->
  length m' = length m /\ 0 <= off /\ off + Z.of_nat (length d) <= Z.of_nat (length m).
Proof.
  unfold mem_write. intros E.
  destruct (Z.leb_spec 0 off), (Z.leb_spec (off + Z.of_nat (length d)) (Z.of_nat (length m)));
    simplify_eq/=. split; [|lia]. apply length_splice. lia.
Qed.

Lemma print_cell_length hex ch : (if hex : bool then 3 <= length (print_cell hex ch)
  else length (print_cell hex ch) = 2)%nat.
Proof. destruct hex; [|done]. unfold print_cell. destruct (ch <? 128); cbn; lia. Qed.

Lemma print_loop_hex c n i (str : list Z) : length str = (2 * (i + S n) + 1)%nat ->
  print_loop c true (S n) i str = None.
Proof.
  revert i str. induction n as [|n IH]; intros i str HL; cbn [print_loop];
    (destruct (print_char c i) as [ch|]; [|done]); cbn [mbind option_bind];
    pose proof (print_cell_length true ch) as H3; cbv iota in H3; unfold sprintf_at.
  - destruct (mem_write str _ _) eqn:E; [|done]. apply mem_write_length in E.
    rewrite length_app in E. cbn [length] in E. lia.
  - destruct (mem_write str _ _) as [str'|] eqn:E; [|done]. apply mem_write_length in E.
    cbn [mbind option_bind]. apply IH. lia.
Qed.

Lemma print_loop_text m c n i (str : list Z) : cbuf_wf m c -> (i + n <= m)%nat ->
  length str = (2 * (i + n) + 1)%nat -> exists out, print_loop c false n i str = Some out.
Proof.
  intros W. pose proof (wf_buffer _ _ W) as Hb. revert i str.
  induction n as [|n IH]; intros i str Hi HL; [by exists str|]. cbn [print_loop].
  assert (exists ch, print_char c i = Some ch) as [ch ->].
  { destruct (lookup_lt_is_Some_2 (buffer c) i) as [b Eb]; [lia|].
    unfold print_char. rewrite Eb. repeat case_match; eauto. }
  cbn [mbind option_bind]. unfold sprintf_at.
  replace (Z.of_nat i * 2) with (Z.of_nat (2 * i)) by lia.
  rewrite mem_write_nat by (cbn; lia). cbn [mbind option_bind].
  apply IH; [lia|]. rewrite length_splice by (cbn; lia). lia.
Qed.

(** [dap_cbuf_print] stays in its text block in character mode and
    always writes past the block's end in hexadecimal mode: a cell takes
    three characters and a terminator where the block reserves two. *)
Theorem print_hex_overflows m c str :
  cbuf_wf m c -> Z.of_nat (length str) = 2 * dap_cbuf_get_size c + 1 ->
  (exists out, dap_cbuf_print c false str = Some out) /\
  (0 < dap_cbuf_get_size c -> dap_cbuf_print c true str = None).
Proof.
  intros W HL. pose proof (length_contents m c W) as HC. unfold dap_cbuf_get_size in *.
  assert (data_size c <= Z.of_nat m).
  { destruct W as [_ _ _ _ [-> _ _ | h t Hh Ht _ _ ->]]; [lia|].
    pose proof (ring_size_bounds m h t Hh Ht). lia. }
  unfold dap_cbuf_print, dap_cbuf_get_size. split.
  - apply (print_loop_text m); [done | lia..].
  - intros Hpos. destruct (Z.to_nat (data_size c)) eqn:E; [lia|]. apply print_loop_hex. lia.
Qed.

Lemma print_hex_overflows_witness :
  dap_cbuf_print wrapped_example true (replicate 7 0) = None.
Proof.
  apply (print_hex_overflows 4 wrapped_example (replicate 7 0)); [|reflexivity..].
  apply wrapped_example_wf.
Defined.
