(* ===== verification/Base64.v ===== *)
(** * Base64 (crypto/src/dap_enc_base64.c)

    Both codecs of the file: [dap_enc_base64_encode]/[_decode] over a table
    chosen by the [dap_enc_data_type_t] argument (padded), and the unpadded
    [B64_Encode]/[B64_Decode] pair.  Bytes and characters are [Z] in
    [[0, 256)]; an output buffer is the list of the values stored in it, in
    order.  The [tmp] array of a loop is the list of the values read into it
    since it was last emptied.  [abort] on an unknown standard and a table
    index out of range are [None]. *)

From S2P Require Import Prelude.
Local Open Scope Z_scope.

Inductive dap_enc_data_type :=
  | DAP_ENC_DATA_TYPE_RAW
  | DAP_ENC_DATA_TYPE_B64
  | DAP_ENC_DATA_TYPE_B64_URLSAFE.

#[export] Instance data_type_eq_dec : EqDecision dap_enc_data_type.
Proof. solve_decision. Defined.

Definition b64_alnum : list Z := seqZ 65 26 ++ seqZ 97 26 ++ seqZ 48 10.

Definition b64_standart_table : list Z := b64_alnum ++ [43; 47].

Definition b64_table_url_safe : list Z := b64_alnum ++ [45; 95].

Definition b64_table_by_standard (standard : dap_enc_data_type) : option (list Z) :=
  match standard with
  | DAP_ENC_DATA_TYPE_B64 => Some b64_standart_table
  | DAP_ENC_DATA_TYPE_B64_URLSAFE => Some b64_table_url_safe
  | DAP_ENC_DATA_TYPE_RAW => None
  end.

(** [isalnum] in the C locale. *)
Definition isalnum (c : Z) : bool :=
  ((48 <=? c) && (c <=? 57)) || ((65 <=? c) && (c <=? 90)) || ((97 <=? c) && (c <=? 122)).

(** ** Decoding *)

(** [for (l = 0; l < 64; ++l) if (t == b64_table[l]) { t = l; break; }] *)
Fixpoint b64_translate (b64_table : list Z) (l : Z) (t : Z) : Z :=
  match b64_table with
  | [] => t
  | ch :: b64_table => if t =? ch then l else b64_translate b64_table (l + 1) t
  end.

(** The characters the decoder accepts. *)
Definition b64_is_char (b64_table : list Z) (c : Z) : bool :=
  isalnum c || bool_decide (Some c = b64_table !! 62%nat)
  || bool_decide (Some c = b64_table !! 63%nat).

(** [buf] of the decoder from the four translated values. *)
Definition b64_decode_buf (t0 t1 t2 t3 : Z) : list Z :=
  [ wrap 8 (Z.shiftl t0 2 + Z.shiftr (Z.land t1 48) 4);
    wrap 8 (Z.shiftl (Z.land t1 15) 4 + Z.shiftr (Z.land t2 60) 2);
    wrap 8 (Z.shiftl (Z.land t2 3) 6 + t3) ].

Definition b64_decode_quad (tbl tmp : list Z) : list Z :=
  match map (b64_translate tbl 0) tmp with
  | [t0; t1; t2; t3] => b64_decode_buf t0 t1 t2 t3
  | _ => []
  end.

Definition b64_decode_remainder (tbl tmp : list Z) : list Z :=
  let i := length tmp in
  if (0 <? i)%nat
  then take (i - 1) (b64_decode_quad tbl (tmp ++ replicate (4 - i) 0)) else [].

Fixpoint b64_decode_loop (tbl : list Z) (inp tmp : list Z) : list Z :=
  match inp with
  | [] => b64_decode_remainder tbl tmp
  | c :: inp =>
    if c =? 61 then b64_decode_remainder tbl tmp
    else if negb (b64_is_char tbl c)
    then b64_decode_remainder tbl tmp
    else
      let tmp := tmp ++ [c] in
      if (length tmp =? 4)%nat
      then b64_decode_quad tbl tmp ++ b64_decode_loop tbl inp []
      else b64_decode_loop tbl inp tmp
  end.

Definition dap_enc_base64_decode (inp : list Z) (standard : dap_enc_data_type)
    : option (list Z) :=
  tbl ← b64_table_by_standard standard; Some (b64_decode_loop tbl inp []).

(** ** Encoding *)

(** [buf] of the encoder. *)
Definition b64_encode_buf (t0 t1 t2 : Z) : list Z :=
  [ Z.shiftr (Z.land t0 252) 2;
    Z.shiftl (Z.land t0 3) 4 + Z.shiftr (Z.land t1 240) 4;
    Z.shiftl (Z.land t1 15) 2 + Z.shiftr (Z.land t2 192) 6;
    Z.land t2 63 ].

(** The first [n] entries of [buf], translated. *)
Definition b64_emit (tbl : list Z) (n : nat) (tmp : list Z) : option (list Z) :=
  match tmp with
  | [t0; t1; t2] => mapM (λ v, tbl !! Z.to_nat v) (take n (b64_encode_buf t0 t1 t2))
  | _ => None
  end.

Definition b64_encode_remainder (tbl tmp : list Z) : option (list Z) :=
  let i := length tmp in
  if (0 <? i)%nat then
    out ← b64_emit tbl (i + 1) (tmp ++ replicate (3 - i) 0);
    Some (out ++ replicate (3 - i) 61)
  else Some [].

Fixpoint b64_encode_loop (tbl : list Z) (inp tmp : list Z) : option (list Z) :=
  match inp with
  | [] => b64_encode_remainder tbl tmp
  | b :: inp =>
    let tmp := tmp ++ [b] in
    if (length tmp =? 3)%nat then
      out ← b64_emit tbl 4 tmp;
      rest ← b64_encode_loop tbl inp [];
      Some (out ++ rest)
    else b64_encode_loop tbl inp tmp
  end.

Definition dap_enc_base64_encode (inp : list Z) (standard : dap_enc_data_type)
    : option (list Z) :=
  tbl ← b64_table_by_standard standard; b64_encode_loop tbl inp [].

(** [DAP_ENC_BASE64_ENCODE_SIZE] and [DAP_ENC_BASE64_DECODE_SIZE] *)
Definition DAP_ENC_BASE64_ENCODE_SIZE (n : Z) : Z := Z.land (wrap 64 (4 * n) / 3 + 3) (Z.lnot 3).

Definition DAP_ENC_BASE64_DECODE_SIZE (n : Z) : Z := wrap 64 (n * 3) / 4.

(** ** C strings *)

(** The characters before the first NUL. *)
Fixpoint c_string (l : list Z) : list Z :=
  match l with
  | [] => []
  | c :: l => if c =? 0 then [] else c :: c_string l
  end.

(** [a_string] is the string's characters; a store outside the allocation is
    [None]. *)
Definition dap_enc_strdup_to_base64 (a_string : list Z) : option (list Z) :=
  let l_string_base64_len := DAP_ENC_BASE64_ENCODE_SIZE (Z.of_nat (length a_string)) + 1 in
  enc ← dap_enc_base64_encode a_string DAP_ENC_DATA_TYPE_B64;
  l_string_base64 ← mem_write (replicate (Z.to_nat l_string_base64_len) 0) 0 (enc ++ [0]);
  Some (c_string l_string_base64).

(** [Some None] is the [NULL] result. *)
Definition dap_enc_strdup_from_base64 (a_string_base64 : list Z) : option (option (list Z)) :=
  if (length a_string_base64 =? 0)%nat then Some None else
  let l_decoded_len := DAP_ENC_BASE64_DECODE_SIZE (Z.of_nat (length a_string_base64)) in
  if l_decoded_len =? 0 then Some None else
  dec ← dap_enc_base64_decode a_string_base64 DAP_ENC_DATA_TYPE_B64_URLSAFE;
  l_string ← mem_write (replicate (Z.to_nat (l_decoded_len + 1)) 0) 0 dec;
  Some (Some (c_string l_string)).

(** ** The unpadded codec *)

(** [ceil((double)sz / k) * m] is exact for an [int]. *)
Definition B64_GetSize (sz : Z) (isEncode : bool) : Z :=
  if isEncode
  then let n := (sz + 2) / 3 * 4 in
       if sz mod 3 =? 1 then n + 2 else if sz mod 3 =? 2 then n + 3 else n
  else let n := (sz + 3) / 4 * 3 in
       if sz mod 4 =? 2 then n + 1 else if sz mod 4 =? 3 then n + 2 else n.

Definition B64_EncodeByte (b : Z) : Z :=
  let b := Z.land b 63 in
  if b <=? 25 then b + 65
  else if b <=? 51 then b - 26 + 97
  else if b <=? 61 then b - 52 + 48
  else if b =? 62 then 45
  else 95.

Definition B64_DecodeByte (b : Z) : Z :=
  if (b =? 43) || (b =? 45) then 62
  else if (b =? 47) || (b =? 95) then 63
  else if b <=? 57 then wrap 8 (b - 48 + 52)
  else if b <=? 90 then wrap 8 (b - 65)
  else wrap 8 (b - 97 + 26).

Fixpoint B64_Encode (src : list Z) : list Z :=
  match src with
  | b1 :: b2 :: b3 :: src =>
      B64_EncodeByte (wrap 8 (Z.shiftr b1 2)) ::
      B64_EncodeByte (wrap 8 (Z.lor (Z.shiftl b1 4) (Z.shiftr b2 4))) ::
      B64_EncodeByte (wrap 8 (Z.lor (Z.shiftl b2 2) (Z.shiftr b3 6))) ::
      B64_EncodeByte (wrap 8 b3) :: B64_Encode src
  | [b1; b2] =>
      [ B64_EncodeByte (wrap 8 (Z.shiftr b1 2));
        B64_EncodeByte (wrap 8 (Z.lor (Z.shiftl b1 4) (Z.shiftr b2 4)));
        B64_EncodeByte (wrap 8 (Z.shiftl b2 2)) ]
  | [b1] =>
      [ B64_EncodeByte (wrap 8 (Z.shiftr b1 2));
        B64_EncodeByte (wrap 8 (Z.lor (Z.shiftl b1 4) (Z.shiftr 0 4))) ]
  | [] => []
  end.

Fixpoint B64_Decode (src : list Z) : list Z :=
  match src with
  | c1 :: c2 :: c3 :: c4 :: src =>
      let b1 := B64_DecodeByte c1 in let b2 := B64_DecodeByte c2 in
      let b3 := B64_DecodeByte c3 in let b4 := B64_DecodeByte c4 in
      wrap 8 (Z.lor (Z.shiftl b1 2) (Z.shiftr b2 4)) ::
      wrap 8 (Z.lor (Z.shiftl b2 4) (Z.shiftr b3 2)) ::
      wrap 8 (Z.lor (Z.shiftl b3 6) b4) :: B64_Decode src
  | [c1; c2; c3] =>
      let b1 := B64_DecodeByte c1 in let b2 := B64_DecodeByte c2 in
      let b3 := B64_DecodeByte c3 in
      [ wrap 8 (Z.lor (Z.shiftl b1 2) (Z.shiftr b2 4));
        wrap 8 (Z.lor (Z.shiftl b2 4) (Z.shiftr b3 2)) ]
  | [c1; c2] =>
      [ wrap 8 (Z.lor (Z.shiftl (B64_DecodeByte c1) 2) (Z.shiftr (B64_DecodeByte c2) 4)) ]
  | [c1] => [ wrap 8 (Z.lor (Z.shiftl (B64_DecodeByte c1) 2) (Z.shiftr 0 4)) ]
  | [] => []
  end.

(** ** Sextets *)

Lemma byte_masks x : fits 8 x ->
  Z.shiftr (Z.land x 252) 2 = x / 4 /\ Z.shiftl (Z.land x 3) 4 = x mod 4 * 16 /\
  Z.shiftr (Z.land x 240) 4 = x / 16 /\ Z.shiftl (Z.land x 15) 2 = x mod 16 * 4 /\
  Z.shiftr (Z.land x 192) 6 = x / 64 /\ Z.land x 63 = x mod 64.
Proof.
  intros Hx.
  enough (((Z.shiftr (Z.land x 252) 2 =? x / 4) && (Z.shiftl (Z.land x 3) 4 =? x mod 4 * 16) &&
    (Z.shiftr (Z.land x 240) 4 =? x / 16) && (Z.shiftl (Z.land x 15) 2 =? x mod 16 * 4) &&
    (Z.shiftr (Z.land x 192) 6 =? x / 64) && (Z.land x 63 =? x mod 64)) = true) as E
    by (rewrite !andb_true_iff, !Z.eqb_eq in E; tauto).
  revert x Hx. apply (range_all _ 256). vm_compute. reflexivity.
Qed.

Lemma sextet_masks x : fits 6 x ->
  Z.shiftr (Z.land x 48) 4 = x / 16 /\ Z.shiftl (Z.land x 15) 4 = x mod 16 * 16 /\
  Z.shiftr (Z.land x 60) 2 = x / 4 /\ Z.shiftl (Z.land x 3) 6 = x mod 4 * 64.
Proof.
  intros Hx.
  enough (((Z.shiftr (Z.land x 48) 4 =? x / 16) && (Z.shiftl (Z.land x 15) 4 =? x mod 16 * 16) &&
    (Z.shiftr (Z.land x 60) 2 =? x / 4) && (Z.shiftl (Z.land x 3) 6 =? x mod 4 * 64)) = true) as E
    by (rewrite !andb_true_iff, !Z.eqb_eq in E; tauto).
  revert x Hx. apply (range_all _ 64). vm_compute. reflexivity.
Qed.

Lemma encode_buf_spec t0 t1 t2 : fits 8 t0 -> fits 8 t1 -> fits 8 t2 ->
  b64_encode_buf t0 t1 t2
  = [t0 / 4; t0 mod 4 * 16 + t1 / 16; t1 mod 16 * 4 + t2 / 64; t2 mod 64] /\
  Forall (fits 6) (b64_encode_buf t0 t1 t2).
Proof.
  intros H0 H1 H2. unfold b64_encode_buf.
  destruct (byte_masks t0 H0) as (-> & -> & _), (byte_masks t1 H1) as (_ & _ & -> & -> & _),
    (byte_masks t2 H2) as (_ & _ & _ & _ & -> & ->).
  split; [done|]. repeat constructor; dlia.
Qed.

Lemma decode_buf_spec s0 s1 s2 s3 : fits 6 s0 -> fits 6 s1 -> fits 6 s2 -> fits 6 s3 ->
  b64_decode_buf s0 s1 s2 s3
  = [s0 * 4 + s1 / 16; s1 mod 16 * 16 + s2 / 4; s2 mod 4 * 64 + s3].
Proof.
  intros H0 H1 H2 H3. unfold b64_decode_buf. rewrite shiftl_mul by lia. change (2 ^ 2) with 4.
  destruct (sextet_masks s1 H1) as (-> & -> & _), (sextet_masks s2 H2) as (_ & _ & -> & ->).
  rewrite !wrap_id by dlia. done.
Qed.

(** ** Tables *)

Definition table_char_ok (tbl : list Z) (v : Z) : bool :=
  match tbl !! Z.to_nat v with
  | Some c => (b64_translate tbl 0 c =? v) && negb (c =? 61) && b64_is_char tbl c && (0 <? c)
  | None => false
  end.

(** What the codec needs of a table; both tables have it. *)
Class B64Table (tbl : list Z) := {
  table_char v : fits 6 v -> table_char_ok tbl v = true;
  table_nul : b64_translate tbl 0 0 = 0;
}.

#[export] Instance standart_table_ok : B64Table b64_standart_table.
Proof. split; [apply (range_all _ 64); vm_compute |]; reflexivity. Qed.

#[export] Instance url_safe_table_ok : B64Table b64_table_url_safe.
Proof. split; [apply (range_all _ 64); vm_compute |]; reflexivity. Qed.

Section Codec.
Context (tbl : list Z) `{B64Table tbl}.

Lemma table_lookup v : fits 6 v -> exists c, tbl !! Z.to_nat v = Some c /\
  b64_translate tbl 0 c = v /\ (c =? 61) = false /\ b64_is_char tbl c = true /\ 0 < c.
Proof.
  intros Hv. pose proof (table_char v Hv) as E. unfold table_char_ok in E.
  destruct (tbl !! Z.to_nat v) as [c|]; [|done]. exists c.
  rewrite !andb_true_iff, negb_true_iff, Z.eqb_eq, Z.ltb_lt in E. tauto.
Qed.

(** Translating sextets to characters and back. *)
Lemma table_mapM vs : Forall (fits 6) vs -> exists cs,
  mapM (λ v, tbl !! Z.to_nat v) vs = Some cs /\ map (b64_translate tbl 0) cs = vs /\
  Forall (λ c, (c =? 61) = false /\ b64_is_char tbl c = true /\ 0 < c) cs /\ length cs = length vs.
Proof.
  induction 1 as [|v vs Hv _ IH]; [by exists []|].
  destruct (table_lookup v Hv) as (c & E & Et & Hc), IH as (cs & Em & Es & Hcs & Hl).
  exists (c :: cs). cbn [mapM]. rewrite E. cbn [mbind option_bind]. rewrite Em.
  split; [done|]. split; [by simpl; f_equal|]. split; [by constructor | simpl; by f_equal].
Qed.

Lemma decode_step c inp tmp : (c =? 61) = false -> b64_is_char tbl c = true ->
  b64_decode_loop tbl (c :: inp) tmp =
  if (length (tmp ++ [c]) =? 4)%nat
  then b64_decode_quad tbl (tmp ++ [c]) ++ b64_decode_loop tbl inp []
  else b64_decode_loop tbl inp (tmp ++ [c]).
Proof. intros E1 E2. cbn [b64_decode_loop]. by rewrite E1, E2. Qed.

(** A full group of three bytes. *)
Lemma codec_group b0 b1 b2 : fits 8 b0 -> fits 8 b1 -> fits 8 b2 ->
  exists cs, b64_emit tbl 4 [b0; b1; b2] = Some cs /\ length cs = 4%nat /\
    Forall (λ c, 0 < c) cs /\
    forall rest, b64_decode_loop tbl (cs ++ rest) [] = b0 :: b1 :: b2 :: b64_decode_loop tbl rest [].
Proof.
  intros H0 H1 H2. destruct (encode_buf_spec b0 b1 b2 H0 H1 H2) as [E F].
  destruct (table_mapM _ F) as (cs & Em & Et & Hcs & Hl). exists cs.
  unfold b64_emit. rewrite take_ge by done. split; [done|]. rewrite E in Et, Hl.
  split; [done|]. split; [eapply Forall_impl; [|exact Hcs]; simpl; tauto|].
  destruct cs as [|c0 [|c1 [|c2 [|c3 [|? ?]]]]]; try done.
  rewrite !Forall_cons_iff in Hcs. destruct Hcs as ((? & ? & _) & (? & ? & _) & (? & ? & _) & (? & ? & _) & _).
  intros rest. cbn [app]. rewrite !decode_step by done. cbn [length app Nat.eqb].
  unfold b64_decode_quad. rewrite Et. rewrite decode_buf_spec by dlia.
  cbn [app]. f_equal; [dlia|]. f_equal; [dlia|]. f_equal. dlia.
Qed.

(** The one or two bytes left over, with their padding. *)
Lemma codec_last1 b0 : fits 8 b0 ->
  exists cs, b64_encode_remainder tbl [b0] = Some cs /\ length cs = 4%nat /\
    Forall (λ c, 0 < c) cs /\ b64_decode_loop tbl cs [] = [b0].
Proof.
  intros H0. destruct (encode_buf_spec b0 0 0 H0) as [E F]; [done..|].
  apply (Forall_take _ 2%nat) in F. destruct (table_mapM _ F) as (cs & Em & Et & Hcs & Hl).
  exists (cs ++ [61; 61]). unfold b64_encode_remainder, b64_emit. cbn [length Nat.ltb Nat.leb app replicate].
  cbn [Nat.add Nat.sub replicate]. rewrite Em. cbn [mbind option_bind]. rewrite E in Et, Hl.
  cbn [take length] in Et, Hl. destruct cs as [|c0 [|c1 [|? ?]]]; try done.
  rewrite !Forall_cons_iff in Hcs. destruct Hcs as ((? & ? & ?) & (? & ? & ?) & _).
  split; [done|]. split; [done|]. split; [by repeat constructor|].
  cbn [app]. do 2 (rewrite decode_step by done; cbn [length app Nat.eqb]).
  cbn [b64_decode_loop Z.eqb Pos.eqb].
  unfold b64_decode_remainder, b64_decode_quad. cbn [length Nat.ltb Nat.leb app replicate Nat.sub map].
  cbn [map] in Et. injection Et as -> ->. rewrite table_nul, decode_buf_spec by dlia.
  cbn [take]. f_equal. dlia.
Qed.

Lemma codec_last2 b0 b1 : fits 8 b0 -> fits 8 b1 ->
  exists cs, b64_encode_remainder tbl [b0; b1] = Some cs /\ length cs = 4%nat /\
    Forall (λ c, 0 < c) cs /\ b64_decode_loop tbl cs [] = [b0; b1].
Proof.
  intros H0 H1. destruct (encode_buf_spec b0 b1 0 H0 H1) as [E F]; [done..|].
  apply (Forall_take _ 3%nat) in F. destruct (table_mapM _ F) as (cs & Em & Et & Hcs & Hl).
  exists (cs ++ [61]). unfold b64_encode_remainder, b64_emit. cbn [length Nat.ltb Nat.leb app replicate].
  cbn [Nat.add Nat.sub replicate]. rewrite Em. cbn [mbind option_bind]. rewrite E in Et, Hl.
  cbn [take length] in Et, Hl. destruct cs as [|c0 [|c1 [|c2 [|? ?]]]]; try done.
  rewrite !Forall_cons_iff in Hcs. destruct Hcs as ((? & ? & ?) & (? & ? & ?) & (? & ? & ?) & _).
  split; [done|]. split; [done|]. split; [by repeat constructor|].
  cbn [app]. do 3 (rewrite decode_step by done; cbn [length app Nat.eqb]).
  cbn [b64_decode_loop Z.eqb Pos.eqb].
  unfold b64_decode_remainder, b64_decode_quad. cbn [length Nat.ltb Nat.leb app replicate Nat.sub map].
  cbn [map] in Et. injection Et as -> -> ->. rewrite table_nul, decode_buf_spec by dlia.
  cbn [take]. f_equal; [dlia|]. f_equal. dlia.
Qed.

Lemma codec_roundtrip l : Forall (fits 8) l ->
  exists e, b64_encode_loop tbl l [] = Some e /\ b64_decode_loop tbl e [] = l /\
    Z.of_nat (length e) = 4 * ((Z.of_nat (length l) + 2) / 3) /\ Forall (λ c, 0 < c) e.
Proof.
  induction l as [|a|a b|a b c l IH] using list_ind3; rewrite ?Forall_cons_iff.
  - intros _. exists []. done.
  - intros [Ha _]. destruct (codec_last1 a Ha) as (e & E & L & P & D). exists e. cbn. by rewrite L.
  - intros (Ha & Hb & _). destruct (codec_last2 a b Ha Hb) as (e & E & L & P & D).
    exists e. cbn. by rewrite L.
  - intros (Ha & Hb & Hc & Hl). destruct (IH Hl) as (e & E & D & L & P).
    destruct (codec_group a b c Ha Hb Hc) as (cs & Eg & Lg & Pg & Dg).
    exists (cs ++ e). cbn [b64_encode_loop app length Nat.eqb]. rewrite Eg. cbn [mbind option_bind].
    rewrite E. split; [done|]. rewrite Dg, D, length_app. split; [done|].
    split; [cbn [length]; dlia | by apply Forall_app].
Qed.

(** The decoder never stores more than [n * 3 / 4] bytes for [n] characters. *)
Lemma decode_quad_length tmp : (length (b64_decode_quad tbl tmp) <= 3)%nat.
Proof. unfold b64_decode_quad. repeat case_match; simpl; lia. Qed.

Lemma decode_length inp tmp : (length tmp < 4)%nat ->
  (4 * length (b64_decode_loop tbl inp tmp) <= 3 * (length tmp + length inp))%nat.
Proof.
  assert (Hrem : forall t, (length t < 4)%nat ->
    (4 * length (b64_decode_remainder tbl t) <= 3 * length t)%nat).
  { intros t Ht. unfold b64_decode_remainder. destruct (Nat.ltb_spec 0 (length t)); [|simpl; lia].
    rewrite length_take. pose proof (decode_quad_length (t ++ replicate (4 - length t) 0)). lia. }
  revert tmp. induction inp as [|c inp IH]; intros tmp Ht; cbn [b64_decode_loop length].
  - pose proof (Hrem tmp Ht). lia.
  - pose proof (Hrem tmp Ht). destruct (c =? 61); [lia|].
    destruct (negb (b64_is_char tbl c)); [lia|].
    destruct (Nat.eqb_spec (length (tmp ++ [c])) 4) as [E | E]; rewrite length_app in E; cbn in E.
    + rewrite length_app. pose proof (decode_quad_length (tmp ++ [c])).
      specialize (IH [] ltac:(simpl; lia)). cbn [length] in IH. lia.
    + specialize (IH (tmp ++ [c])). rewrite length_app in IH. cbn [length] in IH. lia.
Qed.
End Codec.

(** ** C strings *)

Lemma c_string_app l r : Forall (λ c, 0 < c) l -> c_string (l ++ 0 :: r) = l.
Proof.
  induction 1 as [|c l Hc _ IH]; [done|]. cbn [c_string app].
  rewrite (proj2 (Z.eqb_neq c 0)) by lia. by rewrite IH.
Qed.

Lemma encode_size n : 0 <= n < 2 ^ 62 -> DAP_ENC_BASE64_ENCODE_SIZE n = 4 * ((n + 2) / 3).
Proof.
  intros Hn. unfold DAP_ENC_BASE64_ENCODE_SIZE. rewrite wrap_id by (unfold fits; lia).
  replace (Z.land (4 * n / 3 + 3) (Z.lnot 3)) with ((4 * n / 3 + 3) / 4 * 4).
  - dlia.
  - change (Z.lnot 3) with (Z.lnot (Z.ones 2)). rewrite <- Z.ldiff_land, Z.ldiff_ones_r by lia.
    rewrite Z.shiftr_div_pow2, Z.shiftl_mul_pow2 by lia. done.
Qed.

Lemma mem_write_prefix {A} (x : A) n (d : list A) : (length d <= n)%nat ->
  mem_write (replicate n x) 0 d = Some (d ++ replicate (n - length d) x).
Proof.
  intros. change 0 with (Z.of_nat 0). rewrite mem_write_nat by (rewrite length_replicate; lia).
  unfold splice. cbn [take app Nat.add]. by rewrite drop_replicate.
Qed.

(** [dap_enc_strdup_to_base64] never leaves its allocation and returns the
    standard encoding. *)
Lemma strdup_to_spec l : Forall (fits 8) l -> Z.of_nat (length l) < 2 ^ 62 ->
  exists e, b64_encode_loop b64_standart_table l [] = Some e /\
    dap_enc_strdup_to_base64 l = Some e /\ b64_decode_loop b64_standart_table e [] = l /\
    Z.of_nat (length e) = 4 * ((Z.of_nat (length l) + 2) / 3).
Proof.
  intros Hl Hn. destruct (codec_roundtrip b64_standart_table l Hl) as (e & E & D & L & P).
  exists e. split; [done|]. split; [|done]. unfold dap_enc_strdup_to_base64, dap_enc_base64_encode.
  cbn [b64_table_by_standard mbind option_bind]. rewrite E, encode_size by lia.
  cbn [mbind option_bind]. rewrite mem_write_prefix by (rewrite length_app; cbn; lia).
  cbn [mbind option_bind]. rewrite <- app_assoc. cbn [app]. by rewrite c_string_app.
Qed.

(** Decoding with one table what the other encodes the same way. *)
Lemma decode_tables_agree inp tmp :
  Forall (λ c, c <> 43 /\ c <> 45 /\ c <> 47 /\ c <> 95) inp ->
  Forall (λ c, c <> 43 /\ c <> 45 /\ c <> 47 /\ c <> 95) tmp ->
  b64_decode_loop b64_table_url_safe inp tmp = b64_decode_loop b64_standart_table inp tmp.
Proof.
  assert (Htr : forall l c, c <> 43 /\ c <> 45 /\ c <> 47 /\ c <> 95 ->
    b64_translate b64_table_url_safe l c = b64_translate b64_standart_table l c).
  { intros l c Hc. unfold b64_table_url_safe, b64_standart_table. revert l.
    induction b64_alnum as [|a t IH]; intros l; cbn [app b64_translate].
    - rewrite !(proj2 (Z.eqb_neq _ _)) by lia. done.
    - by rewrite IH. }
  assert (Hq : forall t, Forall (λ c, c <> 43 /\ c <> 45 /\ c <> 47 /\ c <> 95) t ->
    b64_decode_quad b64_table_url_safe t = b64_decode_quad b64_standart_table t).
  { intros t Ht. unfold b64_decode_quad.
    assert (map (b64_translate b64_table_url_safe 0) t = map (b64_translate b64_standart_table 0) t)
      as Em; [|by rewrite Em]. apply map_ext_Forall.
    eapply Forall_impl; [|exact Ht]. intros c Hc. by apply Htr. }
  assert (Hr : forall t, Forall (λ c, c <> 43 /\ c <> 45 /\ c <> 47 /\ c <> 95) t ->
    b64_decode_remainder b64_table_url_safe t = b64_decode_remainder b64_standart_table t).
  { intros t Ht. unfold b64_decode_remainder. destruct (0 <? length t)%nat; [|done].
    rewrite Hq; [done|]. apply Forall_app. split; [done|]. by apply Forall_replicate. }
  intros Hi. revert tmp. induction Hi as [|c inp Hc _ IH]; intros tmp Ht; cbn [b64_decode_loop]; [by apply Hr|].
  assert (b64_is_char b64_table_url_safe c = b64_is_char b64_standart_table c) as ->.
  { unfold b64_is_char. cbn. rewrite !bool_decide_eq_false_2 by (intros [=]; lia). done. }
  assert (Ht' : Forall (λ c, c <> 43 /\ c <> 45 /\ c <> 47 /\ c <> 95) (tmp ++ [c]))
    by (apply Forall_app; split; [done | by constructor]).
  rewrite Hr, Hq, !IH by done. done.
Qed.

(** ** Properties of the Base64 codecs *)

(** Base64 round trip.  For either alphabet and every byte string,
    [dap_enc_base64_encode] produces exactly [DAP_ENC_BASE64_ENCODE_SIZE]
    characters and [dap_enc_base64_decode] with the same alphabet gives the
    bytes back. *)
Theorem base64_roundtrip standard (l : list Z) :
  standard <> DAP_ENC_DATA_TYPE_RAW -> Forall (fits 8) l -> Z.of_nat (length l) < 2 ^ 62 ->
  exists e, dap_enc_base64_encode l standard = Some e /\
    Z.of_nat (length e) = DAP_ENC_BASE64_ENCODE_SIZE (Z.of_nat (length l)) /\
    dap_enc_base64_decode e standard = Some l.
Proof.
  intros Hs Hl Hn. unfold dap_enc_base64_encode, dap_enc_base64_decode.
  destruct standard; [done | |]; cbn [b64_table_by_standard mbind option_bind].
  - destruct (codec_roundtrip b64_standart_table l Hl) as (e & E & D & L & _).
    exists e. rewrite encode_size by lia. by rewrite D.
  - destruct (codec_roundtrip b64_table_url_safe l Hl) as (e & E & D & L & _).
    exists e. rewrite encode_size by lia. by rewrite D.
Qed.

Lemma base64_roundtrip_witness :
  exists e, dap_enc_base64_encode [0; 255; 62; 7] DAP_ENC_DATA_TYPE_B64 = Some e /\
    Z.of_nat (length e) = DAP_ENC_BASE64_ENCODE_SIZE 4 /\
    dap_enc_base64_decode e DAP_ENC_DATA_TYPE_B64 = Some [0; 255; 62; 7].
Proof.
  apply (base64_roundtrip DAP_ENC_DATA_TYPE_B64 [0; 255; 62; 7]); [done | | done].
  repeat constructor; done.
Defined.

(** The decoder's buffer bound.  On arbitrary input of [n] characters the
    decoder stores at most [DAP_ENC_BASE64_DECODE_SIZE n] bytes, the size its
    callers allocate. *)
Theorem base64_decode_bound standard (inp out : list Z) :
  Z.of_nat (length inp) * 3 < 2 ^ 64 -> dap_enc_base64_decode inp standard = Some out ->
  Z.of_nat (length out) <= DAP_ENC_BASE64_DECODE_SIZE (Z.of_nat (length inp)).
Proof.
  intros Hn. unfold dap_enc_base64_decode, DAP_ENC_BASE64_DECODE_SIZE.
  rewrite wrap_id by (unfold fits; lia).
  destruct (b64_table_by_standard standard) as [tbl|]; [|done]. intros [= <-].
  pose proof (decode_length tbl inp [] ltac:(simpl; lia)) as H. cbn [length] in H.
  apply Z.div_le_lower_bound; lia.
Qed.

Lemma base64_decode_bound_witness :
  Z.of_nat (length [0; 16; 131]) <= DAP_ENC_BASE64_DECODE_SIZE 5.
Proof.
  apply (base64_decode_bound DAP_ENC_DATA_TYPE_B64 [65; 66; 67; 68; 33] [0; 16; 131]); reflexivity.
Defined.

(** [dap_enc_strdup_from_base64] is not the inverse of
    [dap_enc_strdup_to_base64]: it decodes the URL-safe alphabet where the
    other encodes the standard one.  A string comes back when its encoding
    has none of the characters [+], [/], [-], [_], and [">>>"] comes back as
    [">>"]. *)
Theorem strdup_base64_roundtrip :
  (forall l e, Forall (λ c, 0 < c < 256) l -> l <> [] -> Z.of_nat (length l) < 2 ^ 61 ->
    dap_enc_strdup_to_base64 l = Some e ->
    Forall (λ c, c <> 43 /\ c <> 45 /\ c <> 47 /\ c <> 95) e ->
    dap_enc_strdup_from_base64 e = Some (Some l)) /\
  (e ← dap_enc_strdup_to_base64 [62; 62; 62]; dap_enc_strdup_from_base64 e)
  = Some (Some [62; 62]).
Proof.
  split; [|reflexivity]. intros l e Hl Hne Hn E He.
  assert (Hl8 : Forall (fits 8) l) by (eapply Forall_impl; [|exact Hl]; unfold fits; simpl; lia).
  destruct (strdup_to_spec l Hl8 ltac:(lia)) as (e' & _ & E' & D & L).
  rewrite E in E'. injection E' as <-.
  assert (length l <> 0)%nat by (by destruct l).
  unfold dap_enc_strdup_from_base64. rewrite (proj2 (Nat.eqb_neq _ _)) by dlia.
  unfold DAP_ENC_BASE64_DECODE_SIZE. rewrite (wrap_id 64) by (unfold fits; dlia).
  rewrite (proj2 (Z.eqb_neq _ _)) by dlia.
  unfold dap_enc_base64_decode. cbn [b64_table_by_standard mbind option_bind].
  rewrite decode_tables_agree, D by done. rewrite mem_write_prefix by dlia.
  cbn [mbind option_bind].
  destruct (Z.to_nat _ - length l)%nat as [|n] eqn:En; [dlia|]. cbn [replicate].
  rewrite c_string_app; [done|]. eapply Forall_impl; [|exact Hl]. simpl. lia.
Qed.

Lemma strdup_base64_roundtrip_witness :
  dap_enc_strdup_from_base64 [97; 71; 107; 61] = Some (Some [104; 105]).
Proof.
  apply (proj1 strdup_base64_roundtrip [104; 105] [97; 71; 107; 61]); try reflexivity; try congruence.
  - repeat constructor; lia.
  - repeat constructor; lia.
Defined.

(** ** The unpadded codec *)

Lemma codec_byte v : fits 8 v -> B64_DecodeByte (B64_EncodeByte v) = v mod 64.
Proof.
  intros Hv. apply Z.eqb_eq. revert v Hv. apply (range_all _ 256). vm_compute. reflexivity.
Qed.

Lemma url_safe_EncodeByte v : fits 6 v ->
  b64_table_url_safe !! Z.to_nat v = Some (B64_EncodeByte v) /\ B64_EncodeByte v <> 61.
Proof.
  intros Hv. enough (bool_decide (b64_table_url_safe !! Z.to_nat v = Some (B64_EncodeByte v)) &&
    negb (B64_EncodeByte v =? 61) = true) as E.
  { apply andb_true_iff in E as [E1 E2]. split; [by apply bool_decide_eq_true in E1 | lia]. }
  revert v Hv. apply (range_all _ 64). vm_compute. reflexivity.
Qed.

Lemma EncodeByte_mod v : fits 8 v -> B64_EncodeByte v = B64_EncodeByte (v mod 64).
Proof.
  intros Hv. unfold B64_EncodeByte. change 63 with (Z.ones 6).
  rewrite !land_ones_mod by lia. change (2 ^ 6) with 64. by rewrite Z.mod_mod by lia.
Qed.

(** The bit expressions of both directions, as arithmetic. *)
Lemma lor_shifts a b n k : 0 <= n -> 0 <= k -> fits (n + k) b ->
  Z.lor (Z.shiftl a n) (Z.shiftr b k) = a * 2 ^ n + b / 2 ^ k.
Proof.
  intros Hn Hk Hb. rewrite shiftl_mul, shiftr_div by lia. apply lor_disjoint; [lia|].
  destruct (limb_bounds k (n + k) b) as [_ F]; [lia..|done|]. by replace (n + k - k) with n in F by lia.
Qed.

Ltac b64_bits :=
  rewrite ?(lor_shifts _ _ 4 4), ?(lor_shifts _ _ 2 6), ?(lor_shifts _ _ 2 4), ?(lor_shifts _ _ 4 2)
    by (try lia; dlia);
  rewrite ?shiftl_mul, ?shiftr_div by lia;
  change (2 ^ 4) with 16; change (2 ^ 2) with 4; change (2 ^ 6) with 64.

(** The characters of a group are the encoded sextets. *)
Definition sextets (b1 b2 b3 : Z) : list Z :=
  [b1 / 4; b1 mod 4 * 16 + b2 / 16; b2 mod 16 * 4 + b3 / 64; b3 mod 64].

Lemma Encode_group b1 b2 b3 : fits 8 b1 -> fits 8 b2 -> fits 8 b3 ->
  map B64_EncodeByte (sextets b1 b2 b3) =
  [ B64_EncodeByte (wrap 8 (Z.shiftr b1 2));
    B64_EncodeByte (wrap 8 (Z.lor (Z.shiftl b1 4) (Z.shiftr b2 4)));
    B64_EncodeByte (wrap 8 (Z.lor (Z.shiftl b2 2) (Z.shiftr b3 6)));
    B64_EncodeByte (wrap 8 b3) ].
Proof.
  intros H1 H2 H3. unfold sextets. b64_bits. cbn [map].
  rewrite (EncodeByte_mod (wrap 8 (b1 / 4))), (EncodeByte_mod (wrap 8 (b1 * 16 + _))),
    (EncodeByte_mod (wrap 8 (b2 * 4 + _))), (EncodeByte_mod (wrap 8 b3)) by (apply wrap_fits; lia).
  replace (wrap 8 (b1 / 4) mod 64) with (b1 / 4) by dlia.
  replace (wrap 8 (b1 * 16 + b2 / 16) mod 64) with (b1 mod 4 * 16 + b2 / 16) by dlia.
  replace (wrap 8 (b2 * 4 + b3 / 64) mod 64) with (b2 mod 16 * 4 + b3 / 64) by dlia.
  by replace (wrap 8 b3 mod 64) with (b3 mod 64) by dlia.
Qed.

Lemma Decode_group s0 s1 s2 s3 : fits 6 s0 -> fits 6 s1 -> fits 6 s2 -> fits 6 s3 ->
  wrap 8 (Z.lor (Z.shiftl s0 2) (Z.shiftr s1 4)) = s0 * 4 + s1 / 16 /\
  wrap 8 (Z.lor (Z.shiftl s1 4) (Z.shiftr s2 2)) = s1 mod 16 * 16 + s2 / 4 /\
  wrap 8 (Z.lor (Z.shiftl s2 6) s3) = s2 mod 4 * 64 + s3.
Proof.
  intros H0 H1 H2 H3. rewrite (shiftl_mul 6 s2), (lor_disjoint 6 s2 s3) by (done || lia).
  b64_bits. repeat split; dlia.
Qed.

Lemma EncodeByte_sextet v : fits 6 v -> B64_DecodeByte (B64_EncodeByte v) = v.
Proof. intros. rewrite codec_byte by dlia. apply Z.mod_small. dlia. Qed.

Lemma sextets_fit b1 b2 b3 : fits 8 b1 -> fits 8 b2 -> fits 8 b3 -> Forall (fits 6) (sextets b1 b2 b3).
Proof. intros. repeat constructor; dlia. Qed.

(** Three bytes through both functions. *)
Lemma Codec_group b1 b2 b3 rest : fits 8 b1 -> fits 8 b2 -> fits 8 b3 ->
  B64_Decode (map B64_EncodeByte (sextets b1 b2 b3) ++ rest) = b1 :: b2 :: b3 :: B64_Decode rest.
Proof.
  intros H1 H2 H3. pose proof (sextets_fit b1 b2 b3 H1 H2 H3) as F. unfold sextets in *.
  rewrite !Forall_cons_iff in F. destruct F as (F0 & F1 & F2 & F3 & _).
  cbn [map app B64_Decode]. rewrite !EncodeByte_sextet by done.
  destruct (Decode_group _ _ _ _ F0 F1 F2 F3) as (-> & -> & ->).
  f_equal; [dlia|]. f_equal; [dlia|]. f_equal. dlia.
Qed.

Lemma Encode_last2 b1 b2 : fits 8 b1 -> fits 8 b2 ->
  B64_Encode [b1; b2] = take 3 (map B64_EncodeByte (sextets b1 b2 0)).
Proof.
  intros H1 H2. rewrite Encode_group by done. cbn [B64_Encode take].
  by rewrite (Z.shiftr_0_l 6), Z.lor_0_r.
Qed.

Lemma Encode_last1 b1 : fits 8 b1 -> B64_Encode [b1] = take 2 (map B64_EncodeByte (sextets b1 0 0)).
Proof. intros H1. by rewrite Encode_group by done. Qed.

Lemma B64_codec l : Forall (fits 8) l -> B64_Decode (B64_Encode l) = l.
Proof.
  induction l as [|a|a b|a b c l IH] using list_ind3; rewrite ?Forall_cons_iff; [done|..].
  - intros [Ha _]. rewrite Encode_last1 by done.
    pose proof (sextets_fit a 0 0 Ha ltac:(done) ltac:(done)) as F. unfold sextets in *.
    rewrite !Forall_cons_iff in F. destruct F as (F0 & F1 & F2 & F3 & _).
    cbn [map take B64_Decode]. rewrite !EncodeByte_sextet by done.
    destruct (Decode_group _ _ _ _ F0 F1 F2 F3) as (-> & _). f_equal. dlia.
  - intros (Ha & Hb & _). rewrite Encode_last2 by done.
    pose proof (sextets_fit a b 0 Ha Hb ltac:(done)) as F. unfold sextets in *.
    rewrite !Forall_cons_iff in F. destruct F as (F0 & F1 & F2 & F3 & _).
    cbn [map take B64_Decode]. rewrite !EncodeByte_sextet by done.
    destruct (Decode_group _ _ _ _ F0 F1 F2 F3) as (-> & -> & _). f_equal; [dlia|]. f_equal. dlia.
  - intros (Ha & Hb & Hc & Hl).
    assert (B64_Encode (a :: b :: c :: l) = map B64_EncodeByte (sextets a b c) ++ B64_Encode l) as ->
      by (by rewrite Encode_group).
    by rewrite Codec_group, IH.
Qed.

Lemma emit_url_safe n b1 b2 b3 : fits 8 b1 -> fits 8 b2 -> fits 8 b3 ->
  b64_emit b64_table_url_safe n [b1; b2; b3]
  = Some (take n (map B64_EncodeByte (sextets b1 b2 b3))) /\
  Forall (λ c, c <> 61) (map B64_EncodeByte (sextets b1 b2 b3)).
Proof.
  intros H1 H2 H3. pose proof (sextets_fit b1 b2 b3 H1 H2 H3) as F. unfold b64_emit.
  rewrite (proj1 (encode_buf_spec b1 b2 b3 H1 H2 H3)). fold (sextets b1 b2 b3).
  rewrite firstn_map. split.
  - apply (Forall_take _ n) in F. induction F as [|v vs Hv _ IH]; [done|]. cbn [mapM map].
    rewrite (proj1 (url_safe_EncodeByte v Hv)). cbn [mbind option_bind]. by rewrite IH.
  - apply Forall_fmap. eapply Forall_impl; [|exact F]. intros v Hv. by apply url_safe_EncodeByte.
Qed.

Lemma filter_pad l n : Forall (λ c, c <> 61) l -> filter (λ c, c <> 61) (l ++ replicate n 61) = l.
Proof.
  intros H. rewrite list.filter_app. assert (filter (λ c, c <> 61) (replicate n 61) = []) as ->.
  { induction n; [done|]. cbn [replicate]. by rewrite filter_cons_False by auto. }
  rewrite app_nil_r. induction H; [done|]. rewrite filter_cons_True by done. by f_equal.
Qed.

(** The two encoders agree.  [B64_Encode] produces what
    [dap_enc_base64_encode] produces with the URL-safe alphabet, without the
    padding, and [B64_Decode] inverts it on every byte string. *)
Theorem B64_agrees l : Forall (fits 8) l ->
  B64_Decode (B64_Encode l) = l /\
  exists e, dap_enc_base64_encode l DAP_ENC_DATA_TYPE_B64_URLSAFE = Some e /\
    filter (λ c, c <> 61) e = B64_Encode l.
Proof.
  intros Hl. split; [by apply B64_codec|]. unfold dap_enc_base64_encode.
  cbn [b64_table_by_standard mbind option_bind].
  induction l as [|a|a b|a b c l IH] using list_ind3; rewrite ?Forall_cons_iff in Hl.
  - by exists [].
  - destruct Hl as [Ha _]. destruct (emit_url_safe 2 a 0 0) as [E F]; [done..|].
    exists (take 2 (map B64_EncodeByte (sextets a 0 0)) ++ replicate 2 61). split.
    + cbn [b64_encode_loop app length Nat.eqb]. unfold b64_encode_remainder.
      cbn [length Nat.ltb Nat.leb app replicate Nat.add Nat.sub]. by rewrite E.
    + rewrite filter_pad by (by apply Forall_take). by rewrite Encode_last1.
  - destruct Hl as (Ha & Hb & _). destruct (emit_url_safe 3 a b 0) as [E F]; [done..|].
    exists (take 3 (map B64_EncodeByte (sextets a b 0)) ++ replicate 1 61). split.
    + cbn [b64_encode_loop app length Nat.eqb]. unfold b64_encode_remainder.
      cbn [length Nat.ltb Nat.leb app replicate Nat.add Nat.sub]. by rewrite E.
    + rewrite filter_pad by (by apply Forall_take). by rewrite Encode_last2.
  - destruct Hl as (Ha & Hb & Hc & Hl). destruct (IH Hl) as (e & E & Ef).
    destruct (emit_url_safe 4 a b c Ha Hb Hc) as [Eg Fg]. rewrite take_ge in Eg by done.
    exists (map B64_EncodeByte (sextets a b c) ++ e). split.
    + cbn [b64_encode_loop app length Nat.eqb]. rewrite Eg. cbn [mbind option_bind]. by rewrite E.
    + rewrite list.filter_app, Ef. pose proof (filter_pad _ 0 Fg) as P. rewrite app_nil_r in P.
      rewrite P. by rewrite Encode_group.
Qed.

Lemma B64_agrees_witness :
  B64_Decode (B64_Encode [251; 255; 3; 9]) = [251; 255; 3; 9].
Proof. apply (B64_agrees [251; 255; 3; 9]). repeat constructor; done. Defined.
