(* ===== verification/Aes.v ===== *)
(** * The AES-256 block kernel (crypto/src/iaes/iaes256_cbc_cernal.c)

    A block and a round key are four 32-bit words, the master key eight.  The
    kernels of the source are unrolled: every round is the same four lines on
    renamed variables, modelled by [te_round] and [td_round], every step of
    the key schedule by [key_even] and [key_odd], and the repetition by a
    [fold_left] over the indices of the round constants.  Table indices are masked to
    eight bits, so a look-up never leaves its table.

    Module [Fips] is the reference: the cipher of FIPS-197 on sixteen bytes,
    with the substitution box computed in GF(2^8). *)

From S2P Require Import Prelude AesTables.
Local Open Scope Z_scope.

Definition tbl (t : list Z) (i : Z) : Z := nth (Z.to_nat i) t 0.

(** [(w >> (8 * n)) & 0xff] *)
Definition byte (n w : Z) : Z := Z.land (Z.shiftr w (8 * n)) 0xff.

Record w4 := W4 { w_0 : Z; w_1 : Z; w_2 : Z; w_3 : Z }.

Definition map4 (f : Z -> Z) (x : w4) : w4 := W4 (f (w_0 x)) (f (w_1 x)) (f (w_2 x)) (f (w_3 x)).
Definition xor4 (x y : w4) : w4 :=
  W4 (Z.lxor (w_0 x) (w_0 y)) (Z.lxor (w_1 x) (w_1 y)) (Z.lxor (w_2 x) (w_2 y)) (Z.lxor (w_3 x) (w_3 y)).
Definition fits4 (x : w4) : Prop := fits 32 (w_0 x) /\ fits 32 (w_1 x) /\ fits 32 (w_2 x) /\ fits 32 (w_3 x).

(** The body of the loop of [swap_endian]. *)
Definition swap_word (x : Z) : Z :=
  Z.lxor (Z.lxor (Z.lxor (Z.shiftl (Z.land x 0xff) 24) (Z.shiftl (Z.land (Z.shiftr x 8) 0xff) 16))
                 (Z.shiftl (Z.land (Z.shiftr x 16) 0xff) 8)) (Z.shiftr x 24).

Definition swap_endian (buff : list Z) : list Z := map swap_word buff.

(** ** Encryption *)

Definition te_col (a b c d k : Z) : Z :=
  Z.lxor (Z.lxor (Z.lxor (Z.lxor (tbl h_te0 (byte 3 a)) (tbl h_te1 (byte 2 b)))
                         (tbl h_te2 (byte 1 c))) (tbl h_te3 (byte 0 d))) k.

Definition te_round (s k : w4) : w4 :=
  let '(W4 s0 s1 s2 s3) := s in
  W4 (te_col s0 s1 s2 s3 (w_0 k)) (te_col s1 s2 s3 s0 (w_1 k))
     (te_col s2 s3 s0 s1 (w_2 k)) (te_col s3 s0 s1 s2 (w_3 k)).

Definition te_last_col (a b c d k : Z) : Z :=
  Z.lxor (Z.lxor (Z.lxor (Z.lxor
    (Z.land (tbl h_te4 (byte 3 a)) 0xff000000) (Z.land (tbl h_te4 (byte 2 b)) 0x00ff0000))
    (Z.land (tbl h_te4 (byte 1 c)) 0x0000ff00)) (Z.land (tbl h_te4 (byte 0 d)) 0x000000ff)) k.

Definition te_last (s k : w4) : w4 :=
  let '(W4 s0 s1 s2 s3) := s in
  W4 (te_last_col s0 s1 s2 s3 (w_0 k)) (te_last_col s1 s2 s3 s0 (w_1 k))
     (te_last_col s2 s3 s0 s1 (w_2 k)) (te_last_col s3 s0 s1 s2 (w_3 k)).

(** The first word of a key step is combined with the substituted last word
    of the previous four, then the running exclusive or. *)
Definition key_chain (k : w4) (k0 : Z) : w4 :=
  let k1 := Z.lxor (w_1 k) k0 in
  let k2 := Z.lxor (w_2 k) k1 in
  let k3 := Z.lxor (w_3 k) k2 in
  W4 k0 k1 k2 k3.

Definition key_even (ka kb : w4) (i : Z) : w4 :=
  let temp := w_3 kb in
  key_chain ka
    (Z.lxor (Z.lxor (Z.lxor (Z.lxor (Z.lxor (w_0 ka)
      (Z.land (tbl h_te2 (byte 2 temp)) 0xff000000)) (Z.land (tbl h_te3 (byte 1 temp)) 0x00ff0000))
      (Z.land (tbl h_te0 (byte 0 temp)) 0x0000ff00)) (Z.land (tbl h_te1 (byte 3 temp)) 0x000000ff))
      (tbl rcon i)).

Definition key_odd (kb ka : w4) : w4 :=
  let temp := w_3 ka in
  key_chain kb
    (Z.lxor (Z.lxor (Z.lxor (Z.lxor (w_0 kb)
      (Z.land (tbl h_te2 (byte 3 temp)) 0xff000000)) (Z.land (tbl h_te3 (byte 2 temp)) 0x00ff0000))
      (Z.land (tbl h_te0 (byte 1 temp)) 0x0000ff00)) (Z.land (tbl h_te1 (byte 0 temp)) 0x000000ff)).

(** Rounds [2 * i + 2] and [2 * i + 3] with the key steps before them, on
    the state and the running keys [k0 .. k3] and [k4 .. k7]. *)
Definition enc_rounds (st : w4 * w4 * w4) (i : Z) : w4 * w4 * w4 :=
  let '(t, ka, kb) := st in
  let ka := key_even ka kb i in
  let s := te_round t ka in
  let kb := key_odd kb ka in
  let t := te_round s kb in
  (t, ka, kb).

(** [masterkey[0..3]] is [ka], [masterkey[4..7]] is [kb]. *)
Definition AES256_enc_cernelT (inp ka kb : w4) : w4 :=
  let s := xor4 (map4 swap_word inp) ka in
  let t := te_round s kb in
  let '(t, ka, kb) := fold_left enc_rounds [0; 1; 2; 3; 4; 5] (t, ka, kb) in
  let ka := key_even ka kb 6 in
  map4 swap_word (te_last t ka).

(** ** Decryption *)

(** A word of the inverse key schedule: [h_td0[h_te1[..] & 0xff] ^ ...] *)
Definition td_key (w : Z) : Z :=
  Z.lxor (Z.lxor (Z.lxor
    (tbl h_td0 (Z.land (tbl h_te1 (byte 3 w)) 0xff)) (tbl h_td1 (Z.land (tbl h_te1 (byte 2 w)) 0xff)))
    (tbl h_td2 (Z.land (tbl h_te1 (byte 1 w)) 0xff))) (tbl h_td3 (Z.land (tbl h_te1 (byte 0 w)) 0xff)).

(** Two key steps; the keys are stored from the end of [rounds_keys] on, four
    words at a time. *)
Definition schedule_step (st : list w4 * w4 * w4) (i : Z) : list w4 * w4 * w4 :=
  let '(rks, ka, kb) := st in
  let ka := key_even ka kb i in
  let rks := map4 td_key ka :: rks in
  let kb := key_odd kb ka in
  let rks := map4 td_key kb :: rks in
  (rks, ka, kb).

(** [rounds_keys[4 * j .. 4 * j + 3]] is the element [j] of the result. *)
Definition Key_Shedule_for_decrypT (ka kb : w4) : list w4 :=
  let rks := [map4 td_key kb; ka] in
  let '(rks, ka, kb) := fold_left schedule_step [0; 1; 2; 3; 4; 5] (rks, ka, kb) in
  key_even ka kb 6 :: rks.

Definition td_col (a b c d k : Z) : Z :=
  Z.lxor (Z.lxor (Z.lxor (Z.lxor (tbl h_td0 (byte 3 a)) (tbl h_td1 (byte 2 b)))
                         (tbl h_td2 (byte 1 c))) (tbl h_td3 (byte 0 d))) k.

Definition td_round (s k : w4) : w4 :=
  let '(W4 s0 s1 s2 s3) := s in
  W4 (td_col s0 s3 s2 s1 (w_0 k)) (td_col s1 s0 s3 s2 (w_1 k))
     (td_col s2 s1 s0 s3 (w_2 k)) (td_col s3 s2 s1 s0 (w_3 k)).

Definition td_last_col (a b c d k : Z) : Z :=
  Z.lxor (Z.lxor (Z.lxor (Z.lxor
    (Z.land (tbl h_td4 (byte 3 a)) 0xff000000) (Z.land (tbl h_td4 (byte 2 b)) 0x00ff0000))
    (Z.land (tbl h_td4 (byte 1 c)) 0x0000ff00)) (Z.land (tbl h_td4 (byte 0 d)) 0x000000ff)) k.

Definition td_last (s k : w4) : w4 :=
  let '(W4 s0 s1 s2 s3) := s in
  W4 (td_last_col s0 s3 s2 s1 (w_0 k)) (td_last_col s1 s0 s3 s2 (w_1 k))
     (td_last_col s2 s1 s0 s3 (w_2 k)) (td_last_col s3 s2 s1 s0 (w_3 k)).

Definition key_at (decr_key : list w4) (j : nat) : w4 := nth j decr_key (W4 0 0 0 0).

(** Thirteen rounds with [decr_key[4..55]]. *)
Definition AES256_dec_cernelT (inp : w4) (decr_key : list w4) : w4 :=
  let s := xor4 (map4 swap_word inp) (key_at decr_key 0) in
  let t := fold_left td_round (take 13 (drop 1 decr_key)) s in
  map4 swap_word (td_last t (key_at decr_key 14)).

(** ** The reference: FIPS-197 *)

Module Fips.

Definition xtime (b : Z) : Z :=
  let d := Z.shiftl b 1 in if d <? 256 then d else Z.lxor d 0x11b.

(** The product of polynomials over GF(2) modulo [x^8 + x^4 + x^3 + x + 1]. *)
Fixpoint gmul_bits (n : nat) (a b : Z) : Z :=
  match n with
  | O => 0
  | S n => Z.lxor (if Z.odd a then b else 0) (gmul_bits n (Z.shiftr a 1) (xtime b))
  end.
Definition gmul : Z -> Z -> Z := gmul_bits 8.

(** The inverse of [b], with [0] for [0]: [b^254]. *)
Fixpoint gpow (n : nat) (b : Z) : Z := match n with O => 1 | S n => gmul b (gpow n b) end.
Definition ginv (b : Z) : Z := gpow 254 b.

Definition rotl8 (x n : Z) : Z := Z.land (Z.lor (Z.shiftl x n) (Z.shiftr x (8 - n))) 0xff.
Definition sbox (b : Z) : Z :=
  let i := ginv b in
  fold_left Z.lxor [rotl8 i 1; rotl8 i 2; rotl8 i 3; rotl8 i 4; 0x63] i.

(** A column is four bytes, the state four columns. *)
Definition col := (Z * Z * Z * Z)%type.
Definition cxor (x y : col) : col :=
  let '(a, b, c, d) := x in let '(a', b', c', d') := y in
  (Z.lxor a a', Z.lxor b b', Z.lxor c c', Z.lxor d d').
Definition csub (x : col) : col := let '(a, b, c, d) := x in (sbox a, sbox b, sbox c, sbox d).
Definition mix_column (x : col) : col :=
  let '(a, b, c, d) := x in
  (fold_left Z.lxor [gmul 3 b; c; d] (gmul 2 a), fold_left Z.lxor [gmul 2 b; gmul 3 c; d] a,
   fold_left Z.lxor [b; gmul 2 c; gmul 3 d] a, fold_left Z.lxor [b; c; gmul 2 d] (gmul 3 a)).

Definition state := (col * col * col * col)%type.
Definition smap (f : col -> col) (s : state) : state :=
  let '(a, b, c, d) := s in (f a, f b, f c, f d).
Definition add_round_key (s k : state) : state :=
  let '(a, b, c, d) := s in let '(a', b', c', d') := k in (cxor a a', cxor b b', cxor c c', cxor d d').
Definition sub_bytes : state -> state := smap csub.
Definition shift_rows (s : state) : state :=
  let '((a0, a1, a2, a3), (b0, b1, b2, b3), (c0, c1, c2, c3), (d0, d1, d2, d3)) := s in
  ((a0, b1, c2, d3), (b0, c1, d2, a3), (c0, d1, a2, b3), (d0, a1, b2, c3)).
Definition mix_columns : state -> state := smap mix_column.

Definition rot_word (x : col) : col := let '(a, b, c, d) := x in (b, c, d, a).
Fixpoint rcon_byte (n : nat) : Z := match n with O => 1 | S n => xtime (rcon_byte n) end.

(** The key expansion for a key of eight words: from [w[i-8 .. i-1]] the next
    four words, with the rotation and the round constant when [8 | i]. *)
Definition chain (k : state) (x : col) : state :=
  let '(a, b, c, d) := k in
  let a' := cxor a x in let b' := cxor b a' in let c' := cxor c b' in (a', b', c', cxor d c').
Definition last_col (k : state) : col := k.2.
Definition expand_even (ka kb : state) (n : nat) : state :=
  chain ka (cxor (csub (rot_word (last_col kb))) (rcon_byte n, 0, 0, 0)).
Definition expand_odd (kb ka : state) : state := chain kb (csub (last_col ka)).

Fixpoint key_expansion (n : nat) (i : nat) (ka kb : state) : list state :=
  match n with
  | O => []
  | S n => let ka' := expand_even ka kb i in let kb' := expand_odd kb ka' in
           ka' :: kb' :: key_expansion n (S i) ka' kb'
  end.

Definition round (s k : state) : state := add_round_key (mix_columns (shift_rows (sub_bytes s))) k.

(** Fourteen rounds with the fifteen round keys of a 256-bit key. *)
Definition cipher (inp ka kb : state) : state :=
  let ks := take 13 (key_expansion 7 0 ka kb) in
  let s := fold_left round (kb :: take 12 ks) (add_round_key inp ka) in
  add_round_key (shift_rows (sub_bytes s)) (nth 12 ks ka).

End Fips.

(** ** Words and bytes *)

Create HintDb aes.

Lemma byte_fits n w : fits 8 (byte n w).
Proof. unfold byte. change 0xff with (Z.ones 8). rewrite Z.land_ones by lia. by apply wrap_fits. Qed.

Lemma byte_testbit n w i : 0 <= n -> 0 <= i ->
  Z.testbit (byte n w) i = (i <? 8) && Z.testbit w (8 * n + i).
Proof.
  intros. unfold byte. change 0xff with (Z.ones 8). rewrite Z.land_spec, Z.testbit_ones, Z.shiftr_spec by lia.
  rewrite (proj2 (Z.leb_le 0 i)), andb_comm by lia. do 2 f_equal. lia.
Qed.

Lemma fits_testbit w x i : 0 <= w -> fits w x -> w <= i -> Z.testbit x i = false.
Proof.
  intros Hw Hx Hi. rewrite <- (wrap_id w x Hx). unfold wrap. by apply Z.mod_pow2_bits_high.
Qed.

Lemma testbit_fits w x : 0 <= w -> 0 <= x -> (forall i, w <= i -> Z.testbit x i = false) -> fits w x.
Proof.
  intros Hw Hx H. split; [done|]. replace x with (x mod 2 ^ w); [apply Z.mod_pos_bound; lia|].
  apply Z.bits_inj'. intros i Hi. destruct (Z.ltb_spec i w).
  - by apply Z.mod_pow2_bits_low.
  - rewrite Z.mod_pow2_bits_high by lia. symmetry. by apply H.
Qed.

Lemma lxor_word_fits w x y : 0 <= w -> fits w x -> fits w y -> fits w (Z.lxor x y).
Proof.
  intros Hw Hx Hy. apply testbit_fits; [done | apply Z.lxor_nonneg; unfold fits in *; lia |].
  intros i Hi. by rewrite Z.lxor_spec, !(fits_testbit w).
Qed.

Lemma byte_lxor n x y : byte n (Z.lxor x y) = Z.lxor (byte n x) (byte n y).
Proof.
  unfold byte. rewrite Z.shiftr_lxor. apply Z.bits_inj'. intros i Hi.
  rewrite !Z.land_spec, !Z.lxor_spec, !Z.land_spec. btauto.
Qed.

(** A word from its bytes, most significant first. *)
Definition pack (a b c d : Z) : Z :=
  Z.lxor (Z.lxor (Z.lxor (Z.shiftl a 24) (Z.shiftl b 16)) (Z.shiftl c 8)) d.

Lemma shiftl_testbit x n i : 0 <= n -> 0 <= i -> Z.testbit (Z.shiftl x n) i = (n <=? i) && Z.testbit x (i - n).
Proof.
  intros. rewrite Z.shiftl_spec by lia. destruct (Z.leb_spec n i); [done|]. by rewrite Z.testbit_neg_r by lia.
Qed.

Lemma byte_bit x i : fits 8 x -> Z.testbit x i = (0 <=? i) && (i <? 8) && Z.testbit x i.
Proof.
  intros Hx. destruct (Z.leb_spec 0 i); [|by rewrite Z.testbit_neg_r by lia].
  destruct (Z.ltb_spec i 8); [done|]. by rewrite (fits_testbit 8 x) by (done || lia).
Qed.

Ltac bit_cases :=
  repeat (bdestr1; try lia); cbn; rewrite ?xorb_false_l, ?xorb_false_r; try reflexivity; f_equal; lia.

Lemma byte_pack n a b c d : fits 8 a -> fits 8 b -> fits 8 c -> fits 8 d -> 0 <= n < 4 ->
  byte n (pack a b c d) = if n =? 3 then a else if n =? 2 then b else if n =? 1 then c else d.
Proof.
  intros Ha Hb Hc Hd Hn. apply Z.bits_inj'. intros i Hi. rewrite byte_testbit by lia. unfold pack.
  rewrite !Z.lxor_spec, !shiftl_testbit by lia.
  rewrite (byte_bit a (_ - _)), (byte_bit b (_ - _)), (byte_bit c (_ - _)), (byte_bit d (_ + _)) by done.
  assert (n = 0 \/ n = 1 \/ n = 2 \/ n = 3) as [-> | [-> | [-> | ->]]] by lia; cbn [Z.eqb Pos.eqb].
  - rewrite (byte_bit d i) by done. bit_cases.
  - rewrite (byte_bit c i) by done. bit_cases.
  - rewrite (byte_bit b i) by done. bit_cases.
  - rewrite (byte_bit a i) by done. bit_cases.
Qed.

Lemma shiftl_fits w n x : 0 <= w -> 0 <= n -> fits w x -> fits (w + n) (Z.shiftl x n).
Proof.
  intros Hw Hn Hx. apply testbit_fits; [lia | rewrite Z.shiftl_nonneg; unfold fits in Hx; lia |].
  intros i Hi. rewrite shiftl_testbit by lia. by rewrite (fits_testbit w x), andb_false_r by (done || lia).
Qed.

Lemma fits_mono w w' x : fits w x -> w <= w' -> fits w' x.
Proof. unfold fits. intros [? ?] ?. pose proof (Z.pow_le_mono_r 2 w w'). lia. Qed.

Lemma pack_fits a b c d : fits 8 a -> fits 8 b -> fits 8 c -> fits 8 d -> fits 32 (pack a b c d).
Proof.
  intros. unfold pack. repeat apply lxor_word_fits; try lia.
  - by apply (shiftl_fits 8 24).
  - eapply fits_mono; [by apply (shiftl_fits 8 16) | lia].
  - eapply fits_mono; [by apply (shiftl_fits 8 8) | lia].
  - apply (fits_mono 8); [done | lia].
Qed.

Lemma word_ext x y : fits 32 x -> fits 32 y -> (forall n, 0 <= n < 4 -> byte n x = byte n y) -> x = y.
Proof.
  intros Hx Hy H. apply Z.bits_inj'. intros i Hi. destruct (Z.ltb_spec i 32).
  - pose proof (f_equal (λ b, Z.testbit b (i mod 8)) (H (i / 8) ltac:(dlia))) as E. cbn in E.
    rewrite !byte_testbit, <- !Z.div_mod in E by dlia.
    by rewrite (proj2 (Z.ltb_lt _ _)) in E by dlia.
  - by rewrite !(fits_testbit 32) by done.
Qed.

#[local] Hint Resolve byte_fits pack_fits : aes.

Lemma pack_bytes w : fits 32 w -> pack (byte 3 w) (byte 2 w) (byte 1 w) (byte 0 w) = w.
Proof.
  intros Hw. apply word_ext; auto with aes. intros n Hn. rewrite byte_pack by auto with aes.
  destruct (Z.eqb_spec n 3) as [-> | ?]; [done|]. destruct (Z.eqb_spec n 2) as [-> | ?]; [done|].
  destruct (Z.eqb_spec n 1) as [-> | ?]; [done|]. by replace n with 0 by lia.
Qed.

Lemma swap_word_pack a b c d : fits 8 a -> fits 8 b -> fits 8 c -> fits 8 d ->
  swap_word (pack a b c d) = pack d c b a.
Proof.
  intros. unfold swap_word.
  change (Z.land (pack a b c d) 0xff) with (byte 0 (pack a b c d)).
  change (Z.land (Z.shiftr (pack a b c d) 8) 0xff) with (byte 1 (pack a b c d)).
  change (Z.land (Z.shiftr (pack a b c d) 16) 0xff) with (byte 2 (pack a b c d)).
  replace (Z.shiftr (pack a b c d) 24) with (byte 3 (pack a b c d)).
  - by rewrite !byte_pack by (done || lia).
  - unfold byte. change 0xff with (Z.ones 8). rewrite Z.land_ones by lia. apply Z.mod_small.
    pose proof (pack_fits a b c d) as [? ?]; try done. rewrite shiftr_div by lia. dlia.
Qed.

Lemma swap_swap w : fits 32 w -> swap_word (swap_word w) = w.
Proof.
  intros Hw. rewrite <- (pack_bytes w Hw) at 1. rewrite !swap_word_pack by auto with aes. by apply pack_bytes.
Qed.

Lemma swap_fits w : fits 32 w -> fits 32 (swap_word w).
Proof. intros Hw. rewrite <- (pack_bytes w Hw), swap_word_pack by auto with aes. auto with aes. Qed.

(** ** Linear functions on bytes *)

(** [f] is determined by its values on the eight bits. *)
Definition lin_ext (f : Z -> Z) (x : Z) : Z :=
  fold_right Z.lxor 0 (map (λ i, if Z.testbit x i then f (2 ^ i) else 0) (seqZ 0 8)).

Lemma lin_ext_lxor f x y : lin_ext f (Z.lxor x y) = Z.lxor (lin_ext f x) (lin_ext f y).
Proof.
  unfold lin_ext. induction (seqZ 0 8) as [|i l IH]; [done|]. cbn [map fold_right]. rewrite IH, Z.lxor_spec.
  apply Z.bits_inj'. intros j Hj. rewrite !Z.lxor_spec.
  destruct (Z.testbit x i), (Z.testbit y i); cbn [xorb]; rewrite ?Z.bits_0; btauto.
Qed.

Lemma linear_table (f : Z -> Z) : forallb (λ x, f x =? lin_ext f x) (seqZ 0 256) = true ->
  forall x y, fits 8 x -> fits 8 y -> f (Z.lxor x y) = Z.lxor (f x) (f y).
Proof.
  intros H x y Hx Hy. pose proof (range_all _ _ H) as R. cbn beta in R.
  rewrite (proj1 (Z.eqb_eq _ _) (R x Hx)), (proj1 (Z.eqb_eq _ _) (R y Hy)), <- lin_ext_lxor.
  apply Z.eqb_eq, R. by apply (lxor_word_fits 8).
Qed.

(** A fact about all bytes, by computation. *)
Lemma byte_eq (f g : Z -> Z) : forallb (λ x, f x =? g x) (seqZ 0 256) = true ->
  forall x, fits 8 x -> f x = g x.
Proof. intros H x Hx. apply Z.eqb_eq. by apply (range_all (λ x, f x =? g x) 256). Qed.

Lemma byte_fits_all w (f : Z -> Z) : forallb (λ x, (0 <=? f x) && (f x <? 2 ^ w)) (seqZ 0 256) = true ->
  forall x, fits 8 x -> fits w (f x).
Proof.
  intros H x Hx. pose proof (range_all _ _ H x Hx) as [? ?]%andb_prop. unfold fits. lia.
Qed.

(** ** The tables *)

(** The substitution box as the key schedules read it. *)
Definition Sb (x : Z) : Z := Z.land (tbl h_te1 x) 0xff.

Lemma Sb_fits x : fits 8 (Sb x).
Proof. unfold Sb. change 0xff with (Z.ones 8). rewrite Z.land_ones by lia. by apply wrap_fits. Qed.

#[local] Hint Resolve Sb_fits : aes.

Lemma Sb_sbox x : fits 8 x -> Sb x = Fips.sbox x.
Proof. revert x. apply byte_eq. by vm_compute. Qed.

(** The encryption tables hold the columns of MixColumns. *)
Lemma te_tables x : fits 8 x ->
  tbl h_te0 x = pack (Fips.gmul 2 (Sb x)) (Sb x) (Sb x) (Fips.gmul 3 (Sb x)) /\
  tbl h_te1 x = pack (Fips.gmul 3 (Sb x)) (Fips.gmul 2 (Sb x)) (Sb x) (Sb x) /\
  tbl h_te2 x = pack (Sb x) (Fips.gmul 3 (Sb x)) (Fips.gmul 2 (Sb x)) (Sb x) /\
  tbl h_te3 x = pack (Sb x) (Sb x) (Fips.gmul 3 (Sb x)) (Fips.gmul 2 (Sb x)) /\
  tbl h_te4 x = pack (Sb x) (Sb x) (Sb x) (Sb x).
Proof.
  intros Hx. split_and!; revert x Hx; apply byte_eq; by vm_compute.
Qed.

Lemma gmul_fits x : fits 8 x -> fits 8 (Fips.gmul 2 (Sb x)) /\ fits 8 (Fips.gmul 3 (Sb x)).
Proof. intros Hx. split; revert x Hx; apply byte_fits_all; by vm_compute. Qed.

(** The masked look-ups of the last round and of the key schedules. *)
Lemma te_masks x : fits 8 x ->
  Z.land (tbl h_te4 x) 0xff000000 = Z.shiftl (Sb x) 24 /\
  Z.land (tbl h_te4 x) 0x00ff0000 = Z.shiftl (Sb x) 16 /\
  Z.land (tbl h_te4 x) 0x0000ff00 = Z.shiftl (Sb x) 8 /\
  Z.land (tbl h_te4 x) 0x000000ff = Sb x /\
  Z.land (tbl h_te2 x) 0xff000000 = Z.shiftl (Sb x) 24 /\
  Z.land (tbl h_te3 x) 0x00ff0000 = Z.shiftl (Sb x) 16 /\
  Z.land (tbl h_te0 x) 0x0000ff00 = Z.shiftl (Sb x) 8.
Proof. intros Hx. split_and!; revert x Hx; apply byte_eq; by vm_compute. Qed.

Lemma td_masks x : fits 8 x ->
  Z.land (tbl h_td4 (Sb x)) 0xff000000 = Z.shiftl x 24 /\
  Z.land (tbl h_td4 (Sb x)) 0x00ff0000 = Z.shiftl x 16 /\
  Z.land (tbl h_td4 (Sb x)) 0x0000ff00 = Z.shiftl x 8 /\
  Z.land (tbl h_td4 (Sb x)) 0x000000ff = x.
Proof. intros Hx. split_and!; revert x Hx; apply byte_eq; by vm_compute. Qed.

(** ** Decryption inverts encryption

    [td_key] is linear and undoes MixColumns. *)
Lemma td_key_lxor x y : td_key (Z.lxor x y) = Z.lxor (td_key x) (td_key y).
Proof.
  unfold td_key. rewrite !byte_lxor.
  rewrite (linear_table (λ b, tbl h_td0 (Z.land (tbl h_te1 b) 0xff)) ltac:(by vm_compute) _ _ (byte_fits 3 x) (byte_fits 3 y)).
  rewrite (linear_table (λ b, tbl h_td1 (Z.land (tbl h_te1 b) 0xff)) ltac:(by vm_compute) _ _ (byte_fits 2 x) (byte_fits 2 y)).
  rewrite (linear_table (λ b, tbl h_td2 (Z.land (tbl h_te1 b) 0xff)) ltac:(by vm_compute) _ _ (byte_fits 1 x) (byte_fits 1 y)).
  rewrite (linear_table (λ b, tbl h_td3 (Z.land (tbl h_te1 b) 0xff)) ltac:(by vm_compute) _ _ (byte_fits 0 x) (byte_fits 0 y)).
  apply Z.bits_inj'. intros i Hi. rewrite !Z.lxor_spec. btauto.
Qed.

Lemma td_key_te x : fits 8 x ->
  td_key (tbl h_te0 x) = Z.shiftl (Sb x) 24 /\ td_key (tbl h_te1 x) = Z.shiftl (Sb x) 16 /\
  td_key (tbl h_te2 x) = Z.shiftl (Sb x) 8 /\ td_key (tbl h_te3 x) = Sb x.
Proof. intros Hx. split_and!; revert x Hx; apply byte_eq; by vm_compute. Qed.

(** SubBytes and ShiftRows of a state, as the last round computes them. *)
Definition sub_col (a b c d : Z) : Z := pack (Sb (byte 3 a)) (Sb (byte 2 b)) (Sb (byte 1 c)) (Sb (byte 0 d)).
Definition sub_shift (s : w4) : w4 :=
  let '(W4 s0 s1 s2 s3) := s in
  W4 (sub_col s0 s1 s2 s3) (sub_col s1 s2 s3 s0) (sub_col s2 s3 s0 s1) (sub_col s3 s0 s1 s2).

Lemma td_key_te_col a b c d k : Z.lxor (td_key (te_col a b c d k)) (td_key k) = sub_col a b c d.
Proof.
  unfold te_col. rewrite !td_key_lxor.
  rewrite (proj1 (td_key_te _ (byte_fits 3 a))), (proj1 (proj2 (td_key_te _ (byte_fits 2 b)))),
    (proj1 (proj2 (proj2 (td_key_te _ (byte_fits 1 c))))), (proj2 (proj2 (proj2 (td_key_te _ (byte_fits 0 d))))).
  by rewrite Z.lxor_assoc, Z.lxor_nilpotent, Z.lxor_0_r.
Qed.

Lemma te_last_col_spec a b c d k : te_last_col a b c d k = Z.lxor (sub_col a b c d) k.
Proof.
  unfold te_last_col, sub_col, pack.
  by rewrite (proj1 (te_masks _ (byte_fits 3 a))), (proj1 (proj2 (te_masks _ (byte_fits 2 b)))),
    (proj1 (proj2 (proj2 (te_masks _ (byte_fits 1 c))))),
    (proj1 (proj2 (proj2 (proj2 (te_masks _ (byte_fits 0 d)))))).
Qed.

Lemma te_last_spec s k : te_last s k = xor4 (sub_shift s) k.
Proof. destruct s. unfold te_last, sub_shift, xor4. cbn [w_0 w_1 w_2 w_3]. by rewrite !te_last_col_spec. Qed.

(** Bytes of substituted columns. *)
Lemma byte3_sub_col a b c d : byte 3 (sub_col a b c d) = Sb (byte 3 a).
Proof. unfold sub_col. by rewrite byte_pack by (auto with aes || lia). Qed.
Lemma byte2_sub_col a b c d : byte 2 (sub_col a b c d) = Sb (byte 2 b).
Proof. unfold sub_col. by rewrite byte_pack by (auto with aes || lia). Qed.
Lemma byte1_sub_col a b c d : byte 1 (sub_col a b c d) = Sb (byte 1 c).
Proof. unfold sub_col. by rewrite byte_pack by (auto with aes || lia). Qed.
Lemma byte0_sub_col a b c d : byte 0 (sub_col a b c d) = Sb (byte 0 d).
Proof. unfold sub_col. by rewrite byte_pack by (auto with aes || lia). Qed.

(** One column of a decryption round on substituted columns that carry the
    bytes of [t] is the inverse MixColumns of [t]. *)
Lemma td_col_spec a b c d k t : byte 3 a = Sb (byte 3 t) -> byte 2 b = Sb (byte 2 t) ->
  byte 1 c = Sb (byte 1 t) -> byte 0 d = Sb (byte 0 t) ->
  td_col a b c d k = Z.lxor (td_key t) k.
Proof. unfold td_col, td_key. intros -> -> -> ->. done. Qed.

#[local] Opaque byte Sb tbl sub_col td_key te_col.

Lemma td_round_inverts s t k : t = te_round s k -> td_round (sub_shift t) (map4 td_key k) = sub_shift s.
Proof.
  intros ->. destruct s as [s0 s1 s2 s3]. destruct k as [k0 k1 k2 k3].
  unfold te_round, td_round, sub_shift, map4. cbn [w_0 w_1 w_2 w_3].
  f_equal; (etransitivity; [|apply td_key_te_col]);
    apply td_col_spec; (apply byte3_sub_col || apply byte2_sub_col || apply byte1_sub_col || apply byte0_sub_col).
Qed.

Lemma td_last_inverts s k : fits4 s -> td_last (sub_shift s) k = xor4 s k.
Proof.
  intros (H0 & H1 & H2 & H3). destruct s as [s0 s1 s2 s3]. unfold td_last, sub_shift, xor4.
  cbn [w_0 w_1 w_2 w_3] in *. unfold td_last_col.
  rewrite !byte3_sub_col, !byte2_sub_col, !byte1_sub_col, !byte0_sub_col.
  rewrite !(proj1 (td_masks _ (byte_fits _ _))), !(proj1 (proj2 (td_masks _ (byte_fits _ _)))),
    !(proj1 (proj2 (proj2 (td_masks _ (byte_fits _ _))))), !(proj2 (proj2 (proj2 (td_masks _ (byte_fits _ _))))).
  f_equal; f_equal; by apply pack_bytes.
Qed.

#[local] Transparent sub_col tbl.

(** Words stay words. *)
Lemma table_fits x : fits 8 x ->
  fits 32 (tbl h_te0 x) /\ fits 32 (tbl h_te1 x) /\ fits 32 (tbl h_te2 x) /\ fits 32 (tbl h_te3 x).
Proof. intros Hx. split_and!; revert x Hx; apply byte_fits_all; by vm_compute. Qed.

Lemma mask_fits x m : fits 32 m -> fits 32 (Z.land x m).
Proof.
  intros Hm. apply testbit_fits; [lia | apply Z.land_nonneg; right; apply Hm |].
  intros i Hi. by rewrite Z.land_spec, (fits_testbit 32 m), andb_false_r.
Qed.

Lemma xor4_fits x y : fits4 x -> fits4 y -> fits4 (xor4 x y).
Proof. intros (? & ? & ? & ?) (? & ? & ? & ?). unfold fits4. split_and!; apply lxor_word_fits; done. Qed.

Lemma swap4_fits x : fits4 x -> fits4 (map4 swap_word x).
Proof. intros (? & ? & ? & ?). unfold fits4. split_and!; by apply swap_fits. Qed.

Lemma sub_shift_fits s : fits4 (sub_shift s).
Proof.
  destruct s. unfold fits4, sub_shift, sub_col. split_and!; apply pack_fits; apply Sb_fits.
Qed.

Lemma key_chain_fits k k0 : fits4 k -> fits 32 k0 -> fits4 (key_chain k k0).
Proof.
  intros (? & ? & ? & ?) ?. unfold fits4, key_chain. cbn [w_0 w_1 w_2 w_3].
  split_and!; repeat apply lxor_word_fits; done.
Qed.

Lemma rcon_fits i : fits 32 (tbl rcon i).
Proof.
  unfold tbl. destruct (nth_in_or_default (Z.to_nat i) rcon 0) as [H | ->]; [|done].
  revert H. apply (Forall_forall (fits 32)). repeat constructor; done.
Qed.

Lemma key_even_fits ka kb i : fits4 ka -> fits4 (key_even ka kb i).
Proof.
  intros Ha. apply key_chain_fits; [done|].
  repeat apply lxor_word_fits; try lia; try apply Ha; try (by apply mask_fits). apply rcon_fits.
Qed.

Lemma key_odd_fits ka kb : fits4 kb -> fits4 (key_odd kb ka).
Proof.
  intros Ha. apply key_chain_fits; [done|].
  repeat apply lxor_word_fits; try lia; try apply Ha; by apply mask_fits.
Qed.

Lemma xor4_cancel x y : xor4 (xor4 x y) y = x.
Proof.
  destruct x, y. unfold xor4. cbn [w_0 w_1 w_2 w_3].
  by rewrite !Z.lxor_assoc, !Z.lxor_nilpotent, !Z.lxor_0_r.
Qed.

Lemma swap4_swap4 x : fits4 x -> map4 swap_word (map4 swap_word x) = x.
Proof. intros (? & ? & ? & ?). destruct x. unfold map4. cbn [w_0 w_1 w_2 w_3] in *. by rewrite !swap_swap. Qed.

(** Encryption and the inverse key schedule run in step: the rounds taken so
    far are undone by the keys stored so far. *)
Lemma rounds_in_step l t ka kb rks pre s0 t' ka' kb' :
  fits4 ka -> fits4 kb -> fold_left td_round pre (sub_shift t) = s0 ->
  fold_left enc_rounds l (t, ka, kb) = (t', ka', kb') ->
  exists pre', fold_left schedule_step l (pre ++ rks, ka, kb) = (pre' ++ rks, ka', kb') /\
    length pre' = (2 * length l + length pre)%nat /\
    fold_left td_round pre' (sub_shift t') = s0 /\ fits4 ka' /\ fits4 kb'.
Proof.
  revert t ka kb pre. induction l as [|i l IH]; intros t ka kb pre Ha Hb Hs E; cbn [fold_left] in *.
  { injection E as <- <- <-. exists pre. by split_and!. }
  unfold enc_rounds at 2 in E. unfold schedule_step at 2. cbv zeta in *.
  set (ka1 := key_even ka kb i) in *. set (kb1 := key_odd kb ka1) in *.
  assert (Hs1 : fold_left td_round (map4 td_key kb1 :: map4 td_key ka1 :: pre)
                  (sub_shift (te_round (te_round t ka1) kb1)) = s0).
  { cbn [fold_left]. by rewrite (td_round_inverts (te_round t ka1)), (td_round_inverts t). }
  destruct (IH _ _ _ _ (key_even_fits _ _ _ Ha) (key_odd_fits _ _ Hb) Hs1 E) as (pre' & E1 & L & E2 & F).
  exists pre'. split; [exact E1|]. split; [|done]. rewrite L. cbn [length]. lia.
Qed.

Lemma dec_enc_kernel inp ka kb : fits4 inp -> fits4 ka -> fits4 kb ->
  AES256_dec_cernelT (AES256_enc_cernelT inp ka kb) (Key_Shedule_for_decrypT ka kb) = inp.
Proof.
  intros Hi Ha Hb. unfold AES256_enc_cernelT, Key_Shedule_for_decrypT. cbv zeta.
  set (s := xor4 (map4 swap_word inp) ka). assert (Hs : fits4 s) by (by apply xor4_fits; [apply swap4_fits|]).
  destruct (fold_left enc_rounds _ _) as [[t' ka'] kb'] eqn:E.
  destruct (rounds_in_step _ _ _ _ [ka] [map4 td_key kb] (sub_shift s) _ _ _ Ha Hb
              ltac:(apply td_round_inverts; reflexivity) E) as (pre & E1 & L & E2 & Fa & Fb).
  cbn [app] in E1. rewrite E1. unfold AES256_dec_cernelT. cbv zeta.
  change (length [_; _; _; _; _; _]) with 6%nat in L. cbn [length] in L.
  replace (key_at (key_even ka' kb' 6 :: pre ++ [ka]) 14) with ka.
  2: { change (key_at (key_even ka' kb' 6 :: pre ++ [ka]) 14) with (nth 13 (pre ++ [ka]) (W4 0 0 0 0)).
       rewrite app_nth2 by lia. by rewrite L. }
  cbn [drop key_at nth]. rewrite drop_0,  take_app_le, take_ge by (cbn; lia).
  rewrite te_last_spec, swap4_swap4 by (apply xor4_fits; [apply sub_shift_fits | by apply key_even_fits]).
  rewrite xor4_cancel, E2, td_last_inverts by done. unfold s. rewrite xor4_cancel. by apply swap4_swap4.
Qed.

Lemma aes_out_fits inp ka kb : fits4 inp -> fits4 ka -> fits4 kb -> fits4 (AES256_enc_cernelT inp ka kb).
Proof.
  intros Hi Ha Hb. unfold AES256_enc_cernelT. cbv zeta.
  destruct (fold_left enc_rounds _ _) as [[t' ka'] kb'] eqn:E.
  destruct (rounds_in_step _ _ _ _ [] [] _ _ _ _ Ha Hb eq_refl E) as (_ & _ & _ & _ & Hka & _).
  apply swap4_fits. rewrite te_last_spec. apply xor4_fits; [apply sub_shift_fits | by apply key_even_fits].
Qed.

(** ** The kernel is the cipher of FIPS-197 *)

#[local] Transparent te_col sub_col tbl.

Definition col_of (w : Z) : Fips.col := (byte 3 w, byte 2 w, byte 1 w, byte 0 w).
Definition state_of (x : w4) : Fips.state := (col_of (w_0 x), col_of (w_1 x), col_of (w_2 x), col_of (w_3 x)).

(** The sixteen bytes of a block in memory, a column per little-endian word. *)
Definition mem_col (w : Z) : Fips.col := (byte 0 w, byte 1 w, byte 2 w, byte 3 w).
Definition mem_of (x : w4) : Fips.state := (mem_col (w_0 x), mem_col (w_1 x), mem_col (w_2 x), mem_col (w_3 x)).

Lemma col_of_pack a b c d : fits 8 a -> fits 8 b -> fits 8 c -> fits 8 d -> col_of (pack a b c d) = (a, b, c, d).
Proof. intros. unfold col_of. by rewrite !byte_pack by (done || lia). Qed.

Lemma col_of_lxor x y : col_of (Z.lxor x y) = Fips.cxor (col_of x) (col_of y).
Proof. unfold col_of. by rewrite !byte_lxor. Qed.

Lemma state_of_swap x : fits4 x -> state_of (map4 swap_word x) = mem_of x.
Proof.
  intros (H0 & H1 & H2 & H3). destruct x as [x0 x1 x2 x3]. cbn [w_0 w_1 w_2 w_3] in *.
  assert (E : forall w, fits 32 w -> col_of (swap_word w) = mem_col w).
  { intros w Hw. rewrite <- (pack_bytes w Hw) at 1.
    rewrite swap_word_pack, col_of_pack by auto with aes. done. }
  unfold state_of, map4. cbn [w_0 w_1 w_2 w_3]. by rewrite !E.
Qed.

#[local] Opaque Fips.gmul Fips.sbox.

Lemma col_of_te x : fits 8 x ->
  col_of (tbl h_te0 x) = (Fips.gmul 2 (Sb x), Sb x, Sb x, Fips.gmul 3 (Sb x)) /\
  col_of (tbl h_te1 x) = (Fips.gmul 3 (Sb x), Fips.gmul 2 (Sb x), Sb x, Sb x) /\
  col_of (tbl h_te2 x) = (Sb x, Fips.gmul 3 (Sb x), Fips.gmul 2 (Sb x), Sb x) /\
  col_of (tbl h_te3 x) = (Sb x, Sb x, Fips.gmul 3 (Sb x), Fips.gmul 2 (Sb x)).
Proof.
  intros Hx. destruct (te_tables x Hx) as (-> & -> & -> & -> & _), (gmul_fits x Hx) as [? ?].
  pose proof (Sb_fits x). by rewrite !col_of_pack.
Qed.

Lemma col_of_te_col a b c d k :
  col_of (te_col a b c d k) =
  Fips.cxor (Fips.mix_column (Fips.csub (byte 3 a, byte 2 b, byte 1 c, byte 0 d))) (col_of k).
Proof.
  unfold te_col. rewrite !col_of_lxor, (proj1 (col_of_te _ (byte_fits 3 a))),
    (proj1 (proj2 (col_of_te _ (byte_fits 2 b)))), (proj1 (proj2 (proj2 (col_of_te _ (byte_fits 1 c))))),
    (proj2 (proj2 (proj2 (col_of_te _ (byte_fits 0 d))))).
  f_equal. unfold Fips.csub. rewrite <- !Sb_sbox by apply byte_fits. done.
Qed.

Lemma state_of_te_round s k : state_of (te_round s k) = Fips.round (state_of s) (state_of k).
Proof. destruct s. unfold state_of, te_round. cbn [w_0 w_1 w_2 w_3]. by rewrite !col_of_te_col. Qed.

Lemma state_of_te_last s k :
  state_of (te_last s k) =
  Fips.add_round_key (Fips.shift_rows (Fips.sub_bytes (state_of s))) (state_of k).
Proof.
  rewrite te_last_spec. destruct s. unfold state_of, xor4, sub_shift, sub_col. cbn [w_0 w_1 w_2 w_3].
  rewrite !col_of_lxor, !col_of_pack, !Sb_sbox by auto with aes. done.
Qed.

Lemma state_of_chain k k0 x : col_of k0 = Fips.cxor (col_of (w_0 k)) x ->
  state_of (key_chain k k0) = Fips.chain (state_of k) x.
Proof.
  intros E. unfold state_of, key_chain, Fips.chain. cbn [w_0 w_1 w_2 w_3]. by rewrite !col_of_lxor, !E.
Qed.

Lemma cxor_assoc x y z : Fips.cxor (Fips.cxor x y) z = Fips.cxor x (Fips.cxor y z).
Proof. destruct x as [[[? ?] ?] ?], y as [[[? ?] ?] ?], z as [[[? ?] ?] ?]. cbn. by rewrite !Z.lxor_assoc. Qed.

(** The four masked look-ups of a key step are SubWord. *)
Lemma key_sub_word a b c d : fits 8 a -> fits 8 b -> fits 8 c -> fits 8 d ->
  col_of (Z.lxor (Z.lxor (Z.lxor (Z.land (tbl h_te2 a) 0xff000000) (Z.land (tbl h_te3 b) 0x00ff0000))
    (Z.land (tbl h_te0 c) 0x0000ff00)) (Z.land (tbl h_te1 d) 0x000000ff)) = Fips.csub (a, b, c, d).
Proof.
  intros Ha Hb Hc Hd. destruct (te_masks a Ha) as (_ & _ & _ & _ & -> & _).
  destruct (te_masks b Hb) as (_ & _ & _ & _ & _ & -> & _).
  destruct (te_masks c Hc) as (_ & _ & _ & _ & _ & _ & ->).
  change (Z.land (tbl h_te1 d) 0x000000ff) with (Sb d).
  fold (pack (Sb a) (Sb b) (Sb c) (Sb d)). rewrite col_of_pack by auto with aes. by rewrite !Sb_sbox.
Qed.

Lemma state_of_key_odd ka kb : state_of (key_odd kb ka) = Fips.expand_odd (state_of kb) (state_of ka).
Proof.
  unfold key_odd. apply state_of_chain. rewrite !Z.lxor_assoc, col_of_lxor. f_equal.
  rewrite <- !Z.lxor_assoc. apply key_sub_word; apply byte_fits.
Qed.

Lemma rcon_col n : (n < 7)%nat -> col_of (tbl rcon (Z.of_nat n)) = (Fips.rcon_byte n, 0, 0, 0).
Proof. intros. do 7 (destruct n as [|n]; [by vm_compute|]). lia. Qed.

Lemma state_of_key_even ka kb n : (n < 7)%nat ->
  state_of (key_even ka kb (Z.of_nat n)) = Fips.expand_even (state_of ka) (state_of kb) n.
Proof.
  intros Hn. unfold key_even. apply state_of_chain. rewrite <- rcon_col by done.
  rewrite col_of_lxor, !Z.lxor_assoc, col_of_lxor, cxor_assoc. do 2 f_equal.
  rewrite <- !Z.lxor_assoc. apply key_sub_word; apply byte_fits.
Qed.

Lemma expansion_S n i ka kb :
  Fips.key_expansion (S n) i ka kb =
  Fips.expand_even ka kb i :: Fips.expand_odd kb (Fips.expand_even ka kb i) ::
  Fips.key_expansion n (S i) (Fips.expand_even ka kb i) (Fips.expand_odd kb (Fips.expand_even ka kb i)).
Proof. done. Qed.

#[local] Opaque Fips.expand_even Fips.expand_odd Fips.round key_even key_odd te_round.

(** [n] double rounds from the round constant [i] on use the next [2 * n]
    keys of the expansion, and the key step after them is the one that
    follows. *)
Lemma rounds_are_fips n i t ka kb t' ka' kb' ks : (i + n < 7)%nat ->
  ks = Fips.key_expansion (S n) i (state_of ka) (state_of kb) ->
  fold_left enc_rounds (map Z.of_nat (seq i n)) (t, ka, kb) = (t', ka', kb') ->
  state_of t' = fold_left Fips.round (take (2 * n) ks) (state_of t) /\
  ks !! (2 * n)%nat = Some (state_of (key_even ka' kb' (Z.of_nat (i + n)))).
Proof.
  revert i t ka kb ks. induction n as [|n IH]; intros i t ka kb ks Hn Hks E; cbn [seq map fold_left] in E;
    rewrite expansion_S, <- state_of_key_even, <- state_of_key_odd in Hks by lia.
  - injection E as <- <- <-. rewrite Hks, Nat.add_0_r. done.
  - unfold enc_rounds at 2 in E. cbv zeta in E.
    destruct (IH (S i) _ _ _ _ ltac:(lia) eq_refl E) as [E1 E2].
    rewrite !state_of_te_round in E1. revert E1 E2 Hks.
    generalize (state_of (key_even ka kb (Z.of_nat i))), (state_of (key_odd kb (key_even ka kb (Z.of_nat i)))).
    intros ea eo. generalize (Fips.key_expansion (S n) (S i) ea eo).
    intros l E1 E2 ->. replace (i + S n)%nat with (S i + n)%nat by lia.
    replace (2 * S n)%nat with (S (S (2 * n))) by lia.
    by split.
Qed.

Lemma state_of_xor4 x y : state_of (xor4 x y) = Fips.add_round_key (state_of x) (state_of y).
Proof. unfold state_of, xor4. cbn [w_0 w_1 w_2 w_3]. by rewrite !col_of_lxor. Qed.

Lemma cipher_eq inp a b ks k6 : ks = Fips.key_expansion 7 0 a b -> ks !! 12%nat = Some k6 ->
  Fips.cipher inp a b =
  Fips.add_round_key (Fips.shift_rows (Fips.sub_bytes
    (fold_left Fips.round (take 12 ks) (Fips.round (Fips.add_round_key inp a) b)))) k6.
Proof.
  unfold Fips.cipher. intros <- E. cbv zeta. rewrite take_take.
  by rewrite (nth_lookup_Some (take 13 ks) 12 _ k6) by (by rewrite lookup_take_lt by lia).
Qed.

Lemma enc_eq inp ka kb t' ka' kb' :
  fold_left enc_rounds (map Z.of_nat (seq 0 6)) (te_round (xor4 (map4 swap_word inp) ka) kb, ka, kb) = (t', ka', kb') ->
  AES256_enc_cernelT inp ka kb = map4 swap_word (te_last t' (key_even ka' kb' 6)).
Proof.
  assert (El : map Z.of_nat (seq 0 6) = [0; 1; 2; 3; 4; 5]) by done. rewrite El.
  unfold AES256_enc_cernelT. cbv zeta. by intros ->.
Qed.

Lemma enc_is_fips inp ka kb : fits4 inp -> fits4 ka -> fits4 kb ->
  mem_of (AES256_enc_cernelT inp ka kb) = Fips.cipher (mem_of inp) (state_of ka) (state_of kb).
Proof.
  intros Hi Ha Hb.
  destruct (fold_left enc_rounds (map Z.of_nat (seq 0 6)) (te_round (xor4 (map4 swap_word inp) ka) kb, ka, kb))
    as [[t' ka'] kb'] eqn:E.
  destruct (rounds_are_fips 6 0 _ _ _ _ _ _ _ ltac:(lia) eq_refl E) as [E1 E2].
  assert (Hka : fits4 ka').
  { by destruct (rounds_in_step _ _ _ _ [] [] _ _ _ _ Ha Hb eq_refl E) as (? & _ & _ & _ & ? & _). }
  assert (Hl : fits4 (te_last t' (key_even ka' kb' 6))).
  { rewrite te_last_spec. apply xor4_fits; [apply sub_shift_fits | by apply key_even_fits]. }
  rewrite (enc_eq _ _ _ _ _ _ E), (cipher_eq _ _ _ _ _ eq_refl E2).
  rewrite <- state_of_swap by (by apply swap4_fits). rewrite swap4_swap4 by done.
  rewrite state_of_te_last, E1, state_of_te_round, state_of_xor4, state_of_swap by done.
  exact eq_refl.
Qed.

(** ** Properties *)

(** C29: The AES-256 kernel is the cipher of FIPS-197: for every block and key,
    the bytes [AES256_enc_cernelT] writes are those of the reference built
    from the substitution box computed in GF(2^8), ShiftRows, MixColumns and
    the 256-bit key expansion, although the source works on 32-bit words with
    precomputed tables and expands the key on the fly. *)
Theorem aes_is_fips197 (inp ka kb : w4) : fits4 inp -> fits4 ka -> fits4 kb ->
  mem_of (AES256_enc_cernelT inp ka kb) = Fips.cipher (mem_of inp) (state_of ka) (state_of kb).
Proof. apply enc_is_fips. Qed.

(** The vector of FIPS-197, appendix C.3. *)
Definition c3_key_a : w4 := W4 0x00010203 0x04050607 0x08090a0b 0x0c0d0e0f.
Definition c3_key_b : w4 := W4 0x10111213 0x14151617 0x18191a1b 0x1c1d1e1f.
Definition c3_plain : w4 := map4 swap_word (W4 0x00112233 0x44556677 0x8899aabb 0xccddeeff).
Definition c3_cipher : w4 := map4 swap_word (W4 0x8ea2b7ca 0x516745bf 0xeafc4990 0x4b496089).

Lemma c3_fits : fits4 c3_plain /\ fits4 c3_key_a /\ fits4 c3_key_b.
Proof. unfold fits4, fits. split_and!; by vm_compute. Qed.

Lemma aes_is_fips197_witness :
  AES256_enc_cernelT c3_plain c3_key_a c3_key_b = c3_cipher /\
  mem_of (AES256_enc_cernelT c3_plain c3_key_a c3_key_b) =
  Fips.cipher (mem_of c3_plain) (state_of c3_key_a) (state_of c3_key_b).
Proof.
  split; [by vm_compute|].
  exact (aes_is_fips197 _ _ _ (proj1 c3_fits) (proj1 (proj2 c3_fits)) (proj2 (proj2 c3_fits))).
Defined.

(** The decryption kernel with the keys of [Key_Shedule_for_decrypT]
    inverts the encryption kernel on every block, for every key. *)
Theorem aes_decrypt_encrypt (inp ka kb : w4) : fits4 inp -> fits4 ka -> fits4 kb ->
  AES256_dec_cernelT (AES256_enc_cernelT inp ka kb) (Key_Shedule_for_decrypT ka kb) = inp.
Proof. apply dec_enc_kernel. Qed.

Lemma aes_decrypt_encrypt_witness :
  AES256_dec_cernelT (AES256_enc_cernelT c3_plain c3_key_a c3_key_b)
    (Key_Shedule_for_decrypT c3_key_a c3_key_b) = c3_plain.
Proof.
  exact (aes_decrypt_encrypt _ _ _ (proj1 c3_fits) (proj1 (proj2 c3_fits)) (proj2 (proj2 c3_fits))).
Defined.
