(* ===== verification/Enc.v ===== *)
(** * Symmetric encryption (crypto/src/dap_enc.c, dap_enc_iaes.c)

    [Iaes] is the default cipher of the streams: AES-256 in CBC mode with a
    padding of one to sixteen bytes.  [dap_enc_key] is the part of a key object
    the encryption interface uses: the size functions of its type and its two
    callbacks; [dap_enc_code] and [dap_enc_decode] are the interface.

    A callback is given the bytes of its input and the size of its output
    buffer and yields the bytes it stores there with the size it returns; a
    read outside a buffer is [None].  Encryption may draw fresh randomness on
    every call, so it is also given the number of the call.

    [SymCipher] states what the users of a key rely on; [iaes_cipher] proves it
    for [Iaes]. *)

From S2P Require Import Prelude AesTables Aes Base64.
Local Open Scope Z_scope.

(** ** Blocks in memory *)

Definition words_of (l : list Z) : w4 :=
  W4 (le_value (take 4 l)) (le_value (take 4 (drop 4 l)))
     (le_value (take 4 (drop 8 l))) (le_value (take 4 (drop 12 l))).

Definition bytes_of (x : w4) : list Z :=
  le_bytes 4 (w_0 x) ++ le_bytes 4 (w_1 x) ++ le_bytes 4 (w_2 x) ++ le_bytes 4 (w_3 x).

Module Iaes.

Definition IAES_BLOCK_SIZE : Z := 16.

(** The private key, 32 bytes, and the initialisation vector, 16 bytes. *)
Record iaes_key := Key { priv_key_data : list Z; ivec : list Z }.

(** [swap_endian] on the two halves of the key. *)
Definition key_lo (k : iaes_key) : w4 := map4 swap_word (words_of (take 16 (priv_key_data k))).
Definition key_hi (k : iaes_key) : w4 := map4 swap_word (words_of (drop 16 (priv_key_data k))).

Definition dap_enc_iaes256_calc_encode_size (size_in : Z) : Z :=
  wrap 64 (size_in + 1 + (IAES_BLOCK_SIZE - (size_in + 1) mod IAES_BLOCK_SIZE) mod IAES_BLOCK_SIZE).

Definition dap_enc_iaes256_calc_decode_max_size (size_in : Z) : Z := size_in.

(** The loop over the whole blocks; [feedback] is the previous block of
    output. *)
Fixpoint cbc_encrypt_loop (n : nat) (ka kb feedback : w4) (data : list Z) : list Z * w4 :=
  match n with
  | O => ([], feedback)
  | S n =>
    let feedback := AES256_enc_cernelT (xor4 (words_of (take 16 data)) feedback) ka kb in
    let '(out, last) := cbc_encrypt_loop n ka kb feedback (drop 16 data) in
    (bytes_of feedback ++ out, last)
  end.

(** The last block: what is left of the input, bytes [16], and the number of
    bytes of padding. *)
Definition tmp_in (a_in : list Z) : list Z :=
  let last_block_from_in := (length a_in mod 16)%nat in
  let padd_size := (16 - last_block_from_in)%nat in
  drop (length a_in / 16 * 16) a_in ++ replicate (padd_size - 1) 16 ++ [Z.of_nat padd_size].

Definition dap_enc_iaes256_cbc_encrypt_fast (k : iaes_key) (a_in : list Z) (buf_out_size : Z)
    : list Z * Z :=
  let out_size := dap_enc_iaes256_calc_encode_size (Z.of_nat (length a_in)) in
  if buf_out_size <? out_size then ([], 0) else
  let '(out, feedback) :=
    cbc_encrypt_loop (length a_in / 16) (key_lo k) (key_hi k) (words_of (ivec k)) a_in in
  let last := AES256_enc_cernelT (xor4 (words_of (tmp_in a_in)) feedback) (key_lo k) (key_hi k) in
  (out ++ bytes_of last, out_size).

Fixpoint cbc_decrypt_loop (n : nat) (rk : list w4) (feedback : w4) (cdata : list Z) : list Z :=
  match n with
  | O => []
  | S n =>
    let c := words_of (take 16 cdata) in
    bytes_of (xor4 (AES256_dec_cernelT c rk) feedback) ++ cbc_decrypt_loop n rk c (drop 16 cdata)
  end.

(** The padding is read from the last byte of the output. *)
Definition dap_enc_iaes256_cbc_decrypt_fast (k : iaes_key) (a_in : list Z) (buf_out_size : Z)
    : option (list Z * Z) :=
  let a_in_size := Z.of_nat (length a_in) in
  if negb (a_in_size mod IAES_BLOCK_SIZE =? 0) then Some ([], 0)
  else if buf_out_size <? a_in_size then Some ([], 0)
  else
    let rk := Key_Shedule_for_decrypT (key_lo k) (key_hi k) in
    let data := cbc_decrypt_loop (length a_in / 16) rk (words_of (ivec k)) a_in in
    l_padding_size ← mem_le data (a_in_size - 1) 1;
    Some (data, if a_in_size <? l_padding_size then 0 else a_in_size - l_padding_size).

(** The variants that allocate their output. *)
Definition dap_enc_iaes256_cbc_encrypt (k : iaes_key) (a_in : list Z) : list Z * Z :=
  let length_data_new := dap_enc_iaes256_calc_encode_size (Z.of_nat (length a_in)) in
  ((dap_enc_iaes256_cbc_encrypt_fast k a_in length_data_new).1, length_data_new).

Definition dap_enc_iaes256_cbc_decrypt (k : iaes_key) (a_in : list Z) : option (list Z * Z) :=
  if negb (Z.of_nat (length a_in) mod IAES_BLOCK_SIZE =? 0) then Some ([], 0)
  else dap_enc_iaes256_cbc_decrypt_fast k a_in (Z.of_nat (length a_in)).

End Iaes.

(** ** The encryption interface *)

Record dap_enc_key := EncKey {
  enc_out_size : option (Z -> Z);
  dec_out_size : option (Z -> Z);
  enc_na : nat -> list Z -> Z -> list Z * Z;
  dec_na : list Z -> Z -> option (list Z * Z);
}.

Definition dap_enc_key_get_enc_size (k : dap_enc_key) (a_buf_in_size : Z) : Z :=
  if a_buf_in_size =? 0 then 0
  else match enc_out_size k with Some f => f a_buf_in_size | None => 0 end.

Definition dap_enc_key_get_dec_size (k : dap_enc_key) (a_buf_in_size : Z) : Z :=
  if a_buf_in_size =? 0 then 0
  else match dec_out_size k with Some f => f a_buf_in_size | None => 0 end.

Definition dap_enc_code_out_size (k : dap_enc_key) (a_buf_in_size : Z) (t : dap_enc_data_type) : Z :=
  let l_size := dap_enc_key_get_enc_size k a_buf_in_size in
  match t with DAP_ENC_DATA_TYPE_RAW => l_size | _ => DAP_ENC_BASE64_ENCODE_SIZE l_size end.

Definition dap_enc_decode_out_size (k : dap_enc_key) (a_buf_in_size : Z) (t : dap_enc_data_type) : Z :=
  let l_size :=
    match t with DAP_ENC_DATA_TYPE_RAW => a_buf_in_size | _ => DAP_ENC_BASE64_DECODE_SIZE a_buf_in_size end in
  if l_size =? 0 then 0 else dap_enc_key_get_dec_size k l_size.

(** The bytes stored in the output buffer and the size returned. *)
Definition dap_enc_code (k : dap_enc_key) (call : nat) (a_buf_in : list Z) (a_buf_out_size_max : Z)
    (t : dap_enc_data_type) : option (list Z * Z) :=
  let l_ret := dap_enc_code_out_size k (Z.of_nat (length a_buf_in)) t in
  if (l_ret =? 0) || (a_buf_out_size_max <? l_ret) then Some ([], 0) else
  match t with
  | DAP_ENC_DATA_TYPE_RAW => Some (enc_na k call a_buf_in a_buf_out_size_max)
  | _ =>
    let '(d, l_tmp_size) := enc_na k call a_buf_in l_ret in
    l_tmp_buf ← mem_write (replicate (Z.to_nat l_ret) 0) 0 d;
    src ← mem_read l_tmp_buf 0 l_tmp_size;
    out ← dap_enc_base64_encode src t;
    Some (out, Z.of_nat (length out))
  end.

Definition dap_enc_decode (k : dap_enc_key) (a_buf_in : list Z) (a_buf_out_size_max : Z)
    (t : dap_enc_data_type) : option (list Z * Z) :=
  let l_ret := dap_enc_decode_out_size k (Z.of_nat (length a_buf_in)) t in
  if (l_ret =? 0) || (a_buf_out_size_max <? l_ret) then Some ([], 0) else
  match t with
  | DAP_ENC_DATA_TYPE_RAW => dec_na k a_buf_in a_buf_out_size_max
  | _ =>
    let size := DAP_ENC_BASE64_DECODE_SIZE (Z.of_nat (length a_buf_in)) in
    d ← dap_enc_base64_decode a_buf_in t;
    l_tmp_buf ← mem_write (replicate (Z.to_nat size) 0) 0 d;
    src ← mem_read l_tmp_buf 0 (Z.of_nat (length d));
    dec_na k src a_buf_out_size_max
  end.

(** [s_callbacks[DAP_ENC_KEY_TYPE_IAES]] *)
Definition iaes_enc_key (k : Iaes.iaes_key) : dap_enc_key :=
  EncKey (Some Iaes.dap_enc_iaes256_calc_encode_size) (Some Iaes.dap_enc_iaes256_calc_decode_max_size)
    (λ _, Iaes.dap_enc_iaes256_cbc_encrypt_fast k) (Iaes.dap_enc_iaes256_cbc_decrypt_fast k).

(** The bound of [dap_stream_pkt.h] on what encryption adds to a packet. *)
Definition DAP_STREAM_PKT_ENCRYPTION_OVERHEAD : Z := 200.

(** What the users of a symmetric key rely on: encryption fills exactly the
    announced size, which exceeds the plain size by a bounded amount, and
    decryption into a buffer of the announced size gives the plain text back;
    on any other non-empty input decryption stays in its buffers and succeeds
    only on at least one block. *)
Class SymCipher (k : dap_enc_key) : Prop := {
  enc_size_bounds n : 0 < n < 2 ^ 62 ->
    n < dap_enc_key_get_enc_size k n <= n + DAP_STREAM_PKT_ENCRYPTION_OVERHEAD;
  enc_na_exact call x m : x <> [] -> Z.of_nat (length x) < 2 ^ 62 -> Forall (fits 8) x ->
    dap_enc_key_get_enc_size k (Z.of_nat (length x)) <= m ->
    exists y, enc_na k call x m = (y, Z.of_nat (length y)) /\ Forall (fits 8) y /\
      Z.of_nat (length y) = dap_enc_key_get_enc_size k (Z.of_nat (length x));
  dec_size_bounds n : 0 < n < 2 ^ 63 -> 0 <= dap_enc_key_get_dec_size k n <= n;
  dec_size_mono n n' : 0 < n <= n' -> n' < 2 ^ 63 ->
    dap_enc_key_get_dec_size k n <= dap_enc_key_get_dec_size k n';
  dec_na_inverts call x m m' : x <> [] -> Z.of_nat (length x) < 2 ^ 62 -> Forall (fits 8) x ->
    dap_enc_key_get_enc_size k (Z.of_nat (length x)) <= m ->
    dap_enc_key_get_dec_size k (dap_enc_key_get_enc_size k (Z.of_nat (length x))) <= m' ->
    exists rest, dec_na k (enc_na k call x m).1 m' = Some (x ++ rest, Z.of_nat (length x)) /\
      Z.of_nat (length (x ++ rest)) <= m';
  dec_na_safe y m : y <> [] -> Z.of_nat (length y) < 2 ^ 63 -> Forall (fits 8) y ->
    dap_enc_key_get_dec_size k (Z.of_nat (length y)) <= m ->
    exists d r, dec_na k y m = Some (d, r) /\ Forall (fits 8) d /\
      Z.of_nat (length d) <= m /\ 0 <= r <= m /\
      (0 < r -> 16 <= dap_enc_key_get_dec_size k (Z.of_nat (length y)));
}.

(** ** Blocks *)

Lemma words_of_fits l : length l = 16%nat -> Forall (fits 8) l -> fits4 (words_of l).
Proof.
  intros L H. assert (E : forall o, (o <= 12)%nat -> fits 32 (le_value (take 4 (drop o l)))).
  { intros o Ho. pose proof (le_value_bound (take 4 (drop o l))) as B. rewrite length_take, length_drop, L in B.
    replace (4 `min` (16 - o))%nat with 4%nat in B by lia. apply B. by apply Forall_take, Forall_drop. }
  pose proof (E 0%nat) as E0. rewrite drop_0 in E0. split_and!; cbn [words_of w_0 w_1 w_2 w_3]; [apply E0 | apply E ..]; lia.
Qed.

Lemma length_bytes_of x : length (bytes_of x) = 16%nat.
Proof. unfold bytes_of. by rewrite !length_app, !length_le_bytes. Qed.

Lemma bytes_of_fits x : Forall (fits 8) (bytes_of x).
Proof. unfold bytes_of. rewrite !Forall_app. split_and!; apply le_bytes_fits. Qed.

Lemma words_bytes x post : fits4 x -> words_of (take 16 (bytes_of x ++ post)) = x.
Proof.
  intros (H0 & H1 & H2 & H3). rewrite take_app_length' by (by rewrite length_bytes_of).
  destruct x as [a b c d]. cbn [w_0 w_1 w_2 w_3] in *. unfold words_of, bytes_of. cbn [w_0 w_1 w_2 w_3].
  change 12%nat with (4 + (4 + 4))%nat. change 8%nat with (4 + 4)%nat. rewrite <- !drop_drop.
  rewrite !drop_app_length', !take_app_length', take_ge by (rewrite ?length_le_bytes; done).
  rewrite !le_value_bytes. change (8 * Z.of_nat 4) with 32. by rewrite !wrap_id.
Qed.

Lemma bytes_words l : length l = 16%nat -> Forall (fits 8) l -> bytes_of (words_of l) = l.
Proof.
  intros L H. unfold bytes_of, words_of. cbn [w_0 w_1 w_2 w_3].
  assert (E : forall o, (o <= 12)%nat -> le_bytes 4 (le_value (take 4 (drop o l))) = take 4 (drop o l)).
  { intros o Ho. rewrite <- (le_bytes_value (take 4 (drop o l))) at 2 by (by apply Forall_take, Forall_drop).
    rewrite length_take, length_drop, L. by replace (4 `min` (16 - o))%nat with 4%nat by lia. }
  pose proof (E 0%nat) as E0. rewrite drop_0 in E0. rewrite E0, !E by lia.
  rewrite (take_ge (drop 12 l)) by (rewrite length_drop; lia).
  replace (drop 12 l) with (drop 4 (drop 8 l)) by (by rewrite drop_drop). rewrite take_drop.
  replace (drop 8 l) with (drop 4 (drop 4 l)) by (by rewrite drop_drop). by rewrite !take_drop.
Qed.

Lemma map4_swap_fits l : length l = 16%nat -> Forall (fits 8) l -> fits4 (map4 swap_word (words_of l)).
Proof. intros. by apply swap4_fits, words_of_fits. Qed.

#[local] Opaque AES256_enc_cernelT AES256_dec_cernelT Key_Shedule_for_decrypT swap_word.

Section CBC.
Import Iaes.
Context (ka kb : w4) (Ha : fits4 ka) (Hb : fits4 kb).

Lemma enc_kernel_fits inp : fits4 inp -> fits4 (AES256_enc_cernelT inp ka kb).
Proof using Ha Hb. intros Hi. exact (aes_out_fits inp ka kb Hi Ha Hb). Qed.

(** [n] blocks in, [n] blocks out, and back. *)
Lemma cbc_inverts n fb data : fits4 fb -> length data = (16 * n)%nat -> Forall (fits 8) data ->
  let out := (cbc_encrypt_loop n ka kb fb data).1 in
  length out = (16 * n)%nat /\ Forall (fits 8) out /\
  forall post, cbc_decrypt_loop n (Key_Shedule_for_decrypT ka kb) fb (out ++ post) = data.
Proof using Ha Hb.
  revert fb data. induction n as [|n IH]; intros fb data Hfb L H; cbn [cbc_encrypt_loop cbc_decrypt_loop].
  - split; [done|]. split; [constructor|]. intros _. by destruct data.
  - set (p := words_of (take 16 data)).
    assert (L16 : length (take 16 data) = 16%nat) by (rewrite length_take; lia).
    assert (F16 : Forall (fits 8) (take 16 data)) by (by apply Forall_take).
    assert (Hp : fits4 p) by (by apply words_of_fits).
    set (c := AES256_enc_cernelT (xor4 p fb) ka kb).
    assert (Hc : fits4 c) by (by apply enc_kernel_fits, xor4_fits).
    destruct (IH c (drop 16 data) Hc) as (L' & F' & D'); [rewrite length_drop; lia | by apply Forall_drop |].
    destruct (cbc_encrypt_loop n ka kb c (drop 16 data)) as [out last]. cbn [fst] in *.
    rewrite length_app, length_bytes_of, L'. split; [lia|].
    split; [apply Forall_app; split; [apply bytes_of_fits | done]|].
    intros post. rewrite <- app_assoc, words_bytes by done. cbv zeta.
    rewrite drop_app_length', D' by (by rewrite length_bytes_of).
    unfold c. rewrite dec_enc_kernel by (done || by apply xor4_fits).
    rewrite xor4_cancel. unfold p. rewrite bytes_words by done.
    apply take_drop.
Qed.

(** A last block continues the chain. *)
Lemma cbc_snoc n fb data blk : length data = (16 * n)%nat -> length blk = 16%nat ->
  (cbc_encrypt_loop (n + 1) ka kb fb (data ++ blk)).1 =
  (cbc_encrypt_loop n ka kb fb data).1 ++
  bytes_of (AES256_enc_cernelT (xor4 (words_of blk) (cbc_encrypt_loop n ka kb fb data).2) ka kb).
Proof.
  revert fb data. induction n as [|n IH]; intros fb data L Lb.
  - destruct data; [|done]. cbn [cbc_encrypt_loop fst snd app Nat.add]. by rewrite take_ge, app_nil_r by lia.
  - cbn [cbc_encrypt_loop Nat.add]. rewrite take_app_le, drop_app_le by lia.
    set (c := AES256_enc_cernelT _ _ _). pose proof (IH c (drop 16 data) ltac:(rewrite length_drop; lia) Lb) as E.
    destruct (cbc_encrypt_loop (n + 1) ka kb c (drop 16 data ++ blk)) as [o1 f1].
    destruct (cbc_encrypt_loop n ka kb c (drop 16 data)) as [o2 f2]. cbn [fst snd] in *.
    by rewrite E, app_assoc.
Qed.

(** The loop reads whole blocks only. *)
Lemma cbc_take n fb data : (16 * n <= length data)%nat ->
  cbc_encrypt_loop n ka kb fb (take (16 * n) data) = cbc_encrypt_loop n ka kb fb data.
Proof.
  revert fb data. induction n as [|n IH]; intros fb data L; [done|]. cbn [cbc_encrypt_loop].
  rewrite take_take. replace (16 `min` (16 * S n))%nat with 16%nat by lia.
  replace (drop 16 (take (16 * S n) data)) with (take (16 * n) (drop 16 data)).
  - by rewrite IH by (rewrite length_drop; lia).
  - rewrite skipn_firstn_comm. f_equal. lia.
Qed.
End CBC.

(** ** IAES *)

Record iaes_key_ok (k : Iaes.iaes_key) : Prop := {
  iko_len : length (Iaes.priv_key_data k) = 32%nat;
  iko_key : Forall (fits 8) (Iaes.priv_key_data k);
  iko_ivlen : length (Iaes.ivec k) = 16%nat;
  iko_iv : Forall (fits 8) (Iaes.ivec k);
}.

Section IAES.
Import Iaes.
Context (k : iaes_key) (Hk : iaes_key_ok k).

Lemma key_fits : fits4 (key_lo k) /\ fits4 (key_hi k) /\ fits4 (words_of (ivec k)).
Proof using Hk.
  destruct Hk as [L F Li Fi]. split_and!.
  - apply map4_swap_fits; [rewrite length_take; lia | by apply Forall_take].
  - apply map4_swap_fits; [rewrite length_drop; lia | by apply Forall_drop].
  - by apply words_of_fits.
Qed.

Lemma encode_size_spec n : 0 <= n < 2 ^ 63 -> dap_enc_iaes256_calc_encode_size n = 16 * (n / 16 + 1).
Proof.
  intros Hn. unfold dap_enc_iaes256_calc_encode_size, IAES_BLOCK_SIZE. rewrite wrap_id by (unfold fits; dlia). dlia.
Qed.

(** The input with its padding. *)
Definition padded (a_in : list Z) : list Z := take (16 * (length a_in / 16)) a_in ++ tmp_in a_in.

Lemma padded_eq a_in : let p := (16 - length a_in mod 16)%nat in
  padded a_in = a_in ++ replicate (p - 1) 16 ++ [Z.of_nat p].
Proof.
  cbv zeta. unfold padded, tmp_in. cbv zeta. rewrite (Nat.mul_comm (length a_in / 16)), app_assoc. by rewrite take_drop.
Qed.

Lemma length_tmp_in a_in : length (tmp_in a_in) = 16%nat.
Proof.
  unfold tmp_in. cbv zeta. rewrite !length_app, length_drop, length_replicate. cbn [length].
  pose proof (Nat.div_mod_eq (length a_in) 16). pose proof (Nat.mod_upper_bound (length a_in) 16). lia.
Qed.

Lemma length_padded a_in : length (padded a_in) = (16 * (length a_in / 16 + 1))%nat.
Proof.
  unfold padded. rewrite length_app, length_tmp_in, length_take.
  pose proof (Nat.div_mod_eq (length a_in) 16). lia.
Qed.

Lemma padded_fits a_in : Forall (fits 8) a_in -> Forall (fits 8) (padded a_in).
Proof.
  intros H. rewrite padded_eq, !Forall_app. split_and!; [done | by apply Forall_replicate | constructor; [|done]].
  unfold fits. pose proof (Nat.mod_upper_bound (length a_in) 16). lia.
Qed.

Lemma iaes_encrypt_spec a_in m : Z.of_nat (length a_in) < 2 ^ 63 ->
  dap_enc_iaes256_calc_encode_size (Z.of_nat (length a_in)) <= m ->
  dap_enc_iaes256_cbc_encrypt_fast k a_in m =
  ((cbc_encrypt_loop (length a_in / 16 + 1) (key_lo k) (key_hi k) (words_of (ivec k)) (padded a_in)).1,
   16 * (Z.of_nat (length a_in) / 16 + 1)).
Proof.
  intros L Hm. unfold dap_enc_iaes256_cbc_encrypt_fast. cbv zeta. rewrite (proj2 (Z.ltb_ge _ _)) by done.
  unfold padded. rewrite cbc_snoc by (rewrite ?length_tmp_in, ?length_take; pose proof (Nat.div_mod_eq (length a_in) 16); lia).
  rewrite cbc_take by (pose proof (Nat.div_mod_eq (length a_in) 16); lia).
  destruct (cbc_encrypt_loop _ _ _ _ _) as [out fb]. cbn [fst snd]. by rewrite encode_size_spec by lia.
Qed.

(** Encryption and decryption of any byte string. *)
Lemma iaes_inverts a_in m m' : Z.of_nat (length a_in) < 2 ^ 62 -> Forall (fits 8) a_in ->
  dap_enc_iaes256_calc_encode_size (Z.of_nat (length a_in)) <= m ->
  dap_enc_iaes256_calc_encode_size (Z.of_nat (length a_in)) <= m' ->
  let '(y, n) := dap_enc_iaes256_cbc_encrypt_fast k a_in m in
  n = Z.of_nat (length y) /\ n = dap_enc_iaes256_calc_encode_size (Z.of_nat (length a_in)) /\
  Forall (fits 8) y /\
  exists rest, dap_enc_iaes256_cbc_decrypt_fast k y m' = Some (a_in ++ rest, Z.of_nat (length a_in)) /\
    Z.of_nat (length (a_in ++ rest)) = n.
Proof using Hk.
  intros L F Hm Hm'. rewrite iaes_encrypt_spec by (lia || done). rewrite encode_size_spec in * by lia.
  destruct key_fits as (Ha & Hb & Hi).
  destruct (cbc_inverts _ _ Ha Hb (length a_in / 16 + 1) _ _ Hi (length_padded a_in) (padded_fits _ F)) as (Lo & Fo & D).
  specialize (D []). rewrite app_nil_r in D.
  set (out := (cbc_encrypt_loop _ _ _ _ _).1) in *.
  assert (Zd : Z.of_nat (length a_in / 16) = Z.of_nat (length a_in) / 16) by (by rewrite Nat2Z.inj_div).
  split; [lia|]. split; [done|]. split; [done|].
  unfold dap_enc_iaes256_cbc_decrypt_fast. cbv zeta. rewrite Lo.
  replace (16 * (length a_in / 16 + 1) / 16)%nat with (length a_in / 16 + 1)%nat
    by (rewrite Nat.mul_comm, Nat.div_mul; lia).
  rewrite D. unfold IAES_BLOCK_SIZE.
  rewrite (proj2 (Z.eqb_eq _ 0)) by dlia. cbn [negb]. rewrite (proj2 (Z.ltb_ge _ _)) by lia.
  pose proof (padded_eq a_in) as Ep. cbv zeta in Ep. set (p := (16 - length a_in mod 16)%nat) in *.
  pose proof (Nat.mod_upper_bound (length a_in) 16). pose proof (Nat.div_mod_eq (length a_in) 16).
  assert (El : mem_le (padded a_in) (Z.of_nat (16 * (length a_in / 16 + 1)) - 1) 1 = Some (Z.of_nat p)).
  { rewrite Ep. change [Z.of_nat p] with ([Z.of_nat p] ++ []).
    replace ([Z.of_nat p]) with (le_bytes 1 (Z.of_nat p)) by (cbn; rewrite Z.mod_small by lia; done).
    rewrite (app_assoc a_in).
    replace (Z.of_nat (16 * (length a_in / 16 + 1)) - 1) with (Z.of_nat (length (a_in ++ replicate (p - 1) 16)))
      by (rewrite length_app, length_replicate; lia).
    apply mem_le_app. unfold fits. lia. }
  rewrite El. cbn [mbind option_bind]. exists (replicate (p - 1) 16 ++ [Z.of_nat p]). rewrite <- Ep, length_padded.
  split; [|lia]. rewrite (proj2 (Z.ltb_ge _ _)) by lia. do 2 f_equal. lia.
Qed.

Lemma length_decrypt_loop n rk fb c : length (cbc_decrypt_loop n rk fb c) = (16 * n)%nat.
Proof. revert fb c. induction n as [|n IH]; intros; [done|]. cbn [cbc_decrypt_loop]. rewrite length_app, length_bytes_of, IH. lia. Qed.

Lemma decrypt_loop_fits n rk fb c : Forall (fits 8) (cbc_decrypt_loop n rk fb c).
Proof.
  revert fb c. induction n as [|n IH]; intros; [constructor|]. cbn [cbc_decrypt_loop].
  apply Forall_app. split; [apply bytes_of_fits | apply IH].
Qed.

(** Decryption of any non-empty input stays in its buffers. *)
Lemma iaes_decrypt_safe y m : y <> [] -> Z.of_nat (length y) <= m ->
  exists d r, dap_enc_iaes256_cbc_decrypt_fast k y m = Some (d, r) /\ Forall (fits 8) d /\
    Z.of_nat (length d) <= m /\ 0 <= r <= m /\ (0 < r -> 16 <= Z.of_nat (length y)).
Proof.
  intros Hy Hm. unfold dap_enc_iaes256_cbc_decrypt_fast, IAES_BLOCK_SIZE. cbv zeta.
  destruct (Z.eqb_spec (Z.of_nat (length y) mod 16) 0) as [E | E]; cbn [negb].
  2: { exists [], 0. cbn [length]. split_and!; (done || lia || constructor). }
  rewrite (proj2 (Z.ltb_ge _ _)) by done. set (data := cbc_decrypt_loop _ _ _ _).
  assert (L : Z.of_nat (length data) = Z.of_nat (length y)).
  { unfold data. rewrite length_decrypt_loop. rewrite Nat2Z.inj_mul, Nat2Z.inj_div. dlia. }
  destruct y as [|b y]; [done|].
  destruct (mem_le_Some data (Z.of_nat (length (b :: y)) - 1) 1) as [pad Hpad]; [cbn [length] in L |- *; lia .. |].
  rewrite Hpad. cbn [mbind option_bind].
  pose proof (mem_le_fits _ _ _ _ (decrypt_loop_fits _ _ _ _) Hpad) as [Hp _].
  eexists data, _. split; [done|]. split; [apply decrypt_loop_fits|]. cbn [length] in *.
  split; [lia|]. split; [bdestr; lia|]. intros _. dlia.
Qed.

#[export] Instance iaes_cipher : SymCipher (iaes_enc_key k).
Proof using Hk.
  assert (Esz : forall n, 0 < n -> dap_enc_key_get_enc_size (iaes_enc_key k) n = dap_enc_iaes256_calc_encode_size n).
  { intros n Hn. unfold dap_enc_key_get_enc_size. by rewrite (proj2 (Z.eqb_neq n 0)) by lia. }
  assert (Dsz : forall n, 0 <= n -> dap_enc_key_get_dec_size (iaes_enc_key k) n = n).
  { intros n Hn. unfold dap_enc_key_get_dec_size. by destruct (Z.eqb_spec n 0) as [-> | ?]. }
  assert (Hpos : forall x : list Z, x <> [] -> 0 < Z.of_nat (length x)) by (intros [|? ?]; cbn; [done | lia]).
  constructor.
  - intros n Hn. rewrite Esz, encode_size_spec by lia. unfold DAP_STREAM_PKT_ENCRYPTION_OVERHEAD. dlia.
  - intros call x m Hx L F Hm. rewrite Esz in * by auto. pose proof (iaes_inverts x m m L F Hm Hm) as I.
    cbn [enc_na iaes_enc_key]. destruct (dap_enc_iaes256_cbc_encrypt_fast k x m) as [y n].
    destruct I as (-> & E & Fy & _). eauto.
  - intros n Hn. rewrite Dsz; lia.
  - intros n n' Hn Hn'. rewrite !Dsz; lia.
  - intros call x m m' Hx L F Hm Hm'. pose proof (encode_size_spec (Z.of_nat (length x)) ltac:(lia)) as Es.
    rewrite Esz in * by auto. rewrite Dsz in Hm' by (rewrite Es; dlia).
    pose proof (iaes_inverts x m m' L F Hm Hm') as I. cbn [enc_na dec_na iaes_enc_key].
    destruct (dap_enc_iaes256_cbc_encrypt_fast k x m) as [y n].
    destruct I as (-> & E & _ & rest & D & Lr). cbn [fst]. exists rest. split; [done|]. lia.
  - intros y m Hy L _ Hm. rewrite Dsz in * by lia. by apply iaes_decrypt_safe.
Qed.
End IAES.

(** ** The interface round trip *)

(** Bytes copied to a scratch buffer and read back. *)
Lemma scratch_copy {A} (d : list Z) (size : Z) (f : list Z -> option A) : Z.of_nat (length d) <= size ->
  (b ← mem_write (replicate (Z.to_nat size) 0) 0 d; s ← mem_read b 0 (Z.of_nat (length d)); f s) = f d.
Proof.
  intros L. rewrite mem_write_prefix by lia. cbn [mbind option_bind].
  pose proof (mem_read_app [] d (replicate (Z.to_nat size - length d) 0)) as E.
  change (Z.of_nat (length [])) with 0 in E. cbn [app] in E. by rewrite E.
Qed.

Section Interface.
Context (k : dap_enc_key) `{!SymCipher k}.

Lemma enc_na_spec call x m : x <> [] -> Z.of_nat (length x) < 2 ^ 62 -> Forall (fits 8) x ->
  dap_enc_key_get_enc_size k (Z.of_nat (length x)) <= m ->
  exists y, enc_na k call x m = (y, Z.of_nat (length y)) /\ Forall (fits 8) y /\
    Z.of_nat (length y) = dap_enc_key_get_enc_size k (Z.of_nat (length x)) /\
    Z.of_nat (length x) < Z.of_nat (length y) <= Z.of_nat (length x) + DAP_STREAM_PKT_ENCRYPTION_OVERHEAD /\
    forall m', dap_enc_key_get_dec_size k (Z.of_nat (length y)) <= m' ->
      exists rest, dec_na k y m' = Some (x ++ rest, Z.of_nat (length x)) /\
        Z.of_nat (length (x ++ rest)) <= m'.
Proof using All.
  intros Hx L F Hm. destruct (enc_na_exact call x m Hx L F Hm) as (y & E & Fy & Ly).
  exists y. split; [done|]. split; [done|]. split; [done|].
  split; [rewrite Ly; apply enc_size_bounds; destruct x; [done | cbn [length] in *; lia]|].
  intros m' Hm'. rewrite Ly in Hm'. destruct (dec_na_inverts call x m m' Hx L F Hm Hm') as (rest & D & Lr).
  rewrite E in D. eauto.
Qed.

Lemma b64_size_pos n : 0 < n < 2 ^ 62 -> n <= DAP_ENC_BASE64_ENCODE_SIZE n < 2 ^ 63.
Proof. intros. rewrite encode_size by lia. dlia. Qed.

Lemma base64_inverts (l : list Z) t : t <> DAP_ENC_DATA_TYPE_RAW -> Forall (fits 8) l ->
  Z.of_nat (length l) < 2 ^ 60 ->
  exists e, dap_enc_base64_encode l t = Some e /\ dap_enc_base64_decode e t = Some l /\
    Z.of_nat (length e) = DAP_ENC_BASE64_ENCODE_SIZE (Z.of_nat (length l)) /\
    Z.of_nat (length l) <= DAP_ENC_BASE64_DECODE_SIZE (Z.of_nat (length e)) < 2 ^ 62.
Proof.
  intros Ht F L. assert (H : exists tbl e, b64_table_by_standard t = Some tbl /\ b64_encode_loop tbl l [] = Some e /\
    b64_decode_loop tbl e [] = l /\ Z.of_nat (length e) = 4 * ((Z.of_nat (length l) + 2) / 3)).
  { destruct t; [done | |].
    - destruct (codec_roundtrip b64_standart_table l F) as (e & ? & ? & ? & _). eauto 7.
    - destruct (codec_roundtrip b64_table_url_safe l F) as (e & ? & ? & ? & _). eauto 7. }
  destruct H as (tbl & e & Et & Ee & Ed & Le). exists e.
  unfold dap_enc_base64_encode, dap_enc_base64_decode, DAP_ENC_BASE64_DECODE_SIZE. rewrite Et. cbn [mbind option_bind].
  rewrite encode_size, Ed, Le by lia. rewrite wrap_id by (unfold fits; dlia). split_and!; (done || dlia).
Qed.

Lemma dec_size_covers (x : list Z) : x <> [] -> Z.of_nat (length x) < 2 ^ 62 -> Forall (fits 8) x ->
  Z.of_nat (length x) <= dap_enc_key_get_dec_size k (dap_enc_key_get_enc_size k (Z.of_nat (length x))).
Proof using All.
  intros Hx L F. destruct (dec_na_inverts 0 x _ _ Hx L F (Z.le_refl _) (Z.le_refl _)) as (rest & _ & Lr).
  rewrite length_app in Lr. lia.
Qed.

Lemma code_inverts t (call : nat) (x : list Z) : x <> [] -> Z.of_nat (length x) < 2 ^ 59 -> Forall (fits 8) x ->
  exists y, dap_enc_code k call x (dap_enc_code_out_size k (Z.of_nat (length x)) t) t
      = Some (y, dap_enc_code_out_size k (Z.of_nat (length x)) t) /\
    Z.of_nat (length y) = dap_enc_code_out_size k (Z.of_nat (length x)) t /\
    exists rest, dap_enc_decode k y (dap_enc_decode_out_size k (Z.of_nat (length y)) t) t
      = Some (x ++ rest, Z.of_nat (length x)).
Proof using All.
  intros Hx L F. assert (Hpos : 0 < Z.of_nat (length x)) by (destruct x; [done | cbn; lia]).
  pose proof (enc_size_bounds (Z.of_nat (length x)) ltac:(lia)) as Hs. unfold DAP_STREAM_PKT_ENCRYPTION_OVERHEAD in Hs.
  pose proof (dec_size_covers x Hx ltac:(lia) F) as Hd.
  set (n := dap_enc_key_get_enc_size k (Z.of_nat (length x))) in *.
  destruct (decide (t = DAP_ENC_DATA_TYPE_RAW)) as [-> | Ht].
  - destruct (enc_na_spec call x n Hx ltac:(lia) F (Z.le_refl _)) as (y & E & Fy & Ly & _ & D).
    exists y. unfold dap_enc_code, dap_enc_code_out_size, dap_enc_decode, dap_enc_decode_out_size. fold n in Ly |- *.
    rewrite (proj2 (Z.eqb_neq n 0)), (proj2 (Z.ltb_ge n n)), E, Ly by lia. cbn [orb]. split; [done|]. split; [done|].
    rewrite (proj2 (Z.eqb_neq n 0)), (proj2 (Z.eqb_neq _ 0)), (proj2 (Z.ltb_ge _ _)) by lia. cbn [orb].
    rewrite Ly in D. destruct (D _ (Z.le_refl _)) as (rest & -> & _). eauto.
  - pose proof (b64_size_pos n ltac:(lia)) as Hb.
    destruct (enc_na_spec call x (DAP_ENC_BASE64_ENCODE_SIZE n) Hx ltac:(lia) F ltac:(lia)) as (y & E & Fy & Ly & _ & D).
    fold n in Ly. destruct (base64_inverts y t Ht Fy ltac:(lia)) as (e & Ee & De & Le & Lb).
    exists e. rewrite Ly in Le, Lb.
    assert (Hco : dap_enc_code_out_size k (Z.of_nat (length x)) t = DAP_ENC_BASE64_ENCODE_SIZE n) by (by destruct t).
    assert (Hdo : dap_enc_decode_out_size k (Z.of_nat (length e)) t =
      dap_enc_key_get_dec_size k (DAP_ENC_BASE64_DECODE_SIZE (Z.of_nat (length e)))).
    { unfold dap_enc_decode_out_size. destruct t; [done | |]; by rewrite (proj2 (Z.eqb_neq _ 0)) by lia. }
    pose proof (dec_size_mono n (DAP_ENC_BASE64_DECODE_SIZE (Z.of_nat (length e))) ltac:(lia) ltac:(lia)) as Hmono.
    assert (Hmono' := Hmono). rewrite <- Ly in Hmono'.
    assert (Et : forall {A} (a b : A), match t with DAP_ENC_DATA_TYPE_RAW => a | _ => b end = b) by (by destruct t).
    unfold dap_enc_code, dap_enc_decode. rewrite !Et, Hco, Hdo, (proj2 (Z.eqb_neq _ 0)), (proj2 (Z.ltb_ge _ _)), E by lia.
    rewrite (proj2 (Z.eqb_neq (dap_enc_key_get_dec_size _ _) 0)), (proj2 (Z.ltb_ge (dap_enc_key_get_dec_size _ _) _)) by lia.
    cbn [orb]. rewrite (scratch_copy y), Ee, De by lia. cbn [mbind option_bind].
    rewrite (scratch_copy y) by lia. split; [by rewrite Le|]. split; [done|].
    destruct (D _ Hmono') as (rest & -> & _). eauto.
Qed.
End Interface.

(** ** Properties *)

(** AES-256-CBC of [dap_enc_iaes.c] loses nothing: for every key and every
    byte string, [dap_enc_iaes256_cbc_encrypt_fast] stores exactly
    [dap_enc_iaes256_calc_encode_size] bytes, and decrypting them returns the
    size of the input with its bytes at the start of the buffer, followed by
    the padding only. *)
Theorem iaes_roundtrip (k : Iaes.iaes_key) (x : list Z) (m m' : Z) :
  iaes_key_ok k -> Z.of_nat (length x) < 2 ^ 62 -> Forall (fits 8) x ->
  Iaes.dap_enc_iaes256_calc_encode_size (Z.of_nat (length x)) <= m ->
  Iaes.dap_enc_iaes256_calc_encode_size (Z.of_nat (length x)) <= m' ->
  let '(y, n) := Iaes.dap_enc_iaes256_cbc_encrypt_fast k x m in
  n = Z.of_nat (length y) /\ n = Iaes.dap_enc_iaes256_calc_encode_size (Z.of_nat (length x)) /\
  Forall (fits 8) y /\
  exists rest, Iaes.dap_enc_iaes256_cbc_decrypt_fast k y m' = Some (x ++ rest, Z.of_nat (length x)) /\
    Z.of_nat (length (x ++ rest)) = n.
Proof. intros Hk. by apply iaes_inverts. Qed.

(** A key for the witnesses: the bytes 0 .. 31 and a zero vector. *)
Definition key0 : Iaes.iaes_key := Iaes.Key (seqZ 0 32) (replicate 16 0).

Lemma key0_ok : iaes_key_ok key0.
Proof. constructor; [done | | done |]; repeat constructor; done. Qed.

Lemma iaes_roundtrip_witness :
  let '(y, n) := Iaes.dap_enc_iaes256_cbc_encrypt_fast key0 [1; 2; 3] 64 in
  n = Z.of_nat (length y) /\ n = Iaes.dap_enc_iaes256_calc_encode_size 3 /\ Forall (fits 8) y /\
  exists rest, Iaes.dap_enc_iaes256_cbc_decrypt_fast key0 y 32 = Some ([1; 2; 3] ++ rest, 3) /\
    Z.of_nat (length ([1; 2; 3] ++ rest)) = n.
Proof. apply (iaes_roundtrip key0 [1; 2; 3] 64 32 key0_ok); [done | repeat constructor; done | done | done]. Defined.

(** C30: decoding inverts encoding through the encryption interface, for every
    lawful cipher and each of the three output types: [dap_enc_code] into a
    buffer of [dap_enc_code_out_size] bytes succeeds without leaving its
    buffers, and [dap_enc_decode] into one of [dap_enc_decode_out_size] bytes
    returns the plain text. *)
Theorem enc_code_roundtrip (k : dap_enc_key) (t : dap_enc_data_type) (call : nat) (x : list Z) :
  SymCipher k -> x <> [] -> Z.of_nat (length x) < 2 ^ 59 -> Forall (fits 8) x ->
  exists y, dap_enc_code k call x (dap_enc_code_out_size k (Z.of_nat (length x)) t) t
      = Some (y, dap_enc_code_out_size k (Z.of_nat (length x)) t) /\
    Z.of_nat (length y) = dap_enc_code_out_size k (Z.of_nat (length x)) t /\
    exists rest, dap_enc_decode k y (dap_enc_decode_out_size k (Z.of_nat (length y)) t) t
      = Some (x ++ rest, Z.of_nat (length x)).
Proof. intros Hk. by apply code_inverts. Qed.

Lemma enc_code_roundtrip_witness :
  exists y, dap_enc_code (iaes_enc_key key0) 0 [104; 105] 24 DAP_ENC_DATA_TYPE_B64 = Some (y, 24) /\
    Z.of_nat (length y) = 24 /\
    exists rest, dap_enc_decode (iaes_enc_key key0) y
      (dap_enc_decode_out_size (iaes_enc_key key0) (Z.of_nat (length y)) DAP_ENC_DATA_TYPE_B64) DAP_ENC_DATA_TYPE_B64
      = Some ([104; 105] ++ rest, 2).
Proof.
  apply (enc_code_roundtrip (iaes_enc_key key0) DAP_ENC_DATA_TYPE_B64 0 [104; 105] (iaes_cipher key0 key0_ok));
    [done | done | repeat constructor; done].
Defined.

(** An empty ciphertext makes [dap_enc_iaes256_cbc_decrypt_fast] read the
    byte before its output buffer: zero is a multiple of the block size, so no
    check stops it, and the padding is taken from [data[-1]]. *)
Theorem iaes_empty_underread (k : Iaes.iaes_key) (m : Z) : 0 <= m ->
  Iaes.dap_enc_iaes256_cbc_decrypt_fast k [] m = None.
Proof.
  intros Hm. unfold Iaes.dap_enc_iaes256_cbc_decrypt_fast. cbn [length Z.of_nat Z.modulo Z.eqb negb].
  by rewrite (proj2 (Z.ltb_ge _ _)) by lia.
Qed.

Lemma iaes_empty_underread_witness : Iaes.dap_enc_iaes256_cbc_decrypt_fast key0 [] 0 = None.
Proof. apply iaes_empty_underread. lia. Defined.
