(* ===== verification/Tsd.v ===== *)
(** * Type-size-data sections (core/src/dap_tsd.c, core/include/dap_tsd.h)

    A [dap_tsd_t] in memory is its packed header (16-bit type, 32-bit size,
    little-endian) followed by [size] bytes.  Memory is a byte list; pointers
    into it are offsets.  A load or store outside the list is [None], so a
    result [Some _] carries memory safety.  The scanning loops recurse on
    [fuel]; each round advances by at least the header size, so one round per
    byte is always enough and the theorems are proved for that fuel. *)

From S2P Require Import Prelude.
Local Open Scope Z_scope.

Definition sizeof_tsd : Z := 6.

(** [l_tsd->type], [l_tsd->size] and [dap_tsd_size] of the record at [off]. *)
Definition tsd_type (mem : list Z) (off : Z) : option Z := mem_le mem off 2.

Definition tsd_size (mem : list Z) (off : Z) : option Z := mem_le mem (off + 2) 4.

Definition dap_tsd_size (mem : list Z) (off : Z) : option Z :=
  s ← tsd_size mem off; Some (wrap 64 (sizeof_tsd + s)).

(** [a_data] is [None] for [NULL]; returns the memory and the pointer past
    the data. *)
Definition dap_tsd_write (mem : list Z) (a_ptr : Z) (a_type : Z) (a_data : option (list Z))
    (a_data_size : Z) : option (list Z * Z) :=
  mem ← mem_write mem a_ptr (le_bytes 2 a_type);
  mem ← mem_write mem (a_ptr + 2) (le_bytes 4 a_data_size);
  match a_data with
  | Some d =>
    if a_data_size =? 0 then Some (mem, a_ptr + sizeof_tsd)
    else d ← mem_read d 0 a_data_size;
         mem ← mem_write mem (a_ptr + sizeof_tsd) d;
         Some (mem, a_ptr + sizeof_tsd + a_data_size)
  | None => Some (mem, a_ptr + sizeof_tsd)
  end.

Definition dap_tsd_create (a_type : Z) (a_data : option (list Z)) (a_data_size : Z)
    : option (list Z) :=
  let l_tsd := replicate (Z.to_nat (sizeof_tsd + a_data_size)) 0 in
  '(l_tsd, _) ← dap_tsd_write l_tsd 0 a_type a_data a_data_size; Some l_tsd.

(** [Some None] is [NULL]. *)
Fixpoint tsd_find_loop (fuel : nat) (a_data : list Z) (a_data_size a_type l_offset : Z)
    : option (option Z) :=
  match fuel with
  | O => None
  | S fuel =>
    if (wrap 64 (l_offset + sizeof_tsd) <? a_data_size) &&
       (l_offset <? wrap 64 (l_offset + sizeof_tsd)) then
      l_tsd_size ← dap_tsd_size a_data l_offset;
      if (a_data_size <? wrap 64 (l_tsd_size + l_offset)) ||
         (wrap 64 (l_tsd_size + l_offset) <? l_offset) then Some None
      else
        t ← tsd_type a_data l_offset;
        if t =? a_type then Some (Some l_offset)
        else tsd_find_loop fuel a_data a_data_size a_type (wrap 64 (l_offset + l_tsd_size))
    else Some None
  end.

Definition dap_tsd_find (a_data : list Z) (a_data_size a_type : Z) : option (option Z) :=
  tsd_find_loop (S (length a_data)) a_data a_data_size a_type 0.

(** The list of copies, oldest first ([dap_list_append]). *)
Fixpoint tsd_find_all_loop (fuel : nat) (a_data : list Z)
    (a_data_size a_type a_type_size l_offset : Z) (l_ret : list (list Z))
    : option (list (list Z)) :=
  match fuel with
  | O => None
  | S fuel =>
    if (wrap 64 (l_offset + sizeof_tsd) <? a_data_size) &&
       (l_offset <? wrap 64 (l_offset + sizeof_tsd)) then
      l_tsd_size ← dap_tsd_size a_data l_offset;
      if (a_data_size <? wrap 64 (l_tsd_size + l_offset)) ||
         (wrap 64 (l_tsd_size + l_offset) <? l_offset) then Some l_ret
      else
        t ← tsd_type a_data l_offset;
        s ← tsd_size a_data l_offset;
        l_ret ← (if (t =? a_type) && ((a_type_size =? 0) || (s =? a_type_size))
                 then dup ← mem_read a_data l_offset l_tsd_size; Some (l_ret ++ [dup])
                 else Some l_ret);
        tsd_find_all_loop fuel a_data a_data_size a_type a_type_size
          (wrap 64 (l_offset + l_tsd_size)) l_ret
    else Some l_ret
  end.

Definition dap_tsd_find_all (a_data : list Z) (a_data_size a_type a_type_size : Z)
    : option (list (list Z)) :=
  tsd_find_all_loop (S (length a_data)) a_data a_data_size a_type a_type_size 0 [].

(** A list of [dap_tsd_t] objects, each its own allocation. *)
Fixpoint dap_tsd_calc_list_size (a_tsd_list : list (list Z)) : option Z :=
  match a_tsd_list with
  | [] => Some 0
  | d :: l => s ← dap_tsd_size d 0; n ← dap_tsd_calc_list_size l; Some (wrap 64 (s + n))
  end.

Fixpoint tsd_fill_loop (a_dst : list Z) (a_tsd_list : list (list Z)) (l_offset : Z)
    : option (list Z * Z) :=
  match a_tsd_list with
  | [] => Some (a_dst, l_offset)
  | d :: l =>
    l_tsd_size ← dap_tsd_size d 0;
    bytes ← mem_read d 0 l_tsd_size;
    a_dst ← mem_write a_dst l_offset bytes;
    tsd_fill_loop a_dst l (wrap 64 (l_offset + l_tsd_size))
  end.

Definition dap_tsd_fill_from_list (a_dst : list Z) (a_tsd_list : list (list Z)) :=
  tsd_fill_loop a_dst a_tsd_list 0.

(** ** Records and their bytes *)

(** A record: its type and its data. *)
Definition tsd_record : Type := Z * list Z.

Definition tsd_bytes (r : tsd_record) : list Z :=
  le_bytes 2 r.1 ++ le_bytes 4 (Z.of_nat (length r.2)) ++ r.2.

Definition tsd_ok (r : tsd_record) : Prop := fits 16 r.1 /\ Z.of_nat (length r.2) < 2 ^ 32.

Definition tsd_concat (rs : list tsd_record) : list Z := concat (map tsd_bytes rs).

Lemma length_tsd_bytes r : length (tsd_bytes r) = (6 + length r.2)%nat.
Proof. unfold tsd_bytes. rewrite !length_app, !length_le_bytes. lia. Qed.

(** The fields of a record that starts after [pre]. *)
Lemma tsd_fields pre r post : tsd_ok r ->
  let mem := pre ++ tsd_bytes r ++ post in let off := Z.of_nat (length pre) in
  tsd_type mem off = Some r.1 /\ tsd_size mem off = Some (Z.of_nat (length r.2)) /\
  dap_tsd_size mem off = Some (sizeof_tsd + Z.of_nat (length r.2)) /\
  mem_read mem off (sizeof_tsd + Z.of_nat (length r.2)) = Some (tsd_bytes r).
Proof.
  intros [Ht Hs] mem off.
  assert (Esize : tsd_size mem off = Some (Z.of_nat (length r.2))).
  { unfold tsd_size, mem, off, tsd_bytes. rewrite <- !(app_assoc _ _ post), (app_assoc pre).
    pose proof (mem_le_app (pre ++ le_bytes 2 r.1) 4 (Z.of_nat (length r.2)) (r.2 ++ post)) as E.
    rewrite length_app, length_le_bytes in E. rewrite Nat2Z.inj_add in E. apply E.
    unfold fits. lia. }
  split; [|split; [done | split]].
  - unfold tsd_type, mem, off, tsd_bytes. rewrite <- !(app_assoc _ _ post).
    by apply (mem_le_app pre 2).
  - unfold dap_tsd_size. rewrite Esize. cbn [mbind option_bind]. rewrite wrap_id; [done|].
    unfold fits, sizeof_tsd. lia.
  - unfold mem, off, sizeof_tsd.
    replace (6 + Z.of_nat (length r.2)) with (Z.of_nat (length (tsd_bytes r)))
      by (rewrite length_tsd_bytes; lia). apply mem_read_app.
Qed.

(** ** Scanning arbitrary bytes *)

Section Scan.
Variables (mem : list Z) (Hmem : Forall (fits 8) mem) (Hlen : Z.of_nat (length mem) < 2 ^ 63).
Let n := Z.of_nat (length mem).

Lemma scan_header off : 0 <= off -> off + 6 < n ->
  exists t s, tsd_type mem off = Some t /\ tsd_size mem off = Some s /\ 0 <= s < 2 ^ 32 /\
    dap_tsd_size mem off = Some (6 + s).
Proof using Hmem.
  intros H0 H6. unfold tsd_type, dap_tsd_size, tsd_size.
  destruct (mem_le_Some mem off 2) as [t Et]; [lia..|].
  destruct (mem_le_Some mem (off + 2) 4) as [s Es]; [lia..|].
  pose proof (mem_le_fits _ _ _ _ Hmem Es) as B. exists t, s. rewrite Et, Es. cbn [mbind option_bind].
  split; [done|]. split; [done|]. split; [done|]. rewrite wrap_id; [done|]. unfold fits, sizeof_tsd in *. lia.
Qed.

Lemma scan_guard off : 0 <= off <= n ->
  (wrap 64 (off + sizeof_tsd) <? n) && (off <? wrap 64 (off + sizeof_tsd)) = (off + 6 <? n).
Proof using Hlen.
  intros H. unfold sizeof_tsd. rewrite wrap_id by (unfold fits; lia). lia.
Qed.

(** The record found is whole, inside the data and of the asked type. *)
Lemma find_loop_safe fuel ty off : 0 <= off <= n -> n - off < Z.of_nat fuel ->
  exists r, tsd_find_loop fuel mem n ty off = Some r /\
    forall o, r = Some o -> exists s, tsd_type mem o = Some ty /\ dap_tsd_size mem o = Some s /\
      off <= o /\ o + s <= n.
Proof using Hmem Hlen.
  revert off. induction fuel as [|fuel IH]; intros off Ho Hf; [lia|].
  cbn [tsd_find_loop]. rewrite scan_guard by done.
  destruct (Z.ltb_spec (off + 6) n) as [H6 | _]; [|by eexists].
  destruct (scan_header off ltac:(lia) H6) as (t & s & Et & Es & Bs & Esz).
  rewrite Esz. cbn [mbind option_bind]. rewrite !(wrap_id 64) by (unfold fits; lia).
  destruct (Z.ltb_spec n (6 + s + off)); [by eexists|].
  rewrite (proj2 (Z.ltb_ge _ _)) by lia. cbn [orb]. rewrite Et. cbn [mbind option_bind].
  destruct (Z.eqb_spec t ty) as [-> | _].
  - eexists. split; [done|]. intros o [= <-]. exists (6 + s). repeat split; try done; lia.
  - destruct (IH (off + (6 + s))) as (r & E & Hr); [lia..|]. exists r. split; [done|].
    intros o Eo. destruct (Hr o Eo) as (s' & ? & ? & ? & ?). exists s'. repeat split; try done; lia.
Qed.

Lemma find_all_loop_safe fuel ty sz off acc : 0 <= off <= n -> n - off < Z.of_nat fuel ->
  exists r, tsd_find_all_loop fuel mem n ty sz off acc = Some (acc ++ r).
Proof using Hmem Hlen.
  revert off acc. induction fuel as [|fuel IH]; intros off acc Ho Hf; [lia|].
  cbn [tsd_find_all_loop]. rewrite scan_guard by done.
  destruct (Z.ltb_spec (off + 6) n) as [H6 | _]; [|exists []; by rewrite app_nil_r].
  destruct (scan_header off ltac:(lia) H6) as (t & s & Et & Es & Bs & Esz).
  rewrite Esz. cbn [mbind option_bind]. rewrite !(wrap_id 64) by (unfold fits; lia).
  destruct (Z.ltb_spec n (6 + s + off)); [exists []; by rewrite app_nil_r|].
  rewrite (proj2 (Z.ltb_ge _ _)) by lia. cbn [orb]. rewrite Et. cbn [mbind option_bind].
  rewrite Es. cbn [mbind option_bind].
  assert (exists d, mem_read mem off (6 + s) = Some d) as [d Ed].
  { unfold mem_read. rewrite !(proj2 (Z.leb_le _ _)) by lia. eauto. }
  destruct ((t =? ty) && ((sz =? 0) || (s =? sz))); rewrite ?Ed; cbn [mbind option_bind].
  - destruct (IH (off + (6 + s)) (acc ++ [d])) as [r E]; [lia..|]. exists (d :: r).
    by rewrite E, <- app_assoc.
  - apply IH; lia.
Qed.
End Scan.

(** ** Scanning a sequence of records *)

(** The loops stop when no byte follows a header, so a last record without
    data is never reached. *)
Fixpoint visible (rs : list tsd_record) : list tsd_record :=
  match rs with
  | [] => []
  | [r] => if (length r.2 =? 0)%nat then [] else [r]
  | r :: rs => r :: visible rs
  end.

Definition tsd_match (ty sz : Z) (r : tsd_record) : bool :=
  (r.1 =? ty) && ((sz =? 0) || (Z.of_nat (length r.2) =? sz)).

(** Offset of the first record of a type. *)
Fixpoint tsd_first (ty off : Z) (rs : list tsd_record) : option Z :=
  match rs with
  | [] => None
  | r :: rs => if r.1 =? ty then Some off
               else tsd_first ty (off + Z.of_nat (length (tsd_bytes r))) rs
  end.

Lemma visible_cons r rs :
  visible (r :: rs) = (if (length r.2 + length (tsd_concat rs) =? 0)%nat then [] else r :: visible rs) /\
  ((length r.2 + length (tsd_concat rs) = 0)%nat -> rs = []).
Proof.
  destruct rs as [|r' rs]; cbn [visible tsd_concat map concat length].
  - rewrite Nat.add_0_r. destruct (length r.2 =? 0)%nat; auto.
  - rewrite length_app, length_tsd_bytes. split; [|lia].
    rewrite (proj2 (Nat.eqb_neq (length r.2 + _) 0)) by lia. done.
Qed.

Lemma find_all_records fuel ty sz rs pre acc : Forall tsd_ok rs ->
  Z.of_nat (length (pre ++ tsd_concat rs)) < 2 ^ 63 -> (length (tsd_concat rs) < fuel)%nat ->
  tsd_find_all_loop fuel (pre ++ tsd_concat rs) (Z.of_nat (length (pre ++ tsd_concat rs))) ty sz
    (Z.of_nat (length pre)) acc
  = Some (acc ++ map tsd_bytes (List.filter (tsd_match ty sz) (visible rs))).
Proof.
  intros Hrs. revert fuel pre acc. induction Hrs as [|r rs Hr Hrs IH]; intros fuel pre acc Hlen Hf;
    (destruct fuel as [|fuel]; [lia|]); cbn [tsd_find_all_loop]; rewrite scan_guard by (rewrite ?length_app in *; lia).
  - rewrite length_app. cbn [tsd_concat concat map length visible List.filter].
    rewrite (proj2 (Z.ltb_ge _ _)) by lia. by rewrite app_nil_r.
  - destruct (visible_cons r rs) as [Ev Ene].
    change (tsd_concat (r :: rs)) with (tsd_bytes r ++ tsd_concat rs) in *.
    destruct (tsd_fields pre r (tsd_concat rs) Hr) as (Et & Es & Esz & Erd).
    rewrite !length_app, length_tsd_bytes in *. rewrite Ev.
    destruct (Nat.eqb_spec (length r.2 + length (tsd_concat rs)) 0) as [E0 | Hn0].
    { rewrite (proj2 (Z.ltb_ge _ _)) by lia. cbn. by rewrite app_nil_r. }
    rewrite (proj2 (Z.ltb_lt _ _)), Esz by lia. cbn [mbind option_bind].
    unfold sizeof_tsd in *. rewrite !(wrap_id 64) by (unfold fits; lia).
    rewrite !(proj2 (Z.ltb_ge _ _)) by lia. cbn [orb]. rewrite Et. cbn [mbind option_bind].
    rewrite Es. cbn [mbind option_bind]. fold (tsd_match ty sz r). cbn [List.filter].
    specialize (IH fuel (pre ++ tsd_bytes r)). rewrite <- (app_assoc pre) in IH.
    rewrite !length_app, length_tsd_bytes in IH.
    replace (Z.of_nat (length pre) + (6 + Z.of_nat (length r.2)))
      with (Z.of_nat (length pre + (6 + length r.2))) by lia.
    replace (length pre + (6 + length r.2) + length (tsd_concat rs))%nat
      with (length pre + (6 + length r.2 + length (tsd_concat rs)))%nat in IH by lia.
    destruct (tsd_match ty sz r); rewrite ?Erd; cbn [mbind option_bind map]; rewrite IH by lia.
    + by rewrite <- app_assoc.
    + done.
Qed.

Lemma find_records fuel ty rs pre : Forall tsd_ok rs ->
  Z.of_nat (length (pre ++ tsd_concat rs)) < 2 ^ 63 -> (length (tsd_concat rs) < fuel)%nat ->
  tsd_find_loop fuel (pre ++ tsd_concat rs) (Z.of_nat (length (pre ++ tsd_concat rs))) ty
    (Z.of_nat (length pre))
  = Some (tsd_first ty (Z.of_nat (length pre)) (visible rs)).
Proof.
  intros Hrs. revert fuel pre. induction Hrs as [|r rs Hr Hrs IH]; intros fuel pre Hlen Hf;
    (destruct fuel as [|fuel]; [lia|]); cbn [tsd_find_loop]; rewrite scan_guard by (rewrite ?length_app in *; lia).
  - rewrite length_app. cbn [tsd_concat concat map length visible tsd_first].
    by rewrite (proj2 (Z.ltb_ge _ _)) by lia.
  - destruct (visible_cons r rs) as [Ev Ene].
    change (tsd_concat (r :: rs)) with (tsd_bytes r ++ tsd_concat rs) in *.
    destruct (tsd_fields pre r (tsd_concat rs) Hr) as (Et & Es & Esz & Erd).
    rewrite !length_app, length_tsd_bytes in *. rewrite Ev.
    destruct (Nat.eqb_spec (length r.2 + length (tsd_concat rs)) 0) as [E0 | Hn0].
    { by rewrite (proj2 (Z.ltb_ge _ _)) by lia. }
    rewrite (proj2 (Z.ltb_lt _ _)), Esz by lia. cbn [mbind option_bind tsd_first].
    unfold sizeof_tsd in *. rewrite !(wrap_id 64) by (unfold fits; lia).
    rewrite !(proj2 (Z.ltb_ge _ _)) by lia. cbn [orb]. rewrite Et. cbn [mbind option_bind].
    destruct (r.1 =? ty); [done|].
    specialize (IH fuel (pre ++ tsd_bytes r)). rewrite <- (app_assoc pre) in IH.
    rewrite !length_app, length_tsd_bytes in IH.
    replace (Z.of_nat (length pre) + (6 + Z.of_nat (length r.2)))
      with (Z.of_nat (length pre + (6 + length r.2))) by lia.
    replace (length pre + (6 + length r.2) + length (tsd_concat rs))%nat
      with (length pre + (6 + length r.2 + length (tsd_concat rs)))%nat in IH by lia.
    rewrite IH by lia. rewrite length_tsd_bytes. do 2 f_equal. lia.
Qed.

(** ** Building records *)

Lemma write_spec pre old t d post : length old = length (tsd_bytes (t, d)) ->
  dap_tsd_write (pre ++ old ++ post) (Z.of_nat (length pre)) t (Some d) (Z.of_nat (length d))
  = Some (pre ++ tsd_bytes (t, d) ++ post,
          Z.of_nat (length pre) + Z.of_nat (length (tsd_bytes (t, d)))).
Proof.
  intros HL. rewrite length_tsd_bytes in *. cbn [snd] in *.
  assert (exists o1 o2 o3, old = o1 ++ o2 ++ o3 /\ length o1 = 2%nat /\ length o2 = 4%nat /\
    length o3 = length d) as (o1 & o2 & o3 & -> & L1 & L2 & L3).
  { exists (take 2 old), (take 4 (drop 2 old)), (drop 6 old).
    rewrite !length_take, !length_drop. split; [|lia].
    change (drop 6 old) with (drop (2 + 4) old). by rewrite <- drop_drop, !take_drop. }
  unfold dap_tsd_write, sizeof_tsd, tsd_bytes. cbn [fst snd].
  rewrite <- !app_assoc. rewrite mem_write_app by (by rewrite length_le_bytes).
  cbn [mbind option_bind]. rewrite (app_assoc pre).
  assert (E2 : Z.of_nat (length pre) + 2 = Z.of_nat (length (pre ++ le_bytes 2 t)))
    by (rewrite length_app, length_le_bytes; lia).
  rewrite E2, mem_write_app by (by rewrite length_le_bytes). cbn [mbind option_bind].
  destruct (Z.eqb_spec (Z.of_nat (length d)) 0) as [E0 | _].
  - destruct d, o3; try done. rewrite <- app_assoc. done.
  - change 0 with (Z.of_nat 0). rewrite mem_read_nat by lia. rewrite drop_0, firstn_all.
    cbn [mbind option_bind]. rewrite (app_assoc (pre ++ _)).
    assert (E6 : Z.of_nat (length pre) + 6
      = Z.of_nat (length ((pre ++ le_bytes 2 t) ++ le_bytes 4 (Z.of_nat (length d)))))
      by (rewrite !length_app, !length_le_bytes; lia).
    rewrite E6 at 1. rewrite mem_write_app by done. cbn [mbind option_bind].
    rewrite <- !app_assoc. do 2 f_equal. lia.
Qed.

Lemma tsd_create_spec t d : Z.of_nat (length d) < 2 ^ 32 ->
  dap_tsd_create t (Some d) (Z.of_nat (length d)) = Some (tsd_bytes (t, d)).
Proof.
  intros Hd. unfold dap_tsd_create. set (old := replicate _ _).
  pose proof (write_spec [] old t d []) as E. rewrite !app_nil_r in E. cbn [app length] in E.
  change (Z.of_nat 0) with 0 in E. rewrite E; [done|].
  subst old. rewrite length_replicate, length_tsd_bytes. unfold sizeof_tsd. cbn [snd]. lia.
Qed.

Lemma fill_records rs pre post old : Forall tsd_ok rs -> length old = length (tsd_concat rs) ->
  Z.of_nat (length pre + length (tsd_concat rs)) < 2 ^ 63 ->
  tsd_fill_loop (pre ++ old ++ post) (map tsd_bytes rs) (Z.of_nat (length pre))
  = Some (pre ++ tsd_concat rs ++ post, Z.of_nat (length pre + length (tsd_concat rs))).
Proof.
  intros Hrs. revert pre old. induction Hrs as [|r rs Hr _ IH]; intros pre old HL Hn.
  - destruct old; [|done]. cbn. by rewrite Nat.add_0_r.
  - change (tsd_concat (r :: rs)) with (tsd_bytes r ++ tsd_concat rs) in *.
    rewrite length_app in *. cbn [map tsd_fill_loop].
    destruct (tsd_fields [] r [] Hr) as (_ & _ & Esz & Erd).
    cbn [app length] in Esz, Erd. rewrite app_nil_r in Esz, Erd. change (Z.of_nat 0) with 0 in *.
    rewrite Esz. cbn [mbind option_bind]. rewrite Erd. cbn [mbind option_bind].
    rewrite <- (take_drop (length (tsd_bytes r)) old), <- app_assoc.
    rewrite mem_write_app by (rewrite length_take; lia). cbn [mbind option_bind].
    pose proof (length_tsd_bytes r) as Lr. unfold sizeof_tsd.
    rewrite wrap_id by (unfold fits; lia).
    replace (Z.of_nat (length pre) + (6 + Z.of_nat (length r.2)))
      with (Z.of_nat (length (pre ++ tsd_bytes r))) by (rewrite length_app; lia).
    rewrite (app_assoc pre), IH by (rewrite ?length_app, ?length_drop; lia).
    rewrite length_app, <- !app_assoc. do 2 f_equal. lia.
Qed.

Lemma calc_records rs : Forall tsd_ok rs -> Z.of_nat (length (tsd_concat rs)) < 2 ^ 63 ->
  dap_tsd_calc_list_size (map tsd_bytes rs) = Some (Z.of_nat (length (tsd_concat rs))).
Proof.
  induction 1 as [|r rs Hr _ IH]; intros Hn; [done|].
  change (tsd_concat (r :: rs)) with (tsd_bytes r ++ tsd_concat rs) in *.
  rewrite length_app in *. cbn [map dap_tsd_calc_list_size].
  destruct (tsd_fields [] r [] Hr) as (_ & _ & Esz & _).
  cbn [app length] in Esz. rewrite app_nil_r in Esz. change (Z.of_nat 0) with 0 in *.
  rewrite Esz. cbn [mbind option_bind]. rewrite IH by lia. cbn [mbind option_bind].
  pose proof (length_tsd_bytes r) as Lr. unfold sizeof_tsd.
  rewrite wrap_id by (unfold fits; lia). f_equal. lia.
Qed.

(** ** Properties of TSD sections *)

(** Scanning arbitrary bytes is safe.  On any byte string (of a size that
    can be allocated) [dap_tsd_find] and [dap_tsd_find_all] terminate without
    a read outside it, and a record [dap_tsd_find] returns has the asked type
    and lies inside the data with its announced size. *)
Theorem tsd_scan_safe mem ty sz : Forall (fits 8) mem -> Z.of_nat (length mem) < 2 ^ 63 ->
  let n := Z.of_nat (length mem) in
  (exists r, dap_tsd_find mem n ty = Some r /\
     forall o, r = Some o -> exists s, tsd_type mem o = Some ty /\
       dap_tsd_size mem o = Some s /\ 0 <= o /\ o + s <= n) /\
  (exists l, dap_tsd_find_all mem n ty sz = Some l).
Proof.
  intros Hm Hn n. split.
  - destruct (find_loop_safe mem Hm Hn (S (length mem)) ty 0) as (r & E & Hr); [lia..|].
    by exists r.
  - destruct (find_all_loop_safe mem Hm Hn (S (length mem)) ty sz 0 []) as [r E]; [lia..|].
    by exists r.
Qed.

Lemma tsd_scan_safe_witness :
  exists l, dap_tsd_find_all [1; 0; 255; 255; 255; 255; 9; 9] 8 1 0 = Some l.
Proof.
  apply (tsd_scan_safe [1; 0; 255; 255; 255; 255; 9; 9] 1 0); [|reflexivity].
  repeat constructor; done.
Defined.

(** Build and scan are inverse.  Records created with [dap_tsd_create] and
    laid out with [dap_tsd_fill_from_list] in a block of the size
    [dap_tsd_calc_list_size] computes are found again by type (and size) in
    their order, and [dap_tsd_find] returns the first; the only exception is a
    last record with no data, which the loops never reach. *)
Theorem tsd_roundtrip rs ty sz : Forall tsd_ok rs -> Z.of_nat (length (tsd_concat rs)) < 2 ^ 63 ->
  exists objs n mem,
    mapM (λ r, dap_tsd_create r.1 (Some r.2) (Z.of_nat (length r.2))) rs = Some objs /\
    dap_tsd_calc_list_size objs = Some n /\
    dap_tsd_fill_from_list (replicate (Z.to_nat n) 0) objs = Some (mem, n) /\
    dap_tsd_find_all mem n ty sz
      = Some (map tsd_bytes (List.filter (tsd_match ty sz) (visible rs))) /\
    dap_tsd_find mem n ty = Some (tsd_first ty 0 (visible rs)).
Proof.
  intros Hrs Hn. exists (map tsd_bytes rs), (Z.of_nat (length (tsd_concat rs))), (tsd_concat rs).
  split.
  { clear Hn. induction Hrs as [|[t d] rs [_ Hr] _ IH]; [done|]. cbn [mapM fst snd].
    rewrite tsd_create_spec by done. cbn [mbind option_bind]. by rewrite IH. }
  split; [by apply calc_records|]. rewrite Nat2Z.id. split.
  { pose proof (fill_records rs [] [] (replicate (length (tsd_concat rs)) 0) Hrs) as E.
    rewrite !app_nil_r in E. apply E; [apply length_replicate | simpl; lia]. }
  split.
  - apply (find_all_records (S (length (tsd_concat rs))) ty sz rs [] []); [done | done | lia].
  - apply (find_records (S (length (tsd_concat rs))) ty rs []); [done | done | lia].
Qed.

Lemma tsd_roundtrip_witness :
  exists objs n mem,
    mapM (λ r, dap_tsd_create r.1 (Some r.2) (Z.of_nat (length r.2))) [(7, [1; 2]); (9, []); (7, [])]
      = Some objs /\
    dap_tsd_calc_list_size objs = Some n /\
    dap_tsd_fill_from_list (replicate (Z.to_nat n) 0) objs = Some (mem, n) /\
    dap_tsd_find_all mem n 7 0 = Some [tsd_bytes (7, [1; 2])] /\
    dap_tsd_find mem n 9 = Some (Some 8).
Proof.
  destruct (tsd_roundtrip [(7, [1; 2]); (9, []); (7, [])] 7 0) as (objs & n & mem & E1 & E2 & E3 & E4 & _);
    [repeat constructor; done | done |].
  exists objs, n, mem. split; [exact E1|]. split; [exact E2|]. split; [exact E3|].
  split; [exact E4|]. vm_compute in E1. injection E1 as <-. vm_compute in E2. injection E2 as <-.
  vm_compute in E3. injection E3 as <-. reflexivity.
Defined.
