(* ===== verification/Base58.v ===== *)
(** * Base58 (crypto/src/dap_enc_base58.c)

    Bytes and characters are [Z] in [[0, 256)]; a C string is the list of its
    characters without the terminator.  The arrays the code walks from their
    last index to the first ([buf] of the encoder, [l_outi] of the decoder)
    are kept in that order, least significant element first; an access below
    index 0 is [None].  A function that stores through [a_out] returns the
    list of stored values next to its result; [(0, [])] is an early
    [return 0]. *)

From S2P Require Import Prelude.
Local Open Scope Z_scope.

Definition c_b58digits_ordered : list Z :=
  seqZ 49 9 ++ seqZ 65 8 ++ seqZ 74 5 ++ seqZ 80 11 ++ seqZ 97 11 ++ seqZ 109 14.

Definition c_b58digits_map : list Z := [
    -1;-1;-1;-1;-1;-1;-1;-1;-1;-1;-1;-1;-1;-1;-1;-1;
    -1;-1;-1;-1;-1;-1;-1;-1;-1;-1;-1;-1;-1;-1;-1;-1;
    -1;-1;-1;-1;-1;-1;-1;-1;-1;-1;-1;-1;-1;-1;-1;-1;
    -1; 0; 1; 2; 3; 4; 5; 6; 7; 8;-1;-1;-1;-1;-1;-1;
    -1; 9;10;11;12;13;14;15;16;-1;17;18;19;20;21;-1;
    22;23;24;25;26;27;28;29;30;31;32;-1;-1;-1;-1;-1;
    -1;33;34;35;36;37;38;39;40;41;42;43;-1;44;45;46;
    47;48;49;50;51;52;53;54;55;56;57;-1;-1;-1;-1;-1 ].

Definition DAP_ENC_BASE58_ENCODE_SIZE (n : Z) : Z := wrap 64 (137 * n) / 100 + 2.

Definition DAP_ENC_BASE58_DECODE_SIZE (n : Z) : Z := wrap 64 (2 * n + 1).

(** Leading zero bytes. *)
Fixpoint count_zeros (l : list Z) : nat :=
  match l with
  | [] => O
  | b :: l => if b =? 0 then S (count_zeros l) else O
  end.

(** ** Encoding *)

(** The inner loop, [(j > high) || carry], over [buf] from its end; [forced]
    is the number of indices above [high].  Also returns the number of
    rounds, [size - 1 - j] at the exit. *)
Fixpoint b58_carry (buf : list Z) (forced : nat) (carry : Z) : option (list Z * nat) :=
  if (0 <? forced)%nat || negb (carry =? 0) then
    match buf with
    | [] => None
    | d :: buf =>
      let carry := carry + 256 * d in
      '(buf, n) ← b58_carry buf (pred forced) (carry / 58);
      Some (carry mod 58 :: buf, S n)
    end
  else Some (buf, O).

Fixpoint b58_encode_loop (inp buf : list Z) (forced : nat) : option (list Z) :=
  match inp with
  | [] => Some buf
  | b :: inp => '(buf, n) ← b58_carry buf forced b; b58_encode_loop inp buf n
  end.

(** The result and the characters stored, with the terminator. *)
Definition dap_enc_base58_encode (inp : list Z) : option (Z * list Z) :=
  let a_in_size := Z.of_nat (length inp) in
  let l_out_size := DAP_ENC_BASE58_ENCODE_SIZE a_in_size in
  let zcount := count_zeros inp in
  let size := wrap 64 ((a_in_size - Z.of_nat zcount) * 138) / 100 + 1 in
  rbuf ← b58_encode_loop (drop zcount inp) (replicate (Z.to_nat size) 0) 0;
  let buf := reverse rbuf in
  let j := count_zeros buf in
  if l_out_size <=? Z.of_nat zcount + size - Z.of_nat j
  then Some (Z.of_nat zcount + size - Z.of_nat j + 1, [])
  else
    digits ← mapM (λ d, c_b58digits_ordered !! Z.to_nat d) (drop j buf);
    Some (Z.of_nat zcount + Z.of_nat (length digits), replicate zcount 49 ++ digits ++ [0]).

(** ** Decoding *)

(** [l_outi * 58 + c] from the last word to the first, with the carry out. *)
Fixpoint b58_mul_add (l_outi : list Z) (c : Z) : list Z * Z :=
  match l_outi with
  | [] => ([], c)
  | w :: l_outi =>
    let t := w * 58 + c in
    let '(l_outi, c) := b58_mul_add l_outi (Z.shiftr (Z.land t 270582939648) 32) in
    (Z.land t 4294967295 :: l_outi, c)
  end.

(** [None] is a [return 0]. *)
Fixpoint b58_decode_loop (inp l_outi : list Z) (zeromask : Z) : option (list Z) :=
  match inp with
  | [] => Some l_outi
  | ch :: inp =>
    if negb (Z.land ch 128 =? 0) then None
    else
      c ← c_b58digits_map !! Z.to_nat ch;
      if c =? -1 then None
      else
        let '(l_outi, c) := b58_mul_add l_outi c in
        if negb (c =? 0) then None
        else if negb (Z.land (List.last l_outi 0) zeromask =? 0) then None
        else b58_decode_loop inp l_outi zeromask
  end.

Fixpoint count_ones (l : list Z) : nat :=
  match l with
  | [] => O
  | b :: l => if b =? 49 then S (count_ones l) else O
  end.

(** The four bytes of a word, and the bytes of the partial first word. *)
Definition b58_word_bytes (w : Z) : list Z :=
  [ Z.land (Z.shiftr w 24) 255; Z.land (Z.shiftr w 16) 255;
    Z.land (Z.shiftr w 8) 255; Z.land (Z.shiftr w 0) 255 ].

Definition b58_first_bytes (bytesleft w : Z) : list Z :=
  let b3 := Z.shiftr (Z.land w 16711680) 16 in
  let b2 := Z.shiftr (Z.land w 65280) 8 in
  let b1 := Z.land w 255 in
  if bytesleft =? 3 then [b3; b2; b1]
  else if bytesleft =? 2 then [b2; b1]
  else if bytesleft =? 1 then [b1] else [].

(** [l_out_u80]: the words, most significant first. *)
Definition b58_out_bytes (bytesleft : Z) (words : list Z) : list Z :=
  match words with
  | [] => []
  | w :: rest =>
    b58_first_bytes bytesleft w ++
    concat (map b58_word_bytes (if bytesleft =? 0 then words else rest))
  end.

Definition dap_enc_base58_decode (inp : list Z) : Z * list Z :=
  let l_out_size_max := DAP_ENC_BASE58_DECODE_SIZE (Z.of_nat (length inp)) in
  let l_outi_size := (l_out_size_max + 3) / 4 in
  let bytesleft := l_out_size_max mod 4 in
  let zeromask := if bytesleft =? 0 then 0 else wrap 32 (Z.shiftl 4294967295 (bytesleft * 8)) in
  let zerocount := count_ones inp in
  match b58_decode_loop (drop zerocount inp) (replicate (Z.to_nat l_outi_size) 0) zeromask with
  | None => (0, [])
  | Some l_outi =>
    let l_out_u8 := b58_out_bytes bytesleft (reverse l_outi) in
    let i := count_zeros l_out_u8 in
    if (i <? length l_out_u8)%nat && (i <? zerocount)%nat then (0, [])
    else
      let out := drop i l_out_u8 in
      (Z.of_nat (length out) + Z.of_nat zerocount, replicate zerocount 0 ++ out ++ [0])
  end.

(** [DAP_NEW_Z_SIZE(l_out_size + 1)] holds what the encoder stores. *)
Definition dap_enc_base58_encode_to_str (inp : list Z) : option (list Z) :=
  let l_out_size := DAP_ENC_BASE58_ENCODE_SIZE (Z.of_nat (length inp)) in
  let l_out := replicate (Z.to_nat (l_out_size + 1)) 0 in
  '(_, stored) ← dap_enc_base58_encode inp;
  mem_write l_out 0 stored.

(** ** Positional notation, least significant digit first *)

Fixpoint dval (B : Z) (l : list Z) : Z :=
  match l with [] => 0 | d :: l => d + B * dval B l end.

Abbreviation digits B := (Forall (λ d, 0 <= d < B)).

Section Positional.
Variables (B : Z) (HB : 1 < B).

Lemma dval_bound l : digits B l -> 0 <= dval B l < B ^ Z.of_nat (length l).
Proof using HB.
  induction 1 as [|d l Hd _ IH]; [done|]. cbn [dval length].
  rewrite Nat2Z.inj_succ, Z.pow_succ_r by lia.
  assert (B * dval B l <= B * (B ^ Z.of_nat (length l) - 1)) by (apply Z.mul_le_mono_nonneg_l; lia).
  assert (0 <= B * dval B l) by (apply Z.mul_nonneg_nonneg; lia). lia.
Qed.

Lemma dval_app x y : dval B (x ++ y) = dval B x + B ^ Z.of_nat (length x) * dval B y.
Proof using HB.
  induction x as [|d x IH]; [cbn [app dval length]; rewrite Z.pow_0_r; lia|].
  cbn [app dval length]. rewrite IH, Nat2Z.inj_succ, Z.pow_succ_r by lia. ring.
Qed.

Lemma dval_zeros l : Forall (λ d, d = 0) l -> dval B l = 0.
Proof using. induction 1 as [|d l -> _ IH]; [done|]. cbn [dval]. lia. Qed.

Lemma dval_inj x y : digits B x -> digits B y -> length x = length y ->
  dval B x = dval B y -> x = y.
Proof using HB.
  intros Hx. revert y. induction Hx as [|d x Hd _ IH]; intros [|e y] Hy L E; try done.
  inversion Hy as [|? ? He Hy']; subst. cbn [dval] in E.
  assert (d = e /\ dval B x = dval B y) as [-> E'].
  { assert (Em : (d + B * dval B x) mod B = (e + B * dval B y) mod B) by congruence.
    rewrite !(Z.mul_comm B), !Z.mod_add, !Z.mod_small in Em by lia. subst e.
    split; [done|]. apply (Z.mul_reg_l _ _ B); lia. }
  f_equal. apply IH; [done | by injection L | done].
Qed.

(** A number without leading zeros (in [reverse] order) is at least the power
    of its length, so its digits are determined by its value. *)
Lemma dval_lower l d : digits B l -> 0 < d -> B ^ Z.of_nat (length l) <= dval B (l ++ [d]).
Proof using HB.
  intros Hl Hd. rewrite dval_app. cbn [dval]. pose proof (dval_bound l Hl).
  assert (B ^ Z.of_nat (length l) * 1 <= B ^ Z.of_nat (length l) * (d + B * 0))
    by (apply Z.mul_le_mono_nonneg_l; lia). lia.
Qed.
End Positional.

(** [drop (count_zeros l) l]: [l] without its leading zeros. *)
Definition strip (l : list Z) : list Z := drop (count_zeros l) l.

Lemma strip_split l : l = replicate (count_zeros l) 0 ++ strip l.
Proof.
  unfold strip. induction l as [|b l IH]; [done|]. cbn [count_zeros].
  destruct (Z.eqb_spec b 0) as [-> | _]; [|done]. cbn [replicate app drop]. by f_equal.
Qed.

Lemma strip_head l : strip l = [] \/ exists d r, strip l = d :: r /\ d <> 0.
Proof.
  unfold strip. induction l as [|b l IH]; [by left|]. cbn [count_zeros].
  destruct (Z.eqb_spec b 0); [done|]. right. exists b, l. done.
Qed.

Lemma dval_strip B l : 1 < B -> dval B (reverse (strip l)) = dval B (reverse l).
Proof.
  intros HB. rewrite (strip_split l) at 2. rewrite reverse_app, dval_app by done.
  rewrite (dval_zeros B (reverse (replicate _ _))); [lia|].
  rewrite reverse_replicate. by apply Forall_replicate.
Qed.

Lemma strip_digits B l : digits B l -> digits B (strip l).
Proof. apply Forall_drop. Qed.

Lemma strip_unique B x y : 1 < B -> digits B x -> digits B y ->
  dval B (reverse x) = dval B (reverse y) -> strip x = strip y.
Proof.
  intros HB Hx Hy E. rewrite <- (dval_strip B x), <- (dval_strip B y) in E by done.
  apply strip_digits in Hx, Hy. apply (inj reverse).
  apply (dval_inj B HB); [by apply Forall_reverse .. | | done].
  rewrite !length_reverse.
  assert (forall l, digits B l -> (l = [] \/ exists d r, l = d :: r /\ d <> 0) ->
    (length l = 0%nat /\ dval B (reverse l) = 0) \/
    (exists n, length l = S n /\ B ^ Z.of_nat n <= dval B (reverse l) < B ^ Z.of_nat (S n))) as Hlen.
  { intros l Hl [-> | (d & r & -> & Hd)]; [by left|]. right. exists (length r). split; [done|].
    inversion Hl as [|? ? Hd' Hr]; subst. split.
    - rewrite reverse_cons, <- (length_reverse r). apply dval_lower; [done | by apply Forall_reverse | lia].
    - rewrite <- (length_reverse (d :: r)) at 1.
      pose proof (dval_bound B HB (reverse (d :: r))) as Hb.
      rewrite length_reverse in *. cbn [length] in Hb. apply Hb. by apply Forall_reverse. }
  destruct (Hlen _ Hx (strip_head x)) as [[Lx Ex] | (n & Lx & Ex)],
    (Hlen _ Hy (strip_head y)) as [[Ly Ey] | (m & Ly & Ey)]; rewrite Lx, Ly; [done|..].
  - pose proof (Z.pow_pos_nonneg B (Z.of_nat m)). lia.
  - pose proof (Z.pow_pos_nonneg B (Z.of_nat n)). lia.
  - rewrite E in Ex. f_equal.
    assert (Z.of_nat n < Z.of_nat (S m)) by (apply (Z.pow_lt_mono_r_iff B); lia).
    assert (Z.of_nat m < Z.of_nat (S n)) by (apply (Z.pow_lt_mono_r_iff B); lia). lia.
Qed.

(** ** The encoder *)

Lemma b58_carry_spec buf forced carry : digits 58 buf -> 0 <= carry < 256 ->
  (forced <= length buf)%nat -> Forall (λ d, d = 0) (drop forced buf) ->
  256 * dval 58 buf + carry < 58 ^ Z.of_nat (length buf) ->
  exists buf' n, b58_carry buf forced carry = Some (buf', n) /\ length buf' = length buf /\
    digits 58 buf' /\ dval 58 buf' = 256 * dval 58 buf + carry /\ (n <= length buf')%nat /\
    Forall (λ d, d = 0) (drop n buf').
Proof.
  intros Hd. revert forced carry.
  induction Hd as [|d buf Hdig Hd IH]; intros forced carry Hc Hf Hz Hlt.
  - cbn [dval length] in *. assert (carry = 0) as -> by lia. assert (forced = O) as -> by lia.
    by exists [], O.
  - cbn [b58_carry]. cbn [dval] in Hlt.
    destruct ((0 <? forced)%nat || negb (carry =? 0)) eqn:Eact.
    + cbn [length] in *. rewrite Nat2Z.inj_succ, Z.pow_succ_r in Hlt by lia.
      pose proof (Z.div_mod (carry + 256 * d) 58 ltac:(lia)) as Ediv.
      pose proof (Z.mod_pos_bound (carry + 256 * d) 58 ltac:(lia)) as Bmod.
      destruct (IH (pred forced) ((carry + 256 * d) / 58)) as (r & n & -> & L & D & V & N & Z0).
      * split; [apply Z.div_pos; lia | apply Z.div_lt_upper_bound; lia].
      * lia.
      * destruct forced; [|done]. inversion Hz; subst. done.
      * lia.
      * cbn [mbind option_bind]. do 2 eexists. split; [done|]. cbn [length dval drop].
        split; [lia|]. split; [by constructor|]. split; [rewrite V; lia|]. split; [lia | done].
    + apply orb_false_iff in Eact as [Ef Ec]. apply Nat.ltb_ge in Ef. apply negb_false_iff, Z.eqb_eq in Ec.
      assert (forced = O) as -> by lia. subst carry. cbn [drop] in Hz.
      exists (d :: buf), O. split; [done|]. split; [done|]. split; [by constructor|].
      rewrite (dval_zeros 58 (d :: buf)) by done. split; [done|]. split; [lia | done].
Qed.

(** Value of a byte string, most significant byte first, on top of [acc]. *)
Fixpoint be_value (acc : Z) (l : list Z) : Z :=
  match l with [] => acc | b :: l => be_value (256 * acc + b) l end.

Lemma be_value_dval l : be_value 0 l = dval 256 (reverse l).
Proof.
  assert (forall acc, be_value acc l = acc * 256 ^ Z.of_nat (length l) + dval 256 (reverse l)) as H.
  { induction l as [|b l IH]; intros acc; [cbn; lia|]. cbn [be_value length].
    rewrite IH, reverse_cons, dval_app, length_reverse, Nat2Z.inj_succ, Z.pow_succ_r by lia.
    cbn [dval]. ring. }
  rewrite H. lia.
Qed.

Lemma be_value_mono acc l K : 0 <= acc -> digits 256 l -> be_value acc l < K -> acc < K.
Proof.
  intros Ha Hl. revert acc Ha. induction Hl as [|b l Hb _ IH]; intros acc Ha; cbn [be_value]; [lia|].
  intros H. apply IH in H; lia.
Qed.

Lemma b58_encode_loop_spec inp buf forced : digits 256 inp -> digits 58 buf ->
  (forced <= length buf)%nat -> Forall (λ d, d = 0) (drop forced buf) ->
  be_value (dval 58 buf) inp < 58 ^ Z.of_nat (length buf) ->
  exists buf', b58_encode_loop inp buf forced = Some buf' /\ length buf' = length buf /\
    digits 58 buf' /\ dval 58 buf' = be_value (dval 58 buf) inp.
Proof.
  intros Hi. revert buf forced. induction Hi as [|b inp Hb Hi IH]; intros buf forced Hd Hf Hz Hlt.
  - by exists buf.
  - cbn [b58_encode_loop be_value] in *. pose proof (dval_bound 58 ltac:(lia) buf Hd).
    destruct (b58_carry_spec buf forced b Hd Hb Hf Hz) as (buf1 & n & -> & L1 & D1 & V1 & N1 & Z1).
    { apply (be_value_mono _ inp); [lia | done | done]. }
    cbn [mbind option_bind]. rewrite <- V1, <- L1 in Hlt.
    destruct (IH buf1 n D1 N1 Z1 Hlt) as (buf' & E & L & D & V).
    exists buf'. rewrite E, L, V, V1, L1. done.
Qed.

(** [1.37 < log 256 / log 58... < 1.38]: the two size estimates. *)
Lemma pow100_lt a b c d : 0 < a -> 0 < c -> 0 <= b -> 0 <= d ->
  a ^ (100 * b) < c ^ (100 * d) -> a ^ b < c ^ d.
Proof.
  intros Ha Hc Hb Hd H. apply Z.nle_gt. intros Hle.
  pose proof (Z.pow_le_mono_l (c ^ d) (a ^ b) 100) as H'.
  rewrite <- !Z.pow_mul_r in H' by lia. rewrite (Z.mul_comm d), (Z.mul_comm b) in H'.
  assert (0 <= c ^ d) by (apply Z.pow_nonneg; lia). lia.
Qed.

Lemma size_138 k : 0 <= k -> 256 ^ k <= 58 ^ (k * 138 / 100 + 1).
Proof.
  intros Hk. apply Z.lt_le_incl. apply pow100_lt; [lia | lia | lia | dlia |].
  assert (H : 256 ^ 100 < 58 ^ 138) by (apply Z.ltb_lt; vm_compute; reflexivity).
  apply Z.le_lt_trans with (58 ^ (138 * k)).
  - rewrite !Z.pow_mul_r by lia. apply Z.pow_le_mono_l. lia.
  - apply Z.pow_lt_mono_r; dlia.
Qed.

Lemma size_137 n k : 0 <= n -> 0 <= k -> 58 ^ n < 256 ^ k -> 100 * n <= 137 * k.
Proof.
  intros Hn Hk H. apply Z.nlt_ge. intros Hlt.
  assert (C : 256 ^ 100 < 58 ^ 137) by (apply Z.ltb_lt; vm_compute; reflexivity).
  assert (256 ^ (100 * k) <= 58 ^ (137 * k))
    by (rewrite !Z.pow_mul_r by lia; apply Z.pow_le_mono_l; lia).
  assert (58 ^ (137 * k) < 58 ^ (100 * n)) by (apply Z.pow_lt_mono_r; lia).
  assert (H100 : (58 ^ n) ^ 100 < (256 ^ k) ^ 100)
    by (apply Z.pow_lt_mono_l; [lia | split; [apply Z.pow_nonneg; lia | done]]).
  rewrite <- !Z.pow_mul_r, (Z.mul_comm n), (Z.mul_comm k) in H100 by lia. lia.
Qed.

(** Digits of the alphabet. *)
Lemma b58_digit d : 0 <= d < 58 -> exists ch, c_b58digits_ordered !! Z.to_nat d = Some ch /\
  Z.land ch 128 = 0 /\ c_b58digits_map !! Z.to_nat ch = Some d /\ (ch = 49 <-> d = 0).
Proof.
  intros Hd.
  enough (match c_b58digits_ordered !! Z.to_nat d with
    | Some ch => (Z.land ch 128 =? 0) && bool_decide (c_b58digits_map !! Z.to_nat ch = Some d) &&
                 Bool.eqb (ch =? 49) (d =? 0)
    | None => false end = true) as E.
  { destruct (c_b58digits_ordered !! Z.to_nat d) as [ch|]; [|done]. exists ch. split; [done|].
    rewrite !andb_true_iff, bool_decide_eq_true, Z.eqb_eq, Bool.eqb_true_iff in E.
    destruct E as [[E1 E2] E3]. split; [done|]. split; [done|]. rewrite <- !Z.eqb_eq, E3. done. }
  revert d Hd. apply (range_all _ 58). vm_compute. reflexivity.
Qed.

(** [ch] is the character of the digit [d], as the decoder reads it. *)
Definition b58_char (ch d : Z) : Prop :=
  Z.land ch 128 = 0 /\ c_b58digits_map !! Z.to_nat ch = Some d.

Lemma b58_digits_mapM ds : digits 58 ds -> exists cs,
  mapM (λ d, c_b58digits_ordered !! Z.to_nat d) ds = Some cs /\
  Forall2 (λ ch d, b58_char ch d /\ (ch = 49 <-> d = 0))
    cs ds.
Proof.
  induction 1 as [|d ds Hd _ (cs & E & F)]; [by exists []|].
  destruct (b58_digit d Hd) as (ch & Ec & Hch). exists (ch :: cs). cbn [mapM]. rewrite Ec. unfold b58_char.
  cbn [mbind option_bind]. rewrite E. split; [done|]. constructor; [tauto | done].
Qed.

Lemma count_zeros_le l : (count_zeros l <= length l)%nat.
Proof. induction l as [|b l IH]; [done|]. cbn. destruct (b =? 0); simpl; lia. Qed.

Lemma strip_length_bound B l : 1 < B -> digits B l -> (length (strip l) <> 0)%nat ->
  B ^ Z.of_nat (length (strip l) - 1) <= dval B (reverse l).
Proof.
  intros HB Hl Hn. rewrite <- dval_strip by done. pose proof (strip_digits B l Hl) as Hs.
  destruct (strip_head l) as [E | (d & r & E & Hd)]; rewrite E in *; [done|].
  inversion Hs as [|? ? Hd' Hr]; subst. cbn [length]. rewrite Nat.sub_succ, Nat.sub_0_r.
  rewrite reverse_cons, <- (length_reverse r). apply dval_lower; [done | by apply Forall_reverse | lia].
Qed.

Lemma encode_spec inp : digits 256 inp -> Z.of_nat (length inp) < 2 ^ 56 ->
  let z := count_zeros inp in
  exists cs ds, dap_enc_base58_encode inp
    = Some (Z.of_nat z + Z.of_nat (length cs), replicate z 49 ++ cs ++ [0]) /\
  Forall2 b58_char
    cs ds /\
  digits 58 ds /\ (cs = [] \/ exists c r, cs = c :: r /\ c <> 49) /\
  dval 58 (reverse ds) = dval 256 (reverse inp) /\
  Z.of_nat z + Z.of_nat (length cs) < DAP_ENC_BASE58_ENCODE_SIZE (Z.of_nat (length inp)).
Proof.
  intros Hi Hn z. pose proof (count_zeros_le inp) as Hz. fold z in Hz.
  unfold dap_enc_base58_encode. fold z. set (k := Z.of_nat (length inp) - Z.of_nat z).
  rewrite (wrap_id 64 (k * 138)) by (unfold fits; lia).
  set (size := k * 138 / 100 + 1). assert (Hsize : 0 < size)
    by (subst size; pose proof (Z.div_pos (k * 138) 100); lia).
  assert (Hdrop : digits 256 (drop z inp)) by (by apply Forall_drop).
  assert (Ek : Z.of_nat (length (drop z inp)) = k) by (rewrite length_drop; lia).
  assert (Hval : 0 <= be_value 0 (drop z inp) < 256 ^ k).
  { rewrite be_value_dval, <- Ek, <- length_reverse. apply dval_bound; [lia | by apply Forall_reverse]. }
  destruct (b58_encode_loop_spec (drop z inp) (replicate (Z.to_nat size) 0) 0) as (rbuf & -> & L & D & V).
  { done. } { by apply Forall_replicate. } { lia. } { by apply Forall_replicate. }
  { rewrite length_replicate, dval_zeros by (by apply Forall_replicate). rewrite Z2Nat.id by lia.
    pose proof (size_138 k). subst size. lia. }
  rewrite length_replicate in L. rewrite (dval_zeros 58 (replicate _ _)) in V by (by apply Forall_replicate).
  cbn [mbind option_bind]. fold (strip (reverse rbuf)). set (ds := strip (reverse rbuf)).
  assert (Hds : digits 58 ds) by (by apply strip_digits, Forall_reverse).
  assert (Lds : Z.of_nat (length ds) = size - Z.of_nat (count_zeros (reverse rbuf))).
  { subst ds. unfold strip. rewrite length_drop, length_reverse, L.
    pose proof (count_zeros_le (reverse rbuf)) as C. rewrite length_reverse, L in C. lia. }
  destruct (b58_digits_mapM ds Hds) as (cs & -> & F2). pose proof (Forall2_length F2) as Lcs.
  assert (Hfit : Z.of_nat z + Z.of_nat (length cs) < DAP_ENC_BASE58_ENCODE_SIZE (Z.of_nat (length inp))).
  { unfold DAP_ENC_BASE58_ENCODE_SIZE. rewrite wrap_id by (unfold fits; lia).
    destruct (decide (length ds = 0%nat)) as [E0 | Hne]; [clear -E0 Lcs Hz; clearbody z; dlia|].
    pose proof (strip_length_bound 58 (reverse rbuf) ltac:(lia)) as Hb.
    rewrite reverse_involutive, V in Hb. fold ds in Hb.
    specialize (Hb ltac:(by apply Forall_reverse) Hne).
    assert (H137 : 100 * Z.of_nat (length ds - 1) <= 137 * k) by (apply size_137; lia).
    clear -H137 Lcs Hne Hz. subst k. clearbody z. dlia. }
  rewrite (proj2 (Z.leb_gt _ _)) by lia. cbn [mbind option_bind].
  exists cs, ds. split; [done|].
  split; [eapply Forall2_impl; [|exact F2]; simpl; tauto|]. split; [done|].
  split; [|split; [|done]].
  { destruct (strip_head (reverse rbuf)) as [Ed | (d & r & Ed & Hd)]; fold ds in Ed; rewrite Ed in F2;
      inversion F2 as [|c ? cs' ? [_ H49] _]; [by left|]. right. exists c, cs'. split; [done|]. tauto. }
  subst ds. rewrite dval_strip, reverse_involutive, V, be_value_dval by lia.
  apply (dval_strip 256 inp). lia.
Qed.

(** ** The decoder *)

Lemma land_shift_zero x y n : 0 <= n -> fits n x -> Z.land x (y * 2 ^ n) = 0.
Proof.
  intros Hn Hx. apply Z.bits_inj'. intros i ?. rewrite Z.land_spec, Z.bits_0, <- shiftl_mul by done.
  rewrite Z.shiftl_spec by done. destruct (Z.ltb_spec i n).
  - rewrite (Z.testbit_neg_r y) by lia. by rewrite andb_false_r.
  - rewrite <- (wrap_id n x Hx). unfold wrap. by rewrite Z.mod_pow2_bits_high by lia.
Qed.

Lemma b58_mul_add_spec ws c : digits (2 ^ 32) ws -> 0 <= c < 58 ->
  let '(ws', c') := b58_mul_add ws c in
  digits (2 ^ 32) ws' /\ length ws' = length ws /\ 0 <= c' < 58 /\
  dval (2 ^ 32) ws' + (2 ^ 32) ^ Z.of_nat (length ws) * c' = 58 * dval (2 ^ 32) ws + c.
Proof.
  intros Hw. revert c. induction Hw as [|w ws Hw0 _ IH]; intros c Hc; cbn [b58_mul_add].
  - cbn [length dval]. rewrite Z.pow_0_r. repeat split; try done; lia.
  - set (t := w * 58 + c). assert (Ht : 0 <= t < 58 * 2 ^ 32) by (subst t; lia).
    assert (E1 : Z.shiftr (Z.land t 270582939648) 32 = t / 2 ^ 32).
    { change 270582939648 with (Z.shiftl (Z.ones 6) 32).
      rewrite Z.shiftr_land, Z.shiftr_shiftl_l, Z.sub_diag, Z.shiftl_0_r by lia.
      rewrite Z.land_ones, Z.shiftr_div_pow2 by lia. apply Z.mod_small. clearbody t. dlia. }
    assert (E2 : Z.land t 4294967295 = t mod 2 ^ 32) by (change 4294967295 with (Z.ones 32); by apply Z.land_ones).
    rewrite E1, E2. specialize (IH (t / 2 ^ 32) ltac:(clearbody t; dlia)).
    destruct (b58_mul_add ws (t / 2 ^ 32)) as [ws' c']. destruct IH as (D & L & Hc' & V).
    split; [constructor; [apply Z.mod_pos_bound; lia | done]|]. cbn [length dval].
    split; [lia|]. split; [done|]. rewrite Nat2Z.inj_succ, Z.pow_succ_r by lia.
    pose proof (Z.div_mod t (2 ^ 32) ltac:(lia)). subst t. lia.
Qed.

Lemma b58_map_range ch c : c_b58digits_map !! ch = Some c -> c <> -1 -> 0 <= c < 58.
Proof.
  intros E Hc. assert (H : Forall (λ c, c = -1 \/ 0 <= c < 58) c_b58digits_map).
  { apply Forall_forall. intros x Hx.
    assert (forallb (λ c, (c =? -1) || ((0 <=? c) && (c <? 58))) c_b58digits_map = true) as F
      by (vm_compute; reflexivity).
    rewrite forallb_forall in F. apply F in Hx. lia. }
  rewrite Forall_lookup in H. apply H in E. lia.
Qed.

Lemma last_split (ws : list Z) : (0 < length ws)%nat ->
  exists init, ws = init ++ [List.last ws 0] /\ length init = (length ws - 1)%nat.
Proof.
  intros H. exists (removelast ws). split.
  - apply app_removelast_last. by destruct ws; simpl in *; [lia|].
  - assert (ws <> []) as Hne by (by destruct ws; simpl in *; [lia|]).
    rewrite (app_removelast_last 0 Hne) at 2. rewrite length_app. simpl. lia.
Qed.

(** The digits of a string that the loop accepts, and its value. *)
Fixpoint be58 (acc : Z) (ds : list Z) : Z :=
  match ds with [] => acc | d :: ds => be58 (58 * acc + d) ds end.

Lemma be58_dval ds acc : be58 acc ds = acc * 58 ^ Z.of_nat (length ds) + dval 58 (reverse ds).
Proof.
  revert acc. induction ds as [|d ds IH]; intros acc; [cbn; lia|]. cbn [be58 length].
  rewrite IH, reverse_cons, dval_app, length_reverse, Nat2Z.inj_succ, Z.pow_succ_r by lia.
  cbn [dval]. ring.
Qed.

(** Capacity [m] in bytes of [l] words of which the first holds [b] bytes. *)
Record capacity (m l : nat) (b : Z) (mask : Z) : Prop := {
  cap_words : (0 < l)%nat;
  cap_left : b = 1 \/ b = 3;
  cap_bytes : Z.of_nat m = 4 * (Z.of_nat l - 1) + b;
  cap_mask : mask = wrap 32 (Z.shiftl 4294967295 (b * 8));
}.

Lemma capacity_pow m l b mask : capacity m l b mask ->
  256 ^ Z.of_nat m = (2 ^ 32) ^ (Z.of_nat l - 1) * 2 ^ (8 * b).
Proof.
  intros [Hl Hb Hm _]. rewrite Hm. change 256 with (2 ^ 8).
  rewrite <- !Z.pow_mul_r, <- Z.pow_add_r by lia. f_equal. lia.
Qed.

Lemma top_word m l b mask ws : capacity m l b mask -> digits (2 ^ 32) ws -> length ws = l ->
  dval (2 ^ 32) ws < 256 ^ Z.of_nat m ->
  0 <= List.last ws 0 < 2 ^ (8 * b) /\ Z.land (List.last ws 0) mask = 0.
Proof.
  intros Hcap Hws Hl Hlt. rewrite (capacity_pow _ _ _ _ Hcap) in Hlt.
  destruct Hcap as [Hl0 Hb _ ->]. destruct (last_split ws) as (init & E & Li); [lia|].
  set (w := List.last ws 0) in *. clearbody w. rewrite E in Hws, Hlt. apply Forall_app in Hws as [Hi Hw].
  apply Forall_cons_iff in Hw as [Hw0 _]. rewrite dval_app in Hlt by lia. cbn [dval] in Hlt.
  pose proof (dval_bound (2 ^ 32) ltac:(lia) init Hi) as Bi.
  replace (Z.of_nat l - 1) with (Z.of_nat (length init)) in Hlt by lia.
  assert (Hwb : 0 <= w < 2 ^ (8 * b)).
  { split; [lia|]. apply (Z.mul_lt_mono_pos_l ((2 ^ 32) ^ Z.of_nat (length init)));
      [apply Z.pow_pos_nonneg; lia|]. lia. }
  split; [done|]. destruct Hb as [-> | ->].
  - change (wrap 32 (Z.shiftl 4294967295 (1 * 8))) with (16777215 * 2 ^ 8). by apply land_shift_zero.
  - change (wrap 32 (Z.shiftl 4294967295 (3 * 8))) with (255 * 2 ^ 24). by apply land_shift_zero.
Qed.

Lemma b58_decode_loop_spec m l b mask cs ds ws : capacity m l b mask ->
  Forall2 b58_char
    cs ds -> digits 58 ds ->
  digits (2 ^ 32) ws -> length ws = l -> be58 (dval (2 ^ 32) ws) ds < 256 ^ Z.of_nat m ->
  exists ws', b58_decode_loop cs ws mask = Some ws' /\ digits (2 ^ 32) ws' /\ length ws' = l /\
    dval (2 ^ 32) ws' = be58 (dval (2 ^ 32) ws) ds.
Proof.
  intros Hcap F2. revert ws. induction F2 as [|ch d cs ds [H128 Hmap] _ IH]; intros ws Hds Hws Hl Hlt.
  { by exists ws. }
  inversion Hds as [|? ? Hd Hds']; subst. cbn [b58_decode_loop be58] in *.
  rewrite H128, Hmap. cbn [Z.eqb negb mbind option_bind].
  rewrite (proj2 (Z.eqb_neq d (-1))) by lia.
  pose proof (b58_mul_add_spec ws d Hws Hd) as HM. destruct (b58_mul_add ws d) as [ws1 c1].
  destruct HM as (D1 & L1 & Hc1 & V1). pose proof (dval_bound (2 ^ 32) ltac:(lia) ws Hws) as B0.
  pose proof (dval_bound (2 ^ 32) ltac:(lia) ws1 D1) as B1.
  assert (Hlt1 : 58 * dval (2 ^ 32) ws + d < 256 ^ Z.of_nat m).
  { rewrite be58_dval in Hlt. pose proof (dval_bound 58 ltac:(lia) (reverse ds)) as Bd.
    specialize (Bd ltac:(by apply Forall_reverse)).
    assert (1 <= 58 ^ Z.of_nat (length ds)) by (pose proof (Z.pow_pos_nonneg 58 (Z.of_nat (length ds))); lia).
    assert ((58 * dval (2 ^ 32) ws + d) * 1 <= (58 * dval (2 ^ 32) ws + d) * 58 ^ Z.of_nat (length ds))
      by (apply Z.mul_le_mono_nonneg_l; lia). lia. }
  assert (c1 = 0) as ->.
  { assert (256 ^ Z.of_nat m <= (2 ^ 32) ^ Z.of_nat (length ws)).
    { rewrite (capacity_pow _ _ _ _ Hcap). destruct Hcap as [Hl0 Hb _ _].
      replace ((2 ^ 32) ^ Z.of_nat (length ws)) with ((2 ^ 32) ^ (Z.of_nat (length ws) - 1) * 2 ^ 32)
        by (rewrite <- (Z.pow_1_r (2 ^ 32)) at 2; rewrite <- Z.pow_add_r by lia; f_equal; lia).
      apply Z.mul_le_mono_nonneg_l; [apply Z.pow_nonneg; lia | apply Z.pow_le_mono_r; lia]. }
    destruct (Z.eq_dec c1 0); [done|].
    assert ((2 ^ 32) ^ Z.of_nat (length ws) * 1 <= (2 ^ 32) ^ Z.of_nat (length ws) * c1)
      by (apply Z.mul_le_mono_nonneg_l; lia). lia. }
  rewrite Z.mul_0_r, Z.add_0_r in V1. cbn [Z.eqb negb].
  destruct (top_word m (length ws) b mask ws1 Hcap D1 L1) as [_ ->]; [lia|]. cbn [Z.eqb negb].
  rewrite <- V1 in Hlt. destruct (IH ws1 Hds' D1 L1 Hlt) as (ws' & -> & D' & L' & V').
  exists ws'. rewrite V', V1. done.
Qed.

(** ** Words to bytes *)

Lemma dval_le_value l : dval 256 l = le_value l.
Proof. induction l as [|b l IH]; [done|]. cbn [dval le_value]. by rewrite IH. Qed.

Lemma land_255 x : Z.land x 255 = x mod 256.
Proof. change 255 with (Z.ones 8). by apply Z.land_ones. Qed.

Lemma word_bytes_le w : 0 <= w < 2 ^ 32 -> reverse (b58_word_bytes w) = le_bytes 4 w.
Proof.
  intros Hw. unfold b58_word_bytes. rewrite !land_255, !shiftr_div by lia.
  change (reverse ?l) with (rev_append l []). cbn [rev_append le_bytes].
  rewrite !Z.div_div by lia. by rewrite Z.div_1_r.
Qed.

Lemma first_bytes_le b w : b = 1 \/ b = 3 -> 0 <= w < 2 ^ (8 * b) ->
  reverse (b58_first_bytes b w) = le_bytes (Z.to_nat b) w.
Proof.
  intros [-> | ->] Hw; unfold b58_first_bytes; cbn [Z.eqb Pos.eqb]; rewrite land_255;
    change (reverse ?l) with (rev_append l []); [done|].
  cbn [rev_append]. change (Z.to_nat 3) with 3%nat. cbn [le_bytes].
  change 16711680 with (Z.shiftl (Z.ones 8) 16). change 65280 with (Z.shiftl (Z.ones 8) 8).
  rewrite !Z.shiftr_land, !Z.shiftr_shiftl_l, !Z.sub_diag, !Z.shiftl_0_r by lia.
  rewrite !Z.land_ones, !shiftr_div, Z.div_div by lia. done.
Qed.

Lemma reverse_words ws : digits (2 ^ 32) ws ->
  reverse (concat (map b58_word_bytes (reverse ws))) = concat (map (le_bytes 4) ws).
Proof.
  induction 1 as [|w ws Hw _ IH]; [done|].
  rewrite reverse_cons, map_app, concat_app, reverse_app, IH. cbn [map concat].
  by rewrite app_nil_r, word_bytes_le.
Qed.

Lemma words_value ws : digits (2 ^ 32) ws ->
  dval 256 (concat (map (le_bytes 4) ws)) = dval (2 ^ 32) ws /\
  length (concat (map (le_bytes 4) ws)) = (4 * length ws)%nat /\
  digits 256 (concat (map (le_bytes 4) ws)).
Proof.
  induction 1 as [|w ws Hw _ (V & L & D)]; [done|]. cbn [map concat dval length].
  rewrite dval_app, V, length_app, L, length_le_bytes, dval_le_value, le_value_bytes, wrap_id
    by (done || lia).
  split; [done|]. split; [lia|]. apply Forall_app. split; [|done]. apply (le_bytes_fits 4 w).
Qed.

Lemma out_bytes_spec m l b mask ws : capacity m l b mask -> digits (2 ^ 32) ws -> length ws = l ->
  dval (2 ^ 32) ws < 256 ^ Z.of_nat m ->
  let out := b58_out_bytes b (reverse ws) in
  dval 256 (reverse out) = dval (2 ^ 32) ws /\ length out = m /\ digits 256 out.
Proof.
  intros Hcap Hws Hl Hlt out. destruct (top_word m l b mask ws Hcap Hws Hl Hlt) as [Hw _].
  destruct Hcap as [Hl0 Hb Hm _]. destruct (last_split ws) as (init & E & Li); [lia|].
  set (w := List.last ws 0) in *. clearbody w. subst out. rewrite E in Hws |- *.
  apply Forall_app in Hws as [Hi _]. destruct (words_value init Hi) as (V & L & D).
  rewrite reverse_app. change (reverse [w]) with [w]. cbn [app b58_out_bytes].
  replace (b =? 0) with false by lia.
  assert (ER : reverse (b58_first_bytes b w ++ concat (map b58_word_bytes (reverse init)))
    = concat (map (le_bytes 4) init) ++ le_bytes (Z.to_nat b) w)
    by (rewrite reverse_app, reverse_words, first_bytes_le by done; done).
  split; [|split].
  - rewrite ER, !dval_app, V, L, (dval_le_value (le_bytes _ _)), le_value_bytes, wrap_id by (lia || (unfold fits; by rewrite Z2Nat.id by lia)).
    cbn [dval]. rewrite Nat2Z.inj_mul. change 256 with (2 ^ 8). rewrite <- !Z.pow_mul_r by lia.
    replace (8 * (Z.of_nat 4 * Z.of_nat (length init))) with (32 * Z.of_nat (length init)) by lia. ring.
  - rewrite <- length_reverse, ER, length_app, L, length_le_bytes. lia.
  - rewrite <- (reverse_involutive (_ ++ _)). apply Forall_reverse. rewrite ER.
    apply Forall_app. split; [done|]. apply (le_bytes_fits _ w).
Qed.

Lemma decode_capacity n : 0 <= n < 2 ^ 56 ->
  let m := DAP_ENC_BASE58_DECODE_SIZE n in let b := m mod 4 in
  m = 2 * n + 1 /\ (b =? 0) = false /\
  capacity (Z.to_nat m) (Z.to_nat ((m + 3) / 4)) b (wrap 32 (Z.shiftl 4294967295 (b * 8))).
Proof.
  intros Hn m b. assert (Em : m = 2 * n + 1) by (apply wrap_id; unfold fits; lia).
  assert (Hb : b = 1 \/ b = 3) by (subst b; rewrite Em; dlia).
  split; [done|]. split; [lia|]. split; [| done | | done].
  - rewrite Em. dlia.
  - subst b. rewrite !Z2Nat.id by (rewrite Em; dlia). rewrite Em in *. dlia.
Qed.

Lemma count_ones_spec z cs : (cs = [] \/ exists c r, cs = c :: r /\ c <> 49) ->
  count_ones (replicate z 49 ++ cs) = z.
Proof.
  intros Hc. induction z as [|z IH]; cbn [replicate app count_ones].
  - destruct Hc as [-> | (c & r & -> & Hne)]; [done|]. cbn [count_ones].
    by rewrite (proj2 (Z.eqb_neq c 49)).
  - by rewrite Z.eqb_refl, IH.
Qed.

Lemma strip_length_digits x ds : digits 256 x -> digits 58 ds ->
  dval 58 (reverse ds) = dval 256 (reverse x) -> (length (strip x) <= length ds)%nat.
Proof.
  intros Hx Hds V. destruct (decide (length (strip x) = 0%nat)); [lia|].
  pose proof (strip_length_bound 256 x ltac:(lia) Hx ltac:(done)) as Bs. rewrite <- V in Bs.
  pose proof (dval_bound 58 ltac:(lia) (reverse ds) ltac:(by apply Forall_reverse)) as Bv.
  rewrite length_reverse in Bv.
  assert (256 ^ Z.of_nat (length (strip x) - 1) < 256 ^ Z.of_nat (length ds)) as Hp.
  { apply Z.le_lt_trans with (dval 58 (reverse ds)); [done|].
    apply Z.lt_le_trans with (58 ^ Z.of_nat (length ds)); [lia | apply Z.pow_le_mono_l; lia]. }
  apply Z.pow_lt_mono_r_iff in Hp; lia.
Qed.

(** [z] ones followed by digits that do not start with a one decode to [z]
    zeros followed by the shortest bytes [x] of the same value. *)
Lemma decode_spec z cs ds x :
  Forall2 b58_char
    cs ds -> digits 58 ds -> (cs = [] \/ exists c r, cs = c :: r /\ c <> 49) ->
  digits 256 x -> dval 58 (reverse ds) = dval 256 (reverse x) ->
  Z.of_nat (z + length cs) < 2 ^ 56 ->
  dap_enc_base58_decode (replicate z 49 ++ cs)
  = (Z.of_nat (length (strip x)) + Z.of_nat z, replicate z 0 ++ strip x ++ [0]).
Proof.
  intros F2 Hds Hnz Hx V Hsl. pose proof (Forall2_length F2) as Lcs.
  unfold dap_enc_base58_decode. rewrite count_ones_spec, length_app, length_replicate by done.
  destruct (decode_capacity (Z.of_nat (z + length cs)) ltac:(lia)) as (Em & Eb & Hcap).
  rewrite Eb. set (m := DAP_ENC_BASE58_DECODE_SIZE _) in *.
  rewrite (drop_app_length' (replicate z 49) cs z) by (by rewrite length_replicate).
  pose proof (dval_bound 58 ltac:(lia) (reverse ds) ltac:(by apply Forall_reverse)) as Bv.
  rewrite length_reverse in Bv.
  assert (Bv256 : dval 58 (reverse ds) < 256 ^ m).
  { apply Z.lt_le_trans with (58 ^ Z.of_nat (length ds)); [lia|].
    apply Z.le_trans with (256 ^ Z.of_nat (length ds)); [apply Z.pow_le_mono_l; lia|].
    apply Z.pow_le_mono_r; lia. }
  assert (Zw : dval (2 ^ 32) (replicate (Z.to_nat ((m + 3) / 4)) 0) = 0)
    by (apply dval_zeros; by apply Forall_replicate).
  destruct (b58_decode_loop_spec _ _ _ _ cs ds (replicate (Z.to_nat ((m + 3) / 4)) 0) Hcap F2 Hds)
    as (ws & -> & Dw & Lw & Vw).
  { apply Forall_replicate. lia. } { apply length_replicate. }
  { rewrite Zw, be58_dval. rewrite Z2Nat.id by lia. lia. }
  rewrite Zw, be58_dval, Z.mul_0_l, Z.add_0_l in Vw.
  destruct (out_bytes_spec _ _ _ _ ws Hcap Dw Lw) as (Vo & Lo & Do); [rewrite Z2Nat.id; lia|].
  set (out := b58_out_bytes (m mod 4) (reverse ws)) in *.
  assert (Es : strip out = strip x) by (apply (strip_unique 256); [lia | done | done | congruence]).
  fold (strip out). rewrite Es. pose proof (strip_length_digits x ds Hx Hds V).
  assert (Lout : length (strip out) = (length out - count_zeros out)%nat) by (unfold strip; apply length_drop).
  rewrite Es in Lout. pose proof (count_zeros_le out).
  rewrite (proj2 (Nat.ltb_ge (count_zeros out) z)) by lia. by rewrite andb_false_r.
Qed.

(** Every string the decoding loop accepts is a string of digits. *)
Lemma decode_loop_digits cs ws mask ws' : b58_decode_loop cs ws mask = Some ws' ->
  exists ds, digits 58 ds /\
    Forall2 b58_char cs ds.
Proof.
  revert ws. induction cs as [|ch cs IH]; intros ws E; [by exists []|]. cbn [b58_decode_loop] in E.
  destruct (Z.eqb_spec (Z.land ch 128) 0); [|done]. cbn [negb] in E.
  destruct (c_b58digits_map !! Z.to_nat ch) as [c|] eqn:Em; [|done]. cbn [mbind option_bind] in E.
  destruct (Z.eqb_spec c (-1)); [done|]. destruct (b58_mul_add ws c) as [ws1 c1].
  destruct (negb (c1 =? 0)); [done|]. destruct (negb (_ =? 0)); [done|].
  destruct (IH ws1 E) as (ds & Hds & F). exists (c :: ds). split; [|by constructor].
  constructor; [by apply (b58_map_range (Z.to_nat ch)) | done].
Qed.

Lemma count_ones_split l : l = replicate (count_ones l) 49 ++ drop (count_ones l) l /\
  (drop (count_ones l) l = [] \/ exists c r, drop (count_ones l) l = c :: r /\ c <> 49).
Proof.
  induction l as [|b l [IH1 IH2]]; [by split; [|left]|]. cbn [count_ones].
  destruct (Z.eqb_spec b 49) as [-> | Hb]; cbn [replicate app drop].
  - split; [by f_equal | done].
  - split; [done|]. right. by exists b, l.
Qed.

(** The shortest bytes of a number. *)
Lemma bytes_of_value v : 0 <= v -> exists x, digits 256 x /\ dval 256 (reverse x) = v.
Proof.
  intros Hv. exists (reverse (le_bytes (Z.to_nat v) v)). rewrite reverse_involutive.
  split; [apply Forall_reverse, (le_bytes_fits _ v)|].
  rewrite dval_le_value, le_value_bytes. apply wrap_id. split; [done|]. rewrite Z2Nat.id by done.
  apply Z.lt_le_trans with (2 ^ v); [apply Z.pow_gt_lin_r; lia | apply Z.pow_le_mono_r; lia].
Qed.

(** ** Properties of Base58 *)

(** Base58 round trip.  [dap_enc_base58_encode] of any byte string fits
    the buffer size [DAP_ENC_BASE58_ENCODE_SIZE] its callers allocate (its
    size check never fires and its working array never overflows), and
    [dap_enc_base58_decode] of the resulting string returns the bytes,
    leading zeros included. *)
Theorem base58_roundtrip inp : Forall (fits 8) inp -> Z.of_nat (length inp) < 2 ^ 50 ->
  exists str, dap_enc_base58_encode inp = Some (Z.of_nat (length str), str ++ [0]) /\
    Z.of_nat (length str) < DAP_ENC_BASE58_ENCODE_SIZE (Z.of_nat (length inp)) /\
    dap_enc_base58_decode str = (Z.of_nat (length inp), inp ++ [0]).
Proof.
  intros Hi Hn. change (Forall (fits 8) inp) with (digits 256 inp) in Hi.
  destruct (encode_spec inp Hi ltac:(lia)) as (cs & ds & E & F2 & Hds & Hhd & V & Hsz).
  set (z := count_zeros inp) in *.
  exists (replicate z 49 ++ cs). rewrite length_app, length_replicate, Nat2Z.inj_add, <- app_assoc.
  split; [done|]. split; [done|].
  rewrite (decode_spec z cs ds inp F2 Hds Hhd Hi V).
  - assert (Lst : length (strip inp) = (length inp - z)%nat) by (unfold strip; apply length_drop).
    pose proof (count_zeros_le inp) as Hzi. fold z in Hzi.
    f_equal; [lia|]. rewrite app_assoc. f_equal. symmetry. apply strip_split.
  - unfold DAP_ENC_BASE58_ENCODE_SIZE in Hsz. rewrite wrap_id in Hsz by (unfold fits; lia).
    clear -Hsz Hn. dlia.
Qed.

Lemma base58_roundtrip_witness :
  exists str, dap_enc_base58_encode [0; 0; 255; 7] = Some (Z.of_nat (length str), str ++ [0]) /\
    Z.of_nat (length str) < DAP_ENC_BASE58_ENCODE_SIZE 4 /\
    dap_enc_base58_decode str = (4, [0; 0; 255; 7; 0]).
Proof.
  apply (base58_roundtrip [0; 0; 255; 7]); [repeat constructor; done | done].
Defined.

(** The decoder's buffer bound.  On any string of [n] characters
    [dap_enc_base58_decode] either returns [0] and stores nothing, or stores
    its result and a terminator in at most [n + 1] bytes, which never exceeds
    the [DAP_ENC_BASE58_DECODE_SIZE n] its callers allocate. *)
Theorem base58_decode_bound str : Z.of_nat (length str) < 2 ^ 50 ->
  let '(ret, stored) := dap_enc_base58_decode str in
  (ret = 0 /\ stored = [] \/ ret + 1 = Z.of_nat (length stored)) /\
  (length stored <= length str + 1)%nat /\
  Z.of_nat (length str) + 1 <= DAP_ENC_BASE58_DECODE_SIZE (Z.of_nat (length str)).
Proof.
  intros Hn. destruct (decode_capacity (Z.of_nat (length str)) ltac:(lia)) as (Em & _ & _).
  destruct (count_ones_split str) as [Es Hnz].
  set (z := count_ones str) in *. set (cs := drop z str) in *.
  assert (Hlen : (z + length cs = length str)%nat)
    by (subst cs; apply (f_equal length) in Es; rewrite length_app, length_replicate in Es; lia).
  destruct (b58_decode_loop cs (replicate (Z.to_nat ((DAP_ENC_BASE58_DECODE_SIZE (Z.of_nat (length str)) + 3) / 4)) 0)
    (if DAP_ENC_BASE58_DECODE_SIZE (Z.of_nat (length str)) mod 4 =? 0 then 0
     else wrap 32 (Z.shiftl 4294967295 (DAP_ENC_BASE58_DECODE_SIZE (Z.of_nat (length str)) mod 4 * 8))))
    as [ws|] eqn:E.
  - destruct (decode_loop_digits _ _ _ _ E) as (ds & Hds & F2).
    pose proof (dval_bound 58 ltac:(lia) (reverse ds) ltac:(by apply Forall_reverse)) as Bv.
    destruct (bytes_of_value (dval 58 (reverse ds))) as (x & Hx & Vx); [lia|].
    pose proof (decode_spec z cs ds x F2 Hds Hnz Hx (eq_sym Vx) ltac:(lia)) as Ed.
    rewrite <- Es in Ed. rewrite Ed.
    pose proof (strip_length_digits x ds Hx Hds (eq_sym Vx)). pose proof (Forall2_length F2) as Lcs.
    rewrite !length_app, !length_replicate. cbn [length]. lia.
  - unfold dap_enc_base58_decode. fold z cs. rewrite E. cbn [length]. split; [by left | lia].
Qed.

Lemma base58_decode_bound_witness :
  let '(ret, stored) := dap_enc_base58_decode [49; 49; 122; 122] in
  (ret = 0 /\ stored = [] \/ ret + 1 = Z.of_nat (length stored)) /\ (length stored <= 5)%nat /\
  5 <= DAP_ENC_BASE58_DECODE_SIZE 4.
Proof. apply (base58_decode_bound [49; 49; 122; 122]). done. Defined.
