(* ===== verification/BinaryTree.v ===== *)
(** * Binary search tree keyed by C strings (core/src/dap_binary_tree.c)

    [NULL] is [Leaf].  A key is the characters of its string, compared by
    [strcmp] (the tree keeps the caller's pointer and never frees it; the string
    behind it is taken to stay as it was); the [data] member is a pointer the tree owns, modelled by its
    address ([0] is [NULL]).  The operations that release memory return, next
    to the tree, the addresses passed to [DAP_DELETE], in order, so that use
    of released memory can be stated.  Dereferencing [NULL] is [None]. *)

From S2P Require Import Prelude.
From Stdlib Require Import Sorting.Sorted.
Local Open Scope Z_scope.

Abbreviation key := (list Z).

Inductive dap_binary_tree :=
  | Leaf
  | Node (k : key) (data : Z) (lft rgt : dap_binary_tree).

Fixpoint strcmp (a b : key) : Z :=
  match a, b with
  | [], [] => 0
  | [], _ => -1
  | _, [] => 1
  | x :: a, y :: b => if x <? y then -1 else if y <? x then 1 else strcmp a b
  end.

Definition KEY_LS (a b : key) : bool := strcmp a b <? 0.
Definition KEY_GT (a b : key) : bool := 0 <? strcmp a b.
Definition KEY_EQ (a b : key) : bool := strcmp a b =? 0.

Fixpoint s_list_construct (a_list : list Z) (t : dap_binary_tree) : list Z :=
  match t with
  | Leaf => a_list
  | Node _ data lft rgt =>
    let a_list := s_list_construct a_list lft in
    let a_list := a_list ++ [data] in
    s_list_construct a_list rgt
  end.

Definition dap_binary_tree_inorder_list (t : dap_binary_tree) : list Z := s_list_construct [] t.

Fixpoint s_tree_search (t : dap_binary_tree) (a_key : key) : dap_binary_tree :=
  match t with
  | Leaf => Leaf
  | Node k _ lft rgt =>
    if KEY_EQ a_key k then t
    else if KEY_LS a_key k then s_tree_search lft a_key
    else s_tree_search rgt a_key
  end.

Definition dap_binary_tree_search (t : dap_binary_tree) (a_key : key) : Z :=
  match s_tree_search t a_key with Leaf => 0 | Node _ data _ _ => data end.

(** The node: its key and data. *)
Fixpoint s_tree_minimum (t : dap_binary_tree) : option (key * Z) :=
  match t with
  | Leaf => None
  | Node k data lft _ =>
    match lft with Leaf => Some (k, data) | _ => s_tree_minimum lft end
  end.

Definition dap_binary_tree_minimum (t : dap_binary_tree) : option Z :=
  l_res ← s_tree_minimum t; Some (snd l_res).

Fixpoint s_tree_maximum (t : dap_binary_tree) : option (key * Z) :=
  match t with
  | Leaf => None
  | Node k data _ rgt =>
    match rgt with Leaf => Some (k, data) | _ => s_tree_maximum rgt end
  end.

Definition dap_binary_tree_maximum (t : dap_binary_tree) : option Z :=
  l_res ← s_tree_maximum t; Some (snd l_res).

(** [alloc] is whether [DAP_NEW_Z] succeeds. *)
Fixpoint s_tree_insert (alloc : bool) (t : dap_binary_tree) (a_key : key) (a_data : Z)
    : dap_binary_tree :=
  match t with
  | Leaf => if alloc then Node a_key a_data Leaf Leaf else Leaf
  | Node k data lft rgt =>
    if KEY_LS a_key k then Node k data (s_tree_insert alloc lft a_key a_data) rgt
    else if KEY_GT a_key k then Node k data lft (s_tree_insert alloc rgt a_key a_data)
    else Node k a_data lft rgt
  end.

Definition dap_binary_tree_insert := s_tree_insert.

Fixpoint s_tree_delete (t : dap_binary_tree) (a_key : key) : dap_binary_tree * list Z :=
  match t with
  | Leaf => (Leaf, [])
  | Node k data lft rgt =>
    if KEY_LS a_key k then
      let '(lft, freed) := s_tree_delete lft a_key in (Node k data lft rgt, freed)
    else if KEY_GT a_key k then
      let '(rgt, freed) := s_tree_delete rgt a_key in (Node k data lft rgt, freed)
    else
      match lft, rgt with
      | Node _ _ _ _, Node _ _ _ _ =>
        match s_tree_minimum rgt with
        | Some (tmp_key, tmp_data) =>
          let '(rgt, freed) := s_tree_delete rgt tmp_key in
          (Node tmp_key tmp_data lft rgt, freed)
        | None => (t, [])
        end
      | Node _ _ _ _, Leaf => (lft, [data])
      | Leaf, Node _ _ _ _ => (rgt, [data])
      | Leaf, Leaf => (Leaf, [data])
      end
  end.

Definition dap_binary_tree_delete := s_tree_delete.

Fixpoint s_tree_count (t : dap_binary_tree) (a_count : Z) : Z :=
  match t with
  | Leaf => a_count
  | Node _ _ lft rgt => s_tree_count rgt (wrap 64 (s_tree_count lft a_count + 1))
  end.

Definition dap_binary_tree_count (t : dap_binary_tree) : Z := s_tree_count t 0.

(** The addresses released. *)
Fixpoint s_tree_clear (t : dap_binary_tree) : list Z :=
  match t with
  | Leaf => []
  | Node _ data lft rgt => s_tree_clear lft ++ s_tree_clear rgt ++ [data]
  end.

Definition dap_binary_tree_clear := s_tree_clear.

#[export] Instance tree_eq_dec : EqDecision dap_binary_tree.
Proof. solve_decision. Defined.

(** ** [strcmp] is a total order *)

Lemma strcmp_refl a : strcmp a a = 0.
Proof. induction a as [|x a IH]; [done|]. cbn. by rewrite Z.ltb_irrefl. Qed.

Lemma strcmp_eq a b : strcmp a b = 0 -> a = b.
Proof.
  revert b. induction a as [|x a IH]; intros [|y b]; cbn; try done.
  bdestr; try done. intros E. apply IH in E as ->. f_equal. lia.
Qed.

Lemma strcmp_opp a b : strcmp b a = - strcmp a b.
Proof.
  revert b. induction a as [|x a IH]; intros [|y b]; cbn; try done.
  bdestr; try done; try lia; apply IH.
Qed.

Lemma strcmp_trans a b c : strcmp a b < 0 -> strcmp b c < 0 -> strcmp a c < 0.
Proof.
  revert b c. induction a as [|x a IH]; intros [|y b] [|z c]; cbn; try done; try lia.
  bdestr; try done; try lia; apply IH.
Qed.

Definition klt (a b : key) : Prop := strcmp a b < 0.

#[export] Instance klt_trans : Transitive klt.
Proof. intros a b c. apply strcmp_trans. Qed.

Lemma klt_irrefl a : ~ klt a a.
Proof. unfold klt. rewrite strcmp_refl. lia. Qed.

(** The three-way branch every operation takes. *)
Lemma key_cases a k :
  (klt a k /\ KEY_LS a k = true /\ KEY_GT a k = false /\ KEY_EQ a k = false) \/
  (klt k a /\ KEY_LS a k = false /\ KEY_GT a k = true /\ KEY_EQ a k = false) \/
  (a = k /\ KEY_LS a k = false /\ KEY_GT a k = false /\ KEY_EQ a k = true).
Proof.
  unfold klt, KEY_LS, KEY_GT, KEY_EQ. rewrite (strcmp_opp a k).
  destruct (Z.lt_trichotomy (strcmp a k) 0) as [H | [H | H]]; [left | right; right | right; left].
  - repeat split; lia.
  - split; [by apply strcmp_eq|]. repeat split; lia.
  - repeat split; lia.
Qed.

(** ** The in-order association list *)

Fixpoint elements (t : dap_binary_tree) : list (key * Z) :=
  match t with
  | Leaf => []
  | Node k d l r => elements l ++ (k, d) :: elements r
  end.

Definition elt_lt (x y : key * Z) : Prop := klt x.1 y.1.

(** The search-tree invariant: keys strictly increase in order. *)
Definition bst (t : dap_binary_tree) : Prop := StronglySorted elt_lt (elements t).

(** The operations on an ordered association list. *)
Fixpoint alookup (k : key) (l : list (key * Z)) : option Z :=
  match l with
  | [] => None
  | (k', d) :: l => if KEY_EQ k k' then Some d else alookup k l
  end.

Fixpoint ainsert (k : key) (d : Z) (l : list (key * Z)) : list (key * Z) :=
  match l with
  | [] => [(k, d)]
  | (k', d') :: l =>
    if KEY_LS k k' then (k, d) :: (k', d') :: l
    else if KEY_GT k k' then (k', d') :: ainsert k d l
    else (k', d) :: l
  end.

Definition adelete (k : key) (l : list (key * Z)) : list (key * Z) :=
  List.filter (λ e, negb (KEY_EQ k e.1)) l.

Lemma sorted_split l1 x l2 : StronglySorted elt_lt (l1 ++ x :: l2) <->
  StronglySorted elt_lt l1 /\ StronglySorted elt_lt l2 /\
  Forall (λ y, elt_lt y x) l1 /\ Forall (elt_lt x) l2.
Proof.
  induction l1 as [|y l1 IH]; cbn [app].
  - split.
    + intros H. inversion H; subst. repeat split; auto; constructor.
    + intros (_ & H2 & _ & HF). by constructor.
  - split.
    + intros H. inversion H as [|? ? H1 HF]; subst. apply IH in H1 as (S1 & S2 & F1 & F2).
      apply Forall_app in HF as [HF1 HF2]. apply Forall_cons_iff in HF2 as [Hyx _].
      repeat split; auto; by constructor.
    + intros (H1 & H2 & F1 & F2). inversion H1 as [|? ? S1 G1]; subst.
      apply Forall_cons_iff in F1 as [Hyx F1]. constructor; [by apply IH|].
      apply Forall_app. split; [done|]. constructor; [done|].
      eapply Forall_impl; [|exact F2]. intros z Hz. unfold elt_lt in *. by transitivity x.1.
Qed.

Section AssocLists.
Variables (k x : key) (d e : Z).
Implicit Types l : list (key * Z).

(** An element above (below) every key of a list is not in it. *)
Lemma lookup_above l : Forall (λ y, klt y.1 k) l -> alookup k l = None /\ adelete k l = l.
Proof using.
  induction 1 as [|[k' d'] l Hk _ [IH1 IH2]]; [done|]. cbn [alookup adelete List.filter fst] in *.
  destruct (key_cases k k') as [(H & _ & _ & ->) | [(H & _ & _ & ->) | (-> & _)]].
  - cbn [negb]. unfold adelete in IH2. by rewrite IH2.
  - cbn [negb]. unfold adelete in IH2. by rewrite IH2.
  - by apply klt_irrefl in Hk.
Qed.

Lemma lookup_below l : Forall (λ y, klt k y.1) l -> alookup k l = None /\ adelete k l = l.
Proof using.
  induction 1 as [|[k' d'] l Hk _ [IH1 IH2]]; [done|]. cbn [alookup adelete List.filter fst] in *.
  destruct (key_cases k k') as [(H & _ & _ & ->) | [(H & _ & _ & ->) | (-> & _)]].
  - cbn [negb]. unfold adelete in IH2. by rewrite IH2.
  - cbn [negb]. unfold adelete in IH2. by rewrite IH2.
  - by apply klt_irrefl in Hk.
Qed.

Lemma alookup_app l1 l2 : alookup k (l1 ++ l2)
  = match alookup k l1 with Some v => Some v | None => alookup k l2 end.
Proof using.
  induction l1 as [|[k' d'] l1 IH]; [done|]. cbn [alookup app]. by destruct (KEY_EQ k k').
Qed.

Lemma adelete_app l1 l2 : adelete k (l1 ++ l2) = adelete k l1 ++ adelete k l2.
Proof using. apply List.filter_app. Qed.

Lemma ainsert_above l1 l2 : Forall (λ y, klt y.1 k) l1 -> ainsert k d (l1 ++ l2) = l1 ++ ainsert k d l2.
Proof using.
  induction 1 as [|[k' d'] l1 Hk _ IH]; [done|]. cbn [ainsert app fst] in *.
  destruct (key_cases k k') as [(H & _) | [(H & -> & -> & _) | (-> & _)]].
  - exfalso. eapply klt_irrefl, klt_trans; eauto.
  - by rewrite IH.
  - by apply klt_irrefl in Hk.
Qed.

Lemma ainsert_below l1 l2 : klt k x -> Forall (λ y, klt y.1 x) l1 ->
  ainsert k d (l1 ++ (x, e) :: l2) = ainsert k d l1 ++ (x, e) :: l2.
Proof using.
  intros Hkx. induction 1 as [|[k' d'] l1 Hk _ IH]; cbn [ainsert app fst] in *.
  - destruct (key_cases k x) as [(_ & -> & _) | [(H & _) | (-> & _)]]; [done|..].
    + exfalso. eapply klt_irrefl, klt_trans; eauto.
    + by apply klt_irrefl in Hkx.
  - destruct (KEY_LS k k'); [done|]. destruct (KEY_GT k k'); [by rewrite IH | done].
Qed.
End AssocLists.

Lemma elements_insert t k d : bst t -> elements (s_tree_insert true t k d) = ainsert k d (elements t).
Proof.
  unfold bst. induction t as [|x e l IHl r IHr]; [done|]. cbn [elements s_tree_insert].
  intros (S1 & S2 & F1 & F2)%sorted_split.
  destruct (key_cases k x) as [(H & -> & _ & _) | [(H & -> & -> & _) | (-> & -> & -> & _)]]; cbn [elements].
  - rewrite IHl by done. symmetry. by apply ainsert_below.
  - rewrite IHr by done. symmetry.
    rewrite (ainsert_above k d (elements l)) by (eapply Forall_impl; [|exact F1]; intros y Hy; by transitivity x).
    f_equal. cbn [ainsert]. destruct (key_cases k x) as [(H' & _) | [(_ & -> & -> & _) | (-> & _)]]; [|done|].
    + exfalso. eapply klt_irrefl, klt_trans; eauto.
    + by apply klt_irrefl in H.
  - rewrite (ainsert_above x d (elements l)) by done. f_equal. cbn [ainsert].
    destruct (key_cases x x) as [(H & _) | [(H & _) | (_ & -> & -> & _)]]; [by apply klt_irrefl in H .. | done].
Qed.

Lemma search_elements t k : bst t ->
  match s_tree_search t k with Leaf => None | Node _ d _ _ => Some d end = alookup k (elements t).
Proof.
  unfold bst. induction t as [|x e l IHl r IHr]; [done|]. cbn [elements s_tree_search].
  intros (S1 & S2 & F1 & F2)%sorted_split. rewrite alookup_app. cbn [alookup].
  destruct (key_cases k x) as [(H & -> & _ & ->) | [(H & -> & _ & ->) | (-> & _ & _ & ->)]].
  - rewrite IHl by done. destruct (alookup k (elements l)); [done|]. symmetry.
    apply lookup_below. eapply Forall_impl; [|exact F2]. intros y Hy. by transitivity x.
  - rewrite IHr by done. destruct (lookup_above k (elements l)) as [-> _]; [|done].
    eapply Forall_impl; [|exact F1]. intros y Hy. by transitivity x.
  - by rewrite (proj1 (lookup_above x (elements l) F1)).
Qed.

(** ** Minimum and deletion *)

Lemma minimum_elements t : t <> Leaf -> exists k d rest,
  s_tree_minimum t = Some (k, d) /\ elements t = (k, d) :: rest.
Proof.
  induction t as [|k d l IHl r _]; [done|]. intros _. destruct l as [|k' d' l' r'].
  - by exists k, d, (elements r).
  - destruct IHl as (mk & md & rest & E & Ee); [done|]. exists mk, md, (rest ++ (k, d) :: elements r).
    split; [exact E|]. change (elements (Node k d ?a r)) with (elements a ++ (k, d) :: elements r).
    by rewrite Ee.
Qed.

Lemma maximum_elements t : t <> Leaf -> exists k d rest,
  s_tree_maximum t = Some (k, d) /\ elements t = rest ++ [(k, d)].
Proof.
  induction t as [|k d l _ r IHr]; [done|]. intros _. destruct r as [|k' d' l' r'].
  - by exists k, d, (elements l).
  - destruct IHr as (mk & md & rest & E & Ee); [done|]. exists mk, md, (elements l ++ (k, d) :: rest).
    split; [exact E|]. change (elements (Node k d l ?a)) with (elements l ++ (k, d) :: elements a).
    by rewrite Ee, <- app_assoc.
Qed.

Lemma KEY_EQ_refl k : KEY_EQ k k = true.
Proof. unfold KEY_EQ. by rewrite strcmp_refl. Qed.

Lemma adelete_middle k d l1 l2 : StronglySorted elt_lt (l1 ++ (k, d) :: l2) ->
  adelete k (l1 ++ (k, d) :: l2) = l1 ++ l2.
Proof.
  intros (_ & _ & F1 & F2)%sorted_split. rewrite adelete_app.
  rewrite (proj2 (lookup_above k l1 F1)). f_equal. cbn [adelete List.filter fst].
  rewrite KEY_EQ_refl. cbn [negb]. apply (lookup_below k l2 F2).
Qed.

Lemma elements_delete t k : bst t ->
  elements (fst (s_tree_delete t k)) = adelete k (elements t).
Proof.
  unfold bst. revert k. induction t as [|x e l IHl r IHr]; intros k; [done|].
  cbn [elements s_tree_delete]. intros HS. pose proof HS as (S1 & S2 & F1 & F2)%sorted_split.
  destruct (key_cases k x) as [(H & -> & _ & Eq) | [(H & -> & -> & Eq) | (-> & -> & -> & Eq)]].
  - specialize (IHl k S1). destruct (s_tree_delete l k) as [l' f]. cbn [fst elements] in *.
    rewrite IHl, adelete_app. f_equal. cbn [adelete List.filter fst]. rewrite Eq. cbn [negb]. f_equal.
    symmetry. apply lookup_below. eapply Forall_impl; [|exact F2]. intros y Hy. by transitivity x.
  - specialize (IHr k S2). destruct (s_tree_delete r k) as [r' f]. cbn [fst elements] in *.
    rewrite IHr, adelete_app. cbn [adelete List.filter fst]. rewrite Eq. cbn [negb].
    rewrite (proj2 (lookup_above k (elements l) ltac:(eapply Forall_impl; [|exact F1]; intros y Hy; by transitivity x))).
    done.
  - rewrite adelete_middle by done. destruct (decide (l = Leaf)) as [-> | Hl];
      [by destruct r|]. destruct (decide (r = Leaf)) as [-> | Hr];
      [destruct l; [done|]; by rewrite app_nil_r|].
    destruct (minimum_elements r Hr) as (mk & md & rest & Em & Ee).
    specialize (IHr mk S2). rewrite Ee in IHr, S2 |- *.
    pose proof (adelete_middle mk md [] rest S2) as Ed. cbn [app] in Ed. rewrite Ed in IHr.
    destruct l, r; try done. rewrite Em. destruct (s_tree_delete _ mk) as [r' f]. cbn [fst] in IHr |- *.
    rewrite <- IHr. done.
Qed.

(** ** Association lists are maps *)

Lemma KEY_EQ_iff a b : KEY_EQ a b = true <-> a = b.
Proof.
  split; [|intros ->; apply KEY_EQ_refl]. unfold KEY_EQ. intros E%Z.eqb_eq. by apply strcmp_eq.
Qed.

Lemma alookup_ainsert k d k' l :
  alookup k' (ainsert k d l) = if KEY_EQ k' k then Some d else alookup k' l.
Proof.
  induction l as [|[x e] l IH]; [done|]. cbn [ainsert].
  destruct (key_cases k x) as [(H & -> & _ & E) | [(H & -> & -> & E) | (-> & -> & -> & _)]].
  - done.
  - cbn [alookup]. rewrite IH. destruct (KEY_EQ k' k) eqn:E1, (KEY_EQ k' x) eqn:E2; try done.
    apply KEY_EQ_iff in E1, E2. subst. by rewrite KEY_EQ_refl in E.
  - cbn [alookup]. by destruct (KEY_EQ k' x).
Qed.

Lemma alookup_adelete k k' l :
  alookup k' (adelete k l) = if KEY_EQ k' k then None else alookup k' l.
Proof.
  induction l as [|[x e] l IH]; [by destruct (KEY_EQ k' k)|]. unfold adelete in *.
  cbn [List.filter fst]. destruct (KEY_EQ k x) eqn:E; cbn [negb alookup]; rewrite IH.
  - apply KEY_EQ_iff in E as <-. by destruct (KEY_EQ k' k).
  - destruct (KEY_EQ k' k) eqn:E1, (KEY_EQ k' x) eqn:E2; try done.
    apply KEY_EQ_iff in E1, E2. subst. by rewrite KEY_EQ_refl in E.
Qed.

Lemma ainsert_sorted k d l : StronglySorted elt_lt l -> StronglySorted elt_lt (ainsert k d l).
Proof.
  induction 1 as [|[x e] l HS IH HF]; [by repeat constructor|]. cbn [ainsert].
  destruct (key_cases k x) as [(H & -> & _) | [(H & -> & -> & _) | (-> & -> & -> & _)]].
  - constructor; [by constructor|]. constructor; [done|].
    eapply Forall_impl; [|exact HF]. intros y Hy. unfold elt_lt in *. by transitivity x.
  - constructor; [done|]. clear IH HS. induction HF as [|[y f] l Hy HF IH]; cbn [ainsert].
    + by repeat constructor.
    + destruct (KEY_LS k y); [by repeat constructor|]. destruct (KEY_GT k y); by constructor.
  - by constructor.
Qed.

Lemma adelete_sorted k l : StronglySorted elt_lt l -> StronglySorted elt_lt (adelete k l).
Proof.
  induction 1 as [|x l HS IH HF]; [constructor|]. unfold adelete in *. cbn [List.filter].
  destruct (negb _); [|done]. constructor; [done|]. rewrite List.Forall_forall in *.
  intros y Hy. apply HF. by apply filter_In in Hy as [? _].
Qed.

Lemma bst_insert t k d : bst t -> bst (s_tree_insert true t k d).
Proof. intros H. unfold bst. rewrite elements_insert by done. by apply ainsert_sorted. Qed.

Lemma bst_delete t k : bst t -> bst (fst (s_tree_delete t k)).
Proof. intros H. unfold bst. rewrite elements_delete by done. by apply adelete_sorted. Qed.

Lemma search_spec t k : bst t ->
  dap_binary_tree_search t k = default 0 (alookup k (elements t)).
Proof.
  intros H. unfold dap_binary_tree_search. rewrite <- search_elements by done.
  by destruct (s_tree_search t k).
Qed.

(** ** What deletion releases *)

Lemma klt_of_elements (k x : key) d e l1 l2 : StronglySorted elt_lt (l1 ++ (x, e) :: l2) ->
  In (k, d) l1 -> klt k x.
Proof.
  intros (_ & _ & F & _)%sorted_split Hin. rewrite List.Forall_forall in F. apply (F _ Hin).
Qed.

Lemma delete_min_freed t mk md : bst t -> s_tree_minimum t = Some (mk, md) ->
  snd (s_tree_delete t mk) = [md].
Proof.
  unfold bst. induction t as [|x e l IHl r _]; [done|]. intros HS Hm.
  pose proof HS as (S1 & _ & _ & _)%sorted_split.
  destruct (decide (l = Leaf)) as [-> | Hl].
  - cbn in Hm. injection Hm as -> ->. cbn [s_tree_delete].
    destruct (key_cases mk mk) as [(H & _) | [(H & _) | (_ & -> & -> & _)]]; [by apply klt_irrefl in H .. |].
    by destruct r.
  - assert (Hm' : s_tree_minimum l = Some (mk, md)) by (by destruct l).
    destruct (minimum_elements l Hl) as (k1 & d1 & rest & E1 & Ee). rewrite Hm' in E1. injection E1 as <- <-.
    assert (klt mk x) as Hlt 
      by (apply (klt_of_elements mk x md e (elements l) (elements r) HS); rewrite Ee; by left).
    specialize (IHl S1 Hm'). cbn [s_tree_delete].
    destruct (key_cases mk x) as [(_ & -> & _) | [(H & _) | (-> & _)]].
    + by destruct (s_tree_delete l mk).
    + exfalso. eapply klt_irrefl, klt_trans; eauto.
    + by apply klt_irrefl in Hlt.
Qed.

Lemma search_subtree t k x d l r : s_tree_search t k = Node x d l r ->
  exists l1 l2, elements t = l1 ++ (elements l ++ (x, d) :: elements r) ++ l2.
Proof.
  induction t as [|x' e l' IHl r' IHr]; [done|]. cbn [s_tree_search elements].
  destruct (KEY_EQ k x'); [intros [= -> -> -> ->]; exists [], []; by rewrite app_nil_r|].
  destruct (KEY_LS k x'); intros E.
  - destruct (IHl E) as (l1 & l2 & ->). exists l1, (l2 ++ (x', e) :: elements r').
    by rewrite <- !app_assoc.
  - destruct (IHr E) as (l1 & l2 & ->). exists (elements l' ++ (x', e) :: l1), l2.
    by rewrite <- !app_assoc.
Qed.

Lemma delete_freed t k x d l r : bst t -> s_tree_search t k = Node x d l r ->
  x = k /\ snd (s_tree_delete t k)
  = match l, r with
    | Node _ _ _ _, Node _ _ _ _ => match s_tree_minimum r with Some (_, md) => [md] | None => [] end
    | _, _ => [d]
    end.
Proof.
  unfold bst. induction t as [|x' e l' IHl r' IHr]; [done|]. cbn [s_tree_search elements s_tree_delete].
  intros (S1 & S2 & _ & _)%sorted_split.
  destruct (key_cases k x') as [(_ & -> & _ & ->) | [(_ & -> & -> & ->) | (-> & -> & -> & ->)]]; intros E.
  - specialize (IHl S1 E). by destruct (s_tree_delete l' k).
  - specialize (IHr S2 E). by destruct (s_tree_delete r' k).
  - injection E as -> -> -> ->. split; [done|]. destruct l, r; try done.
    destruct (s_tree_minimum _) as [[mk md]|] eqn:Em; [|done].
    pose proof (delete_min_freed _ mk md S2 Em) as Ef. by destruct (s_tree_delete _ mk).
Qed.

(** ** The other traversals *)

Lemma inorder_spec acc t : s_list_construct acc t = acc ++ map snd (elements t).
Proof.
  revert acc. induction t as [|k d l IHl r IHr]; intros acc; cbn [s_list_construct elements map].
  - by rewrite app_nil_r.
  - rewrite IHr, IHl, map_app. cbn [map snd]. by rewrite <- !app_assoc.
Qed.

Lemma count_spec t c : fits 64 c ->
  s_tree_count t c = wrap 64 (c + Z.of_nat (length (elements t))).
Proof.
  revert c. induction t as [|k d l IHl r IHr]; intros c Hc; cbn [s_tree_count elements].
  - cbn [length]. rewrite Z.add_0_r. symmetry. by apply wrap_id.
  - rewrite IHr, IHl, length_app by (done || apply wrap_fits; lia). cbn [length]. unfold wrap.
    rewrite Zplus_mod_idemp_l, <- Z.add_assoc, Zplus_mod_idemp_l. f_equal. lia.
Qed.

Lemma clear_spec t : Permutation (s_tree_clear t) (map snd (elements t)).
Proof.
  induction t as [|k d l IHl r IHr]; [done|]. cbn [s_tree_clear elements].
  rewrite map_app. cbn [map snd]. rewrite IHl, IHr. by rewrite (Permutation_app_comm _ [d]).
Qed.

(** ** Properties of the binary tree *)

Definition tree_example : dap_binary_tree :=
  Node [98] 20 (Node [97] 10 Leaf Leaf) (Node [99] 30 Leaf Leaf).

(** Traversals.  The in-order list is the data in strictly increasing key
    order, the count is the number of nodes (modulo [2^64]), minimum and
    maximum are its ends, clearing releases every data pointer exactly once;
    on the empty tree minimum and maximum dereference [NULL]. *)
Theorem tree_traversals t : bst t ->
  dap_binary_tree_inorder_list t = map snd (elements t) /\
  StronglySorted klt (map fst (elements t)) /\
  dap_binary_tree_count t = wrap 64 (Z.of_nat (length (elements t))) /\
  dap_binary_tree_minimum t = option_map snd (head (elements t)) /\
  dap_binary_tree_maximum t = option_map snd (list.last (elements t)) /\
  Permutation (dap_binary_tree_clear t) (map snd (elements t)).
Proof.
  intros H. split; [apply (inorder_spec [])|]. split.
  { unfold bst in H. induction H as [|x l _ IH HF]; [constructor|]. cbn [map].
    constructor; [done|]. apply List.Forall_map. exact HF. }
  split; [by apply (count_spec t 0)|]. split; [|split; [|apply clear_spec]].
  - destruct (decide (t = Leaf)) as [-> | Ht]; [done|].
    destruct (minimum_elements t Ht) as (mk & md & rest & E & ->).
    unfold dap_binary_tree_minimum. by rewrite E.
  - destruct (decide (t = Leaf)) as [-> | Ht]; [done|].
    destruct (maximum_elements t Ht) as (mk & md & rest & E & ->).
    unfold dap_binary_tree_maximum. by rewrite E, last_snoc.
Qed.

Lemma tree_traversals_witness :
  dap_binary_tree_inorder_list tree_example = [10; 20; 30].
Proof. apply (tree_traversals tree_example). repeat constructor. Defined.

(** Deleting a node with two children leaves a dangling pointer.  The
    node takes over the data pointer of its successor, whose node is then
    deleted together with that data: the pointer just released is still
    stored in the tree (and the data of the deleted key is not released).  A
    node with at most one child releases exactly its own data. *)
Theorem delete_two_children_dangles t k x d l r : bst t -> s_tree_search t k = Node x d l r ->
  let '(t', freed) := dap_binary_tree_delete t k in
  if decide (l <> Leaf /\ r <> Leaf)
  then exists p, freed = [p] /\ In p (dap_binary_tree_inorder_list t')
  else freed = [d].
Proof.
  intros H E. destruct (delete_freed t k x d l r H E) as [-> Ef].
  pose proof (elements_delete t k H) as Ee. unfold dap_binary_tree_delete.
  destruct (s_tree_delete t k) as [t' freed]. cbn [fst snd] in *.
  destruct (decide (l <> Leaf /\ r <> Leaf)) as [[Hl Hr] | Hlr].
  - destruct (minimum_elements r Hr) as (mk & md & rest & Em & Er). exists md.
    rewrite Em in Ef. split; [by destruct l, r|].
    unfold dap_binary_tree_inorder_list. rewrite inorder_spec, Ee. cbn [app].
    destruct (search_subtree t k k d l r E) as (l1 & l2 & Et). unfold bst in H. rewrite Et in H |- *.
    rewrite Er in H |- *. apply (in_map snd _ (mk, md)). apply filter_In. split.
    + apply in_or_app. right. apply in_or_app. left. apply in_or_app. right. right. by left.
    + apply negb_true_iff. destruct (KEY_EQ k mk) eqn:Ek; [|done]. apply KEY_EQ_iff in Ek as ->.
      exfalso. rewrite <- !app_assoc, app_assoc in H. cbn [app] in H.
      apply sorted_split in H as (_ & _ & _ & F). apply Forall_cons_iff in F as [F _].
      by apply klt_irrefl in F.
  - destruct l, r; try done. exfalso. apply Hlr. done.
Qed.

Lemma delete_two_children_dangles_witness :
  exists p, snd (dap_binary_tree_delete tree_example [98]) = [p] /\
    In p (dap_binary_tree_inorder_list (fst (dap_binary_tree_delete tree_example [98]))).
Proof.
  apply (delete_two_children_dangles tree_example [98] [98] 20 (Node [97] 10 Leaf Leaf)
    (Node [99] 30 Leaf Leaf)); [repeat constructor | reflexivity].
Defined.

Lemma delete_absent t k : s_tree_search t k = Leaf -> s_tree_delete t k = (t, []).
Proof.
  induction t as [|x e l IHl r IHr]; [done|]. cbn [s_tree_search s_tree_delete].
  destruct (key_cases k x) as [(_ & -> & _ & ->) | [(_ & -> & -> & ->) | (-> & _ & _ & ->)]]; intros E; [| |done].
  - by rewrite (IHl E).
  - by rewrite (IHr E).
Qed.

(** Deletion takes one pointer out of the tree, that of the deleted key. *)
Lemma delete_inorder t k x d l r : bst t -> s_tree_search t k = Node x d l r ->
  Permutation (d :: dap_binary_tree_inorder_list (fst (s_tree_delete t k))) (dap_binary_tree_inorder_list t).
Proof.
  intros H E. destruct (delete_freed t k x d l r H E) as [-> _]. unfold dap_binary_tree_inorder_list.
  rewrite !inorder_spec, elements_delete by done. cbn [app].
  destruct (search_subtree t k k d l r E) as (l1 & l2 & Et). unfold bst in H. rewrite Et in *.
  rewrite <- !app_assoc, app_assoc in *. cbn [app] in *. rewrite adelete_middle by done.
  rewrite (map_app snd (l1 ++ elements l)), (map_app snd (l1 ++ elements l)). cbn [map snd]. apply Permutation_middle.
Qed.


