(* ===== verification/Crc64.v ===== *)
(** * CRC64 checksum (core/src/dap_crc64.c)

    The table-driven checksum the database packets carry.  The reference is the
    bit-by-bit algorithm: a 64-bit shift register into which each byte is
    xored. *)

From S2P Require Import Prelude.
From stdpp Require Import list.
Local Open Scope Z_scope.

Definition CRC64_ECMA182_POLY : Z := 0x42f0e1eba9ea3693.
Definition CRC64_ISO_POLY_INV : Z := 0xd800000000000000.

(** [struct crc64_params] *)
Record crc64_params := Crc64Params {
  poly : Z;
  init : Z;
  reflected : bool;
  xorout : Z;
  check : Z;
}.

Definition CRC64_PARAMS_ECMA182 : crc64_params :=
  Crc64Params CRC64_ECMA182_POLY 0 false 0 0x6c40df5f0b497347.
Definition CRC64_PARAMS_ISO : crc64_params :=
  Crc64Params CRC64_ISO_POLY_INV (Z.ones 64) true (Z.ones 64) 0xb90956c775a41001.

Definition c_crc64_params : crc64_params := CRC64_PARAMS_ISO.

Definition s_crc64_table : list Z :=
  [
   0x0000000000000000; 0x01b0000000000000; 0x0360000000000000; 0x02d0000000000000;
   0x06c0000000000000; 0x0770000000000000; 0x05a0000000000000; 0x0410000000000000;
   0x0d80000000000000; 0x0c30000000000000; 0x0ee0000000000000; 0x0f50000000000000;
   0x0b40000000000000; 0x0af0000000000000; 0x0820000000000000; 0x0990000000000000;
   0x1b00000000000000; 0x1ab0000000000000; 0x1860000000000000; 0x19d0000000000000;
   0x1dc0000000000000; 0x1c70000000000000; 0x1ea0000000000000; 0x1f10000000000000;
   0x1680000000000000; 0x1730000000000000; 0x15e0000000000000; 0x1450000000000000;
   0x1040000000000000; 0x11f0000000000000; 0x1320000000000000; 0x1290000000000000;
   0x3600000000000000; 0x37b0000000000000; 0x3560000000000000; 0x34d0000000000000;
   0x30c0000000000000; 0x3170000000000000; 0x33a0000000000000; 0x3210000000000000;
   0x3b80000000000000; 0x3a30000000000000; 0x38e0000000000000; 0x3950000000000000;
   0x3d40000000000000; 0x3cf0000000000000; 0x3e20000000000000; 0x3f90000000000000;
   0x2d00000000000000; 0x2cb0000000000000; 0x2e60000000000000; 0x2fd0000000000000;
   0x2bc0000000000000; 0x2a70000000000000; 0x28a0000000000000; 0x2910000000000000;
   0x2080000000000000; 0x2130000000000000; 0x23e0000000000000; 0x2250000000000000;
   0x2640000000000000; 0x27f0000000000000; 0x2520000000000000; 0x2490000000000000;
   0x6c00000000000000; 0x6db0000000000000; 0x6f60000000000000; 0x6ed0000000000000;
   0x6ac0000000000000; 0x6b70000000000000; 0x69a0000000000000; 0x6810000000000000;
   0x6180000000000000; 0x6030000000000000; 0x62e0000000000000; 0x6350000000000000;
   0x6740000000000000; 0x66f0000000000000; 0x6420000000000000; 0x6590000000000000;
   0x7700000000000000; 0x76b0000000000000; 0x7460000000000000; 0x75d0000000000000;
   0x71c0000000000000; 0x7070000000000000; 0x72a0000000000000; 0x7310000000000000;
   0x7a80000000000000; 0x7b30000000000000; 0x79e0000000000000; 0x7850000000000000;
   0x7c40000000000000; 0x7df0000000000000; 0x7f20000000000000; 0x7e90000000000000;
   0x5a00000000000000; 0x5bb0000000000000; 0x5960000000000000; 0x58d0000000000000;
   0x5cc0000000000000; 0x5d70000000000000; 0x5fa0000000000000; 0x5e10000000000000;
   0x5780000000000000; 0x5630000000000000; 0x54e0000000000000; 0x5550000000000000;
   0x5140000000000000; 0x50f0000000000000; 0x5220000000000000; 0x5390000000000000;
   0x4100000000000000; 0x40b0000000000000; 0x4260000000000000; 0x43d0000000000000;
   0x47c0000000000000; 0x4670000000000000; 0x44a0000000000000; 0x4510000000000000;
   0x4c80000000000000; 0x4d30000000000000; 0x4fe0000000000000; 0x4e50000000000000;
   0x4a40000000000000; 0x4bf0000000000000; 0x4920000000000000; 0x4890000000000000;
   0xd800000000000000; 0xd9b0000000000000; 0xdb60000000000000; 0xdad0000000000000;
   0xdec0000000000000; 0xdf70000000000000; 0xdda0000000000000; 0xdc10000000000000;
   0xd580000000000000; 0xd430000000000000; 0xd6e0000000000000; 0xd750000000000000;
   0xd340000000000000; 0xd2f0000000000000; 0xd020000000000000; 0xd190000000000000;
   0xc300000000000000; 0xc2b0000000000000; 0xc060000000000000; 0xc1d0000000000000;
   0xc5c0000000000000; 0xc470000000000000; 0xc6a0000000000000; 0xc710000000000000;
   0xce80000000000000; 0xcf30000000000000; 0xcde0000000000000; 0xcc50000000000000;
   0xc840000000000000; 0xc9f0000000000000; 0xcb20000000000000; 0xca90000000000000;
   0xee00000000000000; 0xefb0000000000000; 0xed60000000000000; 0xecd0000000000000;
   0xe8c0000000000000; 0xe970000000000000; 0xeba0000000000000; 0xea10000000000000;
   0xe380000000000000; 0xe230000000000000; 0xe0e0000000000000; 0xe150000000000000;
   0xe540000000000000; 0xe4f0000000000000; 0xe620000000000000; 0xe790000000000000;
   0xf500000000000000; 0xf4b0000000000000; 0xf660000000000000; 0xf7d0000000000000;
   0xf3c0000000000000; 0xf270000000000000; 0xf0a0000000000000; 0xf110000000000000;
   0xf880000000000000; 0xf930000000000000; 0xfbe0000000000000; 0xfa50000000000000;
   0xfe40000000000000; 0xfff0000000000000; 0xfd20000000000000; 0xfc90000000000000;
   0xb400000000000000; 0xb5b0000000000000; 0xb760000000000000; 0xb6d0000000000000;
   0xb2c0000000000000; 0xb370000000000000; 0xb1a0000000000000; 0xb010000000000000;
   0xb980000000000000; 0xb830000000000000; 0xbae0000000000000; 0xbb50000000000000;
   0xbf40000000000000; 0xbef0000000000000; 0xbc20000000000000; 0xbd90000000000000;
   0xaf00000000000000; 0xaeb0000000000000; 0xac60000000000000; 0xadd0000000000000;
   0xa9c0000000000000; 0xa870000000000000; 0xaaa0000000000000; 0xab10000000000000;
   0xa280000000000000; 0xa330000000000000; 0xa1e0000000000000; 0xa050000000000000;
   0xa440000000000000; 0xa5f0000000000000; 0xa720000000000000; 0xa690000000000000;
   0x8200000000000000; 0x83b0000000000000; 0x8160000000000000; 0x80d0000000000000;
   0x84c0000000000000; 0x8570000000000000; 0x87a0000000000000; 0x8610000000000000;
   0x8f80000000000000; 0x8e30000000000000; 0x8ce0000000000000; 0x8d50000000000000;
   0x8940000000000000; 0x88f0000000000000; 0x8a20000000000000; 0x8b90000000000000;
   0x9900000000000000; 0x98b0000000000000; 0x9a60000000000000; 0x9bd0000000000000;
   0x9fc0000000000000; 0x9e70000000000000; 0x9ca0000000000000; 0x9d10000000000000;
   0x9480000000000000; 0x9530000000000000; 0x97e0000000000000; 0x9650000000000000;
   0x9240000000000000; 0x93f0000000000000; 0x9120000000000000; 0x9090000000000000].

Definition crc64_entry (i : Z) : Z := nth (Z.to_nat i) s_crc64_table 0.

Fixpoint s_crc64_update (a_crc : Z) (l : list Z) : Z :=
  match l with
  | [] => a_crc
  | b :: l =>
    s_crc64_update (Z.lxor (crc64_entry (Z.land (Z.lxor (Z.shiftr a_crc 56) b) 255))
                           (wrap 64 (Z.shiftl a_crc 8))) l
  end.

Fixpoint s_crc64_reflected_update (a_crc : Z) (l : list Z) : Z :=
  match l with
  | [] => a_crc
  | b :: l =>
    s_crc64_reflected_update (Z.lxor (Z.shiftr a_crc 8) (crc64_entry (Z.lxor (Z.land a_crc 255) b))) l
  end.

Definition crc64_update (a_crc : Z) (l : list Z) : Z :=
  if reflected c_crc64_params then s_crc64_reflected_update a_crc l else s_crc64_update a_crc l.

Definition crc64 (l : list Z) : Z :=
  Z.lxor (crc64_update (init c_crc64_params) l) (xorout c_crc64_params).

(** One entry of the generated tables: the loop over [j] on [c] and [crc]. *)
Fixpoint gen_reflected (j : nat) (n : nat) (c crc a_poly : Z) : Z :=
  match n with
  | O => crc
  | S n =>
    gen_reflected (S j) n c
      (if Z.odd (Z.lxor crc (Z.shiftr c (Z.of_nat j))) then Z.lxor (Z.shiftr crc 1) a_poly else Z.shiftr crc 1)
      a_poly
  end.

Definition s_generate_reflected_crc64_table (a_poly : Z) : list Z :=
  map (λ i, gen_reflected 0 8 (Z.of_nat i) 0 a_poly) (seq 0 256).

Fixpoint gen_plain (n : nat) (c crc a_poly : Z) : Z :=
  match n with
  | O => crc
  | S n =>
    gen_plain n (wrap 64 (Z.shiftl c 1))
      (if Z.testbit (Z.lxor crc c) 63 then Z.lxor (wrap 64 (Z.shiftl crc 1)) a_poly else wrap 64 (Z.shiftl crc 1))
      a_poly
  end.

Definition s_generate_crc64_table (a_poly : Z) : list Z :=
  map (λ i, gen_plain 8 (wrap 64 (Z.shiftl (Z.of_nat i) 56)) 0 a_poly) (seq 0 256).

Definition s_crc64_selfcheck : bool :=
  crc64 [49; 50; 51; 52; 53; 54; 55; 56; 57] =? check c_crc64_params.

Definition dap_crc64_init : Z := if s_crc64_selfcheck then 0 else -1.

(** ** The reference *)

Definition crc_step (x : Z) : Z :=
  if Z.odd x then Z.lxor (Z.shiftr x 1) (poly c_crc64_params) else Z.shiftr x 1.

Fixpoint crc_steps (n : nat) (x : Z) : Z :=
  match n with O => x | S n => crc_steps n (crc_step x) end.

Definition crc64_ref (l : list Z) : Z :=
  Z.lxor (fold_left (λ crc b, crc_steps 8 (Z.lxor crc b)) l (init c_crc64_params)) (xorout c_crc64_params).

(** ** The register is linear *)

Lemma crc_step_lxor x y : crc_step (Z.lxor x y) = Z.lxor (crc_step x) (crc_step y).
Proof.
  unfold crc_step. rewrite <- !Z.bit0_odd, Z.lxor_spec, Z.shiftr_lxor.
  generalize (poly c_crc64_params) (Z.shiftr x 1) (Z.shiftr y 1). intros p a b.
  destruct (Z.testbit x 0), (Z.testbit y 0); cbn [xorb]; apply Z.bits_inj'; intros n _;
    rewrite !Z.lxor_spec; destruct (Z.testbit p n), (Z.testbit a n), (Z.testbit b n); reflexivity.
Qed.

Lemma crc_steps_lxor n x y : crc_steps n (Z.lxor x y) = Z.lxor (crc_steps n x) (crc_steps n y).
Proof. revert x y. induction n as [|n IH]; intros x y; cbn; [done|]. by rewrite crc_step_lxor, IH. Qed.

Lemma crc_steps_add n m x : crc_steps (n + m) x = crc_steps m (crc_steps n x).
Proof. revert x. induction n as [|n IH]; intros x; cbn; [done | apply IH]. Qed.

(** Low zero bits shift out without touching the polynomial. *)
Lemma crc_steps_shift n v : crc_steps n (Z.shiftl v (Z.of_nat n)) = v.
Proof.
  induction n as [|n IH]; [apply Z.shiftl_0_r|]. cbn [crc_steps].
  replace (crc_step _) with (Z.shiftl v (Z.of_nat n)); [done|]. unfold crc_step.
  replace (Z.odd _) with false.
  - rewrite Z.shiftr_shiftl_l by lia. f_equal. lia.
  - rewrite <- Z.bit0_odd, Z.shiftl_spec_low by lia. done.
Qed.

Lemma crc_steps_8 v : crc_steps 8 (Z.shiftl v 8) = v.
Proof. exact (crc_steps_shift 8 v). Qed.

Lemma lxor_fits w x y : 0 <= w -> fits w x -> fits w y -> fits w (Z.lxor x y).
Proof.
  intros Hw Hx Hy. unfold fits in *. rewrite <- (Z.mod_small x (2 ^ w)), <- (Z.mod_small y (2 ^ w)) by lia.
  rewrite <- !Z.land_ones by lia.
  replace (Z.lxor (Z.land x (Z.ones w)) (Z.land y (Z.ones w))) with (Z.land (Z.lxor x y) (Z.ones w)).
  - rewrite Z.land_ones by lia. apply Z.mod_pos_bound. lia.
  - apply Z.bits_inj'. intros n _. rewrite !Z.land_spec, !Z.lxor_spec, !Z.land_spec.
    destruct (Z.testbit x n), (Z.testbit y n), (Z.testbit (Z.ones w) n); reflexivity.
Qed.

Lemma shiftr_fits w k x : 0 <= k -> fits w x -> fits w (Z.shiftr x k).
Proof.
  intros Hk [H1 H2]. rewrite Z.shiftr_div_pow2 by done. split; [apply Z.div_pos; lia|].
  apply Z.div_lt_upper_bound; [lia|]. assert (1 <= 2 ^ k) by (pose proof (Z.pow_pos_nonneg 2 k); lia). nia.
Qed.

Lemma poly_fits : fits 64 (poly c_crc64_params).
Proof. split; [by apply Z.leb_le | by apply Z.ltb_lt]. Qed.

Lemma crc_step_fits x : fits 64 x -> fits 64 (crc_step x).
Proof.
  intros H. unfold crc_step. destruct (Z.odd x); [apply lxor_fits; [lia| |apply poly_fits]|]; by apply shiftr_fits.
Qed.

Lemma crc_steps_fits n x : fits 64 x -> fits 64 (crc_steps n x).
Proof. revert x. induction n as [|n IH]; intros x H; cbn; [done | by apply IH, crc_step_fits]. Qed.

(** The top bit of the polynomial tells the two cases of a step apart. *)
Lemma crc_step_zero x : fits 64 x -> crc_step x = 0 -> x = 0.
Proof.
  intros Hx H. unfold crc_step in H. rewrite (Z.shiftr_div_pow2 x 1) in H by done. change (2 ^ 1) with 2 in H.
  destruct (Z.odd x) eqn:E.
  - apply Z.lxor_eq in H. assert (2 ^ 63 <= poly c_crc64_params) by (apply Z.leb_le; reflexivity).
    unfold fits in Hx. Z.div_mod_to_equations. lia.
  - pose proof (Zodd_mod x) as Ho. rewrite E in Ho. unfold fits in Hx.
    assert (x mod 2 <> 1) by (intros E1; rewrite E1 in Ho; done). Z.div_mod_to_equations. lia.
Qed.

Lemma crc_steps_zero n x : fits 64 x -> crc_steps n x = 0 -> x = 0.
Proof.
  revert x. induction n as [|n IH]; intros x Hx H; [done|]. cbn in H.
  apply IH in H; [by apply crc_step_zero | by apply crc_step_fits].
Qed.

Lemma crc_steps_inj n x y : fits 64 x -> fits 64 y -> crc_steps n x = crc_steps n y -> x = y.
Proof.
  intros Hx Hy H. apply Z.lxor_eq. apply (crc_steps_zero n); [by apply lxor_fits|].
  by rewrite crc_steps_lxor, H, Z.lxor_nilpotent.
Qed.

(** ** The table is eight steps of the register *)

Lemma table_entries : forallb (λ i, crc64_entry i =? crc_steps 8 i) (seqZ 0 256) = true.
Proof. vm_compute. reflexivity. Qed.

Lemma entry_steps i : 0 <= i < 256 -> crc64_entry i = crc_steps 8 i.
Proof. intros H. apply Z.eqb_eq. exact (range_all _ 256 table_entries i H). Qed.

Lemma byte_split crc b : Z.lxor crc b = Z.lxor (Z.shiftl (Z.shiftr crc 8) 8) (Z.lxor (Z.land crc 255) b).
Proof.
  apply Z.bits_inj'. intros n Hn. rewrite !Z.lxor_spec, Z.land_spec.
  change 255 with (Z.ones 8). destruct (Z.ltb_spec n 8).
  - rewrite Z.shiftl_spec_low, Z.ones_spec_low by lia. by rewrite andb_true_r.
  - rewrite Z.shiftl_spec_high, Z.shiftr_spec, Z.ones_spec_high by lia.
    rewrite andb_false_r. replace (n - 8 + 8) with n by lia. destruct (Z.testbit crc n), (Z.testbit b n); done.
Qed.

Lemma reflected_byte crc b : fits 8 b ->
  Z.lxor (Z.shiftr crc 8) (crc64_entry (Z.lxor (Z.land crc 255) b)) = crc_steps 8 (Z.lxor crc b).
Proof.
  intros Hb. rewrite (byte_split crc b), crc_steps_lxor, crc_steps_8. f_equal. apply entry_steps.
  apply (lxor_fits 8); [lia| |done]. change 255 with (Z.ones 8). rewrite land_ones_mod by lia.
  by apply (wrap_fits 8).
Qed.

Lemma update_ref crc l : Forall (fits 8) l ->
  crc64_update crc l = fold_left (λ crc b, crc_steps 8 (Z.lxor crc b)) l crc.
Proof.
  intros H. change (crc64_update crc l) with (s_crc64_reflected_update crc l). revert crc.
  induction H as [|b l Hb _ IH]; intros crc; cbn [s_crc64_reflected_update fold_left]; [done|].
  by rewrite reflected_byte, IH.
Qed.

(** A run of bytes is one xor of their little-endian value. *)
Lemma le_value_cons b l : fits 8 b -> Forall (fits 8) l ->
  le_value (b :: l) = Z.lxor b (Z.shiftl (le_value l) 8).
Proof.
  intros Hb Hl. cbn [le_value]. pose proof (le_value_bound l Hl) as [H _].
  rewrite Z.shiftl_mul_pow2, Z.lxor_comm by done.
  rewrite Z.add_nocarry_lxor.
  - change (2 ^ 8) with 256. by rewrite (Z.mul_comm (le_value l)), Z.lxor_comm.
  - apply Z.bits_inj'. intros n Hn. rewrite Z.land_spec, Z.bits_0. replace 256 with (2 ^ 8) by done.
    rewrite (Z.mul_comm (2 ^ 8)). destruct (Z.ltb_spec n 8).
    + rewrite Z.mul_pow2_bits_low by lia. apply andb_false_r.
    + rewrite (Z.bits_above_log2 b n); [done | apply Hb|]. destruct (Z.eq_dec b 0) as [->|]; [cbn; lia|].
      apply Z.log2_lt_pow2; [unfold fits in Hb; lia|]. pose proof (Z.pow_le_mono_r 2 8 n). unfold fits in Hb. lia.
Qed.

Lemma fold_run crc l : Forall (fits 8) l ->
  fold_left (λ crc b, crc_steps 8 (Z.lxor crc b)) l crc = crc_steps (8 * length l) (Z.lxor crc (le_value l)).
Proof.
  intros H. revert crc. induction H as [|b l Hb Hl IH]; intros crc; cbn [fold_left].
  - cbn. by rewrite Z.lxor_0_r.
  - rewrite IH. cbn [length]. replace (8 * S (length l))%nat with (8 + 8 * length l)%nat by lia.
    rewrite crc_steps_add. f_equal. rewrite le_value_cons by done.
    by rewrite <- Z.lxor_assoc, (crc_steps_lxor 8 (Z.lxor crc b)), crc_steps_8.
Qed.

Lemma fold_fits crc l : fits 64 crc -> Forall (fits 8) l ->
  fits 64 (fold_left (λ crc b, crc_steps 8 (Z.lxor crc b)) l crc).
Proof.
  intros Hc H. revert crc Hc. induction H as [|b l Hb _ IH]; intros crc Hc; cbn [fold_left]; [done|].
  apply IH, crc_steps_fits, lxor_fits; [lia | done|]. unfold fits in *. lia.
Qed.

Lemma fold_inj crc crc' l : fits 64 crc -> fits 64 crc' -> Forall (fits 8) l ->
  fold_left (λ crc b, crc_steps 8 (Z.lxor crc b)) l crc = fold_left (λ crc b, crc_steps 8 (Z.lxor crc b)) l crc' ->
  crc = crc'.
Proof.
  intros Hc Hc' H. revert crc crc' Hc Hc'.
  induction H as [|b l Hb _ IH]; intros crc crc' Hc Hc' E; cbn [fold_left] in E; [done|].
  assert (Hb' : fits 64 b) by (unfold fits in *; lia).
  apply IH in E; try (apply crc_steps_fits, lxor_fits; auto; lia).
  apply crc_steps_inj in E; try (apply lxor_fits; auto; lia).
  apply (f_equal (λ z, Z.lxor z b)) in E. by rewrite !Z.lxor_assoc, Z.lxor_nilpotent, !Z.lxor_0_r in E.
Qed.

Lemma init_fits : fits 64 (init c_crc64_params).
Proof. split; [by apply Z.leb_le | by apply Z.ltb_lt]. Qed.

Lemma crc64_ref_eq l : Forall (fits 8) l -> crc64 l = crc64_ref l.
Proof. intros. unfold crc64, crc64_ref. by rewrite update_ref. Qed.

Lemma crc64_fits l : Forall (fits 8) l -> fits 64 (crc64 l).
Proof.
  intros. rewrite crc64_ref_eq by done. apply lxor_fits; [lia| |apply init_fits].
  by apply fold_fits; [apply init_fits|].
Qed.

(** The checksum is the one its parameters describe.  The table in the
    source is the table its own generator computes for the selected
    polynomial, the table-driven loop equals the bit-by-bit shift register on
    every byte string, updating piecewise equals updating at once, and the
    self-check of [dap_crc64_init] succeeds. *)
Theorem crc64_correct l l' : Forall (fits 8) l -> Forall (fits 8) l' ->
  s_crc64_table = s_generate_reflected_crc64_table (poly c_crc64_params) /\
  crc64 l = crc64_ref l /\ fits 64 (crc64 l) /\
  crc64 (l ++ l') = Z.lxor (crc64_update (crc64_update (init c_crc64_params) l) l') (xorout c_crc64_params) /\
  dap_crc64_init = 0.
Proof.
  intros H H'. split; [vm_compute; reflexivity|].
  split; [by apply crc64_ref_eq|]. split; [by apply crc64_fits|].
  split; [|vm_compute; reflexivity].
  unfold crc64. rewrite !update_ref by (auto; by apply Forall_app). by rewrite fold_left_app.
Qed.

Lemma crc64_correct_witness : crc64 [1; 2] = crc64_ref [1; 2] /\ dap_crc64_init = 0.
Proof.
  destruct (crc64_correct [1; 2] [3]) as (_ & E & _ & _ & E');
    [repeat constructor; vm_compute; congruence | repeat constructor; vm_compute; congruence | split; assumption].
Defined.

(** Error detection.  Two messages that differ only inside a window of at
    most eight consecutive bytes have different checksums. *)
Theorem crc64_detects_bursts pre a b post :
  Forall (fits 8) pre -> Forall (fits 8) a -> Forall (fits 8) b -> Forall (fits 8) post ->
  length a = length b -> (length a <= 8)%nat -> a <> b ->
  crc64 (pre ++ a ++ post) <> crc64 (pre ++ b ++ post).
Proof.
  intros Hp Ha Hb Hq Hl H8 Hne E. apply Hne. unfold crc64 in E.
  rewrite !update_ref in E by (rewrite ?Forall_app; auto).
  apply (f_equal (λ z, Z.lxor z (xorout c_crc64_params))) in E.
  rewrite !Z.lxor_assoc, !Z.lxor_nilpotent, !Z.lxor_0_r, !fold_left_app in E.
  pose proof (fold_fits _ pre init_fits Hp) as Hs. set (s := fold_left _ pre _) in *.
  apply fold_inj in E; [|by apply fold_fits | by apply fold_fits | done].
  rewrite !fold_run, Hl in E by done.
  assert (Hv : forall l, Forall (fits 8) l -> (length l <= 8)%nat -> fits 64 (le_value l)).
  { intros l Hf Hle. pose proof (le_value_bound l Hf). unfold fits.
    pose proof (Z.pow_le_mono_r 2 (8 * Z.of_nat (length l)) 64). lia. }
  apply crc_steps_inj in E; try (apply lxor_fits; [lia | done | apply Hv; [done | lia]]).
  apply (f_equal (Z.lxor s)) in E. rewrite <- !Z.lxor_assoc, !Z.lxor_nilpotent, !Z.lxor_0_l in E.
  rewrite <- (le_bytes_value a), <- (le_bytes_value b) by done. congruence.
Qed.

Lemma crc64_detects_bursts_witness : crc64 ([1] ++ [2; 3] ++ [4]) <> crc64 ([1] ++ [3; 2] ++ [4]).
Proof.
  apply (crc64_detects_bursts [1] [2; 3] [3; 2] [4]); try (repeat constructor; vm_compute; congruence).
Defined.
