(* ===== verification/Cluster.v ===== *)
(** * Clusters and their members (net/stream/stream/dap_stream_cluster.c)

    The state is the heap of [dap_cluster_t] objects, the two hash tables of
    the registry with the lock that guards them, and the log of the calls that
    leave the module: change callbacks and packets handed to
    [dap_stream_ch_pkt_send_by_addr].  A hash table is the list of its
    elements in insertion order, the order uthash iterates in; keys are
    compared by content.  The table of mnemonims keeps the pointer its caller passes
    to [dap_cluster_new], not the copy made for the cluster; the model keeps the text,
    so it is the code as long as the caller's text stays allocated and unchanged.
    Addresses are integers, [0] is [NULL]; the address
    an allocation returns is an argument.

    Every operation runs to completion in one thread.  Taking a lock that an
    earlier call left held blocks for ever: that, a failed assertion and a
    dangling pointer are [None]. *)

From S2P Require Import Prelude.
From stdpp Require Import gmap.
Local Open Scope Z_scope.

Inductive rwlock := Unlocked | RdLocked (n : nat) | WrLocked.

Definition wrlock (l : rwlock) : option rwlock :=
  match l with Unlocked => Some WrLocked | _ => None end.

Definition rdlock (l : rwlock) : option rwlock :=
  match l with
  | Unlocked => Some (RdLocked 1)
  | RdLocked n => Some (RdLocked (S n))
  | WrLocked => None
  end.

Definition unlock (l : rwlock) : rwlock :=
  match l with RdLocked (S (S n)) => RdLocked (S n) | _ => Unlocked end.

Inductive dap_cluster_type :=
  | DAP_CLUSTER_TYPE_INVALID
  | DAP_CLUSTER_TYPE_EMBEDDED
  | DAP_CLUSTER_TYPE_AUTONOMIC
  | DAP_CLUSTER_TYPE_ISOLATED
  | DAP_CLUSTER_TYPE_SYSTEM
  | DAP_CLUSTER_TYPE_VIRTUAL.

#[export] Instance cluster_type_eq_dec : EqDecision dap_cluster_type.
Proof. solve_decision. Defined.

Record dap_cluster_member := Member { addr : Z; role : Z; info : Z }.

Record dap_cluster := Cluster {
  mnemonim : option (list Z);
  guuid : Z;
  type : dap_cluster_type;
  members_lock : rwlock;
  members : list dap_cluster_member;
  members_add_callback : bool;
  members_delete_callback : bool;
  _inheritor : bool;
}.

Inductive event :=
  | EvMemberAdd (cluster addr : Z)
  | EvMemberDelete (cluster addr : Z)
  | EvSend (addr ch_id pkt_type : Z) (data : list Z).

Record world := World {
  heap : gmap Z dap_cluster;
  s_clusters : list Z;
  s_cluster_mnemonims : list (list Z * Z);
  s_clusters_rwlock : rwlock;
  log : list event;
}.

Definition set_heap (w : world) h := World h (s_clusters w) (s_cluster_mnemonims w) (s_clusters_rwlock w) (log w).
Definition set_lock (w : world) l := World (heap w) (s_clusters w) (s_cluster_mnemonims w) l (log w).
Definition set_clusters (w : world) l := World (heap w) l (s_cluster_mnemonims w) (s_clusters_rwlock w) (log w).
Definition set_mnemonims (w : world) l := World (heap w) (s_clusters w) l (s_clusters_rwlock w) (log w).
Definition emit (w : world) e := World (heap w) (s_clusters w) (s_cluster_mnemonims w) (s_clusters_rwlock w) (log w ++ [e]).

Definition set_mnemonim (c : dap_cluster) m :=
  Cluster m (guuid c) (type c) (members_lock c) (members c) (members_add_callback c)
    (members_delete_callback c) (_inheritor c).
Definition set_members_lock (c : dap_cluster) l :=
  Cluster (mnemonim c) (guuid c) (type c) l (members c) (members_add_callback c)
    (members_delete_callback c) (_inheritor c).
Definition set_members (c : dap_cluster) ms :=
  Cluster (mnemonim c) (guuid c) (type c) (members_lock c) ms (members_add_callback c)
    (members_delete_callback c) (_inheritor c).

(** [HASH_FIND] on the two tables. *)
Definition find_guuid (w : world) (g : Z) : option Z :=
  List.find (λ id, match heap w !! id with Some c => guuid c =? g | None => false end) (s_clusters w).

Definition find_mnemonim (w : world) (m : list Z) : option Z :=
  option_map snd (List.find (λ e, bool_decide (e.1 = m)) (s_cluster_mnemonims w)).

(** [HASH_DEL]: an element of the table is unlinked; for an element that was
    never added the handle's [prev] and [next] are [NULL], which uthash takes
    for the last element left: the table is released and the head becomes
    [NULL].  On an empty table the head is dereferenced. *)
Definition hash_del {A} (sel : A -> bool) (tbl : list A) : option (list A) :=
  if existsb sel tbl then Some (List.filter (λ x, negb (sel x)) tbl)
  else match tbl with [] => None | _ => Some [] end.

(** ** The registry *)

Definition dap_cluster_new (w : world) (ret : Z) (strdup_ok : bool)
    (a_mnemonim : option (list Z)) (a_guuid : Z) (a_type : dap_cluster_type)
    : option (world * Z) :=
  if ret =? 0 then Some (w, 0) else
  let w := set_heap w (<[ret := Cluster None a_guuid a_type Unlocked [] false false false]> (heap w)) in
  if decide (a_type = DAP_CLUSTER_TYPE_VIRTUAL) then Some (w, ret) else
  lk ← wrlock (s_clusters_rwlock w);
  let w := set_lock w lk in
  let fail := Some (set_heap w (delete ret (heap w)), 0) in
  let add w := Some (set_lock (set_clusters w (s_clusters w ++ [ret])) (unlock (s_clusters_rwlock w)), ret) in
  match find_guuid w a_guuid with
  | Some _ => fail
  | None =>
    match a_mnemonim with
    | None => add w
    | Some m =>
      match find_mnemonim w m with
      | Some _ => fail
      | None =>
        if negb strdup_ok then fail
        else
          c ← heap w !! ret;
          let w := set_heap w (<[ret := set_mnemonim c (Some m)]> (heap w)) in
          add (set_mnemonims w (s_cluster_mnemonims w ++ [(m, ret)]))
      end
    end
  end.

Definition dap_cluster_find (w : world) (a_uuid : Z) : option (world * Z) :=
  lk ← rdlock (s_clusters_rwlock w);
  let ret := default 0 (find_guuid w a_uuid) in
  Some (set_lock w (unlock lk), ret).

Definition dap_cluster_by_mnemonim (w : world) (a_mnemonim : list Z) : option (world * Z) :=
  lk ← rdlock (s_clusters_rwlock w);
  let ret := default 0 (find_mnemonim w a_mnemonim) in
  Some (set_lock w (unlock lk), ret).

(** ** Members *)

Definition find_member (c : dap_cluster) (a : Z) : option dap_cluster_member :=
  List.find (λ m, addr m =? a) (members c).

(** The callback runs before the element leaves the table. *)
Definition s_cluster_member_delete (w : world) (a_cluster : Z) (a_member : dap_cluster_member)
    : option world :=
  c ← heap w !! a_cluster;
  let w := if members_delete_callback c then emit w (EvMemberDelete a_cluster (addr a_member)) else w in
  ms ← hash_del (λ m, addr m =? addr a_member) (members c);
  Some (set_heap w (<[a_cluster := set_members c ms]> (heap w))).

Definition lock_members (w : world) (a_cluster : Z) (f : rwlock -> option rwlock) : option world :=
  c ← heap w !! a_cluster;
  lk ← f (members_lock c);
  Some (set_heap w (<[a_cluster := set_members_lock c lk]> (heap w))).

Fixpoint delete_members_loop (w : world) (a_cluster : Z) (ms : list dap_cluster_member) : option world :=
  match ms with
  | [] => Some w
  | m :: ms => w ← s_cluster_member_delete w a_cluster m; delete_members_loop w a_cluster ms
  end.

Definition dap_cluster_delete_all_members (w : world) (a_cluster : Z) : option world :=
  w ← lock_members w a_cluster wrlock;
  c ← heap w !! a_cluster;
  w ← delete_members_loop w a_cluster (members c);
  lock_members w a_cluster (λ l, Some (unlock l)).

Definition dap_cluster_delete (w : world) (a_cluster : Z) : option world :=
  if a_cluster =? 0 then Some w else
  lk ← wrlock (s_clusters_rwlock w);
  let w := set_lock w lk in
  c ← heap w !! a_cluster;
  tbl ← hash_del (λ id, id =? a_cluster) (s_clusters w);
  let w := set_clusters w tbl in
  w ← (match mnemonim c with
       | Some _ => names ← hash_del (λ e, e.2 =? a_cluster) (s_cluster_mnemonims w);
                   Some (set_mnemonims w names)
       | None => Some w
       end);
  let w := set_lock w (unlock (s_clusters_rwlock w)) in
  w ← dap_cluster_delete_all_members w a_cluster;
  if _inheritor c then None else Some (set_heap w (delete a_cluster (heap w))).

(** [alloc_ok] is whether the allocation of the member succeeds; the result
    is whether a member was added ([false] is [NULL]). *)
Definition dap_cluster_member_add (w : world) (alloc_ok : bool) (a_cluster a_addr a_role a_info : Z)
    : option (world * bool) :=
  if a_cluster =? 0 then Some (w, false) else
  w ← lock_members w a_cluster wrlock;
  c ← heap w !! a_cluster;
  match find_member c a_addr with
  | Some _ => w ← lock_members w a_cluster (λ l, Some (unlock l)); Some (w, false)
  | None =>
    if negb alloc_ok then w ← lock_members w a_cluster (λ l, Some (unlock l)); Some (w, false)
    else
      let c := set_members c (members c ++ [Member a_addr a_role a_info]) in
      let w := set_heap w (<[a_cluster := c]> (heap w)) in
      w ← lock_members w a_cluster (λ l, Some (unlock l));
      Some (if members_add_callback c then emit w (EvMemberAdd a_cluster a_addr) else w, true)
  end.

Fixpoint register_loop (w : world) (a_cluster : Z) (ms : list dap_cluster_member) : world :=
  match ms with
  | [] => w
  | m :: ms => register_loop (emit w (EvMemberAdd a_cluster (addr m))) a_cluster ms
  end.

Definition dap_cluster_members_register (w : world) (a_cluster : Z) : option world :=
  w ← lock_members w a_cluster rdlock;
  c ← heap w !! a_cluster;
  let w := if members_add_callback c then register_loop w a_cluster (members c) else w in
  lock_members w a_cluster (λ l, Some (unlock l)).

Definition dap_cluster_member_delete (w : world) (a_cluster a_member_addr : Z) : option (world * Z) :=
  if a_cluster =? 0 then Some (w, -1) else
  w ← lock_members w a_cluster wrlock;
  c ← heap w !! a_cluster;
  match find_member c a_member_addr with
  | Some m =>
    w ← s_cluster_member_delete w a_cluster m;
    w ← lock_members w a_cluster (λ l, Some (unlock l));
    Some (w, 0)
  | None => w ← lock_members w a_cluster (λ l, Some (unlock l)); Some (w, 1)
  end.

Fixpoint link_delete_loop (w : world) (l : list Z) (a_addr : Z) : option world :=
  match l with
  | [] => Some w
  | c :: l => '(w, _) ← dap_cluster_member_delete w c a_addr; link_delete_loop w l a_addr
  end.

Definition dap_cluster_link_delete_from_all (w : world) (a_cluster_list : list Z) (a_addr : Z)
    : option world :=
  lk ← rdlock (s_clusters_rwlock w);
  w ← link_delete_loop (set_lock w lk) a_cluster_list a_addr;
  Some (set_lock w (unlock (s_clusters_rwlock w))).

Definition dap_cluster_member_find_unsafe (w : world) (a_cluster a_member_addr : Z)
    : option (world * option dap_cluster_member) :=
  if a_cluster =? 0 then Some (w, None) else
  w ← lock_members w a_cluster rdlock;
  c ← heap w !! a_cluster;
  w ← lock_members w a_cluster (λ l, Some (unlock l));
  Some (w, find_member c a_member_addr).

Definition dap_cluster_member_find_role (w : world) (a_cluster a_member_addr : Z) : option (world * Z) :=
  if a_cluster =? 0 then Some (w, -1) else
  '(w, m) ← dap_cluster_member_find_unsafe w a_cluster a_member_addr;
  Some (w, match m with Some m => role m | None => -1 end).

Fixpoint s_present_in_array (a_addr : Z) (a_array : list Z) : bool :=
  match a_array with
  | [] => false
  | x :: l => if x =? a_addr then true else s_present_in_array a_addr l
  end.

Fixpoint broadcast_loop (w : world) (ms : list dap_cluster_member) (ch_id pkt_type : Z)
    (data : list Z) (exclude : list Z) : world :=
  match ms with
  | [] => w
  | m :: ms =>
    broadcast_loop
      (if s_present_in_array (addr m) exclude then w else emit w (EvSend (addr m) ch_id pkt_type data))
      ms ch_id pkt_type data exclude
  end.

Definition dap_cluster_broadcast (w : world) (a_cluster ch_id pkt_type : Z) (data exclude : list Z)
    : option world :=
  if a_cluster =? 0 then Some w else
  w ← lock_members w a_cluster rdlock;
  c ← heap w !! a_cluster;
  let w := broadcast_loop w (members c) ch_id pkt_type data exclude in
  lock_members w a_cluster (λ l, Some (unlock l)).

(** [rnd] is the value [rand()] returns. *)
Definition dap_cluster_get_random_link (w : world) (rnd : Z) (a_cluster : Z) : option (world * Z) :=
  if a_cluster =? 0 then Some (w, 0) else
  c ← heap w !! a_cluster;
  match members c with
  | [] => Some (w, 0)
  | _ =>
    let num := rnd mod Z.of_nat (length (members c)) in
    w ← lock_members w a_cluster rdlock;
    w ← lock_members w a_cluster (λ l, Some (unlock l));
    Some (w, default 0 (option_map addr (members c !! Z.to_nat num)))
  end.

Definition dap_cluster_members_count (w : world) (a_cluster : Z) : option (world * Z) :=
  if a_cluster =? 0 then Some (w, 0) else
  w ← lock_members w a_cluster rdlock;
  c ← heap w !! a_cluster;
  w ← lock_members w a_cluster (λ l, Some (unlock l));
  Some (w, Z.of_nat (length (members c))).

Definition dap_cluster_is_empty (w : world) (a_cluster : Z) : option (world * bool) :=
  '(w, n) ← dap_cluster_members_count w a_cluster; Some (w, n =? 0).

(** The stored addresses; [alloc_ok] is the array's allocation. *)
Definition dap_cluster_get_all_members_addrs (w : world) (alloc_ok : bool) (a_cluster a_role : Z)
    : option (world * list Z) :=
  if a_cluster =? 0 then Some (w, []) else
  w ← lock_members w a_cluster rdlock;
  c ← heap w !! a_cluster;
  w ← lock_members w a_cluster (λ l, Some (unlock l));
  Some (w, if alloc_ok
           then map addr (List.filter (λ m, (a_role =? -1) || (role m =? a_role)) (members c))
           else []).

(** ** Locking a cluster's members *)

Lemma lock_members_ok w a c f l : heap w !! a = Some c -> f (members_lock c) = Some l ->
  lock_members w a f = Some (set_heap w (<[a := set_members_lock c l]> (heap w))).
Proof. intros E Ef. unfold lock_members. rewrite E. cbn [mbind option_bind]. by rewrite Ef. Qed.

Lemma set_members_lock_id c : members_lock c = Unlocked ->
  set_members_lock c Unlocked = c.
Proof. destruct c; cbn. by intros ->. Qed.

Lemma set_heap_id w : set_heap w (heap w) = w.
Proof. by destruct w. Qed.

(** Unlocking undoes locking. *)
Lemma relock w a c l : heap w !! a = Some c -> members_lock c = Unlocked -> unlock l = Unlocked ->
  lock_members (set_heap w (<[a := set_members_lock c l]> (heap w))) a (λ l, Some (unlock l)) = Some w.
Proof.
  intros E El Eu. erewrite lock_members_ok; [|apply lookup_insert_eq | done].
  cbn [members_lock set_members_lock heap set_heap]. rewrite Eu. unfold set_heap; cbn.
  rewrite insert_insert_eq. f_equal.
  change (set_members_lock (set_members_lock c l) Unlocked) with (set_members_lock c Unlocked).
  rewrite set_members_lock_id, insert_id by done. by destruct w.
Qed.

Section Members.
Context (w : world) (a : Z) (c : dap_cluster).
Hypothesis Ha : a <> 0.
Hypothesis Hc : heap w !! a = Some c.
Hypothesis Hlock : members_lock c = Unlocked.

Lemma member_add_eq ok x r i :
  dap_cluster_member_add w ok a x r i
  = Some (if bool_decide (is_Some (find_member c x)) || negb ok then (w, false)
          else (let w' := set_heap w (<[a := set_members c (members c ++ [Member x r i])]> (heap w)) in
                if members_add_callback c then emit w' (EvMemberAdd a x) else w', true)).
Proof using Ha Hc Hlock.
  unfold dap_cluster_member_add. rewrite (proj2 (Z.eqb_neq a 0)) by done.
  rewrite (lock_members_ok w a c wrlock WrLocked Hc) by (by rewrite Hlock).
  cbn [mbind option_bind heap set_heap]. rewrite lookup_insert_eq. cbn [mbind option_bind].
  change (find_member (set_members_lock c WrLocked) x) with (find_member c x).
  destruct (find_member c x) as [m|]; cbn [orb].
  - rewrite bool_decide_true by done. rewrite relock by done. done.
  - rewrite bool_decide_false by (by intros [? ?]). cbn [orb]. destruct ok; cbn [negb].
    + cbn [heap set_heap]. erewrite lock_members_ok; [|apply lookup_insert_eq | done].
      cbn [mbind option_bind heap set_heap]. rewrite !insert_insert_eq. do 2 f_equal.
      destruct c; cbn in *. subst. done.
    + by rewrite relock by done.
Qed.

Lemma member_delete_eq x :
  dap_cluster_member_delete w a x
  = Some (if bool_decide (is_Some (find_member c x))
          then (let w := if members_delete_callback c then emit w (EvMemberDelete a x) else w in
                set_heap w (<[a := set_members c (List.filter (λ m, negb (addr m =? x)) (members c))]> (heap w)), 0)
          else (w, 1)).
Proof using Ha Hc Hlock.
  unfold dap_cluster_member_delete. rewrite (proj2 (Z.eqb_neq a 0)) by done.
  rewrite (lock_members_ok w a c wrlock WrLocked Hc) by (by rewrite Hlock).
  cbn [mbind option_bind heap set_heap]. rewrite lookup_insert_eq. cbn [mbind option_bind].
  change (find_member (set_members_lock c WrLocked) x) with (find_member c x).
  destruct (find_member c x) as [m|] eqn:Ef.
  - rewrite bool_decide_true by done. unfold find_member in Ef.
    apply List.find_some in Ef as [Hin Hx]. apply Z.eqb_eq in Hx.
    unfold s_cluster_member_delete. cbn [heap set_heap]. rewrite lookup_insert_eq.
    cbn [mbind option_bind]. unfold hash_del. rewrite Hx.
    rewrite (proj2 (List.existsb_exists _ _)) by (exists m; split; [exact Hin | by apply Z.eqb_eq]).
    cbn [mbind option_bind].
    change (members_delete_callback (set_members_lock c WrLocked)) with (members_delete_callback c).
    change (members (set_members_lock c WrLocked)) with (members c).
    erewrite lock_members_ok; [|apply lookup_insert_eq | done]. cbn [mbind option_bind heap set_heap].
    do 2 f_equal. destruct (members_delete_callback c); cbn; rewrite !insert_insert_eq;
      destruct c; cbn in *; subst; done.
  - rewrite bool_decide_false by (by intros [? ?]). by rewrite relock by done.
Qed.

Lemma member_find_eq x : dap_cluster_member_find_unsafe w a x = Some (w, find_member c x).
Proof using Ha Hc Hlock.
  unfold dap_cluster_member_find_unsafe. rewrite (proj2 (Z.eqb_neq a 0)) by done.
  rewrite (lock_members_ok w a c rdlock (RdLocked 1) Hc) by (by rewrite Hlock).
  cbn [mbind option_bind heap set_heap]. rewrite lookup_insert_eq. cbn [mbind option_bind].
  by rewrite relock by done.
Qed.

Lemma members_count_eq : dap_cluster_members_count w a = Some (w, Z.of_nat (length (members c))).
Proof using Ha Hc Hlock.
  unfold dap_cluster_members_count. rewrite (proj2 (Z.eqb_neq a 0)) by done.
  rewrite (lock_members_ok w a c rdlock (RdLocked 1) Hc) by (by rewrite Hlock).
  cbn [mbind option_bind heap set_heap]. rewrite lookup_insert_eq. cbn [mbind option_bind].
  by rewrite relock by done.
Qed.

Lemma broadcast_loop_eq ms w' ch ty d ex :
  broadcast_loop w' ms ch ty d ex
  = World (heap w') (s_clusters w') (s_cluster_mnemonims w') (s_clusters_rwlock w')
      (log w' ++ map (λ m, EvSend (addr m) ch ty d)
                   (List.filter (λ m, negb (s_present_in_array (addr m) ex)) ms)).
Proof using.
  revert w'. induction ms as [|m ms IH]; intros w'; cbn [broadcast_loop List.filter map].
  - rewrite app_nil_r. by destruct w'.
  - rewrite IH. destruct (s_present_in_array (addr m) ex); cbn [negb]; [done|]. cbn.
    by rewrite <- app_assoc.
Qed.

Lemma broadcast_eq ch ty d ex :
  dap_cluster_broadcast w a ch ty d ex
  = Some (World (heap w) (s_clusters w) (s_cluster_mnemonims w) (s_clusters_rwlock w)
      (log w ++ map (λ m, EvSend (addr m) ch ty d)
                 (List.filter (λ m, negb (s_present_in_array (addr m) ex)) (members c)))).
Proof using Ha Hc Hlock.
  unfold dap_cluster_broadcast. rewrite (proj2 (Z.eqb_neq a 0)) by done.
  rewrite (lock_members_ok w a c rdlock (RdLocked 1) Hc) by (by rewrite Hlock).
  cbn [mbind option_bind heap set_heap]. rewrite lookup_insert_eq. cbn [mbind option_bind].
  rewrite broadcast_loop_eq. cbn [heap set_heap s_clusters s_cluster_mnemonims s_clusters_rwlock log members set_members_lock].
  erewrite lock_members_ok; [|apply lookup_insert_eq | done]. cbn [heap].
  rewrite insert_insert_eq. unfold set_heap. cbn. do 2 f_equal.
  rewrite <- Hlock. destruct c; cbn in *. subst. by apply insert_id.
Qed.

Lemma random_link_eq rnd :
  dap_cluster_get_random_link w rnd a
  = Some (w, default 0 (option_map addr (members c !! Z.to_nat (rnd mod Z.of_nat (length (members c)))))).
Proof using Ha Hc Hlock.
  unfold dap_cluster_get_random_link. rewrite (proj2 (Z.eqb_neq a 0)), Hc by done. cbn [mbind option_bind].
  destruct (members c) as [|m ms]; [done|].
  rewrite (lock_members_ok w a c rdlock (RdLocked 1) Hc) by (by rewrite Hlock). cbn [mbind option_bind].
  by rewrite (relock w a c).
Qed.
End Members.

(** ** The registry invariant *)

Record cluster_inv (w : world) : Prop := {
  inv_lock : s_clusters_rwlock w = Unlocked;
  inv_members id c : heap w !! id = Some c ->
    members_lock c = Unlocked /\ NoDup (map addr (members c));
  inv_nodup : NoDup (s_clusters w);
  inv_heap id : id ∈ s_clusters w -> id <> 0 /\ exists c, heap w !! id = Some c;
  inv_guuid id1 id2 c1 c2 : id1 ∈ s_clusters w -> id2 ∈ s_clusters w ->
    heap w !! id1 = Some c1 -> heap w !! id2 = Some c2 -> guuid c1 = guuid c2 -> id1 = id2;
  inv_names_nodup : NoDup (map fst (s_cluster_mnemonims w));
  inv_names m id : (m, id) ∈ s_cluster_mnemonims w <->
    id ∈ s_clusters w /\ exists c, heap w !! id = Some c /\ mnemonim c = Some m;
}.

Lemma find_guuid_Some w g id : find_guuid w g = Some id ->
  id ∈ s_clusters w /\ exists c, heap w !! id = Some c /\ guuid c = g.
Proof.
  unfold find_guuid. intros [Hin Hg]%List.find_some. split; [by apply list_elem_of_In|].
  destruct (heap w !! id) as [c|]; [|done]. exists c. split; [done | by apply Z.eqb_eq].
Qed.

Lemma cluster_find_eq w g : cluster_inv w -> dap_cluster_find w g = Some (w, default 0 (find_guuid w g)).
Proof.
  intros I. unfold dap_cluster_find. rewrite (inv_lock w I). cbn.
  do 2 f_equal. pose proof (inv_lock w I). destruct w; cbn in *; by subst.
Qed.

(** What a broadcast sends, and the world with more in its log. *)
Definition sends (w : world) (a ch ty : Z) (d ex : list Z) : list event :=
  match heap w !! a with
  | Some c => map (λ m, EvSend (addr m) ch ty d)
                (List.filter (λ m, negb (s_present_in_array (addr m) ex)) (members c))
  | None => []
  end.

Definition add_log (w : world) (l : list event) : world :=
  World (heap w) (s_clusters w) (s_cluster_mnemonims w) (s_clusters_rwlock w) (log w ++ l).

Lemma add_log_nil w : add_log w [] = w.
Proof. destruct w. unfold add_log; cbn. by rewrite app_nil_r. Qed.

Lemma add_log_inv w l : cluster_inv w -> cluster_inv (add_log w l).
Proof. intros []. split; done. Qed.

Lemma broadcast_sends w a c ch ty d ex : cluster_inv w -> a <> 0 -> heap w !! a = Some c ->
  dap_cluster_broadcast w a ch ty d ex = Some (add_log w (sends w a ch ty d ex)).
Proof.
  intros I Ha Hc. destruct (inv_members w I a c Hc) as [Hl _].
  rewrite (broadcast_eq w a c Ha Hc Hl). unfold add_log, sends. by rewrite Hc.
Qed.

Lemma find_guuid_unique w g id c : cluster_inv w -> id ∈ s_clusters w -> heap w !! id = Some c ->
  guuid c = g -> find_guuid w g = Some id.
Proof.
  intros I Hin E Eg. destruct (find_guuid w g) as [id'|] eqn:Ef.
  - apply find_guuid_Some in Ef as (Hin' & c' & E' & Eg'). f_equal.
    apply (inv_guuid w I id' id c' c); congruence.
  - unfold find_guuid in Ef. pose proof (List.find_none _ _ Ef id) as H. cbn beta in H.
    rewrite E in H. apply list_elem_of_In in Hin. specialize (H Hin). lia.
Qed.

Lemma find_guuid_None w g : find_guuid w g = None -> forall id c, id ∈ s_clusters w ->
  heap w !! id = Some c -> guuid c <> g.
Proof.
  intros Ef id c Hin E Eg. unfold find_guuid in Ef.
  pose proof (List.find_none _ _ Ef id) as H. cbn beta in H. rewrite E in H. apply list_elem_of_In in Hin.
  specialize (H Hin). lia.
Qed.

Lemma find_mnemonim_Some w m id : find_mnemonim w m = Some id -> (m, id) ∈ s_cluster_mnemonims w.
Proof.
  unfold find_mnemonim. destruct (List.find _ _) as [[m' id']|] eqn:E; [|done].
  cbn. intros [= ->]. apply List.find_some in E as [Hin Hm]. apply list_elem_of_In.
  cbn in Hm. apply bool_decide_eq_true in Hm. by subst.
Qed.

Lemma find_mnemonim_None w m : find_mnemonim w m = None ->
  m ∉ map fst (s_cluster_mnemonims w).
Proof.
  unfold find_mnemonim. destruct (List.find _ _) as [e|] eqn:E; [done|]. intros _ Hin.
  apply list_elem_of_In, List.in_map_iff in Hin as (e & <- & Hin).
  pose proof (List.find_none _ _ E e Hin) as H. cbn beta in H. by rewrite bool_decide_true in H.
Qed.

(** Names already taken: what makes [dap_cluster_new] refuse. *)
Definition taken (w : world) (m : option (list Z)) (g : Z) : bool :=
  bool_decide (is_Some (find_guuid w g)) ||
  match m with Some m => bool_decide (is_Some (find_mnemonim w m)) | None => false end.

(** The world after a successful registration. *)
Definition registered (w : world) (ret : Z) (m : option (list Z)) (g : Z) (ty : dap_cluster_type) : world :=
  World (<[ret := Cluster m g ty Unlocked [] false false false]> (heap w)) (s_clusters w ++ [ret])
    (s_cluster_mnemonims w ++ match m with Some m => [(m, ret)] | None => [] end) Unlocked (log w).

Lemma find_guuid_fresh w ret g c h : cluster_inv w -> heap w !! ret = None ->
  h = <[ret := c]> (heap w) -> find_guuid (set_heap w h) g = find_guuid w g.
Proof.
  intros I Hf ->. unfold find_guuid. cbn [heap set_heap s_clusters].
  assert (H : forall id, id ∈ s_clusters w -> <[ret := c]> (heap w) !! id = heap w !! id).
  { intros id Hin. destruct (inv_heap w I id Hin) as [_ [c' E]].
    apply lookup_insert_ne. intros ->. congruence. }
  revert H. generalize (s_clusters w) as l. induction l as [|x l IH]; intros H; [done|].
  cbn [List.find]. rewrite H by (left). rewrite IH; [done|]. intros. apply H. by right.
Qed.

Lemma cluster_new_eq w ret m g ty : cluster_inv w -> ret <> 0 -> heap w !! ret = None ->
  ty <> DAP_CLUSTER_TYPE_VIRTUAL ->
  dap_cluster_new w ret true m g ty
  = Some (if taken w m g then (set_lock w WrLocked, 0) else (registered w ret m g ty, ret)).
Proof.
  intros I Hr Hf Hty. unfold dap_cluster_new. rewrite (proj2 (Z.eqb_neq ret 0)) by done.
  rewrite decide_False by done. cbn [s_clusters_rwlock set_heap]. rewrite (inv_lock w I).
  cbn [wrlock mbind option_bind].
  change (find_guuid (set_lock ?x ?l) g) with (find_guuid x g).
  change (find_mnemonim (set_lock (set_heap w ?h) ?l)) with (find_mnemonim w).
  rewrite (find_guuid_fresh w ret g _ _ I Hf eq_refl). unfold taken.
  assert (Edel : set_heap (set_lock (set_heap w (<[ret := Cluster None g ty Unlocked [] false false false]> (heap w))) WrLocked)
      (delete ret (<[ret := Cluster None g ty Unlocked [] false false false]> (heap w))) = set_lock w WrLocked).
  { rewrite delete_insert_eq, delete_id by done. done. }
  destruct (find_guuid w g) as [id|]; [rewrite bool_decide_true by done; cbn; by rewrite Edel|].
  rewrite bool_decide_false by (by intros [? ?]). cbn [orb].
  destruct m as [m|]; [|unfold registered; by rewrite app_nil_r].
  destruct (find_mnemonim w m) as [id|]; [rewrite bool_decide_true by done; cbn; by rewrite Edel|].
  rewrite bool_decide_false by (by intros [? ?]). cbn. rewrite lookup_insert_eq. cbn.
  by rewrite insert_insert_eq.
Qed.

Lemma registered_inv w ret m g ty : cluster_inv w -> ret <> 0 -> heap w !! ret = None ->
  taken w m g = false -> cluster_inv (registered w ret m g ty).
Proof.
  intros I Hr Hf Ht. unfold taken in Ht. apply orb_false_iff in Ht as [Hg Hm].
  assert (Hg' : find_guuid w g = None) by (destruct (find_guuid w g); [by rewrite bool_decide_true in Hg | done]).
  pose proof (find_guuid_None w g Hg') as Hng.
  assert (Hnew : ret ∉ s_clusters w) by (intros [_ [c E]]%(inv_heap w I); congruence).
  assert (Hne : forall id, id ∈ s_clusters w -> id <> ret) by (intros id Hin ->; done).
  split; cbn [registered heap s_clusters s_cluster_mnemonims s_clusters_rwlock].
  - done.
  - intros id c. destruct (decide (id = ret)) as [-> | Hid].
    + rewrite lookup_insert_eq. intros [= <-]. split; [done | constructor].
    + rewrite lookup_insert_ne by done. apply (inv_members w I).
  - apply NoDup_app. split; [apply (inv_nodup w I)|]. split; [|apply NoDup_singleton].
    intros x Hx ->%list_elem_of_singleton. done.
  - intros id [Hin | ->%list_elem_of_singleton]%elem_of_app.
    + destruct (inv_heap w I id Hin) as [? [c E]]. split; [done|]. exists c.
      rewrite lookup_insert_ne by (intros ?; subst; done). done.
    + split; [done|]. eexists. apply lookup_insert_eq.
  - intros id1 id2 c1 c2 H1 H2 E1 E2 Eg.
    apply elem_of_app in H1 as [H1 | ->%list_elem_of_singleton];
      apply elem_of_app in H2 as [H2 | ->%list_elem_of_singleton]; [..|done].
    + rewrite lookup_insert_ne in E1, E2 by (intros ?; subst; done). by apply (inv_guuid w I id1 id2 c1 c2).
    + rewrite lookup_insert_eq in E2. injection E2 as <-. cbn in Eg.
      rewrite lookup_insert_ne in E1 by (intros ?; subst; done). by destruct (Hng id1 c1 H1 E1).
    + rewrite lookup_insert_eq in E1. injection E1 as <-. cbn in Eg.
      rewrite lookup_insert_ne in E2 by (intros ?; subst; done). by destruct (Hng id2 c2 H2 E2).
  - rewrite map_app. destruct m as [m|]; [|rewrite app_nil_r; apply (inv_names_nodup w I)].
    apply NoDup_app. split; [apply (inv_names_nodup w I)|]. split; [|apply NoDup_singleton].
    intros x Hx ->%list_elem_of_singleton. revert Hx. apply (find_mnemonim_None w). cbn [fst].
    destruct (find_mnemonim w m); [by rewrite bool_decide_true in Hm | done].
  - intros m' id. rewrite !elem_of_app. split.
    + intros [Hin | Hin].
      * apply (inv_names w I) in Hin as (Hid & c & E & Em). split; [by left|]. exists c.
        rewrite lookup_insert_ne by (intros ?; subst; done). done.
      * destruct m as [m|]; [|by apply not_elem_of_nil in Hin].
        apply list_elem_of_singleton in Hin as [= -> ->]. split; [right; by apply list_elem_of_singleton|].
        eexists. split; [apply lookup_insert_eq | done].
    + intros ([Hid | ->%list_elem_of_singleton] & c & E & Em).
      * left. apply (inv_names w I). split; [done|]. rewrite lookup_insert_ne in E by (intros ?; subst; done). eauto.
      * right. rewrite lookup_insert_eq in E. injection E as <-. cbn in Em. subst m.
        by apply list_elem_of_singleton.
Qed.

(** Changing the members of one cluster keeps the invariant. *)
Lemma set_members_inv w a c ms : cluster_inv w -> heap w !! a = Some c -> NoDup (map addr ms) ->
  cluster_inv (set_heap w (<[a := set_members c ms]> (heap w))).
Proof.
  intros I E Hms. destruct (inv_members w I a c E) as [Hl _].
  assert (Hk : forall id c', <[a := set_members c ms]> (heap w) !! id = Some c' ->
    exists c0, heap w !! id = Some c0 /\ guuid c0 = guuid c' /\ mnemonim c0 = mnemonim c').
  { intros id c'. destruct (decide (id = a)) as [-> | Hid].
    - rewrite lookup_insert_eq. intros [= <-]. by exists c.
    - rewrite lookup_insert_ne by done. intros. by exists c'. }
  split; cbn [set_heap heap s_clusters s_cluster_mnemonims s_clusters_rwlock].
  - apply (inv_lock w I).
  - intros id c'. destruct (decide (id = a)) as [-> | Hid].
    + rewrite lookup_insert_eq. intros [= <-]. done.
    + rewrite lookup_insert_ne by done. apply (inv_members w I).
  - apply (inv_nodup w I).
  - intros id Hin. destruct (inv_heap w I id Hin) as [? [c' E']]. split; [done|].
    destruct (decide (id = a)) as [-> | Hid]; [by rewrite lookup_insert_eq; eauto|].
    rewrite lookup_insert_ne by done. eauto.
  - intros id1 id2 c1 c2 H1 H2 E1 E2 Eg.
    destruct (Hk _ _ E1) as (d1 & F1 & G1 & _), (Hk _ _ E2) as (d2 & F2 & G2 & _).
    apply (inv_guuid w I id1 id2 d1 d2); congruence.
  - apply (inv_names_nodup w I).
  - intros m id. rewrite (inv_names w I). split; intros (Hid & c' & E' & Em); (split; [done|]).
    + destruct (decide (id = a)) as [-> | Hne].
      * exists (set_members c ms). rewrite lookup_insert_eq. split; [done|]. cbn. congruence.
      * exists c'. by rewrite lookup_insert_ne by done.
    + destruct (Hk _ _ E') as (d & F & _ & G). exists d. split; congruence.
Qed.

Lemma emit_inv w e : cluster_inv w -> cluster_inv (emit w e).
Proof. intros []. split; done. Qed.

Lemma find_member_None c x : find_member c x = None -> x ∉ map addr (members c).
Proof.
  unfold find_member. intros Ef Hin. apply list_elem_of_In, List.in_map_iff in Hin as (m & <- & Hin).
  pose proof (List.find_none _ _ Ef m Hin) as H. cbn beta in H. lia.
Qed.

(** Removing the member that was just appended. *)
Lemma filter_snoc ms x r i : List.find (λ m, addr m =? x) ms = None ->
  List.filter (λ m, negb (addr m =? x)) (ms ++ [Member x r i]) = ms.
Proof.
  induction ms as [|m ms IH]; cbn; [by rewrite Z.eqb_refl|].
  destruct (addr m =? x); [done|]. cbn. intros H. by rewrite IH.
Qed.

Lemma NoDup_filter_addr (f : dap_cluster_member -> bool) ms :
  NoDup (map addr ms) -> NoDup (map addr (List.filter f ms)).
Proof.
  induction ms as [|m ms IH]; [done|]. cbn [map List.filter]. intros [Hm H]%NoDup_cons.
  destruct (f m); [|by apply IH]. cbn [map]. apply NoDup_cons. split; [|by apply IH].
  intros Hin. apply Hm. apply list_elem_of_In, List.in_map_iff in Hin as (m' & E & Hin).
  apply List.filter_In in Hin as [Hin _]. apply list_elem_of_In, List.in_map_iff. eauto.
Qed.

Lemma member_add_inv w a c ok x r i w' b : cluster_inv w -> a <> 0 -> heap w !! a = Some c ->
  dap_cluster_member_add w ok a x r i = Some (w', b) -> cluster_inv w'.
Proof.
  intros I Ha Hc. destruct (inv_members w I a c Hc) as [Hl Hnd].
  rewrite (member_add_eq w a c Ha Hc Hl).
  destruct (bool_decide_reflect (is_Some (find_member c x))) as [_ | Hn]; cbn [orb];
    [by intros [= <- _]|]. destruct ok; cbn [negb]; [|by intros [= <- _]]. intros [= <- _].
  assert (cluster_inv (set_heap w (<[a := set_members c (members c ++ [Member x r i])]> (heap w)))) as Hi.
  { apply set_members_inv; [done | done|]. rewrite map_app. apply NoDup_app. split; [done|].
    split; [|apply NoDup_singleton]. intros y Hy ->%list_elem_of_singleton. revert Hy.
    cbn [addr]. apply find_member_None. destruct (find_member c x); [by destruct Hn | done]. }
  destruct (members_add_callback c); [by apply emit_inv | done].
Qed.

Lemma member_delete_inv w a c x w' r : cluster_inv w -> a <> 0 -> heap w !! a = Some c ->
  dap_cluster_member_delete w a x = Some (w', r) -> cluster_inv w'.
Proof.
  intros I Ha Hc. destruct (inv_members w I a c Hc) as [Hl Hnd].
  rewrite (member_delete_eq w a c Ha Hc Hl).
  destruct (bool_decide _); intros [= <- _]; [|done].
  apply set_members_inv; [by destruct (members_delete_callback c); [apply emit_inv|] | | by apply NoDup_filter_addr].
  by destruct (members_delete_callback c).
Qed.

(** ** Properties of clusters *)

(** Registration.  On a consistent registry [dap_cluster_new] of an unused
    GUUID and mnemonim registers the new cluster under both, keeps the registry
    consistent (unique GUUIDs and mnemonims, both tables in agreement, locks
    free) and leaves every other lookup unchanged. *)
Theorem cluster_new_registers w ret m g ty : cluster_inv w -> ret <> 0 -> heap w !! ret = None ->
  ty <> DAP_CLUSTER_TYPE_VIRTUAL -> taken w m g = false ->
  exists w', dap_cluster_new w ret true m g ty = Some (w', ret) /\ cluster_inv w' /\
    dap_cluster_find w' g = Some (w', ret) /\
    (forall g' id c, g' <> g -> find_guuid w g' = Some id -> heap w !! id = Some c ->
       dap_cluster_find w' g' = Some (w', id) /\ heap w' !! id = Some c) /\
    (forall m', m = Some m' -> (m', ret) ∈ s_cluster_mnemonims w').
Proof.
  intros I Hr Hf Hty Ht. rewrite (cluster_new_eq w ret m g ty) by done. rewrite Ht.
  pose proof (registered_inv w ret m g ty I Hr Hf Ht) as I'. eexists. split; [done|]. split; [done|].
  assert (Hfind : forall g' id, find_guuid (registered w ret m g ty) g' = Some id ->
    dap_cluster_find (registered w ret m g ty) g' = Some (registered w ret m g ty, id)).
  { intros g' id E. unfold dap_cluster_find. rewrite E. done. }
  split; [|split].
  - apply Hfind. apply (find_guuid_unique _ g ret (Cluster m g ty Unlocked [] false false false) I');
      [apply elem_of_app; right; by apply list_elem_of_singleton | apply lookup_insert_eq | done].
  - intros g' id c Hg' E Ec. apply find_guuid_Some in E as (Hin & c' & E' & Eg).
    assert (E'' : heap (registered w ret m g ty) !! id = Some c').
    { cbn. rewrite lookup_insert_ne by (intros ?; subst; congruence). done. }
    split; [|congruence]. apply Hfind.
    apply (find_guuid_unique _ g' id c' I'); [apply elem_of_app; by left | done | done].
  - intros m' ->. cbn. apply elem_of_app. right. by apply list_elem_of_singleton.
Qed.

Definition empty_world : world := World ∅ [] [] Unlocked [].

Lemma empty_world_inv : cluster_inv empty_world.
Proof.
  split; cbn.
  - done.
  - intros id c. by rewrite lookup_empty.
  - constructor.
  - intros id H. by apply not_elem_of_nil in H.
  - intros id1 id2 c1 c2 H. by apply not_elem_of_nil in H.
  - constructor.
  - intros m id. split; [intros H | intros [H _]]; by apply not_elem_of_nil in H.
Qed.

Lemma cluster_new_registers_witness :
  exists w', dap_cluster_new empty_world 8 true (Some [103]) 77 DAP_CLUSTER_TYPE_EMBEDDED = Some (w', 8)
    /\ cluster_inv w' /\ dap_cluster_find w' 77 = Some (w', 8).
Proof.
  destruct (cluster_new_registers empty_world 8 (Some [103]) 77 DAP_CLUSTER_TYPE_EMBEDDED)
    as (w' & E & I & F & _); [apply empty_world_inv | done | reflexivity | done | reflexivity |].
  exists w'. auto.
Defined.

(** A refused registration leaves the registry locked.  When the GUUID or
    the mnemonim is in use, [dap_cluster_new] returns [NULL] without releasing
    [s_clusters_rwlock]: from then on every lookup, registration, deletion and
    link removal blocks for ever. *)
Theorem cluster_new_refused_deadlocks w ret m g ty : cluster_inv w -> ret <> 0 ->
  heap w !! ret = None -> ty <> DAP_CLUSTER_TYPE_VIRTUAL -> taken w m g = true ->
  exists w', dap_cluster_new w ret true m g ty = Some (w', 0) /\
    s_clusters_rwlock w' = WrLocked /\ heap w' = heap w /\
    (forall g', dap_cluster_find w' g' = None) /\
    (forall m', dap_cluster_by_mnemonim w' m' = None) /\
    (forall ret' ok m' g' ty', ret' <> 0 -> ty' <> DAP_CLUSTER_TYPE_VIRTUAL ->
       dap_cluster_new w' ret' ok m' g' ty' = None) /\
    (forall c, c <> 0 -> dap_cluster_delete w' c = None) /\
    (forall l a, dap_cluster_link_delete_from_all w' l a = None).
Proof.
  intros I Hr Hf Hty Ht. rewrite (cluster_new_eq w ret m g ty) by done. rewrite Ht.
  eexists. split; [done|]. repeat split; try done.
  - intros ret' ok m' g' ty' Hr' Hty'. unfold dap_cluster_new.
    rewrite (proj2 (Z.eqb_neq ret' 0)) by done. by rewrite decide_False by done.
  - intros c Hc. unfold dap_cluster_delete. by rewrite (proj2 (Z.eqb_neq c 0)) by done.
Qed.

Definition one_cluster : world := registered empty_world 8 (Some [103]) 77 DAP_CLUSTER_TYPE_EMBEDDED.

Lemma one_cluster_inv : cluster_inv one_cluster.
Proof. apply registered_inv; [apply empty_world_inv | done | done | done]. Qed.

Lemma cluster_new_refused_deadlocks_witness :
  exists w', dap_cluster_new one_cluster 9 true None 77 DAP_CLUSTER_TYPE_ISOLATED = Some (w', 0) /\
    s_clusters_rwlock w' = WrLocked /\ heap w' = heap one_cluster /\
    (forall g', dap_cluster_find w' g' = None).
Proof.
  destruct (cluster_new_refused_deadlocks one_cluster 9 None 77 DAP_CLUSTER_TYPE_ISOLATED)
    as (w' & E & L & H & F & _); [apply one_cluster_inv | done | reflexivity | done | reflexivity |].
  exists w'. auto.
Defined.

(** Deleting a virtual cluster destroys the registry.  A virtual cluster is
    never entered in [s_clusters], yet [dap_cluster_delete] unlinks it from
    there; uthash then takes its unused handle for the last element and drops
    the whole table: every registered cluster becomes unreachable.  On an empty
    registry the same call dereferences a null head. *)
Theorem virtual_delete_drops_registry w v g : cluster_inv w -> v <> 0 -> v ∉ s_clusters w ->
  heap w !! v = Some (Cluster None g DAP_CLUSTER_TYPE_VIRTUAL Unlocked [] false false false) ->
  if decide (s_clusters w = []) then dap_cluster_delete w v = None
  else exists w', dap_cluster_delete w v = Some w' /\ s_clusters w' = [] /\
         forall g', dap_cluster_find w' g' = Some (w', 0).
Proof.
  intros I Hv Hni Hc. unfold dap_cluster_delete. rewrite (proj2 (Z.eqb_neq v 0)) by done.
  rewrite (inv_lock w I). cbn [wrlock mbind option_bind heap set_lock]. rewrite Hc.
  cbn [mbind option_bind mnemonim _inheritor s_clusters set_lock].
  destruct (existsb (λ id, id =? v) (s_clusters w)) eqn:Ex.
  { apply List.existsb_exists in Ex as (id & Hin & ->%Z.eqb_eq). destruct Hni. by apply list_elem_of_In. }
  unfold hash_del. rewrite Ex. destruct (s_clusters w) as [|c l] eqn:Es; [by rewrite decide_True|].
  rewrite decide_False by done. cbn [mbind option_bind]. unfold dap_cluster_delete_all_members.
  erewrite lock_members_ok; [|exact Hc | done]. cbn [mbind option_bind heap set_heap set_lock set_clusters].
  rewrite lookup_insert_eq. cbn [mbind option_bind members set_members_lock delete_members_loop].
  erewrite lock_members_ok; [|apply lookup_insert_eq | done]. cbn [mbind option_bind].
  eexists. split; [done|]. split; done.
Qed.

Definition with_virtual : world :=
  set_heap one_cluster (<[5 := Cluster None 1 DAP_CLUSTER_TYPE_VIRTUAL Unlocked [] false false false]>
    (heap one_cluster)).

Lemma virtual_inv w ret g : cluster_inv w -> heap w !! ret = None ->
  cluster_inv (set_heap w (<[ret := Cluster None g DAP_CLUSTER_TYPE_VIRTUAL Unlocked [] false false false]> (heap w))).
Proof.
  intros I Hf. assert (Hne : forall id, id ∈ s_clusters w -> ret <> id).
  { intros id [_ [c E]]%(inv_heap w I) ->. congruence. }
  split; cbn [set_heap heap s_clusters s_cluster_mnemonims s_clusters_rwlock].
  - apply (inv_lock w I).
  - intros id c. destruct (decide (id = ret)) as [-> | Hid].
    + rewrite lookup_insert_eq. intros [= <-]. split; [done | constructor].
    + rewrite lookup_insert_ne by done. apply (inv_members w I).
  - apply (inv_nodup w I).
  - intros id Hin. rewrite lookup_insert_ne by auto. by apply (inv_heap w I).
  - intros id1 id2 c1 c2 H1 H2. rewrite !lookup_insert_ne by auto. by apply (inv_guuid w I).
  - apply (inv_names_nodup w I).
  - intros m id. rewrite (inv_names w I). split; intros (Hid & c & E); (split; [done|]); exists c;
      rewrite lookup_insert_ne in * by auto; done.
Qed.

Lemma virtual_delete_drops_registry_witness :
  exists w', dap_cluster_delete with_virtual 5 = Some w' /\ s_clusters w' = [] /\
    forall g', dap_cluster_find w' g' = Some (w', 0).
Proof.
  apply (virtual_delete_drops_registry with_virtual 5 1).
  - apply virtual_inv; [apply one_cluster_inv | reflexivity].
  - discriminate.
  - intros H. apply list_elem_of_In in H. cbn in H. intuition discriminate.
  - reflexivity.
Defined.

(** Members and broadcast.  Adding an absent member (present member) to a
    cluster succeeds (is refused) and keeps the invariant, afterwards it is
    found with its role; deleting it removes it and nothing else; a broadcast
    sends the packet exactly once to every member that is not excluded, in the
    order they joined, and changes nothing else. *)
Theorem cluster_members_spec w a c x r i ch ty d ex :
  cluster_inv w -> a <> 0 -> heap w !! a = Some c -> find_member c x = None ->
  exists w1, dap_cluster_member_add w true a x r i = Some (w1, true) /\ cluster_inv w1 /\
    dap_cluster_member_add w1 true a x r i = Some (w1, false) /\
    dap_cluster_member_find_role w1 a x = Some (w1, r) /\
    dap_cluster_members_count w1 a = Some (w1, Z.of_nat (length (members c)) + 1) /\
  (exists w2, dap_cluster_member_delete w1 a x = Some (w2, 0) /\ cluster_inv w2 /\
     heap w2 = heap w /\ dap_cluster_member_delete w2 a x = Some (w2, 1)) /\
  dap_cluster_broadcast w1 a ch ty d ex
    = Some (World (heap w1) (s_clusters w1) (s_cluster_mnemonims w1) (s_clusters_rwlock w1)
        (log w1 ++ map (λ y, EvSend y ch ty d)
          (List.filter (λ y, negb (s_present_in_array y ex)) (map addr (members c) ++ [x])))).
Proof.
  intros I Ha Hc Hx. destruct (inv_members w I a c Hc) as [Hl Hnd].
  pose proof (member_add_eq w a c Ha Hc Hl true x r i) as Eadd.
  rewrite Hx, bool_decide_false in Eadd by (by intros [? ?]). cbn [orb negb] in Eadd.
  set (c1 := set_members c (members c ++ [Member x r i])) in *.
  set (w1 := if members_add_callback c then _ else _) in Eadd.
  assert (I1 : cluster_inv w1) by (by eapply member_add_inv).
  assert (Hh1 : heap w1 = <[a := c1]> (heap w)) by (unfold w1; by destruct (members_add_callback c)).
  assert (Hc1 : heap w1 !! a = Some c1) by (rewrite Hh1; apply lookup_insert_eq).
  assert (Hf1 : find_member c1 x = Some (Member x r i)).
  { clear -Hx. unfold find_member in *. cbn [members set_members c1].
    induction (members c) as [|m ms IH]; cbn in *; [by rewrite Z.eqb_refl|].
    destruct (addr m =? x); [done | by apply IH]. }
  exists w1. split; [done|]. split; [done|]. split.
  { rewrite (member_add_eq w1 a c1) by done. by rewrite Hf1, bool_decide_true. }
  split.
  { unfold dap_cluster_member_find_role. rewrite (proj2 (Z.eqb_neq a 0)) by done.
    rewrite (member_find_eq w1 a c1) by done. by rewrite Hf1. }
  split.
  { rewrite (members_count_eq w1 a c1) by done. cbn [members set_members c1]. rewrite length_app.
    do 2 f_equal. cbn. lia. }
  split.
  - pose proof (member_delete_eq w1 a c1 Ha Hc1 Hl x) as Edel. rewrite Hf1, bool_decide_true in Edel by done.
    eexists. split; [exact Edel|]. set (w2 := set_heap _ _) in Edel |- *.
    assert (I2 : cluster_inv w2) by (by eapply member_delete_inv).
    assert (Em : set_members c1 (List.filter (λ m, negb (addr m =? x)) (members c1)) = c).
    { cbn [members set_members c1]. rewrite filter_snoc by done. by destruct c. }
    assert (Hh2 : heap w2 = heap w).
    { unfold w2. cbn [heap set_heap]. rewrite Em.
      replace (heap (if members_delete_callback c1 then emit w1 (EvMemberDelete a x) else w1)) with (heap w1)
        by (by destruct (members_delete_callback c1)).
      rewrite Hh1, insert_insert_eq. by apply insert_id. }
    split; [done|]. split; [done|]. rewrite (member_delete_eq w2 a c Ha) by (by rewrite ?Hh2).
    by rewrite Hx, bool_decide_false by (by intros [? ?]).
  - rewrite (broadcast_eq w1 a c1) by done. do 3 f_equal. cbn [members set_members c1].
    rewrite List.filter_app, map_app, List.filter_app, map_app. f_equal.
    + clear. induction (members c) as [|m ms IH]; [done|]. cbn.
      destruct (s_present_in_array (addr m) ex); cbn; by rewrite IH.
    + cbn. by destruct (s_present_in_array x ex).
Qed.

Lemma cluster_members_spec_witness :
  exists w1, dap_cluster_member_add one_cluster true 8 42 3 0 = Some (w1, true) /\
    dap_cluster_member_find_role w1 8 42 = Some (w1, 3).
Proof.
  destruct (cluster_members_spec one_cluster 8 (Cluster (Some [103]) 77 DAP_CLUSTER_TYPE_EMBEDDED Unlocked []
    false false false) 42 3 0 71 0 [1] []) as (w1 & E1 & _ & _ & E2 & _);
    [apply one_cluster_inv | done | reflexivity | reflexivity |].
  exists w1. auto.
Defined.
