(* ===== verification/Gossip.v ===== *)
(** * Epidemic broadcast (net/stream/ch/dap_stream_ch_gossip.c)

    The channel keeps the recent messages in a hash table keyed by payload
    hash; an entry without payload is a request under way.  The state joins
    that table, the registered payload callbacks, the clusters the messages
    travel in ([Cluster.world], whose log records the packets sent by address),
    the log of what leaves through the channel itself (packets written to the
    link and payloads handed to callbacks), and [s_gossip_lock], which every
    operation on the table takes and must give back on every path: taking a lock
    that is held is [None].

    A packet is its raw bytes; the message fields are read at their offsets in
    the packed [dap_gossip_msg_t], and a read or write outside the packet or
    the item is [None], so the safety theorem covers arbitrary input.  The
    clock, [rand] and the outcome of allocations are arguments. *)

From S2P Require Import Prelude Cluster.
From stdpp Require Import gmap.
Local Open Scope Z_scope.

Create HintDb gossip.

(** [enum dap_gossip_msg_type] *)
Definition DAP_STREAM_CH_GOSSIP_MSG_TYPE_HASH : Z := 0.
Definition DAP_STREAM_CH_GOSSIP_MSG_TYPE_REQUEST : Z := 1.
Definition DAP_STREAM_CH_GOSSIP_MSG_TYPE_DATA : Z := 2.

Definition DAP_STREAM_CH_GOSSIP_ID : Z := 71.
Definition DAP_GOSSIP_CURRENT_VERSION : Z := 1.

(** [DAP_GOSSIP_LIFETIME * 1000000000UL] *)
Definition gossip_lifetime : Z := 15 * 1000000000.

(** Field offsets of [dap_gossip_msg_t] and its size. *)
Definition msg_version (m : list Z) : option Z := mem_le m 0 1.
Definition msg_payload_ch_id (m : list Z) : option Z := mem_le m 1 1.
Definition msg_trace_len (m : list Z) : option Z := mem_le m 4 4.
Definition msg_payload_len (m : list Z) : option Z := mem_le m 8 8.
Definition msg_cluster_id (m : list Z) : option Z := mem_le m 16 16.
Definition msg_payload_hash (m : list Z) : option (list Z) := mem_read m 32 32.
Definition sizeof_gossip_msg : Z := 64.
Definition sizeof_hash : Z := 32.
Definition sizeof_addr : Z := 8.

Definition dap_gossip_msg_get_size (m : list Z) : option Z :=
  t ← msg_trace_len m;
  p ← msg_payload_len m;
  let s := wrap 64 (sizeof_gossip_msg + t + p) in
  Some (if s <? sizeof_gossip_msg + t then 0 else s).

Record gossip_msg_item := Item {
  payload_hash : list Z;
  timestamp : Z;
  with_payload : bool;
  message : list Z;
}.

Inductive gossip_event :=
  | GvWrite (pkt_type : Z) (data : list Z)
  | GvPayload (ch_id : Z) (payload : list Z) (sender : Z).

Record gossip := Gossip {
  clusters : world;
  s_gossip_last_msgs : list gossip_msg_item;
  s_gossip_callbacks_list : list Z;
  glog : list gossip_event;
  s_gossip_lock : rwlock;
}.

Definition set_world (g : gossip) w :=
  Gossip w (s_gossip_last_msgs g) (s_gossip_callbacks_list g) (glog g) (s_gossip_lock g).
Definition set_msgs (g : gossip) l := Gossip (clusters g) l (s_gossip_callbacks_list g) (glog g) (s_gossip_lock g).
Definition gemit (g : gossip) e :=
  Gossip (clusters g) (s_gossip_last_msgs g) (s_gossip_callbacks_list g) (glog g ++ [e]) (s_gossip_lock g).
Definition set_glock (g : gossip) lk :=
  Gossip (clusters g) (s_gossip_last_msgs g) (s_gossip_callbacks_list g) (glog g) lk.

(** [pthread_rwlock_wrlock] and [pthread_rwlock_unlock] of [s_gossip_lock]; a
    lock that is held blocks the thread for good. *)
Definition lock_gossip (g : gossip) : option gossip := lk ← wrlock (s_gossip_lock g); Some (set_glock g lk).
Definition unlock_gossip (g : gossip) : gossip := set_glock g (unlock (s_gossip_lock g)).

(** [HASH_FIND], [HASH_DEL] of a present element and [HASH_ADD] *)
Definition find_msg (l : list gossip_msg_item) (h : list Z) : option gossip_msg_item :=
  List.find (λ it, bool_decide (payload_hash it = h)) l.
Definition del_msg (l : list gossip_msg_item) (h : list Z) : list gossip_msg_item :=
  List.filter (λ it, negb (bool_decide (payload_hash it = h))) l.

(** Conversion to a signed [char]. *)
Definition to_char (x : Z) : Z :=
  let b := wrap 8 x in if b <? 128 then b else b - 256.

(** [ch_id] is an [uint8_t], [a_ch_id] a [char]: both are promoted to [int]. *)
Definition s_get_callbacks_by_ch_id (g : gossip) (a_ch_id : Z) : bool :=
  existsb (λ c, c =? to_char a_ch_id) (s_gossip_callbacks_list g).

Definition dap_stream_ch_gossip_callback_add (g : gossip) (alloc_ok : bool) (a_ch_id : Z)
    : gossip * Z :=
  if s_get_callbacks_by_ch_id g a_ch_id then (g, -1)
  else if negb alloc_ok then (g, -2)
  else (Gossip (clusters g) (s_gossip_last_msgs g) (s_gossip_callbacks_list g ++ [wrap 8 a_ch_id]) (glog g)
          (s_gossip_lock g), 0).

Definition dap_stream_ch_gossip_deinit (g : gossip) : option gossip :=
  g ← lock_gossip g; Some (unlock_gossip (set_msgs g [])).

Definition s_callback_hashtable_maintenance (g : gossip) (now : Z) : option gossip :=
  g ← lock_gossip g;
  let g := set_msgs g (List.filter (λ it, negb (gossip_lifetime <? wrap 64 (now - timestamp it)))
                         (s_gossip_last_msgs g)) in
  Some (unlock_gossip g).

(** [l_msg_item->timestamp < dap_nanotime_now() - DAP_GOSSIP_LIFETIME * 1000000000UL] *)
Definition derelict (now : Z) (it : gossip_msg_item) : bool :=
  timestamp it <? wrap 64 (now - gossip_lifetime).

Definition msg_header (ch_id trace_len payload_len cluster_id : Z) (hash : list Z) : list Z :=
  le_bytes 1 DAP_GOSSIP_CURRENT_VERSION ++ le_bytes 1 ch_id ++ [0; 0] ++ le_bytes 4 trace_len ++
  le_bytes 8 payload_len ++ le_bytes 16 cluster_id ++ hash.

Definition dap_gossip_msg_issue (g_node_addr : Z) (g : gossip) (now : Z) (alloc_ok : bool)
    (a_cluster a_ch_id : Z) (a_payload a_payload_hash : list Z) : option gossip :=
  if (a_cluster =? 0) || (length a_payload =? 0)%nat then Some g else
  '(w, empty) ← dap_cluster_is_empty (clusters g) a_cluster;
  let g := set_world g w in
  if empty : bool then Some g else
  g ← lock_gossip g;
  match find_msg (s_gossip_last_msgs g) a_payload_hash with
  | Some _ => Some (unlock_gossip g)
  | None =>
    if negb alloc_ok then Some (unlock_gossip g)
    else
      c ← heap (clusters g) !! a_cluster;
      let l_msg :=
        msg_header a_ch_id sizeof_addr (Z.of_nat (length a_payload)) (guuid c) a_payload_hash
        ++ le_bytes 8 g_node_addr ++ a_payload in
      let g := unlock_gossip (set_msgs g (s_gossip_last_msgs g ++ [Item a_payload_hash now true l_msg])) in
      w ← dap_cluster_broadcast (clusters g) a_cluster DAP_STREAM_CH_GOSSIP_ID
            DAP_STREAM_CH_GOSSIP_MSG_TYPE_HASH a_payload_hash [g_node_addr];
      Some (set_world g w)
  end.

(** The node addresses in the trace of a message. *)
Fixpoint read_addrs (n : nat) (m : list Z) (off : Z) : option (list Z) :=
  match n with
  | O => Some []
  | S n => a ← mem_le m off 8; l ← read_addrs n m (off + sizeof_addr); Some (a :: l)
  end.

(** The item's copy of the message with this node appended to the trace, in a
    block of [dap_gossip_msg_get_size + sizeof(g_node_addr)] bytes. *)
Definition extend_trace (g_node_addr : Z) (l_msg : list Z) (size trace_len payload_len : Z)
    : option (list Z) :=
  let block := replicate (Z.to_nat (size + sizeof_addr)) 0 in
  head ← mem_read l_msg 0 (sizeof_gossip_msg + trace_len);
  m ← mem_write block 0 head;
  let trace_len_new := wrap 32 (trace_len + sizeof_addr) in
  m ← mem_write m 4 (le_bytes 4 trace_len_new);
  m ← mem_write m (sizeof_gossip_msg + trace_len) (le_bytes 8 g_node_addr);
  payload ← mem_read l_msg (sizeof_gossip_msg + trace_len) payload_len;
  mem_write m (sizeof_gossip_msg + trace_len_new) payload.

(** The [HASH] and [REQUEST] cases. *)
Definition gossip_hash_in (g : gossip) (now : Z) (alloc_ok : bool) (pkt_type : Z) (data : list Z)
    : option (gossip * bool) :=
  if negb (Z.of_nat (length data) =? sizeof_hash) then Some (g, false) else
  g ← lock_gossip g;
  match find_msg (s_gossip_last_msgs g) data with
  | Some it =>
    if derelict now it then Some (unlock_gossip (set_msgs g (del_msg (s_gossip_last_msgs g) data)), true)
    else if with_payload it && (pkt_type =? DAP_STREAM_CH_GOSSIP_MSG_TYPE_REQUEST) then
      size ← dap_gossip_msg_get_size (message it);
      d ← mem_read (message it) 0 size;
      Some (unlock_gossip (gemit g (GvWrite DAP_STREAM_CH_GOSSIP_MSG_TYPE_DATA d)), true)
    else Some (unlock_gossip g, true)
  | None =>
    if pkt_type =? DAP_STREAM_CH_GOSSIP_MSG_TYPE_HASH then
      if negb alloc_ok then Some (unlock_gossip g, true)
      else Some (unlock_gossip (gemit (set_msgs g (s_gossip_last_msgs g ++ [Item data now false []]))
                   (GvWrite DAP_STREAM_CH_GOSSIP_MSG_TYPE_REQUEST data)), true)
    else Some (unlock_gossip g, true)
  end.

(** The [DATA] case after its format checks; [node] is the sender. *)
Definition gossip_data_accept (g_node_addr : Z) (g : gossip) (now rnd : Z) (alloc_ok : bool)
    (node : Z) (l_msg : list Z) (size trace_len payload_len : Z) : option (gossip * bool) :=
  hash ← msg_payload_hash l_msg;
  g ← lock_gossip g;
  match find_msg (s_gossip_last_msgs g) hash with
  | None => Some (unlock_gossip g, true)
  | Some it =>
    if with_payload it then Some (unlock_gossip g, true)
    else if derelict now it then Some (unlock_gossip (set_msgs g (del_msg (s_gossip_last_msgs g) hash)), true)
    else
      cluster_id ← msg_cluster_id l_msg;
      '(w, l_links_cluster) ← dap_cluster_find (clusters g) cluster_id;
      let g := set_world g w in
      let apply :=
        if negb alloc_ok then Some (unlock_gossip (set_msgs g (del_msg (s_gossip_last_msgs g) hash)), true)
        else
          m ← extend_trace g_node_addr l_msg size trace_len payload_len;
          let g := set_msgs g (del_msg (s_gossip_last_msgs g) hash ++
                               [Item hash (timestamp it) true m]) in
          trace_len_new ← msg_trace_len m;
          exclude ← read_addrs (Z.to_nat (trace_len_new / sizeof_addr)) m sizeof_gossip_msg;
          hash_new ← msg_payload_hash m;
          w ← dap_cluster_broadcast (clusters g) l_links_cluster DAP_STREAM_CH_GOSSIP_ID
                DAP_STREAM_CH_GOSSIP_MSG_TYPE_HASH hash_new exclude;
          let g := unlock_gossip (set_world g w) in
          ch ← msg_payload_ch_id l_msg;
          payload ← mem_read l_msg (sizeof_gossip_msg + trace_len) payload_len;
          Some (if s_get_callbacks_by_ch_id g ch then gemit g (GvPayload ch payload node) else g, true) in
      if negb (l_links_cluster =? 0) then
        '(w, l_check) ← dap_cluster_member_find_unsafe (clusters g) l_links_cluster node;
        let g := set_world g w in
        match l_check with
        | None =>
          '(w, l_member) ← dap_cluster_get_random_link (clusters g) rnd l_links_cluster;
          let g := set_world g w in
          if l_member =? 0 then Some (unlock_gossip g, true)
          else
            d ← mem_read l_msg 0 sizeof_hash;
            Some (unlock_gossip (set_world g (emit (clusters g)
                    (EvSend l_member DAP_STREAM_CH_GOSSIP_ID DAP_STREAM_CH_GOSSIP_MSG_TYPE_REQUEST d))), true)
        | Some _ => apply
        end
      else if negb (cluster_id =? 0) then Some (unlock_gossip g, true)
      else apply
  end.

Definition gossip_data_in (g_node_addr : Z) (g : gossip) (now rnd : Z) (alloc_ok : bool)
    (node : Z) (l_msg : list Z) : option (gossip * bool) :=
  let data_size := Z.of_nat (length l_msg) in
  if data_size <? sizeof_gossip_msg then Some (g, false) else
  size ← dap_gossip_msg_get_size l_msg;
  if negb (data_size =? size) then Some (g, false) else
  v ← msg_version l_msg;
  if negb (v =? DAP_GOSSIP_CURRENT_VERSION) then Some (g, false) else
  trace_len ← msg_trace_len l_msg;
  if negb (trace_len mod sizeof_addr =? 0) then Some (g, false) else
  payload_len ← msg_payload_len l_msg;
  if payload_len =? 0 then Some (g, false) else
  gossip_data_accept g_node_addr g now rnd alloc_ok node l_msg size trace_len payload_len.

Definition s_stream_ch_packet_in (g_node_addr : Z) (g : gossip) (now rnd : Z) (alloc_ok : bool)
    (node pkt_type : Z) (data : list Z) : option (gossip * bool) :=
  if (pkt_type =? DAP_STREAM_CH_GOSSIP_MSG_TYPE_HASH) ||
     (pkt_type =? DAP_STREAM_CH_GOSSIP_MSG_TYPE_REQUEST)
  then gossip_hash_in g now alloc_ok pkt_type data
  else if pkt_type =? DAP_STREAM_CH_GOSSIP_MSG_TYPE_DATA
  then gossip_data_in g_node_addr g now rnd alloc_ok node data
  else Some (g, false).

(** ** Messages as values *)

Definition addrs_bytes (l : list Z) : list Z := concat (map (le_bytes 8) l).

(** Bytes of a message: header with an arbitrary [pad]ding, trace, payload. *)
Definition mk_msg (ver ch : Z) (pad : list Z) (trace : list Z) (payload : list Z) (cid : Z)
    (hash : list Z) : list Z :=
  le_bytes 1 ver ++ le_bytes 1 ch ++ pad ++ le_bytes 4 (8 * Z.of_nat (length trace)) ++
  le_bytes 8 (Z.of_nat (length payload)) ++ le_bytes 16 cid ++ hash ++ addrs_bytes trace ++ payload.

Record msg_ok (ver ch : Z) (pad trace payload : list Z) (cid : Z) (hash : list Z) : Prop := {
  mo_ver : fits 8 ver;
  mo_ch : fits 8 ch;
  mo_pad : length pad = 2%nat;
  mo_cid : fits 128 cid;
  mo_hash : length hash = 32%nat;
  mo_tsize : 8 * Z.of_nat (length trace) < 2 ^ 32;
  mo_psize : Z.of_nat (length payload) < 2 ^ 63;
  mo_trace : Forall (fits 64) trace;
}.

Lemma length_addrs_bytes l : length (addrs_bytes l) = (8 * length l)%nat.
Proof.
  unfold addrs_bytes. induction l as [|x l IH]; [done|]. cbn [map concat length].
  rewrite length_app, length_le_bytes, IH. lia.
Qed.

Lemma addrs_bytes_app x y : addrs_bytes (x ++ y) = addrs_bytes x ++ addrs_bytes y.
Proof. unfold addrs_bytes. by rewrite map_app, concat_app. Qed.

Lemma read_addrs_spec l pre post : Forall (fits 64) l ->
  read_addrs (length l) (pre ++ addrs_bytes l ++ post) (Z.of_nat (length pre)) = Some l.
Proof.
  intros Hl. revert pre. induction Hl as [|x l Hx _ IH]; intros pre; [done|]. cbn [length read_addrs].
  change (addrs_bytes (x :: l)) with (le_bytes 8 x ++ addrs_bytes l). rewrite <- app_assoc.
  rewrite mem_le_app by done. cbn [mbind option_bind]. unfold sizeof_addr.
  replace (Z.of_nat (length pre) + 8) with (Z.of_nat (length (pre ++ le_bytes 8 x)))
    by (rewrite length_app, length_le_bytes; lia).
  rewrite (app_assoc pre), IH. done.
Qed.

(** Reads the field [d], of bytes written with [lem], behind [pre]. *)
Ltac msg_field lem pre d off :=
  lazymatch goal with
  | |- _ ?l _ _ = _ =>
      let post := open_constr:(_ : list Z) in
      replace l with (pre ++ d ++ post) by (rewrite <- !app_assoc; reflexivity);
      replace off with (Z.of_nat (length pre)) by (rewrite !length_app, ?length_addrs_bytes, !length_le_bytes; lia);
      apply lem
  end.

Section Message.
Context (ver ch : Z) (pad trace payload : list Z) (cid : Z) (hash : list Z).
Hypothesis Hok : msg_ok ver ch pad trace payload cid hash.
Let m := mk_msg ver ch pad trace payload cid hash.
Let t := 8 * Z.of_nat (length trace).
Let p := Z.of_nat (length payload).

Lemma length_mk_msg : Z.of_nat (length m) = 64 + t + p.
Proof using Hok.
  destruct Hok. subst m t p. unfold mk_msg. rewrite !length_app, !length_le_bytes, length_addrs_bytes. lia.
Qed.

(** The field at [pre] of a message, [pre] being what precedes it. *)
Lemma mk_msg_fields :
  msg_version m = Some ver /\ msg_payload_ch_id m = Some ch /\ msg_trace_len m = Some t /\
  msg_payload_len m = Some p /\ msg_cluster_id m = Some cid /\ msg_payload_hash m = Some hash /\
  dap_gossip_msg_get_size m = Some (64 + t + p) /\
  mem_read m (64 + t) p = Some payload.
Proof using Hok.
  pose proof Hok as [Hv Hc Hp Hcid Hh Hs Hs' Ht].
  assert (F1 : msg_version m = Some ver) by (apply (mem_le_app [] 1 ver); done).
  assert (F2 : msg_payload_ch_id m = Some ch) by (exact (mem_le_app (le_bytes 1 ver) 1 ch _ Hc)).
  assert (F3 : msg_trace_len m = Some t).
  { unfold msg_trace_len, m, mk_msg.
    msg_field mem_le_app (le_bytes 1 ver ++ le_bytes 1 ch ++ pad) (le_bytes 4 t) 4.
    subst t. unfold fits. lia. }
  assert (F4 : msg_payload_len m = Some p).
  { unfold msg_payload_len, m, mk_msg.
    msg_field mem_le_app (le_bytes 1 ver ++ le_bytes 1 ch ++ pad ++ le_bytes 4 t) (le_bytes 8 p) 8.
    subst p. unfold fits. lia. }
  assert (F5 : msg_cluster_id m = Some cid).
  { unfold msg_cluster_id, m, mk_msg.
    by msg_field mem_le_app (le_bytes 1 ver ++ le_bytes 1 ch ++ pad ++ le_bytes 4 t ++ le_bytes 8 p)
      (le_bytes 16 cid) 16. }
  assert (F6 : msg_payload_hash m = Some hash).
  { unfold msg_payload_hash, m, mk_msg. replace 32 with (Z.of_nat (length hash)) at 2 by lia.
    by msg_field (@mem_read_app Z)
      (le_bytes 1 ver ++ le_bytes 1 ch ++ pad ++ le_bytes 4 t ++ le_bytes 8 p ++ le_bytes 16 cid) hash 32. }
  repeat (split; [assumption|]). split.
  - unfold dap_gossip_msg_get_size. rewrite F3. cbn [mbind option_bind]. rewrite F4. cbn [mbind option_bind].
    unfold sizeof_gossip_msg. rewrite wrap_id by (subst t p; unfold fits; lia).
    rewrite (proj2 (Z.ltb_ge _ _)) by (subst t p; lia). done.
  - unfold m, mk_msg, p.
    assert (E : 64 + t = Z.of_nat (length (le_bytes 1 ver ++ le_bytes 1 ch ++ pad ++ le_bytes 4 t ++ le_bytes 8 p ++
      le_bytes 16 cid ++ hash ++ addrs_bytes trace)))
      by (rewrite !length_app, !length_le_bytes, length_addrs_bytes; subst t; lia).
    rewrite E. etransitivity;
      [|apply (mem_read_app (le_bytes 1 ver ++ le_bytes 1 ch ++ pad ++ le_bytes 4 t ++ le_bytes 8 p ++
         le_bytes 16 cid ++ hash ++ addrs_bytes trace) payload [])].
    f_equal. by rewrite !app_nil_r, <- !app_assoc.
Qed.

(** [extend_trace] appends this node to the trace and changes nothing else. *)
Lemma extend_trace_spec me : fits 64 me ->
  Z.of_nat (length trace) + 1 < 2 ^ 29 ->
  extend_trace me m (64 + t + p) t p = Some (mk_msg ver ch pad (trace ++ [me]) payload cid hash).
Proof using Hok.
  intros Hme Hlen. pose proof Hok as [Hv Hc Hp Hcid Hh Hs Hs' Ht].
  destruct mk_msg_fields as (_ & _ & _ & _ & _ & _ & _ & Epl).
  unfold extend_trace, sizeof_addr, sizeof_gossip_msg. rewrite Epl.
  set (h1 := le_bytes 1 ver ++ le_bytes 1 ch ++ pad).
  set (h2 := le_bytes 8 p ++ le_bytes 16 cid ++ hash).
  assert (L1 : length h1 = 4%nat) by (subst h1; rewrite !length_app, !length_le_bytes; lia).
  assert (L2 : length h2 = 56%nat) by (subst h2; rewrite !length_app, !length_le_bytes; lia).
  assert (La : length (addrs_bytes trace) = (8 * length trace)%nat) by apply length_addrs_bytes.
  assert (Em : m = (h1 ++ le_bytes 4 t ++ h2 ++ addrs_bytes trace) ++ payload).
  { subst m h1 h2. unfold mk_msg. by rewrite <- !app_assoc. }
  set (hd := h1 ++ le_bytes 4 t ++ h2 ++ addrs_bytes trace) in *.
  assert (Lh : Z.of_nat (length hd) = 64 + t).
  { subst hd t. rewrite !length_app, length_le_bytes, L1, L2, La. lia. }
  assert (Er : mem_read m 0 (64 + t) = Some hd).
  { rewrite Em, <- Lh. exact (mem_read_app [] hd payload). }
  rewrite Er. cbn [mbind option_bind].
  replace (Z.to_nat (64 + t + p + 8)) with (length hd + (8 + length payload))%nat by (subst p; lia).
  rewrite !replicate_add.
  pose proof (mem_write_app [] (replicate (length hd) 0) hd (replicate 8 0 ++ replicate (length payload) 0)
    ltac:(apply length_replicate)) as Ew.
  change (Z.of_nat (length [])) with 0 in Ew. rewrite !app_nil_l in Ew. rewrite Ew. clear Ew.
  cbn [mbind option_bind]. rewrite wrap_id by (subst t; unfold fits; lia).
  subst hd. rewrite <- !app_assoc.
  replace 4 with (Z.of_nat (length h1)) at 1 by lia.
  rewrite (mem_write_app h1 (le_bytes 4 t)) by (by rewrite !length_le_bytes).
  cbn [mbind option_bind].
  assert (E2 : 64 + t = Z.of_nat (length (h1 ++ le_bytes 4 (t + 8) ++ h2 ++ addrs_bytes trace)))
    by (rewrite !length_app, length_le_bytes, L1, L2, La; subst t; lia).
  rewrite E2 at 1.
  replace (h1 ++ le_bytes 4 (t + 8) ++ h2 ++ addrs_bytes trace ++ replicate 8 0 ++ replicate (length payload) 0)
    with ((h1 ++ le_bytes 4 (t + 8) ++ h2 ++ addrs_bytes trace) ++ replicate 8 0 ++ replicate (length payload) 0)
    by (by rewrite <- !app_assoc).
  rewrite mem_write_app by done. cbn [mbind option_bind].
  assert (E3 : 64 + (t + 8) = Z.of_nat (length ((h1 ++ le_bytes 4 (t + 8) ++ h2 ++ addrs_bytes trace) ++ le_bytes 8 me)))
    by (rewrite length_app, <- (Nat2Z.id (length (h1 ++ _))), <- E2, length_le_bytes; subst t; lia).
  rewrite E3. rewrite (app_assoc (h1 ++ _)).
  rewrite <- (app_nil_r (replicate (length payload) 0)).
  rewrite mem_write_app by apply length_replicate. f_equal.
  subst h1 h2. unfold mk_msg. rewrite addrs_bytes_app, length_app. cbn [length].
  replace (8 * Z.of_nat (length trace + 1)) with (t + 8) by (subst t; lia).
  change (addrs_bytes [me]) with (le_bytes 8 me ++ []). by rewrite !app_nil_r, <- !app_assoc.
Qed.
End Message.

(** ** Any packet that passes the format checks is such a message *)

Lemma split_front {A} (n : nat) (l : list A) : (n <= length l)%nat ->
  exists a b, l = a ++ b /\ length a = n.
Proof.
  intros. exists (take n l), (drop n l). split; [by rewrite take_drop | by rewrite length_take, Nat.min_l].
Qed.

Lemma bytes_word n a : Forall (fits 8) a -> length a = n ->
  exists v, a = le_bytes n v /\ fits (8 * Z.of_nat n) v.
Proof.
  intros Ha <-. exists (le_value a). split; [by rewrite le_bytes_value | by apply le_value_bound].
Qed.

Lemma bytes_addrs k a : Forall (fits 8) a -> length a = (8 * k)%nat ->
  exists l, a = addrs_bytes l /\ length l = k /\ Forall (fits 64) l.
Proof.
  revert a. induction k as [|k IH]; intros a Ha La.
  - exists []. destruct a; [by repeat constructor | done].
  - destruct (split_front 8 a) as (x & y & -> & Lx); [lia|].
    apply Forall_app in Ha as [Hx Hy]. rewrite length_app in La.
    destruct (IH y Hy) as (l & -> & Ll & Hl); [lia|].
    destruct (bytes_word 8 x Hx Lx) as (v & -> & Hv).
    exists (v :: l). split; [done|]. split; [cbn; lia | by constructor].
Qed.

Lemma msg_decompose l t p : Forall (fits 8) l -> 64 <= Z.of_nat (length l) < 2 ^ 32 ->
  dap_gossip_msg_get_size l = Some (Z.of_nat (length l)) ->
  msg_trace_len l = Some t -> msg_payload_len l = Some p -> t mod 8 = 0 ->
  exists ver ch pad trace payload cid hash,
    l = mk_msg ver ch pad trace payload cid hash /\ msg_ok ver ch pad trace payload cid hash /\
    t = 8 * Z.of_nat (length trace) /\ p = Z.of_nat (length payload).
Proof.
  intros Hl Hlen Hsz Et Ep Hmod.
  destruct (split_front 1 l) as (a1 & l1 & -> & L1); [lia|]. rewrite length_app in Hlen.
  destruct (split_front 1 l1) as (a2 & l2 & -> & L2); [lia|]. rewrite length_app in Hlen.
  destruct (split_front 2 l2) as (pad & l3 & -> & L3); [lia|]. rewrite length_app in Hlen.
  destruct (split_front 4 l3) as (a4 & l4 & -> & L4); [lia|]. rewrite length_app in Hlen.
  destruct (split_front 8 l4) as (a5 & l5 & -> & L5); [lia|]. rewrite length_app in Hlen.
  destruct (split_front 16 l5) as (a6 & l6 & -> & L6); [lia|]. rewrite length_app in Hlen.
  destruct (split_front 32 l6) as (hash & rest & -> & L7); [lia|]. rewrite length_app in Hlen.
  rewrite !Forall_app in Hl. destruct Hl as (H1 & H2 & H3 & H4 & H5 & H6 & H7 & H8).
  destruct (bytes_word 1 a1 H1 L1) as (ver & -> & Hver).
  destruct (bytes_word 1 a2 H2 L2) as (ch & -> & Hch).
  destruct (bytes_word 4 a4 H4 L4) as (t' & -> & Ht').
  destruct (bytes_word 8 a5 H5 L5) as (p' & -> & Hp').
  destruct (bytes_word 16 a6 H6 L6) as (cid & -> & Hcid).
  assert (t' = t) as ->.
  { unfold msg_trace_len in Et. rewrite 2!app_assoc in Et.
    replace 4 with (Z.of_nat (length ((le_bytes 1 ver ++ le_bytes 1 ch) ++ pad))) in Et at 1
      by (rewrite !length_app, !length_le_bytes; lia).
    rewrite mem_le_app in Et by done. by injection Et. }
  assert (p' = p) as ->.
  { unfold msg_payload_len in Ep. rewrite 3!app_assoc in Ep.
    replace 8 with (Z.of_nat (length (((le_bytes 1 ver ++ le_bytes 1 ch) ++ pad) ++ le_bytes 4 t))) in Ep at 1
      by (rewrite !length_app, !length_le_bytes; lia).
    rewrite mem_le_app in Ep by done. by injection Ep. }
  assert (Hr : Z.of_nat (length rest) = t + p).
  { unfold dap_gossip_msg_get_size in Hsz. rewrite Et in Hsz. cbn [mbind option_bind] in Hsz.
    rewrite Ep in Hsz. cbn [mbind option_bind] in Hsz. apply (inj Some) in Hsz.
    rewrite !length_app, !length_le_bytes, L3, L7 in Hsz. unfold sizeof_gossip_msg, fits in *.
    change (8 * Z.of_nat 4) with 32 in Ht'. change (8 * Z.of_nat 8) with 64 in Hp'.
    destruct (Z.ltb_spec (wrap 64 (64 + t + p)) (64 + t)); dlia. }
  change (8 * Z.of_nat 4) with 32 in Ht'. change (8 * Z.of_nat 8) with 64 in Hp'.
  unfold fits in Ht', Hp'.
  destruct (split_front (Z.to_nat t) rest) as (tr & payload & -> & L8); [lia|].
  apply Forall_app in H8 as [H8 H9]. rewrite length_app in Hr, Hlen.
  destruct (bytes_addrs (Z.to_nat (t / 8)) tr H8) as (trace & -> & Ltr & Htr); [dlia|].
  assert (Et8 : t = 8 * Z.of_nat (length trace)) by dlia. assert (p = Z.of_nat (length payload)) by lia.
  exists ver, ch, pad, trace, payload, cid, hash. split; [unfold mk_msg; congruence|]. split; [split|]; auto; lia.
Qed.

(** ** The table of recent messages *)

Lemma find_msg_Some l h it : find_msg l h = Some it -> it ∈ l /\ payload_hash it = h.
Proof.
  intros [H1 H2]%List.find_some. split; [by apply list_elem_of_In | by apply bool_decide_eq_true in H2].
Qed.

Lemma find_msg_None l h : find_msg l h = None -> h ∉ map payload_hash l.
Proof.
  intros Ef Hin. apply list_elem_of_In, List.in_map_iff in Hin as (it & <- & Hin).
  pose proof (List.find_none _ _ Ef it Hin) as H. cbn beta in H. by apply bool_decide_eq_false in H.
Qed.

Lemma find_msg_snoc l it : find_msg l (payload_hash it) = None ->
  find_msg (l ++ [it]) (payload_hash it) = Some it.
Proof.
  unfold find_msg. induction l as [|x l IH]; cbn; [by rewrite bool_decide_true|].
  case_bool_decide; [done | apply IH].
Qed.

Lemma find_msg_del l h : find_msg (del_msg l h) h = None.
Proof.
  unfold find_msg, del_msg. induction l as [|x l IH]; [done|]. cbn [List.filter].
  destruct (bool_decide_reflect (payload_hash x = h)); cbn [negb]; [done|].
  cbn [List.find]. by rewrite bool_decide_false.
Qed.

Lemma NoDup_map_filter (f : gossip_msg_item -> bool) l :
  NoDup (map payload_hash l) -> NoDup (map payload_hash (List.filter f l)).
Proof.
  induction l as [|x l IH]; [done|]. cbn [map List.filter]. intros [Hx H]%NoDup_cons.
  destruct (f x); [|by apply IH]. cbn [map]. apply NoDup_cons. split; [|by apply IH].
  contradict Hx. apply list_elem_of_In, List.in_map_iff in Hx as (y & E & Hy).
  apply List.filter_In in Hy as [Hy _]. apply list_elem_of_In, List.in_map_iff. eauto.
Qed.

(** ** The invariant *)

Definition item_ok (it : gossip_msg_item) : Prop :=
  length (payload_hash it) = 32%nat /\
  (with_payload it = true -> exists ver ch pad trace payload cid,
     msg_ok ver ch pad trace payload cid (payload_hash it) /\
     message it = mk_msg ver ch pad trace payload cid (payload_hash it)).

Record table_ok (l : list gossip_msg_item) : Prop := {
  tab_nodup : NoDup (map payload_hash l);
  tab_items it : it ∈ l -> item_ok it;
}.

Record gossip_inv (g : gossip) : Prop := {
  gi_clusters : cluster_inv (clusters g);
  gi_table : table_ok (s_gossip_last_msgs g);
  gi_lock : s_gossip_lock g = Unlocked;
}.

Lemma table_filter f l : table_ok l -> table_ok (List.filter f l).
Proof.
  intros [H1 H2]. split; [by apply NoDup_map_filter|]. intros it Hin.
  apply list_elem_of_In, List.filter_In in Hin as [Hin _]. by apply H2, list_elem_of_In.
Qed.

Lemma table_snoc l it : table_ok l -> find_msg l (payload_hash it) = None -> item_ok it ->
  table_ok (l ++ [it]).
Proof.
  intros [H1 H2] Hf Hit. split.
  - rewrite map_app. apply NoDup_app. split; [done|]. split; [|apply NoDup_singleton].
    intros h Hh. cbn. rewrite list_elem_of_singleton. intros ->. by apply find_msg_None in Hf.
  - intros x [Hx|Hx%list_elem_of_singleton]%elem_of_app; [by apply H2 | by subst].
Qed.

Lemma table_find l h it : table_ok l -> find_msg l h = Some it -> item_ok it /\ payload_hash it = h.
Proof. intros T [Hin Hh]%find_msg_Some. split; [by apply (tab_items l T) | done]. Qed.

#[export] Hint Resolve table_filter table_snoc gi_clusters gi_table add_log_inv emit_inv : gossip.

(** ** The handlers branch by branch *)

Lemma set_world_id g : set_world g (clusters g) = g.
Proof. by destruct g. Qed.

(** The lock of a state in which it is free: taken, and given back whatever was
    done in between. *)
Lemma lock_free g : s_gossip_lock g = Unlocked -> lock_gossip g = Some (set_glock g WrLocked).
Proof. intros E. unfold lock_gossip. by rewrite E. Qed.

Lemma locked_id g : set_world (set_glock g WrLocked) (clusters g) = set_glock g WrLocked.
Proof. by destruct g. Qed.

Lemma unlock_free g h : s_gossip_lock g = Unlocked -> s_gossip_lock h = s_gossip_lock g ->
  unlock_gossip (set_glock h WrLocked) = h.
Proof. intros E Eh. rewrite E in Eh. destruct h; cbn in *. by subst. Qed.

(** The stored message of a request that can be answered is sent whole. *)
Lemma stored_read it : item_ok it -> with_payload it = true ->
  (size ← dap_gossip_msg_get_size (message it); mem_read (message it) 0 size) = Some (message it).
Proof.
  intros [_ Hit] Hw. destruct (Hit Hw) as (ver & ch & pad & trace & payload & cid & Hok & ->).
  destruct (mk_msg_fields _ _ _ _ _ _ _ Hok) as (_ & _ & _ & _ & _ & _ & E & _).
  rewrite E. cbn [mbind option_bind]. apply mem_read_all.
  by rewrite (length_mk_msg _ _ _ _ _ _ _ Hok).
Qed.

Lemma hash_in_ok g now ok ty data : gossip_inv g ->
  exists g' b, gossip_hash_in g now ok ty data = Some (g', b) /\ gossip_inv g'.
Proof.
  intros Ig. pose proof Ig as [I T L]. unfold gossip_hash_in.
  destruct (Z.eqb_spec (Z.of_nat (length data)) sizeof_hash) as [Hlen|]; cbn [negb];
    [|by do 2 eexists].
  rewrite (lock_free g L). cbn [mbind option_bind s_gossip_last_msgs set_glock].
  assert (Hun : exists g' b, Some (unlock_gossip (set_glock g WrLocked), true) = Some (g', b) /\ gossip_inv g')
    by (rewrite (unlock_free g g) by done; by do 2 eexists).
  destruct (find_msg _ data) as [it|] eqn:Ef.
  - destruct (table_find _ _ _ T Ef) as [Hit _].
    destruct (derelict now it).
    { do 2 eexists. split; [done|]. split; cbn; [done | | done]. unfold del_msg. auto with gossip. }
    destruct (with_payload it) eqn:Ew; cbn [andb]; [|exact Hun].
    destruct (ty =? _); [|exact Hun].
    pose proof (stored_read it Hit Ew) as Er. destruct (dap_gossip_msg_get_size (message it)); [|done].
    cbn [mbind option_bind] in *. rewrite Er. cbn [mbind option_bind]. by do 2 eexists.
  - destruct (ty =? _); [|exact Hun]. destruct ok; [|exact Hun].
    do 2 eexists. split; [done|]. split; cbn; [done | | done]. apply table_snoc; [done | done |].
    split; [|done]. cbn. unfold sizeof_hash in Hlen. lia.
Qed.

(** What accepting a message does: the trace, the table, the broadcast, the
    callback. *)
Definition accepted (me : Z) (g : gossip) (it : gossip_msg_item) (cl node ver ch : Z)
    (pad trace payload : list Z) (cid : Z) (hash : list Z) : gossip :=
  Gossip
    (add_log (clusters g)
      (if cl =? 0 then []
       else sends (clusters g) cl DAP_STREAM_CH_GOSSIP_ID DAP_STREAM_CH_GOSSIP_MSG_TYPE_HASH hash (trace ++ [me])))
    (del_msg (s_gossip_last_msgs g) hash ++
      [Item hash (timestamp it) true (mk_msg ver ch pad (trace ++ [me]) payload cid hash)])
    (s_gossip_callbacks_list g)
    (glog g ++ if s_get_callbacks_by_ch_id g ch then [GvPayload ch payload node] else [])
    (s_gossip_lock g).

(** Where a requested message stands: dropped, re-requested or accepted. *)
Inductive verdict := Drop | Ask (link : Z) | Take.

Definition data_verdict (g : gossip) (rnd cl cid node : Z) : verdict :=
  if cl =? 0 then (if cid =? 0 then Take else Drop)
  else match heap (clusters g) !! cl with
       | Some c =>
         if bool_decide (is_Some (find_member c node)) then Take
         else let r := default 0 (option_map addr (members c !! Z.to_nat (rnd mod Z.of_nat (length (members c))))) in
              if r =? 0 then Drop else Ask r
       | None => Drop
       end.

Section Accept.
Context (me : Z) (g : gossip) (now rnd node : Z).
Context (ver ch : Z) (pad trace payload : list Z) (cid : Z) (hash : list Z).
Hypothesis I : gossip_inv g.
Hypothesis Hok : msg_ok ver ch pad trace payload cid hash.
Hypothesis Hme : fits 64 me.
Hypothesis Hroom : 8 * Z.of_nat (length trace) + 8 < 2 ^ 32.
Let m := mk_msg ver ch pad trace payload cid hash.
Let t := 8 * Z.of_nat (length trace).
Let p := Z.of_nat (length payload).
Let cl := default 0 (find_guuid (clusters g) cid).

Lemma extended_ok : msg_ok ver ch pad (trace ++ [me]) payload cid hash.
Proof using Hok Hme Hroom.
  clear cl. destruct Hok. split; auto; [rewrite length_app; cbn; lia | apply Forall_app; auto].
Qed.

Lemma cluster_cases : cl = 0 \/ cl <> 0 /\ exists c, heap (clusters g) !! cl = Some c.
Proof using I.
  unfold cl. destruct (find_guuid (clusters g) cid) as [id|] eqn:E; [|by left]. cbn.
  apply find_guuid_Some in E as [Hin _]. right. apply (inv_heap _ (gi_clusters g I) id Hin).
Qed.

Lemma broadcast_cl d ex :
  dap_cluster_broadcast (clusters g) cl DAP_STREAM_CH_GOSSIP_ID DAP_STREAM_CH_GOSSIP_MSG_TYPE_HASH d ex
  = Some (add_log (clusters g) (if cl =? 0 then []
     else sends (clusters g) cl DAP_STREAM_CH_GOSSIP_ID DAP_STREAM_CH_GOSSIP_MSG_TYPE_HASH d ex)).
Proof using I.
  destruct cluster_cases as [E|[Hn [c Hc]]].
  - unfold dap_cluster_broadcast. rewrite E. cbn. by rewrite add_log_nil.
  - rewrite (broadcast_sends _ _ c) by (auto with gossip). by rewrite (proj2 (Z.eqb_neq cl 0)).
Qed.

Lemma accept_unwanted ok : s_gossip_lock g = Unlocked ->
  (forall it, find_msg (s_gossip_last_msgs g) hash = Some it -> with_payload it = true) ->
  gossip_data_accept me g now rnd ok node m (64 + t + p) t p = Some (g, true).
Proof using Hok.
  intros L H. destruct (mk_msg_fields _ _ _ _ _ _ _ Hok) as (_ & _ & _ & _ & _ & Eh & _).
  unfold gossip_data_accept. fold m in Eh. rewrite Eh, (lock_free g L).
  cbn [mbind option_bind s_gossip_last_msgs set_glock]. fold (set_glock g WrLocked).
  rewrite (unlock_free g g) by done.
  destruct (find_msg _ hash) as [it|]; [|done]. by rewrite (H it).
Qed.

Lemma accept_derelict ok it : s_gossip_lock g = Unlocked -> find_msg (s_gossip_last_msgs g) hash = Some it -> with_payload it = false ->
  derelict now it = true ->
  gossip_data_accept me g now rnd ok node m (64 + t + p) t p
  = Some (set_msgs g (del_msg (s_gossip_last_msgs g) hash), true).
Proof using Hok.
  intros L Ef Ew Ed. destruct (mk_msg_fields _ _ _ _ _ _ _ Hok) as (_ & _ & _ & _ & _ & Eh & _).
  unfold gossip_data_accept. fold m in Eh. rewrite Eh, (lock_free g L).
  cbn [mbind option_bind s_gossip_last_msgs set_glock]. rewrite Ef, Ew, Ed. unfold unlock_gossip, set_msgs. cbn. by rewrite L.
Qed.

(** The part of the handler behind the checks. *)
Lemma apply_eq it :
  (m' ← extend_trace me m (64 + t + p) t p;
   let g := set_msgs (set_glock g WrLocked) (del_msg (s_gossip_last_msgs g) hash ++ [Item hash (timestamp it) true m']) in
   trace_len_new ← msg_trace_len m';
   exclude ← read_addrs (Z.to_nat (trace_len_new / sizeof_addr)) m' sizeof_gossip_msg;
   hash_new ← msg_payload_hash m';
   w ← dap_cluster_broadcast (clusters g) cl DAP_STREAM_CH_GOSSIP_ID
         DAP_STREAM_CH_GOSSIP_MSG_TYPE_HASH hash_new exclude;
   let g := unlock_gossip (set_world g w) in
   ch' ← msg_payload_ch_id m;
   payload' ← mem_read m (sizeof_gossip_msg + t) p;
   Some (if s_get_callbacks_by_ch_id g ch' then gemit g (GvPayload ch' payload' node) else g, true))
  = Some (accepted me g it cl node ver ch pad trace payload cid hash, true).
Proof using I Hok Hme Hroom.
  destruct (mk_msg_fields _ _ _ _ _ _ _ Hok) as (_ & Ech & _ & _ & _ & _ & _ & Epl).
  destruct (mk_msg_fields _ _ _ _ _ _ _ extended_ok) as (_ & _ & Et & _ & _ & Eh & _ & _).
  unfold m, t, p. rewrite (extend_trace_spec _ _ _ _ _ _ _ Hok me Hme) by lia.
  cbn [mbind option_bind]. rewrite Et. cbn [mbind option_bind].
  assert (Er : read_addrs (Z.to_nat (8 * Z.of_nat (length (trace ++ [me])) / sizeof_addr))
    (mk_msg ver ch pad (trace ++ [me]) payload cid hash) sizeof_gossip_msg = Some (trace ++ [me])).
  { unfold sizeof_addr. rewrite (Z.mul_comm 8), Z.div_mul, Nat2Z.id by done. unfold mk_msg.
    destruct Hok as [_ _ Hp _ Hh _ _ _].
    etransitivity; [|apply (read_addrs_spec (trace ++ [me])
      (le_bytes 1 ver ++ le_bytes 1 ch ++ pad ++ le_bytes 4 (8 * Z.of_nat (length (trace ++ [me]))) ++
       le_bytes 8 (Z.of_nat (length payload)) ++ le_bytes 16 cid ++ hash) payload (mo_trace _ _ _ _ _ _ _ extended_ok))].
    f_equal; [by rewrite <- !app_assoc|]. rewrite !length_app, !length_le_bytes. unfold sizeof_gossip_msg. clear cl. lia. }
  rewrite Er. cbn [mbind option_bind]. rewrite Eh. cbn [mbind option_bind clusters set_msgs set_glock].
  rewrite broadcast_cl. cbn [mbind option_bind]. rewrite Ech. cbn [mbind option_bind].
  unfold sizeof_gossip_msg. rewrite Epl. cbn [mbind option_bind]. unfold accepted.
  change (s_get_callbacks_by_ch_id (unlock_gossip _) ch) with (s_get_callbacks_by_ch_id g ch).
  rewrite (gi_lock g I). destruct (s_get_callbacks_by_ch_id g ch); [done|]. cbn. by rewrite app_nil_r.
Qed.

Lemma accept_wanted ok it : find_msg (s_gossip_last_msgs g) hash = Some it -> with_payload it = false ->
  derelict now it = false ->
  gossip_data_accept me g now rnd ok node m (64 + t + p) t p
  = match data_verdict g rnd cl cid node with
    | Drop => Some (g, true)
    | Ask r =>
      Some (set_world g (emit (clusters g) (EvSend r DAP_STREAM_CH_GOSSIP_ID
              DAP_STREAM_CH_GOSSIP_MSG_TYPE_REQUEST (take 32 m))), true)
    | Take =>
      if ok then Some (accepted me g it cl node ver ch pad trace payload cid hash, true)
      else Some (set_msgs g (del_msg (s_gossip_last_msgs g) hash), true)
    end.
Proof using I Hok Hme Hroom.
  intros Ef Ew Ed. destruct (mk_msg_fields _ _ _ _ _ _ _ Hok) as (_ & _ & _ & _ & Ec & Eh & _).
  pose proof (gi_lock g I) as L.
  assert (Ul : unlock_gossip (set_glock g WrLocked) = g) by (by apply (unlock_free g g)).
  assert (Ud : forall l, unlock_gossip (set_msgs (set_glock g WrLocked) l) = set_msgs g l)
    by (intros; unfold unlock_gossip, set_msgs, set_glock; cbn; by rewrite L).
  unfold gossip_data_accept. fold m in Eh. rewrite Eh, (lock_free g L). cbn [mbind option_bind].
  change (s_gossip_last_msgs (set_glock g WrLocked)) with (s_gossip_last_msgs g).
  change (clusters (set_glock g WrLocked)) with (clusters g). rewrite Ef, Ew, Ed.
  fold m in Ec. rewrite Ec. cbn [mbind option_bind]. rewrite (cluster_find_eq _ _ (gi_clusters g I)). fold cl.
  cbn [mbind option_bind]. rewrite locked_id. cbn zeta. unfold data_verdict.
  pose proof (apply_eq it) as Ea. cbn zeta in Ea.
  destruct cluster_cases as [E0|[Hn [c Hc]]].
  - rewrite (proj2 (Z.eqb_eq cl 0) E0). cbn [negb]. destruct (cid =? 0); cbn [negb]; [|by rewrite Ul].
    destruct ok; cbn [negb]; [exact Ea | by rewrite Ud].
  - rewrite (proj2 (Z.eqb_neq cl 0)) by done. cbn [negb]. rewrite Hc.
    destruct (inv_members _ (gi_clusters g I) cl c Hc) as [Hl _].
    rewrite (member_find_eq _ cl c Hn Hc Hl). cbn [mbind option_bind]. rewrite locked_id.
    destruct (find_member c node) as [x|].
    + rewrite bool_decide_true by done. destruct ok; cbn [negb]; [exact Ea | by rewrite Ud].
    + rewrite bool_decide_false by (by intros [? ?]).
      rewrite (random_link_eq _ cl c Hn Hc Hl). cbn [mbind option_bind]. rewrite locked_id.
      destruct (default 0 _ =? 0); [by rewrite Ul|].
      assert (Er : mem_read m 0 sizeof_hash = Some (take 32 m)).
      { apply (mem_read_nat m 0 32). pose proof (length_mk_msg _ _ _ _ _ _ _ Hok) as Lm. fold m in Lm. clear cl Hn Hc Ea. lia. }
      rewrite Er. cbn [mbind option_bind]. unfold unlock_gossip, set_world, set_glock. cbn. by rewrite L.
Qed.
End Accept.

Lemma accepted_inv me g it node ver ch pad trace payload cid hash cl : gossip_inv g ->
  msg_ok ver ch pad (trace ++ [me]) payload cid hash ->
  gossip_inv (accepted me g it cl node ver ch pad trace payload cid hash).
Proof.
  intros [I T L] Hok. split; cbn; [auto with gossip | | done].
  apply table_snoc; [unfold del_msg; auto with gossip | apply find_msg_del|].
  split; cbn; [apply Hok | intros _; eauto 10].
Qed.

(** The format checks let exactly the messages through. *)
Lemma data_in_msg me g now rnd ok node ch pad trace payload cid hash :
  msg_ok 1 ch pad trace payload cid hash -> payload <> [] ->
  let m := mk_msg 1 ch pad trace payload cid hash in
  gossip_data_in me g now rnd ok node m
  = gossip_data_accept me g now rnd ok node m
      (64 + 8 * Z.of_nat (length trace) + Z.of_nat (length payload))
      (8 * Z.of_nat (length trace)) (Z.of_nat (length payload)).
Proof.
  intros Hok Hp m. destruct (mk_msg_fields _ _ _ _ _ _ _ Hok) as (Ev & _ & Et & Ep & _ & _ & Es & _).
  pose proof (length_mk_msg _ _ _ _ _ _ _ Hok) as L. fold m in Ev, Et, Ep, Es, L.
  unfold gossip_data_in. rewrite L, (proj2 (Z.ltb_ge _ _)) by (unfold sizeof_gossip_msg; lia).
  rewrite Es. cbn [mbind option_bind]. rewrite Z.eqb_refl. cbn [negb].
  rewrite Ev. cbn [mbind option_bind].
  change (1 =? DAP_GOSSIP_CURRENT_VERSION) with true. rewrite Et. cbn [negb mbind option_bind].
  unfold sizeof_addr. rewrite (Z.mul_comm 8 (Z.of_nat (length trace))), Z.mod_mul by done. cbn [Z.eqb negb].
  rewrite Ep. cbn [mbind option_bind]. destruct payload; [done|]. cbn [length].
  by rewrite (proj2 (Z.eqb_neq _ _)) by lia.
Qed.

Lemma accept_ok me g now rnd ok node ver ch pad trace payload cid hash :
  gossip_inv g -> msg_ok ver ch pad trace payload cid hash -> fits 64 me ->
  8 * Z.of_nat (length trace) + 8 < 2 ^ 32 ->
  exists g' b, gossip_data_accept me g now rnd ok node (mk_msg ver ch pad trace payload cid hash)
      (64 + 8 * Z.of_nat (length trace) + Z.of_nat (length payload))
      (8 * Z.of_nat (length trace)) (Z.of_nat (length payload)) = Some (g', b) /\ gossip_inv g'.
Proof.
  intros I Hok Hme Hroom.
  assert (Hdel : gossip_inv (set_msgs g (del_msg (s_gossip_last_msgs g) hash)))
    by (destruct I; split; cbn; unfold del_msg; auto with gossip).
  destruct (find_msg (s_gossip_last_msgs g) hash) as [it|] eqn:Ef.
  2: { rewrite (accept_unwanted me g now rnd node _ _ _ _ _ _ _ Hok ok (gi_lock g I)) by congruence. eauto. }
  destruct (with_payload it) eqn:Ew.
  { rewrite (accept_unwanted me g now rnd node _ _ _ _ _ _ _ Hok ok (gi_lock g I)) by congruence. eauto. }
  destruct (derelict now it) eqn:Ed.
  { rewrite (accept_derelict me g now rnd node _ _ _ _ _ _ _ Hok ok it (gi_lock g I) Ef Ew Ed). eauto. }
  rewrite (accept_wanted me g now rnd node _ _ _ _ _ _ _ I Hok Hme Hroom ok it Ef Ew Ed).
  destruct (data_verdict _ _ _ _ _) as [|r|]; [by eauto| |].
  - do 2 eexists. split; [done|]. destruct I. split; cbn; auto with gossip.
  - destruct ok; [|by eauto]. do 2 eexists. split; [done|]. apply accepted_inv; [done|].
    by apply extended_ok.
Qed.

Lemma data_in_ok me g now rnd ok node data : gossip_inv g -> fits 64 me -> Forall (fits 8) data ->
  Z.of_nat (length data) < 2 ^ 32 ->
  exists g' b, gossip_data_in me g now rnd ok node data = Some (g', b) /\ gossip_inv g'.
Proof.
  intros I Hme Hb Hlen. unfold gossip_data_in, sizeof_gossip_msg, sizeof_addr.
  destruct (Z.ltb_spec (Z.of_nat (length data)) 64); [by eauto|].
  destruct (mem_le_Some data 4 4) as [t Et]; [lia | lia |].
  destruct (mem_le_Some data 8 8) as [p Ep]; [lia | lia |].
  destruct (mem_le_Some data 0 1) as [v Ev]; [lia | lia |].
  fold (msg_trace_len data) in Et. fold (msg_payload_len data) in Ep. fold (msg_version data) in Ev.
  destruct (dap_gossip_msg_get_size data) as [s|] eqn:Es.
  2: { unfold dap_gossip_msg_get_size in Es. rewrite Et in Es. cbn [mbind option_bind] in Es. by rewrite Ep in Es. }
  rewrite Ev, Et, Ep. cbn [mbind option_bind].
  destruct (Z.eqb_spec (Z.of_nat (length data)) s) as [<-|]; cbn [negb]; [|by eauto].
  destruct (v =? _); cbn [negb]; [|by eauto].
  destruct (Z.eqb_spec (t mod 8) 0) as [Hmod|]; cbn [negb]; [|by eauto].
  destruct (Z.eqb_spec p 0); [by eauto|].
  destruct (msg_decompose data t p Hb ltac:(lia) Es Et Ep Hmod)
    as (ver & ch & pad & trace & payload & cid & hash & -> & Hok & -> & ->).
  rewrite (length_mk_msg _ _ _ _ _ _ _ Hok) in *. apply accept_ok; [done | done | done | lia].
Qed.

Lemma packet_in_ok me g now rnd ok node ty data : gossip_inv g -> fits 64 me -> Forall (fits 8) data ->
  Z.of_nat (length data) < 2 ^ 32 ->
  exists g' b, s_stream_ch_packet_in me g now rnd ok node ty data = Some (g', b) /\ gossip_inv g'.
Proof.
  intros. unfold s_stream_ch_packet_in. destruct (_ || _); [by apply hash_in_ok|].
  destruct (ty =? _); [by apply data_in_ok | by eauto].
Qed.

(** ** Issuing a message *)

Definition issued (me : Z) (g : gossip) (now a : Z) (c : dap_cluster) (ch : Z) (payload hash : list Z) : gossip :=
  Gossip
    (add_log (clusters g)
      (sends (clusters g) a DAP_STREAM_CH_GOSSIP_ID DAP_STREAM_CH_GOSSIP_MSG_TYPE_HASH hash [me]))
    (s_gossip_last_msgs g ++ [Item hash now true (mk_msg 1 (wrap 8 ch) [0; 0] [me] payload (guuid c) hash)])
    (s_gossip_callbacks_list g) (glog g) (s_gossip_lock g).

Lemma issue_eq me g now ok a c ch payload hash : gossip_inv g -> a <> 0 ->
  heap (clusters g) !! a = Some c -> payload <> [] ->
  dap_gossip_msg_issue me g now ok a ch payload hash
  = Some (if bool_decide (members c = []) || bool_decide (is_Some (find_msg (s_gossip_last_msgs g) hash)) || negb ok
          then g else issued me g now a c ch payload hash).
Proof.
  intros I Ha Hc Hp. destruct (inv_members _ (gi_clusters g I) a c Hc) as [Hl _].
  unfold dap_gossip_msg_issue. rewrite (proj2 (Z.eqb_neq a 0)) by done.
  destruct payload as [|b payload]; [done|]. cbn [length Nat.eqb orb].
  unfold dap_cluster_is_empty. rewrite (members_count_eq _ a c Ha Hc Hl). cbn [mbind option_bind].
  rewrite set_world_id. destruct (members c) as [|x ms] eqn:Em.
  { by rewrite bool_decide_true. }
  rewrite (bool_decide_false (_ :: _ = [])) by done. cbn [length orb].
  rewrite (proj2 (Z.eqb_neq _ _)) by lia.
  pose proof (gi_lock g I) as L. rewrite (lock_free g L). cbn [mbind option_bind].
  change (s_gossip_last_msgs (set_glock g WrLocked)) with (s_gossip_last_msgs g).
  change (clusters (set_glock g WrLocked)) with (clusters g). rewrite (unlock_free g g) by done.
  destruct (find_msg _ hash) as [it|]; [by rewrite bool_decide_true|].
  rewrite bool_decide_false by (by intros [? ?]). cbn [orb].
  destruct ok; cbn [negb]; [|done]. rewrite Hc. cbn [mbind option_bind clusters set_msgs unlock_gossip set_glock].
  rewrite (broadcast_sends _ a c) by (auto with gossip). cbn [mbind option_bind]. f_equal. unfold issued, set_world.
  rewrite L. cbn [s_gossip_last_msgs set_msgs s_gossip_callbacks_list glog set_glock s_gossip_lock unlock].
  f_equal. do 4 f_equal. unfold mk_msg, msg_header.
  rewrite <- !app_assoc. change (addrs_bytes [me]) with (le_bytes 8 me ++ []). rewrite app_nil_r.
  f_equal. f_equal. cbn [le_bytes]. unfold wrap. by rewrite Z.mod_mod.
Qed.

Lemma issued_msg_ok me c ch payload hash : fits 64 me -> fits 128 (guuid c) -> length hash = 32%nat ->
  Z.of_nat (length payload) < 2 ^ 63 -> msg_ok 1 (wrap 8 ch) [0; 0] [me] payload (guuid c) hash.
Proof.
  intros. split; auto; [done | by apply wrap_fits | done].
Qed.

Lemma issue_ok me g now ok a c ch payload hash : gossip_inv g -> fits 64 me -> a <> 0 ->
  heap (clusters g) !! a = Some c -> fits 128 (guuid c) -> payload <> [] -> length hash = 32%nat ->
  Z.of_nat (length payload) < 2 ^ 63 ->
  exists g', dap_gossip_msg_issue me g now ok a ch payload hash = Some g' /\ gossip_inv g'.
Proof.
  intros I Hme Ha Hc Hg Hp Hh Hl. rewrite (issue_eq me g now ok a c) by done.
  eexists. split; [done|]. destruct (bool_decide (members c = [])); [done|]. cbn [orb].
  case_bool_decide as Hf; [done|]. cbn [orb]. destruct ok; [|done]. cbn [negb].
  destruct I as [I T L]. split; cbn; [auto with gossip | | done]. apply table_snoc; [done| |].
  - cbn. destruct (find_msg _ hash); [|done]. contradict Hf. eauto.
  - split; [done|]. intros _. cbn. do 6 eexists. split; [by apply issued_msg_ok | done].
Qed.

(** ** Runs of the protocol engine *)

Inductive gossip_op :=
  | OpPacket (now rnd : Z) (alloc_ok : bool) (node ty : Z) (data : list Z)
  | OpIssue (now : Z) (alloc_ok : bool) (a ch : Z) (payload hash : list Z)
  | OpTick (now : Z)
  | OpCallback (alloc_ok : bool) (ch : Z)
  | OpDeinit
  | OpClusterNew (ret : Z) (m : option (list Z)) (guuid : Z) (ty : dap_cluster_type)
  | OpMemberAdd (alloc_ok : bool) (a x r i : Z)
  | OpMemberDelete (a x : Z).

Definition run_op (me : Z) (g : gossip) (o : gossip_op) : option gossip :=
  match o with
  | OpPacket now rnd ok node ty data => option_map fst (s_stream_ch_packet_in me g now rnd ok node ty data)
  | OpIssue now ok a ch payload hash => dap_gossip_msg_issue me g now ok a ch payload hash
  | OpTick now => s_callback_hashtable_maintenance g now
  | OpCallback ok ch => Some (dap_stream_ch_gossip_callback_add g ok ch).1
  | OpDeinit => dap_stream_ch_gossip_deinit g
  | OpClusterNew ret m gu ty => '(w, _) ← dap_cluster_new (clusters g) ret true m gu ty; Some (set_world g w)
  | OpMemberAdd ok a x r i => '(w, _) ← dap_cluster_member_add (clusters g) ok a x r i; Some (set_world g w)
  | OpMemberDelete a x => '(w, _) ← dap_cluster_member_delete (clusters g) a x; Some (set_world g w)
  end.

(** What the callers guarantee: packets are byte arrays of 32-bit size (and
    otherwise arbitrary), hashes have 32 bytes, cluster pointers are live, a
    new cluster does not clash (the clash is [cluster_new_refused_deadlocks]). *)
Definition op_ok (g : gossip) (o : gossip_op) : Prop :=
  match o with
  | OpPacket _ _ _ _ _ data => Forall (fits 8) data /\ Z.of_nat (length data) < 2 ^ 32
  | OpIssue _ _ a _ payload hash =>
      a <> 0 /\ (exists c, heap (clusters g) !! a = Some c /\ fits 128 (guuid c)) /\ payload <> [] /\
      length hash = 32%nat /\ Z.of_nat (length payload) < 2 ^ 63
  | OpTick _ | OpCallback _ _ | OpDeinit => True
  | OpClusterNew ret m gu ty =>
      ret <> 0 /\ heap (clusters g) !! ret = None /\ ty <> DAP_CLUSTER_TYPE_VIRTUAL /\
      taken (clusters g) m gu = false
  | OpMemberAdd _ a _ _ _ | OpMemberDelete a _ => a <> 0 /\ exists c, heap (clusters g) !! a = Some c
  end.

Inductive reachable (me : Z) : gossip -> Prop :=
  | reach_init : reachable me (Gossip empty_world [] [] [] Unlocked)
  | reach_step g o g' : reachable me g -> op_ok g o -> run_op me g o = Some g' -> reachable me g'.

Lemma run_op_ok me g o : gossip_inv g -> fits 64 me -> op_ok g o ->
  exists g', run_op me g o = Some g' /\ gossip_inv g'.
Proof.
  intros I Hme. destruct o as [now rnd ok node ty data|now ok a ch payload hash|now|ok ch| |ret m gu ty|ok a x r i|a x]; cbn.
  - intros [Hb Hl]. destruct (packet_in_ok me g now rnd ok node ty data I Hme Hb Hl) as (g' & b & -> & I').
    by exists g'.
  - intros (Ha & (c & Hc & Hg) & Hp & Hh & Hl). by apply (issue_ok me g now ok a c).
  - intros _. unfold s_callback_hashtable_maintenance. rewrite (lock_free g (gi_lock g I)). cbn [mbind option_bind].
    eexists. split; [done|]. destruct I. split; cbn; auto with gossip.
  - intros _. eexists. split; [done|]. unfold dap_stream_ch_gossip_callback_add.
    destruct (s_get_callbacks_by_ch_id g ch); [done|]. destruct ok; [|done]. by destruct I.
  - intros _. unfold dap_stream_ch_gossip_deinit. rewrite (lock_free g (gi_lock g I)). cbn [mbind option_bind].
    eexists. split; [done|]. destruct I. split; cbn; [done | | done]. split; [constructor | by intros ? ?%elem_of_nil].
  - intros (Hr & Hf & Ht & Hn). rewrite (cluster_new_eq (clusters g)) by (auto with gossip). rewrite Hn.
    cbn [mbind option_bind]. eexists. split; [done|]. destruct I. split; cbn; [by apply registered_inv | done | done].
  - intros [Ha [c Hc]]. destruct (inv_members _ (gi_clusters g I) a c Hc) as [Hl _].
    pose proof (member_add_eq _ a c Ha Hc Hl ok x r i) as E.
    destruct (dap_cluster_member_add (clusters g) ok a x r i) as [[w b]|] eqn:Ea; [|done].
    cbn [mbind option_bind]. eexists. split; [done|].
    destruct I as [I T L]. split; [exact (member_add_inv _ a c ok x r i w b I Ha Hc Ea) | done | done].
  - intros [Ha [c Hc]]. destruct (inv_members _ (gi_clusters g I) a c Hc) as [Hl _].
    pose proof (member_delete_eq _ a c Ha Hc Hl x) as E.
    destruct (dap_cluster_member_delete (clusters g) a x) as [[w b]|] eqn:Ea; [|done].
    cbn [mbind option_bind]. eexists. split; [done|].
    destruct I as [I T L]. split; [exact (member_delete_inv _ a c x w b I Ha Hc Ea) | done | done].
Qed.

Lemma reachable_inv me g : fits 64 me -> reachable me g -> gossip_inv g.
Proof.
  intros Hme. induction 1 as [|g o g' _ IH Ho E].
  - split; cbn; [apply empty_world_inv | | done]. split; [constructor | by intros ? ?%elem_of_nil].
  - destruct (run_op_ok me g o IH Hme Ho) as (g'' & E' & I'). congruence.
Qed.

(** C28: the gossip engine is safe.  From any state reached by packets, issued
    messages, timer ticks, callback registrations and membership changes, the
    next such operation completes without an access outside the packet or the
    stored message and without blocking on a lock, for arbitrary packet bytes,
    and keeps the invariant: one entry per payload hash, every stored message
    well formed and stored under its own hash, [s_gossip_lock] and the locks of
    the clusters free again.  Operations run one after the other, and their
    callers keep [op_ok]. *)
Theorem gossip_safe me g o : fits 64 me -> reachable me g -> op_ok g o ->
  gossip_inv g /\ exists g', run_op me g o = Some g' /\ reachable me g' /\ gossip_inv g'.
Proof.
  intros Hme Hr Ho. pose proof (reachable_inv me g Hme Hr) as I. split; [done|].
  destruct (run_op_ok me g o I Hme Ho) as (g' & E & I'). exists g'. eauto using reach_step.
Qed.

Lemma fresh_enough now it : gossip_lifetime <= now < 2 ^ 64 -> now - gossip_lifetime <= timestamp it ->
  derelict now it = false.
Proof.
  intros. unfold derelict, gossip_lifetime in *. rewrite wrap_id by (unfold fits; lia).
  apply Z.ltb_ge. lia.
Qed.

Lemma present_in x l : s_present_in_array x l = true <-> x ∈ l.
Proof.
  induction l as [|y l IH]; cbn; [by rewrite elem_of_nil|]. rewrite elem_of_cons, <- IH.
  destruct (Z.eqb_spec y x); split; intros; try intuition congruence; auto.
Qed.

(** Everyone in the cluster outside [ex] is told. *)
Lemma sends_elem w a c ch ty d ex y : heap w !! a = Some c -> find_member c y <> None -> y ∉ ex ->
  EvSend y ch ty d ∈ sends w a ch ty d ex.
Proof.
  intros Hc Hm Hy. destruct (find_member c y) as [m|] eqn:E; [|done].
  apply List.find_some in E as [Hin Ey]. apply Z.eqb_eq in Ey. subst y. unfold sends. rewrite Hc.
  apply list_elem_of_In, List.in_map_iff. exists m. split; [done|]. apply List.filter_In. split; [done|].
  apply negb_true_iff, not_true_iff_false. by rewrite present_in.
Qed.

Section Exchange.
Context (A B : Z) (gA gB : gossip) (a b : Z) (cA cB : dap_cluster) (ch : Z) (payload hash : list Z).
Context (t0 t1 t2 t3 : Z).

(** Two nodes linked in one cluster, neither of which knows the hash. *)
Record exchange_ready : Prop := {
  er_A : gossip_inv gA;
  er_B : gossip_inv gB;
  er_addrA : fits 64 A;
  er_addrB : fits 64 B;
  er_diff : A <> B;
  er_a : a <> 0 /\ heap (clusters gA) !! a = Some cA /\ fits 128 (guuid cA) /\ find_member cA B <> None;
  er_b : find_guuid (clusters gB) (guuid cA) = Some b /\ heap (clusters gB) !! b = Some cB /\
         find_member cB A <> None;
  er_ch : 0 <= ch < 128 /\ s_get_callbacks_by_ch_id gB ch = true;
  er_payload : payload <> [] /\ Z.of_nat (length payload) < 2 ^ 32;
  er_hash : length hash = 32%nat /\ find_msg (s_gossip_last_msgs gA) hash = None /\
            find_msg (s_gossip_last_msgs gB) hash = None;
  er_clock : gossip_lifetime <= t2 < 2 ^ 64 /\ t2 - gossip_lifetime <= t0 /\
             gossip_lifetime <= t3 < 2 ^ 64 /\ t3 - gossip_lifetime <= t1;
}.

(** The message as it leaves the issuer and as the receiver stores it. *)
Definition msg_sent : list Z := mk_msg 1 ch [0; 0] [A] payload (guuid cA) hash.
Definition msg_kept : list Z := mk_msg 1 ch [0; 0] [A; B] payload (guuid cA) hash.

Definition received : gossip :=
  gemit (set_msgs gB (s_gossip_last_msgs gB ++ [Item hash t1 false []]))
    (GvWrite DAP_STREAM_CH_GOSSIP_MSG_TYPE_REQUEST hash).

Definition delivered : gossip :=
  accepted B received (Item hash t1 false []) b A 1 ch [0; 0] [A] payload (guuid cA) hash.

Hypothesis R : exchange_ready.

Lemma sent_ok : msg_ok 1 ch [0; 0] [A] payload (guuid cA) hash.
Proof using R.
  destruct R as [_ _ HA _ _ (_ & _ & Hg & _) _ [Hch _] [_ Hp] [Hh _] _].
  split; auto; try done; [unfold fits; lia | lia].
Qed.

Lemma step_issue :
  dap_gossip_msg_issue A gA t0 true a ch payload hash = Some (issued A gA t0 a cA ch payload hash) /\
  find_msg (s_gossip_last_msgs (issued A gA t0 a cA ch payload hash)) hash = Some (Item hash t0 true msg_sent).
Proof using R.
  destruct R as [IA _ _ _ _ (Ha & Hc & _ & Hm) _ [Hch _] [Hp _] [_ [Hf _]] _].
  rewrite (issue_eq A gA t0 true a cA) by done. rewrite Hf.
  rewrite (bool_decide_false (members cA = [])).
  2: { intros E. apply Hm. unfold find_member. by rewrite E. }
  rewrite bool_decide_false by (by intros [? ?]). split; [done|].
  unfold issued, msg_sent. cbn [s_gossip_last_msgs]. rewrite wrap_id by (unfold fits; lia).
  by apply (find_msg_snoc _ (Item hash t0 true (mk_msg 1 ch [0; 0] [A] payload (guuid cA) hash))).
Qed.

Lemma step_hash rnd :
  s_stream_ch_packet_in B gB t1 rnd true A DAP_STREAM_CH_GOSSIP_MSG_TYPE_HASH hash = Some (received, true).
Proof using R.
  destruct R as [_ IB _ _ _ _ _ _ _ (Hh & _ & Hf) _].
  unfold s_stream_ch_packet_in, gossip_hash_in. cbn [Z.eqb orb]. rewrite Hh, (lock_free gB (gi_lock gB IB)).
  cbn [mbind option_bind]. change (s_gossip_last_msgs (set_glock gB WrLocked)) with (s_gossip_last_msgs gB). rewrite Hf.
  unfold received. cbn. unfold unlock_gossip, gemit, set_msgs, set_glock. cbn. by rewrite (gi_lock gB IB).
Qed.

Lemma step_request rnd :
  let g := issued A gA t0 a cA ch payload hash in
  s_stream_ch_packet_in A g t2 rnd true B DAP_STREAM_CH_GOSSIP_MSG_TYPE_REQUEST hash
  = Some (gemit g (GvWrite DAP_STREAM_CH_GOSSIP_MSG_TYPE_DATA msg_sent), true).
Proof using R.
  intros g. destruct step_issue as [_ Ef]. fold g in Ef.
  destruct R as [IA _ _ _ _ _ _ _ _ (Hh & _) (Ht & Ht' & _)].
  assert (Lg : s_gossip_lock g = Unlocked) by (exact (gi_lock gA IA)).
  assert (Ug : forall e, unlock_gossip (gemit (set_glock g WrLocked) e) = gemit g e)
    by (intros e; unfold unlock_gossip, gemit, set_glock; cbn [unlock s_gossip_lock clusters s_gossip_last_msgs
          s_gossip_callbacks_list glog]; by rewrite Lg).
  unfold s_stream_ch_packet_in, gossip_hash_in. cbn [Z.eqb orb]. rewrite Hh, (lock_free g Lg).
  change (negb _) with false. cbn [mbind option_bind]. cbn iota.
  change (s_gossip_last_msgs (set_glock g WrLocked)) with (s_gossip_last_msgs g). rewrite Ef. rewrite fresh_enough by done. cbn [with_payload andb message Z.eqb].
  pose proof (stored_read (Item hash t0 true msg_sent)) as Er. cbn [message with_payload] in Er.
  destruct (dap_gossip_msg_get_size msg_sent) as [s|].
  2: { by specialize (Er ltac:(split; [done | intros _; eauto 10 using sent_ok]) eq_refl). }
  cbn [mbind option_bind] in *. rewrite Er; [|split; [done | intros _; eauto 10 using sent_ok] | done].
  cbn [mbind option_bind]. by rewrite Ug.
Qed.

Lemma step_data rnd :
  s_stream_ch_packet_in B received t3 rnd true A DAP_STREAM_CH_GOSSIP_MSG_TYPE_DATA msg_sent
  = Some (delivered, true).
Proof using R.
  pose proof sent_ok as Hok.
  destruct R as [_ IB HA HB _ _ (Hb & Hcb & Hm) _ [Hp Hpl] (Hh & _ & Hf) (_ & _ & Ht & Ht')].
  assert (IR : gossip_inv received).
  { destruct IB as [I T L]. split; cbn; [done | | done]. apply table_snoc; done. }
  assert (Ef : find_msg (s_gossip_last_msgs received) hash = Some (Item hash t1 false []))
    by (by apply (find_msg_snoc _ (Item hash t1 false []))).
  assert (Hb0 : b <> 0) by (apply find_guuid_Some in Hb as [Hin _]; by apply (inv_heap _ (gi_clusters gB IB) b)).
  unfold s_stream_ch_packet_in. cbn [Z.eqb orb]. unfold msg_sent. rewrite (data_in_msg B received) by done.
  rewrite (accept_wanted B received t3 rnd A _ _ _ _ _ _ _ IR Hok HB ltac:(cbn; lia) true _ Ef eq_refl)
    by (by apply fresh_enough).
  cbn [clusters received gemit set_msgs]. rewrite Hb. change (default 0 (Some b)) with b. unfold data_verdict.
  rewrite (proj2 (Z.eqb_neq b 0)) by done. cbn [clusters received gemit set_msgs]. rewrite Hcb.
  rewrite bool_decide_true; [done|]. destruct (find_member cB A); [eauto | done].
Qed.

Lemma step_replay rnd node ok :
  s_stream_ch_packet_in B delivered t3 rnd ok node DAP_STREAM_CH_GOSSIP_MSG_TYPE_DATA msg_sent
  = Some (delivered, true).
Proof using R.
  pose proof sent_ok as Hok.
  destruct R as [_ IB HA HB _ _ (Hb & Hcb & Hm) _ [Hp Hpl] (Hh & _ & Hf) (_ & _ & Ht & Ht')].
  unfold s_stream_ch_packet_in. cbn [Z.eqb orb]. unfold msg_sent. rewrite (data_in_msg B delivered) by done.
  apply accept_unwanted; [done | apply (gi_lock gB IB)|]. intros it. cbn [delivered accepted s_gossip_last_msgs].
  rewrite (find_msg_snoc _ (Item hash _ true _)) by apply find_msg_del. intros [= <-]. done.
Qed.
End Exchange.

(** C27: a message reaches the other node exactly once.  A node [A] issues a
    payload in a cluster that [B] is linked to: the issue broadcasts the hash to
    [B], [B] answers the hash with a request, [A] answers the request with the
    stored message, and that packet makes [B] call the payload callback of its
    channel with the issued bytes and [A] as the sender, store the message with
    itself appended to the trace, and announce the hash to everyone in its
    cluster but [A] and [B].  The same packet again changes nothing. *)
Theorem gossip_exchange_delivers A B gA gB a b cA cB ch payload hash t0 t1 t2 t3 r1 r2 r3 r4 :
  exchange_ready A B gA gB a b cA cB ch payload hash t0 t1 t2 t3 ->
  let msg := msg_sent A cA ch payload hash in
  exists gA' gB1 gB2,
    dap_gossip_msg_issue A gA t0 true a ch payload hash = Some gA' /\
    EvSend B DAP_STREAM_CH_GOSSIP_ID DAP_STREAM_CH_GOSSIP_MSG_TYPE_HASH hash ∈ log (clusters gA') /\
    s_stream_ch_packet_in B gB t1 r1 true A DAP_STREAM_CH_GOSSIP_MSG_TYPE_HASH hash = Some (gB1, true) /\
    glog gB1 = glog gB ++ [GvWrite DAP_STREAM_CH_GOSSIP_MSG_TYPE_REQUEST hash] /\
    s_stream_ch_packet_in A gA' t2 r2 true B DAP_STREAM_CH_GOSSIP_MSG_TYPE_REQUEST hash
      = Some (gemit gA' (GvWrite DAP_STREAM_CH_GOSSIP_MSG_TYPE_DATA msg), true) /\
    s_stream_ch_packet_in B gB1 t3 r3 true A DAP_STREAM_CH_GOSSIP_MSG_TYPE_DATA msg = Some (gB2, true) /\
    glog gB2 = glog gB1 ++ [GvPayload ch payload A] /\
    find_msg (s_gossip_last_msgs gB2) hash = Some (Item hash t1 true (msg_kept A B cA ch payload hash)) /\
    log (clusters gB2) = log (clusters gB) ++
      sends (clusters gB) b DAP_STREAM_CH_GOSSIP_ID DAP_STREAM_CH_GOSSIP_MSG_TYPE_HASH hash [A; B] /\
    s_stream_ch_packet_in B gB2 t3 r4 true A DAP_STREAM_CH_GOSSIP_MSG_TYPE_DATA msg = Some (gB2, true).
Proof.
  intros R msg. exists (issued A gA t0 a cA ch payload hash), (received gB hash t1),
    (delivered A B gB b cA ch payload hash t1).
  destruct (step_issue _ _ _ _ _ _ _ _ _ _ _ _ _ _ _ R) as [E1 _]. split; [done|].
  pose proof (step_hash _ _ _ _ _ _ _ _ _ _ _ _ _ _ _ R r1) as E2.
  pose proof (step_request _ _ _ _ _ _ _ _ _ _ _ _ _ _ _ R r2) as E3.
  pose proof (step_data _ _ _ _ _ _ _ _ _ _ _ _ _ _ _ R r3) as E4.
  pose proof (step_replay _ _ _ _ _ _ _ _ _ _ _ _ _ _ _ R r4 A true) as E5.
  destruct R as [_ IB _ _ Hd (_ & Hc & _ & Hm) (Hb & Hcb & _) [_ Hcl] _ _ _].
  assert (Hb0 : b <> 0) by (apply find_guuid_Some in Hb as [Hin _]; by apply (inv_heap _ (gi_clusters gB IB) b)).
  split.
  { cbn. apply elem_of_app. right. apply (sends_elem _ _ cA); [done | done|].
    rewrite list_elem_of_singleton. congruence. }
  split; [done|]. split; [done|]. split; [done|]. split; [done|]. split.
  { unfold delivered, accepted. cbn [glog].
    change (s_get_callbacks_by_ch_id (received gB hash t1) ch) with (s_get_callbacks_by_ch_id gB ch). by rewrite Hcl. }
  split.
  { unfold delivered, accepted. cbn [s_gossip_last_msgs timestamp app].
    apply (find_msg_snoc _ (Item hash _ true _)). apply find_msg_del. }
  split; [|done]. unfold delivered, accepted. by rewrite (proj2 (Z.eqb_neq b 0)).
Qed.

(** A world with one cluster, identified by 77, that has one member. *)
Definition linked_world (x : Z) : world :=
  World (<[8 := Cluster (Some [103]) 77 DAP_CLUSTER_TYPE_EMBEDDED Unlocked [Member x 0 0] false false false]>
    (heap one_cluster)) [8] [([103], 8)] Unlocked [].

Lemma linked_world_inv x : cluster_inv (linked_world x).
Proof.
  apply (member_add_inv one_cluster 8
    (Cluster (Some [103]) 77 DAP_CLUSTER_TYPE_EMBEDDED Unlocked [] false false false) true x 0 0 _ true
    one_cluster_inv); [done | done|]. vm_compute. reflexivity.
Qed.

Definition sample_hash : list Z := replicate 32 9.
Definition sample_cluster (x : Z) : dap_cluster :=
  Cluster (Some [103]) 77 DAP_CLUSTER_TYPE_EMBEDDED Unlocked [Member x 0 0] false false false.

Lemma sample_ready : exchange_ready 1 2 (Gossip (linked_world 2) [] [] [] Unlocked) (Gossip (linked_world 1) [] [66] [] Unlocked) 8 8
  (sample_cluster 2) (sample_cluster 1) 66 [10; 20; 30] sample_hash
  (20 * 1000000000) (20 * 1000000000) (20 * 1000000000) (20 * 1000000000).
Proof.
  assert (T : table_ok []) by (split; [constructor | by intros ? ?%elem_of_nil]).
  split; try (split; [apply linked_world_inv | exact T | reflexivity]); try (by vm_compute; intuition congruence).
Qed.

Lemma gossip_exchange_delivers_witness :
  let gB := Gossip (linked_world 1) [] [66] [] Unlocked in
  exists gB1 gB2,
    s_stream_ch_packet_in 2 gB (20 * 1000000000) 0 true 1 DAP_STREAM_CH_GOSSIP_MSG_TYPE_HASH sample_hash
      = Some (gB1, true) /\
    glog gB2 = glog gB1 ++ [GvPayload 66 [10; 20; 30] 1].
Proof.
  destruct (gossip_exchange_delivers 1 2 (Gossip (linked_world 2) [] [] [] Unlocked) (Gossip (linked_world 1) [] [66] [] Unlocked) 8 8
    (sample_cluster 2) (sample_cluster 1) 66 [10; 20; 30] sample_hash
    (20 * 1000000000) (20 * 1000000000) (20 * 1000000000) (20 * 1000000000) 0 0 0 0 sample_ready)
    as (gA' & gB1 & gB2 & _ & _ & E & _ & _ & _ & E' & _).
  exists gB1, gB2. split; [exact E | exact E'].
Defined.

(** *** A node that has asked for a message *)

Fixpoint run_ops (me : Z) (g : gossip) (ops : list gossip_op) : option gossip :=
  match ops with
  | [] => Some g
  | o :: ops => g ← run_op me g o; run_ops me g ops
  end.

Fixpoint ops_ok (me : Z) (g : gossip) (ops : list gossip_op) : Prop :=
  match ops with
  | [] => True
  | o :: ops => op_ok g o /\ match run_op me g o with Some g => ops_ok me g ops | None => False end
  end.

Lemma run_ops_reachable me ops : forall g g', reachable me g -> ops_ok me g ops -> run_ops me g ops = Some g' ->
  reachable me g'.
Proof.
  induction ops as [|o ops IH]; cbn; intros g g' Hr Ho E; [by injection E as <-|]. destruct Ho as [Ho Hops].
  destruct (run_op me g o) as [g1|] eqn:Eo; [|done]. cbn in E. apply (IH g1); [|done | done].
  by apply (reach_step me g o).
Qed.

(** The cluster 77 with the member 1, the callback of the channel 66, the hash. *)
Definition asking_ops : list gossip_op :=
  [OpClusterNew 8 (Some [103]) 77 DAP_CLUSTER_TYPE_EMBEDDED; OpMemberAdd true 8 1 0 0; OpCallback true 66;
   OpPacket (20 * 1000000000) 0 true 1 DAP_STREAM_CH_GOSSIP_MSG_TYPE_HASH sample_hash].
Definition asking : gossip :=
  Gossip (linked_world 1) [Item sample_hash (20 * 1000000000) false []] [66]
    [GvWrite DAP_STREAM_CH_GOSSIP_MSG_TYPE_REQUEST sample_hash] Unlocked.

Lemma asking_reachable : reachable 2 asking.
Proof.
  apply (run_ops_reachable 2 asking_ops (Gossip empty_world [] [] [] Unlocked));
    [constructor | | vm_compute; reflexivity].
  repeat split; try (vm_compute; (done || eauto)). repeat constructor; vm_compute; congruence.
Qed.

(** The message arrives and is handed to the callback. *)
Lemma gossip_safe_witness :
  let m := mk_msg 1 66 [0; 0] [1] [10; 20; 30] 77 sample_hash in
  gossip_inv asking /\ exists g', run_op 2 asking (OpPacket (20 * 1000000000) 0 true 1 2 m) = Some g' /\
    glog g' = glog asking ++ [GvPayload 66 [10; 20; 30] 1] /\ reachable 2 g' /\ gossip_inv g'.
Proof.
  intros m. destruct (gossip_safe 2 asking (OpPacket (20 * 1000000000) 0 true 1 2 m)) as [Ig (g' & E & R & I)];
    [vm_compute; intuition congruence | exact asking_reachable | split; [|reflexivity]; repeat constructor; vm_compute; congruence|].
  split; [exact Ig|]. exists g'. split; [exact E|]. split; [|split; [exact R | exact I]].
  vm_compute in E. injection E as <-. vm_compute. reflexivity.
Defined.

Lemma header_front ch pad trace payload cid hash : msg_ok 1 ch pad trace payload cid hash ->
  take 32 (mk_msg 1 ch pad trace payload cid hash)
  = le_bytes 1 1 ++ le_bytes 1 ch ++ pad ++ le_bytes 4 (8 * Z.of_nat (length trace)) ++
    le_bytes 8 (Z.of_nat (length payload)) ++ le_bytes 16 cid.
Proof.
  intros [_ _ Hp _ _ _ _ _]. set (h := le_bytes 1 1 ++ _).
  assert (L : 32%nat = length h) by (subst h; rewrite !length_app, !length_le_bytes; lia).
  assert (E : mk_msg 1 ch pad trace payload cid hash = h ++ hash ++ addrs_bytes trace ++ payload)
    by (subst h; unfold mk_msg; by rewrite <- !app_assoc).
  rewrite E. by apply take_app_length'.
Qed.

(** A requested message that arrives from a node outside its cluster is not
    taken, and the request the handler then sends to a random link of the
    cluster does not carry the payload hash: its 32 bytes are the message's
    version, channel, lengths and cluster id, so a peer that holds the message
    (and nothing under that key) answers nothing. *)
Theorem foreign_data_asks_wrong_hash me g now rnd node ch pad trace payload cid hash it cl c r
    (peer : gossip) (now' rnd' from : Z) :
  gossip_inv g -> fits 64 me -> msg_ok 1 ch pad trace payload cid hash -> payload <> [] ->
  8 * Z.of_nat (length trace) + 8 < 2 ^ 32 ->
  find_msg (s_gossip_last_msgs g) hash = Some it -> with_payload it = false -> derelict now it = false ->
  find_guuid (clusters g) cid = Some cl -> heap (clusters g) !! cl = Some c -> find_member c node = None ->
  option_map addr (members c !! Z.to_nat (rnd mod Z.of_nat (length (members c)))) = Some r -> r <> 0 ->
  let m := mk_msg 1 ch pad trace payload cid hash in
  let asked := le_bytes 1 1 ++ le_bytes 1 ch ++ pad ++ le_bytes 4 (8 * Z.of_nat (length trace)) ++
               le_bytes 8 (Z.of_nat (length payload)) ++ le_bytes 16 cid in
  s_stream_ch_packet_in me g now rnd true node DAP_STREAM_CH_GOSSIP_MSG_TYPE_DATA m
  = Some (set_world g (emit (clusters g) (EvSend r DAP_STREAM_CH_GOSSIP_ID
            DAP_STREAM_CH_GOSSIP_MSG_TYPE_REQUEST asked)), true) /\
  (s_gossip_lock peer = Unlocked -> find_msg (s_gossip_last_msgs peer) asked = None ->
   s_stream_ch_packet_in r peer now' rnd' true from DAP_STREAM_CH_GOSSIP_MSG_TYPE_REQUEST asked
   = Some (peer, true)).
Proof.
  intros I Hme Hok Hp Hroom Ef Ew Ed Hg Hc Hm Hr Hr0 m asked.
  assert (Ea : take 32 m = asked) by (by apply header_front).
  assert (Hcl : cl <> 0) by (apply find_guuid_Some in Hg as [Hin _]; by apply (inv_heap _ (gi_clusters g I) cl)).
  split.
  - unfold s_stream_ch_packet_in. cbn [Z.eqb orb]. unfold m. rewrite (data_in_msg me g) by done.
    rewrite (accept_wanted me g now rnd node _ _ _ _ _ _ _ I Hok Hme Hroom true it Ef Ew Ed).
    rewrite Hg. change (default 0 (Some cl)) with cl. unfold data_verdict.
    rewrite (proj2 (Z.eqb_neq cl 0)), Hc, Hm, bool_decide_false by (done || by intros [? ?]).
    rewrite Hr. change (default 0 (Some r)) with r. rewrite (proj2 (Z.eqb_neq r 0)) by done.
    fold m. by rewrite Ea.
  - intros Lp Hn. unfold s_stream_ch_packet_in, gossip_hash_in. cbn [Z.eqb orb]. rewrite (lock_free peer Lp).
    cbn [mbind option_bind]. change (s_gossip_last_msgs (set_glock peer WrLocked)) with (s_gossip_last_msgs peer).
    rewrite Hn, (unlock_free peer peer) by done.
    assert (L : length asked = 32%nat).
    { rewrite <- Ea, length_take. pose proof (length_mk_msg _ _ _ _ _ _ _ Hok). fold m in H. lia. }
    by rewrite L.
Qed.

Definition pending_world : gossip :=
  Gossip (linked_world 3) [Item sample_hash (20 * 1000000000) false []] [] [] Unlocked.

Lemma foreign_data_asks_wrong_hash_witness :
  let m := mk_msg 1 66 [0; 0] [1] [10; 20] 77 sample_hash in
  exists g', s_stream_ch_packet_in 2 pending_world (20 * 1000000000) 0 true 1 DAP_STREAM_CH_GOSSIP_MSG_TYPE_DATA m
             = Some (g', true).
Proof.
  destruct (foreign_data_asks_wrong_hash 2 pending_world (20 * 1000000000) 0 1 66 [0; 0] [1] [10; 20] 77 sample_hash
    (Item sample_hash (20 * 1000000000) false []) 8 (sample_cluster 3) 3 pending_world 0 0 0) as [E _].
  - split; [apply linked_world_inv | | reflexivity]. split; [apply NoDup_singleton|].
    intros it Hin. apply list_elem_of_singleton in Hin. subst it. split; [reflexivity | discriminate].
  - vm_compute; intuition congruence.
  - split; [by vm_compute | by vm_compute | reflexivity | by vm_compute | reflexivity | reflexivity | reflexivity |].
    constructor; [by vm_compute | constructor].
  - discriminate.
  - vm_compute. reflexivity.
  - vm_compute. reflexivity.
  - reflexivity.
  - vm_compute. reflexivity.
  - vm_compute. reflexivity.
  - vm_compute. reflexivity.
  - reflexivity.
  - vm_compute. reflexivity.
  - discriminate.
  - eexists. exact E.
Defined.
