(* ===== verification/GdbPkt.v ===== *)
(** * Database records on the wire (global-db/dap_global_db_pkt.c)

    Serialization, packing, parsing, signing and checking of global database
    records.  A packet is the bytes of its block of memory: reading outside it
    is the fault [OutOfBounds], a failed [assert] the fault [AssertFailed]; a C
    function that returns [NULL] returns [None] inside the fault monad.
    Allocations succeed.  The build is the one the header selects
    ([DAP_GLOBAL_DB_WRITE_SERIALIZED]).

    Signatures are the blocks [dap_sign.h] lays out; creating and verifying
    them is the class [SignScheme], the promise of the signature component. *)

From S2P Require Import Prelude Crc64.
From stdpp Require Import list.
Local Open Scope Z_scope.

Inductive fault := OutOfBounds | AssertFailed | StaleHandle.

Definition res (A : Type) : Type := (fault + A)%type.
#[export] Instance res_bind : MBind res := λ A B f m, match m with inl e => inl e | inr a => f a end.
#[export] Instance res_ret : MRet res := λ A a, inr a.

(** A memory access in the monad. *)
Definition mem {A} (o : option A) : res A := match o with Some a => inr a | None => inl OutOfBounds end.

(** ** Data *)

Definition DAP_GLOBAL_DB_GROUP_NAME_SIZE_MAX : Z := 128.
Definition DAP_GLOBAL_DB_KEY_SIZE_MAX : Z := 512.
Definition DAP_GLOBAL_DB_RECORD_DEL : Z := 1.
Definition DAP_GLOBAL_DB_PKT_PACK_MAX_COUNT : Z := 1024.

(** [group] and [key] are the characters before the terminator; [value_len] is
    the length of [value]; [ext] holds the sender's address, if any. *)
Record dap_store_obj := StoreObj {
  group : list Z;
  key : list Z;
  value : list Z;
  flags : Z;
  sign : option (list Z);
  timestamp : Z;
  crc : Z;
  ext : option Z;
}.

Definition set_sign (o : dap_store_obj) s := StoreObj (group o) (key o) (value o) (flags o) s (timestamp o) (crc o) (ext o).
Definition set_crc (o : dap_store_obj) c := StoreObj (group o) (key o) (value o) (flags o) (sign o) (timestamp o) c (ext o).

(** Fields of [dap_global_db_pkt_t]. *)
Definition sizeof_pkt : Z := 29.
Definition pkt_crc (p : list Z) : option Z := mem_le p 0 8.
Definition pkt_timestamp (p : list Z) : option Z := mem_le p 8 8.
Definition pkt_group_len (p : list Z) : option Z := mem_le p 16 2.
Definition pkt_key_len (p : list Z) : option Z := mem_le p 18 2.
Definition pkt_value_len (p : list Z) : option Z := mem_le p 20 4.
Definition pkt_data_len (p : list Z) : option Z := mem_le p 24 4.
Definition pkt_flags (p : list Z) : option Z := mem_le p 28 1.

(** The size as [uint32_t]; [0] on overflow. *)
Definition pkt_size (data_len : Z) : Z :=
  let s := wrap 32 (sizeof_pkt + data_len) in if data_len <? s then s else 0.

Definition dap_global_db_pkt_get_size (p : list Z) : option Z :=
  d ← pkt_data_len p; Some (pkt_size d).

(** Fields of [dap_global_db_pkt_pack_t]. *)
Definition sizeof_pack : Z := 12.
Definition pack_data_size (p : list Z) : option Z := mem_le p 0 8.
Definition pack_obj_count (p : list Z) : option Z := mem_le p 8 4.

Definition dap_global_db_pkt_pack_get_size (p : list Z) : option Z :=
  d ← pack_data_size p;
  let s := wrap 64 (sizeof_pack + d) in Some (if d <? s then s else 0).

(** [dap_sign_get_size] on the block at offset [off]; the type is read first. *)
Definition sizeof_sign : Z := 14.
Definition SIG_TYPE_NULL : Z := 0.
Definition dap_sign_get_size (m : list Z) (off : Z) : option Z :=
  t ← mem_le m off 4;
  if t =? SIG_TYPE_NULL then Some 0
  else s ← mem_le m (off + 6) 4; k ← mem_le m (off + 10) 4; Some (sizeof_sign + s + k).

(** ** Operations *)

Definition pkt_header (crc timestamp group_len key_len value_len data_len flags : Z) : list Z :=
  le_bytes 8 crc ++ le_bytes 8 timestamp ++ le_bytes 2 group_len ++ le_bytes 2 key_len ++
  le_bytes 4 value_len ++ le_bytes 4 data_len ++ le_bytes 1 flags.

Definition dap_global_db_pkt_serialize (o : dap_store_obj) : res (list Z) :=
  let l_group_len := Z.of_nat (length (group o)) in
  let l_key_len := Z.of_nat (length (key o)) in
  let value_len := Z.of_nat (length (value o)) in
  l_sign ← match sign o with
           | Some s => l ← mem (dap_sign_get_size s 0); mem (mem_read s 0 l)
           | None => mret []
           end;
  let l_data_size_out := l_group_len + l_key_len + value_len + Z.of_nat (length l_sign) in
  mret (pkt_header (crc o) (timestamp o) l_group_len l_key_len value_len l_data_size_out
          (Z.land (flags o) DAP_GLOBAL_DB_RECORD_DEL)
        ++ group o ++ key o ++ value o ++ l_sign).

(** [a_old_pkt] is the block, [None] for [NULL]; the bytes realloc adds are
    zero here and overwritten at once. *)
Definition dap_global_db_pkt_pack (a_old_pkt : option (list Z)) (a_new_pkt : option (list Z))
    : res (option (list Z)) :=
  match a_new_pkt with
  | None => mret a_old_pkt
  | Some a_new_pkt =>
    l_add_size ← mem (dap_global_db_pkt_get_size a_new_pkt);
    l_old_pkt ← match a_old_pkt with
                | None => mret (replicate (Z.to_nat (sizeof_pack + l_add_size)) 0)
                | Some old =>
                  d ← mem (pack_data_size old);
                  mret (resize (Z.to_nat (d + sizeof_pack + l_add_size)) 0 old)
                end;
    data_size ← mem (pack_data_size l_old_pkt);
    obj_count ← mem (pack_obj_count l_old_pkt);
    d ← mem (mem_read a_new_pkt 0 l_add_size);
    p ← mem (mem_write l_old_pkt (sizeof_pack + data_size) d);
    p ← mem (mem_write p 0 (le_bytes 8 (data_size + l_add_size)));
    p ← mem (mem_write p 8 (le_bytes 4 (obj_count + 1)));
    mret (Some p)
  end.

(** [strndup] at an offset. *)
Definition strndup (m : list Z) (off n : Z) : option (list Z) := strndup_at (drop (Z.to_nat off) m) (Z.to_nat n).

(** [m] is the memory from [a_pkt] on; the result is the object and the offset
    of the returned pointer. *)
Definition s_fill_one_store_obj (m : list Z) (a_bound_size : Z) (a_addr : option Z)
    : res (option (dap_store_obj * Z)) :=
  if a_bound_size <? sizeof_pkt then mret None else
  size ← mem (dap_global_db_pkt_get_size m);
  g ← mem (pkt_group_len m);
  k ← mem (pkt_key_len m);
  v ← mem (pkt_value_len m);
  d ← mem (pkt_data_len m);
  let sum := wrap 32 (g + k + v) in
  if (a_bound_size <? size) || (sum <? v) || (d <? sum) then mret None else
  if (g =? 0) || (DAP_GLOBAL_DB_GROUP_NAME_SIZE_MAX <? g) then mret None else
  if (k =? 0) || (DAP_GLOBAL_DB_KEY_SIZE_MAX <? k) then mret None else
  fl ← mem (pkt_flags m);
  ts ← mem (pkt_timestamp m);
  c ← mem (pkt_crc m);
  l_group ← mem (strndup m sizeof_pkt g);
  l_key ← mem (strndup m (sizeof_pkt + g) k);
  l_value ← (if v =? 0 then mret [] else mem (mem_read m (sizeof_pkt + g + k) v));
  let ptr := sizeof_pkt + g + k + v in
  let l_sign_size_expected := wrap 32 (d - g - k - v) in
  l_sign ← (if l_sign_size_expected =? 0 then mret (Some None)
            else l_sign_size ← mem (dap_sign_get_size m ptr);
                 if negb (l_sign_size =? l_sign_size_expected) then mret None
                 else s ← mem (mem_read m ptr l_sign_size); mret (Some (Some s)));
  match l_sign with
  | None => mret None
  | Some l_sign =>
    mret (Some (StoreObj l_group l_key l_value (Z.land fl DAP_GLOBAL_DB_RECORD_DEL) l_sign ts c a_addr,
                ptr + l_sign_size_expected + match a_addr with Some _ => 8 | None => 0 end))
  end.

Definition dap_global_db_pkt_deserialize (a_pkt : list Z) (a_pkt_size : Z) (a_addr : option Z)
    : res (option dap_store_obj) :=
  r ← s_fill_one_store_obj a_pkt a_pkt_size a_addr;
  mret (option_map fst r).

(** The loop over [i]; [off] is [l_data_ptr], [None] once it is [NULL]. *)
Fixpoint unpack_loop (data : list Z) (data_size : Z) (n : nat) (off : Z)
    : res (list dap_store_obj * option Z) :=
  match n with
  | O => mret ([], Some off)
  | S n =>
    r ← s_fill_one_store_obj (drop (Z.to_nat off) data) (data_size - off) None;
    match r with
    | None => mret ([], None)
    | Some (o, len) => '(l, e) ← unpack_loop data data_size n (off + len); mret (o :: l, e)
    end
  end.

Definition dap_global_db_pkt_pack_deserialize (a_pkt : list Z) : res (option (list dap_store_obj)) :=
  data_size ← mem (pack_data_size a_pkt);
  if data_size <? sizeof_pkt then mret None else
  l_count ← mem (pack_obj_count a_pkt);
  if (l_count =? 0) || (DAP_GLOBAL_DB_PKT_PACK_MAX_COUNT <? l_count) then mret None else
  '(l, e) ← unpack_loop (drop 12 a_pkt) data_size (Z.to_nat l_count) 0;
  match e with
  | Some off => if off =? data_size then mret (Some l) else inl AssertFailed
  | None => mret (match l with [] => None | _ => Some l end)
  end.

(** ** Signing and checking *)

(** What the signature component promises about [dap_sign_create] and
    [dap_sign_verify] (zero for a valid signature). *)
Class SignScheme (key_t : Type) := {
  dap_sign_create : key_t -> list Z -> option (list Z);
  dap_sign_verify : list Z -> list Z -> Z;
  sign_block k d s : dap_sign_create k d = Some s ->
    Forall (fits 8) s /\ dap_sign_get_size s 0 = Some (Z.of_nat (length s)) /\ 0 < Z.of_nat (length s) < 2 ^ 31;
  sign_verifies k d s : dap_sign_create k d = Some s -> dap_sign_verify s d = 0;
}.

Section Signing.
Context {key_t : Type} `{SignScheme key_t}.

(** [(uint8_t * )l_pkt + sizeof(uint64_t)] with the packet's own size. *)
Definition after_crc (p : list Z) : res (list Z) :=
  s ← mem (dap_global_db_pkt_get_size p); mem (mem_read p 8 (s - 8)).

(** The signature and the checksum. *)
Definition dap_store_obj_sign (a_obj : dap_store_obj) (a_key : option key_t) : res (option (option (list Z) * Z)) :=
  l_pkt ← dap_global_db_pkt_serialize a_obj;
  match a_key with
  | None => d ← after_crc l_pkt; mret (Some (None, crc64 d))
  | Some k =>
    d ← after_crc l_pkt;
    match dap_sign_create k d with
    | None => mret None
    | Some l_sign =>
      l_sign_len ← mem (dap_sign_get_size l_sign 0);
      size ← mem (dap_global_db_pkt_get_size l_pkt);
      data_len ← mem (pkt_data_len l_pkt);
      let l_pkt := resize (Z.to_nat (size + l_sign_len)) 0 l_pkt in
      s ← mem (mem_read l_sign 0 l_sign_len);
      l_pkt ← mem (mem_write l_pkt (sizeof_pkt + data_len) s);
      l_pkt ← mem (mem_write l_pkt 24 (le_bytes 4 (data_len + l_sign_len)));
      d ← after_crc l_pkt;
      mret (Some (Some l_sign, crc64 d))
    end
  end.

Definition dap_store_obj_checksum (a_obj : dap_store_obj) : res Z :=
  r ← dap_store_obj_sign a_obj None; mret (match r with Some (_, c) => c | None => 0 end).

Definition dap_global_db_pkt_check_sign_crc (a_obj : dap_store_obj) : res bool :=
  l_pkt ← dap_global_db_pkt_serialize a_obj;
  g ← mem (pkt_group_len l_pkt);
  k ← mem (pkt_key_len l_pkt);
  v ← mem (pkt_value_len l_pkt);
  let l_signed_data_size := wrap 32 (g + k + v) in
  l_full_data_len ← mem (pkt_data_len l_pkt);
  l_pkt ← mem (mem_write l_pkt 24 (le_bytes 4 l_signed_data_size));
  ok ← match sign a_obj with
       | None => mret true
       | Some _ =>
         l_sign_size ← mem (dap_sign_get_size l_pkt (sizeof_pkt + l_signed_data_size));
         l_sign ← mem (mem_read l_pkt (sizeof_pkt + l_signed_data_size) l_sign_size);
         d ← after_crc l_pkt;
         mret (dap_sign_verify l_sign d =? 0)
       end;
  if negb ok then mret false else
  l_pkt ← mem (mem_write l_pkt 24 (le_bytes 4 l_full_data_len));
  d ← after_crc l_pkt;
  c ← mem (pkt_crc l_pkt);
  mret (crc64 d =? c).
End Signing.

(** ** Packets as values *)

Definition hdr (c ts g k v d fl : Z) : list (nat * Z) :=
  [(8%nat, c); (8%nat, ts); (2%nat, g); (2%nat, k); (4%nat, v); (4%nat, d); (1%nat, fl)].

Lemma pkt_header_fields c ts g k v d fl : pkt_header c ts g k v d fl = fields (hdr c ts g k v d fl).
Proof. unfold pkt_header, fields, hdr. cbn [map concat fst snd]. by rewrite app_nil_r. Qed.

Lemma hdr_fields c ts g k v d fl post : fits 64 c -> fits 64 ts -> fits 16 g -> fits 16 k -> fits 32 v ->
  fits 32 d -> fits 8 fl ->
  let p := fields (hdr c ts g k v d fl) ++ post in
  pkt_crc p = Some c /\ pkt_timestamp p = Some ts /\ pkt_group_len p = Some g /\ pkt_key_len p = Some k /\
  pkt_value_len p = Some v /\ pkt_data_len p = Some d /\ pkt_flags p = Some fl.
Proof.
  intros. unfold hdr in p. subst p. repeat split.
  - by apply (mem_le_field [] 8 c).
  - by apply (mem_le_field [(8%nat, c)] 8 ts).
  - by apply (mem_le_field [(8%nat, c); (8%nat, ts)] 2 g).
  - by apply (mem_le_field [(8%nat, c); (8%nat, ts); (2%nat, g)] 2 k).
  - by apply (mem_le_field [(8%nat, c); (8%nat, ts); (2%nat, g); (2%nat, k)] 4 v).
  - by apply (mem_le_field [(8%nat, c); (8%nat, ts); (2%nat, g); (2%nat, k); (4%nat, v)] 4 d).
  - by apply (mem_le_field [(8%nat, c); (8%nat, ts); (2%nat, g); (2%nat, k); (4%nat, v); (4%nat, d)] 1 fl).
Qed.

Lemma length_hdr c ts g k v d fl : length (fields (hdr c ts g k v d fl)) = 29%nat.
Proof. by rewrite length_fields. Qed.

Lemma write_data_len c ts g k v d d' fl post :
  mem_write (fields (hdr c ts g k v d fl) ++ post) 24 (le_bytes 4 d') = Some (fields (hdr c ts g k v d' fl) ++ post).
Proof.
  apply (mem_write_field [(8%nat, c); (8%nat, ts); (2%nat, g); (2%nat, k); (4%nat, v)] 4 d d' [(1%nat, fl)]).
Qed.

Lemma pkt_size_small d : 0 <= d -> d + 29 < 2 ^ 32 -> pkt_size d = 29 + d.
Proof.
  intros. unfold pkt_size, sizeof_pkt. rewrite wrap_id by (unfold fits; lia).
  by rewrite (proj2 (Z.ltb_lt _ _)) by lia.
Qed.

Lemma pkt_size_overflow d : fits 32 d -> 2 ^ 32 <= d + 29 -> pkt_size d = 0.
Proof.
  intros Hd H. unfold pkt_size, sizeof_pkt, fits in *.
  replace (wrap 32 (29 + d)) with (29 + d - 2 ^ 32) by (unfold wrap; Z.div_mod_to_equations; lia).
  by rewrite (proj2 (Z.ltb_ge _ _)) by lia.
Qed.

(** The signature bytes of an object. *)
Definition sign_bytes (o : dap_store_obj) : list Z := default [] (sign o).

Definition sign_ok (s : option (list Z)) : Prop :=
  match s with
  | Some s => dap_sign_get_size s 0 = Some (Z.of_nat (length s)) /\ (0 < length s)%nat
  | None => True
  end.

Definition body_len (o : dap_store_obj) : Z :=
  Z.of_nat (length (group o)) + Z.of_nat (length (key o)) + Z.of_nat (length (value o)).

(** Objects the database accepts. *)
Record obj_ok (o : dap_store_obj) : Prop := {
  ok_group : (0 < length (group o) <= 128)%nat /\ Forall (λ c, c <> 0) (group o);
  ok_key : (0 < length (key o) <= 512)%nat /\ Forall (λ c, c <> 0) (key o);
  ok_size : body_len o + Z.of_nat (length (sign_bytes o)) + 29 < 2 ^ 32;
  ok_sign : sign_ok (sign o);
  ok_crc : fits 64 (crc o);
  ok_ts : fits 64 (timestamp o);
}.

Definition obj_fields (o : dap_store_obj) (d : Z) : list (nat * Z) :=
  hdr (crc o) (timestamp o) (Z.of_nat (length (group o))) (Z.of_nat (length (key o)))
    (Z.of_nat (length (value o))) d (Z.land (flags o) 1).

Definition obj_body (o : dap_store_obj) : list Z := group o ++ key o ++ value o.

Definition obj_pkt (o : dap_store_obj) : list Z :=
  fields (obj_fields o (body_len o + Z.of_nat (length (sign_bytes o)))) ++ obj_body o ++ sign_bytes o.

Lemma land_1_fits x : fits 8 (Z.land x 1).
Proof. rewrite land_1_mod. unfold fits. Z.div_mod_to_equations. lia. Qed.

Lemma length_body o : Z.of_nat (length (obj_body o)) = body_len o.
Proof. unfold obj_body, body_len. rewrite !length_app. lia. Qed.

Lemma length_obj_pkt o : Z.of_nat (length (obj_pkt o)) = 29 + body_len o + Z.of_nat (length (sign_bytes o)).
Proof. unfold obj_pkt, obj_fields. rewrite !length_app, length_hdr, <- length_body. lia. Qed.

Lemma body_len_nonneg o : 0 <= body_len o.
Proof. unfold body_len. lia. Qed.

Lemma obj_hdr o d post : obj_ok o -> fits 32 d ->
  let p := fields (obj_fields o d) ++ post in
  pkt_crc p = Some (crc o) /\ pkt_timestamp p = Some (timestamp o) /\
  pkt_group_len p = Some (Z.of_nat (length (group o))) /\ pkt_key_len p = Some (Z.of_nat (length (key o))) /\
  pkt_value_len p = Some (Z.of_nat (length (value o))) /\ pkt_data_len p = Some d /\
  pkt_flags p = Some (Z.land (flags o) 1).
Proof.
  intros [[Hg _] [Hk _] Hs _ Hc Ht] Hd. unfold body_len in Hs.
  apply hdr_fields; auto using land_1_fits; unfold fits; lia.
Qed.

Lemma serialize_eq o : sign_ok (sign o) -> dap_global_db_pkt_serialize o = inr (obj_pkt o).
Proof.
  intros Hs. unfold dap_global_db_pkt_serialize, obj_pkt, obj_body, obj_fields, sign_bytes, body_len.
  destruct (sign o) as [s|]; cbn [sign_ok default] in *.
  - destruct Hs as [Hs _]. rewrite Hs. cbn [mem mbind res_bind].
    pose proof (mem_read_app [] s []) as E. cbn [app length] in E. rewrite app_nil_r in E.
    change (Z.of_nat 0) with 0 in E. rewrite E. cbn [mem mbind res_bind]. unfold mret, res_ret.
    rewrite pkt_header_fields. cbn [from_option id]. by rewrite <- !app_assoc.
  - cbn [mbind res_bind mret res_ret]. rewrite pkt_header_fields. cbn [from_option id]. by rewrite <- !app_assoc.
Qed.

Lemma sign_size_inside pre s post o l : dap_sign_get_size s 0 = Some l -> o = Z.of_nat (length pre) ->
  dap_sign_get_size (pre ++ s ++ post) o = Some l.
Proof.
  intros E ->. unfold dap_sign_get_size in *.
  destruct (mem_le s 0 4) as [t|] eqn:E0; [|done]. rewrite (mem_le_inside pre s post 0 4 t (Z.of_nat (length pre))) by (done || lia).
  cbn [mbind option_bind] in *. destruct (t =? SIG_TYPE_NULL); [done|].
  destruct (mem_le s (0 + 6) 4) as [a|] eqn:E1; [|done].
  rewrite (mem_le_inside pre s post (0 + 6) 4 a (Z.of_nat (length pre) + 6)) by (done || lia). cbn [mbind option_bind] in *.
  destruct (mem_le s (0 + 10) 4) as [b|] eqn:E2; [|done].
  by rewrite (mem_le_inside pre s post (0 + 10) 4 b (Z.of_nat (length pre) + 10)) by (done || lia).
Qed.

(** The object as the parser returns it. *)
Definition parsed (o : dap_store_obj) (a : option Z) : dap_store_obj :=
  StoreObj (group o) (key o) (value o) (Z.land (flags o) 1) (sign o) (timestamp o) (crc o) a.

Definition ext_size (a : option Z) : Z := match a with Some _ => 8 | None => 0 end.

(** A packet laid out from its parts; the texts may carry a terminator. *)
Definition raw_pkt (c ts fl : Z) (gs ks v sg : list Z) : list Z :=
  fields (hdr c ts (Z.of_nat (length gs)) (Z.of_nat (length ks)) (Z.of_nat (length v))
            (Z.of_nat (length gs + length ks + length v + length sg)) fl) ++ gs ++ ks ++ v ++ sg.

Lemma length_raw c ts fl gs ks v sg :
  length (raw_pkt c ts fl gs ks v sg) = (29 + (length gs + length ks + length v + length sg))%nat.
Proof. unfold raw_pkt. rewrite !length_app, length_hdr. lia. Qed.

Lemma strndup_inside pre s post t off n : strndup_at s (length s) = Some t -> off = Z.of_nat (length pre) ->
  n = Z.of_nat (length s) -> strndup (pre ++ s ++ post) off n = Some t.
Proof.
  intros E -> ->. unfold strndup. rewrite !Nat2Z.id, drop_app_length. revert t E.
  induction s as [|c s IH]; intros t E; [done|]. cbn [length app strndup_at] in *. destruct (c =? 0); [done|].
  destruct (strndup_at s (length s)) as [u|]; [|discriminate E]. cbn [mbind option_bind] in *. by rewrite (IH u).
Qed.

Lemma fill_raw c ts fl gs ks v sg g k a tail bound : fits 64 c -> fits 64 ts -> (0 < length gs <= 128)%nat ->
  (0 < length ks <= 512)%nat -> Z.of_nat (length gs + length ks + length v + length sg) + 29 < 2 ^ 32 ->
  strndup_at gs (length gs) = Some g -> strndup_at ks (length ks) = Some k -> sg = [] \/ sign_ok (Some sg) ->
  Z.of_nat (length (raw_pkt c ts (Z.land fl 1) gs ks v sg)) <= bound ->
  s_fill_one_store_obj (raw_pkt c ts (Z.land fl 1) gs ks v sg ++ tail) bound a
  = inr (Some (StoreObj g k v (Z.land fl 1) (match sg with [] => None | _ => Some sg end) ts c a,
               Z.of_nat (length (raw_pkt c ts (Z.land fl 1) gs ks v sg)) + ext_size a)).
Proof.
  intros Hc Ht Hg Hk Hs Eg Ek Hsg Hb. rewrite length_raw in *. unfold raw_pkt.
  set (d := Z.of_nat (length gs + length ks + length v + length sg)) in *.
  set (fs := hdr c ts _ _ _ d _). set (h := fields fs). assert (Lh : length h = 29%nat) by apply length_hdr.
  rewrite <- (app_assoc h). set (m := h ++ (gs ++ ks ++ v ++ sg) ++ tail).
  destruct (hdr_fields c ts (Z.of_nat (length gs)) (Z.of_nat (length ks)) (Z.of_nat (length v)) d (Z.land fl 1)
    ((gs ++ ks ++ v ++ sg) ++ tail)) as (Ec & Et & Eg' & Ek' & Ev & Ed & Ef); auto using land_1_fits; try (unfold fits; lia).
  fold fs h m in Ec, Et, Eg', Ek', Ev, Ed, Ef. 
  unfold s_fill_one_store_obj, dap_global_db_pkt_get_size, sizeof_pkt. rewrite (proj2 (Z.ltb_ge _ _)) by lia.
  rewrite Ec, Et, Eg', Ek', Ev, Ed, Ef. cbn [mbind option_bind mem res_bind].
  rewrite pkt_size_small by lia.
  rewrite (wrap_id 32 (Z.of_nat (length gs) + Z.of_nat (length ks) + Z.of_nat (length v))) by (unfold fits; lia).
  rewrite !(proj2 (Z.ltb_ge _ _)) by (unfold DAP_GLOBAL_DB_GROUP_NAME_SIZE_MAX, DAP_GLOBAL_DB_KEY_SIZE_MAX; lia).
  rewrite !(proj2 (Z.eqb_neq _ 0)) by lia. cbn [orb].
  assert (Em : m = h ++ gs ++ ks ++ v ++ sg ++ tail) by (unfold m; by rewrite <- !app_assoc).
  assert (E1 : strndup m 29 (Z.of_nat (length gs)) = Some g).
  { rewrite Em. apply strndup_inside; [done | lia | done]. }
  assert (E2 : strndup m (29 + Z.of_nat (length gs)) (Z.of_nat (length ks)) = Some k).
  { rewrite Em, app_assoc. apply strndup_inside; [done | rewrite length_app; lia | done]. }
  assert (E3 : mem_read m (29 + Z.of_nat (length gs) + Z.of_nat (length ks)) (Z.of_nat (length v)) = Some v).
  { rewrite Em, app_assoc, (app_assoc (h ++ gs)).
    replace (29 + _ + _) with (Z.of_nat (length ((h ++ gs) ++ ks))) by (rewrite !length_app; lia). apply mem_read_app. }
  rewrite E1, E2. cbn [mem mbind res_bind].
  assert (E4 : (if Z.of_nat (length v) =? 0 then mret []
     else mem (mem_read m (29 + Z.of_nat (length gs) + Z.of_nat (length ks)) (Z.of_nat (length v)))) = (inr v : res (list Z))).
  { destruct (Z.eqb_spec (Z.of_nat (length v)) 0) as [E|]; [by destruct v | by rewrite E3]. }
  rewrite E4. cbn [mbind res_bind].
  replace (d - Z.of_nat (length gs) - Z.of_nat (length ks) - Z.of_nat (length v)) with (Z.of_nat (length sg)) by (unfold d; lia).
  rewrite wrap_id by (unfold fits, d in *; lia).
  replace (Z.land (Z.land fl 1) DAP_GLOBAL_DB_RECORD_DEL) with (Z.land fl 1) by (by rewrite <- Z.land_assoc).
  destruct Hsg as [->|[Hsg Hs0]].
  - change (Z.of_nat (length []) =? 0) with true. cbn [mbind res_bind mret res_ret length]. unfold ext_size. do 4 f_equal. lia.
  - rewrite (proj2 (Z.eqb_neq (Z.of_nat (length sg)) 0)) by lia.
    assert (Em' : m = (h ++ gs ++ ks ++ v) ++ sg ++ tail) by (rewrite Em; by rewrite <- !app_assoc).
    replace (29 + _ + _ + _) with (Z.of_nat (length (h ++ gs ++ ks ++ v))) by (rewrite !length_app; lia).
    rewrite Em', (sign_size_inside _ sg tail _ _ Hsg) by done. cbn [mem mbind res_bind].
    rewrite Z.eqb_refl. cbn [negb]. rewrite mem_read_app. cbn [mem mbind res_bind mret res_ret].
    rewrite !length_app, Lh. destruct sg; [cbn in Hs0; lia|]. unfold ext_size. do 4 f_equal. lia.
Qed.

Lemma obj_pkt_raw o : obj_pkt o
  = raw_pkt (crc o) (timestamp o) (Z.land (flags o) 1) (group o) (key o) (value o) (sign_bytes o).
Proof.
  unfold obj_pkt, raw_pkt, obj_fields, obj_body, body_len. rewrite <- !app_assoc.
  replace (Z.of_nat (length (group o)) + _ + _ + _)
    with (Z.of_nat (length (group o) + length (key o) + length (value o) + length (sign_bytes o))) by lia. done.
Qed.

Lemma fill_obj o a tail bound : obj_ok o -> Z.of_nat (length (obj_pkt o)) <= bound ->
  s_fill_one_store_obj (obj_pkt o ++ tail) bound a
  = inr (Some (parsed o a, Z.of_nat (length (obj_pkt o)) + ext_size a)).
Proof.
  intros [[Hg Hg0] [Hk Hk0] Hs Hsg Hc Ht]. rewrite obj_pkt_raw. intros Hb. unfold body_len, sign_bytes in *.
  rewrite (fill_raw _ _ _ _ _ _ _ (group o) (key o)); try done; auto using strndup_text; try lia.
  - unfold parsed. destruct (sign o) as [s|]; [|done]. cbn [default id] in *. destruct Hsg as [_ Hs0].
    destruct s; [cbn in Hs0; lia | done].
  - destruct (sign o); [by right | by left].
Qed.

(** ** Packs *)

Definition pack_fields (d n : Z) : list (nat * Z) := [(8%nat, d); (4%nat, n)].

(** The pack that holds the packets [ps]. *)
Definition pack_bytes (ps : list (list Z)) : list Z :=
  fields (pack_fields (Z.of_nat (length (concat ps))) (Z.of_nat (length ps))) ++ concat ps.

Lemma pack_hdr d n post : fits 64 d -> fits 32 n ->
  pack_data_size (fields (pack_fields d n) ++ post) = Some d /\
  pack_obj_count (fields (pack_fields d n) ++ post) = Some n.
Proof. intros. split; [by apply (mem_le_field [] 8 d) | by apply (mem_le_field [(8%nat, d)] 4 n)]. Qed.

Lemma pack_write_size d n d' post :
  mem_write (fields (pack_fields d n) ++ post) 0 (le_bytes 8 d') = Some (fields (pack_fields d' n) ++ post).
Proof. apply (mem_write_field [] 8 d d' [(4%nat, n)]). Qed.

Lemma pack_write_count d n n' post :
  mem_write (fields (pack_fields d n) ++ post) 8 (le_bytes 4 n') = Some (fields (pack_fields d n') ++ post).
Proof. apply (mem_write_field [(8%nat, d)] 4 n n' []). Qed.

Lemma resize_app_more {A} (l : list A) n x : resize (length l + n) x l = l ++ replicate n x.
Proof. rewrite resize_spec, take_ge by lia. do 2 f_equal. lia. Qed.

Lemma concat_snoc {A} (ps : list (list A)) p : concat (ps ++ [p]) = concat ps ++ p.
Proof. rewrite concat_app. cbn. by rewrite app_nil_r. Qed.

(** Appending a packet to a block that holds a pack with room behind it. *)
Lemma pack_append ps p : Z.of_nat (length (concat (ps ++ [p]))) < 2 ^ 62 -> Z.of_nat (length ps) + 1 < 2 ^ 32 ->
  (data_size ← mem (pack_data_size (pack_bytes ps ++ replicate (length p) 0));
   obj_count ← mem (pack_obj_count (pack_bytes ps ++ replicate (length p) 0));
   d ← mem (mem_read p 0 (Z.of_nat (length p)));
   b ← mem (mem_write (pack_bytes ps ++ replicate (length p) 0) (sizeof_pack + data_size) d);
   b ← mem (mem_write b 0 (le_bytes 8 (data_size + Z.of_nat (length p))));
   b ← mem (mem_write b 8 (le_bytes 4 (obj_count + 1)));
   mret (Some b)) = (inr (Some (pack_bytes (ps ++ [p]))) : res (option (list Z))).
Proof.
  intros H1 H2. unfold pack_bytes at 1 2 3. rewrite concat_snoc, length_app in H1.
  set (d := Z.of_nat (length (concat ps))). set (n := Z.of_nat (length ps)). rewrite <- !app_assoc.
  destruct (pack_hdr d n (concat ps ++ replicate (length p) 0)) as [-> ->]; [subst d; unfold fits; lia | subst n; unfold fits; lia|].
  cbn [mem mbind res_bind].
  pose proof (mem_read_app [] p []) as E. cbn [app length] in E. rewrite app_nil_r in E.
  change (Z.of_nat 0) with 0 in E. rewrite E. cbn [mem mbind res_bind].
  assert (Lp : sizeof_pack + d = Z.of_nat (length (fields (pack_fields d n) ++ concat ps)))
    by (rewrite length_app, length_fields; subst d; unfold sizeof_pack; cbn; lia).
  rewrite Lp, app_assoc. rewrite <- (app_nil_r (replicate _ _)).
  rewrite mem_write_app by apply length_replicate. cbn [mem mbind res_bind]. rewrite app_nil_r, <- app_assoc.
  rewrite pack_write_size. cbn [mem mbind res_bind]. rewrite pack_write_count.
  cbn [mem mbind res_bind]. unfold mret, res_ret, pack_bytes. rewrite concat_snoc, !length_app. cbn [length].
  by replace (Z.of_nat (length (concat ps) + length p)) with (d + Z.of_nat (length p)) by lia;
  replace (Z.of_nat (length ps + 1)) with (n + 1) by lia.
Qed.

Lemma pack_one p : dap_global_db_pkt_get_size p = Some (Z.of_nat (length p)) ->
  Z.of_nat (length p) < 2 ^ 62 -> dap_global_db_pkt_pack None (Some p) = inr (Some (pack_bytes [p])).
Proof.
  intros Es Hp. unfold dap_global_db_pkt_pack. rewrite Es. cbn [mem mbind res_bind mret res_ret].
  replace (Z.to_nat (sizeof_pack + Z.of_nat (length p))) with (12 + length p)%nat by (unfold sizeof_pack; lia).
  rewrite replicate_add. change (replicate 12 0) with (pack_bytes []).
  apply (pack_append []); cbn; [rewrite app_nil_r; lia | lia].
Qed.

Lemma pack_more ps p : dap_global_db_pkt_get_size p = Some (Z.of_nat (length p)) ->
  Z.of_nat (length (concat (ps ++ [p]))) < 2 ^ 62 -> Z.of_nat (length ps) + 1 < 2 ^ 32 ->
  dap_global_db_pkt_pack (Some (pack_bytes ps)) (Some p) = inr (Some (pack_bytes (ps ++ [p]))).
Proof.
  intros Es H1 H2. unfold dap_global_db_pkt_pack. rewrite Es. cbn [mem mbind res_bind].
  assert (L : length (pack_bytes ps) = (12 + length (concat ps))%nat)
    by (unfold pack_bytes; by rewrite length_app, length_fields).
  rewrite concat_snoc, length_app in H1.
  assert (Ed : pack_data_size (pack_bytes ps) = Some (Z.of_nat (length (concat ps))))
    by (apply pack_hdr; unfold fits; lia).
  rewrite Ed. cbn [mem mbind res_bind mret res_ret].
  replace (Z.to_nat (Z.of_nat (length (concat ps)) + sizeof_pack + Z.of_nat (length p)))
    with (length (pack_bytes ps) + length p)%nat by (unfold sizeof_pack; lia).
  unfold mret at 1, res_ret at 1. cbn [mbind res_bind]. rewrite resize_app_more.
  apply pack_append; [rewrite concat_snoc, length_app; lia | lia].
Qed.

Lemma get_size_obj o tail : obj_ok o ->
  dap_global_db_pkt_get_size (obj_pkt o ++ tail) = Some (Z.of_nat (length (obj_pkt o))).
Proof.
  intros Hok. pose proof (ok_size o Hok). pose proof (body_len_nonneg o).
  assert (Hd : fits 32 (body_len o + Z.of_nat (length (sign_bytes o)))) by (unfold fits; lia).
  unfold obj_pkt, dap_global_db_pkt_get_size. rewrite <- app_assoc.
  destruct (obj_hdr o _ ((obj_body o ++ sign_bytes o) ++ tail) Hok Hd) as (_ & _ & _ & _ & _ & -> & _).
  cbn [mbind option_bind]. rewrite pkt_size_small by lia. rewrite app_assoc.
  change (fields _ ++ obj_body o ++ sign_bytes o) with (obj_pkt o) || rewrite <- app_assoc.
  f_equal. change (fields (obj_fields o _) ++ obj_body o ++ sign_bytes o) with (obj_pkt o).
  rewrite length_obj_pkt. lia.
Qed.

(** The packer loop of the senders. *)
Fixpoint pack_all (old : option (list Z)) (ps : list (list Z)) : res (option (list Z)) :=
  match ps with
  | [] => mret old
  | p :: ps => b ← dap_global_db_pkt_pack old (Some p); pack_all b ps
  end.

Lemma pack_all_more os ps : Forall obj_ok os ->
  Z.of_nat (length (concat (ps ++ map obj_pkt os))) < 2 ^ 62 ->
  Z.of_nat (length ps) + Z.of_nat (length os) < 2 ^ 32 ->
  pack_all (Some (pack_bytes ps)) (map obj_pkt os) = inr (Some (pack_bytes (ps ++ map obj_pkt os))).
Proof.
  intros Hos. revert ps. induction Hos as [|o os Ho Hos IH]; intros ps H1 H2; cbn [map pack_all].
  - by rewrite app_nil_r.
  - pose proof (get_size_obj o [] Ho) as Es. rewrite app_nil_r in Es. cbn [map length] in *.
    replace (ps ++ obj_pkt o :: map obj_pkt os) with ((ps ++ [obj_pkt o]) ++ map obj_pkt os) in *
      by (by rewrite <- app_assoc).
    rewrite pack_more; [cbn [mbind res_bind]; apply IH | done | | lia].
    + done.
    + rewrite length_app. cbn. lia.
    + rewrite concat_app, length_app in H1. lia.
Qed.

Lemma unpack_objs os pre tail : Forall obj_ok os ->
  unpack_loop (pre ++ concat (map obj_pkt os) ++ tail)
    (Z.of_nat (length (pre ++ concat (map obj_pkt os) ++ tail))) (length os) (Z.of_nat (length pre))
  = inr (map (λ o, parsed o None) os, Some (Z.of_nat (length (pre ++ concat (map obj_pkt os))))).
Proof.
  intros Hos. revert pre. induction Hos as [|o os Ho Hos IH]; intros pre; cbn [map concat length unpack_loop].
  - by rewrite app_nil_r.
  - rewrite Nat2Z.id, drop_app_length, <- !app_assoc.
    rewrite (fill_obj o None) by (done || (rewrite !length_app; lia)).
    cbn [mbind res_bind]. unfold ext_size. specialize (IH (pre ++ obj_pkt o)).
    rewrite <- !app_assoc in IH. rewrite Z.add_0_r.
    rewrite <- Nat2Z.inj_add, <- length_app, IH. done.
Qed.

(** ** Properties *)

(** C31: round trip of records.  Serializing an object the database accepts
    gives a packet whose announced size is its length; parsing that packet
    gives the object back with its flags reduced to the deletion flag and the
    sender recorded; the packets of any sequence of up to 1024 objects, packed
    one by one and sent as one pack, are all parsed back in order. *)
Theorem gdb_record_roundtrip o a os : obj_ok o -> Forall obj_ok os ->
  (0 < length os <= 1024)%nat ->
  dap_global_db_pkt_serialize o = inr (obj_pkt o) /\
  dap_global_db_pkt_get_size (obj_pkt o) = Some (Z.of_nat (length (obj_pkt o))) /\
  dap_global_db_pkt_deserialize (obj_pkt o) (Z.of_nat (length (obj_pkt o))) a = inr (Some (parsed o a)) /\
  exists p, pack_all None (map obj_pkt os) = inr (Some p) /\
    dap_global_db_pkt_pack_get_size p = Some (Z.of_nat (length p)) /\
    dap_global_db_pkt_pack_deserialize p = inr (Some (map (λ o, parsed o None) os)).
Proof.
  intros Ho Hos Hn. split; [apply serialize_eq, ok_sign, Ho|].
  pose proof (get_size_obj o [] Ho) as Es. rewrite app_nil_r in Es. split; [done|]. split.
  { unfold dap_global_db_pkt_deserialize. pose proof (fill_obj o a [] _ Ho (Z.le_refl _)) as Ef.
    rewrite app_nil_r in Ef. by rewrite Ef. }
  assert (Hlen : Z.of_nat (length (concat (map obj_pkt os))) <= (2 ^ 32 - 1) * Z.of_nat (length os)).
  { clear -Hos. induction Hos as [|o os Ho Hos IH]; [done|].
    cbn [map concat length]. rewrite length_app. pose proof (length_obj_pkt o). pose proof (ok_size o Ho). lia. }
  exists (pack_bytes (map obj_pkt os)). destruct os as [|o1 os]; [cbn in Hn; lia|]. split.
  { apply Forall_cons_iff in Hos as [Ho1 Hos']. cbn [map pack_all].
    pose proof (get_size_obj o1 [] Ho1) as E1. rewrite app_nil_r in E1.
    cbn [map concat length] in Hlen. rewrite length_app in Hlen. cbn [length] in Hn.
    rewrite (pack_one _ E1) by lia. cbn [mbind res_bind].
    apply (pack_all_more os [obj_pkt o1]); [done | cbn [app concat]; rewrite length_app; lia | cbn [length]; lia]. }
  assert (Hc : Z.of_nat (length (map obj_pkt (o1 :: os))) <= 1024) by (rewrite length_map; lia).
  destruct (pack_hdr (Z.of_nat (length (concat (map obj_pkt (o1 :: os))))) (Z.of_nat (length (map obj_pkt (o1 :: os))))
    (concat (map obj_pkt (o1 :: os)))) as [Ed En]; [unfold fits; lia | unfold fits; lia |].
  fold (pack_bytes (map obj_pkt (o1 :: os))) in Ed, En. split.
  { unfold dap_global_db_pkt_pack_get_size. rewrite Ed. cbn [mbind option_bind]. unfold sizeof_pack.
    rewrite wrap_id by (unfold fits; lia). rewrite (proj2 (Z.ltb_lt _ _)) by lia. f_equal.
    unfold pack_bytes. rewrite length_app, length_fields. cbn [fields_len pack_fields fst]. lia. }
  unfold dap_global_db_pkt_pack_deserialize. rewrite Ed. cbn [mem mbind res_bind].
  rewrite (proj2 (Z.ltb_ge _ _)).
  2: { unfold sizeof_pkt. cbn [map concat]. rewrite length_app. pose proof (length_obj_pkt o1).
       pose proof (body_len_nonneg o1). lia. }
  rewrite En. cbn [mem mbind res_bind]. rewrite (proj2 (Z.eqb_neq _ 0)) by (cbn [map length]; lia).
  rewrite (proj2 (Z.ltb_ge _ _)) by (unfold DAP_GLOBAL_DB_PKT_PACK_MAX_COUNT; lia). cbn [orb].
  unfold pack_bytes. rewrite drop_app_length' by done. rewrite Nat2Z.id, length_map.
  pose proof (unpack_objs (o1 :: os) [] [] Hos) as Eu. rewrite !app_nil_r in Eu. cbn [app] in Eu.
  change (Z.of_nat (length [])) with 0 in Eu. rewrite Eu. cbn [mbind res_bind]. by rewrite Z.eqb_refl.
Qed.

Definition sample_obj : dap_store_obj := StoreObj [103] [107; 49] [1; 2; 3] 3 None 1000 77 None.

Lemma sample_obj_ok : obj_ok sample_obj.
Proof.
  split.
  - split; [cbn; lia | repeat constructor; discriminate].
  - split; [cbn; lia | repeat constructor; discriminate].
  - vm_compute. reflexivity.
  - exact I.
  - by vm_compute.
  - by vm_compute.
Qed.

Lemma gdb_record_roundtrip_witness :
  dap_global_db_pkt_deserialize (obj_pkt sample_obj) 35 (Some 5) = inr (Some (parsed sample_obj (Some 5))) /\
  exists p, dap_global_db_pkt_pack_deserialize p = inr (Some [parsed sample_obj None; parsed sample_obj None]).
Proof.
  destruct (gdb_record_roundtrip sample_obj (Some 5) [sample_obj; sample_obj]) as (_ & _ & E & p & _ & _ & E').
  - apply sample_obj_ok.
  - constructor; [apply sample_obj_ok|]. constructor; [apply sample_obj_ok | constructor].
  - cbn. lia.
  - split; [exact E | exists p; exact E'].
Defined.

(** ** Arbitrary input *)

Lemma strndup_total m off n : 0 <= off -> 0 <= n -> off + n <= Z.of_nat (length m) ->
  exists s, strndup m off n = Some s /\ Z.of_nat (length s) <= n.
Proof.
  intros Ho Hn Hl. unfold strndup.
  assert (L : (Z.to_nat n <= length (drop (Z.to_nat off) m))%nat) by (rewrite length_drop; lia).
  enough (exists s, strndup_at (drop (Z.to_nat off) m) (Z.to_nat n) = Some s /\ (length s <= Z.to_nat n)%nat)
    as (s & E & Hs) by (exists s; split; [done | lia]).
  revert L. generalize (drop (Z.to_nat off) m). clear. induction (Z.to_nat n) as [|k IH]; intros l L.
  - exists []. split; [done | cbn; lia].
  - destruct l as [|c l]; [cbn in L; lia|]. cbn [strndup_at]. destruct (c =? 0).
    + exists []. split; [done | cbn; lia].
    + destruct (IH l) as (s & -> & Hs); [cbn in L; lia|]. exists (c :: s). split; [done | cbn; lia].
Qed.

Lemma mem_read_Some {A} (m : list A) off n : 0 <= off -> 0 <= n -> off + n <= Z.of_nat (length m) ->
  exists d, mem_read m off n = Some d /\ Z.of_nat (length d) = n.
Proof.
  intros. unfold mem_read. rewrite !(proj2 (Z.leb_le _ _)) by lia. cbn [andb]. eexists. split; [done|].
  rewrite length_take, length_drop. lia.
Qed.

Lemma sign_size_total m off : 0 <= off -> off + 14 <= Z.of_nat (length m) ->
  exists s, dap_sign_get_size m off = Some s.
Proof.
  intros. unfold dap_sign_get_size. destruct (mem_le_Some m off 4) as [t ->]; [lia..|]. cbn [mbind option_bind].
  destruct (t =? _); [eauto|]. destruct (mem_le_Some m (off + 6) 4) as [a ->]; [lia..|].
  destruct (mem_le_Some m (off + 10) 4) as [b ->]; [lia..|]. eauto.
Qed.

(** Header fields of any block of at least 29 bytes. *)
Lemma any_hdr m : Forall (fits 8) m -> 29 <= Z.of_nat (length m) ->
  exists c ts g k v d fl,
    pkt_crc m = Some c /\ pkt_timestamp m = Some ts /\ pkt_group_len m = Some g /\ pkt_key_len m = Some k /\
    pkt_value_len m = Some v /\ pkt_data_len m = Some d /\ pkt_flags m = Some fl /\
    fits 16 g /\ fits 16 k /\ fits 32 v /\ fits 32 d.
Proof.
  intros Hm Hl. destruct (mem_le_Some m 0 8) as [c Ec]; [lia..|]. destruct (mem_le_Some m 8 8) as [ts Et]; [lia..|].
  destruct (mem_le_Some m 16 2) as [g Eg]; [lia..|]. destruct (mem_le_Some m 18 2) as [k Ek]; [lia..|].
  destruct (mem_le_Some m 20 4) as [v Ev]; [lia..|]. destruct (mem_le_Some m 24 4) as [d Ed]; [lia..|].
  destruct (mem_le_Some m 28 1) as [fl Ef]; [lia..|].
  exists c, ts, g, k, v, d, fl. repeat (split; [assumption|]).
  split; [exact (mem_le_fits _ _ _ _ Hm Eg)|]. split; [exact (mem_le_fits _ _ _ _ Hm Ek)|].
  split; [exact (mem_le_fits _ _ _ _ Hm Ev) | exact (mem_le_fits _ _ _ _ Hm Ed)].
Qed.

(** What the signature part of a packet may be: absent, or room for a header. *)
Definition sign_room (m : list Z) : Prop :=
  forall g k v d, pkt_group_len m = Some g -> pkt_key_len m = Some k -> pkt_value_len m = Some v ->
    pkt_data_len m = Some d -> d = g + k + v \/ g + k + v + 14 <= d.

Lemma fill_safe m a : Forall (fits 8) m -> Z.of_nat (length m) < 2 ^ 32 ->
  (forall d, pkt_data_len m = Some d -> d + 29 < 2 ^ 32) -> sign_room m ->
  exists r, s_fill_one_store_obj m (Z.of_nat (length m)) a = inr r /\
    forall o len, r = Some (o, len) ->
      29 < len - ext_size a <= Z.of_nat (length m) /\
      Z.of_nat (length (group o)) <= 128 /\ Z.of_nat (length (key o)) <= 512 /\
      29 + Z.of_nat (length (value o)) + Z.of_nat (length (sign_bytes o)) <= len - ext_size a.
Proof.
  intros Hm Hl Hd Hsr. unfold s_fill_one_store_obj, sizeof_pkt.
  destruct (Z.ltb_spec (Z.of_nat (length m)) 29) as [|H29]; [by eexists|].
  destruct (any_hdr m Hm H29) as (c & ts & g & k & v & d & fl & Ec & Et & Eg & Ek & Ev & Ed & Ef & Hg & Hk & Hv & Hd32).
  specialize (Hd d Ed). specialize (Hsr g k v d Eg Ek Ev Ed). unfold fits in Hg, Hk, Hv, Hd32.
  unfold dap_global_db_pkt_get_size. rewrite Ec, Et, Eg, Ek, Ev, Ed, Ef. cbn [mbind option_bind mem res_bind].
  rewrite pkt_size_small by lia.
  destruct ((_ <? _) || _ || _) eqn:Hc; [by eexists|]. apply orb_false_iff in Hc as [[H1 H2]%orb_false_iff H3].
  rewrite Z.ltb_ge in H1, H2, H3.
  assert (Hs : wrap 32 (g + k + v) = g + k + v) by (unfold wrap in *; Z.div_mod_to_equations; lia).
  rewrite Hs in *. clear Hs.
  destruct (Z.eqb_spec g 0); [by eexists|]. unfold DAP_GLOBAL_DB_GROUP_NAME_SIZE_MAX, DAP_GLOBAL_DB_KEY_SIZE_MAX.
  destruct (Z.ltb_spec 128 g); [by eexists|]. destruct (Z.eqb_spec k 0); [by eexists|].
  destruct (Z.ltb_spec 512 k); [by eexists|]. cbn [orb].
  destruct (strndup_total m 29 g) as (sg & -> & Lg); [lia..|].
  destruct (strndup_total m (29 + g) k) as (sk & -> & Lk); [lia..|]. cbn [mem mbind res_bind].
  assert (exists sv, (if v =? 0 then mret [] else mem (mem_read m (29 + g + k) v)) = (inr sv : res (list Z)) /\
    Z.of_nat (length sv) = v) as (sv & -> & Lv).
  { destruct (Z.eqb_spec v 0) as [->|]; [by exists []|].
    destruct (mem_read_Some m (29 + g + k) v) as (sv & -> & Lv); [lia..|]. by exists sv. }
  cbn [mbind res_bind]. rewrite wrap_id by (unfold fits; lia).
  destruct (Z.eqb_spec (d - g - k - v) 0) as [E0|]; cbn [mbind res_bind mret res_ret].
  { eexists. split; [done|]. intros o len [= <- <-]. cbn [group key value]. unfold sign_bytes, ext_size. cbn.
    destruct a; lia. }
  destruct (sign_size_total m (29 + g + k + v)) as [ss ->]; [lia..|]. cbn [mem mbind res_bind].
  destruct (Z.eqb_spec ss (d - g - k - v)) as [->|]; cbn [negb]; [|by eexists].
  destruct (mem_read_Some m (29 + g + k + v) (d - g - k - v)) as (s & -> & Ls); [lia..|].
  cbn [mem mbind res_bind mret res_ret]. eexists. split; [done|]. intros o len [= <- <-]. cbn [group key value].
  unfold sign_bytes, ext_size. cbn [sign from_option id]. destruct a; lia.
Qed.

(** C32: parsing untrusted bytes.  For an arbitrary packet whose [data_len] is
    below 2^32 - 29 and whose signature part, if any, has room for a signature
    header, [dap_global_db_pkt_deserialize] reads only inside the packet; what
    it returns has names of legal length and content that fits in it. *)
Theorem gdb_parse_safe m a : Forall (fits 8) m -> Z.of_nat (length m) < 2 ^ 32 ->
  (forall d, pkt_data_len m = Some d -> d + 29 < 2 ^ 32) -> sign_room m ->
  exists r, dap_global_db_pkt_deserialize m (Z.of_nat (length m)) a = inr r /\
    forall o, r = Some o ->
      Z.of_nat (length (group o)) <= 128 /\ Z.of_nat (length (key o)) <= 512 /\
      29 + Z.of_nat (length (value o)) + Z.of_nat (length (sign_bytes o)) <= Z.of_nat (length m).
Proof.
  intros Hm Hl Hd Hs. destruct (fill_safe m a Hm Hl Hd Hs) as (r & E & Hr).
  unfold dap_global_db_pkt_deserialize. rewrite E. cbn [mbind res_bind]. eexists. split; [done|].
  intros o Eo. destruct r as [[o' len]|]; [|done]. cbn in Eo. injection Eo as ->.
  destruct (Hr o len eq_refl) as (Hlen & Hg & Hk & Hv). lia.
Qed.

Lemma gdb_parse_safe_witness :
  exists r, dap_global_db_pkt_deserialize (obj_pkt sample_obj) 35 None = inr r.
Proof.
  destruct (gdb_parse_safe (obj_pkt sample_obj) None) as (r & E & _).
  - apply Forall_app. split; [apply fields_fits|].
    change (obj_body sample_obj ++ sign_bytes sample_obj) with [103; 107; 49; 1; 2; 3].
    repeat (constructor; [by vm_compute|]). constructor.
  - vm_compute. reflexivity.
  - intros d E. vm_compute in E. injection E as <-. reflexivity.
  - intros g k v d Eg Ek Ev Ed. vm_compute in Eg, Ek, Ev, Ed. injection Eg as <-. injection Ek as <-.
    injection Ev as <-. injection Ed as <-. left. reflexivity.
  - exists r. exact E.
Defined.

Lemma strndup_short pre s n : Forall (λ c, c <> 0) s -> Z.of_nat (length s) < n ->
  strndup (pre ++ s) (Z.of_nat (length pre)) n = None.
Proof.
  intros Hs Hn. unfold strndup. rewrite Nat2Z.id, drop_app_length.
  assert (L : (length s < Z.to_nat n)%nat) by lia. clear Hn. revert L. generalize (Z.to_nat n). clear pre n.
  induction Hs as [|c s Hc _ IH]; intros n L; cbn [length] in L; (destruct n as [|n]; [lia|]); [done|].
  cbn [strndup_at]. by rewrite (proj2 (Z.eqb_neq c 0)), IH by (done || lia).
Qed.

(** The size check can be bypassed.  A packet whose [data_len] is at least
    2^32 - 29 has the computed size 0, which passes the comparison with the
    bound: a header that announces a group name, followed by fewer bytes than
    the name has, makes the parser read behind the packet, whatever the other
    fields.  And a pack whose records end before its [data_size] makes the
    parser fail its assertion instead of rejecting the pack. *)
Theorem gdb_parse_overread c ts g k v d fl rest a os extra :
  fits 64 c -> fits 64 ts -> 0 < g <= 128 -> 0 < k <= 512 -> fits 32 v -> fits 32 d -> fits 8 fl ->
  2 ^ 32 <= d + 29 -> g + k + v <= d ->
  Forall (λ x, x <> 0) rest -> Z.of_nat (length rest) < g ->
  Forall obj_ok os -> (0 < length os <= 1024)%nat -> extra <> [] ->
  Z.of_nat (length (concat (map obj_pkt os) ++ extra)) < 2 ^ 64 ->
  let m := fields (hdr c ts g k v d fl) ++ rest in
  dap_global_db_pkt_deserialize m (Z.of_nat (length m)) a = inl OutOfBounds /\
  let data := concat (map obj_pkt os) ++ extra in
  dap_global_db_pkt_pack_deserialize
    (fields (pack_fields (Z.of_nat (length data)) (Z.of_nat (length os))) ++ data) = inl AssertFailed.
Proof.
  intros Hc Hts Hg Hk Hv Hd Hfl Hbig Hsum Hrest Hlen Hos Hn Hex Hdl m. split.
  - destruct (hdr_fields c ts g k v d fl rest Hc Hts) as (Ec & Et & Eg & Ek & Ev & Ed & Ef);
      [unfold fits; lia | unfold fits; lia | done | done | done |]. fold m in Ec, Et, Eg, Ek, Ev, Ed, Ef.
    unfold dap_global_db_pkt_deserialize, s_fill_one_store_obj, dap_global_db_pkt_get_size, sizeof_pkt.
    assert (Lm : Z.of_nat (length m) = 29 + Z.of_nat (length rest))
      by (unfold m; rewrite length_app, length_hdr; lia).
    rewrite Lm, (proj2 (Z.ltb_ge _ 29)) by lia. rewrite Eg, Ek, Ev, Ed, Ec, Et, Ef.
    cbn [mbind option_bind mem res_bind]. unfold fits in Hv, Hd. rewrite pkt_size_overflow by (unfold fits; lia).
    rewrite wrap_id by (unfold fits; lia). unfold DAP_GLOBAL_DB_GROUP_NAME_SIZE_MAX, DAP_GLOBAL_DB_KEY_SIZE_MAX.
    rewrite !(proj2 (Z.ltb_ge _ _)) by lia. rewrite !(proj2 (Z.eqb_neq _ 0)) by lia. cbn [orb].
    assert (En : strndup m 29 g = None).
    { unfold m. rewrite <- (strndup_short (fields (hdr c ts g k v d fl)) rest g) by done. by rewrite length_hdr. }
    by rewrite En.
  - intros data. destruct (pack_hdr (Z.of_nat (length data)) (Z.of_nat (length os)) data) as [Eds Eno];
      [unfold fits; fold data in Hdl; lia | unfold fits; lia |].
    unfold dap_global_db_pkt_pack_deserialize. rewrite Eds. cbn [mem mbind res_bind].
    assert (Hd29 : 29 <= Z.of_nat (length (concat (map obj_pkt os)))).
    { destruct os as [|o os]; [cbn in Hn; lia|]. cbn [map concat]. rewrite length_app.
      pose proof (length_obj_pkt o). pose proof (body_len_nonneg o). lia. }
    rewrite (proj2 (Z.ltb_ge _ _)) by (unfold data, sizeof_pkt; rewrite length_app; lia).
    rewrite Eno. cbn [mem mbind res_bind]. rewrite (proj2 (Z.eqb_neq _ 0)) by lia.
    rewrite (proj2 (Z.ltb_ge _ _)) by (unfold DAP_GLOBAL_DB_PKT_PACK_MAX_COUNT; lia). cbn [orb].
    rewrite drop_app_length' by done. rewrite Nat2Z.id.
    pose proof (unpack_objs os [] extra Hos) as Eu. cbn [app] in Eu. change (Z.of_nat (length [])) with 0 in Eu.
    fold data in Eu. rewrite Eu. cbn [mbind res_bind]. rewrite (proj2 (Z.eqb_neq _ _)); [done|].
    unfold data. rewrite length_app. destruct extra; [done | cbn [length]; lia].
Qed.

Lemma gdb_parse_overread_witness :
  dap_global_db_pkt_deserialize (fields (hdr 0 0 5 1 0 (2 ^ 32 - 1) 0)) 29 None = inl OutOfBounds.
Proof.
  destruct (gdb_parse_overread 0 0 5 1 0 (2 ^ 32 - 1) 0 [] None [sample_obj] [0]) as [E _];
    [by vm_compute | by vm_compute | lia | lia | by vm_compute | by vm_compute | by vm_compute | lia | lia
     | constructor | reflexivity | constructor; [apply sample_obj_ok | constructor] | cbn; lia | discriminate
     | vm_compute; reflexivity | exact E].
Defined.

(** ** Signing *)

Lemma after_crc_eq c q r : dap_global_db_pkt_get_size (le_bytes 8 c ++ q ++ r) = Some (8 + Z.of_nat (length q)) ->
  after_crc (le_bytes 8 c ++ q ++ r) = inr q.
Proof.
  intros E. unfold after_crc. rewrite E. cbn [mem mbind res_bind].
  replace (8 + Z.of_nat (length q) - 8) with (Z.of_nat (length q)) by lia.
  pose proof (mem_read_app (le_bytes 8 c) q r) as Er. rewrite length_le_bytes in Er.
  change (Z.of_nat 8) with 8 in Er. by rewrite Er.
Qed.

(** The bytes a checksum or a signature covers: all but the [crc] field. *)
Definition covered (o : dap_store_obj) (d : Z) (body : list Z) : list Z := fields (tl (obj_fields o d)) ++ body.

Lemma obj_fields_split o d body : fields (obj_fields o d) ++ body = le_bytes 8 (crc o) ++ covered o d body.
Proof.
  unfold covered, obj_fields, hdr. cbn [tl]. rewrite (app_assoc (le_bytes 8 (crc o))). reflexivity.
Qed.

Lemma length_covered o d body : Z.of_nat (length (covered o d body)) = 21 + Z.of_nat (length body).
Proof. unfold covered. rewrite length_app, length_fields. cbn. lia. Qed.

Lemma get_size_any o d post : obj_ok o -> 0 <= d -> d + 29 < 2 ^ 32 ->
  dap_global_db_pkt_get_size (fields (obj_fields o d) ++ post) = Some (29 + d).
Proof.
  intros Ho Hd Hd'. unfold dap_global_db_pkt_get_size.
  destruct (obj_hdr o d post Ho) as (_ & _ & _ & _ & _ & -> & _); [unfold fits; lia|].
  cbn [mbind option_bind]. by rewrite pkt_size_small.
Qed.

Lemma after_crc_obj o d body rest : obj_ok o -> d = Z.of_nat (length body) -> d + 29 < 2 ^ 32 ->
  after_crc (fields (obj_fields o d) ++ body ++ rest) = inr (covered o d body).
Proof.
  intros Ho Hd Hs. rewrite (app_assoc _ body), obj_fields_split, <- app_assoc.
  apply after_crc_eq. rewrite app_assoc, <- obj_fields_split, <- app_assoc.
  rewrite get_size_any by (done || lia). rewrite length_covered. f_equal. lia.
Qed.

Section SignCheck.
Context {key_t : Type} `{SignScheme key_t}.
Context (o : dap_store_obj).
Hypothesis Ho : obj_ok o.
Hypothesis Hnone : sign o = None.
Hypothesis Hsize : body_len o + 29 + 2 ^ 31 < 2 ^ 32.

Lemma obj_pkt_unsigned : obj_pkt o = fields (obj_fields o (body_len o)) ++ obj_body o ++ [].
Proof using Hnone. unfold obj_pkt, sign_bytes. rewrite Hnone. cbn [from_option id length]. by rewrite Z.add_0_r. Qed.

Lemma signed_ok s c : dap_sign_get_size s 0 = Some (Z.of_nat (length s)) -> 0 < Z.of_nat (length s) < 2 ^ 31 ->
  fits 64 c -> obj_ok (set_crc (set_sign o (Some s)) c).
Proof using Ho Hsize.
  intros Es Hl Hc. destruct Ho as [Hg Hk _ _ _ Ht].
  split; cbn; auto; [unfold body_len, sign_bytes in *; cbn; lia | split; [done | lia]].
Qed.

Lemma sign_step k s : dap_sign_create k (covered o (body_len o) (obj_body o)) = Some s ->
  dap_store_obj_sign o (Some k)
  = inr (Some (Some s, crc64 (covered o (body_len o + Z.of_nat (length s)) (obj_body o ++ s)))).
Proof using Ho Hnone Hsize.
  intros Ek. destruct (sign_block _ _ _ Ek) as (_ & Es & Hs). pose proof (body_len_nonneg o).
  pose proof (length_body o) as Lb.
  unfold dap_store_obj_sign. rewrite serialize_eq by apply Ho. cbn [mbind res_bind].
  rewrite obj_pkt_unsigned, after_crc_obj by (done || lia). cbn [mbind res_bind]. rewrite Ek, Es.
  cbn [mem mbind res_bind]. rewrite get_size_any by (done || lia). cbn [mem mbind res_bind].
  destruct (obj_hdr o (body_len o) (obj_body o ++ []) Ho) as (_ & _ & _ & _ & _ & -> & _); [unfold fits; lia|].
  cbn [mem mbind res_bind]. rewrite app_nil_r.
  set (p := fields (obj_fields o (body_len o)) ++ obj_body o).
  assert (Lp : Z.of_nat (length p) = 29 + body_len o) by (unfold p, obj_fields; rewrite length_app, length_hdr; lia).
  replace (Z.to_nat (29 + body_len o + Z.of_nat (length s))) with (length p + length s)%nat by lia.
  rewrite resize_app_more.
  pose proof (mem_read_app [] s []) as Er. cbn [app length] in Er. rewrite app_nil_r in Er.
  change (Z.of_nat 0) with 0 in Er. rewrite Er. cbn [mem mbind res_bind]. unfold sizeof_pkt.
  rewrite <- Lp, <- (app_nil_r (replicate _ _)), mem_write_app by apply length_replicate.
  cbn [mem mbind res_bind]. rewrite app_nil_r. unfold p. rewrite <- app_assoc. unfold obj_fields at 1.
  rewrite write_data_len. cbn [mem mbind res_bind].
  change (hdr _ _ _ _ _ ?d _) with (obj_fields o d). rewrite <- (app_nil_r (obj_body o ++ s)).
  rewrite after_crc_obj by (done || (rewrite ?length_app; lia)). cbn [mbind res_bind]. by rewrite app_nil_r.
Qed.

Lemma check_step s c : dap_sign_get_size s 0 = Some (Z.of_nat (length s)) -> 0 < Z.of_nat (length s) < 2 ^ 31 ->
  fits 64 c ->
  dap_global_db_pkt_check_sign_crc (set_crc (set_sign o (Some s)) c)
  = inr ((dap_sign_verify s (covered o (body_len o) (obj_body o)) =? 0) &&
         (crc64 (covered o (body_len o + Z.of_nat (length s)) (obj_body o ++ s)) =? c)).
Proof using Ho Hsize.
  intros Es Hs Hc. set (o2 := set_crc (set_sign o (Some s)) c).
  assert (Ho2 : obj_ok o2) by (by apply signed_ok). pose proof (body_len_nonneg o). pose proof (length_body o) as Lb.
  change (body_len o) with (body_len o2) in *. change (obj_body o) with (obj_body o2) in *.
  assert (Esb : sign_bytes o2 = s) by done.
  unfold dap_global_db_pkt_check_sign_crc. rewrite serialize_eq by apply Ho2. cbn [mbind res_bind].
  unfold obj_pkt. rewrite Esb. pose proof (ok_size o2 Ho2) as Hsz. rewrite Esb in Hsz.
  destruct (obj_hdr o2 (body_len o2 + Z.of_nat (length s)) (obj_body o2 ++ s) Ho2) as (_ & _ & -> & -> & -> & -> & _);
    [unfold fits; lia|]. cbn [mem mbind res_bind].
  change (Z.of_nat (length (group o2)) + Z.of_nat (length (key o2)) + Z.of_nat (length (value o2))) with (body_len o2).
  rewrite wrap_id by (unfold fits; lia). unfold obj_fields at 1. rewrite write_data_len. cbn [mem mbind res_bind].
  change (hdr _ _ _ _ _ (body_len o2) _) with (obj_fields o2 (body_len o2)).
  change (sign o2) with (Some s). cbn iota. unfold sizeof_pkt.
  assert (Lp : 29 + body_len o2 = Z.of_nat (length (fields (obj_fields o2 (body_len o2)) ++ obj_body o2)))
    by (unfold obj_fields; rewrite length_app, length_hdr; lia).
  assert (Esz : dap_sign_get_size (fields (obj_fields o2 (body_len o2)) ++ obj_body o2 ++ s) (29 + body_len o2)
    = Some (Z.of_nat (length s))).
  { rewrite app_assoc. pose proof (sign_size_inside _ s [] _ _ Es Lp) as Q. by rewrite app_nil_r in Q. }
  rewrite Esz. cbn [mem mbind res_bind].
  assert (Esr : mem_read (fields (obj_fields o2 (body_len o2)) ++ obj_body o2 ++ s) (29 + body_len o2) (Z.of_nat (length s))
    = Some s).
  { rewrite app_assoc, Lp.
    pose proof (mem_read_app (fields (obj_fields o2 (body_len o2)) ++ obj_body o2) s []) as Q. by rewrite app_nil_r in Q. }
  rewrite Esr. cbn [mem mbind res_bind]. rewrite after_crc_obj by (done || lia). cbn [mbind res_bind mret res_ret].
  unfold mret at 1, res_ret at 1. cbn [mbind res_bind].
  change (covered o2 ?d ?b) with (covered o d b). destruct (dap_sign_verify _ _ =? 0); cbn [negb andb]; [|done].
  unfold obj_fields at 1. rewrite write_data_len. cbn [mem mbind res_bind].
  change (hdr _ _ _ _ _ (body_len o2 + Z.of_nat (length s)) _) with (obj_fields o2 (body_len o2 + Z.of_nat (length s))).
  destruct (obj_hdr o2 (body_len o2 + Z.of_nat (length s)) (obj_body o2 ++ s) Ho2) as (-> & _); [unfold fits; lia|].
  rewrite <- (app_nil_r (obj_body o2 ++ s)) at 1.
  rewrite after_crc_obj by (done || (rewrite ?length_app; lia)). done.
Qed.
End SignCheck.

(** The check of an unsigned record is its checksum. *)
Lemma check_unsigned `{SignScheme key_t} o : obj_ok o -> sign o = None ->
  dap_global_db_pkt_check_sign_crc o = inr (crc64 (covered o (body_len o) (obj_body o)) =? crc o).
Proof.
  intros Ho Hn. pose proof (body_len_nonneg o). pose proof (length_body o) as Lb.
  pose proof (ok_size o Ho) as Hsz.
  unfold dap_global_db_pkt_check_sign_crc. rewrite serialize_eq by apply Ho. cbn [mbind res_bind].
  rewrite obj_pkt_unsigned by done.
  destruct (obj_hdr o (body_len o) (obj_body o ++ []) Ho) as (Ec & _ & -> & -> & -> & -> & _); [unfold fits; lia|].
  cbn [mem mbind res_bind].
  change (Z.of_nat (length (group o)) + Z.of_nat (length (key o)) + Z.of_nat (length (value o))) with (body_len o).
  rewrite wrap_id by (unfold fits; lia). unfold obj_fields at 1. rewrite write_data_len. cbn [mem mbind res_bind].
  rewrite Hn. cbn [mbind res_bind mret res_ret]. unfold mret at 1, res_ret at 1. cbn [mbind res_bind negb].
  rewrite write_data_len. cbn [mem mbind res_bind]. change (hdr _ _ _ _ _ (body_len o) _) with (obj_fields o (body_len o)).
  rewrite Ec. rewrite after_crc_obj by (done || lia). done.
Qed.

Lemma covered_set_crc o c d b : covered (set_crc o c) d b = covered o d b.
Proof. reflexivity. Qed.

Lemma check_unsigned_crc `{SignScheme key_t} o c : obj_ok o -> sign o = None -> fits 64 c ->
  dap_global_db_pkt_check_sign_crc (set_crc o c) = inr (crc64 (covered o (body_len o) (obj_body o)) =? c).
Proof.
  intros Ho Hn Hc. rewrite check_unsigned; [by rewrite covered_set_crc | destruct Ho; by split | done].
Qed.

Lemma checksum_unsigned `{SignScheme key_t} o : obj_ok o -> sign o = None ->
  dap_store_obj_checksum o = inr (crc64 (covered o (body_len o) (obj_body o))).
Proof.
  intros Ho Hn. pose proof (length_body o). pose proof (ok_size o Ho). pose proof (body_len_nonneg o).
  unfold dap_store_obj_checksum, dap_store_obj_sign. rewrite serialize_eq by apply Ho. cbn [mbind res_bind].
  rewrite obj_pkt_unsigned, after_crc_obj by (done || lia). done.
Qed.

Lemma covered_bytes o d b : Forall (fits 8) b -> Forall (fits 8) (covered o d b).
Proof. intros. apply Forall_app. split; [apply fields_fits | done]. Qed.

(** Signed records pass their check and only they do.  Signing a record
    gives a signature over everything but the checksum and a checksum over the
    record with its signature; the record that carries both is accepted.  With
    any other checksum it is refused, and a record for which the signature does
    not verify is refused whatever its checksum.  An unsigned record with the
    checksum computed for it is accepted, with another one refused. *)
Theorem gdb_sign_check `{SignScheme key_t} o (k : key_t) s o' c' :
  obj_ok o -> sign o = None -> body_len o + 29 + 2 ^ 31 < 2 ^ 32 -> Forall (fits 8) (obj_body o) ->
  dap_sign_create k (covered o (body_len o) (obj_body o)) = Some s ->
  obj_ok o' -> sign o' = None -> body_len o' + 29 + 2 ^ 31 < 2 ^ 32 -> fits 64 c' ->
  dap_sign_verify s (covered o' (body_len o') (obj_body o')) <> 0 ->
  (exists c, dap_store_obj_sign o (Some k) = inr (Some (Some s, c)) /\
     dap_global_db_pkt_check_sign_crc (set_crc (set_sign o (Some s)) c) = inr true /\
     (c' <> c -> dap_global_db_pkt_check_sign_crc (set_crc (set_sign o (Some s)) c') = inr false)) /\
  dap_global_db_pkt_check_sign_crc (set_crc (set_sign o' (Some s)) c') = inr false /\
  (exists c, dap_store_obj_checksum o = inr c /\
     dap_global_db_pkt_check_sign_crc (set_crc o c) = inr true /\
     (c' <> c -> dap_global_db_pkt_check_sign_crc (set_crc o c') = inr false)).
Proof.
  intros Ho Hn Hsz Hb Ek Ho' Hn' Hsz' Hc' Hv. destruct (sign_block _ _ _ Ek) as (Hsb & Es & Hs).
  pose proof (sign_verifies _ _ _ Ek) as Ev.
  split; [|split].
  - eexists. split; [by apply sign_step|]. split.
    + rewrite check_step by (auto using crc64_fits, covered_bytes || (apply crc64_fits, covered_bytes, Forall_app; auto)).
      by rewrite Ev, !Z.eqb_refl.
    + intros Hne. rewrite check_step by done. rewrite Ev. change (0 =? 0) with true. cbn [andb].
      rewrite (proj2 (Z.eqb_neq _ _)); [done|]. intros E. by apply Hne.
  - rewrite check_step by done. by rewrite (proj2 (Z.eqb_neq _ 0)).
  - eexists. split; [by apply checksum_unsigned|]. split.
    + rewrite check_unsigned_crc by (auto using crc64_fits, covered_bytes). f_equal. apply Z.eqb_refl.
    + intros Hne. rewrite check_unsigned_crc by auto.
      rewrite (proj2 (Z.eqb_neq _ _)); [done|]. intros E. by apply Hne.
Qed.

(** A toy scheme: a header and one byte of checksum. *)
Definition toy_sign (d : list Z) : list Z := fields [(4%nat, 1); (2%nat, 0); (4%nat, 1); (4%nat, 0); (1%nat, fold_right Z.add 0 d)].

#[export] Program Instance toy_scheme : SignScheme unit := {
  dap_sign_create _ d := Some (toy_sign d);
  dap_sign_verify s d := if bool_decide (s = toy_sign d) then 0 else 1;
}.
Next Obligation.
  intros _ d s [= <-]. split; [apply fields_fits|]. split; [|done].
  reflexivity.
Qed.
Next Obligation. intros _ d s [= <-]. by rewrite bool_decide_true. Qed.

Lemma gdb_sign_check_witness :
  exists s c, dap_store_obj_sign sample_obj (Some tt) = inr (Some (Some s, c)) /\
    dap_global_db_pkt_check_sign_crc (set_crc (set_sign sample_obj (Some s)) c) = inr true.
Proof.
  destruct (gdb_sign_check sample_obj tt (toy_sign (covered sample_obj 6 (obj_body sample_obj)))
    (StoreObj [103] [107; 50] [1; 2; 3] 3 None 1000 77 None) 0) as [(c & E1 & E2 & _) _].
  - apply sample_obj_ok.
  - reflexivity.
  - vm_compute. reflexivity.
  - change (obj_body sample_obj) with [103; 107; 49; 1; 2; 3]. repeat (constructor; [by vm_compute|]). constructor.
  - reflexivity.
  - split; [split; [cbn; lia | repeat constructor; discriminate] | split; [cbn; lia | repeat constructor; discriminate]
      | vm_compute; reflexivity | exact I | by vm_compute | by vm_compute].
  - reflexivity.
  - vm_compute. reflexivity.
  - by vm_compute.
  - vm_compute. discriminate.
  - eexists _, c. split; [exact E1 | exact E2].
Defined.
