(* ===== verification/GdbDriver.v ===== *)
(** * The driver layer of the database (global-db/dap_global_db_driver.c)

    What the database core asks of a storage driver: driver hashes and their
    order, group masks, the table of callbacks as the class [Driver], the
    wrappers the core calls, and the contract [DriverSpec]: a driver keeps, for
    every group, records in the order of their hashes with one record per text
    key.  The transaction callbacks are optional, as in the table: a driver
    without them is [Direct] (MDBX and PostgreSQL as they are registered), the
    SQLite driver has them ([TxnDriver] is any driver between BEGIN and COMMIT
    or ROLLBACK). *)

From S2P Require Import Prelude GdbPkt.
From stdpp Require Import list sets sorting.
Local Open Scope Z_scope.

(** ** Driver hashes (include/dap_global_db_driver.h) *)

Definition DAP_GLOBAL_DB_RECORD_PINNED : Z := 2.
Definition DAP_GLOBAL_DB_RECORD_NEW : Z := 64.
Definition DAP_GLOBAL_DB_RECORD_ERASE : Z := 128.

Definition has_flag (fl bit : Z) : bool := negb (Z.land fl bit =? 0).

(** [htobe64]: the bytes of a word, most significant first. *)
Definition be_bytes (n : nat) (z : Z) : list Z := rev (le_bytes n z).
Definition be_value (l : list Z) : Z := le_value (rev l).

Definition hash_bytes (ts c : Z) : list Z := be_bytes 8 ts ++ be_bytes 8 c.

Definition dap_global_db_driver_hash_get (o : dap_store_obj) : list Z := hash_bytes (timestamp o) (crc o).

Definition c_dap_global_db_driver_hash_blank : list Z := replicate 16 0.

Fixpoint memcmp (a b : list Z) : Z :=
  match a, b with
  | x :: a, y :: b => if x =? y then memcmp a b else if x <? y then -1 else 1
  | _, _ => 0
  end.

Definition dap_global_db_driver_hash_compare (h1 h2 : list Z) : Z :=
  let l_ret := memcmp h1 h2 in if l_ret <? 0 then -1 else if 0 <? l_ret then 1 else 0.

Definition dap_store_obj_driver_hash_compare (o1 o2 : option dap_store_obj) : Z :=
  match o1, o2 with
  | None, Some _ => -1
  | None, None => 0
  | Some _, None => 1
  | Some o1, Some o2 =>
    dap_global_db_driver_hash_compare (dap_global_db_driver_hash_get o1) (dap_global_db_driver_hash_get o2)
  end.

Definition dap_global_db_driver_hash_is_blank (h : list Z) : bool :=
  memcmp h c_dap_global_db_driver_hash_blank =? 0.

(** ** Group masks (dap_global_db.c) *)

(** [strstr] as a condition. *)
Fixpoint strstr (h n : list Z) : bool :=
  bool_decide (n `prefix_of` h) || match h with [] => false | _ :: h => strstr h n end.

(** The loop over the part of the mask in front of the wildcard: what is left
    of the group and of that part, [None] for a mismatch. *)
Fixpoint match_fixed (g m : list Z) : option (list Z * list Z) :=
  match g, m with
  | x :: g, y :: m => if x =? y then match_fixed g m else None
  | _, _ => Some (g, m)
  end.

(** The mask in front of the first ['*'] and, if there is one, behind it. *)
Fixpoint split_mask (m : list Z) : list Z * option (list Z) :=
  match m with
  | [] => ([], None)
  | c :: m => if c =? 42 then ([], Some m) else let '(f, t) := split_mask m in (c :: f, t)
  end.

Definition dap_global_db_group_match_mask (a_group a_mask : list Z) : bool :=
  if bool_decide (a_group = []) || bool_decide (a_mask = []) then false else
  let '(f, t) := split_mask a_mask in
  match match_fixed a_group f with
  | None => false
  | Some (g, []) => match t with Some (c :: t) => strstr g (c :: t) | _ => true end
  | Some (_, _ :: _) => true
  end.

(** ** Callbacks *)

(** The array a conditional read returns: its elements and whether the blank
    element that marks the last page follows them. *)
Record page (A : Type) := Page { items : list A; last_page : bool }.
Arguments Page {A} _ _.
Arguments items {A} _.
Arguments last_page {A} _.

(** The value of [*a_count_out]. *)
Definition page_count {A} (p : page A) : Z := Z.of_nat (length (items p)) + if last_page p then 1 else 0.

Definition DAP_GLOBAL_DB_COND_READ_COUNT_DEFAULT : Z := 256.
Definition DAP_GLOBAL_DB_COND_READ_KEYS_DEFAULT : Z := 512.

(** The callbacks the core uses ([dap_global_db_driver_callbacks_t]); the
    boolean of [apply_store_obj] tells that the object's key is [NULL]. *)
Class Driver (D : Type) := {
  apply_store_obj : D -> dap_store_obj -> bool -> res (Z * D);
  read_store_obj : D -> list Z -> list Z -> bool -> res (option dap_store_obj);
  read_all_store_obj : D -> list Z -> Z -> bool -> res (option (list dap_store_obj));
  read_last_store_obj : D -> list Z -> bool -> res (option dap_store_obj);
  read_store_obj_by_timestamp : D -> list Z -> Z -> Z -> res (option (page dap_store_obj));
  read_cond_store_obj : D -> list Z -> list Z -> Z -> bool -> res (option (page dap_store_obj));
  read_hashes : D -> list Z -> list Z -> res (option (page (list Z)));
  read_count_store : D -> list Z -> list Z -> bool -> res Z;
  get_groups_by_mask : D -> list Z -> list (list Z);
  is_obj : D -> list Z -> list Z -> res bool;
  is_hash : D -> list Z -> list Z -> res bool;
  get_by_hash : D -> list Z -> list (list Z) -> res (option (list Z));
  transaction_start : option (D -> Z * D);
  transaction_end : option (D -> bool -> Z * D);
}.

(** ** Wrappers *)

Definition dap_ascii_isprint (c : Z) : bool := (32 <=? c) && (c <=? 126).

Definition dap_global_db_isalnum_group_key (o : dap_store_obj) (null_key a_not_null_key : bool) : bool :=
  (if null_key then negb a_not_null_key else forallb dap_ascii_isprint (key o)) &&
  forallb dap_ascii_isprint (group o).

Definition set_flags (o : dap_store_obj) (fl : Z) : dap_store_obj :=
  StoreObj (group o) (key o) (value o) fl (sign o) (timestamp o) (crc o) (ext o).

Section Wrappers.
Context {D : Type} `{Driver D}.

Fixpoint driver_apply_loop (d : D) (l : list (dap_store_obj * bool)) : res (Z * D) :=
  match l with
  | [] => mret (0, d)
  | (o, null_key) :: l =>
    if dap_global_db_driver_hash_is_blank (dap_global_db_driver_hash_get o) then driver_apply_loop d l else
    if negb (dap_global_db_isalnum_group_key o null_key (negb (has_flag (flags o) DAP_GLOBAL_DB_RECORD_ERASE)))
    then mret (-9, d) else
    '(rc, d) ← apply_store_obj d o null_key;
    if rc =? 0 then driver_apply_loop d l else mret (rc, d)
  end.

Definition dap_global_db_driver_txn_start (d : D) : Z * D :=
  match transaction_start with Some f => f d | None => (-1, d) end.

Definition dap_global_db_driver_txn_end (d : D) (a_commit : bool) : Z * D :=
  match transaction_end with Some f => f d a_commit | None => (-1, d) end.

Definition dap_global_db_driver_apply (d : D) (l : list (dap_store_obj * bool)) : res (Z * D) :=
  if bool_decide (l = []) then mret (-1, d) else
  let d := if bool_decide (1 < length l)%nat then (dap_global_db_driver_txn_start d).2 else d in
  '(l_ret, d) ← driver_apply_loop d l;
  let d := if bool_decide (1 < length l)%nat then (dap_global_db_driver_txn_end d true).2 else d in
  mret (l_ret, d).

Definition dap_global_db_driver_add (d : D) (l : list (dap_store_obj * bool)) : res (Z * D) :=
  dap_global_db_driver_apply d
    (map (λ p, (set_flags p.1 (Z.land (flags p.1) (Z.lnot DAP_GLOBAL_DB_RECORD_ERASE)), p.2)) l).

Definition dap_global_db_driver_delete (d : D) (l : list (dap_store_obj * bool)) : res (Z * D) :=
  dap_global_db_driver_apply d (map (λ p, (set_flags p.1 (Z.lor (flags p.1) DAP_GLOBAL_DB_RECORD_ERASE), p.2)) l).
End Wrappers.

(** ** The contract *)

(** The number a driver hash spells. *)
Definition hval (o : dap_store_obj) : Z := timestamp o * 2 ^ 64 + crc o.

(** Records as a driver keeps them.  The text key has room for its terminator,
    the checksum is not zero, the flags that are never saved are clear, and the
    record has a value or a signature. *)
Record stored (o : dap_store_obj) : Prop := {
  st_ok : obj_ok o;
  st_key : (length (key o) < 512)%nat;
  st_crc : crc o <> 0;
  st_flags : fits 8 (flags o) /\ Z.land (flags o) DAP_GLOBAL_DB_RECORD_NEW = 0;
  st_ext : ext o = None;
  st_sign : Forall (fits 8) (sign_bytes o);
  st_data : value o <> [] \/ sign o <> None;
}.

(** The record a driver keeps for an object. *)
Definition norm (o : dap_store_obj) : dap_store_obj :=
  StoreObj (group o) (key o) (value o) (Z.land (flags o) (Z.lnot DAP_GLOBAL_DB_RECORD_NEW)) (sign o) (timestamp o)
    (crc o) None.

Definition hlt (a b : dap_store_obj) : Prop := hval a < hval b.

Record table_ok (g : list Z) (l : list dap_store_obj) : Prop := {
  tab_stored : Forall (λ o, stored o /\ group o = g) l;
  tab_sorted : StronglySorted hlt l;
  tab_keys : NoDup (key <$> l);
}.

Fixpoint tput (o : dap_store_obj) (l : list dap_store_obj) : list dap_store_obj :=
  match l with
  | [] => [o]
  | x :: l' => if hval o <? hval x then o :: l else if hval o =? hval x then o :: l' else x :: tput o l'
  end.

Definition find_key (k : list Z) (l : list dap_store_obj) : option dap_store_obj := head (filter (λ o, key o = k) l).

Definition without_key (k : list Z) (l : list dap_store_obj) : list dap_store_obj := filter (λ o, key o ≠ k) l.

(** A write and an erasure by hash. *)
Definition write_obj (o : dap_store_obj) (l : list dap_store_obj) : list dap_store_obj :=
  tput (norm o) (without_key (key o) l).
Definition erase_obj (o : dap_store_obj) (l : list dap_store_obj) : list dap_store_obj :=
  filter (λ x, hval x ≠ hval o) l.

Definition upd (m : list Z -> list dap_store_obj) (g : list Z) (l : list dap_store_obj) : list Z -> list dap_store_obj :=
  λ g', if decide (g' = g) then l else m g'.

Definition holes (with_holes : bool) (l : list dap_store_obj) : list dap_store_obj :=
  filter (λ o, with_holes || negb (has_flag (flags o) DAP_GLOBAL_DB_RECORD_DEL)) l.

(** A page of at most [n] of the elements [l], [None] for [NULL]. *)
Definition to_page {A} (n : nat) (l : list A) : option (page A) :=
  match l with
  | [] => None
  | _ => Some (Page (take n l) (bool_decide (length l < n)%nat))
  end.

(** [rep d m]: the driver keeps the records [m].  A write returns a code: with
    zero the record is stored, otherwise nothing changed. *)
Class DriverSpec (D : Type) `{Driver D} := {
  rep : D -> (list Z -> list dap_store_obj) -> Prop;
  reserved : list Z -> Prop;
  rep_table d m g : rep d m -> table_ok g (m g);
  is_obj_spec d m g k : rep d m -> Forall (λ c, c <> 0) k ->
    is_obj d g k = inr (bool_decide (is_Some (find_key k (m g))));
  read_spec d m g k wh : rep d m -> Forall (λ c, c <> 0) k ->
    read_store_obj d g k wh = inr (find_key k (holes wh (m g)));
  is_hash_spec d m g ts c : rep d m -> fits 64 ts -> fits 64 c ->
    is_hash d g (hash_bytes ts c) = inr (existsb (λ o, hval o =? ts * 2 ^ 64 + c) (m g));
  write_spec d m o : rep d m -> stored (norm o) -> ~ reserved (group o) ->
    has_flag (flags o) DAP_GLOBAL_DB_RECORD_ERASE = false ->
    exists rc d', apply_store_obj d o false = inr (rc, d') /\
      rep d' (if rc =? 0 then upd m (group o) (write_obj o (m (group o))) else m);
  erase_spec d m o : rep d m -> obj_ok o -> crc o <> 0 -> timestamp o <> 0 ->
    has_flag (flags o) DAP_GLOBAL_DB_RECORD_ERASE = true ->
    exists rc d', apply_store_obj d o false = inr (rc, d') /\
      rep d' (if rc =? 0 then upd m (group o) (erase_obj o (m (group o))) else m);
  drop_spec d m o : rep d m -> has_flag (flags o) DAP_GLOBAL_DB_RECORD_ERASE = true ->
    exists rc d', apply_store_obj d o true = inr (rc, d') /\
      rep d' (if rc =? 0 then upd m (group o) [] else m);
  read_last_spec d m g wh : rep d m -> read_last_store_obj d g wh = inr (last (holes wh (m g)));
  read_cond_spec d m g ts c n wh : rep d m -> fits 64 ts -> fits 64 c -> 0 <= n ->
    read_cond_store_obj d g (hash_bytes ts c) n wh
    = inr (to_page (Z.to_nat (if n =? 0 then DAP_GLOBAL_DB_COND_READ_COUNT_DEFAULT else n))
             (holes wh (filter (λ o, ts * 2 ^ 64 + c < hval o) (m g))));
  read_hashes_spec d m g ts c : rep d m -> fits 64 ts -> fits 64 c ->
    read_hashes d g (hash_bytes ts c)
    = inr (to_page (Z.to_nat DAP_GLOBAL_DB_COND_READ_KEYS_DEFAULT)
             (dap_global_db_driver_hash_get <$> filter (λ o, ts * 2 ^ 64 + c < hval o) (m g)));
  read_count_spec d m g ts c wh : rep d m -> fits 64 ts -> fits 64 c ->
    read_count_store d g (hash_bytes ts c) wh
    = inr (Z.of_nat (length (holes wh (filter (λ o, ts * 2 ^ 64 + c < hval o) (m g)))));
  read_below_spec d m g ts n : rep d m -> fits 64 ts -> 0 <= n ->
    read_store_obj_by_timestamp d g ts n
    = let l := filter (λ o, hval o < ts * 2 ^ 64 + (2 ^ 64 - 1)) (m g) in
      let n := Z.to_nat (if n =? 0 then DAP_GLOBAL_DB_COND_READ_COUNT_DEFAULT else n) in
      inr (match l with
           | [] => None
           | _ => Some (Page (take n l) (bool_decide (length l < n)%nat && bool_decide (length l = length (m g))))
           end);
  read_all_spec d m g wh : rep d m ->
    read_all_store_obj d g 0 wh = inr (match holes wh (m g) with [] => None | l => Some l end);
  groups_spec d m mask g : rep d m ->
    (g ∈ get_groups_by_mask d mask -> dap_global_db_group_match_mask g mask = true) /\
    (m g <> [] -> dap_global_db_group_match_mask g mask = true -> g ∈ get_groups_by_mask d mask);
}.

(** A driver without transaction callbacks. *)
Class Direct (D : Type) `{Driver D} := {
  no_transaction_start : transaction_start = None;
  no_transaction_end : transaction_end = None;
}.

(** Storage that does not fail. *)
Class Reliable (D : Type) `{DriverSpec D} :=
  writes_succeed : forall d m o, rep d m -> stored (norm o) -> ~ reserved (group o) ->
    has_flag (flags o) DAP_GLOBAL_DB_RECORD_ERASE = false ->
    exists d', apply_store_obj d o false = inr (0, d').

Class Erasing (D : Type) `{DriverSpec D} :=
  erases_succeed : forall d m o, rep d m -> obj_ok o -> crc o <> 0 -> timestamp o <> 0 ->
    has_flag (flags o) DAP_GLOBAL_DB_RECORD_ERASE = true -> (exists x, x ∈ m (group o) /\ hval x = hval o) ->
    exists d', apply_store_obj d o false = inr (0, d').

(** Records are sent by their hashes in a pack the receiver takes apart.  A
    record has room for the terminators of its texts. *)
Definition sendable (o : dap_store_obj) : Prop :=
  (length (group o) < 128)%nat /\ body_len o + Z.of_nat (length (sign_bytes o)) + 31 < 2 ^ 32.

Class Fetching (D : Type) `{DriverSpec D} :=
  fetch_spec : forall d m g os, rep d m -> Forall (λ o, o ∈ m g /\ sendable o) os -> (0 < length os <= 1024)%nat ->
    exists p, get_by_hash d g (dap_global_db_driver_hash_get <$> os) = inr (Some p) /\
      dap_global_db_pkt_pack_get_size p = Some (Z.of_nat (length p)) /\
      dap_global_db_pkt_pack_deserialize p = inr (Some (map (λ o, parsed o None) os)).

(** ** The order of driver hashes *)

Lemma memcmp_app a b c d : length a = length b ->
  memcmp (a ++ c) (b ++ d) = if memcmp a b =? 0 then memcmp c d else memcmp a b.
Proof.
  revert b. induction a as [|u a IH]; intros [|v b] Hl; try discriminate Hl; [done|].
  cbn [app memcmp] in *. injection Hl as Hl.
  destruct (u =? v); [by rewrite IH | by destruct (u <? v)].
Qed.

Definition zcmp (a b : Z) : Z := if a =? b then 0 else if a <? b then -1 else 1.

Lemma length_be_bytes n z : length (be_bytes n z) = n.
Proof. unfold be_bytes. by rewrite length_rev, length_le_bytes. Qed.

Lemma be_value_bytes n z : fits (8 * Z.of_nat n) z -> be_value (be_bytes n z) = z.
Proof. intros. unfold be_value, be_bytes. by rewrite rev_involutive, le_value_bytes, wrap_id. Qed.

Lemma be_bytes_S n z : be_bytes (S n) z = be_bytes n (z / 256) ++ [z mod 256].
Proof. reflexivity. Qed.

Lemma memcmp_be n a b : fits (8 * Z.of_nat n) a -> fits (8 * Z.of_nat n) b ->
  memcmp (be_bytes n a) (be_bytes n b) = zcmp a b.
Proof.
  revert a b. induction n as [|n IH]; intros a b Ha Hb.
  - unfold fits in *. change (2 ^ (8 * Z.of_nat 0)) with 1 in *. replace a with b by lia.
    unfold zcmp. by rewrite Z.eqb_refl.
  - unfold fits in *. replace (8 * Z.of_nat (S n)) with (8 * Z.of_nat n + 8) in * by lia.
    rewrite Z.pow_add_r in * by lia. change (2 ^ 8) with 256 in *.
    rewrite !be_bytes_S, memcmp_app by (by rewrite !length_be_bytes).
    rewrite IH by (split; [Z.div_mod_to_equations; lia | apply Z.div_lt_upper_bound; lia]).
    cbn [memcmp]. unfold zcmp. pose proof (Z.div_mod a 256 ltac:(lia)). pose proof (Z.div_mod b 256 ltac:(lia)).
    pose proof (Z.mod_pos_bound a 256 ltac:(lia)). pose proof (Z.mod_pos_bound b 256 ltac:(lia)).
    repeat (bdestr1; try lia); done.
Qed.

Lemma length_hash_bytes ts c : length (hash_bytes ts c) = 16%nat.
Proof. unfold hash_bytes. by rewrite length_app, !length_be_bytes. Qed.

(** [memcmp] on driver hashes compares the numbers they spell. *)
Lemma memcmp_hash ts c ts' c' : fits 64 ts -> fits 64 c -> fits 64 ts' -> fits 64 c' ->
  memcmp (hash_bytes ts c) (hash_bytes ts' c') = zcmp (ts * 2 ^ 64 + c) (ts' * 2 ^ 64 + c').
Proof.
  intros. unfold hash_bytes. rewrite memcmp_app, !memcmp_be by (done || by rewrite !length_be_bytes).
  unfold zcmp, fits in *. repeat (bdestr1; try lia); done.
Qed.

Lemma hash_bytes_inj ts c ts' c' : fits 64 ts -> fits 64 c -> fits 64 ts' -> fits 64 c' ->
  hash_bytes ts c = hash_bytes ts' c' -> ts = ts' /\ c = c'.
Proof.
  intros ?? Ht Hc E. apply app_inj_1 in E as [E1 E2]; [|by rewrite !length_be_bytes].
  split; [rewrite <- (be_value_bytes 8 ts), E1 | rewrite <- (be_value_bytes 8 c), E2]; by rewrite ?be_value_bytes.
Qed.

Lemma hash_blank ts c : fits 64 ts -> fits 64 c ->
  dap_global_db_driver_hash_is_blank (hash_bytes ts c) = (ts * 2 ^ 64 + c =? 0).
Proof.
  intros. unfold dap_global_db_driver_hash_is_blank. change c_dap_global_db_driver_hash_blank with (hash_bytes 0 0).
  rewrite memcmp_hash by (done || split; lia). unfold zcmp. by bdestr.
Qed.

(** The comparison of two records. *)
Lemma hash_compare_zcmp a b : obj_ok a -> obj_ok b ->
  dap_store_obj_driver_hash_compare (Some a) (Some b) = zcmp (hval a) (hval b).
Proof.
  intros [] []. cbn [dap_store_obj_driver_hash_compare]. unfold dap_global_db_driver_hash_compare.
  unfold dap_global_db_driver_hash_get. rewrite memcmp_hash by done. unfold zcmp, hval.
  repeat (bdestr1; try lia); done.
Qed.

(** ** Tables *)

Lemma find_key_elem k l o : NoDup (key <$> l) -> find_key k l = Some o <-> o ∈ l /\ key o = k.
Proof.
  unfold find_key. induction l as [|x l IH]; cbn [fmap list_fmap]; intros Hn; [set_solver|].
  apply NoDup_cons in Hn as [Hx Hn]. rewrite filter_cons. destruct (decide (key x = k)) as [<-|Hk]; cbn [head].
  - split; [intros [= <-]; set_solver|]. intros [[->|Ho]%elem_of_cons E]; [done|]. exfalso. apply Hx. rewrite <- E.
    by apply list_elem_of_fmap_2.
  - rewrite IH by done. set_solver.
Qed.

Lemma find_key_None k l : find_key k l = None <-> forall o, o ∈ l -> key o <> k.
Proof.
  unfold find_key. split.
  - intros E o Ho Hk. destruct (filter (λ o, key o = k) l) eqn:F; [|discriminate E].
    assert (o ∈ filter (λ o, key o = k) l) as Hf by (by apply list_elem_of_filter). rewrite F in Hf. set_solver.
  - intros Hall. destruct (filter (λ o, key o = k) l) as [|o l'] eqn:F; [done|].
    assert (o ∈ filter (λ o, key o = k) l) as [Hk Ho]%list_elem_of_filter by (rewrite F; set_solver).
    by destruct (Hall o Ho).
Qed.

Lemma filter_ext_elem {A} (P Q : A -> Prop) `{!forall x, Decision (P x)} `{!forall x, Decision (Q x)} (l : list A) :
  (forall x, x ∈ l -> P x <-> Q x) -> filter P l = filter Q l.
Proof.
  induction l as [|x l IH]; intros Hpq; [done|]. rewrite !filter_cons. specialize (Hpq x) as Hx.
  rewrite IH by (intros; apply Hpq; by right). destruct (decide (P x)), (decide (Q x)); try done;
    exfalso; destruct Hx; auto; by left.
Qed.

Lemma filter_all {A} (P : A -> Prop) `{!forall x, Decision (P x)} (l : list A) : Forall P l -> filter P l = l.
Proof. induction 1 as [|x l Hx _ IH]; [done|]. by rewrite filter_cons, decide_True, IH. Qed.

Lemma filter_none {A} (P : A -> Prop) `{!forall x, Decision (P x)} (l : list A) :
  Forall (λ x, ~ P x) l -> filter P l = [].
Proof. induction 1 as [|x l Hx _ IH]; [done|]. by rewrite filter_cons, decide_False, IH. Qed.

Lemma sorted_filter (P : dap_store_obj -> Prop) `{!forall x, Decision (P x)} l :
  StronglySorted hlt l -> StronglySorted hlt (filter P l).
Proof.
  induction 1 as [|x l _ IH Hx]; [constructor|]. rewrite filter_cons. destruct (decide (P x)); [|done].
  constructor; [done|]. rewrite Forall_forall in *. intros y [_ Hy]%list_elem_of_filter. by apply Hx.
Qed.

Lemma tput_elem o l x : StronglySorted hlt l -> x ∈ tput o l <-> x = o \/ (x ∈ l /\ hval x <> hval o).
Proof.
  induction 1 as [|y l _ IH Hy]; cbn [tput]; [set_solver|]. rewrite Forall_forall in Hy.
  assert (Hgt : hval o <= hval y -> forall z, z ∈ l -> hval z <> hval o).
  { intros Hle z Hz. specialize (Hy z Hz). unfold hlt in Hy. lia. }
  destruct (Z.ltb_spec (hval o) (hval y)); [|destruct (Z.eqb_spec (hval o) (hval y))].
  - rewrite !elem_of_cons. split; [|tauto]. intros [->|[->|Hx]]; [by left | right | right].
    + split; [by left | lia].
    + split; [by right | apply Hgt; [lia | done]].
  - rewrite !elem_of_cons. split; [|intros [->|[[->|Hx] ?]]; [by left | lia | by right]].
    intros [->|Hx]; [by left | right; split; [by right | apply Hgt; [lia | done]]].
  - rewrite !elem_of_cons, IH. split; [|tauto]. intros [->|[->|[Hx Hne]]]; [right; split; [by left | lia] | by left | tauto].
Qed.

Lemma tput_sorted o l : StronglySorted hlt l -> StronglySorted hlt (tput o l).
Proof.
  induction 1 as [|y l Hl IH Hy]; cbn [tput]; [repeat constructor|]. rewrite Forall_forall in Hy.
  destruct (Z.ltb_spec (hval o) (hval y)); [|destruct (Z.eqb_spec (hval o) (hval y))].
  - constructor; [constructor; [done | by rewrite Forall_forall]|]. apply Forall_forall.
    intros z [->|Hz]%elem_of_cons; unfold hlt in *; [lia|]. specialize (Hy z Hz). lia.
  - constructor; [done|]. apply Forall_forall. intros z Hz. specialize (Hy z Hz). unfold hlt in *. lia.
  - constructor; [done|]. apply Forall_forall. intros z [->|[Hz _]]%tput_elem; [unfold hlt; lia | by apply Hy | done].
Qed.

Lemma tput_keys o l : StronglySorted hlt l -> NoDup (key <$> l) -> key o ∉ key <$> l -> NoDup (key <$> tput o l).
Proof.
  induction 1 as [|y l Hl IH Hy]; cbn [tput fmap list_fmap]; intros Hn Ho; [apply NoDup_singleton|].
  apply NoDup_cons in Hn as [Hyl Hn]. apply not_elem_of_cons in Ho as [Hne Ho].
  destruct (hval o <? hval y); [|destruct (hval o =? hval y)]; cbn [fmap list_fmap]; apply NoDup_cons.
  - split; [by apply not_elem_of_cons | by apply NoDup_cons].
  - done.
  - split; [|by apply IH]. intros (z & E & [->|[Hz _]]%tput_elem)%list_elem_of_fmap; [done| |done].
    apply Hyl. rewrite E. by apply list_elem_of_fmap_2.
Qed.

Lemma filter_keys (P : dap_store_obj -> Prop) `{!forall x, Decision (P x)} l :
  NoDup (key <$> l) -> NoDup (key <$> filter P l).
Proof. intros Hn. eapply sublist_NoDup; [exact Hn|]. apply fmap_sublist, sublist_filter. Qed.

Lemma filter_table (P : dap_store_obj -> Prop) `{!forall x, Decision (P x)} g l :
  table_ok g l -> table_ok g (filter P l).
Proof.
  intros []. split; [|by apply sorted_filter | by apply filter_keys].
  rewrite Forall_forall in *. intros x [_ Hx]%list_elem_of_filter. auto.
Qed.

Lemma write_table o l : table_ok (group o) l -> stored (norm o) -> table_ok (group o) (write_obj o l).
Proof.
  intros Hl Ho. pose proof (filter_table (λ x, key x ≠ key o) _ _ Hl) as Hf. destruct Hf as [Hs Hsort Hk].
  unfold write_obj, without_key. split.
  - rewrite Forall_forall in *. intros x [->|[Hx _]]%tput_elem; auto.
  - by apply tput_sorted.
  - apply tput_keys; [done..|]. intros (z & E & [Hz _]%list_elem_of_filter)%list_elem_of_fmap. by apply Hz.
Qed.

(** What a write does to the records found by key. *)
Lemma find_write o l k : table_ok (group o) l -> stored (norm o) ->
  (forall x, x ∈ l -> hval x = hval o -> key x = key o) ->
  find_key k (write_obj o l) = if decide (k = key o) then Some (norm o) else find_key k l.
Proof.
  intros Hl Ho Hfree. pose proof (write_table _ _ Hl Ho) as [_ _ Hk].
  pose proof (tab_sorted _ _ (filter_table (λ x, key x ≠ key o) _ _ Hl)) as Hs.
  destruct (decide (k = key o)) as [->|Hne].
  - apply find_key_elem; [done|]. split; [|done]. apply tput_elem; [done | by left].
  - assert (Hin : forall x, key x = k -> x ∈ write_obj o l <-> x ∈ l).
    { intros x Hx. unfold write_obj. rewrite (tput_elem (norm o)) by done. unfold without_key.
      rewrite list_elem_of_filter. split; [intros [->|[[_ ?] _]]; [by destruct Hne | done]|].
      intros Hxl. right. split; [split; [congruence | done]|]. intros E. apply Hne. rewrite <- Hx. by apply Hfree. }
    destruct (find_key k l) as [x|] eqn:E.
    + apply find_key_elem in E as [Hx Hkx]; [|apply Hl]. apply find_key_elem; [done|]. split; [by apply Hin | done].
    + apply find_key_None. intros x Hx Hkx. rewrite Hin in Hx by done. by apply (proj1 (find_key_None k l) E x).
Qed.

Lemma erase_table o g l : table_ok g l -> table_ok g (erase_obj o l).
Proof. apply filter_table. Qed.

Lemma empty_table g : table_ok g [].
Proof. split; constructor. Qed.

(** Two records of a table with the same hash are the same. *)
Lemma sorted_inj l x y : StronglySorted hlt l -> x ∈ l -> y ∈ l -> hval x = hval y -> x = y.
Proof.
  induction 1 as [|z l _ IH Hz]; [set_solver|]. rewrite Forall_forall in Hz. unfold hlt in Hz.
  intros [->|Hx]%elem_of_cons [->|Hy]%elem_of_cons E; auto.
  - specialize (Hz y Hy). lia.
  - specialize (Hz x Hx). lia.
Qed.

Lemma upd_same m g l : upd m g l g = l.
Proof. unfold upd. by rewrite decide_True. Qed.

Lemma upd_other m g l g' : g' <> g -> upd m g l g' = m g'.
Proof. intros. unfold upd. by rewrite decide_False. Qed.

(** ** One object through the wrapper *)

Definition printable (o : dap_store_obj) : bool := dap_global_db_isalnum_group_key o false true.

Lemma hval_pos o : obj_ok o -> crc o <> 0 -> 0 < hval o.
Proof. intros [] ?. unfold hval, fits in *. lia. Qed.

Lemma driver_apply_one `{Driver D} (d : D) o : obj_ok o -> crc o <> 0 -> printable o = true ->
  dap_global_db_driver_apply d [(o, false)] = apply_store_obj d o false.
Proof.
  intros Ho Hc Hp. pose proof (hval_pos o Ho Hc) as Hv. destruct Ho as [_ _ _ _ ??].
  unfold dap_global_db_driver_apply. rewrite !bool_decide_false by (done || cbn; lia). cbn [driver_apply_loop].
  unfold dap_global_db_driver_hash_get.
  rewrite hash_blank by done. fold (hval o). rewrite (proj2 (Z.eqb_neq _ 0)) by lia.
  unfold dap_global_db_isalnum_group_key. unfold printable, dap_global_db_isalnum_group_key in Hp. rewrite Hp.
  cbn [negb]. destruct (apply_store_obj d o false) as [f|[rc d']]; cbn [mbind res_bind]; [done|].
  by destruct (Z.eqb_spec rc 0) as [->|].
Qed.

Lemma direct_start `{Direct D} (d : D) : (dap_global_db_driver_txn_start d).2 = d.
Proof. unfold dap_global_db_driver_txn_start. by rewrite no_transaction_start. Qed.

Lemma direct_end `{Direct D} (d : D) commit : (dap_global_db_driver_txn_end d commit).2 = d.
Proof. unfold dap_global_db_driver_txn_end. by rewrite no_transaction_end. Qed.

(** ** Drivers with transactions *)

(** Any driver with the callbacks the SQLite driver registers, BEGIN and COMMIT
    or ROLLBACK, when they succeed: [saved] is the database at the last BEGIN. *)
Record TxnDriver (D : Type) := InTxn { current : D; saved : option D }.
Arguments InTxn {D} _ _.
Arguments current {D} _.
Arguments saved {D} _.

Definition begin_txn {D} (t : TxnDriver D) : Z * TxnDriver D := (0, InTxn (current t) (Some (current t))).

Definition end_txn {D} (t : TxnDriver D) (a_commit : bool) : Z * TxnDriver D :=
  (0, InTxn (if a_commit then current t else default (current t) (saved t)) None).

#[export] Instance txn_driver {D} `{Driver D} : Driver (TxnDriver D) := {
  apply_store_obj t o n := '(rc, d) ← apply_store_obj (current t) o n; mret (rc, InTxn d (saved t));
  read_store_obj t := read_store_obj (current t);
  read_all_store_obj t := read_all_store_obj (current t);
  read_last_store_obj t := read_last_store_obj (current t);
  read_store_obj_by_timestamp t := read_store_obj_by_timestamp (current t);
  read_cond_store_obj t := read_cond_store_obj (current t);
  read_hashes t := read_hashes (current t);
  read_count_store t := read_count_store (current t);
  get_groups_by_mask t := get_groups_by_mask (current t);
  is_obj t := is_obj (current t);
  is_hash t := is_hash (current t);
  get_by_hash t := get_by_hash (current t);
  transaction_start := Some begin_txn;
  transaction_end := Some end_txn;
}.
