(* ===== verification/GdbMdbx.v ===== *)
(** * The MDBX driver of the database (global-db/dap_global_db_driver_mdbx.c)

    Records of a group live in an ordered table of the key-value store MDBX:
    the key is the driver hash (timestamp and checksum, big-endian), the data a
    packed [driver_record].  The store is third-party code: the class [Mdbx]
    has the calls the driver makes and what their documentation promises.  A
    transaction is a copy of the store that [mdbx_txn_commit] installs;
    read-only transactions and allocations succeed, writing calls and commits
    may return an error.  A handle of a table is the table's name as long as it
    is open: the handle of a table that a transaction created is closed when
    that transaction does not commit, the driver keeps its context nevertheless
    and any use of it is the fault [StaleHandle] (mdbx.h: misbehavior from
    database corruption to MDBX_BAD_DBI).  The driver is entered by one thread
    at a time (its lock of the table of contexts is held and released inside
    each call).

    The transaction entry points are left out because the driver's own
    initialization disables them ([transaction_start] is [None]). *)

From S2P Require Import Prelude GdbPkt GdbDriver.
From stdpp Require Import list sets sorting.
Local Open Scope Z_scope.

(** ** The store *)

Definition MDBX_SUCCESS : Z := 0.
Definition MDBX_NOTFOUND : Z := -30798.
Definition MDBX_PROBLEM : Z := -30779.
Definition EINVAL : Z := 22.
Definition EIO : Z := 5.
Definition MDBX_EINVAL : Z := EINVAL.

Definition entry : Type := list Z * list Z.

Fixpoint kv_put (k v : list Z) (es : list entry) : list entry :=
  match es with
  | [] => [(k, v)]
  | (k', v') :: es' =>
    if memcmp k k' <? 0 then (k, v) :: es
    else if memcmp k k' =? 0 then (k, v) :: es' else (k', v') :: kv_put k v es'
  end.

Definition kv_del (k : list Z) (es : list entry) : list entry := filter (λ e, e.1 ≠ k) es.

Definition kv_get (k : list Z) (es : list entry) : option (list Z) :=
  p ← list_find (λ e, e.1 = k) es; Some p.2.2.

(** [mdbx_entries d t] is what a cursor meets from [MDBX_FIRST] by [MDBX_NEXT]
    in the table [t], [mdbx_exists d t] tells that the store has that table. *)
Class Mdbx (mdb : Type) := {
  mdbx_entries : mdb -> list Z -> list entry;
  mdbx_exists : mdb -> list Z -> bool;
  mdbx_put : mdb -> list Z -> list Z -> list Z -> Z * mdb;
  mdbx_put_nooverwrite : mdb -> list Z -> list Z -> list Z -> Z * mdb;
  mdbx_del : mdb -> list Z -> list Z -> Z * mdb;
  mdbx_drop : mdb -> list Z -> Z * mdb;
  mdbx_dbi_open : mdb -> list Z -> Z * mdb;
  mdbx_txn_begin : mdb -> Z * mdb;
  mdbx_txn_commit : mdb -> mdb -> Z * mdb;
  mdbx_put_ok d t k v d' : mdbx_put d t k v = (MDBX_SUCCESS, d') ->
    mdbx_entries d' t = kv_put k v (mdbx_entries d t) /\
    forall t', t' <> t -> mdbx_entries d' t' = mdbx_entries d t';
  mdbx_put_nooverwrite_ok d t k v t' : t' <> t ->
    mdbx_entries (mdbx_put_nooverwrite d t k v).2 t' = mdbx_entries d t';
  mdbx_del_ok d t k d' : mdbx_del d t k = (MDBX_SUCCESS, d') ->
    mdbx_entries d' t = kv_del k (mdbx_entries d t) /\
    forall t', t' <> t -> mdbx_entries d' t' = mdbx_entries d t';
  mdbx_del_notfound d t k d' : mdbx_del d t k = (MDBX_NOTFOUND, d') ->
    kv_get k (mdbx_entries d t) = None /\ forall t', mdbx_entries d' t' = mdbx_entries d t';
  mdbx_drop_ok d t d' : mdbx_drop d t = (MDBX_SUCCESS, d') ->
    mdbx_entries d' t = [] /\ forall t', t' <> t -> mdbx_entries d' t' = mdbx_entries d t';
  mdbx_dbi_open_ok d t t' : mdbx_entries (mdbx_dbi_open d t).2 t' = mdbx_entries d t';
  mdbx_txn_begin_ok d x t : mdbx_txn_begin d = (MDBX_SUCCESS, x) -> mdbx_entries x t = mdbx_entries d t;
  mdbx_txn_commit_ok d x rc d' t : mdbx_txn_commit d x = (rc, d') ->
    mdbx_entries d' t = mdbx_entries (if rc =? MDBX_SUCCESS then x else d) t;
}.

(** ** Records *)

(** Fields of [struct driver_record]. *)
Definition sizeof_record : Z := 25.
Definition rec_key_len (m : list Z) : option Z := mem_le m 0 8.
Definition rec_value_len (m : list Z) : option Z := mem_le m 8 8.
Definition rec_sign_len (m : list Z) : option Z := mem_le m 16 8.
Definition rec_flags (m : list Z) : option Z := mem_le m 24 1.

(** A code and, when it is zero, the object. *)
Definition s_fill_store_obj (a_group : list Z) (a_key a_data : list Z) : res (Z * option dap_store_obj) :=
  let iov_len := Z.of_nat (length a_data) in
  if bool_decide (a_group = []) then mret (-2, None) else
  if negb (Z.of_nat (length a_key) =? 16) then mret (-4, None) else
  let l_ts := be_value (take 8 a_key) in
  let l_crc := be_value (drop 8 a_key) in
  if iov_len <? sizeof_record then mret (-6, None) else
  kl ← mem (rec_key_len a_data);
  vl ← mem (rec_value_len a_data);
  sl ← mem (rec_sign_len a_data);
  if iov_len <? wrap 64 (sizeof_record + sl + vl + kl) then mret (-6, None) else
  c ← (if kl =? 0 then mret 0 else mem (mem_le a_data sizeof_record 1));
  if c =? 0 then mret (-9, None) else
  k ← mem (mem_read a_data sizeof_record kl);
  l_key ← mem (c_text k);
  fl ← mem (rec_flags a_data);
  l_value ← (if vl =? 0 then mret [] else mem (mem_read a_data (sizeof_record + kl) vl));
  l_sign ← (if sl <? sizeof_sign then mret (Some None) else
            size ← mem (dap_sign_get_size a_data (sizeof_record + kl + vl));
            if negb (size =? sl) then mret None else
            s ← mem (mem_read a_data (sizeof_record + kl + vl) sl); mret (Some (Some s)));
  match l_sign with
  | None => mret (-6, None)
  | Some l_sign => mret (0, Some (StoreObj a_group l_key l_value fl l_sign l_ts l_crc None))
  end.

(** The walk from [MDBX_FIRST]; [None] is [MDBX_NOTFOUND]. *)
Fixpoint s_get_obj_by_text_key (es : list entry) (a_text_key : list Z) : res (option entry) :=
  match es with
  | [] => mret None
  | (k, d) :: es =>
    let l_key_len := Z.of_nat (length a_text_key) + 1 in
    hit ← (if sizeof_record + l_key_len <? Z.of_nat (length d) then
             kl ← mem (rec_key_len d);
             if l_key_len =? kl then
               t ← mem (mem_read d sizeof_record l_key_len); mret (memcmp t (a_text_key ++ [0]) =? 0)
             else mret false
           else mret false);
    if hit : bool then mret (Some (k, d)) else s_get_obj_by_text_key es a_text_key
  end.

Definition s_is_hole (d : list Z) : option bool :=
  fl ← rec_flags d; Some (has_flag fl DAP_GLOBAL_DB_RECORD_DEL).

(** The block [mdbx_put] stores for an object; [None] when the signature has
    no size. *)
Definition make_record (o : dap_store_obj) : res (option (list Z)) :=
  let l_key := take (Z.to_nat (DAP_GLOBAL_DB_KEY_SIZE_MAX - 1)) (key o) in
  let l_key_len := Z.of_nat (length l_key) + 1 in
  let value_len := Z.of_nat (length (value o)) in
  l_sign ← match sign o with
           | None => mret (Some [])
           | Some s =>
             l ← mem (dap_sign_get_size s 0);
             if l =? 0 then mret None else b ← mem (mem_read s 0 l); mret (Some b)
           end;
  match l_sign with
  | None => mret None
  | Some l_sign =>
    mret (Some (fields [(8%nat, l_key_len); (8%nat, value_len); (8%nat, Z.of_nat (length l_sign));
                        (1%nat, Z.land (flags o) (Z.lnot DAP_GLOBAL_DB_RECORD_NEW))]
                ++ l_key ++ [0] ++ value o ++ l_sign))
  end.

(** ** Operations *)

Section Driver.
Context {mdb : Type} `{Mdbx mdb}.

(** [s_db_ctxs] has the names of the groups that have a context, in order of
    insertion, [closed] those of them whose handle the store has closed. *)
Record mdbx_state := MdbxState { s_db_ctxs : list (list Z); closed : list (list Z); s_mdbx_env : mdb }.

Definition s_db_master_tbl : list Z := [77; 68; 66; 88; 36; 77; 65; 83; 84; 69; 82].

Definition s_get_db_ctx_for_group (st : mdbx_state) (a_group : list Z) : bool :=
  bool_decide (a_group ∈ s_db_ctxs st).

(** The table's entries as a read-only transaction sees them by the handle of
    the group's context. *)
Definition table (st : mdbx_state) (a_group : list Z) : list entry := mdbx_entries (s_mdbx_env st) a_group.

Definition usable (st : mdbx_state) (a_group : list Z) : Prop := a_group ∉ closed st.

Definition open_table (st : mdbx_state) (a_group : list Z) : res (list entry) :=
  if bool_decide (a_group ∈ closed st) then inl StaleHandle else mret (table st a_group).

(** The state once a transaction that left the contexts [ctxs] was aborted, the
    store being [e]: the handles of the tables it created are closed. *)
Definition aborted (st : mdbx_state) (ctxs : list (list Z)) (e : mdb) : mdbx_state :=
  MdbxState ctxs (closed st ++ filter (λ g, g ∉ s_db_ctxs st /\ mdbx_exists (s_mdbx_env st) g = false) ctxs) e.

(** In the transaction [t]: the new contexts and transaction, [None] for
    [NULL]. *)
Definition s_cre_db_ctx_for_group (ctxs : list (list Z)) (t : mdb) (a_group : list Z)
    : option (list (list Z)) * mdb :=
  if bool_decide (a_group ∈ ctxs) then (Some ctxs, t) else
  if DAP_GLOBAL_DB_GROUP_NAME_SIZE_MAX <? Z.of_nat (length a_group) then (None, t) else
  let '(rc, t) := mdbx_dbi_open t a_group in
  if negb (rc =? MDBX_SUCCESS) then (None, t) else
  let '(_, t) := mdbx_put_nooverwrite t s_db_master_tbl (a_group ++ [0]) (a_group ++ [0]) in
  (Some (ctxs ++ [a_group]), t).

(** Once the group's table is open. *)
Definition apply_store_obj_open (t : mdb) (o : dap_store_obj) : res (Z * mdb) :=
  if negb (has_flag (flags o) DAP_GLOBAL_DB_RECORD_ERASE) then
    r ← s_get_obj_by_text_key (mdbx_entries t (group o)) (key o);
    let '(rc, t) := match r with
                    | None => (MDBX_NOTFOUND, t)
                    | Some (k, _) => mdbx_del t (group o) k
                    end in
    if negb (rc =? MDBX_SUCCESS) && negb (rc =? MDBX_NOTFOUND) then mret (rc, t) else
    l_record ← make_record o;
    match l_record with
    | None => mret (MDBX_EINVAL, t)
    | Some l_record => mret (mdbx_put t (group o) (dap_global_db_driver_hash_get o) l_record)
    end
  else
    r ← (if negb (crc o =? 0) && negb (timestamp o =? 0)
         then mret (Some (dap_global_db_driver_hash_get o))
         else e ← s_get_obj_by_text_key (mdbx_entries t (group o)) (key o); mret (fst <$> e));
    match r with
    | None => mret (MDBX_NOTFOUND, t)
    | Some k =>
      let '(rc, t) := mdbx_del t (group o) k in
      mret (if rc =? MDBX_NOTFOUND then (1, t) else (rc, t))
    end.

Definition s_db_mdbx_apply_store_obj_with_txn (st : mdbx_state) (t : mdb) (o : dap_store_obj)
    : res (Z * list (list Z) * mdb) :=
  let ctxs := s_db_ctxs st in
  if (crc o =? 0) || bool_decide (key o = []) then mret (- EINVAL, ctxs, t) else
  if bool_decide (group o ∈ ctxs) then
    if bool_decide (group o ∈ closed st) then inl StaleHandle else
    '(rc, t) ← apply_store_obj_open t o; mret (rc, ctxs, t)
  else if has_flag (flags o) DAP_GLOBAL_DB_RECORD_ERASE then mret (1, ctxs, t) else
  match s_cre_db_ctx_for_group ctxs t (group o) with
  | (None, t) => mret (- EIO, ctxs, t)
  | (Some ctxs, t) => '(rc, t) ← apply_store_obj_open t o; mret (rc, ctxs, t)
  end.

(** [null_key]: the object's key is [NULL]. *)
Definition s_db_mdbx_apply_store_obj (st : mdbx_state) (o : dap_store_obj) (null_key : bool)
    : res (Z * mdbx_state) :=
  if has_flag (flags o) DAP_GLOBAL_DB_RECORD_ERASE && null_key then
    if negb (s_get_db_ctx_for_group st (group o)) then mret (MDBX_SUCCESS, st) else
    let '(rc, t) := mdbx_txn_begin (s_mdbx_env st) in
    if negb (rc =? MDBX_SUCCESS) then mret (rc, st) else
    if bool_decide (group o ∈ closed st) then inl StaleHandle else
    let '(rc, t) := mdbx_drop t (group o) in
    if negb (rc =? MDBX_SUCCESS) then mret (-6, st) else
    let '(rc, t) := mdbx_del t s_db_master_tbl (group o ++ [0]) in
    if negb (rc =? MDBX_SUCCESS) then mret (-6, st) else
    let '(rc, e) := mdbx_txn_commit (s_mdbx_env st) t in
    if negb (rc =? MDBX_SUCCESS) then mret (-6, MdbxState (s_db_ctxs st) (closed st) e)
    else mret (0, MdbxState (filter (λ g, g ≠ group o) (s_db_ctxs st)) (closed st) e)
  else
    let '(rc, t) := mdbx_txn_begin (s_mdbx_env st) in
    if negb (rc =? MDBX_SUCCESS) then mret (rc, st) else
    if null_key then mret (- EINVAL, st) else
    '(rc, ctxs, t) ← s_db_mdbx_apply_store_obj_with_txn st t o;
    if negb (rc =? MDBX_SUCCESS) then mret (rc, aborted st ctxs (s_mdbx_env st))
    else
      let '(rc2, e) := mdbx_txn_commit (s_mdbx_env st) t in
      mret (rc, if rc2 =? MDBX_SUCCESS then MdbxState ctxs (closed st) e else aborted st ctxs e).

Definition s_db_mdbx_is_obj (st : mdbx_state) (a_group a_key : list Z) : res bool :=
  if negb (s_get_db_ctx_for_group st a_group) then mret false else
  es ← open_table st a_group;
  r ← s_get_obj_by_text_key es a_key; mret (bool_decide (is_Some r)).

Definition s_db_mdbx_is_hash (st : mdbx_state) (a_group a_hash : list Z) : res bool :=
  if negb (s_get_db_ctx_for_group st a_group) then mret false else
  es ← open_table st a_group; mret (bool_decide (is_Some (kv_get a_hash es))).

(** [s_db_mdbx_read_store_obj] with a key. *)
Definition s_db_mdbx_read_store_obj (st : mdbx_state) (a_group a_key : list Z) (a_with_holes : bool)
    : res (option dap_store_obj) :=
  if negb (s_get_db_ctx_for_group st a_group) then mret None else
  es ← open_table st a_group;
  r ← s_get_obj_by_text_key es a_key;
  match r with
  | None => mret None
  | Some (k, d) =>
    hole ← (if a_with_holes then mret false else mem (s_is_hole d));
    if hole : bool then mret None else '(_, o) ← s_fill_store_obj a_group k d; mret o
  end.

(** [MDBX_LAST], then [MDBX_PREV] over the holes: the walk of the reversed
    table. *)
Fixpoint read_last_loop (a_group : list Z) (a_with_holes : bool) (es : list entry) : res (option dap_store_obj) :=
  match es with
  | [] => mret None
  | (k, d) :: es =>
    hole ← (if a_with_holes then mret false else mem (s_is_hole d));
    if hole : bool then read_last_loop a_group a_with_holes es
    else '(_, o) ← s_fill_store_obj a_group k d; mret o
  end.

Definition s_db_mdbx_read_last_store_obj (st : mdbx_state) (a_group : list Z) (a_with_holes : bool)
    : res (option dap_store_obj) :=
  if negb (s_get_db_ctx_for_group st a_group) then mret None else
  es ← open_table st a_group; read_last_loop a_group a_with_holes (rev es).

(** One pass of the cursor: [emit] is the loop body, [stop] the bound of the
    backward variant, [left] what [l_count_out] still allows.  The elements and
    the final [rc]. *)
Fixpoint cond_loop {A} (emit : entry -> res (Z * option A)) (stop : entry -> bool) (es : list entry) (left : nat)
    : res (list A * Z) :=
  match es with
  | [] => mret ([], MDBX_NOTFOUND)
  | e :: es =>
    if stop e then mret ([], MDBX_SUCCESS) else
    '(rc, r) ← emit e;
    if negb (rc =? 0) then mret ([], MDBX_PROBLEM) else
    let left := match r with Some _ => pred left | None => left end in
    if bool_decide (left = O) then mret (option_list r, MDBX_SUCCESS)
    else '(l, rc) ← cond_loop emit stop es left; mret (option_list r ++ l, rc)
  end.

(** [MDBX_SET_UPPERBOUND]: the entries after the given key. *)
Fixpoint after_key (h : list Z) (es : list entry) : list entry :=
  match es with
  | [] => []
  | e :: es' => if 0 <? memcmp e.1 h then es else after_key h es'
  end.

Definition s_db_mdbx_read_cond {A} (emit : entry -> res (Z * option A)) (st : mdbx_state) (a_group a_hash_from : list Z)
    (l_count_out : Z) (a_prev : bool) : res (option (page A)) :=
  if bool_decide (a_group = []) || negb (s_get_db_ctx_for_group st a_group) then mret None else
  let below e := 0 <=? memcmp e.1 a_hash_from in
  es ← open_table st a_group;
  let es := if a_prev then es else after_key a_hash_from es in
  match es with
  | [] => mret None
  | e :: _ =>
    if a_prev && below e then mret None else
    '(l, rc) ← cond_loop emit (λ e, a_prev && below e) es (Z.to_nat l_count_out);
    if rc =? MDBX_NOTFOUND then
      mret (if bool_decide (l = []) then None else Some (Page l true))
    else mret (Some (Page l false))
  end.

Definition emit_hash (e : entry) : res (Z * option (list Z)) :=
  mret (0, if Z.of_nat (length e.1) =? 16 then Some e.1 else None).

Definition emit_obj (a_group : list Z) (a_with_holes : bool) (e : entry) : res (Z * option dap_store_obj) :=
  hole ← (if a_with_holes then mret false else mem (s_is_hole e.2));
  if hole : bool then mret (0, None) else s_fill_store_obj a_group e.1 e.2.

Definition s_db_mdbx_read_hashes (st : mdbx_state) (a_group a_hash_from : list Z) : res (option (page (list Z))) :=
  s_db_mdbx_read_cond emit_hash st a_group a_hash_from DAP_GLOBAL_DB_COND_READ_KEYS_DEFAULT false.

(** [a_count] is [*a_count_out], zero for the default. *)
Definition cond_count (a_count : Z) : Z := if a_count =? 0 then DAP_GLOBAL_DB_COND_READ_COUNT_DEFAULT else a_count.

Definition s_db_mdbx_read_cond_store_obj (st : mdbx_state) (a_group a_hash_from : list Z) (a_count : Z)
    (a_with_holes : bool) : res (option (page dap_store_obj)) :=
  s_db_mdbx_read_cond (emit_obj a_group a_with_holes) st a_group a_hash_from (cond_count a_count) false.

Definition s_db_mdbx_read_store_obj_below_timestamp (st : mdbx_state) (a_group : list Z) (a_timestamp a_count : Z)
    : res (option (page dap_store_obj)) :=
  s_db_mdbx_read_cond (emit_obj a_group true) st a_group (be_bytes 8 a_timestamp ++ replicate 8 255)
    (cond_count a_count) true.

Fixpoint count_loop (a_with_holes : bool) (es : list entry) : res Z :=
  match es with
  | [] => mret 0
  | e :: es =>
    hole ← (if a_with_holes then mret false else mem (s_is_hole e.2));
    n ← count_loop a_with_holes es; mret (if hole : bool then n else n + 1)
  end.

Definition s_db_mdbx_read_count_store (st : mdbx_state) (a_group a_hash_from : list Z) (a_with_holes : bool) : res Z :=
  if negb (s_get_db_ctx_for_group st a_group) then mret 0 else
  es ← open_table st a_group;
  if dap_global_db_driver_hash_is_blank a_hash_from && a_with_holes
  then mret (Z.of_nat (length es))
  else count_loop a_with_holes (after_key a_hash_from es).

(** [s_db_mdbx_read_store_obj] without a key; [a_count] is [*a_count_out]. *)
Fixpoint read_all_loop (a_group : list Z) (a_with_holes : bool) (es : list entry) (left : nat)
    : res (list dap_store_obj) :=
  match es with
  | [] => mret []
  | e :: es =>
    '(rc, r) ← emit_obj a_group a_with_holes e;
    if negb (rc =? 0) then mret [] else
    let left := match r with Some _ => pred left | None => left end in
    if bool_decide (left = O) then mret (option_list r)
    else l ← read_all_loop a_group a_with_holes es left; mret (option_list r ++ l)
  end.

Definition s_db_mdbx_read_all (st : mdbx_state) (a_group : list Z) (a_count : Z) (a_with_holes : bool)
    : res (option (list dap_store_obj)) :=
  if negb (s_get_db_ctx_for_group st a_group) then mret None else
  es ← open_table st a_group;
  let ms_entries := Z.of_nat (length es) in
  if ms_entries =? 0 then mret None else
  let l_count_out := if negb (a_count =? 0) && (a_count <=? ms_entries) then a_count else ms_entries in
  l ← read_all_loop a_group a_with_holes es (Z.to_nat l_count_out);
  mret (if bool_decide (l = []) then None else Some l).

(** What the body of the loop does with a record it found: nothing; a place in
    the pack that stays unused, and the loop goes on or ends; a packet. *)
Inductive pkt_result := PktSkip | PktUnused | PktBreak | PktDone (p : list Z).

Definition record_pkt (a_group : list Z) (h d : list Z) : res pkt_result :=
  let iov_len := Z.of_nat (length d) in
  if iov_len <? sizeof_record then mret PktSkip else
  kl ← mem (rec_key_len d);
  vl ← mem (rec_value_len d);
  sl ← mem (rec_sign_len d);
  if iov_len <? wrap 64 (sizeof_record + sl + vl + kl) then mret PktSkip else
  let group_len := Z.of_nat (length a_group) + 1 in
  let l_data_len := wrap 64 (kl + vl + sl + group_len) in
  if bool_decide (a_group = []) then mret PktBreak else
  c ← (if kl =? 0 then mret 0 else mem (mem_le d sizeof_record 1));
  if c =? 0 then mret PktBreak else
  fl ← mem (rec_flags d);
  k ← mem (mem_read d sizeof_record kl);
  v ← (if vl =? 0 then mret [] else mem (mem_read d (sizeof_record + kl) vl));
  s ← (if sl <? sizeof_sign then mret (Some []) else
       size ← mem (dap_sign_get_size d (sizeof_record + kl + vl));
       if negb (size =? sl) then mret None else
       s ← mem (mem_read d (sizeof_record + kl + vl) sl); mret (Some s));
  match s with
  | None => mret PktUnused
  | Some s =>
    let data := a_group ++ [0] ++ k ++ v ++ s in
    if negb (Z.of_nat (length data) =? l_data_len) then inl AssertFailed else
    mret (PktDone (pkt_header (be_value (drop 8 h)) (be_value (take 8 h)) group_len kl vl l_data_len
                     (Z.land fl DAP_GLOBAL_DB_RECORD_DEL) ++ data))
  end.

(** Whether a pack was allocated, and its packets in the order of the
    request. *)
Fixpoint get_by_hash_loop (a_group : list Z) (es : list entry) (a_hashes : list (list Z))
    : res (bool * list (list Z)) :=
  match a_hashes with
  | [] => mret (false, [])
  | h :: a_hashes =>
    match kv_get h es with
    | None => get_by_hash_loop a_group es a_hashes
    | Some d =>
      r ← record_pkt a_group h d;
      match r with
      | PktSkip => get_by_hash_loop a_group es a_hashes
      | PktBreak => mret (true, [])
      | PktUnused => '(_, l) ← get_by_hash_loop a_group es a_hashes; mret (true, l)
      | PktDone p => '(_, l) ← get_by_hash_loop a_group es a_hashes; mret (true, p :: l)
      end
    end
  end.

(** The pack: its header and the packets one after the other. *)
Definition s_db_mdbx_get_by_hash (st : mdbx_state) (a_group : list Z) (a_hashes : list (list Z))
    : res (option (list Z)) :=
  if bool_decide (a_hashes = []) || negb (s_get_db_ctx_for_group st a_group) then mret None else
  es ← open_table st a_group;
  '(alloc, l) ← get_by_hash_loop a_group es a_hashes;
  mret (if alloc : bool
        then Some (fields [(8%nat, Z.of_nat (length (concat l))); (4%nat, Z.of_nat (length l))] ++ concat l)
        else None).

Definition s_db_mdbx_get_groups_by_mask (st : mdbx_state) (a_group_mask : list Z) : list (list Z) :=
  filter (λ g, dap_global_db_group_match_mask g a_group_mask) (s_db_ctxs st).
End Driver.
Arguments mdbx_state : clear implicits.

(** ** Records and their blocks *)

Definition rec_fields (o : dap_store_obj) : list (nat * Z) :=
  [(8%nat, Z.of_nat (length (key o)) + 1); (8%nat, Z.of_nat (length (value o)));
   (8%nat, Z.of_nat (length (sign_bytes o))); (1%nat, flags o)].

Definition rec_bytes (o : dap_store_obj) : list Z :=
  fields (rec_fields o) ++ key o ++ [0] ++ value o ++ sign_bytes o.

Definition enc (o : dap_store_obj) : entry := (dap_global_db_driver_hash_get o, rec_bytes o).

Lemma length_rec_bytes o :
  Z.of_nat (length (rec_bytes o))
  = 26 + Z.of_nat (length (key o)) + Z.of_nat (length (value o)) + Z.of_nat (length (sign_bytes o)).
Proof.
  unfold rec_bytes. rewrite !length_app, length_fields. change (fields_len (rec_fields o)) with 25%nat. cbn [length]. lia.
Qed.

Lemma stored_sizes o : stored o ->
  0 < Z.of_nat (length (key o)) < 512 /\
  Z.of_nat (length (key o)) + Z.of_nat (length (value o)) + Z.of_nat (length (sign_bytes o)) + 29 < 2 ^ 32.
Proof. intros [[[? _] [? _] Hsz _ _ _] ? _ _ _ _ _]. unfold body_len in Hsz. lia. Qed.

Lemma rec_fields_read o post : stored o ->
  rec_key_len (fields (rec_fields o) ++ post) = Some (Z.of_nat (length (key o)) + 1) /\
  rec_value_len (fields (rec_fields o) ++ post) = Some (Z.of_nat (length (value o))) /\
  rec_sign_len (fields (rec_fields o) ++ post) = Some (Z.of_nat (length (sign_bytes o))) /\
  rec_flags (fields (rec_fields o) ++ post) = Some (flags o).
Proof.
  intros Ho. pose proof (stored_sizes o Ho). destruct (st_flags o Ho) as [Hf _]. split_and!.
  - apply (mem_le_field [] 8). unfold fits. lia.
  - apply (mem_le_field [(8%nat, Z.of_nat (length (key o)) + 1)] 8). unfold fits. lia.
  - apply (mem_le_field [(8%nat, Z.of_nat (length (key o)) + 1); (8%nat, Z.of_nat (length (value o)))] 8).
    unfold fits. lia.
  - by apply (mem_le_field [(8%nat, Z.of_nat (length (key o)) + 1); (8%nat, Z.of_nat (length (value o)));
      (8%nat, Z.of_nat (length (sign_bytes o)))] 1).
Qed.

Lemma length_rec_header o : Z.of_nat (length (fields (rec_fields o))) = sizeof_record.
Proof. by rewrite length_fields. Qed.

(** A field of a record, by its offset. *)
Lemma rec_read o pre d post off : off = Z.of_nat (length pre) + sizeof_record ->
  mem_read (fields (rec_fields o) ++ pre ++ d ++ post) off (Z.of_nat (length d)) = Some d.
Proof.
  intros ->. rewrite app_assoc. rewrite <- (length_rec_header o), Z.add_comm, <- Nat2Z.inj_add, <- length_app.
  apply mem_read_app.
Qed.

Lemma sign_ok_size s : sign_ok (Some s) -> Forall (fits 8) s -> sizeof_sign <= Z.of_nat (length s).
Proof.
  intros [E Hl] Hb. unfold dap_sign_get_size in E. destruct (mem_le s 0 4) as [t|]; [|discriminate E].
  cbn [mbind option_bind] in E. destruct (t =? SIG_TYPE_NULL); [injection E; lia|].
  destruct (mem_le s (0 + 6) 4) as [a|] eqn:Ea; [|discriminate E].
  destruct (mem_le s (0 + 10) 4) as [b|] eqn:Eb; [|discriminate E].
  apply mem_le_fits in Ea; [|done]. apply mem_le_fits in Eb; [|done].
  cbn [mbind option_bind] in E. injection E as E. unfold fits in *. lia.
Qed.

Lemma make_record_norm o : stored (norm o) -> make_record o = inr (Some (rec_bytes (norm o))).
Proof.
  intros Ho. pose proof (st_key _ Ho) as Hk. cbn [key norm] in Hk. unfold make_record.
  replace (take _ (key o)) with (key o) by (symmetry; apply take_ge; unfold DAP_GLOBAL_DB_KEY_SIZE_MAX; lia).
  pose proof (ok_sign _ (st_ok _ Ho)) as Hs. cbn [sign norm] in Hs. unfold rec_bytes, rec_fields, sign_bytes.
  cbn [sign key value flags norm].
  destruct (sign o) as [s|]; [|reflexivity]. destruct Hs as [Es Hl]. rewrite Es. cbn [mem mbind res_bind].
  rewrite (proj2 (Z.eqb_neq _ 0)) by lia. rewrite (mem_read_all _ _ eq_refl). done.
Qed.

Lemma hash_split ts c : fits 64 ts -> fits 64 c ->
  be_value (take 8 (hash_bytes ts c)) = ts /\ be_value (drop 8 (hash_bytes ts c)) = c.
Proof.
  intros. unfold hash_bytes. rewrite take_app_length', drop_app_length' by (by rewrite length_be_bytes).
  by rewrite !be_value_bytes.
Qed.

(** The variable part of a stored block: key, first character of the key, value
    and signature. *)
Lemma rec_key_read o : stored o ->
  mem_read (rec_bytes o) sizeof_record (Z.of_nat (length (key o)) + 1) = Some (key o ++ [0]) /\
  exists c, c <> 0 /\ mem_le (rec_bytes o) sizeof_record 1 = Some c.
Proof.
  intros Ho. pose proof (stored_sizes o Ho) as [Hk _]. destruct (ok_key o (st_ok o Ho)) as [_ Hkz]. split.
  - pose proof (rec_read o [] (key o ++ [0]) (value o ++ sign_bytes o) sizeof_record eq_refl) as E.
    rewrite length_app, <- app_assoc, Nat2Z.inj_add in E. exact E.
  - unfold rec_bytes. destruct (key o) as [|c k]; [cbn in Hk; lia|]. inversion_clear Hkz as [|?? Hc0 _]. exists c.
    split; [done|]. unfold mem_le.
    pose proof (rec_read o [] [c] (k ++ [0] ++ value o ++ sign_bytes o) sizeof_record eq_refl) as E.
    cbn [app length] in *. rewrite E. cbn [mbind option_bind le_value]. f_equal. lia.
Qed.

Lemma rec_value_read o : 
  (if Z.of_nat (length (value o)) =? 0 then mret []
   else mem (mem_read (rec_bytes o) (sizeof_record + (Z.of_nat (length (key o)) + 1)) (Z.of_nat (length (value o)))))
  = inr (value o) :> res (list Z).
Proof.
  destruct (Z.eqb_spec (Z.of_nat (length (value o))) 0) as [E|E]; [destruct (value o); [done | cbn in E; lia]|].
  pose proof (rec_read o (key o ++ [0]) (value o) (sign_bytes o)) as E'. rewrite <- app_assoc in E'. cbn [app] in *.
  unfold rec_bytes. cbn [app]. rewrite E'; [done|]. rewrite length_app. cbn [length]. unfold sizeof_record. lia.
Qed.

Lemma rec_sign_read o s : stored o -> sign o = Some s ->
  let off := sizeof_record + (Z.of_nat (length (key o)) + 1) + Z.of_nat (length (value o)) in
  sizeof_sign <= Z.of_nat (length s) /\
  dap_sign_get_size (rec_bytes o) off = Some (Z.of_nat (length s)) /\
  mem_read (rec_bytes o) off (Z.of_nat (length s)) = Some s.
Proof.
  intros Ho Es off. pose proof (ok_sign o (st_ok o Ho)) as Hs. pose proof (st_sign o Ho) as Hb.
  unfold sign_bytes in Hb. rewrite Es in Hs, Hb. cbn [default from_option id] in Hb.
  assert (Eo : off = Z.of_nat (length (fields (rec_fields o) ++ key o ++ [0] ++ value o))).
  { unfold off. rewrite !length_app, !Nat2Z.inj_add, length_rec_header. cbn [length]. lia. }
  assert (Eb : rec_bytes o = (fields (rec_fields o) ++ key o ++ [0] ++ value o) ++ s ++ []).
  { rewrite app_nil_r. unfold rec_bytes, sign_bytes. rewrite Es, <- !app_assoc. done. }
  rewrite Eb, Eo. split_and!; [by apply sign_ok_size | apply sign_size_inside; [apply Hs | done] | apply mem_read_app].
Qed.

(** A stored block is read back as the record. *)
Lemma fill_enc o : stored o -> s_fill_store_obj (group o) (enc o).1 (enc o).2 = inr (0, Some o).
Proof.
  intros Ho. pose proof (stored_sizes o Ho) as [Hk Hsz]. pose proof (length_rec_bytes o) as Hl.
  destruct (st_ok o Ho) as [[Hg _] [_ Hkz] _ _ Hc Ht].
  unfold s_fill_store_obj. rewrite bool_decide_false by (destruct (group o); [cbn in Hg; lia | done]).
  cbn [enc fst snd]. unfold dap_global_db_driver_hash_get. rewrite length_hash_bytes, Z.eqb_refl. cbn [negb].
  rewrite Hl, (proj2 (Z.ltb_ge _ sizeof_record)) by (unfold sizeof_record; lia).
  destruct (rec_fields_read o (key o ++ [0] ++ value o ++ sign_bytes o) Ho) as (E1 & E2 & E3 & E4).
  fold (rec_bytes o) in *. rewrite E1, E2, E3. cbn [mem mbind res_bind].
  rewrite wrap_id, (proj2 (Z.ltb_ge _ _)) by (unfold fits, sizeof_record; lia).
  rewrite (proj2 (Z.eqb_neq (Z.of_nat (length (key o)) + 1) 0)) by lia.
  destruct (rec_key_read o Ho) as (Ekey & c & Hc0 & Ec). rewrite Ec. cbn [mem mbind res_bind].
  rewrite (proj2 (Z.eqb_neq c 0)), Ekey by done. cbn [mem mbind res_bind]. rewrite c_text_app by done.
  cbn [mem mbind res_bind]. rewrite E4. cbn [mem mbind res_bind]. rewrite rec_value_read. cbn [mbind res_bind].
  destruct (hash_split _ _ Ht Hc) as [-> ->]. pose proof (st_ext o Ho) as Hx. unfold sign_bytes.
  destruct (sign o) as [s|] eqn:Es; cbn [default from_option id].
  - destruct (rec_sign_read o s Ho Es) as (Hss & E5 & E6). rewrite (proj2 (Z.ltb_ge _ sizeof_sign)), E5 by done.
    cbn [mem mbind res_bind]. rewrite Z.eqb_refl, E6. cbn. destruct o; cbn in *. by subst.
  - cbn. destruct o; cbn in *. by subst.
Qed.

(** ** Tables of encoded records *)

Lemma memcmp_refl a : memcmp a a = 0.
Proof. induction a as [|x a IH]; [done|]. cbn [memcmp]. by rewrite Z.eqb_refl. Qed.

Lemma memcmp_eq a b : length a = length b -> memcmp a b = 0 -> a = b.
Proof.
  revert b. induction a as [|x a IH]; intros [|y b] Hl; try discriminate Hl; [done|]. cbn [memcmp].
  injection Hl as Hl. destruct (Z.eqb_spec x y) as [->|]; [intros; f_equal; auto|].
  destruct (x <? y); discriminate.
Qed.

Lemma text_key_enc l k : Forall stored l -> Forall (λ c, c <> 0) k ->
  s_get_obj_by_text_key (enc <$> l) k = inr (enc <$> find_key k l).
Proof.
  intros Hl Hk. unfold find_key. induction Hl as [|o l Ho _ IH]; [done|].
  cbn [fmap list_fmap s_get_obj_by_text_key enc]. rewrite filter_cons, length_rec_bytes.
  destruct (rec_fields_read o (key o ++ [0] ++ value o ++ sign_bytes o) Ho) as (E1 & _). fold (rec_bytes o) in E1.
  destruct (rec_key_read o Ho) as (E2 & _).
  destruct (decide (key o = k)) as [<-|Hne].
  - assert (0 < Z.of_nat (length (value o)) + Z.of_nat (length (sign_bytes o))).
    { destruct (st_data o Ho) as [Hv|Hs]; [destruct (value o); [done | cbn [length]; lia]|].
      pose proof (ok_sign o (st_ok o Ho)) as Hso. unfold sign_bytes. destruct (sign o); [|done].
      destruct Hso as [_ ?]. cbn [default from_option id]. lia. }
    rewrite (proj2 (Z.ltb_lt _ _)) by (unfold sizeof_record; lia). rewrite E1. cbn [mem mbind res_bind].
    rewrite Z.eqb_refl, E2. cbn [mem mbind res_bind]. rewrite memcmp_refl. done.
  - destruct (_ <? _); [|exact IH]. rewrite E1. cbn [mem mbind res_bind].
    destruct (Z.eqb_spec (Z.of_nat (length k) + 1) (Z.of_nat (length (key o)) + 1)) as [E|]; [|exact IH].
    rewrite E, E2. cbn [mem mbind res_bind]. destruct (Z.eqb_spec (memcmp (key o ++ [0]) (k ++ [0])) 0) as [M|]; [|exact IH].
    destruct Hne. apply memcmp_eq in M; [by apply app_inj_tail in M as [-> _] | rewrite !length_app; cbn [length]; lia].
Qed.

Lemma hash_get_hval a b : obj_ok a -> obj_ok b ->
  dap_global_db_driver_hash_get a = dap_global_db_driver_hash_get b <-> hval a = hval b.
Proof.
  intros [] []. unfold dap_global_db_driver_hash_get, hval. split.
  - intros E. apply hash_bytes_inj in E as [-> ->]; done.
  - unfold fits in *. intros E. f_equal; lia.
Qed.

Lemma kv_put_enc o l : Forall stored l -> obj_ok o ->
  kv_put (dap_global_db_driver_hash_get o) (rec_bytes o) (enc <$> l) = enc <$> tput o l.
Proof.
  intros Hl Ho. induction Hl as [|x l Hx _ IH]; [done|]. cbn [fmap list_fmap kv_put tput]. unfold enc at 1.
  destruct (st_ok x Hx) as [_ _ _ _ ??]. destruct Ho as [_ _ _ _ ??].
  unfold dap_global_db_driver_hash_get in *. rewrite memcmp_hash by done. fold (hval o) (hval x). unfold zcmp.
  repeat (bdestr1; try lia); try done. cbn [fmap list_fmap]. f_equal. exact IH.
Qed.

Lemma kv_del_enc o l : Forall stored l -> obj_ok o ->
  kv_del (dap_global_db_driver_hash_get o) (enc <$> l) = enc <$> filter (λ x, hval x ≠ hval o) l.
Proof.
  intros Hl Ho. induction Hl as [|x l Hx _ IH]; [done|]. cbn [fmap list_fmap]. unfold kv_del. rewrite !filter_cons.
  pose proof (hash_get_hval x o (st_ok x Hx) Ho) as Hh. cbn [enc fst].
  destruct (decide (hval x = hval o)) as [E|E].
  - rewrite !decide_False by tauto. exact IH.
  - rewrite !decide_True by tauto. cbn [fmap list_fmap]. f_equal. exact IH.
Qed.

Lemma kv_get_enc ts c l : Forall stored l -> fits 64 ts -> fits 64 c ->
  bool_decide (is_Some (kv_get (hash_bytes ts c) (enc <$> l))) = existsb (λ o, hval o =? ts * 2 ^ 64 + c) l.
Proof.
  intros Hl Ht Hc. unfold kv_get. induction Hl as [|x l Hx _ IH]; [done|]. cbn [fmap list_fmap list_find existsb].
  destruct (st_ok x Hx) as [_ _ _ _ ??].
  assert (Hh : (enc x).1 = hash_bytes ts c <-> hval x = ts * 2 ^ 64 + c).
  { cbn [enc fst]. unfold dap_global_db_driver_hash_get, hval. split; [intros E; by apply hash_bytes_inj in E as [-> ->]|].
    unfold fits in *. intros E. f_equal; lia. }
  destruct (decide ((enc x).1 = _)) as [E|E].
  - apply Hh in E. by rewrite E, Z.eqb_refl.
  - rewrite (proj2 (Z.eqb_neq _ _)) by tauto. cbn [orb]. rewrite <- IH.
    by destruct (list_find (λ e, e.1 = hash_bytes ts c) (enc <$> l)) as [[]|].
Qed.

(** Deleting by the hash of the record with a text key removes that record. *)
Lemma without_key_hash l o k : StronglySorted hlt l -> NoDup (key <$> l) -> o ∈ l -> key o = k ->
  filter (λ x, hval x ≠ hval o) l = without_key k l.
Proof.
  intros Hs Hn Ho <-. unfold without_key. apply filter_ext_elem.
  intros x Hx. split; intros H E; apply H.
  - assert (find_key (key o) l = Some x) as Ex by (by apply find_key_elem).
    assert (find_key (key o) l = Some o) as Eo by (by apply find_key_elem). congruence.
  - by rewrite (sorted_inj l x o Hs Hx Ho E).
Qed.

(** ** The driver keeps tables of records *)

(** A store that does not fail while the driver runs. *)
Class MdbxHealthy (mdb : Type) `{Mdbx mdb} := {
  healthy_begin d : (mdbx_txn_begin d).1 = MDBX_SUCCESS;
  healthy_open d t : (mdbx_dbi_open d t).1 = MDBX_SUCCESS;
  healthy_put d t k v : (mdbx_put d t k v).1 = MDBX_SUCCESS;
  healthy_del d t k : (mdbx_del d t k).1 = MDBX_SUCCESS \/ (mdbx_del d t k).1 = MDBX_NOTFOUND;
  healthy_commit e t : (mdbx_txn_commit e t).1 = MDBX_SUCCESS;
}.

Section Refinement.
Context {mdb : Type} `{Mdbx mdb}.
Implicit Types (st : mdbx_state mdb) (t : mdb) (m : list Z -> list dap_store_obj).

Record mrep st m : Prop := {
  mr_table g : table_ok g (m g);
  mr_open g : g ∈ s_db_ctxs st -> g <> s_db_master_tbl /\ table st g = enc <$> m g;
  mr_closed g : g ∉ s_db_ctxs st -> m g = [] /\ (g <> s_db_master_tbl -> table st g = []);
}.

Lemma table_stored g l : table_ok g l -> Forall stored l.
Proof. intros [Hs _ _]. eapply Forall_impl; [exact Hs|]. by intros x []. Qed.

(** In a transaction [t] of a state that represents [m]. *)
Definition same_tables t t' (g : list Z) : Prop :=
  forall g', g' <> g -> mdbx_entries t' g' = mdbx_entries t g'.

Lemma kv_get_present x l : Forall stored l -> x ∈ l ->
  kv_get (dap_global_db_driver_hash_get x) (enc <$> l) <> None.
Proof.
  intros Hl Hx. pose proof (proj1 (Forall_forall _ _) Hl x Hx) as Hs. destruct (st_ok x Hs) as [_ _ _ _ Hc Ht].
  pose proof (kv_get_enc (timestamp x) (crc x) l Hl Ht Hc) as E. intros F.
  unfold dap_global_db_driver_hash_get in F. rewrite F, bool_decide_false in E by (by intros []).
  symmetry in E. apply not_true_iff_false in E. apply E, existsb_exists. exists x.
  split; [by apply list_elem_of_In | apply Z.eqb_refl].
Qed.

Lemma without_key_none k l : find_key k l = None -> without_key k l = l.
Proof.
  intros E. unfold without_key. induction l as [|x l IH]; [done|]. pose proof (proj1 (find_key_None _ _) E) as Hn.
  rewrite filter_cons, decide_True by (apply Hn; set_solver). f_equal. apply IH, find_key_None.
  intros o Ho. apply Hn. by right.
Qed.

(** The record with the object's text key is dropped first. *)
Lemma drop_same_key t o l : mdbx_entries t (group o) = enc <$> l -> table_ok (group o) l ->
  Forall (λ c, c <> 0) (key o) ->
  exists r, s_get_obj_by_text_key (mdbx_entries t (group o)) (key o) = inr r /\
  let '(rc, t') := match r with None => (MDBX_NOTFOUND, t) | Some (k, _) => mdbx_del t (group o) k end in
  (rc = MDBX_SUCCESS \/ rc = MDBX_NOTFOUND ->
   mdbx_entries t' (group o) = enc <$> without_key (key o) l /\ same_tables t t' (group o)).
Proof.
  intros Et Hl Hk. pose proof (table_stored _ _ Hl) as Hs. exists (enc <$> find_key (key o) l).
  split; [rewrite Et; by apply text_key_enc|]. destruct (find_key (key o) l) as [x|] eqn:E; cbn [fmap option_fmap option_map].
  - apply find_key_elem in E as [Hx Hkx]; [|apply Hl]. unfold enc at 1.
    destruct (mdbx_del t (group o) (dap_global_db_driver_hash_get x)) as [rc t'] eqn:Ed. intros [->| ->].
    + apply mdbx_del_ok in Ed as [E1 E2]. split; [|exact E2]. rewrite E1, Et, kv_del_enc; [|done|].
      * f_equal. apply without_key_hash; [apply Hl.. | done | done].
      * apply st_ok. by apply (proj1 (Forall_forall _ _) Hs).
    + apply mdbx_del_notfound in Ed as [E1 _]. rewrite Et in E1. by apply kv_get_present in E1.
  - intros _. rewrite without_key_none by done. split; [done | by intros g' ?].
Qed.

Lemma open_write t o l : mdbx_entries t (group o) = enc <$> l -> table_ok (group o) l -> stored (norm o) ->
  has_flag (flags o) DAP_GLOBAL_DB_RECORD_ERASE = false ->
  exists rc t', apply_store_obj_open t o = inr (rc, t') /\
    (rc = MDBX_SUCCESS -> mdbx_entries t' (group o) = enc <$> write_obj o l /\ same_tables t t' (group o)).
Proof.
  intros Et Hl Ho Hf. unfold apply_store_obj_open. rewrite Hf. cbn [negb].
  destruct (drop_same_key t o l Et Hl (proj2 (ok_key _ (st_ok _ Ho)))) as (r & -> & Hdel). cbn [mbind res_bind].
  destruct (match r with None => _ | Some _ => _ end) as [rc1 t1].
  destruct (Z.eqb_spec rc1 MDBX_SUCCESS) as [E1|E1], (Z.eqb_spec rc1 MDBX_NOTFOUND) as [E2|E2]; cbn [negb andb].
  4: { exists rc1, t1. split; [done|]. by intros. }
  all: rewrite (make_record_norm o Ho); cbn [mbind res_bind].
  all: destruct (mdbx_put t1 (group o) (dap_global_db_driver_hash_get o) (rec_bytes (norm o))) as [rc t'] eqn:Ep.
  all: exists rc, t'; split; [done|]; intros ->; apply mdbx_put_ok in Ep as [F1 F2].
  all: destruct Hdel as [G1 G2]; [tauto|]; split; [|intros g' Hg; rewrite F2, G2 by done; done].
  all: rewrite F1, G1; change (dap_global_db_driver_hash_get o) with (dap_global_db_driver_hash_get (norm o)).
  all: rewrite kv_put_enc; [done | | apply Ho].
  all: apply (table_stored (group o)), filter_table, Hl.
Qed.

(** The state after a commit that changed the table [g] only (and the table of
    names). *)
Lemma mrep_upd st m ctxs cl e g l : mrep st m -> g <> s_db_master_tbl -> g ∈ ctxs ->
  (forall g', g' ∈ ctxs <-> g' ∈ s_db_ctxs st \/ g' = g) ->
  mdbx_entries e g = enc <$> l -> table_ok g l ->
  (forall g', g' <> g -> g' <> s_db_master_tbl -> mdbx_entries e g' = table st g') ->
  mrep (MdbxState ctxs cl e) (upd m g l).
Proof.
  intros [Ht Ho Hc] Hg Hin Hctx He Hl Hsame. split.
  - intros g'. destruct (decide (g' = g)) as [->|Hne]; [by rewrite upd_same | by rewrite upd_other].
  - intros g' Hg'. unfold table. cbn [s_mdbx_env s_db_ctxs] in *.
    destruct (decide (g' = g)) as [->|Hne]; [by rewrite upd_same|]. rewrite upd_other by done.
    apply Hctx in Hg' as [Hg'| ->]; [|done]. destruct (Ho g' Hg') as [? <-]. split; [done|]. by apply Hsame.
  - intros g' Hg'. unfold table. cbn [s_mdbx_env s_db_ctxs] in *.
    assert (g' <> g) by (intros ->; tauto). assert (g' ∉ s_db_ctxs st) as Hn by (intros ?; apply Hg', Hctx; tauto).
    rewrite upd_other by done. destruct (Hc g' Hn) as [? Hcl]. split; [done|]. intros. rewrite Hsame; auto.
Qed.

Lemma mrep_ctx st m ctxs cl e g : mrep st m -> g <> s_db_master_tbl ->
  (forall g', g' ∈ ctxs <-> g' ∈ s_db_ctxs st \/ g' = g) -> (forall g', mdbx_entries e g' = table st g') ->
  mrep (MdbxState ctxs cl e) m.
Proof.
  intros [Ht Ho Hc] Hg Hctx He. split; [done|..]; intros g' Hg'; cbn [s_db_ctxs] in Hg'; unfold table; cbn [s_mdbx_env];
    rewrite He.
  - apply Hctx in Hg' as [Hg'| ->]; [by apply Ho|]. split; [done|].
    destruct (decide (g ∈ s_db_ctxs st)) as [Hi|Hi]; [by apply Ho|]. destruct (Hc g Hi) as [-> E]. by apply E.
  - apply Hc. intros ?. apply Hg', Hctx. tauto.
Qed.

Lemma mrep_env st m cl e : mrep st m -> (forall g, mdbx_entries e g = table st g) -> mrep (MdbxState (s_db_ctxs st) cl e) m.
Proof.
  intros [Ht Ho Hc] He. split; [done|..]; intros g Hg; unfold table; cbn [s_mdbx_env]; rewrite He; [by apply Ho | by apply Hc].
Qed.

Lemma commit_tables e t rc e' : mdbx_txn_commit e t = (rc, e') ->
  if rc =? MDBX_SUCCESS then forall g, mdbx_entries e' g = mdbx_entries t g
  else forall g, mdbx_entries e' g = mdbx_entries e g.
Proof. intros Ec. pose proof (λ g, mdbx_txn_commit_ok _ _ _ _ g Ec) as Hce. by destruct (rc =? MDBX_SUCCESS). Qed.

Lemma mrep_entries st m g : mrep st m -> g <> s_db_master_tbl -> table st g = enc <$> m g.
Proof.
  intros [_ Ho Hc] Hg. destruct (decide (g ∈ s_db_ctxs st)) as [Hi|Hi]; [by apply Ho|].
  destruct (Hc g Hi) as [-> E]. by apply E.
Qed.

(** The body of the write once a transaction runs. *)
Lemma with_txn_write st m t o : mrep st m -> (forall g, mdbx_entries t g = table st g) -> stored (norm o) ->
  group o <> s_db_master_tbl -> has_flag (flags o) DAP_GLOBAL_DB_RECORD_ERASE = false -> usable st (group o) ->
  exists rc ctxs t', s_db_mdbx_apply_store_obj_with_txn st t o = inr (rc, ctxs, t') /\
    ((ctxs = s_db_ctxs st /\ rc <> 0) \/
     ((forall g', g' ∈ ctxs <-> g' ∈ s_db_ctxs st \/ g' = group o) /\
      (rc = 0 -> mdbx_entries t' (group o) = enc <$> write_obj o (m (group o)) /\
         forall g', g' <> group o -> g' <> s_db_master_tbl -> mdbx_entries t' g' = table st g'))).
Proof.
  intros Hm Ht Ho Hg Hf Hus. pose proof (mr_table _ _ Hm (group o)) as Hl. pose proof (mrep_entries _ _ _ Hm Hg) as Et.
  destruct (st_ok _ Ho) as [[Hgl _] [Hkl _] _ _ _ _]. cbn [norm group key] in Hgl, Hkl.
  unfold s_db_mdbx_apply_store_obj_with_txn. rewrite (proj2 (Z.eqb_neq _ 0)) by apply (st_crc _ Ho).
  rewrite bool_decide_false by (destruct (key o); [cbn in Hkl; lia | done]). cbn [orb]. rewrite Hf.
  destruct (decide (group o ∈ s_db_ctxs st)) as [Hin|Hin].
  - rewrite bool_decide_true, bool_decide_false by done. destruct (open_write t o (m (group o))) as (rc & t' & -> & Hrc); [congruence | done..|].
    exists rc, (s_db_ctxs st), t'. split; [done|]. right. split; [intros g'; split; [tauto | intros [?| ->]; done]|].
    intros E. destruct (Hrc E) as [E1 E2]. split; [done|]. intros g' Hg' _. by rewrite E2.
  - rewrite bool_decide_false by done. unfold s_cre_db_ctx_for_group. rewrite bool_decide_false by done.
    rewrite (proj2 (Z.ltb_ge _ _)) by (unfold DAP_GLOBAL_DB_GROUP_NAME_SIZE_MAX; lia).
    pose proof (mdbx_dbi_open_ok t (group o)) as Hopen. destruct (mdbx_dbi_open t (group o)) as [rc1 t1].
    destruct (rc1 =? MDBX_SUCCESS); cbn [negb]; [|by exists (- EIO), (s_db_ctxs st), t1; split; [|left]].
    pose proof (mdbx_put_nooverwrite_ok t1 s_db_master_tbl (group o ++ [0]) (group o ++ [0])) as Hput.
    destruct (mdbx_put_nooverwrite t1 _ _ _) as [rc2 t2]. cbn [snd] in *.
    assert (E2 : forall g', g' <> s_db_master_tbl -> mdbx_entries t2 g' = table st g') by (intros; by rewrite Hput, Hopen).
    destruct (open_write t2 o (m (group o))) as (rc & t' & -> & Hrc); [rewrite E2; done | done..|].
    exists rc, (s_db_ctxs st ++ [group o]), t'. split; [done|]. right.
    split; [intros g'; rewrite elem_of_app, list_elem_of_singleton; done|].
    intros E. destruct (Hrc E) as [E3 E4]. split; [done|]. intros g' Hg' ?. rewrite E4 by done. by apply E2.
Qed.

(** What a write, an erasure or a drop that turns the table of [g] into [l] did
    to the state [st] that represents [m]: an error leaves the tables; zero
    means the new table, or a commit that failed and was not reported; the
    handles stay usable, but for that of a table that was to be created. *)
Record outcome st m g l rc st' : Prop := {
  out_error : rc <> 0 -> mrep st' m;
  out_done : rc = 0 -> (mrep st' (upd m g l) /\ closed st' = closed st) \/
    (mrep st' m /\ exists t, (mdbx_txn_commit (s_mdbx_env st) t).1 <> MDBX_SUCCESS);
  out_usable g' : usable st g' -> usable st' g' \/
    (g' = g /\ g ∉ s_db_ctxs st /\ mdbx_exists (s_mdbx_env st) g = false /\ mrep st' m);
}.

Lemma outcome_same st m g l rc : mrep st m -> rc <> 0 -> outcome st m g l rc st.
Proof. intros. split; [done | lia | by left]. Qed.

Lemma aborted_same st e : aborted st (s_db_ctxs st) e = MdbxState (s_db_ctxs st) (closed st) e.
Proof. unfold aborted. f_equal. rewrite filter_none, app_nil_r; [done|]. apply Forall_forall. intros g Hg [? _]. done. Qed.

Lemma aborted_mrep st m ctxs e g : mrep st m -> g <> s_db_master_tbl ->
  (forall g', g' ∈ ctxs <-> g' ∈ s_db_ctxs st \/ g' = g) -> (forall g', mdbx_entries e g' = table st g') ->
  mrep (aborted st ctxs e) m.
Proof. intros. by apply (mrep_ctx st m ctxs _ e g). Qed.

Lemma aborted_usable st m ctxs e g g' : (forall g', g' ∈ ctxs <-> g' ∈ s_db_ctxs st \/ g' = g) ->
  mrep (aborted st ctxs e) m -> usable st g' -> usable (aborted st ctxs e) g' \/
    (g' = g /\ g ∉ s_db_ctxs st /\ mdbx_exists (s_mdbx_env st) g = false /\ mrep (aborted st ctxs e) m).
Proof.
  intros Hctx Hm Hu. destruct (decide (g' ∈ closed (aborted st ctxs e))) as [Hin|]; [right | by left].
  cbn [aborted closed] in Hin. apply elem_of_app in Hin as [Hin|[[Hn He] Hg]%list_elem_of_filter]; [done|].
  apply Hctx in Hg as [?|Hg]; [done|]. by subst g'.
Qed.

(** The end of a transaction that changed the table [g] into [l], or failed. *)
Lemma outcome_commit st m g l ctxs t : mrep st m -> g <> s_db_master_tbl ->
  (forall g', g' ∈ ctxs <-> g' ∈ s_db_ctxs st \/ g' = g) -> mdbx_entries t g = enc <$> l -> table_ok g l ->
  (forall g', g' <> g -> g' <> s_db_master_tbl -> mdbx_entries t g' = table st g') ->
  outcome st m g l 0
    (let '(rc2, e) := mdbx_txn_commit (s_mdbx_env st) t in
     if rc2 =? MDBX_SUCCESS then MdbxState ctxs (closed st) e else aborted st ctxs e).
Proof.
  intros Hm Hg Hctx Et Hl Hsame. destruct (mdbx_txn_commit (s_mdbx_env st) t) as [rc2 e] eqn:Ec.
  pose proof (commit_tables _ _ _ _ Ec) as He. destruct (Z.eqb_spec rc2 MDBX_SUCCESS) as [->|Hrc].
  - split; [done | intros _; left; split; [|done] | by left].
    apply (mrep_upd st); [done | done | apply Hctx; tauto | done | by rewrite He | done | intros; rewrite He; auto].
  - pose proof (aborted_mrep st m ctxs e g Hm Hg Hctx He) as Ha.
    split; [done | intros _; right; split; [done | exists t; by rewrite Ec] | intros; by apply aborted_usable].
Qed.

Lemma outcome_abort st m g l ctxs rc : mrep st m -> g <> s_db_master_tbl -> rc <> 0 ->
  (forall g', g' ∈ ctxs <-> g' ∈ s_db_ctxs st \/ g' = g) -> outcome st m g l rc (aborted st ctxs (s_mdbx_env st)).
Proof.
  intros Hm Hg Hrc Hctx. pose proof (aborted_mrep st m ctxs (s_mdbx_env st) g Hm Hg Hctx (λ _, eq_refl)) as Ha.
  split; [done | lia | intros; by apply aborted_usable].
Qed.

Lemma mdbx_write st m o : mrep st m -> stored (norm o) -> group o <> s_db_master_tbl ->
  has_flag (flags o) DAP_GLOBAL_DB_RECORD_ERASE = false -> usable st (group o) ->
  exists rc st', s_db_mdbx_apply_store_obj st o false = inr (rc, st') /\
    outcome st m (group o) (write_obj o (m (group o))) rc st'.
Proof.
  intros Hm Ho Hg Hf Hu. unfold s_db_mdbx_apply_store_obj. rewrite Hf. cbn [andb].
  destruct (mdbx_txn_begin (s_mdbx_env st)) as [rc0 t] eqn:Eb.
  destruct (Z.eqb_spec rc0 MDBX_SUCCESS) as [->|Hrc0]; cbn [negb];
    [|exists rc0, st; split; [done | by apply outcome_same]].
  destruct (with_txn_write st m t o) as (rc & ctxs & t' & -> & Hcase); [done | | done..|].
  { intros g. by apply mdbx_txn_begin_ok. }
  cbn [mbind res_bind]. destruct (Z.eqb_spec rc MDBX_SUCCESS) as [->|Hrc]; cbn [negb].
  - destruct Hcase as [[_ ?]|[Hctx He]]; [done|]. destruct (He eq_refl) as [E1 E2].
    pose proof (outcome_commit st m (group o) (write_obj o (m (group o))) ctxs t' Hm Hg Hctx E1
      (write_table _ _ (mr_table _ _ Hm _) Ho) E2) as Hout.
    destruct (mdbx_txn_commit (s_mdbx_env st) t') as [rc2 e]. eexists 0, _. split; [reflexivity | exact Hout].
  - eexists rc, _. split; [reflexivity|]. destruct Hcase as [[-> _]|[Hctx _]]; [|by apply outcome_abort].
    rewrite aborted_same. destruct st. by apply outcome_same.
Qed.

Lemma mrep_ext st m m' : (forall g, m g = m' g) -> mrep st m -> mrep st m'.
Proof.
  intros E [Ht Ho Hc]. split; intros g; rewrite <- E; auto.
Qed.

Lemma mdbx_erase st m o : mrep st m -> obj_ok o -> crc o <> 0 -> timestamp o <> 0 ->
  has_flag (flags o) DAP_GLOBAL_DB_RECORD_ERASE = true -> usable st (group o) ->
  exists rc st', s_db_mdbx_apply_store_obj st o false = inr (rc, st') /\
    outcome st m (group o) (erase_obj o (m (group o))) rc st' /\ closed st' = closed st.
Proof.
  intros Hm Ho Hc0 Ht0 Hf Hu. destruct (ok_key _ Ho) as [Hk _].
  unfold s_db_mdbx_apply_store_obj. rewrite Hf. cbn [andb].
  destruct (mdbx_txn_begin (s_mdbx_env st)) as [rc0 t] eqn:Eb.
  destruct (Z.eqb_spec rc0 MDBX_SUCCESS) as [->|Hrc0]; cbn [negb];
    [|exists rc0, st; split; [done | split; [by apply outcome_same | done]]].
  unfold s_db_mdbx_apply_store_obj_with_txn. rewrite (proj2 (Z.eqb_neq _ 0)) by done.
  rewrite bool_decide_false by (destruct (key o); [cbn in Hk; lia | done]). cbn [orb]. rewrite Hf.
  assert (Hst : aborted st (s_db_ctxs st) (s_mdbx_env st) = st) by (rewrite aborted_same; by destruct st).
  destruct (decide (group o ∈ s_db_ctxs st)) as [Hin|Hin].
  2: { rewrite bool_decide_false by done. cbn [mbind res_bind mret res_ret]. exists 1, st. cbn. rewrite Hst.
       split; [done | split; [by apply outcome_same | done]]. }
  rewrite bool_decide_true, bool_decide_false by done. unfold apply_store_obj_open. rewrite Hf. cbn [negb].
  rewrite !(proj2 (Z.eqb_neq _ 0)) by done. cbn [negb andb mbind res_bind mret res_ret].
  destruct (mr_open _ _ Hm _ Hin) as [Hg Et]. pose proof (mr_table _ _ Hm (group o)) as Hl.
  destruct (mdbx_del t (group o) (dap_global_db_driver_hash_get o)) as [rc t'] eqn:Ed.
  destruct (Z.eqb_spec rc MDBX_NOTFOUND) as [->|Hnf]; cbn [negb andb mbind res_bind mret res_ret].
  { exists 1, st. cbn. rewrite Hst. split; [done | split; [by apply outcome_same | done]]. }
  destruct (Z.eqb_spec rc MDBX_SUCCESS) as [->|Hrc]; cbn [negb].
  2: { exists rc, st. rewrite Hst. split; [done | split; [by apply outcome_same | done]]. }
  apply mdbx_del_ok in Ed as [E1 E2].
  assert (Et' : forall g, mdbx_entries t g = table st g) by (intros; by apply mdbx_txn_begin_ok).
  pose proof (outcome_commit st m (group o) (erase_obj o (m (group o))) (s_db_ctxs st) t' Hm Hg) as Hout.
  destruct (mdbx_txn_commit (s_mdbx_env st) t') as [rc2 e]. eexists 0, _. split; [reflexivity|]. split.
  - apply Hout; [intros g'; split; [tauto | intros [?| ->]; done] | | by apply erase_table | intros; by rewrite E2, Et'].
    rewrite E1, Et', Et. by apply kv_del_enc; [eapply table_stored|].
  - destruct (rc2 =? MDBX_SUCCESS); [done | by rewrite aborted_same].
Qed.

(** The state once the table of [g] is dropped. *)
Lemma mrep_drop st m g cl e : mrep st m -> mdbx_entries e g = [] ->
  (forall g', g' <> g -> g' <> s_db_master_tbl -> mdbx_entries e g' = table st g') ->
  mrep (MdbxState (filter (λ g', g' ≠ g) (s_db_ctxs st)) cl e) (upd m g []).
Proof.
  intros Hm E1 Et. split; intros g'.
  - destruct (decide (g' = g)) as [->|]; [rewrite upd_same; apply empty_table | rewrite upd_other by done; apply Hm].
  - cbn [s_db_ctxs]. intros [Hne Hi]%list_elem_of_filter. rewrite upd_other by done. unfold table. cbn [s_mdbx_env].
    destruct (mr_open _ _ Hm _ Hi) as [? <-]. split; [done|]. by apply Et.
  - cbn [s_db_ctxs]. intros Hi. unfold table. cbn [s_mdbx_env]. destruct (decide (g' = g)) as [->|Hne].
    + rewrite upd_same. done.
    + rewrite upd_other by done. assert (g' ∉ s_db_ctxs st) as Hn by (intros ?; by apply Hi, list_elem_of_filter).
      destruct (mr_closed _ _ Hm _ Hn) as [? Hcl]. split; [done|]. intros. rewrite Et; auto.
Qed.

Lemma mdbx_drop_group st m o : mrep st m -> has_flag (flags o) DAP_GLOBAL_DB_RECORD_ERASE = true -> usable st (group o) ->
  exists rc st', s_db_mdbx_apply_store_obj st o true = inr (rc, st') /\ outcome st m (group o) [] rc st' /\
    closed st' = closed st.
Proof.
  intros Hm Hf Hu. unfold s_db_mdbx_apply_store_obj. rewrite Hf. cbn [andb]. unfold s_get_db_ctx_for_group.
  destruct (decide (group o ∈ s_db_ctxs st)) as [Hin|Hin].
  2: { rewrite bool_decide_false by done. exists 0, st. split; [done|]. split; [|done].
       split; [done | intros _; left; split; [|done] | by left]. apply (mrep_ext st m); [|done].
       intros g. destruct (decide (g = group o)) as [->|]; [|by rewrite upd_other].
       rewrite upd_same. by apply (mr_closed _ _ Hm). }
  rewrite bool_decide_true by done. cbn [negb].
  destruct (mdbx_txn_begin (s_mdbx_env st)) as [rc0 t] eqn:Eb.
  destruct (Z.eqb_spec rc0 MDBX_SUCCESS) as [->|Hrc0]; cbn [negb];
    [|exists rc0, st; split; [done | split; [by apply outcome_same | done]]].
  rewrite bool_decide_false by done.
  destruct (mdbx_drop t (group o)) as [rc1 t1] eqn:Ed.
  destruct (Z.eqb_spec rc1 MDBX_SUCCESS) as [->|]; cbn [negb];
    [|exists (-6), st; split; [done | split; [by apply outcome_same | done]]].
  destruct (mdbx_del t1 s_db_master_tbl _) as [rc2 t2] eqn:El.
  destruct (Z.eqb_spec rc2 MDBX_SUCCESS) as [->|]; cbn [negb];
    [|exists (-6), st; split; [done | split; [by apply outcome_same | done]]].
  destruct (mdbx_txn_commit (s_mdbx_env st) t2) as [rc3 e] eqn:Ec. pose proof (commit_tables _ _ _ _ Ec) as He.
  destruct (Z.eqb_spec rc3 MDBX_SUCCESS) as [->|]; cbn [negb].
  2: { eexists (-6), _. split; [reflexivity|]. split; [|done].
       split; [intros _; by apply mrep_env | done | by left]. }
  eexists 0, _. split; [reflexivity|]. split; [|done]. split; [done | intros _; left; split; [|done] | by left].
  destruct (mr_open _ _ Hm _ Hin) as [Hg _]. apply mdbx_drop_ok in Ed as [E1 E2]. apply mdbx_del_ok in El as [_ E3].
  apply mrep_drop; [done | by rewrite He, E3|]. intros. rewrite He, E3, E2 by done. by apply mdbx_txn_begin_ok.
Qed.

(** *** Reads *)

Definition visible (wh : bool) (o : dap_store_obj) : bool := wh || negb (has_flag (flags o) DAP_GLOBAL_DB_RECORD_DEL).

Lemma is_hole_enc o : stored o -> s_is_hole (enc o).2 = Some (has_flag (flags o) DAP_GLOBAL_DB_RECORD_DEL).
Proof.
  intros Ho. destruct (rec_fields_read o (key o ++ [0] ++ value o ++ sign_bytes o) Ho) as (_ & _ & _ & E).
  unfold s_is_hole. cbn [enc snd]. unfold rec_bytes. by rewrite E.
Qed.

Lemma hole_enc (wh : bool) o : stored o ->
  (if wh then mret false else mem (s_is_hole (enc o).2)) = inr (negb (visible wh o)) :> res bool.
Proof.
  intros Ho. unfold visible. destruct wh; [done|]. rewrite is_hole_enc by done. cbn [orb]. by rewrite negb_involutive.
Qed.

Lemma emit_enc g wh o : stored o -> group o = g ->
  emit_obj g wh (enc o) = inr (0, if visible wh o then Some o else None).
Proof.
  intros Ho <-. unfold emit_obj. rewrite hole_enc by done. cbn [mbind res_bind].
  destruct (visible wh o); cbn [negb]; [by rewrite fill_enc | done].
Qed.

Lemma holes_omap wh l : omap (λ o, if visible wh o then Some o else None) l = holes wh l.
Proof.
  induction l as [|o l IH]; [done|]. cbn [omap list_omap]. unfold holes in *. rewrite filter_cons. fold (visible wh o).
  destruct (visible wh o); [rewrite decide_True by done; f_equal | rewrite decide_False by auto]; exact IH.
Qed.

Lemma find_key_holes k wh l : NoDup (key <$> l) ->
  find_key k (holes wh l) = o ← find_key k l; if visible wh o then Some o else None.
Proof.
  intros Hn. unfold find_key, holes. induction l as [|o l IH]; [done|]. cbn [fmap list_fmap] in Hn.
  apply NoDup_cons in Hn as [Ho Hn]. specialize (IH Hn). rewrite !(filter_cons _ o l). fold (visible wh o).
  destruct (decide (key o = k)) as [<-|Hk]; cbn [head mbind option_bind].
  - destruct (visible wh o) eqn:V; [rewrite decide_True by done; rewrite filter_cons, decide_True by done; done|].
    rewrite decide_False by auto. rewrite IH. destruct (filter (λ o0, key o0 = key o) l) as [|x l'] eqn:F; [done|].
    assert (x ∈ filter (λ o0, key o0 = key o) l) as [Hx Hxl]%list_elem_of_filter by (rewrite F; by left).
    destruct Ho. rewrite <- Hx. by apply list_elem_of_fmap_2.
  - destruct (decide (visible wh o)); [rewrite filter_cons, decide_False by done|]; exact IH.
Qed.

Lemma mrep_read st m g : mrep st m -> usable st g ->
  (s_get_db_ctx_for_group st g = true /\ open_table st g = inr (enc <$> m g) /\ g <> []) \/
  (s_get_db_ctx_for_group st g = false /\ m g = []) \/
  (s_get_db_ctx_for_group st g = true /\ open_table st g = inr [] /\ m g = []).
Proof.
  intros Hm Hu. unfold s_get_db_ctx_for_group, open_table. rewrite (bool_decide_false (g ∈ closed st)) by done.
  unfold mret, res_ret. destruct (decide (g ∈ s_db_ctxs st)) as [Hin|Hin].
  - rewrite bool_decide_true by done. destruct (mr_open _ _ Hm _ Hin) as [_ ->]. destruct (m g) as [|o l] eqn:El.
    + right. right. done.
    + left. split; [done|]. split; [done|]. intros ->.
      pose proof (tab_stored _ _ (mr_table _ _ Hm [])) as Hs. rewrite El in Hs. inversion_clear Hs as [|?? [Ho Hg] _].
      destruct (ok_group o (st_ok o Ho)) as [[? _] _]. rewrite Hg in *. cbn in *. lia.
  - rewrite bool_decide_false by done. right. left. split; [done|]. by apply Hm.
Qed.

Lemma mdbx_is_obj_spec st m g k : mrep st m -> usable st g -> Forall (λ c, c <> 0) k ->
  s_db_mdbx_is_obj st g k = inr (bool_decide (is_Some (find_key k (m g)))).
Proof.
  intros Hm Hu Hk. unfold s_db_mdbx_is_obj. pose proof (table_stored _ _ (mr_table _ _ Hm g)) as Hs.
  destruct (mrep_read st m g Hm Hu) as [(-> & -> & _)|[(-> & ->)|(-> & -> & ->)]]; cbn [negb mbind res_bind]; [|done..].
  rewrite text_key_enc by done. cbn [mbind res_bind]. unfold mret, res_ret. f_equal. apply bool_decide_ext.
  by rewrite fmap_is_Some.
Qed.

Lemma mdbx_read_spec st m g k wh : mrep st m -> usable st g -> Forall (λ c, c <> 0) k ->
  s_db_mdbx_read_store_obj st g k wh = inr (find_key k (holes wh (m g))).
Proof.
  intros Hm Hu Hk. unfold s_db_mdbx_read_store_obj. pose proof (mr_table _ _ Hm g) as Hl.
  destruct (mrep_read st m g Hm Hu) as [(-> & -> & _)|[(-> & ->)|(-> & -> & ->)]]; cbn [negb mbind res_bind]; [|done..].
  rewrite text_key_enc by (by eapply table_stored || done). cbn [mbind res_bind].
  rewrite find_key_holes by apply Hl. destruct (find_key k (m g)) as [o|] eqn:E; [|done].
  cbn [fmap option_fmap option_map mbind option_bind]. apply find_key_elem in E as [Ho _]; [|apply Hl].
  destruct (proj1 (Forall_forall _ _) (tab_stored _ _ Hl) o Ho) as [Hs Hg].
  pose proof (hole_enc wh o Hs) as Eh. pose proof (fill_enc o Hs) as Ef. unfold enc in *. cbn [fst snd] in *.
  rewrite Eh, <- Hg. cbn [mbind res_bind]. destruct (visible wh o); cbn [negb]; [by rewrite Ef | done].
Qed.

Lemma mdbx_is_hash_spec st m g ts c : mrep st m -> usable st g -> fits 64 ts -> fits 64 c ->
  s_db_mdbx_is_hash st g (hash_bytes ts c) = inr (existsb (λ o, hval o =? ts * 2 ^ 64 + c) (m g)).
Proof.
  intros Hm Hu Ht Hc. unfold s_db_mdbx_is_hash. pose proof (table_stored _ _ (mr_table _ _ Hm g)) as Hs.
  destruct (mrep_read st m g Hm Hu) as [(-> & -> & _)|[(-> & ->)|(-> & -> & ->)]]; cbn [negb mbind res_bind]; [|done..].
  by rewrite kv_get_enc.
Qed.

Lemma read_last_enc g wh l : Forall (λ o, stored o /\ group o = g) l ->
  read_last_loop g wh (enc <$> l) = inr (head (holes wh l)).
Proof.
  induction 1 as [|o l [Ho Hg] _ IH]; [done|]. cbn [fmap list_fmap read_last_loop]. unfold holes in *.
  rewrite filter_cons. fold (visible wh o). pose proof (hole_enc wh o Ho) as Eh. pose proof (fill_enc o Ho) as Ef.
  unfold enc in *. cbn [fst snd] in *. rewrite Eh. cbn [mbind res_bind].
  destruct (visible wh o); cbn [negb]; [rewrite decide_True by done | rewrite decide_False by auto; exact IH].
  subst g. by rewrite Ef.
Qed.

Lemma head_filter_rev (P : dap_store_obj -> Prop) `{!forall x, Decision (P x)} l :
  head (filter P (rev l)) = last (filter P l).
Proof.
  induction l as [|x l IH] using rev_ind; [done|]. rewrite rev_app_distr. cbn [rev app]. rewrite filter_cons, filter_app.
  rewrite (filter_cons _ x []), filter_nil. destruct (decide (P x)); [by rewrite last_snoc|]. by rewrite app_nil_r.
Qed.

Lemma mdbx_read_last_spec st m g wh : mrep st m -> usable st g ->
  s_db_mdbx_read_last_store_obj st g wh = inr (last (holes wh (m g))).
Proof.
  intros Hm Hu. unfold s_db_mdbx_read_last_store_obj. pose proof (tab_stored _ _ (mr_table _ _ Hm g)) as Hs.
  destruct (mrep_read st m g Hm Hu) as [(-> & -> & _)|[(-> & ->)|(-> & -> & ->)]]; cbn [negb mbind res_bind]; [|done..].
  unfold fmap. change (list_fmap _ _ enc) with (map enc). rewrite <- map_rev. change (map enc) with (fmap (M := list) enc).
  rewrite read_last_enc by (by apply Forall_rev). f_equal. apply head_filter_rev.
Qed.

(** One pass of the cursor over encoded records. *)
Lemma cond_loop_enc {A} (emit : entry -> res (Z * option A)) (f : dap_store_obj -> option A) l n :
  (forall o, o ∈ l -> emit (enc o) = inr (0, f o)) -> (0 < n)%nat ->
  cond_loop emit (λ _, false) (enc <$> l) n
  = inr (take n (omap f l), if bool_decide (n <= length (omap f l))%nat then MDBX_SUCCESS else MDBX_NOTFOUND).
Proof.
  intros He. revert n. induction l as [|o l IH]; intros n Hn.
  - cbn. rewrite bool_decide_false by lia. by rewrite firstn_nil.
  - cbn [fmap list_fmap cond_loop]. rewrite He by (by left). cbn [mbind res_bind negb Z.eqb omap list_omap].
    destruct (f o) as [a|]; cbn [option_list].
    + destruct n as [|[|n]]; [lia|done|]. cbn [Nat.pred]. rewrite bool_decide_false by done.
      rewrite IH by (lia || (intros; apply He; by right)). cbn [mbind res_bind]. unfold mret, res_ret. f_equal.
      cbn [app take length]. f_equal. case_bool_decide; [rewrite bool_decide_true | rewrite bool_decide_false]; (done || lia).
    + rewrite bool_decide_false by lia. rewrite IH by (lia || (intros; apply He; by right)). done.
Qed.

Lemma after_key_enc ts c l : Forall stored l -> StronglySorted hlt l -> fits 64 ts -> fits 64 c ->
  after_key (hash_bytes ts c) (enc <$> l) = enc <$> filter (λ o, ts * 2 ^ 64 + c < hval o) l.
Proof.
  intros Hs Hl Ht Hc. induction Hl as [|o l Hl IH Ho]; [done|]. inversion_clear Hs as [|?? Hso Hs'].
  destruct (st_ok o Hso) as [_ _ _ _ ??]. cbn [fmap list_fmap after_key]. unfold enc at 1. cbn [fst].
  unfold dap_global_db_driver_hash_get. rewrite memcmp_hash by done. fold (hval o). rewrite filter_cons.
  unfold zcmp. destruct (decide (ts * 2 ^ 64 + c < hval o)).
  - rewrite (proj2 (Z.eqb_neq _ _)), (proj2 (Z.ltb_ge (hval o) _)) by lia. cbn [Z.ltb Z.compare].
    cbn [fmap list_fmap]. f_equal. f_equal. symmetry. apply filter_all. eapply Forall_impl; [exact Ho|].
    intros x. unfold hlt. lia.
  - rewrite <- IH by done. destruct (Z.eqb_spec (hval o) (ts * 2 ^ 64 + c)); [done|].
    rewrite (proj2 (Z.ltb_lt (hval o) _)) by lia. done.
Qed.

Lemma read_cond_enc {A} (emit : entry -> res (Z * option A)) (f : dap_store_obj -> option A) st m g ts c n :
  mrep st m -> usable st g -> fits 64 ts -> fits 64 c -> 0 < n -> (forall o, o ∈ m g -> emit (enc o) = inr (0, f o)) ->
  s_db_mdbx_read_cond emit st g (hash_bytes ts c) n false
  = inr (to_page (Z.to_nat n) (omap f (filter (λ o, ts * 2 ^ 64 + c < hval o) (m g)))).
Proof.
  intros Hm Hu Ht Hc Hn He. unfold s_db_mdbx_read_cond. pose proof (mr_table _ _ Hm g) as Hl.
  destruct (mrep_read st m g Hm Hu) as [(-> & -> & Hg)|[(-> & ->)|(-> & -> & ->)]].
  - rewrite bool_decide_false by done. cbn [orb negb andb mbind res_bind].
    rewrite after_key_enc by (done || by eapply table_stored || apply Hl).
    set (l := filter _ (m g)). destruct l as [|o l'] eqn:El; [done|]. cbn [fmap list_fmap].
    change (enc o :: (enc <$> l')) with (enc <$> (o :: l')). rewrite <- El.
    rewrite (cond_loop_enc emit f) by (lia || (intros x [_ Hx]%list_elem_of_filter; by apply He)).
    cbn [mbind res_bind]. unfold to_page. destruct (decide (Z.to_nat n <= length (omap f l))%nat) as [Hle|Hgt].
    + rewrite bool_decide_true by done. cbn [MDBX_SUCCESS MDBX_NOTFOUND Z.eqb].
      destruct (omap f l) as [|a la]; [cbn in Hle; lia|]. rewrite bool_decide_false by lia. done.
    + rewrite bool_decide_false by done. change (MDBX_NOTFOUND =? MDBX_NOTFOUND) with true. cbn iota.
      rewrite take_ge by lia. destruct (omap f l) as [|a la]; [done|]. rewrite bool_decide_false by done.
      by rewrite bool_decide_true by lia.
  - by rewrite orb_true_r.
  - cbn [negb orb]. by rewrite orb_false_r; case_bool_decide.
Qed.

Lemma cond_count_pos n : 0 <= n -> 0 < cond_count n.
Proof. unfold cond_count. destruct (Z.eqb_spec n 0); [done | lia]. Qed.

Lemma mdbx_read_cond_spec st m g ts c n wh : mrep st m -> usable st g -> fits 64 ts -> fits 64 c -> 0 <= n ->
  s_db_mdbx_read_cond_store_obj st g (hash_bytes ts c) n wh
  = inr (to_page (Z.to_nat (cond_count n)) (holes wh (filter (λ o, ts * 2 ^ 64 + c < hval o) (m g)))).
Proof.
  intros Hm Hu Ht Hc Hn. unfold s_db_mdbx_read_cond_store_obj. rewrite <- holes_omap.
  apply read_cond_enc; [done..|by apply cond_count_pos|]. intros o Ho.
  destruct (proj1 (Forall_forall _ _) (tab_stored _ _ (mr_table _ _ Hm g)) o Ho). by apply emit_enc.
Qed.

Lemma omap_Some {A B} (f : A -> B) (l : list A) : omap (λ x, Some (f x)) l = f <$> l.
Proof. induction l as [|x l IH]; [done|]. cbn [omap list_omap fmap list_fmap]. by f_equal. Qed.

Lemma mdbx_read_hashes_spec st m g ts c : mrep st m -> usable st g -> fits 64 ts -> fits 64 c ->
  s_db_mdbx_read_hashes st g (hash_bytes ts c)
  = inr (to_page (Z.to_nat DAP_GLOBAL_DB_COND_READ_KEYS_DEFAULT)
           (dap_global_db_driver_hash_get <$> filter (λ o, ts * 2 ^ 64 + c < hval o) (m g))).
Proof.
  intros Hm Hu Ht Hc. unfold s_db_mdbx_read_hashes. rewrite <- omap_Some. apply read_cond_enc; [done..|].
  intros o _. unfold emit_hash. cbn [enc fst]. unfold dap_global_db_driver_hash_get. by rewrite length_hash_bytes.
Qed.

Lemma count_enc g wh l : Forall (λ o, stored o /\ group o = g) l ->
  count_loop wh (enc <$> l) = inr (Z.of_nat (length (holes wh l))).
Proof.
  rewrite <- holes_omap. induction 1 as [|o l [Ho Hg] _ IH]; [done|]. cbn [fmap list_fmap count_loop omap list_omap].
  rewrite hole_enc, IH by done. cbn [mbind res_bind]. unfold mret, res_ret. f_equal.
  destruct (visible wh o); cbn [negb length]; [lia | done].
Qed.

Lemma mdbx_read_count_spec st m g ts c wh : mrep st m -> usable st g -> fits 64 ts -> fits 64 c ->
  s_db_mdbx_read_count_store st g (hash_bytes ts c) wh
  = inr (Z.of_nat (length (holes wh (filter (λ o, ts * 2 ^ 64 + c < hval o) (m g))))).
Proof.
  intros Hm Hu Ht Hc. unfold s_db_mdbx_read_count_store. pose proof (mr_table _ _ Hm g) as Hl.
  destruct (mrep_read st m g Hm Hu) as [(-> & -> & Hg)|[(-> & ->)|(-> & -> & ->)]]; cbn [negb mbind res_bind]; [|done|by destruct (_ && _)].
  rewrite hash_blank by done. destruct ((ts * 2 ^ 64 + c =? 0) && wh) eqn:E.
  - apply andb_true_iff in E as [E%Z.eqb_eq ->]. rewrite E. unfold mret, res_ret. do 2 f_equal.
    unfold holes. rewrite !filter_all; [by rewrite length_fmap | | by apply Forall_true].
    eapply Forall_impl; [by eapply table_stored|]. intros x Hx. destruct (st_ok x Hx) as [_ _ _ _ Hxc Hxt].
    pose proof (st_crc x Hx). unfold hval, fits in *. lia.
  - rewrite after_key_enc by (done || by eapply table_stored || apply Hl). apply (count_enc g).
    apply (tab_stored g), filter_table, Hl.
Qed.

(** The backward variant stops at its bound. *)
Lemma cond_loop_below {A} (emit : entry -> res (Z * option A)) (f : dap_store_obj -> A) h v l n :
  (forall o, o ∈ l -> emit (enc o) = inr (0, Some (f o)) /\ (0 <=? memcmp (enc o).1 h) = (v <=? hval o)) ->
  StronglySorted hlt l -> (0 < n)%nat ->
  cond_loop emit (λ e, 0 <=? memcmp e.1 h) (enc <$> l) n
  = let l' := filter (λ o, hval o < v) l in
    inr (f <$> take n l', if bool_decide (length l' < n)%nat && bool_decide (length l' = length l)
                          then MDBX_NOTFOUND else MDBX_SUCCESS).
Proof.
  intros He Hl. revert n. induction Hl as [|o l Hl IH Ho]; intros n Hn; cbn zeta.
  - cbn. rewrite bool_decide_true by lia. by rewrite firstn_nil.
  - cbn [fmap list_fmap cond_loop]. destruct (He o) as [Eo Es]; [by left|]. rewrite Es, filter_cons.
    destruct (Z.leb_spec v (hval o)).
    + rewrite decide_False by lia. replace (filter (λ o, hval o < v) l) with (@nil dap_store_obj).
      * cbn. rewrite (bool_decide_false (0%nat = S _)) by lia. by rewrite andb_false_r, firstn_nil.
      * symmetry. apply filter_none. eapply Forall_impl; [exact Ho|]. intros x. unfold hlt. cbn. lia.
    + rewrite decide_True, Eo by lia. cbn [mbind res_bind negb Z.eqb option_list].
      destruct n as [|[|n]]; [lia|done|]. cbn [Nat.pred]. rewrite bool_decide_false by done.
      rewrite IH by (lia || (intros; apply He; by right)). cbn [mbind res_bind app take length fmap list_fmap].
      unfold mret, res_ret. do 2 f_equal. set (k := length (filter _ l)).
      rewrite (bool_decide_ext (S k < S (S n))%nat (k < S n)%nat), (bool_decide_ext (S k = S _) (k = length l)) by lia.
      done.
Qed.

Lemma mdbx_read_below_spec st m g ts n : mrep st m -> usable st g -> fits 64 ts -> 0 <= n ->
  s_db_mdbx_read_store_obj_below_timestamp st g ts n
  = let l := filter (λ o, hval o < ts * 2 ^ 64 + (2 ^ 64 - 1)) (m g) in
    inr (match l with
         | [] => None
         | _ => Some (Page (take (Z.to_nat (cond_count n)) l)
                  (bool_decide (length l < Z.to_nat (cond_count n))%nat && bool_decide (length l = length (m g))))
         end).
Proof.
  intros Hm Hu Ht Hn. unfold s_db_mdbx_read_store_obj_below_timestamp, s_db_mdbx_read_cond. cbn zeta.
  pose proof (mr_table _ _ Hm g) as Hl. pose proof (cond_count_pos n Hn) as Hcc.
  change (be_bytes 8 ts ++ replicate 8 255) with (hash_bytes ts (2 ^ 64 - 1)).
  assert (He : forall o, o ∈ m g -> emit_obj g true (enc o) = inr (0, Some o) /\
    (0 <=? memcmp (enc o).1 (hash_bytes ts (2 ^ 64 - 1))) = (ts * 2 ^ 64 + (2 ^ 64 - 1) <=? hval o)).
  { intros o Ho. destruct (proj1 (Forall_forall _ _) (tab_stored _ _ Hl) o Ho) as [Hs Hg].
    split; [by rewrite emit_enc|]. destruct (st_ok o Hs) as [_ _ _ _ ??]. cbn [enc fst].
    unfold dap_global_db_driver_hash_get. rewrite memcmp_hash by (done || split; lia). fold (hval o).
    unfold zcmp. repeat (bdestr1; try lia). }
  destruct (mrep_read st m g Hm Hu) as [(-> & -> & Hg)|[(-> & ->)|(-> & -> & ->)]].
  - rewrite bool_decide_false by done. cbn [orb negb andb mbind res_bind].
    pose proof (cond_loop_below (emit_obj g true) id _ _ (m g) (Z.to_nat (cond_count n)) He (tab_sorted _ _ Hl) ltac:(lia))
      as Ec. cbn zeta in Ec. revert Ec. set (v := ts * 2 ^ 64 + (2 ^ 64 - 1)). destruct (m g) as [|o l] eqn:El; [done|].
    cbn [fmap list_fmap]. change (enc o :: list_fmap _ _ enc l) with (enc <$> (o :: l)).
    intros Ec. destruct (He o) as [_ Eo]; [by left|]. fold v in Eo. rewrite Eo. destruct (Z.leb_spec v (hval o)) as [Hv|Hv].
    + replace (filter _ (o :: l)) with (@nil dap_store_obj); [done|]. symmetry. apply filter_none.
      pose proof (tab_sorted _ _ Hl) as Hs. inversion_clear Hs as [|?? _ Ho]. constructor; [lia|].
      eapply Forall_impl; [exact Ho|]. intros x. unfold hlt. lia.
    + rewrite Ec. cbn [mbind res_bind]. rewrite list_fmap_id.
      set (l' := filter _ (o :: l)). assert (Hl' : exists r, l' = o :: r)
        by (unfold l'; rewrite filter_cons, decide_True by done; eauto). destruct Hl' as [r Er]. rewrite Er.
      destruct (Z.to_nat (cond_count n)) as [|k] eqn:Ek; [lia|].
      generalize (bool_decide (length (o :: r) < S k)%nat && bool_decide (length (o :: r) = length (o :: l))).
      intros [|]; [|done]. change (MDBX_NOTFOUND =? MDBX_NOTFOUND) with true.
      cbn iota. by rewrite bool_decide_false.
  - by rewrite orb_true_r.
  - cbn [negb orb]. by rewrite orb_false_r; case_bool_decide.
Qed.

Lemma read_all_enc g wh l n : Forall (λ o, stored o /\ group o = g) l -> (length l <= n)%nat ->
  read_all_loop g wh (enc <$> l) n = inr (holes wh l).
Proof.
  intros Hl. revert n. rewrite <- holes_omap. induction Hl as [|o l [Ho Hg] _ IH]; intros n Hn; [done|].
  cbn [fmap list_fmap read_all_loop length] in *. rewrite emit_enc by done. cbn [mbind res_bind negb Z.eqb omap list_omap].
  destruct (visible wh o); cbn [option_list].
  - case_bool_decide as E; [destruct l; [done | cbn in *; lia]|]. rewrite IH by lia. done.
  - rewrite bool_decide_false by lia. rewrite IH by lia. done.
Qed.

Lemma mdbx_read_all_spec st m g wh : mrep st m -> usable st g ->
  s_db_mdbx_read_all st g 0 wh = inr (match holes wh (m g) with [] => None | l => Some l end).
Proof.
  intros Hm Hu. unfold s_db_mdbx_read_all. pose proof (mr_table _ _ Hm g) as Hl.
  destruct (mrep_read st m g Hm Hu) as [(-> & -> & Hg)|[(-> & ->)|(-> & -> & ->)]]; cbn [negb mbind res_bind]; [|done..].
  rewrite length_fmap. destruct (Z.eqb_spec (Z.of_nat (length (m g))) 0) as [E|E]; [by destruct (m g)|].
  cbn [Z.eqb negb andb]. rewrite read_all_enc by (apply Hl || lia). cbn [mbind res_bind].
  by destruct (holes wh (m g)).
Qed.

Lemma mdbx_groups_spec st m mask g : mrep st m ->
  (g ∈ s_db_mdbx_get_groups_by_mask st mask -> dap_global_db_group_match_mask g mask = true) /\
  (m g <> [] -> dap_global_db_group_match_mask g mask = true -> g ∈ s_db_mdbx_get_groups_by_mask st mask).
Proof.
  intros Hm. unfold s_db_mdbx_get_groups_by_mask. split.
  - intros [Hg _]%list_elem_of_filter. by apply Is_true_true.
  - intros Hne Hg. apply list_elem_of_filter. split; [by apply Is_true_true|].
    destruct (decide (g ∈ s_db_ctxs st)) as [|Hn]; [done|]. by destruct (mr_closed _ _ Hm g Hn).
Qed.

Lemma healthy_open_write `{!MdbxHealthy mdb} o : stored (norm o) ->
  has_flag (flags o) DAP_GLOBAL_DB_RECORD_ERASE = false ->
  forall t l, mdbx_entries t (group o) = enc <$> l -> table_ok (group o) l ->
  exists t', apply_store_obj_open t o = inr (0, t').
Proof.
  intros Ho Hf t l Et Hl. unfold apply_store_obj_open. rewrite Hf. cbn [negb].
  destruct (drop_same_key t o l Et Hl (proj2 (ok_key _ (st_ok _ Ho)))) as (r & -> & _). cbn [mbind res_bind].
  assert (Hd : let x := match r with None => (MDBX_NOTFOUND, t) | Some (k, _) => mdbx_del t (group o) k end in
    negb (x.1 =? MDBX_SUCCESS) && negb (x.1 =? MDBX_NOTFOUND) = false).
  { destruct r as [[k ?]|]; [|done]. cbn zeta. by destruct (healthy_del t (group o) k) as [->| ->]. }
  cbn zeta in Hd. destruct (match r with None => _ | Some _ => _ end) as [rc1 t2]. cbn [fst] in Hd. rewrite Hd.
  rewrite make_record_norm by done. cbn [mbind res_bind].
  pose proof (healthy_put t2 (group o) (dap_global_db_driver_hash_get o) (rec_bytes (norm o))) as Hp.
  destruct (mdbx_put t2 _ _ _) as [rc2 t3]. cbn [fst] in Hp. subst rc2. by exists t3.
Qed.

Lemma healthy_writes `{!MdbxHealthy mdb} st m o : mrep st m -> stored (norm o) -> group o <> s_db_master_tbl ->
  has_flag (flags o) DAP_GLOBAL_DB_RECORD_ERASE = false -> usable st (group o) ->
  exists st', s_db_mdbx_apply_store_obj st o false = inr (0, st').
Proof.
  intros Hm Ho Hg Hf Hu. destruct (mdbx_write st m o) as (rc & st' & E & _); [done..|].
  cut (rc = 0); [intros ->; eauto|]. revert E. unfold s_db_mdbx_apply_store_obj. rewrite Hf. cbn [andb].
  pose proof (healthy_begin (s_mdbx_env st)) as Hb. destruct (mdbx_txn_begin (s_mdbx_env st)) as [rc0 t] eqn:Eb.
  cbn [fst] in Hb. subst rc0. cbn [MDBX_SUCCESS Z.eqb negb].
  pose proof (healthy_open_write o Ho Hf) as Hopen.
  assert (Et : forall g, mdbx_entries t g = table st g) by (intros; by apply mdbx_txn_begin_ok).
  pose proof (mrep_entries _ _ _ Hm Hg) as Eg. pose proof (mr_table _ _ Hm (group o)) as Hl.
  destruct (ok_key _ (st_ok _ Ho)) as [Hk _]. destruct (ok_group _ (st_ok _ Ho)) as [Hgl _]. cbn [norm key group] in Hk, Hgl.
  unfold s_db_mdbx_apply_store_obj_with_txn. rewrite (proj2 (Z.eqb_neq _ 0)) by apply (st_crc _ Ho).
  rewrite bool_decide_false by (destruct (key o); [cbn in Hk; lia | done]). cbn [orb]. rewrite Hf.
  case_bool_decide as Hin.
  - rewrite bool_decide_false by done. destruct (Hopen t (m (group o))) as [t' ->]; [by rewrite Et | done|]. cbn [mbind res_bind mret res_ret MDBX_SUCCESS Z.eqb negb].
    destruct (mdbx_txn_commit _ t'). by intros [= <- _].
  - unfold s_cre_db_ctx_for_group. rewrite bool_decide_false by done.
    rewrite (proj2 (Z.ltb_ge _ _)) by (unfold DAP_GLOBAL_DB_GROUP_NAME_SIZE_MAX; lia).
    pose proof (healthy_open t (group o)) as Ho1. pose proof (mdbx_dbi_open_ok t (group o)) as Ho2.
    destruct (mdbx_dbi_open t (group o)) as [rc1 t1]. cbn [fst snd] in *. subst rc1. cbn [MDBX_SUCCESS Z.eqb negb].
    pose proof (mdbx_put_nooverwrite_ok t1 s_db_master_tbl (group o ++ [0]) (group o ++ [0]) (group o) Hg) as Hp.
    destruct (mdbx_put_nooverwrite t1 _ _ _) as [rc2 t2]. cbn [snd] in Hp.
    destruct (Hopen t2 (m (group o))) as [t' ->]; [by rewrite Hp, Ho2, Et | done|].
    cbn [mbind res_bind mret res_ret MDBX_SUCCESS Z.eqb negb]. destruct (mdbx_txn_commit _ t'). by intros [= <- _].
Qed.

Lemma healthy_erases `{!MdbxHealthy mdb} st m o : mrep st m -> obj_ok o -> crc o <> 0 -> timestamp o <> 0 ->
  has_flag (flags o) DAP_GLOBAL_DB_RECORD_ERASE = true -> (exists x, x ∈ m (group o) /\ hval x = hval o) ->
  usable st (group o) ->
  exists st', s_db_mdbx_apply_store_obj st o false = inr (0, st').
Proof.
  intros Hm Ho Hc Ht Hf (x & Hx & Ex) Hu. unfold s_db_mdbx_apply_store_obj. rewrite Hf. cbn [andb].
  pose proof (healthy_begin (s_mdbx_env st)) as Hb. destruct (mdbx_txn_begin (s_mdbx_env st)) as [rc0 t] eqn:Eb.
  cbn [fst] in Hb. subst rc0. cbn [MDBX_SUCCESS Z.eqb negb].
  assert (Hin : group o ∈ s_db_ctxs st).
  { apply dec_stable. intros Hin. destruct (mr_closed _ _ Hm _ Hin) as [E _]. rewrite E in Hx. by apply elem_of_nil in Hx. }
  destruct (mr_open _ _ Hm _ Hin) as [_ Et]. pose proof (mdbx_txn_begin_ok _ _ (group o) Eb) as Et'.
  unfold s_db_mdbx_apply_store_obj_with_txn. rewrite (proj2 (Z.eqb_neq _ 0)) by done. destruct (ok_key _ Ho) as [Hk _].
  rewrite bool_decide_false by (destruct (key o); [cbn in Hk; lia | done]). cbn [orb].
  rewrite bool_decide_true, bool_decide_false by done. unfold apply_store_obj_open. rewrite Hf. cbn [negb].
  rewrite !(proj2 (Z.eqb_neq _ 0)) by done. cbn [negb andb mbind res_bind mret res_ret].
  destruct (mdbx_del t (group o) (dap_global_db_driver_hash_get o)) as [rc t'] eqn:Ed.
  assert (rc = MDBX_SUCCESS) as ->.
  { destruct (healthy_del t (group o) (dap_global_db_driver_hash_get o)) as [E|E]; rewrite Ed in E; [done|].
    cbn [fst] in E. subst rc. apply mdbx_del_notfound in Ed as [E _]. exfalso. revert E.
    pose proof (table_stored _ _ (mr_table _ _ Hm (group o))) as Hl.
    pose proof (proj2 (hash_get_hval x o (st_ok _ (proj1 (Forall_forall _ _) Hl x Hx)) Ho) Ex) as Eh. rewrite <- Eh.
    unfold table in Et. rewrite Et', Et. by apply kv_get_present. }
  cbn [MDBX_SUCCESS MDBX_NOTFOUND Z.eqb negb mbind res_bind mret res_ret]. destruct (mdbx_txn_commit _ t'). eauto.
Qed.

(** A state that represents [m] with every handle open. *)
Definition hrep st m : Prop := mrep st m /\ closed st = [].

Lemma hrep_usable st m g : hrep st m -> usable st g.
Proof. intros [_ E]. unfold usable. rewrite E. apply not_elem_of_nil. Qed.

Lemma hrep_outcome `{!MdbxHealthy mdb} st m g l rc st' : hrep st m -> outcome st m g l rc st' ->
  (rc <> 0 -> closed st' = closed st) -> hrep st' (if rc =? 0 then upd m g l else m).
Proof.
  intros [_ Ec] [He Hd _] Hcl. destruct (Z.eqb_spec rc 0) as [E|E]; [|split; [auto | by rewrite Hcl]].
  destruct (Hd E) as [[? E']|[_ [t Ht]]]; [split; [done | by rewrite E']|]. destruct Ht. apply healthy_commit.
Qed.
End Refinement.

(** ** The driver as an implementation of the contract *)

#[export] Instance mdbx_driver {mdb} `{Mdbx mdb} : Driver (mdbx_state mdb) := {
  apply_store_obj := s_db_mdbx_apply_store_obj;
  read_store_obj := s_db_mdbx_read_store_obj;
  read_all_store_obj := s_db_mdbx_read_all;
  read_last_store_obj := s_db_mdbx_read_last_store_obj;
  read_store_obj_by_timestamp := s_db_mdbx_read_store_obj_below_timestamp;
  read_cond_store_obj := s_db_mdbx_read_cond_store_obj;
  read_hashes := s_db_mdbx_read_hashes;
  read_count_store := s_db_mdbx_read_count_store;
  get_groups_by_mask := s_db_mdbx_get_groups_by_mask;
  is_obj := s_db_mdbx_is_obj;
  is_hash := s_db_mdbx_is_hash;
  get_by_hash := s_db_mdbx_get_by_hash;
  transaction_start := None;
  transaction_end := None;
}.

#[export] Instance mdbx_direct {mdb} `{Mdbx mdb} : Direct (mdbx_state mdb).
Proof. done. Qed.

#[export] Program Instance mdbx_driver_spec {mdb} `{MdbxHealthy mdb} : DriverSpec (mdbx_state mdb) := {
  rep := hrep;
  reserved g := g = s_db_master_tbl;
}.
Next Obligation. intros mdb ?? st m g [Hm _]. apply Hm. Qed.
Next Obligation. intros mdb ?? st m g k Hm. apply mdbx_is_obj_spec; [apply Hm | by eapply hrep_usable]. Qed.
Next Obligation. intros mdb ?? st m g k wh Hm. apply mdbx_read_spec; [apply Hm | by eapply hrep_usable]. Qed.
Next Obligation. intros mdb ?? st m g ts c Hm. apply mdbx_is_hash_spec; [apply Hm | by eapply hrep_usable]. Qed.
Next Obligation.
  intros mdb ?? st m o Hm Ho Hg Hf. pose proof (hrep_usable _ _ (group o) Hm) as Hu.
  destruct (mdbx_write st m o (proj1 Hm) Ho Hg Hf Hu) as (rc & st' & E & Hout).
  destruct (healthy_writes st m o (proj1 Hm) Ho Hg Hf Hu) as [st0 E0]. assert (rc = 0) as -> by congruence.
  exists 0, st'. split; [done|]. by apply (hrep_outcome st).
Qed.
Next Obligation.
  intros mdb ?? st m o Hm Ho Hc Ht Hf.
  destruct (mdbx_erase st m o (proj1 Hm) Ho Hc Ht Hf (hrep_usable _ _ _ Hm)) as (rc & st' & E & Hout & Hcl).
  exists rc, st'. split; [done|]. by apply (hrep_outcome st).
Qed.
Next Obligation.
  intros mdb ?? st m o Hm Hf.
  destruct (mdbx_drop_group st m o (proj1 Hm) Hf (hrep_usable _ _ _ Hm)) as (rc & st' & E & Hout & Hcl).
  exists rc, st'. split; [done|]. by apply (hrep_outcome st).
Qed.
Next Obligation. intros mdb ?? st m g wh Hm. apply mdbx_read_last_spec; [apply Hm | by eapply hrep_usable]. Qed.
Next Obligation. intros mdb ?? st m g ts c n wh Hm. apply mdbx_read_cond_spec; [apply Hm | by eapply hrep_usable]. Qed.
Next Obligation. intros mdb ?? st m g ts c Hm. apply mdbx_read_hashes_spec; [apply Hm | by eapply hrep_usable]. Qed.
Next Obligation. intros mdb ?? st m g ts c wh Hm. apply mdbx_read_count_spec; [apply Hm | by eapply hrep_usable]. Qed.
Next Obligation. intros mdb ?? st m g ts n Hm. apply mdbx_read_below_spec; [apply Hm | by eapply hrep_usable]. Qed.
Next Obligation. intros mdb ?? st m g wh Hm. apply mdbx_read_all_spec; [apply Hm | by eapply hrep_usable]. Qed.
Next Obligation. intros mdb ?? st m mask g Hm. apply mdbx_groups_spec, Hm. Qed.

#[export] Instance mdbx_reliable {mdb} `{MdbxHealthy mdb} : Reliable (mdbx_state mdb).
Proof. intros st m o Hm Ho Hg Hf. apply (healthy_writes st m); try done; [apply Hm | exact (hrep_usable st m _ Hm)]. Qed.
#[export] Instance mdbx_erasing {mdb} `{MdbxHealthy mdb} : Erasing (mdbx_state mdb).
Proof. intros st m o Hm Ho Hc Ht Hf Hx. apply (healthy_erases st m); try done; [apply Hm | exact (hrep_usable st m _ Hm)]. Qed.

(** ** A store in memory *)

(** [None] is a table the store does not have. *)
Definition mem_mdb : Type := list Z -> option (list entry).

Definition mem_entries (d : mem_mdb) (t : list Z) : list entry := default [] (d t).

Definition set_table (d : mem_mdb) (t : list Z) (l : list entry) : mem_mdb :=
  λ t', if decide (t' = t) then Some l else d t'.

Definition mem_del (d : mem_mdb) (t k : list Z) : Z * mem_mdb :=
  match kv_get k (mem_entries d t) with
  | None => (MDBX_NOTFOUND, d)
  | Some _ => (MDBX_SUCCESS, set_table d t (kv_del k (mem_entries d t)))
  end.

Lemma set_table_same d t l : mem_entries (set_table d t l) t = l.
Proof. unfold mem_entries, set_table. by rewrite decide_True. Qed.
Lemma set_table_other d t l t' : t' <> t -> mem_entries (set_table d t l) t' = mem_entries d t'.
Proof. intros. unfold mem_entries, set_table. by rewrite decide_False. Qed.

(** [commit] is what a commit answers. *)
Program Definition mem_mdbx (commit : Z) : Mdbx mem_mdb := {|
  mdbx_entries := mem_entries;
  mdbx_exists d t := bool_decide (is_Some (d t));
  mdbx_put d t k v := (MDBX_SUCCESS, set_table d t (kv_put k v (mem_entries d t)));
  mdbx_put_nooverwrite d t k v := (MDBX_SUCCESS, set_table d t (kv_put k v (mem_entries d t)));
  mdbx_del := mem_del;
  mdbx_drop d t := (MDBX_SUCCESS, set_table d t []);
  mdbx_dbi_open d t := (MDBX_SUCCESS, set_table d t (mem_entries d t));
  mdbx_txn_begin d := (MDBX_SUCCESS, d);
  mdbx_txn_commit d x := (commit, if commit =? MDBX_SUCCESS then x else d);
|}.
Next Obligation. intros _ d t k v d' [= <-]. split; [apply set_table_same | intros; by apply set_table_other]. Qed.
Next Obligation. intros _ d t k v t' Ht. by apply set_table_other. Qed.
Next Obligation.
  intros _ d t k d'. unfold mem_del. destruct (kv_get k _); intros [= <-].
  split; [apply set_table_same | intros; by apply set_table_other].
Qed.
Next Obligation. intros _ d t k d'. unfold mem_del. destruct (kv_get k _) eqn:E; intros [= <-]. done. Qed.
Next Obligation. intros _ d t d' [= <-]. split; [apply set_table_same | intros; by apply set_table_other]. Qed.
Next Obligation.
  intros _ d t t'. cbn [snd]. destruct (decide (t' = t)) as [->|]; [apply set_table_same | by apply set_table_other].
Qed.
Next Obligation. by intros _ d x t [= <-]. Qed.
Next Obligation. by intros c d x rc d' t [= <- <-]. Qed.

#[export] Instance mem_store : Mdbx mem_mdb := mem_mdbx MDBX_SUCCESS.
#[export] Instance mem_healthy : MdbxHealthy mem_mdb.
Proof.
  split; try done. intros d t k. cbn. unfold mem_del. destruct (kv_get k _); [by left | by right].
Qed.

Definition mem_state0 : mdbx_state mem_mdb := MdbxState [] [] (λ _, None).

Lemma mem_state0_mrep commit : mrep (H := mem_mdbx commit) mem_state0 (λ _, []).
Proof. split; [intros; apply empty_table | intros g Hg; by apply elem_of_nil in Hg | done]. Qed.

Lemma mem_state0_rep : hrep mem_state0 (λ _, []).
Proof. split; [apply mem_state0_mrep | done]. Qed.

(** A store with one table. *)
Definition mem_state1 (g : list Z) (l : list dap_store_obj) : mdbx_state mem_mdb :=
  MdbxState [g] [] (set_table (λ _, None) g (enc <$> l)).

Lemma mem_state1_rep g l : table_ok g l -> g <> s_db_master_tbl -> hrep (mem_state1 g l) (upd (λ _, []) g l).
Proof.
  intros Hl Hg. split; [split|done].
  - intros g'. unfold upd. case_decide; [by subst | apply empty_table].
  - intros g' ->%list_elem_of_singleton. split; [done|]. rewrite upd_same. apply set_table_same.
  - intros g' Hg'%not_elem_of_cons. rewrite upd_other by apply Hg'. split; [done|]. intros _.
    change (mem_entries (set_table (λ _, None) g (enc <$> l)) g' = []). by rewrite set_table_other by apply Hg'.
Qed.

(** ** What the driver promises and where it does not *)


Definition sample_rec : dap_store_obj := StoreObj [103] [107; 49] [1; 2; 3] 64 None 1000 77 None.

Lemma sample_rec_stored : stored (norm sample_rec).
Proof.
  split; [|cbn; lia | done | split; [split; done | done] | done | constructor | by left].
  split; [split; [cbn; lia | repeat constructor; discriminate] | split; [cbn; lia | repeat constructor; discriminate]
    | done | exact I | split; done | split; done].
Qed.


(** A write whose commit fails reports success and stores nothing.  If it was to
    create the group's table, the context left behind has a closed handle: every
    later write or read of the group uses it. *)
Lemma failed_commit_reported_as_success rc : rc <> MDBX_SUCCESS ->
  let M := mem_mdbx rc in
  (exists st', @s_db_mdbx_apply_store_obj _ M (mem_state1 [103] []) sample_rec false = inr (0, st') /\
    @s_db_mdbx_is_obj _ M st' [103] [107; 49] = inr false) /\
  exists st', @s_db_mdbx_apply_store_obj _ M mem_state0 sample_rec false = inr (0, st') /\
    @s_db_mdbx_apply_store_obj _ M st' sample_rec false = inl StaleHandle /\
    @s_db_mdbx_is_obj _ M st' [103] [107; 49] = inl StaleHandle.
Proof.
  intros Hrc M. split; unfold s_db_mdbx_apply_store_obj; cbn; rewrite (proj2 (Z.eqb_neq rc _)) by done;
    eexists; (split; [reflexivity|]); [|split]; reflexivity.
Qed.

(** A record without value and signature is never found by its key. *)
Lemma bare_record_invisible h o es : value o = [] -> sign o = None ->
  s_get_obj_by_text_key ((h, rec_bytes o) :: es) (key o) = s_get_obj_by_text_key es (key o).
Proof.
  intros Hv Hs. cbn [s_get_obj_by_text_key]. rewrite length_rec_bytes. unfold sign_bytes. rewrite Hv, Hs.
  cbn [default from_option length]. rewrite (proj2 (Z.ltb_ge _ _)) by (unfold sizeof_record; lia). done.
Qed.
