(* ===== verification/GdbCore.v ===== *)
(** * The database core (global-db/dap_global_db.c, dap_global_db_cluster.c)

    Setting, getting, deleting and pinning records, the rules by which a record
    is accepted, and the periodic removal of expired records, over any driver
    with the contract of [GdbDriver].  The roles of signers are members of the
    link clusters of [Cluster.v]; records are signed and serialized as in
    [GdbPkt].

    The clock is a sequence of readings, one per call of [dap_nanotime_now].
    What the core hands to other components (a gossip message, a notification)
    is appended to [events].  Allocations succeed. *)

From S2P Require Import Prelude Crc64 Cluster GdbPkt GdbDriver GdbMdbx.
From stdpp Require Import list sets sorting gmap.
Local Open Scope Z_scope.

(** ** Data *)

(** [dap_global_db_role_t]. *)
Definition ROLE_NOBODY : Z := 0.
Definition ROLE_GUEST : Z := 1.
Definition ROLE_USER : Z := 2.
Definition ROLE_ROOT : Z := 3.
Definition ROLE_INVALID : Z := -1.

(** [dap_global_db_cluster_t]: links and roles are clusters of the world. *)
Record gdb_cluster := GdbCluster {
  groups_mask : list Z;
  links_cluster : Z;
  role_cluster : Z;
  default_role : Z;
  ttl : Z;
  owner_root_access : bool;
  notifiers : list Z;
  del_callback : bool;
}.

Inductive gdb_event :=
  | EvIssue (links : Z) (pkt hash : list Z)
  | EvNotify (callback : Z) (o : dap_store_obj)
  | EvDelCallback (o : dap_store_obj)
  | EvDelRequest (a_group a_key : list Z)
  | EvSend (a_addr a_type : Z) (a_data : list Z)
  | EvNotifier (a_addr : Z) (a_add : bool).

(** A bad memory access, a lock that is never released, and a depth the model
    was not given. *)
Inductive gfault := GMem (f : fault) | GBlocked | GDepth.

Definition gres (A : Type) : Type := (gfault + A)%type.
#[export] Instance gres_bind : MBind gres := λ A B f m, match m with inl e => inl e | inr a => f a end.
#[export] Instance gres_ret : MRet gres := λ A a, inr a.

Definition lift {A} (r : res A) : gres A := match r with inl f => inl (GMem f) | inr a => inr a end.
Definition lock {A} (r : option A) : gres A := match r with None => inl GBlocked | Some a => inr a end.
Definition gmem {A} (r : option A) : gres A := lift (mem r).

(** What the callback of a get-all request is called with: the records, the code and the total. *)
Record results (A : Type) := Results { rs_items : option (list A); rs_code : Z; rs_total : Z }.
Arguments Results {A}.
Arguments rs_items {A}.
Arguments rs_code {A}.
Arguments rs_total {A}.

Section Core.
Context {key_t : Type} `{SignScheme key_t} {D : Type} `{Driver D}.
(** [dap_stream_node_addr_from_sign]: a hash of the signer's public key. *)
Context (node_addr_from_sign : list Z -> Z).

Record gdb := Gdb {
  drv : D;
  clusters : list gdb_cluster;
  cworld : Cluster.world;
  clock : nat -> Z;
  ticks : nat;
  signing_key : option key_t;
  s_minimal_ttl : Z;
  pinned_timer : bool;
  events : list gdb_event;
}.

Definition set_drv (s : gdb) d :=
  Gdb d (clusters s) (cworld s) (clock s) (ticks s) (signing_key s) (s_minimal_ttl s) (pinned_timer s) (events s).
Definition set_cworld (s : gdb) w :=
  Gdb (drv s) (clusters s) w (clock s) (ticks s) (signing_key s) (s_minimal_ttl s) (pinned_timer s) (events s).
Definition set_timer (s : gdb) t :=
  Gdb (drv s) (clusters s) (cworld s) (clock s) (ticks s) (signing_key s) t true (events s).
Definition emits (s : gdb) es :=
  Gdb (drv s) (clusters s) (cworld s) (clock s) (ticks s) (signing_key s) (s_minimal_ttl s) (pinned_timer s)
    (events s ++ es).

Definition dap_nanotime_now (s : gdb) : Z * gdb :=
  (clock s (ticks s), Gdb (drv s) (clusters s) (cworld s) (clock s) (S (ticks s)) (signing_key s) (s_minimal_ttl s)
                        (pinned_timer s) (events s)).

Definition DAP_NSEC_PER_SEC : Z := 1000000000.
Definition dap_nanotime_from_sec (a_time : Z) : Z := wrap 64 (a_time * DAP_NSEC_PER_SEC).

(** ** Clusters of groups *)

Definition dap_global_db_cluster_by_group (s : gdb) (a_group : list Z) : option gdb_cluster :=
  List.find (λ c, dap_global_db_group_match_mask a_group (groups_mask c)) (clusters s).

Definition dap_global_db_cluster_broadcast (s : gdb) (c : gdb_cluster) (o : dap_store_obj) : gres gdb :=
  l_pkt ← lift (dap_global_db_pkt_serialize o);
  mret (emits s [EvIssue (links_cluster c) l_pkt (dap_global_db_driver_hash_get o)]).

Definition dap_global_db_cluster_notify (s : gdb) (c : gdb_cluster) (o : dap_store_obj) : gdb :=
  emits s (map (λ cb, EvNotify cb o) (notifiers c)).

(** ** Pinned groups *)

(** ["local."], [".pinned"], ["*pinned"]. *)
Definition str_local : list Z := [108; 111; 99; 97; 108; 46].
Definition str_pinned : list Z := [46; 112; 105; 110; 110; 101; 100].
Definition mask_pinned : list Z := [42; 112; 105; 110; 110; 101; 100].

Definition dap_get_local_pinned_groups_mask (a_group : list Z) : list Z := str_local ++ a_group ++ str_pinned.

Definition dap_global_db_get_raw_sync (s : gdb) (a_group a_key : list Z) : gres (option dap_store_obj) :=
  lift (read_store_obj (drv s) a_group a_key true).

Definition s_set_pinned_timer (s : gdb) (a_group : list Z) : gdb :=
  match dap_global_db_cluster_by_group s a_group with
  | None => s
  | Some c =>
    if (negb (ttl c =? 0) && (dap_nanotime_from_sec (ttl c) <? s_minimal_ttl s)) || negb (pinned_timer s)
    then set_timer s (if ttl c =? 0 then s_minimal_ttl s else dap_nanotime_from_sec (ttl c))
    else s
  end.

Definition s_del_pinned_obj_from_pinned_group_by_source_group (s : gdb) (a_group a_key : list Z) : gres gdb :=
  r ← dap_global_db_get_raw_sync s (dap_get_local_pinned_groups_mask a_group) a_key;
  match r with
  | None => mret s
  | Some o => '(_, d) ← lift (dap_global_db_driver_delete (drv s) [(o, false)]); mret (set_drv s d)
  end.

Definition s_check_is_obj_pinned (s : gdb) (a_group a_key : list Z) : gres bool :=
  if dap_global_db_group_match_mask a_group mask_pinned then mret true
  else lift (is_obj (drv s) (dap_get_local_pinned_groups_mask a_group) a_key).

(** ** Applying a record *)

(** The public keys of two signature blocks. *)
Definition dap_sign_compare_pkeys (s1 s2 : list Z) : option bool :=
  t1 ← mem_le s1 0 4; t2 ← mem_le s2 0 4;
  if negb (t1 =? t2) then Some false else
  k1 ← mem_le s1 10 4; k2 ← mem_le s2 10 4;
  if negb (k1 =? k2) then Some false else
  p1 ← mem_read s1 sizeof_sign k1; p2 ← mem_read s2 sizeof_sign k2; Some (memcmp p1 p2 =? 0).

Definition set_stamp (o : dap_store_obj) (ts : Z) : dap_store_obj :=
  StoreObj (group o) (key o) (value o) (flags o) (sign o) ts (crc o) (ext o).

(** The role the record's signer has in the cluster. *)
Definition signer_role (s : gdb) (c : gdb_cluster) (o : dap_store_obj) : gres (Z * gdb) :=
  '(r, s) ← match sign o with
            | None => mret (ROLE_INVALID, s)
            | Some sg =>
              '(w, r) ← lock (dap_cluster_member_find_role (cworld s) (role_cluster c) (node_addr_from_sign sg));
              mret (r, set_cworld s w)
            end;
  mret (if r =? ROLE_INVALID then default_role c else r, s).

(** The owner of an existing record may rewrite it. *)
Definition owner_rewrites (c : gdb_cluster) (o x : dap_store_obj) : gres bool :=
  if negb (owner_root_access c) then mret false else
  match sign o, sign x with
  | None, _ => mret false
  | Some _, None => mret true
  | Some so, Some sx => gmem (dap_sign_compare_pkeys so sx)
  end.

(** The switch over the comparison with the existing record: the code and the
    object, signed again where its time had to be corrected. *)
Definition compare_existing (s : gdb) (x : option dap_store_obj) (o : dap_store_obj) : gres (Z * dap_store_obj) :=
  let cmp := dap_store_obj_driver_hash_compare x (Some o) in
  if cmp =? 1 then
    match x with
    | Some x =>
      if has_flag (flags o) DAP_GLOBAL_DB_RECORD_NEW then
        let o := set_crc (set_sign (set_stamp o (wrap 64 (timestamp x + 1))) None) 0 in
        r ← lift (dap_store_obj_sign o (signing_key s));
        match r with
        | Some (Some sg, c) => mret (0, set_crc (set_sign o (Some sg)) c)
        | Some (None, c) => mret (-20, set_crc o c)
        | None => mret (-20, o)
        end
      else mret (-18, o)
    | None => mret (-18, o)
    end
  else if cmp =? 0 then mret (-17, o)
  else if cmp =? -1 then mret (0, o) else mret (-19, o).

(** Gossip, then the notifiers; not for the deletion of what did not exist. *)
Definition announce (s : gdb) (c : gdb_cluster) (x : option dap_store_obj) (o : dap_store_obj) : gres gdb :=
  if negb (has_flag (flags o) DAP_GLOBAL_DB_RECORD_DEL) || bool_decide (is_Some x) then
    s ← (if has_flag (flags o) DAP_GLOBAL_DB_RECORD_NEW then dap_global_db_cluster_broadcast s c o else mret s);
    mret (dap_global_db_cluster_notify s c o)
  else mret s.

(** The checks in front of the lookup: the code that rejects, or the cluster
    and the signer's role. *)
Definition check_obj (s : gdb) (o : dap_store_obj) : gres (gdb * (Z + gdb_cluster * Z)) :=
  match dap_global_db_cluster_by_group s (group o) with
  | None => mret (s, inl (-11))
  | Some c =>
    known ← lift (is_hash (drv s) (group o) (dap_global_db_driver_hash_get o));
    if known : bool then mret (s, inl (-12)) else
    let l_ttl := dap_nanotime_from_sec (ttl c) in
    let '(l_now, s) := dap_nanotime_now s in
    if l_now <? timestamp o then mret (s, inl (-13)) else
    if negb (l_ttl =? 0) && (wrap 64 (timestamp o + l_ttl) <? l_now) then mret (s, inl (-13)) else
    '(r, s) ← signer_role s c o;
    if r <? ROLE_USER then mret (s, inl (-14)) else mret (s, inr (c, r))
  end.

(** The record with the same key; one that cannot be read is to be erased. *)
Definition existing (s : gdb) (o : dap_store_obj) : gres (option dap_store_obj * gdb) :=
  found ← lift (is_obj (drv s) (group o) (key o));
  if negb found then mret (None, s) else
  r ← lift (read_store_obj (drv s) (group o) (key o) true);
  match r with
  | Some x => mret (Some x, s)
  | None =>
    '(_, d) ← lift (dap_global_db_driver_delete (drv s) [(StoreObj (group o) (key o) [] 0 None 0 0 None, false)]);
    mret (None, set_drv s d)
  end.

(** The new record of [s_set_sync_with_ts], signed and applied; [None] for the
    object when it cannot be signed. *)
Definition new_obj (a_group a_key a_value : list Z) (a_flags a_timestamp : Z) : dap_store_obj :=
  StoreObj a_group a_key a_value a_flags None a_timestamp 0 None.

Section Pinned.
Context (apply : gdb -> dap_store_obj -> gres (Z * dap_store_obj * gdb)).

Definition sign_and_apply (s : gdb) (o : dap_store_obj) : gres (Z * option dap_store_obj * gdb) :=
  r ← lift (dap_store_obj_sign o (signing_key s));
  match r with
  | Some (Some sg, c) => '(rc, o, s) ← apply s (set_crc (set_sign o (Some sg)) c); mret (rc, Some o, s)
  | _ => mret (-6, None, s)
  end.

(** [dap_global_db_set_sync] without pinning. *)
Definition set_sync_unpinned (s : gdb) (a_group a_key a_value : list Z) : gres (Z * gdb) :=
  let '(l_now, s) := dap_nanotime_now s in
  '(rc, _, s) ← sign_and_apply s (new_obj a_group a_key a_value DAP_GLOBAL_DB_RECORD_NEW l_now);
  mret (rc, s).

Definition s_add_pinned_obj_in_pinned_group (s : gdb) (o : dap_store_obj) : gres (dap_store_obj * gdb) :=
  if dap_global_db_group_match_mask (group o) mask_pinned then mret (o, s) else
  let l_pinned_mask := dap_get_local_pinned_groups_mask (group o) in
  l_ret_check ← dap_global_db_get_raw_sync s l_pinned_mask (key o);
  '(o, s) ← match l_ret_check with
            | Some _ => mret (o, s)
            | None =>
              '(rc, s) ← set_sync_unpinned s l_pinned_mask (key o) (value o);
              if rc =? 0 then
                let '(l_now, s) := dap_nanotime_now s in
                let o := set_stamp o l_now in
                '(_, d) ← lift (dap_global_db_driver_apply (drv s) [(o, false)]);
                mret (o, set_drv s d)
              else mret (o, s)
            end;
  mret (o, s_set_pinned_timer s (group o)).
End Pinned.

(** [s_store_obj_apply] from the write on; [pin] copies a pinned record to its
    pinned group. *)
Definition store_accepted (pin : gdb -> dap_store_obj -> gres (dap_store_obj * gdb)) (s : gdb) (c : gdb_cluster)
    (x : option dap_store_obj) (o : dap_store_obj) : gres (Z * dap_store_obj * gdb) :=
  '(rc, d) ← lift (dap_global_db_driver_apply (drv s) [(o, false)]);
  let s := set_drv s d in
  '(o, s) ← (if has_flag (flags o) DAP_GLOBAL_DB_RECORD_PINNED then pin s o
             else if match x with Some x => has_flag (flags x) DAP_GLOBAL_DB_RECORD_PINNED | None => false end
             then s ← s_del_pinned_obj_from_pinned_group_by_source_group s (group o) (key o); mret (o, s)
             else mret (o, s));
  s ← announce s c x o;
  mret (rc, o, s).

(** The code, the object as the call leaves it and the state. *)
Definition store_obj_apply (pin : gdb -> dap_store_obj -> gres (dap_store_obj * gdb)) (s : gdb) (o : dap_store_obj)
    : gres (Z * dap_store_obj * gdb) :=
  '(s, adm) ← check_obj s o;
  match adm with
  | inl rc => mret (rc, o, s)
  | inr (c, r) =>
    '(x, s) ← existing s o;
    owner ← match x with Some x => owner_rewrites c o x | None => mret false end;
    let r := if owner : bool then ROLE_ROOT else r in
    if r <? (match x with Some _ => ROLE_ROOT | None => ROLE_USER end) then mret (-16, o, s) else
    '(rc, o) ← compare_existing s x o;
    if negb (rc =? 0) then mret (rc, o, s) else store_accepted pin s c x o
  end.

(** [depth] bounds the nesting of the copies a pinned record makes; a copy is
    not pinned itself. *)
Fixpoint s_store_obj_apply (depth : nat) (s : gdb) (o : dap_store_obj) {struct depth}
    : gres (Z * dap_store_obj * gdb) :=
  store_obj_apply (λ s o, match depth with
                          | O => inl GDepth
                          | S depth => s_add_pinned_obj_in_pinned_group (s_store_obj_apply depth) s o
                          end) s o.

(** Two levels: the record and its copy in the pinned group. *)
Definition apply_obj : gdb -> dap_store_obj -> gres (Z * dap_store_obj * gdb) := s_store_obj_apply 1.

(** ** Setting, getting and deleting *)

Definition s_set_sync_with_ts (s : gdb) (a_group a_key a_value : list Z) (a_pin_value : bool) (a_timestamp : Z)
    : gres (Z * gdb) :=
  '(l_res, o, s) ← sign_and_apply apply_obj s (new_obj a_group a_key a_value
    (Z.lor DAP_GLOBAL_DB_RECORD_NEW (if a_pin_value then DAP_GLOBAL_DB_RECORD_PINNED else 0)) a_timestamp);
  match o with
  | None => mret (l_res, s)
  | Some o =>
    if a_pin_value then '(_, s) ← s_add_pinned_obj_in_pinned_group apply_obj s o; mret (l_res, s)
    else mret (l_res, s)
  end.

Definition dap_global_db_set_sync (s : gdb) (a_group a_key a_value : list Z) (a_pin_value : bool) : gres (Z * gdb) :=
  let '(l_now, s) := dap_nanotime_now s in s_set_sync_with_ts s a_group a_key a_value a_pin_value l_now.

(** The objects of a batch one after the other; the code of the last. *)
Fixpoint set_raw_loop (s : gdb) (l : list dap_store_obj) (l_ret : Z) : gres (Z * list dap_store_obj * gdb) :=
  match l with
  | [] => mret (l_ret, [], s)
  | o :: l =>
    '(rc, o, s) ← apply_obj s o;
    '(rc, l, s) ← set_raw_loop s l rc; mret (rc, o :: l, s)
  end.

Definition s_db_set_raw_sync (s : gdb) (l : list dap_store_obj) : gres (Z * gdb) :=
  let txn := bool_decide (1 < length l)%nat in
  let s := if txn then set_drv s (dap_global_db_driver_txn_start (drv s)).2 else s in
  '(rc, l, s) ← set_raw_loop s l (-6);
  s ← match l with
      | o :: _ =>
        if has_flag (flags o) DAP_GLOBAL_DB_RECORD_PINNED
        then '(_, s) ← s_add_pinned_obj_in_pinned_group apply_obj s o; mret s
        else mret s
      | [] => mret s
      end;
  mret (rc, if txn then set_drv s (dap_global_db_driver_txn_end (drv s) (rc =? 0)).2 else s).

(** The value (a null pointer when it is empty), whether it is pinned and its
    time; [None] when there is no record. *)
Definition dap_global_db_get_sync (s : gdb) (a_group a_key : list Z) : gres (option (list Z * bool * Z)) :=
  r ← lift (read_store_obj (drv s) a_group a_key true);
  match r with
  | None => mret None
  | Some o => pinned ← s_check_is_obj_pinned s a_group a_key; mret (Some (value o, pinned, timestamp o))
  end.

Definition dap_global_db_get_del_ts_sync (s : gdb) (a_group a_key : list Z) : gres Z :=
  r ← dap_global_db_get_raw_sync s a_group a_key;
  mret (match r with
        | Some o => if has_flag (flags o) DAP_GLOBAL_DB_RECORD_DEL then timestamp o else 0
        | None => 0
        end).

Definition dap_global_db_get_last_raw_sync (s : gdb) (a_group : list Z) : gres (option dap_store_obj) :=
  lift (read_last_store_obj (drv s) a_group true).

Definition dap_global_db_get_all_raw_sync (s : gdb) (a_group : list Z) : gres (option (list dap_store_obj)) :=
  lift (read_all_store_obj (drv s) a_group 0 true).

(** [a_key] is [None] for the whole group. *)
Definition s_del_sync_with_dbi_ex (s : gdb) (a_group : list Z) (a_key : option (list Z)) (a_value : list Z)
    : gres (Z * gdb) :=
  let '(l_now, s) := dap_nanotime_now s in
  match a_key with
  | Some a_key =>
    let o := new_obj a_group a_key a_value (Z.lor DAP_GLOBAL_DB_RECORD_NEW DAP_GLOBAL_DB_RECORD_DEL) l_now in
    r ← lift (dap_store_obj_sign o (signing_key s));
    '(rc, o, s) ← apply_obj s (match r with Some (sg, c) => set_crc (set_sign o sg) c | None => o end);
    if has_flag (flags o) DAP_GLOBAL_DB_RECORD_PINNED
    then s ← s_del_pinned_obj_from_pinned_group_by_source_group s a_group a_key; mret (rc, s)
    else mret (rc, s)
  | None =>
    let o := new_obj a_group [] a_value (Z.lor DAP_GLOBAL_DB_RECORD_NEW DAP_GLOBAL_DB_RECORD_ERASE) l_now in
    '(rc, d) ← lift (dap_global_db_driver_apply (drv s) [(o, true)]); mret (rc, set_drv s d)
  end.

Definition dap_global_db_del_sync (s : gdb) (a_group : list Z) (a_key : option (list Z)) : gres (Z * gdb) :=
  s_del_sync_with_dbi_ex s a_group a_key [].

Definition s_db_object_pin_sync (s : gdb) (a_group a_key : list Z) (a_pin : bool) : gres (Z * gdb) :=
  r ← dap_global_db_get_raw_sync s a_group a_key;
  match r with
  | None => mret (-1, s)
  | Some o =>
    '(rc, s) ← dap_global_db_set_sync s (group o) (key o) (value o) a_pin;
    if negb (rc =? 0) then mret (-6, s)
    else if a_pin then '(_, s) ← s_add_pinned_obj_in_pinned_group apply_obj s o; mret (0, s)
    else s ← s_del_pinned_obj_from_pinned_group_by_source_group s a_group a_key; mret (0, s)
  end.

(** ** Reading a group page by page *)

(** [struct queue_io_msg] of a get-all request.  The members of its union
    overlap: [total_records] is the word of [group], the pointer to the copied
    name, and [processed_records] the word of [key], which such a request does
    not use.  [gm_ptr] is that word, [gm_group] the name it points to. *)
Record get_all_msg := GetAllMsg {
  gm_ptr : Z;
  gm_group : list Z;
  gm_last_hash : list Z;
  gm_page_size : Z;
  gm_processed : Z;
}.

Definition total_records (m : get_all_msg) : Z := gm_ptr m.

Definition RC_SUCCESS : Z := 0.
Definition RC_PROGRESS : Z := 2.
Definition RC_NO_RESULTS : Z := -1.

(** The reading part common to both requests: the records of the page, the
    code and the message's new state.  The records of the group are counted
    only when [total_records], and with it the name, is null: none are found
    then. *)
Definition read_page (s : gdb) (m : get_all_msg) (a_with_holes : bool)
    : gres (option (list dap_store_obj) * Z * get_all_msg) :=
  p ← (if total_records m =? 0 then mret None
       else lift (read_cond_store_obj (drv s) (gm_group m) (gm_last_hash m) (gm_page_size m) a_with_holes));
  let upd_msg h n := GetAllMsg (gm_ptr m) (gm_group m) h (gm_page_size m) (gm_processed m + n) in
  match p with
  | None => mret (None, RC_NO_RESULTS, m)
  | Some p =>
    let l := items p in
    let n := Z.of_nat (length l) in
    if last_page p then mret (Some l, RC_SUCCESS, upd_msg c_dap_global_db_driver_hash_blank n) else
    match last l with
    | None => mret (Some l, RC_NO_RESULTS, m)
    | Some o =>
      let h := dap_global_db_driver_hash_get o in
      if dap_global_db_driver_hash_is_blank h
      then mret (Some (removelast l), RC_SUCCESS, upd_msg h (n - 1))
      else mret (Some l, RC_PROGRESS, upd_msg h n)
    end
  end.

(** The callback's arguments, the message and whether it is run again; [cont]
    is the callback's answer. *)
Definition s_msg_opcode_get_all_raw (s : gdb) (m : get_all_msg) (cont : bool)
    : gres (results dap_store_obj * get_all_msg * bool) :=
  if gm_page_size m =? 0 then
    l ← dap_global_db_get_all_raw_sync s (gm_group m);
    mret (Results l (match l with Some _ => RC_SUCCESS | None => RC_NO_RESULTS end) (total_records m), m, false)
  else
    '(l, rc, m) ← read_page s m true;
    mret (Results l rc (total_records m), m, (rc =? RC_PROGRESS) && cont).

(** [dap_global_db_obj_t]; a broken record leaves its place zeroed, and its
    deletion is requested. *)
Record db_obj := DbObj { o_key : list Z; o_value : list Z; o_timestamp : Z; o_pinned : bool }.

Definition to_db_obj (o : dap_store_obj) : db_obj :=
  DbObj (key o) (value o) (timestamp o) (has_flag (flags o) DAP_GLOBAL_DB_RECORD_PINNED).

Definition s_objs_from_store_objs (s : gdb) (l : list dap_store_obj) : list (option db_obj) * gdb :=
  let ok := λ o, dap_global_db_isalnum_group_key o false true in
  (map (λ o, if ok o then Some (to_db_obj o) else None) l,
   emits s (map (λ o, EvDelRequest (group o) (key o)) (List.filter (λ o, negb (ok o)) l))).

Definition objs_of (s : gdb) (l : option (list dap_store_obj)) : option (list (option db_obj)) * gdb :=
  match l with
  | Some l => let '(l, s) := s_objs_from_store_objs s l in (Some l, s)
  | None => (None, s)
  end.

Definition dap_global_db_get_all_sync (s : gdb) (a_group : list Z) : gres (option (list (option db_obj)) * gdb) :=
  l ← lift (read_all_store_obj (drv s) a_group 0 false); mret (objs_of s l).

Definition s_msg_opcode_get_all (s : gdb) (m : get_all_msg) (cont : bool)
    : gres (results (option db_obj) * get_all_msg * bool * gdb) :=
  if gm_page_size m =? 0 then
    '(l, s) ← dap_global_db_get_all_sync s (gm_group m);
    mret (Results l (match l with Some _ => RC_SUCCESS | None => RC_NO_RESULTS end)
            (Z.of_nat (length (default [] l))), m, false, s)
  else
    '(l, rc, m) ← read_page s m false;
    let '(l, s) := objs_of s l in
    mret (Results l rc (total_records m), m, (rc =? RC_PROGRESS) && cont, s).

(** [s_queue_io_callback] is run until it asks to stop, with a callback that
    wants every page; [fuel] bounds the number of runs.  The calls of the
    callback. *)
Fixpoint get_all_run (fuel : nat) (s : gdb) (m : get_all_msg) : gres (list (results (option db_obj)) * gdb) :=
  match fuel with
  | O => inl GDepth
  | S fuel =>
    '(r, m, again, s) ← s_msg_opcode_get_all s m true;
    if again : bool then '(rs, s) ← get_all_run fuel s m; mret (r :: rs, s) else mret ([r], s)
  end.

(** [dap_global_db_get_all] fills in the message: [a_ptr] is the copied name. *)
Definition get_all_request (a_ptr : Z) (a_group : list Z) (a_page_size : Z) : get_all_msg :=
  GetAllMsg a_ptr a_group c_dap_global_db_driver_hash_blank a_page_size 0.

(** ** Removing expired records *)

(** ["local.*"] and ["*"]. *)
Definition mask_local : list Z := str_local ++ [42].
Definition mask_all : list Z := [42].

(** The body of the loop over a page; [first] is [l_ret->group]. *)
Definition clean_obj (c : gdb_cluster) (l_ttl l_now : Z) (first : list Z) (s : gdb) (o : dap_store_obj) : gres gdb :=
  if has_flag (flags o) DAP_GLOBAL_DB_RECORD_PINNED then mret s else
  let del := '(_, d) ← lift (dap_global_db_driver_delete (drv s) [(o, false)]); mret (set_drv s d) in
  if negb (l_ttl =? 0) then
    if wrap 64 (timestamp o + l_ttl) <? l_now then
      if del_callback c then mret (emits s [EvDelCallback o]) else del
    else mret s
  else if has_flag (flags o) DAP_GLOBAL_DB_RECORD_DEL && dap_global_db_group_match_mask first mask_local then del
  else mret s.

Fixpoint clean_objs (c : gdb_cluster) (l_ttl l_now : Z) (first : list Z) (s : gdb) (l : list dap_store_obj) : gres gdb :=
  match l with
  | [] => mret s
  | o :: l => s ← clean_obj c l_ttl l_now first s o; clean_objs c l_ttl l_now first s l
  end.

Definition blank_obj : dap_store_obj := StoreObj [] [] [] 0 None 0 0 None.

(** The loop over the pages of a group; the marker of the last page is an
    element of it. *)
Fixpoint clean_loop (fuel : nat) (c : gdb_cluster) (l_ttl l_now : Z) (g : list Z) (s : gdb) : gres gdb :=
  match fuel with
  | O => inl GDepth
  | S fuel =>
    p ← lift (read_store_obj_by_timestamp (drv s) g (wrap 64 (l_now - l_ttl)) 0);
    match p with
    | None => mret s
    | Some p =>
      match items p with
      | [] => mret s
      | o :: _ =>
        s ← clean_objs c l_ttl l_now (group o) s (items p ++ if last_page p then [blank_obj] else []);
        if l_ttl =? 0 then mret s else clean_loop fuel c l_ttl l_now g s
      end
    end
  end.

Definition clean_group (fuel : nat) (s : gdb) (g : list Z) : gres gdb :=
  n ← lift (read_count_store (drv s) g c_dap_global_db_driver_hash_blank true);
  if n =? 0 then '(_, s) ← dap_global_db_del_sync s g None; mret s else
  match dap_global_db_cluster_by_group s g with
  | None => mret s
  | Some c =>
    let '(l_now, s) := dap_nanotime_now s in
    clean_loop fuel c (dap_nanotime_from_sec (ttl c)) l_now g s
  end.

Fixpoint clean_groups (fuel : nat) (s : gdb) (l : list (list Z)) : gres gdb :=
  match l with [] => mret s | g :: l => s ← clean_group fuel s g; clean_groups fuel s l end.

Definition s_clean_old_obj_gdb_callback (fuel : nat) (s : gdb) : gres gdb :=
  clean_groups fuel s (get_groups_by_mask (drv s) mask_all).
End Core.
Arguments gdb : clear implicits.

(** ** Steps of the application of a record *)

Lemma holes_true l : holes true l = l.
Proof. apply filter_all. by apply Forall_true. Qed.

(** Comparing the public keys of two well-formed signatures. *)
Lemma sign_fields s : sign_ok (Some s) -> Forall (fits 8) s ->
  exists t k p, mem_le s 0 4 = Some t /\ mem_le s 10 4 = Some k /\ mem_read s sizeof_sign k = Some p.
Proof.
  intros [E Hl] Hb. unfold dap_sign_get_size in E. destruct (mem_le s 0 4) as [t|]; [|discriminate E].
  cbn [mbind option_bind] in E. destruct (t =? SIG_TYPE_NULL); [injection E; lia|].
  destruct (mem_le s (0 + 6) 4) as [a|] eqn:Ea; [|discriminate E].
  destruct (mem_le s (0 + 10) 4) as [b|] eqn:Eb; [|discriminate E].
  apply mem_le_fits in Ea; [|done]. pose proof (mem_le_fits _ _ _ _ Hb Eb) as Hfb.
  cbn [mbind option_bind] in E. injection E as E. unfold fits, sizeof_sign in *.
  destruct (mem_read_Some s 14 b) as (p & Hp & _); [lia..|]. exists t, b, p. split_and!; [done | exact Eb | exact Hp].
Qed.

Lemma compare_pkeys_total s1 s2 : sign_ok (Some s1) -> sign_ok (Some s2) -> Forall (fits 8) s1 -> Forall (fits 8) s2 ->
  exists b, dap_sign_compare_pkeys s1 s2 = Some b.
Proof.
  intros H1 H2 B1 B2. destruct (sign_fields s1 H1 B1) as (t1 & k1 & p1 & E1 & E2 & E3).
  destruct (sign_fields s2 H2 B2) as (t2 & k2 & p2 & F1 & F2 & F3).
  unfold dap_sign_compare_pkeys. rewrite E1, F1. cbn [mbind option_bind]. destruct (t1 =? t2); cbn [negb]; [|eauto].
  rewrite E2, F2. cbn [mbind option_bind]. destruct (k1 =? k2); cbn [negb]; [|eauto].
  rewrite E3, F3. cbn [mbind option_bind]. eauto.
Qed.

Section Steps.
Context {key_t : Type} `{SignScheme key_t} {D : Type} `{Reliable D}.
Context (node_addr_from_sign : list Z -> Z).
Implicit Types (s : gdb key_t D) (o : dap_store_obj) (m : list Z -> list dap_store_obj).

(** The configuration a record is judged by. *)
Definition same_config s s' : Prop :=
  clusters s' = clusters s /\ cworld s' = cworld s /\ clock s' = clock s /\ signing_key s' = signing_key s /\
  (ticks s <= ticks s')%nat.

Lemma same_config_trans s1 s2 s3 : same_config s1 s2 -> same_config s2 s3 -> same_config s1 s3.
Proof. unfold same_config. intros (?&?&?&?&?) (?&?&?&?&?). split_and!; (congruence || lia). Qed.

(** The signer's role is [r]. *)
Definition has_role (w : Cluster.world) (c : gdb_cluster) o (r : Z) : Prop :=
  match sign o with
  | None => default_role c = r
  | Some sg => exists r0, dap_cluster_member_find_role w (role_cluster c) (node_addr_from_sign sg) = Some (w, r0) /\
                 (if r0 =? ROLE_INVALID then default_role c else r0) = r
  end.

Lemma has_role_eq s c o r : has_role (cworld s) c o r -> signer_role node_addr_from_sign s c o = inr (r, s).
Proof.
  unfold has_role, signer_role. destruct (sign o) as [sg|].
  - intros (r0 & -> & <-). cbn. by destruct s.
  - intros <-. done.
Qed.

(** Time: not from the future, not expired, whenever it is looked at. *)
Definition timely s (c : gdb_cluster) o : Prop :=
  forall i, (ticks s <= i)%nat -> timestamp o <= clock s i /\
    (dap_nanotime_from_sec (ttl c) = 0 \/ clock s i <= wrap 64 (timestamp o + dap_nanotime_from_sec (ttl c))).

(** What is asked of a record so that only its time decides. *)
Record acceptable s (c : gdb_cluster) o : Prop := {
  ac_cluster : dap_global_db_cluster_by_group s (group o) = Some c;
  ac_stored : stored (norm o);
  ac_group : ~ reserved (group o);
  ac_print : printable o = true;
  ac_erase : has_flag (flags o) DAP_GLOBAL_DB_RECORD_ERASE = false;
  ac_time : timely s c o;
  ac_role : has_role (cworld s) c o ROLE_ROOT;
}.

Definition tick s : gdb key_t D := (dap_nanotime_now s).2.

Lemma same_config_tick s : same_config s (tick s).
Proof. split_and!; try done. cbn. lia. Qed.

Lemma same_config_refl s : same_config s s.
Proof. by split_and!. Qed.

Definition hash_known m o : bool := existsb (λ x, hval x =? hval o) (m (group o)).

Lemma check_spec s m o c : rep (drv s) m -> acceptable s c o ->
  check_obj node_addr_from_sign s o
  = inr (if hash_known m o then (s, inl (-12)) else (tick s, inr (c, ROLE_ROOT))).
Proof.
  intros Hm [Hc Hst _ _ _ Ht Hr]. unfold check_obj. rewrite Hc. destruct (st_ok _ Hst) as [_ _ _ _ Hcr Hts].
  unfold dap_global_db_driver_hash_get. rewrite (is_hash_spec _ m) by done. fold (hval o) (hash_known m o).
  cbn [lift mbind gres_bind].
  destruct (hash_known m o); [done|]. unfold dap_nanotime_now. destruct (Ht (ticks s) (le_n _)) as [Hnow Httl].
  rewrite (proj2 (Z.ltb_ge _ _)) by done.
  replace (negb _ && _) with false by (symmetry; destruct Httl as [->|Hw]; [done|];
    rewrite (proj2 (Z.ltb_ge _ _)) by done; apply andb_false_r).
  rewrite has_role_eq with (r := ROLE_ROOT) by done. done.
Qed.

Lemma existing_spec s m o : rep (drv s) m -> Forall (λ c, c <> 0) (key o) ->
  existing s o = inr (find_key (key o) (m (group o)), s).
Proof.
  intros Hm Hk. unfold existing. rewrite (is_obj_spec _ m) by done. cbn [lift mbind gres_bind].
  rewrite (read_spec _ m), holes_true by done. cbn [lift mbind gres_bind].
  by destruct (find_key (key o) (m (group o))).
Qed.

Lemma owner_total s m o x c : rep (drv s) m -> stored (norm o) -> x ∈ m (group o) ->
  exists b, owner_rewrites c o x = inr b.
Proof.
  intros Hm Ho Hx. unfold owner_rewrites. destruct (owner_root_access c); cbn [negb]; [|by eexists].
  destruct (proj1 (Forall_forall _ _) (tab_stored _ _ (rep_table _ _ (group o) Hm)) x Hx) as [Hs _].
  pose proof (ok_sign _ (st_ok _ Ho)) as K1. pose proof (ok_sign _ (st_ok _ Hs)) as K2.
  pose proof (st_sign _ Ho) as B1. pose proof (st_sign _ Hs) as B2. unfold sign_bytes in *. cbn [norm sign] in *.
  destruct (sign o) as [so|], (sign x) as [sx|]; try (by eexists).
  destruct (compare_pkeys_total so sx) as [b ->]; [done..|]. by eexists.
Qed.

(** A write through the wrapper. *)
Lemma driver_write s m o : rep (drv s) m -> stored (norm o) -> ~ reserved (group o) -> printable o = true ->
  has_flag (flags o) DAP_GLOBAL_DB_RECORD_ERASE = false ->
  exists d, dap_global_db_driver_apply (drv s) [(o, false)] = inr (0, d) /\
    rep d (upd m (group o) (write_obj o (m (group o)))).
Proof.
  intros Hm Ho Hg Hp He. rewrite driver_apply_one; [|destruct (st_ok _ Ho); by split | apply (st_crc _ Ho) | done].
  destruct (writes_succeed (drv s) m o) as [d E]; [done..|]. exists d. split; [done|].
  destruct (write_spec (drv s) m o) as (rc & d' & E' & Hr); [done..|]. rewrite E in E'. injection E' as <- <-. done.
Qed.

(** *** Records that are not pinned *)

Definition no_pins m : Prop := forall g o, o ∈ m g -> has_flag (flags o) DAP_GLOBAL_DB_RECORD_PINNED = false.

(** What is handed on after a write. *)
Lemma announce_ok s c x o : sign_ok (sign o) ->
  exists s', announce s c x o = inr s' /\ drv s' = drv s /\ same_config s s' /\ ticks s' = ticks s.
Proof.
  intros Hs. unfold announce. destruct (_ || _); [|exists s; split_and!; [done | done | apply same_config_refl | done]].
  unfold dap_global_db_cluster_broadcast.
  destruct (has_flag (flags o) DAP_GLOBAL_DB_RECORD_NEW); [rewrite serialize_eq by done|];
    cbn [lift mbind gres_bind mret gres_ret]; eexists; (split; [reflexivity|]); by split_and!.
Qed.

(** The tail of the application: the object passed every check. *)
Lemma store_tail pin s m o c x : rep (drv s) m -> stored (norm o) -> ~ reserved (group o) -> printable o = true ->
  has_flag (flags o) DAP_GLOBAL_DB_RECORD_ERASE = false -> has_flag (flags o) DAP_GLOBAL_DB_RECORD_PINNED = false ->
  match x with Some x => has_flag (flags x) DAP_GLOBAL_DB_RECORD_PINNED | None => false end = false ->
  exists s', store_accepted pin s c x o = inr (0, o, s') /\
    rep (drv s') (upd m (group o) (write_obj o (m (group o)))) /\ same_config s s' /\ ticks s' = ticks s.
Proof.
  intros Hm Ho Hg Hp He Hpin Hx. unfold store_accepted. destruct (driver_write s m o) as (d & -> & Hd); [done..|].
  cbn [lift mbind gres_bind]. rewrite Hpin, Hx. cbn [mret gres_ret mbind gres_bind].
  destruct (announce_ok (set_drv s d) c x o (ok_sign _ (st_ok _ Ho))) as (s' & -> & E1 & E2 & E3).
  cbn [mbind gres_bind]. exists s'. rewrite E1. split_and!; [done | done | done | by rewrite E3].
Qed.

(** What the store becomes: nothing for a known hash, otherwise the newer of
    the record and the one with its key. *)
Definition merge1 m o : list Z -> list dap_store_obj :=
  if hash_known m o then m else
  match find_key (key o) (m (group o)) with
  | Some x => if hval x <? hval o then upd m (group o) (write_obj o (m (group o))) else m
  | None => upd m (group o) (write_obj o (m (group o)))
  end.

Definition merge_code m o : Z :=
  if hash_known m o then -12 else
  match find_key (key o) (m (group o)) with
  | Some x => if hval x <? hval o then 0 else -18
  | None => 0
  end.

Lemma not_known m o x : hash_known m o = false -> x ∈ m (group o) -> hval x <> hval o.
Proof.
  intros Hk Hx E. apply not_true_iff_false in Hk. apply Hk, existsb_exists. exists x.
  split; [by apply list_elem_of_In | by apply Z.eqb_eq].
Qed.

Lemma find_stored s m g k x : rep (drv s) m -> find_key k (m g) = Some x -> x ∈ m g /\ stored x /\ group x = g /\ key x = k.
Proof.
  intros Hm E. pose proof (rep_table _ _ g Hm) as Ht. apply find_key_elem in E as [Hx Hk]; [|apply Ht].
  destruct (proj1 (Forall_forall _ _) (tab_stored _ _ Ht) x Hx). done.
Qed.

Lemma obj_ok_norm o : obj_ok (norm o) <-> obj_ok o.
Proof. split; intros []; by split. Qed.

(** The checks up to the comparison, for a record whose signer is root. *)
Lemma apply_to_compare pin s m o c : rep (drv s) m -> acceptable s c o -> hash_known m o = false ->
  store_obj_apply node_addr_from_sign pin s o
  = let x := find_key (key o) (m (group o)) in
    '(rc, o) ← compare_existing (tick s) x o;
    if negb (rc =? 0) then mret (rc, o, tick s) else store_accepted pin (tick s) c x o.
Proof.
  intros Hm Ha Hk. cbn zeta. pose proof (ac_stored _ _ _ Ha) as Hst. unfold store_obj_apply.
  rewrite (check_spec _ m) with (c := c), Hk by done. cbn [mbind gres_bind].
  rewrite (existing_spec _ m) by (done || apply (ok_key _ (st_ok _ Hst))). cbn [mbind gres_bind].
  destruct (find_key (key o) (m (group o))) as [x|] eqn:Ex; [|done].
  destruct (find_stored _ _ _ _ _ Hm Ex) as (Hx & Hsx & _). destruct (owner_total (tick s) m o x c) as [b ->]; [done..|].
  cbn [mbind gres_bind]. by destruct b.
Qed.

(** A received record: applied exactly when no record with its hash and no newer
    record with its key is there. *)
Lemma apply_received pin s m o c : rep (drv s) m -> no_pins m -> acceptable s c o ->
  has_flag (flags o) DAP_GLOBAL_DB_RECORD_NEW = false -> has_flag (flags o) DAP_GLOBAL_DB_RECORD_PINNED = false ->
  exists s', store_obj_apply node_addr_from_sign pin s o = inr (merge_code m o, o, s') /\
    rep (drv s') (merge1 m o) /\ same_config s s'.
Proof.
  intros Hm Hnp Ha Hnew Hpin. pose proof (ac_stored _ _ _ Ha) as Hst. unfold merge_code, merge1.
  destruct (hash_known m o) eqn:Hk.
  { exists s. unfold store_obj_apply. rewrite (check_spec _ m) with (c := c), Hk by done.
    split_and!; [done | done | apply same_config_refl]. }
  rewrite (apply_to_compare _ _ m) with (c := c) by done. cbn zeta. unfold compare_existing.
  destruct (find_key (key o) (m (group o))) as [x|] eqn:Ex.
  - destruct (find_stored _ _ _ _ _ Hm Ex) as (Hx & Hsx & _).
    rewrite hash_compare_zcmp by (apply Hsx || by apply obj_ok_norm, st_ok). unfold zcmp.
    rewrite (proj2 (Z.eqb_neq (hval x) _)) by (by apply (not_known m)).
    destruct (hval x <? hval o); cbn [Z.eqb Pos.eqb].
    + cbn [mbind gres_bind mret gres_ret Z.eqb negb].
      destruct (store_tail pin (tick s) m o c (Some x)) as (s' & -> & Hr & Hc & _);
        [done | done | apply Ha | apply Ha | apply Ha | done | by apply (Hnp (group o)) |].
      exists s'. split_and!; [done | done | by eapply same_config_trans; [apply same_config_tick|]].
    + rewrite Hnew. exists (tick s). split_and!; [done | done | apply same_config_tick].
  - cbn [dap_store_obj_driver_hash_compare Z.eqb Pos.eqb mbind gres_bind mret gres_ret negb].
    destruct (store_tail pin (tick s) m o c None) as (s' & -> & Hr & Hc & _);
      [done | done | apply Ha | apply Ha | apply Ha | done | done |].
    exists s'. split_and!; [done | done | by eapply same_config_trans; [apply same_config_tick|]].
Qed.

(** *** Batches of received records *)

Lemma acceptable_config s s' c o : same_config s s' -> acceptable s c o -> acceptable s' c o.
Proof.
  intros (E1 & E2 & E3 & _ & E4) [? ? ? ? ? Ht ?]. split; try done.
  - unfold dap_global_db_cluster_by_group in *. by rewrite E1.
  - intros i Hi. rewrite E3. apply Ht. lia.
  - by rewrite E2.
Qed.

Definition received s o : Prop :=
  (exists c, acceptable s c o) /\ has_flag (flags o) DAP_GLOBAL_DB_RECORD_NEW = false /\
  has_flag (flags o) DAP_GLOBAL_DB_RECORD_PINNED = false.

Lemma write_elem m o x : table_ok (group o) (m (group o)) ->
  x ∈ write_obj o (m (group o)) -> x = norm o \/ x ∈ m (group o).
Proof.
  intros Ht. unfold write_obj. intros [->|[Hx _]]%tput_elem; [by left | right|apply sorted_filter, Ht].
  by apply list_elem_of_filter in Hx as [_ ?].
Qed.

Lemma merge1_elem m o g x : table_ok (group o) (m (group o)) -> x ∈ merge1 m o g -> x ∈ m g \/ (x = norm o /\ g = group o).
Proof.
  intros Ht. unfold merge1. destruct (hash_known m o); [by left|].
  assert (Hw : x ∈ upd m (group o) (write_obj o (m (group o))) g -> x ∈ m g \/ x = norm o /\ g = group o).
  { destruct (decide (g = group o)) as [->|Hne]; [rewrite upd_same | rewrite upd_other by done; by left].
    intros [->|Hx]%write_elem; auto. }
  destruct (find_key _ _) as [y|]; [destruct (hval y <? hval o)|]; auto.
Qed.

Lemma land_lnot_flag fl : Z.land (Z.land fl (Z.lnot DAP_GLOBAL_DB_RECORD_NEW)) DAP_GLOBAL_DB_RECORD_PINNED
  = Z.land fl DAP_GLOBAL_DB_RECORD_PINNED.
Proof. rewrite <- Z.land_assoc. reflexivity. Qed.

Lemma norm_pinned o : has_flag (flags (norm o)) DAP_GLOBAL_DB_RECORD_PINNED = has_flag (flags o) DAP_GLOBAL_DB_RECORD_PINNED.
Proof. unfold has_flag. cbn [norm flags]. by rewrite land_lnot_flag. Qed.

Lemma no_pins_merge s m o : rep (drv s) m -> no_pins m -> has_flag (flags o) DAP_GLOBAL_DB_RECORD_PINNED = false ->
  no_pins (merge1 m o).
Proof.
  intros Hm Hnp Ho g x [Hx|[-> _]]%merge1_elem; [by apply (Hnp g) | by rewrite norm_pinned | by apply (rep_table (drv s))].
Qed.

Lemma apply_obj_eq s o : apply_obj node_addr_from_sign s o
  = store_obj_apply node_addr_from_sign (s_add_pinned_obj_in_pinned_group (s_store_obj_apply node_addr_from_sign 0)) s o.
Proof. reflexivity. Qed.

Lemma set_raw_received l : forall s m rc0, rep (drv s) m -> no_pins m -> Forall (received s) l ->
  exists rc s', set_raw_loop node_addr_from_sign s l rc0 = inr (rc, l, s') /\
    rep (drv s') (foldl merge1 m l) /\ same_config s s'.
Proof.
  induction l as [|o l IH]; intros s m rc0 Hm Hnp Hl;
    [exists rc0, s; split_and!; [done | done | apply same_config_refl]|].
  inversion_clear Hl as [|?? [[c Ha] [Hnew Hpin]] Hl']. cbn [set_raw_loop foldl]. rewrite apply_obj_eq.
  destruct (apply_received (s_add_pinned_obj_in_pinned_group (s_store_obj_apply node_addr_from_sign 0)) s m o c) as (s1 & -> & Hm1 & Hc1); [done..|].
  cbn [mbind gres_bind].
  destruct (IH s1 (merge1 m o) (merge_code m o) Hm1) as (rc & s' & -> & Hm' & Hc').
  - by eapply no_pins_merge.
  - eapply Forall_impl; [exact Hl'|]. intros y [[c' Hy] Hf]. split; [exists c'; by eapply acceptable_config | done].
  - exists rc, s'. split; [done|]. split; [done|]. by eapply same_config_trans.
Qed.

Lemma set_drv_same s : set_drv s (drv s) = s.
Proof. by destruct s. Qed.

(** With a driver that has no transactions the batch is what its objects do. *)
Lemma set_raw_sync_received `{!Direct D} s m l : rep (drv s) m -> no_pins m -> Forall (received s) l ->
  exists rc s', s_db_set_raw_sync node_addr_from_sign s l = inr (rc, s') /\
    rep (drv s') (foldl merge1 m l) /\ same_config s s'.
Proof.
  intros Hm Hnp Hl. unfold s_db_set_raw_sync. rewrite direct_start, set_drv_same.
  replace (if bool_decide _ then s else s) with s by (by destruct (bool_decide _)). destruct (set_raw_received l s m (-6) Hm Hnp Hl) as (rc & s' & -> & Hr).
  cbn [mbind gres_bind]. exists rc, s'. split; [|done]. set (b := bool_decide _).
  assert (Eb : (if b then set_drv s' (dap_global_db_driver_txn_end (drv s') (rc =? 0)).2 else s') = s')
    by (rewrite direct_end, set_drv_same; by destruct b).
  destruct Hl as [|o l [_ [_ ->]]]; cbn [mbind gres_bind mret gres_ret]; by rewrite Eb.
Qed.
End Steps.

(** ** Convergence *)

(** The newer of a record and an object. *)
Definition joined (x : option dap_store_obj) (o : dap_store_obj) : option dap_store_obj :=
  match x with
  | Some x => if hval x <? hval o then Some (norm o) else Some x
  | None => Some (norm o)
  end.

(** No two records of a group have the same driver hash. *)
Definition collision_free (U : dap_store_obj -> Prop) : Prop :=
  forall x y, U x -> U y -> group x = group y -> hval x = hval y -> x = y.

Section Convergence.
Context (U : dap_store_obj -> Prop) (HU : collision_free U).
Implicit Types (m : list Z -> list dap_store_obj) (o : dap_store_obj).

Definition within m : Prop := forall g, table_ok g (m g) /\ Forall U (m g).

Lemma merge1_table m o g : (forall g, table_ok g (m g)) -> stored (norm o) -> table_ok g (merge1 m o g).
Proof.
  intros Hm Ho. unfold merge1. destruct (hash_known m o); [done|].
  assert (table_ok g (upd m (group o) (write_obj o (m (group o))) g)).
  { destruct (decide (g = group o)) as [->|]; [rewrite upd_same; by apply write_table | by rewrite upd_other]. }
  destruct (find_key _ _) as [y|]; [destruct (hval y <? hval o)|]; done.
Qed.

Lemma within_merge m o : within m -> stored (norm o) -> U (norm o) -> within (merge1 m o).
Proof.
  intros Hm Ho Hu g. split; [apply merge1_table; [apply Hm | done]|]. apply Forall_forall.
  intros x [Hx|[-> _]]%merge1_elem; [|done | apply Hm]. by apply (proj1 (Forall_forall _ _) (proj2 (Hm g))).
Qed.

Lemma find_merge m o g k : within m -> stored (norm o) -> U (norm o) ->
  find_key k (merge1 m o g)
  = if decide (g = group o /\ k = key o) then joined (find_key k (m g)) o else find_key k (m g).
Proof.
  intros Hm Ho Hu. destruct (Hm (group o)) as [Ht HUg]. unfold merge1. destruct (hash_known m o) eqn:Hk.
  - destruct (decide _) as [[-> ->]|]; [|done]. apply existsb_exists in Hk as (x & Hx%list_elem_of_In & E%Z.eqb_eq).
    assert (x = norm o) as ->.
    { apply HU; [by apply (proj1 (Forall_forall _ _) HUg) | done | | done].
      by apply (proj1 (Forall_forall _ _) (tab_stored _ _ Ht)). }
    rewrite (proj2 (find_key_elem _ _ (norm o) (tab_keys _ _ Ht))) by done. cbn [joined].
    change (hval (norm o)) with (hval o). by rewrite Z.ltb_irrefl.
  - assert (Hw : find_key k (upd m (group o) (write_obj o (m (group o))) g)
      = if decide (g = group o /\ k = key o) then Some (norm o) else find_key k (m g)).
    { destruct (decide (g = group o)) as [->|Hne]; [|rewrite upd_other, decide_False by tauto; done].
      rewrite upd_same, find_write; [|done | done | intros x Hx Ex; by destruct (not_known m o x Hk Hx)].
      destruct (decide (k = key o)); [rewrite decide_True | rewrite decide_False]; tauto. }
    destruct (decide (g = group o /\ k = key o)) as [[-> ->]|Hn].
    + unfold joined. destruct (find_key (key o) (m (group o))) as [x|] eqn:Ex; [|done].
      destruct (hval x <? hval o); [done|]. by rewrite Ex.
    + destruct (find_key (key o) (m (group o))) as [x|]; [destruct (hval x <? hval o)|]; done.
Qed.

(** The records that compete for a key. *)
Definition candidate m (l : list dap_store_obj) g k (x : dap_store_obj) : Prop :=
  find_key k (m g) = Some x \/ exists o, o ∈ l /\ group o = g /\ key o = k /\ x = norm o.

(** Merging one object neither invents a candidate nor loses the newest. *)
Lemma candidate_merge m o l g k y : within m -> stored (norm o) -> U (norm o) ->
  candidate (merge1 m o) l g k y -> candidate m (o :: l) g k y.
Proof.
  intros Hm Hso Huo [Ey|(o' & Ho' & E)]; [|right; exists o'; split; [by right | done]].
  rewrite find_merge in Ey by done. destruct (decide _) as [[-> ->]|]; [|by left]. unfold joined in Ey.
  destruct (find_key (key o) (m (group o))) as [x|] eqn:Ex; [destruct (hval x <? hval o)|];
    injection Ey as <-; first [by left | right; exists o; split; [by left | done]].
Qed.

Lemma joined_max x o : exists z, joined x o = Some z /\ hval o <= hval z /\ forall y, x = Some y -> hval y <= hval z.
Proof.
  change (hval o) with (hval (norm o)). destruct x as [x|]; cbn [joined]; [|by exists (norm o)].
  change (hval (norm o)) with (hval o). destruct (Z.ltb_spec (hval x) (hval o)); eexists; (split; [done|]);
    (split; [cbn; change (hval (norm o)) with (hval o); lia|]); intros y [= <-]; change (hval (norm o)) with (hval o); lia.
Qed.

Lemma candidate_covered m o l g k y : within m -> stored (norm o) -> U (norm o) ->
  candidate m (o :: l) g k y -> exists z, candidate (merge1 m o) l g k z /\ hval y <= hval z.
Proof.
  intros Hm Hso Huo [Ey|(o' & [->|Ho']%elem_of_cons & Eg & Ek & ->)].
  - destruct (decide (g = group o /\ k = key o)) as [Hgk|Hn].
    + destruct (joined_max (find_key k (m g)) o) as (z & Ez & _ & Hz). exists z. split; [|by apply Hz].
      left. by rewrite find_merge, decide_True.
    + exists y. split; [|done]. left. by rewrite find_merge, decide_False.
  - destruct (joined_max (find_key k (m g)) o) as (z & Ez & Hz & _). exists z. split; [|done].
    left. by rewrite find_merge, decide_True.
  - exists (norm o'). split; [|done]. right. by exists o'.
Qed.

Lemma merge_newest l : forall m g k, within m -> Forall (λ o, stored (norm o) /\ U (norm o)) l ->
  match find_key k (foldl merge1 m l g) with
  | Some x => candidate m l g k x /\ forall y, candidate m l g k y -> hval y <= hval x
  | None => forall y, ~ candidate m l g k y
  end.
Proof.
  induction l as [|o l IH]; intros m g k Hm Hl; cbn [foldl].
  - destruct (find_key k (m g)) as [x|] eqn:E.
    + split; [by left|]. intros y [Ey|(o & Ho & _)]; [|by apply elem_of_nil in Ho]. assert (y = x) as -> by congruence. lia.
    + intros y [Ey|(o & Ho & _)]; [congruence | by apply elem_of_nil in Ho].
  - apply Forall_cons in Hl as [[Hso Huo] Hl]. specialize (IH (merge1 m o) g k (within_merge m o Hm Hso Huo) Hl).
    destruct (find_key k _) as [x|].
    + destruct IH as [Hx Hmax]. split; [by apply candidate_merge|]. intros y Hy.
      destruct (candidate_covered m o l g k y) as (z & Hz & ?); [done..|]. specialize (Hmax z Hz). lia.
    + intros y Hy. destruct (candidate_covered m o l g k y) as (z & Hz & _); [done..|]. by apply (IH z).
Qed.

(** The newest candidate is unique. *)
Lemma candidate_U m l g k x : within m -> Forall (λ o, stored (norm o) /\ U (norm o)) l ->
  candidate m l g k x -> U x /\ group x = g.
Proof.
  intros Hm Hl [Ex|(o & Ho & <- & _ & ->)].
  - destruct (Hm g) as [Ht Hu]. apply find_key_elem in Ex as [Hx _]; [|apply Ht].
    split; [by apply (proj1 (Forall_forall _ _) Hu) | by apply (proj1 (Forall_forall _ _) (tab_stored _ _ Ht))].
  - split; [by apply (proj1 (Forall_forall _ _) Hl) | done].
Qed.

Lemma merge_agree m1 m2 l1 l2 g k : within m1 -> within m2 ->
  Forall (λ o, stored (norm o) /\ U (norm o)) l1 -> Forall (λ o, stored (norm o) /\ U (norm o)) l2 ->
  find_key k (m1 g) = find_key k (m2 g) -> (forall o, o ∈ l1 <-> o ∈ l2) ->
  find_key k (foldl merge1 m1 l1 g) = find_key k (foldl merge1 m2 l2 g).
Proof.
  intros Hm1 Hm2 Hl1 Hl2 Em El. pose proof (merge_newest l1 m1 g k Hm1 Hl1) as N1.
  pose proof (merge_newest l2 m2 g k Hm2 Hl2) as N2.
  assert (Hc : forall y, candidate m1 l1 g k y <-> candidate m2 l2 g k y).
  { intros y. unfold candidate. rewrite Em. split; (intros [?|(o & Ho & ?)]; [by left | right; exists o; split; [by apply El | done]]). }
  destruct (find_key k (foldl merge1 m1 l1 g)) as [x|], (find_key k (foldl merge1 m2 l2 g)) as [y|].
  - destruct N1 as [X1 X2], N2 as [Y1 Y2]. f_equal. pose proof (X2 y (proj2 (Hc y) Y1)). pose proof (Y2 x (proj1 (Hc x) X1)).
    destruct (candidate_U _ _ _ _ _ Hm1 Hl1 X1), (candidate_U _ _ _ _ _ Hm2 Hl2 Y1).
    apply HU; [done | done | congruence | lia].
  - destruct N1 as [X1 _]. by apply Hc, N2 in X1.
  - destruct N2 as [Y1 _]. by apply Hc, N1 in Y1.
  - done.
Qed.
End Convergence.

(** C3: replicas converge.  Two nodes that start with the same records and
    receive the same records, in any order and with any repetitions, end with
    the same record for every key, and it is the newest of all that competed for
    it, whatever their drivers, as long as these do not fail and register no
    transaction callbacks (see [transaction_breaks_convergence]).  Asked of the
    records: their group has a cluster in which the signer is root, they are
    neither from the future nor expired, none is pinned, they fit the store, and
    no two records of a group share a driver hash. *)
Theorem replicas_converge `{SignScheme key_t} `{Reliable D1} `{!Direct D1} `{Reliable D2} `{!Direct D2} node_addr
    (s1 : gdb key_t D1) (s2 : gdb key_t D2) m1 m2 l1 l2 (U : dap_store_obj -> Prop) :
  rep (drv s1) m1 -> rep (drv s2) m2 -> no_pins m1 -> no_pins m2 ->
  (forall g k, find_key k (m1 g) = find_key k (m2 g)) -> (forall o, o ∈ l1 <-> o ∈ l2) ->
  Forall (received node_addr s1) l1 -> Forall (received node_addr s2) l2 ->
  collision_free U -> (forall g, Forall U (m1 g)) -> (forall g, Forall U (m2 g)) -> Forall (λ o, U (norm o)) l1 ->
  exists rc1 s1' rc2 s2',
    s_db_set_raw_sync node_addr s1 l1 = inr (rc1, s1') /\ s_db_set_raw_sync node_addr s2 l2 = inr (rc2, s2') /\
    forall g k, Forall (λ c, c <> 0) k ->
      dap_global_db_get_raw_sync s1' g k = dap_global_db_get_raw_sync s2' g k /\
      (forall o, o ∈ l1 -> group o = g -> key o = k ->
         exists x, dap_global_db_get_raw_sync s1' g k = inr (Some x) /\ hval o <= hval x).
Proof.
  intros R1 R2 P1 P2 Em El A1 A2 HU U1 U2 UL.
  destruct (set_raw_sync_received node_addr s1 m1 l1 R1 P1 A1) as (rc1 & s1' & E1 & R1' & _).
  destruct (set_raw_sync_received node_addr s2 m2 l2 R2 P2 A2) as (rc2 & s2' & E2 & R2' & _).
  exists rc1, s1', rc2, s2'. split; [done|]. split; [done|]. intros g k Hk.
  assert (L1 : Forall (λ o, stored (norm o) /\ U (norm o)) l1).
  { apply Forall_forall. intros o Ho. split; [|by apply (proj1 (Forall_forall _ _) UL)].
    destruct (proj1 (Forall_forall _ _) A1 o Ho) as [[c Hc] _]. apply Hc. }
  assert (L2 : Forall (λ o, stored (norm o) /\ U (norm o)) l2).
  { apply Forall_forall. intros o Ho. by apply (proj1 (Forall_forall _ _) L1), El. }
  assert (W1 : within U m1) by (intros g'; split; [by apply (rep_table (drv s1)) | done]).
  assert (W2 : within U m2) by (intros g'; split; [by apply (rep_table (drv s2)) | done]).
  unfold dap_global_db_get_raw_sync. rewrite (read_spec _ _ _ _ _ R1' Hk), (read_spec _ _ _ _ _ R2' Hk), !holes_true.
  split; [do 2 f_equal; by apply (merge_agree U)|]. intros o Ho Eg Ek.
  pose proof (merge_newest U HU l1 m1 g k W1 L1) as N. destruct (find_key k _) as [x|].
  - exists x. split; [done|]. change (hval o) with (hval (norm o)). apply N. right. by exists o.
  - destruct (N (norm o)). right. by exists o.
Qed.

(** A node with one cluster whose records need no signature. *)
Definition demo_cluster : gdb_cluster := GdbCluster [103; 42] 0 0 ROLE_ROOT 0 false [] false.
Definition demo_world : Cluster.world := Cluster.World ∅ [] [] Cluster.Unlocked [].
Definition demo_gdb : gdb unit (mdbx_state mem_mdb) :=
  Gdb mem_state0 [demo_cluster] demo_world (λ _, 5000) 0 (Some tt) 0 false [].

Definition demo_rec (ts c : Z) : dap_store_obj := StoreObj [103] [107] [ts mod 256] 0 None ts c None.

Lemma demo_rec_stored ts c : fits 64 ts -> fits 64 c -> c <> 0 -> stored (norm (demo_rec ts c)).
Proof.
  intros Ht Hc H0. split; [|cbn; lia | done | split; [split; done | done] | done | constructor | by left].
  split; [split; [cbn; lia | repeat constructor; discriminate] | split; [cbn; lia | repeat constructor; discriminate]
    | done | exact I | done | done].
Qed.

Lemma demo_received ts c : 0 <= ts <= 5000 -> fits 64 c -> c <> 0 -> received (λ _, 0) demo_gdb (demo_rec ts c).
Proof.
  intros Ht Hc H0. split; [|done]. exists demo_cluster. split; try done.
  - apply demo_rec_stored; [unfold fits; lia | done | done].
  - intros i _. split; [cbn; lia | by left].
Qed.

Lemma replicas_converge_witness :
  exists rc1 s1 rc2 s2,
    s_db_set_raw_sync (λ _, 0) demo_gdb [demo_rec 1000 7; demo_rec 2000 8] = inr (rc1, s1) /\
    s_db_set_raw_sync (λ _, 0) demo_gdb [demo_rec 2000 8; demo_rec 1000 7] = inr (rc2, s2) /\
    dap_global_db_get_raw_sync s1 [103] [107] = dap_global_db_get_raw_sync s2 [103] [107].
Proof.
  destruct (replicas_converge (λ _, 0) demo_gdb demo_gdb (λ _, []) (λ _, []) [demo_rec 1000 7; demo_rec 2000 8]
    [demo_rec 2000 8; demo_rec 1000 7] (λ x, x = demo_rec 1000 7 \/ x = demo_rec 2000 8))
    as (rc1 & s1 & rc2 & s2 & E1 & E2 & E).
  - apply mem_state0_rep.
  - apply mem_state0_rep.
  - by intros g o Ho%elem_of_nil.
  - by intros g o Ho%elem_of_nil.
  - done.
  - intros o. rewrite !elem_of_cons. tauto.
  - repeat (constructor; [apply demo_received; [lia | split; done | done]|]). constructor.
  - repeat (constructor; [apply demo_received; [lia | split; done | done]|]). constructor.
  - intros x y [->| ->] [->| ->]; done.
  - done.
  - done.
  - constructor; [by left|]. constructor; [by right|]. constructor.
  - exists rc1, s1, rc2, s2. split; [exact E1|]. split; [exact E2|]. apply E. repeat constructor. discriminate.
Defined.

(** With a driver that has transactions, as SQLite's, the batch is rolled back
    when its last object is refused: two nodes that receive the same two records
    in different orders end with different databases. *)
Definition txn_gdb : gdb unit (TxnDriver (mdbx_state mem_mdb)) :=
  Gdb (InTxn mem_state0 None) [demo_cluster] demo_world (λ _, 5000) 0 (Some tt) 0 false [].

Lemma transaction_breaks_convergence :
  exists rc1 s1 rc2 s2,
    s_db_set_raw_sync (λ _, 0) txn_gdb [demo_rec 1000 7; demo_rec 2000 8] = inr (rc1, s1) /\
    s_db_set_raw_sync (λ _, 0) txn_gdb [demo_rec 2000 8; demo_rec 1000 7] = inr (rc2, s2) /\
    dap_global_db_get_raw_sync s1 [103] [107] = inr (Some (demo_rec 2000 8)) /\
    dap_global_db_get_raw_sync s2 [103] [107] = inr None.
Proof. do 4 eexists. split; [vm_compute; reflexivity|]. split; [vm_compute; reflexivity|]. split; vm_compute; reflexivity. Qed.
