(* ===== verification/GdbAccess.v ===== *)
(** * Setting, getting and deleting (global-db/dap_global_db.c)

    What a node that may write a group reads back after it sets or deletes a
    key, over any reliable driver. *)

From S2P Require Import Prelude Crc64 Cluster GdbPkt GdbDriver GdbMdbx GdbCore.
From stdpp Require Import list sets sorting gmap.
Local Open Scope Z_scope.

(** ** Setting and getting *)

Lemma find_write_other o l k : table_ok (group o) l -> stored (norm o) -> k <> key o ->
  find_key k (write_obj o l) = y ← find_key k l; if hval y =? hval o then None else Some y.
Proof.
  intros Hl Ho Hk. pose proof (write_table _ _ Hl Ho) as [_ _ Hn].
  pose proof (tab_sorted _ _ (filter_table (λ x, key x ≠ key o) _ _ Hl)) as Hs.
  assert (Hin : forall x, key x = k -> x ∈ write_obj o l <-> x ∈ l /\ hval x <> hval o).
  { intros x Hx. unfold write_obj. rewrite (tput_elem (norm o)) by done. unfold without_key. rewrite list_elem_of_filter.
    change (hval (norm o)) with (hval o). split; [intros [->|[[_ ?] ?]]; [by destruct Hk | done]|].
    intros [? ?]. right. split; [split; [congruence | done] | done]. }
  destruct (find_key k l) as [y|] eqn:E; cbn [mbind option_bind].
  - apply find_key_elem in E as [Hy Hky]; [|apply Hl]. destruct (Z.eqb_spec (hval y) (hval o)) as [Eh|Eh].
    + apply find_key_None. intros x Hx Hkx. apply Hin in Hx as [Hx Hne]; [|done]. apply Hne.
      assert (find_key k l = Some x) as E1 by (apply find_key_elem; [apply Hl | done]).
      assert (find_key k l = Some y) as E2 by (apply find_key_elem; [apply Hl | done]). congruence.
    + apply find_key_elem; [done|]. split; [by apply Hin | done].
  - apply find_key_None. intros x Hx Hkx. apply Hin in Hx as [Hx _]; [|done]. by apply (proj1 (find_key_None k l) E x).
Qed.

Section SetGet.
Context {key_t : Type} `{SignScheme key_t} {D : Type} `{Reliable D}.
Context (node_addr_from_sign : list Z -> Z) (K : key_t).
Implicit Types (s : gdb key_t D) (o : dap_store_obj) (m : list Z -> list dap_store_obj).

(** The object as signing leaves it. *)
Definition signed o : option dap_store_obj :=
  match dap_store_obj_sign o (Some K) with
  | inr (Some (Some sg, c)) => Some (set_crc (set_sign o (Some sg)) c)
  | _ => None
  end.

(** The times a record of the key can get: the moment of the call, or just after
    the record that is there. *)
Definition new_time s m (g k : list Z) (ts : Z) : Prop :=
  ts = clock s (ticks s) \/ exists x, find_key k (m g) = Some x /\ ts = wrap 64 (timestamp x + 1).

(** The node may write the record: with either time it can be signed, what is
    signed fits the store, and the node is root in the cluster of the group. *)
Definition writable s m (c : gdb_cluster) (g k v : list Z) (fl : Z) : Prop :=
  dap_global_db_cluster_by_group s g = Some c /\ ~ reserved g /\
  forallb dap_ascii_isprint k && forallb dap_ascii_isprint g = true /\
  forall ts, new_time s m g k ts -> exists o, signed (new_obj g k v fl ts) = Some o /\ stored (norm o) /\
    has_role node_addr_from_sign (cworld s) c o ROLE_ROOT.

Lemma signed_eq o o' : signed o = Some o' ->
  exists sg c, dap_store_obj_sign o (Some K) = inr (Some (Some sg, c)) /\ o' = set_crc (set_sign o (Some sg)) c.
Proof.
  unfold signed. destruct (dap_store_obj_sign o (Some K)) as [|[[[sg|] c]|]]; try discriminate. intros [= <-]. eauto.
Qed.

(** The clock goes forward and no record outlives its time while it is set. *)
Definition clock_ok s (c : gdb_cluster) : Prop :=
  (forall i, fits 64 (clock s i)) /\
  forall i, (ticks s <= i)%nat -> clock s (ticks s) <= clock s i /\
    (dap_nanotime_from_sec (ttl c) = 0 \/ clock s i <= wrap 64 (clock s (ticks s) + dap_nanotime_from_sec (ttl c))).

Lemma fresh_hash s m o : rep (drv s) m -> stored (norm o) -> (forall x, x ∈ m (group o) -> timestamp x <> timestamp o) ->
  hash_known m o = false.
Proof.
  intros Hm Ho Hfresh. apply not_true_iff_false. intros (x & Hx%list_elem_of_In & E%Z.eqb_eq)%existsb_exists.
  apply (Hfresh x Hx). destruct (proj1 (Forall_forall _ _) (tab_stored _ _ (rep_table _ _ (group o) Hm)) x Hx) as [Hsx _].
  destruct (st_ok _ Hsx) as [_ _ _ _ ??]. destruct (st_ok _ Ho) as [_ _ _ _ ??].
  unfold hval, fits in *. cbn in *. lia.
Qed.

Lemma new_accepted pin s m c g k v fl ts o : rep (drv s) m -> no_pins m -> ~ reserved g ->
  forallb dap_ascii_isprint k && forallb dap_ascii_isprint g = true ->
  signed (new_obj g k v fl ts) = Some o -> stored (norm o) ->
  has_flag fl DAP_GLOBAL_DB_RECORD_PINNED = false -> has_flag fl DAP_GLOBAL_DB_RECORD_ERASE = false ->
  exists s', store_accepted pin (tick s) c (find_key k (m g)) o = inr (0, o, s') /\
    rep (drv s') (upd m g (write_obj o (m g))) /\ same_config s s'.
Proof.
  intros Hm Hnp Hg Hp Hs Hst Hpin Her. destruct (signed_eq _ _ Hs) as (sg & cr & _ & Eo).
  assert (Eg : group o = g /\ flags o = fl) by (by subst o). destruct Eg as [Eg Ef].
  destruct (store_tail pin (tick s) m o c (find_key k (m g))) as (s' & E & Hr & Hcfg & _);
    [done | done | by rewrite Eg | subst o; exact Hp | by rewrite Ef | by rewrite Ef | |].
  - destruct (find_key k (m g)) as [x|] eqn:Ex; [|done]. destruct (find_stored (tick s) _ _ _ _ Hm Ex) as (Hx & _).
    by apply (Hnp g).
  - rewrite Eg in Hr. exists s'. split_and!; [done | done | by eapply same_config_trans; [apply same_config_tick|]].
Qed.

(** A new record is compared with the one of its key: it is stored with its own
    time, or just after a newer record. *)
Lemma apply_new pin s m c g k v fl ts o : rep (drv s) m -> no_pins m -> signing_key s = Some K ->
  writable s m c g k v fl -> signed (new_obj g k v fl ts) = Some o -> acceptable node_addr_from_sign (tick s) c o ->
  has_flag fl DAP_GLOBAL_DB_RECORD_NEW = true -> has_flag fl DAP_GLOBAL_DB_RECORD_PINNED = false ->
  has_flag fl DAP_GLOBAL_DB_RECORD_ERASE = false -> (forall x, x ∈ m g -> timestamp x <> ts) ->
  exists ts' o' s', signed (new_obj g k v fl ts') = Some o' /\ stored (norm o') /\
    (ts' = ts \/ exists x, find_key k (m g) = Some x /\ ts' = wrap 64 (timestamp x + 1)) /\
    store_obj_apply node_addr_from_sign pin (tick s) o = inr (0, o', s') /\
    rep (drv s') (upd m g (write_obj o' (m g))).
Proof.
  intros Hm Hnp HK Hw Hs Ha Hnew Hpin Her Hfresh. destruct (signed_eq _ _ Hs) as (sg & cr & Esg & Eo).
  pose proof (ac_stored _ _ _ _ Ha) as Hst. destruct Hw as (Hc & Hg & Hp & Hsign).
  assert (Hgo : group o = g /\ key o = k /\ flags o = fl /\ timestamp o = ts) by (by subst o).
  destruct Hgo as (Eg & Ek & Ef & Et).
  assert (Hk : hash_known m o = false) by (apply (fresh_hash (tick s)); [done | done | by rewrite Eg, Et]).
  rewrite (apply_to_compare _ _ _ m) with (c := c) by done. cbn zeta. unfold compare_existing. rewrite Eg, Ek, Ef.
  assert (Hdone := λ ts' o', new_accepted pin (tick s) m c g k v fl ts' o' Hm Hnp Hg Hp).
  destruct (find_key k (m g)) as [x|] eqn:Ex.
  - destruct (find_stored (tick s) _ _ _ _ Hm Ex) as (Hx & Hsx & _).
    rewrite hash_compare_zcmp by (apply Hsx || by apply obj_ok_norm, st_ok). unfold zcmp.
    rewrite (proj2 (Z.eqb_neq (hval x) _)) by (apply (not_known m); [done | by rewrite Eg]).
    destruct (hval x <? hval o); cbn [Z.eqb Pos.eqb].
    + cbn [mbind gres_bind mret gres_ret Z.eqb negb]. destruct (Hdone ts o) as (s' & E & Hr); [done..|].
      exists ts, o, s'. split_and!; [done | done | by left | done | apply Hr..].
    + rewrite Hnew. destruct (Hsign (wrap 64 (timestamp x + 1))) as (o' & Hs' & Hst' & _); [right; by exists x|].
      destruct (signed_eq _ _ Hs') as (sg' & cr' & Esg' & Eo').
      replace (set_crc (set_sign (set_stamp o _) None) 0) with (new_obj g k v fl (wrap 64 (timestamp x + 1))) by (by subst o).
      change (signing_key (tick _)) with (signing_key s). rewrite HK, Esg'.
      cbn [lift mbind gres_bind mret gres_ret Z.eqb negb]. rewrite <- Eo'.
      destruct (Hdone (wrap 64 (timestamp x + 1)) o' Hs' Hst' Hpin Her) as (s' & E & Hr).
      exists (wrap 64 (timestamp x + 1)), o', s'. split_and!; [done | done | right; by exists x | done | apply Hr..].
  - cbn [dap_store_obj_driver_hash_compare Z.eqb Pos.eqb mbind gres_bind mret gres_ret negb].
    destruct (Hdone ts o) as (s' & E & Hr); [done..|].
    exists ts, o, s'. split_and!; [done | done | by left | done | apply Hr..].
Qed.

(** Signing and applying what [s_set_sync_with_ts] and [s_del_sync_with_dbi_ex]
    build. *)
Lemma new_acceptable s m c g k v fl o : writable s m c g k v fl -> clock_ok s c ->
  has_flag fl DAP_GLOBAL_DB_RECORD_ERASE = false -> signed (new_obj g k v fl (clock s (ticks s))) = Some o ->
  acceptable node_addr_from_sign (tick s) c o.
Proof.
  intros (Hc & Hg & Hp & Hw) [Hcf Hck] Her Hs. destruct (Hw _ (or_introl eq_refl)) as (o' & Hs' & Hst & Hr).
  rewrite Hs in Hs'. injection Hs' as <-. destruct (signed_eq _ _ Hs) as (sg & cr & _ & Eo).
  split; try (by subst o). intros i Hi. subst o. apply Hck. cbn in Hi. lia.
Qed.

Lemma get_raw_write s m g k o : rep (drv s) (upd m g (write_obj o (m g))) -> group o = g -> key o = k ->
  table_ok g (m g) -> stored (norm o) ->
  dap_global_db_get_raw_sync s g k = inr (Some (norm o)).
Proof.
  intros Hr Eg Ek Ht Ho. unfold dap_global_db_get_raw_sync.
  assert (Hk : Forall (λ c, c <> 0) k) by (rewrite <- Ek; apply (ok_key _ (st_ok _ Ho))).
  rewrite (read_spec _ _ _ _ _ Hr Hk), holes_true, upd_same. cbn [lift]. do 2 f_equal. subst g k.
  apply find_key_elem; [apply write_table; done|]. split; [|done]. unfold write_obj.
  apply tput_elem; [apply sorted_filter, Ht | by left].
Qed.

(** Every other key, of this group and of the others, has the record it had, but
    for a record whose time is [ts]. *)
Definition others_kept s s' (g k : list Z) (ts : Z) : Prop :=
  forall g' k', Forall (λ c, c <> 0) k' -> (g', k') <> (g, k) ->
    (dap_global_db_get_raw_sync s g' k' = inr None -> dap_global_db_get_raw_sync s' g' k' = inr None) /\
    (forall y, dap_global_db_get_raw_sync s g' k' = inr (Some y) -> timestamp y <> ts ->
       dap_global_db_get_raw_sync s' g' k' = inr (Some y)).

Lemma get_raw_other s s' m g k o : rep (drv s) m -> rep (drv s') (upd m g (write_obj o (m g))) ->
  group o = g -> key o = k -> stored (norm o) -> others_kept s s' g k (timestamp o).
Proof.
  intros Hm Hr Eg Ek Ho g' k' Hk Hne. unfold dap_global_db_get_raw_sync.
  rewrite (read_spec _ _ _ _ _ Hm Hk), (read_spec _ _ _ _ _ Hr Hk), !holes_true. cbn [lift].
  destruct (decide (g' = g)) as [->|Hg]; [|by rewrite upd_other]. rewrite upd_same. subst g k.
  rewrite find_write_other by (done || (by apply (rep_table (drv s))) || congruence).
  split; [by intros [= ->]|]. intros y [= E] Hts. rewrite E. cbn [mbind option_bind].
  destruct (find_stored s m (group o) k' y Hm E) as (_ & Hsy & _). destruct (st_ok _ Hsy) as [_ _ _ _ ??].
  destruct (st_ok _ Ho) as [_ _ _ _ ??]. rewrite (proj2 (Z.eqb_neq _ _)); [done|].
  unfold hval, fits in *. cbn in *. lia.
Qed.

(** What a call makes of a new record at the moment [clock s (ticks s)]. *)
Lemma new_stored s m c g k v fl : rep (drv s) m -> no_pins m -> signing_key s = Some K -> clock_ok s c ->
  (forall x, x ∈ m g -> timestamp x <> clock s (ticks s)) -> writable s m c g k v fl ->
  has_flag fl DAP_GLOBAL_DB_RECORD_NEW = true -> has_flag fl DAP_GLOBAL_DB_RECORD_PINNED = false ->
  has_flag fl DAP_GLOBAL_DB_RECORD_ERASE = false ->
  exists sg cr sg' cr' ts s',
    dap_store_obj_sign (new_obj g k v fl (clock s (ticks s))) (Some K) = inr (Some (Some sg, cr)) /\
    let o' := set_crc (set_sign (new_obj g k v fl ts) (Some sg')) cr' in
    apply_obj node_addr_from_sign (tick s) (set_crc (set_sign (new_obj g k v fl (clock s (ticks s))) (Some sg)) cr)
      = inr (0, o', s') /\ stored (norm o') /\
    new_time s m g k ts /\
    rep (drv s') (upd m g (write_obj o' (m g))).
Proof.
  intros Hm Hnp HK Hck Hfresh Hw Hn Hp He. pose proof Hw as (_ & _ & _ & Hsign).
  destruct (Hsign _ (or_introl eq_refl)) as (o & Hs & _).
  destruct (apply_new (s_add_pinned_obj_in_pinned_group (s_store_obj_apply node_addr_from_sign 0)) s m c g k v fl
    (clock s (ticks s)) o) as (ts' & o' & s' & Hs' & Hst & Hts & E & Hr);
    [done | done | done | done | done | by eapply new_acceptable | done..|].
  destruct (signed_eq _ _ Hs) as (sg & cr & Esg & ->). destruct (signed_eq _ _ Hs') as (sg' & cr' & _ & ->).
  exists sg, cr, sg', cr', ts', s'. split; [done|]. cbn zeta. rewrite apply_obj_eq. done.
Qed.

Lemma pinned_total s m g k : rep (drv s) m -> Forall (λ c, c <> 0) k -> exists p, s_check_is_obj_pinned s g k = inr p.
Proof.
  intros Hr Hk. unfold s_check_is_obj_pinned. destruct (dap_global_db_group_match_mask g mask_pinned); [by eexists|].
  rewrite (is_obj_spec _ _ _ _ Hr) by done. by eexists.
Qed.
End SetGet.

(** C6: what is set is read back.  On a node that may write the group, with a
    clock that goes forward and no record of the group made at this very moment,
    setting a key succeeds and reading it gives the value with the record's time
    — the moment of the call, or just after the record that was there when that
    one is newer; deleting a key succeeds, and reading it finds an empty value
    and the time of the deletion.  After either, records of other keys and groups
    stay, unless one has exactly the new record's time.  The node is root in the
    group's cluster, the database has no pinned records, and the storage does
    not fail. *)
Theorem gdb_set_get `{SignScheme key_t} `{Reliable D} node_addr (K : key_t) (s : gdb key_t D) m c g k v :
  rep (drv s) m -> no_pins m -> signing_key s = Some K -> clock_ok s c ->
  (forall x, x ∈ m g -> timestamp x <> clock s (ticks s)) ->
  (writable node_addr K s m c g k v 64 ->
   exists s' ts p, dap_global_db_set_sync node_addr s g k v false = inr (0, s') /\
     dap_global_db_get_sync s' g k = inr (Some (v, p, ts)) /\
     new_time s m g k ts /\ others_kept s s' g k ts) /\
  (writable node_addr K s m c g k [] 65 ->
   exists s' ts p, dap_global_db_del_sync node_addr s g (Some k) = inr (0, s') /\
     dap_global_db_get_sync s' g k = inr (Some ([], p, ts)) /\
     dap_global_db_get_del_ts_sync s' g k = inr ts /\
     new_time s m g k ts /\ others_kept s s' g k ts).
Proof.
  intros Hm Hnp HK Hck Hfresh. split; intros Hw.
  - destruct (new_stored node_addr K s m c g k v 64) as (sg & cr & sg' & cr' & ts & s' & Esg & E & Hst & Hts & Hr); [done..|].
    set (o' := set_crc (set_sign (new_obj g k v 64 ts) (Some sg')) cr') in *. pose proof (ok_key _ (st_ok _ Hst)) as [_ Hk].
    pose proof (get_raw_write s' m g k o' Hr eq_refl eq_refl (rep_table _ _ g Hm) Hst) as Eget.
    destruct (pinned_total s' _ g k Hr Hk) as [p Ep]. exists s', ts, p. split_and!.
    + unfold dap_global_db_set_sync, s_set_sync_with_ts, sign_and_apply. cbn [dap_nanotime_now].
      fold (tick s). change (Gdb _ _ _ _ _ _ _ _ _) with (tick s). change (signing_key (tick s)) with (signing_key s).
      rewrite HK. change (Z.lor DAP_GLOBAL_DB_RECORD_NEW 0) with 64. rewrite Esg.
      cbn [lift mbind gres_bind]. rewrite E. done.
    + unfold dap_global_db_get_sync. unfold dap_global_db_get_raw_sync in Eget. rewrite Eget.
      cbn [mbind gres_bind]. rewrite Ep. done.
    + done.
    + by apply (get_raw_other s s' m g k o').
  - destruct (new_stored node_addr K s m c g k [] 65) as (sg & cr & sg' & cr' & ts & s' & Esg & E & Hst & Hts & Hr); [done..|].
    set (o' := set_crc (set_sign (new_obj g k [] 65 ts) (Some sg')) cr') in *. pose proof (ok_key _ (st_ok _ Hst)) as [_ Hk].
    pose proof (get_raw_write s' m g k o' Hr eq_refl eq_refl (rep_table _ _ g Hm) Hst) as Eget.
    destruct (pinned_total s' _ g k Hr Hk) as [p Ep]. exists s', ts, p. split_and!.
    + unfold dap_global_db_del_sync, s_del_sync_with_dbi_ex. cbn [dap_nanotime_now].
      change (Gdb _ _ _ _ _ _ _ _ _) with (tick s). change (signing_key (tick s)) with (signing_key s).
      rewrite HK. change (Z.lor DAP_GLOBAL_DB_RECORD_NEW DAP_GLOBAL_DB_RECORD_DEL) with 65. rewrite Esg.
      cbn [lift mbind gres_bind]. rewrite E. done.
    + unfold dap_global_db_get_sync. unfold dap_global_db_get_raw_sync in Eget. rewrite Eget.
      cbn [mbind gres_bind]. rewrite Ep. done.
    + unfold dap_global_db_get_del_ts_sync. rewrite Eget. done.
    + done.
    + by apply (get_raw_other s s' m g k o').
Qed.

(** A node that may write its only cluster: nobody has joined its role cluster,
    and the default role is root. *)
Definition demo_roles : dap_cluster :=
  Cluster.Cluster None 1 Cluster.DAP_CLUSTER_TYPE_VIRTUAL Cluster.Unlocked [] false false false.
Definition demo_writer : gdb unit (mdbx_state mem_mdb) :=
  Gdb mem_state0 [demo_cluster] (Cluster.World {[ 0 := demo_roles ]} [] [] Cluster.Unlocked []) (λ _, 5000) 0 (Some tt) 0 false [].

Lemma demo_writable (v : list Z) (fl : Z) o : signed tt (new_obj [103] [107] v fl 5000) = Some o -> stored (norm o) ->
  writable (λ _, 0) tt demo_writer (λ _, []) demo_cluster [103] [107] v fl.
Proof.
  intros Es Ho. split; [reflexivity|]. split; [intros H; vm_compute in H; done|]. split; [reflexivity|].
  intros ts [->|(x & Hx & _)]; [|done]. exists o. split_and!; [done | done|].
  destruct (signed_eq _ _ _ Es) as (sg & c & _ & ->). exists (-1). split; reflexivity.
Qed.

Lemma demo_signed v fl sg c : v = [] \/ v = [1; 2] -> fl = 64 \/ fl = 65 -> sign_ok (Some sg) -> Forall (fits 8) sg ->
  (length sg < 100)%nat ->  fits 64 c -> c <> 0 -> stored (norm (StoreObj [103] [107] v fl (Some sg) 5000 c None)).
Proof.
  intros Hv Hf Hs Hb Hl Hc H0. split; [|cbn; lia | done | | done | done | right; done].
  - split; [| | | done | done | by split].
    + split; [cbn; lia | repeat constructor; discriminate].
    + split; [cbn; lia | repeat constructor; discriminate].
    + destruct Hv as [->| ->]; unfold body_len; cbn [norm group key value sign sign_bytes default length id]; lia.
  - destruct Hf as [->| ->]; (split; [split; done | done]).
Qed.

Lemma gdb_set_get_witness :
  (exists s' ts p, dap_global_db_set_sync (λ _, 0) demo_writer [103] [107] [1; 2] false = inr (0, s') /\
     dap_global_db_get_sync s' [103] [107] = inr (Some ([1; 2], p, ts))) /\
  (exists s' ts p, dap_global_db_del_sync (λ _, 0) demo_writer [103] (Some [107]) = inr (0, s') /\
     dap_global_db_get_sync s' [103] [107] = inr (Some ([], p, ts))).
Proof.
  pose proof (gdb_set_get (λ _, 0) tt demo_writer (λ _, []) demo_cluster [103] [107] [1; 2]) as T.
  destruct T as [T1 T2].
  - apply mem_state0_rep.
  - by intros g o Ho%elem_of_nil.
  - reflexivity.
  - split; [intros i; split; vm_compute; done|]. intros i _. split; [cbn; lia | by left].
  - by intros x Hx%elem_of_nil.
  - split.
    + destruct T1 as (s' & ts & p & E1 & E2 & _).
      * eapply demo_writable; [vm_compute; reflexivity|]. apply demo_signed; [auto | auto | split; [reflexivity | cbn; lia] | repeat (constructor; [split; done|]); constructor | cbn; lia | split; done | done].
      * exists s', ts, p. split; [exact E1 | exact E2].
    + destruct T2 as (s' & ts & p & E1 & E2 & _).
      * eapply demo_writable; [vm_compute; reflexivity|]. apply demo_signed; [auto | auto | split; [reflexivity | cbn; lia] | repeat (constructor; [split; done|]); constructor | cbn; lia | split; done | done].
      * exists s', ts, p. split; [exact E1 | exact E2].
Defined.

(** ** Reading a group page by page *)

(** In a table ordered by hash, what is behind the last record of a page is the
    rest of the table. *)
Lemma after_page (t : list dap_store_obj) v n o : StronglySorted hlt t -> v < hval o ->
  last (take n (filter (λ x, v < hval x) t)) = Some o ->
  filter (λ x, hval o < hval x) t = drop n (filter (λ x, v < hval x) t).
Proof.
  intros Ht Hv Hlast. pose proof (sorted_filter (λ x, v < hval x) _ Ht) as Hs.
  rewrite <- (list_filter_filter_l (λ x, hval o < hval x) (λ x, v < hval x)) by (intros; lia).
  set (l := filter (λ x, v < hval x) t) in *. rewrite <- (take_drop n l) in Hs |- * at 1.
  apply last_Some in Hlast as [init Ei]. rewrite Ei in Hs |- *. apply StronglySorted_app in Hs as (Hlt & Hs & Hr).
  rewrite filter_app, filter_none, filter_all; [done | |].
  - apply Forall_forall. intros x Hx. apply (Hlt o x); [|done]. apply elem_of_app. right. by apply list_elem_of_singleton.
  - apply Forall_forall. intros x [Hx|Hx%list_elem_of_singleton]%elem_of_app; [|subst; lia].
    apply StronglySorted_app in Hs as (Hs & _). assert (hlt x o) by (apply Hs; [done | by apply list_elem_of_singleton]).
    unfold hlt in *. lia.
Qed.

Section Paging.
Context {key_t : Type} `{SignScheme key_t} {D : Type} `{DriverSpec D}.
Implicit Types (s : gdb key_t D) (o : dap_store_obj) (m : list Z -> list dap_store_obj).

(** The element of a page that stands for a record. *)
Definition page_obj o : option db_obj := if printable o then Some (to_db_obj o) else None.

(** The calls of the callback: full pages in progress, then the rest. *)
Fixpoint pages (fuel : nat) (n : nat) (total : Z) (l : list dap_store_obj) : list (results (option db_obj)) :=
  match fuel with
  | O => []
  | S fuel =>
    match l with
    | [] => [Results None RC_NO_RESULTS total]
    | _ =>
      if bool_decide (length l < n)%nat then [Results (Some (page_obj <$> l)) RC_SUCCESS total]
      else Results (Some (page_obj <$> take n l)) RC_PROGRESS total :: pages fuel n total (drop n l)
    end
  end.

Lemma holes_filter (P : dap_store_obj -> Prop) `{!forall x, Decision (P x)} wh l :
  holes wh (filter P l) = filter P (holes wh l).
Proof. unfold holes. rewrite !list_filter_filter. apply list_filter_iff. tauto. Qed.

Lemma holes_sorted wh m g s : rep (drv s) m -> StronglySorted hlt (holes wh (m g)).
Proof. intros Hm. apply sorted_filter, (rep_table (drv s) m g Hm). Qed.

Lemma holes_stored wh m g s o : rep (drv s) m -> o ∈ holes wh (m g) -> stored o.
Proof.
  intros Hm [_ Ho]%list_elem_of_filter. by apply (proj1 (Forall_forall _ _) (tab_stored _ _ (rep_table (drv s) m g Hm))).
Qed.

Lemma get_all_from fuel : forall s m msg g n ts c, rep (drv s) m -> fits 64 ts -> fits 64 c -> 0 < n ->
  gm_ptr msg <> 0 -> gm_group msg = g -> gm_page_size msg = n -> gm_last_hash msg = hash_bytes ts c ->
  let l := filter (λ o, ts * 2 ^ 64 + c < hval o) (holes false (m g)) in (length l < fuel)%nat ->
  exists s', get_all_run fuel s msg = inr (pages fuel (Z.to_nat n) (gm_ptr msg) l, s') /\ drv s' = drv s.
Proof.
  induction fuel as [|fuel IH]; intros s m msg g n ts c Hm Hts Hc Hn Hp Hg Hsz Hh l Hl; [lia|].
  cbn [get_all_run pages]. unfold s_msg_opcode_get_all. rewrite Hsz, (proj2 (Z.eqb_neq n 0)) by lia.
  unfold read_page, total_records. rewrite (proj2 (Z.eqb_neq (gm_ptr msg) 0)) by done.
  rewrite Hg, Hh, Hsz, (read_cond_spec _ _ _ _ _ _ _ Hm) by (done || lia).
  rewrite (proj2 (Z.eqb_neq n 0)), holes_filter by lia. fold l. destruct l as [|x r] eqn:El.
  { exists s. done. }
  cbn [to_page lift mbind gres_bind items last_page]. rewrite <- El in *.
  destruct (decide (length l < Z.to_nat n)%nat) as [Hlt|Hge].
  { rewrite (bool_decide_true (length l < _)%nat) by done. cbn [objs_of s_objs_from_store_objs mret gres_ret mbind gres_bind andb].
    rewrite take_ge by lia. eexists. split; [by rewrite El | done]. }
  rewrite (bool_decide_false (length l < _)%nat) by done.
  destruct (last (take (Z.to_nat n) l)) as [o|] eqn:Elast; cycle 1.
  { apply last_None in Elast. rewrite El in Elast. destruct (Z.to_nat n) eqn:En; [lia | discriminate Elast]. }
  assert (Ho : o ∈ l).
  { apply last_Some in Elast as [i Ei]. rewrite <- (take_drop (Z.to_nat n) l), Ei, !elem_of_app. left. right.
    by apply list_elem_of_singleton. }
  pose proof Ho as [Hv Hin]%list_elem_of_filter. pose proof (holes_stored _ _ _ _ _ Hm Hin) as Hst.
  unfold dap_global_db_driver_hash_get at 1. rewrite hash_blank by apply (st_ok _ Hst). fold (hval o).
  rewrite (proj2 (Z.eqb_neq (hval o) 0)) by (pose proof (hval_pos o (st_ok _ Hst) (st_crc _ Hst)); lia).
  cbn [objs_of s_objs_from_store_objs mret gres_ret mbind gres_bind andb Z.eqb Pos.eqb].
  pose proof (after_page _ _ _ _ (holes_sorted false m g s Hm) Hv Elast) as Edrop. fold l in Edrop.
  match goal with |- context [get_all_run fuel ?s1 ?msg1] =>
    destruct (IH s1 m msg1 g n (timestamp o) (crc o)) as (s' & E & Ed);
      [done | apply (ok_ts _ (st_ok _ Hst)) | apply (ok_crc _ (st_ok _ Hst)) | done | done | done | done | done | |]
  end; change (timestamp o * 2 ^ 64 + crc o) with (hval o) in *; rewrite Edrop in *.
  - rewrite length_drop. lia.
  - rewrite E. cbn [mbind gres_bind mret gres_ret]. exists s'. split; [by rewrite El | done].
Qed.

(** What the pages hold. *)
Lemma pages_items fuel n total l : (0 < n)%nat -> (length l < fuel)%nat ->
  concat ((default [] ∘ rs_items) <$> pages fuel n total l) = page_obj <$> l.
Proof.
  intros Hn. revert l. induction fuel as [|fuel IH]; intros l Hl; [lia|]. cbn [pages].
  destruct l as [|x r]; [done|]. destruct (bool_decide _); [cbn; by rewrite app_nil_r|].
  rewrite fmap_cons. cbn [concat]. rewrite IH by (rewrite length_drop; cbn in *; lia).
  cbn [compose rs_items default id]. by rewrite <- fmap_app, take_drop.
Qed.

Lemma pages_calls fuel n total l : (0 < n)%nat -> (length l < fuel)%nat -> exists rs r, pages fuel n total l = rs ++ [r] /\
  Forall (λ r, rs_code r = RC_PROGRESS /\ length (default [] (rs_items r)) = n /\ rs_total r = total) rs /\
  (rs_code r = RC_SUCCESS \/ rs_code r = RC_NO_RESULTS) /\ (length (default [] (rs_items r)) < n)%nat /\ rs_total r = total.
Proof.
  intros Hn. revert l. induction fuel as [|fuel IH]; intros l Hl; [lia|]. cbn [pages]. destruct l as [|x r].
  { exists [], (Results None RC_NO_RESULTS total). split_and!; [done | constructor | by right | done | done]. }
  destruct (decide (length (x :: r) < n)%nat) as [Hlt|Hge].
  { rewrite bool_decide_true by done. eexists [], _. split; [done|].
    split_and!; [constructor | by left | by cbn [rs_items default id]; rewrite length_fmap | done]. }
  rewrite bool_decide_false by done. destruct (IH (drop n (x :: r))) as (rs & r' & -> & Hrs & Hr').
  { rewrite length_drop. cbn in *. lia. }
  eexists (_ :: rs), r'. split; [done|]. split; [|done]. constructor; [|done]. cbn [rs_code rs_items rs_total default id].
  rewrite length_fmap, length_take. split_and!; [done | lia | done].
Qed.

Lemma all_after_blank s m g wh : rep (drv s) m -> filter (λ o, 0 * 2 ^ 64 + 0 < hval o) (holes wh (m g)) = holes wh (m g).
Proof.
  intros Hm. apply filter_all, Forall_forall. intros o Ho. pose proof (holes_stored _ _ _ _ _ Hm Ho) as Hst.
  pose proof (hval_pos o (st_ok _ Hst) (st_crc _ Hst)). lia.
Qed.
End Paging.

(** C7: a group is read page by page.  A get-all request with page size [n]
    ends after at most one call more than there are records, whatever the driver
    that keeps the tables: its callback gets every record that is not a deletion
    mark exactly once, in the order of time and checksum, in full pages in
    progress and one last, shorter one.  Every call is told the address of the
    group's name as the total number of records. *)
Theorem get_all_pages `{SignScheme key_t} `{DriverSpec D} (s : gdb key_t D) m g n a_ptr fuel :
  rep (drv s) m -> 0 < n -> a_ptr <> 0 -> (length (m g) < fuel)%nat ->
  exists rs r s', get_all_run fuel s (get_all_request a_ptr g n) = inr (rs ++ [r], s') /\ drv s' = drv s /\
    concat ((default [] ∘ rs_items) <$> rs ++ [r]) = page_obj <$> holes false (m g) /\
    Forall (λ r, rs_code r = RC_PROGRESS /\ length (default [] (rs_items r)) = Z.to_nat n /\ rs_total r = a_ptr) rs /\
    (rs_code r = RC_SUCCESS \/ rs_code r = RC_NO_RESULTS) /\
    (length (default [] (rs_items r)) < Z.to_nat n)%nat /\ rs_total r = a_ptr.
Proof.
  intros Hm Hn Hp Hf.
  assert (Hlen : (length (holes false (m g)) < fuel)%nat)
    by (pose proof (length_filter (λ o, false || negb (has_flag (flags o) DAP_GLOBAL_DB_RECORD_DEL)) (m g)); unfold holes; lia).
  destruct (get_all_from fuel s m (get_all_request a_ptr g n) g n 0 0) as (s' & E & Ed); [done | done..| |];
    rewrite all_after_blank with (s := s) in * by done; [done|]. cbn [gm_ptr get_all_request] in E.
  destruct (pages_calls fuel (Z.to_nat n) a_ptr (holes false (m g))) as (rs & r & Ep & Hrs); [lia | done|].
  exists rs, r, s'. rewrite <- Ep. split_and!; [done | done | apply pages_items; [lia | done] | apply Hrs..].
Qed.

(** Three records, one of them a deletion mark, read in pages of one. *)
Definition demo_table : list dap_store_obj :=
  [StoreObj [103] [97] [1] 0 None 1000 7 None; StoreObj [103] [98] [2] 1 None 1001 7 None;
   StoreObj [103] [99] [3] 0 None 1002 7 None].

Lemma demo_table_ok : table_ok [103] demo_table.
Proof.
  split.
  - repeat constructor; cbn; try (lia || done); try (repeat constructor; done); try (by left).
  - repeat constructor; unfold hlt, hval; cbn; lia.
  - apply (bool_decide_unpack _). reflexivity.
Qed.

Lemma get_all_pages_witness :
  exists rs r s', get_all_run 4 (set_drv demo_gdb (mem_state1 [103] demo_table)) (get_all_request 4096 [103] 1)
      = inr (rs ++ [r], s') /\
    concat ((default [] ∘ rs_items) <$> rs ++ [r])
      = [Some (DbObj [97] [1] 1000 false); Some (DbObj [99] [3] 1002 false)].
Proof.
  destruct (get_all_pages (set_drv demo_gdb (mem_state1 [103] demo_table)) (upd (λ _, []) [103] demo_table) [103] 1 4096 4)
    as (rs & r & s' & E & _ & Ec & _).
  - apply mem_state1_rep; [apply demo_table_ok | done].
  - done.
  - done.
  - rewrite upd_same. cbn. lia.
  - exists rs, r, s'. split; [exact E|]. rewrite Ec, upd_same. reflexivity.
Defined.

(** ** A pinned record *)

(** The node of [demo_writer] with a cluster for its own groups and a clock that
    runs. *)
Definition pin_gdb : gdb unit (mdbx_state mem_mdb) :=
  Gdb mem_state0 [demo_cluster; GdbCluster mask_local 0 0 ROLE_ROOT 0 false [] false] (cworld demo_writer)
    (λ i, 5000 + Z.of_nat i) 0 (Some tt) 0 false [].

(** What is issued when a pinned record is set is not what was signed. *)
Definition issued_check (e : gdb_event) : option bool :=
  match e with
  | EvIssue _ pkt _ =>
    match dap_global_db_pkt_deserialize pkt (Z.of_nat (length pkt)) None with
    | inr (Some o) => match dap_global_db_pkt_check_sign_crc o with inr b => Some b | inl _ => None end
    | _ => None
    end
  | _ => None
  end.

(** Setting the record without pinning it issues a packet that checks; with
    pinning, the packet of the record itself is refused by who checks it. *)
Lemma pinned_record_issue_refused :
  (exists s, dap_global_db_set_sync (λ _, 0) pin_gdb [103] [107] [1; 2] false = inr (0, s) /\
     map issued_check (events s) = [Some true]) /\
  (exists s, dap_global_db_set_sync (λ _, 0) pin_gdb [103] [107] [1; 2] true = inr (0, s) /\
     map issued_check (events s) = [Some true; Some false]).
Proof. split; eexists; (split; [vm_compute; reflexivity | vm_compute; reflexivity]). Qed.
