(* ===== verification/GdbClean.v ===== *)
(** * Removing expired records (global-db/dap_global_db.c)

    What [s_clean_old_obj_gdb_callback] does to a group whose cluster has a time
    to live, over any driver whose erasures succeed: which records go, which
    stay, when the loop over the pages ends and when it does not. *)

From S2P Require Import Prelude Crc64 Cluster GdbPkt GdbDriver GdbMdbx GdbCore GdbAccess.
From stdpp Require Import list sets sorting gmap.
Local Open Scope Z_scope.

Lemma erase_mid k o (l : list dap_store_obj) : StronglySorted hlt (k ++ o :: l) -> erase_obj o (k ++ o :: l) = k ++ l.
Proof.
  intros (Hk & _ & [_ Hl]%StronglySorted_inv)%StronglySorted_app. unfold erase_obj.
  rewrite filter_app, filter_cons, decide_False by (intros E; by apply E). rewrite !filter_all; [done | |].
  - eapply Forall_impl; [exact Hl|]. unfold hlt. cbn. lia.
  - apply Forall_forall. intros x Hx. pose proof (Hk x o Hx (list_elem_of_here _ _)). unfold hlt in *. lia.
Qed.

(** In an ordered table the records below a bound are a prefix. *)
Lemma below_prefix (t : list dap_store_obj) b : StronglySorted hlt t ->
  exists r, t = filter (λ o, hval o < b) t ++ r.
Proof.
  induction 1 as [|o t Ht [r IH] Ho]; [by exists []|]. rewrite filter_cons. case_decide as Hb.
  - exists r. cbn. by f_equal.
  - exists (o :: t). rewrite filter_none; [done|]. eapply Forall_impl; [exact Ho|]. unfold hlt. cbn. lia.
Qed.

Section Clean.
Context {key_t : Type} `{SignScheme key_t} {D : Type} `{Erasing D}.
Implicit Types (s : gdb key_t D) (o : dap_store_obj) (m : list Z -> list dap_store_obj).

Lemma driver_erase s m o g : rep (drv s) m -> o ∈ m g -> printable o = true -> timestamp o <> 0 ->
  exists d, dap_global_db_driver_delete (drv s) [(o, false)] = inr (0, d) /\ rep d (upd m g (erase_obj o (m g))).
Proof.
  intros Hm Ho Hp Ht. destruct (proj1 (Forall_forall _ _) (tab_stored _ _ (rep_table _ _ g Hm)) o Ho) as [Hst Eg].
  set (o' := set_flags o (Z.lor (flags o) DAP_GLOBAL_DB_RECORD_ERASE)).
  assert (Ho' : obj_ok o') by (destruct (st_ok _ Hst); by split).
  assert (He : has_flag (flags o') DAP_GLOBAL_DB_RECORD_ERASE = true).
  { unfold has_flag. cbn [o' set_flags flags]. rewrite Z.land_lor_distr_l, Z.land_diag. apply negb_true_iff, Z.eqb_neq.
    intros [_ E]%Z.lor_eq_0_iff. discriminate E. }
  unfold dap_global_db_driver_delete. cbn [map fst snd]. fold o'.
  rewrite driver_apply_one by (done || apply (st_crc _ Hst)).
  destruct (erases_succeed (drv s) m o') as [d E]; [done | done | apply (st_crc _ Hst) | done | done | |].
  { exists o. split; [by rewrite <- Eg in Ho | done]. }
  destruct (erase_spec (drv s) m o') as (rc & d' & E' & Hr); [done | done | apply (st_crc _ Hst) | done | done|].
  rewrite E in E'. injection E' as <- <-. exists d. split; [done|]. cbn [Z.eqb o' group set_flags] in Hr. by rewrite Eg in Hr.
Qed.

(** A record the driver can erase by its hash. *)
Definition erasable o : Prop := timestamp o <> 0 /\ printable o = true.

Context (c : gdb_cluster) (l_ttl l_now : Z).
Hypothesis Hcb : del_callback c = false.
Hypothesis Httl : 0 < l_ttl < l_now.
Hypothesis Hnow : fits 64 l_now.

(** What the cleaner leaves in place. *)
Definition keeps o : bool := has_flag (flags o) DAP_GLOBAL_DB_RECORD_PINNED || (l_now <=? timestamp o + l_ttl).

Lemma clean_page first l : forall s m k r g, rep (drv s) m -> m g = k ++ l ++ r ->
  Forall (λ o, timestamp o + l_ttl <= l_now /\ (keeps o = false -> erasable o)) l ->
  exists s' m', clean_objs c l_ttl l_now first s l = inr s' /\ rep (drv s') m' /\ m' g = k ++ filter keeps l ++ r /\
    (forall g', g' <> g -> m' g' = m g') /\ same_config s s'.
Proof.
  induction l as [|o l IH]; intros s m k r g Hm El Hl.
  { exists s, m. split_and!; [done | done | done | done | apply same_config_refl]. }
  apply Forall_cons in Hl as [[Hb Her] Hl]. cbn [clean_objs]. unfold clean_obj.
  assert (Ho : o ∈ m g) by (rewrite El; apply elem_of_app; right; by apply list_elem_of_here).
  destruct (proj1 (Forall_forall _ _) (tab_stored _ _ (rep_table _ _ g Hm)) o Ho) as [Hst _].
  pose proof (ok_ts _ (st_ok _ Hst)) as Hf.
  pose proof Hnow as Hnow'. unfold fits in Hf, Hnow'. rewrite (proj2 (Z.eqb_neq l_ttl 0)), wrap_id, Hcb by (unfold fits; lia).
  cbn [negb]. destruct (keeps o) eqn:Ek; unfold keeps in Ek.
  - replace (if has_flag _ _ then _ else _) with (inr s : gres (gdb key_t D)); cycle 1.
    { destruct (has_flag _ _); [done|]. apply Z.leb_le in Ek. by rewrite (proj2 (Z.ltb_ge _ _)) by lia. }
    rewrite filter_cons, decide_True by (unfold keeps; by rewrite Ek). cbn [mbind gres_bind app].
    rewrite cons_middle, app_assoc. apply (IH s m (k ++ [o]) r g Hm); [|done]. by rewrite El, <- app_assoc.
  - destruct (Her eq_refl) as [Ht Hp]. apply orb_false_iff in Ek as [Epin Ek%Z.leb_gt]. rewrite Epin. rewrite (proj2 (Z.ltb_lt _ _)) by lia.
    destruct (driver_erase s m o g Hm Ho Hp Ht) as (d & -> & Hd). cbn [lift mbind gres_bind mret gres_ret].
    pose proof (tab_sorted _ _ (rep_table _ _ g Hm)) as Hs. rewrite El in Hs, Hd. cbn [app] in Hs, Hd.
    rewrite erase_mid in Hd by done. rewrite filter_cons, decide_False; cycle 1.
    { unfold keeps. intros [E|E%Z.leb_le]%Is_true_true%orb_true_iff; [congruence | lia]. }
    destruct (IH (set_drv s d) (upd m g (k ++ l ++ r)) k r g Hd) as (s' & m' & E & Hm' & Er & Hoth & Hcfg); [apply upd_same | done|].
    exists s', m'. split_and!; [done | done | done | | by destruct s].
    intros g' Hg'. by rewrite Hoth, upd_other.
Qed.

Lemma clean_blank s first : clean_objs c l_ttl l_now first s [blank_obj] = inr s.
Proof.
  cbn [clean_objs]. unfold clean_obj. rewrite (proj2 (Z.eqb_neq l_ttl 0)) by lia. cbn [negb blank_obj flags timestamp].
  unfold fits in Hnow. rewrite wrap_id by (unfold fits; lia). rewrite (proj2 (Z.ltb_lt _ _)), Hcb by lia.
  destruct s. reflexivity.
Qed.

Lemma clean_objs_app s first l1 l2 :
  clean_objs c l_ttl l_now first s (l1 ++ l2) = (s ← clean_objs c l_ttl l_now first s l1; clean_objs c l_ttl l_now first s l2).
Proof.
  revert s. induction l1 as [|o l1 IH]; intros s; [done|]. cbn [app clean_objs].
  destruct (clean_obj c l_ttl l_now first s o) as [|s']; cbn [mbind gres_bind]; [done | apply IH].
Qed.

(** The bound under which the cleaner reads. *)
Definition clean_bound : Z := (l_now - l_ttl) * 2 ^ 64 + (2 ^ 64 - 1).

(** A record is judged by its time alone. *)
Definition expired o : Prop := timestamp o + l_ttl < l_now.
#[export] Instance expired_dec o : Decision (expired o).
Proof. unfold expired. apply _. Defined.

(** Under the bound the driver can erase what the cleaner does not keep. *)
Definition cleanable (t : list dap_store_obj) : Prop :=
  forall o, o ∈ t -> hval o < clean_bound -> keeps o = false -> erasable o.

Lemma below_bound s m g o : rep (drv s) m -> o ∈ m g -> hval o < clean_bound <->
  timestamp o < l_now - l_ttl \/ (timestamp o = l_now - l_ttl /\ crc o < 2 ^ 64 - 1).
Proof.
  intros Hm Ho. destruct (proj1 (Forall_forall _ _) (tab_stored _ _ (rep_table _ _ g Hm)) o Ho) as [Hst _].
  destruct (st_ok _ Hst) as [_ _ _ _ Hc Ht]. unfold hval, clean_bound, fits in *. nia.
Qed.

(** One turn of the loop: the records of the page that are not kept leave. *)
Lemma clean_turn fuel s m g : rep (drv s) m -> cleanable (m g) ->
  let l := filter (λ o, hval o < clean_bound) (m g) in let n := Z.to_nat DAP_GLOBAL_DB_COND_READ_COUNT_DEFAULT in
  (l = [] -> clean_loop (S fuel) c l_ttl l_now g s = inr s) /\
  (l <> [] -> exists s' m' r, clean_loop (S fuel) c l_ttl l_now g s = clean_loop fuel c l_ttl l_now g s' /\
     rep (drv s') m' /\ m g = take n l ++ r /\ m' g = filter keeps (take n l) ++ r /\
     (forall g', g' <> g -> m' g' = m g') /\ same_config s s').
Proof.
  intros Hm Hcl l n. cbn [clean_loop]. pose proof Hnow as Hnow'. unfold fits in Hnow'.
  rewrite wrap_id by (unfold fits; lia). rewrite (read_below_spec _ m) by (done || lia || (unfold fits; lia)).
  cbn [Z.eqb]. fold clean_bound. fold l n. split; [by intros -> |]. intros Hne.
  destruct (below_prefix (m g) clean_bound (tab_sorted _ _ (rep_table _ _ g Hm))) as [r Er]. fold l in Er.
  assert (Hl : Forall (λ o, timestamp o + l_ttl <= l_now /\ (keeps o = false -> erasable o)) l).
  { apply Forall_forall. intros o [Hb Ho]%list_elem_of_filter. split; [apply (below_bound s m g) in Hb; [lia | done | done]|].
    by apply Hcl. }
  destruct l as [|x l'] eqn:El; [done|]. rewrite <- El in *.
  assert (Hsplit : m g = take n l ++ (drop n l ++ r)) by (by rewrite app_assoc, take_drop).
  destruct (clean_page (group x) (take n l) s m [] (drop n l ++ r) g Hm Hsplit) as (s1 & m1 & E1 & Hm1 & Eg1 & Hoth1 & Hc1);
    [by apply Forall_take|].
  exists s1, m1, (drop n l ++ r). split; [|done]. cbn [lift mbind gres_bind items last_page].
  assert (Ecl : forall b : bool, clean_objs c l_ttl l_now (group x) s (take n l ++ if b then [blank_obj] else []) = inr s1).
  { intros b. rewrite clean_objs_app, E1. cbn [mbind gres_bind]. destruct b; [apply clean_blank | done]. }
  destruct (take n l) as [|y pg] eqn:Epg; [by rewrite El in Epg|]. assert (y = x) as -> by (rewrite El in Epg; by injection Epg).
  rewrite Ecl. cbn [mbind gres_bind]. by rewrite (proj2 (Z.eqb_neq l_ttl 0)) by lia.
Qed.

Lemma take_nonempty (l : list dap_store_obj) : l <> [] -> take (Z.to_nat DAP_GLOBAL_DB_COND_READ_COUNT_DEFAULT) l <> [].
Proof. by destruct l. Qed.

(** With nothing under the bound kept the loop ends, and the expired records are
    gone. *)
Lemma clean_loop_ends fuel : forall s m g, rep (drv s) m -> (length (m g) < fuel)%nat -> cleanable (m g) ->
  (forall o, o ∈ m g -> hval o < clean_bound -> keeps o = false) ->
  exists s' m', clean_loop fuel c l_ttl l_now g s = inr s' /\ rep (drv s') m' /\
    m' g = filter (λ o, ~ expired o) (m g) /\ (forall g', g' <> g -> m' g' = m g') /\ same_config s s'.
Proof.
  induction fuel as [|fuel IH]; intros s m g Hm Hlen Hcl Hk; [lia|].
  destruct (clean_turn fuel s m g Hm Hcl) as [Hend Hturn]. cbn zeta in *.
  set (l := filter (λ o, hval o < clean_bound) (m g)) in *. destruct (decide (l = [])) as [El|Hne].
  - exists s, m. rewrite Hend by done. split_and!; [done | done | | done | apply same_config_refl].
    symmetry. apply filter_all, Forall_forall. intros o Ho Hx. apply (elem_of_nil o). rewrite <- El.
    apply list_elem_of_filter. split; [|done]. apply (below_bound s m g); [done | done|]. unfold expired in Hx. lia.
  - destruct (Hturn Hne) as (s1 & m1 & r & -> & Hm1 & Eg & Eg1 & Hoth1 & Hc1). pose proof (take_nonempty l Hne) as Hp.
    assert (Hpg : Forall (λ o, hval o < clean_bound /\ o ∈ m g) (take (Z.to_nat DAP_GLOBAL_DB_COND_READ_COUNT_DEFAULT) l))
      by (apply Forall_take, Forall_forall; intros o Ho; by apply list_elem_of_filter in Ho).
    set (pg := take _ l) in *. rewrite (filter_none keeps pg) in Eg1; cycle 1.
    { eapply Forall_impl; [exact Hpg|]. intros o [Hb Ho] Hn. by rewrite (Hk o Ho Hb) in Hn. }
    assert (Hsub : forall o, o ∈ m1 g -> o ∈ m g) by (intros o Ho; rewrite Eg; rewrite Eg1 in Ho; apply elem_of_app; by right).
    destruct (IH s1 m1 g Hm1) as (s2 & m2 & E2 & Hm2 & Eg2 & Hoth2 & Hc2).
    + rewrite Eg, length_app in Hlen. rewrite Eg1. destruct pg; [done|]. cbn in *. lia.
    + intros o Ho. by apply Hcl, Hsub.
    + intros o Ho. by apply Hk, Hsub.
    + exists s2, m2. split_and!; [done | done | | | by eapply same_config_trans].
      * rewrite Eg2, Eg1, Eg, (filter_app _ pg), (filter_none _ pg); [done|]. eapply Forall_impl; [exact Hpg|].
        intros o [Hb Ho] Hn. apply Hn. pose proof (Hk o Ho Hb) as E. apply orb_false_iff in E as [_ E%Z.leb_gt]. done.
      * intros g' Hg'. by rewrite Hoth2, Hoth1.
Qed.

(** A record under the bound that is kept is read again and again. *)
Lemma clean_loop_hangs o fuel : forall s m g, rep (drv s) m -> cleanable (m g) -> o ∈ m g -> hval o < clean_bound ->
  keeps o = true -> clean_loop fuel c l_ttl l_now g s = inl GDepth.
Proof.
  induction fuel as [|fuel IH]; intros s m g Hm Hcl Ho Hb Hk; [done|].
  destruct (clean_turn fuel s m g Hm Hcl) as [_ Hturn]. cbn zeta in *. destruct Hturn as (s1 & m1 & r & -> & Hm1 & Eg & Eg1 & _).
  { intros E. apply (elem_of_nil o). rewrite <- E. by apply list_elem_of_filter. }
  apply (IH s1 m1 g Hm1); [| |done | done].
  - intros x Hx. apply Hcl. rewrite Eg. rewrite Eg1 in Hx. apply elem_of_app in Hx as [[_ Hx]%list_elem_of_filter|Hx];
      apply elem_of_app; auto.
  - rewrite Eg1. rewrite Eg in Ho. apply elem_of_app in Ho as [Ho|Ho]; apply elem_of_app; [left | by right].
    apply list_elem_of_filter. split; [by rewrite Hk | done].
Qed.
End Clean.

(** The moment of the cleaning and the time to live. *)
Definition clean_time {key_t D} (s : gdb key_t D) : Z := clock s (ticks s).

(** C8: cleaning a group removes the expired records and ends, or it never ends.
    In a group whose cluster gives records a time to live, with a driver whose
    erasures succeed: when no record older than the limit is pinned and none is
    exactly at it, the loop ends after at most one turn more than there are
    records, leaves exactly the records that are not expired and does not touch
    other groups.  A single pinned record older than the limit, or a record
    exactly at it, is read again in every turn, so that the loop runs for ever. *)
Theorem clean_group_removes_expired `{SignScheme key_t} `{Erasing D} node_addr (s : gdb key_t D) m g c fuel :
  rep (drv s) m -> m g <> [] -> dap_global_db_cluster_by_group s g = Some c -> del_callback c = false ->
  let l_ttl := dap_nanotime_from_sec (ttl c) in let l_now := clean_time s in
  0 < l_ttl < l_now -> fits 64 l_now -> cleanable l_ttl l_now (m g) ->
  ((forall o, o ∈ m g -> hval o < clean_bound l_ttl l_now -> keeps l_ttl l_now o = false) -> (length (m g) < fuel)%nat ->
   exists s' m', clean_group node_addr fuel s g = inr s' /\ rep (drv s') m' /\
     m' g = filter (λ o, ~ expired l_ttl l_now o) (m g) /\ forall g', g' <> g -> m' g' = m g') /\
  ((exists o, o ∈ m g /\ hval o < clean_bound l_ttl l_now /\ keeps l_ttl l_now o = true) ->
   clean_group node_addr fuel s g = inl GDepth).
Proof.
  intros Hm Hne Hc Hcb l_ttl l_now Httl Hnow Hcl.
  assert (Estart : clean_group node_addr fuel s g = clean_loop fuel c l_ttl l_now g (tick s)).
  { unfold clean_group. change c_dap_global_db_driver_hash_blank with (hash_bytes 0 0).
    rewrite (read_count_spec _ _ _ _ _ _ Hm) by done. cbn [lift mbind gres_bind].
    rewrite holes_filter, all_after_blank with (s := s), holes_true by done.
    rewrite (proj2 (Z.eqb_neq _ 0)) by (destruct (m g); cbn; [done | lia]). by rewrite Hc. }
  rewrite Estart. split.
  - intros Hk Hf. destruct (clean_loop_ends c l_ttl l_now Hcb Httl Hnow fuel (tick s) m g) as (s' & m' & E & Hm' & Eg & Ho & _);
      [done..|]. by exists s', m'.
  - intros (o & Ho & Hb & Hk). by apply (clean_loop_hangs c l_ttl l_now Hcb Httl Hnow o fuel (tick s) m g).
Qed.

(** A cluster that keeps records for a second, at the fifth second: an old
    record and a young one; then an old record that is pinned. *)
Definition ttl_cluster : gdb_cluster := GdbCluster [103; 42] 0 0 ROLE_ROOT 1 false [] false.
Definition ttl_gdb (l : list dap_store_obj) : gdb unit (mdbx_state mem_mdb) :=
  Gdb (mem_state1 [103] l) [ttl_cluster] demo_world (λ _, 5000000000) 0 (Some tt) 0 false [].
Definition old_rec (fl : Z) : dap_store_obj := StoreObj [103] [97] [1] fl None 1000 7 None.
Definition young_rec : dap_store_obj := StoreObj [103] [98] [2] 0 None 4500000000 7 None.

Lemma ttl_table_ok fl : fl = 0 \/ fl = 2 -> table_ok [103] [old_rec fl; young_rec].
Proof.
  intros [->| ->]; (split; [|repeat constructor; unfold hlt, hval; cbn; lia | apply (bool_decide_unpack _); reflexivity]);
    repeat constructor; cbn; try (lia || done); try (repeat constructor; done); try (by left).
Qed.

Lemma clean_group_removes_expired_witness :
  (exists s' m', clean_group (λ _, 0) 3 (ttl_gdb [old_rec 0; young_rec]) [103] = inr s' /\ rep (drv s') m' /\
     m' [103] = [young_rec]) /\
  clean_group (λ _, 0) 100 (ttl_gdb [old_rec 2; young_rec]) [103] = inl GDepth.
Proof.
  split.
  - destruct (clean_group_removes_expired (λ _, 0) (ttl_gdb [old_rec 0; young_rec]) (upd (λ _, []) [103] [old_rec 0; young_rec])
      [103] ttl_cluster 3) as [T _].
    + apply mem_state1_rep; [apply ttl_table_ok; by left | done].
    + by rewrite upd_same.
    + reflexivity.
    + reflexivity.
    + split; reflexivity.
    + split; vm_compute; done.
    + intros o Ho _ _. rewrite upd_same in Ho. apply elem_of_cons in Ho as [->|Ho%list_elem_of_singleton]; [|subst]; done.
    + destruct T as (s' & m' & E & Hm' & Eg & _).
      * intros o Ho Hb. rewrite upd_same in Ho. apply elem_of_cons in Ho as [->|Ho%list_elem_of_singleton]; [reflexivity|].
        subst. exfalso. revert Hb. vm_compute. discriminate.
      * rewrite upd_same. cbn. lia.
      * exists s', m'. split; [exact E|]. split; [exact Hm'|]. rewrite Eg, upd_same. reflexivity.
  - destruct (clean_group_removes_expired (λ _, 0) (ttl_gdb [old_rec 2; young_rec]) (upd (λ _, []) [103] [old_rec 2; young_rec])
      [103] ttl_cluster 100) as [_ T].
    + apply mem_state1_rep; [apply ttl_table_ok; by right | done].
    + by rewrite upd_same.
    + reflexivity.
    + reflexivity.
    + split; reflexivity.
    + split; vm_compute; done.
    + intros o Ho _ _. rewrite upd_same in Ho. apply elem_of_cons in Ho as [->|Ho%list_elem_of_singleton]; [|subst]; done.
    + apply T. exists (old_rec 2). rewrite upd_same. split; [by apply list_elem_of_here|]. split; reflexivity.
Defined.
