(* ===== verification/GdbFetch.v ===== *)
(** * Records by their hashes (global-db/dap_global_db_driver_mdbx.c)

    [s_db_mdbx_get_by_hash] writes the stored blocks into a pack without going
    through [dap_global_db_pkt_serialize]: its packets carry the terminators of
    group and key.  Here they are shown to be parsed back all the same. *)

From S2P Require Import Prelude Crc64 GdbPkt GdbDriver GdbMdbx.
From stdpp Require Import list sets sorting.
Local Open Scope Z_scope.

(** The packet of a stored record. *)
Definition net_pkt (o : dap_store_obj) : list Z :=
  raw_pkt (crc o) (timestamp o) (Z.land (flags o) 1) (group o ++ [0]) (key o ++ [0]) (value o) (sign_bytes o).

Lemma length_net o : Z.of_nat (length (net_pkt o)) = 31 + body_len o + Z.of_nat (length (sign_bytes o)).
Proof. unfold net_pkt. rewrite length_raw, !length_app. unfold body_len. cbn [length]. lia. Qed.

Lemma fill_net o tail bound : stored o -> sendable o -> Z.of_nat (length (net_pkt o)) <= bound ->
  s_fill_one_store_obj (net_pkt o ++ tail) bound None = inr (Some (parsed o None, Z.of_nat (length (net_pkt o)))).
Proof.
  intros Ho [Hg Hsz] Hb. destruct (st_ok o Ho) as [[Hg0 Hgz] [Hk0 Hkz] _ Hs Hc Ht]. pose proof (st_key o Ho) as Hk.
  unfold net_pkt in *. unfold body_len in Hsz. rewrite (fill_raw _ _ _ _ _ _ _ (group o) (key o)); auto;
    try (apply strndup_terminated; [done | rewrite length_app; lia]).
  - cbn [ext_size]. rewrite Z.add_0_r. do 4 f_equal. unfold parsed, sign_bytes. destruct (sign o) as [s|]; [|done].
    cbn [default id]. destruct Hs as [_ Hs]. destruct s; [cbn in Hs; lia | done].
  - rewrite length_app. cbn [length]. lia.
  - rewrite length_app. cbn [length]. lia.
  - rewrite !length_app. cbn [length]. lia.
  - unfold sign_bytes. destruct (sign o); [by right | by left].
Qed.

Lemma record_net o : stored o -> sendable o ->
  record_pkt (group o) (dap_global_db_driver_hash_get o) (rec_bytes o) = inr (PktDone (net_pkt o)).
Proof.
  intros Ho [_ Hsnd]. pose proof (stored_sizes o Ho) as [Hk Hsz]. pose proof (length_rec_bytes o) as Hl.
  destruct (st_ok o Ho) as [[Hg _] _ _ _ Hc Ht]. unfold record_pkt.
  rewrite Hl, (proj2 (Z.ltb_ge _ sizeof_record)) by (unfold sizeof_record; lia).
  destruct (rec_fields_read o (key o ++ [0] ++ value o ++ sign_bytes o) Ho) as (E1 & E2 & E3 & E4).
  fold (rec_bytes o) in *. rewrite E1, E2, E3. cbn [mem mbind res_bind].
  rewrite wrap_id, (proj2 (Z.ltb_ge _ _)) by (unfold fits, sizeof_record; lia).
  rewrite bool_decide_false by (destruct (group o); [cbn in Hg; lia | done]).
  rewrite (proj2 (Z.eqb_neq (Z.of_nat (length (key o)) + 1) 0)) by lia.
  destruct (rec_key_read o Ho) as (Ekey & c & Hc0 & Ec). rewrite Ec. cbn [mem mbind res_bind].
  rewrite (proj2 (Z.eqb_neq c 0)), E4, Ekey by done. cbn [mem mbind res_bind]. rewrite rec_value_read. cbn [mbind res_bind].
  assert (Es : (if Z.of_nat (length (sign_bytes o)) <? sizeof_sign then mret (Some []) else
    size ← mem (dap_sign_get_size (rec_bytes o) (sizeof_record + (Z.of_nat (length (key o)) + 1) + Z.of_nat (length (value o))));
    if negb (size =? Z.of_nat (length (sign_bytes o))) then mret None else
    s ← mem (mem_read (rec_bytes o) (sizeof_record + (Z.of_nat (length (key o)) + 1) + Z.of_nat (length (value o)))
               (Z.of_nat (length (sign_bytes o)))); mret (Some s)) = (inr (Some (sign_bytes o)) : res (option (list Z)))).
  { unfold sign_bytes. destruct (sign o) as [s|] eqn:Es; [|done]. cbn [default id].
    destruct (rec_sign_read o s Ho Es) as (Hss & -> & ->). rewrite (proj2 (Z.ltb_ge _ sizeof_sign)) by done.
    cbn [mem mbind res_bind]. by rewrite Z.eqb_refl. }
  rewrite Es. cbn [mbind res_bind]. unfold body_len in Hsnd.
  rewrite wrap_id by (unfold fits; lia). rewrite (proj2 (Z.eqb_eq _ _)) by (rewrite !length_app; cbn [length]; lia).
  cbn [negb]. unfold dap_global_db_driver_hash_get. destruct (hash_split _ _ Ht Hc) as [-> ->].
  rewrite pkt_header_fields. unfold net_pkt, raw_pkt. rewrite !length_app. cbn [length].
  do 3 f_equal; [|by rewrite <- !app_assoc]. f_equal. unfold hdr. repeat f_equal; lia.
Qed.

Lemma kv_get_record l o : Forall stored l -> StronglySorted hlt l -> o ∈ l ->
  kv_get (dap_global_db_driver_hash_get o) (enc <$> l) = Some (rec_bytes o).
Proof.
  intros Hst Hs Ho. pose proof (kv_get_present o l Hst Ho) as Hp. unfold kv_get in *.
  destruct (list_find (λ e, e.1 = dap_global_db_driver_hash_get o) (enc <$> l)) as [[i e]|] eqn:E; [|done].
  apply list_find_Some in E as (Hi & Ee & _). apply list_lookup_fmap_Some in Hi as (x & -> & Hx).
  apply list_elem_of_lookup_2 in Hx. cbn [enc fst] in Ee. cbn [mbind option_bind snd enc].
  assert (x = o) as ->; [|done]. apply (sorted_inj l); [done..|].
  pose proof (proj1 (Forall_forall _ _) Hst) as Hall. apply hash_get_hval; [by apply st_ok, Hall..|done].
Qed.

Lemma get_by_hash_packets l os : Forall stored l -> StronglySorted hlt l -> forall g,
  Forall (λ o, o ∈ l /\ group o = g /\ sendable o) os ->
  get_by_hash_loop g (enc <$> l) (dap_global_db_driver_hash_get <$> os)
  = inr (bool_decide (os <> []), net_pkt <$> os).
Proof.
  intros Hst Hs g Hos. induction Hos as [|o os (Ho & <- & Hsnd) Hos IH]; [done|].
  rewrite !fmap_cons. cbn [get_by_hash_loop]. rewrite kv_get_record by done.
  rewrite record_net by (done || by apply (proj1 (Forall_forall _ _) Hst)). cbn [mbind res_bind].
  rewrite IH. done.
Qed.

(** A pack of such packets is taken apart into its records. *)
Lemma unpack_net os pre : Forall (λ o, stored o /\ sendable o) os ->
  unpack_loop (pre ++ concat (net_pkt <$> os)) (Z.of_nat (length (pre ++ concat (net_pkt <$> os)))) (length os)
    (Z.of_nat (length pre))
  = inr (map (λ o, parsed o None) os, Some (Z.of_nat (length (pre ++ concat (net_pkt <$> os))))).
Proof.
  intros Hos. revert pre. induction Hos as [|o os [Ho Hs] Hos IH]; intros pre; [by cbn; rewrite app_nil_r|].
  rewrite fmap_cons. cbn [concat length unpack_loop map]. rewrite Nat2Z.id, drop_app_length.
  rewrite (fill_net o) by (done || (rewrite !length_app; lia)). cbn [mbind res_bind].
  specialize (IH (pre ++ net_pkt o)). rewrite <- app_assoc in IH.
  rewrite <- Nat2Z.inj_add, <- length_app, IH. done.
Qed.

Lemma net_pack_parses os : Forall (λ o, stored o /\ sendable o) os -> (0 < length os <= 1024)%nat ->
  dap_global_db_pkt_pack_get_size (pack_bytes (net_pkt <$> os)) = Some (Z.of_nat (length (pack_bytes (net_pkt <$> os)))) /\
  dap_global_db_pkt_pack_deserialize (pack_bytes (net_pkt <$> os)) = inr (Some (map (λ o, parsed o None) os)).
Proof.
  intros Hos Hn.
  assert (Hlen : 31 <= Z.of_nat (length (concat (net_pkt <$> os))) <= 2 ^ 32 * Z.of_nat (length os)).
  { assert (Hle : Z.of_nat (length (concat (net_pkt <$> os))) <= 2 ^ 32 * Z.of_nat (length os)).
    { clear Hn. induction Hos as [|o os [_ [_ Hs]] _ IH]; [done|]. rewrite fmap_cons. cbn [concat length].
      rewrite length_app. pose proof (length_net o). lia. }
    split; [|done]. destruct os as [|o os]; [cbn in Hn; lia|]. rewrite fmap_cons. cbn [concat]. rewrite length_app.
    pose proof (length_net o). pose proof (body_len_nonneg o). lia. }
  unfold pack_bytes. set (d := concat (net_pkt <$> os)) in *.
  destruct (pack_hdr (Z.of_nat (length d)) (Z.of_nat (length (net_pkt <$> os))) d) as [Ed En];
    [unfold fits; lia | rewrite length_fmap; unfold fits; lia|].
  unfold dap_global_db_pkt_pack_get_size, dap_global_db_pkt_pack_deserialize. rewrite Ed, En. cbn [mbind option_bind mem res_bind].
  rewrite length_app, length_fields. change (fields_len _) with 12%nat. unfold sizeof_pack.
  rewrite wrap_id by (unfold fits; lia). rewrite (proj2 (Z.ltb_lt _ _)) by lia. split; [f_equal; lia|].
  rewrite (proj2 (Z.ltb_ge _ sizeof_pkt)) by (unfold sizeof_pkt; lia). rewrite length_fmap, Nat2Z.id.
  rewrite (proj2 (Z.eqb_neq _ 0)), (proj2 (Z.ltb_ge _ _)) by (unfold DAP_GLOBAL_DB_PKT_PACK_MAX_COUNT; lia). cbn [orb].
  replace (drop 12 _) with d by (rewrite drop_app_length'; [done | by rewrite length_fields]).
  pose proof (unpack_net os [] Hos) as E. cbn [app length] in E. fold d in E. change (Z.of_nat 0) with 0 in E. rewrite E. cbn [mbind res_bind].
  by rewrite Z.eqb_refl.
Qed.

#[export] Instance mdbx_fetching {mdb} `{MdbxHealthy mdb} : Fetching (mdbx_state mdb).
Proof.
  intros d m g os Hh Hos Hn. pose proof (hrep_usable d m g Hh) as Hu. destruct Hh as [Hm _]. exists (pack_bytes (net_pkt <$> os)).
  pose proof (mr_table _ _ Hm g) as Ht. pose proof (table_stored _ _ Ht) as Hst.
  destruct os as [|o os']; [cbn in Hn; lia|]. set (os := o :: os') in *.
  assert (Ho : o ∈ m g) by (inversion_clear Hos; tauto).
  assert (Hin : g ∈ s_db_ctxs d).
  { apply dec_stable. intros Hin. destruct (mr_closed _ _ Hm _ Hin) as [E _]. rewrite E in Ho. by apply elem_of_nil in Ho. }
  destruct (mr_open _ _ Hm _ Hin) as [_ Et]. split.
  - change (s_db_mdbx_get_by_hash d g (dap_global_db_driver_hash_get <$> os) = inr (Some (pack_bytes (net_pkt <$> os)))).
    unfold s_db_mdbx_get_by_hash. rewrite bool_decide_false by done. unfold s_get_db_ctx_for_group.
    rewrite (bool_decide_true (g ∈ _)) by done. cbn [negb orb].
    unfold open_table. rewrite bool_decide_false, Et by done. cbn [mret res_ret mbind res_bind].
    rewrite get_by_hash_packets; [done | done | apply Ht|]. eapply Forall_impl; [exact Hos|]. intros x [Hx Hs].
    split_and!; [done | | done]. by apply (proj1 (Forall_forall _ _) (tab_stored _ _ Ht)).
  - apply net_pack_parses; [|done]. eapply Forall_impl; [exact Hos|]. intros x [Hx Hs]. split; [|done].
    by apply (proj1 (Forall_forall _ _) Hst).
Qed.
