(* ===== verification/GdbCh.v ===== *)
(** * The synchronization channel (global-db/dap_global_db_ch.c,
    dap_global_db_cluster.c)

    Two nodes compare the hashes of a group and exchange the records one of them
    lacks: a start packet makes the receiver send its hashes page by page, the
    sender asks for those it does not know, and gets the records in packs.  The
    handlers run as tasks of the processing threads; what they send is appended
    to the events of the database.

    The task arguments are the blocks the handlers copy: reading past the end of
    a packet is a fault. *)

From S2P Require Import Prelude Crc64 Cluster GdbPkt GdbDriver GdbMdbx GdbFetch GdbCore.
From stdpp Require Import list sets sorting gmap.
Local Open Scope Z_scope.

(** ** Packets *)

Definition MSG_START : Z := 0.
Definition MSG_GROUP_REQUEST : Z := 1.
Definition MSG_HASHES : Z := 2.
Definition MSG_REQUEST : Z := 3.
Definition MSG_RECORD_PACK : Z := 5.

Definition DAP_GLOBAL_DB_QUEUE_SIZE_MAX : Z := 4096.
Definition sizeof_hash : Z := 16.

(** [dap_global_db_start_pkt_t]: the last hash, the length of the group and the
    group. *)
Definition sizeof_start : Z := 18.
Definition start_last_hash (p : list Z) : option (list Z) := mem_read p 0 sizeof_hash.
Definition start_group_len (p : list Z) : option Z := mem_le p 16 2.

Definition dap_global_db_start_pkt_get_size (p : list Z) : option Z :=
  g ← start_group_len p; Some (wrap 32 (sizeof_start + g)).

Definition start_pkt (h g : list Z) : list Z := h ++ le_bytes 2 (Z.of_nat (length g) + 1) ++ g ++ [0].

(** [dap_global_db_hash_pkt_t]: the number of hashes, the length of the group's
    name, the name and the hashes. *)
Definition sizeof_hash_pkt : Z := 6.
Definition hashes_count (p : list Z) : option Z := mem_le p 0 4.
Definition group_name_len (p : list Z) : option Z := mem_le p 4 2.

Definition dap_global_db_hash_pkt_get_size (p : list Z) : option Z :=
  n ← hashes_count p; g ← group_name_len p;
  Some (if (2 ^ 32 - 1) / sizeof_hash <=? n then 0 else sizeof_hash_pkt + g + n * sizeof_hash).

Definition hash_pkt (g : list Z) (hs : list (list Z)) : list Z :=
  le_bytes 4 (Z.of_nat (length hs)) ++ le_bytes 2 (Z.of_nat (length g) + 1) ++ (g ++ [0]) ++ concat hs.

(** The hashes from offset [off] on. *)
Fixpoint read_hashes_at (p : list Z) (off : Z) (n : nat) : option (list (list Z)) :=
  match n with
  | O => Some []
  | S n => h ← mem_read p off sizeof_hash; l ← read_hashes_at p (off + sizeof_hash) n; Some (h :: l)
  end.

(** The zero-terminated text at [off]. *)
Definition text_at (p : list Z) (off : Z) : option (list Z) := c_text (drop (Z.to_nat off) p).

(** ** Tasks *)

Inductive task :=
  | TReader (a_addr a_type : Z) (a_pkt : list Z)
  | THashes (a_addr : Z) (a_pkt : list Z)
  | TRequest (a_addr : Z) (a_pkt : list Z)
  | TRecords (a_addr : Z) (a_objs : list dap_store_obj)
  | TRecord (a_obj : dap_store_obj).

Section Channel.
Context {key_t : Type} `{SignScheme key_t} {D : Type} `{Driver D}.
Context (node_addr_from_sign : list Z -> Z).
(** The status of a links cluster, which the link manager sets. *)
Context (enabled : Z -> bool).
Implicit Types (s : gdb key_t D).

(** The role of a node in the cluster's links. *)
Definition link_role s (c : gdb_cluster) (a_addr : Z) : gres (Z * gdb key_t D) :=
  '(w, r) ← lock (dap_cluster_member_find_role (cworld s) (links_cluster c) a_addr); mret (r, set_cworld s w).

(** The number of expired hashes in front. *)
Fixpoint skip_expired (l_ttl l_now : Z) (l : list (list Z)) : nat :=
  match l with
  | [] => O
  | h :: l =>
    if wrap 64 (be_value (take 8 h) + l_ttl) <? l_now
    then if dap_global_db_driver_hash_is_blank h then O else S (skip_expired l_ttl l_now l)
    else O
  end.

Definition set_last_hash (p h : list Z) : gres (list Z) := gmem (mem_write p 0 h).

(** The hashes that were read are announced; the answer says whether there are
    more, and is put in the packet. *)
Definition send_hashes s (a_addr : Z) (p l_group : list Z) (l : list (list Z)) : gres (bool * list Z * gdb key_t D) :=
  let h := default c_dap_global_db_driver_hash_blank (last l) in
  p ← set_last_hash p h;
  let l_ret := negb (dap_global_db_driver_hash_is_blank h) in
  let l := if l_ret then l else removelast l in
  mret (l_ret, p, if bool_decide (l = []) then s else emits s [EvSend a_addr MSG_HASHES (hash_pkt l_group l)]).

Definition s_proc_thread_reader s (a_addr a_type : Z) (p : list Z) : gres (bool * list Z * gdb key_t D) :=
  l_group ← gmem (text_at p sizeof_start);
  match dap_global_db_cluster_by_group s l_group with
  | None => mret (false, p, s)
  | Some c =>
    '(r, s) ← link_role s c a_addr;
    if r =? ROLE_INVALID then mret (false, p, s) else
    h ← gmem (start_last_hash p);
    pg ← lift (read_hashes (drv s) l_group h);
    let l := match pg with
             | Some pg => items pg ++ (if last_page pg then [c_dap_global_db_driver_hash_blank] else [])
             | None => []
             end in
    if bool_decide (l = []) then
      if a_type =? MSG_GROUP_REQUEST then mret (false, p, s) else
      q ← set_last_hash p c_dap_global_db_driver_hash_blank;
      size ← gmem (dap_global_db_start_pkt_get_size q);
      d ← gmem (mem_read q 0 size);
      mret (false, p, emits s [EvSend a_addr MSG_GROUP_REQUEST d])
    else
    let l_ttl := dap_nanotime_from_sec (ttl c) in
    if l_ttl =? 0 then send_hashes s a_addr p l_group l else
    let '(l_now, s) := dap_nanotime_now s in
    let i := skip_expired l_ttl l_now l in
    if (i =? length l)%nat then
      p ← set_last_hash p (default c_dap_global_db_driver_hash_blank (last l)); mret (true, p, s)
    else send_hashes s a_addr p l_group (drop i l)
  end.

(** The processing thread calls it again while it says so. *)
Fixpoint reader_run (fuel : nat) s (a_addr a_type : Z) (p : list Z) : gres (gdb key_t D) :=
  match fuel with
  | O => inl GDepth
  | S fuel =>
    '(again, p, s) ← s_proc_thread_reader s a_addr a_type p;
    if again : bool then reader_run fuel s a_addr a_type p else mret s
  end.

(** The hashes the driver does not have, in their order. *)
Fixpoint unknown_hashes (d : D) (a_group : list Z) (l : list (list Z)) : res (list (list Z)) :=
  match l with
  | [] => mret []
  | h :: l => known ← is_hash d a_group h; r ← unknown_hashes d a_group l; mret (if known : bool then r else h :: r)
  end.

Definition s_process_hashes s (a_addr : Z) (p : list Z) : gres (gdb key_t D) :=
  l_group ← gmem (text_at p sizeof_hash_pkt);
  match dap_global_db_cluster_by_group s l_group with
  | None => mret s
  | Some _ =>
    n ← gmem (hashes_count p);
    g ← gmem (group_name_len p);
    l_hashes ← gmem (read_hashes_at p (sizeof_hash_pkt + g) (Z.to_nat n));
    l ← lift (unknown_hashes (drv s) l_group l_hashes);
    if bool_decide (l = []) then mret s else
    name ← gmem (mem_read p sizeof_hash_pkt g);
    mret (emits s [EvSend a_addr MSG_REQUEST (le_bytes 4 (Z.of_nat (length l)) ++ le_bytes 2 g ++ name ++ concat l)])
  end.

Definition s_process_request s (a_addr : Z) (p : list Z) : gres (gdb key_t D) :=
  l_group ← gmem (text_at p sizeof_hash_pkt);
  match dap_global_db_cluster_by_group s l_group with
  | None => mret s
  | Some c =>
    '(r, s) ← link_role s c a_addr;
    if r =? ROLE_INVALID then mret s else
    n ← gmem (hashes_count p);
    g ← gmem (group_name_len p);
    l_hashes ← gmem (read_hashes_at p (sizeof_hash_pkt + g) (Z.to_nat n));
    l_pkt_out ← lift (get_by_hash (drv s) l_group l_hashes);
    match l_pkt_out with
    | None => mret s
    | Some q =>
      size ← gmem (dap_global_db_pkt_pack_get_size q);
      d ← gmem (mem_read q 0 size);
      mret (emits s [EvSend a_addr MSG_RECORD_PACK d])
    end
  end.

Definition dap_global_db_ch_check_store_obj s (o : dap_store_obj) (a_addr : Z) : gres (bool * gdb key_t D) :=
  ok ← lift (dap_global_db_pkt_check_sign_crc o);
  if negb ok then mret (false, s) else
  match dap_global_db_cluster_by_group s (group o) with
  | None => mret (false, s)
  | Some c =>
    legacy ← (if a_addr =? 0 then
                l ← gmem (heap (cworld s) !! links_cluster c);
                mret (bool_decide (Cluster.type l = DAP_CLUSTER_TYPE_EMBEDDED) && enabled (links_cluster c))
              else mret false);
    if legacy : bool then mret (true, s) else
    '(w, m) ← lock (dap_cluster_member_find_unsafe (cworld s) (links_cluster c) a_addr);
    mret (bool_decide (is_Some m), set_cworld s w)
  end.

(** [l_success] of the last object that was looked at. *)
Fixpoint check_objs s (l : list dap_store_obj) (a_addr : Z) (l_success : bool) : gres (bool * gdb key_t D) :=
  match l with
  | [] => mret (l_success, s)
  | o :: l =>
    '(ok, s) ← dap_global_db_ch_check_store_obj s o a_addr;
    if negb ok then mret (false, s) else check_objs s l a_addr true
  end.

Definition s_process_records s (a_addr : Z) (l : list dap_store_obj) : gres (gdb key_t D) :=
  '(ok, s) ← check_objs s l a_addr false;
  if ok : bool then '(_, s) ← s_db_set_raw_sync node_addr_from_sign s l; mret s else mret s.

Definition s_process_record s (o : dap_store_obj) : gres (gdb key_t D) :=
  a_addr ← gmem (ext o);
  '(ok, s) ← dap_global_db_ch_check_store_obj s o a_addr;
  if ok : bool then '(_, s) ← s_db_set_raw_sync node_addr_from_sign s [o]; mret s else mret s.

(** A record that comes by gossip becomes a task. *)
Definition s_gossip_payload_callback (a_payload : list Z) (a_payload_size a_sender_addr : Z) : res (list task) :=
  o ← dap_global_db_pkt_deserialize a_payload a_payload_size (Some a_sender_addr);
  mret (match o with Some o => [TRecord o] | None => [] end).

(** [a_valid]: the channel's inner data points back to it.  The answer and the
    tasks that are queued; [a_queue] is the average length of the queues. *)
Definition s_stream_ch_packet_in (a_queue : Z) (a_valid : bool) (a_node a_type : Z) (d : list Z) : res (bool * list task) :=
  if negb a_valid then mret (false, []) else
  let size := Z.of_nat (length d) in
  if (a_type =? MSG_START) || (a_type =? MSG_GROUP_REQUEST) then
    if size <? sizeof_start then mret (false, []) else
    n ← mem (dap_global_db_start_pkt_get_size d);
    if negb (size =? n) then mret (false, []) else mret (true, [TReader a_node a_type d])
  else if (a_type =? MSG_HASHES) || (a_type =? MSG_REQUEST) then
    if size <? sizeof_hash_pkt then mret (false, []) else
    n ← mem (dap_global_db_hash_pkt_get_size d);
    if negb (size =? n) then mret (false, []) else
    if (a_type =? MSG_HASHES) && (DAP_GLOBAL_DB_QUEUE_SIZE_MAX <? a_queue) then mret (true, []) else
    c ← mem (hashes_count d);
    if c =? 0 then mret (true, []) else
    mret (true, [if a_type =? MSG_HASHES then THashes a_node d else TRequest a_node d])
  else if a_type =? MSG_RECORD_PACK then
    if size <? sizeof_pack then mret (false, []) else
    n ← mem (dap_global_db_pkt_pack_get_size d);
    if negb (size =? n) then mret (false, []) else
    l ← dap_global_db_pkt_pack_deserialize d;
    mret (match l with None => (false, []) | Some l => (true, [TRecords a_node l]) end)
  else mret (false, []).

Definition run_task (fuel : nat) s (t : task) : gres (gdb key_t D) :=
  match t with
  | TReader a ty p => reader_run fuel s a ty p
  | THashes a p => s_process_hashes s a p
  | TRequest a p => s_process_request s a p
  | TRecords a l => s_process_records s a l
  | TRecord o => s_process_record s o
  end.

Fixpoint run_tasks (fuel : nat) s (l : list task) : gres (gdb key_t D) :=
  match l with [] => mret s | t :: l => s ← run_task fuel s t; run_tasks fuel s l end.

(** A packet comes in and its tasks are run. *)
Definition receive (fuel : nat) s (a_node a_type : Z) (d : list Z) : gres (gdb key_t D) :=
  '(_, l) ← lift (s_stream_ch_packet_in 0 true a_node a_type d); run_tasks fuel s l.

(** ** The timer of a cluster *)

Inductive sync_state := DAP_GLOBAL_DB_SYNC_STATE_START | DAP_GLOBAL_DB_SYNC_STATE_IDLE.

Record sync_context := SyncContext { state : sync_state; stage_last_activity : Z; current_link : Z }.

(** A start packet for every group that is not empty. *)
Fixpoint send_starts s (a_link : Z) (l : list (list Z)) : gres (gdb key_t D) :=
  match l with
  | [] => mret s
  | g :: l =>
    n ← lift (read_count_store (drv s) g c_dap_global_db_driver_hash_blank true);
    send_starts (if n =? 0 then s
                 else emits s [EvSend a_link MSG_START (start_pkt c_dap_global_db_driver_hash_blank g)]) a_link l
  end.

(** [rnd] chooses the link, [a_time] is [dap_time_now], [a_idle] the time a
    cluster waits between two synchronizations. *)
Definition s_gdb_cluster_sync_timer_callback (rnd a_time a_idle : Z) s (c : gdb_cluster) (x : sync_context)
    : gres (sync_context * gdb key_t D) :=
  match state x with
  | DAP_GLOBAL_DB_SYNC_STATE_START =>
    '(w, l_current_link) ← lock (dap_cluster_get_random_link (cworld s) rnd (links_cluster c));
    let s := set_cworld s w in
    if l_current_link =? 0 then mret (x, s) else
    match get_groups_by_mask (drv s) (groups_mask c) with
    | [] => mret (SyncContext DAP_GLOBAL_DB_SYNC_STATE_IDLE a_time (current_link x), s)
    | l_groups =>
      s ← send_starts (emits s [EvNotifier l_current_link true]) l_current_link l_groups;
      mret (SyncContext DAP_GLOBAL_DB_SYNC_STATE_IDLE a_time l_current_link, s)
    end
  | DAP_GLOBAL_DB_SYNC_STATE_IDLE =>
    if a_idle <? wrap 64 (a_time - stage_last_activity x)
    then mret (SyncContext DAP_GLOBAL_DB_SYNC_STATE_START (stage_last_activity x) 0,
               if current_link x =? 0 then s else emits s [EvNotifier (current_link x) false])
    else mret (x, s)
  end.

(** A request that concerns the cluster renews its activity; masks identify
    clusters. *)
Definition s_ch_in_pkt_callback (a_time : Z) s (c : gdb_cluster) (x : sync_context) (a_type : Z) (d : list Z)
    : gres sync_context :=
  if negb (a_type =? MSG_REQUEST) then mret x else
  l_group ← gmem (text_at d sizeof_hash_pkt);
  match dap_global_db_cluster_by_group s l_group with
  | Some c' => mret (if bool_decide (groups_mask c' = groups_mask c) then SyncContext (state x) a_time (current_link x) else x)
  | None => mret x
  end.
End Channel.
