(* ===== verification/GdbSync.v ===== *)
(** * Synchronizing a group between two nodes

    The handlers of [GdbCh] composed over the drivers and the database core: a
    node that pulls a group from another ends up with the newest record of every
    key of both. *)

From S2P Require Import Prelude Crc64 Cluster GdbPkt GdbDriver GdbMdbx GdbFetch GdbCore GdbAccess GdbCh.
From stdpp Require Import list sets sorting gmap.
Local Open Scope Z_scope.

(** ** Packets and their fields *)

Definition hash_ok (h : list Z) : Prop := length h = 16%nat.

Lemma length_concat_hashes hs : Forall hash_ok hs -> length (concat hs) = (16 * length hs)%nat.
Proof. induction 1 as [|h hs Hh _ IH]; [done|]. cbn [concat length]. rewrite length_app, Hh, IH. lia. Qed.

Lemma text_at_end pre s post off : Forall (λ c, c <> 0) s -> off = Z.of_nat (length pre) ->
  text_at (pre ++ (s ++ [0]) ++ post) off = Some s.
Proof.
  intros Hs ->. unfold text_at. rewrite Nat2Z.id, drop_app_length, <- app_assoc. cbn [app].
  induction Hs as [|c s Hc _ IH]; [done|]. cbn [app c_text]. by rewrite (proj2 (Z.eqb_neq c 0)), IH.
Qed.

Lemma read_hashes_app pre hs post : Forall hash_ok hs ->
  read_hashes_at (pre ++ concat hs ++ post) (Z.of_nat (length pre)) (length hs) = Some hs.
Proof.
  intros Hs. revert pre. induction Hs as [|h hs Hh _ IH]; intros pre; [done|]. cbn [concat length read_hashes_at].
  rewrite <- app_assoc. pose proof (mem_read_app pre h (concat hs ++ post)) as E. rewrite Hh in E.
  change (Z.of_nat 16) with sizeof_hash in E. rewrite E. cbn [mbind option_bind]. specialize (IH (pre ++ h)).
  rewrite <- app_assoc, length_app, Hh, Nat2Z.inj_add in IH. change (Z.of_nat 16) with sizeof_hash in IH. by rewrite IH.
Qed.

Section Packets.
Context (g : list Z).
Hypothesis Hg : Forall (λ c, c <> 0) g.
Hypothesis Hl : (length g < 128)%nat.

Lemma start_pkt_fields h : hash_ok h ->
  let p := start_pkt h g in
  start_last_hash p = Some h /\ dap_global_db_start_pkt_get_size p = Some (Z.of_nat (length p)) /\
  text_at p sizeof_start = Some g /\ mem_read p 0 (Z.of_nat (length p)) = Some p /\ 18 <= Z.of_nat (length p) /\
  forall h', hash_ok h' -> mem_write p 0 h' = Some (start_pkt h' g).
Proof.
  intros Hh p. unfold p, start_pkt, hash_ok in *. split_and!.
  - pose proof (mem_read_app [] h (le_bytes 2 (Z.of_nat (length g) + 1) ++ g ++ [0])) as E. by rewrite Hh in E.
  - unfold dap_global_db_start_pkt_get_size, start_group_len.
    pose proof (mem_le_app h 2 (Z.of_nat (length g) + 1) (g ++ [0])) as E. rewrite Hh in E. change (Z.of_nat 16) with 16 in E.
    rewrite E by (unfold fits; lia). cbn [mbind option_bind]. unfold sizeof_start. rewrite wrap_id by (unfold fits; lia).
    rewrite !length_app, length_le_bytes, Hh. cbn [length]. f_equal. lia.
  - pose proof (text_at_end (h ++ le_bytes 2 (Z.of_nat (length g) + 1)) g [] sizeof_start Hg) as E.
    rewrite app_nil_r, <- app_assoc in E. apply E. by rewrite length_app, length_le_bytes, Hh.
  - by apply mem_read_all.
  - rewrite !length_app, length_le_bytes, Hh. lia.
  - intros h' Hh'. pose proof (mem_write_app [] h h' (le_bytes 2 (Z.of_nat (length g) + 1) ++ g ++ [0])) as E.
    apply E. congruence.
Qed.

Lemma hash_pkt_fields hs : Forall hash_ok hs -> (0 < length hs <= 1024)%nat ->
  let p := hash_pkt g hs in
  hashes_count p = Some (Z.of_nat (length hs)) /\ group_name_len p = Some (Z.of_nat (length g) + 1) /\
  dap_global_db_hash_pkt_get_size p = Some (Z.of_nat (length p)) /\ 6 <= Z.of_nat (length p) /\
  text_at p sizeof_hash_pkt = Some g /\ mem_read p sizeof_hash_pkt (Z.of_nat (length g) + 1) = Some (g ++ [0]) /\
  read_hashes_at p (sizeof_hash_pkt + (Z.of_nat (length g) + 1)) (length hs) = Some hs.
Proof.
  intros Hh Hn p. pose proof (length_concat_hashes hs Hh) as Lc. unfold p, hash_pkt.
  set (n := Z.of_nat (length hs)). set (k := Z.of_nat (length g) + 1).
  assert (Ec : hashes_count (le_bytes 4 n ++ le_bytes 2 k ++ (g ++ [0]) ++ concat hs) = Some n)
    by (apply (mem_le_app [] 4); unfold fits; lia).
  assert (Ek : group_name_len (le_bytes 4 n ++ le_bytes 2 k ++ (g ++ [0]) ++ concat hs) = Some k)
    by (apply (mem_le_app (le_bytes 4 n) 2); unfold fits; lia).
  assert (El : Z.of_nat (length (le_bytes 4 n ++ le_bytes 2 k ++ (g ++ [0]) ++ concat hs)) = 6 + k + n * 16)
    by (rewrite !length_app, !length_le_bytes, Lc; cbn [length]; lia).
  split_and!; [done | done | | lia | | |].
  - unfold dap_global_db_hash_pkt_get_size. rewrite Ec, Ek. cbn [mbind option_bind]. rewrite El.
    rewrite (proj2 (Z.leb_gt _ _)) by (unfold sizeof_hash; change ((2 ^ 32 - 1) / 16) with 268435455; lia). done.
  - pose proof (text_at_end (le_bytes 4 n ++ le_bytes 2 k) g (concat hs) sizeof_hash_pkt Hg eq_refl) as E.
    by rewrite <- app_assoc in E.
  - pose proof (mem_read_app (le_bytes 4 n ++ le_bytes 2 k) (g ++ [0]) (concat hs)) as E. rewrite <- app_assoc in E.
    replace (Z.of_nat (length (g ++ [0]))) with k in E by (rewrite length_app; unfold k; cbn [length]; lia). exact E.
  - pose proof (read_hashes_app (le_bytes 4 n ++ le_bytes 2 k ++ (g ++ [0])) hs [] Hh) as E.
    rewrite app_nil_r, <- !app_assoc in E. rewrite !length_app, !length_le_bytes in E. cbn [length] in E.
    rewrite <- (app_assoc g). replace (sizeof_hash_pkt + k) with (Z.of_nat (4 + (2 + (length g + 1)))) by (unfold sizeof_hash_pkt, k; lia).
    exact E.
Qed.
End Packets.

(** ** The node that has the records *)

(** What a handler does that only sends. *)
Definition says {key_t D} (s : gdb key_t D) (es : list gdb_event) (s' : gdb key_t D) : Prop :=
  drv s' = drv s /\ same_config s s' /\ events s' = events s ++ es.

Lemma says_refl {key_t D} (s : gdb key_t D) : says s [] s.
Proof. split_and!; [done | apply same_config_refl | by rewrite app_nil_r]. Qed.

Lemma says_trans {key_t D} (s1 s2 s3 : gdb key_t D) e1 e2 : says s1 e1 s2 -> says s2 e2 s3 -> says s1 (e1 ++ e2) s3.
Proof.
  intros (E1 & C1 & V1) (E2 & C2 & V2). split_and!; [congruence | by eapply same_config_trans | by rewrite V2, V1, app_assoc].
Qed.

Lemma says_emits {key_t D} (s : gdb key_t D) es : says s es (emits s es).
Proof. split_and!; [done | by destruct s | done]. Qed.

Lemma says_tick {key_t D} (s : gdb key_t D) : says s [] (tick s).
Proof. split_and!; [done | apply same_config_tick | by rewrite app_nil_r]. Qed.

(** The peer is linked in the cluster. *)
Definition linked {key_t D} (s : gdb key_t D) (c : gdb_cluster) (a : Z) : Prop :=
  exists m, dap_cluster_member_find_unsafe (cworld s) (links_cluster c) a = Some (cworld s, Some m) /\
    links_cluster c <> 0 /\ role m <> ROLE_INVALID.

(** No record of the table has expired by the cluster's time to live. *)
Definition unexpired {key_t D} (s : gdb key_t D) (c : gdb_cluster) (t : list dap_store_obj) : Prop :=
  forall o i, o ∈ t -> (ticks s <= i)%nat -> dap_nanotime_from_sec (ttl c) = 0 \/
    clock s i <= wrap 64 (timestamp o + dap_nanotime_from_sec (ttl c)).

Lemma same_config_linked {key_t D} (s s' : gdb key_t D) c a : same_config s s' -> linked s c a -> linked s' c a.
Proof. unfold linked. by intros (_ & -> & _). Qed.

Lemma same_config_unexpired {key_t D} (s s' : gdb key_t D) c t : same_config s s' -> unexpired s c t -> unexpired s' c t.
Proof. intros (_ & _ & E & _ & Hi) H o i Ho Hle. rewrite E. apply H; [done | lia]. Qed.

Lemma same_config_cluster {key_t D} (s s' : gdb key_t D) g : same_config s s' ->
  dap_global_db_cluster_by_group s' g = dap_global_db_cluster_by_group s g.
Proof. unfold dap_global_db_cluster_by_group. by intros (-> & _). Qed.

Lemma linked_role {key_t} `{SignScheme key_t} {D} (s : gdb key_t D) c a : linked s c a ->
  exists r, r <> ROLE_INVALID /\ link_role s c a = inr (r, s).
Proof.
  intros (m & E & H0 & Hr). exists (role m). split; [done|]. unfold link_role, dap_cluster_member_find_role.
  rewrite (proj2 (Z.eqb_neq _ 0)), E by done. cbn [mbind option_bind lock gres_bind mret gres_ret]. by destruct s.
Qed.

Section Provider.
Context {key_t : Type} `{SignScheme key_t} {D : Type} `{Fetching D}.
Context (node_addr_from_sign : list Z -> Z) (enabled : Z -> bool).
Implicit Types (s : gdb key_t D) (o : dap_store_obj) (m : list Z -> list dap_store_obj).
Context (g : list Z) (c : gdb_cluster).
Hypothesis Hg : Forall (λ c, c <> 0) g.
Hypothesis Hl : (length g < 128)%nat.

Definition page_size : nat := Z.to_nat DAP_GLOBAL_DB_COND_READ_KEYS_DEFAULT.

Definition hashes (l : list dap_store_obj) : list (list Z) := dap_global_db_driver_hash_get <$> l.

(** The packets the reader sends for the records [l]. *)
Fixpoint reader_events (fuel : nat) (a ty : Z) (l : list dap_store_obj) : list gdb_event :=
  match fuel with
  | O => []
  | S fuel =>
    match l with
    | [] => if ty =? MSG_GROUP_REQUEST then []
            else [EvSend a MSG_GROUP_REQUEST (start_pkt c_dap_global_db_driver_hash_blank g)]
    | _ =>
      if bool_decide (length l < page_size)%nat then [EvSend a MSG_HASHES (hash_pkt g (hashes l))]
      else EvSend a MSG_HASHES (hash_pkt g (hashes (take page_size l))) :: reader_events fuel a ty (drop page_size l)
    end
  end.

Lemma hash_get_ok o : hash_ok (dap_global_db_driver_hash_get o).
Proof. unfold hash_ok, dap_global_db_driver_hash_get. by rewrite length_hash_bytes. Qed.

Lemma hash_get_time o : stored o -> be_value (take 8 (dap_global_db_driver_hash_get o)) = timestamp o.
Proof.
  intros Ho. unfold dap_global_db_driver_hash_get.
  by destruct (hash_split _ _ (ok_ts _ (st_ok _ Ho)) (ok_crc _ (st_ok _ Ho))) as [-> _].
Qed.

Lemma hash_get_blank o : stored o -> dap_global_db_driver_hash_is_blank (dap_global_db_driver_hash_get o) = false.
Proof.
  intros Ho. unfold dap_global_db_driver_hash_get. rewrite hash_blank by apply (st_ok _ Ho). fold (hval o).
  apply Z.eqb_neq. pose proof (hval_pos o (st_ok _ Ho) (st_crc _ Ho)). lia.
Qed.

Lemma send_some s a h l : hash_ok h -> l <> [] -> Forall stored l ->
  (exists s', send_hashes s a (start_pkt h g) g (hashes l ++ [c_dap_global_db_driver_hash_blank])
     = inr (false, start_pkt c_dap_global_db_driver_hash_blank g, s') /\
     says s [EvSend a MSG_HASHES (hash_pkt g (hashes l))] s') /\
  (exists o s', last l = Some o /\ send_hashes s a (start_pkt h g) g (hashes l)
     = inr (true, start_pkt (dap_global_db_driver_hash_get o) g, s') /\
     says s [EvSend a MSG_HASHES (hash_pkt g (hashes l))] s').
Proof.
  intros Hh Hne Hst. destruct (start_pkt_fields g Hg Hl h Hh) as (_ & _ & _ & _ & _ & Hw). unfold send_hashes. split.
  - rewrite last_snoc. cbn [default id]. unfold set_last_hash, gmem. rewrite Hw by done. cbn [mem lift mbind gres_bind].
    change (dap_global_db_driver_hash_is_blank c_dap_global_db_driver_hash_blank) with true. cbn [negb].
    rewrite removelast_last, bool_decide_false by (by destruct l). eexists. split; [done | apply says_emits].
  - destruct (last l) as [o|] eqn:E; [|by apply last_None in E]. exists o. unfold hashes. rewrite fmap_last, E. cbn [fmap option_fmap option_map default id].
    assert (Ho : stored o) by (apply (proj1 (Forall_forall _ _) Hst); apply last_Some in E as [? ->]; set_solver).
    unfold set_last_hash, gmem. rewrite Hw by apply hash_get_ok. cbn [mem lift mbind gres_bind].
    rewrite hash_get_blank by done. cbn [negb]. rewrite bool_decide_false by (by destruct l).
    eexists. split; [done|]. split; [done | apply says_emits].
Qed.

Lemma nothing_skipped s t l x r : unexpired s c t -> l = dap_global_db_driver_hash_get x :: r -> x ∈ t -> stored x ->
  dap_nanotime_from_sec (ttl c) <> 0 -> skip_expired (dap_nanotime_from_sec (ttl c)) (clock s (ticks s)) l = O.
Proof.
  intros Hu -> Hx Hst Hne. cbn [skip_expired]. rewrite hash_get_time by done.
  destruct (Hu x (ticks s) Hx (le_n _)) as [|Hle]; [done|]. by rewrite (proj2 (Z.ltb_ge _ _)) by lia.
Qed.

Lemma page_nonempty (l : list dap_store_obj) : l <> [] -> take page_size l <> [].
Proof. by destruct l. Qed.

(** One call of the reader at the hash of [(ts, cr)]. *)
Lemma reader_step s m a ty ts cr : rep (drv s) m -> dap_global_db_cluster_by_group s g = Some c -> linked s c a ->
  unexpired s c (m g) -> fits 64 ts -> fits 64 cr ->
  let l := filter (λ o, ts * 2 ^ 64 + cr < hval o) (m g) in
  (l = [] -> exists s', s_proc_thread_reader s a ty (start_pkt (hash_bytes ts cr) g)
     = inr (false, start_pkt (hash_bytes ts cr) g, s') /\ says s (reader_events 1 a ty l) s') /\
  (l <> [] -> (length l < page_size)%nat -> exists p s',
     s_proc_thread_reader s a ty (start_pkt (hash_bytes ts cr) g) = inr (false, p, s') /\
     says s [EvSend a MSG_HASHES (hash_pkt g (hashes l))] s') /\
  (l <> [] -> ~ (length l < page_size)%nat -> exists o s', last (take page_size l) = Some o /\
     s_proc_thread_reader s a ty (start_pkt (hash_bytes ts cr) g)
     = inr (true, start_pkt (dap_global_db_driver_hash_get o) g, s') /\
     says s [EvSend a MSG_HASHES (hash_pkt g (hashes (take page_size l)))] s').
Proof.
  intros Hm Hc Hlk Hu Hts Hcr l. set (h := hash_bytes ts cr). assert (Hh : hash_ok h) by (unfold hash_ok, h; by rewrite length_hash_bytes).
  destruct (start_pkt_fields g Hg Hl h Hh) as (Eh & Esz & Et & Er & _ & Hw). destruct (linked_role s c a Hlk) as (r & Hr & Elr).
  assert (Hst : Forall (λ o, stored o /\ o ∈ m g) l).
  { apply Forall_forall. intros o [_ Ho]%list_elem_of_filter. split; [|done].
    by apply (proj1 (Forall_forall _ _) (tab_stored _ _ (rep_table _ _ g Hm))). }
  assert (Estep : forall l', l' <> [] -> (exists tl, l = l' ++ tl) -> forall e, e = [] \/ e = [c_dap_global_db_driver_hash_blank] ->
    exists s0, says s [] s0 /\
    (let l1 := hashes l' ++ e in let l_ttl := dap_nanotime_from_sec (ttl c) in
     if l_ttl =? 0 then send_hashes s a (start_pkt h g) g l1 else
     let '(l_now, s) := dap_nanotime_now s in let i := skip_expired l_ttl l_now l1 in
     if (i =? length l1)%nat then
       p ← set_last_hash (start_pkt h g) (default c_dap_global_db_driver_hash_blank (last l1)); mret (true, p, s)
     else send_hashes s a (start_pkt h g) g (drop i l1)) = send_hashes s0 a (start_pkt h g) g (hashes l' ++ e)).
  { intros l' Hne [tl Etl] e He. cbn zeta. destruct (Z.eqb_spec (dap_nanotime_from_sec (ttl c)) 0) as [|Hz].
    { exists s. split; [apply says_refl | done]. }
    exists (tick s). split; [apply says_tick|]. cbn [dap_nanotime_now]. destruct l' as [|x l']; [done|].
    rewrite Etl in Hst. apply Forall_cons in Hst as [[Hsx Hx] _]. unfold hashes. rewrite fmap_cons. cbn [app].
    rewrite (nothing_skipped s (m g) _ x _ Hu eq_refl Hx Hsx Hz). done. }
  unfold s_proc_thread_reader, gmem. rewrite Et. cbn [mem lift mbind gres_bind]. rewrite Hc, Elr. cbn [mbind gres_bind].
  rewrite (proj2 (Z.eqb_neq r ROLE_INVALID)), Eh by done. cbn [mem lift mbind gres_bind].
  unfold h. rewrite (read_hashes_spec _ _ _ _ _ Hm) by done. fold l page_size h. cbn [lift mbind gres_bind]. split_and!.
  - intros ->. cbn [to_page bool_decide fmap list_fmap reader_events]. rewrite bool_decide_true by done.
    destruct (ty =? MSG_GROUP_REQUEST); [exists s; split; [done | apply says_refl]|].
    unfold set_last_hash, gmem. rewrite Hw by done. cbn [mem lift mbind gres_bind].
    destruct (start_pkt_fields g Hg Hl c_dap_global_db_driver_hash_blank eq_refl) as (_ & -> & _ & Er' & _).
    cbn [mem lift mbind gres_bind]. rewrite Er'. cbn [mem lift mbind gres_bind]. eexists. split; [done | apply says_emits].
  - intros Hne Hlt. fold (hashes l). replace (to_page page_size (hashes l)) with (Some (Page (hashes l) true)); cycle 1.
    { unfold to_page. destruct (hashes l) as [|x r0] eqn:El; [by destruct l|]. rewrite <- El. unfold hashes in *. rewrite length_fmap.
      rewrite bool_decide_true by done. by rewrite take_ge by (rewrite length_fmap; lia). }
    cbn [items last_page]. rewrite bool_decide_false by (by destruct l).
    destruct (Estep l Hne (ex_intro _ [] (eq_sym (app_nil_r l))) [c_dap_global_db_driver_hash_blank] (or_intror eq_refl)) as (s0 & Hs0 & E0).
    cbn zeta in E0 |- *. rewrite E0.
    destruct (send_some s0 a h l Hh Hne) as [(s' & -> & Hs') _]; [eapply Forall_impl; [exact Hst | by intros ? []]|].
    eexists _, s'. split; [done|]. apply (says_trans s s0 s' [] _ Hs0 Hs').
  - intros Hne Hge. fold (hashes l). replace (to_page page_size (hashes l)) with (Some (Page (hashes (take page_size l)) false)); cycle 1.
    { unfold to_page. destruct (hashes l) as [|x r0] eqn:El; [by destruct l|]. rewrite <- El. unfold hashes in *. rewrite length_fmap.
      rewrite bool_decide_false by done. by rewrite fmap_take. }
    cbn [items last_page]. rewrite app_nil_r. pose proof (page_nonempty l Hne) as Hp.
    rewrite bool_decide_false by (intros E; apply fmap_nil_inv in E; done).
    destruct (Estep (take page_size l) Hp (ex_intro _ (drop page_size l) (eq_sym (take_drop _ l))) [] (or_introl eq_refl)) as (s0 & Hs0 & E0).
    cbn zeta in E0 |- *. rewrite app_nil_r in E0. rewrite E0.
    destruct (send_some s0 a h (take page_size l) Hh Hp) as [_ (o & s' & Eo & -> & Hs')];
      [apply Forall_take; eapply Forall_impl; [exact Hst | by intros ? []]|].
    exists o, s'. split_and!; [done | done|]. apply (says_trans s s0 s' [] _ Hs0 Hs').
Qed.

Lemma reader_runs fuel : forall s m a ty ts cr, rep (drv s) m -> dap_global_db_cluster_by_group s g = Some c -> linked s c a ->
  unexpired s c (m g) -> fits 64 ts -> fits 64 cr ->
  let l := filter (λ o, ts * 2 ^ 64 + cr < hval o) (m g) in (length l < fuel)%nat ->
  exists s', reader_run fuel s a ty (start_pkt (hash_bytes ts cr) g) = inr s' /\ says s (reader_events fuel a ty l) s'.
Proof.
  induction fuel as [|fuel IH]; intros s m a ty ts cr Hm Hc Hlk Hu Hts Hcr l Hlen; [lia|]. cbn [reader_run].
  destruct (reader_step s m a ty ts cr Hm Hc Hlk Hu Hts Hcr) as (Hnone & Hfew & Hmany). fold l in Hnone, Hfew, Hmany.
  destruct (decide (l = [])) as [El|Hne].
  { destruct (Hnone El) as (s' & -> & Hs'). exists s'. split; [done|]. rewrite El in Hs' |- *. exact Hs'. }
  cbn [reader_events]. destruct l as [|x l'] eqn:El; [done|]. rewrite <- El in *. destruct (decide (length l < page_size)%nat) as [Hlt|Hge].
  { rewrite bool_decide_true by done. destruct (Hfew Hne Hlt) as (p & s' & -> & Hs'). by exists s'. }
  rewrite bool_decide_false by done. destruct (Hmany Hne Hge) as (o & s1 & Elast & -> & Hs1). cbn [mbind gres_bind].
  assert (Ho : o ∈ l).
  { apply last_Some in Elast as [j Ej]. rewrite <- (take_drop page_size l), Ej, !elem_of_app. left. right.
    by apply list_elem_of_singleton. }
  pose proof Ho as [Hv Hin]%list_elem_of_filter.
  destruct (proj1 (Forall_forall _ _) (tab_stored _ _ (rep_table _ _ g Hm)) o Hin) as [Hst _].
  pose proof (after_page (m g) _ page_size o (tab_sorted _ _ (rep_table _ _ g Hm)) Hv Elast) as Edrop. fold l in Edrop.
  pose proof Hs1 as (Ed & Hcfg & _).
  destruct (IH s1 m a ty (timestamp o) (crc o)) as (s2 & E2 & Hs2).
  - by rewrite Ed.
  - by rewrite (same_config_cluster s).
  - by eapply same_config_linked.
  - by eapply same_config_unexpired.
  - apply (ok_ts _ (st_ok _ Hst)).
  - apply (ok_crc _ (st_ok _ Hst)).
  - fold (hval o). rewrite Edrop, length_drop. change page_size with (S 511). rewrite El in *. cbn [length] in *. lia.
  - fold (hval o) in Hs2. rewrite Edrop in Hs2. exists s2. split; [exact E2|]. by eapply (says_trans s s1 s2 [_]).
Qed.

End Provider.

(** The pages of hashes. *)
Fixpoint chunks (fuel : nat) (l : list dap_store_obj) : list (list dap_store_obj) :=
  match fuel with
  | O => []
  | S fuel =>
    match l with
    | [] => []
    | _ => if bool_decide (length l < page_size)%nat then [l] else take page_size l :: chunks fuel (drop page_size l)
    end
  end.

Lemma chunks_concat fuel l : (length l < fuel)%nat -> concat (chunks fuel l) = l.
Proof.
  revert l. induction fuel as [|fuel IH]; intros l Hlen; [lia|]. cbn [chunks]. destruct l as [|x r]; [done|].
  destruct (bool_decide _); cbn [concat]; [by rewrite app_nil_r|]. rewrite IH; [apply take_drop|].
  rewrite length_drop. change page_size with (S 511). cbn [length] in *. lia.
Qed.

Lemma chunks_sizes fuel l : Forall (λ p, p <> [] /\ (length p <= 512)%nat) (chunks fuel l).
Proof.
  revert l. induction fuel as [|fuel IH]; intros l; [constructor|]. cbn [chunks]. destruct l as [|x r]; [constructor|].
  destruct (decide (length (x :: r) < page_size)%nat) as [Hlt|Hge].
  - rewrite bool_decide_true by done. constructor; [|constructor]. split; [done|]. change page_size with 512%nat in Hlt. lia.
  - rewrite bool_decide_false by done. constructor; [|done]. split; [by apply page_nonempty|]. rewrite length_take.
    change page_size with 512%nat. lia.
Qed.
(** ** Messages *)

(** The packets of a type sent to a node. *)
Definition sent_to (a ty : Z) (es : list gdb_event) : list (list Z) :=
  omap (λ e, match e with EvSend b t d => if (b =? a) && (t =? ty) then Some d else None | _ => None end) es.

Lemma sent_app a ty es es' : sent_to a ty (es ++ es') = sent_to a ty es ++ sent_to a ty es'.
Proof. apply omap_app. Qed.

Lemma sent_reader g a ty fuel l :
  sent_to a MSG_HASHES (reader_events g fuel a ty l) = (λ p, hash_pkt g (hashes p)) <$> chunks fuel l.
Proof.
  revert l. induction fuel as [|fuel IH]; intros l; [done|]. cbn [reader_events chunks]. destruct l as [|x r].
  - destruct (ty =? _); [done|]. unfold sent_to. cbn [omap list_omap]. by rewrite andb_false_r.
  - destruct (bool_decide _); unfold sent_to in *; cbn [omap list_omap]; rewrite Z.eqb_refl; cbn [andb Z.eqb Pos.eqb];
      [done|]. rewrite fmap_cons. f_equal. apply IH.
Qed.

(** ** The node that asks *)

Section Receiver.
Context {key_t : Type} `{SignScheme key_t} {D : Type} `{Reliable D} `{!Direct D}.
Context (node_addr_from_sign : list Z -> Z) (enabled : Z -> bool).
Implicit Types (s : gdb key_t D) (o : dap_store_obj) (m : list Z -> list dap_store_obj).
Context (g : list Z) (c : gdb_cluster).
Hypothesis Hg : Forall (λ c, c <> 0) g.
Hypothesis Hl : (length g < 128)%nat.

Definition known (t : list dap_store_obj) o : bool := existsb (λ x, hval x =? hval o) t.
Definition unknown (t l : list dap_store_obj) : list dap_store_obj := filter (λ o, negb (known t o)) l.

Lemma filter_hashes s m l : rep (drv s) m -> Forall stored l ->
  unknown_hashes (drv s) g (hashes l) = inr (hashes (unknown (m g) l)).
Proof.
  intros Hm Hst. unfold hashes, unknown. induction Hst as [|o l Ho _ IH]; [done|].
  assert (Eo : is_hash (drv s) g (dap_global_db_driver_hash_get o) = inr (known (m g) o))
    by (apply (is_hash_spec _ _ _ _ _ Hm); apply (st_ok _ Ho)).
  rewrite fmap_cons, filter_cons. cbn [unknown_hashes]. rewrite Eo.
  cbn [mbind res_bind]. rewrite IH. cbn [mbind res_bind].
  destruct (known (m g) o); cbn [negb]; [by rewrite decide_False by (by intros [])|]. by rewrite decide_True by done.
Qed.

Lemma hashes_ok l : Forall hash_ok (hashes l).
Proof. apply Forall_forall. intros h (o & -> & _)%list_elem_of_fmap. apply hash_get_ok. Qed.

(** What is asked for after a page of hashes. *)
Definition request_for (b : Z) (l : list dap_store_obj) : list gdb_event :=
  if bool_decide (l = []) then [] else [EvSend b MSG_REQUEST (hash_pkt g (hashes l))].

(** A packet of hashes passes the checks of the channel. *)
Lemma packet_in_hashes b ty l : ty = MSG_HASHES \/ ty = MSG_REQUEST -> l <> [] -> (length l <= 1024)%nat ->
  s_stream_ch_packet_in 0 true b ty (hash_pkt g (hashes l))
  = inr (true, [if ty =? MSG_HASHES then THashes b (hash_pkt g (hashes l)) else TRequest b (hash_pkt g (hashes l))]).
Proof.
  intros Hty Hne Hle. destruct (hash_pkt_fields g Hg Hl (hashes l) (hashes_ok l)) as (Ec & _ & Esz & Hsz & _).
  { unfold hashes. rewrite length_fmap. destruct l; [done | cbn in *; lia]. }
  unfold s_stream_ch_packet_in. cbn [negb].
  replace ((ty =? MSG_START) || (ty =? MSG_GROUP_REQUEST)) with false by (by destruct Hty as [->| ->]).
  replace ((ty =? MSG_HASHES) || (ty =? MSG_REQUEST)) with true by (by destruct Hty as [->| ->]).
  rewrite (proj2 (Z.ltb_ge _ sizeof_hash_pkt)), Esz by (unfold sizeof_hash_pkt; lia). cbn [mem mbind res_bind].
  rewrite Z.eqb_refl, andb_false_r, Ec. cbn [negb mem mbind res_bind]. unfold hashes. rewrite length_fmap.
  by rewrite (proj2 (Z.eqb_neq _ 0)) by (destruct l; cbn; [done | lia]).
Qed.

Lemma hashes_received fuel s m b l : rep (drv s) m -> dap_global_db_cluster_by_group s g = Some c ->
  Forall stored l -> l <> [] -> (length l <= 1024)%nat ->
  exists s', receive node_addr_from_sign enabled fuel s b MSG_HASHES (hash_pkt g (hashes l)) = inr s' /\
    says s (request_for b (unknown (m g) l)) s'.
Proof.
  intros Hm Hc Hst Hne Hle. unfold receive. rewrite packet_in_hashes by auto.
  change (MSG_HASHES =? MSG_HASHES) with true. cbn [lift mbind gres_bind run_tasks run_task].
  destruct (hash_pkt_fields g Hg Hl (hashes l) (hashes_ok l)) as (Ec & Ek & _ & _ & Et & En & Eh).
  { unfold hashes. rewrite length_fmap. destruct l; [done | cbn in *; lia]. }
  unfold s_process_hashes, gmem. rewrite Et. cbn [mem lift mbind gres_bind]. rewrite Hc, Ec, Ek. cbn [mem lift mbind gres_bind].
  rewrite Nat2Z.id, Eh. cbn [mem lift mbind gres_bind]. rewrite (filter_hashes s m l Hm Hst). cbn [lift mbind gres_bind]. unfold request_for.
  destruct (decide (unknown (m g) l = [])) as [->|Hu].
  { rewrite !bool_decide_true by done. exists s. split; [done | apply says_refl]. }
  rewrite !bool_decide_false by (done || by destruct (unknown (m g) l)). rewrite En. cbn [mem lift mbind gres_bind mret gres_ret].
  eexists. split; [done | apply says_emits].
Qed.

(** The records of a pack pass the check. *)
Definition trusted s o : Prop :=
  group o = g /\ received node_addr_from_sign s o /\ dap_global_db_pkt_check_sign_crc o = inr true.

Lemma check_trusted s b l ok : dap_global_db_cluster_by_group s g = Some c -> linked s c b -> b <> 0 ->
  Forall (trusted s) l -> check_objs enabled s l b ok = inr (match l with [] => ok | _ => true end, s).
Proof.
  intros Hc (mb & Emb & _ & _) Hb Hl'. revert ok. induction Hl' as [|o l (Eg & _ & Eo) _ IH]; intros ok; [done|]. cbn [check_objs].
  unfold dap_global_db_ch_check_store_obj. rewrite Eo. cbn [lift mbind gres_bind negb]. rewrite Eg, Hc.
  rewrite (proj2 (Z.eqb_neq b 0)) by done. cbn [mret gres_ret mbind gres_bind]. rewrite Emb. cbn [lock mbind gres_bind].
  rewrite bool_decide_true by done. cbn [negb mret gres_ret mbind gres_bind].
  replace (set_cworld s (cworld s)) with s by (by destruct s). rewrite IH. by destruct l.
Qed.

Lemma pack_received fuel s m b p os : rep (drv s) m -> no_pins m -> dap_global_db_cluster_by_group s g = Some c ->
  linked s c b -> b <> 0 -> Forall (trusted s) os -> os <> [] ->
  dap_global_db_pkt_pack_get_size p = Some (Z.of_nat (length p)) -> 12 <= Z.of_nat (length p) ->
  dap_global_db_pkt_pack_deserialize p = inr (Some os) ->
  exists s', receive node_addr_from_sign enabled fuel s b MSG_RECORD_PACK p = inr s' /\
    rep (drv s') (foldl merge1 m os) /\ same_config s s'.
Proof.
  intros Hm Hnp Hc Hlk Hb Hos Hne Esz Hsz Ed. unfold receive, s_stream_ch_packet_in.
  unfold MSG_RECORD_PACK, MSG_START, MSG_GROUP_REQUEST, MSG_HASHES, MSG_REQUEST. cbn [negb Z.eqb Pos.eqb orb].
  rewrite (proj2 (Z.ltb_ge _ sizeof_pack)), Esz by (unfold sizeof_pack; lia). cbn [mem mbind res_bind].
  rewrite Z.eqb_refl. cbn [negb]. rewrite Ed. cbn [mbind res_bind mret res_ret lift gres_bind run_tasks run_task].
  unfold s_process_records. rewrite check_trusted by done. destruct os as [|o os]; [done|]. cbn [mbind gres_bind].
  destruct (set_raw_sync_received node_addr_from_sign s m (o :: os) Hm Hnp) as (rc & s' & -> & Hr & Hcfg).
  { eapply Forall_impl; [exact Hos|]. by intros x (_ & Hx & _). }
  exists s'. done.
Qed.
End Receiver.

(** ** One node pulls a group from another *)

Definition news {key_t D} (s s' : gdb key_t D) : list gdb_event := drop (length (events s)) (events s').

Lemma says_news {key_t D} (s s' : gdb key_t D) es : says s es s' -> news s s' = es.
Proof. intros (_ & _ & E). unfold news. by rewrite E, drop_app_length. Qed.

Section Pull.
Context {key_t : Type} `{SignScheme key_t} {DA DB : Type}.
Context (node_addr_from_sign : list Z -> Z) (enabled : Z -> bool).

(** The packets of one type arrive in the order they were sent. *)
Fixpoint deliver {D} `{Driver D} (fuel : nat) (s : gdb key_t D) (a_node ty : Z) (l : list (list Z)) : gres (gdb key_t D) :=
  match l with
  | [] => mret s
  | d :: l => s ← receive node_addr_from_sign enabled fuel s a_node ty d; deliver fuel s a_node ty l
  end.

(** [A] (with the address [a]) sends [B] a start packet or a group request; the
    hashes, the requests and the records follow. *)
Definition pull `{Driver DA, Driver DB} (fuel : nat) (A : gdb key_t DA) (B : gdb key_t DB) (a b ty : Z) (g : list Z)
    : gres (gdb key_t DA * gdb key_t DB) :=
  B1 ← receive node_addr_from_sign enabled fuel B a ty (start_pkt c_dap_global_db_driver_hash_blank g);
  A1 ← deliver fuel A b MSG_HASHES (sent_to a MSG_HASHES (news B B1));
  B2 ← deliver fuel B1 a MSG_REQUEST (sent_to b MSG_REQUEST (news A A1));
  A2 ← deliver fuel A1 b MSG_RECORD_PACK (sent_to a MSG_RECORD_PACK (news B1 B2));
  mret (A2, B2).
End Pull.

Lemma no_pins_foldl l : forall m, (forall g, table_ok g (m g)) ->
  Forall (λ o, stored (norm o) /\ has_flag (flags o) DAP_GLOBAL_DB_RECORD_PINNED = false) l -> no_pins m -> no_pins (foldl merge1 m l).
Proof.
  induction l as [|o l IH]; intros m Ht Hl Hnp; [done|]. apply Forall_cons in Hl as [[Ho Hp] Hl]. cbn [foldl].
  apply IH; [intros g; by apply merge1_table | done|].
  intros g x [Hx|[-> _]]%merge1_elem; [by apply (Hnp g) | by rewrite norm_pinned | apply Ht].
Qed.

Lemma trusted_config `{SignScheme key_t} `{Reliable D} node_addr g (s s' : gdb key_t D) o :
  same_config s s' -> trusted node_addr g s o -> trusted node_addr g s' o.
Proof.
  intros Hc (Eg & [[c Ha] Hf] & Eo). split_and!; [done | | done]. split; [|done]. exists c. by eapply acceptable_config.
Qed.

Section Phases.
Context {key_t : Type} `{SignScheme key_t} {DA : Type} `{Reliable DA} `{!Direct DA}.
Context (node_addr_from_sign : list Z -> Z) (enabled : Z -> bool).
Context (g : list Z).
Hypothesis Hg : Forall (λ c, c <> 0) g.
Hypothesis Hl : (length g < 128)%nat.

Lemma hashes_phase fuel c b (pgs : list (list dap_store_obj)) : forall (s : gdb key_t DA) m, rep (drv s) m ->
  dap_global_db_cluster_by_group s g = Some c ->
  Forall (λ p, p <> [] /\ (length p <= 512)%nat /\ Forall stored p) pgs ->
  exists s', deliver node_addr_from_sign enabled fuel s b MSG_HASHES ((λ p, hash_pkt g (hashes p)) <$> pgs) = inr s' /\
    says s (concat ((λ p, request_for g b (unknown (m g) p)) <$> pgs)) s'.
Proof.
  induction pgs as [|p pgs IH]; intros s m Hm Hc Hp; [exists s; split; [done | apply says_refl]|].
  apply Forall_cons in Hp as [(Hne & Hle & Hst) Hp]. rewrite !fmap_cons. cbn [deliver concat].
  destruct (hashes_received node_addr_from_sign enabled g c Hg Hl fuel s m b p) as (s1 & -> & Hs1); [done | done | done | done | lia|].
  cbn [mbind gres_bind]. pose proof Hs1 as (Ed & Hcfg & _).
  destruct (IH s1 m) as (s2 & -> & Hs2); [by rewrite Ed | by rewrite (same_config_cluster s) | done|].
  exists s2. split; [done | by eapply says_trans].
Qed.

Lemma sent_requests b (ls : list (list dap_store_obj)) :
  sent_to b MSG_REQUEST (concat (request_for g b <$> ls)) = (λ p, hash_pkt g (hashes p)) <$> filter (.≠ []) ls.
Proof.
  induction ls as [|l ls IH]; [done|]. rewrite fmap_cons. cbn [concat]. rewrite sent_app, IH. unfold request_for.
  rewrite filter_cons. case_bool_decide as El; [by rewrite decide_False by (by intros [])|]. rewrite decide_True by done.
  rewrite fmap_cons. unfold sent_to. cbn [omap list_omap]. rewrite Z.eqb_refl. done.
Qed.

(** A pack that holds the records [os]. *)
Definition packs (p : list Z) (os : list dap_store_obj) : Prop :=
  dap_global_db_pkt_pack_get_size p = Some (Z.of_nat (length p)) /\
  dap_global_db_pkt_pack_deserialize p = inr (Some (map (λ o, parsed o None) os)).

Lemma packs_length p os : packs p os -> 12 <= Z.of_nat (length p).
Proof.
  intros [_ E]. unfold dap_global_db_pkt_pack_deserialize in E. destruct (pack_data_size p) as [d|]; [|discriminate E].
  cbn [mem mbind res_bind] in E. destruct (d <? sizeof_pkt); [discriminate E|].
  destruct (pack_obj_count p) as [n|] eqn:En; [|discriminate E]. unfold pack_obj_count, mem_le in En.
  destruct (mem_read p 8 (Z.of_nat 4)) as [x|] eqn:Ex; [|discriminate En]. apply mem_read_bound in Ex. lia.
Qed.

Lemma records_phase fuel c b ps oss : forall (s : gdb key_t DA) m, Forall2 packs ps oss -> rep (drv s) m -> no_pins m ->
  dap_global_db_cluster_by_group s g = Some c -> linked s c b -> b <> 0 -> Forall (.≠ []) oss ->
  Forall (Forall (λ o, trusted node_addr_from_sign g s (parsed o None))) oss ->
  exists s', deliver node_addr_from_sign enabled fuel s b MSG_RECORD_PACK ps = inr s' /\
    rep (drv s') (foldl merge1 m (map (λ o, parsed o None) (concat oss))) /\ same_config s s'.
Proof.
  intros s m Hps. revert s m. induction Hps as [|p os ps oss Hpk Hps IH]; intros s m Hm Hnp Hc Hlk Hb Hne Htr.
  { exists s. split_and!; [done | done | apply same_config_refl]. }
  apply Forall_cons in Hne as [Hne Hnes]. apply Forall_cons in Htr as [Htr Htrs]. cbn [deliver concat].
  pose proof Hpk as [Esz Ed].
  destruct (pack_received node_addr_from_sign enabled g c Hl fuel s m b p (map (λ o, parsed o None) os)) as (s1 & -> & Hm1 & Hc1);
    [done | done | done | done | done | | by destruct os | done | by eapply packs_length | done |].
  { apply Forall_map. exact Htr. }
  cbn [mbind gres_bind]. rewrite map_app, foldl_app. destruct (IH s1 (foldl merge1 m (map (λ o, parsed o None) os))) as (s2 & -> & Hm2 & Hc2).
  - done.
  - apply no_pins_foldl; [intros g'; by apply (rep_table (drv s)) | | done]. apply Forall_map. eapply Forall_impl; [exact Htr|].
    intros o (_ & [[c' Ha] [_ Hp]] & _). split; [apply Ha | done].
  - by rewrite (same_config_cluster s).
  - by eapply same_config_linked.
  - done.
  - done.
  - eapply Forall_impl; [exact Htrs|]. intros l Hl'. eapply Forall_impl; [exact Hl'|]. intros o. by apply trusted_config.
  - exists s2. split_and!; [done | done | by eapply same_config_trans].
Qed.
End Phases.

Section Requests.
Context {key_t : Type} `{SignScheme key_t} {DB : Type} `{Fetching DB}.
Context (node_addr_from_sign : list Z -> Z) (enabled : Z -> bool).
Context (g : list Z).
Hypothesis Hg : Forall (λ c, c <> 0) g.
Hypothesis Hl : (length g < 128)%nat.

Lemma request_received fuel (s : gdb key_t DB) m c a os : rep (drv s) m -> dap_global_db_cluster_by_group s g = Some c ->
  linked s c a -> Forall (λ o, o ∈ m g /\ sendable o) os -> os <> [] -> (length os <= 1024)%nat ->
  exists p s', receive node_addr_from_sign enabled fuel s a MSG_REQUEST (hash_pkt g (hashes os)) = inr s' /\
    says s [EvSend a MSG_RECORD_PACK p] s' /\ packs p os.
Proof.
  intros Hm Hc Hlk Hos Hne Hle. assert (Hn : (0 < length os <= 1024)%nat) by (destruct os; [done | cbn in *; lia]).
  unfold receive. rewrite packet_in_hashes by auto. change (MSG_REQUEST =? MSG_HASHES) with false.
  cbn [lift mbind gres_bind run_tasks run_task].
  destruct (hash_pkt_fields g Hg Hl (hashes os) (hashes_ok os)) as (Ec & Ek & _ & _ & Et & _ & Eh); [by unfold hashes; rewrite length_fmap|].
  destruct (linked_role s c a Hlk) as (r & Hr & Elr).
  unfold s_process_request, gmem. rewrite Et. cbn [mem lift mbind gres_bind]. rewrite Hc, Elr. cbn [mbind gres_bind].
  rewrite (proj2 (Z.eqb_neq r ROLE_INVALID)), Ec, Ek by done. cbn [mem lift mbind gres_bind].
  rewrite Nat2Z.id, Eh. cbn [mem lift mbind gres_bind].
  destruct (fetch_spec (drv s) m g os Hm Hos Hn) as (p & Ep & Esz & Ed). unfold hashes. rewrite Ep. cbn [lift mbind gres_bind].
  rewrite Esz. cbn [mem lift mbind gres_bind]. rewrite mem_read_all by done. cbn [mem lift mbind gres_bind mret gres_ret].
  eexists p, _. split; [done|]. split; [apply says_emits | done].
Qed.

Lemma requests_phase fuel c a oss : forall (s : gdb key_t DB) m, rep (drv s) m -> dap_global_db_cluster_by_group s g = Some c ->
  linked s c a -> Forall (λ os, os <> [] /\ (length os <= 1024)%nat /\ Forall (λ o, o ∈ m g /\ sendable o) os) oss ->
  exists ps s', deliver node_addr_from_sign enabled fuel s a MSG_REQUEST ((λ p, hash_pkt g (hashes p)) <$> oss) = inr s' /\
    says s (EvSend a MSG_RECORD_PACK <$> ps) s' /\ Forall2 packs ps oss.
Proof.
  induction oss as [|os oss IH]; intros s m Hm Hc Hlk Hos.
  { exists [], s. split_and!; [done | apply says_refl | constructor]. }
  apply Forall_cons in Hos as [(Hne & Hle & Ho) Hos]. rewrite fmap_cons. cbn [deliver].
  destruct (request_received fuel s m c a os Hm Hc Hlk Ho Hne Hle) as (p & s1 & -> & Hs1 & Hp). cbn [mbind gres_bind].
  pose proof Hs1 as (Ed & Hcfg & _).
  destruct (IH s1 m) as (ps & s2 & -> & Hs2 & Hps);
    [by rewrite Ed | by rewrite (same_config_cluster s) | by eapply same_config_linked | done|].
  exists (p :: ps), s2. split; [done|]. rewrite fmap_cons. split; [by eapply (says_trans _ _ _ [_]) | by constructor].
Qed.

Lemma start_received fuel (s : gdb key_t DB) m c a ty : rep (drv s) m -> dap_global_db_cluster_by_group s g = Some c ->
  linked s c a -> unexpired s c (m g) -> ty = MSG_START \/ ty = MSG_GROUP_REQUEST -> (length (m g) < fuel)%nat ->
  exists s', receive node_addr_from_sign enabled fuel s a ty (start_pkt c_dap_global_db_driver_hash_blank g) = inr s' /\
    says s (reader_events g fuel a ty (m g)) s'.
Proof.
  intros Hm Hc Hlk Hu Hty Hf. change c_dap_global_db_driver_hash_blank with (hash_bytes 0 0).
  destruct (start_pkt_fields g Hg Hl (hash_bytes 0 0) eq_refl) as (_ & Esz & _ & _ & Hsz & _).
  pose proof (all_after_blank s m g true Hm) as Eall. rewrite holes_true in Eall.
  destruct (reader_runs node_addr_from_sign enabled g c Hg Hl fuel s m a ty 0 0 Hm Hc Hlk Hu) as (s' & E & Hs'); [done | done | by rewrite Eall|].
  rewrite Eall in Hs'. exists s'. split; [|done]. unfold receive, s_stream_ch_packet_in. cbn [negb].
  replace ((ty =? MSG_START) || (ty =? MSG_GROUP_REQUEST)) with true by (by destruct Hty as [->| ->]).
  rewrite (proj2 (Z.ltb_ge _ sizeof_start)), Esz by (unfold sizeof_start; lia). cbn [mem mbind res_bind].
  rewrite Z.eqb_refl. cbn [negb mret res_ret lift mbind gres_bind run_tasks run_task]. by rewrite E.
Qed.
End Requests.

(** ** The result of a pull *)

Definition newest (x y : option dap_store_obj) : option dap_store_obj :=
  match x, y with
  | Some a, Some b => Some (if hval a <? hval b then b else a)
  | Some a, None => Some a
  | None, y => y
  end.

(** The flags of a record that is kept: deleted or not. *)
Definition plain (o : dap_store_obj) : Prop := flags o = 0 \/ flags o = 1.

Lemma norm_parsed o : stored o -> plain o -> norm (parsed o None) = o.
Proof. intros Ho Hp. pose proof (st_ext _ Ho) as Ee. destruct o. cbn in Ee. by destruct Hp as [E|E]; cbn in E; subst. Qed.

(** No two records of the two tables share a hash. *)
Definition no_collisions (t u : list dap_store_obj) : Prop := forall x y, x ∈ t -> y ∈ u -> hval x = hval y -> x = y.

Section Merged.
Context (m : list Z -> list dap_store_obj) (g : list Z) (u : list dap_store_obj).
Hypothesis Hm : forall g, table_ok g (m g).
Hypothesis Hu : table_ok g u.
Hypothesis Hplain : Forall plain u.
Hypothesis Hno : no_collisions (m g) u.

Definition pulled : list dap_store_obj := map (λ o, parsed o None) (unknown (m g) u).

Definition either (x : dap_store_obj) : Prop := x ∈ m (group x) \/ (group x = g /\ x ∈ u).

Lemma either_free : collision_free either.
Proof.
  intros x y [Hx|[Ex Hx]] [Hy|[Ey Hy]] Eg Eh.
  - rewrite <- Eg in Hy. by apply (sorted_inj (m (group x))); [apply Hm|..].
  - apply Hno; [|done..]. by rewrite <- Ey, <- Eg.
  - symmetry. apply Hno; [|done..]. by rewrite <- Ex, Eg.
  - by apply (sorted_inj u); [apply Hu|..].
Qed.

Lemma in_u o : o ∈ u -> stored o /\ group o = g /\ norm (parsed o None) = o.
Proof.
  intros Ho. destruct (proj1 (Forall_forall _ _) (tab_stored _ _ Hu) o Ho) as [Hs Eg].
  split_and!; [done..|]. by apply norm_parsed, (proj1 (Forall_forall _ _) Hplain).
Qed.

Lemma pulled_ok : Forall (λ o, stored (norm o) /\ either (norm o)) pulled.
Proof.
  apply Forall_map, Forall_forall. intros o [_ Ho]%list_elem_of_filter. destruct (in_u o Ho) as (Hs & Eg & ->). split; [done | by right].
Qed.

Lemma pulled_candidate g' k y : candidate m pulled g' k y <->
  find_key k (m g') = Some y \/ (g' = g /\ find_key k u = Some y /\ known (m g) y = false).
Proof.
  unfold candidate. split; (intros [E|E]; [by left | right]).
  - destruct E as (o & (x & -> & [Hk Hx]%list_elem_of_filter)%list_elem_of_fmap & Eg & Ek & ->).
    destruct (in_u x Hx) as (Hs & Ex & ->). cbn in Eg, Ek. split; [congruence|].
    split; [by apply find_key_elem; [apply Hu|]|]. by destruct (known (m g) x).
  - destruct E as (-> & [Hy Ek]%find_key_elem & Hkn); [|apply Hu]. destruct (in_u y Hy) as (Hs & Ey & En).
    exists (parsed y None). split_and!; [|done..]. apply list_elem_of_fmap. exists y. split; [done|].
    apply list_elem_of_filter. split; [by rewrite Hkn | done].
Qed.

Lemma known_same x y k : find_key k u = Some y -> known (m g) y = true -> find_key k (m g) = Some x -> x = y.
Proof.
  intros Ey Hk Ex. apply existsb_exists in Hk as (z & Hz%list_elem_of_In & E%Z.eqb_eq).
  apply find_key_elem in Ey as [Hy Ky]; [|apply Hu]. assert (z = y) as -> by by apply Hno.
  assert (find_key k (m g) = Some y) by (apply find_key_elem; [apply Hm | done]). congruence.
Qed.

Lemma merged_key g' k : find_key k (foldl merge1 m pulled g')
  = if decide (g' = g) then newest (find_key k (m g)) (find_key k u) else find_key k (m g').
Proof.
  assert (W : within either m).
  { intros h. split; [done|]. apply Forall_forall. intros x Hx. left.
    by destruct (proj1 (Forall_forall _ _) (tab_stored _ _ (Hm h)) x Hx) as [_ ->]. }
  set (P y := find_key k (m g') = Some y \/ (g' = g /\ find_key k u = Some y /\ known (m g) y = false)).
  assert (N : match find_key k (foldl merge1 m pulled g') with
              | Some x => P x /\ forall y, P y -> hval y <= hval x
              | None => forall y, ~ P y
              end).
  { pose proof (merge_newest either either_free pulled m g' k W pulled_ok) as N.
    destruct (find_key k (foldl _ _ _ _)) as [x|]; [|intros y Hy%pulled_candidate; by apply (N y)].
    destruct N as [Hx Hy]. split; [by apply pulled_candidate|]. intros y Py%pulled_candidate. by apply Hy. }
  unfold P in N. clear P.
  destruct (decide (g' = g)) as [->|Hne]; cycle 1.
  { destruct (find_key k (foldl _ _ _ _)) as [x|]; [by destruct N as [[?|[? _]] _]|].
    destruct (find_key k (m g')) as [y|]; [|done]. destruct (N y). by left. }
  destruct (find_key k (m g)) as [x|] eqn:Ex, (find_key k u) as [y|] eqn:Ey; cbn [newest].
  - destruct (known (m g) y) eqn:Hk.
    { rewrite (known_same x y k Ey Hk Ex) in *. rewrite Z.ltb_irrefl.
      destruct (find_key k (foldl _ _ _ _)) as [z|]; [|by destruct (N y); left]. by destruct N as [[?|(_ & ? & _)] _]. }
    destruct (find_key k (foldl _ _ _ _)) as [z|]; [|by destruct (N x); left]. destruct N as [Hz Hmax].
    pose proof (Hmax x (or_introl eq_refl)). assert (hval y <= hval z) by (apply Hmax; by right).
    assert (hval x <> hval y).
    { intros E. apply not_true_iff_false in Hk. apply Hk, existsb_exists. exists x. split; [|by apply Z.eqb_eq].
      apply list_elem_of_In. by apply find_key_elem in Ex as [? _]; [|apply Hm]. }
    destruct Hz as [[= ->]|(_ & [= ->] & _)];
      [destruct (Z.ltb_spec (hval z) (hval y)) | destruct (Z.ltb_spec (hval x) (hval z))]; done || lia.
  - destruct (find_key k (foldl _ _ _ _)) as [z|]; [|by destruct (N x); left]. by destruct N as [[?|(_ & ? & _)] _].
  - destruct (find_key k (foldl _ _ _ _)) as [z|]; [by destruct N as [[?|(_ & ? & _)] _]|].
    destruct (known (m g) y) eqn:Hk; [|by destruct (N y); right]. exfalso.
    apply existsb_exists in Hk as (z & Hz%list_elem_of_In & E%Z.eqb_eq). apply find_key_elem in Ey as [Hy Ky]; [|apply Hu].
    apply (proj1 (find_key_None k (m g)) Ex z Hz). by rewrite (Hno z y Hz Hy E).
  - destruct (find_key k (foldl _ _ _ _)) as [z|]; [|done]. by destruct N as [[?|(_ & ? & _)] _].
Qed.
End Merged.

Section Pulls.
Context {key_t : Type} `{SignScheme key_t} {DA DB : Type} `{Reliable DA} `{!Direct DA} `{Fetching DB}.
Context (node_addr_from_sign : list Z -> Z) (enabled : Z -> bool).

(** What the node that asks and the node that has the records need. *)
Record pull_ready (A : gdb key_t DA) (B : gdb key_t DB) (mA mB : list Z -> list dap_store_obj) (a b : Z) (g : list Z) : Prop := {
  pr_A : rep (drv A) mA;
  pr_B : rep (drv B) mB;
  pr_pins : no_pins mA;
  pr_group : Forall (λ c, c <> 0) g /\ (length g < 128)%nat;
  pr_linkA : exists c, dap_global_db_cluster_by_group A g = Some c /\ linked A c b /\ b <> 0;
  pr_linkB : exists c, dap_global_db_cluster_by_group B g = Some c /\ linked B c a /\ unexpired B c (mB g);
  pr_recs : Forall (λ o, sendable o /\ plain o /\ trusted node_addr_from_sign g A (parsed o None)) (mB g);
  pr_free : no_collisions (mA g) (mB g);
}.

(** What is asked for. *)
Definition wanted t (pgs : list (list dap_store_obj)) : list (list dap_store_obj) := filter (.≠ []) (unknown t <$> pgs).

Lemma concat_unknown t pgs : concat (wanted t pgs) = unknown t (concat pgs).
Proof.
  unfold wanted. induction pgs as [|p pgs IH]; [done|]. rewrite fmap_cons. cbn [concat]. unfold unknown at 3. rewrite filter_app.
  fold (unknown t p) (unknown t (concat pgs)). rewrite filter_cons. destruct (decide _) as [Hne|Hne]; cbn [concat]; rewrite IH; [done|].
  destruct (unknown t p); [done|]. by destruct Hne.
Qed.

Lemma unknown_elem t l o : o ∈ unknown t l -> o ∈ l.
Proof. by intros [_ Ho]%list_elem_of_filter. Qed.

Lemma chunks_inside fuel (l : list dap_store_obj) : (length l < fuel)%nat ->
  Forall (λ p, p <> [] /\ (length p <= 512)%nat /\ forall o, o ∈ p -> o ∈ l) (chunks fuel l).
Proof.
  intros Hf. apply Forall_forall. intros p Hp. destruct (proj1 (Forall_forall _ _) (chunks_sizes fuel l) p Hp) as [Hne Hle].
  split_and!; [done..|]. intros o Ho. rewrite <- (chunks_concat fuel l Hf). apply list_elem_of_In, in_concat. exists p.
  by rewrite <- !list_elem_of_In.
Qed.

Lemma wanted_inside (t l : list dap_store_obj) (pgs : list (list dap_store_obj)) : Forall (λ p, p <> [] /\ (length p <= 512)%nat /\ forall o, o ∈ p -> o ∈ l) pgs ->
  Forall (λ os, os <> [] /\ (length os <= 1024)%nat /\ Forall (λ o, o ∈ l) os) (wanted t pgs).
Proof.
  intros Hpg. apply Forall_forall. intros os [Hne (p & -> & Hp)%list_elem_of_fmap]%list_elem_of_filter.
  destruct (proj1 (Forall_forall _ _) Hpg p Hp) as (_ & Hle & Hin). split_and!; [done | |].
  - unfold unknown. etrans; [apply length_filter | lia].
  - apply Forall_forall. intros o Ho%unknown_elem. by apply Hin.
Qed.

Lemma sent_packs a ps : sent_to a MSG_RECORD_PACK (EvSend a MSG_RECORD_PACK <$> ps) = ps.
Proof.
  induction ps as [|p ps IH]; [done|]. unfold sent_to in *. rewrite fmap_cons. cbn [omap list_omap]. rewrite Z.eqb_refl.
  cbn [andb Z.eqb Pos.eqb]. by rewrite IH.
Qed.

Lemma pull_result fuel A B mA mB a b g ty : pull_ready A B mA mB a b g -> ty = MSG_START \/ ty = MSG_GROUP_REQUEST ->
  (length (mB g) < fuel)%nat ->
  exists A' B' ps, pull node_addr_from_sign enabled fuel A B a b ty g = inr (A', B') /\
    rep (drv A') (foldl merge1 mA (pulled mA g (mB g))) /\ same_config A A' /\
    says B (reader_events g fuel a ty (mB g) ++ (EvSend a MSG_RECORD_PACK <$> ps)) B' /\
    (mB g = [] -> ps = []).
Proof.
  intros [RA RB NP [Hg Hl] (cA & EcA & LA & Hb) (cB & EcB & LB & Un) Recs _] Hty Hf. unfold pull.
  destruct (start_received node_addr_from_sign enabled g Hg Hl fuel B mB cB a ty RB EcB LB Un Hty Hf) as (B1 & -> & SB1).
  cbn [mbind gres_bind]. rewrite (says_news _ _ _ SB1), sent_reader. pose proof SB1 as (EB1 & CB1 & _).
  pose proof (tab_stored _ _ (rep_table _ _ g RB)) as Hst. pose proof (chunks_concat fuel (mB g) Hf) as Hcc.
  set (pgs := chunks fuel (mB g)) in *.
  pose proof (chunks_inside fuel (mB g) Hf) as Hpg. fold pgs in Hpg.
  destruct (hashes_phase node_addr_from_sign enabled g Hg Hl fuel cA b pgs A mA RA EcA) as (A1 & -> & SA1).
  { eapply Forall_impl; [exact Hpg|]. intros p (? & ? & Hin). split_and!; [done..|]. apply Forall_forall. intros o Ho.
    by apply (proj1 (Forall_forall _ _) Hst o), Hin. }
  cbn [mbind gres_bind]. rewrite (says_news _ _ _ SA1). pose proof SA1 as (EA1 & CA1 & _).
  replace ((λ p, request_for g b (unknown (mA g) p)) <$> pgs) with (request_for g b <$> (unknown (mA g) <$> pgs))
    by (by rewrite <- list_fmap_compose).
  rewrite sent_requests. fold (wanted (mA g) pgs). set (oss := wanted (mA g) pgs).
  pose proof (wanted_inside (mA g) (mB g) pgs Hpg) as Hos. fold oss in Hos.
  destruct (requests_phase node_addr_from_sign enabled g Hg Hl fuel cB a oss B1 mB) as (ps & B2 & -> & SB2 & Hps);
    [by rewrite EB1 | by rewrite (same_config_cluster B) | by eapply same_config_linked | |].
  { eapply Forall_impl; [exact Hos|]. intros os (? & ? & Hin). split_and!; [done..|]. eapply Forall_impl; [exact Hin|].
    intros o Ho. split; [done|]. by apply (proj1 (Forall_forall _ _) Recs). }
  cbn [mbind gres_bind]. rewrite (says_news _ _ _ SB2).
  rewrite sent_packs.
  destruct (records_phase node_addr_from_sign enabled g Hl fuel cA b ps oss A1 mA Hps) as (A2 & -> & RA2 & CA2);
    [by rewrite EA1 | done | by rewrite (same_config_cluster A) | by eapply same_config_linked | done | | |].
  { eapply Forall_impl; [exact Hos|]. by intros os (? & _). }
  { eapply Forall_impl; [exact Hos|]. intros os (_ & _ & Hin). eapply Forall_impl; [exact Hin|].
    intros o Ho. eapply trusted_config; [done|]. by apply (proj1 (Forall_forall _ _) Recs). }
  cbn [mbind gres_bind]. exists A2, B2, ps. split; [done|]. unfold pulled, oss in *. rewrite concat_unknown, Hcc in RA2. split_and!.
  - done.
  - by eapply same_config_trans.
  - by eapply says_trans.
  - intros E. unfold pgs in Hps. rewrite E in Hps. destruct fuel; by apply Forall2_nil_inv_r in Hps.
Qed.
End Pulls.

(** The newest of the two records stays the newest. *)
Lemma newest_again t u k : NoDup (key <$> t) -> NoDup (key <$> u) -> no_collisions t u ->
  newest (find_key k u) (newest (find_key k t) (find_key k u)) = newest (find_key k t) (find_key k u).
Proof.
  intros Ht Hu Hno. destruct (find_key k t) as [x|] eqn:Ex, (find_key k u) as [y|] eqn:Ey; cbn [newest]; try done.
  - apply find_key_elem in Ex as [Hx _]; [|done]. apply find_key_elem in Ey as [Hy _]; [|done].
    destruct (Z.ltb_spec (hval x) (hval y)); [by rewrite Z.ltb_irrefl|]. destruct (Z.ltb_spec (hval y) (hval x)); [done|].
    f_equal. symmetry. apply Hno; [done..|]. lia.
  - by rewrite Z.ltb_irrefl.
Qed.

Lemma foldl_table l : forall m g, (forall g, table_ok g (m g)) -> Forall (λ o, stored (norm o)) l -> table_ok g (foldl merge1 m l g).
Proof.
  induction l as [|o l IH]; intros m g Hm Hl; [done|]. apply Forall_cons in Hl as [Ho Hl]. cbn [foldl].
  apply IH; [intros g'; by apply merge1_table | done].
Qed.

Lemma pulled_elem m g u x : (forall g, table_ok g (m g)) -> table_ok g u -> Forall plain u -> no_collisions (m g) u ->
  x ∈ foldl merge1 m (pulled m g u) g -> x ∈ m g \/ x ∈ u.
Proof.
  intros Hm Hu Hp Hno Hx. pose proof (merged_key m g u Hm Hu Hp Hno g (key x)) as E. rewrite decide_True in E by done.
  rewrite (proj2 (find_key_elem (key x) _ x (tab_keys _ _ (foldl_table (pulled m g u) m g Hm
    (Forall_impl _ _ _ (pulled_ok m g u Hu Hp) (λ _, @proj1 _ _)))))) in E by done. symmetry in E.
  destruct (find_key (key x) (m g)) as [y|] eqn:Ey, (find_key (key x) u) as [z|] eqn:Ez; cbn [newest] in E; [destruct (hval y <? hval z)|..];
    first [discriminate E | injection E as ->];
    first [left; by apply find_key_elem in Ey as [? _]; [|apply Hm] | right; by apply find_key_elem in Ez as [? _]; [|apply Hu]].
Qed.

Lemma get_raw_rep {key_t} `{DriverSpec D} (s : gdb key_t D) m g k : rep (drv s) m -> Forall (λ c, c <> 0) k ->
  dap_global_db_get_raw_sync s g k = inr (find_key k (m g)).
Proof. intros Hm Hk. unfold dap_global_db_get_raw_sync. by rewrite (read_spec _ m), holes_true. Qed.

(** C4: A node [A] that sends a start packet (or a group request) for a group to
    a linked node [B] and takes part in the exchange that follows (the hashes of
    [B]'s records page by page, [A]'s requests for those it does not know, the
    packs of records) ends with the newer of the two nodes' records for every key
    of the group, [B]'s records and [A]'s other groups being untouched; a node
    that has nothing in the group answers a start packet by asking for it in
    turn.  This is so when the conditions [pull_ready] hold: every record of [B]
    is one that [A] takes (its signer is root in [A]'s cluster of the group, it
    is neither from the future nor expired there, its signature and checksum are
    right, it is not pinned and fits a packet), [B] does not count its records as
    expired, [A] keeps no pinned records, no two different records of the two
    nodes share a driver hash, each node is in the other's link cluster; and
    when the storage of [A] does not fail and registers no transactions. *)
Theorem sync_pull_newest {key_t} `{SignScheme key_t} {DA DB} `{Reliable DA} `{!Direct DA} `{Fetching DB} node_addr enabled fuel
    (A : gdb key_t DA) (B : gdb key_t DB) mA mB a b g ty :
  pull_ready node_addr A B mA mB a b g -> ty = MSG_START \/ ty = MSG_GROUP_REQUEST -> (length (mB g) < fuel)%nat ->
  exists A' B', pull node_addr enabled fuel A B a b ty g = inr (A', B') /\ drv B' = drv B /\
    (forall k, Forall (λ c, c <> 0) k -> exists x y,
       dap_global_db_get_raw_sync A g k = inr x /\ dap_global_db_get_raw_sync B g k = inr y /\
       dap_global_db_get_raw_sync A' g k = inr (newest x y)) /\
    (forall g' k, g' <> g -> Forall (λ c, c <> 0) k ->
       dap_global_db_get_raw_sync A' g' k = dap_global_db_get_raw_sync A g' k) /\
    (mB g = [] -> ty = MSG_START -> news B B' = [EvSend a MSG_GROUP_REQUEST (start_pkt c_dap_global_db_driver_hash_blank g)]).
Proof.
  intros Hr Hty Hf. destruct (pull_result node_addr enabled fuel A B mA mB a b g ty Hr Hty Hf) as (A' & B' & ps & -> & RA' & _ & SB & Hps).
  destruct Hr as [RA RB _ _ _ _ Recs Free]. exists A', B'. split; [done|]. split; [apply SB|].
  assert (Mk := merged_key mA g (mB g) (λ g, rep_table (drv A) mA g RA) (rep_table _ _ g RB)
    (Forall_impl _ _ _ Recs (λ _ p, proj1 (proj2 p))) Free). split_and!.
  - intros k Hk. rewrite (get_raw_rep A mA), (get_raw_rep B mB), (get_raw_rep A' _ g k RA') by done. eexists _, _.
    split_and!; [done..|]. by rewrite Mk, decide_True.
  - intros g' k Hne Hk. rewrite (get_raw_rep A mA), (get_raw_rep A' _ g' k RA') by done. by rewrite Mk, decide_False.
  - intros E ->. rewrite (says_news _ _ _ SB), (Hps E), E. destruct fuel; [lia | done].
Qed.

(** What else is needed for the records to go both ways: [B] takes its own
    records, and [A]'s cluster does not count them as expired. *)
Record sync_ready {key_t} `{SignScheme key_t} {DA DB} `{Driver DA, !DriverSpec DA, !Reliable DA, Driver DB, !DriverSpec DB, !Reliable DB}
    node_addr (A : gdb key_t DA) (B : gdb key_t DB) mA mB (a b : Z) g : Prop := {
  sr_AB : pull_ready node_addr A B mA mB a b g;
  sr_BA : pull_ready node_addr B A mB mA b a g;
  sr_own : Forall (λ o, trusted node_addr g B (parsed o None)) (mB g);
  sr_time : forall c, dap_global_db_cluster_by_group A g = Some c -> unexpired A c (mB g);
}.

Lemma same_config_unexpired_app {key_t D} (s s' : gdb key_t D) c t u v : same_config s s' -> unexpired s c t -> unexpired s c u ->
  (forall x, x ∈ v -> x ∈ t \/ x ∈ u) -> unexpired s' c v.
Proof.
  intros Hc Ht Hu Hv. eapply same_config_unexpired; [done|]. intros o i Ho Hi. destruct (Hv o Ho); [by apply Ht | by apply Hu].
Qed.

(** After the first pull the nodes are ready for the second. *)
Lemma pull_ready_back {key_t} `{SignScheme key_t} {DA DB} `{Driver DA, !DriverSpec DA, !Reliable DA, Driver DB, !DriverSpec DB, !Reliable DB}
    node_addr (A : gdb key_t DA) (B : gdb key_t DB) A1 B1 mA mB a b g :
  sync_ready node_addr A B mA mB a b g -> same_config A A1 -> rep (drv A1) (foldl merge1 mA (pulled mA g (mB g))) ->
  drv B1 = drv B -> same_config B B1 ->
  let m1 := foldl merge1 mA (pulled mA g (mB g)) in
  pull_ready node_addr B1 A1 mB m1 b a g /\ (length (m1 g) <= length (mA g) + length (mB g))%nat.
Proof.
  intros [AB BA Own Time] CA RA1 EB1 CB m1. destruct AB as [RA RB _ Hg _ _ Recs Free].
  destruct BA as [_ _ NPB _ (cB & EcB & LB & Ha) (cA & EcA & LA & UnA) RecsA FreeB].
  assert (Hin : forall x, x ∈ m1 g -> x ∈ mA g \/ x ∈ mB g).
  { intros x. apply pulled_elem; [intros g'; by apply (rep_table (drv A)) | by apply (rep_table (drv B)) | | done].
    eapply Forall_impl; [exact Recs|]. by intros ? (? & ? & ?). }
  split; [split|].
  - by rewrite EB1.
  - done.
  - done.
  - done.
  - exists cB. split_and!; [by rewrite (same_config_cluster B) | by eapply same_config_linked | done].
  - exists cA. split_and!; [by rewrite (same_config_cluster A) | by eapply same_config_linked|].
    eapply same_config_unexpired_app; [done | exact UnA | by apply Time | done].
  - apply Forall_forall. intros o [Ho|Ho]%Hin.
    + destruct (proj1 (Forall_forall _ _) RecsA o Ho) as (? & ? & ?). split_and!; [done..|]. by eapply trusted_config.
    + destruct (proj1 (Forall_forall _ _) Recs o Ho) as (? & ? & _). split_and!; [done..|]. eapply trusted_config; [done|].
      by apply (proj1 (Forall_forall _ _) Own).
  - intros x y Hx [Hy|Hy]%Hin Eh; [by apply FreeB|]. by apply (sorted_inj (mB g)); [apply (rep_table _ _ g RB)|..].
  - rewrite <- length_app. apply submseteq_length, NoDup_submseteq; [|by intros x Hx%Hin; apply elem_of_app].
    eapply NoDup_fmap_1, (rep_table _ _ g RA1).
Qed.

(** C2: Two linked nodes that pull a group from each other in turn end with the
    same records in it: for every key both read the newer of the two records
    they had, however many pages of hashes that takes.  The conditions are those
    of a pull in both directions ([sync_ready]): the signers of all records of
    the group are root at both nodes, no record is pinned, from the future or
    expired, signatures and checksums are right, no two different records share a
    driver hash, each node is in the other's link cluster, and the storages do
    not fail and register no transactions. *)
Theorem sync_converges {key_t} `{SignScheme key_t} {DA DB}
    `{Driver DA, !DriverSpec DA, !Reliable DA, !Direct DA, !Fetching DA, Driver DB, !DriverSpec DB, !Reliable DB, !Direct DB,
      !Fetching DB}
    node_addr enabled fuel (A : gdb key_t DA) (B : gdb key_t DB) mA mB a b g ty ty' :
  sync_ready node_addr A B mA mB a b g -> ty = MSG_START \/ ty = MSG_GROUP_REQUEST -> ty' = MSG_START \/ ty' = MSG_GROUP_REQUEST ->
  (length (mA g) + length (mB g) < fuel)%nat ->
  exists A1 B1 A2 B2, pull node_addr enabled fuel A B a b ty g = inr (A1, B1) /\
    pull node_addr enabled fuel B1 A1 b a ty' g = inr (B2, A2) /\
    forall k, Forall (λ c, c <> 0) k -> exists x y,
      dap_global_db_get_raw_sync A g k = inr x /\ dap_global_db_get_raw_sync B g k = inr y /\
      dap_global_db_get_raw_sync A2 g k = inr (newest x y) /\ dap_global_db_get_raw_sync B2 g k = inr (newest x y).
Proof.
  intros Hs Hty Hty' Hf. pose proof Hs as [AB BA _ _].
  destruct (pull_result node_addr enabled fuel A B mA mB a b g ty AB Hty) as (A1 & B1 & ps & E1 & RA1 & CA & SB1 & _); [lia|].
  destruct (pull_ready_back node_addr A B A1 B1 mA mB a b g Hs CA RA1 (proj1 SB1) (proj1 (proj2 SB1)))
    as [Back Hlen].
  set (m1 := foldl merge1 mA (pulled mA g (mB g))) in *.
  destruct (pull_result node_addr enabled fuel B1 A1 mB m1 b a g ty' Back Hty') as (B2 & A2 & ps' & E2 & RB2 & _ & SA2 & _); [lia|].
  exists A1, B1, A2, B2. split; [done|]. split; [done|]. intros k Hk.
  destruct AB as [RA RB _ _ _ _ Recs Free]. destruct Back as [_ RA1' _ _ _ _ Recs1 Free1].
  rewrite (get_raw_rep A mA), (get_raw_rep B mB), (get_raw_rep B2 _ g k RB2) by done.
  rewrite (get_raw_rep A2 m1) by (done || by rewrite (proj1 SA2)).
  assert (Mk := merged_key mA g (mB g) (λ g, rep_table (drv A) mA g RA) (rep_table _ _ g RB)
    (Forall_impl _ _ _ Recs (λ _ p, proj1 (proj2 p))) Free g k).
  assert (Mk1 := merged_key mB g (m1 g) (λ g, rep_table (drv B) mB g RB) (rep_table _ _ g RA1')
    (Forall_impl _ _ _ Recs1 (λ _ p, proj1 (proj2 p))) Free1 g k).
  rewrite decide_True in Mk, Mk1 by done. fold m1 in Mk. eexists _, _. split_and!; [done | done | by rewrite Mk|].
  rewrite Mk1, Mk. f_equal. apply newest_again; [apply (rep_table _ _ g RA) | apply (rep_table _ _ g RB) | done].
Qed.

(** *** Two nodes that are linked *)

Definition pair_rec (k v ts c : Z) : dap_store_obj := StoreObj [103] [k] [v] 0 None ts c None.
Definition old_rec : dap_store_obj := pair_rec 107 1 1000 1287451076139595839.
Definition new_rec : dap_store_obj := pair_rec 107 2 2000 11868658400646578042.
Definition other_rec : dap_store_obj := pair_rec 108 3 1500 15550333503835913413.

Definition pair_cluster : gdb_cluster := GdbCluster [103; 42] 1 0 ROLE_ROOT 0 false [] false.

(** A node whose only link is [peer]. *)
Definition pair_node (l : list dap_store_obj) (peer : Z) : gdb unit (mdbx_state mem_mdb) :=
  Gdb (mem_state1 [103] l) [pair_cluster]
    (Cluster.World {[ 1 := Cluster.Cluster None 1 Cluster.DAP_CLUSTER_TYPE_VIRTUAL Cluster.Unlocked [Member peer 0 0] false false false ]}
       [] [] Cluster.Unlocked []) (λ _, 5000) 0 (Some tt) 0 false [].

Definition pair_recs : list dap_store_obj := [old_rec; new_rec; other_rec].

Lemma pair_stored : Forall stored pair_recs.
Proof. repeat constructor; cbn; try (lia || done); try (repeat constructor; done); try (by left). Qed.

Lemma pair_linked l peer : linked (pair_node l peer) pair_cluster peer.
Proof.
  exists (Member peer 0 0). split_and!; [|done..]. erewrite member_find_eq; [|done | apply lookup_singleton_eq | done].
  unfold find_member. cbn. by rewrite Z.eqb_refl.
Qed.

Lemma pair_trusted l peer : Forall (λ o, trusted (λ _, 0) [103] (pair_node l peer) (parsed o None)) pair_recs.
Proof.
  apply Forall_forall. intros o Ho. pose proof (proj1 (Forall_forall _ _) pair_stored o Ho) as Hst.
  assert (Hc : timestamp o <= 5000 /\ plain o /\ group o = [103] /\ sign o = None /\ printable (parsed o None) = true /\
    dap_global_db_pkt_check_sign_crc (parsed o None) = inr true).
  { unfold pair_recs in Ho. rewrite !elem_of_cons in Ho. destruct Ho as [->|[->|[->|[]%elem_of_nil]]];
      (split_and!; [cbn; lia | by left | done | done | vm_compute; reflexivity | vm_compute; reflexivity]). }
  destruct Hc as (Ht & Hp & Eg & Es & Hpr & Hk). split_and!; [done | | done].
  split; [|by destruct Hp as [E|E]; unfold has_flag; cbn [parsed flags]; rewrite E]. exists pair_cluster. split.
  - cbn [parsed group]. rewrite Eg. reflexivity.
  - by rewrite norm_parsed.
  - cbn [parsed group]. rewrite Eg. intros E. vm_compute in E. done.
  - done.
  - by destruct Hp as [E|E]; unfold has_flag; cbn [parsed flags]; rewrite E.
  - intros i _. split; [cbn; lia | by left].
  - unfold has_role. cbn [parsed sign]. by rewrite Es.
Qed.

Lemma pair_ready l l' a b : l ⊆ pair_recs -> l' ⊆ pair_recs -> table_ok [103] l -> table_ok [103] l' -> b <> 0 ->
  pull_ready (λ _, 0) (pair_node l b) (pair_node l' a) (upd (λ _, []) [103] l) (upd (λ _, []) [103] l') a b [103].
Proof.
  intros Hl Hl' Tl Tl' Hb. pose proof pair_stored as Hst. rewrite Forall_forall in Hst. split.
  - by apply mem_state1_rep.
  - by apply mem_state1_rep.
  - intros g o. unfold upd. destruct (decide _); [|by intros ?%elem_of_nil]. intros Ho%Hl. unfold pair_recs in Ho.
    rewrite !elem_of_cons in Ho. by destruct Ho as [->|[->|[->|[]%elem_of_nil]]].
  - split; [repeat constructor; discriminate | cbn; lia].
  - exists pair_cluster. split_and!; [done | apply pair_linked | done].
  - exists pair_cluster. split_and!; [done | apply pair_linked|]. intros o i _ _. by left.
  - rewrite upd_same. apply Forall_forall. intros o Ho%Hl'. split_and!.
    + unfold pair_recs in Ho. rewrite !elem_of_cons in Ho.
      destruct Ho as [->|[->|[->|[]%elem_of_nil]]]; (split; [cbn; lia | reflexivity]).
    + left. unfold pair_recs in Ho. rewrite !elem_of_cons in Ho. by destruct Ho as [->|[->|[->|[]%elem_of_nil]]].
    + by apply (proj1 (Forall_forall _ _) (pair_trusted l b)).
  - rewrite !upd_same. intros x y Hx%Hl Hy%Hl'. unfold pair_recs in Hx, Hy. rewrite !elem_of_cons in Hx, Hy.
    destruct Hx as [->|[->|[->|[]%elem_of_nil]]], Hy as [->|[->|[->|[]%elem_of_nil]]]; done.
Qed.

Lemma pair_tables : table_ok [103] [old_rec] /\ table_ok [103] [other_rec; new_rec].
Proof.
  pose proof pair_stored as Hst. repeat (apply Forall_cons in Hst as [? Hst]). split; split.
  all: first [repeat constructor; (done || unfold hlt, hval; cbn; lia) | apply (bool_decide_unpack _); reflexivity].
Qed.

Lemma pair_read l peer k : table_ok [103] l -> Forall (λ c, c <> 0) k ->
  dap_global_db_get_raw_sync (pair_node l peer) [103] k = inr (find_key k l).
Proof. intros Hl Hk. rewrite (get_raw_rep _ (upd (λ _, []) [103] l)), upd_same; [done | by apply mem_state1_rep | done]. Qed.

Lemma sync_pull_newest_witness :
  exists A' B', pull (λ _, 0) (λ _, true) 4 (pair_node [old_rec] 12) (pair_node [other_rec; new_rec] 11) 11 12 MSG_START [103] = inr (A', B') /\
    dap_global_db_get_raw_sync A' [103] [107] = inr (Some new_rec) /\
    dap_global_db_get_raw_sync A' [103] [108] = inr (Some other_rec).
Proof.
  destruct (sync_pull_newest (λ _, 0) (λ _, true) 4 (pair_node [old_rec] 12) (pair_node [other_rec; new_rec] 11)
    (upd (λ _, []) [103] [old_rec]) (upd (λ _, []) [103] [other_rec; new_rec]) 11 12 [103] MSG_START) as (A' & B' & E & _ & Hk & _).
  - apply pair_ready; [set_solver | set_solver | apply pair_tables | apply pair_tables | done].
  - by left.
  - rewrite upd_same. cbn. lia.
  - exists A', B'. split; [exact E|]. destruct pair_tables as [T1 T2].
    assert (N1 : Forall (λ c, c <> 0) [107]) by (by repeat constructor).
    assert (N2 : Forall (λ c, c <> 0) [108]) by (by repeat constructor).
    destruct (Hk [107] N1) as (x & y & Ex & Ey & ->). destruct (Hk [108] N2) as (x' & y' & Ex' & Ey' & ->).
    rewrite (pair_read _ _ _ T1 N1) in Ex. rewrite (pair_read _ _ _ T1 N2) in Ex'.
    rewrite (pair_read _ _ _ T2 N1) in Ey. rewrite (pair_read _ _ _ T2 N2) in Ey'.
    injection Ex as <-. injection Ey as <-. injection Ex' as <-. injection Ey' as <-. split; reflexivity.
Defined.

Lemma sync_converges_witness :
  exists A1 B1 A2 B2, pull (λ _, 0) (λ _, true) 4 (pair_node [old_rec] 12) (pair_node [other_rec; new_rec] 11) 11 12 MSG_START [103] = inr (A1, B1) /\
    pull (λ _, 0) (λ _, true) 4 B1 A1 12 11 MSG_START [103] = inr (B2, A2) /\
    dap_global_db_get_raw_sync A2 [103] [107] = dap_global_db_get_raw_sync B2 [103] [107].
Proof.
  destruct (sync_converges (λ _, 0) (λ _, true) 4 (pair_node [old_rec] 12) (pair_node [other_rec; new_rec] 11)
    (upd (λ _, []) [103] [old_rec]) (upd (λ _, []) [103] [other_rec; new_rec]) 11 12 [103] MSG_START MSG_START)
    as (A1 & B1 & A2 & B2 & E1 & E2 & Hk).
  - split.
    + apply pair_ready; [set_solver | set_solver | apply pair_tables | apply pair_tables | done].
    + apply pair_ready; [set_solver | set_solver | apply pair_tables | apply pair_tables | done].
    + rewrite upd_same. apply Forall_forall. intros o Ho. apply (proj1 (Forall_forall _ _) (pair_trusted _ 11)). set_solver.
    + intros c [= <-] o i _ _. by left.
  - by left.
  - by left.
  - rewrite !upd_same. cbn. lia.
  - exists A1, B1, A2, B2. split; [exact E1|]. split; [exact E2|]. destruct (Hk [107]) as (x & y & _ & _ & -> & ->); [|done].
    repeat constructor; discriminate.
Defined.

(** ** Names without a terminator *)

(** The length of a start packet is checked, the terminator of its group is not:
    the packet is taken and its task reads past the end of the copy. *)
Lemma unterminated_group_overread {key_t} `{SignScheme key_t} {D} `{Driver D} node_addr enabled fuel (s : gdb key_t D) a h g :
  hash_ok h -> Forall (λ c, c <> 0) g -> (length g < 128)%nat ->
  let p := h ++ le_bytes 2 (Z.of_nat (length g)) ++ g in
  s_stream_ch_packet_in 0 true a MSG_START p = inr (true, [TReader a MSG_START p]) /\
  receive node_addr enabled (S fuel) s a MSG_START p = inl (GMem OutOfBounds).
Proof.
  intros Hh Hg Hl p. assert (Lp : Z.of_nat (length p) = 18 + Z.of_nat (length g)).
  { unfold p. rewrite !length_app, length_le_bytes, Hh. lia. }
  assert (E : s_stream_ch_packet_in 0 true a MSG_START p = inr (true, [TReader a MSG_START p])).
  { unfold s_stream_ch_packet_in. cbn [negb]. change (MSG_START =? MSG_START) with true. cbn [orb]. rewrite Lp.
    rewrite (proj2 (Z.ltb_ge _ sizeof_start)) by (unfold sizeof_start; lia).
    unfold dap_global_db_start_pkt_get_size, start_group_len.
    pose proof (mem_le_app h 2 (Z.of_nat (length g)) g) as E. rewrite Hh in E. change (Z.of_nat 16) with 16 in E.
    unfold p. rewrite E by (unfold fits; lia). cbn [mbind option_bind mem res_bind]. unfold sizeof_start.
    rewrite wrap_id by (unfold fits; lia). by rewrite Z.eqb_refl. }
  assert (Et : text_at p sizeof_start = None).
  { unfold text_at, p, sizeof_start. rewrite app_assoc, drop_app_length' by (by rewrite length_app, length_le_bytes, Hh).
    clear -Hg. induction Hg as [|c g Hc _ IH]; [done|]. cbn [c_text]. by rewrite (proj2 (Z.eqb_neq c 0)), IH. }
  split; [done|]. unfold receive. rewrite E. cbn [lift mbind gres_bind run_tasks run_task reader_run].
  unfold s_proc_thread_reader. by rewrite Et.
Qed.
