(* ===== verification/Esocket.v ===== *)
(** * Socket buffers (io/dap_events_socket.c)

    The byte buffers of an events socket: what was received and not consumed
    yet, and what waits to be sent.  The state keeps the size of the block
    [buf_out] points to apart from [buf_out_size_max], the size the code
    believes it has.  Whether a reallocation succeeds is an argument; a write
    outside the block is [None]. *)

From S2P Require Import Prelude.
Local Open Scope Z_scope.

Definition DAP_STREAM_PKT_SIZE_MAX : Z := 4 * 1024 * 1024.
Definition DAP_EVENTS_SOCKET_BUF_LIMIT : Z := DAP_STREAM_PKT_SIZE_MAX.

Record esocket := Esocket {
  es_signal_close : bool;
  es_ready_to_write : bool;
  es_buf_in : list Z;
  es_buf_out : list Z;
  es_buf_out_alloc : Z;
  es_buf_out_size_max : Z;
}.

Definition set_buf_in (es : esocket) b :=
  Esocket (es_signal_close es) (es_ready_to_write es) b (es_buf_out es) (es_buf_out_alloc es) (es_buf_out_size_max es).
Definition set_buf_out (es : esocket) b :=
  Esocket (es_signal_close es) (es_ready_to_write es) (es_buf_in es) b (es_buf_out_alloc es) (es_buf_out_size_max es).
Definition set_out_block (es : esocket) alloc max :=
  Esocket (es_signal_close es) (es_ready_to_write es) (es_buf_in es) (es_buf_out es) alloc max.

Definition dap_events_socket_set_writable_unsafe (es : esocket) (a_is_ready : bool) : esocket :=
  Esocket (es_signal_close es) a_is_ready (es_buf_in es) (es_buf_out es) (es_buf_out_alloc es) (es_buf_out_size_max es).

(** [memcpy(buf_out + buf_out_size, a_data, a_data_size)] and the new size. *)
Definition append_out (es : esocket) (a_data : list Z) : option (esocket * Z) :=
  let size := Z.of_nat (length (es_buf_out es)) + Z.of_nat (length a_data) in
  if es_buf_out_alloc es <? size then None
  else Some (dap_events_socket_set_writable_unsafe (set_buf_out es (es_buf_out es ++ a_data)) true,
             Z.of_nat (length a_data)).

Definition dap_events_socket_write_unsafe (es : esocket) (realloc_ok : bool) (a_data : list Z)
    : option (esocket * Z) :=
  if es_signal_close es then Some (es, 0) else
  let l_basic_buf_size := DAP_EVENTS_SOCKET_BUF_LIMIT / 4 in
  let size := wrap 64 (Z.of_nat (length (es_buf_out es)) + Z.of_nat (length a_data)) in
  if es_buf_out_size_max es <? size then
    let max := wrap 64 (es_buf_out_size_max es + Z.max l_basic_buf_size (Z.of_nat (length a_data))) in
    if negb realloc_ok then Some (set_out_block es (es_buf_out_alloc es) max, 0)
    else append_out (set_out_block es max max) a_data
  else if (size <=? l_basic_buf_size / 4) && (l_basic_buf_size <? es_buf_out_size_max es) then
    if negb realloc_ok then None
    else append_out (set_out_block es l_basic_buf_size l_basic_buf_size) a_data
  else append_out es a_data.

Definition ENOMEM : Z := 12.

Definition dap_events_socket_insert_buf_out (es : esocket) (a_data : list Z) : option (esocket * Z) :=
  if (length a_data =? 0)%nat then Some (es, 0) else
  if wrap 64 (es_buf_out_size_max es - Z.of_nat (length (es_buf_out es))) <? Z.of_nat (length a_data)
  then Some (es, wrap 64 (- ENOMEM)) else
  let size := Z.of_nat (length (es_buf_out es)) + Z.of_nat (length a_data) in
  if es_buf_out_alloc es <? size then None
  else Some (set_buf_out es (a_data ++ es_buf_out es), Z.of_nat (length a_data)).

Definition dap_events_socket_pop_from_buf_in (es : esocket) (a_data_size : Z) : esocket * list Z :=
  if a_data_size <? Z.of_nat (length (es_buf_in es)) then
    (set_buf_in es (drop (Z.to_nat a_data_size) (es_buf_in es)), take (Z.to_nat a_data_size) (es_buf_in es))
  else (set_buf_in es [], es_buf_in es).

Definition dap_events_socket_shrink_buf_in (es : esocket) (shrink_size : Z) : esocket :=
  if (shrink_size =? 0) || (length (es_buf_in es) =? 0)%nat then es
  else if shrink_size <? Z.of_nat (length (es_buf_in es))
  then set_buf_in es (drop (Z.to_nat shrink_size) (es_buf_in es))
  else set_buf_in es [].

(** ** Consistent buffers *)

Record es_ok (es : esocket) : Prop := {
  eo_block : es_buf_out_alloc es = es_buf_out_size_max es;
  eo_size : Z.of_nat (length (es_buf_out es)) <= es_buf_out_size_max es;
  eo_max : es_buf_out_size_max es < 2 ^ 62;
}.

Lemma shrink_drop es n : dap_events_socket_shrink_buf_in es (Z.of_nat n) = set_buf_in es (drop n (es_buf_in es)).
Proof.
  unfold dap_events_socket_shrink_buf_in. destruct (Z.eqb_spec (Z.of_nat n) 0) as [E | E]; cbn [orb].
  { replace n with 0%nat by lia. by destruct es. }
  destruct (Nat.eqb_spec (length (es_buf_in es)) 0) as [E' | E'].
  { destruct es as [? ? [|] ? ? ?]; [|done]. cbn [es_buf_in]. by rewrite drop_nil. }
  destruct (Z.ltb_spec (Z.of_nat n) (Z.of_nat (length (es_buf_in es)))).
  - by rewrite Nat2Z.id.
  - by rewrite drop_ge by lia.
Qed.

(** A write that does not lack memory appends its data, on every branch of
    the capacity management. *)
Lemma write_appends es d : es_ok es -> es_signal_close es = false ->
  Z.of_nat (length (es_buf_out es)) + Z.of_nat (length d) < 2 ^ 61 -> es_buf_out_size_max es < 2 ^ 61 ->
  exists es', dap_events_socket_write_unsafe es true d = Some (es', Z.of_nat (length d)) /\
    es_buf_out es' = es_buf_out es ++ d /\ es_buf_in es' = es_buf_in es /\ es_ok es' /\
    es_signal_close es' = false /\ es_ready_to_write es' = true.
Proof.
  intros [Hb Hs Hm] Hc L Hx. unfold dap_events_socket_write_unsafe. rewrite Hc. cbv zeta.
  rewrite (wrap_id 64 (_ + Z.of_nat (length d))) by (unfold fits; lia).
  assert (A : forall es', es_buf_out es' = es_buf_out es -> es_buf_in es' = es_buf_in es ->
    es_signal_close es' = false -> es_buf_out_alloc es' = es_buf_out_size_max es' ->
    Z.of_nat (length (es_buf_out es)) + Z.of_nat (length d) <= es_buf_out_size_max es' < 2 ^ 62 ->
    exists es'', append_out es' d = Some (es'', Z.of_nat (length d)) /\
      es_buf_out es'' = es_buf_out es ++ d /\ es_buf_in es'' = es_buf_in es /\ es_ok es'' /\
      es_signal_close es'' = false /\ es_ready_to_write es'' = true).
  { intros es' Eo Ei Ec Ea Hl. unfold append_out. rewrite Eo, Ea. rewrite (proj2 (Z.ltb_ge _ _)) by lia.
    eexists. split; [done|]. cbn. split_and!; try done. constructor; cbn; rewrite ?length_app; lia. }
  assert (B : DAP_EVENTS_SOCKET_BUF_LIMIT / 4 = 1048576) by done. rewrite B.
  destruct (Z.ltb_spec (es_buf_out_size_max es) (Z.of_nat (length (es_buf_out es)) + Z.of_nat (length d))).
  - rewrite wrap_id by (unfold fits; lia). apply A; cbn; try done. lia.
  - change (1048576 / 4) with 262144.
    destruct (Z.leb_spec (Z.of_nat (length (es_buf_out es)) + Z.of_nat (length d)) 262144),
      (Z.ltb_spec 1048576 (es_buf_out_size_max es)); cbn [andb negb];
      apply A; cbn; try done; lia.
Qed.

(** ** Properties *)

(** The buffers of a socket are byte queues.  With memory available,
    writing to an open socket appends exactly the data, whichever branch of
    the capacity management is taken, and keeps the recorded capacity equal to
    the block; a closing socket accepts nothing; popping and shrinking the
    input remove exactly the first bytes. *)
Theorem es_buffers_are_queues (es : esocket) (d : list Z) (n : nat) :
  es_ok es -> es_buf_out_size_max es < 2 ^ 61 ->
  Z.of_nat (length (es_buf_out es)) + Z.of_nat (length d) < 2 ^ 61 ->
  (es_signal_close es = true -> forall ok, dap_events_socket_write_unsafe es ok d = Some (es, 0)) /\
  (es_signal_close es = false ->
   exists es', dap_events_socket_write_unsafe es true d = Some (es', Z.of_nat (length d)) /\
     es_buf_out es' = es_buf_out es ++ d /\ es_buf_in es' = es_buf_in es /\ es_ok es') /\
  es_buf_in (dap_events_socket_shrink_buf_in es (Z.of_nat n)) = drop n (es_buf_in es) /\
  let '(es', out) := dap_events_socket_pop_from_buf_in es (Z.of_nat n) in
  out = take n (es_buf_in es) /\ es_buf_in es' = drop n (es_buf_in es).
Proof.
  intros Hok Hm L. split; [intros Hc ok; unfold dap_events_socket_write_unsafe; by rewrite Hc|].
  split; [intros Hc; destruct (write_appends es d Hok Hc L Hm) as (es' & ? & ? & ? & ? & _); eauto|].
  split; [by rewrite shrink_drop|]. unfold dap_events_socket_pop_from_buf_in. rewrite Nat2Z.id.
  destruct (Z.ltb_spec (Z.of_nat n) (Z.of_nat (length (es_buf_in es)))); [done|].
  by rewrite take_ge, drop_ge by lia.
Qed.

Lemma es_buffers_are_queues_witness :
  exists es', dap_events_socket_write_unsafe (Esocket false false [] [1] 1 1) true [2; 3] = Some (es', 2) /\
    es_buf_out es' = [1; 2; 3] /\ es_buf_in es' = [] /\ es_ok es'.
Proof.
  apply (es_buffers_are_queues (Esocket false false [] [1] 1 1) [2; 3] 0); [constructor; cbn; lia | done ..].
Defined.

(** A failed enlargement corrupts the heap later.
    [dap_events_socket_write_unsafe] raises [buf_out_size_max] before it
    reallocates and leaves it raised when that fails, so the next write that
    fits the recorded capacity goes past the end of the block. *)
Theorem es_failed_realloc_overflows (es es' : esocket) (d d' : list Z) :
  es_ok es -> es_signal_close es = false -> Z.of_nat (length d) < 2 ^ 20 ->
  es_buf_out_size_max es < Z.of_nat (length (es_buf_out es)) + Z.of_nat (length d) ->
  dap_events_socket_write_unsafe es false d = Some (es', 0) ->
  262144 < Z.of_nat (length (es_buf_out es)) + Z.of_nat (length d') <= es_buf_out_size_max es + 1048576 ->
  es_buf_out_size_max es < Z.of_nat (length (es_buf_out es)) + Z.of_nat (length d') ->
  dap_events_socket_write_unsafe es' true d' = None.
Proof.
  intros [Hb Hs Hm] Hc Hd Hx. unfold dap_events_socket_write_unsafe at 1. rewrite Hc. cbv zeta.
  rewrite wrap_id by (unfold fits; lia). rewrite (proj2 (Z.ltb_lt _ _)) by done. cbn [negb]. intros [= <-] L1 L2.
  assert (B : DAP_EVENTS_SOCKET_BUF_LIMIT / 4 = 1048576) by done. rewrite B.
  rewrite Z.max_l, wrap_id by (unfold fits; lia).
  unfold dap_events_socket_write_unsafe. cbn [es_signal_close es_buf_out es_buf_out_size_max set_out_block].
  rewrite Hc, B. cbv zeta. rewrite wrap_id by (unfold fits; lia). rewrite (proj2 (Z.ltb_ge _ _)) by lia.
  change (1048576 / 4) with 262144. rewrite (proj2 (Z.leb_gt _ 262144)) by lia. cbn [andb].
  unfold append_out. cbn [es_buf_out es_buf_out_alloc set_out_block].
  by rewrite (proj2 (Z.ltb_lt _ _)) by lia.
Qed.

(** A socket with 256 KiB waiting in a block of that size. *)
Definition full_es : esocket := Esocket false false [] (replicate (Z.to_nat 262144) 0) 262144 262144.

Lemma full_es_size : Z.of_nat (length (es_buf_out full_es)) = 262144.
Proof. unfold full_es. cbn [es_buf_out]. rewrite length_replicate. lia. Qed.

Lemma es_failed_realloc_overflows_witness :
  dap_events_socket_write_unsafe full_es false [1; 2] = Some (set_out_block full_es 262144 (262144 + 1048576), 0) /\
  dap_events_socket_write_unsafe (set_out_block full_es 262144 (262144 + 1048576)) true [7] = None.
Proof.
  assert (E : dap_events_socket_write_unsafe full_es false [1; 2] = Some (set_out_block full_es 262144 (262144 + 1048576), 0)).
  { unfold dap_events_socket_write_unsafe. rewrite full_es_size. cbn [es_signal_close es_buf_out_size_max full_es]. reflexivity. }
  split; [exact E|].
  apply (es_failed_realloc_overflows full_es _ [1; 2] [7]);
    [constructor; rewrite ?full_es_size; cbn [es_buf_out_alloc es_buf_out_size_max full_es]; lia | reflexivity
    | cbn [length]; lia | | exact E | |];
    rewrite full_es_size; cbn [es_buf_out_size_max full_es length]; lia.
Defined.
