(* ===== verification/Session.v ===== *)
(** * Stream sessions (net/stream/session/dap_stream_session.c)

    The table of sessions, in insertion order, with the mutex that guards it
    and the log of the delete callbacks.  Locking the mutex while it is held
    by the same thread blocks for ever: [None].  The values the random
    generator yields and the outcome of the allocation are arguments; the
    loop that draws an identifier is run with fuel. *)

From S2P Require Import Prelude Enc.
Local Open Scope Z_scope.

Record dap_stream_session := Session {
  id : Z;
  media_id : Z;
  create_empty : bool;
  open_preview : bool;
  opened : Z;
  time_created : Z;
  active_channels : list Z;
  node : Z;
  key : option dap_enc_key;
  callback_delete : bool;
}.

Record sessions := Sessions {
  s_sessions : list dap_stream_session;
  s_sessions_mutex : bool;
  deleted : list Z;
}.

Definition set_sessions (t : sessions) l := Sessions l (s_sessions_mutex t) (deleted t).
Definition set_mutex (t : sessions) b := Sessions (s_sessions t) b (deleted t).
Definition log_delete (t : sessions) i := Sessions (s_sessions t) (s_sessions_mutex t) (deleted t ++ [i]).

Definition lock (t : sessions) : option sessions :=
  if s_sessions_mutex t then None else Some (set_mutex t true).
Definition unlock (t : sessions) : sessions := set_mutex t false.

(** [HASH_FIND] and [HASH_DEL] by identifier. *)
Definition find_id (l : list dap_stream_session) (i : Z) : option dap_stream_session :=
  List.find (λ s, id s =? i) l.
Definition del_id (l : list dap_stream_session) (i : Z) : list dap_stream_session :=
  List.filter (λ s, negb (id s =? i)) l.

#[global] Arguments find_id : simpl never.
#[global] Arguments del_id : simpl never.

(** A write through a session pointer. *)
Definition update_session (t : sessions) (i : Z) (f : dap_stream_session -> dap_stream_session) : sessions :=
  set_sessions t (map (λ s, if id s =? i then f s else s) (s_sessions t)).

(** [do session_id = random_uint32_t(RAND_MAX); while found] *)
Fixpoint draw_id (fuel : nat) (rnd : nat -> Z) (i : nat) (l : list dap_stream_session) : option Z :=
  match fuel with
  | O => None
  | S fuel =>
    let session_id := wrap 32 (rnd i) in
    match find_id l session_id with
    | Some _ => draw_id fuel rnd (S i) l
    | None => Some session_id
    end
  end.

Definition dap_stream_session_pure_new (fuel : nat) (t : sessions) (alloc_ok : bool) (rnd : nat -> Z) (now : Z)
    : option (sessions * option Z) :=
  if negb alloc_ok then Some (t, None) else
  t ← lock t;
  session_id ← draw_id fuel rnd 0 (s_sessions t);
  let l_stm_sess := Session session_id 0 true false 0 now (replicate 16 0) 0 None false in
  Some (unlock (set_sessions t (s_sessions t ++ [l_stm_sess])), Some session_id).

(** The result of [dap_stream_session_pure_new] is dereferenced unchecked. *)
Definition dap_stream_session_new (fuel : nat) (t : sessions) (alloc_ok : bool) (rnd : nat -> Z) (now : Z)
    (a_media_id : Z) (a_open_preview : bool) : option (sessions * Z) :=
  '(t, ret) ← dap_stream_session_pure_new fuel t alloc_ok rnd now;
  i ← ret;
  Some (update_session t i (λ s, Session (id s) a_media_id false a_open_preview (opened s) (time_created s)
                                   (active_channels s) (node s) (key s) (callback_delete s)), i).

Definition dap_stream_session_by_id (t : sessions) (a_id : Z) : option (sessions * option dap_stream_session) :=
  t ← lock t;
  Some (unlock t, find_id (s_sessions t) a_id).

Definition dap_stream_session_close (t : sessions) (a_id : Z) : option (sessions * Z) :=
  t ← lock t;
  match find_id (s_sessions t) a_id with
  | None => Some (unlock t, -1)
  | Some s =>
    let t := unlock (set_sessions t (del_id (s_sessions t) a_id)) in
    Some (if callback_delete s then log_delete t a_id else t, 0)
  end.

(** The session's own mutex is only held inside this function. *)
Definition dap_stream_session_open (t : sessions) (a_id : Z) : option (sessions * Z) :=
  s ← find_id (s_sessions t) a_id;
  let ret := opened s in
  Some (update_session t a_id (λ s, if opened s =? 0 then
      Session (id s) (media_id s) (create_empty s) (open_preview s) 1 (time_created s)
        (active_channels s) (node s) (key s) (callback_delete s) else s), ret).

(** Leaves the mutex held. *)
Definition dap_stream_session_get_list_sessions (t : sessions) : option (sessions * list Z) :=
  t ← lock t; Some (t, map id (s_sessions t)).

Definition dap_stream_session_get_list_sessions_unlock (t : sessions) : sessions := unlock t.

Fixpoint deinit_loop (t : sessions) (l : list dap_stream_session) : sessions :=
  match l with
  | [] => t
  | s :: l =>
    let t := set_sessions t (del_id (s_sessions t) (id s)) in
    deinit_loop (if callback_delete s then log_delete t (id s) else t) l
  end.

Definition dap_stream_session_deinit (t : sessions) : option sessions :=
  t ← lock t; Some (unlock (deinit_loop t (s_sessions t))).

(** ** The table *)

Record sessions_ok (t : sessions) : Prop := {
  so_free : s_sessions_mutex t = false;
  so_nodup : NoDup (map id (s_sessions t));
  so_fits : Forall (fits 32) (map id (s_sessions t));
}.

Lemma find_id_Some l i s : find_id l i = Some s -> s ∈ l /\ id s = i.
Proof.
  intros E. apply List.find_some in E as [Hin Hi]. split; [by apply list_elem_of_In | lia].
Qed.

Lemma find_id_None l i : find_id l i = None <-> i ∉ map id l.
Proof.
  unfold find_id. induction l as [|s l IH]; cbn [List.find map].
  - split; [by intros _ ?%elem_of_nil | done].
  - rewrite not_elem_of_cons. destruct (Z.eqb_spec (id s) i) as [-> | ?].
    + split; [done | by intros [? _]].
    + rewrite IH. split; [intros; split; [congruence | done] | by intros [_ ?]].
Qed.

Lemma map_id_update l i f : (forall s, id (f s) = id s) ->
  map id (map (λ s, if id s =? i then f s else s) l) = map id l.
Proof. intros Hf. rewrite map_map. apply map_ext. intros s. by destruct (_ =? _). Qed.

Lemma find_id_update l i j f : (forall s, id (f s) = id s) ->
  find_id (map (λ s, if id s =? i then f s else s) l) j =
  if j =? i then f <$> find_id l j else find_id l j.
Proof.
  intros Hf. unfold find_id. induction l as [|s l IH]; cbn [List.find map]; [by destruct (j =? i)|].
  destruct (Z.eqb_spec (id s) i) as [Es | Es]; rewrite ?Hf;
    destruct (Z.eqb_spec (id s) j) as [Ej | Ej]; destruct (Z.eqb_spec j i) as [Eji | Eji]; subst;
    try done; try lia; rewrite IH; rewrite ?Z.eqb_refl; try done; by rewrite (proj2 (Z.eqb_neq _ _)).
Qed.

Lemma map_id_del l i : map id (del_id l i) = List.filter (λ j, negb (j =? i)) (map id l).
Proof.
  unfold del_id. induction l as [|s l IH]; [done|]. cbn [List.filter map].
  destruct (negb (id s =? i)); cbn [map]; by rewrite IH.
Qed.

Lemma elem_of_filter_neq (l : list Z) i j : j ∈ List.filter (λ j, negb (j =? i)) l <-> j ∈ l /\ j <> i.
Proof.
  rewrite !list_elem_of_In, filter_In. destruct (Z.eqb_spec j i); cbn; intuition congruence.
Qed.

Lemma NoDup_filter_bool {A} (f : A -> bool) (l : list A) : NoDup l -> NoDup (List.filter f l).
Proof. rewrite !NoDup_ListNoDup. apply List.NoDup_filter. Qed.

Lemma sessions_ok_del t i : sessions_ok t -> sessions_ok (set_sessions t (del_id (s_sessions t) i)).
Proof.
  intros [Hl Hn Hf]. constructor; cbn; [done | |]; rewrite map_id_del.
  - by apply NoDup_filter_bool.
  - apply list.Forall_forall. intros j Hj%elem_of_filter_neq. by eapply list.Forall_forall; [exact Hf | apply Hj].
Qed.

Lemma sessions_ok_update t i f : (forall s, id (f s) = id s) -> sessions_ok t -> sessions_ok (update_session t i f).
Proof. intros Hf [Hl Hn Hfit]. constructor; cbn; [done | |]; by rewrite map_id_update. Qed.

Lemma sessions_ok_log t i : sessions_ok t -> sessions_ok (log_delete t i).
Proof. by intros []. Qed.

(** The draw ends as soon as an unused value comes up. *)
Lemma draw_id_ends rnd l n i : wrap 32 (rnd (i + n)%nat) ∉ map id l ->
  exists j, draw_id (S n) rnd i l = Some j /\ j ∉ map id l /\ fits 32 j.
Proof.
  revert i. induction n as [|n IH]; intros i Hn.
  - rewrite Nat.add_0_r in Hn. cbn [draw_id]. rewrite (proj2 (find_id_None _ _)) by done.
    eexists. split_and!; [done | done | by apply wrap_fits].
  - remember (S n) as m eqn:Hm. cbn [draw_id]. subst m.
    destruct (find_id l (wrap 32 (rnd i))) eqn:E.
    + apply IH. by replace (S i + n)%nat with (i + S n)%nat by lia.
    + eexists. split_and!; [done | by apply find_id_None | by apply wrap_fits].
Qed.

(** With [n] sessions, [n + 1] different draws include an unused one. *)
Lemma fresh_draw (rnd : nat -> Z) (l : list Z) n : (length l < n)%nat ->
  NoDup (map (λ i, wrap 32 (rnd i)) (seq 0 n)) -> exists i, (i < n)%nat /\ wrap 32 (rnd i) ∉ l.
Proof.
  intros Hl Hn. destruct (decide (Exists (λ i, wrap 32 (rnd i) ∉ l) (seq 0 n))) as [He | He].
  - apply list.Exists_exists in He as (i & Hi%elem_of_seq & Hx). exists i. split; [lia | done].
  - exfalso. apply not_Exists_Forall in He; [|apply _]. rewrite list.Forall_forall in He.
    assert (length (map (λ i, wrap 32 (rnd i)) (seq 0 n)) <= length l)%nat; [|rewrite length_map, length_seq in *; lia].
    apply NoDup_ListNoDup in Hn. apply (NoDup_incl_length Hn). intros x (i & <- & Hi)%in_map_iff.
    apply list_elem_of_In. apply dec_stable. apply He. by apply list_elem_of_In.
Qed.

Lemma find_id_snoc l s j : find_id (l ++ [s]) j =
  match find_id l j with Some x => Some x | None => if id s =? j then Some s else None end.
Proof. unfold find_id. induction l as [|x l IH]; [done|]. cbn [List.find app]. by destruct (id x =? j). Qed.

Lemma find_id_del l i j : find_id (del_id l i) j = if j =? i then None else find_id l j.
Proof.
  unfold find_id, del_id. induction l as [|s l IH]; cbn [List.filter List.find]; [by destruct (j =? i)|].
  destruct (Z.eqb_spec (id s) i) as [E | E]; cbn [negb List.find]; rewrite IH;
    destruct (Z.eqb_spec j i), (Z.eqb_spec (id s) j); try done; lia.
Qed.

Lemma draw_id_more n k rnd i l j : draw_id n rnd i l = Some j -> draw_id (n + k) rnd i l = Some j.
Proof.
  revert i. induction n as [|n IH]; intros i; [done|]. cbn [draw_id Nat.add].
  destruct (find_id l (wrap 32 (rnd i))); [apply IH | done].
Qed.

Lemma pure_new_spec t rnd now n : sessions_ok t -> (length (s_sessions t) < n)%nat ->
  NoDup (map (λ i, wrap 32 (rnd i)) (seq 0 n)) ->
  exists t' i s, dap_stream_session_pure_new n t true rnd now = Some (t', Some i) /\ sessions_ok t' /\
    find_id (s_sessions t) i = None /\ find_id (s_sessions t') i = Some s /\ opened s = 0 /\
    forall j, j <> i -> find_id (s_sessions t') j = find_id (s_sessions t) j.
Proof.
  intros [Hl Hn Hf] Hlen Hd. destruct (fresh_draw rnd (map id (s_sessions t)) n) as (i & Hi & Hfr);
    [by rewrite length_map | done |].
  assert (D : exists j, draw_id n rnd 0 (s_sessions t) = Some j /\ j ∉ map id (s_sessions t) /\ fits 32 j).
  { replace n with (S i + (n - S i))%nat by lia.
    destruct (draw_id_ends rnd (s_sessions t) i 0 Hfr) as (j & Ej & ?). exists j. split; [|done].
    by apply draw_id_more. }
  destruct D as (j & Ej & Hj & Hfj).
  unfold dap_stream_session_pure_new, lock. rewrite Hl. cbn [negb mbind option_bind set_mutex s_sessions].
  rewrite Ej. cbn [mbind option_bind]. eexists _, j, _. split; [done|]. cbn.
  assert (Fj : find_id (s_sessions t) j = None) by (by apply find_id_None). split_and!.
  - constructor; cbn; [done | |]; rewrite map_app; cbn [map id].
    + apply list.NoDup_app. split; [done|]. split; [|apply NoDup_singleton].
      intros x Hx ->%list_elem_of_singleton. done.
    + apply Forall_app. split; [done|]. constructor; [done | constructor].
  - done.
  - rewrite find_id_snoc, Fj. cbn [id]. by rewrite Z.eqb_refl.
  - done.
  - intros x Hx. rewrite find_id_snoc. cbn [id]. rewrite (proj2 (Z.eqb_neq j x)) by done. by destruct (find_id (s_sessions t) x).
Qed.

Lemma open_spec t i s : sessions_ok t -> find_id (s_sessions t) i = Some s ->
  exists t', dap_stream_session_open t i = Some (t', opened s) /\ sessions_ok t' /\
    exists s', find_id (s_sessions t') i = Some s' /\ opened s' <> 0 /\ (opened s = 0 -> opened s' = 1).
Proof.
  intros Hok Hs. unfold dap_stream_session_open. rewrite Hs. cbn [mbind option_bind]. cbv zeta.
  eexists. split; [done|]. split; [apply sessions_ok_update; [intros s'; by destruct (_ =? _) | done]|].
  cbn. rewrite find_id_update by (intros s'; by destruct (_ =? _)). rewrite Z.eqb_refl, Hs. cbn.
  eexists. split; [done|]. destruct (Z.eqb_spec (opened s) 0) as [-> | ?]; split; (done || lia).
Qed.

Lemma close_spec t i : sessions_ok t ->
  exists t' r, dap_stream_session_close t i = Some (t', r) /\ sessions_ok t' /\
    (r = 0 <-> is_Some (find_id (s_sessions t) i)) /\
    forall j, find_id (s_sessions t') j = if j =? i then None else find_id (s_sessions t) j.
Proof.
  intros Hok. pose proof Hok as [Hl Hn Hf]. unfold dap_stream_session_close, lock. rewrite Hl. cbn [mbind option_bind set_mutex s_sessions].
  destruct (find_id (s_sessions t) i) as [s|] eqn:E.
  - eexists _, _. split; [done|].
    assert (Hok' : sessions_ok (unlock (set_sessions (set_mutex t true) (del_id (s_sessions t) i)))).
    { pose proof (sessions_ok_del t i Hok) as [? ? ?]. by constructor. }
    split; [by destruct (callback_delete s); [apply sessions_ok_log|]|].
    split; [by split; [eauto|]|].
    intros j. destruct (callback_delete s); cbn; apply find_id_del.
  - eexists _, _. split; [done|]. split; [by constructor|].
    split; [by split; [lia | intros [? ?]]|]. intros j. cbn. by destruct (Z.eqb_spec j i) as [-> | ?].
Qed.

Lemma deinit_loop_spec t l : (forall s, s ∈ s_sessions t -> id s ∈ map id l) ->
  s_sessions (deinit_loop t l) = [] /\ s_sessions_mutex (deinit_loop t l) = s_sessions_mutex t.
Proof.
  revert t. induction l as [|s l IH]; intros t H; cbn [deinit_loop].
  - destruct (s_sessions t) as [|x l]; [done|]. exfalso.
    by apply (not_elem_of_nil (id x)), (H x), list_elem_of_here.
  - set (t' := if callback_delete s then _ else _). destruct (IH t') as [E1 E2].
    + intros x Hx. assert (Hx' : x ∈ del_id (s_sessions t) (id s)) by (subst t'; by destruct (callback_delete s)).
      apply list_elem_of_In, filter_In in Hx' as [Hin Hne]. apply list_elem_of_In in Hin.
      apply H in Hin. cbn in Hin. apply elem_of_cons in Hin as [E | ?]; [|done]. rewrite E, Z.eqb_refl in Hne. done.
    + split; [done|]. rewrite E2. subst t'. by destruct (callback_delete s).
Qed.

(** ** Properties *)


