(* ===== verification/Stream.v ===== *)
(** * Streams: packets, fragments and channels (net/stream/stream/dap_stream.c,
    dap_stream_pkt.c, net/stream/ch/dap_stream_ch_pkt.c)

    A stream carries the packets of its channels over a socket.  A channel
    packet is encrypted into one stream packet, or cut into fragments that are
    encrypted one by one; the receiver scans its input buffer for the packet
    signature, decrypts, reassembles, checks the sequence number and hands the
    packet to the channel.

    [dap_stream] holds the fields of [dap_stream_t] that the two directions
    use, its channels, and the log of what the receiver hands on.  The header
    fields are read and written at their offsets in the packed structures; an
    access outside a block is [None].  The clock and the outcome of a
    reallocation of the output buffer are arguments; other allocations
    succeed.  The keep-alive timer itself is not part of the state. *)

From S2P Require Import Prelude Base64 Enc Esocket Session.
Local Open Scope Z_scope.

(** ** Packets *)

Definition STREAM_PKT_TYPE_DATA_PACKET : Z := 0x00.
Definition STREAM_PKT_TYPE_FRAGMENT_PACKET : Z := 0x01.
Definition STREAM_PKT_TYPE_SERVICE_PACKET : Z := 0xff.
Definition STREAM_PKT_TYPE_KEEPALIVE : Z := 0x11.
Definition STREAM_PKT_TYPE_ALIVE : Z := 0x12.

Definition c_dap_stream_sig : list Z := [0xa0; 0x95; 0x96; 0xa9; 0x9e; 0x5c; 0xfb; 0xfa].

Definition sizeof_pkt_hdr : Z := 37.
Definition sizeof_fragment_pkt : Z := 12.
Definition sizeof_srv_pkt : Z := 9.
Definition sizeof_ch_pkt_hdr : Z := 16.

Definition DAP_STREAM_PKT_FRAGMENT_SIZE : Z := 16 * 1024.

(** [dap_stream_pkt_hdr_t] *)
Definition pkt_hdr (size timestamp type src_addr dst_addr : Z) : list Z :=
  c_dap_stream_sig ++ fields [(4%nat, size); (8%nat, timestamp); (1%nat, type); (8%nat, src_addr); (8%nat, dst_addr)].
Definition hdr_size (pkt : list Z) : option Z := mem_le pkt 8 4.
Definition hdr_type (pkt : list Z) : option Z := mem_le pkt 20 1.

(** [dap_stream_fragment_pkt_t] *)
Definition fragment_hdr (size mem_shift full_size : Z) : list Z :=
  fields [(4%nat, size); (4%nat, mem_shift); (4%nat, full_size)].

(** [dap_stream_ch_pkt_hdr_t] *)
Definition ch_pkt_hdr (id enc_type type padding seq_id data_size : Z) : list Z :=
  fields [(1%nat, id); (1%nat, enc_type); (1%nat, type); (1%nat, padding); (8%nat, seq_id); (4%nat, data_size)].
Definition ch_id (p : list Z) : option Z := mem_le p 0 1.
Definition ch_type (p : list Z) : option Z := mem_le p 2 1.
Definition ch_seq_id (p : list Z) : option Z := mem_le p 4 8.
Definition ch_data_size (p : list Z) : option Z := mem_le p 12 4.

(** ** Channels and streams *)

(** [dap_stream_ch_proc_t]; the callbacks are external. *)
Record ch_proc := Proc {
  proc_id : Z;
  packet_in_callback : bool;
}.

Record dap_stream_ch := Ch {
  ch_proc_of : option ch_proc;
  ready_to_write : bool;
  ready_to_read : bool;
  bytes_write : Z;
  bytes_read : Z;
  packet_in_notifiers : list Z;
  packet_out_notifiers : list Z;
}.

(** What leaves the module: a packet handed to its channel's callback, a
    packet shown to a notifier. *)
Inductive stream_event :=
  | EvPacketIn (ch_id type : Z) (data : list Z)
  | EvNotifyIn (notifier type : Z) (data : list Z)
  | EvNotifyOut (notifier type : Z) (data : list Z).

(** What the [_inheritor] of the socket is. *)
Inductive es_kind := EsHttpServer | EsUdp | EsClient.

Record dap_stream := Stream {
  st_node : Z;
  st_kind : es_kind;
  st_session : option dap_enc_key;
  st_esocket : esocket;
  is_active : bool;
  buf_fragments : option (list Z);
  buf_fragments_size_total : Z;
  buf_fragments_size_filled : Z;
  channel : list dap_stream_ch;
  seq_id : Z;
  client_last_seq_id_packet : Z;
  enc_calls : nat;
  slog : list stream_event;
}.

Definition set_esocket (s : dap_stream) es :=
  Stream (st_node s) (st_kind s) (st_session s) es (is_active s) (buf_fragments s) (buf_fragments_size_total s)
    (buf_fragments_size_filled s) (channel s) (seq_id s) (client_last_seq_id_packet s) (enc_calls s) (slog s).
Definition set_active (s : dap_stream) b :=
  Stream (st_node s) (st_kind s) (st_session s) (st_esocket s) b (buf_fragments s) (buf_fragments_size_total s)
    (buf_fragments_size_filled s) (channel s) (seq_id s) (client_last_seq_id_packet s) (enc_calls s) (slog s).
Definition set_fragments (s : dap_stream) buf total filled :=
  Stream (st_node s) (st_kind s) (st_session s) (st_esocket s) (is_active s) buf total
    filled (channel s) (seq_id s) (client_last_seq_id_packet s) (enc_calls s) (slog s).
Definition set_channel (s : dap_stream) c :=
  Stream (st_node s) (st_kind s) (st_session s) (st_esocket s) (is_active s) (buf_fragments s) (buf_fragments_size_total s)
    (buf_fragments_size_filled s) c (seq_id s) (client_last_seq_id_packet s) (enc_calls s) (slog s).
Definition set_seq_id (s : dap_stream) n :=
  Stream (st_node s) (st_kind s) (st_session s) (st_esocket s) (is_active s) (buf_fragments s) (buf_fragments_size_total s)
    (buf_fragments_size_filled s) (channel s) n (client_last_seq_id_packet s) (enc_calls s) (slog s).
Definition set_last_seq (s : dap_stream) n :=
  Stream (st_node s) (st_kind s) (st_session s) (st_esocket s) (is_active s) (buf_fragments s) (buf_fragments_size_total s)
    (buf_fragments_size_filled s) (channel s) (seq_id s) n (enc_calls s) (slog s).
Definition set_calls (s : dap_stream) n :=
  Stream (st_node s) (st_kind s) (st_session s) (st_esocket s) (is_active s) (buf_fragments s) (buf_fragments_size_total s)
    (buf_fragments_size_filled s) (channel s) (seq_id s) (client_last_seq_id_packet s) n (slog s).
Definition set_session (s : dap_stream) k :=
  Stream (st_node s) (st_kind s) k (st_esocket s) (is_active s) (buf_fragments s) (buf_fragments_size_total s)
    (buf_fragments_size_filled s) (channel s) (seq_id s) (client_last_seq_id_packet s) (enc_calls s) (slog s).
Definition semit (s : dap_stream) e :=
  Stream (st_node s) (st_kind s) (st_session s) (st_esocket s) (is_active s) (buf_fragments s) (buf_fragments_size_total s)
    (buf_fragments_size_filled s) (channel s) (seq_id s) (client_last_seq_id_packet s) (enc_calls s) (slog s ++ e).

(** ** Sending *)

(** The thread's packet buffer. *)
Definition sizeof_pkt_buf : Z := DAP_STREAM_PKT_FRAGMENT_SIZE + sizeof_pkt_hdr + 0x40.

(** The state of a sending thread: the stream and [s_pkt_buf]. *)
Definition tx := (dap_stream * list Z)%type.

Definition dap_stream_pkt_write_unsafe (g_node_addr now : Z) (realloc_ok : bool) (t : tx) (a_type : Z)
    (a_data : list Z) : option (tx * Z) :=
  let '(s, s_pkt_buf) := t in
  if DAP_STREAM_PKT_FRAGMENT_SIZE <? Z.of_nat (length a_data) then Some (t, 0) else
  let s := set_active s true in
  l_key ← st_session s;
  let l_full_size := dap_enc_key_get_enc_size l_key (Z.of_nat (length a_data)) + sizeof_pkt_hdr in
  '(d, n) ← dap_enc_code l_key (enc_calls s) a_data (l_full_size - sizeof_pkt_hdr) DAP_ENC_DATA_TYPE_RAW;
  let s := set_calls s (S (enc_calls s)) in
  s_pkt_buf ← mem_write s_pkt_buf sizeof_pkt_hdr d;
  s_pkt_buf ← mem_write s_pkt_buf 0 (pkt_hdr (wrap 32 n) now a_type g_node_addr (st_node s));
  out ← mem_read s_pkt_buf 0 l_full_size;
  '(es, ret) ← dap_events_socket_write_unsafe (st_esocket s) realloc_ok out;
  Some ((set_esocket s es, s_pkt_buf), ret).

(** A change of the channel at index [c], and of the socket with it. *)
Definition update_ch (s : dap_stream) (c : nat) (f : dap_stream_ch -> dap_stream_ch) : dap_stream :=
  set_channel s (alter f c (channel s)).

Definition dap_stream_ch_set_ready_to_write_unsafe (s : dap_stream) (c : nat) (is_ready : bool) : dap_stream :=
  match channel s !! c with
  | Some ch =>
    if eqb (ready_to_write ch) is_ready then s
    else
      let s := update_ch s c (λ ch, Ch (ch_proc_of ch) is_ready (ready_to_read ch) (bytes_write ch) (bytes_read ch)
                 (packet_in_notifiers ch) (packet_out_notifiers ch)) in
      set_esocket s (dap_events_socket_set_writable_unsafe (st_esocket s) is_ready)
  | None => s
  end.

Definition l_max_fragm_size : Z :=
  DAP_STREAM_PKT_FRAGMENT_SIZE - DAP_STREAM_PKT_ENCRYPTION_OVERHEAD - sizeof_fragment_pkt.

(** The loop over the fragments of a channel packet: [l_buf] is the block the
    fragments are built in, [l_hdr] the channel header, which is the first
    fragment. *)
Fixpoint fragments_loop (fuel : nat) (g_node_addr now : Z) (realloc_ok : bool) (t : tx) (c : nat)
    (l_buf l_hdr a_data : list Z) (l_max_size l_data_size l_fragment_size l_ret : Z) : option (tx * Z) :=
  if l_data_size =? 0 then Some (t, l_ret) else
  match fuel with
  | O => None
  | S fuel =>
    let mem_shift := wrap 32 (l_max_size - l_data_size) in
    chunk ← (if negb (mem_shift =? 0)
             then mem_read a_data (mem_shift - sizeof_ch_pkt_hdr) l_fragment_size
             else mem_read l_hdr 0 l_fragment_size);
    l_buf ← mem_write l_buf 0 (fragment_hdr (wrap 32 l_fragment_size) mem_shift (wrap 32 l_max_size) ++ chunk);
    l_fragment ← mem_read l_buf 0 (l_fragment_size + sizeof_fragment_pkt);
    '(t, ret) ← dap_stream_pkt_write_unsafe g_node_addr now realloc_ok t STREAM_PKT_TYPE_FRAGMENT_PACKET l_fragment;
    let t := (dap_stream_ch_set_ready_to_write_unsafe t.1 c true, t.2) in
    let l_data_size := l_data_size - l_fragment_size in
    fragments_loop fuel g_node_addr now realloc_ok t c l_buf l_hdr a_data l_max_size l_data_size
      (Z.min l_data_size l_max_fragm_size) (wrap 64 (l_ret + ret))
  end.

Definition add_bytes_write (s : dap_stream) (c : nat) (f : Z -> Z) : dap_stream :=
  update_ch s c (λ ch, Ch (ch_proc_of ch) (ready_to_write ch) (ready_to_read ch) (f (bytes_write ch)) (bytes_read ch)
                         (packet_in_notifiers ch) (packet_out_notifiers ch)).

Definition dap_stream_ch_pkt_write_unsafe (g_node_addr now : Z) (realloc_ok : bool) (t : tx) (c : nat)
    (a_type : Z) (a_data : list Z) : option (tx * Z) :=
  let '(s, s_pkt_buf) := t in
  match channel s !! c with
  | None => Some (t, 0)
  | Some ch =>
    match ch_proc_of ch with
    | None => Some (t, 0)
    | Some proc =>
      let a_data_size := Z.of_nat (length a_data) in
      let l_max_size := wrap 64 (a_data_size + sizeof_ch_pkt_hdr) in
      let l_data_size := l_max_size in
      let l_buf := replicate (Z.to_nat l_max_size) 0 in
      let l_hdr := ch_pkt_hdr (proc_id proc) 0 a_type 0 (seq_id s) (wrap 32 a_data_size) in
      let t := (set_seq_id s (wrap 64 (seq_id s + 1)), s_pkt_buf) in
      let finish (r : tx * Z) : option (tx * Z) :=
        let '((s, b), l_ret) := r in
        let s := add_bytes_write s c (λ n, wrap 64 (n + a_data_size)) in
        let s := semit s (map (λ n, EvNotifyOut n a_type a_data) (packet_out_notifiers ch)) in
        Some ((s, b), l_ret) in
      if (0 <? l_data_size) && (l_data_size <=? l_max_fragm_size) then
        l_buf ← mem_write l_buf 0 l_hdr;
        l_buf ← mem_write l_buf sizeof_ch_pkt_hdr a_data;
        '(t, l_ret) ← dap_stream_pkt_write_unsafe g_node_addr now realloc_ok t STREAM_PKT_TYPE_DATA_PACKET l_buf;
        finish ((dap_stream_ch_set_ready_to_write_unsafe t.1 c true, t.2), l_ret)
      else if l_max_fragm_size <? l_data_size then
        r ← fragments_loop (Z.to_nat l_data_size) g_node_addr now realloc_ok t c l_buf l_hdr a_data
              l_max_size l_data_size sizeof_ch_pkt_hdr 0;
        finish r
      else Some ((add_bytes_write t.1 c (λ _, 0), t.2), 0)
    end
  end.

(** ** Receiving *)

(** A 64-bit unsigned value read as [long long]. *)
Definition to_ll (x : Z) : Z := if x <? 2 ^ 63 then x else x - 2 ^ 64.

(** [pkt_cache] is the block of the packet being processed; the signed
    difference overflowing is undefined. *)
Definition s_detect_loose_packet (s : dap_stream) (pkt_cache : list Z) : option (dap_stream * bool) :=
  l_ch_pkt ← (if negb (buf_fragments_size_filled s =? 0) then buf_fragments s else Some pkt_cache);
  seq ← ch_seq_id l_ch_pkt;
  let last := client_last_seq_id_packet s in
  let l_count_lost_packets :=
    if negb (seq =? 0) || negb (last =? 0) then to_ll seq - to_ll (wrap 64 (last + 1)) else 0 in
  if (l_count_lost_packets <? - 2 ^ 63) || (2 ^ 63 <=? l_count_lost_packets) then None else
  Some (set_last_seq s seq, l_count_lost_packets <? 0).

(** The first channel with a processor of this identifier. *)
Definition has_proc_id (i : Z) (ch : dap_stream_ch) : bool :=
  match ch_proc_of ch with Some p => proc_id p =? i | None => false end.

Definition find_ch (s : dap_stream) (i : Z) : option nat :=
  fst <$> list_find (λ ch, has_proc_id i ch = true) (channel s).

(** The state of a receiving thread: the stream and the table of sessions,
    which service packets touch. *)
Definition rx := (dap_stream * sessions)%type.

Section Receive.

(** The verdict of a channel's callback on a packet. *)
Variable callback : Z -> Z -> list Z -> bool.

(** From the sequence check on: [l_ch_pkt] holds a header and exactly the
    announced data. *)
Definition dispatch_packet (s : dap_stream) (pkt_cache l_ch_pkt : list Z) : option dap_stream :=
  data_size ← ch_data_size l_ch_pkt;
  '(s, loose) ← s_detect_loose_packet s pkt_cache;
  if loose : bool then Some s else
  i ← ch_id l_ch_pkt;
  match find_ch s i with
  | None => Some s
  | Some c =>
    let s := update_ch s c (λ ch, Ch (ch_proc_of ch) (ready_to_write ch) (ready_to_read ch) (bytes_write ch)
               (wrap 64 (bytes_read ch + data_size)) (packet_in_notifiers ch) (packet_out_notifiers ch)) in
    ch ← channel s !! c;
    p ← ch_proc_of ch;
    if packet_in_callback p then
      t ← ch_type l_ch_pkt;
      data ← mem_read l_ch_pkt sizeof_ch_pkt_hdr data_size;
      let s := semit s [EvPacketIn i t data] in
      Some (if callback i t data then semit s (map (λ n, EvNotifyIn n t data) (packet_in_notifiers ch)) else s)
    else Some s
  end.

(** The [STREAM_PKT_TYPE_DATA_PACKET] case from its size checks on; the result
    says whether the fragments are to be dropped. *)
Definition data_packet_in (s : dap_stream) (pkt_cache l_ch_pkt : list Z) (l_dec_pkt_size : Z) (fragment : bool)
    : option (dap_stream * bool) :=
  if l_dec_pkt_size <? sizeof_ch_pkt_hdr then Some (s, true) else
  data_size ← ch_data_size l_ch_pkt;
  if negb (l_dec_pkt_size =? data_size + sizeof_ch_pkt_hdr) then Some (s, true) else
  s ← dispatch_packet s pkt_cache l_ch_pkt;
  Some (s, fragment).

(** [dap_stream_pkt_read_unsafe] into a new block of the announced size: the
    block and the size decoded. *)
Definition dap_stream_pkt_read_unsafe (s : dap_stream) (a_pkt : list Z) : option (list Z * Z) :=
  l_key ← st_session s;
  size ← hdr_size a_pkt;
  data ← mem_read a_pkt sizeof_pkt_hdr size;
  let l_dec_size := dap_enc_decode_out_size l_key size DAP_ENC_DATA_TYPE_RAW in
  let pkt_cache := replicate (Z.to_nat l_dec_size) 0 in
  '(d, n) ← dec_na l_key data l_dec_size;
  pkt_cache ← mem_write pkt_cache 0 d;
  Some (pkt_cache, n).

Definition fragment_packet_in (s : dap_stream) (a_pkt : list Z) : option (dap_stream * bool) :=
  '(pkt_cache, l_dec_pkt_size) ← dap_stream_pkt_read_unsafe s a_pkt;
  if l_dec_pkt_size =? 0 then Some (s, true) else
  size ← mem_le pkt_cache 0 4;
  if negb (l_dec_pkt_size =? size + sizeof_fragment_pkt) then Some (s, true) else
  mem_shift ← mem_le pkt_cache 4 4;
  if negb (buf_fragments_size_filled s =? mem_shift) then Some (s, true) else
  full_size ← mem_le pkt_cache 8 4;
  let renew := match buf_fragments s with None => true | Some _ => buf_fragments_size_total s <? full_size end in
  let s := if renew
           then set_fragments s (if full_size =? 0 then None else Some (replicate (Z.to_nat full_size) 0)) full_size
                  (buf_fragments_size_filled s)
           else s in
  data ← mem_read pkt_cache sizeof_fragment_pkt size;
  buf ← mem_write (default [] (buf_fragments s)) mem_shift data;
  let s := set_fragments s (const buf <$> buf_fragments s) (buf_fragments_size_total s)
             (wrap 64 (buf_fragments_size_filled s + size)) in
  if buf_fragments_size_filled s <? full_size then Some (s, false)
  else data_packet_in s pkt_cache (default [] (buf_fragments s)) (buf_fragments_size_total s) true.

(** [s_check_session] with the sessions and the registered processors: the
    channels named by the session are created on the stream.  The
    [_inheritor] of a socket that does not serve HTTP is not a
    [dap_http_client_t]: reading its stream is undefined. *)
Definition dap_stream_ch_new (s_proc : Z -> ch_proc) (s : dap_stream) (a_id : Z) : dap_stream :=
  set_channel s (channel s ++ [Ch (Some (s_proc a_id)) false true 0 0 [] []]).

Definition s_stream_states_update (s : dap_stream) : dap_stream :=
  set_esocket s (dap_events_socket_set_writable_unsafe (st_esocket s) (existsb ready_to_write (channel s))).

Definition s_check_session (s_proc : Z -> ch_proc) (r : rx) (a_id : Z) : option rx :=
  let '(s, t) := r in
  '(t, l_session) ← dap_stream_session_by_id t a_id;
  match l_session with
  | None => Some (s, t)
  | Some ss =>
    '(t, ret) ← dap_stream_session_open t a_id;
    if negb (ret =? 0) then Some (s, t) else
    match st_kind s with
    | EsHttpServer =>
      let s := set_session s (key ss) in
      let s := fold_left (dap_stream_ch_new s_proc) (List.filter (λ c, negb (c =? 0)) (active_channels ss)) s in
      Some (s_stream_states_update s, t)
    | _ => None
    end
  end.

Variable s_proc : Z -> ch_proc.

Definition s_stream_proc_pkt_in (realloc_ok : bool) (r : rx) (a_pkt : list Z) : option rx :=
  let '(s, t) := r in
  size ← hdr_size a_pkt;
  let a_pkt_size := sizeof_pkt_hdr + size in
  let s := set_active s true in
  type ← hdr_type a_pkt;
  let clean (res : dap_stream * bool) : rx :=
    let '(s, l_is_clean_fragments) := res in
    (if l_is_clean_fragments then set_fragments s None 0 0 else s, t) in
  if type =? STREAM_PKT_TYPE_FRAGMENT_PACKET then
    res ← fragment_packet_in s a_pkt; Some (clean res)
  else if type =? STREAM_PKT_TYPE_DATA_PACKET then
    '(pkt_cache, n) ← dap_stream_pkt_read_unsafe s a_pkt;
    res ← data_packet_in s pkt_cache pkt_cache n false; Some (clean res)
  else if type =? STREAM_PKT_TYPE_SERVICE_PACKET then
    if negb (a_pkt_size =? sizeof_pkt_hdr + sizeof_srv_pkt) then Some (s, t)
    else session_id ← mem_le a_pkt sizeof_pkt_hdr 4; s_check_session s_proc (s, t) session_id
  else if type =? STREAM_PKT_TYPE_KEEPALIVE then
    '(es, _) ← dap_events_socket_write_unsafe (st_esocket s) realloc_ok (pkt_hdr 0 0 STREAM_PKT_TYPE_ALIVE 0 0);
    Some (set_esocket s es, t)
  else if type =? STREAM_PKT_TYPE_ALIVE then Some (set_active s false, t)
  else Some (s, t).

(** [memchr]: the rest of the buffer from the first byte [c] on. *)
Fixpoint memchr (c : Z) (l : list Z) : option (list Z) :=
  match l with
  | [] => None
  | x :: l' => if x =? c then Some l else memchr c l'
  end.

(** The loop of [dap_stream_data_proc_read]; [l] is the buffer from [l_pos]
    on. *)
Fixpoint proc_read_loop (fuel : nat) (realloc_ok : bool) (r : rx) (l : list Z) (l_processed_size : Z)
    : option (rx * Z) :=
  match memchr 0xa0 l with
  | None => Some (r, l_processed_size)
  | Some l =>
    if Z.of_nat (length l) <? sizeof_pkt_hdr then Some (r, l_processed_size) else
    match fuel with
    | O => None
    | S fuel =>
      if bool_decide (take 8 l = c_dap_stream_sig) then
        size ← hdr_size l;
        if DAP_STREAM_PKT_SIZE_MAX <? size then
          proc_read_loop fuel realloc_ok r (drop (Z.to_nat sizeof_pkt_hdr) l) (l_processed_size + sizeof_pkt_hdr)
        else
          let l_shift := sizeof_pkt_hdr + size in
          if l_shift <=? Z.of_nat (length l) then
            r ← s_stream_proc_pkt_in realloc_ok r (take (Z.to_nat l_shift) l);
            proc_read_loop fuel realloc_ok r (drop (Z.to_nat l_shift) l) (l_processed_size + l_shift)
          else Some (r, l_processed_size)
      else proc_read_loop fuel realloc_ok r (drop 1 l) l_processed_size
    end
  end.

Definition dap_stream_data_proc_read (realloc_ok : bool) (r : rx) : option (rx * Z) :=
  let buf := es_buf_in (st_esocket r.1) in
  proc_read_loop (length buf) realloc_ok r buf 0.

(** A client's read callback while streaming: what was processed leaves the
    input buffer.  (The HTTP server's read loop does the same with the size its
    data callback reports.) *)
Definition stream_read_streaming (realloc_ok : bool) (r : rx) : option rx :=
  '(r, n) ← dap_stream_data_proc_read realloc_ok r;
  Some (set_esocket r.1 (dap_events_socket_shrink_buf_in (st_esocket r.1) n), r.2).

End Receive.

(** The keep-alive timer of a live socket. *)
Definition s_callback_keepalive (realloc_ok : bool) (s : dap_stream) : option dap_stream :=
  if is_active s then Some (set_active s false)
  else
    '(es, _) ← dap_events_socket_write_unsafe (st_esocket s) realloc_ok (pkt_hdr 0 0 STREAM_PKT_TYPE_KEEPALIVE 0 0);
    Some (set_esocket s es).
