(* ===== verification/StreamTx.v ===== *)
(** * Streams: what a sender writes

    The sender's side of [Stream.v] turns a channel packet into wire packets:
    one of data, or one per fragment.  The laws of the cipher enter through
    [SymCipher]. *)

From S2P Require Import Prelude Base64 Enc Esocket Session Stream.
Local Open Scope Z_scope.

(** ** Wire packets *)

(** [w] is a stream packet of type [type] that decrypts to [x]. *)
Definition wire (k : dap_enc_key) (type : Z) (x w : list Z) : Prop :=
  exists now src dst y,
    w = pkt_hdr (Z.of_nat (length y)) now type src dst ++ y /\ fits 8 type /\
    0 < Z.of_nat (length y) <= DAP_STREAM_PKT_SIZE_MAX /\
    forall m', dap_enc_key_get_dec_size k (Z.of_nat (length y)) <= m' ->
      exists rest, dec_na k y m' = Some (x ++ rest, Z.of_nat (length x)) /\
        Z.of_nat (length (x ++ rest)) <= m'.

Lemma length_pkt_hdr size now type src dst : length (pkt_hdr size now type src dst) = 37%nat.
Proof. unfold pkt_hdr. by rewrite length_app, length_fields. Qed.

Lemma hdr_size_spec size now type src dst post : fits 32 size ->
  hdr_size (pkt_hdr size now type src dst ++ post) = Some size.
Proof.
  intros H. unfold hdr_size, pkt_hdr. rewrite <- app_assoc.
  rewrite <- (app_nil_r (fields _ ++ post)).
  apply (mem_le_inside c_dap_stream_sig _ [] 0 4 size); [|done].
  apply (mem_le_field [] 4 size [(8%nat, now); (1%nat, type); (8%nat, src); (8%nat, dst)] post H).
Qed.

Lemma hdr_type_spec size now type src dst post : fits 8 type ->
  hdr_type (pkt_hdr size now type src dst ++ post) = Some type.
Proof.
  intros H. unfold hdr_type, pkt_hdr. rewrite <- app_assoc.
  rewrite <- (app_nil_r (fields _ ++ post)).
  apply (mem_le_inside c_dap_stream_sig _ [] 12 1 type); [|done].
  apply (mem_le_field [(4%nat, size); (8%nat, now)] 1 type [(8%nat, src); (8%nat, dst)] post H).
Qed.

(** What the scan of the input buffer looks at. *)
Record framed (w : list Z) : Prop := {
  fr_sig : take 8 w = c_dap_stream_sig;
  fr_size : hdr_size w = Some (Z.of_nat (length w) - sizeof_pkt_hdr);
  fr_len : sizeof_pkt_hdr < Z.of_nat (length w) <= sizeof_pkt_hdr + DAP_STREAM_PKT_SIZE_MAX;
}.

Lemma wire_framed k type x w : wire k type x w -> framed w.
Proof.
  intros (now & src & dst & y & -> & _ & Hy & _). unfold DAP_STREAM_PKT_SIZE_MAX in Hy.
  constructor; rewrite ?length_app, ?length_pkt_hdr; unfold sizeof_pkt_hdr, DAP_STREAM_PKT_SIZE_MAX; try lia.
  - done.
  - rewrite hdr_size_spec by (unfold fits; lia). f_equal. lia.
Qed.

(** ** Sending one packet *)

Record tx_ok (k : dap_enc_key) (t : tx) : Prop := {
  to_session : st_session t.1 = Some k;
  to_es : es_ok (st_esocket t.1);
  to_open : es_signal_close (st_esocket t.1) = false;
  to_max : es_buf_out_size_max (st_esocket t.1) <= 2 ^ 60;
  to_buf : Z.of_nat (length t.2) = sizeof_pkt_buf;
}.

(** [t'] is [t] with [d] appended to its output and the fields a receiver
    or a caller reads left alone. *)
Record tx_step (t t' : tx) (d : list Z) : Prop := {
  ts_out : es_buf_out (st_esocket t'.1) = es_buf_out (st_esocket t.1) ++ d;
  ts_seq : seq_id t'.1 = seq_id t.1;
  ts_procs : map ch_proc_of (channel t'.1) = map ch_proc_of (channel t.1);
}.

Lemma tx_step_trans t1 t2 t3 d d' : tx_step t1 t2 d -> tx_step t2 t3 d' -> tx_step t1 t3 (d ++ d').
Proof. intros [O1 S1 P1] [O2 S2 P2]. constructor; [by rewrite O2, O1, app_assoc | congruence | congruence]. Qed.

Lemma write_bound es d es' n : dap_events_socket_write_unsafe es true d = Some (es', n) ->
  es_signal_close es = false -> es_ok es -> es_buf_out_size_max es <= 2 ^ 60 ->
  Z.of_nat (length (es_buf_out es)) + Z.of_nat (length d) < 2 ^ 58 -> es_buf_out_size_max es' <= 2 ^ 60.
Proof.
  intros E Hc [_ Hs _] Hm L. unfold dap_events_socket_write_unsafe in E. rewrite Hc in E. cbv zeta in E.
  rewrite wrap_id in E by (unfold fits; lia). change (DAP_EVENTS_SOCKET_BUF_LIMIT / 4) with 1048576 in E.
  assert (A : forall e, append_out e d = Some (es', n) -> es_buf_out_size_max es' = es_buf_out_size_max e).
  { intros e. unfold append_out. destruct (es_buf_out_alloc e <? _); [discriminate|]. by intros [= <- <-]. }
  destruct (Z.ltb_spec (es_buf_out_size_max es) (Z.of_nat (length (es_buf_out es)) + Z.of_nat (length d))).
  - apply A in E. cbn in E. rewrite E, wrap_id by (unfold fits; lia). lia.
  - destruct (_ && _) in E; apply A in E; cbn in E; lia.
Qed.

(** Reading back what was just built at the start of a block. *)
Lemma build_packet (b h d : list Z) n : (length h = n)%nat -> (n + length d <= length b)%nat ->
  exists b', (b ← mem_write b (Z.of_nat n) d; mem_write b 0 h) = Some b' /\
    mem_read b' 0 (Z.of_nat (length d + n)) = Some (h ++ d) /\ length b' = length b.
Proof.
  intros Hn L. rewrite mem_write_nat by lia. cbn [mbind option_bind].
  change 0 with (Z.of_nat 0). rewrite mem_write_nat by (rewrite length_splice; lia).
  eexists. split; [done|]. split; [|by rewrite !length_splice by (rewrite ?length_splice; lia)].
  rewrite mem_read_nat by (rewrite !length_splice by (rewrite ?length_splice; lia); lia).
  rewrite drop_0. f_equal. unfold splice at 1. cbn [take Nat.add app]. unfold splice.
  rewrite drop_app_length' by (rewrite length_take; lia).
  replace (length d + n)%nat with (length (h ++ d)) by (rewrite length_app; lia).
  rewrite take_0. cbn [app]. by rewrite app_assoc, take_app_length.
Qed.

Lemma pkt_write_spec k `{!SymCipher k} t addr now type x : tx_ok k t -> fits 8 type ->
  x <> [] -> Z.of_nat (length x) <= l_max_fragm_size + sizeof_fragment_pkt -> Forall (fits 8) x ->
  Z.of_nat (length (es_buf_out (st_esocket t.1))) + Z.of_nat (length x) + 237 < 2 ^ 58 ->
  exists t' w, dap_stream_pkt_write_unsafe addr now true t type x = Some (t', Z.of_nat (length w)) /\
    wire k type x w /\ tx_ok k t' /\ tx_step t t' w /\ Z.of_nat (length w) <= Z.of_nat (length x) + 237.
Proof.
  destruct t as [s b]. intros [Hk He Ho Hm Hb] Ht Hx L F Hsz. cbn [fst snd] in *.
  unfold l_max_fragm_size, DAP_STREAM_PKT_FRAGMENT_SIZE, DAP_STREAM_PKT_ENCRYPTION_OVERHEAD, sizeof_fragment_pkt in L.
  unfold sizeof_pkt_buf, DAP_STREAM_PKT_FRAGMENT_SIZE, sizeof_pkt_hdr in Hb.
  set (n := dap_enc_key_get_enc_size k (Z.of_nat (length x))).
  destruct (enc_na_spec k (enc_calls s) x n Hx ltac:(lia) F (Z.le_refl _)) as (y & Ey & Fy & Ly & By & Dy).
  fold n in Ly. unfold DAP_STREAM_PKT_ENCRYPTION_OVERHEAD in By.
  assert (Hpos : 0 < Z.of_nat (length x)) by (destruct x; [done | cbn [length]; lia]).
  unfold dap_stream_pkt_write_unsafe. unfold DAP_STREAM_PKT_FRAGMENT_SIZE.
  rewrite (proj2 (Z.ltb_ge _ _)) by lia. cbn [st_session set_active]. rewrite Hk. cbn [mbind option_bind]. fold n.
  cbn [enc_calls set_active set_calls st_node st_esocket].
  assert (Ec : dap_enc_code k (enc_calls s) x (n + sizeof_pkt_hdr - sizeof_pkt_hdr) DAP_ENC_DATA_TYPE_RAW
    = Some (y, Z.of_nat (length y))).
  { unfold dap_enc_code, dap_enc_code_out_size. fold n. replace (n + sizeof_pkt_hdr - sizeof_pkt_hdr) with n by lia.
    rewrite (proj2 (Z.eqb_neq n 0)), (proj2 (Z.ltb_ge n n)) by lia. cbn [orb]. by rewrite Ey. }
  rewrite Ec. cbn [mbind option_bind]. rewrite (wrap_id 32) by (unfold fits; lia).
  set (h := pkt_hdr (Z.of_nat (length y)) now type addr (st_node s)).
  destruct (build_packet b h y 37 (length_pkt_hdr _ _ _ _ _) ltac:(lia)) as (b' & Eb & Er & Lb).
  change (Z.of_nat 37) with sizeof_pkt_hdr in Eb.
  destruct (mem_write b sizeof_pkt_hdr y) as [b1|]; [|done]. cbn [mbind option_bind] in Eb |- *.
  rewrite Eb. cbn [mbind option_bind].
  replace (n + sizeof_pkt_hdr) with (Z.of_nat (length y + 37)) by (unfold sizeof_pkt_hdr; lia).
  rewrite Er. cbn [mbind option_bind].
  assert (Lw : Z.of_nat (length (h ++ y)) = 37 + Z.of_nat (length y))
    by (rewrite length_app; unfold h; rewrite length_pkt_hdr; lia).
  destruct (write_appends (st_esocket s) (h ++ y) He Ho ltac:(lia) ltac:(lia)) as (es' & Ew & Eo & Ei & He' & Ho' & _).
  rewrite Ew. cbn [mbind option_bind]. eexists _, (h ++ y). split; [done|].
  split; [exists now, addr, (st_node s), y; split_and!; try done; unfold DAP_STREAM_PKT_SIZE_MAX; lia|].
  split; [constructor; cbn; try done; [by eapply write_bound; [exact Ew | ..]; (done || lia) |] |].
  - unfold sizeof_pkt_buf, DAP_STREAM_PKT_FRAGMENT_SIZE, sizeof_pkt_hdr. lia.
  - split; [by constructor | lia].
Qed.

(** ** Sending a channel packet *)

Lemma write_read0 (b d : list Z) : (length d <= length b)%nat ->
  exists b', mem_write b 0 d = Some b' /\ mem_read b' 0 (Z.of_nat (length d)) = Some d /\ length b' = length b.
Proof.
  intros L. change 0 with (Z.of_nat 0). rewrite mem_write_nat by lia. eexists. split; [done|].
  rewrite mem_read_nat, length_splice by (rewrite ?length_splice; lia). split; [|done].
  unfold splice. rewrite drop_0, take_0. cbn [app]. by rewrite take_app_length.
Qed.

Lemma procs_alter f c (l : list dap_stream_ch) : (forall ch, ch_proc_of (f ch) = ch_proc_of ch) ->
  map ch_proc_of (alter f c l) = map ch_proc_of l.
Proof.
  intros Hf. apply list_eq. intros i. rewrite !list_lookup_fmap. destruct (decide (i = c)) as [-> | Hne].
  - rewrite list_lookup_alter_eq. destruct (l !! c); [|done]. cbn. by rewrite Hf.
  - by rewrite list_lookup_alter_ne by done.
Qed.

Lemma ready_step k t c b : tx_ok k t ->
  let t' := (dap_stream_ch_set_ready_to_write_unsafe t.1 c b, t.2) in tx_ok k t' /\ tx_step t t' [].
Proof.
  intros [Hk He Ho Hm Hb]. cbv zeta. unfold dap_stream_ch_set_ready_to_write_unsafe.
  destruct (channel t.1 !! c) as [ch|]; [destruct (eqb _ _)|]; split; constructor; cbn; rewrite ?app_nil_r; try done.
  - by destruct He.
  - by apply procs_alter.
Qed.

(** The fragments of a channel packet of [full] bytes from [shift] on. *)
Definition frag_plain (full shift : Z) (chunk : list Z) : list Z :=
  fragment_hdr (Z.of_nat (length chunk)) shift full ++ chunk.

Fixpoint frags (fuel : nat) (full shift : Z) (rest : list Z) : list (list Z) :=
  match fuel, rest with
  | S fuel, _ :: _ =>
    let chunk := take (Z.to_nat l_max_fragm_size) rest in
    frag_plain full shift chunk ::
    frags fuel full (shift + Z.of_nat (length chunk)) (drop (Z.to_nat l_max_fragm_size) rest)
  | _, _ => []
  end.

Lemma length_frag_plain full shift chunk : length (frag_plain full shift chunk) = (12 + length chunk)%nat.
Proof. unfold frag_plain, fragment_hdr. by rewrite length_app, length_fields. Qed.

(** One turn of the fragment loop. *)
Lemma fragment_step k `{!SymCipher k} t addr now c l_buf l_hdr a_data full size rem ret fuel chunk :
  tx_ok k t -> full < 2 ^ 32 -> Z.of_nat (length l_buf) = full -> 0 < rem <= full ->
  size = Z.of_nat (length chunk) -> chunk <> [] -> size <= l_max_fragm_size -> size + 12 <= full -> size <= rem ->
  Forall (fits 8) chunk ->
  Z.of_nat (length (es_buf_out (st_esocket t.1))) + size + 249 < 2 ^ 58 ->
  (if negb (full - rem =? 0) then mem_read a_data (full - rem - sizeof_ch_pkt_hdr) size
   else mem_read l_hdr 0 size) = Some chunk ->
  exists t' w l_buf' ret', Z.of_nat (length l_buf') = full /\
    fragments_loop (S fuel) addr now true t c l_buf l_hdr a_data full rem size ret =
    fragments_loop fuel addr now true t' c l_buf' l_hdr a_data full (rem - size)
      (Z.min (rem - size) l_max_fragm_size) ret' /\
    wire k STREAM_PKT_TYPE_FRAGMENT_PACKET (frag_plain full (full - rem) chunk) w /\
    tx_ok k t' /\ tx_step t t' w /\ Z.of_nat (length w) <= size + 249.
Proof.
  intros Hok Hf Hl Hr Es Hc Hs Hs' Hsr F Hsz Ech. cbn [fragments_loop].
  rewrite (proj2 (Z.eqb_neq rem 0)) by lia. rewrite (wrap_id 32 (full - rem)), Ech by (unfold fits; lia).
  cbn [mbind option_bind]. rewrite !(wrap_id 32) by (unfold fits; lia). rewrite Es.
  fold (frag_plain full (full - rem) chunk).
  destruct (write_read0 l_buf (frag_plain full (full - rem) chunk)) as (b' & Ew & Er & Lb);
    [rewrite length_frag_plain; lia|].
  rewrite Ew. cbn [mbind option_bind].
  replace (Z.of_nat (length chunk) + sizeof_fragment_pkt) with (Z.of_nat (length (frag_plain full (full - rem) chunk)))
    by (rewrite length_frag_plain; unfold sizeof_fragment_pkt; lia).
  rewrite Er. cbn [mbind option_bind].
  destruct (pkt_write_spec k t addr now STREAM_PKT_TYPE_FRAGMENT_PACKET (frag_plain full (full - rem) chunk))
    as (t1 & w & E1 & W & Hok1 & St & Lw); try done.
  - rewrite length_frag_plain. unfold sizeof_fragment_pkt. lia.
  - apply Forall_app. split; [apply fields_fits | done].
  - rewrite length_frag_plain. lia.
  - rewrite E1. cbn [mbind option_bind]. destruct (ready_step k t1 c true Hok1) as [Hok2 St2].
    eexists _, w, b', _. split; [by rewrite Lb|]. split; [done|]. split; [done|]. split; [done|].
    rewrite length_frag_plain in Lw. split; [|lia]. rewrite <- (app_nil_r w). by eapply tx_step_trans.
Qed.

(** The fragments after the first. *)
Lemma fragments_tail k `{!SymCipher k} fuel : forall t addr now c l_buf l_hdr pre rest full ret,
  tx_ok k t -> full = 16 + Z.of_nat (length (pre ++ rest)) -> full < 2 ^ 32 -> Z.of_nat (length l_buf) = full ->
  (length rest <= fuel)%nat -> Forall (fits 8) rest ->
  Z.of_nat (length (es_buf_out (st_esocket t.1))) + 300 * Z.of_nat (length rest) < 2 ^ 58 ->
  exists t' ws ret',
    fragments_loop fuel addr now true t c l_buf l_hdr (pre ++ rest) full (Z.of_nat (length rest))
      (Z.min (Z.of_nat (length rest)) l_max_fragm_size) ret = Some (t', ret') /\
    Forall2 (wire k STREAM_PKT_TYPE_FRAGMENT_PACKET) (frags fuel full (16 + Z.of_nat (length pre)) rest) ws /\
    tx_ok k t' /\ tx_step t t' (concat ws) /\ Z.of_nat (length (concat ws)) <= 300 * Z.of_nat (length rest).
Proof.
  induction fuel as [|fuel IH]; intros t addr now c l_buf l_hdr pre rest full ret Hok Ef Hf Hl Hfu F Hsz.
  { destruct rest; [|cbn in Hfu; lia]. exists t, [], ret. split_and!; try done. constructor; by rewrite ?app_nil_r. }
  destruct rest as [|r0 rest'].
  { exists t, [], ret. split_and!; try done. constructor; by rewrite ?app_nil_r. }
  set (rest := r0 :: rest') in *. set (chunk := take (Z.to_nat l_max_fragm_size) rest).
  assert (M : l_max_fragm_size = 16172) by done.
  assert (Lr : (0 < length rest)%nat) by (unfold rest; cbn; lia).
  assert (Lc : Z.of_nat (length chunk) = Z.min (Z.of_nat (length rest)) l_max_fragm_size)
    by (unfold chunk; rewrite length_take, M; lia).
  rewrite length_app in Ef.
  destruct (fragment_step k t addr now c l_buf l_hdr (pre ++ rest) full (Z.min (Z.of_nat (length rest)) l_max_fragm_size)
    (Z.of_nat (length rest)) ret fuel chunk) as (t1 & w & b1 & ret1 & Lb1 & E1 & W & Hok1 & St1 & Lw);
    try done; try lia.
  - by apply Forall_take.
  - rewrite (proj2 (Z.eqb_neq _ 0)) by lia. cbn [negb]. unfold sizeof_ch_pkt_hdr.
    replace (full - Z.of_nat (length rest) - 16) with (Z.of_nat (length pre)) by lia.
    rewrite <- Lc. unfold chunk. rewrite <- (take_drop (Z.to_nat l_max_fragm_size) rest) at 1. apply mem_read_app.
  - assert (Ed : Z.of_nat (length rest) - Z.min (Z.of_nat (length rest)) l_max_fragm_size =
      Z.of_nat (length (drop (Z.to_nat l_max_fragm_size) rest))) by (rewrite length_drop; lia).
    destruct (IH t1 addr now c b1 l_hdr (pre ++ chunk) (drop (Z.to_nat l_max_fragm_size) rest) full ret1)
      as (t2 & ws & ret2 & E2 & Ws & Hok2 & St2 & Lws); try done.
    + rewrite <- app_assoc. unfold chunk. rewrite take_drop, length_app. lia.
    + rewrite length_drop. lia.
    + by apply Forall_drop.
    + rewrite (ts_out _ _ _ St1), length_app. lia.
    + exists t2, (w :: ws), ret2. rewrite E1, Ed.
      assert (Ea : (pre ++ chunk) ++ drop (Z.to_nat l_max_fragm_size) rest = pre ++ rest)
        by (rewrite <- app_assoc; unfold chunk; by rewrite take_drop).
      rewrite Ea in E2. split; [exact E2|]. split.
      * change (frags (S fuel) full (16 + Z.of_nat (length pre)) rest) with
          (frag_plain full (16 + Z.of_nat (length pre)) chunk ::
           frags fuel full (16 + Z.of_nat (length pre) + Z.of_nat (length chunk)) (drop (Z.to_nat l_max_fragm_size) rest)).
        constructor.
        -- replace (16 + Z.of_nat (length pre)) with (full - Z.of_nat (length rest)) by lia. done.
        -- rewrite length_app in Ws. by replace (16 + Z.of_nat (length pre) + Z.of_nat (length chunk))
             with (16 + Z.of_nat (length pre + length chunk)) by lia.
      * split; [done|]. cbn [concat]. split; [by eapply tx_step_trans|].
        rewrite length_app. lia.
Qed.
