(* ===== verification/StreamRx.v ===== *)
(** * Streams: what a receiver makes of wire packets

    One packet ([dispatch_ok], [data_pkt_ok], [fragment_ok],
    [last_fragment_ok]), runs of packets ([chain]) and runs that arrive in
    pieces ([receive_chain]). *)

From S2P Require Import Prelude Base64 Enc Esocket Session Stream StreamTx.
Local Open Scope Z_scope.

(** The stream packets of a channel packet, decrypted. *)
Definition packets (i seq type : Z) (d : list Z) : list (Z * list Z) :=
  let h := ch_pkt_hdr i 0 type 0 seq (Z.of_nat (length d)) in
  let full := 16 + Z.of_nat (length d) in
  if full <=? l_max_fragm_size then [(STREAM_PKT_TYPE_DATA_PACKET, h ++ d)]
  else map (pair STREAM_PKT_TYPE_FRAGMENT_PACKET)
         (frag_plain full 0 h :: frags (length d + 15) full 16 d).

Lemma length_ch_pkt_hdr i e ty p seq n : length (ch_pkt_hdr i e ty p seq n) = 16%nat.
Proof. unfold ch_pkt_hdr. by rewrite length_fields. Qed.

(** The work after the packets are written. *)
Lemma finish_step k t c f ev : tx_ok k t ->
  let t' := (semit (add_bytes_write t.1 c f) ev, t.2) in tx_ok k t' /\ tx_step t t' [].
Proof.
  intros [Hk He Ho Hm Hb]. cbv zeta. split; constructor; cbn; rewrite ?app_nil_r; try done. by apply procs_alter.
Qed.

Lemma concat_single {A} (w : list A) : concat [w] = w.
Proof. cbn. apply app_nil_r. Qed.

Lemma ch_pkt_write_spec k `{!SymCipher k} t addr now c ch p ty d :
  tx_ok k t -> channel t.1 !! c = Some ch -> ch_proc_of ch = Some p -> fits 8 ty ->
  Forall (fits 8) d -> 16 + Z.of_nat (length d) < 2 ^ 32 ->
  Z.of_nat (length (es_buf_out (st_esocket t.1))) + 300 * (Z.of_nat (length d) + 32) < 2 ^ 58 ->
  exists t' ws ret, dap_stream_ch_pkt_write_unsafe addr now true t c ty d = Some (t', ret) /\
    Forall2 (λ q w, wire k q.1 q.2 w) (packets (proc_id p) (seq_id t.1) ty d) ws /\
    tx_ok k t' /\ es_buf_out (st_esocket t'.1) = es_buf_out (st_esocket t.1) ++ concat ws /\
    seq_id t'.1 = wrap 64 (seq_id t.1 + 1) /\ map ch_proc_of (channel t'.1) = map ch_proc_of (channel t.1) /\
    Z.of_nat (length (concat ws)) <= 300 * (Z.of_nat (length d) + 32).
Proof.
  destruct t as [s b]. intros Hok Hch Hp Hty F L Hsz. cbn [fst snd] in *.
  unfold dap_stream_ch_pkt_write_unsafe. rewrite Hch, Hp. cbv zeta. unfold sizeof_ch_pkt_hdr.
  rewrite (wrap_id 64), (wrap_id 32) by (unfold fits; lia).
  set (h := ch_pkt_hdr (proc_id p) 0 ty 0 (seq_id s) (Z.of_nat (length d))).
  assert (Lh : length h = 16%nat) by apply length_ch_pkt_hdr.
  assert (Fh : Forall (fits 8) h) by apply fields_fits.
  set (t1 := (set_seq_id s (wrap 64 (seq_id s + 1)), b)).
  assert (Hok1 : tx_ok k t1) by (by destruct Hok).
  assert (M : l_max_fragm_size = 16172) by done.
  unfold packets. rewrite (Z.add_comm (Z.of_nat (length d))). fold h. rewrite (proj2 (Z.ltb_lt 0 _)) by lia. cbn [andb].
  destruct (Z.leb_spec (16 + Z.of_nat (length d)) l_max_fragm_size) as [Hle | Hgt].
  - assert (Eb : (b0 ← mem_write (replicate (Z.to_nat (16 + Z.of_nat (length d))) 0) 0 h; mem_write b0 16 d)
      = Some (h ++ d)).
    { rewrite mem_write_prefix by (rewrite Lh; lia). cbn [mbind option_bind].
      rewrite <- (app_nil_r (replicate _ 0)). change 16 with (Z.of_nat 16) at 2. rewrite <- Lh.
      rewrite mem_write_app by (rewrite length_replicate; lia). by rewrite app_nil_r. }
    destruct (mem_write (replicate _ 0) 0 h) as [b0|]; [|done].
    cbn [mbind option_bind] in Eb |- *. rewrite Eb. cbn [mbind option_bind].
    destruct (pkt_write_spec k t1 addr now STREAM_PKT_TYPE_DATA_PACKET (h ++ d)) as (t2 & w & E2 & W & Hok2 & St2 & Lw);
      try done; rewrite ?length_app, ?Lh in *.
    + unfold sizeof_fragment_pkt. lia.
    + by apply Forall_app.
    + cbn [t1 fst st_esocket set_seq_id]. lia.
    + rewrite E2. cbn [mbind option_bind].
      destruct (ready_step k t2 c true Hok2) as [Hok3 St3].
      match goal with |- context [semit (add_bytes_write ?x c ?f) ?ev] =>
        destruct (finish_step k (x, t2.2) c f ev Hok3) as [Hok4 St4] end.
      eexists _, [w], _. split; [reflexivity|]. split; [by repeat constructor|]. split; [exact Hok4|].
      pose proof (tx_step_trans _ _ _ _ _ (tx_step_trans _ _ _ _ _ St2 St3) St4) as [O S P].
      rewrite concat_single. rewrite !app_nil_r in O. split; [exact O|]. split; [exact S|]. split; [exact P|]. lia.
  - rewrite (proj2 (Z.ltb_lt l_max_fragm_size _)) by lia.
    replace (Z.to_nat (16 + Z.of_nat (length d))) with (S (length d + 15)) by lia.
    destruct (fragment_step k t1 addr now c (replicate (S (length d + 15)) 0) h d (16 + Z.of_nat (length d)) 16
      (16 + Z.of_nat (length d)) 0 (length d + 15) h) as (t2 & w & b2 & ret2 & Lb2 & E2 & W & Hok2 & St2 & Lw);
      try done; try lia.
    + rewrite length_replicate. lia.
    + cbn [t1 fst st_esocket set_seq_id]. lia.
    + rewrite Z.sub_diag. cbn [Z.eqb negb]. replace 16 with (Z.of_nat (length h)) by lia.
      rewrite <- (app_nil_r h) at 1. apply (mem_read_app [] h []).
    + rewrite Z.sub_diag in W.
      replace (16 + Z.of_nat (length d) - 16) with (Z.of_nat (length d)) in E2 by lia.
      destruct (fragments_tail k (length d + 15) t2 addr now c b2 h [] d (16 + Z.of_nat (length d)) ret2)
        as (t3 & ws & ret3 & E3 & Ws & Hok3 & St3 & Lws); try done; try lia.
      * rewrite (ts_out _ _ _ St2), length_app. cbn [t1 fst st_esocket set_seq_id]. lia.
      * cbn [app] in E3. rewrite E2, E3. cbn [mbind option_bind].
        destruct t3 as [s3 b3].
        match goal with |- context [semit (add_bytes_write ?x c ?f) ?ev] =>
          destruct (finish_step k (x, b3) c f ev Hok3) as [Hok4 St4] end.
        eexists _, (w :: ws), _. split; [reflexivity|]. split.
        { cbn [map]. constructor; [done|]. change (16 + Z.of_nat (length [])) with 16 in Ws.
          apply Forall2_fmap_l. exact Ws. }
        split; [exact Hok4|].
        pose proof (tx_step_trans _ _ _ _ _ (tx_step_trans _ _ _ _ _ St2 St3) St4) as [O S P].
        rewrite !app_nil_r in O. cbn [concat]. split; [exact O|]. split; [exact S|]. split; [exact P|].
        rewrite length_app. lia.
Qed.

(** ** Receiving *)

(** Fields of a channel header. *)
Lemma ch_pkt_hdr_fields i ty seq n post : fits 8 i -> fits 8 ty -> fits 64 seq -> fits 32 n ->
  let p := ch_pkt_hdr i 0 ty 0 seq n ++ post in
  ch_id p = Some i /\ ch_type p = Some ty /\ ch_seq_id p = Some seq /\ ch_data_size p = Some n.
Proof.
  intros Hi Hty Hs Hn. cbv zeta. unfold ch_pkt_hdr, ch_id, ch_type, ch_seq_id, ch_data_size. split_and!.
  - apply (mem_le_field [] 1 i [(1%nat, 0); (1%nat, ty); (1%nat, 0); (8%nat, seq); (4%nat, n)] post Hi).
  - apply (mem_le_field [(1%nat, i); (1%nat, 0)] 1 ty [(1%nat, 0); (8%nat, seq); (4%nat, n)] post Hty).
  - apply (mem_le_field [(1%nat, i); (1%nat, 0); (1%nat, ty); (1%nat, 0)] 8 seq [(4%nat, n)] post Hs).
  - apply (mem_le_field [(1%nat, i); (1%nat, 0); (1%nat, ty); (1%nat, 0); (8%nat, seq)] 4 n [] post Hn).
Qed.

Lemma frag_plain_fields full shift chunk post :
  fits 32 full -> fits 32 shift -> fits 32 (Z.of_nat (length chunk)) ->
  let p := frag_plain full shift chunk ++ post in
  mem_le p 0 4 = Some (Z.of_nat (length chunk)) /\ mem_le p 4 4 = Some shift /\ mem_le p 8 4 = Some full /\
  mem_read p sizeof_fragment_pkt (Z.of_nat (length chunk)) = Some chunk.
Proof.
  intros Hf Hs Hc. cbv zeta. unfold frag_plain, fragment_hdr. rewrite <- app_assoc.
  set (n := Z.of_nat (length chunk)) in *. split_and!.
  - apply (mem_le_field [] 4 n [(4%nat, shift); (4%nat, full)] (chunk ++ post) Hc).
  - apply (mem_le_field [(4%nat, n)] 4 shift [(4%nat, full)] (chunk ++ post) Hs).
  - apply (mem_le_field [(4%nat, n); (4%nat, shift)] 4 full [] (chunk ++ post) Hf).
  - change sizeof_fragment_pkt with (Z.of_nat (fields_len [(4%nat, n); (4%nat, shift); (4%nat, full)])).
    rewrite <- length_fields. apply mem_read_app.
Qed.

(** Decrypting a wire packet. *)
Lemma read_wire k type x w s : wire k type x w -> st_session s = Some k ->
  exists post, dap_stream_pkt_read_unsafe s w = Some (x ++ post, Z.of_nat (length x)).
Proof.
  intros (now & src & dst & y & -> & _ & Hy & D) Hk. unfold DAP_STREAM_PKT_SIZE_MAX in Hy.
  unfold dap_stream_pkt_read_unsafe. rewrite Hk. cbn [mbind option_bind].
  rewrite hdr_size_spec by (unfold fits; lia). cbn [mbind option_bind].
  set (h := pkt_hdr _ _ _ _ _).
  assert (Er : mem_read (h ++ y) sizeof_pkt_hdr (Z.of_nat (length y)) = Some y).
  { change sizeof_pkt_hdr with (Z.of_nat 37). rewrite <- (length_pkt_hdr (Z.of_nat (length y)) now type src dst).
    fold h. rewrite <- (app_nil_r y) at 1. apply mem_read_app. }
  rewrite Er. cbn [mbind option_bind]. unfold dap_enc_decode_out_size. rewrite (proj2 (Z.eqb_neq _ 0)) by lia.
  destruct (D _ (Z.le_refl _)) as (rest & -> & Lr). cbn [mbind option_bind].
  rewrite mem_write_prefix by lia. cbn [mbind option_bind]. rewrite <- app_assoc. eauto.
Qed.

(** What a receiver's state promises: session, the channel [i] with its
    callback, the bytes waiting in the input buffer, the last sequence number,
    the log and the fragments under way. *)
Record rx_inv (k : dap_enc_key) (i : Z) (ns inb : list Z) (last : Z) (log : list stream_event)
    (frag : option (list Z) * Z * Z) (s : dap_stream) : Prop := {
  ri_session : st_session s = Some k;
  ri_ch : exists c ch, find_ch s i = Some c /\ channel s !! c = Some ch /\
            ch_proc_of ch = Some (Proc i true) /\ packet_in_notifiers ch = ns;
  ri_in : es_buf_in (st_esocket s) = inb;
  ri_last : client_last_seq_id_packet s = last;
  ri_log : slog s = log;
  ri_frag : (buf_fragments s, buf_fragments_size_total s, buf_fragments_size_filled s) = frag;
}.

Lemma find_ch_alter s c f i : (forall ch, ch_proc_of (f ch) = ch_proc_of ch) ->
  find_ch (update_ch s c f) i = find_ch s i.
Proof.
  intros Hf. unfold find_ch, update_ch. cbn [channel set_channel]. generalize (channel s) c. clear c.
  induction l as [|x l IH]; intros c; [by destruct c|]. destruct c as [|c]; cbn [alter list_alter list_find].
  - unfold has_proc_id. rewrite Hf. destruct (decide _); [done|]. done.
  - destruct (decide (has_proc_id i x = true)); [done|]. specialize (IH c).
    destruct (list_find _ (alter f c l)) as [[? ?]|], (list_find _ l) as [[? ?]|]; cbn in *; congruence.
Qed.

(** The next sequence number a receiver accepts without complaint. *)
Definition next_ok (last seq : Z) : Prop := (seq = 0 /\ last = 0) \/ seq = wrap 64 (last + 1).

(** What the channel sees of a packet. *)
Definition events (callback : Z -> Z -> list Z -> bool) (i : Z) (ns : list Z) (ty : Z) (d : list Z)
    : list stream_event :=
  EvPacketIn i ty d :: if callback i ty d then map (λ n, EvNotifyIn n ty d) ns else [].

Section Rx.
Context (callback : Z -> Z -> list Z -> bool) (s_proc : Z -> ch_proc).
Context (k : dap_enc_key) (i : Z) (ns : list Z).
Hypothesis Hi : fits 8 i.

Lemma dispatch_ok s inb last log frag ty seq d post cache :
  rx_inv k i ns inb last log frag s -> fits 8 ty -> fits 63 seq -> fits 32 (Z.of_nat (length d)) -> next_ok last seq ->
  let p := (ch_pkt_hdr i 0 ty 0 seq (Z.of_nat (length d)) ++ d) ++ post in
  (buf_fragments_size_filled s = 0 /\ cache = p) \/ (buf_fragments_size_filled s <> 0 /\ buf_fragments s = Some p) ->
  exists s', dispatch_packet callback s cache p = Some s' /\
    rx_inv k i ns inb seq (log ++ events callback i ns ty d) frag s'.
Proof using Hi.
  intros [Hk (c & ch & Hf & Hc & Hp & Hn) Hin Hl Hlog Hfr] Hty Hs Hd Hnx p Hsrc.
  assert (Hs64 : fits 64 seq) by (unfold fits in *; lia).
  assert (Ep : p = ch_pkt_hdr i 0 ty 0 seq (Z.of_nat (length d)) ++ d ++ post) by (unfold p; by rewrite app_assoc).
  destruct (ch_pkt_hdr_fields i ty seq (Z.of_nat (length d)) (d ++ post) Hi Hty Hs64 Hd) as (E1 & E2 & E3 & E4).
  rewrite <- Ep in E1, E2, E3, E4. unfold dispatch_packet. rewrite E4. cbn [mbind option_bind].
  assert (El : s_detect_loose_packet s cache = Some (set_last_seq s seq, false)).
  { unfold s_detect_loose_packet.
    assert (Es : (if negb (buf_fragments_size_filled s =? 0) then buf_fragments s else Some cache) = Some p).
    { destruct Hsrc as [[-> ->] | [Hne ->]]; [done|]. by rewrite (proj2 (Z.eqb_neq _ 0)). }
    rewrite Es. cbn [mbind option_bind]. rewrite E3. cbn [mbind option_bind]. rewrite Hl.
    assert (Ez : (if negb (seq =? 0) || negb (last =? 0) then to_ll seq - to_ll (wrap 64 (last + 1)) else 0) = 0).
    { destruct Hnx as [[-> ->] | <-]; [done|]. destruct (_ || _); [lia | done]. }
    by rewrite Ez. }
  rewrite El. cbn [mbind option_bind]. rewrite E1. cbn [mbind option_bind].
  change (find_ch (set_last_seq s seq) i) with (find_ch s i). rewrite Hf.
  set (f := λ ch, Ch _ _ _ _ _ _ _). set (s1 := update_ch (set_last_seq s seq) c f).
  assert (Hc1 : channel s1 !! c = Some (f ch)) by (cbn; rewrite list_lookup_alter_eq, Hc; done).
  rewrite Hc1. cbn [mbind option_bind]. change (ch_proc_of (f ch)) with (ch_proc_of ch). rewrite Hp.
  cbn [mbind option_bind packet_in_callback]. rewrite E2. cbn [mbind option_bind].
  assert (Er : mem_read p sizeof_ch_pkt_hdr (Z.of_nat (length d)) = Some d).
  { rewrite Ep. change sizeof_ch_pkt_hdr with (Z.of_nat 16).
    rewrite <- (length_ch_pkt_hdr i 0 ty 0 seq (Z.of_nat (length d))). apply mem_read_app. }
  rewrite Er. cbn [mbind option_bind]. change (packet_in_notifiers (f ch)) with (packet_in_notifiers ch). rewrite Hn.
  eexists. split; [done|].
  assert (Hch : exists c' ch', find_ch s1 i = Some c' /\ channel s1 !! c' = Some ch' /\
            ch_proc_of ch' = Some (Proc i true) /\ packet_in_notifiers ch' = ns).
  { exists c, (f ch). split_and!; try done. unfold s1. by rewrite find_ch_alter. }
  unfold events. destruct (callback i ty d); constructor; cbn; try done; rewrite Hlog, <- ?app_assoc; done.
Qed.

(** A packet of data between complete packets. *)
Lemma data_pkt_ok s t inb last log ty seq d w :
  rx_inv k i ns inb last log (None, 0, 0) s -> fits 8 ty -> fits 63 seq -> fits 32 (Z.of_nat (length d)) -> next_ok last seq ->
  wire k STREAM_PKT_TYPE_DATA_PACKET (ch_pkt_hdr i 0 ty 0 seq (Z.of_nat (length d)) ++ d) w ->
  exists s', s_stream_proc_pkt_in callback s_proc true (s, t) w = Some (s', t) /\
    rx_inv k i ns inb seq (log ++ events callback i ns ty d) (None, 0, 0) s'.
Proof using Hi.
  intros Hinv Hty Hs Hd Hnx W. set (x := ch_pkt_hdr _ _ _ _ _ _ ++ d) in *.
  assert (Hinv1 : rx_inv k i ns inb last log (None, 0, 0) (set_active s true)) by (by destruct Hinv).
  destruct (read_wire k _ x w (set_active s true) W (ri_session _ _ _ _ _ _ _ _ Hinv1)) as (post & Er).
  pose proof W as (now & src & dst & y & Ew & _ & Hy & _). unfold DAP_STREAM_PKT_SIZE_MAX in Hy.
  unfold s_stream_proc_pkt_in. rewrite Ew, hdr_size_spec by (unfold fits; lia). cbn [mbind option_bind].
  rewrite hdr_type_spec by done. cbn [mbind option_bind]. rewrite <- Ew.
  change (STREAM_PKT_TYPE_DATA_PACKET =? STREAM_PKT_TYPE_FRAGMENT_PACKET) with false.
  rewrite Z.eqb_refl, Er. cbn [mbind option_bind].
  assert (Lx : Z.of_nat (length x) = 16 + Z.of_nat (length d))
    by (unfold x; rewrite length_app, length_ch_pkt_hdr; lia).
  unfold data_packet_in, sizeof_ch_pkt_hdr. rewrite (proj2 (Z.ltb_ge _ 16)) by lia.
  assert (Ed : ch_data_size (x ++ post) = Some (Z.of_nat (length d))).
  { unfold x. rewrite <- app_assoc. apply ch_pkt_hdr_fields; try done. unfold fits in *; lia. }
  rewrite Ed. cbn [mbind option_bind]. rewrite (proj2 (Z.eqb_eq _ _)) by lia. cbn [negb].
  assert (Hfill : buf_fragments_size_filled (set_active s true) = 0)
    by (pose proof (ri_frag _ _ _ _ _ _ _ _ Hinv1); congruence).
  destruct (dispatch_ok _ _ _ _ _ ty seq d post (x ++ post) Hinv1 Hty Hs Hd Hnx) as (s' & Es' & Hinv'); [by left|].
  fold x in Es'. rewrite Es'. cbn [mbind option_bind]. eauto.
Qed.

(** The fragment buffer after the bytes [dn] of [full] have arrived. *)
Definition frag_state (full : Z) (dn : list Z) : option (list Z) * Z * Z :=
  match dn with
  | [] => (None, 0, 0)
  | _ => (Some (dn ++ replicate (Z.to_nat full - length dn) 0), full, Z.of_nat (length dn))
  end.

Lemma frag_state_ne full dn : dn <> [] ->
  frag_state full dn = (Some (dn ++ replicate (Z.to_nat full - length dn) 0), full, Z.of_nat (length dn)).
Proof. by destruct dn. Qed.

(** The receiver up to the copy of a fragment. *)
Lemma fragment_store s inb last log full dn chunk w :
  rx_inv k i ns inb last log (frag_state full dn) s ->
  wire k STREAM_PKT_TYPE_FRAGMENT_PACKET (frag_plain full (Z.of_nat (length dn)) chunk) w ->
  fits 32 full -> chunk <> [] -> Z.of_nat (length dn + length chunk) <= full ->
  exists s' post, rx_inv k i ns inb last log (frag_state full (dn ++ chunk)) s' /\
    fragment_packet_in callback s w =
    if Z.of_nat (length dn + length chunk) <? full then Some (s', false)
    else data_packet_in callback s' (frag_plain full (Z.of_nat (length dn)) chunk ++ post)
           ((dn ++ chunk) ++ replicate (Z.to_nat full - length (dn ++ chunk)) 0) full true.
Proof using Hi.
  intros Hinv W Hf Hc L. set (x := frag_plain _ _ _) in *. pose proof Hf as [_ Hf'].
  assert (Lc : (0 < length chunk)%nat) by (destruct chunk; [done | cbn; lia]).
  destruct (read_wire k _ x w s W (ri_session _ _ _ _ _ _ _ _ Hinv)) as (post & Er).
  destruct (frag_plain_fields full (Z.of_nat (length dn)) chunk post Hf) as (E1 & E2 & E3 & E4); [unfold fits; lia ..|].
  fold x in E1, E2, E3, E4.
  assert (Lx : Z.of_nat (length x) = 12 + Z.of_nat (length chunk)) by (unfold x; rewrite length_frag_plain; lia).
  unfold fragment_packet_in. rewrite Er. cbn [mbind option_bind]. rewrite (proj2 (Z.eqb_neq _ 0)) by lia.
  rewrite E1. cbn [mbind option_bind]. unfold sizeof_fragment_pkt at 1. rewrite (proj2 (Z.eqb_eq _ _)) by lia. cbn [negb].
  rewrite E2. cbn [mbind option_bind].
  destruct Hinv as [Hk Hch Hin Hl Hlog Hfr].
  assert (Efill : buf_fragments_size_filled s = Z.of_nat (length dn)) by (by destruct dn; cbn [frag_state] in Hfr; injection Hfr as _ _ ->).
  rewrite Efill, Z.eqb_refl. cbn [negb]. rewrite E3. cbn [mbind option_bind].
  set (s1 := if (match buf_fragments s with None => true | Some _ => _ end) then _ else s).
  assert (Es1 : exists s0, s1 = s0 /\ rx_inv k i ns inb last log
    (Some (dn ++ replicate (Z.to_nat full - length dn) 0), full, Z.of_nat (length dn)) s0).
  { exists s1. split; [done|]. destruct dn as [|b dn].
    - cbn in Hfr. injection Hfr as Eb Et _. unfold s1. rewrite Eb, (proj2 (Z.eqb_neq full 0)) by lia.
      constructor; try done. cbn. by rewrite Nat.sub_0_r.
    - cbn [frag_state] in Hfr. injection Hfr as Eb Et _. unfold s1. rewrite Eb, Et, Z.ltb_irrefl.
      constructor; try done. cbn [length]. by rewrite Eb, Et, Efill. }
  destruct Es1 as (s0 & -> & [Hk0 Hch0 Hin0 Hl0 Hlog0 Hfr0]). injection Hfr0 as Eb0 Et0 Ef0.
  rewrite E4, Eb0. cbn [mbind option_bind from_option].
  assert (Ew : mem_write (dn ++ replicate (Z.to_nat full - length dn) 0) (Z.of_nat (length dn)) chunk =
    Some ((dn ++ chunk) ++ replicate (Z.to_nat full - length (dn ++ chunk)) 0)).
  { replace (Z.to_nat full - length dn)%nat with (length chunk + (Z.to_nat full - length (dn ++ chunk)))%nat
      by (rewrite length_app; lia).
    rewrite replicate_add, mem_write_app by (by rewrite length_replicate). by rewrite <- app_assoc. }
  unfold Datatypes.id. rewrite Ew. cbn [mbind option_bind fmap option_map option_fmap].
  rewrite wrap_id by (unfold fits; lia). rewrite Et0, Ef0, <- Nat2Z.inj_add.
  cbn [buf_fragments_size_filled set_fragments buf_fragments buf_fragments_size_total from_option].
  set (s2 := set_fragments s0 _ _ _). exists s2, post. split; [|done].
  constructor; try done. rewrite frag_state_ne by (intros E%(f_equal length); rewrite length_app in E; cbn in E; lia).
  cbn. by rewrite length_app.
Qed.

Lemma proc_fragment s t w x : wire k STREAM_PKT_TYPE_FRAGMENT_PACKET x w ->
  s_stream_proc_pkt_in callback s_proc true (s, t) w =
  '(s', cl) ← fragment_packet_in callback (set_active s true) w;
  Some (if cl : bool then set_fragments s' None 0 0 else s', t).
Proof.
  intros (now & src & dst & y & -> & _ & Hy & _). unfold DAP_STREAM_PKT_SIZE_MAX in Hy.
  unfold s_stream_proc_pkt_in. rewrite hdr_size_spec by (unfold fits; lia). cbn [mbind option_bind].
  rewrite hdr_type_spec by done. cbn [mbind option_bind]. rewrite Z.eqb_refl.
  destruct (fragment_packet_in _ _ _) as [[s' cl]|]; done.
Qed.

(** A fragment that is not the last. *)
Lemma fragment_ok s t inb last log full dn chunk w :
  rx_inv k i ns inb last log (frag_state full dn) s ->
  wire k STREAM_PKT_TYPE_FRAGMENT_PACKET (frag_plain full (Z.of_nat (length dn)) chunk) w ->
  fits 32 full -> chunk <> [] -> Z.of_nat (length dn + length chunk) < full ->
  exists s', s_stream_proc_pkt_in callback s_proc true (s, t) w = Some (s', t) /\
    rx_inv k i ns inb last log (frag_state full (dn ++ chunk)) s'.
Proof using Hi.
  intros Hinv W Hf Hc L. rewrite (proc_fragment s t w _ W).
  assert (Hinv1 : rx_inv k i ns inb last log (frag_state full dn) (set_active s true)) by (by destruct Hinv).
  destruct (fragment_store _ _ _ _ _ _ _ _ Hinv1 W Hf Hc ltac:(lia)) as (s' & post & Hinv' & E).
  rewrite E, (proj2 (Z.ltb_lt _ _)) by done. cbn [mbind option_bind]. eauto.
Qed.

(** The last fragment completes the channel packet. *)
Lemma last_fragment_ok s t inb last log ty seq d dn chunk w :
  let h := ch_pkt_hdr i 0 ty 0 seq (Z.of_nat (length d)) in
  let full := 16 + Z.of_nat (length d) in
  rx_inv k i ns inb last log (frag_state full dn) s ->
  wire k STREAM_PKT_TYPE_FRAGMENT_PACKET (frag_plain full (Z.of_nat (length dn)) chunk) w ->
  fits 32 full -> chunk <> [] -> dn ++ chunk = h ++ d ->
  fits 8 ty -> fits 63 seq -> next_ok last seq ->
  exists s', s_stream_proc_pkt_in callback s_proc true (s, t) w = Some (s', t) /\
    rx_inv k i ns inb seq (log ++ events callback i ns ty d) (None, 0, 0) s'.
Proof using Hi.
  intros h full Hinv W Hf Hc Ed Hty Hs Hnx. rewrite (proc_fragment s t w _ W).
  assert (Hinv1 : rx_inv k i ns inb last log (frag_state full dn) (set_active s true)) by (by destruct Hinv).
  assert (Lh : length h = 16%nat) by apply length_ch_pkt_hdr.
  assert (Ld : (length dn + length chunk = 16 + length d)%nat) by (rewrite <- length_app, Ed, length_app; lia).
  assert (Hd32 : fits 32 (Z.of_nat (length d))) by (unfold fits, full in *; lia).
  destruct (fragment_store _ _ _ _ _ _ _ _ Hinv1 W Hf Hc ltac:(unfold full; lia)) as (s' & post & Hinv' & E).
  rewrite E, (proj2 (Z.ltb_ge _ _)) by (unfold full; lia). rewrite Ed in Hinv' |- *.
  rewrite length_app, Lh. replace (Z.to_nat full - (16 + length d))%nat with 0%nat by (unfold full; lia).
  cbn [replicate]. rewrite app_nil_r.
  assert (Hne : h ++ d <> []) by (intros E0%(f_equal length); rewrite length_app, Lh in E0; done).
  rewrite frag_state_ne in Hinv' by done.
  unfold data_packet_in, sizeof_ch_pkt_hdr. rewrite (proj2 (Z.ltb_ge full 16)) by (unfold full; lia).
  assert (Edd : ch_data_size (h ++ d) = Some (Z.of_nat (length d)))
    by (apply ch_pkt_hdr_fields; try done; unfold fits in *; lia).
  rewrite Edd. cbn [mbind option_bind]. rewrite (proj2 (Z.eqb_eq full _)) by (unfold full; lia). cbn [negb].
  pose proof (ri_frag _ _ _ _ _ _ _ _ Hinv') as Hfr.
  pose proof (f_equal (λ x, x.1.1) Hfr) as Eb. pose proof (f_equal (λ x, x.2) Hfr) as Ef. cbn [fst snd] in Eb, Ef.
  rewrite length_app, Lh in Eb, Ef. replace (Z.to_nat full - (16 + length d))%nat with 0%nat in Eb by (unfold full; lia).
  destruct (dispatch_ok s' inb last log _ ty seq d [] (frag_plain full (Z.of_nat (length dn)) chunk ++ post)
    Hinv' Hty Hs Hd32 Hnx) as (s2 & E2 & Hinv2).
  { right. split; [lia | done]. }
  fold h in E2. rewrite app_nil_r in E2. rewrite E2. cbn [mbind option_bind]. eexists. split; [done|].
  destruct Hinv2. by constructor.
Qed.
End Rx.

(** ** Runs of packets *)

Section Runs.
Context (callback : Z -> Z -> list Z -> bool) (s_proc : Z -> ch_proc).
Context (k : dap_enc_key) (i : Z) (ns : list Z).
Hypothesis Hi : fits 8 i.

(** Last sequence number, log, fragments under way. *)
Definition a_state := (Z * list stream_event * (option (list Z) * Z * Z))%type.
Definition inv (inb : list Z) (a : a_state) (s : dap_stream) : Prop := rx_inv k i ns inb a.1.1 a.1.2 a.2 s.

Definition trans (a : a_state) (w : list Z) (a' : a_state) : Prop :=
  forall inb s t, inv inb a s ->
    exists s', s_stream_proc_pkt_in callback s_proc true (s, t) w = Some (s', t) /\ inv inb a' s'.

Inductive chain : a_state -> list (list Z) -> a_state -> Prop :=
  | chain_nil a : chain a [] a
  | chain_cons a w a1 ws a2 : framed w -> trans a w a1 -> chain a1 ws a2 -> chain a (w :: ws) a2.

Lemma chain_app a ws a1 ws' a2 : chain a ws a1 -> chain a1 ws' a2 -> chain a (ws ++ ws') a2.
Proof using. induction 1; [done|]. intros H'. cbn. econstructor; eauto. Qed.

Lemma chain_split ws a ws' a2 : chain a (ws ++ ws') a2 -> exists a1, chain a ws a1 /\ chain a1 ws' a2.
Proof using.
  revert a. induction ws as [|w ws IH]; intros a H; [exists a; split; [constructor | done]|].
  inversion H as [|? ? a1 ? ? Hf Ht Hc]; subst. destruct (IH _ Hc) as (a3 & H1 & H2).
  exists a3. split; [econstructor; eauto | done].
Qed.

(** The fragments from [dn] on complete the packet [h ++ d]. *)
Lemma frags_chain last log ty seq d fuel : forall dn rest ws,
  let h := ch_pkt_hdr i 0 ty 0 seq (Z.of_nat (length d)) in
  let full := 16 + Z.of_nat (length d) in
  fits 32 full -> fits 8 ty -> fits 63 seq -> next_ok last seq ->
  dn ++ rest = h ++ d -> rest <> [] -> (length rest <= fuel)%nat ->
  Forall2 (wire k STREAM_PKT_TYPE_FRAGMENT_PACKET) (frags fuel full (Z.of_nat (length dn)) rest) ws ->
  chain (last, log, frag_state full dn) ws (seq, log ++ events callback i ns ty d, (None, 0, 0)).
Proof using Hi.
  induction fuel as [|fuel IH]; intros dn rest ws h full Hf Hty Hs Hnx E Hr L W; [destruct rest; cbn in *; [done | lia]|].
  destruct rest as [|r0 rest']; [done|]. set (rest := r0 :: rest') in *.
  change (frags (S fuel) full (Z.of_nat (length dn)) rest) with
    (frag_plain full (Z.of_nat (length dn)) (take (Z.to_nat l_max_fragm_size) rest) ::
     frags fuel full (Z.of_nat (length dn) + Z.of_nat (length (take (Z.to_nat l_max_fragm_size) rest)))
       (drop (Z.to_nat l_max_fragm_size) rest)) in W.
  set (chunk := take (Z.to_nat l_max_fragm_size) rest) in *.
  assert (Hc : chunk <> []) by done.
  apply Forall2_cons_inv_l in W as (w & ws' & Ww & Ws & ->).
  assert (Ld : (length dn + length rest = 16 + length d)%nat).
  { rewrite <- length_app, E, length_app. unfold h. by rewrite length_ch_pkt_hdr. }
  assert (Ec : rest = chunk ++ drop (Z.to_nat l_max_fragm_size) rest) by (unfold chunk; by rewrite take_drop).
  destruct (drop (Z.to_nat l_max_fragm_size) rest) as [|x rest1] eqn:Ed.
  - rewrite app_nil_r in Ec. destruct fuel; cbn [frags] in Ws; apply Forall2_nil_inv_l in Ws as ->;
      (econstructor; [by eapply wire_framed | | constructor]; intros inb s t Hinv;
       eapply last_fragment_ok; try done; by rewrite <- Ec).
  - assert (Lt : (length rest = length chunk + length (x :: rest1))%nat) by (by rewrite Ec at 1; rewrite length_app).
    apply (chain_cons _ _ (last, log, frag_state full (dn ++ chunk))); [by eapply wire_framed | |].
    + intros inb s t Hinv. eapply fragment_ok; try done. cbn [length] in *. unfold full. lia.
    + cbn [fst snd]. apply IH with (rest := x :: rest1); try done.
      * transitivity (dn ++ rest); [|exact E]. rewrite <- app_assoc. by f_equal.
      * assert (0 < length chunk)%nat by (destruct chunk; [done | cbn; lia]). cbn [length] in *. lia.
      * rewrite length_app, Nat2Z.inj_add. exact Ws.
Qed.

(** A channel packet, in one piece or in fragments. *)
Lemma packet_chain last log ty seq d ws :
  fits 32 (16 + Z.of_nat (length d)) -> fits 8 ty -> fits 63 seq -> next_ok last seq ->
  Forall2 (λ q w, wire k q.1 q.2 w) (packets i seq ty d) ws ->
  chain (last, log, (None, 0, 0)) ws (seq, log ++ events callback i ns ty d, (None, 0, 0)).
Proof using Hi.
  intros Hf Hty Hs Hnx W. unfold packets in W. set (h := ch_pkt_hdr i 0 ty 0 seq (Z.of_nat (length d))) in *.
  assert (Lh : length h = 16%nat) by apply length_ch_pkt_hdr. assert (M : l_max_fragm_size = 16172) by done.
  destruct (Z.leb_spec (16 + Z.of_nat (length d)) l_max_fragm_size) as [Hle | Hgt].
  - apply Forall2_cons_inv_l in W as (w & ws' & Ww & Ws & ->). apply Forall2_nil_inv_l in Ws as ->.
    econstructor; [by eapply wire_framed | | constructor]. intros inb s t Hinv.
    eapply data_pkt_ok; try done. unfold fits in *; lia.
  - apply Forall2_fmap_l in W. apply Forall2_cons_inv_l in W as (w & ws' & Ww & Ws & ->). cbn [fst snd compose] in Ww, Ws.
    apply (chain_cons _ _ (last, log, frag_state (16 + Z.of_nat (length d)) h)); [by eapply wire_framed | |].
    + intros inb s t Hinv. eapply (fragment_ok callback s_proc k i ns Hi s t inb last log _ [] h w Hinv Ww Hf).
      * intros E0%(f_equal length). by rewrite Lh in E0.
      * cbn [length]. lia.
    + cbn [app]. apply (frags_chain last log ty seq d (length d + 15) h d); try done; try lia.
      intros ->. cbn in Hgt. lia.
Qed.

(** ** Framing *)

(** A beginning of a packet that is not the whole of it. *)
Definition partial (p : list Z) : Prop := p = [] \/ exists w post, framed w /\ w = p ++ post /\ post <> [].

Lemma framed_start w : framed w -> exists w', w = 0xa0 :: w'.
Proof using. intros [E _ L]. destruct w as [|x w]; [done|]. cbn in E. injection E as -> _. eauto. Qed.

Lemma memchr_framed w post : framed w -> memchr 0xa0 (w ++ post) = Some (w ++ post).
Proof using. intros (w' & ->)%framed_start. done. Qed.

(** The scan stops at a beginning of a packet. *)
Lemma loop_partial fuel r p n : partial p -> (length p <= fuel)%nat ->
  proc_read_loop callback s_proc fuel true r p n = Some (r, n).
Proof using.
  intros [-> | (w & post & Hw & E & Hp)] L; [by destruct fuel|].
  pose proof Hw as [Es Ez Hl]. unfold sizeof_pkt_hdr in *.
  assert (Lw : (length w = length p + length post)%nat) by (by rewrite E, length_app).
  assert (Lp : (0 < length post)%nat) by (destruct post; [done | cbn; lia]).
  destruct p as [|x p]; [by destruct fuel|].
  assert (Ex : x = 0xa0) by (destruct (framed_start _ Hw) as (w' & E'); rewrite E in E'; by injection E' as ->). subst x.
  destruct fuel as [|fuel]; [cbn in L; lia|]. cbn [proc_read_loop memchr]. rewrite Z.eqb_refl. unfold sizeof_pkt_hdr.
  destruct (Z.ltb_spec (Z.of_nat (length (0xa0 :: p))) 37) as [? | H37]; [done|].
  rewrite bool_decide_true by (rewrite <- Es, E, take_app_le by lia; done).
  assert (Ep : hdr_size (0xa0 :: p) = Some (Z.of_nat (length w) - 37)).
  { rewrite <- Ez. unfold hdr_size in *. destruct (mem_le_Some (0xa0 :: p) 8 4) as [v Hv]; [lia .. |].
    rewrite Hv. symmetry. rewrite E. exact (mem_le_inside [] _ post 8 4 v 8 Hv eq_refl). }
  rewrite Ep. cbn [mbind option_bind]. rewrite (proj2 (Z.ltb_ge DAP_STREAM_PKT_SIZE_MAX _)) by lia.
  rewrite (proj2 (Z.leb_gt _ _)) by lia. done.
Qed.

Lemma loop_chain ws : forall a a' fuel inb s t p n, chain a ws a' -> inv inb a s -> partial p ->
  (length (concat ws ++ p) <= fuel)%nat ->
  exists s', proc_read_loop callback s_proc fuel true (s, t) (concat ws ++ p) n =
      Some ((s', t), n + Z.of_nat (length (concat ws))) /\ inv inb a' s'.
Proof using.
  induction ws as [|w ws IH]; intros a a' fuel inb s t p n Hc Hinv Hp L.
  - inversion Hc; subst. exists s. cbn [concat app length]. rewrite loop_partial by done. by rewrite Z.add_0_r.
  - inversion Hc as [|? ? a1 ? ? Hw Ht Hc1]; subst. cbn [concat] in *. rewrite <- app_assoc in *.
    pose proof Hw as [Es Ez Hl]. unfold sizeof_pkt_hdr in Ez, Hl. rewrite !length_app in L.
    destruct fuel as [|fuel]; [lia|]. cbn [proc_read_loop]. rewrite memchr_framed by done. unfold sizeof_pkt_hdr.
    rewrite (proj2 (Z.ltb_ge _ 37)) by (rewrite length_app; lia).
    rewrite bool_decide_true by (rewrite take_app_le by lia; done).
    assert (Ep : hdr_size (w ++ concat ws ++ p) = Some (Z.of_nat (length w) - 37))
      by (exact (mem_le_inside [] w _ 8 4 _ 8 Ez eq_refl)).
    rewrite Ep. cbn [mbind option_bind]. rewrite (proj2 (Z.ltb_ge DAP_STREAM_PKT_SIZE_MAX _)) by lia.
    replace (37 + (Z.of_nat (length w) - 37)) with (Z.of_nat (length w)) by lia.
    rewrite (proj2 (Z.leb_le _ _)) by (rewrite length_app; lia).
    rewrite Nat2Z.id, take_app_length, drop_app_length.
    destruct (Ht inb s t Hinv) as (s1 & E1 & Hinv1). rewrite E1. cbn [mbind option_bind].
    destruct (IH _ _ fuel inb s1 t p (n + Z.of_nat (length w)) Hc1 Hinv1 Hp) as (s2 & E2 & Hinv2);
      [rewrite length_app; lia|].
    exists s2. rewrite E2, length_app. split; [do 2 f_equal; lia | done].
Qed.

(** Bytes arrive: they are appended to the input buffer and processed. *)
Definition receive_chunk (r : rx) (chunk : list Z) : option rx :=
  let s := r.1 in
  stream_read_streaming callback s_proc true
    (set_esocket s (set_buf_in (st_esocket s) (es_buf_in (st_esocket s) ++ chunk)), r.2).

Fixpoint receive_all (r : rx) (chunks : list (list Z)) : option rx :=
  match chunks with [] => Some r | c :: cs => r ← receive_chunk r c; receive_all r cs end.

(** Any beginning of a run of packets is some packets and a piece. *)
Lemma cut ws : Forall framed ws -> forall p q, p ++ q = concat ws ->
  exists ws1 ws2 part, ws = ws1 ++ ws2 /\ p = concat ws1 ++ part /\ part ++ q = concat ws2 /\ partial part /\
    (ws2 = [] -> part = []) /\ (q = [] -> ws2 = []).
Proof using.
  induction 1 as [|w ws Hw _ IH]; intros p q E; cbn [concat] in E.
  - apply app_nil in E as [-> ->]. exists [], [], []. split_and!; try done. by left.
  - destruct (decide (length w <= length p)%nat) as [Hle | Hgt].
    + assert (Ew : p = w ++ drop (length w) p).
      { rewrite <- (take_drop (length w) p) at 1. f_equal. apply (f_equal (take (length w))) in E.
        by rewrite take_app_le, take_app_length in E. }
      rewrite Ew, <- app_assoc in E. apply app_inv_head in E. destruct (IH _ _ E) as (ws1 & ws2 & part & -> & E1 & H).
      exists (w :: ws1), ws2, part. split; [done|]. split; [cbn [concat]; by rewrite <- app_assoc, <- E1 | exact H].
    + exists [], (w :: ws), p. split_and!; try done.
      * right. exists w, (drop (length p) w). split_and!; [done | |].
        -- rewrite <- (take_drop (length p) w) at 1. f_equal. apply (f_equal (take (length p))) in E.
           rewrite take_app_length, take_app_le in E by lia. by symmetry.
        -- intros E0%(f_equal length). rewrite length_drop in E0. cbn in E0. lia.
      * intros ->. exfalso. apply (f_equal length) in E. rewrite !length_app in E. cbn in E. lia.
Qed.

Lemma chain_framed a ws a' : chain a ws a' -> Forall framed ws.
Proof using. induction 1; constructor; done. Qed.

Lemma receive_chain chunks : forall a ws a' b s t, chain a ws a' -> inv b a s -> b ++ concat chunks = concat ws ->
  (b = [] \/ exists w ws', ws = w :: ws' /\ (length b < length w)%nat) ->
  exists s', receive_all (s, t) chunks = Some (s', t) /\ inv [] a' s'.
Proof using.
  induction chunks as [|c chunks IH]; intros a ws a' b s t Hc Hinv E Hb; cbn [concat receive_all] in *.
  - rewrite app_nil_r in E. destruct ws as [|w ws].
    + inversion Hc; cbn in E; subst. eauto.
    + exfalso. pose proof (chain_framed _ _ _ Hc) as [[_ _ L] _]%Forall_cons_iff. unfold sizeof_pkt_hdr in L.
      apply (f_equal length) in E. cbn [concat] in E. rewrite length_app in E.
      destruct Hb as [-> | (w' & ws' & [= <- <-] & Hlt)]; cbn in *; lia.
  - rewrite app_assoc in E.
    destruct (cut ws (chain_framed _ _ _ Hc) _ _ E) as (ws1 & ws2 & part & -> & Ep & Eq & Hp & Hn & _).
    destruct (chain_split _ _ _ _ Hc) as (a1 & Hc1 & Hc2).
    unfold receive_chunk at 1, stream_read_streaming, dap_stream_data_proc_read. cbn [fst snd st_esocket set_esocket es_buf_in set_buf_in].
    rewrite (ri_in _ _ _ _ _ _ _ _ Hinv), Ep.
    set (s1 := set_esocket s _). assert (Hinv1 : inv (concat ws1 ++ part) a s1) by (destruct Hinv; by constructor).
    destruct (loop_chain ws1 a a1 (length (concat ws1 ++ part)) _ s1 t part 0 Hc1 Hinv1 Hp (le_n _)) as (s2 & E2 & Hinv2).
    rewrite E2. cbn [mbind option_bind fst snd]. rewrite Z.add_0_l, shrink_drop.
    rewrite (ri_in _ _ _ _ _ _ _ _ Hinv2), drop_app_length.
    apply (IH a1 ws2 a' part); [done | destruct Hinv2; by constructor | done |].
    destruct ws2 as [|w2 ws2]; [left; by apply Hn|].
    destruct Hp as [-> | (w & post & Hw & Ew & Hpost)]; [by left|]. right. exists w2, ws2. split; [done|].
    destruct (decide (length w2 <= length part)%nat) as [Hle|]; [|lia]. exfalso.
    cbn [concat] in Eq. pose proof (f_equal (take (length w2)) Eq) as E2'.
    rewrite take_app_le, take_app_length in E2' by done.
    pose proof (chain_framed _ _ _ Hc2) as [Hw2 _]%Forall_cons_iff.
    (* both packets begin with the bytes of [w2], so they announce the same size *)
    pose proof (fr_size _ Hw2) as Z2. pose proof (fr_size _ Hw) as Zw. pose proof (fr_len _ Hw2).
    assert (Zw2 : hdr_size w = Some (Z.of_nat (length w2) - sizeof_pkt_hdr)).
    { rewrite Ew, <- (take_drop (length w2) part), E2', <- app_assoc.
      exact (mem_le_inside [] w2 _ 8 4 _ 8 Z2 eq_refl). }
    rewrite Zw in Zw2. injection Zw2 as Zw2. rewrite Ew, length_app in Zw2.
    assert (0 < length post)%nat by (destruct post; [done | cbn; lia]). lia.
Qed.
End Runs.
