(* ===== verification/StreamRun.v ===== *)
(** * Streams: the guarantees of a conversation

    Sender and receiver together, what the scan of the input buffer does with
    any bytes, and what the receiver does not check. *)

From S2P Require Import Prelude Base64 Enc Esocket Session Stream StreamTx StreamRx.
Local Open Scope Z_scope.

(** ** A conversation *)

(** A message: when it is sent, its type and its data. *)
Definition message := (Z * Z * list Z)%type.

Fixpoint send_all (addr : Z) (t : tx) (c : nat) (msgs : list message) : option tx :=
  match msgs with
  | [] => Some t
  | (now, ty, d) :: msgs => '(t, _) ← dap_stream_ch_pkt_write_unsafe addr now true t c ty d; send_all addr t c msgs
  end.

Definition message_ok (m : message) : Prop :=
  fits 8 m.1.2 /\ Forall (fits 8) m.2 /\ 16 + Z.of_nat (length m.2) < 2 ^ 32.

(** A bound on the bytes the messages take on the wire. *)
Definition wire_bound (msgs : list message) : Z := 300 * (Z.of_nat (length (concat (map snd msgs))) + 32 * Z.of_nat (length msgs)).

Lemma wire_bound_cons m msgs : wire_bound (m :: msgs) = 300 * (Z.of_nat (length m.2) + 32) + wire_bound msgs.
Proof. unfold wire_bound. cbn [map concat length]. rewrite length_app. lia. Qed.

(** The sequence number after the messages, as a receiver remembers it. *)
Definition last_after (last seq : Z) (msgs : list message) : Z :=
  match msgs with [] => last | _ => seq + Z.of_nat (length msgs) - 1 end.

Lemma proc_at (l l' : list dap_stream_ch) c ch : map ch_proc_of l' = map ch_proc_of l -> l !! c = Some ch ->
  exists ch', l' !! c = Some ch' /\ ch_proc_of ch' = ch_proc_of ch.
Proof.
  intros E H. assert (E' : map ch_proc_of l' !! c = Some (ch_proc_of ch)) by (rewrite E, list_lookup_fmap, H; done).
  rewrite list_lookup_fmap in E'. destruct (l' !! c) as [ch'|]; [|done]. injection E' as E'. eauto.
Qed.

Lemma send_chain callback s_proc k `{!SymCipher k} p ns addr c msgs : fits 8 (proc_id p) -> Forall message_ok msgs ->
  forall t ch last log, tx_ok k t -> channel t.1 !! c = Some ch -> ch_proc_of ch = Some p ->
  0 <= seq_id t.1 -> seq_id t.1 + Z.of_nat (length msgs) < 2 ^ 63 -> next_ok last (seq_id t.1) ->
  Z.of_nat (length (es_buf_out (st_esocket t.1))) + wire_bound msgs < 2 ^ 58 ->
  exists t' ws, send_all addr t c msgs = Some t' /\
    es_buf_out (st_esocket t'.1) = es_buf_out (st_esocket t.1) ++ concat ws /\
    chain callback s_proc k (proc_id p) ns (last, log, (None, 0, 0)) ws
      (last_after last (seq_id t.1) msgs, log ++ flat_map (λ m, events callback (proc_id p) ns m.1.2 m.2) msgs, (None, 0, 0)).
Proof.
  intros Hp. induction 1 as [|[[now ty] d] msgs (Hty & Hd & Hl) _ IH]; intros t ch last log Hok Hch Hpr H0 Hs Hnx Hb.
  - exists t, []. cbn. rewrite !app_nil_r. split_and!; [done | done | constructor].
  - rewrite wire_bound_cons in Hb. cbn [fst snd length] in *. assert (0 <= wire_bound msgs) by (unfold wire_bound; lia).
    destruct (ch_pkt_write_spec k t addr now c ch p ty d) as (t1 & ws1 & ret & E1 & W & Hok1 & O1 & S1 & P1 & L1);
      try done; [lia|].
    destruct (proc_at _ _ _ _ P1 Hch) as (ch1 & Hch1 & Hpr1). rewrite Hpr in Hpr1.
    rewrite (wrap_id 64) in S1 by (unfold fits; lia).
    assert (Hnx1 : next_ok (seq_id t.1) (seq_id t1.1)) by (right; by rewrite S1, wrap_id by (unfold fits; lia)).
    assert (Hb1 : Z.of_nat (length (es_buf_out (st_esocket t1.1))) + wire_bound msgs < 2 ^ 58)
      by (rewrite O1, length_app; lia).
    destruct (IH t1 ch1 (seq_id t.1) (log ++ events callback (proc_id p) ns ty d) Hok1 Hch1 Hpr1
      ltac:(lia) ltac:(lia) Hnx1 Hb1) as (t2 & ws2 & E2 & O2 & C2).
    exists t2, (ws1 ++ ws2). cbn [send_all]. rewrite E1. cbn [mbind option_bind]. split; [done|].
    split; [by rewrite O2, O1, concat_app, app_assoc|].
    eapply chain_app.
    + apply (packet_chain callback s_proc k (proc_id p) ns Hp last log ty (seq_id t.1) d ws1); try done; unfold fits; lia.
    + cbn [flat_map fst snd]. rewrite app_assoc, S1 in *.
      assert (El : last_after last (seq_id t.1) ((now, ty, d) :: msgs) = last_after (seq_id t.1) (seq_id t.1 + 1) msgs)
        by (destruct msgs; cbn [last_after length]; lia).
      unfold message in *. rewrite El. exact C2.
Qed.

(** A receiver between packets, listening on channel [i]. *)
Definition rx_ready (k : dap_enc_key) (i : Z) (ns : list Z) (s : dap_stream) : Prop :=
  rx_inv k i ns [] (client_last_seq_id_packet s) (slog s) (None, 0, 0) s.

(** C1: streams deliver.  Whatever messages are written to a channel (short
    ones as one packet, long ones in fragments), every write succeeds, and
    however the bytes sent are cut into pieces on the way, a receiver with the
    same key, the channel's processor and the next sequence number shows the
    channel exactly these messages in this order, tells the channel's
    notifiers of those the callback accepts, and is left between packets: no
    bytes wait, no fragment is kept and the last message's number is
    remembered. *)
Theorem stream_delivers callback s_proc k `{!SymCipher k} p ns addr c msgs t ch s tbl :
  fits 8 (proc_id p) -> Forall message_ok msgs -> tx_ok k t -> channel t.1 !! c = Some ch -> ch_proc_of ch = Some p ->
  0 <= seq_id t.1 -> seq_id t.1 + Z.of_nat (length msgs) < 2 ^ 63 -> wire_bound msgs < 2 ^ 58 ->
  es_buf_out (st_esocket t.1) = [] ->
  rx_ready k (proc_id p) ns s -> next_ok (client_last_seq_id_packet s) (seq_id t.1) ->
  exists t', send_all addr t c msgs = Some t' /\
    forall chunks, concat chunks = es_buf_out (st_esocket t'.1) ->
      exists s', receive_all callback s_proc (s, tbl) chunks = Some (s', tbl) /\
        slog s' = slog s ++ flat_map (λ m, events callback (proc_id p) ns m.1.2 m.2) msgs /\
        rx_ready k (proc_id p) ns s' /\
        client_last_seq_id_packet s' = last_after (client_last_seq_id_packet s) (seq_id t.1) msgs.
Proof.
  intros Hi Hm Hok Hch Hp H0 Hs Hw Ho Hrx Hnx.
  destruct (send_chain callback s_proc k p ns addr c msgs Hi Hm t ch (client_last_seq_id_packet s) (slog s))
    as (t' & ws & E & O & C); try done; [rewrite Ho; cbn; lia|].
  exists t'. split; [done|]. intros chunks Ec. rewrite O, Ho in Ec. cbn [app] in Ec.
  destruct (receive_chain callback s_proc k (proc_id p) ns chunks _ ws _ [] s tbl C Hrx Ec (or_introl eq_refl))
    as (s' & E' & Hinv).
  exists s'. destruct Hinv as [? ? ? El Elog ?]. cbn [fst snd] in *. split; [done|]. split; [done|].
  split; [|done]. constructor; try done.
Qed.

(** A stream with one channel, for the witnesses. *)
Definition stream0 (k : dap_enc_key) (i : Z) : dap_stream :=
  Stream 7 EsHttpServer (Some k) (Esocket false false [] [] 0 0) false None 0 0
    [Ch (Some (Proc i true)) false true 0 0 [] []] 0 0 0 [].
Definition tx0 (k : dap_enc_key) (i : Z) : tx := (stream0 k i, replicate (Z.to_nat sizeof_pkt_buf) 0).

Lemma tx0_ok k i : tx_ok k (tx0 k i).
Proof. constructor; cbn [tx0 fst snd]; [done | by constructor | done | done | by rewrite length_replicate]. Qed.

Lemma rx0_ready k i : rx_ready k i [] (stream0 k i).
Proof.
  constructor; try done. exists 0%nat, (Ch (Some (Proc i true)) false true 0 0 [] []). split_and!; try done.
  unfold find_ch, has_proc_id. cbn. rewrite Z.eqb_refl. done.
Qed.

Lemma stream_delivers_witness :
  exists t', send_all 5 (tx0 (iaes_enc_key key0) 0x47) 0 [(1, 3, [1; 2; 3]); (2, 4, []); (3, 3, [9])] = Some t' /\
    forall chunks, concat chunks = es_buf_out (st_esocket t'.1) ->
      exists s', receive_all (λ _ _ _, true) (λ i, Proc i true)
          (stream0 (iaes_enc_key key0) 0x47, Sessions [] false []) chunks = Some (s', Sessions [] false []) /\
        slog s' = [EvPacketIn 0x47 3 [1; 2; 3]; EvPacketIn 0x47 4 []; EvPacketIn 0x47 3 [9]] /\
        rx_ready (iaes_enc_key key0) 0x47 [] s' /\ client_last_seq_id_packet s' = 2.
Proof.
  apply (stream_delivers (λ _ _ _, true) (λ i, Proc i true) (iaes_enc_key key0) (SymCipher0 := iaes_cipher key0 key0_ok)
    (Proc 0x47 true) [] 5 0 [(1, 3, [1; 2; 3]); (2, 4, []); (3, 3, [9])] (tx0 (iaes_enc_key key0) 0x47)
    (Ch (Some (Proc 0x47 true)) false true 0 0 [] []) (stream0 (iaes_enc_key key0) 0x47) (Sessions [] false []));
    first [apply tx0_ok | apply rx0_ready | by left | by repeat constructor | done].
Defined.

(** ** The scan of the input buffer *)

(** The packets in [pkts], one by one. *)
Definition run_packets (callback : Z -> Z -> list Z -> bool) (s_proc : Z -> ch_proc) (realloc_ok : bool) (r : rx)
    (pkts : list (list Z)) : option rx :=
  foldl (λ r p, r ← r; s_stream_proc_pkt_in callback s_proc realloc_ok r p) (Some r) pkts.

Lemma run_packets_None callback s_proc realloc_ok pkts :
  foldl (λ r p, r ← r; s_stream_proc_pkt_in callback s_proc realloc_ok r p) None pkts = None.
Proof. by induction pkts. Qed.

(** A packet as the scan cuts it. *)
Definition cut_out (p : list Z) : Prop :=
  take 8 p = c_dap_stream_sig /\ hdr_size p = Some (Z.of_nat (length p) - sizeof_pkt_hdr) /\
  sizeof_pkt_hdr <= Z.of_nat (length p) <= sizeof_pkt_hdr + DAP_STREAM_PKT_SIZE_MAX.

Lemma memchr_suffix c l l' : memchr c l = Some l' -> exists pre, l = pre ++ l' /\ c ∉ pre.
Proof.
  induction l as [|x l IH]; [done|]. cbn. destruct (Z.eqb_spec x c) as [-> | Hne].
  - intros [= <-]. exists []. split; [done | apply not_elem_of_nil].
  - intros (pre & -> & Hpre)%IH. exists (x :: pre). split; [done|]. rewrite elem_of_cons. intros [-> | ?]; done.
Qed.

Lemma memchr_None c l : memchr c l = None -> c ∉ l.
Proof.
  induction l as [|x l IH]; [intros _; apply not_elem_of_nil|]. cbn. destruct (Z.eqb_spec x c) as [->|Hne]; [done|].
  intros Hl%IH. rewrite elem_of_cons. intros [->|?]; done.
Qed.

(** What the scan is meant to do with a buffer, byte by byte: the packets it
    hands on, in order, and the number of bytes it reports as processed.  A
    buffer shorter than a header, or that begins with a packet which is not
    complete, has to wait for more; a byte at which no signature begins is
    passed over; the header of a packet that announces too much is dropped; a
    complete packet is handed on. *)
Inductive scans : list Z -> list (list Z) -> Z -> Prop :=
  | scans_wait l : Z.of_nat (length l) < sizeof_pkt_hdr -> scans l [] 0
  | scans_partial l sz : take 8 l = c_dap_stream_sig -> hdr_size l = Some sz -> sz <= DAP_STREAM_PKT_SIZE_MAX ->
      sizeof_pkt_hdr <= Z.of_nat (length l) < sizeof_pkt_hdr + sz -> scans l [] 0
  | scans_byte x l ps m : take 8 (x :: l) <> c_dap_stream_sig -> sizeof_pkt_hdr <= Z.of_nat (length (x :: l)) ->
      scans l ps m -> scans (x :: l) ps m
  | scans_dump l sz ps m : take 8 l = c_dap_stream_sig -> hdr_size l = Some sz -> DAP_STREAM_PKT_SIZE_MAX < sz ->
      sizeof_pkt_hdr <= Z.of_nat (length l) -> scans (drop (Z.to_nat sizeof_pkt_hdr) l) ps m ->
      scans l ps (sizeof_pkt_hdr + m)
  | scans_packet p l ps m : cut_out p -> scans l ps m -> scans (p ++ l) (p :: ps) (Z.of_nat (length p) + m).

(** A complete packet at the front of a buffer. *)
Lemma cut_out_front p l : cut_out p -> exists sz,
  take 8 (p ++ l) = c_dap_stream_sig /\ hdr_size (p ++ l) = Some sz /\ 0 <= sz <= DAP_STREAM_PKT_SIZE_MAX /\
  Z.of_nat (length p) = sizeof_pkt_hdr + sz.
Proof.
  intros (Hs & Hz & Hl). assert (H37 : sizeof_pkt_hdr = 37) by done. eexists. split_and!.
  - rewrite take_app_le by lia. exact Hs.
  - unfold hdr_size in *. exact (mem_le_inside [] p l 8 4 _ 8 Hz eq_refl).
  - lia.
  - lia.
  - lia.
Qed.

(** The front of a buffer as a packet. *)
Lemma cut_out_take l sz : take 8 l = c_dap_stream_sig -> hdr_size l = Some sz -> 0 <= sz <= DAP_STREAM_PKT_SIZE_MAX ->
  sizeof_pkt_hdr + sz <= Z.of_nat (length l) -> cut_out (take (Z.to_nat (sizeof_pkt_hdr + sz)) l).
Proof.
  intros Hs Hz Hsz Hl. assert (H37 : sizeof_pkt_hdr = 37) by done. set (k := Z.to_nat (sizeof_pkt_hdr + sz)).
  assert (Lk : length (take k l) = k) by (rewrite length_take; lia). unfold cut_out. rewrite Lk. split_and!; [| |lia..].
  - rewrite take_take. by replace (8 `min` k)%nat with 8%nat by lia.
  - unfold hdr_size. destruct (mem_le_Some (take k l) 8 4) as [v Hv]; [lia .. |].
    pose proof (mem_le_inside [] _ (drop k l) 8 4 v 8 Hv eq_refl) as Hv'. cbn [app] in Hv'.
    rewrite take_drop in Hv'. unfold hdr_size in Hz. rewrite Hz in Hv'. injection Hv' as <-. rewrite Hv. f_equal. lia.
Qed.

(** The meaning is unambiguous. *)
Lemma scans_unique l ps m : scans l ps m -> forall ps' m', scans l ps' m' -> ps' = ps /\ m' = m.
Proof.
  assert (H37 : sizeof_pkt_hdr = 37) by done. assert (HM : 0 <= DAP_STREAM_PKT_SIZE_MAX) by done.
  induction 1 as [l Hl|l sz Hs Hz Hle Hl|x l ps m Hs Hl _ IH|l sz ps m Hs Hz Hbig Hl _ IH|p l ps m Hp _ IH];
    intros ps' m' Hsc;
    try (destruct (cut_out_front p l Hp) as (szp & Hsp & Hzp & Hbp & Hlp); revert Hsc; remember (p ++ l) as l1 eqn:El1;
         intros Hsc; assert (Hl1 : length l1 = (length p + length l)%nat) by (by rewrite El1, length_app));
    try (remember (x :: l) as l1 eqn:El1);
    destruct Hsc as [l2 Hl'|l2 sz' Hs' Hz' Hle' Hl'|x' l2 ps' m' Hs' Hl' Hsc'|l2 sz' ps' m' Hs' Hz' Hbig' Hl' Hsc'|q l2 ps' m' Hq Hsc'];
    try (destruct (cut_out_front q l2 Hq) as (szq & Hsq & Hzq & Hbq & Hlq); rewrite ?length_app in * );
    simplify_eq; try done; try lia; try (by apply IH); try (by destruct (IH _ _ Hsc') as [-> ->]).
  apply app_inj_1 in El1 as [-> ->]; [|lia]. by destruct (IH _ _ Hsc') as [-> ->].
Qed.

Lemma scans_short l ps m : scans l ps m -> Z.of_nat (length l) < sizeof_pkt_hdr -> ps = [] /\ m = 0.
Proof. intros Hs Hl. by apply (scans_unique l [] 0); [constructor|]. Qed.

(** Bytes without the first byte of the signature are passed over. *)
Lemma scans_skip pre l ps m : 0xa0 ∉ pre -> scans l ps m -> scans (pre ++ l) ps m.
Proof.
  intros Hpre Hs. induction pre as [|x pre IH]; [done|]. apply not_elem_of_cons in Hpre as [Hx Hpre].
  specialize (IH Hpre). cbn [app].
  destruct (Z.ltb_spec (Z.of_nat (length (x :: pre ++ l))) sizeof_pkt_hdr) as [Hl|Hl].
  - destruct (scans_short _ _ _ IH) as [-> ->]; [cbn [length] in Hl; lia|]. by constructor.
  - constructor; [|done | done]. cbn [take]. intros E. by injection E as E _.
Qed.

Lemma scans_bounds l ps m : scans l ps m ->
  Forall cut_out ps /\ Z.of_nat (length (concat ps)) <= m <= Z.of_nat (length l).
Proof.
  assert (H37 : sizeof_pkt_hdr = 37) by done.
  induction 1 as [l Hl|l sz Hs Hz Hle Hl|x l ps m Hs Hl _ IH|l sz ps m Hs Hz Hbig Hl _ IH|p l ps m Hp _ IH];
    cbn [concat length] in *; rewrite ?length_drop, ?length_app in *; split; try done; try lia; try apply IH;
    try (constructor; [done | apply IH]).
Qed.

Lemma scan_spec fuel : forall l, Forall (fits 8) l -> (length l <= fuel)%nat ->
  exists ps m, scans l ps m /\
    forall callback s_proc realloc_ok r n,
      proc_read_loop callback s_proc fuel realloc_ok r l n =
      r' ← run_packets callback s_proc realloc_ok r ps; Some (r', n + m).
Proof.
  assert (H37 : sizeof_pkt_hdr = 37) by done.
  induction fuel as [|fuel IH]; intros l F L.
  { destruct l; [|cbn in L; lia]. exists [], 0. split; [by constructor|]. intros. cbn. by rewrite Z.add_0_r. }
  assert (Stop : scans l [] 0 -> (forall callback s_proc realloc_ok r n,
      proc_read_loop callback s_proc (S fuel) realloc_ok r l n = Some (r, n)) ->
    exists ps m, scans l ps m /\ forall callback s_proc realloc_ok r n,
      proc_read_loop callback s_proc (S fuel) realloc_ok r l n =
      r' ← run_packets callback s_proc realloc_ok r ps; Some (r', n + m)).
  { intros Hs E. exists [], 0. split; [done|]. intros. rewrite E. cbn. by rewrite Z.add_0_r. }
  destruct (memchr 0xa0 l) as [l'|] eqn:Em.
  2: { apply Stop; [|intros; cbn [proc_read_loop]; by rewrite Em]. rewrite <- (app_nil_r l).
       apply scans_skip; [by apply memchr_None | by constructor]. }
  destruct (memchr_suffix _ _ _ Em) as (pre & El & Hpre). subst l. rewrite length_app in L.
  destruct (Z.ltb_spec (Z.of_nat (length l')) sizeof_pkt_hdr) as [Hs | Hs].
  { apply Stop; [apply scans_skip; [done | by constructor]|]. intros. cbn [proc_read_loop].
    by rewrite Em, (proj2 (Z.ltb_lt _ _)). }
  apply Forall_app in F as [_ F].
  destruct (decide (take 8 l' = c_dap_stream_sig)) as [Hsig | Hsig].
  2:{ destruct l' as [|x l']; [cbn in Hs; lia|]. inversion_clear F as [|?? _ F'].
      destruct (IH l' F') as (ps & m & Hsc & E'); [cbn in L; lia|]. exists ps, m.
      split; [apply scans_skip; [done | by constructor]|]. intros. cbn [proc_read_loop].
      rewrite Em, (proj2 (Z.ltb_ge _ _)), bool_decide_false by done. cbn [drop]. apply E'. }
  destruct (mem_le_Some l' 8 4) as [sz Hsz]; [lia .. |]. pose proof (mem_le_fits _ _ _ _ F Hsz) as [Hsz0 _].
  fold (hdr_size l') in Hsz.
  destruct (Z.ltb_spec DAP_STREAM_PKT_SIZE_MAX sz) as [Hbig | Hle].
  { destruct (IH (drop (Z.to_nat sizeof_pkt_hdr) l') ltac:(by apply Forall_drop)) as (ps & m & Hsc & E');
      [rewrite length_drop; lia|].
    exists ps, (sizeof_pkt_hdr + m). split; [apply scans_skip; [done | by apply (scans_dump l' sz)]|].
    intros. cbn [proc_read_loop]. rewrite Em, (proj2 (Z.ltb_ge _ _)), bool_decide_true, Hsz by done.
    cbn [mbind option_bind]. rewrite (proj2 (Z.ltb_lt _ _)), E' by done.
    destruct (run_packets _ _ _ _ _); cbn [mbind option_bind]; [do 2 f_equal; lia | done]. }
  destruct (Z.leb_spec (sizeof_pkt_hdr + sz) (Z.of_nat (length l'))) as [Hfull | Hpart].
  2:{ apply Stop; [apply scans_skip; [done | by apply (scans_partial l' sz)]|]. intros. cbn [proc_read_loop].
      rewrite Em, (proj2 (Z.ltb_ge _ _)), bool_decide_true, Hsz by done. cbn [mbind option_bind].
      by rewrite (proj2 (Z.ltb_ge _ _)), (proj2 (Z.leb_gt _ _)) by done. }
  clear Stop. pose proof (cut_out_take l' sz Hsig Hsz ltac:(lia) Hfull) as Hcut.
  set (k := Z.to_nat (sizeof_pkt_hdr + sz)) in *.
  destruct (IH (drop k l') ltac:(by apply Forall_drop)) as (ps & m & Hsc & E'); [rewrite length_drop; lia|].
  assert (Lk : length (take k l') = k) by (rewrite length_take; lia).
  exists (take k l' :: ps), (Z.of_nat (length (take k l')) + m). split.
  { apply scans_skip; [done|]. rewrite <- (take_drop k l') at 1. by constructor. }
  intros. cbn [proc_read_loop]. rewrite Em, (proj2 (Z.ltb_ge _ _)), bool_decide_true, Hsz by done.
  cbn [mbind option_bind]. rewrite (proj2 (Z.ltb_ge _ _)), (proj2 (Z.leb_le _ _)) by done. fold k.
  unfold run_packets. cbn [foldl]. change (Some r ≫= ?f) with (f r). cbn beta.
  destruct (s_stream_proc_pkt_in _ _ _ r (take k l')) as [r1|]; cbn [mbind option_bind];
    [|by rewrite run_packets_None].
  rewrite E', Lk. unfold run_packets. destruct (foldl _ _ _); cbn [mbind option_bind]; [do 2 f_equal; lia | done].
Qed.

(** C35: the scan of the input buffer ends on any bytes whatever and hands on
    exactly the complete packets.  What a buffer means is [scans]: byte by byte,
    a complete packet is taken out, the header of one that announces more than
    [DAP_STREAM_PKT_SIZE_MAX] is dropped, a byte at which no signature begins is
    passed over, and the scan stops where a packet (or a header) is not complete
    yet.  This determines the packets and the processed size; the code, which
    jumps from one first byte of a signature to the next, runs its handler on
    these packets, in order, and reports this size, at least the length of the
    packets and at most the buffer's. *)
Theorem proc_read_scans callback s_proc realloc_ok s tbl : Forall (fits 8) (es_buf_in (st_esocket s)) ->
  exists ps m, scans (es_buf_in (st_esocket s)) ps m /\
    (forall ps' m', scans (es_buf_in (st_esocket s)) ps' m' -> ps' = ps /\ m' = m) /\
    Forall cut_out ps /\ Z.of_nat (length (concat ps)) <= m <= Z.of_nat (length (es_buf_in (st_esocket s))) /\
    dap_stream_data_proc_read callback s_proc realloc_ok (s, tbl) =
    r ← run_packets callback s_proc realloc_ok (s, tbl) ps; Some (r, m).
Proof.
  intros F. destruct (scan_spec _ _ F (le_n _)) as (ps & m & Hs & E). destruct (scans_bounds _ _ _ Hs) as [Hc Hm].
  exists ps, m. split_and!; try done; [by apply scans_unique | lia..|].
  unfold dap_stream_data_proc_read. cbn [fst]. by rewrite E.
Qed.

(** Three bytes, a keep-alive answer, the first byte of the next packet: one
    packet is handled. *)
Lemma proc_read_scans_witness :
  let p := pkt_hdr 0 0 STREAM_PKT_TYPE_ALIVE 0 0 in
  let s := set_esocket (stream0 (iaes_enc_key key0) 1) (Esocket false false ([1; 0xa0; 2] ++ p ++ [0xa0]) [] 0 0) in
  dap_stream_data_proc_read (λ _ _ _, true) (λ i, Proc i true) true (s, Sessions [] false []) =
  r ← run_packets (λ _ _ _, true) (λ i, Proc i true) true (s, Sessions [] false []) [p]; Some (r, 37).
Proof.
  intros p s.
  destruct (proc_read_scans (λ _ _ _, true) (λ i, Proc i true) true s (Sessions [] false [])) as (ps & m & _ & U & _ & _ & E);
    [by repeat constructor|].
  destruct (U [p] 37) as [<- <-]; [|exact E].
  do 3 (apply scans_byte; [discriminate | cbn; unfold sizeof_pkt_hdr; lia|]).
  apply (scans_packet p [0xa0] [] 0); [split_and!; by vm_compute | by constructor].
Defined.

(** ** What a peer can do *)

(** Nothing compares the end of a fragment with the size announced for the
    whole packet.  A peer with the session key that sends a first fragment of
    more data than its [full_size] makes the receiver copy past the end of the
    block it has just allocated. *)
Theorem fragment_overflow callback s_proc k `{!SymCipher k} i ns addr now t s tbl full chunk :
  tx_ok k t -> es_buf_out (st_esocket t.1) = [] -> rx_ready k i ns s ->
  0 <= full < Z.of_nat (length chunk) -> Forall (fits 8) chunk -> Z.of_nat (length chunk) <= l_max_fragm_size ->
  exists t' n, dap_stream_pkt_write_unsafe addr now true t STREAM_PKT_TYPE_FRAGMENT_PACKET (frag_plain full 0 chunk) = Some (t', n) /\
    receive_chunk callback s_proc (s, tbl) (es_buf_out (st_esocket t'.1)) = None.
Proof.
  intros Hok Ho Hrx Hf F L. assert (M : l_max_fragm_size = 16172) by done.
  destruct (pkt_write_spec k t addr now STREAM_PKT_TYPE_FRAGMENT_PACKET (frag_plain full 0 chunk))
    as (t' & w & Ew & W & _ & [Oo _ _] & _); try done.
  { rewrite length_frag_plain. unfold sizeof_fragment_pkt. lia. }
  { apply Forall_app. split; [apply fields_fits | done]. }
  { rewrite Ho, length_frag_plain. cbn [length]. lia. }
  exists t', (Z.of_nat (length w)). split; [done|]. rewrite Oo, Ho. cbn [app].
  destruct Hrx as [Hk _ Hin _ _ Hfr]. unfold receive_chunk, stream_read_streaming, dap_stream_data_proc_read.
  cbn [fst snd st_esocket set_esocket es_buf_in set_buf_in]. rewrite Hin. cbn [app].
  set (s1 := set_esocket s _). destruct (framed_start w (wire_framed _ _ _ _ W)) as (w' & Ew').
  pose proof (wire_framed _ _ _ _ W) as [Es Ez Hl]. unfold sizeof_pkt_hdr in Ez, Hl.
  assert (Em : memchr 0xa0 w = Some w) by (by rewrite Ew').
  assert (Hfu : exists fuel, length w = S fuel) by (exists (pred (length w)); lia). destruct Hfu as (fuel & Lw).
  rewrite Lw. cbn [proc_read_loop]. rewrite Em. unfold sizeof_pkt_hdr.
  rewrite (proj2 (Z.ltb_ge _ 37)), bool_decide_true, Ez by (done || lia). cbn [mbind option_bind].
  rewrite (proj2 (Z.ltb_ge DAP_STREAM_PKT_SIZE_MAX _)), (proj2 (Z.leb_le _ _)) by lia.
  rewrite take_ge by lia. rewrite (proc_fragment callback s_proc k s1 tbl w _ W).
  destruct (read_wire k _ _ w (set_active s1 true) W Hk) as (post & Er).
  destruct (frag_plain_fields full 0 chunk post) as (E1 & E2 & E3 & E4); [unfold fits; lia .. |].
  unfold fragment_packet_in. rewrite Er. cbn [mbind option_bind]. rewrite length_frag_plain.
  rewrite (proj2 (Z.eqb_neq _ 0)), E1 by lia. cbn [mbind option_bind]. unfold sizeof_fragment_pkt at 1.
  rewrite (proj2 (Z.eqb_eq _ _)) by lia. cbn [negb]. rewrite E2. cbn [mbind option_bind].
  injection Hfr as Eb _ Ef. change (buf_fragments_size_filled (set_active s1 true)) with (buf_fragments_size_filled s).
  change (buf_fragments (set_active s1 true)) with (buf_fragments s).
  rewrite Ef, Eb, E3, E4. cbn [Z.eqb negb mbind option_bind buf_fragments set_fragments].
  assert (Hw : mem_write (default [] (if full =? 0 then None else Some (replicate (Z.to_nat full) 0))) 0 chunk = None).
  { unfold mem_write. destruct (full =? 0); cbn [from_option]; unfold Datatypes.id; rewrite ?length_replicate; cbn [length];
      rewrite (proj2 (Z.leb_gt (0 + Z.of_nat (length chunk)) _)) by lia; done. }
  rewrite Hw. done.
Qed.

Lemma fragment_overflow_witness :
  exists t' n, dap_stream_pkt_write_unsafe 5 1 true (tx0 (iaes_enc_key key0) 1) STREAM_PKT_TYPE_FRAGMENT_PACKET
      (frag_plain 1 0 [1; 2]) = Some (t', n) /\
    receive_chunk (λ _ _ _, true) (λ i, Proc i true) (stream0 (iaes_enc_key key0) 1, Sessions [] false [])
      (es_buf_out (st_esocket t'.1)) = None.
Proof.
  apply (fragment_overflow (λ _ _ _, true) (λ i, Proc i true) (iaes_enc_key key0) (SymCipher0 := iaes_cipher key0 key0_ok)
    1 [] 5 1 (tx0 (iaes_enc_key key0) 1) (stream0 (iaes_enc_key key0) 1) (Sessions [] false []) 1 [1; 2]);
    first [apply tx0_ok | apply rx0_ready | by repeat constructor | done].
Defined.

(** The verdict on a packet outside a run of fragments. *)
Lemma loose_spec s p seq : buf_fragments_size_filled s = 0 -> ch_seq_id p = Some seq -> 0 <= seq < 2 ^ 63 ->
  0 <= client_last_seq_id_packet s < 2 ^ 63 - 1 ->
  s_detect_loose_packet s p = Some (set_last_seq s seq, (0 <? client_last_seq_id_packet s) && (seq <=? client_last_seq_id_packet s)
                                                         || (seq <? client_last_seq_id_packet s)).
Proof.
  intros Hf Hs H0 Hl. unfold s_detect_loose_packet. rewrite Hf. cbn [Z.eqb negb mbind option_bind]. rewrite Hs.
  cbn [mbind option_bind]. set (last := client_last_seq_id_packet s) in *.
  rewrite wrap_id by (unfold fits; lia). unfold to_ll. rewrite !(proj2 (Z.ltb_lt _ (2 ^ 63))) by lia.
  assert (E : (if negb (seq =? 0) || negb (last =? 0) then seq - (last + 1) else 0) = 
     if (seq =? 0) && (last =? 0) then 0 else seq - (last + 1)) by (destruct (seq =? 0), (last =? 0); done).
  rewrite E. destruct (Z.eqb_spec seq 0), (Z.eqb_spec last 0); cbn [andb];
    rewrite (proj2 (Z.ltb_ge _ (- 2 ^ 63))), (proj2 (Z.leb_gt (2 ^ 63) _)) by lia; cbn [orb]; do 2 f_equal; lia.
Qed.

(** A data packet whose number is not above the last is dropped, and its number
    is remembered. *)
Lemma data_pkt_dropped callback s_proc k i ns s t inb last log ty seq d w : fits 8 i ->
  rx_inv k i ns inb last log (None, 0, 0) s -> fits 8 ty -> fits 32 (Z.of_nat (length d)) ->
  0 <= seq <= last -> 0 < last < 2 ^ 63 - 1 ->
  wire k STREAM_PKT_TYPE_DATA_PACKET (ch_pkt_hdr i 0 ty 0 seq (Z.of_nat (length d)) ++ d) w ->
  exists s', s_stream_proc_pkt_in callback s_proc true (s, t) w = Some (s', t) /\
    rx_inv k i ns inb seq log (None, 0, 0) s'.
Proof.
  intros Hi Hinv Hty Hd Hs Hl W. set (x := ch_pkt_hdr _ _ _ _ _ _ ++ d) in *.
  assert (Hinv1 : rx_inv k i ns inb last log (None, 0, 0) (set_active s true)) by (by destruct Hinv).
  destruct (read_wire k _ x w (set_active s true) W (ri_session _ _ _ _ _ _ _ _ Hinv1)) as (post & Er).
  pose proof W as (now & src & dst & y & Ew & _ & Hy & _). unfold DAP_STREAM_PKT_SIZE_MAX in Hy.
  unfold s_stream_proc_pkt_in. rewrite Ew, hdr_size_spec by (unfold fits; lia). cbn [mbind option_bind].
  rewrite hdr_type_spec by done. cbn [mbind option_bind]. rewrite <- Ew.
  change (STREAM_PKT_TYPE_DATA_PACKET =? STREAM_PKT_TYPE_FRAGMENT_PACKET) with false.
  rewrite Z.eqb_refl, Er. cbn [mbind option_bind].
  assert (Lx : Z.of_nat (length x) = 16 + Z.of_nat (length d))
    by (unfold x; rewrite length_app, length_ch_pkt_hdr; lia).
  destruct (ch_pkt_hdr_fields i ty seq (Z.of_nat (length d)) (d ++ post)) as (_ & _ & Eq & Ed); try done; [unfold fits; lia|].
  rewrite app_assoc in Eq, Ed. fold x in Eq, Ed.
  unfold data_packet_in, dispatch_packet, sizeof_ch_pkt_hdr. rewrite (proj2 (Z.ltb_ge _ 16)), Ed by lia. cbn [mbind option_bind].
  rewrite (proj2 (Z.eqb_eq _ _)) by lia. cbn [negb].
  pose proof (f_equal snd (ri_frag _ _ _ _ _ _ _ _ Hinv1)) as Hf. cbn [snd] in Hf.
  pose proof (ri_last _ _ _ _ _ _ _ _ Hinv1) as Hla.
  rewrite (loose_spec _ _ seq Hf Eq) by (rewrite ?Hla; lia). rewrite Hla.
  rewrite (proj2 (Z.ltb_lt 0 last)), (proj2 (Z.leb_le seq last)) by lia. cbn [andb orb mbind option_bind].
  eexists. split; [done|]. destruct Hinv1. by constructor.
Qed.

(** The check that drops a packet whose sequence number is not above the
    last one records the number of the packet it drops.  When the bytes of two
    messages that were received before are sent again, the receiver drops the
    first, if it is short, and shows the second to the channel again. *)
Theorem replay_second_accepted callback s_proc k `{!SymCipher k} p ns addr c m1 m2 t ch s tbl :
  fits 8 (proc_id p) -> message_ok m1 -> message_ok m2 -> 16 + Z.of_nat (length m1.2) <= l_max_fragm_size ->
  tx_ok k t -> channel t.1 !! c = Some ch -> ch_proc_of ch = Some p -> es_buf_out (st_esocket t.1) = [] ->
  rx_ready k (proc_id p) ns s ->
  0 <= seq_id t.1 -> seq_id t.1 + 1 <= client_last_seq_id_packet s < 2 ^ 63 - 1 -> wire_bound [m1; m2] < 2 ^ 58 ->
  exists t', send_all addr t c [m1; m2] = Some t' /\
    forall chunks, concat chunks = es_buf_out (st_esocket t'.1) ->
      exists s', receive_all callback s_proc (s, tbl) chunks = Some (s', tbl) /\
        slog s' = slog s ++ events callback (proc_id p) ns m2.1.2 m2.2 /\
        client_last_seq_id_packet s' = seq_id t.1 + 1.
Proof.
  destruct m1 as [[now1 ty1] d1]. cbn [fst snd]. intros Hi (Hty1 & Hd1 & Hl1) Hm2 Hsh Hok Hch Hp Ho Hrx H0 Hs Hw.
  cbn [fst snd] in *. rewrite wire_bound_cons in Hw. cbn [snd] in Hw.
  assert (0 <= wire_bound [m2]) by (unfold wire_bound; lia).
  destruct (ch_pkt_write_spec k t addr now1 c ch p ty1 d1) as (t1 & ws1 & ret & E1 & W & Hok1 & O1 & S1 & P1 & L1);
    try done; [rewrite Ho; cbn; lia|].
  destruct (proc_at _ _ _ _ P1 Hch) as (ch1 & Hch1 & Hpr1). rewrite Hp in Hpr1.
  rewrite (wrap_id 64) in S1 by (unfold fits; lia). rewrite Ho in O1. cbn [app] in O1.
  destruct (send_chain callback s_proc k p ns addr c [m2] Hi (proj2 (Forall_singleton message_ok m2) Hm2) t1 ch1 (seq_id t.1) (slog s))
    as (t2 & ws2 & E2 & O2 & C2); try done; cbn [length]; try lia.
  { right. by rewrite S1, wrap_id by (unfold fits; lia). }
  { rewrite O1. lia. }
  exists t2. cbn [send_all] in E2 |- *. rewrite E1. cbn [mbind option_bind]. split; [done|]. intros chunks Ec.
  assert (C1 : chain callback s_proc k (proc_id p) ns (client_last_seq_id_packet s, slog s, (None, 0, 0)) ws1
    (seq_id t.1, slog s, (None, 0, 0))).
  { unfold packets in W. rewrite (proj2 (Z.leb_le _ _)) in W by lia.
    apply Forall2_cons_inv_l in W as (w & ws' & Ww & Ws & ->). apply Forall2_nil_inv_l in Ws as ->.
    econstructor; [by eapply wire_framed | | constructor]. intros inb x y Hx.
    eapply data_pkt_dropped; try done; unfold fits; cbn [fst snd]; lia. }
  rewrite O2, O1, <- concat_app in Ec.
  destruct (receive_chain callback s_proc k (proc_id p) ns chunks _ (ws1 ++ ws2) _ [] s tbl
    ltac:(by eapply chain_app) Hrx Ec (or_introl eq_refl)) as (s' & E' & Hinv).
  exists s'. destruct Hinv as [? ? ? El Elog ?]. cbn [fst snd] in *. split; [done|].
  rewrite Elog, El. cbn [flat_map last_after length]. rewrite app_nil_r, S1. split; [done | lia].
Qed.

Lemma replay_second_accepted_witness :
  exists t', send_all 5 (tx0 (iaes_enc_key key0) 0x47) 0 [(1, 3, [1; 2; 3]); (2, 4, [7])] = Some t' /\
    forall chunks, concat chunks = es_buf_out (st_esocket t'.1) ->
      exists s', receive_all (λ _ _ _, true) (λ i, Proc i true)
          (set_last_seq (stream0 (iaes_enc_key key0) 0x47) 9, Sessions [] false []) chunks = Some (s', Sessions [] false []) /\
        slog s' = [EvPacketIn 0x47 4 [7]] /\ client_last_seq_id_packet s' = 1.
Proof.
  apply (replay_second_accepted (λ _ _ _, true) (λ i, Proc i true) (iaes_enc_key key0) (SymCipher0 := iaes_cipher key0 key0_ok)
    (Proc 0x47 true) [] 5 0 (1, 3, [1; 2; 3]) (2, 4, [7]) (tx0 (iaes_enc_key key0) 0x47)
    (Ch (Some (Proc 0x47 true)) false true 0 0 [] []) (set_last_seq (stream0 (iaes_enc_key key0) 0x47) 9) (Sessions [] false []));
    first [apply tx0_ok | by destruct (rx0_ready (iaes_enc_key key0) 0x47) | by repeat constructor | done].
Defined.

(** The bytes skipped before a packet are not counted as processed: with as
    many of them as the packet has, the packet is still in the input buffer
    after it was handled. *)
Lemma skipped_bytes_keep_packet callback s_proc realloc_ok s tbl junk w :
  framed w -> 0xa0 ∉ junk -> (length w <= length junk)%nat -> es_buf_in (st_esocket s) = junk ++ w ->
  forall s' tbl', s_stream_proc_pkt_in callback s_proc realloc_ok (s, tbl) w = Some (s', tbl') ->
  es_buf_in (st_esocket s') = es_buf_in (st_esocket s) ->
  exists s2, stream_read_streaming callback s_proc realloc_ok (s, tbl) = Some (s2, tbl') /\
    es_buf_in (st_esocket s2) = drop (length w) junk ++ w.
Proof.
  intros Hw Hj L Hb s' tbl' E Hb'. pose proof Hw as [Es Ez Hl]. unfold sizeof_pkt_hdr in Ez, Hl.
  unfold stream_read_streaming, dap_stream_data_proc_read. cbn [fst]. rewrite Hb.
  assert (Em : memchr 0xa0 (junk ++ w) = Some w).
  { clear - Hj Hw. induction junk as [|x junk IH]; [destruct (framed_start w Hw) as (w' & ->); done|].
    rewrite elem_of_cons in Hj. cbn. rewrite (proj2 (Z.eqb_neq x 160)) by (intros ->; tauto). apply IH. tauto. }
  assert (Hfu : exists fuel, length (junk ++ w) = S (S fuel)) by (exists (length (junk ++ w) - 2)%nat; rewrite length_app; lia).
  destruct Hfu as (fuel & Lw). rewrite Lw. cbn [proc_read_loop]. rewrite Em. unfold sizeof_pkt_hdr.
  rewrite (proj2 (Z.ltb_ge _ 37)), bool_decide_true, Ez by (done || lia). cbn [mbind option_bind].
  rewrite (proj2 (Z.ltb_ge DAP_STREAM_PKT_SIZE_MAX _)), (proj2 (Z.leb_le _ _)) by lia.
  rewrite take_ge, drop_ge, E by lia. cbn [mbind option_bind memchr fst snd].
  replace (0 + (37 + (Z.of_nat (length w) - 37))) with (Z.of_nat (length w)) by lia. rewrite shrink_drop, Hb', Hb.
  eexists. split; [done|]. cbn. by rewrite drop_app_le.
Qed.
