(* ===== verification/StreamReg.v ===== *)
(** * The registry of streams (net/stream/stream/dap_stream.c)

    Every stream of the node is in the list [s_streams]; one authorized stream
    per node is [primary] and in the hash table [s_authorized_streams], and the
    cluster [s_global_links_cluster] has the nodes of the table as members.

    Streams live in a heap, so a pointer to a freed stream is an address
    without an entry; reading through it, deleting an element from a list or
    table it is not in, and appending an element that is linked already are
    [None].  The clusters are those of [Cluster.v], the sessions those of
    [Session.v]; calls to the link manager, to the channels' callbacks and to
    the socket layer are logged. *)

From S2P Require Import Prelude Session Cluster.
From stdpp Require Import gmap.
Local Open Scope Z_scope.

(** The fields of [dap_stream_t] the registry uses; [r_prev] is whether [prev]
    is set, which [DL_DELETE] leaves as it is. *)
Record rstream := RStream {
  r_node : Z;
  r_authorized : bool;
  r_primary : bool;
  r_prev : bool;
  r_uplink : bool;
  r_uuid : Z;
  r_worker : option Z;
  r_session : option Z;
  r_channels : list Z;
  r_esocket : option (list Z * Z);
  r_seq_id : Z;
}.

Definition set_primary (s : rstream) b :=
  RStream (r_node s) (r_authorized s) b (r_prev s) (r_uplink s) (r_uuid s) (r_worker s) (r_session s) (r_channels s)
    (r_esocket s) (r_seq_id s).
Definition set_prev (s : rstream) b :=
  RStream (r_node s) (r_authorized s) (r_primary s) b (r_uplink s) (r_uuid s) (r_worker s) (r_session s) (r_channels s)
    (r_esocket s) (r_seq_id s).

Inductive reg_event :=
  | LmAdd (node : Z) (uplink : bool)
  | LmReplace (node : Z) (uplink : bool)
  | LmDelete (node : Z)
  | ChDelete (stream ch_id : Z)
  | EsRemove (uuid : Z).

Record reg := Reg {
  rstreams : gmap Z rstream;
  s_streams : list Z;
  s_authorized_streams : gmap Z Z;
  s_streams_lock : rwlock;
  links : world;
  s_global_links_cluster : Z;
  rsessions : sessions;
  rlog : list reg_event;
}.

Definition set_rstreams (g : reg) h :=
  Reg h (s_streams g) (s_authorized_streams g) (s_streams_lock g) (links g) (s_global_links_cluster g) (rsessions g) (rlog g).
Definition set_list (g : reg) l :=
  Reg (rstreams g) l (s_authorized_streams g) (s_streams_lock g) (links g) (s_global_links_cluster g) (rsessions g) (rlog g).
Definition set_table (g : reg) t :=
  Reg (rstreams g) (s_streams g) t (s_streams_lock g) (links g) (s_global_links_cluster g) (rsessions g) (rlog g).
Definition set_rlock (g : reg) l :=
  Reg (rstreams g) (s_streams g) (s_authorized_streams g) l (links g) (s_global_links_cluster g) (rsessions g) (rlog g).
Definition set_links (g : reg) w :=
  Reg (rstreams g) (s_streams g) (s_authorized_streams g) (s_streams_lock g) w (s_global_links_cluster g) (rsessions g) (rlog g).
Definition set_rsessions (g : reg) t :=
  Reg (rstreams g) (s_streams g) (s_authorized_streams g) (s_streams_lock g) (links g) (s_global_links_cluster g) t (rlog g).
Definition remit (g : reg) e :=
  Reg (rstreams g) (s_streams g) (s_authorized_streams g) (s_streams_lock g) (links g) (s_global_links_cluster g) (rsessions g)
    (rlog g ++ e).

(** ** The list and the table *)

(** [HASH_FIND] on the table: the element found is read. *)
Definition find_authorized (g : reg) (n : Z) : option (option Z) :=
  match s_authorized_streams g !! n with
  | Some a => s ← rstreams g !! a; Some (Some a)
  | None => Some None
  end.

(** [ok] is the outcome of the cluster's allocation of a member. *)
Definition s_stream_add_to_hashtable (g : reg) (ok : bool) (a_stream : Z) : option (reg * Z) :=
  s ← rstreams g !! a_stream;
  l_double ← find_authorized g (r_node s);
  match l_double with
  | Some _ => Some (g, -1)
  | None =>
    let g := set_rstreams g (<[a_stream := set_primary s true]> (rstreams g)) in
    let g := set_table g (<[r_node s := a_stream]> (s_authorized_streams g)) in
    '(w, _) ← dap_cluster_member_add (links g) ok (s_global_links_cluster g) (r_node s) 0 0;
    Some (remit (set_links g w) [LmAdd (r_node s) (r_uplink s)], 0)
  end.

(** [DL_FOREACH] up to the first stream of the node. *)
Fixpoint first_of_node (g : reg) (l : list Z) (n : Z) : option (option Z) :=
  match l with
  | [] => Some None
  | a :: l => s ← rstreams g !! a; if r_node s =? n then Some (Some a) else first_of_node g l n
  end.

Definition DL_DELETE (g : reg) (a_stream : Z) : option reg :=
  if decide (a_stream ∈ s_streams g) then Some (set_list g (List.filter (λ b, negb (b =? a_stream)) (s_streams g)))
  else None.

Definition HASH_DEL (g : reg) (n a_stream : Z) : option reg :=
  if decide (s_authorized_streams g !! n = Some a_stream) then Some (set_table g (delete n (s_authorized_streams g)))
  else None.

Definition s_stream_delete_from_list (g : reg) (ok : bool) (a_stream : Z) : option reg :=
  l ← wrlock (s_streams_lock g);
  let g := set_rlock g l in
  s ← rstreams g !! a_stream;
  g ← (if r_prev s then DL_DELETE g a_stream else Some g);
  g ← (if r_authorized s then
         g ← (if r_primary s then HASH_DEL g (r_node s) a_stream else Some g);
         l_stream ← first_of_node g (s_streams g) (r_node s);
         match l_stream with
         | Some b =>
           '(g, _) ← s_stream_add_to_hashtable g ok b;
           sb ← rstreams g !! b;
           Some (remit g [LmReplace (r_node s) (r_uplink sb)])
         | None =>
           '(w, _) ← dap_cluster_member_delete (links g) (s_global_links_cluster g) (r_node s);
           Some (remit (set_links g w) [LmDelete (r_node s)])
         end
       else Some g);
  Some (set_rlock g (Cluster.unlock (s_streams_lock g))).

Definition dap_stream_add_to_list (g : reg) (ok : bool) (a_stream : Z) : option (reg * Z) :=
  l ← wrlock (s_streams_lock g);
  let g := set_rlock g l in
  s ← rstreams g !! a_stream;
  if decide (a_stream ∈ s_streams g) then None else
  let g := set_list g (s_streams g ++ [a_stream]) in
  let g := set_rstreams g (<[a_stream := set_prev s true]> (rstreams g)) in
  '(g, l_ret) ← (if r_authorized s then s_stream_add_to_hashtable g ok a_stream else Some (g, 0));
  Some (set_rlock g (Cluster.unlock (s_streams_lock g)), l_ret).

(** ** Creating and deleting streams *)

(** The address [a] the allocator returns is unused. *)
Definition alloc_stream (g : reg) (a : Z) (s : rstream) : reg := set_rstreams g (<[a := s]> (rstreams g)).

(** The stream of an HTTP client with socket [uuid] and worker [wk]; [a_addr]
    is the session's node. *)
Definition s_stream_new (g : reg) (ok : bool) (a uuid wk : Z) (es : list Z * Z) (a_addr : option Z) : option reg :=
  let '(node, authorized) := match a_addr with
                             | Some n => if n =? 0 then (0, false) else (n, true)
                             | None => (0, false)
                             end in
  let g := alloc_stream g a (RStream node authorized false false false uuid (Some wk) None [] (Some es) 0) in
  '(g, _) ← dap_stream_add_to_list g ok a; Some g.

Definition stream_new_udp (g : reg) (ok : bool) (a uuid : Z) (es : list Z * Z) : option reg :=
  let g := alloc_stream g a (RStream 0 false false false false uuid None None [] (Some es) 0) in
  '(g, _) ← dap_stream_add_to_list g ok a; Some g.

Definition dap_stream_new_es_client (g : reg) (a uuid : Z) (es : list Z * Z) (a_addr : option Z) (a_authorized : bool) : reg :=
  alloc_stream g a (RStream (default 0 a_addr) a_authorized false false true uuid None None [] (Some es) 0).

(** The channels go from the last to the first, then the session, the socket,
    the place in the registry and the stream itself. *)
Definition dap_stream_delete_unsafe (g : reg) (ok : bool) (a_stream : Z) : option reg :=
  s ← rstreams g !! a_stream;
  let g := remit g (map (ChDelete a_stream) (reverse (r_channels s))) in
  g ← match r_session s with
      | Some i => '(t, _) ← dap_stream_session_close (rsessions g) i; Some (set_rsessions g t)
      | None => Some g
      end;
  let g := match r_esocket s with Some _ => remit g [EsRemove (r_uuid s)] | None => g end in
  g ← s_stream_delete_from_list g ok a_stream;
  Some (set_rstreams g (delete a_stream (rstreams g))).

(** Moving a socket to another worker takes its stream off the registry and
    puts it back. *)
Definition s_esocket_callback_worker_unassign (g : reg) (ok : bool) (a_stream : Z) : option reg :=
  s_stream_delete_from_list g ok a_stream.
Definition s_esocket_callback_worker_assign (g : reg) (ok : bool) (a_stream : Z) : option reg :=
  '(g, _) ← dap_stream_add_to_list g ok a_stream; Some g.

(** ** Queries *)

(** The result is the socket and, if asked for, the worker. *)
Definition dap_stream_find_by_addr (g : reg) (a_addr : Z) (want_worker : bool) : option (reg * (Z * option Z)) :=
  if a_addr =? 0 then Some (g, (0, None)) else
  l ← rdlock (s_streams_lock g);
  let g := set_rlock g l in
  l_auth_stream ← find_authorized g a_addr;
  r ← match l_auth_stream with
      | Some a =>
        s ← rstreams g !! a;
        if want_worker then w ← r_worker s; Some (r_uuid s, Some w) else Some (r_uuid s, None)
      | None => Some (0, None)
      end;
  Some (set_rlock g (Cluster.unlock (s_streams_lock g)), r).

(** [alloc i] is the outcome of the allocation of the [i]-th item; a failure
    returns at once. *)
Fixpoint find_all_loop (g : reg) (l : list Z) (n : Z) (alloc : nat -> bool) (ret : list (Z * Z))
    : option (option (list (Z * Z))) :=
  match l with
  | [] => Some (Some ret)
  | a :: l =>
    s ← rstreams g !! a;
    if negb (r_authorized s) || negb (n =? r_node s) then find_all_loop g l n alloc ret
    else if negb (alloc (length ret)) then Some None
    else w ← r_worker s; find_all_loop g l n alloc (ret ++ [(w, r_uuid s)])
  end.

Definition dap_stream_find_all_by_addr (g : reg) (a_addr : Z) (alloc : nat -> bool) : option (reg * list (Z * Z)) :=
  l ← rdlock (s_streams_lock g);
  let g := set_rlock g l in
  r ← find_all_loop g (s_streams g) a_addr alloc [];
  match r with
  | None => Some (g, [])
  | Some l_ret => Some (set_rlock g (Cluster.unlock (s_streams_lock g)), l_ret)
  end.

Record stream_info := Info {
  node_addr : Z;
  remote_addr_str : list Z;
  remote_port : Z;
  info_channels : list Z;
  total_packets_sent : Z;
  is_uplink : bool;
}.

Definition INET_ADDRSTRLEN : nat := 16.

(** ["%-*s"]: padded with spaces on the right. *)
Definition pad_right (n : nat) (s : list Z) : list Z := s ++ replicate (n - length s) 32.

Definition s_stream_fill_info (s : rstream) : option stream_info :=
  es ← r_esocket s;
  Some (Info (r_node s) (pad_right (INET_ADDRSTRLEN - 1) es.1) es.2 (r_channels s) (r_seq_id s) (r_uplink s)).

Fixpoint info_members (g : reg) (ms : list dap_cluster_member) : option (list stream_info) :=
  match ms with
  | [] => Some []
  | m :: ms =>
    it ← find_authorized g (addr m);
    match it with
    | None => info_members g ms
    | Some a => s ← rstreams g !! a; i ← s_stream_fill_info s; infos ← info_members g ms; Some (i :: infos)
    end
  end.

Fixpoint info_streams (g : reg) (l : list Z) : option (list stream_info) :=
  match l with
  | [] => Some []
  | a :: l => s ← rstreams g !! a; i ← s_stream_fill_info s; infos ← info_streams g l; Some (i :: infos)
  end.

(** [a_cluster = 0] is [NULL]: all streams. *)
Definition dap_stream_get_links_info (g : reg) (a_cluster : Z) (alloc_ok : bool) : option (reg * list stream_info) :=
  if (a_cluster =? 0) && (length (s_streams g) =? 0)%nat then Some (g, []) else
  l ← rdlock (s_streams_lock g);
  let g := set_rlock g l in
  let done g := set_rlock g (Cluster.unlock (s_streams_lock g)) in
  if a_cluster =? 0 then
    if negb alloc_ok then Some (done g, [])
    else infos ← info_streams g (s_streams g); Some (done g, infos)
  else
    w ← lock_members (links g) a_cluster rdlock;
    c ← heap w !! a_cluster;
    infos ← (if (length (members c) =? 0)%nat || negb alloc_ok then Some [] else info_members g (members c));
    w ← lock_members w a_cluster (λ l, Some (Cluster.unlock l));
    Some (done (set_links g w), infos).

(** ** The invariant *)

(** The members of the cluster [gl] are the nodes in [P]. *)
Definition members_are (w : world) (gl : Z) (P : Z -> Prop) : Prop :=
  cluster_inv w /\ gl <> 0 /\ exists c, heap w !! gl = Some c /\ forall n, n ∈ map addr (members c) <-> P n.

Lemma members_are_iff w gl P Q : (forall n, P n <-> Q n) -> members_are w gl P -> members_are w gl Q.
Proof. intros E (I & Hg & c & Hc & Hm). split; [done|]. split; [done|]. exists c. split; [done|]. intros n. by rewrite Hm. Qed.

Lemma find_member_Some c x : is_Some (find_member c x) <-> x ∈ map addr (members c).
Proof.
  split.
  - intros [m [Hm Hx]%List.find_some]. apply Z.eqb_eq in Hx as <-. by apply list_elem_of_In, List.in_map.
  - intros H. destruct (find_member c x) eqn:E; [eauto|]. by apply find_member_None in E.
Qed.

Lemma members_add w gl P n : members_are w gl P ->
  exists w' b, dap_cluster_member_add w true gl n 0 0 = Some (w', b) /\ members_are w' gl (λ m, m = n \/ P m).
Proof.
  intros (I & Hg & c & Hc & Hm). destruct (inv_members w I gl c Hc) as [Hl _].
  pose proof (member_add_eq w gl c Hg Hc Hl true n 0 0) as E. cbn [negb] in E. rewrite orb_false_r in E.
  destruct (dap_cluster_member_add w true gl n 0 0) as [[w' b]|] eqn:E'; [|done].
  exists w', b. split; [done|]. split; [by eapply member_add_inv|]. split; [done|]. injection E as E.
  destruct (bool_decide_reflect (is_Some (find_member c n))) as [Hin | Hn].
  - injection E as -> _. exists c. split; [done|]. intros m. rewrite Hm. split; [by right|].
    intros [-> |]; [|done]. by apply Hm, find_member_Some.
  - apply (f_equal fst) in E. cbn [fst] in E. exists (set_members c (members c ++ [Member n 0 0])). split.
    + rewrite E. destruct (members_add_callback c); apply lookup_insert_eq.
    + intros m. cbn. rewrite map_app, elem_of_app, Hm. cbn. rewrite list_elem_of_singleton. tauto.
Qed.

Lemma members_delete w gl P n : members_are w gl P ->
  exists w' r, dap_cluster_member_delete w gl n = Some (w', r) /\ members_are w' gl (λ m, P m /\ m <> n).
Proof.
  intros (I & Hg & c & Hc & Hm). destruct (inv_members w I gl c Hc) as [Hl _].
  pose proof (member_delete_eq w gl c Hg Hc Hl n) as E.
  destruct (dap_cluster_member_delete w gl n) as [[w' b]|] eqn:E'; [|done].
  exists w', b. split; [done|]. split; [by eapply member_delete_inv|]. split; [done|]. injection E as E.
  destruct (bool_decide_reflect (is_Some (find_member c n))) as [Hin | Hn].
  - apply (f_equal fst) in E. cbn [fst] in E.
    exists (set_members c (List.filter (λ m, negb (addr m =? n)) (members c))). split.
    + rewrite E. destruct (members_delete_callback c); apply lookup_insert_eq.
    + intros m. rewrite <- Hm. cbn. rewrite !list_elem_of_In, !List.in_map_iff. split.
      * intros (x & <- & [Hx Hne]%List.filter_In). split; [eauto|]. intros <-. by rewrite Z.eqb_refl in Hne.
      * intros [(x & <- & Hx) Hne]. exists x. split; [done|]. apply List.filter_In. split; [done|].
        by rewrite (proj2 (Z.eqb_neq _ _)).
  - injection E as -> _. exists c. split; [done|]. intros m. rewrite Hm. split; [|tauto].
    intros HP. split; [done|]. intros ->. apply Hn, find_member_Some, Hm, HP.
Qed.

(** A stream of the list is one with [prev]; the table has the primary streams
    by node; a linked stream that is authorized has its node in the table; a
    node's streams are authorized together; the cluster's members are the
    nodes of the table. *)
Record reg_inv (g : reg) : Prop := {
  gi_lock : s_streams_lock g = Unlocked;
  gi_nodup : NoDup (s_streams g);
  gi_live a : a ∈ s_streams g <-> exists s, rstreams g !! a = Some s /\ r_prev s = true;
  gi_table n a : s_authorized_streams g !! n = Some a <->
    exists s, rstreams g !! a = Some s /\ r_node s = n /\ r_primary s = true;
  gi_primary a s : rstreams g !! a = Some s -> r_primary s = true -> r_authorized s = true /\ r_prev s = true;
  gi_cover a s : rstreams g !! a = Some s -> r_prev s = true -> r_authorized s = true ->
    is_Some (s_authorized_streams g !! r_node s);
  gi_exclusive a b s t : rstreams g !! a = Some s -> rstreams g !! b = Some t -> r_prev s = true -> r_prev t = true ->
    r_node s = r_node t -> r_authorized s = r_authorized t;
  gi_members : members_are (links g) (s_global_links_cluster g) (λ n, is_Some (s_authorized_streams g !! n));
  gi_sessions : sessions_ok (rsessions g);
}.

(** The log does not matter. *)
Lemma remit_inv g e : reg_inv g -> reg_inv (remit g e).
Proof. by intros []. Qed.

(** ** Adding *)

Lemma find_authorized_inv g n : reg_inv g -> find_authorized g n = Some (s_authorized_streams g !! n).
Proof.
  intros I. unfold find_authorized. destruct (s_authorized_streams g !! n) as [a|] eqn:E; [|done].
  apply (gi_table g I) in E as (s & Hs & _). by rewrite Hs.
Qed.

(** What may be linked: its node's linked streams agree on being authorized. *)
Definition agrees (g : reg) (s : rstream) : Prop :=
  forall b t, rstreams g !! b = Some t -> r_prev t = true -> r_node t = r_node s -> r_authorized t = r_authorized s.

(** A stream linked at the end of the list, primary if its node is new to the
    table. *)
Definition linked (g : reg) (a : Z) (s : rstream) : rstream :=
  set_primary (set_prev s true) (r_authorized s && bool_decide (s_authorized_streams g !! r_node s = None)).
Definition linked_table (g : reg) (a : Z) (s : rstream) : gmap Z Z :=
  if r_authorized s && bool_decide (s_authorized_streams g !! r_node s = None)
  then <[r_node s := a]> (s_authorized_streams g) else s_authorized_streams g.

Lemma linked_table_dom g a s n :
  is_Some (linked_table g a s !! n) <-> is_Some (s_authorized_streams g !! n) \/ (r_authorized s = true /\ n = r_node s).
Proof.
  unfold linked_table. destruct (r_authorized s); cbn [andb]; [|intuition done].
  destruct (bool_decide_reflect (s_authorized_streams g !! r_node s = None)) as [E | E].
  - rewrite lookup_insert_is_Some'. intuition congruence.
  - split; [tauto|]. intros [? | [_ ->]]; [done|]. by destruct (s_authorized_streams g !! r_node s).
Qed.

Lemma linked_inv g g' a s : reg_inv g -> rstreams g !! a = Some s -> r_prev s = false -> agrees g s ->
  s_streams_lock g' = Unlocked -> s_streams g' = s_streams g ++ [a] ->
  rstreams g' = <[a := linked g a s]> (rstreams g) -> s_authorized_streams g' = linked_table g a s ->
  rsessions g' = rsessions g ->
  members_are (links g') (s_global_links_cluster g') (λ n, is_Some (linked_table g a s !! n)) -> reg_inv g'.
Proof.
  intros I Hs Hp Hag El Ea Eh Et Es Hm. pose proof I as [Hl Hnd Hlive Htab Hprim Hcov Hex Hmem Hses].
  assert (Hna : a ∉ s_streams g) by (intros (s' & Hs' & ?)%Hlive; congruence).
  assert (Hpr : forall n, s_authorized_streams g !! n <> Some a).
  { intros n (s' & Hs' & _ & Hp')%Htab. destruct (Hprim a s' Hs' Hp'). congruence. }
  assert (Look : forall b t, rstreams g' !! b = Some t ->
    (b = a /\ t = linked g a s) \/ (b <> a /\ rstreams g !! b = Some t)).
  { intros b t. rewrite Eh. destruct (decide (b = a)) as [-> | Hne].
    - rewrite lookup_insert_eq. intros [= <-]. by left.
    - rewrite lookup_insert_ne by done. by right. }
  constructor; rewrite ?El, ?Ea, ?Et, ?Es; try done.
  - apply list.NoDup_app. split; [done|]. split; [|apply NoDup_singleton]. intros b Hb ->%list_elem_of_singleton. done.
  - intros b. rewrite elem_of_app, list_elem_of_singleton, Hlive, Eh. destruct (decide (b = a)) as [-> | Hne].
    + rewrite lookup_insert_eq. split; [intros _; eexists; split; [done | done] | by right].
    + rewrite lookup_insert_ne by done. intuition done.
  - intros n b. unfold linked_table. destruct (decide (b = a)) as [-> | Hne].
    + rewrite Eh, lookup_insert_eq. split.
      * destruct (r_authorized s && bool_decide _) eqn:E; [|by intros ?%Hpr].
        intros [[<- _] | [_ ?%Hpr]]%lookup_insert_Some; [|done]. exists (linked g a s). unfold linked. by rewrite E.
      * intros (t & [= <-] & <- & Ht). unfold linked in *. cbn in Ht |- *. rewrite Ht. apply lookup_insert_eq.
    + rewrite Eh, lookup_insert_ne, <- Htab by done. destruct (r_authorized s && bool_decide _) eqn:E; [|done].
      apply andb_true_iff in E as [_ E%bool_decide_eq_true]. destruct (decide (n = r_node s)) as [-> | Hn].
      * rewrite lookup_insert_eq, E. split; [intros [= ->]; done | done].
      * by rewrite lookup_insert_ne.
  - intros b t [[-> ->] | [_ Hb]]%Look; [|by apply Hprim with b].
    unfold linked. cbn. intros [? _]%andb_true_iff. done.
  - intros b t [[-> ->] | [_ Hb]]%Look H1 H2; apply linked_table_dom; [right; done | left; by eapply Hcov].
  - intros b c t u [[-> ->] | [_ Hb]]%Look [[-> ->] | [_ Hc]]%Look H1 H2 Hn; try done.
    + symmetry. by eapply Hag.
    + by eapply Hag.
    + by eapply Hex.
Qed.

Lemma add_to_list_spec g a s : reg_inv g -> rstreams g !! a = Some s -> r_prev s = false -> agrees g s ->
  exists g', dap_stream_add_to_list g true a =
      Some (g', if r_authorized s && negb (bool_decide (s_authorized_streams g !! r_node s = None)) then -1 else 0) /\
    reg_inv g' /\ s_streams g' = s_streams g ++ [a] /\ rstreams g' = <[a := linked g a s]> (rstreams g).
Proof.
  intros I Hs Hp Hag. pose proof I as [Hl Hnd Hlive Htab Hprim Hcov Hex Hmem Hses].
  assert (Hna : a ∉ s_streams g) by (intros (s' & Hs' & ?)%Hlive; congruence).
  assert (Hnp : r_primary s = false).
  { destruct (r_primary s) eqn:E; [|done]. destruct (Hprim a s Hs E). congruence. }
  assert (Hid : set_primary (set_prev s true) false = set_prev s true) by (destruct s; cbn in *; by subst).
  unfold dap_stream_add_to_list. rewrite Hl. cbn [wrlock mbind option_bind rstreams set_rlock s_streams].
  rewrite Hs. cbn [mbind option_bind]. rewrite decide_False by done.
  destruct (r_authorized s) eqn:Ea; cbn [andb].
  - unfold s_stream_add_to_hashtable. cbn [rstreams set_rstreams]. rewrite lookup_insert_eq. cbn [mbind option_bind r_node set_prev].
    unfold find_authorized. cbn [s_authorized_streams set_rstreams set_list set_rlock rstreams].
    destruct (s_authorized_streams g !! r_node s) as [d|] eqn:Ed.
    + destruct (proj1 (Htab _ _) Ed) as (sd & Hd & _ & Hpd). assert (Hne : d <> a) by (intros ->; congruence).
      rewrite lookup_insert_ne, Hd by done. cbn [mbind option_bind]. rewrite bool_decide_false by done. cbn [negb].
      eexists. split; [done|]. assert (Ek : linked g a s = set_prev s true)
        by (unfold linked; rewrite Ea, Ed, bool_decide_false by done; exact Hid).
      split; [|by rewrite Ek]. apply (linked_inv g _ a s); try done; [by rewrite Ek | |].
      * unfold linked_table. by rewrite Ea, Ed, bool_decide_false by done.
      * eapply members_are_iff; [|exact Hmem]. intros n. cbn beta. unfold linked_table.
        by rewrite Ea, Ed, bool_decide_false by done.
    + cbn [mbind option_bind]. rewrite bool_decide_true by done. cbn [negb links set_table set_rstreams set_list set_rlock s_global_links_cluster].
      destruct (members_add _ _ _ (r_node s) Hmem) as (w' & b & -> & Hm'). cbn [mbind option_bind].
      eexists. split; [done|]. assert (Ek : linked g a s = set_primary (set_prev s true) true)
        by (unfold linked; rewrite Ea, Ed, bool_decide_true by done; done).
      assert (Et : linked_table g a s = <[r_node s := a]> (s_authorized_streams g))
        by (unfold linked_table; by rewrite Ea, Ed, bool_decide_true by done).
      split; [|by cbn; rewrite Ek, insert_insert_eq].
      apply (linked_inv g _ a s); try done; [by cbn; rewrite Ek, insert_insert_eq|].
      eapply members_are_iff; [|exact Hm']. intros n. cbn beta. rewrite Et, lookup_insert_is_Some'.
      intuition congruence.
  - cbn [mbind option_bind]. eexists. split; [done|].
    assert (Ek : linked g a s = set_prev s true) by (unfold linked; rewrite Ea; exact Hid).
    split; [|by rewrite Ek]. apply (linked_inv g _ a s); try done; [by rewrite Ek | |].
    + unfold linked_table. by rewrite Ea.
    + eapply members_are_iff; [|exact Hmem]. intros n. cbn beta. unfold linked_table. by rewrite Ea.
Qed.

(** ** Deleting *)

Lemma elem_of_remove (l : list Z) a b : b ∈ List.filter (λ c, negb (c =? a)) l <-> b ∈ l /\ b <> a.
Proof.
  rewrite !list_elem_of_In, List.filter_In. split.
  - intros [? H]. split; [done|]. intros ->. by rewrite Z.eqb_refl in H.
  - intros [? H]. split; [done|]. by rewrite (proj2 (Z.eqb_neq _ _)).
Qed.

Lemma NoDup_remove (l : list Z) a : NoDup l -> NoDup (List.filter (λ c, negb (c =? a)) l).
Proof. apply NoDup_filter_bool. Qed.

Lemma first_of_node_spec g l n : (forall b, b ∈ l -> is_Some (rstreams g !! b)) ->
  exists r, first_of_node g l n = Some r /\
    match r with
    | Some b => b ∈ l /\ exists t, rstreams g !! b = Some t /\ r_node t = n
    | None => forall b t, b ∈ l -> rstreams g !! b = Some t -> r_node t <> n
    end.
Proof.
  induction l as [|b l IH]; intros H; [exists None; split; [done|]; by intros b t ?%not_elem_of_nil|].
  destruct (H b) as [t Ht]; [apply elem_of_cons; by left|]. cbn. rewrite Ht. cbn [mbind option_bind].
  destruct (Z.eqb_spec (r_node t) n) as [En | En].
  - exists (Some b). split; [done|]. split; [apply elem_of_cons; by left | eauto].
  - destruct IH as (r & Er & Hr); [intros c Hc; apply H, elem_of_cons; by right|]. exists r. split; [done|].
    destruct r as [c|]; [destruct Hr as [Hc ?]; split; [apply elem_of_cons; by right | done]|].
    intros c u [-> | Hc]%elem_of_cons Hu; [congruence | by eapply Hr].
Qed.

(** Who takes the place of a deleted stream [a] in the table. *)
Definition unlinked_streams (g : reg) (a : Z) (rep : option (Z * rstream)) : gmap Z rstream :=
  delete a (match rep with Some (b, t) => <[b := set_primary t true]> (rstreams g) | None => rstreams g end).
Definition unlinked_table (g : reg) (s : rstream) (rep : option (Z * rstream)) : gmap Z Z :=
  if r_primary s
  then match rep with
       | Some (b, _) => <[r_node s := b]> (s_authorized_streams g)
       | None => delete (r_node s) (s_authorized_streams g)
       end
  else s_authorized_streams g.

Definition replaces (g : reg) (a : Z) (s : rstream) (rep : option (Z * rstream)) : Prop :=
  match rep with
  | Some (b, t) => r_primary s = true /\ b <> a /\ rstreams g !! b = Some t /\ r_prev t = true /\ r_node t = r_node s
  | None => r_primary s = true -> forall b t, b <> a -> rstreams g !! b = Some t -> r_prev t = true -> r_node t <> r_node s
  end.

Lemma unlinked_lookup g a rep b u : (forall c t, rep = Some (c, t) -> rstreams g !! c = Some t) ->
  unlinked_streams g a rep !! b = Some u ->
  b <> a /\ exists t, rstreams g !! b = Some t /\ r_node u = r_node t /\ r_prev u = r_prev t /\
    r_authorized u = r_authorized t /\ (r_primary u = true <-> r_primary t = true \/ exists t', rep = Some (b, t')).
Proof.
  unfold unlinked_streams. intros Hrep [Hne H]%lookup_delete_Some. split; [done|].
  destruct rep as [[c t]|]; [|exists u; split_and!; try done; split; [by left | intros [? | [? ?]]; done]].
  apply lookup_insert_Some in H as [[<- <-] | [Hc H]].
  - exists t. split; [by apply Hrep|]. split_and!; try done. cbn. split; [eauto | done].
  - exists u. split_and!; try done. split; [by left|]. intros [? | [? [= ? ?]]]; done.
Qed.

Lemma unlinked_lookup' g a rep b t : b <> a -> rstreams g !! b = Some t ->
  exists u, unlinked_streams g a rep !! b = Some u /\ (r_prev t = true -> (forall c t', rep = Some (c, t') -> rstreams g !! c = Some t') -> r_prev u = true).
Proof.
  intros Hne Hb. unfold unlinked_streams. rewrite lookup_delete_ne by done.
  destruct rep as [[c t']|]; [|eauto]. destruct (decide (c = b)) as [-> | Hc].
  - rewrite lookup_insert_eq. eexists. split; [done|]. intros Hp Hr. cbn. specialize (Hr _ _ eq_refl). congruence.
  - rewrite lookup_insert_ne by done. eauto.
Qed.

Lemma unlinked_inv g g' a s rep : reg_inv g -> rstreams g !! a = Some s -> r_prev s = true -> replaces g a s rep ->
  s_streams_lock g' = Unlocked -> s_streams g' = List.filter (λ b, negb (b =? a)) (s_streams g) ->
  rstreams g' = unlinked_streams g a rep -> s_authorized_streams g' = unlinked_table g s rep ->
  sessions_ok (rsessions g') ->
  members_are (links g') (s_global_links_cluster g') (λ n, is_Some (unlinked_table g s rep !! n)) -> reg_inv g'.
Proof.
  intros I Hs Hp Hrep El Ea Eh Et Hses' Hm. pose proof I as [Hl Hnd Hlive Htab Hprim Hcov Hex Hmem Hses].
  assert (Hr : forall c t, rep = Some (c, t) -> rstreams g !! c = Some t) by (intros c t ->; by apply Hrep).
  constructor; rewrite ?El, ?Ea, ?Et; try done.
  - by apply NoDup_remove.
  - intros b. rewrite elem_of_remove, Hlive, Eh. split.
    + intros [(t & Ht & Hpt) Hne]. destruct (unlinked_lookup' g a rep b t Hne Ht) as (u & Hu & Hpu). exists u. auto.
    + intros (u & Hu & Hpu). destruct (unlinked_lookup g a rep b u Hr Hu) as (Hne & t & Ht & _ & E & _).
      split; [|done]. exists t. by rewrite <- E.
  - intros n b. rewrite Eh. split.
    + intros H. assert (Hb : b <> a /\ ((exists t, rep = Some (b, t)) /\ n = r_node s \/
        exists t, rstreams g !! b = Some t /\ r_node t = n /\ r_primary t = true)).
      { unfold unlinked_table in H. destruct (r_primary s) eqn:Eps.
        - destruct rep as [[c t]|].
          + apply lookup_insert_Some in H as [[<- <-] | [Hn H]]; [destruct Hrep as (_ & ? & _); split; [done | left; eauto]|].
            pose proof (proj1 (Htab _ _) H) as (t' & Ht' & En & ?). split; [|right; eauto]. intros ->. congruence.
          + apply lookup_delete_Some in H as [Hn H]. pose proof (proj1 (Htab _ _) H) as (t' & Ht' & En & ?).
            split; [|right; eauto]. intros ->. congruence.
        - pose proof (proj1 (Htab _ _) H) as (t' & Ht' & En & ?). split; [|right; eauto]. intros ->. congruence. }
      destruct Hb as [Hne [[(t & ->) ->] | (t & Ht & En & Hpt)]].
      * destruct Hrep as (_ & _ & Ht & _ & En). exists (set_primary t true). split; [|done].
        unfold unlinked_streams. by rewrite lookup_delete_ne, lookup_insert_eq.
      * destruct (unlinked_lookup' g a rep b t Hne Ht) as (u & Hu & _). exists u. split; [done|].
        destruct (unlinked_lookup g a rep b u Hr Hu) as (_ & t2 & Ht2 & E1 & _ & _ & E2).
        rewrite Ht in Ht2. injection Ht2 as <-. split; [congruence|]. apply E2. by left.
    + intros (u & Hu & En & Hpu). destruct (unlinked_lookup g a rep b u Hr Hu) as (Hne & t & Ht & E1 & _ & _ & E2).
      apply E2 in Hpu as [Hpt | (t' & ->)].
      * assert (Hb : s_authorized_streams g !! n = Some b) by (apply Htab; exists t; split_and!; congruence).
        unfold unlinked_table. destruct (r_primary s) eqn:Eps; [|done].
        assert (Hn : r_node s <> n).
        { intros <-. assert (s_authorized_streams g !! r_node s = Some a) by (apply Htab; eauto). congruence. }
        destruct rep as [[c t']|]; [by rewrite lookup_insert_ne | by rewrite lookup_delete_ne].
      * destruct Hrep as (Eps & _ & Ht' & _ & En'). unfold unlinked_table. rewrite Eps.
        rewrite Ht in Ht'. injection Ht' as <-. replace n with (r_node s) by congruence. apply lookup_insert_eq.
  - intros b u. rewrite Eh. intros Hu Hpu. destruct (unlinked_lookup g a rep b u Hr Hu) as (Hne & t & Ht & _ & E2 & E3 & E4).
    rewrite E2, E3. apply E4 in Hpu as [Hpt | (t' & ->)]; [by eapply Hprim|].
    destruct Hrep as (Eps & _ & Ht' & Hpt' & En). rewrite Ht in Ht'. injection Ht' as <-. split; [|done].
    destruct (Hprim a s Hs Eps) as [Has _]. by rewrite <- Has; eapply Hex.
  - intros b u. rewrite Eh. intros Hu Hpu Hau. destruct (unlinked_lookup g a rep b u Hr Hu) as (Hne & t & Ht & E1 & E2 & E3 & _).
    rewrite E1. rewrite E2 in Hpu. rewrite E3 in Hau. pose proof (Hcov b t Ht Hpu Hau) as Hc.
    unfold unlinked_table. destruct (r_primary s) eqn:Eps; [|done]. destruct (decide (r_node t = r_node s)) as [En | En].
    + destruct rep as [[c t']|]; [rewrite En, lookup_insert_eq; eauto|]. by destruct (Hrep Eps b t Hne Ht Hpu).
    + destruct rep as [[c t']|]; [by rewrite lookup_insert_ne by done | by rewrite lookup_delete_ne by done].
  - intros b c u v. rewrite Eh. intros Hu Hv Hpu Hpv En.
    destruct (unlinked_lookup g a rep b u Hr Hu) as (_ & t & Ht & E1 & E2 & E3 & _).
    destruct (unlinked_lookup g a rep c v Hr Hv) as (_ & t' & Ht' & F1 & F2 & F3 & _).
    rewrite E3, F3. eapply Hex; [exact Ht | exact Ht' | congruence ..].
Qed.

Lemma delete_from_list_spec g a s : reg_inv g -> rstreams g !! a = Some s -> r_prev s = true ->
  exists g' rep, s_stream_delete_from_list g true a = Some g' /\ replaces g a s rep /\
    s_streams_lock g' = Unlocked /\ s_streams g' = List.filter (λ b, negb (b =? a)) (s_streams g) /\
    delete a (rstreams g') = unlinked_streams g a rep /\ s_authorized_streams g' = unlinked_table g s rep /\
    rsessions g' = rsessions g /\ s_global_links_cluster g' = s_global_links_cluster g /\
    members_are (links g') (s_global_links_cluster g') (λ n, is_Some (unlinked_table g s rep !! n)).
Proof.
  intros I Hs Hp. pose proof I as [Hl Hnd Hlive Htab Hprim Hcov Hex Hmem Hses].
  assert (Hin : a ∈ s_streams g) by (apply Hlive; eauto).
  unfold s_stream_delete_from_list. rewrite Hl. cbn [wrlock mbind option_bind rstreams set_rlock]. rewrite Hs.
  cbn [mbind option_bind]. rewrite Hp. unfold DL_DELETE. cbn [s_streams set_rlock]. rewrite decide_True by done.
  cbn [mbind option_bind]. set (l' := List.filter _ (s_streams g)).
  assert (Hlv : forall h, rstreams h = rstreams g -> exists r, first_of_node h l' (r_node s) = Some r /\
      match r with
      | Some b => (b ∈ s_streams g /\ b <> a) /\ exists t, rstreams g !! b = Some t /\ r_node t = r_node s
      | None => forall b t, b ∈ s_streams g /\ b <> a -> rstreams g !! b = Some t -> r_node t <> r_node s
      end).
  { intros h Eh. destruct (first_of_node_spec h l' (r_node s)) as (r & Er & Hr).
    { intros b [(t & Ht & _)%Hlive _]%elem_of_remove. rewrite Eh. eauto. }
    exists r. split; [done|]. rewrite Eh in Hr. destruct r as [b|].
    - destruct Hr as [Hb%elem_of_remove Ht]. done.
    - intros b t Hb. apply Hr. by apply elem_of_remove. }
  destruct (r_authorized s) eqn:Ea.
  2:{ assert (Eps : r_primary s = false) by (destruct (r_primary s) eqn:E; [destruct (Hprim a s Hs E); congruence | done]).
      cbn [mbind option_bind]. eexists _, None. split; [done|]. unfold replaces, unlinked_table. rewrite Eps.
      split_and!; try done. }
  destruct (r_primary s) eqn:Eps.
  - assert (Hta : s_authorized_streams g !! r_node s = Some a) by (apply Htab; eauto).
    unfold HASH_DEL. cbn [s_authorized_streams set_list set_rlock]. rewrite decide_True by done. cbn [mbind option_bind].
    set (h := set_table _ _). destruct (Hlv h eq_refl) as (r & Er & Hr).
    change (s_streams h) with l'. rewrite Er. cbn [mbind option_bind]. destruct r as [b|].
    + destruct Hr as [[Hb Hne] (t & Ht & En)]. destruct (proj1 (Hlive b) Hb) as (t' & Ht' & Hpt).
      rewrite Ht in Ht'. injection Ht' as <-. unfold s_stream_add_to_hashtable. change (rstreams h) with (rstreams g).
      rewrite Ht. cbn [mbind option_bind]. unfold find_authorized. cbn [h s_authorized_streams set_table].
      rewrite En, lookup_delete_eq. cbn [h mbind option_bind links set_table set_rstreams set_list set_rlock s_global_links_cluster].
      destruct (members_add _ _ _ (r_node s) Hmem) as (w' & r' & -> & Hm'). cbn [mbind option_bind].
      cbn [rstreams remit set_links set_table set_rstreams]. rewrite lookup_insert_eq. cbn [mbind option_bind].
      eexists _, (Some (b, t)). split; [done|]. unfold replaces, unlinked_table. rewrite Eps.
      split_and!; try done.
      * cbn. by rewrite insert_delete_eq.
      * eapply members_are_iff; [|exact Hm']. intros n. cbn beta. rewrite lookup_insert_is_Some'. intuition.
    + cbn [h links set_table set_list set_rlock s_global_links_cluster].
      destruct (members_delete _ _ _ (r_node s) Hmem) as (w' & r' & -> & Hm'). cbn [mbind option_bind].
      eexists _, None. split; [done|]. unfold replaces, unlinked_table. rewrite Eps.
      split_and!; try done.
      * intros _ b t Hne Ht Hpt. apply (Hr b t); [|done]. split; [apply Hlive; eauto | done].
      * eapply members_are_iff; [|exact Hm']. intros n. cbn beta. rewrite lookup_delete_is_Some. intuition.
  - cbn [mbind option_bind]. set (h := set_list _ _). destruct (Hlv h eq_refl) as (r & Er & Hr).
    change (s_streams h) with l'. rewrite Er. cbn [mbind option_bind].
    destruct (Hcov a s Hs Hp Ea) as [p Hpn]. pose proof (proj1 (Htab _ _) Hpn) as (sp & Hsp & Enp & Hpp).
    destruct (Hprim p sp Hsp Hpp) as [_ Hprev]. assert (Hpa : p <> a) by (intros ->; congruence).
    destruct r as [b|].
    2:{ exfalso. apply (Hr p sp); [split; [apply Hlive; eauto | done] | done | done]. }
    destruct Hr as [[Hb Hne] (t & Ht & En)]. unfold s_stream_add_to_hashtable. change (rstreams h) with (rstreams g).
    rewrite Ht. cbn [mbind option_bind]. unfold find_authorized. cbn [h s_authorized_streams set_list set_rlock rstreams].
    rewrite En, Hpn, Hsp. cbn [h mbind option_bind rstreams set_list set_rlock]. rewrite Ht. cbn [mbind option_bind].
    eexists _, None. split; [done|]. unfold replaces, unlinked_table. rewrite Eps. split_and!; try done.
Qed.

(** What comes before the registry's part of a deletion. *)
Lemma delete_prelude g a s : reg_inv g -> rstreams g !! a = Some s ->
  exists g2, dap_stream_delete_unsafe g true a =
      (g' ← s_stream_delete_from_list g2 true a; Some (set_rstreams g' (delete a (rstreams g')))) /\
    reg_inv g2 /\ rstreams g2 = rstreams g /\ s_streams g2 = s_streams g.
Proof.
  intros I Hs. unfold dap_stream_delete_unsafe. rewrite Hs. cbn [mbind option_bind].
  set (g0 := remit g _). assert (I0 : reg_inv g0) by (by apply remit_inv).
  assert (H1 : exists g1, match r_session s with
      | Some i => '(t, _) ← dap_stream_session_close (rsessions g0) i; Some (set_rsessions g0 t)
      | None => Some g0 end = Some g1 /\ reg_inv g1 /\ rstreams g1 = rstreams g /\ s_streams g1 = s_streams g).
  { destruct (r_session s) as [i|]; [|eauto].
    destruct (close_spec (rsessions g0) i (gi_sessions g0 I0)) as (t' & r & -> & Ht & _). cbn [mbind option_bind].
    eexists. split; [done|]. split; [|done]. destruct I0. by constructor. }
  destruct H1 as (g1 & -> & I1 & Er1 & Es1). cbn [mbind option_bind].
  eexists. split; [done|]. destruct (r_esocket s); [split; [by apply remit_inv | done] | done].
Qed.

Lemma delete_unsafe_spec g a s : reg_inv g -> rstreams g !! a = Some s -> r_prev s = true ->
  exists g' rep, dap_stream_delete_unsafe g true a = Some g' /\ reg_inv g' /\ replaces g a s rep /\
    s_streams g' = List.filter (λ b, negb (b =? a)) (s_streams g) /\ rstreams g' = unlinked_streams g a rep.
Proof.
  intros I Hs Hp. destruct (delete_prelude g a s I Hs) as (g2 & -> & I2 & Er2 & Es2).
  destruct (delete_from_list_spec g2 a s I2) as (g3 & rep & E3 & Hrep & Hl & Es3 & Er3 & Et3 & Ess & _ & Hm); [by rewrite Er2 | done|].
  rewrite E3. cbn [mbind option_bind]. eexists _, rep. split; [done|].
  assert (Hrep' : replaces g a s rep) by (unfold replaces in *; by rewrite Er2 in Hrep).
  split; [|split; [done|]; split; [cbn; congruence|]; cbn; rewrite Er3; unfold unlinked_streams; by rewrite Er2].
  apply (unlinked_inv g2 _ a s rep); try done; [by rewrite Er2|]. cbn. rewrite Ess. apply (gi_sessions g2 I2).
Qed.

(** A stream that was never linked leaves no trace. *)
Lemma delete_unlinked_spec g a s : reg_inv g -> rstreams g !! a = Some s -> r_prev s = false -> agrees g s ->
  exists g', s_stream_delete_from_list g true a = Some g' /\ reg_inv g' /\ rstreams g' = rstreams g /\
    s_streams g' = s_streams g /\ s_authorized_streams g' = s_authorized_streams g.
Proof.
  intros I Hs Hp Hag. pose proof I as [Hl Hnd Hlive Htab Hprim Hcov Hex Hmem Hses].
  assert (Hnp : r_primary s = false) by (destruct (r_primary s) eqn:E; [destruct (Hprim a s Hs E); congruence | done]).
  unfold s_stream_delete_from_list. rewrite Hl. cbn [wrlock mbind option_bind rstreams set_rlock]. rewrite Hs.
  cbn [mbind option_bind]. rewrite Hp, Hnp. cbn [mbind option_bind].
  destruct (r_authorized s) eqn:Ea; [|eexists; split; [done|]; split; [by constructor | done]].
  set (h := set_rlock g _). destruct (first_of_node_spec h (s_streams g) (r_node s)) as (r & Er & Hr).
  { intros b (t & Ht & _)%Hlive. eauto. }
  change (s_streams h) with (s_streams g). rewrite Er. cbn [mbind option_bind]. destruct r as [b|].
  - destruct Hr as [(t' & Ht' & Hpt)%Hlive (t & Ht & En)]. change (rstreams h) with (rstreams g) in Ht.
    rewrite Ht in Ht'. injection Ht' as <-. pose proof (Hag b t Ht Hpt En) as Eat. rewrite Ea in Eat.
    destruct (Hcov b t Ht Hpt Eat) as [p Hpn]. pose proof (proj1 (Htab _ _) Hpn) as (sp & Hsp & _).
    unfold s_stream_add_to_hashtable, find_authorized. change (rstreams h) with (rstreams g).
    rewrite Ht. cbn [mbind option_bind]. change (s_authorized_streams h) with (s_authorized_streams g).
    rewrite Hpn, Hsp. cbn [mbind option_bind]. change (rstreams h) with (rstreams g). rewrite Ht. cbn [mbind option_bind].
    eexists. split; [done|]. split; [by constructor | done].
  - change (links h) with (links g). change (s_global_links_cluster h) with (s_global_links_cluster g).
    destruct (members_delete _ _ _ (r_node s) Hmem) as (w' & r' & -> & Hm'). cbn [mbind option_bind].
    eexists. split; [done|]. split; [|done]. constructor; try done.
    eapply members_are_iff; [|exact Hm']. intros n. cbn beta. split; [by intros [? _]|]. intros [p Hpn].
    split; [eauto|]. intros ->. pose proof (proj1 (Htab _ _) Hpn) as (sp & Hsp & En & Hpp).
    apply (Hr p sp); [apply Hlive; exists sp; split; [done | by eapply Hprim] | done | done].
Qed.

(** ** Runs of the registry *)

Lemma alloc_inv g a s : reg_inv g -> rstreams g !! a = None -> r_prev s = false -> r_primary s = false ->
  reg_inv (alloc_stream g a s).
Proof.
  intros [Hl Hnd Hlive Htab Hprim Hcov Hex Hmem Hses] Ha Hp Hpr.
  assert (Look : forall b t, rstreams (alloc_stream g a s) !! b = Some t ->
    (b = a /\ t = s) \/ rstreams g !! b = Some t).
  { intros b t. cbn. intros [[<- <-] | [_ ?]]%lookup_insert_Some; [by left | by right]. }
  assert (Keep : forall b t, rstreams g !! b = Some t -> rstreams (alloc_stream g a s) !! b = Some t).
  { intros b t Hb. cbn. rewrite lookup_insert_ne; [done|]. intros ->. congruence. }
  constructor; try done.
  - intros b. cbn [s_streams alloc_stream set_rstreams]. rewrite Hlive. split.
    + intros (t & Ht & ?). eauto.
    + intros (t & [[-> ->] | Ht]%Look & ?); [congruence | eauto].
  - intros n b. cbn [s_authorized_streams alloc_stream set_rstreams]. rewrite Htab. split.
    + intros (t & Ht & ?). eauto.
    + intros (t & [[-> ->] | Ht]%Look & ? & ?); [congruence | eauto].
  - intros b t [[-> ->] | Ht]%Look ?; [congruence | by eapply Hprim].
  - intros b t [[-> ->] | Ht]%Look ? ?; [congruence | by eapply Hcov].
  - intros b c t u [[-> ->] | Ht]%Look [[-> ->] | Hu]%Look ? ? ?; try congruence. by eapply Hex.
Qed.

(** The steps of the registry.  A stream is linked or taken off only while the
    linked streams of its node agree with it on being authorized. *)
Inductive reg_step (g : reg) : reg -> Prop :=
  | step_server a uuid wk es addr g' : rstreams g !! a = None ->
      (forall b t, rstreams g !! b = Some t -> r_prev t = true -> r_node t = default 0 addr ->
         r_authorized t = negb (default 0 addr =? 0)) ->
      s_stream_new g true a uuid wk es addr = Some g' -> reg_step g g'
  | step_udp a uuid es g' : rstreams g !! a = None ->
      (forall b t, rstreams g !! b = Some t -> r_prev t = true -> r_node t = 0 -> r_authorized t = false) ->
      stream_new_udp g true a uuid es = Some g' -> reg_step g g'
  | step_client a uuid es addr au : rstreams g !! a = None ->
      reg_step g (dap_stream_new_es_client g a uuid es addr au)
  | step_add a s g' r : rstreams g !! a = Some s -> r_prev s = false -> agrees g s ->
      dap_stream_add_to_list g true a = Some (g', r) -> reg_step g g'
  | step_delete a s g' : rstreams g !! a = Some s -> r_prev s = true \/ agrees g s ->
      dap_stream_delete_unsafe g true a = Some g' -> reg_step g g'.

Lemma free_inv g a s : reg_inv g -> rstreams g !! a = Some s -> r_prev s = false ->
  reg_inv (set_rstreams g (delete a (rstreams g))).
Proof.
  intros [Hl Hnd Hlive Htab Hprim Hcov Hex Hmem Hses] Ha Hp.
  assert (Look : forall b t, delete a (rstreams g) !! b = Some t -> rstreams g !! b = Some t)
    by (intros b t [_ ?]%lookup_delete_Some; done).
  assert (Keep : forall b t, rstreams g !! b = Some t -> r_prev t = true -> delete a (rstreams g) !! b = Some t).
  { intros b t Hb Ht. rewrite lookup_delete_ne; [done|]. intros ->. congruence. }
  constructor; try done; cbn [s_streams s_authorized_streams set_rstreams rstreams].
  - intros b. rewrite Hlive. split; intros (t & Ht & ?); eauto.
  - intros n b. rewrite Htab. split; intros (t & Ht & ? & Hq); [|eauto].
    exists t. split; [apply Keep; [done | by eapply Hprim] | done].
  - intros b t Ht%Look. by eapply Hprim.
  - intros b t Ht%Look. by eapply Hcov.
  - intros b c t u Ht%Look Hu%Look. by eapply Hex.
Qed.

Lemma delete_unsafe_unlinked g a s : reg_inv g -> rstreams g !! a = Some s -> r_prev s = false -> agrees g s ->
  exists g', dap_stream_delete_unsafe g true a = Some g' /\ reg_inv g'.
Proof.
  intros I Hs Hp Hag. destruct (delete_prelude g a s I Hs) as (g2 & -> & I2 & Er2 & Es2).
  destruct (delete_unlinked_spec g2 a s I2) as (g3 & -> & I3 & Er3 & _); [by rewrite Er2 | done | |].
  { intros b t. rewrite Er2. apply Hag. }
  cbn [mbind option_bind]. eexists. split; [done|]. apply (free_inv _ a s); [done | by rewrite Er3, Er2 | done].
Qed.

(** A new stream enters the list at once. *)
Lemma new_stream_spec g a s : reg_inv g -> rstreams g !! a = None -> r_prev s = false -> r_primary s = false -> agrees g s ->
  exists g' r, dap_stream_add_to_list (alloc_stream g a s) true a = Some (g', r) /\ reg_inv g'.
Proof.
  intros I Ha Hp Hpr Hag. destruct (add_to_list_spec (alloc_stream g a s) a s) as (g' & E & I' & _); try done.
  - by apply alloc_inv.
  - apply lookup_insert_eq.
  - intros b t H. cbn in H. apply lookup_insert_Some in H as [[<- <-] | [_ Ht]]; [congruence | by apply Hag with b].
  - eauto.
Qed.

Lemma server_spec g a uuid wk es addr : reg_inv g -> rstreams g !! a = None ->
  (forall b t, rstreams g !! b = Some t -> r_prev t = true -> r_node t = default 0 addr ->
     r_authorized t = negb (default 0 addr =? 0)) ->
  exists g', s_stream_new g true a uuid wk es addr = Some g' /\ reg_inv g'.
Proof.
  intros I Ha Hag. unfold s_stream_new.
  assert (E : (match addr with Some n => if n =? 0 then (0, false) else (n, true) | None => (0, false) end)
    = (default 0 addr, negb (default 0 addr =? 0))).
  { destruct addr as [n|]; [|done]. cbn. unfold Datatypes.id. by destruct (Z.eqb_spec n 0) as [-> |]. }
  rewrite E. match goal with |- context [alloc_stream g a ?s] => destruct (new_stream_spec g a s) as (g' & r & -> & I') end;
    try done. cbn. eauto.
Qed.

Lemma udp_spec g a uuid es : reg_inv g -> rstreams g !! a = None ->
  (forall b t, rstreams g !! b = Some t -> r_prev t = true -> r_node t = 0 -> r_authorized t = false) ->
  exists g', stream_new_udp g true a uuid es = Some g' /\ reg_inv g'.
Proof.
  intros I Ha Hag. unfold stream_new_udp.
  match goal with |- context [alloc_stream g a ?s] => destruct (new_stream_spec g a s) as (g' & r & -> & I') end;
    try done. cbn. eauto.
Qed.

Lemma reg_step_inv g g' : reg_step g g' -> reg_inv g -> reg_inv g'.
Proof.
  intros St I. destruct St as [a uuid wk es addr g' Ha Hag E | a uuid es g' Ha Hag E | a uuid es addr au Ha
    | a s g' r Hs Hp Hag E | a s g' Hs Hp E].
  - destruct (server_spec g a uuid wk es addr I Ha Hag) as (g2 & E2 & I2). congruence.
  - destruct (udp_spec g a uuid es I Ha Hag) as (g2 & E2 & I2). congruence.
  - by apply alloc_inv.
  - destruct (add_to_list_spec g a s I Hs Hp Hag) as (g2 & E2 & I2 & _). congruence.
  - destruct (r_prev s) eqn:Ep.
    + destruct (delete_unsafe_spec g a s I Hs Ep) as (g2 & rep & E2 & I2 & _). congruence.
    + destruct Hp as [? | Hag]; [done|]. destruct (delete_unsafe_unlinked g a s I Hs Ep Hag) as (g2 & E2 & I2). congruence.
Qed.

(** The registry at the start: no streams, the cluster [gl] without members. *)
Definition reg_start (w : world) (gl : Z) (t : sessions) : reg := Reg ∅ [] ∅ Unlocked w gl t [].

Lemma reg_start_inv w gl t : members_are w gl (λ _, False) -> sessions_ok t -> reg_inv (reg_start w gl t).
Proof.
  intros Hm Ht. constructor; try done.
  - apply NoDup_nil_2.
  - intros a. split; [by intros ?%not_elem_of_nil | by intros (s & Hs & _)].
  - intros n a. split; [done | by intros (s & Hs & _)].
  - eapply members_are_iff; [|exact Hm]. intros n. split; [done | by intros [? ?]].
Qed.

Lemma find_by_addr_inv g n : reg_inv g ->
  dap_stream_find_by_addr g n false = Some (g, (if n =? 0 then 0 else
    match s_authorized_streams g !! n with Some a => match rstreams g !! a with Some s => r_uuid s | None => 0 end | None => 0 end, None)).
Proof.
  intros I. unfold dap_stream_find_by_addr. destruct (n =? 0); [done|]. rewrite (gi_lock g I). cbn [rdlock mbind option_bind].
  change (find_authorized (set_rlock g (RdLocked 1)) n) with (find_authorized g n). rewrite find_authorized_inv by done.
  cbn [mbind option_bind]. assert (El : set_rlock (set_rlock g (RdLocked 1)) (Cluster.unlock (RdLocked 1)) = g)
    by (pose proof (gi_lock g I); destruct g; cbn in *; by subst).
  destruct (s_authorized_streams g !! n) as [a|] eqn:E; cbn [mbind option_bind rstreams set_rlock s_streams_lock].
  - apply (gi_table g I) in E as (s & -> & _). cbn [mbind option_bind]. by rewrite El.
  - by rewrite El.
Qed.

Definition authorized_node (g : reg) (n : Z) : Prop :=
  exists a s, a ∈ s_streams g /\ rstreams g !! a = Some s /\ r_node s = n /\ r_authorized s = true.

Lemma table_authorized g n : reg_inv g -> is_Some (s_authorized_streams g !! n) <-> authorized_node g n.
Proof.
  intros I. split.
  - intros [a (s & Hs & En & Hp)%(gi_table g I)]. destruct (gi_primary g I a s Hs Hp). exists a, s.
    split; [apply (gi_live g I); eauto | done].
  - intros (a & s & (t & Ht & Hp)%(gi_live g I) & Hs & <- & Ha). rewrite Hs in Ht. injection Ht as <-.
    by eapply (gi_cover g I).
Qed.

(** ** Properties of the registry *)

(** C26: the registry follows the streams.  Starting without streams, after any
    run of new server, UDP and client streams, of linking and of deletions,
    in which a node's streams are authorized together: looking up a node finds
    the socket of an authorized stream of it if there is one and [0] if there
    is none; the members of the global cluster are exactly the nodes with an
    authorized stream; and the next deletion or linking that keeps to this
    condition runs to its end and is such a step again. *)
Theorem registry_tracks_streams w gl t g :
  members_are w gl (λ _, False) -> sessions_ok t -> rtc reg_step (reg_start w gl t) g ->
  (forall n, n <> 0 -> exists u, dap_stream_find_by_addr g n false = Some (g, (u, None)) /\
     ((exists a s, a ∈ s_streams g /\ rstreams g !! a = Some s /\ r_node s = n /\ r_authorized s = true /\ u = r_uuid s)
      \/ (u = 0 /\ ~ authorized_node g n))) /\
  members_are (links g) (s_global_links_cluster g) (authorized_node g) /\
  (forall a s, rstreams g !! a = Some s -> r_prev s = true \/ agrees g s ->
     exists g', dap_stream_delete_unsafe g true a = Some g' /\ reg_step g g') /\
  (forall a s, rstreams g !! a = Some s -> r_prev s = false -> agrees g s ->
     exists g' r, dap_stream_add_to_list g true a = Some (g', r) /\ reg_step g g').
Proof.
  intros Hm Ht Hr. assert (I : reg_inv g).
  { assert (Hs : reg_inv (reg_start w gl t)) by (by apply reg_start_inv).
    clear Hm Ht. induction Hr as [|? ? ? St _ IH]; [done|]. apply IH. by eapply reg_step_inv. }
  split_and!.
  - intros n Hn. rewrite (find_by_addr_inv g n I), (proj2 (Z.eqb_neq n 0)) by done. eexists. split; [done|].
    destruct (s_authorized_streams g !! n) as [a|] eqn:E.
    + left. pose proof (proj1 (gi_table g I n a) E) as (s & Hs & En & Hp). destruct (gi_primary g I a s Hs Hp).
      exists a, s. rewrite Hs. split; [apply (gi_live g I); eauto | done].
    + right. split; [done|]. intros H%table_authorized; [|done]. rewrite E in H. by destruct H.
  - eapply members_are_iff; [|apply (gi_members g I)]. intros n. by apply table_authorized.
  - intros a s Hs Hp. destruct (r_prev s) eqn:Ep.
    + destruct (delete_unsafe_spec g a s I Hs Ep) as (g' & rep & E & _). exists g'. split; [done|].
      eapply step_delete; [exact Hs | by left | done].
    + destruct Hp as [? | Hag]; [done|]. destruct (delete_unsafe_unlinked g a s I Hs Ep Hag) as (g' & E & _).
      exists g'. split; [done|]. eapply step_delete; [exact Hs | by right | done].
  - intros a s Hs Hp Hag. destruct (add_to_list_spec g a s I Hs Hp Hag) as (g' & E & _).
    eexists g', _. split; [exact E|]. by eapply step_add.
Qed.

Definition t0 : sessions := Sessions [] false [].
Definition g0 : reg := reg_start one_cluster 8 t0.

Lemma g0_members : members_are one_cluster 8 (λ _, False).
Proof.
  split; [apply one_cluster_inv|]. split; [done|]. eexists. split; [reflexivity|].
  intros n. cbn. split; [apply not_elem_of_nil | done].
Qed.

(** The registry with one server stream of node 7. *)
Definition g1 : reg := default g0 (s_stream_new g0 true 1 100 3 ([49], 80) (Some 7)).

Lemma g1_run : rtc reg_step g0 g1.
Proof. apply rtc_once. apply (step_server g0 1 100 3 ([49], 80) (Some 7) g1); try done. Qed.

Lemma registry_tracks_streams_witness :
  (exists u, dap_stream_find_by_addr g1 7 false = Some (g1, (u, None)) /\
     ((exists a s, a ∈ s_streams g1 /\ rstreams g1 !! a = Some s /\ r_node s = 7 /\ r_authorized s = true /\ u = r_uuid s)
      \/ (u = 0 /\ ~ authorized_node g1 7))) /\
  members_are (links g1) (s_global_links_cluster g1) (authorized_node g1).
Proof.
  destruct (registry_tracks_streams one_cluster 8 t0 g1 g0_members
    ltac:(constructor; [done | apply NoDup_nil_2 | constructor]) g1_run) as (H & H' & _).
  split; [apply (H 7); done | exact H'].
Defined.

(** ** Departures *)

(** A client stream carries the address of its uplink whether it is authorized
    or not, and a deletion puts the first stream of the node in the table
    without asking.  When that stream goes it is not taken out of the table,
    being unauthorized: the next lookup of the node reads freed memory. *)
Lemma unauthorized_stream_dangles :
  exists g2 g3 g4, dap_stream_add_to_list (dap_stream_new_es_client g1 2 200 ([50], 81) (Some 7) false) true 2 = Some (g2, 0) /\
    dap_stream_delete_unsafe g2 true 1 = Some g3 /\ s_authorized_streams g3 !! 7 = Some 2 /\
    dap_stream_delete_unsafe g3 true 2 = Some g4 /\ dap_stream_find_by_addr g4 7 false = None.
Proof. eexists _, _, _. split_and!; vm_compute; reflexivity. Qed.

(** [primary] is not cleared when a stream leaves the table: of two streams of
    a node, the one that moved to another worker is deleted from the table it
    is no longer in. *)
Lemma reassigned_stream_deleted_twice :
  exists g2 g3 g4, s_stream_new g1 true 2 200 4 ([50], 81) (Some 7) = Some g2 /\
    s_esocket_callback_worker_unassign g2 true 1 = Some g3 /\ s_authorized_streams g3 !! 7 = Some 2 /\
    s_esocket_callback_worker_assign g3 true 1 = Some g4 /\ dap_stream_delete_unsafe g4 true 1 = None.
Proof. eexists _, _, _. split_and!; vm_compute; reflexivity. Qed.

(** A failed allocation in [dap_stream_find_all_by_addr] returns with the lock
    held: no stream can be added any more. *)
Lemma find_all_keeps_lock g n a s : reg_inv g -> n <> 0 -> s_streams g = [a] -> rstreams g !! a = Some s ->
  r_node s = n -> r_authorized s = true ->
  exists g', dap_stream_find_all_by_addr g n (λ _, false) = Some (g', []) /\
    forall ok b, dap_stream_add_to_list g' ok b = None /\ s_stream_delete_from_list g' ok b = None.
Proof.
  intros I Hn Hl Hs En Ha. unfold dap_stream_find_all_by_addr. rewrite (gi_lock g I). cbn [rdlock mbind option_bind s_streams set_rlock].
  rewrite Hl. cbn [find_all_loop rstreams set_rlock]. rewrite Hs. cbn [mbind option_bind].
  rewrite Ha, En, Z.eqb_refl. cbn [negb orb mbind option_bind]. eexists. split; [done|]. done.
Qed.
