(* ===== verification/ProcThread.v ===== *)
(** * Processing threads (io/dap_proc_thread.c)

    Callbacks are queued on a thread at one of five priorities and called by its
    loop; one that returns [true] is queued again.  The threads are modelled as
    one system in which their loops, the callbacks that queue others and the
    threads outside take turns in any order: taking the lock, changing a queue
    and releasing the lock is one step, calling a callback another. *)

From S2P Require Import Prelude.
From stdpp Require Import list relations.
Local Open Scope Z_scope.

Definition DAP_QUEUE_MSG_PRIORITY_LOW : Z := 1.
Definition DAP_QUEUE_MSG_PRIORITY_NORMAL : Z := 2.
Definition DAP_QUEUE_MSG_PRIORITY_MAX : Z := 4.
Definition DAP_QUEUE_MSG_PRIORITY_COUNT : nat := 5.
Definition UINT32_MAX : Z := 2 ^ 32 - 1.

(** Functions and arguments are addresses. *)
Record dap_proc_queue_item := Item { callback : Z; callback_arg : Z }.

Record dap_proc_thread := ProcThread { queue : list (list dap_proc_queue_item); proc_queue_size : Z }.

Implicit Types (t : dap_proc_thread) (ts : list dap_proc_thread) (it : dap_proc_queue_item).

(** ** Queues *)

(** [DAP_NEW_Z_SIZE] in [dap_proc_thread_init]. *)
Definition new_thread : dap_proc_thread := ProcThread (replicate DAP_QUEUE_MSG_PRIORITY_COUNT []) 0.

Definition dap_proc_thread_get ts (a_cpu_id : Z) : option dap_proc_thread :=
  if a_cpu_id <? Z.of_nat (length ts) then ts !! Z.to_nat a_cpu_id else None.

(** The loop of [dap_proc_thread_get_auto]. *)
Fixpoint get_auto_loop (fuel : nat) ts (i l_bound l_id_min l_size_min : Z) : option Z :=
  match fuel with
  | O => Some l_id_min
  | S fuel =>
    if i <? l_bound then
      let n := Z.of_nat (length ts) in
      let l_id_cur := if i <? n then i else wrap 32 (i - n) in
      t ← ts !! Z.to_nat l_id_cur;
      if proc_queue_size t <? l_size_min then
        let l_size_min := wrap 32 (proc_queue_size t) in
        if l_size_min =? 0 then Some l_id_cur
        else get_auto_loop fuel ts (wrap 32 (i + 1)) l_bound l_id_cur l_size_min
      else get_auto_loop fuel ts (wrap 32 (i + 1)) l_bound l_id_min l_size_min
    else Some l_id_min
  end.

(** The index of the thread; [None] when there are no threads. *)
Definition dap_proc_thread_get_auto (a_rand : Z) ts : option Z :=
  let n := Z.of_nat (length ts) in
  if n =? 0 then None else
  let l_id_start := a_rand mod n in
  get_auto_loop (length ts) ts l_id_start (wrap 32 (n + l_id_start)) l_id_start UINT32_MAX.

Definition dap_proc_thread_get_avg_queue_size ts : option Z :=
  let l_ret := foldl (λ s t, wrap 64 (s + proc_queue_size t)) 0 ts in
  if Z.of_nat (length ts) =? 0 then None else Some (l_ret / Z.of_nat (length ts)).

Definition append t (a_priority : nat) it : dap_proc_thread :=
  ProcThread (alter (λ q, q ++ [it]) a_priority (queue t)) (wrap 64 (proc_queue_size t + 1)).

(** [a_alloc]: the item is allocated. *)
Definition dap_proc_thread_callback_add_pri (a_alloc : bool) (a_rand : Z) ts (a_thread : option Z) it (a_priority : Z)
    : option (Z * list dap_proc_thread) :=
  if negb (negb (callback it =? 0) && (0 <=? a_priority) && (a_priority <=? DAP_QUEUE_MSG_PRIORITY_MAX)) then Some (-1, ts) else
  l_thread ← match a_thread with Some i => Some i | None => dap_proc_thread_get_auto a_rand ts end;
  if negb a_alloc then Some (-2, ts) else
  t ← ts !! Z.to_nat l_thread;
  Some (0, <[Z.to_nat l_thread := append t (Z.to_nat a_priority) it]> ts).

(** From priority [i] down. *)
Fixpoint first_item (l : list (list dap_proc_queue_item)) (i : nat) : option (dap_proc_queue_item * nat) :=
  match l !! i with
  | Some (it :: _) => Some (it, i)
  | _ => match i with O => None | S i => first_item l i end
  end.

Definition s_proc_queue_pull t : option (dap_proc_queue_item * nat) * dap_proc_thread :=
  if proc_queue_size t =? 0 then (None, t) else
  match first_item (queue t) (Z.to_nat DAP_QUEUE_MSG_PRIORITY_MAX) with
  | Some (it, i) => (Some (it, i), ProcThread (alter tail i (queue t)) (wrap 64 (proc_queue_size t - 1)))
  | None => (None, t)
  end.

(** The cleanup of [s_context_callback_stopped]. *)
Fixpoint stopped_loop (fuel : nat) t : option dap_proc_thread :=
  match fuel with
  | O => None
  | S fuel =>
    if proc_queue_size t =? 0 then Some t else
    let '(r, t) := s_proc_queue_pull t in
    match r with None => Some t | Some _ => stopped_loop fuel t end
  end.

(** Timers of a thread: the timer queues [s_thread_timer_callback]. *)
Record timer_arg := TimerArg { ta_thread : Z; ta_item : dap_proc_queue_item; oneshot : bool; ta_priority : Z }.

Definition s_timer_callback (a_alloc : bool) (a_rand : Z) ts (l_arg : timer_arg) : option (bool * list dap_proc_thread) :=
  '(_, ts) ← dap_proc_thread_callback_add_pri a_alloc a_rand ts (Some (ta_thread l_arg)) (ta_item l_arg) (ta_priority l_arg);
  Some (negb (oneshot l_arg), ts).

(** ** The threads at work *)

(** A call of [dap_proc_thread_callback_add_pri]. *)
Record request := Request { rq_thread : option Z; rq_item : dap_proc_queue_item; rq_priority : Z; rq_rand : Z; rq_alloc : bool }.

Definition add_request ts (r : request) : option (Z * list dap_proc_thread) :=
  dap_proc_thread_callback_add_pri (rq_alloc r) (rq_rand r) ts (rq_thread r) (rq_item r) (rq_priority r).

(** Where [dap_proc_thread_loop] stands: waiting for an item, having taken one,
    in its callback (with the requests it still makes and its answer), ended. *)
Inductive phase :=
  | Waiting
  | Pulled it (l_item_priority : nat)
  | Running it (l_item_priority : nat) (l : list request) (again : bool)
  | Stopped.

Inductive event :=
  | Added (i p : nat) it
  | Taken (i p : nat) it
  | Called (i : nat) it.

Record sys (W : Type) := Sys {
  threads : list dap_proc_thread;
  phases : list phase;
  signal_exit : list bool;
  world : W;
  trace : list event;
}.
Arguments Sys {W}.
Arguments threads {W}.
Arguments phases {W}.
Arguments signal_exit {W}.
Arguments world {W}.
Arguments trace {W}.

Definition logged ts (r : request) (rc : Z) : list event :=
  if rc =? 0 then
    match (match rq_thread r with Some i => Some i | None => dap_proc_thread_get_auto (rq_rand r) ts end) with
    | Some i => [Added (Z.to_nat i) (Z.to_nat (rq_priority r)) (rq_item r)]
    | None => []
    end
  else [].

Section Loops.
Context {W : Type} (call : dap_proc_queue_item -> W -> bool * list request * W).
Implicit Types (s : sys W).

Definition initial (n : nat) (w : W) : sys W := Sys (replicate n new_thread) (replicate n Waiting) (replicate n false) w [].

Definition set_threads s ts' l : sys W := Sys ts' (phases s) (signal_exit s) (world s) (trace s ++ l).
Definition set_phase s (i : nat) (ph : phase) : sys W := Sys (threads s) (<[i := ph]> (phases s)) (signal_exit s) (world s) (trace s).
Definition set_world s (w : W) l : sys W := Sys (threads s) (phases s) (signal_exit s) w (trace s ++ l).

Inductive step : sys W -> sys W -> Prop :=
  | step_outside s r rc ts' :
      add_request (threads s) r = Some (rc, ts') -> step s (set_threads s ts' (logged (threads s) r rc))
  | step_pull s i t it p t' :
      phases s !! i = Some Waiting -> signal_exit s !! i = Some false -> threads s !! i = Some t ->
      s_proc_queue_pull t = (Some (it, p), t') ->
      step s (set_phase (set_threads s (<[i := t']> (threads s)) [Taken i p it]) i (Pulled it p))
  | step_call s i it p again l w :
      phases s !! i = Some (Pulled it p) -> signal_exit s !! i = Some false -> call it (world s) = (again, l, w) ->
      step s (set_phase (set_world s w [Called i it]) i (Running it p l again))
  | step_inside s i it p r l again rc ts' :
      phases s !! i = Some (Running it p (r :: l) again) -> add_request (threads s) r = Some (rc, ts') ->
      step s (set_phase (set_threads s ts' (logged (threads s) r rc)) i (Running it p l again))
  | step_again s i it p alloc rnd rc ts' :
      let r := Request (Some (Z.of_nat i)) it (Z.of_nat p) rnd alloc in
      phases s !! i = Some (Running it p [] true) -> add_request (threads s) r = Some (rc, ts') ->
      step s (set_phase (set_threads s ts' (logged (threads s) r rc)) i Waiting)
  | step_done s i it p :
      phases s !! i = Some (Running it p [] false) -> step s (set_phase s i Waiting)
  | step_exit s i :
      step s (Sys (threads s) (phases s) (<[i := true]> (signal_exit s)) (world s) (trace s))
  | step_stop s i t ph t' fuel :
      phases s !! i = Some ph -> ph = Waiting \/ (exists it p, ph = Pulled it p) -> signal_exit s !! i = Some true ->
      threads s !! i = Some t -> stopped_loop fuel t = Some t' ->
      step s (set_phase (set_threads s (<[i := t']> (threads s)) []) i Stopped).

Definition reachable (n : nat) (w : W) s : Prop := rtc step (initial n w) s.
End Loops.

(** ** Queues: theory *)

Definition load t : Z := Z.of_nat (length (concat (queue t))).

Record thread_ok t : Prop := {
  th_queues : length (queue t) = DAP_QUEUE_MSG_PRIORITY_COUNT;
  th_size : proc_queue_size t = wrap 64 (load t);
}.

Lemma new_thread_ok : thread_ok new_thread.
Proof. by split. Qed.

Lemma length_concat_alter {A} (f : list A -> list A) (l : list (list A)) i q : l !! i = Some q ->
  Z.of_nat (length (concat (alter f i l))) = Z.of_nat (length (concat l)) + Z.of_nat (length (f q)) - Z.of_nat (length q).
Proof.
  revert i. induction l as [|x l IH]; intros [|i] E; try discriminate E.
  - injection E as ->. cbn. rewrite !length_app. lia.
  - specialize (IH i E). change (alter f (S i) (x :: l)) with (x :: alter f i l). cbn [concat]. rewrite !length_app. lia.
Qed.

Lemma append_ok t p it : thread_ok t -> (p < DAP_QUEUE_MSG_PRIORITY_COUNT)%nat -> thread_ok (append t p it).
Proof.
  intros [Hl Hs] Hp. destruct (lookup_lt_is_Some_2 (queue t) p) as [q Eq]; [by rewrite Hl|]. split; cbn [append queue proc_queue_size].
  - by rewrite length_alter.
  - unfold load in *. cbn [append queue]. rewrite (length_concat_alter _ _ _ _ Eq), length_app. cbn [length].
    rewrite Hs. unfold wrap. rewrite Zplus_mod_idemp_l. f_equal. lia.
Qed.

(** The first item is the oldest of the highest priority that has any. *)
Lemma first_item_spec l n :
  match first_item l n with
  | Some (it, p) => (p <= n)%nat /\ (exists q, l !! p = Some (it :: q)) /\
      forall p', (p < p' <= n)%nat -> default [] (l !! p') = []
  | None => forall p, (p <= n)%nat -> default [] (l !! p) = []
  end.
Proof.
  induction n as [|n IH]; cbn [first_item].
  - destruct (l !! 0%nat) as [[|it q]|] eqn:E; [intros p Hp | split_and!; [lia | by exists q | lia] | intros p Hp];
      (replace p with 0%nat by lia; by rewrite E).
  - destruct (l !! S n) as [[|it q]|] eqn:E; cycle 1.
    + split_and!; [lia | by exists q | lia].
    + destruct (first_item l n) as [[it p]|].
      * destruct IH as (Hp & Hq & Hh). split_and!; [lia | done|]. intros p' Hp'.
        destruct (decide (p' = S n)) as [->|]; [by rewrite E | apply Hh; lia].
      * intros p Hp. destruct (decide (p = S n)) as [->|]; [by rewrite E | apply IH; lia].
    + destruct (first_item l n) as [[it p]|].
      * destruct IH as (Hp & Hq & Hh). split_and!; [lia | done|]. intros p' Hp'.
        destruct (decide (p' = S n)) as [->|]; [by rewrite E | apply Hh; lia].
      * intros p Hp. destruct (decide (p = S n)) as [->|]; [by rewrite E | apply IH; lia].
Qed.

Lemma concat_empty {A} (l : list (list A)) : (forall p q, l !! p = Some q -> q = []) -> concat l = [].
Proof.
  induction l as [|x l IH]; intros H; [done|]. cbn [concat]. rewrite (H 0%nat x eq_refl), IH; [done|].
  intros p q E. by apply (H (S p)).
Qed.

Lemma pull_some t it p t' : thread_ok t -> s_proc_queue_pull t = (Some (it, p), t') ->
  thread_ok t' /\ load t' = load t - 1 /\ (exists q, queue t !! p = Some (it :: q) /\ queue t' = <[p := q]> (queue t)) /\
  forall p' q', (p < p')%nat -> queue t !! p' = Some q' -> q' = [].
Proof.
  intros [Hl Hs]. unfold s_proc_queue_pull. destruct (_ =? 0); [done|].
  pose proof (first_item_spec (queue t) (Z.to_nat DAP_QUEUE_MSG_PRIORITY_MAX)) as Hf. change (Z.to_nat DAP_QUEUE_MSG_PRIORITY_MAX) with 4%nat in *.
  destruct (first_item (queue t) 4) as [[it' p']|]; [|done]. intros [= -> -> <-]. destruct Hf as (Hp & (q & Eq) & Hh).
  assert (Ea : alter tail p (queue t) = <[p := q]> (queue t)).
  { apply list_eq. intros j. destruct (decide (j = p)) as [->|].
    - rewrite list_lookup_alter_eq, Eq, list_lookup_insert_eq; [done|]. by eapply lookup_lt_Some.
    - by rewrite list_lookup_alter_ne, list_lookup_insert_ne by done. }
  assert (El : Z.of_nat (length (concat (alter tail p (queue t)))) = load t - 1).
  { rewrite (length_concat_alter _ _ _ _ Eq). unfold load. cbn [tail length]. lia. }
  split_and!.
  - split; cbn [queue proc_queue_size]; [by rewrite length_alter|]. unfold load at 1. cbn [queue]. rewrite El, Hs.
    unfold wrap. apply Zminus_mod_idemp_l.
  - exact El.
  - by exists q.
  - intros p' q' Hp' Eq'. assert (p' < 5)%nat by (apply lookup_lt_Some in Eq'; unfold DAP_QUEUE_MSG_PRIORITY_COUNT in Hl; lia).
    specialize (Hh p'). rewrite Eq' in Hh. apply Hh. lia.
Qed.

Lemma pull_none t t' : thread_ok t -> load t < 2 ^ 64 -> s_proc_queue_pull t = (None, t') -> t' = t /\ load t = 0.
Proof.
  intros [Hl Hs] Hlt. unfold s_proc_queue_pull. assert (0 <= load t) by (unfold load; lia).
  rewrite wrap_id in Hs by (unfold fits; lia). rewrite Hs.
  destruct (Z.eqb_spec (load t) 0) as [E0|Hne]; [by intros [= <-]|].
  pose proof (first_item_spec (queue t) (Z.to_nat DAP_QUEUE_MSG_PRIORITY_MAX)) as Hf. change (Z.to_nat DAP_QUEUE_MSG_PRIORITY_MAX) with 4%nat in *.
  destruct (first_item (queue t) 4) as [[it p]|]; [done|]. intros [= <-]. split; [done|].
  unfold load. rewrite (concat_empty (queue t)); [done|]. intros p q E.
  assert (p < 5)%nat by (apply lookup_lt_Some in E; unfold DAP_QUEUE_MSG_PRIORITY_COUNT in Hl; lia).
  specialize (Hf p). rewrite E in Hf. apply Hf. lia.
Qed.

(** A stopping thread drops everything that is queued. *)
Lemma stopped_empties fuel : forall t, thread_ok t -> load t < 2 ^ 64 -> load t < Z.of_nat fuel ->
  exists t', stopped_loop fuel t = Some t' /\ load t' = 0.
Proof.
  induction fuel as [|fuel IH]; intros t Ht Hlt Hf; [unfold load in Hf; lia|]. cbn [stopped_loop].
  pose proof (th_size _ Ht) as Hs. assert (0 <= load t) by (unfold load; lia). rewrite wrap_id in Hs by (unfold fits; lia).
  destruct (Z.eqb_spec (proc_queue_size t) 0); [exists t; split; [done | congruence]|].
  destruct (s_proc_queue_pull t) as [[[it p]|] t'] eqn:E.
  - destruct (pull_some _ _ _ _ Ht E) as (Ht' & El & _). apply IH; [done | lia..].
  - destruct (pull_none _ _ Ht Hlt E) as [-> E0]. by exists t.
Qed.

(** ** The thread that is chosen *)

Lemma get_auto_loop_spec ts l_start : ts <> [] -> 2 * Z.of_nat (length ts) < 2 ^ 32 -> 0 <= l_start < Z.of_nat (length ts) ->
  Forall (λ t, 0 <= proc_queue_size t) ts ->
  forall k i l_id_min l_size_min, let n := Z.of_nat (length ts) in
  i = n + l_start - Z.of_nat k -> l_start <= i -> 0 <= l_id_min < n -> l_size_min <= UINT32_MAX ->
  (l_size_min < UINT32_MAX -> exists t, ts !! Z.to_nat l_id_min = Some t /\ proc_queue_size t = l_size_min) ->
  (forall j t, l_start <= j < i -> ts !! Z.to_nat (if j <? n then j else j - n) = Some t -> l_size_min <= proc_queue_size t) ->
  exists c t, get_auto_loop k ts i (n + l_start) l_id_min l_size_min = Some c /\ 0 <= c < n /\ ts !! Z.to_nat c = Some t /\
    forall j t', l_start <= j < n + l_start -> ts !! Z.to_nat (if j <? n then j else j - n) = Some t' ->
      proc_queue_size t' < UINT32_MAX -> proc_queue_size t <= proc_queue_size t'.
Proof.
  intros Hne Hn Hst Hpos. induction k as [|k IH]; intros i idm szm n Ei Hi Hid Hsz Hmin Hseen.
  - destruct (lookup_lt_is_Some_2 ts (Z.to_nat idm)) as [t0 E0]; [lia|]. exists idm, t0. cbn [get_auto_loop].
    split_and!; [done | lia | lia | done|]. intros j t' Hj Et' Hlt. assert (szm <= proc_queue_size t') by (apply (Hseen j); [lia | done]).
    destruct Hmin as (t & Et & <-); [lia|]. by replace t0 with t by congruence.
  - cbn [get_auto_loop]. rewrite (proj2 (Z.ltb_lt i (n + l_start))) by lia. fold n.
    assert (Eid : (if i <? n then i else wrap 32 (i - n)) = (if i <? n then i else i - n)).
    { destruct (Z.ltb_spec i n); [done|]. apply wrap_id. unfold fits. lia. }
    rewrite Eid. set (cur := if i <? n then i else i - n). assert (Hcur : 0 <= cur < n) by (unfold cur; destruct (Z.ltb_spec i n); lia).
    destruct (lookup_lt_is_Some_2 ts (Z.to_nat cur)) as [t Et]; [lia|]. rewrite Et. cbn [mbind option_bind].
    assert (Hp : 0 <= proc_queue_size t) by (eapply (proj1 (Forall_forall _ _) Hpos), list_elem_of_lookup_2, Et).
    assert (Hw : wrap 32 (i + 1) = i + 1) by (apply wrap_id; unfold fits; lia). rewrite Hw.
    destruct (Z.ltb_spec (proc_queue_size t) szm) as [Hlt|Hge].
    + rewrite (wrap_id 32 (proc_queue_size t)) by (unfold fits, UINT32_MAX in *; lia).
      destruct (Z.eqb_spec (proc_queue_size t) 0) as [E0|Hn0].
      * exists cur, t. split_and!; [done | lia | lia | done|]. intros j t' _ Et' _. rewrite E0.
        by eapply (proj1 (Forall_forall _ _) Hpos), list_elem_of_lookup_2.
      * apply IH; [lia | lia | lia | lia | by exists t|]. intros j t' Hj Et'. destruct (decide (j = i)) as [->|]; [|].
        -- change (ts !! Z.to_nat cur = Some t') in Et'. by replace t' with t by congruence.
        -- assert (szm <= proc_queue_size t') by (apply (Hseen j); [lia | done]). lia.
    + apply IH; [lia | lia | lia | lia | done|]. intros j t' Hj Et'. destruct (decide (j = i)) as [->|]; [|].
      * change (ts !! Z.to_nat cur = Some t') in Et'. by replace t' with t by congruence.
      * apply (Hseen j); [lia | done].
Qed.

(** The least loaded thread is chosen, if any has a load below [UINT32_MAX]. *)
Lemma get_auto_least ts a_rand : ts <> [] -> 2 * Z.of_nat (length ts) < 2 ^ 32 -> Forall (λ t, 0 <= proc_queue_size t) ts ->
  exists c t, dap_proc_thread_get_auto a_rand ts = Some c /\ 0 <= c /\ ts !! Z.to_nat c = Some t /\
    forall t', t' ∈ ts -> proc_queue_size t' < UINT32_MAX -> proc_queue_size t <= proc_queue_size t'.
Proof.
  intros Hne Hn Hpos. unfold dap_proc_thread_get_auto. assert (0 < Z.of_nat (length ts)) by (destruct ts; [done | cbn; lia]).
  rewrite (proj2 (Z.eqb_neq _ 0)) by lia. set (n := Z.of_nat (length ts)) in *. pose proof (Z.mod_pos_bound a_rand n) as Hr.
  rewrite (wrap_id 32 (n + a_rand mod n)) by (unfold fits; lia).
  destruct (get_auto_loop_spec ts (a_rand mod n) Hne Hn ltac:(lia) Hpos (length ts) (a_rand mod n) (a_rand mod n) UINT32_MAX)
    as (c & t & E & Hc & Et & Hmin); [lia | lia | lia | lia | lia | intros; lia|].
  exists c, t. split_and!; [done | lia | done|]. intros t' [j Ej]%list_elem_of_lookup_1. pose proof (lookup_lt_Some _ _ _ Ej) as Hj.
  apply (Hmin (if Z.of_nat j <? a_rand mod n then Z.of_nat j + n else Z.of_nat j)).
  - destruct (Z.ltb_spec (Z.of_nat j) (a_rand mod n)); lia.
  - fold n. destruct (Z.ltb_spec (Z.of_nat j) (a_rand mod n)).
    + rewrite (proj2 (Z.ltb_ge _ _)) by lia. by replace (Z.to_nat _) with j by lia.
    + rewrite (proj2 (Z.ltb_lt _ _)) by lia. by rewrite Nat2Z.id.
Qed.

(** ** Traces *)

(** What was queued on a thread at a priority, what was taken from there, and
    what the thread took and called, in order. *)
Definition added (i p : nat) (l : list event) : list dap_proc_queue_item :=
  omap (λ e, match e with Added j q it => if decide (j = i /\ q = p) then Some it else None | _ => None end) l.
Definition taken (i p : nat) (l : list event) : list dap_proc_queue_item :=
  omap (λ e, match e with Taken j q it => if decide (j = i /\ q = p) then Some it else None | _ => None end) l.
Definition takes (i : nat) (l : list event) : list dap_proc_queue_item :=
  omap (λ e, match e with Taken j _ it => if decide (j = i) then Some it else None | _ => None end) l.
Definition calls (i : nat) (l : list event) : list dap_proc_queue_item :=
  omap (λ e, match e with Called j it => if decide (j = i) then Some it else None | _ => None end) l.

(** The item a loop has taken and not called yet. *)
Definition held (ph : phase) : list dap_proc_queue_item := match ph with Pulled it _ => [it] | _ => [] end.

(** Whenever an item is taken, nothing of a higher priority is left of what was
    queued before, and nothing older of its own. *)
Definition in_order (l : list event) : Prop := forall l1 i p it l2, l = l1 ++ Taken i p it :: l2 ->
  (forall q, (p < q < DAP_QUEUE_MSG_PRIORITY_COUNT)%nat -> added i q l1 = taken i q l1) /\
  exists k, added i p l1 = taken i p l1 ++ it :: k.

Lemma in_order_nil : in_order [].
Proof. intros l1 i p it l2 E. by destruct l1. Qed.

Lemma in_order_snoc l e : in_order l ->
  match e with
  | Taken i p it => (forall q, (p < q < DAP_QUEUE_MSG_PRIORITY_COUNT)%nat -> added i q l = taken i q l) /\
      exists k, added i p l = taken i p l ++ it :: k
  | _ => True
  end -> in_order (l ++ [e]).
Proof.
  intros Hl He l1 i p it l2 E. destruct l2 as [|x l2 _] using rev_ind.
  - apply app_inj_tail in E as [-> ->]. done.
  - rewrite app_comm_cons, app_assoc in E. apply app_inj_tail in E as [E _]. by eapply Hl.
Qed.

Ltac trace_simpl := unfold added, taken, takes, calls; rewrite ?omap_app; cbn [omap list_omap].

Lemma add_request_spec ts r rc ts' : add_request ts r = Some (rc, ts') ->
  (ts' = ts /\ logged ts r rc = []) \/
  exists j t p, ts !! j = Some t /\ (p < DAP_QUEUE_MSG_PRIORITY_COUNT)%nat /\ ts' = <[j := append t p (rq_item r)]> ts /\
    logged ts r rc = [Added j p (rq_item r)].
Proof.
  unfold add_request, dap_proc_thread_callback_add_pri, logged. set (c := negb (callback (rq_item r) =? 0)).
  destruct (negb (c && _ && _)) eqn:Hc; [intros [= <- <-]; by left|].
  apply negb_false_iff, andb_true_iff in Hc as [[_ H0%Z.leb_le]%andb_true_iff H4%Z.leb_le].
  destruct (match rq_thread r with Some i => Some i | None => _ end) as [i|]; [|done]. cbn [mbind option_bind].
  destruct (rq_alloc r); cbn [negb]; [|intros [= <- <-]; by left].
  destruct (ts !! Z.to_nat i) as [t|] eqn:Et; [|done]. cbn [mbind option_bind]. intros [= <- <-]. right.
  exists (Z.to_nat i), t, (Z.to_nat (rq_priority r)). split_and!; [done | | done | done].
  unfold DAP_QUEUE_MSG_PRIORITY_COUNT, DAP_QUEUE_MSG_PRIORITY_MAX in *. lia.
Qed.

(** ** The invariant of the system *)

Definition thread_inv (l : list event) (i : nat) t (ph : phase) : Prop :=
  thread_ok t /\ (forall p q, queue t !! p = Some q -> added i p l = taken i p l ++ q) /\ takes i l = calls i l ++ held ph.

Record sys_ok {W} (s : sys W) : Prop := {
  so_threads i t ph : threads s !! i = Some t -> phases s !! i = Some ph -> ph <> Stopped -> thread_inv (trace s) i t ph;
  so_order : in_order (trace s);
}.

Lemma inv_append l i t ph p it : thread_inv l i t ph -> (p < DAP_QUEUE_MSG_PRIORITY_COUNT)%nat ->
  thread_inv (l ++ [Added i p it]) i (append t p it) ph.
Proof.
  intros (Ht & Hq & Hc) Hp. split_and!; [by apply append_ok | | by trace_simpl; rewrite !app_nil_r]. intros p' q. cbn [append queue].
  destruct (decide (p' = p)) as [->|Hne].
  - rewrite list_lookup_alter_eq. destruct (queue t !! p) as [q0|] eqn:E; [|done]. intros [= <-]. specialize (Hq p q0 E).
    trace_simpl. rewrite decide_True by done. fold (added i p l) (taken i p l). by rewrite Hq, app_nil_r, app_assoc.
  - rewrite list_lookup_alter_ne by done. intros E. specialize (Hq p' q E). trace_simpl. rewrite decide_False by naive_solver.
    by rewrite !app_nil_r.
Qed.

Lemma inv_other l i t ph e : thread_inv l i t ph ->
  match e with Added j _ _ | Taken j _ _ | Called j _ => j <> i end -> thread_inv (l ++ [e]) i t ph.
Proof.
  intros (Ht & Hq & Hc) He. split_and!; [done | |].
  - intros p q E. specialize (Hq p q E). trace_simpl. destruct e; rewrite ?decide_False by naive_solver; by rewrite !app_nil_r.
  - trace_simpl. destruct e; rewrite ?decide_False by naive_solver; by rewrite !app_nil_r.
Qed.

Section Invariant.
Context {W : Type} (call : dap_proc_queue_item -> W -> bool * list request * W).
Implicit Types (s : sys W).

Lemma ok_initial n (w : W) : sys_ok (initial n w).
Proof.
  split; [|apply in_order_nil]. intros i t ph [-> _]%lookup_replicate [-> _]%lookup_replicate _.
  split_and!; [apply new_thread_ok | | done]. intros p q [-> _]%lookup_replicate. done.
Qed.

Lemma ok_add s r rc ts' : sys_ok s -> add_request (threads s) r = Some (rc, ts') ->
  sys_ok (set_threads s ts' (logged (threads s) r rc)).
Proof.
  intros [Ht Ho] [[-> ->]|(j & t & p & Et & Hp & -> & ->)]%add_request_spec; unfold set_threads; split;
    cbn [threads phases trace]; rewrite ?app_nil_r; try done.
  - intros i t' ph Et' Eph Hs. destruct (decide (i = j)) as [->|Hne].
    + rewrite list_lookup_insert_eq in Et' by (by eapply lookup_lt_Some). injection Et' as <-. apply inv_append; [by apply Ht | done].
    + rewrite list_lookup_insert_ne in Et' by done. apply inv_other; [by apply Ht | done].
  - by apply in_order_snoc.
Qed.

Lemma ok_phase s i ph ph' : sys_ok s -> phases s !! i = Some ph -> ph <> Stopped -> held ph' = held ph \/ ph' = Stopped ->
  sys_ok (set_phase s i ph').
Proof.
  intros [Ht Ho] Eph Hs Hh. split; [|done]. intros j t x Et Ex Hx. cbn [set_phase threads phases trace] in *.
  destruct (decide (j = i)) as [->|Hne].
  - rewrite list_lookup_insert_eq in Ex by (by eapply lookup_lt_Some). injection Ex as <-. destruct Hh as [Hh|]; [|done].
    destruct (Ht i t ph Et Eph Hs) as (? & ? & ?). split_and!; [done..|]. by rewrite Hh.
  - rewrite list_lookup_insert_ne in Ex by done. by apply Ht.
Qed.

Lemma ok_pull s i t it p t' : sys_ok s -> phases s !! i = Some Waiting -> threads s !! i = Some t ->
  s_proc_queue_pull t = (Some (it, p), t') ->
  sys_ok (set_phase (set_threads s (<[i := t']> (threads s)) [Taken i p it]) i (Pulled it p)).
Proof.
  intros [Ht Ho] Eph Et Ep. destruct (Ht i t Waiting Et Eph ltac:(done)) as (Hok & Hq & Hc).
  destruct (pull_some _ _ _ _ Hok Ep) as (Hok' & _ & (q & Eq & Eq') & Hh). pose proof (Hq p _ Eq) as Ha. split.
  - intros j x ph. cbn [set_phase set_threads threads phases trace]. destruct (decide (j = i)) as [->|Hne].
    + rewrite !list_lookup_insert_eq by (by eapply lookup_lt_Some). intros [= <-] [= <-] _. split_and!; [done | |].
      * intros p' q' E'. rewrite Eq' in E'. trace_simpl. destruct (decide (p' = p)) as [->|Hnp].
        -- rewrite list_lookup_insert_eq in E' by (by eapply lookup_lt_Some). injection E' as <-. rewrite decide_True by done.
           fold (added i p (trace s)) (taken i p (trace s)). by rewrite Ha, app_nil_r, <- app_assoc.
        -- rewrite list_lookup_insert_ne in E' by done. rewrite decide_False by naive_solver. rewrite !app_nil_r. by apply Hq.
      * trace_simpl. rewrite decide_True by done. cbn [held] in *. fold (takes i (trace s)) (calls i (trace s)).
        by rewrite Hc, !app_nil_r.
    + rewrite !list_lookup_insert_ne by done. intros Ex Eph' Hs. apply inv_other; [by apply Ht | done].
  - cbn [set_phase set_threads trace]. apply in_order_snoc; [done|]. split; [|by exists q].
    intros p' [Hp1 Hp2]. destruct (lookup_lt_is_Some_2 (queue t) p') as [q' E']; [by rewrite (th_queues _ Hok)|].
    rewrite (Hq p' q' E'), (Hh p' q' Hp1 E'). by rewrite app_nil_r.
Qed.

Lemma ok_call s i it p again l w : sys_ok s -> phases s !! i = Some (Pulled it p) ->
  sys_ok (set_phase (set_world s w [Called i it]) i (Running it p l again)).
Proof.
  intros [Ht Ho] Eph. split; [|by apply in_order_snoc]. intros j t ph. cbn [set_phase set_world threads phases trace]. intros Et.
  destruct (decide (j = i)) as [->|Hne].
  - rewrite list_lookup_insert_eq by (by eapply lookup_lt_Some). intros [= <-] _.
    destruct (Ht i t _ Et Eph ltac:(done)) as (Hok & Hq & Hc). split_and!; [done | |].
    + intros p' q' E'. trace_simpl. rewrite !app_nil_r. by apply Hq.
    + trace_simpl. rewrite decide_True by done. cbn [held] in *. fold (takes i (trace s)) (calls i (trace s)). by rewrite Hc, !app_nil_r.
  - rewrite list_lookup_insert_ne by done. intros Eph' Hs. apply inv_other; [by apply Ht | done].
Qed.

Lemma ok_stop s i t' : sys_ok s -> sys_ok (set_phase (set_threads s (<[i := t']> (threads s)) []) i Stopped).
Proof.
  intros [Ht Ho]. split; cbn [set_phase set_threads threads phases trace]; rewrite app_nil_r; [|done]. intros j t ph Et Eph Hs.
  destruct (decide (j = i)) as [->|Hne].
  - rewrite list_lookup_insert_eq in Eph; [by injection Eph as <-|]. apply lookup_lt_Some in Eph. by rewrite length_insert in Eph.
  - rewrite list_lookup_insert_ne in Et by done. rewrite list_lookup_insert_ne in Eph by done. by apply Ht.
Qed.

Lemma ok_step s s' : step call s s' -> sys_ok s -> sys_ok s'.
Proof.
  intros Hs Hok. inversion Hs; subst.
  - by apply ok_add.
  - by eapply ok_pull.
  - by eapply ok_call.
  - eapply (ok_phase (set_threads s _ _)); [by apply ok_add | done | done | by left].
  - eapply (ok_phase (set_threads s _ _)); [by apply ok_add | done | done | by left].
  - by eapply ok_phase; [done | done | done | left].
  - by destruct Hok.
  - by apply ok_stop.
Qed.

Lemma ok_reachable n w s : reachable call n w s -> sys_ok s.
Proof. intros Hr. pose proof (ok_initial n w) as H0. induction Hr as [|x y z Hxy _ IH]; [done|]. apply IH. by eapply ok_step. Qed.
End Invariant.

(** C9: The processing threads, in every interleaving of their loops, of the
    callbacks that queue others and of the threads outside, call what was queued
    in order: on every thread that has not stopped, each priority's queue is what
    was queued there less what was taken, oldest first, and the recorded size is
    the number of queued items; every item that was taken is called exactly once,
    in the order of taking, the last one possibly still to be called; and
    whenever an item is taken, everything queued before it at a higher priority
    and everything older at its own has been taken. *)
Theorem proc_threads_in_order {W} (call : dap_proc_queue_item -> W -> bool * list request * W) n w s : reachable call n w s ->
  (forall i t ph, threads s !! i = Some t -> phases s !! i = Some ph -> ph <> Stopped ->
     (forall p q, queue t !! p = Some q -> added i p (trace s) = taken i p (trace s) ++ q) /\
     proc_queue_size t = wrap 64 (Z.of_nat (length (concat (queue t)))) /\
     takes i (trace s) = calls i (trace s) ++ held ph) /\
  in_order (trace s).
Proof.
  intros [Ht Ho]%ok_reachable. split; [|done]. intros i t ph Et Eph Hs. destruct (Ht i t ph Et Eph Hs) as ([_ Hz] & Hq & Hc). done.
Qed.

(** One thread, two callbacks; the one of the higher priority is taken first. *)
Definition noop (it : dap_proc_queue_item) (w : unit) : bool * list request * unit := (false, [], w).
Definition low_item : dap_proc_queue_item := Item 1 10.
Definition high_item : dap_proc_queue_item := Item 1 20.

Lemma proc_threads_in_order_witness :
  exists s, reachable noop 1 tt s /\ trace s = [Added 0 1 low_item; Added 0 4 high_item; Taken 0 4 high_item] /\ in_order (trace s).
Proof.
  set (s1 := set_threads (initial 1 tt) [append new_thread 1 low_item] [Added 0 1 low_item]).
  set (s2 := set_threads s1 [append (append new_thread 1 low_item) 4 high_item] [Added 0 4 high_item]).
  set (s3 := set_phase (set_threads s2 [append new_thread 1 low_item] [Taken 0 4 high_item]) 0 (Pulled high_item 4)).
  assert (R : reachable noop 1 tt s3).
  { apply rtc_l with s1; [apply (step_outside noop (initial 1 tt) (Request None low_item 1 0 true) 0); reflexivity|].
    apply rtc_l with s2; [apply (step_outside noop s1 (Request None high_item 4 0 true) 0); reflexivity|].
    apply rtc_once. by apply (step_pull noop s2 0 (append (append new_thread 1 low_item) 4 high_item) high_item 4 (append new_thread 1 low_item)). }
  exists s3. split; [exact R|]. split; [reflexivity|]. apply (proc_threads_in_order noop 1 tt s3 R).
Defined.
