(* ===== verification/HttpParse.v ===== *)
(** * HTTP headers and start lines
    (net/server/http_server/http_client/dap_http_header.c, dap_http_client.c)

    The parsers work on the input buffer of the socket: a block of memory of
    which the first bytes are the line.  Fields of a client and of a header are
    arrays of fixed sizes.  Reading outside the block and writing outside an
    array are [None]. *)

From S2P Require Import Prelude.
From Stdlib Require Import Ascii String.
From stdpp Require Import list gmap.
Local Open Scope Z_scope.

(** The bytes of a literal. *)
Definition txt (s : string) : list Z := map (λ c, Z.of_N (N_of_ascii c)) (list_ascii_of_string s).

Definition CR : Z := 13.
Definition LF : Z := 10.
Definition CRLF : list Z := [CR; LF].

(** [isspace] of the C locale. *)
Definition isspace (c : Z) : bool := (c =? 32) || ((9 <=? c) && (c <=? 13)).
Definition isdigit (c : Z) : bool := (48 <=? c) && (c <=? 57).
Definition tolower (c : Z) : Z := if (65 <=? c) && (c <=? 90) then c + 32 else c.

(** The first position of [c] among the first [n] bytes. *)
Fixpoint memchr (m : list Z) (c : Z) (n : nat) : option nat :=
  match n, m with
  | S n, x :: m => if x =? c then Some O else S <$> memchr m c n
  | _, _ => None
  end.

(** [strncasecmp(m + p, s, n) == 0]. *)
Fixpoint strncase_eq (m s : list Z) (n : nat) : option bool :=
  match n with
  | O => Some true
  | S n =>
    match m with
    | [] => None
    | a :: m =>
      let b := default 0 (head s) in
      if negb (tolower a =? tolower b) then Some false else
      if a =? 0 then Some true else strncase_eq m (tail s) n
    end
  end.

(** [atoi]; a value that is no [int] is undefined. *)
Fixpoint digits (acc : Z) (m : list Z) : Z :=
  match m with
  | c :: m => if isdigit c then digits (10 * acc + (c - 48)) m else acc
  | [] => acc
  end.
Fixpoint skip_spaces (m : list Z) : list Z :=
  match m with c :: l => if isspace c then skip_spaces l else m | [] => [] end.
Definition atoi (m : list Z) : option Z :=
  let v := match skip_spaces m with
           | 45 :: l => - digits 0 l
           | 43 :: l => digits 0 l
           | l => digits 0 l
           end in
  if (- 2 ^ 31 <=? v) && (v <? 2 ^ 31) then Some v else None.

(** ** Data *)

Definition SZ_FIELD_NAME : nat := 256.
Definition SZ_FIELD_VALUE : nat := 1024.

Record dap_http_header := HttpHeader { name : list Z; value : list Z; namesz : Z; valuesz : Z }.

Inductive dap_http_client_state :=
  | DAP_HTTP_CLIENT_STATE_NONE
  | DAP_HTTP_CLIENT_STATE_START
  | DAP_HTTP_CLIENT_STATE_HEADERS
  | DAP_HTTP_CLIENT_STATE_DATA.

(** What a simple processor (dap_http_simple.c) keeps for a client: the block of the
    request, the block of the reply, and the calls of [s_proc_queue_callback] it has
    queued, by their priorities. *)
Record dap_http_simple := HttpSimple {
  hs_request : option (list Z);
  hs_request_size : Z;
  hs_request_size_max : Z;
  hs_reply_byte : option (list Z);
  hs_reply_size : Z;
  hs_reply_size_max : Z;
  hs_ext_headers : list dap_http_header;
  hs_generate_default_header : bool;
  hs_queued : list Z;
}.

(** [_inheritor] belongs to the processor of the URL. *)
Record dap_http_client := HttpClient {
  action : list Z;
  url_path : list Z;
  in_query_string : list Z;
  action_len : Z;
  url_path_len : Z;
  in_query_string_len : Z;
  keep_alive : bool;
  state_read : dap_http_client_state;
  in_headers : list dap_http_header;
  in_content_type : list Z;
  in_cookie : list Z;
  in_content_length : Z;
  out_headers : list dap_http_header;
  out_content_type : list Z;
  out_content_length : Z;
  out_last_modified : Z;
  out_connection_close : bool;
  reply_status_code : Z;
  reply_reason_phrase : list Z;
  http_inheritor : option dap_http_simple;
}.

Definition zeros (n : nat) : list Z := replicate n 0.

(** [dap_http_client_new]. *)
Definition dap_http_client_new : dap_http_client :=
  HttpClient (zeros 32) (zeros 1024) (zeros 1024) 0 0 0 false DAP_HTTP_CLIENT_STATE_START [] (zeros 256) (zeros 1024) 0 []
    (zeros 256) 0 0 false 0 (zeros 256) None.

Implicit Types (cl : dap_http_client) (h : dap_http_header).

Definition set_action cl a n : dap_http_client :=
  HttpClient a (url_path cl) (in_query_string cl) n (url_path_len cl) (in_query_string_len cl) (keep_alive cl)
    (state_read cl) (in_headers cl) (in_content_type cl) (in_cookie cl) (in_content_length cl)
    (out_headers cl) (out_content_type cl) (out_content_length cl) (out_last_modified cl)
    (out_connection_close cl) (reply_status_code cl) (reply_reason_phrase cl) (http_inheritor cl).
Definition set_url cl u n : dap_http_client :=
  HttpClient (action cl) u (in_query_string cl) (action_len cl) n (in_query_string_len cl) (keep_alive cl)
    (state_read cl) (in_headers cl) (in_content_type cl) (in_cookie cl) (in_content_length cl)
    (out_headers cl) (out_content_type cl) (out_content_length cl) (out_last_modified cl)
    (out_connection_close cl) (reply_status_code cl) (reply_reason_phrase cl) (http_inheritor cl).
Definition set_query cl q n : dap_http_client :=
  HttpClient (action cl) (url_path cl) q (action_len cl) (url_path_len cl) n (keep_alive cl) (state_read cl)
    (in_headers cl) (in_content_type cl) (in_cookie cl) (in_content_length cl) (out_headers cl)
    (out_content_type cl) (out_content_length cl) (out_last_modified cl) (out_connection_close cl)
    (reply_status_code cl) (reply_reason_phrase cl) (http_inheritor cl).
Definition set_fields cl ka ct ck len : dap_http_client :=
  HttpClient (action cl) (url_path cl) (in_query_string cl) (action_len cl) (url_path_len cl)
    (in_query_string_len cl) ka (state_read cl) (in_headers cl) ct ck len (out_headers cl)
    (out_content_type cl) (out_content_length cl) (out_last_modified cl) (out_connection_close cl)
    (reply_status_code cl) (reply_reason_phrase cl) (http_inheritor cl).
Definition set_in_headers cl l : dap_http_client :=
  HttpClient (action cl) (url_path cl) (in_query_string cl) (action_len cl) (url_path_len cl)
    (in_query_string_len cl) (keep_alive cl) (state_read cl) l (in_content_type cl) (in_cookie cl)
    (in_content_length cl) (out_headers cl) (out_content_type cl) (out_content_length cl)
    (out_last_modified cl) (out_connection_close cl) (reply_status_code cl) (reply_reason_phrase cl) (http_inheritor cl).
Definition set_state cl st : dap_http_client :=
  HttpClient (action cl) (url_path cl) (in_query_string cl) (action_len cl) (url_path_len cl)
    (in_query_string_len cl) (keep_alive cl) st (in_headers cl) (in_content_type cl) (in_cookie cl)
    (in_content_length cl) (out_headers cl) (out_content_type cl) (out_content_length cl)
    (out_last_modified cl) (out_connection_close cl) (reply_status_code cl) (reply_reason_phrase cl) (http_inheritor cl).
Definition set_out_headers cl l : dap_http_client :=
  HttpClient (action cl) (url_path cl) (in_query_string cl) (action_len cl) (url_path_len cl)
    (in_query_string_len cl) (keep_alive cl) (state_read cl) (in_headers cl) (in_content_type cl)
    (in_cookie cl) (in_content_length cl) l (out_content_type cl) (out_content_length cl)
    (out_last_modified cl) (out_connection_close cl) (reply_status_code cl) (reply_reason_phrase cl) (http_inheritor cl).
Definition set_reply cl len code phrase : dap_http_client :=
  HttpClient (action cl) (url_path cl) (in_query_string cl) (action_len cl) (url_path_len cl)
    (in_query_string_len cl) (keep_alive cl) (state_read cl) (in_headers cl) (in_content_type cl)
    (in_cookie cl) (in_content_length cl) (out_headers cl) (out_content_type cl) len (out_last_modified cl)
    (out_connection_close cl) code phrase (http_inheritor cl).
Definition set_inheritor cl x : dap_http_client :=
  HttpClient (action cl) (url_path cl) (in_query_string cl) (action_len cl) (url_path_len cl)
    (in_query_string_len cl) (keep_alive cl) (state_read cl) (in_headers cl) (in_content_type cl)
    (in_cookie cl) (in_content_length cl) (out_headers cl) (out_content_type cl) (out_content_length cl)
    (out_last_modified cl) (out_connection_close cl) (reply_status_code cl) (reply_reason_phrase cl) x.

(** ** Headers *)

(** A copy of at most the array less one, and the terminator at its end. *)
Definition copy_text (a : list Z) (d : list Z) : option (list Z) :=
  a ← mem_write a 0 d; mem_write a (Z.of_nat (length d)) [0].

Inductive ht_field := HTTP_FLD_CONNECTION | HTTP_FLD_CONTENT_TYPE | HTTP_FLD_CONTENT_LEN | HTTP_FLD_COOKIE.

Definition ht_fields : list (ht_field * list Z) :=
  [(HTTP_FLD_CONNECTION, txt "Connection"); (HTTP_FLD_CONTENT_TYPE, txt "Content-Type");
   (HTTP_FLD_CONTENT_LEN, txt "Content-Length"); (HTTP_FLD_COOKIE, txt "Cookie")].

Definition find_field (l_pname : list Z) : option ht_field :=
  fst <$> head (filter (λ f, f.2 = l_pname) ht_fields).

(** A loop that runs over bytes while [f] holds and the counter [n] allows: the
    position and what is left of [n].  The byte is read before [n] is tested. *)
Fixpoint run_over (f : Z -> bool) (m : list Z) (p n : nat) : option (nat * nat) :=
  c ← m !! p;
  if f c then match n with O => Some (p, O) | S n => run_over f m (S p) n end else Some (p, n).

(** The fields the client keeps for itself. *)
Definition take_field cl (f : option ht_field) (m : list Z) (l_pval l_valuelen : nat) : option dap_http_client :=
  match f with
  | None => Some cl
  | Some HTTP_FLD_CONNECTION =>
    b ← strncase_eq (drop l_pval m) (txt "Keep-Alive") l_valuelen;
    Some (set_fields cl b (in_content_type cl) (in_cookie cl) (in_content_length cl))
  | Some HTTP_FLD_CONTENT_TYPE =>
    d ← mem_read m (Z.of_nat l_pval) (Z.of_nat (min l_valuelen (length (in_content_type cl) - 1)));
    a ← mem_write (in_content_type cl) 0 d;
    a ← mem_write a (Z.of_nat l_valuelen) [0];
    Some (set_fields cl (keep_alive cl) a (in_cookie cl) (in_content_length cl))
  | Some HTTP_FLD_CONTENT_LEN =>
    d ← mem_read m (Z.of_nat l_pval) (Z.of_nat (min l_valuelen 31));
    v ← atoi (d ++ [0]);
    Some (set_fields cl (keep_alive cl) (in_content_type cl) (in_cookie cl) (wrap 64 v))
  | Some HTTP_FLD_COOKIE =>
    d ← mem_read m (Z.of_nat l_pval) (Z.of_nat (min l_valuelen (length (in_cookie cl) - 1)));
    a ← mem_write (in_cookie cl) 0 d;
    a ← mem_write a (Z.of_nat l_valuelen) [0];
    Some (set_fields cl (keep_alive cl) (in_content_type cl) a (in_content_length cl))
  end.

Definition ENOMEM : Z := 12.

(** [m] is the block from [ht_line] on, [a_alloc] says whether memory for the
    header is obtained. *)
Definition dap_http_header_parse (a_alloc : bool) cl (m : list Z) (ht_line_len : nat) : option (Z * dap_http_client) :=
  if (ht_line_len =? 2)%nat && bool_decide (take 2 m = CRLF) then Some (1, cl) else
  if (ht_line_len <? 4)%nat then Some (-1, cl) else
  match memchr m 58 ht_line_len with
  | None => Some (-1, cl)
  | Some l_namelen =>
    l_pname ← mem_read m 0 (Z.of_nat l_namelen);
    '(l_pval, l_len) ← run_over isspace m (l_namelen + 1) (ht_line_len - (l_namelen + 1));
    let l_valuelen := (if 2 <? l_len then l_len - 2 else 0)%nat in
    cl ← take_field cl (find_field l_pname) m l_pval l_valuelen;
    if negb a_alloc then Some (- ENOMEM, cl) else
    l_name ← copy_text (zeros SZ_FIELD_NAME) l_pname;
    l_pv ← mem_read m (Z.of_nat l_pval) (Z.of_nat l_valuelen);
    l_value ← copy_text (zeros SZ_FIELD_VALUE) l_pv;
    Some (0, set_in_headers cl (in_headers cl ++ [HttpHeader l_name l_value (Z.of_nat l_namelen) (Z.of_nat l_valuelen)]))
  end.

(** [strnlen]. *)
Definition strnlen (s : list Z) (n : nat) : nat := default (min n (length s)) (memchr s 0 n).

(** [a_name] and [a_value] are texts with their terminators. *)
Definition dap_http_header_add (a_top : list dap_http_header) (a_name a_value : list Z) : option (list dap_http_header) :=
  let l_namesz := strnlen a_name SZ_FIELD_NAME in
  d ← mem_read a_name 0 (Z.of_nat l_namesz);
  l_name ← mem_write (zeros SZ_FIELD_NAME) 0 d;
  let l_valuesz := strnlen a_value SZ_FIELD_VALUE in
  d ← mem_read a_value 0 (Z.of_nat l_valuesz);
  l_value ← mem_write (zeros SZ_FIELD_VALUE) 0 d;
  Some (a_top ++ [HttpHeader l_name l_value (Z.of_nat l_namesz) (Z.of_nat l_valuesz)]).

(** [strncmp(m, s, n) == 0]. *)
Fixpoint strn_eq (m s : list Z) (n : nat) : option bool :=
  match n with
  | O => Some true
  | S n =>
    match m, s with
    | a :: m, b :: s => if negb (a =? b) then Some false else if a =? 0 then Some true else strn_eq m s n
    | _, _ => None
    end
  end.

Fixpoint dap_http_header_find (ht : list dap_http_header) (a_name : list Z) : option (option dap_http_header) :=
  match ht with
  | [] => Some None
  | h :: ht =>
    b ← strn_eq (name h) a_name (Z.to_nat (namesz h));
    if b : bool then Some (Some h) else dap_http_header_find ht a_name
  end.

Definition dup_header h : option dap_http_header :=
  d ← mem_read (name h) 0 (namesz h);
  l_name ← mem_write (zeros SZ_FIELD_NAME) 0 d;
  d ← mem_read (value h) 0 (valuesz h);
  l_value ← mem_write (zeros SZ_FIELD_VALUE) 0 d;
  Some (HttpHeader l_name l_value (namesz h) (valuesz h)).

Definition dap_http_headers_dup (a_top : list dap_http_header) : option (list dap_http_header) := mapM dup_header a_top.

(** ** Start lines *)

Definition EINVAL : Z := 22.

(** A part of the line, cut to the array. *)
Definition save_part (a m : list Z) (l_start l_end : nat) : option (list Z * Z) :=
  let n := min (l_end - l_start) (length a - 1) in
  d ← mem_read m (Z.of_nat l_start) (Z.of_nat n);
  a ← mem_write a 0 d;
  a ← mem_write a (Z.of_nat n) [0];
  Some (a, Z.of_nat n).

Definition s_http_start_line_parse cl (m : list Z) (a_buf_length : nat) : option (Z * dap_http_client) :=
  if (a_buf_length =? 2)%nat && bool_decide (take 2 m = CRLF) then Some (1, cl) else
  '(l_cp_start, l_buf_len) ← run_over isspace m 0 a_buf_length;
  '(l_cp_end, l_buf_len) ← run_over (λ c, negb (isspace c)) m l_cp_start l_buf_len;
  let l_len := (l_cp_end - l_cp_start)%nat in
  '(a, n) ← save_part (action cl) m l_cp_start l_cp_end;
  let cl := set_action cl a n in
  '(l_cp_start, l_buf_len) ← run_over (λ c, negb (c =? 47) && negb (l_len =? 0)%nat) m l_cp_end l_buf_len;
  '(l_cp_end, l_buf_len) ← run_over (λ c, negb (c =? 63) && negb (isspace c)) m l_cp_start l_buf_len;
  '(a, n) ← save_part (url_path cl) m l_cp_start l_cp_end;
  let cl := set_url cl a n in
  c ← m !! l_cp_end;
  '(cl, l_cp_end, l_buf_len) ←
    (if c =? 63 then
       let l_cp_start := S l_cp_end in
       '(l_cp_end, l_buf_len) ← run_over (λ c, negb (isspace c)) m l_cp_start l_buf_len;
       '(a, n) ← save_part (in_query_string cl) m l_cp_start l_cp_end;
       Some (set_query cl a n, l_cp_end, l_buf_len)
     else Some (cl, l_cp_end, l_buf_len));
  '(l_cp_start, _) ← run_over isspace m l_cp_end l_buf_len;
  v ← mem_read m (Z.of_nat l_cp_start) 7;
  Some (if bool_decide (v = txt "HTTP/1.") then (0, cl) else (- EINVAL, cl)).

(** ** Paths *)

(** The last [/] from position [p] down, not below the first position. *)
Fixpoint last_slash (path : list Z) (p : nat) : option nat :=
  match p with
  | O => Some O
  | S q => c ← path !! p; if c =? 47 then Some p else last_slash path q
  end.

Definition path_len (path : list Z) (len : Z) : option Z :=
  if len =? 0 then s ← c_text path; Some (Z.of_nat (length s)) else Some len.

Definition z_dirname (path : list Z) (len : Z) : option (Z * list Z) :=
  len ← path_len path len;
  if len <? 2 then Some (0, path) else
  p ← last_slash path (Z.to_nat len - 1);
  if (p =? 0)%nat then Some (0, path) else
  path ← mem_write path (Z.of_nat p) [0]; Some (Z.of_nat p, path).

Definition z_basename (path : list Z) (len : Z) : option nat :=
  len ← path_len path len;
  if len <? 2 then Some O else
  p ← last_slash path (Z.to_nat len - 1);
  Some (if (p =? 0)%nat then O else S p).
