(* ===== verification/Http.v ===== *)
(** * The HTTP server's reader (net/server/http_server/http_client/dap_http_client.c)

    Reading a request from the input buffer of a socket: the start line, the
    header lines, the data, with the callbacks of the URL's processor.  The
    callbacks are functions of the processor ([HttpSimple] has those of the simple
    processors).  A response is the status and the
    headers it is printed from. *)

From S2P Require Import Prelude HttpParse.
From Stdlib Require Import Ascii String.
From stdpp Require Import list gmap.
Local Open Scope Z_scope.

Definition HTTP_SZ_MINSTARTLINE : nat := 8.
Definition HTTP_SZ_HTLINE : nat := 4096.

Definition Http_Status_OK : Z := 200.
Definition Http_Status_BadRequest : Z := 400.
Definition Http_Status_Unauthorized : Z := 401.
Definition Http_Status_Forbidden : Z := 403.
Definition Http_Status_NotFound : Z := 404.
Definition Http_Status_LoopDetected : Z := 508.

Record dap_http_cache := HttpCache {
  body_size : Z;
  c_headers : list dap_http_header;
  response_phrase : option (list Z);
  response_code : Z;
  ts_expire : Z;
}.

(** The callbacks.  A callback may fail ([None]); those that read also say whether
    the socket is still to be read.  [data_read_callback] gets the received bytes and
    the number it may change to how many of them it took. *)
Record dap_http_url_proc := UrlProc {
  cache : option dap_http_cache;
  new_callback : option (dap_http_client -> option dap_http_client);
  headers_read_callback : option (dap_http_client -> option (dap_http_client * bool));
  headers_write_callback : option (dap_http_client -> option (bool * dap_http_client));
  data_read_callback : option (dap_http_client -> list Z -> nat -> option (nat * dap_http_client * bool));
  access_callback : option (dap_http_client -> bool);
}.

Record response := Response { r_status : Z; r_headers : list dap_http_header }.

(** The processors by their URLs, the client and the URL of its processor, the
    input buffer (a block of which [buf_in_size] bytes were received) and what
    was answered. *)
Record http := HttpState {
  url_procs : gmap (list Z) dap_http_url_proc;
  client : dap_http_client;
  proc : option (list Z);
  buf_in : list Z;
  buf_in_size : nat;
  ready_to_read : bool;
  responses : list response;
}.

Implicit Types (s : http) (cl : dap_http_client).

Definition set_client s cl : http :=
  HttpState (url_procs s) cl (proc s) (buf_in s) (buf_in_size s) (ready_to_read s) (responses s).
Definition set_proc s p : http :=
  HttpState (url_procs s) (client s) p (buf_in s) (buf_in_size s) (ready_to_read s) (responses s).
Definition set_buf_size s n : http :=
  HttpState (url_procs s) (client s) (proc s) (buf_in s) n (ready_to_read s) (responses s).
Definition set_procs s t : http :=
  HttpState t (client s) (proc s) (buf_in s) (buf_in_size s) (ready_to_read s) (responses s).

(** After a callback that reads: [set_readable] with [false] is
    [dap_events_socket_set_readable_unsafe(.., false)]. *)
Definition set_readable s (r : bool) : http :=
  HttpState (url_procs s) (client s) (proc s) (buf_in s) (buf_in_size s) (ready_to_read s && r) (responses s).

Definition the_proc s : option dap_http_url_proc := u ← proc s; url_procs s !! u.

(** [dap_events_socket_shrink_buf_in] on the block. *)
Definition shrink_buf_in s (shrink_size : nat) : http :=
  if (shrink_size =? 0)%nat || (buf_in_size s =? 0)%nat then s else
  if (shrink_size <? buf_in_size s)%nat then
    let n := (buf_in_size s - shrink_size)%nat in
    HttpState (url_procs s) (client s) (proc s) (take n (drop shrink_size (buf_in s)) ++ drop n (buf_in s)) n
      (ready_to_read s) (responses s)
  else set_buf_size s 0.

Section Reader.
(** The name of the server, the time as a text, [%zu], and a text of a time. *)
Context (server_name : list Z) (date : list Z) (print_size : Z -> list Z) (time_to_str_rfc822 : Z -> list Z).
(** [time(NULL)], and the answer of the list of banned addresses. *)
Context (now : Z) (banned : bool).

Definition dap_http_client_out_header_generate cl : option dap_http_client :=
  cl ← (if reply_status_code cl =? Http_Status_OK then
          l ← (if out_last_modified cl =? 0 then Some (out_headers cl)
               else dap_http_header_add (out_headers cl) (txt "Last-Modified" ++ [0]) (time_to_str_rfc822 (out_last_modified cl) ++ [0]));
          l ← (if default 0 (head (out_content_type cl)) =? 0 then Some l
               else dap_http_header_add l (txt "Content-Type" ++ [0]) (out_content_type cl));
          l ← (if out_content_length cl =? 0 then Some l
               else dap_http_header_add l (txt "Content-Length" ++ [0]) (print_size (out_content_length cl) ++ [0]));
          Some (set_out_headers cl l)
        else Some cl);
  l ← (if out_connection_close cl || negb (keep_alive cl)
       then dap_http_header_add (out_headers cl) (txt "Connection" ++ [0]) (txt "Close" ++ [0])
       else Some (out_headers cl));
  l ← dap_http_header_add l (txt "Server" ++ [0]) (server_name ++ [0]);
  Some (set_out_headers cl l).

Definition is_none (st : dap_http_client_state) : bool := match st with DAP_HTTP_CLIENT_STATE_NONE => true | _ => false end.

Definition dap_http_client_write s : option http :=
  cl ← match the_proc s with
       | None => Some (client s)
       | Some p =>
         match out_headers (client s) with
         | [] =>
           '(generate, cl) ←
             match headers_write_callback p with
             | Some f => if is_none (state_read (client s)) then Some (true, client s)
                         else '(b, cl) ← f (client s); Some (negb b, cl)
             | None => Some (true, client s)
             end;
           if generate : bool then dap_http_client_out_header_generate cl else Some cl
         | _ => Some (set_reply (client s) (out_content_length (client s)) Http_Status_OK (reply_reason_phrase (client s)))
         end
       end;
  l ← dap_http_header_add (out_headers cl) (txt "Date" ++ [0]) (date ++ [0]);
  Some (HttpState (url_procs s) (set_out_headers cl []) (proc s) (buf_in s) (buf_in_size s) (ready_to_read s)
          (responses s ++ [Response (reply_status_code cl) l])).

Definition s_report_error_and_restart s (error_code : Z) : option http :=
  let cl := set_state (client s) DAP_HTTP_CLIENT_STATE_NONE in
  let cl := set_reply cl (out_content_length cl) error_code (reply_reason_phrase cl) in
  dap_http_client_write (HttpState (url_procs s) cl (proc s) (buf_in s) 0 false (responses s)).

(** The length of the first line with its end, if it is a line. *)
Definition find_line (m : list Z) (n : nat) : option (option nat) :=
  match memchr m LF n with
  | None => Some None
  | Some O => None
  | Some (S p) => c ← m !! p; Some (if c =? CR then Some (S (S p)) else None)
  end.

(** The reply that is kept for the URL, or the constructor of the processor. *)
Definition take_cache s (u : list Z) : option http :=
  p ← url_procs s !! u;
  match cache p with
  | Some c =>
    if (ts_expire c =? 0) || (now <=? ts_expire c) then
      l ← dap_http_headers_dup (c_headers c);
      let cl := set_out_headers (client s) l in
      phrase ← match response_phrase c with
               | None => Some (reply_reason_phrase cl)
               | Some t => let n := (length (reply_reason_phrase cl) - 1)%nat in
                           mem_write (reply_reason_phrase cl) 0 (take n (t ++ replicate n 0))
               end;
      Some (set_client s (set_reply cl (body_size c) (response_code c) phrase))
    else
      Some (set_procs s (<[u := UrlProc None (new_callback p) (headers_read_callback p) (headers_write_callback p)
                                  (data_read_callback p) (access_callback p)]> (url_procs s)))
  | None => match new_callback p with Some f => cl ← f (client s); Some (set_client s cl) | None => Some s end
  end.

(** The URL without its last part selects the processor; the last part stays as
    the path.  [false] when there is none. *)
Definition find_proc s : option (bool * http) :=
  let cl := client s in
  '(l_ret, path) ← z_dirname (url_path cl) (url_path_len cl);
  u ← c_text path;
  let l_found := url_procs s !! u in
  let s := set_proc s (match l_found with Some _ => Some u | None => None end) in
  path ← (if l_ret =? 0 then Some path else mem_write path l_ret [47]);
  l_cp ← z_basename path (url_path_len cl);
  t ← c_text (drop l_cp path);
  path ← mem_write path 0 (t ++ [0]);
  Some (match l_found with Some _ => true | None => false end, set_client s (set_url cl path (url_path_len cl))).

(** The start state: [true] goes on with the headers, [false] leaves the switch;
    the number is [l_len]. *)
Definition read_start s (l_len : nat) : option (bool * nat * http) :=
  let fail s c n := s ← s_report_error_and_restart s c; Some (false, n, s) in
  if banned then fail s Http_Status_Forbidden l_len else
  if (buf_in_size s <? HTTP_SZ_MINSTARTLINE)%nat then fail s Http_Status_BadRequest l_len else
  l_peol ← find_line (buf_in s) (buf_in_size s);
  match l_peol with
  | None => fail s Http_Status_BadRequest l_len
  | Some n =>
    '(rc, cl) ← s_http_start_line_parse (client s) (buf_in s) n;
    let s := set_client s cl in
    if rc <? 0 then fail s Http_Status_BadRequest n else
    '(found, s) ← find_proc (shrink_buf_in s n);
    if negb found then fail s Http_Status_NotFound n else
    let s := set_client s (set_state (client s) DAP_HTTP_CLIENT_STATE_HEADERS) in
    u ← proc s;
    s ← take_cache s u;
    Some (true, n, s)
  end.

(** The end of the headers: [true] goes on to consume the line. *)
Definition headers_over s : option (bool * http) :=
  p ← the_proc s;
  s ← match access_callback p with
      | Some f => if f (client s) then Some s else s_report_error_and_restart s Http_Status_Unauthorized
      | None => Some s
      end;
  s ← match cache p, headers_read_callback p with
      | None, Some f => '(cl, r) ← f (client s); Some (set_readable (set_client s cl) r)
      | _, _ => Some s
      end;
  if negb (in_content_length (client s) =? 0)
  then Some (true, set_client s (set_state (client s) DAP_HTTP_CLIENT_STATE_DATA))
  else match cache p with
       | Some _ => s ← dap_http_client_write s; Some (true, s)
       | None => Some (false, set_buf_size s 0)
       end.

(** A header line; without [l_len] when the function returns to wait for more. *)
Definition read_headers (a_alloc : bool) s (l_len : nat) : option (option nat * http) :=
  let fail c n := s ← s_report_error_and_restart s c; Some (Some n, s) in
  if (buf_in_size s <? 2)%nat then fail Http_Status_BadRequest l_len else
  l_peol ← find_line (buf_in s) (buf_in_size s);
  match l_peol with
  | None => if (buf_in_size s <? HTTP_SZ_HTLINE)%nat then Some (None, s) else fail Http_Status_BadRequest l_len
  | Some n =>
    '(rc, cl) ← dap_http_header_parse a_alloc (client s) (buf_in s) n;
    let s := set_client s cl in
    if rc =? 1 then
      '(go, s) ← headers_over s;
      Some (Some n, if go : bool then shrink_buf_in s n else s)
    else Some (Some n, shrink_buf_in s n)
  end.

Definition read_data s (l_len : nat) : option (nat * http) :=
  p ← the_proc s;
  match cache p, data_read_callback p with
  | None, Some f =>
    '(l_len, cl, r) ← f (client s) (take (buf_in_size s) (buf_in s)) l_len;
    Some (l_len, shrink_buf_in (set_readable (set_client s cl) r) l_len)
  | _, _ => s ← dap_http_client_write (set_buf_size s 0); Some (l_len, s)
  end.

(** One pass of the loop. *)
Definition read_once (a_alloc : bool) s (l_len : nat) : option (option nat * http) :=
  match state_read (client s) with
  | DAP_HTTP_CLIENT_STATE_START =>
    '(go, n, s) ← read_start s l_len;
    if go : bool then read_headers a_alloc s n else Some (Some n, s)
  | DAP_HTTP_CLIENT_STATE_HEADERS => read_headers a_alloc s l_len
  | DAP_HTTP_CLIENT_STATE_DATA => '(n, s) ← read_data s l_len; Some (Some n, s)
  | DAP_HTTP_CLIENT_STATE_NONE => Some (Some l_len, set_buf_size s 0)
  end.

(** [fuel] counts the passes that are left before the loop is broken. *)
Fixpoint read_loop (fuel : nat) (a_alloc : bool) s (l_len : nat) : option http :=
  '(r, s) ← read_once a_alloc s l_len;
  match r with
  | None => Some s
  | Some n =>
    match fuel with
    | O => s_report_error_and_restart s Http_Status_LoopDetected
    | S fuel =>
      if negb (buf_in_size s =? 0)%nat && negb (n =? 0)%nat then read_loop fuel a_alloc s n else Some s
    end
  end.

Definition dap_http_client_read (a_alloc : bool) s : option http := read_loop 1000 a_alloc s 0.
End Reader.
