(* ===== verification/HttpRun.v ===== *)
(** * Reading HTTP requests: theory of [HttpParse] and [Http]

    Positions in the buffer are described by what follows them ([run_over_at]);
    the passes of the reader are composed over the lines of a request. *)

From S2P Require Import Prelude HttpParse Http.
From Stdlib Require Import Ascii String.
From stdpp Require Import list gmap.
Local Open Scope Z_scope.

(** ** Scans *)

Lemma lookup_pos {A} (pre m : list A) p : (pre ++ m) !! (length pre + p)%nat = m !! p.
Proof. rewrite lookup_app_r by lia. f_equal. lia. Qed.

Lemma run_over_app f pre l post : forall n, Forall (λ c, f c = true) l -> (length l <= n)%nat ->
  run_over f (pre ++ l ++ post) (length pre) n = run_over f ((pre ++ l) ++ post) (length (pre ++ l)) (n - length l).
Proof.
  revert pre. induction l as [|c l IH]; intros pre n Hl Hn; [by rewrite app_nil_r, Nat.sub_0_r|].
  apply Forall_cons in Hl as [Hc Hl]. destruct n as [|n]; [cbn in Hn; lia|]. cbn [run_over].
  rewrite <- (Nat.add_0_r (length pre)) at 1. rewrite lookup_pos. cbn [app lookup list_lookup mbind option_bind]. rewrite Hc.
  specialize (IH (pre ++ [c]) n Hl). rewrite length_app in IH. cbn [length] in IH. rewrite Nat.add_1_r, <- !app_assoc in IH. cbn [app] in IH.
  rewrite IH by (cbn in Hn; lia). rewrite <- app_assoc. cbn [app length]. rewrite !length_app. cbn [length]. f_equal; lia.
Qed.

(** A run that ends at a byte that stops it. *)
Lemma run_over_stop f pre l x post n : Forall (λ c, f c = true) l -> f x = false -> (length l <= n)%nat ->
  run_over f (pre ++ l ++ x :: post) (length pre) n = Some ((length pre + length l)%nat, (n - length l)%nat).
Proof.
  intros Hl Hx Hn. rewrite run_over_app by done. destruct (n - length l)%nat; cbn [run_over];
    rewrite <- (Nat.add_0_r (length (pre ++ l))) at 1; rewrite lookup_pos; cbn [lookup list_lookup mbind option_bind];
    rewrite Hx, length_app; done.
Qed.

Lemma memchr_app l c post n : c ∉ l -> (length l < n)%nat -> memchr (l ++ c :: post) c n = Some (length l).
Proof.
  revert n. induction l as [|x l IH]; intros [|n] Hl Hn; cbn in Hn; try lia.
  - cbn [app memchr]. by rewrite Z.eqb_refl.
  - apply not_elem_of_cons in Hl as [Hx Hl]. cbn [app memchr length]. rewrite (proj2 (Z.eqb_neq x c)) by done.
    rewrite IH by (done || lia). done.
Qed.

Lemma find_line_app x post n : LF ∉ x -> (length x + 2 <= n)%nat ->
  find_line (x ++ CRLF ++ post) n = Some (Some (length x + 2)%nat).
Proof.
  intros Hx Hn. unfold find_line. replace (x ++ CRLF ++ post) with ((x ++ [CR]) ++ LF :: post) by (by rewrite <- app_assoc).
  rewrite memchr_app; [| | rewrite length_app; cbn; lia].
  - rewrite length_app, Nat.add_1_r. rewrite <- app_assoc, <- (Nat.add_0_r (length x)), lookup_pos. cbn [app lookup list_lookup mbind option_bind].
    rewrite Z.eqb_refl. do 2 f_equal. lia.
  - rewrite elem_of_app. intros [H|H%list_elem_of_singleton]; [done | discriminate H].
Qed.

(** ** Header lines *)

(** The line of a header; [sp] are the spaces before the value. *)
Definition header_line (n sp v : list Z) : list Z := n ++ [58] ++ sp ++ v ++ CRLF.

Definition field (h : dap_http_header) : list Z * list Z :=
  (take (Z.to_nat (namesz h)) (name h), take (Z.to_nat (valuesz h)) (value h)).

Record arrays_ok (cl : dap_http_client) : Prop := {
  ar_action : length (action cl) = 32%nat;
  ar_url : length (url_path cl) = 1024%nat;
  ar_query : length (in_query_string cl) = 1024%nat;
  ar_type : length (in_content_type cl) = 256%nat;
  ar_cookie : length (in_cookie cl) = 1024%nat;
}.

(** A header the parser takes: sizes, and a number for [Content-Length]. *)
Record header_ok (n v : list Z) : Prop := {
  ho_name : 58 ∉ n /\ (length n < 256)%nat;
  ho_value : v <> [] /\ (length v < 1024)%nat /\ isspace (default 32 (head v)) = false;
  ho_type : find_field n = Some HTTP_FLD_CONTENT_TYPE -> (length v < 256)%nat;
  ho_len : find_field n = Some HTTP_FLD_CONTENT_LEN -> is_Some (atoi (take 31 v ++ [0]));
}.

(** What [Content-Length] becomes with a header. *)
Definition with_length (len : Z) (f : list Z * list Z) : Z :=
  match find_field f.1 with
  | Some HTTP_FLD_CONTENT_LEN => wrap 64 (default 0 (atoi (take 31 f.2 ++ [0])))
  | _ => len
  end.

Lemma mem_write_start {A} (a d : list A) : (length d <= length a)%nat -> mem_write a 0 d = Some (d ++ drop (length d) a).
Proof. intros Hl. change 0 with (Z.of_nat 0). rewrite mem_write_nat by lia. unfold splice. by rewrite take_0. Qed.

Lemma copy_text_ok a d : (length d < length a)%nat -> exists a', copy_text a d = Some a' /\ take (length d) a' = d /\ length a' = length a.
Proof.
  intros Hl. unfold copy_text. rewrite mem_write_start by lia. cbn [mbind option_bind].
  destruct (drop (length d) a) as [|x r] eqn:E; [apply (f_equal length) in E; rewrite length_drop in E; cbn in E; lia|].
  change (d ++ x :: r) with (d ++ [x] ++ r). rewrite (mem_write_app d [x] [0] r) by done. eexists. split; [done|].
  rewrite take_app_length. split; [done|]. apply (f_equal length) in E. rewrite length_drop in E. rewrite !length_app. cbn in *. lia.
Qed.

Lemma strncase_total m s n : (n <= length m)%nat -> is_Some (strncase_eq m s n).
Proof.
  revert m s. induction n as [|n IH]; intros [|a m] s Hn; cbn in *; try (by eexists); [lia|].
  destruct (negb _); [by eexists|]. destruct (a =? 0); [by eexists|]. apply IH. lia.
Qed.

Lemma mem_read_at {A} (m : list A) p n : (p + n <= length m)%nat -> mem_read m (Z.of_nat p) (Z.of_nat n) = Some (take n (drop p m)).
Proof. apply mem_read_nat. Qed.

Lemma take_field_ok cl n v pre post : arrays_ok cl -> header_ok n v ->
  exists ka ct ck, take_field cl (find_field n) (pre ++ v ++ post) (length pre) (length v)
    = Some (set_fields cl ka ct ck (with_length (in_content_length cl) (n, v))) /\ length ct = 256%nat /\ length ck = 1024%nat.
Proof.
  intros [_ _ _ At Ac] [_ (_ & Hv & _) Ht Hn]. unfold with_length. cbn [fst snd].
  assert (Hr : forall k, (k <= length v)%nat -> mem_read (pre ++ v ++ post) (Z.of_nat (length pre)) (Z.of_nat k) = Some (take k v)).
  { intros k Hk. rewrite mem_read_at by (rewrite !length_app; lia). rewrite drop_app_length. by rewrite take_app_le. }
  destruct (find_field n) as [[]|]; unfold take_field.
  - rewrite drop_app_length. destruct (strncase_total (v ++ post) (txt "Keep-Alive") (length v)) as [b ->]; [rewrite length_app; lia|].
    by exists b, (in_content_type cl), (in_cookie cl).
  - specialize (Ht eq_refl). rewrite At, (Hr (min (length v) (256 - 1))) by lia. cbn [mbind option_bind].
    rewrite take_ge by lia. destruct (copy_text_ok (in_content_type cl) v) as (a & E & _ & La); [lia|].
    unfold copy_text in E. destruct (mem_write (in_content_type cl) 0 v) as [a0|]; [|discriminate E].
    cbn [mbind option_bind] in *. rewrite E. cbn [mbind option_bind]. exists (keep_alive cl), a, (in_cookie cl). split_and!; [done | lia | done].
  - destruct (Hn eq_refl) as [x Ex]. rewrite (Hr (min (length v) 31)) by lia. cbn [mbind option_bind].
    replace (take (min (length v) 31) v) with (take 31 v).
    + rewrite Ex. cbn [mbind option_bind default id]. by exists (keep_alive cl), (in_content_type cl), (in_cookie cl).
    + destruct (decide (length v <= 31)%nat); [by rewrite !take_ge by lia | by rewrite Nat.min_r by lia].
  - rewrite Ac, (Hr (min (length v) (1024 - 1))) by lia. cbn [mbind option_bind].
    rewrite take_ge by lia. destruct (copy_text_ok (in_cookie cl) v) as (a & E & _ & La); [lia|].
    unfold copy_text in E. destruct (mem_write (in_cookie cl) 0 v) as [a0|]; [|discriminate E].
    cbn [mbind option_bind] in *. rewrite E. cbn [mbind option_bind]. exists (keep_alive cl), (in_content_type cl), a. split_and!; [done | done | lia].
  - exists (keep_alive cl), (in_content_type cl), (in_cookie cl). split_and!; [by destruct cl | done | done].
Qed.

Lemma length_header_line n sp v : length (header_line n sp v) = (length n + 1 + length sp + length v + 2)%nat.
Proof. unfold header_line. rewrite !length_app. cbn. lia. Qed.

(** The scan of a line. *)
Lemma header_scan cl n sp v post : 58 ∉ n -> v <> [] -> isspace (default 32 (head v)) = false -> Forall (λ c, isspace c = true) sp ->
  dap_http_header_parse true cl (header_line n sp v ++ post) (length (header_line n sp v))
  = (cl ← take_field cl (find_field n) ((n ++ 58 :: sp) ++ v ++ CRLF ++ post) (length (n ++ 58 :: sp)) (length v);
     l_name ← copy_text (zeros SZ_FIELD_NAME) n;
     l_value ← copy_text (zeros SZ_FIELD_VALUE) v;
     Some (0, set_in_headers cl (in_headers cl ++ [HttpHeader l_name l_value (Z.of_nat (length n)) (Z.of_nat (length v))]))).
Proof.
  intros Hc Hv0 Hs Hsp. unfold dap_http_header_parse.
  rewrite length_header_line. assert (0 < length v)%nat by (destruct v; [done | cbn; lia]).
  replace (_ =? 2)%nat with false by (symmetry; apply Nat.eqb_neq; lia). cbn [andb].
  replace (_ <? 4)%nat with false by (symmetry; apply Nat.ltb_ge; lia).
  set (m := header_line n sp v ++ post).
  assert (Em : m = n ++ 58 :: sp ++ v ++ CRLF ++ post) by (unfold m, header_line; by rewrite <- !app_assoc).
  assert (Ech : memchr m 58 (length n + 1 + length sp + length v + 2) = Some (length n)) by (rewrite Em; apply memchr_app; [done | lia]).
  rewrite Ech. assert (Er : mem_read m 0 (Z.of_nat (length n)) = Some n) by (rewrite Em; apply (mem_read_app [] n)).
  rewrite Er. cbn [mbind option_bind].
  assert (Ep : run_over isspace m (length n + 1) (length n + 1 + length sp + length v + 2 - (length n + 1))
    = Some ((length n + 1 + length sp)%nat, (length v + 2)%nat)).
  { destruct v as [|x v]; [done|]. cbn [default head] in Hs. change (length (x :: v)) with (S (length v)).
    pose proof (run_over_stop isspace (n ++ [58]) sp x (v ++ CRLF ++ post) (length n + 1 + length sp + S (length v) + 2 - (length n + 1))) as E.
    rewrite Em. rewrite <- app_assoc, length_app in E. cbn [length app] in E. cbn [app]. rewrite E by (done || lia).
    do 2 f_equal. lia. }
  rewrite Ep. cbn [mbind option_bind]. rewrite (proj2 (Nat.ltb_lt 2 (length v + 2))) by lia. rewrite Nat.add_sub.
  assert (Em' : m = (n ++ 58 :: sp) ++ v ++ CRLF ++ post) by (rewrite Em, <- app_assoc; done).
  replace (length n + 1 + length sp)%nat with (length (n ++ 58 :: sp)) by (rewrite length_app; cbn; lia). rewrite Em'.
  destruct (take_field _ _ _ _ _) as [cl'|]; [|done]. cbn [mbind option_bind negb].
  destruct (copy_text (zeros SZ_FIELD_NAME) n) as [a|]; [|done]. cbn [mbind option_bind]. by rewrite mem_read_app.
Qed.

Lemma header_parsed cl n sp v post : arrays_ok cl -> header_ok n v -> Forall (λ c, isspace c = true) sp ->
  exists ka ct ck h, dap_http_header_parse true cl (header_line n sp v ++ post) (length (header_line n sp v))
    = Some (0, set_in_headers (set_fields cl ka ct ck (with_length (in_content_length cl) (n, v))) (in_headers cl ++ [h])) /\
    field h = (n, v) /\ (Z.to_nat (namesz h) <= length (name h))%nat /\ length ct = 256%nat /\ length ck = 1024%nat.
Proof.
  intros Ha Hh Hsp. pose proof Hh as [[Hc Hn] (Hv0 & Hv & Hs) _ _]. rewrite header_scan by done.
  destruct (take_field_ok cl n v (n ++ 58 :: sp) (CRLF ++ post) Ha Hh) as (ka & ct & ck & -> & Lt & Lc). cbn [mbind option_bind].
  destruct (copy_text_ok (zeros SZ_FIELD_NAME) n) as (a & -> & Ta & _); [unfold zeros, SZ_FIELD_NAME; rewrite length_replicate; lia|].
  cbn [mbind option_bind].
  destruct (copy_text_ok (zeros SZ_FIELD_VALUE) v) as (b & -> & Tb & _); [unfold zeros, SZ_FIELD_VALUE; rewrite length_replicate; lia|].
  cbn [mbind option_bind]. eexists ka, ct, ck, _. split; [done|]. split; [|split; [|done]].
  - unfold field. cbn [name value namesz valuesz]. by rewrite !Nat2Z.id, Ta, Tb.
  - cbn [name namesz]. rewrite Nat2Z.id. apply (f_equal length) in Ta. rewrite length_take in Ta. lia.
Qed.

Lemma copy_text_long a d : (length a <= length d)%nat -> copy_text a d = None.
Proof.
  intros Hl. unfold copy_text. destruct (mem_write a 0 d) as [a'|] eqn:E; [|done]. cbn [mbind option_bind].
  unfold mem_write in E. destruct (Z.leb_spec (0 + Z.of_nat (length d)) (Z.of_nat (length a))) as [C|C]; [|discriminate E].
  cbn [Z.leb Z.compare andb] in E. injection E as <-. unfold mem_write.
  rewrite length_splice by (change (Z.to_nat 0) with 0%nat; lia). rewrite (proj2 (Z.leb_gt _ (Z.of_nat (length a)))) by (cbn [length]; lia).
  by rewrite andb_false_r.
Qed.

(** A name as long as its array. *)
Lemma long_name cl n sp v post : 58 ∉ n -> (256 <= length n)%nat -> v <> [] -> isspace (default 32 (head v)) = false ->
  Forall (λ c, isspace c = true) sp -> dap_http_header_parse true cl (header_line n sp v ++ post) (length (header_line n sp v)) = None.
Proof.
  intros Hc Hn Hv0 Hs Hsp. rewrite header_scan by done.
  assert (Ef : find_field n = None).
  { unfold find_field, ht_fields. rewrite !filter_cons. cbn [snd].
    do 4 (rewrite decide_False by (intros <-; cbn in Hn; lia)). done. }
  rewrite Ef. cbn [take_field mbind option_bind]. rewrite (copy_text_long (zeros SZ_FIELD_NAME) n) by (unfold zeros, SZ_FIELD_NAME; by rewrite length_replicate).
  reflexivity.
Qed.

(** ** Start lines *)

(** Positions are described by what follows them. *)
Lemma drop_next {A} (m l r : list A) p : drop p m = l ++ r -> drop (p + length l) m = r.
Proof. intros E. by rewrite <- drop_drop, E, drop_app_length. Qed.

Lemma drop_split {A} (m r : list A) p : drop p m = r -> (p <= length m)%nat -> m = take p m ++ r /\ length (take p m) = p.
Proof. intros <- Hp. by rewrite take_drop, length_take, Nat.min_l. Qed.

Lemma drop_inside {A} (m r : list A) x p : drop p m = x :: r -> (p <= length m)%nat.
Proof. intros E. apply (f_equal length) in E. rewrite length_drop in E. cbn in E. lia. Qed.

Lemma lookup_at {A} (m r : list A) x p : drop p m = x :: r -> m !! p = Some x.
Proof. intros E. rewrite <- (Nat.add_0_r p), <- lookup_drop, E. done. Qed.

Lemma run_over_at f m p l x r n : drop p m = l ++ x :: r -> Forall (λ c, f c = true) l -> f x = false -> (length l <= n)%nat ->
  run_over f m p n = Some ((p + length l)%nat, (n - length l)%nat).
Proof.
  intros E Hl Hx Hn. assert (Hp : (p <= length m)%nat) by (apply (f_equal length) in E; rewrite length_drop, length_app in E; cbn in E; lia).
  destruct (drop_split m _ p E Hp) as [Em Ep]. revert Em Ep. generalize (take p m). intros pre Em <-.
  rewrite Em. by rewrite run_over_stop.
Qed.

Lemma mem_read_from (m d r : list Z) p : drop p m = d ++ r -> (p <= length m)%nat -> mem_read m (Z.of_nat p) (Z.of_nat (length d)) = Some d.
Proof.
  intros E Hp. destruct (drop_split m _ p E Hp) as [Em Ep]. revert Em Ep. generalize (take p m). intros pre Em <-.
  rewrite Em. apply mem_read_app.
Qed.

Definition query_part (q : option (list Z)) : list Z := match q with Some q => 63 :: q | None => [] end.

Definition start_line (meth path : list Z) (q : option (list Z)) (minor : Z) : list Z :=
  meth ++ [32] ++ path ++ query_part q ++ [32] ++ txt "HTTP/1." ++ [minor] ++ CRLF.

(** An array with a text at its start. *)
Definition put (a d : list Z) : list Z := d ++ 0 :: drop (S (length d)) a.

Lemma length_put a d : (length d < length a)%nat -> length (put a d) = length a.
Proof. intros Hl. unfold put. rewrite length_app. cbn [length]. rewrite length_drop. lia. Qed.

Lemma save_part_at a m d r p : drop p m = d ++ r -> (p <= length m)%nat -> (length d < length a)%nat ->
  save_part a m p (p + length d) = Some (put a d, Z.of_nat (length d)).
Proof.
  intros E Hp Hl. unfold save_part. rewrite Nat.add_comm, Nat.add_sub, Nat.min_l by lia.
  rewrite (mem_read_from _ _ _ _ E Hp). cbn [mbind option_bind]. rewrite mem_write_start by lia. cbn [mbind option_bind].
  destruct (drop (length d) a) as [|x r'] eqn:Ea; [apply (f_equal length) in Ea; rewrite length_drop in Ea; cbn in Ea; lia|].
  change (d ++ x :: r') with (d ++ [x] ++ r'). rewrite (mem_write_app d [x] [0] r') by done. cbn [mbind option_bind].
  unfold put. do 3 f_equal. change ([0] ++ r') with (0 :: r'). f_equal. replace (S (length d)) with (length d + 1)%nat by lia.
  rewrite <- drop_drop, Ea. done.
Qed.

(** A method, a path and a query. *)
Record target_ok (meth path : list Z) (q : option (list Z)) : Prop := {
  to_meth : meth <> [] /\ (length meth < 32)%nat /\ Forall (λ c, isspace c = false) meth;
  to_path : head path = Some 47 /\ (length path < 1024)%nat /\ Forall (λ c, isspace c = false /\ c <> 63) path;
  to_query : (length (default [] q) < 1024)%nat /\ Forall (λ c, isspace c = false) (default [] q);
}.

Definition started cl (meth path : list Z) (q : option (list Z)) : dap_http_client :=
  let cl := set_url (set_action cl (put (action cl) meth) (Z.of_nat (length meth))) (put (url_path cl) path) (Z.of_nat (length path)) in
  match q with Some q => set_query cl (put (in_query_string cl) q) (Z.of_nat (length q)) | None => cl end.

(** The version at the end of the line. *)
Lemma version_parsed m p n minor r : drop p m = 32 :: txt "HTTP/1." ++ minor :: r -> (0 < n)%nat ->
  exists k, run_over isspace m p n = Some ((p + 1)%nat, k) /\ mem_read m (Z.of_nat (p + 1)) 7 = Some (txt "HTTP/1.").
Proof.
  intros E Hn. exists (n - 1)%nat. split.
  - apply (run_over_at isspace m p [32] 72 (tail (txt "HTTP/1.") ++ minor :: r) n); [done | by repeat constructor | done | cbn; lia].
  - pose proof (drop_inside _ _ _ _ E) as Hp. pose proof (drop_next m [32] _ p E) as E1. cbn [length] in E1.
    apply (mem_read_from m (txt "HTTP/1.") _ (p + 1) E1). apply (drop_inside _ _ _ _ E1).
Qed.

Lemma start_parsed cl meth path q minor post : arrays_ok cl -> target_ok meth path q ->
  s_http_start_line_parse cl (start_line meth path q minor ++ post) (length (start_line meth path q minor))
  = Some (0, started cl meth path q).
Proof.
  intros [Aa Au Aq _ _] [(Hm0 & Hm & Hms) (Hp0 & Hp & Hps) (Hq & Hqs)].
  assert (Hlen : length (start_line meth path q minor) = (length meth + 1 + length path + length (query_part q) + 11)%nat).
  { unfold start_line. rewrite !length_app. cbn. lia. }
  set (m := start_line meth path q minor ++ post). set (len := length (start_line meth path q minor)) in *.
  set (tl := 32 :: txt "HTTP/1." ++ minor :: CRLF ++ post).
  assert (D0 : drop 0 m = meth ++ 32 :: path ++ query_part q ++ tl).
  { rewrite drop_0. unfold m, start_line, tl. by rewrite <- !app_assoc. }
  pose proof (drop_next _ _ _ _ D0) as D1. rewrite Nat.add_0_l in D1. pose proof (drop_next _ [32] _ _ D1) as D2. cbn [length] in D2.
  pose proof (drop_next _ _ _ _ D2) as D3. pose proof (drop_inside _ _ _ _ D1) as H1.
  assert (H2 : (length meth + 1 <= length m)%nat) by (destruct path; [done|]; apply (drop_inside _ _ _ _ D2)).
  unfold s_http_start_line_parse. assert (0 < length meth)%nat by (destruct meth; [done | cbn; lia]).
  replace (len =? 2)%nat with false by (symmetry; apply Nat.eqb_neq; lia). cbn [andb].
  assert (E0 : run_over isspace m 0 len = Some (0%nat, len)).
  { destruct meth as [|x meth']; [done|]. apply Forall_cons in Hms as [Hx _].
    rewrite (run_over_at isspace m 0 [] x _ len D0) by (done || cbn; lia). cbn [length]. do 2 f_equal; lia. }
  rewrite E0. cbn [mbind option_bind].
  rewrite (run_over_at (λ c, negb (isspace c)) m 0 meth 32 _ len D0); [|eapply Forall_impl; [exact Hms|]; by intros c -> | done | lia].
  cbn [mbind option_bind]. rewrite Nat.sub_0_r, (save_part_at _ _ _ _ _ D0) by lia. cbn [mbind option_bind]. rewrite Nat.add_0_l.
  rewrite (run_over_at _ m (length meth) [32] 47 (tail path ++ query_part q ++ tl)); cycle 1.
  { rewrite D1. destruct path; [done|]. by injection Hp0 as ->. }
  { repeat constructor. cbn. by rewrite (proj2 (Nat.eqb_neq _ 0)) by lia. }
  { done. }
  { cbn. lia. }
  cbn [mbind option_bind length].
  assert (E4 : exists x r, query_part q ++ tl = x :: r /\ (x = 63 \/ isspace x = true) /\ (x =? 63) = bool_decide (is_Some q)).
  { destruct q as [q|]; [exists 63, (q ++ tl) | exists 32, (tail tl)]; (split; [done|]); split; auto. }
  destruct E4 as (x & r & Er & Hx & Ex). rewrite Er in D2, D3.
  rewrite (run_over_at _ m (length meth + 1) path x r _ D2); cycle 1.
  { eapply Forall_impl; [exact Hps|]. intros c [-> Hc]. by rewrite (proj2 (Z.eqb_neq c 63)). }
  { destruct Hx as [->| ->]; [done|]. apply andb_false_r. }
  { lia. }
  cbn [mbind option_bind url_path set_action]. rewrite (save_part_at _ _ _ _ _ D2) by lia. cbn [mbind option_bind].
  rewrite (lookup_at _ _ _ _ D3). cbn [mbind option_bind]. rewrite Ex. unfold started. destruct q as [q|].
  - rewrite bool_decide_true by (by eexists). injection Er as <- <-. cbn [default id query_part length] in *.
    pose proof (drop_next _ [63] _ _ D3) as D4. cbn [length] in D4. rewrite Nat.add_1_r in D4.
    pose proof (drop_next _ _ _ _ D4) as D5. pose proof (drop_inside _ _ _ _ D3) as H3.
    assert (H4 : (S (length meth + 1 + length path) <= length m)%nat).
    { pose proof (lookup_lt_Some _ _ _ (lookup_at _ _ _ _ D3)). lia. }
    rewrite (run_over_at _ m _ q 32 _ _ D4); [|eapply Forall_impl; [exact Hqs|]; by intros c -> | done | lia].
    cbn [mbind option_bind in_query_string set_url set_action]. rewrite (save_part_at _ _ _ _ _ D4) by lia. cbn [mbind option_bind].
    destruct (version_parsed m _ (len - length meth - 1 - length path - length q) minor (CRLF ++ post) D5) as (k & -> & Ev); [lia|].
    cbn [mbind option_bind]. rewrite Ev. cbn [mbind option_bind]. by rewrite bool_decide_true.
  - rewrite bool_decide_false by (by intros [? ?]). cbn [mbind option_bind]. cbn [query_part app] in Er. cbn [length query_part] in Hlen.
    rewrite <- Er in D3.
    destruct (version_parsed m _ (len - length meth - 1 - length path) minor (CRLF ++ post) D3) as (k & -> & Ev); [lia|].
    cbn [mbind option_bind]. rewrite Ev. cbn [mbind option_bind]. by rewrite bool_decide_true.
Qed.

(** ** Paths *)

Lemma c_text_put a d : Forall (λ c, c <> 0) d -> c_text (put a d) = Some d.
Proof. apply c_text_app. Qed.

Lemma last_slash_found dir base r k : dir <> [] -> 47 ∉ base -> (k <= length base)%nat ->
  last_slash (dir ++ 47 :: base ++ r) (length dir + k) = Some (length dir).
Proof.
  intros Hd Hb. induction k as [|k IH]; intros Hk.
  - rewrite Nat.add_0_r. destruct (length dir) as [|q] eqn:E; [by destruct dir|]. cbn [last_slash].
    rewrite <- E, <- (Nat.add_0_r (length dir)), lookup_pos. cbn. done.
  - rewrite Nat.add_succ_r. cbn [last_slash]. rewrite <- Nat.add_succ_r, lookup_pos. change ((47 :: base ++ r) !! S k) with ((base ++ r) !! k).
    destruct (lookup_lt_is_Some_2 base k) as [c Ec]; [lia|]. rewrite lookup_app_l, Ec by lia. cbn [mbind option_bind].
    rewrite (proj2 (Z.eqb_neq c 47)); [apply IH; lia|]. intros ->. by apply Hb, list_elem_of_lookup_2 with k.
Qed.

Record path_ok (dir base : list Z) : Prop := {
  po_dir : dir <> [] /\ Forall (λ c, c <> 0) dir;
  po_base : 47 ∉ base /\ Forall (λ c, c <> 0) base;
  po_len : (length dir + 1 + length base < 1024)%nat;
}.

Lemma find_proc_ok s dir base p (a : list Z) : path_ok dir base -> length a = 1024%nat ->
  url_path (client s) = put a (dir ++ 47 :: base) -> url_path_len (client s) = Z.of_nat (length (dir ++ 47 :: base)) ->
  url_procs s !! dir = Some p ->
  exists u, find_proc s = Some (true, set_client (set_proc s (Some dir)) (set_url (client s) u (url_path_len (client s)))) /\
    c_text u = Some base /\ length u = 1024%nat.
Proof.
  intros [(Hd & Hdz) (Hb & Hbz) Hl] La Eu El Ep. set (r := 0 :: drop (S (length (dir ++ 47 :: base))) a).
  assert (Eu' : url_path (client s) = dir ++ [47] ++ base ++ r) by (rewrite Eu; unfold put; by rewrite <- app_assoc).
  assert (Ll : length (dir ++ 47 :: base) = (length dir + 1 + length base)%nat) by (rewrite length_app; cbn; lia).
  assert (0 < length dir)%nat by (destruct dir; [done | cbn; lia]).
  assert (Els : last_slash (dir ++ [47] ++ base ++ r) (Z.to_nat (Z.of_nat (length (dir ++ 47 :: base))) - 1) = Some (length dir)).
  { rewrite Nat2Z.id, Ll. replace (length dir + 1 + length base - 1)%nat with (length dir + length base)%nat by lia.
    apply (last_slash_found dir base r); [done | done | lia]. }
  unfold find_proc, z_dirname, z_basename, path_len. rewrite El, Eu'.
  rewrite (proj2 (Z.eqb_neq _ 0)) by (rewrite Ll; lia). cbn [mbind option_bind].
  rewrite (proj2 (Z.ltb_ge _ 2)) by (rewrite Ll; lia). rewrite Els. cbn [mbind option_bind].
  rewrite (proj2 (Nat.eqb_neq _ 0)) by lia. rewrite (mem_write_app dir [47] [0]) by done. cbn [mbind option_bind].
  rewrite (c_text_app dir (base ++ r) Hdz : c_text (dir ++ [0] ++ base ++ r) = Some dir). cbn [mbind option_bind]. rewrite Ep, (proj2 (Z.eqb_neq _ 0)) by lia.
  rewrite (mem_write_app dir [0] [47]) by done. cbn [mbind option_bind].
  rewrite Els. cbn [mbind option_bind]. rewrite (proj2 (Nat.eqb_neq _ 0)) by lia.
  replace (drop (S (length dir)) (dir ++ [47] ++ base ++ r)) with (base ++ r); cycle 1.
  { rewrite app_assoc, drop_app_length'; [done|]. rewrite length_app. cbn. lia. }
  rewrite (c_text_app base _ Hbz : c_text (base ++ r) = Some base). cbn [mbind option_bind].
  assert (Lu : length (dir ++ [47] ++ base ++ r) = 1024%nat).
  { assert (Lr : length r = (1024 - (length dir + 1 + length base))%nat) by (unfold r; cbn [length]; rewrite length_drop, Ll; lia).
    rewrite !length_app, Lr. cbn [length]. lia. }
  rewrite mem_write_start by (rewrite Lu, length_app; cbn; lia). cbn [mbind option_bind].
  eexists. split; [reflexivity|]. split; [rewrite <- app_assoc; by apply c_text_app|].
  rewrite length_app, length_drop, Lu, length_app. cbn [length]. lia.
Qed.

(** ** The input buffer *)

(** What was received and not consumed. *)
Definition input s (l : list Z) : Prop := exists st, buf_in s = l ++ st /\ buf_in_size s = length l.

(** The parts of the state the buffer does not touch. *)
Definition same_but_buf s s' : Prop :=
  client s' = client s /\ proc s' = proc s /\ url_procs s' = url_procs s /\ responses s' = responses s /\
  ready_to_read s' = ready_to_read s.

Lemma shrink_input s x y : input s (x ++ y) -> input (shrink_buf_in s (length x)) y /\ same_but_buf s (shrink_buf_in s (length x)).
Proof.
  intros (st & Eb & Es). unfold shrink_buf_in. rewrite length_app in Es.
  destruct (Nat.eqb_spec (length x) 0) as [E0|Hx]; cbn [orb].
  { destruct x; [|done]. split; [by exists st | done]. }
  destruct (Nat.eqb_spec (buf_in_size s) 0); [lia|]. destruct (Nat.ltb_spec (length x) (buf_in_size s)) as [Hlt|Hge].
  - split; [|done]. cbn [buf_in buf_in_size]. replace (buf_in_size s - length x)%nat with (length y) by lia.
    eexists. split; [|done]. cbn [buf_in]. rewrite Eb, <- app_assoc, drop_app_length, take_app_length. reflexivity.
  - split; [|done]. destruct y; [|cbn in *; lia]. by exists (buf_in s).
Qed.

(** ** Passes of the loop *)

Record header_item := Hdr { hn : list Z; hs : list Z; hv : list Z }.

Definition line_of (h : header_item) : list Z := header_line (hn h) (hs h) (hv h).
Definition pair_of (h : header_item) : list Z * list Z := (hn h, hv h).

Definition hdr_ok (h : header_item) : Prop :=
  header_ok (hn h) (hv h) /\ Forall (λ c, isspace c = true) (hs h) /\ LF ∉ hn h ++ 58 :: hs h ++ hv h.

(** The name of a header lies inside its array. *)
Definition name_ok (h : dap_http_header) : Prop := (Z.to_nat (namesz h) <= length (name h))%nat.

(** The client after header lines. *)
Record headers_taken (l : list header_item) cl cl' : Prop := {
  ht_action : action cl' = action cl;
  ht_url : url_path cl' = url_path cl;
  ht_query : in_query_string cl' = in_query_string cl;
  ht_state : state_read cl' = state_read cl;
  ht_out : out_headers cl' = out_headers cl;
  ht_fields : field <$> in_headers cl' = (field <$> in_headers cl) ++ (pair_of <$> l);
  ht_length : in_content_length cl' = foldl with_length (in_content_length cl) (pair_of <$> l);
  ht_arrays : arrays_ok cl -> arrays_ok cl';
  ht_names : Forall name_ok (in_headers cl) -> Forall name_ok (in_headers cl');
  ht_inheritor : http_inheritor cl' = http_inheritor cl;
}.

Lemma taken_refl cl : headers_taken [] cl cl.
Proof. split; try done. by rewrite app_nil_r. Qed.

Lemma taken_trans l1 l2 c1 c2 c3 : headers_taken l1 c1 c2 -> headers_taken l2 c2 c3 -> headers_taken (l1 ++ l2) c1 c3.
Proof.
  intros [] []. split; try congruence.
  - rewrite fmap_app, app_assoc. congruence.
  - rewrite fmap_app, foldl_app. congruence.
  - auto.
  - auto.
Qed.

Definition same_env s s' : Prop :=
  proc s' = proc s /\ url_procs s' = url_procs s /\ responses s' = responses s /\ ready_to_read s' = ready_to_read s.

Lemma input_line s x rest : input s (x ++ CRLF ++ rest) -> LF ∉ x ->
  exists st, buf_in s = x ++ CRLF ++ st /\ (2 <= buf_in_size s)%nat /\ find_line (buf_in s) (buf_in_size s) = Some (Some (length x + 2)%nat).
Proof.
  intros (st & Eb & Es) Hx. exists (rest ++ st). rewrite !length_app in Es. cbn [length CRLF] in Es. split_and!.
  - by rewrite Eb, <- !app_assoc.
  - lia.
  - rewrite Eb, <- !app_assoc. apply find_line_app; [done | lia].
Qed.

Section Passes.
Context (server_name date : list Z) (print_size time_to_str_rfc822 : Z -> list Z) (now : Z) (banned : bool).
Abbreviation RH := (read_headers server_name date print_size time_to_str_rfc822).
Abbreviation RL := (read_loop server_name date print_size time_to_str_rfc822 now banned).

Lemma header_pass s h rest l : arrays_ok (client s) -> hdr_ok h -> input s (line_of h ++ rest) ->
  exists s', RH true s l = Some (Some (length (line_of h)), s') /\ input s' rest /\ headers_taken [h] (client s) (client s') /\ same_env s s'.
Proof.
  intros Ha (Hok & Hsp & Hlf) Hin. set (x := hn h ++ 58 :: hs h ++ hv h).
  assert (Ex : line_of h = x ++ CRLF) by (unfold line_of, header_line, x; rewrite <- !app_assoc; cbn [app]; by rewrite <- app_assoc).
  pose proof Hin as Hin'. rewrite Ex, <- app_assoc in Hin'. destruct (input_line s x rest Hin' Hlf) as (st & Eb & Hsz & Ef).
  unfold read_headers. rewrite (proj2 (Nat.ltb_ge _ 2)) by done. rewrite Ef. cbn [mbind option_bind].
  replace (length x + 2)%nat with (length (line_of h)) by (rewrite Ex, length_app; done).
  replace (buf_in s) with (line_of h ++ st) by (by rewrite Ex, <- app_assoc).
  destruct (header_parsed (client s) (hn h) (hs h) (hv h) st Ha Hok Hsp) as (ka & ct & ck & hd & E & Eh & Hnm & Lt & Lc).
  fold (line_of h) in E. rewrite E. cbn [mbind option_bind]. change (0 =? 1) with false.
  set (cl := set_in_headers _ _). destruct (shrink_input (set_client s cl) (line_of h) rest) as [Hi (E1 & E2 & E3 & E4 & E5)].
  { destruct Hin as (st' & ? & ?). by exists st'. }
  eexists. split; [reflexivity|]. split; [done|]. rewrite E1. split; [|done]. split; try done.
  - cbn. by rewrite fmap_app, list_fmap_singleton, Eh.
  - intros []. by split.
  - intros Hf. cbn. apply Forall_app. split; [done|]. by repeat constructor.
Qed.

Lemma line_of_ne h : length (line_of h) <> 0%nat.
Proof. unfold line_of. rewrite length_header_line. lia. Qed.

Lemma header_loop s h rest l fuel : state_read (client s) = DAP_HTTP_CLIENT_STATE_HEADERS -> arrays_ok (client s) -> hdr_ok h ->
  input s (line_of h ++ rest) -> rest <> [] ->
  exists s' l', RL (S fuel) true s l = RL fuel true s' l' /\ input s' rest /\ headers_taken [h] (client s) (client s') /\ same_env s s'.
Proof.
  intros Hst Ha Hh Hin Hne. destruct (header_pass s h rest l Ha Hh Hin) as (s' & E & Hi & Ht & He).
  exists s', (length (line_of h)). split; [|done]. cbn [read_loop]. unfold read_once. rewrite Hst, E. cbn [mbind option_bind].
  destruct Hi as (st & _ & ->). rewrite (proj2 (Nat.eqb_neq (length rest) 0)) by (by destruct rest).
  by rewrite (proj2 (Nat.eqb_neq _ 0)) by apply line_of_ne.
Qed.

Lemma headers_loop l : forall s rest n fuel, state_read (client s) = DAP_HTTP_CLIENT_STATE_HEADERS -> arrays_ok (client s) ->
  Forall hdr_ok l -> input s (concat (line_of <$> l) ++ rest) -> rest <> [] ->
  exists s' n', RL (length l + fuel) true s n = RL fuel true s' n' /\ input s' rest /\ headers_taken l (client s) (client s') /\ same_env s s'.
Proof.
  induction l as [|h l IH]; intros s rest n fuel Hst Ha Hl Hin Hne.
  { exists s, n. split_and!; [done | done | apply taken_refl | done]. }
  apply Forall_cons in Hl as [Hh Hl]. rewrite fmap_cons in Hin. cbn [concat] in Hin. rewrite <- app_assoc in Hin. cbn [length Nat.add].
  destruct (header_loop s h (concat (line_of <$> l) ++ rest) n (length l + fuel) Hst Ha Hh Hin) as (s1 & n1 & -> & Hi1 & Ht1 & He1).
  { by intros [_ ?]%app_nil. }
  destruct (IH s1 rest n1 fuel) as (s2 & n2 & -> & Hi2 & Ht2 & He2); [by rewrite (ht_state _ _ _ Ht1) | by apply Ht1 | done | done | done|].
  exists s2, n2. split_and!; [done | done | by apply (taken_trans [h] l (client s) (client s1)) | unfold same_env in *; naive_solver congruence].
Qed.

(** ** Processors *)

(** What the reader has of the request. *)
Definition request_of cl :=
  (action cl, url_path cl, in_query_string cl, (action_len cl, url_path_len cl, in_query_string_len cl),
   (keep_alive cl, state_read cl), (in_headers cl, in_content_type cl, in_cookie cl, in_content_length cl)).

Definition call_new p cl : option dap_http_client := match new_callback p with Some f => f cl | None => Some cl end.
Definition call_headers_read p cl : option (dap_http_client * bool) :=
  match headers_read_callback p with Some f => f cl | None => Some (cl, true) end.

(** A processor that reads: without a cached reply it lets the client in, its
    constructor sets up what it keeps for a client ([I]) and its callbacks, which need
    that, leave the request alone and take the data that arrived. *)
Record reader_proc (I : option dap_http_simple -> Prop) (p : dap_http_url_proc) : Prop := {
  rp_cache : cache p = None;
  rp_access : match access_callback p with Some f => forall cl, f cl = true | None => True end;
  rp_new cl : exists cl', call_new p cl = Some cl' /\ request_of cl' = request_of cl /\ I (http_inheritor cl');
  rp_headers cl : I (http_inheritor cl) -> Forall name_ok (in_headers cl) ->
    exists cl' r, call_headers_read p cl = Some (cl', r) /\ request_of cl' = request_of cl;
  rp_data f cl cl' r body : data_read_callback p = Some f -> I (http_inheritor cl) -> Forall name_ok (in_headers cl) ->
    call_headers_read p cl = Some (cl', r) -> 0 < in_content_length cl < 2 ^ 64 -> body <> [] -> Z.of_nat (length body) < 2 ^ 31 ->
    exists n cl2 r2, f (set_state cl' DAP_HTTP_CLIENT_STATE_DATA) body 2%nat = Some (n, cl2, r2) /\ (length body <= n)%nat;
}.

(** The end of the headers. *)
Lemma end_pass I s body l p : reader_proc I p -> the_proc s = Some p -> input s (CRLF ++ body) ->
  I (http_inheritor (client s)) -> Forall name_ok (in_headers (client s)) ->
  exists s' cl r, RH true s l = Some (Some 2%nat, s') /\ call_headers_read p (client s) = Some (cl, r) /\
    request_of cl = request_of (client s) /\
    proc s' = proc s /\ url_procs s' = url_procs s /\ responses s' = responses s /\ ready_to_read s' = ready_to_read s && r /\
    if in_content_length (client s) =? 0 then client s' = cl /\ input s' []
    else client s' = set_state cl DAP_HTTP_CLIENT_STATE_DATA /\ input s' body.
Proof.
  intros Hp Ep Hin HI Hnm. pose proof (rp_cache _ _ Hp) as Pc. pose proof (rp_access _ _ Hp) as Pa.
  destruct (rp_headers _ _ Hp (client s) HI Hnm) as (cl & r & Eh & Er).
  destruct (input_line s [] body Hin) as (st & Eb & Hsz & Ef); [by intros ?%elem_of_nil|].
  unfold read_headers. rewrite (proj2 (Nat.ltb_ge _ 2)) by done. rewrite Ef. cbn [mbind option_bind length Nat.add].
  unfold dap_http_header_parse. rewrite Eb. cbn [app]. rewrite bool_decide_true by done. cbn [Nat.eqb andb mbind option_bind].
  change (1 =? 1) with true. cbn iota. unfold headers_over.
  replace (the_proc (set_client s (client s))) with (Some p) by (by rewrite <- Ep; destruct s). cbn [mbind option_bind].
  replace (set_client s (client s)) with s by (by destruct s).
  replace (match access_callback p with Some f => if f (client s) then Some s else _ | None => Some s end) with (Some s);
    [|by destruct (access_callback p) as [f|]; [rewrite Pa|]].
  cbn [mbind option_bind]. rewrite Pc. set (s1 := set_readable (set_client s cl) r).
  assert (Es1 : match headers_read_callback p with
    | Some f => '(cl, r) ← f (client s); Some (set_readable (set_client s cl) r) | None => Some s end = Some s1).
  { unfold call_headers_read in Eh. destruct (headers_read_callback p) as [f|]; [by rewrite Eh|].
    injection Eh as <- <-. unfold s1, set_readable. destruct s. cbn. by rewrite andb_true_r. }
  rewrite Es1. cbn [mbind option_bind]. change (client s1) with cl.
  assert (El : in_content_length cl = in_content_length (client s)) by (unfold request_of in Er; by simplify_eq).
  rewrite El. destruct (shrink_input (set_client s1 (set_state cl DAP_HTTP_CLIENT_STATE_DATA)) CRLF body)
    as [Hi (E1 & E2 & E3 & E4 & E5)]; [destruct Hin as (st' & ? & ?); by exists st'|].
  destruct (Z.eqb_spec (in_content_length (client s)) 0); cbn [negb mbind option_bind]; eexists _, cl, r;
    (split; [reflexivity|]); split_and!; try done. by exists (buf_in s).
Qed.
End Passes.

(** ** Whole requests *)

Record request_ok (meth dir base : list Z) (q : option (list Z)) (minor : Z) (l : list header_item) : Prop := {
  rq_target : target_ok meth (dir ++ 47 :: base) q;
  rq_path : path_ok dir base;
  rq_texts : Forall (λ c, c <> 0) meth /\ Forall (λ c, c <> 0) (default [] q);
  rq_minor : minor <> LF;
  rq_headers : Forall hdr_ok l;
}.

Lemma no_lf l : Forall (λ c, isspace c = false) l -> LF ∉ l.
Proof. intros Hl Hin. by pose proof (proj1 (Forall_forall _ _) Hl LF Hin). Qed.

Lemma start_line_shape meth path q minor : target_ok meth path q -> minor <> LF ->
  exists x, start_line meth path q minor = x ++ CRLF /\ LF ∉ x /\ (8 <= length (start_line meth path q minor))%nat.
Proof.
  intros [(_ & _ & Hm) (_ & _ & Hp) (_ & Hq)] Hmin.
  exists (meth ++ [32] ++ path ++ query_part q ++ [32] ++ txt "HTTP/1." ++ [minor]). split_and!.
  - unfold start_line. by rewrite <- !app_assoc.
  - assert (LF ∉ query_part q) by (destruct q as [q|]; cbn; [apply not_elem_of_cons; split; [done | by apply no_lf] | apply not_elem_of_nil]).
    assert (LF ∉ path) by (apply no_lf; eapply Forall_impl; [exact Hp|]; by intros c []).
    assert (LF ∉ txt "HTTP/1.") by (apply no_lf; by repeat constructor). pose proof (no_lf _ Hm).
    rewrite !not_elem_of_app, !list_elem_of_singleton. split_and!; done || congruence.
  - unfold start_line. rewrite !length_app. cbn. lia.
Qed.

Section Requests.
Context (server_name date : list Z) (print_size time_to_str_rfc822 : Z -> list Z) (now : Z).
Abbreviation RL := (read_loop server_name date print_size time_to_str_rfc822 now false).

Lemma start_pass I s meth dir base q minor l rest p n : state_read (client s) = DAP_HTTP_CLIENT_STATE_START -> arrays_ok (client s) ->
  request_ok meth dir base q minor l -> url_procs s !! dir = Some p -> reader_proc I p ->
  input s (start_line meth (dir ++ 47 :: base) q minor ++ rest) ->
  exists s1 u, read_start server_name date print_size time_to_str_rfc822 now false s n
      = Some (true, length (start_line meth (dir ++ 47 :: base) q minor), s1) /\
    input s1 rest /\ proc s1 = Some dir /\ url_procs s1 = url_procs s /\ responses s1 = responses s /\
    ready_to_read s1 = ready_to_read s /\ c_text u = Some base /\ length u = 1024%nat /\ I (http_inheritor (client s1)) /\
    request_of (client s1) = request_of (set_state (set_url (started (client s) meth (dir ++ 47 :: base) q) u (Z.of_nat (length (dir ++ 47 :: base)))) DAP_HTTP_CLIENT_STATE_HEADERS).
Proof.
  intros Hst Ha [Ht Hp _ Hmin _] Ep Hpl Hin. set (path := dir ++ 47 :: base) in *. set (ln := start_line meth path q minor) in *.
  destruct (start_line_shape meth path q minor Ht Hmin) as (x & Ex & Hx & Hl8). fold ln in Ex, Hl8.
  pose proof Hin as Hin'. rewrite Ex, <- app_assoc in Hin'. destruct (input_line s x rest Hin' Hx) as (st & Eb & Hsz & Ef).
  unfold read_start. rewrite (proj2 (Nat.ltb_ge _ _)); cycle 1.
  { destruct Hin as (? & _ & ->). rewrite length_app. unfold HTTP_SZ_MINSTARTLINE. lia. }
  rewrite Ef. cbn [mbind option_bind]. replace (length x + 2)%nat with (length ln) by (rewrite Ex, length_app; done).
  replace (buf_in s) with (ln ++ st) by (by rewrite Ex, <- app_assoc). 
  pose proof (start_parsed (client s) meth path q minor st Ha Ht) as Esp. fold ln in Esp. rewrite Esp.
  cbn [mbind option_bind]. change (0 <? 0) with false. cbn iota. set (cl1 := started (client s) meth path q).
  destruct (shrink_input (set_client s cl1) ln rest) as [Hi (E1 & E2 & E3 & E4 & E5)].
  { destruct Hin as (st' & ? & ?). by exists st'. }
  set (s0 := shrink_buf_in (set_client s cl1) (length ln)) in *. cbn [client set_client] in E1.
  destruct (find_proc_ok s0 dir base p (url_path (client s)) Hp) as (u & -> & Hu & Lu).
  { apply Ha. }
  { rewrite E1. unfold cl1, started. by destruct q. }
  { rewrite E1. unfold cl1, started. by destruct q. }
  { by rewrite E3. }
  cbn [mbind option_bind negb]. cbn [proc set_client set_proc client mbind option_bind]. unfold take_cache.
  cbn [url_procs set_client set_proc mbind option_bind]. rewrite E3. cbn [url_procs set_client]. rewrite Ep. cbn [mbind option_bind].
  rewrite (rp_cache _ _ Hpl). set (s2 := set_client _ (set_state _ _)).
  destruct (rp_new _ _ Hpl (client s2)) as (cl2 & En & Er & HI).
  assert (Es2 : match new_callback p with Some f => cl ← f (client s2); Some (set_client s2 cl) | None => Some s2 end = Some (set_client s2 cl2)).
  { unfold call_new in En. destruct (new_callback p) as [f|]; [by rewrite En|]. injection En as <-. done. }
  rewrite Es2. cbn [mbind option_bind]. eexists _, u. split; [reflexivity|].
  cbn [proc set_client set_proc url_procs responses client ready_to_read s2]. rewrite E3, E4, E5. split_and!; try done.
  rewrite Er. unfold s2. cbn [client set_client set_proc]. rewrite E1. unfold cl1, started. by destruct q.
Qed.

(** The loop after the start line is the loop at the headers. *)
Lemma start_loop s s1 n l fuel : state_read (client s) = DAP_HTTP_CLIENT_STATE_START ->
  state_read (client s1) = DAP_HTTP_CLIENT_STATE_HEADERS ->
  read_start server_name date print_size time_to_str_rfc822 now false s l = Some (true, n, s1) -> RL fuel true s l = RL fuel true s1 n.
Proof. intros E0 E1 Es. destruct fuel; cbn [read_loop]; unfold read_once; rewrite E0, E1, Es; done. Qed.

Lemma arrays_started cl meth path q u n st : arrays_ok cl -> target_ok meth path q -> length u = 1024%nat ->
  arrays_ok (set_state (set_url (started cl meth path q) u n) st).
Proof.
  intros [Aa Au Aq At Ac] [(_ & Hm & _) (_ & Hp & _) (Hq & _)] Lu. unfold started.
  destruct q as [q|]; split; cbn; try done; rewrite length_put; cbn in *; lia.
Qed.

(** The data goes to the callback of the processor, which takes all of it. *)
Lemma data_pass s body p f fuel n m cl r : state_read (client s) = DAP_HTTP_CLIENT_STATE_DATA -> the_proc s = Some p -> cache p = None ->
  data_read_callback p = Some f -> input s body -> body <> [] -> f (client s) body n = Some (m, cl, r) -> (length body <= m)%nat ->
  RL (S fuel) true s n = Some (set_buf_size (set_readable (set_client s cl) r) 0).
Proof.
  intros Est Epr Hc Ef (st & Eb & Hz) Hne Hf Hfb. assert (0 < length body)%nat by (destruct body; [done | cbn; lia]).
  cbn [read_loop]. unfold read_once. rewrite Est. unfold read_data. rewrite Epr. cbn [mbind option_bind]. rewrite Hc, Ef, Eb, Hz, take_app_length.
  rewrite Hf. cbn [mbind option_bind].
  assert (Esh : shrink_buf_in (set_readable (set_client s cl) r) m = set_buf_size (set_readable (set_client s cl) r) 0).
  { unfold shrink_buf_in. cbn [buf_in_size set_client set_readable]. rewrite Hz, (proj2 (Nat.eqb_neq m 0)), (proj2 (Nat.eqb_neq (length body) 0)) by lia.
    cbn [orb]. by rewrite (proj2 (Nat.ltb_ge _ _)) by lia. }
  rewrite Esh. done.
Qed.
End Requests.

Lemma new_arrays : arrays_ok dap_http_client_new.
Proof. by split. Qed.

Lemma with_length_fits l n : fits 64 n -> fits 64 (foldl with_length n l).
Proof.
  revert n. induction l as [|x l IH]; intros n Hn; [done|]. cbn [foldl]. apply IH. unfold with_length.
  repeat case_match; try done. apply wrap_fits. lia.
Qed.

Lemma arrays_same cl cl' : request_of cl' = request_of cl -> arrays_ok cl -> arrays_ok cl'.
Proof. unfold request_of. intros E []. simplify_eq. split; congruence. Qed.

(** The request has been taken apart into [cl], the processor has seen its headers,
    and its data was given away: the client after that, and whether its socket is
    still read. *)
Definition data_given (p : dap_http_url_proc) (f : dap_http_client -> list Z -> nat -> option (nat * dap_http_client * bool))
    cl (body : list Z) : option (dap_http_client * bool) :=
  '(cl1, r) ← call_headers_read p cl;
  if in_content_length cl =? 0 then Some (cl1, r) else
  let cl1 := set_state cl1 DAP_HTTP_CLIENT_STATE_DATA in
  if bool_decide (body = []) then Some (cl1, r) else
  '(_, cl2, r2) ← f cl1 body 2%nat; Some (cl2, r && r2).

Record request_taken (I : option dap_http_simple -> Prop) (p : dap_http_url_proc) (s s' : http) (cl : dap_http_client)
    (meth dir base : list Z) (q : option (list Z)) (l : list header_item) (body : list Z)
    (f : dap_http_client -> list Z -> nat -> option (nat * dap_http_client * bool)) : Prop := {
  rt_responses : responses s' = responses s;
  rt_proc : proc s' = Some dir;
  rt_empty : buf_in_size s' = 0%nat;
  rt_action : c_text (action cl) = Some meth;
  rt_path : c_text (url_path cl) = Some base;
  rt_query : c_text (in_query_string cl) = Some (default [] q);
  rt_fields : field <$> in_headers cl = pair_of <$> l;
  rt_names : Forall name_ok (in_headers cl);
  rt_length : in_content_length cl = foldl with_length 0 (pair_of <$> l);
  rt_inheritor : I (http_inheritor cl);
  rt_client : exists r, data_given p f cl body = Some (client s', r) /\ ready_to_read s' = ready_to_read s && r;
}.

Lemma request_read server_name date print_size time_to_str_rfc822 now I s meth dir base q minor l body p f :
  client s = dap_http_client_new -> url_procs s !! dir = Some p -> reader_proc I p ->
  data_read_callback p = Some f -> Z.of_nat (length body) < 2 ^ 31 ->
  request_ok meth dir base q minor l -> (length l <= 998)%nat ->
  input s (start_line meth (dir ++ 47 :: base) q minor ++ concat (line_of <$> l) ++ CRLF ++ body) ->
  exists cl s', dap_http_client_read server_name date print_size time_to_str_rfc822 now false true s = Some s' /\
    request_taken I p s s' cl meth dir base q l body f.
Proof.
  intros Ec Ep Hpl Ef Hlb Hrq Hl Hin. unfold dap_http_client_read.
  destruct (start_pass server_name date print_size time_to_str_rfc822 now I s meth dir base q minor l (concat (line_of <$> l) ++ CRLF ++ body) p 0%nat) as
    (s1 & u & Es & Hi1 & Hp1 & Hu1 & Hr1 & Hy1 & Eu & Lu & HI1 & Ec1); [by rewrite Ec | rewrite Ec; apply new_arrays | done | done | done | exact Hin|].
  assert (Est1 : state_read (client s1) = DAP_HTTP_CLIENT_STATE_HEADERS) by (unfold request_of in Ec1; by simplify_eq).
  rewrite (start_loop _ _ _ _ _ _ _ _ _ 1000 ltac:(by rewrite Ec) Est1 Es).
  assert (Ha1 : arrays_ok (client s1)).
  { eapply arrays_same; [exact Ec1|]. rewrite Ec. apply arrays_started; [apply new_arrays | apply Hrq | done]. }
  replace 1000%nat with (length l + (1000 - length l))%nat by lia.
  destruct (headers_loop server_name date print_size time_to_str_rfc822 now false l s1 (CRLF ++ body) (length (start_line meth (dir ++ 47 :: base) q minor)) (1000 - length l))
    as (s2 & n2 & -> & Hi2 & Ht2 & (Hp2 & Hu2 & Hr2 & Hy2)); [done | done | apply Hrq | done | done|].
  assert (Epr : the_proc s2 = Some p) by (unfold the_proc; rewrite Hp2, Hp1, Hu2, Hu1; exact Ep).
  assert (Hfresh : action (client s1) = put (zeros 32) meth /\ url_path (client s1) = u /\
    in_query_string (client s1) = match q with Some q => put (zeros 1024) q | None => zeros 1024 end /\
    in_headers (client s1) = [] /\ in_content_length (client s1) = 0).
  { unfold request_of in Ec1. rewrite Ec in Ec1. destruct q; cbn in Ec1; simplify_eq; split_and!; done. }
  destruct Hfresh as (K1 & K2 & K3 & K4 & K5).
  assert (Hnm2 : Forall name_ok (in_headers (client s2))) by (apply (ht_names _ _ _ Ht2); by rewrite K4).
  assert (HI2 : I (http_inheritor (client s2))) by (by rewrite (ht_inheritor _ _ _ Ht2)).
  destruct (end_pass server_name date print_size time_to_str_rfc822 I s2 body n2 p Hpl Epr Hi2 HI2 Hnm2)
    as (s3 & cl3 & r3 & E3 & Eh3 & Er3 & Hp3 & Hu3 & Hr3 & Hy3 & Hend).
  destruct (1000 - length l)%nat as [|[|k]] eqn:Ek; [lia | lia|]. cbn [read_loop].
  assert (Eo : read_once server_name date print_size time_to_str_rfc822 now false true s2 n2 = Some (Some 2%nat, s3))
    by (unfold read_once; rewrite (ht_state _ _ _ Ht2), Est1; exact E3).
  rewrite Eo. cbn [mbind option_bind]. exists (client s2).
  assert (Hcl : c_text (action (client s2)) = Some meth /\ c_text (url_path (client s2)) = Some base /\
    c_text (in_query_string (client s2)) = Some (default [] q) /\ field <$> in_headers (client s2) = pair_of <$> l /\
    in_content_length (client s2) = foldl with_length 0 (pair_of <$> l)).
  { rewrite (ht_action _ _ _ Ht2), (ht_url _ _ _ Ht2), (ht_query _ _ _ Ht2), (ht_fields _ _ _ Ht2), (ht_length _ _ _ Ht2), K1, K2, K3, K4, K5.
    destruct Hrq as [_ _ [Hz1 Hz2] _ _]. destruct q as [q|]; cbn in *; split_and!; try done; by apply c_text_put. }
  destruct Hcl as (J1 & J2 & J3 & J4 & J5).
  assert (Hdone : forall s', responses s' = responses s3 -> proc s' = proc s3 -> buf_in_size s' = 0%nat ->
    (exists r, data_given p f (client s2) body = Some (client s', r) /\ ready_to_read s' = ready_to_read s2 && r) ->
    request_taken I p s s' (client s2) meth dir base q l body f).
  { intros s' D1 D2 D3 (r & D4 & D5). split; try done; [congruence | congruence|]. exists r. split; [done|]. congruence. }
  unfold data_given in Hdone. rewrite Eh3 in Hdone. cbn [mbind option_bind] in Hdone.
  destruct (Z.eqb_spec (in_content_length (client s2)) 0) as [E0|Hn0].
  - destruct Hend as [Ec3 (st3 & _ & Hz3)]. rewrite Hz3. cbn [Nat.eqb negb andb length]. exists s3. split; [done|].
    apply Hdone; try done. exists r3. by rewrite Ec3.
  - destruct Hend as [Ec3 Hi3]. destruct (decide (body = [])) as [->|Hne].
    + destruct Hi3 as (st3 & _ & Hz3). rewrite Hz3. cbn [Nat.eqb negb andb length]. exists s3. split; [done|].
      apply Hdone; try done. exists r3. by rewrite bool_decide_true, Ec3 by done.
    + pose proof Hi3 as (st3 & Eb3 & Hz3). rewrite Hz3, (proj2 (Nat.eqb_neq (length body) 0)) by (by destruct body). cbn [negb andb Nat.eqb].
      assert (Epr3 : the_proc s3 = Some p) by (unfold the_proc; rewrite Hp3, Hu3; exact Epr).
      assert (Hfl : 0 < in_content_length (client s2) < 2 ^ 64).
      { pose proof (with_length_fits (pair_of <$> l) 0 ltac:(unfold fits; lia)) as Hw. rewrite <- J5 in Hw. unfold fits in Hw. lia. }
      destruct (rp_data _ _ Hpl f (client s2) cl3 r3 body Ef HI2 Hnm2 Eh3 Hfl Hne Hlb) as (m & cl4 & r4 & Ed4 & Hm4).
      pose proof (data_pass server_name date print_size time_to_str_rfc822 now s3 body p f k 2%nat m cl4 r4) as Ed. cbn [read_loop] in Ed.
      rewrite Ed; [| by rewrite Ec3 | done | apply Hpl | done | done | done | by rewrite Ec3 | done].
      eexists. split; [reflexivity|]. apply Hdone; try done. exists (r3 && r4).
      rewrite bool_decide_false, Ed4 by done. split; [done|]. cbn. rewrite Hy3. by rewrite andb_assoc.
Qed.

(** C10: Reading a request.  A request that arrives whole at a new client (a
    method, a path, a query, header lines within the sizes of the fields, the
    empty line and less than 2 GiB of data) is read in one call, when the processor of its
    directory is one that reads ([reader_proc]; the simple processors, which the
    program registers for key exchange, stream control and remote commands, are:
    [HttpSimple.simple_reads]): method, file and query are kept as texts, the headers
    are those of the request in order, [Content-Length] is its last value; the
    processor, set up for this client, is called with the headers and then with all
    the data, if there is some; nothing is left in the buffer and nothing is answered
    yet. *)
Theorem http_request_read server_name date print_size time_to_str_rfc822 now I s meth dir base q minor l body p f :
  client s = dap_http_client_new -> url_procs s !! dir = Some p -> reader_proc I p ->
  data_read_callback p = Some f -> Z.of_nat (length body) < 2 ^ 31 ->
  request_ok meth dir base q minor l -> (length l <= 998)%nat ->
  input s (start_line meth (dir ++ 47 :: base) q minor ++ concat (line_of <$> l) ++ CRLF ++ body) ->
  exists cl s' r, dap_http_client_read server_name date print_size time_to_str_rfc822 now false true s = Some s' /\
    responses s' = responses s /\ proc s' = Some dir /\ buf_in_size s' = 0%nat /\
    c_text (action cl) = Some meth /\ c_text (url_path cl) = Some base /\ c_text (in_query_string cl) = Some (default [] q) /\
    field <$> in_headers cl = pair_of <$> l /\ in_content_length cl = foldl with_length 0 (pair_of <$> l) /\
    Forall name_ok (in_headers cl) /\ I (http_inheritor cl) /\
    data_given p f cl body = Some (client s', r) /\ ready_to_read s' = ready_to_read s && r.
Proof.
  intros Ec Ep Hpl Ef Hf Hrq Hl Hin.
  destruct (request_read server_name date print_size time_to_str_rfc822 now I s meth dir base q minor l body p f) as (cl & s' & E & [? ? ? ? ? ? ? ? ? ? (r & ? & ?)]); [done..|].
  exists cl, s', r. split; [exact E|]. by split_and!.
Qed.

(** A request with a body of two bytes. *)
Definition length_header : header_item := Hdr (txt "Content-Length") [32] (txt "2").
Definition sample_request : list Z :=
  start_line (txt "POST") (txt "/a" ++ 47 :: txt "b") (Some (txt "x=1")) 49 ++ concat (line_of <$> [length_header]) ++ CRLF ++ txt "hi".

Lemma sample_ok : request_ok (txt "POST") (txt "/a") (txt "b") (Some (txt "x=1")) 49 [length_header].
Proof.
  split.
  - split; split_and!; cbn; try lia; try done; repeat constructor; done.
  - split; [split; [done | by repeat constructor] | split; [apply (bool_decide_unpack _); reflexivity | by repeat constructor] | cbn; lia].
  - split; repeat constructor; done.
  - done.
  - constructor; [|constructor]. split_and!; [|by repeat constructor | apply (bool_decide_unpack _); reflexivity].
    split; [split; [apply (bool_decide_unpack _); reflexivity | cbn; lia] | split_and!; [done | cbn; lia | done] | done | intros _; by eexists].
Qed.

(** ** Departures *)

(** A header line whose name does not fit its array of 256 bytes makes the
    reader write past it: nothing compares the length of a name with the size of
    the field it is copied to. *)
Theorem http_header_name_overflow server_name date print_size time_to_str_rfc822 now s n sp v rest :
  state_read (client s) = DAP_HTTP_CLIENT_STATE_HEADERS -> arrays_ok (client s) ->
  58 ∉ n -> (256 <= length n)%nat -> LF ∉ n ++ 58 :: sp ++ v -> Forall (λ c, isspace c = true) sp ->
  v <> [] -> isspace (default 32 (head v)) = false ->
  input s (header_line n sp v ++ rest) ->
  dap_http_client_read server_name date print_size time_to_str_rfc822 now false true s = None.
Proof.
  intros Hst Ha Hc Hn Hlf Hsp Hv0 Hs Hin. unfold dap_http_client_read. cbn [read_loop].
  assert (E : read_once server_name date print_size time_to_str_rfc822 now false true s 0 = None); [|by rewrite E].
  set (x := n ++ 58 :: sp ++ v) in *.
  assert (Ex : header_line n sp v = x ++ CRLF) by (unfold header_line, x; rewrite <- !app_assoc; cbn [app]; by rewrite <- app_assoc).
  rewrite Ex, <- app_assoc in Hin. destruct (input_line s x rest Hin Hlf) as (st & Eb & Hsz & Ef).
  unfold read_once. rewrite Hst. unfold read_headers. rewrite (proj2 (Nat.ltb_ge _ 2)) by done. rewrite Ef. cbn [mbind option_bind].
  replace (buf_in s) with (header_line n sp v ++ st) by (by rewrite Ex, <- app_assoc).
  replace (length x + 2)%nat with (length (header_line n sp v)) by (rewrite Ex, length_app; done).
  rewrite long_name by done. done.
Qed.

Lemma http_header_name_overflow_witness :
  dap_http_client_read [] [] (λ _, []) (λ _, []) 0 false true
    (HttpState ∅ (set_state dap_http_client_new DAP_HTTP_CLIENT_STATE_HEADERS) None (header_line (replicate 256 65) [32] [66])
       (length (header_line (replicate 256 65) [32] [66])) true []) = None.
Proof.
  apply (http_header_name_overflow [] [] (λ _, []) (λ _, []) 0 _ (replicate 256 65) [32] [66] []).
  - done.
  - by split.
  - apply (bool_decide_unpack _). reflexivity.
  - cbn. lia.
  - apply (bool_decide_unpack _). reflexivity.
  - by repeat constructor.
  - done.
  - done.
  - exists []. by rewrite !app_nil_r.
Defined.

(** A client that the processor refuses is answered with an error, and its
    request is handed to the processor all the same. *)
Lemma denied_request_served server_name date print_size time_to_str_rfc822 s s1 p f g cl r : the_proc s = Some p ->
  access_callback p = Some f -> f (client s) = false -> cache p = None -> headers_read_callback p = Some g ->
  s_report_error_and_restart server_name date print_size time_to_str_rfc822 s Http_Status_Unauthorized = Some s1 ->
  g (client s1) = Some (cl, r) -> exists b s', headers_over server_name date print_size time_to_str_rfc822 s = Some (b, s') /\
    responses s' = responses s1 /\
    (client s' = cl \/ client s' = set_state cl DAP_HTTP_CLIENT_STATE_DATA).
Proof.
  intros Ep Ea Ef Hc Hh Es Eg. unfold headers_over. rewrite Ep. cbn [mbind option_bind]. rewrite Ea, Ef, Es. cbn [mbind option_bind].
  rewrite Hc, Hh, Eg. cbn [mbind option_bind client set_client set_readable]. destruct (_ =? 0); cbn [negb]; eexists _, _; (split; [reflexivity|]); auto.
Qed.

(** A line feed at the start of the buffer makes the reader look at the byte
    before it. *)
Lemma line_feed_underread m n : find_line (LF :: m) (S n) = None.
Proof. unfold find_line. cbn [memchr]. by rewrite Z.eqb_refl. Qed.
