(* ===== verification/EncKey.v ===== *)
(** * Keys: storing and restoring them (crypto/src/dap_enc_key.c)

    The packing of several arguments into one block (core/src/dap_common.c),
    and the part of the key component that every scheme shares: creating a key
    of a type, serializing its parts through the callbacks of that type,
    serializing the whole key and reading it back.

    A key part in memory is a plain block ([Raw]) or an object of a scheme
    ([Obj]), which only the callbacks of the scheme can look into.  The table
    [s_callbacks] is a parameter of this file; [key_ok] and [schemes_safe] state
    what the common code relies on, and the files on the schemes prove it.  [None] is
    undefined behaviour: reading outside a block or outside the table. *)

From S2P Require Import Prelude.
Local Open Scope Z_scope.

(** ** Key types *)

Abbreviation DAP_ENC_KEY_TYPE_INVALID := (-1).
Abbreviation DAP_ENC_KEY_TYPE_SIG_PICNIC := 18.
Abbreviation DAP_ENC_KEY_TYPE_SIG_BLISS := 19.
Abbreviation DAP_ENC_KEY_TYPE_SIG_TESLA := 20.
Abbreviation DAP_ENC_KEY_TYPE_SIG_DILITHIUM := 21.
Abbreviation DAP_ENC_KEY_TYPE_SIG_FALCON := 24.
Abbreviation DAP_ENC_KEY_TYPE_SIG_SPHINCSPLUS := 25.
Abbreviation DAP_ENC_KEY_TYPE_SIG_ECDSA := 26.
Abbreviation DAP_ENC_KEY_TYPE_SIG_SHIPOVNIK := 27.
Abbreviation DAP_ENC_KEY_TYPE_SIG_MULTI_ECDSA_DILITHIUM := 99.
Abbreviation DAP_ENC_KEY_TYPE_SIG_MULTI_CHAINED := 100.
Abbreviation DAP_ENC_KEY_TYPE_LAST := 100.

(** [case] labels. *)
Definition one_of (t : Z) (l : list Z) : bool := existsb (Z.eqb t) l.

(** The types whose private (public) part is an object of its scheme. *)
Abbreviation priv_types := [DAP_ENC_KEY_TYPE_SIG_BLISS; DAP_ENC_KEY_TYPE_SIG_TESLA; DAP_ENC_KEY_TYPE_SIG_DILITHIUM;
  DAP_ENC_KEY_TYPE_SIG_FALCON; DAP_ENC_KEY_TYPE_SIG_SPHINCSPLUS].
Abbreviation pub_types := [DAP_ENC_KEY_TYPE_SIG_BLISS; DAP_ENC_KEY_TYPE_SIG_TESLA; DAP_ENC_KEY_TYPE_SIG_DILITHIUM;
  DAP_ENC_KEY_TYPE_SIG_FALCON; DAP_ENC_KEY_TYPE_SIG_ECDSA; DAP_ENC_KEY_TYPE_SIG_SPHINCSPLUS].

(** The types whose signature is one. *)
Abbreviation sign_types := [DAP_ENC_KEY_TYPE_SIG_BLISS; DAP_ENC_KEY_TYPE_SIG_TESLA; DAP_ENC_KEY_TYPE_SIG_DILITHIUM;
  DAP_ENC_KEY_TYPE_SIG_FALCON; DAP_ENC_KEY_TYPE_SIG_ECDSA; DAP_ENC_KEY_TYPE_SIG_SPHINCSPLUS;
  DAP_ENC_KEY_TYPE_SIG_MULTI_CHAINED; DAP_ENC_KEY_TYPE_SIG_MULTI_ECDSA_DILITHIUM].

(** ** Allocation *)

Section Alloc.
(** Whether the allocator has a block of that size. *)
Variable calloc_ok : Z -> bool.

(** [DAP_CALLOC] refuses sizes that are not positive as [intmax_t]. *)
Definition DAP_NEW_Z_SIZE (s : Z) : bool := (0 <? s) && (s <? 2 ^ 63) && calloc_ok s.

(** ** Packing arguments *)

(** An argument is the block of a pointer, [None] for [NULL], and its size. *)
Fixpoint serialize_args (l_ret : list Z) (l_pos a_size : Z) (l_args : list (option (list Z) * Z))
    : option (list Z * Z) :=
  match l_args with
  | [] => Some (l_ret, l_pos)
  | (None, _) :: l_args => serialize_args l_ret l_pos a_size l_args
  | (Some l_arg, l_size) :: l_args =>
    if l_size =? 0 then serialize_args l_ret l_pos a_size l_args
    else if 2 ^ 63 <=? l_size then None
    else if a_size <? l_pos + l_size then Some (l_ret, l_pos)
    else
      d ← mem_read l_arg 0 l_size;
      l_ret ← mem_write l_ret l_pos d;
      serialize_args l_ret (l_pos + l_size) a_size l_args
  end.

(** With no block given ([DAP_VA_SERIALIZE_NEW]). *)
Definition dap_serialize_multy (a_size : Z) (l_args : list (option (list Z) * Z)) : option (option (list Z)) :=
  if a_size =? 0 then Some None
  else if negb (DAP_NEW_Z_SIZE a_size) then Some None
  else
    '(l_ret, l_pos) ← serialize_args (replicate (Z.to_nat a_size) 0) 0 a_size l_args;
    Some (if l_pos =? a_size then Some l_ret else None).

(** The blocks the arguments point to, as they are left. *)
Fixpoint deserialize_args (a_data : list Z) (a_size l_shift : Z) (l_args : list (list Z * Z))
    : option (Z * list (list Z)) :=
  match l_args with
  | [] => Some (0, [])
  | (l_arg, l_size) :: l_rest =>
    if a_size <? wrap 64 (l_shift + l_size) then Some (-2, map fst l_args)
    else
      d ← mem_read a_data l_shift l_size;
      l_arg ← mem_write l_arg 0 d;
      '(rc, r) ← deserialize_args a_data a_size (wrap 64 (l_shift + l_size)) l_rest;
      Some (rc, l_arg :: r)
  end.

Definition dap_deserialize_multy (a_data : list Z) (a_size : Z) (l_args : list (list Z * Z))
    : option (Z * list (list Z)) :=
  if a_size =? 0 then Some (-1, map fst l_args) else deserialize_args a_data a_size 0 l_args.

(** *** The packed block is the arguments one after the other *)

Definition arg_bytes (a : option (list Z) * Z) : list Z :=
  match a.1 with Some l => take (Z.to_nat a.2) l | None => [] end.

Definition arg_ok (a : option (list Z) * Z) : Prop :=
  match a.1 with Some l => 0 <= a.2 < 2 ^ 63 /\ a.2 <= Z.of_nat (length l) | None => True end.

Definition packed (l_args : list (option (list Z) * Z)) : list Z := concat (map arg_bytes l_args).

Lemma serialize_args_packed l_args pre post a_size : Forall arg_ok l_args ->
  (length (packed l_args) <= length post)%nat -> a_size = Z.of_nat (length (pre ++ post)) ->
  serialize_args (pre ++ post) (Z.of_nat (length pre)) a_size l_args
  = Some (pre ++ packed l_args ++ drop (length (packed l_args)) post,
          Z.of_nat (length pre + length (packed l_args))).
Proof using.
  revert pre post. unfold packed. induction l_args as [|[[l|] n] l_args IH]; intros pre post Hok Hlen Hs;
    cbn [serialize_args map concat arg_bytes fst snd app].
  - cbn [length]. by rewrite Nat.add_0_r.
  - apply Forall_cons_iff in Hok as [[Hn Hl] Hok]. cbn [fst snd] in *.
    cbn [map concat arg_bytes fst snd] in Hlen. rewrite length_app, length_take in Hlen.
    destruct (Z.eqb_spec n 0) as [-> | Hn0].
    { cbn [Z.to_nat] in *. rewrite take_0 in *. cbn [app length] in *. apply IH; [done| lia | done]. }
    destruct (Z.leb_spec (2 ^ 63) n); [lia|]. rewrite length_app in Hs.
    destruct (Z.ltb_spec a_size (Z.of_nat (length pre) + n)); [lia|].
    rewrite mem_read_prefix by lia.
    cbn [mbind option_bind]. set (d := take (Z.to_nat n) l).
    assert (Hd : length d = Z.to_nat n) by (unfold d; rewrite length_take; lia).
    rewrite <- (take_drop (length d) post) at 1.
    rewrite (mem_write_app pre (take (length d) post) d) by (rewrite length_take; lia).
    cbn [mbind option_bind]. rewrite app_assoc.
    replace (Z.of_nat (length pre) + n) with (Z.of_nat (length (pre ++ d))) by (rewrite length_app; lia).
    rewrite IH; [|done| rewrite length_drop; lia | rewrite !length_app, length_drop; lia].
    f_equal. f_equal; [|rewrite !length_app; lia].
    rewrite <- !app_assoc. do 2 f_equal. by rewrite length_app, drop_drop.
  - apply Forall_cons_iff in Hok as [_ Hok]. by apply IH.
Qed.

Lemma serialize_multy_packed l_args a_size : Forall arg_ok l_args -> a_size = Z.of_nat (length (packed l_args)) ->
  DAP_NEW_Z_SIZE a_size = true -> dap_serialize_multy a_size l_args = Some (Some (packed l_args)).
Proof using.
  intros Hok Hs Ha. unfold dap_serialize_multy. rewrite Ha. unfold DAP_NEW_Z_SIZE in Ha.
  destruct (Z.ltb_spec 0 a_size); [|done]. destruct (Z.eqb_spec a_size 0); [lia|]. cbn [negb].
  pose proof (serialize_args_packed l_args [] (replicate (Z.to_nat a_size) 0) a_size Hok) as E.
  rewrite app_nil_l, length_replicate in E. change (Z.of_nat (length [])) with 0 in E. change (length [] + ?n)%nat with n in E.
  rewrite E by lia. cbn [mbind option_bind app]. rewrite <- Hs, Z.eqb_refl.
  rewrite drop_ge by (rewrite length_replicate; lia). by rewrite app_nil_r.
Qed.

(** Reading the parts back into blocks of their sizes. *)
Lemma deserialize_args_parts (l : list (list Z * list Z)) pre tail a_size :
  Forall (λ p, length p.1 = length p.2) l ->
  Z.of_nat (length pre + length (concat (map snd l))) <= a_size -> a_size < 2 ^ 64 ->
  deserialize_args (pre ++ concat (map snd l) ++ tail) a_size (Z.of_nat (length pre))
    (map (λ p, (p.1, Z.of_nat (length p.2))) l) = Some (0, map snd l).
Proof using.
  revert pre. induction l as [|[blk d] l IH]; intros pre Hl Hle Hlt; [done|].
  apply Forall_cons_iff in Hl as [Hb Hl].
  cbn [deserialize_args map concat fst snd] in *. rewrite !length_app in *.
  rewrite wrap_id by (unfold fits; lia).
  destruct (Z.ltb_spec a_size (Z.of_nat (length pre) + Z.of_nat (length d))); [lia|].
  rewrite <- app_assoc, mem_read_app. cbn [mbind option_bind].
  replace (mem_write blk 0 d) with (Some d).
  2:{ pose proof (mem_write_app [] blk d [] Hb) as E. cbn [app length Z.of_nat] in E. by rewrite !app_nil_r in E. }
  cbn [mbind option_bind]. rewrite (app_assoc pre d).
  replace (Z.of_nat (length pre) + Z.of_nat (length d)) with (Z.of_nat (length (pre ++ d)))
    by (rewrite length_app; lia).
  rewrite IH; [done | done | rewrite length_app; lia | done].
Qed.

(** ** Keys *)

Section Keys.
Context {obj : Type}.

Inductive kdata :=
  | Raw (l : list Z)
  | Obj (o : obj).

(** [sign_get] fills the block of a signature and returns a code; it is given
    the private part, the data and the size of that block. *)
Abbreviation sign_op := (option kdata -> list Z -> Z -> option (Z * kdata)).
Abbreviation verify_op := (option kdata -> list Z -> kdata -> Z -> option Z).

Record dap_enc_key := EncKey {
  priv_key_data_size : Z;
  priv_key_data : option kdata;
  pub_key_data_size : Z;
  pub_key_data : option kdata;
  last_used_timestamp : Z;
  key_type : Z;
  sign_get : option sign_op;
  sign_verify : option verify_op;
  _inheritor : option (list Z);
  _inheritor_size : Z;
}.

Definition set_priv k d n := EncKey n d (pub_key_data_size k) (pub_key_data k) (last_used_timestamp k)
  (key_type k) (sign_get k) (sign_verify k) (_inheritor k) (_inheritor_size k).
Definition set_pub k d n := EncKey (priv_key_data_size k) (priv_key_data k) n d (last_used_timestamp k)
  (key_type k) (sign_get k) (sign_verify k) (_inheritor k) (_inheritor_size k).
Definition set_timestamp k t := EncKey (priv_key_data_size k) (priv_key_data k) (pub_key_data_size k)
  (pub_key_data k) t (key_type k) (sign_get k) (sign_verify k) (_inheritor k) (_inheritor_size k).
Definition set_inheritor k d n := EncKey (priv_key_data_size k) (priv_key_data k) (pub_key_data_size k)
  (pub_key_data k) (last_used_timestamp k) (key_type k) (sign_get k) (sign_verify k) d n.

(** A serializer returns the block, or [NULL], and the length it reports. *)
Record dap_enc_key_callbacks := Callbacks {
  ser_sign : option (kdata -> option (option (list Z) * Z));
  ser_priv_key : option (kdata -> option (option (list Z) * Z));
  ser_pub_key : option (kdata -> option (option (list Z) * Z));
  deser_sign : option (list Z -> Z -> option (option kdata));
  deser_priv_key : option (list Z -> Z -> option (option kdata));
  deser_pub_key : option (list Z -> Z -> option (option kdata));
  deser_sign_size : option (option dap_enc_key -> Z);
  deser_pub_key_size : option Z;
  deser_priv_key_size : option Z;
  new_callback : option (dap_enc_key -> dap_enc_key);
  new_generate_callback : option (dap_enc_key -> list Z -> list Z -> Z -> dap_enc_key);
}.

Variable s_callbacks : Z -> dap_enc_key_callbacks.
Variable dap_enc_sig_picnic_update : dap_enc_key -> dap_enc_key.

(** The table has an entry for every type up to [DAP_ENC_KEY_TYPE_LAST]. *)
Definition callbacks_of (t : Z) : option dap_enc_key_callbacks :=
  if (0 <=? t) && (t <=? DAP_ENC_KEY_TYPE_LAST) then Some (s_callbacks t) else None.

(** The bytes of an object are not those of its contents. *)
Definition raw_bytes (d : kdata) : option (list Z) := match d with Raw l => Some l | Obj _ => None end.

Definition DAP_DUP_SIZE (d : kdata) (s : Z) : option (option (list Z)) :=
  if DAP_NEW_Z_SIZE s then l ← raw_bytes d; b ← mem_read l 0 s; Some (Some b) else Some None.

Definition dap_enc_key_serialize_sign (a_key_type : Z) (a_sign : kdata) (a_sign_len : Z)
    : option (option (list Z) * Z) :=
  if one_of a_key_type sign_types then
    c ← callbacks_of a_key_type;
    match ser_sign c with None => Some (None, a_sign_len) | Some f => f a_sign end
  else if a_sign_len =? 0 then Some (None, a_sign_len)
  else l_data ← DAP_DUP_SIZE a_sign a_sign_len; Some (l_data, a_sign_len).

Definition dap_enc_key_deserialize_sign (a_key_type : Z) (a_sign : list Z) (a_sign_len : Z)
    : option (option kdata * Z) :=
  if one_of a_key_type sign_types then
    c ← callbacks_of a_key_type;
    match deser_sign c, deser_sign_size c with
    | Some f, Some n => l_data ← f a_sign a_sign_len; Some (l_data, n None)
    | _, _ => Some (None, a_sign_len)
    end
  else if a_sign_len =? 0 then Some (None, a_sign_len)
  else l_data ← DAP_DUP_SIZE (Raw a_sign) a_sign_len; Some (option_map Raw l_data, a_sign_len).

(** [buflen] is what the caller's variable holds. *)
Definition dap_enc_key_serialize_priv_key (a_key : dap_enc_key) (buflen : Z) : option (option (list Z) * Z) :=
  match priv_key_data a_key with
  | None => Some (None, buflen)
  | Some d =>
    if priv_key_data_size a_key =? 0 then Some (None, buflen)
    else if one_of (key_type a_key) priv_types then
      c ← callbacks_of (key_type a_key);
      match ser_priv_key c with None => Some (None, buflen) | Some f => f d end
    else
      l_data ← DAP_DUP_SIZE d (priv_key_data_size a_key);
      Some (l_data, match l_data with Some _ => priv_key_data_size a_key | None => 0 end)
  end.

Definition dap_enc_key_serialize_pub_key (a_key : dap_enc_key) (buflen : Z) : option (option (list Z) * Z) :=
  match pub_key_data a_key with
  | None => Some (None, buflen)
  | Some d =>
    if pub_key_data_size a_key =? 0 then Some (None, buflen)
    else if one_of (key_type a_key) pub_types then
      c ← callbacks_of (key_type a_key);
      match ser_pub_key c with None => Some (None, buflen) | Some f => f d end
    else
      l_data ← DAP_DUP_SIZE d (pub_key_data_size a_key);
      Some (l_data, match l_data with Some _ => pub_key_data_size a_key | None => 0 end)
  end.

Definition dap_enc_key_update (a_key : dap_enc_key) : dap_enc_key :=
  if key_type a_key =? DAP_ENC_KEY_TYPE_SIG_PICNIC then dap_enc_sig_picnic_update a_key else a_key.

(** The plain case: the block is reused when it has the size. *)
Definition copy_part (old : option kdata) (size : Z) (a_buf : list Z) (a_buflen : Z) : option (option kdata) :=
  let fresh :=
    if DAP_NEW_Z_SIZE a_buflen then b ← mem_read a_buf 0 a_buflen; Some (Some (Raw b)) else Some None in
  match old with
  | None => fresh
  | Some d =>
    if negb (size =? a_buflen) then fresh
    else l ← raw_bytes d; b ← mem_read a_buf 0 a_buflen; l ← mem_write l 0 b; Some (Some (Raw l))
  end.

Definition dap_enc_key_deserialize_priv_key (a_key : dap_enc_key) (a_buf : list Z) (a_buflen : Z)
    : option (Z * dap_enc_key) :=
  if one_of (key_type a_key) priv_types then
    c ← callbacks_of (key_type a_key);
    match deser_priv_key c with
    | None => Some (-2, a_key)
    | Some f =>
      r ← f a_buf a_buflen;
      Some (match r with
            | None => (-3, set_priv a_key None 0)
            | Some d => (0, dap_enc_key_update (set_priv a_key (Some d) (default a_buflen (deser_priv_key_size c))))
            end)
    end
  else
    r ← copy_part (priv_key_data a_key) (priv_key_data_size a_key) a_buf a_buflen;
    Some (match r with
          | None => (-1, a_key)
          | Some d => (0, dap_enc_key_update (set_priv a_key (Some d) a_buflen))
          end).

Definition dap_enc_key_deserialize_pub_key (a_key : dap_enc_key) (a_buf : list Z) (a_buflen : Z)
    : option (Z * dap_enc_key) :=
  if one_of (key_type a_key) pub_types then
    c ← callbacks_of (key_type a_key);
    match deser_pub_key c with
    | None => Some (-2, a_key)
    | Some f =>
      r ← f a_buf a_buflen;
      Some (match r with
            | None => (-3, set_pub a_key None 0)
            | Some d => (0, dap_enc_key_update (set_pub a_key (Some d) (default a_buflen (deser_pub_key_size c))))
            end)
    end
  else
    r ← copy_part (pub_key_data a_key) (pub_key_data_size a_key) a_buf a_buflen;
    Some (match r with
          | None => (-1, a_key)
          | Some d => (0, dap_enc_key_update (set_pub a_key (Some d) a_buflen))
          end).

Definition sizeof_enc_key : Z := 168.

Definition zero_key : dap_enc_key := EncKey 0 None 0 None 0 0 None None None 0.

Definition dap_enc_key_new (a_key_type : Z) : option (option dap_enc_key) :=
  if a_key_type =? DAP_ENC_KEY_TYPE_INVALID then Some None
  else if negb (DAP_NEW_Z_SIZE sizeof_enc_key) then Some None
  else
    c ← callbacks_of a_key_type;
    Some (Some (match new_callback c with
                | Some f => f zero_key
                | None => EncKey 0 None 0 None 0 a_key_type None None None 0
                end)).

(** A callback that is given no key dereferences a null pointer. *)
Definition dap_enc_key_new_generate (a_key_type : Z) (a_kex_buf a_seed : list Z) (a_key_size : Z)
    : option (option dap_enc_key) :=
  if a_key_type =? DAP_ENC_KEY_TYPE_INVALID then Some None else
  l_ret ← dap_enc_key_new a_key_type;
  c ← callbacks_of a_key_type;
  match new_generate_callback c, l_ret with
  | Some f, Some l_ret => Some (Some (f l_ret a_kex_buf a_seed a_key_size))
  | Some _, None => None
  | None, _ => Some l_ret
  end.

(** *** The whole key *)

(** The fields in front of the parts. *)
Definition key_fields (l_buflen l_ser_skey_size l_ser_pkey_size l_ser_inheritor_size l_timestamp l_type : Z) :=
  [(8%nat, l_buflen); (8%nat, l_ser_skey_size); (8%nat, l_ser_pkey_size); (8%nat, l_ser_inheritor_size);
   (8%nat, l_timestamp); (4%nat, l_type)].

Definition field_arg (f : nat * Z) : option (list Z) * Z := (Some (le_bytes f.1 f.2), Z.of_nat f.1).

(** The block, or [NULL], and the length. *)
Definition dap_enc_key_serialize (a_key : dap_enc_key) : option (option (list Z) * Z) :=
  let l_ser_inheritor_size := _inheritor_size a_key in
  '(l_ser_skey, l_ser_skey_size) ← dap_enc_key_serialize_priv_key a_key 0;
  '(l_ser_pkey, l_ser_pkey_size) ← dap_enc_key_serialize_pub_key a_key 0;
  let l_buflen := wrap 64 (44 + l_ser_skey_size + l_ser_pkey_size + l_ser_inheritor_size) in
  l_ret ← dap_serialize_multy l_buflen
    (map field_arg (key_fields l_buflen l_ser_skey_size l_ser_pkey_size l_ser_inheritor_size
                      (last_used_timestamp a_key) (key_type a_key))
     ++ [(l_ser_skey, l_ser_skey_size); (l_ser_pkey, l_ser_pkey_size); (_inheritor a_key, l_ser_inheritor_size)]);
  Some (l_ret, l_buflen).

Definition int32 (v : Z) : Z := if v <? 2 ^ 31 then v else v - 2 ^ 32.

(** The block for a part: none when its size is zero, [NULL] when it cannot be
    had. *)
Definition part_block (s : Z) : option (list Z) :=
  if s =? 0 then Some [] else if DAP_NEW_Z_SIZE s then Some (replicate (Z.to_nat s) 0) else None.

(** The parts of a key, from the bytes behind the fields. *)
Definition restore_parts (l_ret : dap_enc_key) (a_data : list Z) (a_size : Z)
    (l_ser_skey_size l_ser_pkey_size l_ser_inheritor_size l_timestamp : Z) : option (option dap_enc_key) :=
  match part_block l_ser_skey_size, part_block l_ser_pkey_size, part_block l_ser_inheritor_size with
  | Some l_ser_skey, Some l_ser_pkey, Some l_inheritor =>
    '(l_res_des, r) ← dap_deserialize_multy a_data a_size
       [(l_ser_skey, l_ser_skey_size); (l_ser_pkey, l_ser_pkey_size); (l_inheritor, l_ser_inheritor_size)];
    if negb (l_res_des =? 0) then Some None else
    let part i := default [] (r !! i) in
    '(rc, l_ret) ← (if l_ser_pkey_size =? 0 then Some (0, l_ret)
                    else dap_enc_key_deserialize_pub_key l_ret (part 1%nat) l_ser_pkey_size);
    if negb (rc =? 0) then Some None else
    '(rc, l_ret) ← (if l_ser_skey_size =? 0 then Some (0, l_ret)
                    else dap_enc_key_deserialize_priv_key l_ret (part 0%nat) l_ser_skey_size);
    if negb (rc =? 0) then Some None else
    Some (Some (set_inheritor (set_timestamp l_ret l_timestamp)
                  (if l_ser_inheritor_size =? 0 then _inheritor l_ret else Some (part 2%nat)) l_ser_inheritor_size))
  | _, _, _ => Some None
  end.

Definition dap_enc_key_deserialize (buf : list Z) (a_buf_size : Z) : option (option dap_enc_key) :=
  let l_sizes_len := 44 in
  if a_buf_size <? l_sizes_len then Some None else
  '(l_res_des, f) ← dap_deserialize_multy buf l_sizes_len
     (map (λ n, (replicate (Z.to_nat n) 0, n)) [8; 8; 8; 8; 8; 4]);
  if negb (l_res_des =? 0) then Some None else
  let at_ i := le_value (default [] (f !! i)) in
  l_ret ← dap_enc_key_new (int32 (at_ 5%nat));
  match l_ret with
  | None => Some None
  | Some l_ret => restore_parts l_ret (drop (Z.to_nat l_sizes_len) buf) (a_buf_size - l_sizes_len)
                    (at_ 1%nat) (at_ 2%nat) (at_ 3%nat) (at_ 4%nat)
  end.

Definition dap_enc_key_dup (a_key : dap_enc_key) : option (option dap_enc_key) :=
  if key_type a_key =? DAP_ENC_KEY_TYPE_INVALID then Some None else
  '(l_ser_key, l_buflen) ← dap_enc_key_serialize a_key;
  match l_ser_key with
  | None => Some None
  | Some l_ser_key => dap_enc_key_deserialize l_ser_key l_buflen
  end.

(** *** What the common code relies on *)

Definition part_arg (b : list Z) : option (list Z) := match b with [] => None | _ => Some b end.

(** The private part of [k] is absent or survives its serializer. *)
Definition stored_priv (k : dap_enc_key) (b : list Z) : Prop :=
  (priv_key_data k = None /\ priv_key_data_size k = 0 /\ b = []) \/
  (b <> [] /\ (forall n, dap_enc_key_serialize_priv_key k n = Some (Some b, Z.of_nat (length b))) /\
   forall k' tail, key_type k' = key_type k -> priv_key_data k' = None ->
     dap_enc_key_deserialize_priv_key k' (b ++ tail) (Z.of_nat (length b))
     = Some (0, set_priv k' (priv_key_data k) (priv_key_data_size k))).

Definition stored_pub (k : dap_enc_key) (b : list Z) : Prop :=
  (pub_key_data k = None /\ pub_key_data_size k = 0 /\ b = []) \/
  (b <> [] /\ (forall n, dap_enc_key_serialize_pub_key k n = Some (Some b, Z.of_nat (length b))) /\
   forall k' tail, key_type k' = key_type k -> pub_key_data k' = None ->
     dap_enc_key_deserialize_pub_key k' (b ++ tail) (Z.of_nat (length b))
     = Some (0, set_pub k' (pub_key_data k) (pub_key_data_size k))).

(** A key as [dap_enc_key_new] and the schemes leave it. *)
Record key_ok (k : dap_enc_key) (sk pk inh : list Z) : Prop := {
  ok_type : 0 <= key_type k <= DAP_ENC_KEY_TYPE_LAST;
  ok_new : dap_enc_key_new (key_type k)
           = Some (Some (EncKey 0 None 0 None 0 (key_type k) (sign_get k) (sign_verify k) None 0));
  ok_priv : stored_priv k sk;
  ok_pub : stored_pub k pk;
  ok_inh : _inheritor k = part_arg inh /\ _inheritor_size k = Z.of_nat (length inh);
  ok_time : fits 64 (last_used_timestamp k);
  ok_size : 44 + Z.of_nat (length sk + length pk + length inh) < 2 ^ 63;
}.

Definition key_bytes (k : dap_enc_key) (sk pk inh : list Z) : list Z :=
  fields (key_fields (44 + Z.of_nat (length sk + length pk + length inh)) (Z.of_nat (length sk))
            (Z.of_nat (length pk)) (Z.of_nat (length inh)) (last_used_timestamp k) (key_type k))
  ++ sk ++ pk ++ inh.

Lemma length_key_bytes k sk pk inh :
  length (key_bytes k sk pk inh) = (44 + (length sk + length pk + length inh))%nat.
Proof using. unfold key_bytes. rewrite !length_app, length_fields. cbn [key_fields fields_len fst]. lia. Qed.

Lemma part_arg_bytes b : arg_bytes (part_arg b, Z.of_nat (length b)) = b.
Proof using. destruct b as [|x b]; [done|]. apply firstn_all2. cbn [snd]. lia. Qed.

Lemma field_args_packed l : packed (map field_arg l) = fields l.
Proof using.
  unfold packed, fields. f_equal. rewrite map_map. apply map_ext. intros [n z]. unfold field_arg, arg_bytes.
  cbn [fst snd]. rewrite Nat2Z.id. apply take_ge. by rewrite length_le_bytes.
Qed.

Lemma field_args_ok l : Forall (λ f, (f.1 <= 8)%nat) l -> Forall arg_ok (map field_arg l).
Proof using.
  induction 1 as [|[n z] l H _ IH]; cbn [map]; [constructor|]. constructor; [|done].
  unfold arg_ok, field_arg. cbn [fst snd] in *. rewrite length_le_bytes. lia.
Qed.

Lemma part_arg_ok b : Z.of_nat (length b) < 2 ^ 63 -> arg_ok (part_arg b, Z.of_nat (length b)).
Proof using. destruct b; [done|]. unfold arg_ok. cbn [part_arg fst snd]. lia. Qed.

Lemma stored_priv_ser k b : stored_priv k b ->
  dap_enc_key_serialize_priv_key k 0 = Some (part_arg b, Z.of_nat (length b)).
Proof using.
  intros [(Hd & _ & ->) | (Hb & Hs & _)]; [unfold dap_enc_key_serialize_priv_key; by rewrite Hd|].
  rewrite Hs. by destruct b.
Qed.

Lemma stored_pub_ser k b : stored_pub k b ->
  dap_enc_key_serialize_pub_key k 0 = Some (part_arg b, Z.of_nat (length b)).
Proof using.
  intros [(Hd & _ & ->) | (Hb & Hs & _)]; [unfold dap_enc_key_serialize_pub_key; by rewrite Hd|].
  rewrite Hs. by destruct b.
Qed.

Section Roundtrip.
Hypothesis memory : forall s, calloc_ok s = true.
Context {k : dap_enc_key} {sk pk inh : list Z} (Hk : key_ok k sk pk inh).

Lemma new_z_size s : 0 < s < 2 ^ 63 -> DAP_NEW_Z_SIZE s = true.
Proof using memory.
  intros. unfold DAP_NEW_Z_SIZE. rewrite memory. destruct (Z.ltb_spec 0 s), (Z.ltb_spec s (2 ^ 63)); lia || done.
Qed.

Lemma key_serialize_bytes :
  dap_enc_key_serialize k = Some (Some (key_bytes k sk pk inh), Z.of_nat (length (key_bytes k sk pk inh))).
Proof using memory Hk.
  destruct Hk as [Ht _ Hp Hu [Hi Hin] _ Hs]. unfold dap_enc_key_serialize.
  rewrite (stored_priv_ser _ _ Hp), (stored_pub_ser _ _ Hu). cbn [mbind option_bind].
  rewrite Hi, Hin, wrap_id by (unfold fits; lia).
  replace (44 + Z.of_nat (length sk) + Z.of_nat (length pk) + Z.of_nat (length inh))
    with (44 + Z.of_nat (length sk + length pk + length inh)) by lia.
  rewrite length_key_bytes. set (n := 44 + Z.of_nat _).
  set (args := _ ++ _). assert (Ep : packed args = key_bytes k sk pk inh).
  { unfold packed, args. rewrite map_app, concat_app. fold (packed (map field_arg (key_fields n (Z.of_nat (length sk))
      (Z.of_nat (length pk)) (Z.of_nat (length inh)) (last_used_timestamp k) (key_type k)))).
    rewrite field_args_packed. cbn [map concat]. by rewrite !part_arg_bytes, app_nil_r. }
  rewrite (serialize_multy_packed args n).
  - rewrite Ep. cbn [mbind option_bind]. do 2 f_equal. lia.
  - unfold args. apply Forall_app. split; [apply field_args_ok; repeat constructor|].
    repeat constructor; apply part_arg_ok; lia.
  - rewrite Ep, length_key_bytes. lia.
  - apply new_z_size. lia.
Qed.

Lemma part_block_some (b : list Z) : Z.of_nat (length b) < 2 ^ 63 ->
  exists blk, part_block (Z.of_nat (length b)) = Some blk /\ length blk = length b.
Proof using memory.
  intros H. unfold part_block. destruct (Z.eqb_spec (Z.of_nat (length b)) 0).
  - exists []. split; [done|]. cbn. lia.
  - rewrite new_z_size by lia. eexists. split; [done|]. rewrite length_replicate. lia.
Qed.

(** The fields read back. *)
Lemma key_fields_read n tail : 0 <= n < 2 ^ 64 ->
  let f := key_fields n (Z.of_nat (length sk)) (Z.of_nat (length pk)) (Z.of_nat (length inh))
             (last_used_timestamp k) (key_type k) in
  dap_deserialize_multy (fields f ++ tail) 44 (map (λ n, (replicate (Z.to_nat n) 0, n)) [8; 8; 8; 8; 8; 4])
  = Some (0, map (λ g, le_bytes g.1 g.2) f).
Proof using.
  intros Hn f. unfold dap_deserialize_multy. change (44 =? 0) with false. cbn match.
  pose (l := map (λ g : nat * Z, (replicate g.1 0, le_bytes g.1 g.2)) f).
  assert (Hl : Forall (λ p : list Z * list Z, length p.1 = length p.2) l).
  { unfold l. apply Forall_map, Forall_forall. intros g _. cbn [fst snd]. by rewrite length_replicate, length_le_bytes. }
  assert (Es : map snd l = map (λ g, le_bytes g.1 g.2) f) by (unfold l; by rewrite map_map).
  assert (Ec : concat (map snd l) = fields f) by (by rewrite Es).
  pose proof (deserialize_args_parts l [] tail 44 Hl) as E. rewrite Ec, app_nil_l in E.
  rewrite <- Es. rewrite <- E; [done| |lia]. rewrite length_fields. unfold f. cbn. lia.
Qed.

(** Each part is restored from the front of the bytes, or was absent. *)
Lemma restore_pub k0 tail : key_type k0 = key_type k -> pub_key_data k0 = None -> pub_key_data_size k0 = 0 ->
  (if Z.of_nat (length pk) =? 0 then Some (0, k0) else dap_enc_key_deserialize_pub_key k0 (pk ++ tail) (Z.of_nat (length pk)))
  = Some (0, set_pub k0 (pub_key_data k) (pub_key_data_size k)).
Proof using Hk.
  intros Ht Hd Hs. destruct (ok_pub _ _ _ _ Hk) as [(-> & -> & ->) | (Hb & _ & Hr)]; [destruct k0; cbn in *; by subst|].
  destruct (Z.eqb_spec (Z.of_nat (length pk)) 0); [destruct pk; [done | cbn in *; lia]|]. by apply Hr.
Qed.

Lemma restore_priv k0 tail : key_type k0 = key_type k -> priv_key_data k0 = None -> priv_key_data_size k0 = 0 ->
  (if Z.of_nat (length sk) =? 0 then Some (0, k0) else dap_enc_key_deserialize_priv_key k0 (sk ++ tail) (Z.of_nat (length sk)))
  = Some (0, set_priv k0 (priv_key_data k) (priv_key_data_size k)).
Proof using Hk.
  intros Ht Hd Hs. destruct (ok_priv _ _ _ _ Hk) as [(-> & -> & ->) | (Hb & _ & Hr)]; [destruct k0; cbn in *; by subst|].
  destruct (Z.eqb_spec (Z.of_nat (length sk)) 0); [destruct sk; [done | cbn in *; lia]|]. by apply Hr.
Qed.

Lemma restore_parts_same : sk ++ pk ++ inh <> [] ->
  restore_parts (EncKey 0 None 0 None 0 (key_type k) (sign_get k) (sign_verify k) None 0)
    (sk ++ pk ++ inh) (Z.of_nat (length sk + length pk + length inh))
    (Z.of_nat (length sk)) (Z.of_nat (length pk)) (Z.of_nat (length inh)) (last_used_timestamp k) = Some (Some k).
Proof using memory Hk.
  destruct (ok_inh _ _ _ _ Hk) as [Hi Hin]. pose proof (ok_size _ _ _ _ Hk) as Hs. intros Hne. unfold restore_parts.
  destruct (part_block_some sk) as (bs & -> & Ls); [lia|]. destruct (part_block_some pk) as (bp & -> & Lp); [lia|].
  destruct (part_block_some inh) as (bi & -> & Li); [lia|]. cbn match.
  assert (Hpos : (0 < length sk + length pk + length inh)%nat).
  { destruct sk; [|cbn; lia]. destruct pk; [|cbn; lia]. destruct inh; [done | cbn; lia]. }
  unfold dap_deserialize_multy. destruct (Z.eqb_spec (Z.of_nat (length sk + length pk + length inh)) 0); [lia|].
  pose proof (deserialize_args_parts [(bs, sk); (bp, pk); (bi, inh)] [] []
    (Z.of_nat (length sk + length pk + length inh))) as E. cbn [map concat fst snd] in E.
  rewrite !app_nil_r, app_nil_l in E. change (Z.of_nat (length [])) with 0 in E.
  rewrite E; [|repeat constructor; done| rewrite !length_app; cbn [length]; lia | lia].
  cbn [mbind option_bind lookup list_lookup default from_option id]. change (negb (0 =? 0)) with false. cbn match.
  set (k0 := EncKey 0 None 0 None 0 _ _ _ None 0).
  pose proof (restore_pub k0 []) as Ep. rewrite app_nil_r in Ep. rewrite Ep by done. cbn [mbind option_bind]. change (negb (0 =? 0)) with false. cbn match.
  set (k1 := set_pub k0 _ _).
  pose proof (restore_priv k1 []) as Es. rewrite app_nil_r in Es. rewrite Es by done. cbn [mbind option_bind]. change (negb (0 =? 0)) with false. cbn match.
  assert (Ei : (if Z.of_nat (length inh) =? 0 then None else Some inh) = _inheritor k) by (rewrite Hi; by destruct inh).
  unfold k1, k0, set_timestamp, set_inheritor, set_priv, set_pub. cbn. rewrite Ei, <- Hin. by destruct k.
Qed.

Lemma key_deserialize_bytes : sk ++ pk ++ inh <> [] ->
  dap_enc_key_deserialize (key_bytes k sk pk inh) (Z.of_nat (length (key_bytes k sk pk inh))) = Some (Some k).
Proof using memory Hk.
  destruct Hk as [Ht Hn Hp Hu [Hi Hin] Htm Hs]. intros Hne. unfold dap_enc_key_deserialize.
  rewrite length_key_bytes.
  destruct (Z.ltb_spec (Z.of_nat (44 + (length sk + length pk + length inh))) 44); [lia|].
  unfold key_bytes. rewrite key_fields_read by lia. cbn [mbind option_bind].
  change (negb (0 =? 0)) with false. cbn match. unfold key_fields. cbn [map fst snd lookup list_lookup default from_option id].
  rewrite !le_value_bytes. change (8 * Z.of_nat 8) with 64. change (8 * Z.of_nat 4) with 32.
  rewrite !(wrap_id 64) by (unfold fits in *; lia). rewrite (wrap_id 32) by (unfold fits; lia).
  unfold int32. destruct (Z.ltb_spec (key_type k) (2 ^ 31)); [|lia]. rewrite Hn. cbn [mbind option_bind].
  rewrite drop_app_length' by (by rewrite length_fields).
  replace (Z.of_nat (44 + (length sk + length pk + length inh)) - 44)
    with (Z.of_nat (length sk + length pk + length inh)) by lia.
  by apply restore_parts_same.
Qed.

Lemma key_dup_same : sk ++ pk ++ inh <> [] -> dap_enc_key_dup k = Some (Some k).
Proof using memory Hk.
  intros Hne. unfold dap_enc_key_dup. pose proof (ok_type _ _ _ _ Hk).
  destruct (Z.eqb_spec (key_type k) (-1)); [lia|]. rewrite key_serialize_bytes. cbn [mbind option_bind].
  by apply key_deserialize_bytes.
Qed.
End Roundtrip.

(** *** Untrusted bytes *)

(** What the schemes promise about bytes they did not write. *)
Record schemes_safe : Prop := {
  safe_new t k : dap_enc_key_new t = Some (Some k) ->
    key_type k = t /\ pub_key_data k = None /\ priv_key_data k = None /\ pub_key_data_size k = 0;
  safe_pub t f buf n : deser_pub_key (s_callbacks t) = Some f -> Forall (fits 8) buf ->
    0 <= n <= Z.of_nat (length buf) -> is_Some (f buf n);
  safe_priv t f buf n : deser_priv_key (s_callbacks t) = Some f -> Forall (fits 8) buf ->
    0 <= n <= Z.of_nat (length buf) -> is_Some (f buf n);
  safe_update k : key_type (dap_enc_sig_picnic_update k) = key_type k /\
    priv_key_data (dap_enc_sig_picnic_update k) = priv_key_data k;
}.

Lemma deserialize_args_total a_data a_size l_shift l_args : a_size = Z.of_nat (length a_data) -> a_size < 2 ^ 63 ->
  0 <= l_shift <= a_size -> Forall (fits 8) a_data ->
  Forall (λ p, 0 <= p.2 < 2 ^ 63 /\ Z.of_nat (length p.1) = p.2) l_args ->
  exists rc r, deserialize_args a_data a_size l_shift l_args = Some (rc, r) /\
    (rc = 0 -> Forall2 (λ d p, Z.of_nat (length d) = p.2 /\ Forall (fits 8) d) r l_args).
Proof using.
  intros Hs Hlt. revert l_shift. induction l_args as [|[blk n] l_args IH]; intros l_shift Hsh Hb Hl.
  { exists 0, []. split; [done|]. constructor. }
  apply Forall_cons_iff in Hl as [[Hn Hblk] Hl]. cbn [deserialize_args fst snd] in *.
  rewrite wrap_id by (unfold fits; lia).
  destruct (Z.ltb_spec a_size (l_shift + n)); [eexists _, _; split; [done | lia]|].
  rewrite <- (Z2Nat.id l_shift), <- (Z2Nat.id n), mem_read_nat by lia. cbn [mbind option_bind].
  set (d := take _ _). assert (Hd : Z.of_nat (length d) = n) by (unfold d; rewrite length_take, length_drop; lia).
  replace (mem_write blk 0 d) with (Some d).
  2:{ pose proof (mem_write_app [] blk d [] ltac:(lia)) as E. cbn [app length Z.of_nat] in E. by rewrite !app_nil_r in E. }
  cbn [mbind option_bind]. rewrite !Z2Nat.id by lia.
  destruct (IH (l_shift + n)) as (rc & r & -> & Hr); [lia | done | done|]. cbn [mbind option_bind].
  eexists _, _. split; [done|]. intros E. constructor; [|by apply Hr]. cbn [snd]. split; [done|].
  by apply Forall_take, Forall_drop.
Qed.

Lemma copy_part_total a_buf n : 0 <= n <= Z.of_nat (length a_buf) -> is_Some (copy_part None 0 a_buf n).
Proof using.
  intros H. unfold copy_part. destruct (DAP_NEW_Z_SIZE n); [|done]. by rewrite mem_read_prefix.
Qed.

Lemma part_block_length s blk : part_block s = Some blk -> 0 <= s -> 0 <= s < 2 ^ 63 /\ Z.of_nat (length blk) = s.
Proof using.
  unfold part_block, DAP_NEW_Z_SIZE. destruct (Z.eqb_spec s 0) as [-> |]; [intros [= <-]; cbn; lia|].
  destruct (Z.ltb_spec 0 s), (Z.ltb_spec s (2 ^ 63)); cbn [andb]; try done; [|lia..].
  destruct (calloc_ok s); [|done]. intros [= <-] _. rewrite length_replicate. lia.
Qed.

Section Safety.
Hypothesis safe : schemes_safe.

Lemma deserialize_pub_total k buf n : pub_key_data k = None -> 0 <= key_type k <= DAP_ENC_KEY_TYPE_LAST ->
  Forall (fits 8) buf -> 0 <= n <= Z.of_nat (length buf) ->
  exists rc k', dap_enc_key_deserialize_pub_key k buf n = Some (rc, k') /\ key_type k' = key_type k /\
    priv_key_data k' = priv_key_data k.
Proof using safe.
  intros Hp Ht Hb Hn. unfold dap_enc_key_deserialize_pub_key, callbacks_of.
  assert (Hu : forall d m, key_type (dap_enc_key_update (set_pub k d m)) = key_type k /\
                         priv_key_data (dap_enc_key_update (set_pub k d m)) = priv_key_data k).
  { intros. unfold dap_enc_key_update. case_match; [|done]. destruct (safe_update safe (set_pub k d m)) as [-> ->]. done. }
  destruct (Z.leb_spec 0 (key_type k)), (Z.leb_spec (key_type k) 100); try lia. cbn [andb mbind option_bind].
  destruct (one_of _ _).
  - destruct (deser_pub_key _) as [f|] eqn:Ef; [|by eexists _, _].
    destruct (safe_pub safe _ f buf n Ef Hb Hn) as [r ->]. cbn [mbind option_bind].
    destruct r as [d|]; eexists _, _; (split; [done|]); [apply Hu | done].
  - rewrite Hp. assert (E : copy_part None (pub_key_data_size k) buf n = copy_part None 0 buf n) by done. rewrite E.
    destruct (copy_part_total buf n Hn) as [r ->]. cbn [mbind option_bind].
    destruct r as [d|]; eexists _, _; (split; [done|]); [apply Hu | done].
Qed.

Lemma deserialize_priv_total k buf n : priv_key_data k = None -> 0 <= key_type k <= DAP_ENC_KEY_TYPE_LAST ->
  Forall (fits 8) buf -> 0 <= n <= Z.of_nat (length buf) ->
  exists rc k', dap_enc_key_deserialize_priv_key k buf n = Some (rc, k').
Proof using safe.
  intros Hp Ht Hb Hn. unfold dap_enc_key_deserialize_priv_key, callbacks_of.
  destruct (Z.leb_spec 0 (key_type k)), (Z.leb_spec (key_type k) 100); try lia. cbn [andb mbind option_bind].
  destruct (one_of _ _).
  - destruct (deser_priv_key _) as [f|] eqn:Ef; [|by eexists _, _].
    destruct (safe_priv safe _ f buf n Ef Hb Hn) as [r ->]. cbn [mbind option_bind]. destruct r; by eexists _, _.
  - rewrite Hp. assert (E : copy_part None (priv_key_data_size k) buf n = copy_part None 0 buf n) by done. rewrite E.
    destruct (copy_part_total buf n Hn) as [r ->]. cbn [mbind option_bind]. destruct r; by eexists _, _.
Qed.

Lemma restore_parts_total k0 a_data a_size ss ps ns ts : pub_key_data k0 = None -> priv_key_data k0 = None ->
  0 <= key_type k0 <= DAP_ENC_KEY_TYPE_LAST -> a_size = Z.of_nat (length a_data) -> a_size < 2 ^ 63 ->
  Forall (fits 8) a_data -> 0 <= ss -> 0 <= ps -> 0 <= ns ->
  is_Some (restore_parts k0 a_data a_size ss ps ns ts).
Proof using safe.
  intros Hp Hs Ht Ha Hlt Hb H1 H2 H3. unfold restore_parts.
  destruct (part_block ss) as [bs|] eqn:Es; [|done]. destruct (part_block ps) as [bp|] eqn:Ep; [|done].
  destruct (part_block ns) as [bi|] eqn:Ei; [|done]. apply part_block_length in Es, Ep, Ei; [|done..].
  unfold dap_deserialize_multy. destruct (Z.eqb_spec a_size 0); [done|].
  destruct (deserialize_args_total a_data a_size 0 [(bs, ss); (bp, ps); (bi, ns)])
    as (rc & r & -> & Hr); [done | lia | lia | done | by repeat (constructor; [done|])|].
  cbn [mbind option_bind]. destruct (Z.eqb_spec rc 0) as [-> |]; [|done]. cbn [negb]. specialize (Hr eq_refl).
  apply Forall2_cons_inv_r in Hr as (d1 & r1 & [L1 B1] & Hr & ->).
  apply Forall2_cons_inv_r in Hr as (d2 & r2 & [L2 B2] & _ & ->).
  cbn [snd lookup list_lookup default from_option id] in *.
  assert (E1 : exists rc k1, (if ps =? 0 then Some (0, k0) else dap_enc_key_deserialize_pub_key k0 d2 ps) = Some (rc, k1)
    /\ key_type k1 = key_type k0 /\ priv_key_data k1 = None).
  { destruct (ps =? 0); [by eexists _, _|]. destruct (deserialize_pub_total k0 d2 ps) as (c & k1 & -> & ? & ?);
      [done | lia | done | lia|]. eexists _, _. split; [done|]. split; congruence. }
  destruct E1 as (c1 & k1 & -> & Ht1 & Hp1). cbn [mbind option_bind]. destruct (negb (c1 =? 0)); [done|].
  assert (E2 : exists rc k2, (if ss =? 0 then Some (0, k1) else dap_enc_key_deserialize_priv_key k1 d1 ss) = Some (rc, k2)).
  { destruct (ss =? 0); [by eexists _, _|]. apply deserialize_priv_total; [done | lia | done | lia]. }
  destruct E2 as (c2 & k2 & ->). cbn [mbind option_bind]. by destruct (negb (c2 =? 0)).
Qed.
End Safety.

(** The fields of any block that is long enough. *)
Lemma key_fields_any buf : 44 <= Z.of_nat (length buf) ->
  dap_deserialize_multy buf 44 (map (λ n, (replicate (Z.to_nat n) 0, n)) [8; 8; 8; 8; 8; 4])
  = Some (0, map (λ o, take o.2 (drop o.1 buf)) [(0, 8); (8, 8); (16, 8); (24, 8); (32, 8); (40, 4)]%nat).
Proof using.
  intros Hn. unfold dap_deserialize_multy. change (44 =? 0) with false. cbn match.
  pose (l := map (λ o : nat * nat, (replicate o.2 0, take o.2 (drop o.1 buf)))
               [(0, 8); (8, 8); (16, 8); (24, 8); (32, 8); (40, 4)]%nat).
  assert (Hlen : forall o n, (o + n <= 44)%nat -> length (take n (drop o buf)) = n)
    by (intros; rewrite length_take, length_drop; lia).
  assert (Hl : Forall (λ p : list Z * list Z, length p.1 = length p.2) l).
  { unfold l. repeat (constructor; [cbn [fst snd]; rewrite length_replicate, Hlen by lia; done|]). constructor. }
  assert (Ec : concat (map snd l) = take 44 buf).
  { unfold l. cbn [map snd fst concat]. rewrite app_nil_r.
    assert (S : forall o n p m q, p = (o + n)%nat -> q = (n + m)%nat ->
      take n (drop o buf) ++ take m (drop p buf) = take q (drop o buf))
      by (intros ? ? ? ? ? -> ->; by rewrite <- drop_drop, take_take_drop).
    rewrite (S 32 8 40 4 12)%nat, (S 24 8 32 12 20)%nat, (S 16 8 24 20 28)%nat, (S 8 8 16 28 36)%nat,
      (S 0 8 8 36 44)%nat by done.
    by rewrite drop_0. }
  pose proof (deserialize_args_parts l [] (drop 44 buf) 44 Hl) as E. rewrite Ec, app_nil_l, take_drop in E.
  rewrite length_take in E. specialize (E ltac:(cbn [length]; lia) ltac:(lia)).
  change (Some (0, map (λ o, take o.2 (drop o.1 buf)) _)) with (Some (0, map snd l)). rewrite <- E.
  change (Z.of_nat (length [])) with 0. f_equal. unfold l. cbn [map fst snd]. by rewrite !Hlen by lia.
Qed.

Lemma type_field buf v : mem_le buf 40 4 = Some v -> le_value (take 4 (drop 40 buf)) = v.
Proof using.
  unfold mem_le. destruct (mem_read buf 40 (Z.of_nat 4)) as [d|] eqn:E; [|done]. intros [= <-].
  pose proof (mem_read_bound _ _ _ _ E) as Hb.
  change 40 with (Z.of_nat 40) in E. rewrite (mem_read_nat buf 40 4) in E by (cbn in *; lia). by injection E as <-.
Qed.

(** *** Parts that survive *)

Lemma update_id k : key_type k <> DAP_ENC_KEY_TYPE_SIG_PICNIC -> dap_enc_key_update k = k.
Proof using. intros H. unfold dap_enc_key_update. by destruct (Z.eqb_spec (key_type k) 18). Qed.

Section Stored.
Hypothesis memory : forall s, calloc_ok s = true.

(** Plain blocks. *)
Lemma dup_raw l : l <> [] -> Z.of_nat (length l) < 2 ^ 63 ->
  DAP_DUP_SIZE (Raw l) (Z.of_nat (length l)) = Some (Some l).
Proof using memory.
  intros Hl Hn. unfold DAP_DUP_SIZE. rewrite (new_z_size memory) by (destruct l; [done | cbn in *; lia]).
  cbn [raw_bytes mbind option_bind]. by rewrite mem_read_all.
Qed.

Lemma copy_raw size l tail : l <> [] -> Z.of_nat (length l) < 2 ^ 63 ->
  copy_part None size (l ++ tail) (Z.of_nat (length l)) = Some (Some (Raw l)).
Proof using memory.
  intros Hl Hn. unfold copy_part. rewrite (new_z_size memory) by (destruct l; [done | cbn in *; lia]).
  rewrite mem_read_prefix by (rewrite length_app; lia). by rewrite Nat2Z.id, take_app_length.
Qed.

Lemma raw_priv_stored k l : one_of (key_type k) priv_types = false -> key_type k <> DAP_ENC_KEY_TYPE_SIG_PICNIC ->
  priv_key_data k = Some (Raw l) -> priv_key_data_size k = Z.of_nat (length l) -> l <> [] ->
  Z.of_nat (length l) < 2 ^ 63 -> stored_priv k l.
Proof using memory.
  intros Ht Hp Hd Hs Hl Hn. right. split; [done|]. split.
  - intros n. unfold dap_enc_key_serialize_priv_key. rewrite Hd, Hs, Ht.
    destruct (Z.eqb_spec (Z.of_nat (length l)) 0); [destruct l; [done | cbn in *; lia]|].
    by rewrite dup_raw.
  - intros k' tail Ht' Hd'. unfold dap_enc_key_deserialize_priv_key. rewrite Ht', Ht, Hd', copy_raw by done.
    cbn [mbind option_bind]. rewrite update_id by (cbn; congruence). by rewrite Hd, Hs.
Qed.

Lemma raw_pub_stored k l : one_of (key_type k) pub_types = false -> key_type k <> DAP_ENC_KEY_TYPE_SIG_PICNIC ->
  pub_key_data k = Some (Raw l) -> pub_key_data_size k = Z.of_nat (length l) -> l <> [] ->
  Z.of_nat (length l) < 2 ^ 63 -> stored_pub k l.
Proof using memory.
  intros Ht Hp Hd Hs Hl Hn. right. split; [done|]. split.
  - intros n. unfold dap_enc_key_serialize_pub_key. rewrite Hd, Hs, Ht.
    destruct (Z.eqb_spec (Z.of_nat (length l)) 0); [destruct l; [done | cbn in *; lia]|].
    by rewrite dup_raw.
  - intros k' tail Ht' Hd'. unfold dap_enc_key_deserialize_pub_key. rewrite Ht', Ht, Hd', copy_raw by done.
    cbn [mbind option_bind]. rewrite update_id by (cbn; congruence). by rewrite Hd, Hs.
Qed.
End Stored.

(** Objects of a scheme, when its callbacks invert each other on them. *)
Definition inverts (ser : option (kdata -> option (option (list Z) * Z)))
    (deser : option (list Z -> Z -> option (option kdata))) (d : kdata) (b : list Z) : Prop :=
  exists f g, ser = Some f /\ deser = Some g /\ b <> [] /\ f d = Some (Some b, Z.of_nat (length b)) /\
    forall tail, g (b ++ tail) (Z.of_nat (length b)) = Some (Some d).

Lemma callbacks_listed t l : one_of t l = true ->
  forallb (λ x, (0 <=? x) && (x <=? DAP_ENC_KEY_TYPE_LAST)) l = true -> callbacks_of t = Some (s_callbacks t).
Proof using.
  intros (x & Hin & ->%Z.eqb_eq)%existsb_exists Hl. rewrite forallb_forall in Hl. unfold callbacks_of. by rewrite (Hl x Hin).
Qed.

Lemma obj_priv_stored k d b : one_of (key_type k) priv_types = true -> priv_key_data k = Some d ->
  priv_key_data_size k <> 0 ->
  priv_key_data_size k = default (Z.of_nat (length b)) (deser_priv_key_size (s_callbacks (key_type k))) ->
  inverts (ser_priv_key (s_callbacks (key_type k))) (deser_priv_key (s_callbacks (key_type k))) d b -> stored_priv k b.
Proof using.
  intros Ht Hd Hz Hs (f & g & Ef & Eg & Hb & Hf & Hg). right. split; [done|].
  pose proof (callbacks_listed _ _ Ht eq_refl) as Ec.
  split.
  - intros n. unfold dap_enc_key_serialize_priv_key. rewrite Hd, Ht, Ec. destruct (Z.eqb_spec (priv_key_data_size k) 0); [done|].
    cbn [mbind option_bind]. by rewrite Ef.
  - intros k' tail Ht' Hd'. unfold dap_enc_key_deserialize_priv_key. rewrite Ht', Ht, Ec. cbn [mbind option_bind].
    rewrite Eg, Hg. cbn [mbind option_bind]. rewrite update_id, Hd, Hs; [done|]. cbn [key_type set_priv]. rewrite Ht'.
    intros E. rewrite E in Ht. done.
Qed.

Lemma obj_pub_stored k d b : one_of (key_type k) pub_types = true -> pub_key_data k = Some d ->
  pub_key_data_size k <> 0 ->
  pub_key_data_size k = default (Z.of_nat (length b)) (deser_pub_key_size (s_callbacks (key_type k))) ->
  inverts (ser_pub_key (s_callbacks (key_type k))) (deser_pub_key (s_callbacks (key_type k))) d b -> stored_pub k b.
Proof using.
  intros Ht Hd Hz Hs (f & g & Ef & Eg & Hb & Hf & Hg). right. split; [done|].
  pose proof (callbacks_listed _ _ Ht eq_refl) as Ec.
  split.
  - intros n. unfold dap_enc_key_serialize_pub_key. rewrite Hd, Ht, Ec. destruct (Z.eqb_spec (pub_key_data_size k) 0); [done|].
    cbn [mbind option_bind]. by rewrite Ef.
  - intros k' tail Ht' Hd'. unfold dap_enc_key_deserialize_pub_key. rewrite Ht', Ht, Ec. cbn [mbind option_bind].
    rewrite Eg, Hg. cbn [mbind option_bind]. rewrite update_id, Hd, Hs; [done|]. cbn [key_type set_pub]. rewrite Ht'.
    intros E. rewrite E in Ht. done.
Qed.

(** The bytes of a key give the key back.  When memory is available, a key
    whose parts survive their serializers is written as six fields and the
    parts, reading those bytes gives the same key, and a copy is equal to its
    original; a key with no part and no inheritor, though, cannot be copied. *)
Theorem key_roundtrip k sk pk inh : (forall s, calloc_ok s = true) -> key_ok k sk pk inh ->
  dap_enc_key_serialize k = Some (Some (key_bytes k sk pk inh), Z.of_nat (length (key_bytes k sk pk inh))) /\
  (sk ++ pk ++ inh <> [] ->
    dap_enc_key_deserialize (key_bytes k sk pk inh) (Z.of_nat (length (key_bytes k sk pk inh))) = Some (Some k) /\
    dap_enc_key_dup k = Some (Some k)) /\
  (sk ++ pk ++ inh = [] -> dap_enc_key_dup k = Some None).
Proof using.
  intros Hm Hk. split; [by apply key_serialize_bytes|]. split; [intros Hne|intros He].
  - split; [by apply key_deserialize_bytes | by eapply key_dup_same].
  - apply app_eq_nil in He as [-> [-> ->]%app_eq_nil]. unfold dap_enc_key_dup. pose proof (ok_type _ _ _ _ Hk) as Ht.
    destruct (Z.eqb_spec (key_type k) (-1)); [lia|]. rewrite (key_serialize_bytes Hm Hk). cbn [mbind option_bind].
    unfold dap_enc_key_deserialize. rewrite length_key_bytes. cbn [length Nat.add].
    change (Z.of_nat 44 <? 44) with false. cbn match. unfold key_bytes.
    rewrite (key_fields_read (k := k) (sk := []) (pk := []) (inh := [])) by (cbn; lia).
    cbn [mbind option_bind map key_fields fst snd lookup list_lookup default from_option id].
    change (negb (0 =? 0)) with false. cbn match. rewrite !le_value_bytes. cbn [length Z.of_nat].
    change (8 * Z.of_nat 4) with 32. rewrite (wrap_id 32) by (unfold fits; lia). unfold int32.
    destruct (Z.ltb_spec (key_type k) (2 ^ 31)); [|lia]. rewrite (ok_new _ _ _ _ Hk). reflexivity.
Qed.

(** Reading a key from untrusted bytes stays inside them.  For any bytes
    whose type field names an entry of the table (or no type), reading a key
    ends with a key or with none, whatever sizes the bytes announce; a type
    field outside the table makes the code read outside the table. *)
Theorem key_deserialize_safe buf v : schemes_safe -> Forall (fits 8) buf -> Z.of_nat (length buf) < 2 ^ 63 ->
  mem_le buf 40 4 = Some v ->
  (-1 <= int32 v <= DAP_ENC_KEY_TYPE_LAST -> is_Some (dap_enc_key_deserialize buf (Z.of_nat (length buf)))) /\
  ((int32 v < -1 \/ DAP_ENC_KEY_TYPE_LAST < int32 v) -> calloc_ok sizeof_enc_key = true ->
    dap_enc_key_deserialize buf (Z.of_nat (length buf)) = None).
Proof using.
  intros Hsafe Hb Hlt Hv. pose proof (type_field _ _ Hv) as Et.
  assert (Hn : 44 <= Z.of_nat (length buf)).
  { unfold mem_le in Hv. destruct (mem_read buf 40 _) eqn:E; [|done]. apply mem_read_bound in E. lia. }
  unfold dap_enc_key_deserialize. destruct (Z.ltb_spec (Z.of_nat (length buf)) 44); [lia|].
  rewrite key_fields_any by done.
  cbn [mbind option_bind map fst snd lookup list_lookup default from_option id].
  change (negb (0 =? 0)) with false. cbn match. rewrite Et. split.
  - intros Hr. unfold dap_enc_key_new at 1. destruct (Z.eqb_spec (int32 v) (-1)); [done|].
    destruct (DAP_NEW_Z_SIZE sizeof_enc_key) eqn:Ea; [|done]. cbn [negb].
    assert (Ec : callbacks_of (int32 v) = Some (s_callbacks (int32 v))).
    { unfold callbacks_of. destruct (Z.leb_spec 0 (int32 v)), (Z.leb_spec (int32 v) 100); try lia. done. }
    rewrite Ec. cbn [mbind option_bind]. set (k0 := match new_callback _ with Some f => _ | None => _ end).
    destruct (safe_new Hsafe (int32 v) k0) as (Hk & Hp & Hs & Hz).
    { unfold dap_enc_key_new. destruct (Z.eqb_spec (int32 v) (-1)); [lia|]. rewrite Ea, Ec. done. }
    change (Z.to_nat 44) with 44%nat. apply (restore_parts_total Hsafe); try done; try lia.
    + rewrite length_drop. lia.
    + by apply Forall_drop.
    + apply le_value_bound, Forall_take, Forall_drop, Hb.
    + apply le_value_bound, Forall_take, Forall_drop, Hb.
    + apply le_value_bound, Forall_take, Forall_drop, Hb.
  - intros Hr Ha. unfold dap_enc_key_new. destruct (Z.eqb_spec (int32 v) (-1)); [lia|].
    unfold DAP_NEW_Z_SIZE. rewrite Ha. cbn [andb negb]. change ((0 <? sizeof_enc_key) && (sizeof_enc_key <? 2 ^ 63)) with true. cbn [andb negb].
    unfold callbacks_of. destruct (Z.leb_spec 0 (int32 v)), (Z.leb_spec (int32 v) 100); try lia; done.
Qed.
End Keys.
End Alloc.
