(* ===== verification/HttpSimple.v ===== *)
(** * Simple HTTP processors (net/server/http_server/dap_http_simple.c)

    The processors the program registers for key exchange (dap_enc_http.c), stream
    control (dap_stream_ctl.c) and remote commands (dap_json_rpc.c): the constructor,
    the callbacks for headers and data, which collect the request in a block, and the
    reply buffer.  What is kept for a client is [dap_http_simple] of [HttpParse], the
    [_inheritor] of the client; its pointers to the socket, the worker and the client
    are left out.  A call that is queued for the thread of the worker is appended to
    [hs_queued]; from then on the client belongs to that thread, so the socket is no
    longer read.  Running that call, which answers, is not modelled.

    The theorem is that these processors satisfy what the reader of requests expects
    of one ([reader_proc] of [HttpRun]), and that the queued call finds exactly the
    bytes of the request. *)

From S2P Require Import Prelude HttpParse Http HttpRun.
From S2P Require EncKey.
From Stdlib Require Import Ascii String.
From stdpp Require Import list gmap.
Local Open Scope Z_scope.

Abbreviation DAP_QUEUE_MSG_PRIORITY_NORMAL := 2.
Abbreviation DAP_QUEUE_MSG_PRIORITY_HIGH := 3.

Section Simple.
(** Whether memory is obtained, and what the new bytes of a grown block hold. *)
Context (calloc_ok : Z -> bool) (fresh : Z).

Abbreviation new_ok n := (EncKey.DAP_NEW_Z_SIZE calloc_ok n).

Definition sizeof_dap_http_simple : Z := 416.

Definition set_request (x : dap_http_simple) b n m : dap_http_simple :=
  HttpSimple b n m (hs_reply_byte x) (hs_reply_size x) (hs_reply_size_max x) (hs_ext_headers x)
    (hs_generate_default_header x) (hs_queued x).
Definition add_queued (x : dap_http_simple) (p : Z) : dap_http_simple :=
  HttpSimple (hs_request x) (hs_request_size x) (hs_request_size_max x) (hs_reply_byte x) (hs_reply_size x)
    (hs_reply_size_max x) (hs_ext_headers x) (hs_generate_default_header x) (hs_queued x ++ [p]).
Definition set_reply_block (x : dap_http_simple) b n : dap_http_simple :=
  HttpSimple (hs_request x) (hs_request_size x) (hs_request_size_max x) b n
    (hs_reply_size_max x) (hs_ext_headers x) (hs_generate_default_header x) (hs_queued x).

(** What the constructor leaves. *)
Definition new_simple (reply_size_max : Z) : dap_http_simple :=
  HttpSimple None 0 0 (if new_ok reply_size_max then Some (zeros (Z.to_nat reply_size_max)) else None) 0 reply_size_max [] true [].

(** The block of the structure is not checked: without memory it is a null pointer. *)
Definition s_http_client_new (reply_size_max : Z) (a_http_client : dap_http_client) : option dap_http_client :=
  if negb (new_ok sizeof_dap_http_simple) then None
  else Some (set_inheritor a_http_client (Some (new_simple reply_size_max))).

Definition s_http_client_headers_read (a_http_client : dap_http_client) : option (dap_http_client * bool) :=
  o ← dap_http_header_find (in_headers a_http_client) (txt "Origin" ++ [0]);
  cl ← match o with
       | Some _ =>
         l ← dap_http_header_add (out_headers a_http_client) (txt "Access-Control-Allow-Origin" ++ [0]) (txt "*" ++ [0]);
         Some (set_out_headers a_http_client l)
       | None => Some a_http_client
       end;
  x ← http_inheritor cl;
  Some (if negb (in_content_length cl =? 0) then
          let n := wrap 64 (in_content_length cl + 1) in
          (set_inheritor cl (Some (if new_ok n then set_request x (Some (zeros (Z.to_nat n))) (hs_request_size x) n
                                   else set_request x None (hs_request_size x) 0)), true)
        else (set_inheritor cl (Some (add_queued x DAP_QUEUE_MSG_PRIORITY_HIGH)), false)).

(** [realloc] of a block, which may be a null pointer. *)
Definition DAP_REALLOC (b : option (list Z)) (n : Z) : option (list Z) :=
  if new_ok n then
    let l := take (Z.to_nat n) (default [] b) in Some (l ++ replicate (Z.to_nat n - length l) fresh)
  else None.

(** [*ret = (int)buf_in_size]: the low half of the number. *)
Definition set_int (a_ret : nat) (n : Z) : nat :=
  Z.to_nat (Z.shiftl (Z.shiftr (Z.of_nat a_ret) 32) 32 + wrap 32 n).

(** [buf_in] are the received bytes, [a_ret] the number the caller passes.  A
    client without its structure makes the reader go on with a null buffer. *)
Definition s_http_client_data_read (a_http_client : dap_http_client) (buf_in : list Z) (a_ret : nat)
    : option (nat * dap_http_client * bool) :=
  x ← http_inheritor a_http_client;
  let buf_in_size := Z.of_nat (length buf_in) in
  let bytes_to_read :=
    if wrap 64 (buf_in_size + hs_request_size x) <? in_content_length a_http_client then buf_in_size
    else wrap 64 (in_content_length a_http_client - hs_request_size x) in
  let collected x :=
    let n := set_int a_ret buf_in_size in
    if in_content_length a_http_client <=? hs_request_size x
    then Some (n, set_inheritor a_http_client (Some (add_queued x DAP_QUEUE_MSG_PRIORITY_NORMAL)), false)
    else Some (n, set_inheritor a_http_client (Some x), true) in
  if bytes_to_read =? 0 then collected x else
  let m := wrap 64 (hs_request_size x + bytes_to_read) in
  let grown :=
    if hs_request_size_max x <? m then
      let m := wrap 64 (m + 1) in
      match DAP_REALLOC (hs_request x) m with
      | None => (true, set_request x (hs_request x) (hs_request_size x) m)
      | Some b => (false, set_request x (Some b) (hs_request_size x) m)
      end
    else (false, x) in
  let '(failed, x) := grown in
  if failed : bool then Some (a_ret, set_inheritor a_http_client (Some x), false) else
  x ← match hs_request x with
      | None => Some x
      | Some b =>
        d ← mem_read buf_in 0 bytes_to_read;
        b ← mem_write b (hs_request_size x) d;
        Some (set_request x (Some b) (wrap 64 (hs_request_size x + bytes_to_read)) (hs_request_size_max x))
      end;
  collected x.

Definition s_http_client_headers_write (cl_ht : dap_http_client) : option (bool * dap_http_client) :=
  match http_inheritor cl_ht with
  | None => Some (false, cl_ht)
  | Some l_hs =>
    l ← foldl (λ l i, l ← l; dap_http_header_add l (name i) (value i)) (Some (out_headers cl_ht)) (hs_ext_headers l_hs);
    Some (negb (hs_generate_default_header l_hs), set_out_headers cl_ht l)
  end.

(** The processor, as [dap_http_add_proc] stores it: no cached reply and no check
    of the access. *)
Definition dap_http_simple_proc_add (a_reply_size_max : Z) : option dap_http_url_proc :=
  if negb (new_ok 16) then None else
  Some (UrlProc None (Some (s_http_client_new a_reply_size_max)) (Some s_http_client_headers_read)
          (Some s_http_client_headers_write) (Some s_http_client_data_read) None).

(** Appends to the reply, cut to the room that is left. *)
Definition dap_http_simple_reply (x : dap_http_simple) (a_data : list Z) : option (Z * dap_http_simple) :=
  let a_data_size := Z.of_nat (length a_data) in
  let room := wrap 64 (hs_reply_size_max x - hs_reply_size x) in
  let l_data_copy_size := if room <? a_data_size then room else a_data_size in
  b ← hs_reply_byte x;
  d ← mem_read a_data 0 l_data_copy_size;
  b ← mem_write b (hs_reply_size x) d;
  Some (l_data_copy_size, set_reply_block x (Some b) (wrap 64 (hs_reply_size x + l_data_copy_size))).
End Simple.

(** ** Headers *)

Lemma strn_eq_total s n : forall m, (n <= length m)%nat -> is_Some (strn_eq m (s ++ [0]) n).
Proof.
  revert s. induction n as [|n IH]; intros s m Hm; [by destruct m; eexists|]. destruct m as [|a m]; [cbn in Hm; lia|]. cbn [length] in Hm.
  destruct s as [|b s]; cbn [app strn_eq].
  - destruct (a =? 0); cbn [negb]; by eexists.
  - destruct (negb _); [by eexists|]. destruct (a =? 0); [by eexists|]. apply IH. lia.
Qed.

Lemma header_find_total l s : Forall name_ok l -> is_Some (dap_http_header_find l (s ++ [0])).
Proof.
  induction 1 as [|h l Hh Hl IH]; [by eexists|]. cbn [dap_http_header_find].
  destruct (strn_eq_total s (Z.to_nat (namesz h)) (name h) Hh) as [b ->]. cbn [mbind option_bind]. destruct b; [by eexists | done].
Qed.

Section Reads.
Context (calloc_ok : Z -> bool) (fresh : Z).
Hypothesis memory : forall n, calloc_ok n = true.

Abbreviation new := (new_simple calloc_ok).

Lemma new_ok_true n : EncKey.DAP_NEW_Z_SIZE calloc_ok n = (0 <? n) && (n <? 2 ^ 63).
Proof using memory. unfold EncKey.DAP_NEW_Z_SIZE. rewrite memory. apply andb_true_r. Qed.

(** The client after the headers: its structure has the block for the request, or
    its call is queued. *)
Lemma headers_read_spec cl x : http_inheritor cl = Some x -> Forall name_ok (in_headers cl) ->
  exists cl', s_http_client_headers_read calloc_ok cl = Some (cl', negb (in_content_length cl =? 0)) /\
    request_of cl' = request_of cl /\
    http_inheritor cl' = Some (if in_content_length cl =? 0 then add_queued x DAP_QUEUE_MSG_PRIORITY_HIGH else
      let n := wrap 64 (in_content_length cl + 1) in
      if EncKey.DAP_NEW_Z_SIZE calloc_ok n then set_request x (Some (zeros (Z.to_nat n))) (hs_request_size x) n
      else set_request x None (hs_request_size x) 0).
Proof using.
  intros Hx Hnm. unfold s_http_client_headers_read. destruct (header_find_total (in_headers cl) (txt "Origin") Hnm) as [o ->].
  cbn [mbind option_bind].
  assert (Hadd : exists cl1, match o with
    | Some _ => l ← dap_http_header_add (out_headers cl) (txt "Access-Control-Allow-Origin" ++ [0]) (txt "*" ++ [0]); Some (set_out_headers cl l)
    | None => Some cl end = Some cl1 /\ request_of cl1 = request_of cl /\ http_inheritor cl1 = http_inheritor cl /\
    in_content_length cl1 = in_content_length cl).
  { destruct o; [|by exists cl]. eexists. split; [reflexivity|]. done. }
  destruct Hadd as (cl1 & -> & Er & Ei & El). cbn [mbind option_bind]. rewrite Ei, Hx. cbn [mbind option_bind]. rewrite El.
  destruct (in_content_length cl =? 0); cbn [negb]; eexists; (split; [reflexivity|]); by split.
Qed.

Lemma set_int_small r n : (Z.of_nat r < 2 ^ 32) -> 0 <= n < 2 ^ 31 -> set_int r n = Z.to_nat n.
Proof using.
  intros Hr Hn. unfold set_int. rewrite (Z.shiftr_div_pow2 (Z.of_nat r)), Z.div_small by lia. rewrite Z.shiftl_0_l, Z.add_0_l.
  by rewrite wrap_id by (unfold fits; lia).
Qed.

(** The structure of a client that has [d] of the [L] bytes of its request. *)
Definition collecting (m L : Z) (d : list Z) : dap_http_simple :=
  set_request (new m) (Some (d ++ zeros (Z.to_nat (L + 1) - length d))) (Z.of_nat (length d)) (L + 1).

(** Bytes arrive: as many as are wanted are kept, the others are dropped; when the
    request is complete its call is queued and the socket is not read any more. *)
Lemma data_read_collects cl m L d buf r : http_inheritor cl = Some (collecting m L d) -> in_content_length cl = L ->
  Z.of_nat (length d) < L < 2 ^ 63 - 1 -> 0 < Z.of_nat (length buf) < 2 ^ 31 -> Z.of_nat r < 2 ^ 32 ->
  let d' := take (Z.to_nat L) (d ++ buf) in
  let full := L <=? Z.of_nat (length d + length buf) in
  s_http_client_data_read calloc_ok fresh cl buf r
  = Some (length buf, set_inheritor cl (Some (if full then add_queued (collecting m L d') DAP_QUEUE_MSG_PRIORITY_NORMAL
                                              else collecting m L d')), negb full).
Proof using.
  intros Hx HL Hd Hb Hr d' full. unfold s_http_client_data_read. rewrite Hx, HL. cbn [mbind option_bind].
  set (x := collecting m L d). change (hs_request_size x) with (Z.of_nat (length d)). change (hs_request_size_max x) with (L + 1).
  change (hs_request x) with (Some (d ++ zeros (Z.to_nat (L + 1) - length d))). rewrite !(wrap_id 64) by (unfold fits; lia).
  set (k := Z.of_nat (length buf) `min` (L - Z.of_nat (length d))).
  assert (Ek : (if Z.of_nat (length buf) + Z.of_nat (length d) <? L then Z.of_nat (length buf) else L - Z.of_nat (length d)) = k).
  { unfold k. destruct (Z.ltb_spec (Z.of_nat (length buf) + Z.of_nat (length d)) L); lia. }
  rewrite Ek, (proj2 (Z.eqb_neq k 0)) by lia. rewrite !(wrap_id 64) by (unfold fits; lia).
  rewrite (proj2 (Z.ltb_ge (L + 1) _)) by lia. rewrite mem_read_prefix by lia. cbn [mbind option_bind].
  change (hs_request x) with (Some (d ++ zeros (Z.to_nat (L + 1) - length d))).
  change (hs_request_size x) with (Z.of_nat (length d)). change (hs_request_size_max x) with (L + 1). rewrite !(wrap_id 64) by (unfold fits; lia).
  assert (Ez : zeros (Z.to_nat (L + 1) - length d) = zeros (Z.to_nat k) ++ zeros (Z.to_nat (L + 1) - length d - Z.to_nat k)).
  { unfold zeros. rewrite <- replicate_add. f_equal. lia. }
  rewrite Ez, (mem_write_app d) by (rewrite length_take; unfold zeros; rewrite length_replicate; lia). cbn [mbind option_bind].
  assert (Ed : d ++ take (Z.to_nat k) buf = d').
  { unfold d'. rewrite take_app. rewrite (take_ge d) by lia. f_equal. unfold k.
    destruct (Z.le_ge_cases (Z.of_nat (length buf)) (L - Z.of_nat (length d))).
    - rewrite !take_ge by lia. done.
    - f_equal. lia. }
  assert (Ld : length d' = (length d + Z.to_nat k)%nat) by (rewrite <- Ed, length_app, length_take; lia).
  rewrite app_assoc, Ed. set (y := set_request x _ _ _).
  assert (Ey : y = collecting m L d').
  { unfold y, collecting, x. rewrite Ld. unfold set_request. cbn. do 2 f_equal; [|lia]. f_equal. f_equal. lia. }
  rewrite Ey. change (hs_request_size (collecting m L d')) with (Z.of_nat (length d')).
  rewrite set_int_small, Nat2Z.id by lia.
  assert (Ef : (L <=? Z.of_nat (length d')) = full) 
    by (unfold full; destruct (Z.leb_spec L (Z.of_nat (length d'))), (Z.leb_spec L (Z.of_nat (length d + length buf))); lia).
  rewrite Ef. by destruct full.
Qed.

(** A length for which no block was obtained: the block grows with the data. *)
Lemma huge_length cl m buf r : http_inheritor cl = Some (set_request (new m) None 0 0) ->
  2 ^ 63 - 1 <= in_content_length cl < 2 ^ 64 -> 0 < Z.of_nat (length buf) < 2 ^ 31 -> Z.of_nat r < 2 ^ 32 ->
  exists n cl' r', s_http_client_data_read calloc_ok fresh cl buf r = Some (n, cl', r') /\ (length buf <= n)%nat.
Proof using memory.
  intros Hx HL Hb Hr. unfold s_http_client_data_read. rewrite Hx. cbn [mbind option_bind set_request hs_request_size hs_request_size_max hs_request].
  rewrite Z.add_0_r, Z.sub_0_r, (wrap_id 64 (Z.of_nat (length buf))) by (unfold fits; lia).
  rewrite (proj2 (Z.ltb_lt (Z.of_nat (length buf)) (in_content_length cl))), (proj2 (Z.eqb_neq _ 0)) by lia.
  rewrite Z.add_0_l, (wrap_id 64 (Z.of_nat (length buf))) by (unfold fits; lia).
  rewrite (proj2 (Z.ltb_lt 0 (Z.of_nat (length buf)))) by lia. rewrite (wrap_id 64) by (unfold fits; lia).
  unfold DAP_REALLOC. rewrite new_ok_true.
  rewrite (proj2 (Z.ltb_lt 0 _)), (proj2 (Z.ltb_lt _ (2 ^ 63))) by lia. cbn [andb default from_option id].
  rewrite take_nil. cbn [length app hs_request set_request hs_request_size]. rewrite mem_read_all by done. cbn [mbind option_bind].
  set (blk := replicate _ fresh). assert (Lb : length blk = S (length buf)) by (unfold blk; rewrite length_replicate; lia).
  rewrite (mem_write_start blk) by lia. cbn [mbind option_bind hs_request_size set_request].
  rewrite Z.add_0_l, (wrap_id 64) by (unfold fits; lia). rewrite (proj2 (Z.leb_gt _ _)) by lia.
  eexists _, _, _. split; [reflexivity|]. rewrite set_int_small by lia. lia.
Qed.

(** The simple processors read requests. *)
Lemma simple_reads m p : dap_http_simple_proc_add calloc_ok fresh m = Some p ->
  reader_proc (λ x, x = Some (new m)) p /\ data_read_callback p = Some (s_http_client_data_read calloc_ok fresh).
Proof using memory.
  unfold dap_http_simple_proc_add. destruct (negb _); [done|]. intros [= <-]. split; [|done]. split; cbn; try done.
  - intros cl. unfold s_http_client_new, call_new, sizeof_dap_http_simple. cbn. unfold s_http_client_new, sizeof_dap_http_simple.
    rewrite new_ok_true. cbn [negb Z.ltb]. eexists. split; [reflexivity|]. done.
  - intros cl Hx Hnm. destruct (headers_read_spec cl _ Hx Hnm) as (cl' & E & Er & _). by exists cl', (negb (in_content_length cl =? 0)).
  - intros f cl cl' r body [= <-] Hx Hnm Hh HL Hne Hb. assert (0 < length body)%nat by (destruct body; [done | cbn; lia]).
    destruct (headers_read_spec cl _ Hx Hnm) as (cl1 & E & Er & Ei). unfold call_headers_read in Hh. cbn in Hh. rewrite E in Hh.
    injection Hh as <- _. rewrite (proj2 (Z.eqb_neq _ 0)) in Ei by lia. cbv zeta iota in Ei.
    assert (El : in_content_length cl1 = in_content_length cl) by (unfold request_of in Er; by simplify_eq).
    set (cl2 := set_state cl1 DAP_HTTP_CLIENT_STATE_DATA). set (L := in_content_length cl) in *.
    destruct (Z.ltb_spec L (2 ^ 63 - 1)) as [Hs|Hbig].
    + rewrite wrap_id, new_ok_true, (proj2 (Z.ltb_lt 0 _)), (proj2 (Z.ltb_lt _ (2 ^ 63))) in Ei by (unfold fits; lia).
      eexists (length body), _, _. split; [|done].
      apply (data_read_collects cl2 m L [] body 2); try done; [|cbn; lia | lia].
      change (http_inheritor cl2) with (http_inheritor cl1). rewrite Ei. unfold collecting. cbn. by rewrite Nat.sub_0_r.
    + apply (huge_length cl2 m body 2); try done; [|change (in_content_length cl2) with (in_content_length cl1); rewrite El; lia | lia].
      change (http_inheritor cl2) with (http_inheritor cl1). rewrite Ei. cbn. f_equal.
      rewrite new_ok_true. unfold wrap. destruct (Z.eq_dec L (2 ^ 64 - 1)) as [->|]; [done|].
      rewrite Z.mod_small, (proj2 (Z.ltb_ge _ (2 ^ 63))) by lia. by rewrite andb_false_r.
Qed.
(** A request whose data arrives with its headers, followed by other bytes: the
    queued call finds the block with exactly the announced bytes and a terminator. *)
Lemma simple_data_given m p cl b tl : dap_http_simple_proc_add calloc_ok fresh m = Some p ->
  http_inheritor cl = Some (new m) -> Forall name_ok (in_headers cl) -> in_content_length cl = Z.of_nat (length b) ->
  b <> [] -> Z.of_nat (length (b ++ tl)) < 2 ^ 31 ->
  exists cl', data_given p (s_http_client_data_read calloc_ok fresh) cl (b ++ tl) = Some (cl', false) /\
    request_of cl' = request_of (set_state cl DAP_HTTP_CLIENT_STATE_DATA) /\
    http_inheritor cl' = Some (add_queued (collecting m (Z.of_nat (length b)) b) DAP_QUEUE_MSG_PRIORITY_NORMAL).
Proof using memory.
  unfold dap_http_simple_proc_add. destruct (negb _); [done|]. intros [= <-] Hx Hnm HL Hb Hl.
  assert (0 < length b)%nat by (destruct b; [done | cbn; lia]). rewrite length_app in Hl.
  destruct (headers_read_spec cl _ Hx Hnm) as (cl1 & E & Er & Ei). unfold data_given, call_headers_read.
  cbn [headers_read_callback]. rewrite E. cbn [mbind option_bind]. rewrite HL in *.
  rewrite (proj2 (Z.eqb_neq _ 0)) in Ei |- * by lia. cbv zeta iota in Ei.
  rewrite wrap_id, new_ok_true, (proj2 (Z.ltb_lt 0 _)), (proj2 (Z.ltb_lt _ (2 ^ 63))) in Ei by (unfold fits; lia).
  rewrite bool_decide_false by (by destruct b). set (cl2 := set_state cl1 DAP_HTTP_CLIENT_STATE_DATA).
  assert (El : in_content_length cl2 = Z.of_nat (length b)) by (rewrite <- HL; unfold request_of in Er; cbn; by simplify_eq).
  assert (Hi : http_inheritor cl2 = Some (collecting m (Z.of_nat (length b)) [])).
  { change (http_inheritor cl2) with (http_inheritor cl1). rewrite Ei. unfold collecting. cbn. by rewrite Nat.sub_0_r. }
  rewrite (data_read_collects cl2 m (Z.of_nat (length b)) [] (b ++ tl) 2 Hi El); [|cbn; lia | rewrite length_app; lia | lia].
  cbn [mbind option_bind app length Nat.add]. rewrite length_app, (proj2 (Z.leb_le _ _)) by lia. cbn [negb andb].
  rewrite Nat2Z.id, take_app_length. eexists. split; [reflexivity|]. split; [|done].
  unfold request_of in Er |- *. cbn. simplify_eq. congruence.
Qed.
End Reads.

(** ** A request for stream control *)

Definition ctl_proc : dap_http_url_proc :=
  default (UrlProc None None None None None None) (dap_http_simple_proc_add (λ _, true) 0 14096).
Definition sample_http : http :=
  HttpState {[ txt "/a" := ctl_proc ]} dap_http_client_new None sample_request (length sample_request) true [].

Lemma http_request_read_witness :
  exists cl s' x, dap_http_client_read [] [] (λ _, []) (λ _, []) 0 false true sample_http = Some s' /\
    c_text (url_path cl) = Some (txt "b") /\ in_content_length cl = 2 /\
    field <$> in_headers cl = [(txt "Content-Length", txt "2")] /\ ready_to_read s' = false /\
    http_inheritor (client s') = Some x /\ hs_request x = Some (txt "hi" ++ [0]) /\ hs_request_size x = 2 /\
    hs_queued x = [DAP_QUEUE_MSG_PRIORITY_NORMAL].
Proof.
  assert (Hp : dap_http_simple_proc_add (λ _, true) 0 14096 = Some ctl_proc) by reflexivity.
  destruct (simple_reads (λ _, true) 0 (λ _, eq_refl) 14096 ctl_proc Hp) as [Hr Hd].
  destruct (http_request_read [] [] (λ _, []) (λ _, []) 0 (λ x, x = Some (new_simple (λ _, true) 14096)) sample_http
    (txt "POST") (txt "/a") (txt "b") (Some (txt "x=1")) 49 [length_header]
    (txt "hi") ctl_proc (s_http_client_data_read (λ _, true) 0)) as (cl & s' & r & E & _ & _ & _ & _ & Hu & _ & Hh & Hn & Hm & Hi & Hg & Hy).
  - done.
  - apply lookup_singleton_eq.
  - exact Hr.
  - exact Hd.
  - cbn. lia.
  - apply sample_ok.
  - cbn. lia.
  - exists []. by rewrite app_nil_r.
  - destruct (simple_data_given (λ _, true) 0 (λ _, eq_refl) 14096 ctl_proc cl (txt "hi") [] Hp Hi Hm Hn) as (cl' & Eg & _ & Ex);
      [done | cbn; lia|].
    rewrite app_nil_r, Hg in Eg. injection Eg as Ec ->. rewrite <- Ec in Ex. eexists cl, s', _.
    split; [exact E|]. split; [exact Hu|]. split; [exact Hn|]. split; [exact Hh|]. split; [exact Hy|]. split; [exact Ex|].
    split; [reflexivity|]. split; reflexivity.
Defined.
