(* ===== verification/DilithiumOpen.v ===== *)
(** * Opening Dilithium signatures (crypto/src/sig_dilithium/)

    What [dilithium_crypto_sign_open] (dilithium_sign.c) does with the bytes of a
    signature and a public key that anyone may have made: the parameter table of
    dilithium_params.c, the checks of the sizes, the unpacking of both
    (dilithium_packing.c and the unpacking of dilithium_poly.c) and the check of the
    norm.  A byte is read with [!!] and [mem_read], a coefficient is stored only
    inside its polynomial, so a result [None] is an access outside a block.  What
    is computed from the unpacked values, on local arrays, is an argument
    [equation].  The theorem of this file is that opening never leaves its blocks,
    whatever they hold. *)

From S2P Require Import Prelude.
Local Open Scope Z_scope.

Record dilithium_param := Param {
  kind : Z;
  PARAM_K : Z;
  PARAM_L : Z;
  PARAM_ETA : Z;
  PARAM_SETABITS : Z;
  PARAM_BETA : Z;
  PARAM_OMEGA : Z;
  PARAM_POL_SIZE_PACKED : Z;
  PARAM_POLT1_SIZE_PACKED : Z;
  PARAM_POLT0_SIZE_PACKED : Z;
  PARAM_POLETA_SIZE_PACKED : Z;
  PARAM_POLZ_SIZE_PACKED : Z;
  PARAM_POLW1_SIZE_PACKED : Z;
  PARAM_POLVECK_SIZE_PACKED : Z;
  PARAM_POLVECL_SIZE_PACKED : Z;
  CRYPTO_PUBLICKEYBYTES : Z;
  CRYPTO_SECRETKEYBYTES : Z;
  CRYPTO_BYTES : Z;
}.

Abbreviation MODE_0 := 0.
Abbreviation MODE_1 := 1.
Abbreviation MODE_2 := 2.
Abbreviation MODE_3 := 3.

Definition dilithium_params : list dilithium_param := [
  Param MODE_0 3 2 7 4 375 64 736 288 448 128 640 128 2208 1472 896 2096 1387;
  Param MODE_1 4 3 6 4 325 80 736 288 448 128 640 128 2944 2208 1184 2800 2044;
  Param MODE_2 5 4 5 4 275 96 736 288 448 128 640 128 3680 2944 1472 3504 2701;
  Param MODE_3 6 5 3 3 175 120 736 288 448 96 640 128 4416 3680 1760 3856 3366].

Definition dilithium_params_init (a_kind : Z) : option dilithium_param :=
  if (MODE_0 <=? a_kind) && (a_kind <=? MODE_3) then dilithium_params !! Z.to_nat a_kind else None.

Abbreviation SEEDBYTES := 32%nat.
Abbreviation CRHBYTES := 48.
Abbreviation NN := 256.
Abbreviation Q := 8380417.
Abbreviation GAMMA1 := 523776.

(** A polynomial is the list of its [NN] coefficients, each [uint32_t]. *)
Abbreviation poly := (list Z).

(** One round of the loop of [polyt1_unpack]: nine bytes, eight coefficients. *)
Definition t1_round (a : list Z) (i : nat) : option (list Z) :=
  b0 ← a !! (9 * i)%nat; b1 ← a !! (9 * i + 1)%nat; b2 ← a !! (9 * i + 2)%nat; b3 ← a !! (9 * i + 3)%nat;
  b4 ← a !! (9 * i + 4)%nat; b5 ← a !! (9 * i + 5)%nat; b6 ← a !! (9 * i + 6)%nat; b7 ← a !! (9 * i + 7)%nat;
  b8 ← a !! (9 * i + 8)%nat;
  Some [Z.lor b0 (Z.shiftl (Z.land b1 0x01) 8);
        Z.lor (Z.shiftr b1 1) (Z.shiftl (Z.land b2 0x03) 7);
        Z.lor (Z.shiftr b2 2) (Z.shiftl (Z.land b3 0x07) 6);
        Z.lor (Z.shiftr b3 3) (Z.shiftl (Z.land b4 0x0F) 5);
        Z.lor (Z.shiftr b4 4) (Z.shiftl (Z.land b5 0x1F) 4);
        Z.lor (Z.shiftr b5 5) (Z.shiftl (Z.land b6 0x3F) 3);
        Z.lor (Z.shiftr b6 6) (Z.shiftl (Z.land b7 0x7F) 2);
        Z.lor (Z.shiftr b7 7) (Z.shiftl (Z.land b8 0xFF) 1)].

Definition polyt1_unpack (a : list Z) : option poly := (λ l, concat l) <$> mapM (t1_round a) (seq 0 32).

(** [GAMMA1 - 1 - x], moved into the range of [Q] when it is negative. *)
Definition z_coeff (x : Z) : Z :=
  let r := wrap 32 (GAMMA1 - 1 - x) in
  wrap 32 (r + Z.land (if r <? 2 ^ 31 then 0 else 2 ^ 32 - 1) Q).

(** One round of the loop of [polyz_unpack]: five bytes, two coefficients. *)
Definition z_round (a : list Z) (i : nat) : option (list Z) :=
  b0 ← a !! (5 * i)%nat; b1 ← a !! (5 * i + 1)%nat; b2 ← a !! (5 * i + 2)%nat; b3 ← a !! (5 * i + 3)%nat;
  b4 ← a !! (5 * i + 4)%nat;
  Some [z_coeff (Z.lor (Z.lor b0 (Z.shiftl b1 8)) (Z.shiftl (Z.land b2 0x0F) 16));
        z_coeff (Z.lor (Z.lor (Z.shiftr b2 4) (Z.shiftl b3 4)) (Z.shiftl b4 12))].

Definition polyz_unpack (a : list Z) : option poly := (λ l, concat l) <$> mapM (z_round a) (seq 0 128).

Definition dilithium_unpack_pk (pk : list Z) (p : dilithium_param) : option (list Z * list poly) :=
  rho ← mem_read pk 0 (Z.of_nat SEEDBYTES);
  let pk := drop SEEDBYTES pk in
  t1 ← mapM (λ i, polyt1_unpack (drop (i * Z.to_nat (PARAM_POLT1_SIZE_PACKED p)) pk)) (seq 0 (Z.to_nat (PARAM_K p)));
  Some (rho, t1).

(** ** The hint vector *)

(** The positions [j], [n] of them, of the ones of a polynomial; they must rise
    from the first, [k], on.  The inner result [None] is a refusal. *)
Fixpoint hint_row (sig : list Z) (k j n : nat) (coeffs : poly) : option (option poly) :=
  match n with
  | O => Some (Some coeffs)
  | S n =>
    x ← sig !! j;
    bad ← (if (k <? j)%nat then y ← sig !! (j - 1)%nat; Some (x <=? y) else Some false);
    if bad : bool then Some None
    else if (0 <=? x) && (x <? Z.of_nat (length coeffs)) then hint_row sig k (S j) n (<[Z.to_nat x := 1]> coeffs)
    else None
  end.

(** The polynomials [i], [n] of them, and the end of the last row. *)
Fixpoint hint_rows (sig : list Z) (omega i n : nat) (k : nat) : option (option (list poly * nat)) :=
  match n with
  | O => Some (Some ([], k))
  | S n =>
    e ← sig !! (omega + i)%nat;
    if (e <? Z.of_nat k) || (Z.of_nat omega <? e) then Some None else
    row ← hint_row sig k k (Z.to_nat e - k) (replicate (Z.to_nat NN) 0);
    match row with
    | None => Some None
    | Some row =>
      rows ← hint_rows sig omega (S i) n (Z.to_nat e);
      Some (match rows with None => None | Some (rows, k) => Some (row :: rows, k) end)
    end
  end.

(** [sig[j] = 0] for [n] positions. *)
Fixpoint all_zero (sig : list Z) (j n : nat) : option bool :=
  match n with
  | O => Some true
  | S n => x ← sig !! j; if x =? 0 then all_zero sig (S j) n else Some false
  end.

(** The challenge: the positions of its coefficients are bits, their signs are the
    bits of [signs] in order; [mask] leaves 64 bits after 64 of them. *)
Fixpoint unpack_c (sig : list Z) (signs mask : Z) (i n : nat) : option poly :=
  match n with
  | O => Some []
  | S n =>
    b ← sig !! (i / 8)%nat;
    if Z.testbit b (Z.of_nat (i mod 8)) then
      c ← unpack_c sig signs (wrap 64 (Z.shiftl mask 1)) (S i) n;
      Some ((if Z.land signs mask =? 0 then 1 else Q - 1) :: c)
    else c ← unpack_c sig signs mask (S i) n; Some (0 :: c)
  end.

(** [signs |= (uint64_t)sig[NN/8+i] << 8*i], from [i] on. *)
Fixpoint unpack_signs (sig : list Z) (i n : nat) : option Z :=
  match n with
  | O => Some 0
  | S n =>
    b ← sig !! (32 + i)%nat; r ← unpack_signs sig (S i) n;
    Some (Z.lor (wrap 64 (Z.shiftl b (8 * Z.of_nat i))) r)
  end.

Definition dilithium_unpack_sig (sig : list Z) (p : dilithium_param) : option (option (list poly * list poly * poly)) :=
  let omega := Z.to_nat (PARAM_OMEGA p) in
  let K := Z.to_nat (PARAM_K p) in
  let L := Z.to_nat (PARAM_L p) in
  let packed := Z.to_nat (PARAM_POLZ_SIZE_PACKED p) in
  z ← mapM (λ i, polyz_unpack (drop (i * packed) sig)) (seq 0 L);
  let sig := drop (L * packed) sig in
  h ← hint_rows sig omega 0 K 0;
  match h with
  | None => Some None
  | Some (h, k) =>
    ok ← all_zero sig k (omega - k);
    if negb ok then Some None else
    let sig := drop (omega + K) sig in
    signs ← unpack_signs sig 0 8;
    if negb (Z.shiftr signs 60 =? 0) then Some None else
    c ← unpack_c sig signs 1 0 (Z.to_nat NN);
    Some (Some (z, h, c))
  end.

(** ** The norm *)

Definition poly_chknorm (a : poly) (B : Z) : bool :=
  existsb (λ c,
    let t := wrap 32 ((Q - 1) / 2 - c) in
    let t := if t <? 2 ^ 31 then t else 2 ^ 32 - 1 - t in
    B <=? wrap 32 ((Q - 1) / 2 - t)) a.

Definition polyvecl_chknorm (v : list poly) (bound : Z) : bool := existsb (λ a, poly_chknorm a bound) v.

(** ** Opening *)

Section Open.
Variable malloc_ok : Z -> bool.

(** The equation of the scheme, on the unpacked public key and signature, the
    message and the bytes of the public key. *)
Variable equation : dilithium_param -> list Z -> list poly -> list poly -> list poly -> poly -> list Z -> list Z -> bool.

Definition sizeof_dilithium_param : Z := 72.

Definition dilithium_crypto_sign_open (m : list Z) (mlen sig_kind : Z) (sig_data : list Z) (sig_len pk_kind : Z) (pk : list Z)
    : option Z :=
  if negb (pk_kind =? sig_kind) then Some (-1)
  else if negb (malloc_ok sizeof_dilithium_param) then Some (-7)
  else match dilithium_params_init pk_kind with
  | None => Some (-2)
  | Some p =>
    if sig_len <? CRYPTO_BYTES p then Some (-3)
    else if negb (sig_len - CRYPTO_BYTES p =? mlen) then Some (-4)
    else
      '(rho, t1) ← dilithium_unpack_pk pk p;
      s ← dilithium_unpack_sig sig_data p;
      match s with
      | None => Some (-5)
      | Some (z, h, c) =>
        if polyvecl_chknorm z (GAMMA1 - PARAM_BETA p) then Some (-6)
        else if negb (malloc_ok (CRHBYTES + mlen)) then Some (-8)
        else
          msg ← mem_read m 0 mlen;
          key ← mem_read pk 0 (CRYPTO_PUBLICKEYBYTES p);
          Some (if equation p rho t1 z h c msg key then 0 else -7)
      end
  end.
End Open.

(** ** Unpacking stays inside *)

Lemma params_bounds n p : dilithium_params_init n = Some p -> 0 <= n <= 3 /\ 0 < CRYPTO_PUBLICKEYBYTES p < 2 ^ 12 /\
  0 < CRYPTO_SECRETKEYBYTES p < 2 ^ 12 /\ 0 < CRYPTO_BYTES p < 2 ^ 12.
Proof.
  unfold dilithium_params_init. destruct (Z.leb_spec 0 n), (Z.leb_spec n 3); try done. intros E.
  split; [lia|]. assert (Hn : n = 0 \/ n = 1 \/ n = 2 \/ n = 3) by lia.
  destruct Hn as [-> | [-> | [-> | ->]]]; injection E as <-; cbn; lia.
Qed.

(** The sizes of the packed parts add up. *)
Lemma params_layout n p : dilithium_params_init n = Some p ->
  (32 + Z.to_nat (PARAM_K p) * 288)%nat = Z.to_nat (CRYPTO_PUBLICKEYBYTES p) /\ PARAM_POLT1_SIZE_PACKED p = 288 /\
  PARAM_POLZ_SIZE_PACKED p = 640 /\
  (Z.to_nat (PARAM_L p) * 640 + (Z.to_nat (PARAM_OMEGA p) + Z.to_nat (PARAM_K p)) + 40)%nat = Z.to_nat (CRYPTO_BYTES p).
Proof.
  unfold dilithium_params_init. destruct (Z.leb_spec 0 n), (Z.leb_spec n 3); try done. intros E.
  assert (Hn : n = 0 \/ n = 1 \/ n = 2 \/ n = 3) by lia.
  destruct Hn as [-> | [-> | [-> | ->]]]; injection E as <-; cbn; lia.
Qed.

Lemma byte_at (a : list Z) i : (i < length a)%nat -> exists x, a !! i = Some x.
Proof. intros H. by apply lookup_lt_is_Some_2. Qed.

Lemma unpacked_fits (a : list Z) i x : Forall (fits 8) a -> a !! i = Some x -> 0 <= x < 256.
Proof. intros Ha Hx. by apply (Forall_lookup_1 _ _ _ _ Ha) in Hx. Qed.

(** Reads the next byte of the goal. *)
Ltac next_byte :=
  match goal with |- context [(?a : list Z) !! ?i] => destruct (byte_at a i) as [? ->]; [lia|] end; cbn [mbind option_bind].

Lemma rounds_some (f : nat -> option (list Z)) n : (forall i, (i < n)%nat -> is_Some (f i)) ->
  is_Some ((λ l, concat l) <$> mapM f (seq 0 n)).
Proof.
  intros Hf. apply fmap_is_Some, mapM_is_Some, Forall_seq. intros i Hi. apply Hf. lia.
Qed.

Lemma polyt1_unpack_some a : (288 <= length a)%nat -> is_Some (polyt1_unpack a).
Proof. intros Ha. apply rounds_some. intros i Hi. unfold t1_round. repeat next_byte. by eexists. Qed.

Lemma polyz_unpack_some a : (640 <= length a)%nat -> is_Some (polyz_unpack a).
Proof. intros Ha. apply rounds_some. intros i Hi. unfold z_round. repeat next_byte. by eexists. Qed.

Lemma unpack_pk_some pk n p : dilithium_params_init n = Some p -> Z.of_nat (length pk) = CRYPTO_PUBLICKEYBYTES p ->
  is_Some (dilithium_unpack_pk pk p).
Proof.
  intros Hp Hl. destruct (params_layout n p Hp) as (L1 & L2 & _). unfold dilithium_unpack_pk.
  rewrite (mem_read_prefix pk) by lia. cbn [mbind option_bind]. rewrite L2.
  assert (Hm : is_Some (mapM (λ i, polyt1_unpack (drop (i * Z.to_nat 288) (drop SEEDBYTES pk))) (seq 0 (Z.to_nat (PARAM_K p))))).
  { apply mapM_is_Some, Forall_seq. intros i Hi. apply polyt1_unpack_some. rewrite !length_drop. nia. }
  destruct Hm as [t1 ->]. by eexists.
Qed.

Section Bytes.
Variable sig : list Z.
Hypothesis bytes : Forall (fits 8) sig.

Lemma hint_row_some k n : forall j coeffs, (j + n <= length sig)%nat -> length coeffs = 256%nat ->
  is_Some (hint_row sig k j n coeffs).
Proof using bytes.
  induction n as [|n IH]; intros j coeffs Hj Hc; [by eexists|]. cbn [hint_row].
  destruct (byte_at sig j) as [x Ex]; [lia|]. rewrite Ex. cbn [mbind option_bind].
  assert (Hbad : exists bad, (if (k <? j)%nat then y ← sig !! (j - 1)%nat; Some (x <=? y) else Some false) = Some bad).
  { destruct (k <? j)%nat; [|by eexists]. destruct (byte_at sig (j - 1)) as [y ->]; [lia|]. by eexists. }
  destruct Hbad as [[] ->]; cbn [mbind option_bind]; [by eexists|]. pose proof (unpacked_fits _ _ _ bytes Ex) as Hx.
  rewrite (proj2 (Z.leb_le 0 x)), (proj2 (Z.ltb_lt x _)) by lia. cbn [andb]. apply IH; [lia|]. by rewrite length_insert.
Qed.

Lemma hint_rows_some omega n : forall i k, (omega + i + n <= length sig)%nat -> (k <= omega)%nat ->
  exists r, hint_rows sig omega i n k = Some r /\ (forall rows k', r = Some (rows, k') -> (k' <= omega)%nat).
Proof using bytes.
  induction n as [|n IH]; intros i k Hi Hk; cbn [hint_rows]; [eexists; split; [done|]; by intros ? ? [= _ <-]|].
  destruct (byte_at sig (omega + i)) as [e Ee]; [lia|]. rewrite Ee. cbn [mbind option_bind].
  pose proof (unpacked_fits _ _ _ bytes Ee) as He.
  destruct (Z.ltb_spec e (Z.of_nat k)), (Z.ltb_spec (Z.of_nat omega) e); cbn [orb]; try (by eexists).
  destruct (hint_row_some k (Z.to_nat e - k) k (replicate (Z.to_nat NN) 0)) as [[row|] ->]; [lia | done | | by eexists].
  cbn [mbind option_bind]. destruct (IH (S i) (Z.to_nat e)) as (r & -> & Hr); [lia..|]. cbn [mbind option_bind].
  eexists. split; [done|]. destruct r as [[rows k1]|]; [|done]. intros ? ? [= _ <-]. by eapply Hr.
Qed.

Lemma all_zero_some n : forall j, (j + n <= length sig)%nat -> is_Some (all_zero sig j n).
Proof using.
  induction n as [|n IH]; intros j Hj; cbn [all_zero]; [by eexists|]. next_byte. case_match; [apply IH; lia | by eexists].
Qed.

Lemma unpack_c_some signs n : forall i mask, (i + n <= 8 * length sig)%nat -> is_Some (unpack_c sig signs mask i n).
Proof using.
  induction n as [|n IH]; intros i mask Hi; cbn [unpack_c]; [by eexists|].
  assert (i / 8 < length sig)%nat by (apply Nat.Div0.div_lt_upper_bound; lia). next_byte.
  case_match; [destruct (IH (S i) (wrap 64 (Z.shiftl mask 1))) as [c ->]; [lia|]; by eexists
              | destruct (IH (S i) mask) as [c ->]; [lia|]; by eexists].
Qed.

Lemma unpack_signs_some n : forall i, (32 + i + n <= length sig)%nat -> is_Some (unpack_signs sig i n).
Proof using.
  induction n as [|n IH]; intros i Hi; cbn [unpack_signs]; [by eexists|]. next_byte.
  destruct (IH (S i)) as [r ->]; [lia|]. by eexists.
Qed.
End Bytes.

Lemma unpack_sig_some sig n p : dilithium_params_init n = Some p -> Forall (fits 8) sig ->
  CRYPTO_BYTES p <= Z.of_nat (length sig) -> is_Some (dilithium_unpack_sig sig p).
Proof.
  intros Hp Hb Hl. destruct (params_layout n p Hp) as (_ & _ & L3 & L4). unfold dilithium_unpack_sig.
  rewrite L3. set (omega := Z.to_nat (PARAM_OMEGA p)) in *. set (K := Z.to_nat (PARAM_K p)) in *.
  set (L := Z.to_nat (PARAM_L p)) in *. change (Z.to_nat 640) with 640%nat.
  assert (Hz : is_Some (mapM (λ i, polyz_unpack (drop (i * 640) sig)) (seq 0 L))).
  { apply mapM_is_Some, Forall_seq. intros i Hi. apply polyz_unpack_some. rewrite length_drop. nia. }
  destruct Hz as [z ->]. cbn [mbind option_bind]. set (s2 := drop (L * 640) sig).
  assert (Ls : (omega + K + 40 <= length s2)%nat) by (unfold s2; rewrite length_drop; lia).
  assert (Hb2 : Forall (fits 8) s2) by (by apply Forall_drop).
  destruct (hint_rows_some s2 Hb2 omega K 0 0) as ([[h k]|] & -> & Hk); [lia..| |by eexists].
  specialize (Hk _ _ eq_refl). cbn [mbind option_bind]. destruct (all_zero_some s2 (omega - k) k) as [ok ->]; [lia|].
  cbn [mbind option_bind]. destruct ok; cbn [negb]; [|by eexists]. set (s3 := drop (omega + K) s2).
  assert (L3' : (40 <= length s3)%nat) by (unfold s3; rewrite length_drop; lia).
  destruct (unpack_signs_some s3 8 0) as [signs ->]; [lia|]. cbn [mbind option_bind].
  destruct (negb _); [by eexists|]. destruct (unpack_c_some s3 signs (Z.to_nat NN) 0 1) as [c ->]; [lia|]. by eexists.
Qed.

(** Opening a signature of any bytes with a key of any bytes ends with a code:
    every read is inside the signature, the key or the message, and every
    coefficient is stored inside its polynomial. *)
Lemma sign_open_total malloc_ok equation m sig_kind sig_data pk_kind pk :
  Forall (fits 8) sig_data ->
  (forall p, dilithium_params_init pk_kind = Some p -> Z.of_nat (length pk) = CRYPTO_PUBLICKEYBYTES p) ->
  is_Some (dilithium_crypto_sign_open malloc_ok equation m (Z.of_nat (length m)) sig_kind sig_data
             (Z.of_nat (length sig_data)) pk_kind pk).
Proof.
  intros Hb Hpk. unfold dilithium_crypto_sign_open. destruct (negb _); [by eexists|]. destruct (negb _); [by eexists|].
  destruct (dilithium_params_init pk_kind) as [p|] eqn:Hp; [|by eexists]. specialize (Hpk p eq_refl).
  destruct (Z.ltb_spec (Z.of_nat (length sig_data)) (CRYPTO_BYTES p)); [by eexists|]. destruct (negb _); [by eexists|].
  destruct (unpack_pk_some pk _ p Hp Hpk) as [[rho t1] ->]. cbn [mbind option_bind].
  destruct (unpack_sig_some sig_data _ p Hp Hb) as [[[[z h] c]|] ->]; [done | | by eexists]. cbn [mbind option_bind].
  destruct (polyvecl_chknorm _ _); [by eexists|]. destruct (negb _); [by eexists|].
  rewrite mem_read_all by done. cbn [mbind option_bind]. rewrite mem_read_all by done. cbn [mbind option_bind]. by eexists.
Qed.
