(* ===== verification/SigDilithium.v ===== *)
(** * Dilithium keys and signatures in bytes (crypto/src/dap_enc_dilithium.c)

    The callbacks that connect the Dilithium signatures to the keys of
    [EncKey]: creating a key, signing, verifying, and the bytes of keys and
    signatures.  Opening a signature is [DilithiumOpen]; the rest of the lattice
    scheme (dilithium_sign.c) is the class [DilithiumCore] with what the callbacks
    rely on.  This file shows that the callbacks keep the promises of [EncKey]:
    what they write they read back, and they read only inside what they are
    given. *)

From S2P Require Import Prelude EncKey DilithiumOpen.
Local Open Scope Z_scope.

(** A key (private or public) and a signature in memory. *)
Inductive dil_obj :=
  | DKey (key_kind : Z) (data : list Z)
  | DSig (sig_kind : Z) (sig_data : list Z) (sig_len : Z).

Abbreviation data := (@kdata dil_obj).
Abbreviation enc_key := (@dap_enc_key dil_obj).

(** The scheme: a pair of keys from a seed, a signature of a message (zero for
    success), the equation that is checked when a signature is opened. *)
Class DilithiumCore := {
  dilithium_crypto_sign_keypair : Z -> list Z -> option (list Z * list Z);
  dilithium_crypto_sign : Z -> list Z -> list Z -> Z * list Z;
  sign_equation : dilithium_param -> list Z -> list poly -> list poly -> list poly -> poly -> list Z -> list Z -> bool;
  keypair_shape n seed pk sk : dilithium_crypto_sign_keypair n seed = Some (pk, sk) ->
    exists p, dilithium_params_init n = Some p /\
    Z.of_nat (length pk) = CRYPTO_PUBLICKEYBYTES p /\ Z.of_nat (length sk) = CRYPTO_SECRETKEYBYTES p /\
    Forall (fits 8) pk /\ Forall (fits 8) sk;
  sign_shape n sk m s : dilithium_crypto_sign n sk m = (0, s) -> exists p, dilithium_params_init n = Some p /\
    Z.of_nat (length s) = Z.of_nat (length m) + CRYPTO_BYTES p /\ Forall (fits 8) s;
  sign_opens n seed pk sk m s malloc_ok : (forall s, malloc_ok s = true) ->
    dilithium_crypto_sign_keypair n seed = Some (pk, sk) -> dilithium_crypto_sign n sk m = (0, s) ->
    dilithium_crypto_sign_open malloc_ok sign_equation m (Z.of_nat (length m)) n s (Z.of_nat (length s)) n pk = Some 0;
}.

Section Dilithium.
Context `{DilithiumCore}.
Variable calloc_ok : Z -> bool.

Definition sizeof_dilithium_signature : Z := 24.
Definition sizeof_dilithium_key : Z := 16.

Abbreviation new_ok s := (DAP_NEW_Z_SIZE calloc_ok s).

Definition dap_enc_sig_dilithium_get_sign (priv : option data) (a_msg : list Z) (a_sig_size : Z) : option (Z * data) :=
  if a_sig_size <? sizeof_dilithium_signature then Some (-1, Raw (replicate (Z.to_nat a_sig_size) 0))
  else match priv with
  | Some (Obj (DKey n sk)) =>
    let '(rc, s) := dilithium_crypto_sign n sk a_msg in Some (rc, Obj (DSig n s (Z.of_nat (length s))))
  | _ => None
  end.

Definition dap_enc_sig_dilithium_verify_sign (pub : option data) (a_msg : list Z) (a_sig : data) (a_sig_size : Z)
    : option Z :=
  if a_sig_size <? sizeof_dilithium_signature then Some (-1)
  else match a_sig, pub with
  | Obj (DSig n s l_len), Some (Obj (DKey n' pk)) =>
    dilithium_crypto_sign_open calloc_ok sign_equation a_msg (Z.of_nat (length a_msg)) n s l_len n' pk
  | _, _ => None
  end.

Definition dap_enc_sig_dilithium_key_new (a_key : enc_key) : enc_key :=
  EncKey (priv_key_data_size a_key) (priv_key_data a_key) (pub_key_data_size a_key) (pub_key_data a_key)
    (last_used_timestamp a_key) DAP_ENC_KEY_TYPE_SIG_DILITHIUM (Some dap_enc_sig_dilithium_get_sign)
    (Some dap_enc_sig_dilithium_verify_sign) (_inheritor a_key) (_inheritor_size a_key).

(** The kind is [DILITHIUM_MAX_SPEED]. *)
Definition dap_enc_sig_dilithium_key_new_generate (a_key : enc_key) (kex_buf seed : list Z) (key_size : Z) : enc_key :=
  match dilithium_crypto_sign_keypair MODE_1 seed with
  | Some (pk, sk) =>
    set_pub (set_priv a_key (Some (Obj (DKey MODE_1 sk))) sizeof_dilithium_key)
      (Some (Obj (DKey MODE_1 pk))) sizeof_dilithium_key
  | None => set_pub (set_priv a_key None 0) None 0
  end.

Definition dap_enc_sig_dilithium_write_signature (a_sign : data) : option (option (list Z) * Z) :=
  match a_sign with
  | Obj (DSig n s l_len) =>
    let l_buflen := wrap 64 (20 + l_len) in
    l_buf ← dap_serialize_multy calloc_ok l_buflen
      [(Some (le_bytes 8 l_buflen), 8); (Some (le_bytes 4 n), 4); (Some (le_bytes 8 l_len), 8); (Some s, l_len)];
    Some (l_buf, match l_buf with Some _ => l_buflen | None => 0 end)
  | _ => None
  end.

(** The offset behind the length: a length written with 32 bits is accepted. *)
Definition length_field (l_buflen a_buflen : Z) : option Z :=
  if l_buflen =? a_buflen then Some 8
  else if Z.shiftr (wrap 64 (Z.shiftl l_buflen 32)) 32 =? a_buflen then Some 4
  else None.

Definition dap_enc_sig_dilithium_read_signature (a_buf : list Z) (a_buflen : Z) : option (option data) :=
  if a_buflen <? 20 then Some None else
  l_buflen ← mem_le a_buf 0 8;
  match length_field l_buflen a_buflen with
  | None => Some None
  | Some l_shift_mem =>
    n ← mem_le a_buf l_shift_mem 4;
    let l_shift_mem := l_shift_mem + 4 in
    match dilithium_params_init n with
    | None => Some None
    | Some _ =>
      if negb (new_ok sizeof_dilithium_signature) then Some None else
      l_len ← mem_le a_buf l_shift_mem 8;
      let l_shift_mem := l_shift_mem + 8 in
      if 2 ^ 64 - 1 - l_shift_mem <? l_len then Some None
      else if a_buflen <? l_shift_mem + l_len then Some None
      else if negb (new_ok l_len) then Some None
      else s ← mem_read a_buf l_shift_mem l_len; Some (Some (Obj (DSig n s l_len)))
    end
  end.

Definition dap_enc_sig_dilithium_write_private_key (a_private_key : data) : option (option (list Z) * Z) :=
  match a_private_key with
  | Obj (DKey n d) =>
    match dilithium_params_init n with
    | None => Some (None, 0)
    | Some p =>
      let l_buflen := 12 + CRYPTO_SECRETKEYBYTES p in
      l_buf ← dap_serialize_multy calloc_ok l_buflen
        [(Some (le_bytes 8 l_buflen), 8); (Some (le_bytes 4 n), 4); (Some d, CRYPTO_SECRETKEYBYTES p)];
      Some (l_buf, match l_buf with Some _ => l_buflen | None => 0 end)
    end
  | _ => None
  end.

Definition dap_enc_sig_dilithium_write_public_key (a_public_key : data) : option (option (list Z) * Z) :=
  match a_public_key with
  | Obj (DKey n d) =>
    match dilithium_params_init n with
    | None => Some (None, 0)
    | Some p =>
      let l_buflen := 12 + CRYPTO_PUBLICKEYBYTES p in
      l_buf ← dap_serialize_multy calloc_ok l_buflen
        [(Some (le_bytes 8 l_buflen), 8); (Some (le_bytes 4 n), 4); (Some d, CRYPTO_PUBLICKEYBYTES p)];
      Some (l_buf, match l_buf with Some _ => l_buflen | None => 0 end)
    end
  | _ => None
  end.

(** The block of the data is not checked: without memory it is a null pointer. *)
Definition dap_enc_sig_dilithium_read_private_key (a_buf : list Z) (a_buflen : Z) : option (option data) :=
  if a_buflen <? 12 then Some None else
  l_buflen ← mem_le a_buf 0 8;
  if negb (l_buflen =? a_buflen) then Some None else
  n ← mem_le a_buf 8 4;
  match dilithium_params_init n with
  | None => Some None
  | Some p =>
    if a_buflen <? 12 + CRYPTO_SECRETKEYBYTES p then Some None
    else if negb (new_ok sizeof_dilithium_key) then Some None
    else if negb (new_ok (CRYPTO_SECRETKEYBYTES p)) then None
    else d ← mem_read a_buf 12 (CRYPTO_SECRETKEYBYTES p); Some (Some (Obj (DKey n d)))
  end.

(** With a length of 32 bits the kind is read behind it, the data is not. *)
Definition dap_enc_sig_dilithium_read_public_key (a_buf : list Z) (a_buflen : Z) : option (option data) :=
  if a_buflen <? 12 then Some None else
  l_buflen ← mem_le a_buf 0 8;
  match length_field l_buflen a_buflen with
  | None => Some None
  | Some l_shift =>
    n ← mem_le a_buf l_shift 4;
    match dilithium_params_init n with
    | None => Some None
    | Some p =>
      if a_buflen <? 12 + CRYPTO_PUBLICKEYBYTES p then Some None
      else if negb (new_ok sizeof_dilithium_key) then Some None
      else if negb (new_ok (CRYPTO_PUBLICKEYBYTES p)) then Some None
      else d ← mem_read a_buf 12 (CRYPTO_PUBLICKEYBYTES p); Some (Some (Obj (DKey n d)))
    end
  end.

(** The entry of the table of key types. *)
Definition dilithium_callbacks : @dap_enc_key_callbacks dil_obj := {|
  ser_sign := Some dap_enc_sig_dilithium_write_signature;
  ser_priv_key := Some dap_enc_sig_dilithium_write_private_key;
  ser_pub_key := Some dap_enc_sig_dilithium_write_public_key;
  deser_sign := Some dap_enc_sig_dilithium_read_signature;
  deser_priv_key := Some dap_enc_sig_dilithium_read_private_key;
  deser_pub_key := Some dap_enc_sig_dilithium_read_public_key;
  deser_sign_size := Some (λ _, sizeof_dilithium_signature);
  deser_pub_key_size := Some sizeof_dilithium_key;
  deser_priv_key_size := Some sizeof_dilithium_key;
  new_callback := Some dap_enc_sig_dilithium_key_new;
  new_generate_callback := Some dap_enc_sig_dilithium_key_new_generate;
|}.
End Dilithium.

(** ** What is written is read back *)

Section Laws.
Context `{DilithiumCore}.
Variable calloc_ok : Z -> bool.
Hypothesis memory : forall s, calloc_ok s = true.

Lemma length_field_same n : length_field n n = Some 8.
Proof using. unfold length_field. by rewrite Z.eqb_refl. Qed.

(** Fields and a block, packed. *)
Lemma serialize_block l d n : Forall (λ f, (f.1 <= 8)%nat) l -> n = Z.of_nat (fields_len l) + Z.of_nat (length d) ->
  0 < n < 2 ^ 63 ->
  dap_serialize_multy calloc_ok n (map field_arg l ++ [(Some d, Z.of_nat (length d))]) = Some (Some (fields l ++ d)).
Proof using memory.
  intros Hl Hn Hp.
  assert (E : packed (map field_arg l ++ [(Some d, Z.of_nat (length d))]) = fields l ++ d).
  { unfold packed. rewrite map_app, concat_app. fold (packed (map field_arg l)). rewrite field_args_packed.
    cbn [map concat]. unfold arg_bytes. cbn [fst snd]. by rewrite Nat2Z.id, take_ge, app_nil_r by done. }
  rewrite (serialize_multy_packed calloc_ok _ n), E; [done | | | by apply new_z_size].
  - apply Forall_app. split; [by apply field_args_ok|]. repeat constructor; cbn [fst snd]; lia.
  - rewrite E, length_app, length_fields. lia.
Qed.

Definition key_block (n size : Z) (d : list Z) : list Z := fields [(8%nat, 12 + size); (4%nat, n)] ++ d.

Lemma key_block_read n d tail : let b := key_block n (Z.of_nat (length d)) d in 0 <= n <= 3 -> Z.of_nat (length d) < 2 ^ 63 ->
  Z.of_nat (length b) = 12 + Z.of_nat (length d) /\
  mem_le (b ++ tail) 0 8 = Some (12 + Z.of_nat (length d)) /\ mem_le (b ++ tail) 8 4 = Some n /\
  mem_read (b ++ tail) 12 (Z.of_nat (length d)) = Some d.
Proof using.
  intros b Hn Hd. unfold b, key_block. rewrite <- app_assoc. repeat split.
  - rewrite length_app, length_fields. cbn [fields_len fst]. lia.
  - apply (mem_le_field [] 8 (12 + Z.of_nat (length d)) [(4%nat, n)] (d ++ tail)). unfold fits. cbn. lia.
  - apply (mem_le_field [(8%nat, 12 + Z.of_nat (length d))] 4 n [] (d ++ tail)). unfold fits. cbn. lia.
  - pose proof (mem_read_app (fields [(8%nat, 12 + Z.of_nat (length d)); (4%nat, n)]) d tail) as E.
    by rewrite length_fields in E.
Qed.

Lemma private_key_inverts n p d : dilithium_params_init n = Some p -> Z.of_nat (length d) = CRYPTO_SECRETKEYBYTES p ->
  inverts (ser_priv_key (dilithium_callbacks calloc_ok)) (deser_priv_key (dilithium_callbacks calloc_ok))
    (Obj (DKey n d)) (key_block n (Z.of_nat (length d)) d).
Proof using memory.
  intros Hp Hd. pose proof (params_bounds n p Hp) as (Hn & _ & Hs & _).
  eexists _, _. split; [done|]. split; [done|]. split; [|split].
  - intros E. apply (f_equal length) in E. unfold key_block in E. rewrite length_app, length_fields in E. done.
  - unfold dap_enc_sig_dilithium_write_private_key. rewrite Hp, <- Hd. destruct (key_block_read n d []) as (-> & _); [lia..|].
    pose proof (serialize_block [(8%nat, 12 + Z.of_nat (length d)); (4%nat, n)] d (12 + Z.of_nat (length d))) as E.
    unfold field_arg in E. cbn [map app fst snd] in E. change (Z.of_nat 8) with 8 in E. change (Z.of_nat 4) with 4 in E.
    rewrite E; [done | by repeat constructor | cbn [fields_len fst]; lia | lia].
  - intros tail. destruct (key_block_read n d tail) as (-> & E1 & E2 & E3); [lia..|].
    unfold dap_enc_sig_dilithium_read_private_key. rewrite E1. cbn [mbind option_bind]. rewrite Z.eqb_refl, E2. cbn [negb mbind option_bind].
    rewrite Hp, <- Hd, E3, !new_z_size by (done || unfold sizeof_dilithium_key; lia). cbn [negb mbind option_bind].
    destruct (Z.ltb_spec (12 + Z.of_nat (length d)) 12), (Z.ltb_spec (12 + Z.of_nat (length d)) (12 + Z.of_nat (length d))); lia || done.
Qed.

Lemma public_key_inverts n p d : dilithium_params_init n = Some p -> Z.of_nat (length d) = CRYPTO_PUBLICKEYBYTES p ->
  inverts (ser_pub_key (dilithium_callbacks calloc_ok)) (deser_pub_key (dilithium_callbacks calloc_ok))
    (Obj (DKey n d)) (key_block n (Z.of_nat (length d)) d).
Proof using memory.
  intros Hp Hd. pose proof (params_bounds n p Hp) as (Hn & Hs & _).
  eexists _, _. split; [done|]. split; [done|]. split; [|split].
  - intros E. apply (f_equal length) in E. unfold key_block in E. rewrite length_app, length_fields in E. done.
  - unfold dap_enc_sig_dilithium_write_public_key. rewrite Hp, <- Hd. destruct (key_block_read n d []) as (-> & _); [lia..|].
    pose proof (serialize_block [(8%nat, 12 + Z.of_nat (length d)); (4%nat, n)] d (12 + Z.of_nat (length d))) as E.
    unfold field_arg in E. cbn [map app fst snd] in E. change (Z.of_nat 8) with 8 in E. change (Z.of_nat 4) with 4 in E.
    rewrite E; [done | by repeat constructor | cbn [fields_len fst]; lia | lia].
  - intros tail. destruct (key_block_read n d tail) as (-> & E1 & E2 & E3); [lia..|].
    unfold dap_enc_sig_dilithium_read_public_key. rewrite E1. cbn [mbind option_bind]. rewrite length_field_same, E2. cbn [mbind option_bind].
    rewrite Hp, <- Hd, E3, !new_z_size by (done || unfold sizeof_dilithium_key; lia). cbn [negb mbind option_bind].
    destruct (Z.ltb_spec (12 + Z.of_nat (length d)) 12), (Z.ltb_spec (12 + Z.of_nat (length d)) (12 + Z.of_nat (length d))); lia || done.
Qed.

Definition sig_block (n : Z) (s : list Z) : list Z :=
  fields [(8%nat, 20 + Z.of_nat (length s)); (4%nat, n); (8%nat, Z.of_nat (length s))] ++ s.

Lemma length_sig_block n s : length (sig_block n s) = (20 + length s)%nat.
Proof using. unfold sig_block. rewrite length_app, length_fields. cbn [fields_len fst]. lia. Qed.

Lemma signature_inverts n p s : dilithium_params_init n = Some p -> s <> [] -> Z.of_nat (length s) < 2 ^ 62 ->
  inverts (ser_sign (dilithium_callbacks calloc_ok)) (deser_sign (dilithium_callbacks calloc_ok))
    (Obj (DSig n s (Z.of_nat (length s)))) (sig_block n s).
Proof using memory.
  intros Hp Hs Hl. pose proof (params_bounds n p Hp) as (Hn & _). set (m := Z.of_nat (length s)).
  assert (Hm : 0 < m < 2 ^ 62) by (unfold m; destruct s; [done | cbn in *; lia]).
  set (f := [(8%nat, 20 + m); (4%nat, n); (8%nat, m)]).
  eexists _, _. split; [done|]. split; [done|]. split; [|split].
  - intros E. apply (f_equal length) in E. by rewrite length_sig_block in E.
  - unfold dap_enc_sig_dilithium_write_signature. rewrite wrap_id by (unfold fits; lia).
    pose proof (serialize_block f s (20 + m)) as E. unfold f, field_arg in E. cbn [map app fst snd] in E.
    change (Z.of_nat 8) with 8 in E. change (Z.of_nat 4) with 4 in E. fold m in E.
    rewrite E; [|by repeat constructor | cbn [fields_len fst]; lia | lia]. cbn [mbind option_bind].
    do 2 f_equal. rewrite length_sig_block. lia.
  - intros tail. rewrite length_sig_block. replace (Z.of_nat (20 + length s)) with (20 + m) by lia.
    unfold sig_block. fold m. fold f. rewrite <- app_assoc. unfold dap_enc_sig_dilithium_read_signature.
    destruct (Z.ltb_spec (20 + m) 20); [lia|].
    assert (E1 : mem_le (fields f ++ s ++ tail) 0 8 = Some (20 + m))
      by (apply (mem_le_field [] 8 (20 + m) [(4%nat, n); (8%nat, m)] (s ++ tail)); unfold fits; cbn; lia).
    assert (E2 : mem_le (fields f ++ s ++ tail) 8 4 = Some n)
      by (apply (mem_le_field [(8%nat, 20 + m)] 4 n [(8%nat, m)] (s ++ tail)); unfold fits; cbn; lia).
    assert (E3 : mem_le (fields f ++ s ++ tail) (8 + 4) 8 = Some m)
      by (apply (mem_le_field [(8%nat, 20 + m); (4%nat, n)] 8 m [] (s ++ tail)); unfold fits; cbn; lia).
    assert (E4 : mem_read (fields f ++ s ++ tail) (8 + 4 + 8) m = Some s).
    { pose proof (mem_read_app (fields f) s tail) as E. by rewrite length_fields in E. }
    rewrite E1. cbn [mbind option_bind]. rewrite length_field_same, E2. cbn [mbind option_bind]. rewrite Hp, E3.
    cbn [mbind option_bind]. rewrite E4, !new_z_size by (done || unfold sizeof_dilithium_signature; lia).
    cbn [negb mbind option_bind].
    destruct (Z.ltb_spec (2 ^ 64 - 1 - (8 + 4 + 8)) m), (Z.ltb_spec (20 + m) (8 + 4 + 8 + m)); lia || done.
Qed.

(** ** Keys of this type *)

Definition part_data (n : Z) (d : list Z) : option data := match d with [] => None | _ => Some (Obj (DKey n d)) end.
Definition part_size (d : list Z) : Z := match d with [] => 0 | _ => sizeof_dilithium_key end.
Definition part_bytes (n : Z) (d : list Z) : list Z := match d with [] => [] | _ => key_block n (Z.of_nat (length d)) d end.

(** A key of kind [n] with a private and a public part, each of which may be
    missing. *)
Definition dil_key (n : Z) (sk pk : list Z) (ts : Z) (inh : list Z) : enc_key :=
  EncKey (part_size sk) (part_data n sk) (part_size pk) (part_data n pk) ts DAP_ENC_KEY_TYPE_SIG_DILITHIUM
    (Some dap_enc_sig_dilithium_get_sign) (Some (dap_enc_sig_dilithium_verify_sign calloc_ok)) (part_arg inh) (Z.of_nat (length inh)).

Section Table.
Variable s_callbacks : Z -> @dap_enc_key_callbacks dil_obj.
Variable picnic_update : enc_key -> enc_key.
Hypothesis entry : s_callbacks DAP_ENC_KEY_TYPE_SIG_DILITHIUM = dilithium_callbacks calloc_ok.

Lemma dil_key_ok n p sk pk ts inh : dilithium_params_init n = Some p ->
  sk = [] \/ Z.of_nat (length sk) = CRYPTO_SECRETKEYBYTES p -> pk = [] \/ Z.of_nat (length pk) = CRYPTO_PUBLICKEYBYTES p ->
  fits 64 ts -> Z.of_nat (length inh) < 2 ^ 32 ->
  key_ok calloc_ok s_callbacks picnic_update (dil_key n sk pk ts inh) (part_bytes n sk) (part_bytes n pk) inh.
Proof using memory entry.
  intros Hp Hsk Hpk Hts Hinh. pose proof (params_bounds n p Hp) as (Hn & Bp & Bs & _).
  assert (Hlen : forall d, Z.of_nat (length d) < 2 ^ 12 -> Z.of_nat (length (part_bytes n d)) < 2 ^ 13).
  { intros [|x d] Hd; [cbn; lia|]. destruct (key_block_read n (x :: d) []) as (E & _); [lia..|]. unfold part_bytes. lia. }
  assert (Ls : Z.of_nat (length sk) < 2 ^ 12) by (destruct Hsk as [-> |]; cbn; lia).
  assert (Lp : Z.of_nat (length pk) < 2 ^ 12) by (destruct Hpk as [-> |]; cbn; lia).
  split; try done; cbn [key_type sign_get sign_verify dil_key _inheritor _inheritor_size].
  - unfold dap_enc_key_new. rewrite new_z_size by (done || unfold sizeof_enc_key; lia). cbn.
    by rewrite entry.
  - destruct sk as [|x sk]; [by left|]. apply (obj_priv_stored _ _ _ _ (Obj (DKey n (x :: sk)))); try done; cbn [key_type dil_key];
      rewrite entry; [done|]. eapply private_key_inverts; [done|]. by destruct Hsk.
  - destruct pk as [|x pk]; [by left|]. apply (obj_pub_stored _ _ _ _ (Obj (DKey n (x :: pk)))); try done; cbn [key_type dil_key];
      rewrite entry; [done|]. eapply public_key_inverts; [done|]. by destruct Hpk.
  - pose proof (Hlen sk Ls). pose proof (Hlen pk Lp). lia.
Qed.

Lemma generated_key kex seed size pk sk : dilithium_crypto_sign_keypair MODE_1 seed = Some (pk, sk) ->
  dap_enc_key_new_generate calloc_ok s_callbacks DAP_ENC_KEY_TYPE_SIG_DILITHIUM kex seed size
  = Some (Some (dil_key MODE_1 sk pk 0 [])).
Proof using memory entry.
  intros Hk. destruct (keypair_shape _ _ _ _ Hk) as (p & Hp & Lp & Ls & _).
  pose proof (params_bounds _ _ Hp) as (_ & Bp & Bs & _).
  unfold dap_enc_key_new_generate, dap_enc_key_new. rewrite new_z_size by (done || unfold sizeof_enc_key; lia). cbn.
  rewrite entry. cbn. unfold dap_enc_sig_dilithium_key_new_generate. rewrite Hk. unfold dil_key, part_data, part_size.
  destruct sk, pk; cbn in Lp, Ls; try lia. done.
Qed.
End Table.

(** ** Any bytes can be read *)

Lemma mem_le_in buf o k n : Forall (fits 8) buf -> 0 <= o -> o + Z.of_nat k <= n -> n <= Z.of_nat (length buf) ->
  exists v, mem_le buf o k = Some v /\ 0 <= v.
Proof using.
  intros Hb Ho Hk Hn. destruct (mem_le_Some buf o k) as [v Ev]; [lia..|]. exists v. split; [done|].
  by apply (mem_le_fits buf o k v Hb) in Ev as [? _].
Qed.

Lemma mem_read_in (buf : list Z) o k n : 0 <= o -> 0 <= k -> o + k <= n -> n <= Z.of_nat (length buf) ->
  is_Some (mem_read buf o k).
Proof using.
  intros Ho Hk Hn Hl. rewrite <- (Z2Nat.id o), <- (Z2Nat.id k), mem_read_nat by lia. done.
Qed.

Lemma read_private_key_total buf n : Forall (fits 8) buf -> 0 <= n <= Z.of_nat (length buf) ->
  is_Some (dap_enc_sig_dilithium_read_private_key calloc_ok buf n).
Proof using memory.
  intros Hb Hn. unfold dap_enc_sig_dilithium_read_private_key. destruct (Z.ltb_spec n 12); [done|].
  destruct (mem_le_in buf 0 8 n) as (v & -> & _); [done | lia..|]. cbn [mbind option_bind].
  destruct (negb (v =? n)); [done|]. destruct (mem_le_in buf 8 4 n) as (w & -> & _); [done | lia..|].
  cbn [mbind option_bind]. destruct (dilithium_params_init w) as [p|] eqn:Ep; [|done].
  pose proof (params_bounds w p Ep). destruct (Z.ltb_spec n (12 + CRYPTO_SECRETKEYBYTES p)); [done|].
  rewrite !new_z_size by (done || unfold sizeof_dilithium_key; lia). cbn [negb].
  destruct (mem_read_in buf 12 (CRYPTO_SECRETKEYBYTES p) n) as [d ->]; [lia..|]. done.
Qed.

Lemma length_field_cases v n o : length_field v n = Some o -> o = 8 \/ o = 4.
Proof using. unfold length_field. destruct (v =? n); [intros [= <-]; auto|]. destruct (_ =? n); [intros [= <-]; auto | done]. Qed.

Lemma read_public_key_total buf n : Forall (fits 8) buf -> 0 <= n <= Z.of_nat (length buf) ->
  is_Some (dap_enc_sig_dilithium_read_public_key calloc_ok buf n).
Proof using.
  intros Hb Hn. unfold dap_enc_sig_dilithium_read_public_key. destruct (Z.ltb_spec n 12); [done|].
  destruct (mem_le_in buf 0 8 n) as (v & -> & _); [done | lia..|]. cbn [mbind option_bind].
  destruct (length_field v n) as [o|] eqn:Eo; [|done]. apply length_field_cases in Eo.
  destruct (mem_le_in buf o 4 n) as (w & -> & _); [done | lia..|].
  cbn [mbind option_bind]. destruct (dilithium_params_init w) as [p|] eqn:Ep; [|done].
  pose proof (params_bounds w p Ep). destruct (Z.ltb_spec n (12 + CRYPTO_PUBLICKEYBYTES p)); [done|].
  destruct (negb _); [done|]. destruct (negb _); [done|].
  destruct (mem_read_in buf 12 (CRYPTO_PUBLICKEYBYTES p) n) as [d ->]; [lia..|]. done.
Qed.

Lemma read_signature_total buf n : Forall (fits 8) buf -> 0 <= n <= Z.of_nat (length buf) ->
  is_Some (dap_enc_sig_dilithium_read_signature calloc_ok buf n).
Proof using.
  intros Hb Hn. unfold dap_enc_sig_dilithium_read_signature. destruct (Z.ltb_spec n 20); [done|].
  destruct (mem_le_in buf 0 8 n) as (v & -> & _); [done | lia..|]. cbn [mbind option_bind].
  destruct (length_field v n) as [o|] eqn:Eo; [|done]. apply length_field_cases in Eo.
  destruct (mem_le_in buf o 4 n) as (w & -> & _); [done | lia..|]. cbn [mbind option_bind].
  destruct (dilithium_params_init w) as [p|] eqn:Ep; [|done]. destruct (negb _); [done|].
  destruct (mem_le_in buf (o + 4) 8 n) as (m & -> & Hm); [done | lia..|]. cbn [mbind option_bind].
  destruct (Z.ltb_spec (2 ^ 64 - 1 - (o + 4 + 8)) m); [done|].
  destruct (Z.ltb_spec n (o + 4 + 8 + m)); [done|]. destruct (negb _); [done|].
  destruct (mem_read_in buf (o + 4 + 8) m n) as [d ->]; [lia..|]. done.
Qed.

Lemma mem_read_shape (buf : list Z) o n l : mem_read buf o n = Some l ->
  Z.of_nat (length l) = n /\ (Forall (fits 8) buf -> Forall (fits 8) l).
Proof using.
  unfold mem_read. destruct (Z.leb_spec 0 o), (Z.leb_spec 0 n), (Z.leb_spec (o + n) (Z.of_nat (length buf))); try done.
  intros [= <-]. rewrite length_take, length_drop. split; [lia|]. intros. by apply Forall_take, Forall_drop.
Qed.

Lemma read_public_key_shape buf n d : dap_enc_sig_dilithium_read_public_key calloc_ok buf n = Some (Some d) ->
  exists a l p, d = Obj (DKey a l) /\ dilithium_params_init a = Some p /\ Z.of_nat (length l) = CRYPTO_PUBLICKEYBYTES p.
Proof using.
  unfold dap_enc_sig_dilithium_read_public_key. destruct (n <? 12); [done|].
  destruct (mem_le buf 0 8) as [v|]; cbn [mbind option_bind]; [|done]. destruct (length_field v n) as [o|]; [|done].
  destruct (mem_le buf o 4) as [w|]; cbn [mbind option_bind]; [|done]. destruct (dilithium_params_init w) as [p|] eqn:Ep; [|done].
  destruct (n <? _); [done|]. destruct (negb _); [done|]. destruct (negb _); [done|].
  destruct (mem_read buf 12 _) as [l|] eqn:El; cbn [mbind option_bind]; [|done]. intros [= <-]. exists w, l, p.
  split_and!; [done | done |]. by apply mem_read_shape in El as [-> _].
Qed.

Lemma read_signature_shape buf n d : Forall (fits 8) buf ->
  dap_enc_sig_dilithium_read_signature calloc_ok buf n = Some (Some d) ->
  exists a l, d = Obj (DSig a l (Z.of_nat (length l))) /\ Forall (fits 8) l.
Proof using.
  intros Hb. unfold dap_enc_sig_dilithium_read_signature. destruct (n <? 20); [done|].
  destruct (mem_le buf 0 8) as [v|]; cbn [mbind option_bind]; [|done]. destruct (length_field v n) as [o|]; [|done].
  destruct (mem_le buf o 4) as [w|]; cbn [mbind option_bind]; [|done]. destruct (dilithium_params_init w) as [p|]; [|done].
  destruct (negb _); [done|]. destruct (mem_le buf (o + 4) 8) as [m|]; cbn [mbind option_bind]; [|done].
  destruct (_ <? m); [done|]. destruct (n <? _); [done|]. destruct (negb _); [done|].
  destruct (mem_read buf _ m) as [l|] eqn:El; cbn [mbind option_bind]; [|done]. intros [= <-]. exists w, l.
  destruct (mem_read_shape _ _ _ _ El) as [-> Hl]. split; [done | by apply Hl].
Qed.

(** A table in which only this type has callbacks. *)
Definition dilithium_table (t : Z) : @dap_enc_key_callbacks dil_obj :=
  if t =? DAP_ENC_KEY_TYPE_SIG_DILITHIUM then dilithium_callbacks calloc_ok
  else Callbacks None None None None None None None None None None None.

Lemma dilithium_table_safe : schemes_safe calloc_ok dilithium_table id.
Proof using memory.
  split; [|intros t f buf n| intros t f buf n | done].
  - intros t k. unfold dap_enc_key_new, callbacks_of. destruct (t =? -1); [done|]. destruct (negb _); [done|].
    destruct ((0 <=? t) && (t <=? 100)); [|done]. cbn [mbind option_bind]. unfold dilithium_table.
    destruct (Z.eqb_spec t 21) as [-> |]; intros [= <-]; done.
  - unfold dilithium_table. destruct (t =? 21); [|done]. intros [= <-]. apply read_public_key_total.
  - unfold dilithium_table. destruct (t =? 21); [|done]. intros [= <-]. apply read_private_key_total.
Qed.
End Laws.

(** ** An instance *)

(** A stand-in for the lattice scheme, for concrete runs: a signature has the
    vector zero, no hints and an empty challenge, and the message behind it. *)
Definition zero_sig (p : dilithium_param) : list Z :=
  concat (replicate (Z.to_nat (PARAM_L p) * 128) [255; 253; 247; 223; 127]) ++
  replicate (Z.to_nat (PARAM_OMEGA p) + Z.to_nat (PARAM_K p) + 40) 0.

Lemma zero_sig_spec n p : dilithium_params_init n = Some p ->
  Z.of_nat (length (zero_sig p)) = CRYPTO_BYTES p /\ Forall (fits 8) (zero_sig p) /\
  is_Some (dilithium_unpack_pk (replicate (Z.to_nat (CRYPTO_PUBLICKEYBYTES p)) 1) p) /\
  forall m, exists z h c, dilithium_unpack_sig (zero_sig p ++ m) p = Some (Some (z, h, c)) /\
    polyvecl_chknorm z (GAMMA1 - PARAM_BETA p) = false.
Proof.
  intros Hp. pose proof (params_bounds n p Hp) as (Hn & _).
  assert (H03 : n = 0 \/ n = 1 \/ n = 2 \/ n = 3) by lia.
  split_and!; [| |by eapply unpack_pk_some; [done|]; rewrite length_replicate; pose proof (params_bounds n p Hp); lia|].
  - destruct H03 as [-> | [-> | [-> | ->]]]; injection Hp as <-; vm_compute; done.
  - apply Forall_app. split; [|apply Forall_replicate; unfold fits; lia].
    apply Forall_concat, Forall_replicate. repeat constructor; unfold fits; lia.
  - intros m. destruct H03 as [-> | [-> | [-> | ->]]]; injection Hp as <-;
      (eexists _, _, _; split; [vm_compute; reflexivity | vm_compute; reflexivity]).
Qed.

Definition copy_core : DilithiumCore.
Proof.
  refine {|
    dilithium_crypto_sign_keypair n seed :=
      match dilithium_params_init n with
      | Some p => Some (replicate (Z.to_nat (CRYPTO_PUBLICKEYBYTES p)) 1, replicate (Z.to_nat (CRYPTO_SECRETKEYBYTES p)) 2)
      | None => None
      end;
    dilithium_crypto_sign n sk m :=
      match dilithium_params_init n with
      | Some p => (0, zero_sig p ++ map (wrap 8) m)
      | None => (1, [])
      end;
    sign_equation p rho t1 z h c m pk := true |}.
  - intros n seed pk sk. destruct (dilithium_params_init n) as [p|] eqn:Ep; [|done]. intros [= <- <-]. exists p.
    pose proof (params_bounds n p Ep). rewrite !length_replicate. split; [done|]. split; [lia|]. split; [lia|].
    split; apply Forall_replicate; unfold fits; lia.
  - intros n sk m s. destruct (dilithium_params_init n) as [p|] eqn:Ep; [|done]. intros [= <-]. exists p.
    destruct (zero_sig_spec n p Ep) as (L & F & _). rewrite length_app, length_map. split; [done|]. split; [lia|].
    apply Forall_app. split; [done|]. apply Forall_map, Forall_forall. intros x _. apply wrap_fits. lia.
  - intros n seed pk sk m s ok Hok. destruct (dilithium_params_init n) as [p|] eqn:Ep; [|done]. intros [= <- <-] [= <-].
    destruct (zero_sig_spec n p Ep) as (L & F & [[rho t1] Epk] & U). pose proof (params_bounds n p Ep).
    destruct (U (map (wrap 8) m)) as (z & h & c & Es & En).
    unfold dilithium_crypto_sign_open. rewrite Z.eqb_refl, Ep, !Hok, length_app, length_map. cbn [negb].
    rewrite (proj2 (Z.ltb_ge _ _)), (proj2 (Z.eqb_eq _ _)) by lia. cbn [negb].
    rewrite Epk. cbn [mbind option_bind]. rewrite Es. cbn [mbind option_bind]. rewrite En.
    rewrite (mem_read_all m) by done. cbn [mbind option_bind]. rewrite mem_read_all by (rewrite length_replicate; lia). done.
Defined.

Lemma key_roundtrip_witness : let H := copy_core in
  let k := dil_key (λ _, true) MODE_1 (replicate 2800 2) (replicate 1184 1) 7 [9; 8] in
  let b := key_bytes k (key_block 1 2800 (replicate 2800 2)) (key_block 1 1184 (replicate 1184 1)) [9; 8] in
  dap_enc_key_deserialize (λ _, true) (dilithium_table (λ _, true)) id b 4054 = Some (Some k).
Proof.
  intros H k b.
  assert (Hk : key_ok (λ _, true) (dilithium_table (λ _, true)) id k
    (part_bytes 1 (replicate 2800 2)) (part_bytes 1 (replicate 1184 1)) [9; 8]).
  { eapply (dil_key_ok (λ _, true)); [done | done | reflexivity | by right | by right | | cbn; lia]. unfold fits. lia. }
  destruct (key_roundtrip _ _ _ k _ _ _ (λ _, eq_refl) Hk) as (_ & Hr & _).
  apply Hr. done.
Defined.

Lemma key_deserialize_safe_witness : let H := copy_core in
  let b := replicate 8 255 ++ replicate 32 1 ++ [21; 0; 0; 0] ++ replicate 20 5 in
  is_Some (dap_enc_key_deserialize (λ _, true) (dilithium_table (λ _, true)) id b 64).
Proof.
  intros H b.
  destruct (key_deserialize_safe (λ _, true) (dilithium_table (λ _, true)) id b 21) as [Hs _].
  - by apply dilithium_table_safe.
  - unfold b. repeat (apply Forall_app; split); try (apply Forall_replicate; unfold fits; lia).
    repeat constructor; unfold fits; lia.
  - vm_compute. reflexivity.
  - reflexivity.
  - apply Hs. vm_compute. by split.
Defined.
