(* ===== verification/Sign.v ===== *)
(** * Signatures (crypto/src/dap_sign.c)

    Creating a signature block, verifying it, its sizes and public key, and the
    scan of a run of blocks for signatures with different keys.  A block is
    [dap_sign_t]: type, hash type, padding, the two sizes, then the serialized
    public key and the serialized signature.

    The keys are those of [EncKey].  SHA3-256 and the hash that ECDSA uses are
    parameters, and so are the two build options.  [None] is undefined
    behaviour. *)

From S2P Require Import Prelude EncKey.
From S2P Require GdbPkt.
Local Open Scope Z_scope.

Abbreviation SIG_TYPE_NULL := 0.
Abbreviation SIG_TYPE_BLISS := 1.
Abbreviation SIG_TYPE_TESLA := 3.
Abbreviation SIG_TYPE_PICNIC := 0x101.
Abbreviation SIG_TYPE_DILITHIUM := 0x102.
Abbreviation SIG_TYPE_FALCON := 0x103.
Abbreviation SIG_TYPE_SPHINCSPLUS := 0x104.
Abbreviation SIG_TYPE_ECDSA := 0x105.
Abbreviation SIG_TYPE_SHIPOVNIK := 0x106.
Abbreviation SIG_TYPE_MULTI_ECDSA_DILITHIUM := 0xeff.
Abbreviation SIG_TYPE_MULTI_CHAINED := 0xf00.

Abbreviation DAP_SIGN_HASH_TYPE_NONE := 0.
Abbreviation DAP_SIGN_HASH_TYPE_SHA3 := 1.
Abbreviation DAP_SIGN_HASH_TYPE_SIGN := 0x0e.
Abbreviation DAP_SIGN_HASH_TYPE_DEFAULT := 0x0f.
Abbreviation DAP_SIGN_PKEY_HASHING_FLAG := 128.
Abbreviation DAP_HASH_FAST_SIZE := 32.

Definition DAP_SIGN_ADD_PKEY_HASHING_FLAG (a : Z) : Z := Z.lor a DAP_SIGN_PKEY_HASHING_FLAG.
Definition DAP_SIGN_REMOVE_PKEY_HASHING_FLAG (a : Z) : Z := Z.ldiff a DAP_SIGN_PKEY_HASHING_FLAG.
Definition DAP_SIGN_GET_PKEY_HASHING_FLAG (a : Z) : bool := negb (Z.land a DAP_SIGN_PKEY_HASHING_FLAG =? 0).

(** The header of a block at the start of [m]. *)
Definition sign_type (m : list Z) : option Z := mem_le m 0 4.
Definition sign_hash_type (m : list Z) : option Z := mem_le m 4 1.
Definition sign_size (m : list Z) : option Z := mem_le m 6 4.
Definition sign_pkey_size (m : list Z) : option Z := mem_le m 10 4.

Definition sizeof_dap_sign : Z := 14.

Section Signs.
Context {obj : Type}.
Variable calloc_ok : Z -> bool.
Variable s_callbacks : Z -> @dap_enc_key_callbacks obj.
Variable picnic_update : @dap_enc_key obj -> @dap_enc_key obj.
(** Build options. *)
Variables DAP_ECDSA DAP_SHIPOVNIK : bool.
Variables SHA3_256 ecdsa_hash : list Z -> list Z.
(** Set by [dap_sign_init]. *)
Variable s_sign_hash_type_default : Z.

Abbreviation key := (@dap_enc_key obj).

Definition dap_hash_fast (a_data_in : list Z) : option (list Z) :=
  match a_data_in with [] => None | _ => Some (SHA3_256 a_data_in) end.

Definition dap_sign_type_from_key_type (t : Z) : Z :=
  if t =? DAP_ENC_KEY_TYPE_SIG_BLISS then SIG_TYPE_BLISS
  else if t =? DAP_ENC_KEY_TYPE_SIG_PICNIC then SIG_TYPE_PICNIC
  else if t =? DAP_ENC_KEY_TYPE_SIG_TESLA then SIG_TYPE_TESLA
  else if t =? DAP_ENC_KEY_TYPE_SIG_DILITHIUM then SIG_TYPE_DILITHIUM
  else if t =? DAP_ENC_KEY_TYPE_SIG_FALCON then SIG_TYPE_FALCON
  else if t =? DAP_ENC_KEY_TYPE_SIG_SPHINCSPLUS then SIG_TYPE_SPHINCSPLUS
  else if DAP_ECDSA && (t =? DAP_ENC_KEY_TYPE_SIG_ECDSA) then SIG_TYPE_ECDSA
  else if DAP_ECDSA && (t =? DAP_ENC_KEY_TYPE_SIG_MULTI_ECDSA_DILITHIUM) then SIG_TYPE_MULTI_ECDSA_DILITHIUM
  else if DAP_SHIPOVNIK && (t =? DAP_ENC_KEY_TYPE_SIG_SHIPOVNIK) then SIG_TYPE_SHIPOVNIK
  else if t =? DAP_ENC_KEY_TYPE_SIG_MULTI_CHAINED then SIG_TYPE_MULTI_CHAINED
  else SIG_TYPE_NULL.

Definition dap_sign_type_to_key_type (t : Z) : Z :=
  if t =? SIG_TYPE_BLISS then DAP_ENC_KEY_TYPE_SIG_BLISS
  else if t =? SIG_TYPE_TESLA then DAP_ENC_KEY_TYPE_SIG_TESLA
  else if t =? SIG_TYPE_PICNIC then DAP_ENC_KEY_TYPE_SIG_PICNIC
  else if t =? SIG_TYPE_DILITHIUM then DAP_ENC_KEY_TYPE_SIG_DILITHIUM
  else if t =? SIG_TYPE_FALCON then DAP_ENC_KEY_TYPE_SIG_FALCON
  else if t =? SIG_TYPE_SPHINCSPLUS then DAP_ENC_KEY_TYPE_SIG_SPHINCSPLUS
  else if DAP_ECDSA && (t =? SIG_TYPE_ECDSA) then DAP_ENC_KEY_TYPE_SIG_ECDSA
  else if DAP_ECDSA && (t =? SIG_TYPE_MULTI_ECDSA_DILITHIUM) then DAP_ENC_KEY_TYPE_SIG_MULTI_ECDSA_DILITHIUM
  else if DAP_SHIPOVNIK && (t =? SIG_TYPE_SHIPOVNIK) then DAP_ENC_KEY_TYPE_SIG_SHIPOVNIK
  else if t =? SIG_TYPE_MULTI_CHAINED then DAP_ENC_KEY_TYPE_SIG_MULTI_CHAINED
  else DAP_ENC_KEY_TYPE_INVALID.

Definition dap_sign_type_is_depricated (t : Z) : bool :=
  (t =? SIG_TYPE_PICNIC) || (t =? SIG_TYPE_BLISS) || (t =? SIG_TYPE_TESLA).

(** The types a signature can be made and checked with. *)
Definition signing_type (t : Z) : bool :=
  one_of t [DAP_ENC_KEY_TYPE_SIG_TESLA; DAP_ENC_KEY_TYPE_SIG_PICNIC; DAP_ENC_KEY_TYPE_SIG_BLISS;
            DAP_ENC_KEY_TYPE_SIG_DILITHIUM; DAP_ENC_KEY_TYPE_SIG_FALCON; DAP_ENC_KEY_TYPE_SIG_SPHINCSPLUS;
            DAP_ENC_KEY_TYPE_SIG_MULTI_CHAINED]
  || DAP_ECDSA && one_of t [DAP_ENC_KEY_TYPE_SIG_ECDSA; DAP_ENC_KEY_TYPE_SIG_MULTI_ECDSA_DILITHIUM]
  || DAP_SHIPOVNIK && (t =? DAP_ENC_KEY_TYPE_SIG_SHIPOVNIK).

Definition dap_enc_calc_signature_unserialized_size (a_key : key) : option Z :=
  if one_of (key_type a_key) [DAP_ENC_KEY_TYPE_SIG_PICNIC; DAP_ENC_KEY_TYPE_SIG_BLISS; DAP_ENC_KEY_TYPE_SIG_TESLA;
       DAP_ENC_KEY_TYPE_SIG_DILITHIUM; DAP_ENC_KEY_TYPE_SIG_FALCON; DAP_ENC_KEY_TYPE_SIG_ECDSA;
       DAP_ENC_KEY_TYPE_SIG_SHIPOVNIK; DAP_ENC_KEY_TYPE_SIG_SPHINCSPLUS; DAP_ENC_KEY_TYPE_SIG_MULTI_CHAINED;
       DAP_ENC_KEY_TYPE_SIG_MULTI_ECDSA_DILITHIUM]
  then c ← callbacks_of s_callbacks (key_type a_key);
       Some (match deser_sign_size c with Some f => f (Some a_key) | None => 0 end)
  else Some 0.

(** The code and the block of the signature. *)
Definition dap_sign_create_output (a_key : key) (a_data : list Z) (a_output_size : Z) : option (Z * option kdata) :=
  if signing_type (key_type a_key) then
    f ← sign_get a_key;
    '(rc, o) ← f (priv_key_data a_key) a_data a_output_size;
    Some (rc, Some o)
  else Some (-1, None).

(** The code and the hash, [None] when it is not written. *)
Definition dap_enc_key_get_pkey_hash (a_key : key) : option (Z * option (list Z)) :=
  match pub_key_data a_key with
  | None => Some (-1, None)
  | Some _ =>
    if pub_key_data_size a_key =? 0 then Some (-1, None) else
    '(l_pub_key, l_pub_key_size) ← dap_enc_key_serialize_pub_key calloc_ok s_callbacks a_key 0;
    match l_pub_key with
    | None => Some (-2, None)
    | Some l_pub_key =>
      d ← mem_read l_pub_key 0 l_pub_key_size;
      if key_type a_key =? DAP_ENC_KEY_TYPE_SIG_ECDSA
      then Some (if DAP_ECDSA then (0, Some (ecdsa_hash d)) else (-2, None))
      else Some (match dap_hash_fast d with Some h => (0, Some h) | None => (1, None) end)
    end
  end.

(** The hash type the block carries. *)
Definition chosen_hash_type (t a_hash_type : Z) : Z :=
  let l_hash_type := DAP_SIGN_REMOVE_PKEY_HASHING_FLAG a_hash_type in
  if t =? DAP_ENC_KEY_TYPE_SIG_ECDSA then DAP_SIGN_HASH_TYPE_SIGN
  else
    let l_hash_type := if l_hash_type =? DAP_SIGN_HASH_TYPE_SIGN then s_sign_hash_type_default else l_hash_type in
    if l_hash_type =? DAP_SIGN_HASH_TYPE_DEFAULT then s_sign_hash_type_default else l_hash_type.

Definition zero_hash : list Z := replicate 32 0.

(** What is signed.  An unknown hash type is only logged: zeros are signed. *)
Definition data_to_sign (l_hash_type : Z) (a_data : list Z) : list Z :=
  if (l_hash_type =? DAP_SIGN_HASH_TYPE_NONE) || (l_hash_type =? DAP_SIGN_HASH_TYPE_SIGN) then a_data
  else if l_hash_type =? DAP_SIGN_HASH_TYPE_SHA3 then default zero_hash (dap_hash_fast a_data)
  else zero_hash.

(** The public key, or its hash, and the size. *)
Definition pkey_of_key (a_key : key) (l_use_pkey_hash : bool) : option (option (list Z) * Z) :=
  if l_use_pkey_hash then
    if negb (DAP_NEW_Z_SIZE calloc_ok DAP_HASH_FAST_SIZE) then None else
    '(_, h) ← dap_enc_key_get_pkey_hash a_key;
    Some (Some (default zero_hash h), DAP_HASH_FAST_SIZE)
  else dap_enc_key_serialize_pub_key calloc_ok s_callbacks a_key 0.

Definition sign_block (t l_hash_type : Z) (l_pub_key l_sign_ser : list Z) : list Z :=
  fields [(4%nat, t); (1%nat, l_hash_type); (1%nat, 0); (4%nat, Z.of_nat (length l_sign_ser));
          (4%nat, Z.of_nat (length l_pub_key))] ++ l_pub_key ++ l_sign_ser.

Definition dap_sign_create_with_hash_type (a_key : key) (a_data : list Z) (a_hash_type : Z) : option (option (list Z)) :=
  match priv_key_data a_key with
  | None => Some None
  | Some _ =>
    if priv_key_data_size a_key =? 0 then Some None else
    let l_use_pkey_hash := DAP_SIGN_GET_PKEY_HASHING_FLAG a_hash_type in
    let l_hash_type := chosen_hash_type (key_type a_key) a_hash_type in
    if l_use_pkey_hash && (l_hash_type =? DAP_SIGN_HASH_TYPE_NONE) then Some None else
    let l_sign_data := data_to_sign l_hash_type a_data in
    l_sign_unserialized_size ← dap_enc_calc_signature_unserialized_size a_key;
    if negb (0 <? l_sign_unserialized_size) then Some None else
    if negb (DAP_NEW_Z_SIZE calloc_ok l_sign_unserialized_size) then Some None else
    '(l_pub_key, l_pub_key_size) ← pkey_of_key a_key l_use_pkey_hash;
    '(rc, o) ← dap_sign_create_output a_key l_sign_data l_sign_unserialized_size;
    match o with
    | Some o =>
      if negb (rc =? 0) then Some None else
      '(l_sign_ser, l_sign_ser_size) ←
         dap_enc_key_serialize_sign calloc_ok s_callbacks (key_type a_key) o l_sign_unserialized_size;
      match l_sign_ser with
      | None => Some None
      | Some l_sign_ser =>
        if negb (DAP_NEW_Z_SIZE calloc_ok (wrap 64 (sizeof_dap_sign + l_sign_ser_size + l_pub_key_size))) then Some None else
        pk ← mem_read (default [] l_pub_key) 0 l_pub_key_size;
        s ← mem_read l_sign_ser 0 l_sign_ser_size;
        Some (Some (sign_block (dap_sign_type_from_key_type (key_type a_key))
          (if l_use_pkey_hash then DAP_SIGN_ADD_PKEY_HASHING_FLAG l_hash_type else l_hash_type) pk s))
      end
    | None => Some None
    end
  end.

Definition dap_sign_create (a_key : key) (a_data : list Z) : option (option (list Z)) :=
  dap_sign_create_with_hash_type a_key a_data DAP_SIGN_HASH_TYPE_DEFAULT.

(** The bytes from the signature on, and its size. *)
Definition dap_sign_get_sign (a_sign : list Z) : option (list Z * Z) :=
  n ← sign_size a_sign; k ← sign_pkey_size a_sign;
  Some (drop (Z.to_nat (sizeof_dap_sign + k)) a_sign, n).

Definition dap_sign_get_pkey (a_sign : list Z) : option (list Z * Z) :=
  k ← sign_pkey_size a_sign; Some (drop (Z.to_nat sizeof_dap_sign) a_sign, k).

(** The result and the hash, which is a block of 32 bytes of the caller. *)
Definition dap_sign_get_pkey_hash (a_sign a_sign_hash : list Z) : option (bool * list Z) :=
  k ← sign_pkey_size a_sign;
  if k =? 0 then Some (false, a_sign_hash) else
  h ← sign_hash_type a_sign;
  if DAP_SIGN_GET_PKEY_HASHING_FLAG h then
    if DAP_HASH_FAST_SIZE <? k then Some (false, a_sign_hash)
    else d ← mem_read a_sign sizeof_dap_sign k; r ← mem_write a_sign_hash 0 d; Some (true, r)
  else
    d ← mem_read a_sign sizeof_dap_sign k;
    Some (match dap_hash_fast d with Some r => (true, r) | None => (false, a_sign_hash) end).

Definition dap_sign_compare_pkeys (a_sign1 a_sign2 : list Z) : option bool :=
  t1 ← sign_type a_sign1; t2 ← sign_type a_sign2;
  if negb (t1 =? t2) then Some false else
  '(p1, n1) ← dap_sign_get_pkey a_sign1; '(p2, n2) ← dap_sign_get_pkey a_sign2;
  if negb (n1 =? n2) then Some false else
  d1 ← mem_read p1 0 n1; d2 ← mem_read p2 0 n2;
  Some (bool_decide (d1 = d2)).

(** The key is given, or taken from the block. *)
Definition dap_sign_to_enc_key_by_pkey (a_chain_sign : list Z) (a_pkey : option (list Z * Z)) : option (option key) :=
  t ← sign_type a_chain_sign;
  let l_type := dap_sign_type_to_key_type t in
  if l_type =? DAP_ENC_KEY_TYPE_INVALID then Some None else
  '(l_pkey, l_pkey_size) ← match a_pkey with Some p => Some p | None => dap_sign_get_pkey a_chain_sign end;
  l_ret ← dap_enc_key_new calloc_ok s_callbacks l_type;
  match l_ret with
  | None => Some None
  | Some l_ret =>
    '(rc, l_ret) ← dap_enc_key_deserialize_pub_key calloc_ok s_callbacks picnic_update l_ret l_pkey l_pkey_size;
    Some (if rc =? 0 then Some l_ret else None)
  end.

(** [l_verify_data_hash] is not initialized: [uninit] is what it holds. *)
Definition data_to_verify (l_hash_type : Z) (uninit a_data : list Z) : option (list Z) :=
  if (l_hash_type =? DAP_SIGN_HASH_TYPE_NONE) || (l_hash_type =? DAP_SIGN_HASH_TYPE_SIGN) then Some a_data
  else if l_hash_type =? DAP_SIGN_HASH_TYPE_SHA3 then Some (default uninit (dap_hash_fast a_data))
  else None.

Definition dap_sign_verify_by_pkey (uninit a_chain_sign a_data : list Z) (a_pkey : option (list Z * Z)) : option Z :=
  l_key ← dap_sign_to_enc_key_by_pkey a_chain_sign a_pkey;
  match l_key with
  | None => Some (-3)
  | Some l_key =>
    '(l_sign_data_ser, l_sign_data_size) ← dap_sign_get_sign a_chain_sign;
    '(l_sign_data, l_sign_data_size) ←
       dap_enc_key_deserialize_sign calloc_ok s_callbacks (key_type l_key) l_sign_data_ser l_sign_data_size;
    match l_sign_data with
    | None => Some (-5)
    | Some l_sign_data =>
      h ← sign_hash_type a_chain_sign;
      match data_to_verify (DAP_SIGN_REMOVE_PKEY_HASHING_FLAG h) uninit a_data with
      | None => Some (-5)
      | Some l_verify_data =>
        if signing_type (key_type l_key) then
          f ← sign_verify l_key; f (pub_key_data l_key) l_verify_data l_sign_data l_sign_data_size
        else Some (-6)
      end
    end
  end.

Definition dap_sign_verify (uninit a_chain_sign a_data : list Z) : option Z :=
  dap_sign_verify_by_pkey uninit a_chain_sign a_data None.

(** Zero when the sizes are consistent. *)
Definition dap_sign_verify_size (a_sign : list Z) (a_max_sign_size : Z) : option Z :=
  if negb (sizeof_dap_sign <? a_max_sign_size) then Some 1 else
  n ← sign_size a_sign;
  if n =? 0 then Some 1 else
  k ← sign_pkey_size a_sign;
  if k =? 0 then Some 1 else
  t ← sign_type a_sign;
  if t =? SIG_TYPE_NULL then Some 1 else
  Some (if n + k + sizeof_dap_sign <=? a_max_sign_size then 0 else 1).

Definition dap_sign_verify_all (uninit a_sign : list Z) (a_sign_size_max : Z) (a_data : list Z) : option Z :=
  r ← dap_sign_verify_size a_sign a_sign_size_max;
  if negb (r =? 0) then Some (-2) else
  r ← dap_sign_verify uninit a_sign a_data;
  Some (if r =? 0 then 0 else -1).

(** An array of pointers. *)
Definition DAP_NEW_Z_COUNT (c : Z) : bool := (0 <? c) && (c <? 2 ^ 63) && calloc_ok (8 * c).

(** Whether one of the signatures found so far has the key of [l_sign]. *)
Fixpoint known_pkey (a_data : list Z) (l_sign : list Z) (ret : list Z) : option bool :=
  match ret with
  | [] => Some false
  | o :: ret =>
    b ← dap_sign_compare_pkeys l_sign (drop (Z.to_nat o) a_data);
    if b : bool then Some true else known_pkey a_data l_sign ret
  end.

(** The offsets of the signatures found, in order; [None] inside when memory
    runs out.  [a_signs_count] is the wanted number, zero for all. *)
Fixpoint unique_loop (fuel : nat) (a_data : list Z) (a_data_size a_signs_count l_signs_count l_offset : Z)
    (ret : list Z) : option (option (list Z)) :=
  match fuel with
  | O => None
  | S fuel =>
    if negb (l_offset + sizeof_dap_sign <? a_data_size) then Some (Some ret) else
    let l_sign := drop (Z.to_nat l_offset) a_data in
    l_sign_size ← GdbPkt.dap_sign_get_size l_sign 0;
    if (wrap 64 (l_offset + l_sign_size) <=? l_offset) || (a_data_size <? wrap 64 (l_offset + l_sign_size))
    then Some (Some ret) else
    l_dup ← known_pkey a_data l_sign ret;
    if l_dup : bool then unique_loop fuel a_data a_data_size a_signs_count l_signs_count (l_offset + l_sign_size) ret
    else if (match ret with [] => negb (DAP_NEW_Z_COUNT l_signs_count) | _ => false end)
    then Some None
    else
      let ret := ret ++ [l_offset] in
      let i := Z.of_nat (length ret) in
      if negb (a_signs_count =? 0) && (i =? a_signs_count) then Some (Some ret)
      else if i =? l_signs_count then
        if negb (DAP_NEW_Z_SIZE calloc_ok (wrap 64 (8 * (l_signs_count + 10)))) then Some None
        else unique_loop fuel a_data a_data_size a_signs_count (l_signs_count + 10) (l_offset + l_sign_size) ret
      else unique_loop fuel a_data a_data_size a_signs_count l_signs_count (l_offset + l_sign_size) ret
  end.

Definition dap_sign_get_unique_signs (fuel : nat) (a_data : list Z) (a_data_size a_signs_count : Z)
    : option (option (list Z)) :=
  if a_data_size =? 0 then Some None else
  unique_loop fuel a_data a_data_size a_signs_count (if a_signs_count =? 0 then 10 else a_signs_count) 0 [].
End Signs.

(** ** Theory *)

(** Every type that can sign has a name of its own in a block. *)
Lemma sign_type_names DAP_ECDSA DAP_SHIPOVNIK t : signing_type DAP_ECDSA DAP_SHIPOVNIK t = true ->
  let n := dap_sign_type_from_key_type DAP_ECDSA DAP_SHIPOVNIK t in
  dap_sign_type_to_key_type DAP_ECDSA DAP_SHIPOVNIK n = t /\ 0 < n < 2 ^ 32.
Proof.
  unfold signing_type. intros E.
  assert (Ht : (t = 20 \/ t = 18 \/ t = 19 \/ t = 21 \/ t = 24 \/ t = 25 \/ t = 100) \/
    DAP_ECDSA = true /\ (t = 26 \/ t = 99) \/ DAP_SHIPOVNIK = true /\ t = 27).
  { apply orb_prop in E as [E | E]; [apply orb_prop in E as [E | E]|].
    - left. apply existsb_exists in E as (x & Hin & ->%Z.eqb_eq). cbn in Hin. intuition.
    - right. left. apply andb_prop in E as [-> E]. split; [done|].
      apply existsb_exists in E as (x & Hin & ->%Z.eqb_eq). cbn in Hin. intuition.
    - right. right. apply andb_prop in E as [-> ->%Z.eqb_eq]. done. }
  destruct Ht as [Ht | [[-> Ht] | [-> ->]]].
  - repeat destruct Ht as [-> | Ht]; try subst t; destruct DAP_ECDSA, DAP_SHIPOVNIK; by vm_compute.
  - destruct Ht as [-> | ->]; destruct DAP_SHIPOVNIK; by vm_compute.
  - destruct DAP_ECDSA; by vm_compute.
Qed.

Section Blocks.
Context {obj : Type}.
Variable calloc_ok : Z -> bool.
Variable s_callbacks : Z -> @dap_enc_key_callbacks obj.
Variable picnic_update : @dap_enc_key obj -> @dap_enc_key obj.
Variables DAP_ECDSA DAP_SHIPOVNIK : bool.
Variables SHA3_256 ecdsa_hash : list Z -> list Z.
Variable s_sign_hash_type_default : Z.

Abbreviation key := (@dap_enc_key obj).
Abbreviation from_key := (dap_sign_type_from_key_type DAP_ECDSA DAP_SHIPOVNIK).
Abbreviation to_key := (dap_sign_type_to_key_type DAP_ECDSA DAP_SHIPOVNIK).
Abbreviation signing := (signing_type DAP_ECDSA DAP_SHIPOVNIK).
Abbreviation create := (dap_sign_create_with_hash_type calloc_ok s_callbacks DAP_ECDSA DAP_SHIPOVNIK SHA3_256
  ecdsa_hash s_sign_hash_type_default).
Abbreviation verify := (dap_sign_verify_by_pkey calloc_ok s_callbacks picnic_update DAP_ECDSA DAP_SHIPOVNIK SHA3_256).
Abbreviation chosen := (chosen_hash_type s_sign_hash_type_default).

Lemma length_sign_block t h pk s : length (sign_block t h pk s) = (14 + (length pk + length s))%nat.
Proof using. unfold sign_block. rewrite !length_app, length_fields. cbn [fields_len fst]. lia. Qed.

Section Block.
Variables (t h : Z) (pk s tail : list Z).
Hypothesis Ht : fits 32 t.
Hypothesis Hh : fits 8 h.
Hypothesis Hpk : Z.of_nat (length pk) < 2 ^ 32.
Hypothesis Hs : Z.of_nat (length s) < 2 ^ 32.

Lemma block_type : sign_type (sign_block t h pk s ++ tail) = Some t.
Proof using Ht.
  unfold sign_block. rewrite <- app_assoc.
  exact (mem_le_field [] 4 t [(1%nat, h); (1%nat, 0); (4%nat, Z.of_nat (length s)); (4%nat, Z.of_nat (length pk))] _ Ht).
Qed.

Lemma block_hash_type : sign_hash_type (sign_block t h pk s ++ tail) = Some h.
Proof using Hh.
  unfold sign_block. rewrite <- app_assoc.
  exact (mem_le_field [(4%nat, t)] 1 h [(1%nat, 0); (4%nat, Z.of_nat (length s)); (4%nat, Z.of_nat (length pk))] _ Hh).
Qed.

Lemma block_sign_size : sign_size (sign_block t h pk s ++ tail) = Some (Z.of_nat (length s)).
Proof using Hs.
  unfold sign_block. rewrite <- app_assoc.
  refine (mem_le_field [(4%nat, t); (1%nat, h); (1%nat, 0)] 4 (Z.of_nat (length s)) [(4%nat, Z.of_nat (length pk))] _ _).
  unfold fits. cbn. lia.
Qed.

Lemma block_pkey_size : sign_pkey_size (sign_block t h pk s ++ tail) = Some (Z.of_nat (length pk)).
Proof using Hpk.
  unfold sign_block. rewrite <- app_assoc.
  refine (mem_le_field [(4%nat, t); (1%nat, h); (1%nat, 0); (4%nat, Z.of_nat (length s))] 4 (Z.of_nat (length pk)) [] _ _).
  unfold fits. cbn. lia.
Qed.

Lemma block_pkey : drop 14 (sign_block t h pk s ++ tail) = pk ++ s ++ tail.
Proof using. unfold sign_block. rewrite <- !app_assoc. apply drop_app_length'. by rewrite length_fields. Qed.

Lemma block_sign : drop (14 + length pk) (sign_block t h pk s ++ tail) = s ++ tail.
Proof using. rewrite <- drop_drop, block_pkey. by rewrite drop_app_length. Qed.

Lemma block_size : t <> 0 ->
  GdbPkt.dap_sign_get_size (sign_block t h pk s ++ tail) 0 = Some (Z.of_nat (length (sign_block t h pk s))).
Proof using Ht Hpk Hs.
  intros Hn. unfold GdbPkt.dap_sign_get_size. pose proof block_type as E1. pose proof block_sign_size as E2.
  pose proof block_pkey_size as E3. unfold sign_type, sign_size, sign_pkey_size in *. rewrite E1. cbn [mbind option_bind].
  destruct (Z.eqb_spec t GdbPkt.SIG_TYPE_NULL); [done|]. change (0 + 6) with 6. change (0 + 10) with 10.
  rewrite E2. cbn [mbind option_bind]. rewrite E3. cbn [mbind option_bind]. rewrite length_sign_block.
  change GdbPkt.sizeof_sign with 14. f_equal. lia.
Qed.
End Block.

(** What a scheme promises about a key that signs: its public part is [pk] in
    bytes, and the signatures it makes survive their serializer and verify. *)
Record signing_key (k : key) (pk : list Z) (size : Z) : Prop := {
  sk_type : signing (key_type k) = true;
  sk_priv : exists d, priv_key_data k = Some d /\ priv_key_data_size k <> 0;
  sk_pub : stored_pub calloc_ok s_callbacks picnic_update k pk /\ pk <> [] /\ Z.of_nat (length pk) < 2 ^ 29 /\
           Forall (fits 8) pk;
  sk_new : dap_enc_key_new calloc_ok s_callbacks (key_type k)
           = Some (Some (EncKey 0 None 0 None 0 (key_type k) (sign_get k) (sign_verify k) None 0));
  sk_size : dap_enc_calc_signature_unserialized_size s_callbacks k = Some size /\ 0 < size < 2 ^ 63;
  sk_signs : exists g v, sign_get k = Some g /\ sign_verify k = Some v /\ forall m, exists rc o,
    g (priv_key_data k) m size = Some (rc, o) /\
    (rc = 0 -> Z.of_nat (length m) < 2 ^ 28 -> exists b size', b <> [] /\ Z.of_nat (length b) < 2 ^ 29 /\
       Forall (fits 8) b /\ dap_enc_key_serialize_sign calloc_ok s_callbacks (key_type k) o size = Some (Some b, Z.of_nat (length b)) /\
       (forall tail, dap_enc_key_deserialize_sign calloc_ok s_callbacks (key_type k) (b ++ tail) (Z.of_nat (length b))
         = Some (Some o, size')) /\
       v (pub_key_data k) m o size' = Some 0);
}.

(** The hash of the public key of a key. *)
Definition pkey_hash (k : key) (pk : list Z) : list Z :=
  if key_type k =? DAP_ENC_KEY_TYPE_SIG_ECDSA then ecdsa_hash pk else SHA3_256 pk.

(** What the block carries for the public key. *)
Definition pkey_part (k : key) (pk : list Z) (flag : bool) : list Z := if flag then pkey_hash k pk else pk.

Section Sound.
Hypothesis memory : forall s, calloc_ok s = true.
Hypothesis hash_length : forall m, length (SHA3_256 m) = 32%nat /\ length (ecdsa_hash m) = 32%nat.

Lemma data_to_sign_length ht data : (length (data_to_sign SHA3_256 ht data) <= Nat.max (length data) 32)%nat.
Proof using hash_length.
  unfold data_to_sign. destruct ((ht =? 0) || (ht =? 14)); [lia|].
  destruct (ht =? 1); [|cbn; lia]. unfold dap_hash_fast. destruct data as [|x data]; [cbn; lia|].
  cbn [default from_option id]. destruct (hash_length (x :: data)) as [-> _]. lia.
Qed.

Context {k : key} {pk : list Z} {size : Z} (Hk : signing_key k pk size).

Lemma pub_serialized n :
  dap_enc_key_serialize_pub_key calloc_ok s_callbacks k n = Some (Some pk, Z.of_nat (length pk)) /\
  is_Some (pub_key_data k) /\ pub_key_data_size k <> 0.
Proof using Hk.
  destruct (sk_pub _ _ _ Hk) as ([(_ & _ & ->) | (_ & Hs & _)] & Hne & _); [done|]. split; [apply Hs|].
  specialize (Hs 0). unfold dap_enc_key_serialize_pub_key in Hs. destruct (pub_key_data k) as [d|]; [|done].
  split; [done|]. intros E. by rewrite E in Hs.
Qed.

Lemma pkey_part_made flag : pkey_of_key calloc_ok s_callbacks DAP_ECDSA SHA3_256 ecdsa_hash k flag
  = Some (Some (pkey_part k pk flag), Z.of_nat (length (pkey_part k pk flag))) /\ Z.of_nat (length (pkey_part k pk flag)) < 2 ^ 29.
Proof using memory hash_length Hk.
  destruct (pub_serialized 0) as (Es & [d Ed] & Hz). pose proof (sk_pub _ _ _ Hk) as (_ & Hne & Hl & _).
  unfold pkey_of_key, pkey_part. destruct flag; [|by rewrite Es].
  rewrite new_z_size by (done || lia). cbn [negb]. unfold dap_enc_key_get_pkey_hash. rewrite Ed, Es.
  destruct (Z.eqb_spec (pub_key_data_size k) 0); [done|]. cbn [mbind option_bind].
  rewrite (mem_read_all pk) by done. cbn [mbind option_bind]. unfold pkey_hash, dap_hash_fast.
  destruct (hash_length pk) as [L1 L2].
  destruct (Z.eqb_spec (key_type k) 26) as [Et |].
  - assert (Hd : DAP_ECDSA = true).
    { pose proof (sk_type _ _ _ Hk) as Hs. unfold signing_type in Hs. rewrite Et in Hs. clear - Hs. by destruct DAP_ECDSA, DAP_SHIPOVNIK. }
    rewrite Hd. cbn [mbind option_bind default from_option id]. rewrite L2. split; [done | lia].
  - destruct pk as [|x l] eqn:Ep; [done|]. cbn [mbind option_bind default from_option id]. rewrite L1. split; [done | lia].
Qed.

(** The signature of the data, or none when the scheme fails. *)
Lemma create_block data h : let flag := DAP_SIGN_GET_PKEY_HASHING_FLAG h in let ht := chosen (key_type k) h in
  (flag && (ht =? DAP_SIGN_HASH_TYPE_NONE) = false) -> Z.of_nat (length (data_to_sign SHA3_256 ht data)) < 2 ^ 28 ->
  exists rc o, (exists g, sign_get k = Some g /\ g (priv_key_data k) (data_to_sign SHA3_256 ht data) size = Some (rc, o)) /\
  (rc <> 0 -> create k data h = Some None) /\
  (rc = 0 -> exists b size', (Z.of_nat (length b) < 2 ^ 29 /\ Forall (fits 8) b) /\
    create k data h = Some (Some (sign_block (from_key (key_type k))
      (if flag then DAP_SIGN_ADD_PKEY_HASHING_FLAG ht else ht) (pkey_part k pk flag) b)) /\
    (forall tail, dap_enc_key_deserialize_sign calloc_ok s_callbacks (key_type k) (b ++ tail) (Z.of_nat (length b))
         = Some (Some o, size')) /\
    exists v, sign_verify k = Some v /\ v (pub_key_data k) (data_to_sign SHA3_256 ht data) o size' = Some 0).
Proof using memory hash_length Hk.
  intros flag ht Hf Hlen. destruct (sk_priv _ _ _ Hk) as (d & Ed & Hz). destruct (sk_size _ _ _ Hk) as [Es Hs].
  destruct (sk_signs _ _ _ Hk) as (g & v & Eg & Ev & Hsig). destruct (Hsig (data_to_sign SHA3_256 ht data)) as (rc & o & Eo & Hgood).
  destruct (pkey_part_made flag) as [Epk Hpk].
  assert (Hcut : create k data h = (if negb (rc =? 0) then Some None else
      '(l_sign_ser, l_sign_ser_size) ← dap_enc_key_serialize_sign calloc_ok s_callbacks (key_type k) o size;
      match l_sign_ser with
      | None => Some None
      | Some l_sign_ser =>
        if negb (DAP_NEW_Z_SIZE calloc_ok (wrap 64 (sizeof_dap_sign + l_sign_ser_size + Z.of_nat (length (pkey_part k pk flag))))) then Some None else
        pk ← mem_read (pkey_part k pk flag) 0 (Z.of_nat (length (pkey_part k pk flag)));
        s ← mem_read l_sign_ser 0 l_sign_ser_size;
        Some (Some (sign_block (from_key (key_type k)) (if flag then DAP_SIGN_ADD_PKEY_HASHING_FLAG ht else ht) pk s))
      end)).
  { unfold dap_sign_create_with_hash_type. rewrite Ed. destruct (Z.eqb_spec (priv_key_data_size k) 0); [done|].
    fold flag. fold ht. rewrite Hf, Es. cbn [mbind option_bind].
    destruct (Z.ltb_spec 0 size); [|lia]. cbn [negb]. rewrite new_z_size by done. cbn [negb]. rewrite Epk. cbn [mbind option_bind].
    unfold dap_sign_create_output. rewrite (sk_type _ _ _ Hk), Eg. cbn [mbind option_bind]. by rewrite Eo. }
  exists rc, o. split; [by exists g|]. split; [intros Hrc|intros ->].
  - rewrite Hcut. by destruct (Z.eqb_spec rc 0).
  - destruct (Hgood eq_refl Hlen) as (b & size' & Hb & Lb & Bb & Eser & Edes & Ever). exists b, size'. split; [done|].
    split; [|split; [done | by exists v]]. rewrite Hcut. cbn [Z.eqb negb]. rewrite Eser. cbn [mbind option_bind].
    rewrite wrap_id by (unfold fits, sizeof_dap_sign; lia). rewrite new_z_size by (done || unfold sizeof_dap_sign; lia). cbn [negb].
    by rewrite !mem_read_all by done.
Qed.

(** Verifying such a block, with the key from the block or given. *)
Lemma verify_block uninit data h flag b o size' tail a_pkey : fits 8 h -> Z.of_nat (length b) < 2 ^ 29 ->
  (flag = false /\ a_pkey = None \/ exists rest, a_pkey = Some (pk ++ rest, Z.of_nat (length pk))) ->
  (forall tail, dap_enc_key_deserialize_sign calloc_ok s_callbacks (key_type k) (b ++ tail) (Z.of_nat (length b))
         = Some (Some o, size')) ->
  verify uninit (sign_block (from_key (key_type k)) h (pkey_part k pk flag) b ++ tail) data a_pkey
  = match data_to_verify SHA3_256 (DAP_SIGN_REMOVE_PKEY_HASHING_FLAG h) uninit data with
    | None => Some (-5)
    | Some d => v ← sign_verify k; v (pub_key_data k) d o size'
    end.
Proof using memory hash_length Hk.
  intros Hh Hb Hpkey Hd. destruct (sign_type_names _ _ _ (sk_type _ _ _ Hk)) as [Hto Hfrom].
  destruct (pkey_part_made flag) as [_ Hpk]. destruct (sk_pub _ _ _ Hk) as ([(_ & _ & ->) | (_ & _ & Hr)] & Hne & _); [done|].
  set (t := from_key (key_type k)) in *.
  assert (Hk0 : dap_sign_to_enc_key_by_pkey calloc_ok s_callbacks picnic_update DAP_ECDSA DAP_SHIPOVNIK
    (sign_block t h (pkey_part k pk flag) b ++ tail) a_pkey
    = Some (Some (set_pub (EncKey 0 None 0 None 0 (key_type k) (sign_get k) (sign_verify k) None 0)
                    (pub_key_data k) (pub_key_data_size k)))).
  { unfold dap_sign_to_enc_key_by_pkey. rewrite block_type by (unfold fits; lia). cbn [mbind option_bind]. rewrite Hto.
    assert (Hi : (key_type k =? -1) = false).
    { apply Z.eqb_neq. intros E. pose proof (sk_type _ _ _ Hk) as Hs. rewrite E in Hs. clear - Hs. by destruct DAP_ECDSA, DAP_SHIPOVNIK. }
    rewrite Hi, (sk_new _ _ _ Hk).
    destruct Hpkey as [[-> ->] | [rest ->]].
    - unfold dap_sign_get_pkey. rewrite block_pkey_size by lia. cbn [mbind option_bind pkey_part].
      change (Z.to_nat sizeof_dap_sign) with 14%nat. rewrite block_pkey, Hr by done. done.
    - cbn [mbind option_bind]. rewrite Hr by done. done. }
  unfold dap_sign_verify_by_pkey. rewrite Hk0. cbn [mbind option_bind key_type set_pub].
  unfold dap_sign_get_sign. rewrite block_sign_size by lia. cbn [mbind option_bind]. rewrite block_pkey_size by lia. cbn [mbind option_bind].
  replace (Z.to_nat (sizeof_dap_sign + Z.of_nat (length (pkey_part k pk flag)))) with (14 + length (pkey_part k pk flag))%nat
    by (unfold sizeof_dap_sign; lia).
  rewrite block_sign, Hd. cbn [mbind option_bind]. rewrite block_hash_type by done. cbn [mbind option_bind].
  rewrite (sk_type _ _ _ Hk). done.
Qed.
End Sound.

(** The hash of the public key, as the block gives it. *)
Lemma block_pkey_hash k pk size t flag h' b tail out : (forall s, calloc_ok s = true) ->
  (forall m, length (SHA3_256 m) = 32%nat /\ length (ecdsa_hash m) = 32%nat) -> signing_key k pk size ->
  fits 8 h' -> DAP_SIGN_GET_PKEY_HASHING_FLAG h' = flag -> Z.of_nat (length b) < 2 ^ 29 -> length out = 32%nat ->
  dap_sign_get_pkey_hash SHA3_256 (sign_block t h' (pkey_part k pk flag) b ++ tail) out
  = Some (true, if flag then pkey_hash k pk else SHA3_256 pk).
Proof using.
  intros Hm Hl Hk Hfit Hget Lb Hout. destruct (pkey_part_made Hm Hl Hk flag) as [_ Hpk]. unfold dap_sign_get_pkey_hash. rewrite block_pkey_size by lia. cbn [mbind option_bind].
  destruct (sk_pub _ _ _ Hk) as (_ & Hne & _).
  assert (Hn0 : pkey_part k pk flag <> []).
  { unfold pkey_part, pkey_hash. destruct flag; [|done]. destruct (Hl pk) as [L1 L2].
    intros E%(f_equal length). destruct (key_type k =? 26); [rewrite L2 in E | rewrite L1 in E]; done. }
  destruct (Z.eqb_spec (Z.of_nat (length (pkey_part k pk flag))) 0); [by destruct (pkey_part k pk flag)|].
  rewrite block_hash_type by done. cbn [mbind option_bind]. rewrite Hget.
  assert (Er : mem_read (sign_block (t) h' (pkey_part k pk flag) b ++ tail) sizeof_dap_sign
                 (Z.of_nat (length (pkey_part k pk flag))) = Some (pkey_part k pk flag)).
  { unfold sign_block. rewrite <- !app_assoc. pose proof (mem_read_app (fields [(4%nat, t); (1%nat, h'); (1%nat, 0);
      (4%nat, Z.of_nat (length b)); (4%nat, Z.of_nat (length (pkey_part k pk flag)))]) (pkey_part k pk flag) (b ++ tail)) as E.
    by rewrite length_fields in E. }
  rewrite Er. cbn [mbind option_bind]. unfold pkey_part. destruct flag.
  + assert (Lh : length (pkey_hash k pk) = 32%nat) by (unfold pkey_hash; destruct (Hl pk) as [L1 L2]; destruct (key_type k =? 26); done).
    rewrite Lh. change (32 <? Z.of_nat 32) with false. cbn match.
    pose proof (mem_write_app [] out (pkey_hash k pk) [] ltac:(congruence)) as E.
    rewrite !app_nil_r, app_nil_l in E. change (Z.of_nat (length [])) with 0 in E. rewrite E. done.
  + unfold dap_hash_fast. by destruct pk.
Qed.

(** The flag beside a hash type in the byte of the block. *)
Definition flagged (flag : bool) (ht : Z) : Z := if flag then DAP_SIGN_ADD_PKEY_HASHING_FLAG ht else ht.

Lemma flagged_spec flag ht : 0 <= ht < 128 ->
  fits 8 (flagged flag ht) /\ DAP_SIGN_REMOVE_PKEY_HASHING_FLAG (flagged flag ht) = ht /\
  DAP_SIGN_GET_PKEY_HASHING_FLAG (flagged flag ht) = flag.
Proof using.
  intros Hr.
  assert (E : forallb (λ z, (flagged flag z <? 256) && (0 <=? flagged flag z) &&
      (DAP_SIGN_REMOVE_PKEY_HASHING_FLAG (flagged flag z) =? z) &&
      Bool.eqb (DAP_SIGN_GET_PKEY_HASHING_FLAG (flagged flag z)) flag) (seqZ 0 128) = true) by (destruct flag; vm_compute; done).
  rewrite forallb_forall in E. specialize (E ht (proj1 (list_elem_of_In _ _) (proj2 (elem_of_seqZ 0 128 ht) ltac:(lia)))).
  apply andb_true_iff in E as [E E3%Bool.eqb_prop]. apply andb_true_iff in E as [E E2]. apply andb_true_iff in E as [E0 E1].
  split; [unfold fits; lia|]. split; [lia | done].
Qed.

(** The hash types that are checked: of none, of the scheme itself, of SHA3. *)
Definition known_hash (ht : Z) : bool :=
  (ht =? DAP_SIGN_HASH_TYPE_NONE) || (ht =? DAP_SIGN_HASH_TYPE_SIGN) || (ht =? DAP_SIGN_HASH_TYPE_SHA3).

(** An unknown hash type is signed and then refused. *)
Lemma unknown_hash_refused ht uninit data : known_hash ht = false ->
  data_to_sign SHA3_256 ht data = zero_hash /\ data_to_verify SHA3_256 ht uninit data = None.
Proof using.
  unfold known_hash, data_to_sign, data_to_verify. intros [E ->]%orb_false_iff. by rewrite E.
Qed.

(** Both sides take the same bytes for a known type. *)
Lemma known_hash_agrees ht uninit data : known_hash ht = true -> (ht = DAP_SIGN_HASH_TYPE_SHA3 -> data <> []) ->
  data_to_verify SHA3_256 ht uninit data = Some (data_to_sign SHA3_256 ht data).
Proof using.
  unfold known_hash, data_to_sign, data_to_verify. destruct ((ht =? DAP_SIGN_HASH_TYPE_NONE) || (ht =? DAP_SIGN_HASH_TYPE_SIGN)); [done|]. cbn [orb]. intros E. rewrite E.
  apply Z.eqb_eq in E as ->. intros Hd. specialize (Hd eq_refl). by destruct data.
Qed.

(** C22: what becomes of a signature, for every hash type.  Memory is available,
    the scheme of the key keeps its promises ([signing_key]) and signs.  Asked for
    a hashed public key without a hash of the data, signing gives nothing.
    Otherwise it gives a block of the announced size, from which the hash of the
    public key is read, and verifying the block for the same data, whatever follows
    it, accepts it when the hash type is none, SHA3 or the scheme's own, and
    answers -5 when it is any other, such as STREEBOG, which is signed as a hash of
    zeros.  Verifying takes the key in the block, which it carries unless the key
    is hashed, or a given key.  The SHA3 hash of no data is left out: the check
    reads a hash that was never set. *)
Theorem sign_create_verify k pk size data h g o : (forall s, calloc_ok s = true) ->
  (forall m, length (SHA3_256 m) = 32%nat /\ length (ecdsa_hash m) = 32%nat) -> signing_key k pk size ->
  let flag := DAP_SIGN_GET_PKEY_HASHING_FLAG h in let ht := chosen (key_type k) h in
  0 <= ht < 128 -> Z.of_nat (length (data_to_sign SHA3_256 ht data)) < 2 ^ 28 ->
  sign_get k = Some g -> g (priv_key_data k) (data_to_sign SHA3_256 ht data) size = Some (0, o) ->
  if flag && (ht =? DAP_SIGN_HASH_TYPE_NONE) then create k data h = Some None else
  exists s, create k data h = Some (Some s) /\
    (forall uninit tail,
      GdbPkt.dap_sign_get_size (s ++ tail) 0 = Some (Z.of_nat (length s)) /\
      ((ht = DAP_SIGN_HASH_TYPE_SHA3 -> data <> []) ->
       let verdict := if known_hash ht then 0 else -5 in
       (flag = false -> verify uninit (s ++ tail) data None = Some verdict) /\
       (forall rest, verify uninit (s ++ tail) data (Some (pk ++ rest, Z.of_nat (length pk))) = Some verdict))) /\
    (forall out tail, length out = 32%nat ->
      dap_sign_get_pkey_hash SHA3_256 (s ++ tail) out
      = Some (true, if flag then pkey_hash k pk else SHA3_256 pk)).
Proof using.
  intros Hm Hl Hk flag ht Hht Hlen Eg Eo. destruct (flag && (ht =? DAP_SIGN_HASH_TYPE_NONE)) eqn:Hf.
  { unfold dap_sign_create_with_hash_type. destruct (sk_priv _ _ _ Hk) as (d & -> & Hz).
    destruct (Z.eqb_spec (priv_key_data_size k) 0); [done|]. fold flag ht. by rewrite Hf. }
  destruct (create_block Hm Hl Hk data h Hf Hlen) as (rc & o' & (g' & Eg' & Eo') & _ & Hgood).
  fold ht in Eo'. assert (E : rc = 0 /\ o' = o) by (split; congruence). destruct E as [-> ->].
  destruct (Hgood eq_refl) as (b & size' & [Lb _] & Ec & Ed & v & Ev & Hv). fold flag ht in Ec.
  change (if flag then DAP_SIGN_ADD_PKEY_HASHING_FLAG ht else ht) with (flagged flag ht) in Ec.
  destruct (sign_type_names _ _ _ (sk_type _ _ _ Hk)) as [_ Hfrom]. destruct (pkey_part_made Hm Hl Hk flag) as [_ Hpk].
  destruct (flagged_spec flag ht Hht) as (Hfit & Hrem & Hget).
  eexists. split; [exact Ec|]. split.
  - intros uninit tail. split; [apply block_size; unfold fits; lia|]. intros Hd verdict.
    assert (Hver : match data_to_verify SHA3_256 ht uninit data with
      | None => Some (-5) | Some d => v ← sign_verify k; v (pub_key_data k) d o size' end = Some verdict).
    { subst verdict. destruct (known_hash ht) eqn:Ekn; [by rewrite known_hash_agrees, Ev|].
      by rewrite (proj2 (unknown_hash_refused ht uninit data Ekn)). }
    rewrite <- Hrem in Hver. split; [intros Ef|intros rest]; rewrite <- Hver.
    + exact (verify_block Hm Hl Hk uninit data _ flag b o size' tail None Hfit Lb (or_introl (conj Ef eq_refl)) Ed).
    + exact (verify_block Hm Hl Hk uninit data _ flag b o size' tail _ Hfit Lb (or_intror (ex_intro _ rest eq_refl)) Ed).
  - intros out tail Hout. by apply (block_pkey_hash k pk size).
Qed.

(** ** Untrusted blocks *)

Lemma header_fields m : Forall (fits 8) m -> 14 <= Z.of_nat (length m) -> exists t h n k,
  sign_type m = Some t /\ sign_hash_type m = Some h /\ sign_size m = Some n /\ sign_pkey_size m = Some k /\
  0 <= n /\ 0 <= k.
Proof using.
  intros Hb Hl. unfold sign_type, sign_hash_type, sign_size, sign_pkey_size.
  destruct (mem_le_Some m 0 4) as [t Et]; [lia..|]. destruct (mem_le_Some m 4 1) as [h Eh]; [lia..|].
  destruct (mem_le_Some m 6 4) as [n En]; [lia..|]. destruct (mem_le_Some m 10 4) as [k Ek]; [lia..|].
  exists t, h, n, k. pose proof (mem_le_fits _ _ _ _ Hb En) as [? _]. pose proof (mem_le_fits _ _ _ _ Hb Ek) as [? _].
  repeat split; done.
Qed.

(** The checks that come before the scheme: a block passes them only when its two
    parts are there and lie inside it, and then the check of the block decides. *)
Lemma verify_all_spec uninit buf data : Forall (fits 8) buf ->
  dap_sign_verify_all calloc_ok s_callbacks picnic_update DAP_ECDSA DAP_SHIPOVNIK SHA3_256 uninit buf
    (Z.of_nat (length buf)) data = Some (-2) \/
  exists t n k, sign_type buf = Some t /\ sign_size buf = Some n /\ sign_pkey_size buf = Some k /\ 0 < n /\ 0 < k /\
    14 + k + n <= Z.of_nat (length buf) /\
    dap_sign_verify_all calloc_ok s_callbacks picnic_update DAP_ECDSA DAP_SHIPOVNIK SHA3_256 uninit buf
      (Z.of_nat (length buf)) data = (rc ← verify uninit buf data None; Some (if rc =? 0 then 0 else -1)).
Proof using.
  intros Hb. unfold dap_sign_verify_all, dap_sign_verify_size, dap_sign_verify.
  destruct (Z.ltb_spec sizeof_dap_sign (Z.of_nat (length buf))) as [Hl|]; cbn [negb mbind option_bind]; [|by left].
  unfold sizeof_dap_sign in *. destruct (header_fields buf Hb) as (t & h & n & k & Et & Eh & En & Ek & Hn & Hk); [lia|].
  rewrite En, Ek, Et. cbn [mbind option_bind].
  destruct (Z.eqb_spec n 0); cbn [mbind option_bind negb]; [by left|].
  destruct (Z.eqb_spec k 0); cbn [mbind option_bind negb]; [by left|].
  destruct (t =? 0); cbn [mbind option_bind negb]; [by left|].
  destruct (Z.leb_spec (n + k + 14) (Z.of_nat (length buf))); cbn [mbind option_bind negb Z.eqb]; [|by left].
  right. exists t, n, k. split_and!; try done; lia.
Qed.

(** ** Signatures with different keys *)

(** The signatures that stand one after the other from [off] on. *)
Fixpoint sign_chain (fuel : nat) (a_data : list Z) (off : Z) : list Z :=
  match fuel with
  | O => []
  | S fuel =>
    if off + 14 <? Z.of_nat (length a_data) then
      match GdbPkt.dap_sign_get_size (drop (Z.to_nat off) a_data) 0 with
      | Some n => if (0 <? n) && (off + n <=? Z.of_nat (length a_data)) then off :: sign_chain fuel a_data (off + n) else []
      | None => []
      end
    else []
  end.

(** Whose signature it is: the type and the public key. *)
Definition signer (a_data : list Z) (o : Z) : option (Z * list Z) :=
  let s := drop (Z.to_nat o) a_data in
  t ← sign_type s; k ← sign_pkey_size s; d ← mem_read s 14 k; Some (t, d).

(** The first signature of every signer, after those of [ret]. *)
Fixpoint first_of_each (a_data : list Z) (ret l : list Z) : list Z :=
  match l with
  | [] => ret
  | o :: l => if existsb (λ o', bool_decide (signer a_data o = signer a_data o')) ret
              then first_of_each a_data ret l else first_of_each a_data (ret ++ [o]) l
  end.

Section Scan.
Variable a_data : list Z.
Hypothesis bytes : Forall (fits 8) a_data.
Hypothesis short : Z.of_nat (length a_data) < 2 ^ 58.

(** The signature at [o] is complete. *)
Definition complete_at (o : Z) : Prop := 0 <= o /\ o + 14 < Z.of_nat (length a_data) /\ exists n k,
  sign_size (drop (Z.to_nat o) a_data) = Some n /\ sign_pkey_size (drop (Z.to_nat o) a_data) = Some k /\
  0 <= n /\ 0 <= k /\ o + 14 + n + k <= Z.of_nat (length a_data).

Lemma signer_some o : complete_at o -> is_Some (signer a_data o).
Proof using bytes.
  intros (Ho & Hl & n & k & _ & Ek & Hn & Hk & Hle). unfold signer.
  destruct (header_fields (drop (Z.to_nat o) a_data)) as (t & h & n' & k' & -> & _); [by apply Forall_drop | rewrite length_drop; lia|].
  rewrite Ek. cbn [mbind option_bind]. rewrite <- (Z2Nat.id k) by lia. change 14 with (Z.of_nat 14).
  rewrite mem_read_nat by (rewrite length_drop; lia). done.
Qed.

Lemma compare_signers o o' : complete_at o -> complete_at o' ->
  dap_sign_compare_pkeys (drop (Z.to_nat o) a_data) (drop (Z.to_nat o') a_data)
  = Some (bool_decide (signer a_data o = signer a_data o')).
Proof using bytes.
  intros H1 H2. destruct (signer_some o H1) as [[t1 d1] E1], (signer_some o' H2) as [[t2 d2] E2]. rewrite E1, E2.
  unfold signer in E1, E2. unfold dap_sign_compare_pkeys, dap_sign_get_pkey.
  assert (Hr : forall (s : list Z) k d, mem_read s 14 k = Some d ->
    mem_read (drop (Z.to_nat sizeof_dap_sign) s) 0 k = Some d /\ Z.of_nat (length d) = k).
  { intros s k d E. pose proof (mem_read_bound _ _ _ _ E) as (_ & Hk & Hb & Hd). split; [|lia].
    rewrite <- (Z2Nat.id k) in E by lia. change 14 with (Z.of_nat 14) in E. rewrite mem_read_nat in E by lia. injection E as <-.
    rewrite mem_read_prefix by (rewrite length_drop; unfold sizeof_dap_sign; lia). done. }
  destruct (sign_type (drop (Z.to_nat o) a_data)) as [u1|]; [|done]. destruct (sign_type (drop (Z.to_nat o') a_data)) as [u2|]; [|done].
  destruct (sign_pkey_size (drop (Z.to_nat o) a_data)) as [k1|]; [|done]. destruct (sign_pkey_size (drop (Z.to_nat o') a_data)) as [k2|]; [|done].
  cbn [mbind option_bind] in *. destruct (mem_read _ 14 k1) as [e1|] eqn:M1; [|done]. destruct (mem_read _ 14 k2) as [e2|] eqn:M2; [|done].
  cbn [mbind option_bind] in *. injection E1 as -> ->. injection E2 as -> ->.
  apply Hr in M1 as [M1 L1], M2 as [M2 L2].
  destruct (Z.eqb_spec t1 t2) as [-> |Ht]; cbn [negb]; [|rewrite bool_decide_eq_false_2; [done | congruence]].
  destruct (Z.eqb_spec k1 k2) as [-> |Hkk]; cbn [negb].
  - rewrite M1, M2. cbn [mbind option_bind]. f_equal. apply bool_decide_ext. split; congruence.
  - rewrite bool_decide_eq_false_2; [done|]. intros [= ->]. lia.
Qed.

Lemma known_pkey_signers o ret : complete_at o -> Forall complete_at ret ->
  known_pkey a_data (drop (Z.to_nat o) a_data) ret
  = Some (existsb (λ o', bool_decide (signer a_data o = signer a_data o')) ret).
Proof using bytes.
  intros Ho. induction 1 as [|o' ret Ho' _ IH]; [done|]. cbn [known_pkey existsb].
  rewrite (compare_signers o o' Ho Ho'). cbn [mbind option_bind]. destruct (bool_decide _); [done|]. by rewrite IH.
Qed.

Lemma first_of_each_prefix l ret : exists l', first_of_each a_data ret l = ret ++ l'.
Proof using.
  revert ret. induction l as [|o l IH]; intros ret; [exists []; by rewrite app_nil_r|]. cbn [first_of_each].
  destruct (existsb _ ret); [apply IH|]. destruct (IH (ret ++ [o])) as [l' ->]. exists (o :: l'). by rewrite <- app_assoc.
Qed.

Definition limited (count : Z) (l : list Z) : list Z := if count =? 0 then l else take (Z.to_nat count) l.

Lemma get_size_at off : 0 <= off -> off + 14 < Z.of_nat (length a_data) ->
  exists n, GdbPkt.dap_sign_get_size (drop (Z.to_nat off) a_data) 0 = Some n /\ 0 <= n < 2 ^ 33 + 14 /\
    (0 < n -> off + n <= Z.of_nat (length a_data) -> complete_at off) /\ (0 < n -> 14 <= n).
Proof using bytes.
  intros Ho Hl. set (s := drop (Z.to_nat off) a_data).
  destruct (header_fields s) as (t & h & n & k & Et & _ & En & Ek & Hn & Hk); [by apply Forall_drop | unfold s; rewrite length_drop; lia|].
  assert (Hb : Forall (fits 8) s) by (by apply Forall_drop).
  pose proof (mem_le_fits s 6 4 n Hb En) as [_ Bn]. pose proof (mem_le_fits s 10 4 k Hb Ek) as [_ Bk].
  change (8 * Z.of_nat 4) with 32 in *. unfold GdbPkt.dap_sign_get_size. change (0 + 6) with 6. change (0 + 10) with 10.
  unfold sign_type, sign_size, sign_pkey_size in Et, En, Ek. rewrite Et, En, Ek. cbn [mbind option_bind].
  destruct (t =? GdbPkt.SIG_TYPE_NULL); [exists 0; repeat split; lia|].
  exists (14 + n + k). split; [done|]. split; [lia|]. split; [|lia]. intros _ Hle. split; [done|]. split; [done|].
  exists n, k. repeat split; try done; lia.
Qed.

Lemma unique_loop_spec (memory : forall s, calloc_ok s = true) fuel count cap off ret :
  0 <= count < 2 ^ 58 -> 0 < cap < 2 ^ 63 -> 0 <= off -> (Z.to_nat (Z.of_nat (length a_data) - off) < fuel)%nat ->
  Forall complete_at ret -> (count = 0 \/ Z.of_nat (length ret) < count) ->
  Z.of_nat (length ret) <= off -> Z.of_nat (length ret) < cap <= count + off + 20 ->
  unique_loop calloc_ok fuel a_data (Z.of_nat (length a_data)) count cap off ret
  = Some (Some (limited count (first_of_each a_data ret (sign_chain fuel a_data off)))).
Proof using bytes short.
  revert cap off ret. induction fuel as [|fuel IH]; intros cap off ret Hc Hcap Ho Hf Hret Hlim Hlen Hcap2; [lia|].
  assert (Hstop : forall l', count = 0 \/ Z.of_nat (length (ret ++ l')) <= count -> limited count (ret ++ l') = ret ++ l').
  { intros l' H. unfold limited. destruct (Z.eqb_spec count 0); [done|]. apply take_ge. lia. }
  assert (Hret0 : Some (Some ret) = Some (Some (limited count (first_of_each a_data ret [])))).
  { cbn [first_of_each]. pose proof (Hstop []) as E. rewrite !app_nil_r in E. rewrite E; [done | lia]. }
  cbn [unique_loop sign_chain]. change sizeof_dap_sign with 14.
  destruct (Z.ltb_spec (off + 14) (Z.of_nat (length a_data))) as [Hl|]; cbn [negb]; [|exact Hret0].
  destruct (get_size_at off Ho Hl) as (n & -> & Bn & Hcomp & H14). cbn [mbind option_bind].
  rewrite wrap_id by (unfold fits; lia).
  destruct (Z.ltb_spec 0 n) as [Hn|]; cbn [andb].
  2:{ destruct (Z.leb_spec (off + n) off); [|lia]. exact Hret0. }
  destruct (Z.leb_spec (off + n) off); [lia|]. cbn [orb].
  destruct (Z.ltb_spec (Z.of_nat (length a_data)) (off + n)), (Z.leb_spec (off + n) (Z.of_nat (length a_data))); try lia; [exact Hret0|].
  assert (Hco : complete_at off) by (by apply Hcomp). specialize (H14 Hn).
  rewrite known_pkey_signers by done. cbn [mbind option_bind first_of_each].
  destruct (existsb _ ret); [apply IH; try done; lia|].
  assert (Hnew : match ret with [] => negb (DAP_NEW_Z_COUNT calloc_ok cap) | _ => false end = false).
  { destruct ret; [|done]. unfold DAP_NEW_Z_COUNT. rewrite memory. destruct (Z.ltb_spec 0 cap), (Z.ltb_spec cap (2 ^ 63)); lia || done. }
  rewrite Hnew, length_app. cbn [length].
  assert (Hret' : Forall complete_at (ret ++ [off])) by (apply Forall_app; split; [done | by constructor]).
  destruct (Z.eqb_spec count 0) as [Hc0 |Hc0]; cbn [negb andb].
  2:destruct (Z.eqb_spec (Z.of_nat (length ret + 1)) count) as [Hfull|]; cbn [andb].
  2:{ destruct (first_of_each_prefix (sign_chain fuel a_data (off + n)) (ret ++ [off])) as [l' ->].
      do 2 f_equal. unfold limited. destruct (Z.eqb_spec count 0); [done|].
      rewrite take_app_length' by (rewrite length_app; cbn [length]; lia). done. }
  all: destruct (Z.eqb_spec (Z.of_nat (length ret + 1)) cap);
    [rewrite wrap_id by (unfold fits; lia); rewrite new_z_size by (done || lia); cbn [negb]|];
    apply IH; rewrite ?length_app; cbn [length]; try done; lia.
Qed.
End Scan.

(** The scan for signatures of different signers.  On any bytes it ends
    without reading outside them, and gives the first signature of every signer
    among the complete signatures at the start of the bytes, in order, as many
    as were asked for. *)
Theorem unique_signs_found a_data count : (forall s, calloc_ok s = true) -> Forall (fits 8) a_data ->
  0 < Z.of_nat (length a_data) < 2 ^ 58 -> 0 <= count < 2 ^ 58 ->
  dap_sign_get_unique_signs calloc_ok (S (length a_data)) a_data (Z.of_nat (length a_data)) count
  = Some (Some (limited count (first_of_each a_data [] (sign_chain (S (length a_data)) a_data 0)))).
Proof using.
  intros Hm Hb Hl Hc. unfold dap_sign_get_unique_signs. destruct (Z.eqb_spec (Z.of_nat (length a_data)) 0); [lia|].
  apply unique_loop_spec; try done; try lia; try (destruct (Z.eqb_spec count 0); cbn [length]; lia).
Qed.
End Blocks.
