(* ===== verification/SignRun.v ===== *)
(** * Signing with Dilithium keys

    The parts together: Dilithium ([SigDilithium]) keeps the promises that the
    keys ([EncKey]) and the signatures ([Sign]) rely on, an untrusted block is
    checked without leaving it, and signatures made
    with its keys keep the promise that the database ([GdbPkt]) relies on. *)

From S2P Require Import Prelude EncKey DilithiumOpen SigDilithium Sign.
From S2P Require GdbPkt Crc64.
Local Open Scope Z_scope.

Section Dilithium.
Context `{DilithiumCore}.
Variable calloc_ok : Z -> bool.
Hypothesis memory : forall s, calloc_ok s = true.
Variable s_callbacks : Z -> @dap_enc_key_callbacks dil_obj.
Variable picnic_update : enc_key -> enc_key.
Hypothesis entry : s_callbacks DAP_ENC_KEY_TYPE_SIG_DILITHIUM = dilithium_callbacks calloc_ok.
Variables DAP_ECDSA DAP_SHIPOVNIK : bool.

Lemma key_block_bytes n d : Forall (fits 8) d -> Forall (fits 8) (key_block n (Z.of_nat (length d)) d).
Proof using. intros. apply Forall_app. split; [apply fields_fits | done]. Qed.

Lemma sig_block_bytes n s : Forall (fits 8) s -> Forall (fits 8) (sig_block n s).
Proof using. intros. apply Forall_app. split; [apply fields_fits | done]. Qed.

(** A pair of keys signs. *)
Lemma dil_signing_key n seed pk sk ts inh : dilithium_crypto_sign_keypair n seed = Some (pk, sk) ->
  signing_key calloc_ok s_callbacks picnic_update DAP_ECDSA DAP_SHIPOVNIK (dil_key calloc_ok n sk pk ts inh)
    (key_block n (Z.of_nat (length pk)) pk) sizeof_dilithium_signature.
Proof using memory entry.
  intros Hpair. destruct (keypair_shape _ _ _ _ Hpair) as (p & Hp & Lpk & Lsk & Bpk & Bsk).
  pose proof (params_bounds n p Hp) as (Hn & Bp & Bs & Bb).
  assert (Esk : part_data n sk = Some (Obj (DKey n sk)) /\ part_size sk = 16) by (destruct sk; [cbn in Lsk; lia | done]).
  assert (Epk : part_data n pk = Some (Obj (DKey n pk)) /\ part_size pk = 16) by (destruct pk; [cbn in Lpk; lia | done]).
  destruct Esk as [Esk Esk'], Epk as [Epk Epk'].
  split; cbn [key_type priv_key_data priv_key_data_size pub_key_data sign_get sign_verify dil_key].
  - by destruct DAP_ECDSA, DAP_SHIPOVNIK.
  - rewrite Esk, Esk'. by eexists.
  - split; [|split; [|split]].
    + apply (obj_pub_stored _ _ _ _ (Obj (DKey n pk))); cbn [key_type pub_key_data pub_key_data_size dil_key];
        rewrite ?Epk, ?Epk', ?entry; try done. by eapply public_key_inverts.
    + intros E%(f_equal length). destruct (key_block_read n pk []) as (L & _); [lia..|]. rewrite E in L. cbn in L. lia.
    + destruct (key_block_read n pk []) as (-> & _); lia.
    + by apply key_block_bytes.
  - unfold dap_enc_key_new. rewrite new_z_size by (done || unfold sizeof_enc_key; lia). cbn. by rewrite entry.
  - unfold dap_enc_calc_signature_unserialized_size. cbn. rewrite entry. split; [done|]. unfold sizeof_dilithium_signature. lia.
  - eexists _, _. split; [done|]. split; [done|]. intros m. rewrite Esk.
    unfold dap_enc_sig_dilithium_get_sign. change (sizeof_dilithium_signature <? sizeof_dilithium_signature) with false. cbn match.
    destruct (dilithium_crypto_sign n sk m) as [rc s] eqn:Es. eexists _, _. split; [done|]. intros -> Hm.
    destruct (sign_shape _ _ _ _ Es) as (p' & Hp' & Ls & Bys). rewrite Hp in Hp'. injection Hp' as <-.
    exists (sig_block n s), sizeof_dilithium_signature.
    destruct (signature_inverts calloc_ok memory n p s Hp) as (f & g & Ef & Eg & Hne & Hf & Hg);
      [destruct s; [cbn in Ls; lia | done] | lia|].
    split; [done|]. split; [rewrite length_sig_block; lia|]. split; [by apply sig_block_bytes|].
    unfold dap_enc_key_serialize_sign, dap_enc_key_deserialize_sign. change (one_of 21 sign_types) with true. cbn match.
    rewrite (callbacks_listed s_callbacks 21 sign_types eq_refl eq_refl), entry. cbn [mbind option_bind].
    rewrite Ef, Eg. split; [done|]. split; [intros tail; by rewrite Hg|].
    rewrite Epk. cbn. by eapply sign_opens.
Qed.

End Dilithium.

(** ** Untrusted blocks *)

Section Untrusted.
Context `{DilithiumCore}.
Variable calloc_ok : Z -> bool.
Variable s_callbacks : Z -> @dap_enc_key_callbacks dil_obj.
Variable picnic_update : enc_key -> enc_key.
Variables DAP_ECDSA DAP_SHIPOVNIK : bool.
Variable SHA3_256 : list Z -> list Z.

(** The type of a block is that of Dilithium or names no type of keys. *)
Definition dilithium_or_unknown (buf : list Z) : Prop :=
  forall t, sign_type buf = Some t -> let n := dap_sign_type_to_key_type DAP_ECDSA DAP_SHIPOVNIK t in
    n = DAP_ENC_KEY_TYPE_SIG_DILITHIUM \/ n = DAP_ENC_KEY_TYPE_INVALID.

(** The check of such a block ends with a code. *)
Lemma dil_verify_total uninit s data n k :
  s_callbacks DAP_ENC_KEY_TYPE_SIG_DILITHIUM = dilithium_callbacks calloc_ok ->
  Forall (fits 8) s -> 14 <= Z.of_nat (length s) -> dilithium_or_unknown s ->
  sign_size s = Some n -> sign_pkey_size s = Some k -> 0 <= n -> 0 <= k -> n + k + 14 <= Z.of_nat (length s) ->
  is_Some (dap_sign_verify_by_pkey calloc_ok s_callbacks picnic_update DAP_ECDSA DAP_SHIPOVNIK SHA3_256 uninit s data None).
Proof using.
  intros entry Hb Hl Ht En Ek Hn Hk Hle.
  unfold dap_sign_verify_by_pkey, dap_sign_to_enc_key_by_pkey, dap_sign_get_pkey, dap_sign_get_sign.
  destruct (header_fields s Hb Hl) as (t & h & n' & k' & Et & Eh & _). rewrite Et, En, Ek. cbn [mbind option_bind].
  destruct (Ht t Et) as [-> | ->]; [|by eexists]. cbn [Z.eqb mbind option_bind].
  change (Z.to_nat sizeof_dap_sign) with 14%nat. unfold dap_enc_key_new. cbn [Z.eqb].
  destruct (negb _); [by eexists|].
  rewrite (callbacks_listed s_callbacks 21 sign_types eq_refl eq_refl), entry. cbn [mbind option_bind dilithium_callbacks new_callback].
  unfold dap_enc_key_deserialize_pub_key. cbn [key_type dap_enc_sig_dilithium_key_new zero_key].
  change (one_of 21 pub_types) with true. cbn match.
  rewrite (callbacks_listed s_callbacks 21 sign_types eq_refl eq_refl), entry.
  cbn [mbind option_bind dilithium_callbacks deser_pub_key deser_pub_key_size default from_option id].
  destruct (read_public_key_total calloc_ok (drop 14 s) k) as [pk Er]; [by apply Forall_drop | rewrite length_drop; lia|].
  rewrite Er. cbn [mbind option_bind]. destruct pk as [pk|]; [|by eexists].
  rewrite update_id by done. cbn [mbind option_bind Z.eqb set_pub key_type dap_enc_sig_dilithium_key_new zero_key].
  unfold dap_enc_key_deserialize_sign. change (one_of 21 sign_types) with true. cbn match.
  rewrite (callbacks_listed s_callbacks 21 sign_types eq_refl eq_refl), entry.
  cbn [mbind option_bind dilithium_callbacks deser_sign deser_sign_size].
  set (rest := drop (Z.to_nat (sizeof_dap_sign + k)) s). assert (Hrest : Forall (fits 8) rest) by (by apply Forall_drop).
  destruct (read_signature_total calloc_ok rest n) as [o Es]; [done | unfold rest, sizeof_dap_sign; rewrite length_drop; lia|].
  rewrite Es. cbn [mbind option_bind]. destruct o as [o|]; [|by eexists]. rewrite Eh. cbn [mbind option_bind].
  destruct (data_to_verify _ _ _ _) as [d|]; [|by eexists].
  replace (signing_type DAP_ECDSA DAP_SHIPOVNIK 21) with true by (by destruct DAP_ECDSA, DAP_SHIPOVNIK).
  cbn [sign_verify mbind option_bind pub_key_data dap_enc_sig_dilithium_key_new zero_key set_pub].
  destruct (read_public_key_shape _ _ _ _ Er) as (a & l & p & -> & Hp & Lp).
  destruct (read_signature_shape _ _ _ _ Hrest Es) as (a' & l' & -> & Hl').
  unfold dap_enc_sig_dilithium_verify_sign. destruct (_ <? _); [by eexists|].
  apply sign_open_total; [done|]. intros p' Hp'. congruence.
Qed.

(** C24: checking an untrusted Dilithium signature stays inside it.  Whatever the
    bytes of a block are, when their type names Dilithium, or no type of keys, and
    whether or not memory is available, [dap_sign_verify_all] ends with a code: the
    header, the key, the signature, its packed vectors and hints are read inside the
    bytes.  It succeeds only on a block of type Dilithium whose two parts lie inside
    the bytes it was given.  The other schemes are not covered, and the claim is
    false for Falcon, which hands a length taken from the bytes to its verifier. *)
Theorem sign_verify_all_safe uninit buf data :
  s_callbacks DAP_ENC_KEY_TYPE_SIG_DILITHIUM = dilithium_callbacks calloc_ok ->
  Forall (fits 8) buf -> dilithium_or_unknown buf -> exists rc,
  dap_sign_verify_all calloc_ok s_callbacks picnic_update DAP_ECDSA DAP_SHIPOVNIK SHA3_256 uninit buf
    (Z.of_nat (length buf)) data = Some rc /\
  (rc = 0 -> exists t n k, sign_type buf = Some t /\
     dap_sign_type_to_key_type DAP_ECDSA DAP_SHIPOVNIK t = DAP_ENC_KEY_TYPE_SIG_DILITHIUM /\
     sign_size buf = Some n /\ sign_pkey_size buf = Some k /\ 0 < n /\ 0 < k /\ 14 + k + n <= Z.of_nat (length buf)).
Proof using.
  intros entry Hb Ht.
  destruct (verify_all_spec calloc_ok s_callbacks picnic_update DAP_ECDSA DAP_SHIPOVNIK SHA3_256 uninit buf data Hb)
    as [E | (t & n & k & Et & En & Ek & Hn & Hk & Hl & E)]; [by exists (-2)|].
  destruct (dil_verify_total uninit buf data n k entry Hb) as [r Er]; try done; [lia..|].
  rewrite E, Er. cbn [mbind option_bind]. eexists. split; [done|]. intros E0.
  destruct (Ht t Et) as [Hd | Hd]; [by exists t, n, k|]. exfalso. revert Er E0.
  unfold dap_sign_verify_by_pkey, dap_sign_to_enc_key_by_pkey. rewrite Et. cbn [mbind option_bind]. rewrite Hd. by intros [= <-].
Qed.
End Untrusted.

(** A table for concrete runs: keys of the other types refuse every signature. *)
Definition sample_table `{DilithiumCore} (calloc_ok : Z -> bool) (t : Z) : @dap_enc_key_callbacks dil_obj :=
  if t =? DAP_ENC_KEY_TYPE_SIG_DILITHIUM then dilithium_callbacks calloc_ok
  else Callbacks None None None None None None None None None
         (Some (λ _, EncKey 0 None 0 None 0 t None (Some (λ _ _ _ _, Some (-1))) None 0)) None.

(** ** Signing the records of the database *)

Section Node.
Context `{DilithiumCore}.
Variable calloc_ok : Z -> bool.
Hypothesis memory : forall s, calloc_ok s = true.
Variable s_callbacks : Z -> @dap_enc_key_callbacks dil_obj.
Variable picnic_update : enc_key -> enc_key.
Hypothesis entry : s_callbacks DAP_ENC_KEY_TYPE_SIG_DILITHIUM = dilithium_callbacks calloc_ok.
Variables DAP_ECDSA DAP_SHIPOVNIK : bool.
Variables SHA3_256 ecdsa_hash : list Z -> list Z.
Hypothesis hash_length : forall m, length (SHA3_256 m) = 32%nat /\ length (ecdsa_hash m) = 32%nat.

Abbreviation create := (dap_sign_create calloc_ok s_callbacks DAP_ECDSA DAP_SHIPOVNIK SHA3_256 ecdsa_hash
  DAP_SIGN_HASH_TYPE_SHA3).
Abbreviation verify := (dap_sign_verify calloc_ok s_callbacks picnic_update DAP_ECDSA DAP_SHIPOVNIK SHA3_256).

(** A node signs with the key it generated from a seed.  The hash that is not
    initialized is only used for empty data, which is never signed here. *)
Definition node_sign (seed d : list Z) : option (list Z) :=
  match dap_enc_key_new_generate calloc_ok s_callbacks DAP_ENC_KEY_TYPE_SIG_DILITHIUM [] seed 0 with
  | Some (Some k) => default None (create k d)
  | _ => None
  end.

Definition node_verify (s d : list Z) : Z := default (-1) (verify zero_hash s d).


Lemma node_sign_good seed d s : node_sign seed d = Some s ->
  Forall (fits 8) s /\ GdbPkt.dap_sign_get_size s 0 = Some (Z.of_nat (length s)) /\
  0 < Z.of_nat (length s) < 2 ^ 31 /\ node_verify s d = 0.
Proof using memory entry hash_length.
  unfold node_sign. intros Hs. destruct (dilithium_crypto_sign_keypair MODE_1 seed) as [[pk sk]|] eqn:Ek.
  2:{ exfalso. unfold dap_enc_key_new_generate, dap_enc_key_new in Hs.
      rewrite new_z_size in Hs by (done || unfold sizeof_enc_key; lia). cbn [Z.eqb negb] in Hs.
      rewrite (callbacks_listed s_callbacks 21 sign_types eq_refl eq_refl), entry in Hs. cbn [mbind option_bind] in Hs.
      cbn [dilithium_callbacks new_callback new_generate_callback] in Hs.
      unfold dap_enc_sig_dilithium_key_new_generate in Hs. by rewrite Ek in Hs. }
  rewrite (generated_key calloc_ok memory s_callbacks entry [] seed 0 pk sk Ek) in Hs.
  pose proof (dil_signing_key calloc_ok memory s_callbacks picnic_update entry DAP_ECDSA DAP_SHIPOVNIK MODE_1 seed pk sk 0 [] Ek) as Hk.
  set (k := dil_key calloc_ok MODE_1 sk pk 0 []) in *. unfold dap_sign_create in Hs.
  destruct (create_block calloc_ok s_callbacks picnic_update DAP_ECDSA DAP_SHIPOVNIK SHA3_256 ecdsa_hash 1 memory hash_length Hk d 15)
    as (rc & o & _ & Hbad & Hgood); [done | |].
  { change (chosen_hash_type 1 (key_type k) 15) with 1. unfold data_to_sign. change ((1 =? 0) || (1 =? 14)) with false.
    change (1 =? 1) with true. cbn match. unfold dap_hash_fast. destruct d as [|x d]; [cbn; lia|].
    cbn [default from_option id]. destruct (hash_length (x :: d)) as [-> _]. lia. }
  destruct (Z.eq_dec rc 0) as [-> |Hrc]; [|rewrite Hbad in Hs by done; done].
  destruct (Hgood eq_refl) as (b & size' & [Lb Bb] & Ec & Ed & v & Ev & Hv). rewrite Ec in Hs. injection Hs as <-.
  change (chosen_hash_type 1 (key_type k) 15) with 1 in *. change (DAP_SIGN_GET_PKEY_HASHING_FLAG 15) with false in *. cbn match.
  destruct (sign_type_names _ _ _ (sk_type _ _ _ _ _ _ _ _ Hk)) as [_ Hfrom].
  destruct (sk_pub _ _ _ _ _ _ _ _ Hk) as (_ & _ & Lp & Bp). cbn [pkey_part].
  set (t := dap_sign_type_from_key_type _ _ _) in *. set (kb := key_block _ _ pk) in *.
  split; [|split; [|split]].
  - apply Forall_app. split; [apply fields_fits|]. by apply Forall_app.
  - pose proof (block_size t 1 kb b []) as E. rewrite app_nil_r in E. apply E; unfold fits; lia.
  - rewrite length_sign_block. lia.
  - unfold node_verify, dap_sign_verify.
    pose proof (verify_block calloc_ok s_callbacks picnic_update DAP_ECDSA DAP_SHIPOVNIK SHA3_256 ecdsa_hash memory hash_length Hk
      zero_hash d 1 false b o size' [] None) as E. rewrite app_nil_r in E. fold t in E.
    change (pkey_part SHA3_256 ecdsa_hash k kb false) with kb in E. change (chosen_hash_type 1 21 15) with 1.
    rewrite E; [|unfold fits; lia | done | by left | done]. change (DAP_SIGN_REMOVE_PKEY_HASHING_FLAG 1) with 1.
    change (data_to_verify SHA3_256 1 zero_hash d) with (Some (data_to_sign SHA3_256 1 d)).
    rewrite Ev. cbn [mbind option_bind]. by rewrite Hv.
Qed.

(** What the database relies on. *)
#[export] Instance node_scheme : GdbPkt.SignScheme (list Z) := {
  GdbPkt.dap_sign_create := node_sign;
  GdbPkt.dap_sign_verify := node_verify;
  GdbPkt.sign_block seed d s E := let '(conj a (conj b (conj c _))) := node_sign_good seed d s E in conj a (conj b c);
  GdbPkt.sign_verifies seed d s E := let '(conj _ (conj _ (conj _ v))) := node_sign_good seed d s E in v;
}.
End Node.

Section Records.
Context `{DilithiumCore}.
Variable calloc_ok : Z -> bool.
Variable s_callbacks : Z -> @dap_enc_key_callbacks dil_obj.
Variable picnic_update : enc_key -> enc_key.
Variables DAP_ECDSA DAP_SHIPOVNIK : bool.
Variables SHA3_256 ecdsa_hash : list Z -> list Z.

Lemma node_sign_some seed pk sk d : (forall s, calloc_ok s = true) ->
  s_callbacks DAP_ENC_KEY_TYPE_SIG_DILITHIUM = dilithium_callbacks calloc_ok ->
  (forall m, length (SHA3_256 m) = 32%nat /\ length (ecdsa_hash m) = 32%nat) ->
  dilithium_crypto_sign_keypair MODE_1 seed = Some (pk, sk) -> d <> [] ->
  (dilithium_crypto_sign MODE_1 sk (SHA3_256 d)).1 = 0 ->
  is_Some (node_sign calloc_ok s_callbacks DAP_ECDSA DAP_SHIPOVNIK SHA3_256 ecdsa_hash seed d).
Proof using.
  intros Hm He Hl Ek Hd Hs. unfold node_sign. rewrite (generated_key calloc_ok Hm s_callbacks He [] seed 0 pk sk Ek).
  pose proof (dil_signing_key calloc_ok Hm s_callbacks id He DAP_ECDSA DAP_SHIPOVNIK MODE_1 seed pk sk 0 [] Ek) as Hk.
  destruct (create_block calloc_ok s_callbacks id DAP_ECDSA DAP_SHIPOVNIK SHA3_256 ecdsa_hash 1 Hm Hl Hk d 15)
    as (rc & o & (g & Eg & Eo) & _ & Hgood); [done | |].
  { change (chosen_hash_type 1 _ 15) with 1. change (data_to_sign SHA3_256 1 d) with (default zero_hash (dap_hash_fast SHA3_256 d)).
    destruct d as [|x d]; [done|]. cbn [dap_hash_fast default from_option id]. destruct (Hl (x :: d)) as [-> _]. lia. }
  change (chosen_hash_type 1 _ 15) with 1 in Eo. injection Eg as <-.
  assert (Eds : data_to_sign SHA3_256 1 d = SHA3_256 d) by (by destruct d). rewrite Eds in Eo.
  destruct (keypair_shape _ _ _ _ Ek) as (p & Hp & _ & Lsk & _). pose proof (params_bounds _ p Hp).
  assert (Esk : priv_key_data (dil_key calloc_ok MODE_1 sk pk 0 []) = Some (Obj (DKey MODE_1 sk))) by (destruct sk; [cbn in Lsk; lia | done]).
  rewrite Esk in Eo. unfold dap_enc_sig_dilithium_get_sign in Eo.
  change (sizeof_dilithium_signature <? sizeof_dilithium_signature) with false in Eo. cbn match in Eo.
  destruct (dilithium_crypto_sign MODE_1 sk (SHA3_256 d)) as [rc' s]. cbn [fst] in Hs. injection Eo as <- <-.
  destruct (Hgood Hs) as (b & size' & _ & Ec & _). unfold dap_sign_create. rewrite Ec. by eexists.
Qed.

(** C23: a record signed by a node is accepted.  When the scheme can sign, a
    record signed with a key the node generated passes the check of its
    signature and checksum, through the serializers of keys and signatures and
    the hash of the data. *)
Theorem signed_record_accepted seed pk sk o (memory : forall s, calloc_ok s = true)
    (entry : s_callbacks DAP_ENC_KEY_TYPE_SIG_DILITHIUM = dilithium_callbacks calloc_ok)
    (hash_length : forall m, length (SHA3_256 m) = 32%nat /\ length (ecdsa_hash m) = 32%nat) :
  let node := node_scheme calloc_ok memory s_callbacks picnic_update entry DAP_ECDSA DAP_SHIPOVNIK SHA3_256 ecdsa_hash hash_length in
  dilithium_crypto_sign_keypair MODE_1 seed = Some (pk, sk) ->
  GdbPkt.obj_ok o -> GdbPkt.sign o = None -> GdbPkt.body_len o + 29 + 2 ^ 31 < 2 ^ 32 -> Forall (fits 8) (GdbPkt.obj_body o) ->
  (dilithium_crypto_sign MODE_1 sk (SHA3_256 (GdbPkt.covered o (GdbPkt.body_len o) (GdbPkt.obj_body o)))).1 = 0 ->
  exists s c, GdbPkt.dap_store_obj_sign (H := node) o (Some seed) = inr (Some (Some s, c)) /\
    GdbPkt.dap_global_db_pkt_check_sign_crc (H := node) (GdbPkt.set_crc (GdbPkt.set_sign o (Some s)) c) = inr true.
Proof using.
  intros node Ek Ho Hn Hsz Hb Hs.
  destruct (node_sign_some seed pk sk (GdbPkt.covered o (GdbPkt.body_len o) (GdbPkt.obj_body o)) memory entry hash_length Ek) as [s Es];
    [done | done|].
  pose proof (node_sign_good calloc_ok memory s_callbacks picnic_update entry DAP_ECDSA DAP_SHIPOVNIK SHA3_256 ecdsa_hash hash_length
    _ _ _ Es) as (Bs & Hsize & Hlen & Hv).
  exists s. eexists. split; [by apply (GdbPkt.sign_step (H := node))|].
  rewrite (GdbPkt.check_step (H := node)); try done.
  - change (GdbPkt.dap_sign_verify s _) with (node_verify calloc_ok s_callbacks picnic_update DAP_ECDSA DAP_SHIPOVNIK SHA3_256 s
      (GdbPkt.covered o (GdbPkt.body_len o) (GdbPkt.obj_body o))). by rewrite Hv, !Z.eqb_refl.
  - apply Crc64.crc64_fits, GdbPkt.covered_bytes, Forall_app. done.
Qed.
End Records.

(** ** Concrete runs *)

Definition yes (_ : Z) : bool := true.
Definition sample_hash (m : list Z) : list Z := replicate 32 (wrap 8 (fold_right Z.add 0 m)).

Lemma sample_hash_length m : length (sample_hash m) = 32%nat /\ length (sample_hash m) = 32%nat.
Proof. done. Qed.

Lemma sign_create_verify_witness : let H := copy_core in
  let k := dil_key yes MODE_1 (replicate 2800 2) (replicate 1184 1) 0 [] in
  exists s, dap_sign_create_with_hash_type yes (sample_table yes) true true sample_hash sample_hash 1 k [7; 8] 129
      = Some (Some s) /\
    dap_sign_verify_by_pkey yes (sample_table yes) id true true sample_hash [] s [7; 8]
      (Some (key_block 1 1184 (replicate 1184 1), 1196)) = Some 0.
Proof.
  intros H k.
  pose proof (dil_signing_key yes (λ _, eq_refl) (sample_table yes) id eq_refl true true MODE_1 [] (replicate 1184 1)
    (replicate 2800 2) 0 [] eq_refl) as Hk.
  destruct (sign_create_verify yes (sample_table yes) id true true sample_hash sample_hash 1 k _ _ [7; 8] 129
    dap_enc_sig_dilithium_get_sign (Obj (DSig 1 (zero_sig (Param MODE_1 4 3 6 4 325 80 736 288 448 128 640 128 2944 2208 1184 2800 2044) ++ replicate 32 15) 2076)) (λ _, eq_refl) sample_hash_length Hk)
    as (s & Hc & Hv & _).
  - by vm_compute.
  - vm_compute. reflexivity.
  - reflexivity.
  - vm_compute. reflexivity.
  - exists s. split; [exact Hc|]. destruct (Hv [] []) as (_ & E). destruct (E ltac:(done)) as [_ E']. specialize (E' []).
    rewrite !app_nil_r in E'. exact E'.
Defined.

(** A block that is accepted, and the same block whose first hint row ends beyond
    the hints. *)
Lemma sign_verify_all_safe_witness : let H := copy_core in
  let p := Param MODE_1 4 3 6 4 325 80 736 288 448 128 640 128 2944 2208 1184 2800 2044 in
  let sg := zero_sig p ++ [7] in
  let block sg := sign_block 0x0102 0 (key_block 1 1184 (replicate 1184 1)) (sig_block 1 sg) in
  let bad := <[2000%nat := 81]> (zero_sig p) ++ [7] in
  dap_sign_verify_all yes (sample_table yes) id true true sample_hash [] (block sg) 3275 [7] = Some 0 /\
  dap_sign_verify_all yes (sample_table yes) id true true sample_hash [] (block bad) 3275 [7] = Some (-1) /\
  (exists t n k, sign_type (block sg) = Some t /\
     dap_sign_type_to_key_type true true t = DAP_ENC_KEY_TYPE_SIG_DILITHIUM /\
     sign_size (block sg) = Some n /\ sign_pkey_size (block sg) = Some k /\ 0 < n /\ 0 < k /\ 14 + k + n <= 3275) /\
  exists rc, dap_sign_verify_all yes (sample_table yes) id true true sample_hash [] (block bad) 3275 [7] = Some rc.
Proof.
  intros H p sg block bad.
  assert (E0 : dap_sign_verify_all yes (sample_table yes) id true true sample_hash [] (block sg) 3275 [7] = Some 0)
    by (vm_compute; reflexivity).
  split; [exact E0|]. split; [vm_compute; reflexivity|]. split.
  - destruct (sign_verify_all_safe yes (sample_table yes) id true true sample_hash [] (block sg) [7]) as (rc & E & Hrc).
    + reflexivity.
    + apply (bool_decide_eq_true_1 (Forall (fits 8) (block sg))). vm_compute. reflexivity.
    + intros t Et. left. vm_compute in Et. injection Et as <-. reflexivity.
    + change (Z.of_nat (length (block sg))) with 3275 in *. apply Hrc. rewrite E0 in E. by injection E.
  - destruct (sign_verify_all_safe yes (sample_table yes) id true true sample_hash [] (block bad) [7]) as (rc & E & _).
    + reflexivity.
    + apply (bool_decide_eq_true_1 (Forall (fits 8) (block bad))). vm_compute. reflexivity.
    + intros t Et. left. vm_compute in Et. injection Et as <-. reflexivity.
    + exists rc. exact E.
Defined.

(** Three signatures, the first two of the same signer. *)
Lemma unique_signs_found_witness :
  let d := sign_block 1 0 [5] [1; 2] ++ sign_block 1 0 [5] [3] ++ sign_block 1 0 [6] [4] ++ [0] in
  dap_sign_get_unique_signs yes (S (length d)) d (Z.of_nat (length d)) 0 = Some (Some [0; 33]).
Proof.
  intros d. rewrite (unique_signs_found yes d 0); [vm_compute; reflexivity | done | | vm_compute; done | vm_compute; done].
  apply (bool_decide_eq_true_1 (Forall (fits 8) d)). vm_compute. reflexivity.
Defined.

Lemma signed_record_accepted_witness : let H := copy_core in
  let node := node_scheme yes (λ _, eq_refl) (sample_table yes) id eq_refl true true sample_hash sample_hash sample_hash_length in
  exists s c, GdbPkt.dap_store_obj_sign (H := node) GdbPkt.sample_obj (Some []) = inr (Some (Some s, c)) /\
    GdbPkt.dap_global_db_pkt_check_sign_crc (H := node) (GdbPkt.set_crc (GdbPkt.set_sign GdbPkt.sample_obj (Some s)) c) = inr true.
Proof.
  intros H node.
  apply (signed_record_accepted yes (sample_table yes) id true true sample_hash sample_hash [] (replicate 1184 1) (replicate 2800 2)
    GdbPkt.sample_obj (λ _, eq_refl) eq_refl sample_hash_length).
  - reflexivity.
  - apply GdbPkt.sample_obj_ok.
  - reflexivity.
  - vm_compute. reflexivity.
  - change (GdbPkt.obj_body GdbPkt.sample_obj) with [103; 107; 49; 1; 2; 3]. repeat (constructor; [by vm_compute|]). constructor.
  - vm_compute. reflexivity.
Defined.
