(* ===== verification/Cert.v ===== *)
(** * Certificates (crypto/src/dap_cert.c, dap_cert_file.c)

    A certificate is a key, a name of at most 39 characters and metadata, a
    binary tree ([BinaryTree]) of typed items.  This file models the metadata
    and its bytes, the bytes of a certificate and the order in which metadata
    is put back into a tree; [CertFile] has the theorems on the bytes.

    The blocks the tree points to are a list, [heap]; the address of element
    [i] is [i + 1].  A metadata item keeps the bytes from its [value] to the end
    of its block and the offset its [key] pointer has there, because the key is
    stored behind the value.  Allocation is as in [EncKey]; [None] is undefined
    behaviour. *)

From stdpp Require Import sorting.
From S2P Require Import Prelude BinaryTree EncKey Sign.
From Stdlib Require Import Sorting.Sorted.
Local Open Scope Z_scope.

Abbreviation DAP_CERT_ITEM_NAME_MAX := 40.
Abbreviation DAP_CERT_META_STRING := 0.
Abbreviation DAP_CERT_META_BOOL := 1.
Abbreviation DAP_CERT_META_INT := 2.
Abbreviation DAP_CERT_META_DATETIME := 3.
Abbreviation DAP_CERT_META_DATETIME_PERIOD := 4.
Abbreviation DAP_CERT_META_SIGN := 5.
Abbreviation DAP_CERT_META_CUSTOM := 6.
Abbreviation dap_cert_FILE_VERSION := 1.
Abbreviation dap_cert_FILE_TYPE_PRIVATE := 0.
Abbreviation dap_cert_FILE_TYPE_PUBLIC := 0xf0.

(** [dap_strncpy] (core/src/dap_strfuncs.c): what it writes. *)
Fixpoint strncpy_bytes (a_limit : nat) (a_src : list Z) : option (list Z) :=
  match a_limit with
  | O => None
  | S O => Some [0]
  | S a_limit =>
    match a_src with
    | [] => None
    | c :: a_src => if c =? 0 then Some [0] else l ← strncpy_bytes a_limit a_src; Some (c :: l)
    end
  end.

(** The block with the text at [a_dst], and the pointer that is returned: the
    terminating zero. *)
Definition dap_strncpy (blk : list Z) (a_dst : Z) (a_src : list Z) (a_limit : nat) : option (list Z * Z) :=
  w ← strncpy_bytes a_limit a_src;
  blk ← mem_write blk a_dst w;
  Some (blk, a_dst + Z.of_nat (length w) - 1).

Record dap_cert_metadata := Meta {
  m_length : Z;
  m_type : Z;
  m_value : list Z;
  m_key : Z;
}.

(** The text [key] points to. *)
Definition meta_key (m : dap_cert_metadata) : option (list Z) := c_text (drop (Z.to_nat (m_key m)) (m_value m)).

Section Certs.
Context {obj : Type}.
Variable calloc_ok : Z -> bool.
Variable s_callbacks : Z -> @dap_enc_key_callbacks obj.
Variable picnic_update : @dap_enc_key obj -> @dap_enc_key obj.
Variables DAP_ECDSA DAP_SHIPOVNIK : bool.

Abbreviation key_t := (@dap_enc_key obj).
Abbreviation new_ok s := (DAP_NEW_Z_SIZE calloc_ok s).

(** [name] is the array of 40 bytes. *)
Record dap_cert := Cert {
  enc_key : key_t;
  name : list Z;
  metadata : dap_binary_tree;
  heap : list dap_cert_metadata;
}.

Definition set_enc_key c k := Cert k (name c) (metadata c) (heap c).
Definition set_metadata c t h := Cert (enc_key c) (name c) t h.

(** ** Metadata *)

(** The structure has 16 bytes, three of them behind [type]. *)
Definition sizeof_metadata : Z := 16.

(** [a_value] is [None] for a null pointer. *)
Definition dap_cert_new_meta (a_key : list Z) (a_type : Z) (a_value : option (list Z)) (a_value_size : Z)
    : option (option dap_cert_metadata) :=
  if (DAP_CERT_META_CUSTOM <? a_type) || (negb (a_value_size =? 0) && bool_decide (a_value = None)) then Some None else
  k ← c_text a_key;
  let l_keylen := Z.of_nat (length k) in
  if negb (new_ok (wrap 64 (sizeof_metadata + a_value_size + l_keylen + 1))) then Some None else
  d ← mem_read (default [] a_value) 0 a_value_size;
  l_value ← mem_write (replicate (Z.to_nat (3 + a_value_size + l_keylen + 1)) 0) 0 d;
  '(l_value, l_key) ← dap_strncpy l_value a_value_size a_key (S (length k));
  Some (Some (Meta (wrap 32 a_value_size) a_type l_value l_key)).

Definition sizeof_tree_node : Z := 32.

(** The tree with the item under its key. *)
Definition insert_meta (t : dap_binary_tree) (h : list dap_cert_metadata) (m : dap_cert_metadata)
    : option (dap_binary_tree * list dap_cert_metadata) :=
  k ← meta_key m;
  Some (dap_binary_tree_insert (new_ok sizeof_tree_node) t k (Z.of_nat (length h) + 1), h ++ [m]).

Definition dap_cert_add_meta (a_cert : dap_cert) (a_key : list Z) (a_type : Z) (a_value : option (list Z)) (a_value_size : Z)
    : option dap_cert :=
  l_new_meta ← dap_cert_new_meta a_key a_type a_value a_value_size;
  match l_new_meta with
  | None => Some a_cert
  | Some l_new_meta =>
    '(t, h) ← insert_meta (metadata a_cert) (heap a_cert) l_new_meta; Some (set_metadata a_cert t h)
  end.

(** The union has eight bytes. *)
Definition scalar_bytes (a_value a_value_size : Z) : list Z :=
  if a_value_size =? 1 then le_bytes 1 a_value ++ replicate 7 0
  else if a_value_size =? 2 then le_bytes 2 a_value ++ replicate 6 0
  else if a_value_size =? 4 then le_bytes 4 a_value ++ replicate 4 0
  else le_bytes 8 a_value.

Definition dap_cert_add_meta_scalar (a_cert : dap_cert) (a_key : list Z) (a_type a_value a_value_size : Z) : option dap_cert :=
  if one_of a_type [DAP_CERT_META_STRING; DAP_CERT_META_SIGN; DAP_CERT_META_CUSTOM] then Some a_cert
  else dap_cert_add_meta a_cert a_key a_type (Some (scalar_bytes a_value a_value_size)) a_value_size.

(** An address that is not null points to a block. *)
Definition deref (h : list dap_cert_metadata) (a : Z) : option dap_cert_metadata := h !! Z.to_nat (a - 1).

Definition dap_cert_get_meta (a_cert : dap_cert) (a_field : list Z) : option (option dap_cert_metadata) :=
  let a := dap_binary_tree_search (metadata a_cert) a_field in
  if a =? 0 then Some None else m ← deref (heap a_cert) a; Some (Some m).

Definition dap_cert_get_meta_string (a_cert : dap_cert) (a_field : list Z) : option (option (list Z)) :=
  l_meta ← dap_cert_get_meta a_cert a_field;
  match l_meta with
  | None => Some None
  | Some m => if negb (m_type m =? DAP_CERT_META_STRING) then Some None
              else s ← strndup_at (m_value m) (Z.to_nat (m_length m)); Some (Some s)
  end.

(** The getters of scalars; a wrong length is only logged.  The result of the
    first is a [bool], of which [-1] is [true]. *)
Definition get_scalar (a_cert : dap_cert) (a_field : list Z) (t : Z) (n : nat) : option (option Z) :=
  l_meta ← dap_cert_get_meta a_cert a_field;
  match l_meta with
  | None => Some None
  | Some m => if negb (m_type m =? t) then Some None else v ← mem_le (m_value m) 0 n; Some (Some v)
  end.

Definition dap_cert_get_meta_bool (a_cert : dap_cert) (a_field : list Z) : option bool :=
  r ← get_scalar a_cert a_field DAP_CERT_META_BOOL 1; Some (match r with Some v => negb (v =? 0) | None => true end).

Definition signed (w v : Z) : Z := if v <? 2 ^ (w - 1) then v else v - 2 ^ w.

Definition dap_cert_get_meta_int (a_cert : dap_cert) (a_field : list Z) : option Z :=
  r ← get_scalar a_cert a_field DAP_CERT_META_INT 4; Some (match r with Some v => signed 32 v | None => -1 end).

Definition dap_cert_get_meta_time (a_cert : dap_cert) (a_field : list Z) : option Z :=
  r ← get_scalar a_cert a_field DAP_CERT_META_DATETIME 8; Some (match r with Some v => signed 64 v | None => -1 end).

Definition dap_cert_get_meta_period (a_cert : dap_cert) (a_field : list Z) : option Z :=
  r ← get_scalar a_cert a_field DAP_CERT_META_DATETIME_PERIOD 8; Some (match r with Some v => signed 64 v | None => -1 end).

(** The bytes from the value on, and the length. *)
Definition dap_cert_get_meta_custom (a_cert : dap_cert) (a_field : list Z) : option (option (list Z * Z)) :=
  l_meta ← dap_cert_get_meta a_cert a_field;
  Some (match l_meta with
        | None => None
        | Some m => if negb (m_type m =? DAP_CERT_META_CUSTOM) then None else Some (m_value m, m_length m)
        end).

(** ** The bytes of the metadata *)

(** One item behind [l_mem_shift] bytes: the buffer and the new length. *)
Definition serialize_item (l_buf : list Z) (l_mem_shift : Z) (m : dap_cert_metadata) : option (list Z * Z) :=
  k ← meta_key m;
  let l_meta_item_size := 4 + 1 + m_length m + Z.of_nat (length k) + 1 in
  let l_buf := resize (Z.to_nat (l_mem_shift + l_meta_item_size)) 0 l_buf in
  l_buf ← mem_write l_buf l_mem_shift (k ++ [0]);
  let l_mem_shift := l_mem_shift + Z.of_nat (length k) + 1 in
  l_buf ← mem_write l_buf l_mem_shift (le_bytes 4 (m_length m));
  let l_mem_shift := l_mem_shift + 4 in
  l_buf ← mem_write l_buf l_mem_shift [m_type m];
  let l_mem_shift := l_mem_shift + 1 in
  let n := if one_of (m_type m) [DAP_CERT_META_STRING; DAP_CERT_META_SIGN; DAP_CERT_META_CUSTOM]
              || one_of (m_length m) [1; 2; 4] then m_length m else 8 in
  d ← mem_read (m_value m) 0 n;
  l_buf ← mem_write l_buf l_mem_shift d;
  Some (l_buf, l_mem_shift + n).

Fixpoint serialize_items (h : list dap_cert_metadata) (l_buf : list Z) (l_mem_shift : Z) (l_meta_list : list Z)
    : option (option (list Z * Z)) :=
  match l_meta_list with
  | [] => Some (Some (l_buf, l_mem_shift))
  | a :: l_meta_list =>
    m ← deref h a;
    k ← meta_key m;
    if negb (new_ok (l_mem_shift + (4 + 1 + m_length m + Z.of_nat (length k) + 1))) then Some None else
    '(l_buf, l_mem_shift) ← serialize_item l_buf l_mem_shift m;
    serialize_items h l_buf l_mem_shift l_meta_list
  end.

(** "inheritor" *)
Definition s_key_inheritor : list Z := [105; 110; 104; 101; 114; 105; 116; 111; 114; 0].

(** The block, or [NULL], with the length that is reported, and the
    certificate, to which the inheritor of the key is added. *)
Definition dap_cert_serialize_meta (a_cert : dap_cert) (a_buflen_out : Z) : option (option (list Z) * Z * dap_cert) :=
  let k := enc_key a_cert in
  a_cert ← (if _inheritor_size k =? 0 then Some a_cert
            else dap_cert_add_meta a_cert s_key_inheritor DAP_CERT_META_CUSTOM (_inheritor k) (_inheritor_size k));
  match dap_binary_tree_inorder_list (metadata a_cert) with
  | [] => Some (None, a_buflen_out, a_cert)
  | l =>
    r ← serialize_items (heap a_cert) [] 0 l;
    Some (match r with
          | None => (None, a_buflen_out, a_cert)
          | Some (l_buf, l_mem_shift) => (Some l_buf, l_mem_shift, a_cert)
          end)
  end.

(** ** Reading the metadata back *)

(** The order in which the items [a_left_idx] to [a_right_idx] are inserted,
    written to the array [buf] from [idx] on. *)
Fixpoint s_balance_the_tree (fuel : nat) (buf : list Z) (idx a_left_idx a_right_idx : Z) : option (list Z * Z) :=
  match fuel with
  | O => None
  | S fuel =>
    if a_left_idx =? a_right_idx then buf ← mem_write buf idx [a_left_idx]; Some (buf, idx + 1)
    else
      let i := wrap 64 (a_left_idx + a_right_idx) / 2 + 1 in
      buf ← mem_write buf idx [i];
      '(buf, idx) ← s_balance_the_tree fuel buf (idx + 1) a_left_idx (i - 1);
      if i <? a_right_idx then s_balance_the_tree fuel buf idx (i + 1) a_right_idx else Some (buf, idx)
  end.

(** One record: the loop ends ([Stop]) or goes on ([Next]) with the key, which
    may have its inheritor now, and a new item if there is one. *)
Inductive step :=
  | Stop
  | Next (l_pos : Z) (k : key_t) (m : option dap_cert_metadata).

(** The value of a scalar: one byte of it, in a union of eight. *)
Definition scalar_value (a_data : list Z) (l_pos l_value_size : Z) : option (list Z) :=
  if l_value_size =? 1 then Some (replicate 8 0) else v ← mem_le a_data l_pos 1; Some (le_bytes 8 v).

Definition deserialize_record (k : key_t) (a_data : list Z) (l_end l_pos : Z) : option step :=
  let l_key_str := drop (Z.to_nat l_pos) a_data in
  match c_text (take (Z.to_nat (l_end - l_pos)) l_key_str) with
  | None => if Z.of_nat (length l_key_str) <? l_end - l_pos then None else Some Stop
  | Some text =>
    let l_pos := l_pos + Z.of_nat (length text) + 1 in
    if l_pos =? l_end then Some Stop else
    l_value_size ← mem_le a_data l_pos 1;
    if l_end <? l_pos + 4 + 1 + l_value_size then Some Stop else
    l_meta_type ← mem_le a_data (l_pos + 4) 1;
    let l_pos := l_pos + 4 + 1 in
    let add v :=
      m ← dap_cert_new_meta l_key_str l_meta_type (Some v) l_value_size;
      Some (match m with None => Stop | Some m => Next (l_pos + l_value_size) k (Some m) end) in
    if one_of l_meta_type [DAP_CERT_META_STRING; DAP_CERT_META_SIGN] then add (drop (Z.to_nat l_pos) a_data)
    else if l_meta_type =? DAP_CERT_META_CUSTOM then
      if bool_decide (text ++ [0] = s_key_inheritor) then
        match _inheritor k with
        | Some _ => Some Stop
        | None =>
          d ← @DAP_DUP_SIZE calloc_ok obj (Raw (drop (Z.to_nat l_pos) a_data)) l_value_size;
          Some (match d with
                | None => Stop
                | Some d => Next (l_pos + l_value_size) (set_inheritor k (Some d) l_value_size) None
                end)
        end
      else add (drop (Z.to_nat l_pos) a_data)
    else v ← scalar_value a_data l_pos l_value_size; add v
  end.

(** The key and the items; [None] inside when the array of items cannot grow. *)
Fixpoint deserialize_records (fuel : nat) (k : key_t) (a_data : list Z) (l_end l_pos : Z) (l_meta_arr : list dap_cert_metadata)
    : option (key_t * option (list dap_cert_metadata)) :=
  if negb (l_pos <? l_end) then Some (k, Some l_meta_arr) else
  match fuel with
  | O => None
  | S fuel =>
    r ← deserialize_record k a_data l_end l_pos;
    match r with
    | Stop => Some (k, Some l_meta_arr)
    | Next l_pos k None => deserialize_records fuel k a_data l_end l_pos l_meta_arr
    | Next l_pos k (Some m) =>
      if negb (new_ok (8 * (Z.of_nat (length l_meta_arr) + 1))) then Some (k, None)
      else deserialize_records fuel k a_data l_end l_pos (l_meta_arr ++ [m])
    end
  end.

(** The items put into a tree in the given order. *)
Fixpoint insert_in_order (l_meta_arr : list dap_cert_metadata) (base : Z) (l_reorder_arr : list Z) (t : dap_binary_tree)
    : option dap_binary_tree :=
  match l_reorder_arr with
  | [] => Some t
  | n :: l_reorder_arr =>
    m ← l_meta_arr !! Z.to_nat n;
    k ← meta_key m;
    insert_in_order l_meta_arr base l_reorder_arr
      (dap_binary_tree_insert (new_ok sizeof_tree_node) t k (base + n + 1))
  end.

(** A size that is no size of a block makes the end of the data undefined. *)
Definition dap_cert_deserialize_meta (a_cert : dap_cert) (a_data : list Z) (a_size : Z) : option dap_cert :=
  if 2 ^ 63 <=? a_size then None else
  '(k, r) ← deserialize_records (S (Z.to_nat a_size)) (enc_key a_cert) a_data a_size 0 [];
  let a_cert := set_enc_key a_cert k in
  match r with
  | None => Some a_cert
  | Some [] => Some a_cert
  | Some l_meta_arr =>
    let q := Z.of_nat (length l_meta_arr) in
    '(l_reorder_arr, _) ← s_balance_the_tree (S (length l_meta_arr)) (replicate (length l_meta_arr) 0) 0 0 (q - 1);
    t ← insert_in_order l_meta_arr (Z.of_nat (length (heap a_cert))) l_reorder_arr Leaf;
    Some (set_metadata a_cert t (heap a_cert ++ l_meta_arr))
  end.

(** ** The bytes of a certificate *)

Definition dap_cert_FILE_HDR_SIGN : Z := 0x0F300C4711E29380.
Definition sizeof_file_hdr : Z := 49.

Definition file_hdr (type sign_type data_size data_pvt_size metadata_size ts_last_used : Z) : list (nat * Z) :=
  [(8%nat, dap_cert_FILE_HDR_SIGN); (4%nat, dap_cert_FILE_VERSION); (1%nat, type); (4%nat, sign_type); (8%nat, data_size);
   (8%nat, data_pvt_size); (8%nat, metadata_size); (8%nat, ts_last_used)].

(** The block, or [NULL], its size, and the certificate. *)
Definition dap_cert_mem_save (a_cert : dap_cert) : option (option (list Z) * Z * dap_cert) :=
  let l_key := enc_key a_cert in
  '(l_pub_key_data, l_pub_key_data_size) ← dap_enc_key_serialize_pub_key calloc_ok s_callbacks l_key (pub_key_data_size l_key);
  '(l_priv_key_data, l_priv_key_data_size) ← dap_enc_key_serialize_priv_key calloc_ok s_callbacks l_key (priv_key_data_size l_key);
  '(l_metadata, l_metadata_size, a_cert) ← dap_cert_serialize_meta a_cert (_inheritor_size l_key);
  match l_pub_key_data, l_priv_key_data with
  | None, None => Some (None, 0, a_cert)
  | _, _ =>
    let l_total_size := wrap 64 (sizeof_file_hdr + DAP_CERT_ITEM_NAME_MAX + l_priv_key_data_size + l_pub_key_data_size
                                 + l_metadata_size) in
    let l_hdr := fields (file_hdr
      (match l_priv_key_data with Some _ => dap_cert_FILE_TYPE_PRIVATE | None => dap_cert_FILE_TYPE_PUBLIC end)
      (dap_sign_type_from_key_type DAP_ECDSA DAP_SHIPOVNIK (key_type l_key))
      l_pub_key_data_size l_priv_key_data_size l_metadata_size (last_used_timestamp l_key)) in
    l_data ← dap_serialize_multy calloc_ok l_total_size
      [(Some l_hdr, sizeof_file_hdr); (Some (name a_cert), DAP_CERT_ITEM_NAME_MAX);
       (l_pub_key_data, l_pub_key_data_size); (l_priv_key_data, l_priv_key_data_size); (l_metadata, l_metadata_size)];
    Some (l_data, match l_data with Some _ => wrap 32 l_total_size | None => 0 end, a_cert)
  end.

Definition sizeof_dap_cert : Z := 64.

(** At most 39 characters of the name are kept. *)
Definition dap_cert_new (a_name : list Z) (k : key_t) : option (option dap_cert) :=
  if negb (new_ok sizeof_dap_cert) || negb (new_ok 8) then Some None else
  s ← strndup_at a_name 39;
  Some (Some (Cert k (s ++ replicate (40 - length s) 0) Leaf [])).

Definition dap_cert_mem_load (a_data : list Z) (a_data_size : Z) : option (option dap_cert) :=
  if negb (sizeof_file_hdr <? a_data_size) then Some None else
  sign ← mem_le a_data 0 8;
  version ← mem_le a_data 8 4;
  sign_type ← mem_le a_data 13 4;
  data_size ← mem_le a_data 17 8;
  data_pvt_size ← mem_le a_data 25 8;
  metadata_size ← mem_le a_data 33 8;
  ts_last_used ← mem_le a_data 41 8;
  if negb (sign =? dap_cert_FILE_HDR_SIGN) then Some None
  else if signed 32 version <? 1 then Some None
  else
    let l_size_req := wrap 64 (sizeof_file_hdr + DAP_CERT_ITEM_NAME_MAX + data_size + data_pvt_size + metadata_size) in
    if a_data_size <? l_size_req then Some None else
    l_name ← strncpy_bytes 40 (drop (Z.to_nat sizeof_file_hdr) a_data);
    l_ret ← dap_cert_new l_name zero_key;
    match l_ret with
    | None => Some None
    | Some l_ret =>
      l_enc_key ← dap_enc_key_new calloc_ok s_callbacks (dap_sign_type_to_key_type DAP_ECDSA DAP_SHIPOVNIK sign_type);
      match l_enc_key with
      | None => Some None
      | Some l_enc_key =>
        let l_enc_key := set_timestamp l_enc_key ts_last_used in
        let l_data := sizeof_file_hdr + DAP_CERT_ITEM_NAME_MAX in
        '(_, l_enc_key) ← (if data_size =? 0 then Some (0, l_enc_key)
           else dap_enc_key_deserialize_pub_key calloc_ok s_callbacks picnic_update l_enc_key
                  (drop (Z.to_nat l_data) a_data) data_size);
        let l_data := wrap 64 (l_data + data_size) in
        '(_, l_enc_key) ← (if data_pvt_size =? 0 then Some (0, l_enc_key)
           else dap_enc_key_deserialize_priv_key calloc_ok s_callbacks picnic_update l_enc_key
                  (drop (Z.to_nat l_data) a_data) data_pvt_size);
        let l_data := wrap 64 (l_data + data_pvt_size) in
        let l_ret := set_enc_key l_ret l_enc_key in
        l_ret ← (if metadata_size =? 0 then Some l_ret
                 else dap_cert_deserialize_meta l_ret (drop (Z.to_nat l_data) a_data) metadata_size);
        Some (Some (set_enc_key l_ret (dap_enc_key_update picnic_update (enc_key l_ret))))
      end
    end.
End Certs.

(** ** Every item has the empty key *)

Lemma strncpy_text a k : c_text a = Some k -> strncpy_bytes (S (length k)) a = Some (k ++ [0]).
Proof.
  revert k. induction a as [|c a IH]; intros k; [done|]. cbn [c_text]. destruct (Z.eqb_spec c 0) as [-> |Hc]; [by intros [= <-]|].
  destruct (c_text a) as [l|]; [|done]. intros [= <-]. specialize (IH l eq_refl). cbn [length strncpy_bytes] in *.
  destruct (Z.eqb_spec c 0); [done|]. by rewrite IH.
Qed.

Lemma drop_splice_end {A} (m d : list A) x o : (o + length d + 1 <= length m)%nat ->
  exists rest, drop (o + length d) (splice o (d ++ [x]) m) = x :: rest.
Proof.
  intros Hl. unfold splice. exists (drop (o + length (d ++ [x])) m).
  rewrite drop_app_ge by (rewrite length_take; lia). rewrite length_take.
  replace (o + length d - o `min` length m)%nat with (length d) by lia. rewrite <- app_assoc.
  rewrite drop_app_length. done.
Qed.

Section Meta.
Variable calloc_ok : Z -> bool.
Context {obj : Type}.
Abbreviation cert := (@dap_cert obj).

Lemma new_meta_key a_key t v n m : dap_cert_new_meta calloc_ok a_key t v n = Some (Some m) -> meta_key m = Some [].
Proof using.
  unfold dap_cert_new_meta. destruct (_ || _); [done|]. destruct (c_text a_key) as [k|] eqn:Ek; [|done]. cbn [mbind option_bind].
  destruct (negb _); [done|]. destruct (mem_read (default [] v) 0 n) as [d|] eqn:Ed; [|done]. cbn [mbind option_bind].
  destruct (mem_write _ 0 d) as [b|]; [|done]. cbn [mbind option_bind]. unfold dap_strncpy. rewrite (strncpy_text _ _ Ek).
  cbn [mbind option_bind]. destruct (mem_write b n (k ++ [0])) as [b'|] eqn:Eb; [|done]. cbn [mbind option_bind]. intros [= <-].
  unfold meta_key. cbn [m_key m_value]. apply mem_read_bound in Ed as (_ & Hn & _).
  unfold mem_write in Eb. rewrite length_app in *. cbn [length] in *.
  destruct (Z.leb_spec 0 n); [|done]. destruct (Z.leb_spec (n + Z.of_nat (length k + 1)) (Z.of_nat (length b))); [|done].
  cbn [andb] in Eb. injection Eb as <-. destruct (drop_splice_end b k 0 (Z.to_nat n)) as [rest E]; [lia|].
  replace (Z.to_nat (n + Z.of_nat (length k + 1) - 1)) with (Z.to_nat n + length k)%nat by lia. by rewrite E.
Qed.

(** What the tree of a certificate can be. *)
Definition one_item (c : cert) : Prop := metadata c = Leaf \/ exists a, metadata c = Node [] a Leaf Leaf.

Definition add_metas (c : cert) (l : list (list Z * Z * option (list Z) * Z)) : option cert :=
  foldl (λ c i, c ← c; let '(k, t, v, n) := i in dap_cert_add_meta calloc_ok c k t v n) (Some c) l.

Lemma one_item_search c f : one_item c -> f <> [] -> dap_cert_get_meta c f = Some None.
Proof using.
  intros Hc Hf. unfold dap_cert_get_meta. assert (E : dap_binary_tree_search (metadata c) f = 0); [|by rewrite E].
  destruct Hc as [-> | [a ->]]; [done|]. destruct f as [|x f]; [done|]. unfold dap_binary_tree_search. cbn.
  by destruct (0 <? 1).
Qed.

Lemma add_meta_one c key t v n c' : one_item c -> dap_cert_add_meta calloc_ok c key t v n = Some c' ->
  one_item c' /\ forall m, dap_cert_new_meta calloc_ok key t v n = Some (Some m) -> calloc_ok sizeof_tree_node = true ->
    dap_cert_get_meta c' [] = Some (Some m).
Proof using.
  intros Hc. unfold dap_cert_add_meta. destruct (dap_cert_new_meta calloc_ok key t v n) as [[m|]|] eqn:Em; cbn [mbind option_bind]; [| |done].
  2:{ intros [= <-]. split; [done|]. by intros. }
  unfold insert_meta. rewrite (new_meta_key _ _ _ _ _ Em). cbn [mbind option_bind]. intros [= <-].
  set (a := Z.of_nat (length (heap c)) + 1).
  assert (Hi : forall ok, one_item c -> let t' := dap_binary_tree_insert ok (metadata c) [] a in
    (t' = Leaf \/ exists b, t' = Node [] b Leaf Leaf) /\ (ok = true -> t' = Node [] a Leaf Leaf)).
  { intros ok [-> | [b ->]]; cbn.
    - destruct ok; (split; [|done]); [right; by exists a | by left].
    - split; [right; by exists a | done]. }
  destruct (Hi (DAP_NEW_Z_SIZE calloc_ok sizeof_tree_node) Hc) as [H1 H2]. split; [exact H1|].
  intros m' [= <-] Hok. unfold dap_cert_get_meta. cbn [metadata set_metadata heap].
  rewrite H2 by (unfold DAP_NEW_Z_SIZE; by rewrite Hok). change (dap_binary_tree_search (Node [] a Leaf Leaf) []) with a.
  destruct (Z.eqb_spec a 0); [unfold a in *; lia|]. unfold deref, a. rewrite Z.add_simpl_r, Nat2Z.id.
  rewrite lookup_app_r, Nat.sub_diag by lia. done.
Qed.

(** Metadata is not found under its key.  Items with any keys are added to
    a certificate without metadata: afterwards it holds at most one item, no
    item is found under any key that is not empty, and the item added last is
    what the empty key gives. *)
Theorem meta_keys_lost c l key t v n c' : metadata c = Leaf -> add_metas c (l ++ [(key, t, v, n)]) = Some c' ->
  (dap_binary_tree_count (metadata c') <= 1) /\
  (forall f, f <> [] -> dap_cert_get_meta c' f = Some None) /\
  (forall m, dap_cert_new_meta calloc_ok key t v n = Some (Some m) -> calloc_ok sizeof_tree_node = true ->
     dap_cert_get_meta c' [] = Some (Some m)).
Proof using.
  intros Hc. unfold add_metas. rewrite foldl_app. cbn [foldl].
  destruct (foldl _ (Some c) l) as [c1|] eqn:E1; [|done]. cbn [mbind option_bind]. intros E2.
  assert (H1 : one_item c1).
  { assert (H0 : one_item c) by (by left). clear Hc E2 c'. revert c H0 E1. induction l as [|[[[k1 t1] v1] n1] l IH]; intros c H0; cbn [foldl].
    - by intros [= <-].
    - cbn [mbind option_bind]. destruct (dap_cert_add_meta calloc_ok c k1 t1 v1 n1) as [c2|] eqn:E.
      + apply IH. by apply add_meta_one in E as [? _].
      + intros E1. exfalso. clear - E1. induction l as [|[[[? ?] ?] ?] l IH]; [done|]. by apply IH. }
  destruct (add_meta_one _ _ _ _ _ _ H1 E2) as [H2 H3]. split; [|split; [intros f Hf; by apply one_item_search | done]].
  destruct H2 as [-> | [a ->]]; vm_compute; congruence.
Qed.
End Meta.

(** ** The order of insertion keeps the tree balanced *)

(** The order for the items [l] to [r]: the item behind the middle, the items
    on its left, the items on its right. *)
Inductive balanced : Z -> Z -> list Z -> Prop :=
  | balanced_one l : balanced l l [l]
  | balanced_left l r ns : l < r -> (l + r) / 2 + 1 = r -> balanced l (r - 1) ns -> balanced l r (r :: ns)
  | balanced_both l r i ns ns' : l < i < r -> i = (l + r) / 2 + 1 -> balanced l (i - 1) ns -> balanced (i + 1) r ns' ->
      balanced l r (i :: ns ++ ns').

Fixpoint height (t : dap_binary_tree) : Z :=
  match t with Leaf => 0 | Node _ _ l r => 1 + Z.max (height l) (height r) end.

Lemma seqZ_split l i r : l <= i <= r -> seqZ l (r - l + 1) = seqZ l (i - l) ++ i :: seqZ (i + 1) (r - i).
Proof.
  intros H. replace (r - l + 1) with ((i - l) + (r - i + 1)) by lia. rewrite seqZ_app by lia. f_equal.
  rewrite seqZ_cons by lia. f_equal; [lia|]. f_equal; lia.
Qed.

Lemma middle_bounds l r : l < r -> l < (l + r) / 2 + 1 <= r.
Proof. intros. pose proof (Z.div_mod (l + r) 2). pose proof (Z.mod_pos_bound (l + r) 2). lia. Qed.

Lemma middle_upper l r : r - ((l + r) / 2 + 1) <= (l + r) / 2 + 1 - l.
Proof. pose proof (Z.div_mod (l + r) 2). pose proof (Z.mod_pos_bound (l + r) 2). lia. Qed.

Lemma left_half l r : (r - l + 1 + 1) / 2 = (l + r) / 2 + 1 - l.
Proof.
  symmetry. apply Z.div_unique with ((l + r) mod 2); [left; apply Z.mod_pos_bound; lia|].
  pose proof (Z.div_mod (l + r) 2). lia.
Qed.

Lemma balanced_perm l r ns : balanced l r ns -> l <= r /\ ns ≡ₚ seqZ l (r - l + 1).
Proof.
  induction 1 as [l | l r ns Hl Hi _ [_ IH] | l r i ns ns' Hl Hi _ [_ IH] _ [_ IH']].
  - split; [done|]. by rewrite (seqZ_split l l l), !Z.sub_diag by lia.
  - split; [lia|]. rewrite (seqZ_split l r r), Z.sub_diag by lia. change (seqZ (r + 1) 0) with (@nil Z).
    rewrite <- Permutation_cons_append, IH. by replace (r - 1 - l + 1) with (r - l) by lia.
  - split; [lia|]. rewrite (seqZ_split l i r) by lia. rewrite <- Permutation_middle, IH, IH'.
    replace (i - 1 - l + 1) with (i - l) by lia. by replace (r - (i + 1) + 1) with (r - i) by lia.
Qed.

Lemma balanced_length l r ns : balanced l r ns -> Z.of_nat (length ns) = r - l + 1.
Proof. intros [H E]%balanced_perm. rewrite E, length_seqZ. lia. Qed.

Lemma balanced_within l r ns : balanced l r ns -> Forall (λ n, l <= n <= r) ns.
Proof. intros [H E]%balanced_perm. rewrite E. apply Forall_forall. intros n Hn%list_elem_of_In%elem_of_seqZ. lia. Qed.

(** The recursion ends, within the array, and writes such an order. *)
Lemma balance_writes fuel l r pre mid post : 0 <= l <= r -> r < 2 ^ 62 -> (Z.to_nat (r - l) < fuel)%nat ->
  Z.of_nat (length mid) = r - l + 1 ->
  exists ns, balanced l r ns /\
    s_balance_the_tree fuel (pre ++ mid ++ post) (Z.of_nat (length pre)) l r
      = Some (pre ++ ns ++ post, Z.of_nat (length pre) + (r - l + 1)).
Proof.
  revert l r pre mid post. induction fuel as [|fuel IH]; intros l r pre mid post Hl Hr Hf Hm; [lia|]. cbn [s_balance_the_tree].
  destruct mid as [|x mid]; [cbn [length] in Hm; lia|]. cbn [length] in Hm.
  assert (W : forall v, mem_write (pre ++ (x :: mid) ++ post) (Z.of_nat (length pre)) [v] = Some ((pre ++ [v]) ++ mid ++ post)).
  { intros v. change ((x :: mid) ++ post) with ([x] ++ mid ++ post). rewrite mem_write_app by done. by rewrite <- !app_assoc. }
  destruct (Z.eqb_spec l r) as [<- | Hne].
  - exists [l]. split; [constructor|]. rewrite W. cbn [mbind option_bind]. destruct mid; [|cbn [length] in Hm; lia].
    rewrite <- !app_assoc. cbn [app]. do 2 f_equal. lia.
  - unfold wrap. rewrite Z.mod_small by lia. set (i := (l + r) / 2 + 1). pose proof (middle_bounds l r) as Hi. rewrite W.
    cbn [mbind option_bind].
    assert (Epre : Z.of_nat (length pre) + 1 = Z.of_nat (length (pre ++ [i]))) by (rewrite length_app; cbn [length]; lia).
    rewrite Epre. set (n := Z.to_nat (i - l)).
    rewrite <- (take_drop n mid), <- (app_assoc (take n mid)).
    destruct (IH l (i - 1) (pre ++ [i]) (take n mid) (drop n mid ++ post)) as (ns & Hns & ->); [unfold i, n in *; lia ..|
      rewrite length_take; unfold i, n in *; lia |]. cbn [mbind option_bind].
    pose proof (balanced_length _ _ _ Hns) as Ln.
    destruct (Z.ltb_spec i r) as [Hir | Hir].
    + replace (Z.of_nat (length (pre ++ [i])) + (i - 1 - l + 1)) with (Z.of_nat (length ((pre ++ [i]) ++ ns)))
        by (rewrite (length_app _ ns); lia).
      rewrite (app_assoc (pre ++ [i]) ns).
      destruct (IH (i + 1) r ((pre ++ [i]) ++ ns) (drop n mid) post) as (ns' & Hns' & ->); [unfold i, n in *; lia ..|
        rewrite length_drop; unfold i, n in *; lia |].
      exists (i :: ns ++ ns'). split; [constructor; [unfold i in *; lia|done|done|done]|].
      rewrite <- !app_assoc. cbn [app]. rewrite <- app_assoc. f_equal. f_equal. rewrite !length_app. cbn [length]. lia.
    + assert (Ei : i = r) by (unfold i in *; lia). rewrite (drop_ge mid n) by (unfold n; lia). exists (r :: ns).
      split; [constructor; [lia | exact Ei | by rewrite <- Ei]|].
      rewrite <- !app_assoc, Ei. cbn [app]. f_equal. f_equal. rewrite length_app. cbn [length]. lia.
Qed.

(** The height depends on the number of items only. *)
Lemma log2_up_half n : 2 <= n -> Z.log2_up n = Z.log2_up ((n + 1) / 2) + 1.
Proof.
  intros H. pose proof (Z.div_mod (n + 1) 2) as Hd. pose proof (Z.mod_pos_bound (n + 1) 2) as Hm.
  set (m := (n + 1) / 2) in *. destruct (Z.eq_dec m 1) as [E | E].
  - replace n with 2 by lia. by rewrite E.
  - pose proof (Z.log2_up_spec m) as S. pose proof (Z.log2_up_pos m).
    apply Z.log2_up_unique; [lia|]. unfold Z.pred in *. replace (Z.log2_up m + 1 + -1) with (Z.log2_up m) by lia.
    replace (Z.log2_up m + 1) with (Z.succ (Z.log2_up m)) by lia. rewrite Z.pow_succ_r by lia.
    replace (2 ^ Z.log2_up m) with (2 * 2 ^ (Z.log2_up m + -1)) in *
      by (rewrite <- Z.pow_succ_r by lia; f_equal; lia). lia.
Qed.

Section Order.
Variable calloc_ok : Z -> bool.
Hypothesis memory : calloc_ok sizeof_tree_node = true.
Variables (arr : list dap_cert_metadata) (base : Z) (keys : list key).
Hypothesis Hkeys : Forall2 (λ m k, meta_key m = Some k) arr keys.
Hypothesis Hsorted : StronglySorted klt keys.

Definition kf (n : Z) : key := keys !!! Z.to_nat n.
Definition entry (n : Z) : key * Z := (kf n, base + n + 1).

Lemma arr_key n : 0 <= n < Z.of_nat (length arr) -> exists m, arr !! Z.to_nat n = Some m /\ meta_key m = Some (kf n).
Proof using Hkeys.
  intros Hn. destruct (lookup_lt_is_Some_2 arr (Z.to_nat n)) as [m Em]; [lia|]. exists m. split; [done|].
  destruct (Forall2_lookup_l _ _ _ _ _ Hkeys Em) as (k & Ek & E). unfold kf. by rewrite (list_lookup_total_correct _ _ _ Ek).
Qed.

Lemma kf_lt i j : 0 <= i < j -> j < Z.of_nat (length arr) -> klt (kf i) (kf j).
Proof using Hkeys Hsorted.
  intros Hi Hj. rewrite (Forall2_length Hkeys) in Hj. unfold kf.
  destruct (lookup_lt_is_Some_2 keys (Z.to_nat i)) as [k Ek]; [lia|].
  destruct (lookup_lt_is_Some_2 keys (Z.to_nat j)) as [k' Ek']; [lia|].
  rewrite (list_lookup_total_correct _ _ _ Ek), (list_lookup_total_correct _ _ _ Ek').
  eapply (StronglySorted_app_1_elem_of klt (take (Z.to_nat j) keys) (drop (Z.to_nat j) keys)).
  - by rewrite take_drop.
  - apply list_elem_of_lookup. exists (Z.to_nat i). by rewrite lookup_take_lt by lia.
  - apply list_elem_of_lookup. exists 0%nat. by rewrite lookup_drop, Nat.add_0_r.
Qed.

Abbreviation put := (insert_in_order calloc_ok arr base).

Lemma put_app ns ns' t : put (ns ++ ns') t = (t ← put ns t; put ns' t).
Proof using.
  revert t. induction ns as [|n ns IH]; intros t; [done|]. cbn [app insert_in_order].
  destruct (arr !! Z.to_nat n) as [m|]; [|done]. cbn [mbind option_bind]. destruct (meta_key m) as [k|]; [|done].
  cbn [mbind option_bind]. apply IH.
Qed.

(** Items below (above) the key of a node go into its left (right) child. *)
Lemma put_child i d a b ns : 0 <= i < Z.of_nat (length arr) -> Forall (λ n, 0 <= n < Z.of_nat (length arr)) ns ->
  (Forall (λ n, n < i) ns -> put ns (Node (kf i) d a b) = (t ← put ns a; Some (Node (kf i) d t b))) /\
  (Forall (λ n, i < n) ns -> put ns (Node (kf i) d a b) = (t ← put ns b; Some (Node (kf i) d a t))).
Proof using Hkeys Hsorted.
  intros Hi Hns. revert a b. induction Hns as [|n ns Hn _ IH]; intros a b; [done|]. cbn [insert_in_order].
  destruct (arr_key n Hn) as (m & -> & Em). cbn [mbind option_bind]. rewrite Em. cbn [mbind option_bind].
  split; intros [Hlt Hrest]%Forall_cons_iff; cbn [dap_binary_tree_insert s_tree_insert].
  - assert (H : klt (kf n) (kf i)) by (apply kf_lt; lia). unfold dap_binary_tree_insert. cbn [s_tree_insert].
    destruct (key_cases (kf n) (kf i)) as [(_ & -> & _) | [(H' & _) | (H' & _)]].
    + by apply IH.
    + exfalso. eapply klt_irrefl, klt_trans; eauto.
    + rewrite H' in H. by apply klt_irrefl in H.
  - assert (H : klt (kf i) (kf n)) by (apply kf_lt; lia). unfold dap_binary_tree_insert. cbn [s_tree_insert].
    destruct (key_cases (kf n) (kf i)) as [(H' & _) | [(_ & -> & -> & _) | (H' & _)]].
    + exfalso. eapply klt_irrefl, klt_trans; eauto.
    + by apply IH.
    + rewrite H' in H. by apply klt_irrefl in H.
Qed.

Ltac by_bounds W := eapply Forall_impl; [|exact W]; cbn beta; lia.

Lemma put_balanced l r ns : balanced l r ns -> 0 <= l -> r < Z.of_nat (length arr) ->
  exists t, put ns Leaf = Some t /\ elements t = map entry (seqZ l (r - l + 1)) /\ height t = 1 + Z.log2_up (r - l + 1).
Proof using memory Hkeys Hsorted.
  assert (Hroot : forall n ns, 0 <= n < Z.of_nat (length arr) -> put (n :: ns) Leaf = put ns (Node (kf n) (base + n + 1) Leaf Leaf)).
  { intros n ns' Hn. cbn [insert_in_order]. destruct (arr_key n Hn) as (m & -> & Em). cbn [mbind option_bind]. rewrite Em.
    cbn [mbind option_bind]. unfold dap_binary_tree_insert, DAP_NEW_Z_SIZE. by rewrite memory. }
  induction 1 as [l | l r ns Hl Hi Hb IH | l r i ns ns' Hl Hi Hb IH Hb' IH']; intros H0 Hr; rewrite Hroot by lia.
  - eexists. split; [done|]. by rewrite (seqZ_split l l l), !Z.sub_diag by lia.
  - pose proof (balanced_within _ _ _ Hb) as W. destruct IH as (t & Et & Ee & Eh); [lia..|].
    rewrite (proj1 (put_child r (base + r + 1) Leaf Leaf ns ltac:(lia) ltac:(by_bounds W)) ltac:(by_bounds W)).
    rewrite Et. cbn [mbind option_bind]. eexists. split; [done|]. cbn [elements height].
    rewrite (seqZ_split l r r), Z.sub_diag, map_app, Ee, Eh by lia. replace (r - 1 - l + 1) with (r - l) by lia. split; [done|].
    pose proof (Z.log2_up_nonneg (r - l)). rewrite (log2_up_half (r - l + 1)), (left_half l r), Hi by lia. lia.
  - pose proof (balanced_within _ _ _ Hb) as W. pose proof (balanced_within _ _ _ Hb') as W'.
    destruct IH as (t & Et & Ee & Eh); [lia..|]. destruct IH' as (t' & Et' & Ee' & Eh'); [lia..|]. rewrite put_app.
    rewrite (proj1 (put_child i (base + i + 1) Leaf Leaf ns ltac:(lia) ltac:(by_bounds W)) ltac:(by_bounds W)).
    rewrite Et. cbn [mbind option_bind].
    rewrite (proj2 (put_child i (base + i + 1) t Leaf ns' ltac:(lia) ltac:(by_bounds W')) ltac:(by_bounds W')).
    rewrite Et'. cbn [mbind option_bind]. eexists. split; [done|]. cbn [elements height].
    rewrite (seqZ_split l i r), map_app, Ee, Ee', Eh, Eh' by lia.
    replace (i - 1 - l + 1) with (i - l) by lia. replace (r - (i + 1) + 1) with (r - i) by lia. split; [done|].
    rewrite (log2_up_half (r - l + 1)), (left_half l r), <- Hi by lia.
    pose proof (middle_upper l r). pose proof (Z.log2_up_le_mono (r - i) (i - l)). lia.
Qed.

Lemma entries_sorted l n : 0 <= l -> l + n <= Z.of_nat (length arr) -> StronglySorted elt_lt (map entry (seqZ l n)).
Proof using Hkeys Hsorted.
  intros Hl Hn. destruct (Z.le_gt_cases n 0) as [H|H]; [rewrite seqZ_nil by lia; constructor|].
  rewrite <- (Z2Nat.id n) in * by lia. clear H. revert l Hl Hn. induction (Z.to_nat n) as [|k IH]; intros l Hl Hn; [constructor|].
  rewrite seqZ_cons by lia. cbn [map]. replace (Z.pred (Z.of_nat (S k))) with (Z.of_nat k) by lia. constructor; [apply IH; lia|].
  apply List.Forall_map, List.Forall_forall. intros j Hj%list_elem_of_In%elem_of_seqZ.
  unfold elt_lt. cbn [entry fst]. apply kf_lt; lia.
Qed.

Lemma alookup_in l k d : StronglySorted elt_lt l -> In (k, d) l -> alookup k l = Some d.
Proof using.
  intros HS Hin. apply in_split in Hin as (l1 & l2 & ->). apply sorted_split in HS as (_ & _ & F & _).
  rewrite alookup_app, (proj1 (lookup_above k l1 F)). cbn [alookup]. by rewrite KEY_EQ_refl.
Qed.

(** Rebuilding the metadata.  For items whose keys strictly increase,
    [s_balance_the_tree] ends within its array and writes a permutation of the
    item numbers; inserting the items in that order gives a search tree that
    lists the items in their order, finds each of them under its key, and has
    the height [1 + ceil (log2 q)] for [q] items. *)
Theorem balance_rebuilds : arr <> [] -> Z.of_nat (length arr) < 2 ^ 31 ->
  let q := Z.of_nat (length arr) in
  exists ns t, s_balance_the_tree (S (length arr)) (replicate (length arr) 0) 0 0 (q - 1) = Some (ns, q) /\
    ns ≡ₚ seqZ 0 q /\ put ns Leaf = Some t /\ bst t /\
    dap_binary_tree_inorder_list t = map (λ n, base + n + 1) (seqZ 0 q) /\
    (forall n k, keys !! n = Some k -> dap_binary_tree_search t k = base + Z.of_nat n + 1) /\
    height t = 1 + Z.log2_up q.
Proof using memory Hkeys Hsorted.
  intros Hne Hlen q. assert (Hq : 0 < q) by (destruct arr; [done | unfold q; cbn [length]; lia]).
  destruct (balance_writes (S (length arr)) 0 (q - 1) [] (replicate (length arr) 0) []) as (ns & Hb & E);
    [lia | unfold q in *; lia | unfold q; lia | rewrite length_replicate; unfold q; lia|].
  rewrite !app_nil_r in E. cbn [app length] in E. change (Z.of_nat 0) with 0 in E. rewrite E. replace (0 + (q - 1 - 0 + 1)) with q by lia.
  destruct (put_balanced 0 (q - 1) ns Hb) as (t & Et & Ee & Eh); [lia | unfold q; lia|]. replace (q - 1 - 0 + 1) with q in * by lia.
  assert (HS : bst t) by (unfold bst; rewrite Ee; apply entries_sorted; unfold q; lia).
  exists ns, t. split; [done|]. split; [|split; [done|split; [done|split; [|split; [|done]]]]].
  - apply balanced_perm in Hb as [_ Hb]. by replace (q - 1 - 0 + 1) with q in Hb by lia.
  - unfold dap_binary_tree_inorder_list. rewrite inorder_spec, Ee, map_map. done.
  - intros n k Hk. rewrite search_spec by done. rewrite (alookup_in _ k (base + Z.of_nat n + 1)); [done | exact HS|].
    rewrite Ee. apply in_map_iff. exists (Z.of_nat n). unfold entry, kf. rewrite Nat2Z.id, (list_lookup_total_correct _ _ _ Hk).
    split; [done|]. apply list_elem_of_In, elem_of_seqZ. apply lookup_lt_Some in Hk.
    rewrite <- (Forall2_length Hkeys) in Hk. unfold q. lia.
Qed.
End Order.
