(* ===== verification/CertFile.v ===== *)
(** * Certificates: their bytes, the registry (crypto/src/dap_cert.c, dap_cert_file.c)

    A certificate survives [dap_cert_mem_save] and [dap_cert_mem_load]
    ([Cert]), with the limits the reading code has; the table of certificates
    by name and the search for a certificate by its name. *)

From S2P Require Import Prelude BinaryTree EncKey DilithiumOpen SigDilithium Sign SignRun Cert.
Local Open Scope Z_scope.

Abbreviation len l := (Z.of_nat (length l)).

(** ** A certificate and its bytes *)

Lemma mem_write_head {A} (old d post : list A) : length old = length d -> mem_write (old ++ post) 0 d = Some (d ++ post).
Proof. exact (mem_write_app [] old d post). Qed.

Section Roundtrip.
Context {obj : Type}.
Variable calloc_ok : Z -> bool.
Variable s_callbacks : Z -> @dap_enc_key_callbacks obj.
Variable picnic_update : @dap_enc_key obj -> @dap_enc_key obj.
Variables DAP_ECDSA DAP_SHIPOVNIK : bool.
Hypothesis memory : forall s, calloc_ok s = true.

Abbreviation cert := (@dap_cert obj).

(** An item of type [t] with the bytes [v]. *)
Definition made_item (t : Z) (v key : list Z) : dap_cert_metadata :=
  Meta (len v) t (v ++ key ++ [0] ++ [0; 0; 0]) (len v + len key).

Lemma new_meta_made a_key key t v tail : c_text a_key = Some key -> 0 <= t <= DAP_CERT_META_CUSTOM ->
  len v + len key < 2 ^ 31 -> dap_cert_new_meta calloc_ok a_key t (Some (v ++ tail)) (len v) = Some (Some (made_item t v key)).
Proof using memory.
  intros Hk Ht Hs. unfold dap_cert_new_meta. destruct (Z.ltb_spec 6 t); [lia|]. rewrite bool_decide_false by done.
  rewrite andb_false_r. cbn [orb]. rewrite Hk. cbn [mbind option_bind]. unfold sizeof_metadata.
  rewrite wrap_id by (unfold fits; lia). rewrite (new_z_size calloc_ok memory) by lia. cbn [negb default from_option id].
  rewrite mem_read_prefix by (rewrite length_app; lia). rewrite Nat2Z.id, take_app_length. cbn [mbind option_bind].
  replace (Z.to_nat (3 + len v + len key + 1)) with (length v + ((length key + 1) + 3))%nat by lia.
  rewrite !replicate_add, mem_write_head by (by rewrite length_replicate). cbn [mbind option_bind].
  unfold dap_strncpy. rewrite (strncpy_text _ _ Hk). cbn [mbind option_bind]. rewrite <- replicate_add.
  rewrite mem_write_app by (rewrite length_replicate, length_app; done). cbn [mbind option_bind].
  rewrite wrap_id by (unfold fits; lia). unfold made_item. rewrite <- !app_assoc, length_app. cbn [length replicate app].
  do 3 f_equal. lia.
Qed.

Lemma made_item_key t v key : meta_key (made_item t v key) = Some [].
Proof using.
  unfold meta_key, made_item. cbn [m_key m_value]. rewrite app_assoc, drop_app_length'; [done|]. rewrite length_app. lia.
Qed.

(** The record of an item whose key text is empty. *)
Definition meta_record (t : Z) (v : list Z) : list Z := [0] ++ le_bytes 4 (len v) ++ [t] ++ v.

Lemma length_meta_record t v : length (meta_record t v) = (6 + length v)%nat.
Proof using. unfold meta_record. rewrite !length_app, length_le_bytes. cbn [length]. lia. Qed.

Definition block_type (t : Z) : bool := one_of t [DAP_CERT_META_STRING; DAP_CERT_META_SIGN; DAP_CERT_META_CUSTOM].

Lemma block_type_cases t : block_type t = true -> t = DAP_CERT_META_STRING \/ t = DAP_CERT_META_SIGN \/ t = DAP_CERT_META_CUSTOM.
Proof using. intros (x & Hin & ->%Z.eqb_eq)%existsb_exists. destruct Hin as [<- | [<- | [<- | []]]]; [by left | right; by left | right; by right]. Qed.

Lemma serialize_item_record t v key : block_type t = true ->
  serialize_item [] 0 (made_item t v key) = Some (meta_record t v, len (meta_record t v)).
Proof using.
  intros Ht. unfold serialize_item. rewrite made_item_key. cbn [mbind option_bind m_length m_type m_value made_item length app].
  unfold block_type in Ht. rewrite Ht. cbn [orb]. rewrite resize_nil.
  replace (Z.to_nat (0 + (4 + 1 + len v + Z.of_nat 0 + 1))) with (1 + (4 + (1 + length v)))%nat by lia.
  rewrite !replicate_add. set (z4 := replicate 4 0). set (zn := replicate (length v) 0). change (replicate 1 0) with [0].
  rewrite (mem_write_head [0] [0] (z4 ++ [0] ++ zn) eq_refl). cbn [mbind option_bind].
  change (0 + Z.of_nat 0 + 1) with (Z.of_nat (length [0])).
  rewrite mem_write_app by (by rewrite length_le_bytes). cbn [mbind option_bind]. rewrite (app_assoc [0]).
  replace (Z.of_nat (length [0]) + 4) with (len ([0] ++ le_bytes 4 (len v))) by (rewrite length_app, length_le_bytes; cbn; lia).
  rewrite mem_write_app by done. cbn [mbind option_bind]. rewrite (app_assoc _ [t]).
  replace (len ([0] ++ le_bytes 4 (len v)) + 1) with (len (([0] ++ le_bytes 4 (len v)) ++ [t]))
    by (rewrite (length_app _ [t]); cbn [length]; lia).
  rewrite mem_read_prefix by (rewrite length_app; lia). rewrite Nat2Z.id, take_app_length. cbn [mbind option_bind].
  rewrite <- (app_nil_r zn), mem_write_app by (unfold zn; by rewrite length_replicate). cbn [mbind option_bind].
  rewrite app_nil_r. unfold meta_record. rewrite !length_app, length_le_bytes, <- !app_assoc. do 2 f_equal. cbn [length]. lia.
Qed.

(** Reading the record back. *)
Lemma deserialize_record_back k t v : block_type t = true -> len v <= 255 ->
  @deserialize_record obj calloc_ok k (meta_record t v) (len (meta_record t v)) 0
  = Some (Next (len (meta_record t v)) k (Some (made_item t v []))).
Proof using memory.
  intros Ht Hv. rewrite length_meta_record. unfold deserialize_record. change (Z.to_nat 0) with 0%nat. rewrite drop_0.
  rewrite take_ge by (rewrite length_meta_record; lia). change (c_text (meta_record t v)) with (Some (@nil Z)). cbn match.
  change (0 + Z.of_nat (length []) + 1) with 1. destruct (Z.eqb_spec 1 (Z.of_nat (6 + length v))); [lia|].
  assert (E1 : mem_le (meta_record t v) 1 1 = Some (len v)).
  { assert (Eb : le_bytes 4 (len v) = le_bytes 1 (len v) ++ [0; 0; 0]).
    { cbn [le_bytes app]. by rewrite (Z.div_small (len v) 256) by lia. }
    unfold meta_record. rewrite Eb, <- app_assoc. apply (mem_le_app [0] 1 (len v)). unfold fits. cbn. lia. }
  rewrite E1. cbn [mbind option_bind]. destruct (Z.ltb_spec (Z.of_nat (6 + length v)) (1 + 4 + 1 + len v)); [lia|].
  assert (E2 : mem_le (meta_record t v) (1 + 4) 1 = Some t).
  { unfold meta_record. rewrite app_assoc.
    replace (1 + 4) with (len ([0] ++ le_bytes 4 (len v))) by (rewrite length_app, length_le_bytes; done).
    assert (Hb : [t] = le_bytes 1 t) by (by apply block_type_cases in Ht as [-> | [-> | ->]]). rewrite Hb.
    apply (mem_le_app _ 1 t). unfold fits. apply block_type_cases in Ht. cbn. lia. }
  rewrite E2. cbn [mbind option_bind].
  assert (Ed : drop (Z.to_nat (1 + 4 + 1)) (meta_record t v) = v ++ []).
  { rewrite app_nil_r. unfold meta_record. rewrite !app_assoc. apply drop_app_length'. rewrite !length_app, length_le_bytes. done. }
  rewrite Ed, (new_meta_made (meta_record t v) [] t v []) by (done || cbn; lia || apply block_type_cases in Ht; lia).
  cbn [mbind option_bind].
  replace (1 + 4 + 1 + len v) with (Z.of_nat (6 + length v)) by lia.
  apply block_type_cases in Ht as [-> | [-> | ->]]; done.
Qed.

(** One block item in a certificate: its tree has one node, or none. *)
Definition meta_bytes (o : option (Z * list Z)) : list Z := match o with None => [] | Some (t, v) => meta_record t v end.

Inductive holds : cert -> option (Z * list Z) -> Prop :=
  | holds_none c : metadata c = Leaf -> holds c None
  | holds_item c t v key a : metadata c = Node [] a Leaf Leaf -> deref (heap c) a = Some (made_item t v key) ->
      1 <= a -> holds c (Some (t, v)).

Definition item_ok (o : option (Z * list Z)) : Prop :=
  match o with None => True | Some (t, v) => block_type t = true /\ len v <= 255 end.

Lemma add_meta_holds c o a_key key t v tail : holds c o -> c_text a_key = Some key -> 0 <= t <= DAP_CERT_META_CUSTOM ->
  len v + len key < 2 ^ 31 -> exists c', dap_cert_add_meta calloc_ok c a_key t (Some (v ++ tail)) (len v) = Some c' /\
    holds c' (Some (t, v)) /\ enc_key c' = enc_key c /\ name c' = name c.
Proof using memory.
  intros Hc Hk Ht Hs. unfold dap_cert_add_meta. rewrite (new_meta_made a_key key) by done. cbn [mbind option_bind].
  unfold insert_meta. rewrite made_item_key. cbn [mbind option_bind]. eexists. split; [done|].
  assert (Em : dap_binary_tree_insert (DAP_NEW_Z_SIZE calloc_ok sizeof_tree_node) (metadata c) [] (len (heap c) + 1)
               = Node [] (len (heap c) + 1) Leaf Leaf).
  { rewrite (new_z_size calloc_ok memory) by (unfold sizeof_tree_node; lia). by destruct Hc as [c -> | c t' v' k' a -> _ _]. }
  split; [|done]. eapply holds_item; [exact Em | | lia]. unfold deref. cbn [heap set_metadata]. rewrite Z.add_simpl_r, Nat2Z.id.
  by rewrite lookup_app_r, Nat.sub_diag by lia.
Qed.

Lemma serialize_items_holds c t v : holds c (Some (t, v)) -> item_ok (Some (t, v)) ->
  exists a, dap_binary_tree_inorder_list (metadata c) = [a] /\
    serialize_items calloc_ok (heap c) [] 0 [a] = Some (Some (meta_record t v, len (meta_record t v))).
Proof using memory.
  intros Hc [Ht Hv]. inversion Hc as [|? ? ? key a Hm Ed Ha]; subst. exists a. rewrite Hm. split; [done|]. cbn [serialize_items].
  rewrite Ed. cbn [mbind option_bind]. rewrite made_item_key. cbn [mbind option_bind m_length made_item length].
  rewrite (new_z_size calloc_ok memory) by lia. cbn [negb]. by rewrite serialize_item_record.
Qed.

Lemma serialize_meta_bytes c o n : holds c o -> item_ok o -> _inheritor_size (enc_key c) = 0 ->
  dap_cert_serialize_meta calloc_ok c n
  = Some (part_arg (meta_bytes o), match o with None => n | Some _ => len (meta_bytes o) end, c).
Proof using memory.
  intros Hc Ho Hi. unfold dap_cert_serialize_meta. rewrite Hi. change (0 =? 0) with true. cbn [mbind option_bind].
  destruct o as [[t v]|]; [|inversion Hc as [? Hm |]; subst; by rewrite Hm]. destruct (serialize_items_holds c t v Hc Ho) as (a & -> & ->). done.
Qed.

Lemma deserialize_meta_holds k nm o : item_ok o -> meta_bytes o <> [] ->
  exists c', dap_cert_deserialize_meta calloc_ok (Cert k nm Leaf []) (meta_bytes o) (len (meta_bytes o)) = Some c' /\
    holds c' o /\ enc_key c' = k /\ name c' = nm.
Proof using memory.
  intros Ho Hne. destruct o as [[t v]|]; [|done]. destruct Ho as [Ht Hv]. cbn [meta_bytes].
  pose proof (length_meta_record t v) as L. unfold dap_cert_deserialize_meta.
  destruct (Z.leb_spec (2 ^ 63) (len (meta_record t v))); [lia|]. cbn [enc_key].
  assert (Er : deserialize_records calloc_ok (S (Z.to_nat (len (meta_record t v)))) k (meta_record t v) (len (meta_record t v)) 0 []
               = Some (k, Some [made_item t v []])).
  { rewrite Nat2Z.id, L. cbn [deserialize_records]. destruct (Z.ltb_spec 0 (Z.of_nat (6 + length v))); [|lia]. cbn [negb].
    pose proof (deserialize_record_back k t v Ht Hv) as E. rewrite L in E. rewrite E. cbn [mbind option_bind].
    rewrite (new_z_size calloc_ok memory) by (cbn; lia). cbn [negb app Nat.add deserialize_records].
    by rewrite Z.ltb_irrefl. }
  rewrite Er. cbn [mbind option_bind length set_enc_key heap]. change (s_balance_the_tree _ _ _ _ _) with (Some ([0], 1)).
  cbn [mbind option_bind insert_in_order]. change ([made_item t v []] !! Z.to_nat 0) with (Some (made_item t v [])).
  cbn [mbind option_bind]. rewrite made_item_key. cbn [mbind option_bind]. eexists. split; [reflexivity|]. cbn [set_metadata set_enc_key enc_key name heap app length].
  split; [|done]. eapply (holds_item _ t v [] 1); [| done | lia]. cbn [metadata]. unfold dap_binary_tree_insert. cbn [s_tree_insert].
  by rewrite (new_z_size calloc_ok memory) by (unfold sizeof_tree_node; lia).
Qed.

Lemma holds_get c o : holds c o ->
  match o with
  | None => dap_cert_get_meta c [] = Some None
  | Some (t, v) => exists m, dap_cert_get_meta c [] = Some (Some m) /\ m_type m = t /\ m_length m = len v /\
                     mem_read (m_value m) 0 (len v) = Some v
  end.
Proof using.
  intros [c' Hm | c' t v key a Hm Hd Ha]; unfold dap_cert_get_meta; rewrite Hm; [done|].
  change (dap_binary_tree_search (Node [] a Leaf Leaf) []) with a. destruct (Z.eqb_spec a 0); [lia|]. rewrite Hd.
  eexists. split; [done|]. cbn [m_type m_length m_value made_item]. split; [done|]. split; [done|].
  rewrite mem_read_prefix by (rewrite length_app; lia). by rewrite Nat2Z.id, take_app_length.
Qed.

(** *** The name *)

Definition name_array (text : list Z) : list Z := text ++ replicate (40 - length text) 0.

Lemma length_name_array text : (length text <= 40)%nat -> length (name_array text) = 40%nat.
Proof using. intros. unfold name_array. rewrite length_app, length_replicate. lia. Qed.

Lemma cert_new_made text tail (k : @dap_enc_key obj) : Forall (λ c, c <> 0) text -> (length text <= 39)%nat ->
  dap_cert_new calloc_ok (text ++ 0 :: tail) k = Some (Some (Cert k (name_array text) Leaf [])).
Proof using memory.
  intros Ht Hl. unfold dap_cert_new. rewrite !(new_z_size calloc_ok memory) by (unfold sizeof_dap_cert; lia). cbn [negb orb].
  by rewrite strndup_terminated.
Qed.

Lemma name_array_read text tail : Forall (λ c, c <> 0) text -> (length text <= 39)%nat ->
  strncpy_bytes 40 (name_array text ++ tail) = Some (text ++ [0]).
Proof using.
  intros Ht Hl. unfold name_array. replace (40 - length text)%nat with (S (39 - length text)) by lia. cbn [replicate].
  rewrite <- app_assoc. cbn [app]. set (rest := replicate _ 0 ++ tail). clearbody rest. change 40%nat with (S 39). revert Hl. generalize 39%nat.
  induction Ht as [|c text Hc _ IH]; intros n Hl; cbn [app strncpy_bytes].
  - by destruct n.
  - cbn [length] in Hl. destruct n as [|n]; [lia|]. destruct (Z.eqb_spec c 0); [done|]. by rewrite IH by lia.
Qed.

(** *** The block *)

Definition cert_hdr (k : @dap_enc_key obj) (sk pk md : list Z) : list (nat * Z) :=
  file_hdr (match sk with [] => dap_cert_FILE_TYPE_PUBLIC | _ => dap_cert_FILE_TYPE_PRIVATE end)
    (dap_sign_type_from_key_type DAP_ECDSA DAP_SHIPOVNIK (key_type k)) (len pk) (len sk) (len md) (last_used_timestamp k).

Definition cert_bytes (k : @dap_enc_key obj) (nm sk pk md : list Z) : list Z :=
  fields (cert_hdr k sk pk md) ++ nm ++ pk ++ sk ++ md.

Lemma length_cert_bytes k nm sk pk md : length nm = 40%nat ->
  length (cert_bytes k nm sk pk md) = (89 + (length pk + (length sk + length md)))%nat.
Proof using. intros Hn. unfold cert_bytes. rewrite !length_app, length_fields, Hn. done. Qed.

Context {k : @dap_enc_key obj} {sk pk inh : list Z}.
Hypothesis Hk : key_ok calloc_ok s_callbacks picnic_update k sk pk inh.
Hypothesis Hsign : signing_type DAP_ECDSA DAP_SHIPOVNIK (key_type k) = true.
Hypothesis Hpicnic : key_type k <> DAP_ENC_KEY_TYPE_SIG_PICNIC.

(** The block, when the metadata gives the bytes [md]. *)
Lemma mem_save_bytes c c' md : enc_key c = k -> length (name c) = 40%nat -> sk ++ pk <> [] ->
  dap_cert_serialize_meta calloc_ok c (_inheritor_size k) = Some (part_arg md, len md, c') -> name c' = name c ->
  89 + len pk + len sk + len md < 2 ^ 32 ->
  dap_cert_mem_save calloc_ok s_callbacks DAP_ECDSA DAP_SHIPOVNIK c
  = Some (Some (cert_bytes k (name c) sk pk md), len (cert_bytes k (name c) sk pk md), c').
Proof using memory Hk.
  intros Ek Hn Hne Em Hn' Hs. unfold dap_cert_mem_save. rewrite Ek.
  assert (Ep : dap_enc_key_serialize_pub_key calloc_ok s_callbacks k (pub_key_data_size k) = Some (part_arg pk, len pk)).
  { destruct (ok_pub _ _ _ _ _ _ _ Hk) as [(Hd & Hz & ->) | (Hb & E & _)]; [unfold dap_enc_key_serialize_pub_key; by rewrite Hd, Hz|].
    rewrite E. by destruct pk. }
  assert (Es : dap_enc_key_serialize_priv_key calloc_ok s_callbacks k (priv_key_data_size k) = Some (part_arg sk, len sk)).
  { destruct (ok_priv _ _ _ _ _ _ _ Hk) as [(Hd & Hz & ->) | (Hb & E & _)]; [unfold dap_enc_key_serialize_priv_key; by rewrite Hd, Hz|].
    rewrite E. by destruct sk. }
  rewrite Ep, Es. cbn [mbind option_bind]. rewrite Em. cbn [mbind option_bind]. unfold sizeof_file_hdr.
  assert (Hsplit : forall X (a b : X), match part_arg pk, part_arg sk with None, None => a | _, _ => b end = b).
  { intros. by destruct pk, sk. }
  rewrite Hsplit. rewrite (wrap_id 64) by (unfold fits; lia). rewrite Hn'.
  replace (match part_arg sk with Some _ => 0 | None => 0xf0 end) with (match sk with [] => 0xf0 | _ => 0 end) by (by destruct sk).
  fold (cert_hdr k sk pk md). pose proof (length_cert_bytes k (name c) sk pk md Hn) as L.
  set (args := [(Some _, 49); _; _; _; _]).
  assert (Epk : packed args = cert_bytes k (name c) sk pk md).
  { unfold packed, args. cbn [map concat]. rewrite !part_arg_bytes, app_nil_r. unfold arg_bytes. cbn [fst snd].
    rewrite !take_ge by (rewrite ?length_fields, ?Hn; cbn; lia). done. }
  rewrite (serialize_multy_packed calloc_ok args).
  - rewrite Epk, L. cbn [mbind option_bind]. rewrite wrap_id by (unfold fits; lia). do 3 f_equal. lia.
  - unfold args. repeat constructor; try (apply part_arg_ok; lia); unfold arg_ok; cbn [fst snd];
      rewrite ?length_fields, ?Hn; cbn; lia.
  - rewrite Epk, L. lia.
  - apply (new_z_size calloc_ok memory). lia.
Qed.

Lemma hdr_field (f : list (nat * Z)) i n z off rest : f !! i = Some (n, z) -> off = Z.of_nat (fields_len (take i f)) ->
  fits (8 * Z.of_nat n) z -> mem_le (fields f ++ rest) off n = Some z.
Proof using. intros Hi -> Hz. rewrite <- (take_drop_middle f i (n, z) Hi) at 1. by apply mem_le_field. Qed.

Lemma drop_part (pre post all : list Z) n : all = pre ++ post -> n = len pre -> drop (Z.to_nat n) all = post.
Proof using. intros -> ->. by rewrite Nat2Z.id, drop_app_length. Qed.

(** The key parts are restored from the block, the inheritor is not. *)
Lemma mem_load_bytes text md : Forall (λ c, c <> 0) text -> (length text <= 39)%nat ->
  89 + len pk + len sk + len md < 2 ^ 32 ->
  let c0 := Cert (set_inheritor k None 0) (name_array text) Leaf [] in
  dap_cert_mem_load calloc_ok s_callbacks picnic_update DAP_ECDSA DAP_SHIPOVNIK
    (cert_bytes k (name_array text) sk pk md) (len (cert_bytes k (name_array text) sk pk md))
  = (c ← (if len md =? 0 then Some c0 else dap_cert_deserialize_meta calloc_ok c0 md (len md));
     Some (Some (set_enc_key c (dap_enc_key_update picnic_update (enc_key c))))).
Proof using memory Hk Hsign.
  intros Ht Hl Hs c0. destruct (sign_type_names _ _ _ Hsign) as [Hto Hfrom].
  pose proof (length_name_array text ltac:(lia)) as Ln. pose proof (length_cert_bytes k (name_array text) sk pk md Ln) as L.
  unfold dap_cert_mem_load. rewrite L. unfold sizeof_file_hdr.
  destruct (Z.ltb_spec 49 (Z.of_nat (89 + (length pk + (length sk + length md))))); [|lia]. cbn [negb]. clear L.
  unfold cert_bytes. set (rest := name_array text ++ pk ++ sk ++ md). set (hdr := cert_hdr k sk pk md).
  pose proof (ok_time _ _ _ _ _ _ _ Hk) as Htm.
  rewrite (hdr_field hdr 0 8 dap_cert_FILE_HDR_SIGN 0 rest eq_refl eq_refl) by (by vm_compute). cbn [mbind option_bind].
  rewrite (hdr_field hdr 1 4 1 8 rest eq_refl eq_refl) by (by vm_compute). cbn [mbind option_bind].
  rewrite (hdr_field hdr 3 4 _ 13 rest eq_refl eq_refl) by (unfold fits; cbn -[dap_sign_type_from_key_type]; lia). cbn [mbind option_bind].
  rewrite (hdr_field hdr 4 8 _ 17 rest eq_refl eq_refl) by (unfold fits; cbn; lia). cbn [mbind option_bind].
  rewrite (hdr_field hdr 5 8 _ 25 rest eq_refl eq_refl) by (unfold fits; cbn; lia). cbn [mbind option_bind].
  rewrite (hdr_field hdr 6 8 _ 33 rest eq_refl eq_refl) by (unfold fits; cbn; lia). cbn [mbind option_bind].
  rewrite (hdr_field hdr 7 8 _ 41 rest eq_refl eq_refl) by done. cbn [mbind option_bind].
  rewrite Z.eqb_refl. cbn [negb]. change (signed 32 1 <? 1) with false. cbn match. rewrite (wrap_id 64) by (unfold fits; lia).
  destruct (Z.ltb_spec (Z.of_nat (89 + (length pk + (length sk + length md)))) (49 + 40 + len pk + len sk + len md)); [lia|].
  assert (Lh : length (fields hdr) = 49%nat) by (by rewrite length_fields).
  replace (drop (Z.to_nat 49) (fields hdr ++ rest)) with rest by (symmetry; apply drop_app_length'; by rewrite Lh).
  replace (strncpy_bytes 40 rest) with (Some (text ++ [0])) by (symmetry; by apply name_array_read).
  cbn [mbind option_bind]. rewrite (cert_new_made text []) by done.
  cbn [mbind option_bind]. rewrite Hto, (ok_new _ _ _ _ _ _ _ Hk). cbn [mbind option_bind].
  rewrite (wrap_id 64 (49 + 40 + len pk)), (wrap_id 64 (49 + 40 + len pk + len sk)) by (unfold fits; lia).
  rewrite (drop_part (fields hdr ++ name_array text) (pk ++ sk ++ md) (fields hdr ++ rest) (49 + 40))
    by (unfold rest; rewrite <- ?app_assoc, ?length_app, ?Lh, ?Ln; done || lia).
  rewrite (restore_pub _ _ _ Hk) by done. cbn [mbind option_bind].
  rewrite (drop_part ((fields hdr ++ name_array text) ++ pk) (sk ++ md) (fields hdr ++ rest) (49 + 40 + len pk))
    by (unfold rest; rewrite <- ?app_assoc, ?length_app, ?Lh, ?Ln; done || lia).
  rewrite (restore_priv _ _ _ Hk) by done. cbn [mbind option_bind].
  rewrite (drop_part (((fields hdr ++ name_array text) ++ pk) ++ sk) md (fields hdr ++ rest))
    by (unfold rest; rewrite <- ?app_assoc, ?length_app, ?Lh, ?Ln; done || lia).
  done.
Qed.

(** A certificate with that name and key, and one item of metadata or none. *)
Definition make_cert (text : list Z) (item : option (list Z * Z * list Z)) : option (option cert) :=
  c ← dap_cert_new calloc_ok (text ++ [0]) k;
  match c, item with
  | Some c, Some (key, t, v) => c ← dap_cert_add_meta calloc_ok c key t (Some v) (len v); Some (Some c)
  | _, _ => Some c
  end.

Definition small_item (item : option (list Z * Z * list Z)) : Prop :=
  match item with
  | None => True
  | Some (key, t, v) => block_type t = true /\ len v <= 255 /\ exists s, c_text key = Some s /\ len s < 2 ^ 30
  end.

Lemma make_cert_holds text item : Forall (λ c, c <> 0) text -> (length text <= 39)%nat -> small_item item ->
  exists c, make_cert text item = Some (Some c) /\ holds c (option_map (λ '(_, t, v), (t, v)) item) /\
    enc_key c = k /\ name c = name_array text.
Proof using memory.
  intros Ht Hl Hi. unfold make_cert. rewrite cert_new_made by done. cbn [mbind option_bind].
  destruct item as [[[key t] v]|]; cbn [option_map].
  - destruct Hi as (Hb & Hv & s & Hs & Hn).
    destruct (add_meta_holds (Cert k (name_array text) Leaf []) None key s t v []) as (c & E & Hc & Ek & En);
      [by constructor | done | apply block_type_cases in Hb; lia | lia |].
    rewrite app_nil_r in E. rewrite E. cbn [mbind option_bind]. by exists c.
  - eexists. split; [done|]. split; [by constructor | done].
Qed.

(** What is found in the metadata afterwards. *)
Definition kept_item (item : option (list Z * Z * list Z)) : option (Z * list Z) :=
  match inh with [] => option_map (λ '(_, t, v), (t, v)) item | _ => Some (DAP_CERT_META_CUSTOM, inh) end.

Lemma kept_item_ok item : small_item item -> len inh <= 255 -> item_ok (kept_item item).
Proof using.
  clear Hk. intros Hi Hn. unfold kept_item. destruct inh as [|x l]; [|done]. destruct item as [[[key t] v]|]; [|done].
  by destruct Hi as (Hb & Hv & _).
Qed.

Lemma serialize_meta_kept c item : holds c (option_map (λ '(_, t, v), (t, v)) item) -> small_item item -> enc_key c = k ->
  len inh <= 255 -> exists c', dap_cert_serialize_meta calloc_ok c (_inheritor_size k)
    = Some (part_arg (meta_bytes (kept_item item)), len (meta_bytes (kept_item item)), c') /\
    holds c' (kept_item item) /\ name c' = name c.
Proof using memory Hk.
  intros Hc Hi Ek Hn. pose proof (kept_item_ok item Hi Hn) as Ho. destruct (ok_inh _ _ _ _ _ _ _ Hk) as [Hd Hz].
  destruct (decide (inh = [])) as [E | E].
  - exists c. unfold kept_item in *. rewrite E in *. change (len []) with 0 in Hz. rewrite Hz.
    rewrite (serialize_meta_bytes c _ 0 Hc) by (done || by rewrite Ek).
    split; [|done]. by destruct item as [[[key t] v]|].
  - assert (Ekept : kept_item item = Some (6, inh)) by (unfold kept_item; by destruct inh).
    destruct (add_meta_holds c _ s_key_inheritor (take 9 s_key_inheritor) 6 inh [] Hc) as (c' & E' & Hc' & Ek' & En');
      [done | lia | cbn; lia |]. rewrite app_nil_r in E'. exists c'.
    assert (Hz0 : _inheritor_size k <> 0) by (rewrite Hz; destruct inh; [done | cbn; lia]).
    unfold dap_cert_serialize_meta. rewrite Ek. destruct (Z.eqb_spec (_inheritor_size k) 0); [done|].
    assert (Ed : _inheritor k = Some inh) by (rewrite Hd; by destruct inh). rewrite Ed, Hz, E'. cbn [mbind option_bind].
    rewrite Ekept in *. destruct (serialize_items_holds c' 6 inh Hc' Ho) as (a & -> & ->). done.
Qed.

(** C25: a certificate read back from its bytes.  A certificate with a signing
    key, a name of at most 39 characters and at most one block of metadata of
    at most 255 bytes is written; reading the bytes gives a certificate with
    the same name, the same key parts and time stamp, and the metadata under
    the empty key.  The inheritor of the key is not restored into the key: it
    has become the metadata, in place of what was there. *)
Theorem cert_roundtrip text item : Forall (λ c, c <> 0) text -> (length text <= 39)%nat -> small_item item ->
  sk ++ pk <> [] -> len inh <= 255 -> len pk + len sk < 2 ^ 31 ->
  exists c bytes c' r,
    make_cert text item = Some (Some c) /\
    dap_cert_mem_save calloc_ok s_callbacks DAP_ECDSA DAP_SHIPOVNIK c = Some (Some bytes, len bytes, c') /\
    dap_cert_mem_load calloc_ok s_callbacks picnic_update DAP_ECDSA DAP_SHIPOVNIK bytes (len bytes) = Some (Some r) /\
    name r = name c /\ enc_key r = set_inheritor k None 0 /\
    match kept_item item with
    | None => dap_cert_get_meta r [] = Some None
    | Some (t, v) => exists m, dap_cert_get_meta r [] = Some (Some m) /\ m_type m = t /\ m_length m = len v /\
                       mem_read (m_value m) 0 (len v) = Some v
    end.
Proof using memory Hk Hsign Hpicnic.
  intros Ht Hl Hi Hne Hn Hs. destruct (make_cert_holds text item Ht Hl Hi) as (c & Ec & Hc & Ek & En).
  destruct (serialize_meta_kept c item Hc Hi Ek Hn) as (c' & Em & Hc' & En'). pose proof (kept_item_ok item Hi Hn) as Ho.
  set (md := meta_bytes (kept_item item)) in *.
  assert (Lm : len md <= 261).
  { unfold md. destruct (kept_item item) as [[t v]|]; [|cbn; lia]. destruct Ho. cbn [meta_bytes]. rewrite length_meta_record. lia. }
  exists c, (cert_bytes k (name c) sk pk md), c'.
  pose proof (mem_save_bytes c c' md Ek ltac:(rewrite En; apply length_name_array; lia) Hne Em En' ltac:(lia)) as Esave.
  pose proof (mem_load_bytes text md Ht Hl ltac:(lia)) as Eload. cbn zeta in Eload. rewrite <- En in Eload.
  set (k' := set_inheritor k None 0) in *.
  assert (Eu : dap_enc_key_update picnic_update k' = k') by (by apply update_id).
  assert (Hr : exists r, (if len md =? 0 then Some (Cert k' (name c) Leaf [])
      else dap_cert_deserialize_meta calloc_ok (Cert k' (name c) Leaf []) md (len md)) = Some r /\
      holds r (kept_item item) /\ enc_key r = k' /\ name r = name c).
  { destruct (Z.eqb_spec (len md) 0) as [E | E].
    - eexists. split; [done|]. split; [|done]. destruct (kept_item item) as [[t v]|]; [|by constructor].
      unfold md in E. cbn [meta_bytes] in E. rewrite length_meta_record in E. lia.
    - apply deserialize_meta_holds; [done|]. fold md. by destruct md. }
  destruct Hr as (r & Er & Hhold & Ekr & Enr). rewrite Er in Eload. cbn [mbind option_bind] in Eload.
  exists (set_enc_key r (dap_enc_key_update picnic_update (enc_key r))). split; [done|]. split; [done|]. split; [done|].
  split; [done|]. rewrite Ekr, Eu. split; [done|]. apply (holds_get (set_enc_key r k')).
  destruct Hhold as [r Hm | r t v key a Hm Hd Ha]; [by constructor | by econstructor].
Qed.
End Roundtrip.

(** ** The table of certificates *)

(** The entries of [s_certs] in the order of insertion: a name (the text of
    its array) and the address of a certificate.  [files] is what reading and
    decoding the file of a path gives: the certificate, with the name that is
    stored in the file. *)
Module Registry.
Section Registry.
Variable item_ok : bool.
Variable files : list Z -> option (list Z * Z).

Definition table := list (list Z * Z).

Fixpoint HASH_FIND_STR (s_certs : table) (n : list Z) : option Z :=
  match s_certs with
  | [] => None
  | (m, a) :: s_certs => if bool_decide (m = n) then Some a else HASH_FIND_STR s_certs n
  end.

Fixpoint HASH_DEL (s_certs : table) (n : list Z) : table :=
  match s_certs with
  | [] => []
  | (m, a) :: s_certs => if bool_decide (m = n) then s_certs else (m, a) :: HASH_DEL s_certs n
  end.

(** [None] is a null pointer. *)
Definition dap_cert_add (s_certs : table) (a_cert : option (list Z * Z)) : Z * table :=
  match a_cert with
  | None => (-1, s_certs)
  | Some (n, a) =>
    match HASH_FIND_STR s_certs n with
    | Some _ => (-2, s_certs)
    | None => if item_ok then (0, s_certs ++ [(n, a)]) else (-3, s_certs)
    end
  end.

(** The entry that is removed is the one with the name of the certificate. *)
Definition dap_cert_delete (s_certs : table) (a_cert : option (list Z * Z)) : table :=
  match a_cert with
  | None => s_certs
  | Some (n, _) => match HASH_FIND_STR s_certs n with Some _ => HASH_DEL s_certs n | None => s_certs end
  end.

Definition dap_cert_get_all_mem (s_certs : table) : list Z := map snd s_certs.

Definition dap_cert_file_load (s_certs : table) (path : list Z) : option Z * table :=
  match files path with
  | None => (None, s_certs)
  | Some c => (Some c.2, (dap_cert_add s_certs (Some c)).2)
  end.

Fixpoint load_first (s_certs : table) (paths : list (list Z)) : option Z * table :=
  match paths with
  | [] => (None, s_certs)
  | p :: paths => match dap_cert_file_load s_certs p with
                  | (Some a, s_certs) => (Some a, s_certs)
                  | (None, s_certs) => load_first s_certs paths
                  end
  end.

Fixpoint starts_with (p m : list Z) : bool :=
  match p, m with [], _ => true | x :: p, y :: m => (x =? y) && starts_with p m | _ :: _, [] => false end.

Fixpoint strstr (m p : list Z) : bool :=
  starts_with p m || match m with [] => false | _ :: m => strstr m p end.

(** ".dcert" *)
Definition dcert : list Z := [46; 100; 99; 101; 114; 116].

Definition dap_cert_find_by_name (l_ca_folders : list (list Z)) (s_certs : table) (a_cert_name : list Z) : option Z * table :=
  let l_cert_name := map (λ c, if c =? 92 then 47 else c) a_cert_name in
  if strstr l_cert_name [47] then
    dap_cert_file_load s_certs (if strstr l_cert_name dcert then l_cert_name else l_cert_name ++ dcert)
  else match HASH_FIND_STR s_certs l_cert_name with
       | Some a => (Some a, s_certs)
       | None => load_first s_certs (map (λ f, f ++ [47] ++ l_cert_name ++ dcert) l_ca_folders)
       end.

Definition dap_cert_delete_by_name (l_ca_folders : list (list Z)) (s_certs : table) (a_cert_name : list Z)
    (name_of : Z -> list Z) : table :=
  match dap_cert_find_by_name l_ca_folders s_certs a_cert_name with
  | (Some a, s_certs) => dap_cert_delete s_certs (Some (name_of a, a))
  | (None, s_certs) => s_certs
  end.

(** *** The table has each name once *)

Definition names_once (s : table) : Prop := List.NoDup (map fst s).

Lemma find_none s n : HASH_FIND_STR s n = None <-> ~ In n (map fst s).
Proof using.
  induction s as [|[m b] s IH]; [split; [intros _ [] | done]|]. cbn [HASH_FIND_STR map fst In]. case_bool_decide as E.
  - split; [done|]. intros H. exfalso. apply H. by left.
  - rewrite IH. split; [intros H [? | ?]; [done | by apply H] | intros H ?; apply H; by right].
Qed.

Lemma find_app s s' n : HASH_FIND_STR (s ++ s') n = match HASH_FIND_STR s n with Some a => Some a | None => HASH_FIND_STR s' n end.
Proof using. induction s as [|[m b] s IH]; [done|]. cbn [app HASH_FIND_STR]. by case_bool_decide. Qed.

Lemma find_del s n m : names_once s -> HASH_FIND_STR (HASH_DEL s n) m = if bool_decide (m = n) then None else HASH_FIND_STR s m.
Proof using.
  induction s as [|[x b] s IH]; intros Hn; [by case_bool_decide|]. apply NoDup_cons_iff in Hn as [Hx Hn].
  cbn [HASH_DEL HASH_FIND_STR]. destruct (decide (x = n)) as [-> | Ne].
  - rewrite (bool_decide_true (n = n)) by done. case_bool_decide as Em.
    + subst. apply find_none. intros Hin. by apply Hx.
    + by rewrite bool_decide_false by congruence.
  - rewrite (bool_decide_false (x = n)) by done. cbn [HASH_FIND_STR]. rewrite IH by done.
    destruct (decide (x = m)) as [-> | Nm]; [rewrite (bool_decide_true (m = m)), (bool_decide_false (m = n)) by done; done|].
    by rewrite (bool_decide_false (x = m)).
Qed.

Lemma del_names s n : names_once s -> names_once (HASH_DEL s n).
Proof using.
  unfold names_once. induction s as [|[x b] s IH]; intros Hn; [done|]. apply NoDup_cons_iff in Hn as [Hx Hn]. cbn [HASH_DEL].
  case_bool_decide; [done|]. cbn [map fst]. apply NoDup_cons_iff. split; [|by apply IH]. intros Hin. apply Hx.
  clear - Hin. induction s as [|[y c] s IH]; [done|]. cbn [HASH_DEL] in Hin.
  case_bool_decide; [by right|]. destruct Hin as [<- | Hin]; [by left | right; by apply IH].
Qed.

Lemma add_names s c : names_once s -> names_once (dap_cert_add s c).2.
Proof using.
  intros Hn. destruct c as [[n a]|]; [|done]. unfold dap_cert_add. destruct (HASH_FIND_STR s n) eqn:E; [done|].
  destruct item_ok; [|done]. cbn [snd]. unfold names_once. rewrite map_app. cbn [map fst]. apply find_none in E.
  apply (Permutation_NoDup (Permutation_cons_append (map fst s) n)). by apply NoDup_cons_iff.
Qed.

Lemma load_first_names s paths : names_once s -> names_once (load_first s paths).2.
Proof using.
  revert s. induction paths as [|p paths IH]; intros s Hn; [done|]. cbn [load_first]. unfold dap_cert_file_load.
  destruct (files p) as [c|]; [by apply add_names | by apply IH].
Qed.

(** The table of certificates.  No operation gives a name a second entry.
    A certificate that was added is found by its name from then on, a second
    one with the name is refused and changes nothing, and removing a
    certificate removes the entry with its name and no other: also when that
    entry is another certificate's. *)
Theorem cert_registry_spec s n a b folders (Hs : names_once s) :
  names_once (dap_cert_add s (Some (n, a))).2 /\ names_once (dap_cert_delete s (Some (n, a))) /\
  names_once (dap_cert_find_by_name folders s n).2 /\
  (item_ok = true -> HASH_FIND_STR s n = None ->
     let s' := (dap_cert_add s (Some (n, a))).2 in
     dap_cert_get_all_mem s' = dap_cert_get_all_mem s ++ [a] /\
     dap_cert_add s' (Some (n, b)) = (-2, s') /\
     (Forall (λ c, c <> 47 /\ c <> 92) n -> dap_cert_find_by_name folders s' n = (Some a, s')) /\
     forall m, HASH_FIND_STR (dap_cert_delete s' (Some (n, b))) m = HASH_FIND_STR s m).
Proof using.
  split; [by apply add_names|]. split.
  { unfold dap_cert_delete. destruct (HASH_FIND_STR s n); [by apply del_names | done]. }
  split.
  { unfold dap_cert_find_by_name. destruct (strstr _ [47]).
    - unfold dap_cert_file_load. destruct (files _); [by apply add_names | done].
    - destruct (HASH_FIND_STR s _); [done | by apply load_first_names]. }
  intros Hok E s'. assert (Es' : s' = s ++ [(n, a)]) by (unfold s', dap_cert_add; by rewrite E, Hok).
  assert (Ef : HASH_FIND_STR s' n = Some a) by (rewrite Es', find_app, E; cbn; by rewrite bool_decide_true).
  split; [rewrite Es'; unfold dap_cert_get_all_mem; by rewrite map_app|].
  split; [unfold dap_cert_add; by rewrite Ef|]. split.
  - intros Hn. unfold dap_cert_find_by_name. assert (Em : map (λ c, if c =? 92 then 47 else c) n = n).
    { clear - Hn. induction Hn as [|c n [_ Hc] _ IH]; [done|]. cbn [map]. rewrite IH. by destruct (Z.eqb_spec c 92). }
    rewrite Em. assert (Ens : strstr n [47] = false).
    { clear - Hn. induction Hn as [|c n [Hc _] _ IH]; [done|]. cbn [strstr starts_with]. destruct (Z.eqb_spec 47 c); [lia|]. done. }
    by rewrite Ens, Ef.
  - intros m. unfold dap_cert_delete. rewrite Ef. rewrite find_del by (by apply add_names).
    case_bool_decide as Em; [by subst|]. rewrite Es', find_app. destruct (HASH_FIND_STR s m); [done|]. cbn.
    by rewrite bool_decide_false by congruence.
Qed.
End Registry.
End Registry.

(** ** Limits of the reading code *)

(** A certificate with no key parts, and what reading bytes of metadata into it gives. *)
Definition blank : @dap_cert dil_obj := Cert zero_key [] Leaf [].
Definition read_meta (data : list Z) : option (@dap_cert dil_obj) := dap_cert_deserialize_meta yes blank data (len data).
Definition written_meta (c : option (@dap_cert dil_obj)) : list Z :=
  match c with
  | Some c => match dap_cert_serialize_meta yes c 0 with Some (Some b, _, _) => b | _ => [] end
  | None => []
  end.

(** A block of 256 bytes is written with its length, of which one byte is
    read: the value comes back empty, and its bytes are read as records. *)
Lemma long_value_lost :
  let b := written_meta (dap_cert_add_meta yes blank [107; 0] DAP_CERT_META_STRING (Some (replicate 256 65)) 256) in
  length b = 262%nat /\ (c ← read_meta b; dap_cert_get_meta_string c []) = Some (Some []).
Proof. by vm_compute. Qed.

(** A number is cut to its low byte, and a truth value becomes false. *)
Lemma scalars_cut :
  let b := written_meta (dap_cert_add_meta_scalar yes blank [107; 0] DAP_CERT_META_INT 300 4) in
  let b' := written_meta (dap_cert_add_meta_scalar yes blank [107; 0] DAP_CERT_META_BOOL 1 1) in
  (c ← read_meta b; dap_cert_get_meta_int c []) = Some 44 /\ (c ← read_meta b'; dap_cert_get_meta_bool c []) = Some false.
Proof. by vm_compute. Qed.

(** A number announced with nine bytes is copied out of an object of eight. *)
Lemma scalar_over_read : read_meta ([0; 9; 0; 0; 0; DAP_CERT_META_INT] ++ replicate 9 1) = None.
Proof. by vm_compute. Qed.

(** Sizes whose sum wraps pass the size check: fifty bytes announce a name and
    a public key. *)
Lemma sizes_wrap : let H := copy_core in
  let b := fields (file_hdr 0 1 (2 ^ 64 - 40) 0 0 0) ++ [0] in
  len b = 50 /\ dap_cert_mem_load yes (dilithium_table yes) id true true b 50 <> Some None /\
  dap_cert_mem_load yes (dilithium_table yes) id true true (fields (file_hdr 0 1 (2 ^ 64 - 40) 0 0 0) ++ [7]) 50 = None.
Proof. cbv zeta. split; [done|]. by vm_compute. Qed.

(** ** Witnesses *)

Lemma meta_keys_lost_witness :
  let l := [([110; 0], DAP_CERT_META_STRING, Some [65; 66], 2)] in
  exists c, add_metas yes blank (l ++ [([109; 0], DAP_CERT_META_CUSTOM, Some [1], 1)]) = Some c /\
    dap_cert_get_meta c [110] = Some None.
Proof.
  intros l. eexists. split; [vm_compute; reflexivity|].
  apply (meta_keys_lost yes blank l [109; 0] DAP_CERT_META_CUSTOM (Some [1]) 1 _ eq_refl); [vm_compute; reflexivity | done].
Defined.

(** Three items with the keys "a", "b" and "c". *)
Definition abc : list dap_cert_metadata := map (λ c, Meta 0 0 [c; 0] 0) [97; 98; 99].

Lemma balance_rebuilds_witness : exists ns t, s_balance_the_tree 4 [0; 0; 0] 0 0 2 = Some (ns, 3) /\
  insert_in_order yes abc 0 ns Leaf = Some t /\ height t = 3.
Proof.
  destruct (balance_rebuilds yes eq_refl abc 0 [[97]; [98]; [99]]) as (ns & t & E & _ & Et & _ & _ & _ & Eh).
  - repeat constructor.
  - repeat constructor.
  - done.
  - by vm_compute.
  - by exists ns, t.
Defined.

Lemma cert_roundtrip_witness : let H := copy_core in
  let k := dil_key (λ _, true) MODE_1 (replicate 2800 2) (replicate 1184 1) 7 [9; 8] in
  exists c bytes c' r, make_cert yes (k := k) [110; 49] (Some ([107; 0], DAP_CERT_META_STRING, [65; 66])) = Some (Some c) /\
    dap_cert_mem_save yes (dilithium_table yes) true true c = Some (Some bytes, len bytes, c') /\
    dap_cert_mem_load yes (dilithium_table yes) id true true bytes (len bytes) = Some (Some r) /\
    enc_key r = dil_key (λ _, true) MODE_1 (replicate 2800 2) (replicate 1184 1) 7 [].
Proof.
  intros H k.
  assert (Hk : key_ok yes (dilithium_table yes) id k (part_bytes 1 (replicate 2800 2)) (part_bytes 1 (replicate 1184 1)) [9; 8]).
  { eapply (dil_key_ok yes); [done | done | reflexivity | by right | by right | unfold fits; lia | cbn; lia]. }
  destruct (cert_roundtrip yes (dilithium_table yes) id true true (λ _, eq_refl) Hk eq_refl ltac:(done) [110; 49]
    (Some ([107; 0], DAP_CERT_META_STRING, [65; 66]))) as (c & b & c' & r & Hc & Hs & Hl & _ & Hr & _).
  - repeat constructor; lia.
  - cbn. lia.
  - split; [done|]. split; [by vm_compute|]. exists [107]. by vm_compute.
  - done.
  - by vm_compute.
  - by vm_compute.
  - exists c, b, c', r. split; [exact Hc|]. split; [exact Hs|]. split; [exact Hl|]. rewrite Hr. reflexivity.
Defined.

Lemma cert_registry_spec_witness : let s' := (Registry.dap_cert_add true [([97], 1)] (Some ([98], 2))).2 in
  Registry.dap_cert_find_by_name true (λ _, None) [] s' [98] = (Some 2, s').
Proof.
  intros s'. destruct (Registry.cert_registry_spec true (λ _, None) [([97], 1)] [98] 2 3 []) as (_ & _ & _ & H).
  - repeat constructor. by intros [].
  - destruct (H eq_refl eq_refl) as (_ & _ & Hf & _). apply Hf. repeat constructor; lia.
Defined.
