(* ===== verification/Client.v ===== *)
(** * The stages of a client (net/client/dap_client.c, dap_client_pvt.c)

    A client connects to an uplink in stages: exchange of keys, request of a
    stream, connecting the stream, streaming.  [dap_client_go_stage] sets a
    target, answers and sockets drive the stages on, errors restart them.  The
    whole machine runs on one worker, so operations and callbacks come one at
    a time, in any order the guards of [enabled] allow.

    [client] is [dap_client_t] with its [dap_client_pvt_t].  Keys, the HTTP
    request and timers are present or absent; the stream is its channels and
    whether it still has its socket.  What a call of the machine does to the
    outside is appended to [trace].  The outcomes of the calls to the system and
    to the parsers of answers are arguments ([env], the replies).  The callbacks
    of the user are effects: those of the link manager only queue work.  [None]
    is a null pointer that is followed or a failed [assert], or fuel that ran
    out. *)

From coqutil Require Import Datatypes.RecordSetters.
Import DoubleBraceUpdate.
From S2P Require Import Prelude.
Local Open Scope Z_scope.

Abbreviation STAGE_BEGIN := 0.
Abbreviation STAGE_ENC_INIT := 1.
Abbreviation STAGE_STREAM_CTL := 2.
Abbreviation STAGE_STREAM_SESSION := 3.
Abbreviation STAGE_STREAM_CONNECTED := 4.
Abbreviation STAGE_STREAM_STREAMING := 5.

Inductive dap_client_stage_status :=
  | STAGE_STATUS_NONE
  | STAGE_STATUS_IN_PROGRESS
  | STAGE_STATUS_ERROR
  | STAGE_STATUS_DONE
  | STAGE_STATUS_COMPLETE.

#[export] Instance status_eq_dec : EqDecision dap_client_stage_status.
Proof. solve_decision. Defined.

Inductive dap_client_error :=
  | ERROR_NO_ERROR
  | ERROR_OUT_OF_MEMORY
  | ERROR_ENC_NO_KEY
  | ERROR_ENC_WRONG_KEY
  | ERROR_ENC_SESSION_CLOSED
  | ERROR_STREAM_CTL_ERROR
  | ERROR_STREAM_CTL_ERROR_AUTH
  | ERROR_STREAM_CTL_ERROR_RESPONSE_FORMAT
  | ERROR_STREAM_CONNECT
  | ERROR_STREAM_RESPONSE_WRONG
  | ERROR_STREAM_RESPONSE_TIMEOUT
  | ERROR_STREAM_FREEZED
  | ERROR_STREAM_ABORTED
  | ERROR_NETWORK_CONNECTION_REFUSE
  | ERROR_NETWORK_CONNECTION_TIMEOUT
  | ERROR_WRONG_STAGE
  | ERROR_WRONG_ADDRESS.

#[export] Instance error_eq_dec : EqDecision dap_client_error.
Proof. solve_decision. Defined.

Abbreviation ETIMEDOUT := 110.
Abbreviation DAP_PROTOCOL_VERSION := 26.
Abbreviation DAP_PROTOCOL_VERSION_DEFAULT := 24.

(** A packet that waits for the stream. *)
Record dap_client_pkt := Pkt { ch_id : Z; pkt_type : Z; pkt_data : list Z }.

(** The request whose callbacks are set. *)
Inductive request := EncInit | StreamCtl.

Inductive effect :=
  | ErrorCallback (is_last_attempt : bool)
  | TargetDone (callback : Z)
  | EncRequest
  | CtlRequest (old_protocol : bool)
  | StreamNew (authorized : bool)
  | ChannelNew (id : Z)
  | GetRequest (stream_id : Z)
  | AddToList
  | PktWrite (p : dap_client_pkt)
  | StreamRead
  | StreamDelete
  | GoStageQueued (target : Z)
  | TimerStart (ms : Z).

(** The socket of the stream. *)
Inductive es_state := Connecting | Open.

#[export] Instance es_state_eq_dec : EqDecision es_state.
Proof. solve_decision. Defined.

Record client := Client {
  active_channels : option (list Z);
  uplink_addr : list Z;
  uplink_port : Z;
  always_reconnect : bool;
  connect_on_demand : bool;
  stage_target : Z;
  stage_target_done_callback : option Z;
  stage_status_error_callback : bool;
  stream : option (list Z * bool);
  stream_es : option es_state;
  authorized : bool;
  http_client : bool;
  session_key_open : bool;
  session_key : bool;
  stream_key : bool;
  stream_id : Z;
  session_key_id : bool;
  uplink_protocol_version : Z;
  remote_protocol_version : Z;
  stage : Z;
  stage_status : dap_client_stage_status;
  last_error : dap_client_error;
  stage_status_done_callback : bool;
  reconnect_attempts : Z;
  is_encrypted : bool;
  is_encrypted_headers : bool;
  is_close_session : bool;
  is_closed_by_timeout : bool;
  ts_last_active : Z;
  request_callbacks : option request;
  pkt_queue : list dap_client_pkt;
  reconnect_timer : bool;
  trace : list effect;
}.

(** The update of each field under a name. *)
#[export] Instance set_active_channels : Setter active_channels | 0 := ltac:(setter client (option (list Z)) active_channels).
#[export] Instance set_uplink_addr : Setter uplink_addr | 0 := ltac:(setter client (list Z) uplink_addr).
#[export] Instance set_uplink_port : Setter uplink_port | 0 := ltac:(setter client (Z) uplink_port).
#[export] Instance set_always_reconnect : Setter always_reconnect | 0 := ltac:(setter client (bool) always_reconnect).
#[export] Instance set_connect_on_demand : Setter connect_on_demand | 0 := ltac:(setter client (bool) connect_on_demand).
#[export] Instance set_stage_target : Setter stage_target | 0 := ltac:(setter client (Z) stage_target).
#[export] Instance set_stage_target_done_callback : Setter stage_target_done_callback | 0 := ltac:(setter client (option Z) stage_target_done_callback).
#[export] Instance set_stream : Setter stream | 0 := ltac:(setter client (option (list Z * bool)) stream).
#[export] Instance set_stream_es : Setter stream_es | 0 := ltac:(setter client (option es_state) stream_es).
#[export] Instance set_authorized : Setter authorized | 0 := ltac:(setter client (bool) authorized).
#[export] Instance set_http_client : Setter http_client | 0 := ltac:(setter client (bool) http_client).
#[export] Instance set_session_key_open : Setter session_key_open | 0 := ltac:(setter client (bool) session_key_open).
#[export] Instance set_session_key : Setter session_key | 0 := ltac:(setter client (bool) session_key).
#[export] Instance set_stream_key : Setter stream_key | 0 := ltac:(setter client (bool) stream_key).
#[export] Instance set_stream_id : Setter stream_id | 0 := ltac:(setter client (Z) stream_id).
#[export] Instance set_session_key_id : Setter session_key_id | 0 := ltac:(setter client (bool) session_key_id).
#[export] Instance set_uplink_protocol_version : Setter uplink_protocol_version | 0 := ltac:(setter client (Z) uplink_protocol_version).
#[export] Instance set_remote_protocol_version : Setter remote_protocol_version | 0 := ltac:(setter client (Z) remote_protocol_version).
#[export] Instance set_stage : Setter stage | 0 := ltac:(setter client (Z) stage).
#[export] Instance set_stage_status : Setter stage_status | 0 := ltac:(setter client (dap_client_stage_status) stage_status).
#[export] Instance set_last_error : Setter last_error | 0 := ltac:(setter client (dap_client_error) last_error).
#[export] Instance set_stage_status_done_callback : Setter stage_status_done_callback | 0 := ltac:(setter client (bool) stage_status_done_callback).
#[export] Instance set_reconnect_attempts : Setter reconnect_attempts | 0 := ltac:(setter client (Z) reconnect_attempts).
#[export] Instance set_is_encrypted : Setter is_encrypted | 0 := ltac:(setter client (bool) is_encrypted).
#[export] Instance set_is_encrypted_headers : Setter is_encrypted_headers | 0 := ltac:(setter client (bool) is_encrypted_headers).
#[export] Instance set_is_close_session : Setter is_close_session | 0 := ltac:(setter client (bool) is_close_session).
#[export] Instance set_is_closed_by_timeout : Setter is_closed_by_timeout | 0 := ltac:(setter client (bool) is_closed_by_timeout).
#[export] Instance set_ts_last_active : Setter ts_last_active | 0 := ltac:(setter client (Z) ts_last_active).
#[export] Instance set_request_callbacks : Setter request_callbacks | 0 := ltac:(setter client (option request) request_callbacks).
#[export] Instance set_pkt_queue : Setter pkt_queue | 0 := ltac:(setter client (list dap_client_pkt) pkt_queue).
#[export] Instance set_reconnect_timer : Setter reconnect_timer | 0 := ltac:(setter client (bool) reconnect_timer).
#[export] Instance set_trace : Setter trace | 0 := ltac:(setter client (list effect) trace).

(** What the system answers. *)
Record env := Env {
  key_open_ok : bool;
  dup_ok : bool;
  http_error : option Z;
  socket_ok : bool;
  fcntl_ok : bool;
  resolve_ok : bool;
  stream_ok : bool;
  uuid_ok : bool;
  timer_ok : bool;
  channel_ok : Z -> bool;
  pkt_written : dap_client_pkt -> Z;
  now : Z;
}.

Definition emit (x : effect) (s : client) : client := s{{trace ::= λ t, t ++ [x] }}.
Definition emits (l : list effect) (s : client) : client := s{{trace ::= λ t, t ++ l}}.

Section Machine.
(** The configuration. *)
Variables s_max_attempts s_timeout s_client_timeout_active_after_connect_seconds : Z.
Variable e : env.

(** ** The machine *)

Definition s_client_internal_clean (s : client) : client :=
  let s := s{{reconnect_timer := false; http_client := false}} in
  let s := match stream_es s with
           | None => s
           | Some _ =>
             let s := emits (match stream s with Some _ => [StreamDelete] | None => [] end) s in
             s{{stream := None; stream_es := None; stream_key := false; stream_id := 0}}
           end in
  s{{session_key_id := false; session_key_open := false; session_key := false;
     is_closed_by_timeout := false; is_encrypted := false; is_encrypted_headers := false; is_close_session := false;
     remote_protocol_version := 0; ts_last_active := 0;
     last_error := ERROR_NO_ERROR; stage := STAGE_BEGIN; stage_status := STAGE_STATUS_COMPLETE}}.

Definition fail (err : dap_client_error) (s : client) : client :=
  s{{stage_status := STAGE_STATUS_ERROR; last_error := err}}.

(** The functions that call each other take the machine, [s_stage_status_after],
    as [after]. *)
Section Calls.
Variable after : client -> option client.

Definition dap_client_pvt_stage_transaction_begin (s : client) (a_stage_next : Z) : option client :=
  after (s{{stage_status_done_callback := true; stage := a_stage_next; stage_status := STAGE_STATUS_IN_PROGRESS}}).

Definition call_target_done (s : client) : client :=
  emits (match stage_target_done_callback s with Some cb => [TargetDone cb] | None => [] end) s.

Definition s_stage_fsm_operator_unsafe (s : client) : option client :=
  if stage_target s =? stage s then
    Some (call_target_done (s{{stage_status_done_callback := false; stage_status := STAGE_STATUS_DONE}}))
  else if negb (stage s <? stage_target s) then None
  else dap_client_pvt_stage_transaction_begin s (stage s + 1).

Definition dap_client_pvt_queue_add (s : client) (p : dap_client_pkt) : client := s{{pkt_queue ::= λ q, q ++ [p] }}.

(** Whether the stream has the channel, and whether it has its socket. *)
Definition dap_client_get_stream_ch_unsafe (s : client) (a_ch_id : Z) : option bool :=
  match stream s, stream_es s with
  | Some (chs, es), Some _ => if bool_decide (a_ch_id ∈ chs) then Some es else None
  | _, _ => None
  end.

Definition dap_client_write_unsafe (s : client) (p : dap_client_pkt) : option (Z * client) :=
  match active_channels s with
  | None => Some (-1, s)
  | Some l =>
    if negb (bool_decide (ch_id p ∈ l) || (ch_id p =? 0)) then Some (-1, s) else
    match dap_client_get_stream_ch_unsafe s (ch_id p) with
    | Some true => Some (pkt_written e p, emit (PktWrite p) s)
    | Some false => Some (0, s)
    | None =>
      if connect_on_demand s then
        let s := dap_client_pvt_queue_add s p in
        if (stage_target s =? STAGE_STREAM_STREAMING) && bool_decide (stage_status s = STAGE_STATUS_IN_PROGRESS)
        then Some (0, s)
        else
          s ← dap_client_pvt_stage_transaction_begin (s{{stage_target := STAGE_STREAM_STREAMING}}) STAGE_BEGIN;
          Some (0, s)
      else Some (-2, s)
    end
  end.

(** The packets of the queue from the [i]-th on. *)
Fixpoint flush (fuel : nat) (s : client) (i : nat) : option client :=
  match pkt_queue s !! i with
  | None => Some s
  | Some p =>
    match fuel with
    | O => None
    | S fuel => '(_, s) ← dap_client_write_unsafe s p; flush fuel s (S i)
    end
  end.

Definition s_enc_init_error (s : client) (a_err_code : Z) : option client :=
  after (fail (if a_err_code =? ETIMEDOUT then ERROR_NETWORK_CONNECTION_TIMEOUT else ERROR_NETWORK_CONNECTION_REFUSE) s).

Definition s_stream_ctl_error (s : client) (a_error : Z) : option client :=
  after (fail (if a_error =? ETIMEDOUT then ERROR_NETWORK_CONNECTION_TIMEOUT else ERROR_STREAM_CTL_ERROR) s).

Definition s_request_error (s : client) (a_err_code : Z) : option client :=
  let s := s{{http_client := false}} in
  match request_callbacks s with
  | None => Some s
  | Some EncInit => s_enc_init_error s a_err_code
  | Some StreamCtl => s_stream_ctl_error s a_err_code
  end.

(** A request that cannot be started reports its error before it returns. *)
Definition http_request (s : client) : option client :=
  match http_error e with
  | None => Some (s{{http_client := true}})
  | Some err => s ← s_request_error s err; Some (s{{http_client := false}})
  end.

Definition stage_enc_init (s : client) : option client :=
  if bool_decide (uplink_addr s = []) || (uplink_port s =? 0) then Some (fail ERROR_WRONG_ADDRESS s) else
  let s := s{{session_key_open := key_open_ok e}} in
  if negb (key_open_ok e) then Some (fail ERROR_OUT_OF_MEMORY s)
  else if negb (dup_ok e) then Some (s{{stage_status := STAGE_STATUS_ERROR}})
  else http_request (emit EncRequest (s{{request_callbacks := Some EncInit; is_encrypted := false}})).

Definition stage_stream_ctl (s : client) : option client :=
  let l_least_common_dap_protocol := Z.min (remote_protocol_version s) (uplink_protocol_version s) in
  if negb (session_key s) then None else
  http_request (emit (CtlRequest (l_least_common_dap_protocol <? 23))
                  (s{{request_callbacks := Some StreamCtl; is_encrypted := true}})).

(** [connect] returns 0, or -1 when the connection is in progress. *)
Definition stage_stream_session (s : client) : option client :=
  if negb (socket_ok e) then Some (s{{stage_status := STAGE_STATUS_ERROR}})
  else if negb (fcntl_ok e) then Some s
  else
    let s := s{{stream_es := Some Connecting}} in
    if negb (resolve_ok e) then after (fail ERROR_WRONG_ADDRESS s)
    else if negb (stream_ok e) then after (fail ERROR_STREAM_ABORTED (s{{stream := None}}))
    else
      let s := emit (StreamNew (authorized s)) (s{{stream := Some ([], true)}}) in
      if negb (uuid_ok e) then after (fail ERROR_STREAM_ABORTED s)
      else Some (emit (TimerStart (s_client_timeout_active_after_connect_seconds * 1000)) s).

Fixpoint new_channels (l : list Z) (s : client) : client :=
  match l with
  | [] => s
  | c :: l =>
    new_channels l
      (if channel_ok e c then
         emit (ChannelNew c) (s{{stream ::= option_map (λ x : list Z * bool, (x.1 ++ [c], x.2))}})
       else s)
  end.

Definition stage_stream_connected (s : client) : option client :=
  match stream s with
  | None => after (fail ERROR_STREAM_ABORTED s)
  | Some _ =>
    let s := new_channels (default [] (active_channels s)) s in
    after ((emit (GetRequest (stream_id s)) s){{stage_status := STAGE_STATUS_DONE}})
  end.

Definition status_in_progress (s : client) : option client :=
  if stage s =? STAGE_BEGIN then after ((s_client_internal_clean s){{reconnect_attempts := 0}})
  else if stage s =? STAGE_ENC_INIT then stage_enc_init s
  else if stage s =? STAGE_STREAM_CTL then stage_stream_ctl s
  else if stage s =? STAGE_STREAM_SESSION then stage_stream_session s
  else if stage s =? STAGE_STREAM_CONNECTED then stage_stream_connected s
  else if stage s =? STAGE_STREAM_STREAMING then
    after (s{{reconnect_attempts := 0; stage_status := STAGE_STATUS_DONE}})
  else after (s{{stage_status := STAGE_STATUS_ERROR}}).

Definition call_error (last : bool) (s : client) : client :=
  emits (if stage_status_error_callback s then [ErrorCallback last] else []) s.

Definition status_error (s : client) : client :=
  let l_is_last_attempt := s_max_attempts <=? reconnect_attempts s in
  let s :=
    if negb l_is_last_attempt then
      (if reconnect_attempts s =? 0 then call_error false s else s){{stage_status := STAGE_STATUS_IN_PROGRESS}}
    else
      let s := call_error true s in
      if always_reconnect s then s{{stage_status := STAGE_STATUS_IN_PROGRESS; reconnect_attempts := 0}} else s in
  let s := s{{reconnect_attempts ::= Z.add 1}} in
  if bool_decide (stage_status s = STAGE_STATUS_IN_PROGRESS) then
    let s := (s_client_internal_clean s){{stage_status := STAGE_STATUS_IN_PROGRESS; stage := STAGE_ENC_INIT}} in
    emit (TimerStart (if negb l_is_last_attempt then 300 else s_timeout * 1000)) (s{{reconnect_timer := timer_ok e}})
  else s.

Definition status_done (fuel : nat) (s : client) : option client :=
  if stage s =? stage_target s then
    let s := s{{stage_status := STAGE_STATUS_COMPLETE}} in
    let s := emits (match stream s with Some _ => [AddToList] | None => [] end) s in
    let s := call_target_done s in
    if stage s =? STAGE_STREAM_STREAMING then s ← flush fuel s 0; Some (s{{pkt_queue := [] }}) else Some s
  else if stage_status_done_callback s then s_stage_fsm_operator_unsafe s
  else Some s.
End Calls.

Fixpoint s_stage_status_after (fuel : nat) (s : client) : option client :=
  match fuel with
  | O => None
  | S fuel =>
    match stage_status s with
    | STAGE_STATUS_IN_PROGRESS => status_in_progress (s_stage_status_after fuel) s
    | STAGE_STATUS_ERROR => Some (status_error s)
    | STAGE_STATUS_DONE => status_done (s_stage_status_after fuel) fuel s
    | STAGE_STATUS_COMPLETE | STAGE_STATUS_NONE => Some s
    end
  end.

(** ** Operations and callbacks *)

Variable fuel : nat.
Abbreviation after := (s_stage_status_after fuel).

Definition s_go_stage_on_client_worker_unsafe (s : client) (l_stage_target : Z) (cb : option Z) : option client :=
  let s := s{{stage_target_done_callback := cb}} in
  let restart :=
    dap_client_pvt_stage_transaction_begin after (s{{stage_target := l_stage_target}}) STAGE_BEGIN in
  if bool_decide (stage_status s = STAGE_STATUS_COMPLETE) && (stage s =? stage_target s) then
    if stage_target s =? l_stage_target then Some (call_target_done s)
    else if stage_target s <? l_stage_target then
      dap_client_pvt_stage_transaction_begin after (s{{stage_target := l_stage_target}}) (stage s + 1)
    else restart
  else restart.

(** An answer to the exchange of keys: its size, its members if it is an
    object, and what decoding and checking them gives. *)
Inductive json_key := Encrypt_id | Encrypt_msg | Node_sign | Dap_protocol_version | Other_key.
Inductive json_value := JString (s : list Z) | JInt (z : Z) | JOther.

Record enc_reply := EncReply {
  er_size : Z;
  er_json : option (list (json_key * json_value));
  er_bob_message_size : Z;
  er_alice_ok : bool;
  er_session_key_ok : bool;
  er_sign_ok : bool;
  er_sign_addr_ok : bool;
}.

(** Count, identifier, message and signature found so far, and the version. *)
Fixpoint parse_members (l : list (json_key * json_value)) (acc : Z * bool * bool * bool) (version : Z)
    : Z * bool * bool * bool * Z :=
  match l with
  | [] => (acc, version)
  | (k, v) :: l =>
    let '(n, id, msg, sign) := acc in
    match v, k with
    | JString _, Encrypt_id => parse_members l (n + 1, true, msg, sign) version
    | JString _, Encrypt_msg => parse_members l (n + 1, id, true, sign) version
    | JString _, Node_sign => parse_members l (n + 1, id, msg, true) version
    | JInt z, Dap_protocol_version => parse_members l (n + 1, id, msg, sign) (wrap 32 z)
    | _, _ => parse_members l acc version
    end
  end.

(** The error, and the client with what was taken from the answer. *)
Definition enc_init_take (s : client) (r : enc_reply) : dap_client_error * client :=
  if negb (session_key_open s) then (ERROR_ENC_SESSION_CLOSED, s)
  else if er_size r <=? 10 then (ERROR_ENC_NO_KEY, s)
  else
    let '(n, id, msg, sign, version) :=
      parse_members (default [] (er_json r)) (0, false, false, false) (remote_protocol_version s) in
    let s := match er_json r with
             | None => s
             | Some _ => s{{remote_protocol_version := if version =? 0 then DAP_PROTOCOL_VERSION_DEFAULT else version}}
             end in
    if (n <? 2) || (4 <? n) then (ERROR_ENC_NO_KEY, s)
    else if negb id || negb msg then (ERROR_ENC_NO_KEY, s)
    else
      let s := s{{session_key_id := true}} in
      if er_bob_message_size r =? 0 then (ERROR_ENC_WRONG_KEY, s)
      else if negb (er_alice_ok r) then (ERROR_ENC_WRONG_KEY, s)
      else
        let s := s{{session_key := er_session_key_ok r}} in
        if negb (stage s =? STAGE_ENC_INIT) then (ERROR_WRONG_STAGE, s)
        else (ERROR_NO_ERROR, s{{authorized := sign && er_sign_ok r && er_sign_addr_ok r}}).

Definition s_enc_init_response (s : client) (r : enc_reply) : option client :=
  let '(err, s) := enc_init_take (s{{last_error := ERROR_NO_ERROR}}) r in
  let s := s{{last_error := err}} in
  let s := match err with
           | ERROR_NO_ERROR => s{{stage_status := STAGE_STATUS_DONE}}
           | _ => s{{session_key_id := false; stage_status := STAGE_STATUS_ERROR}}
           end in
  after (s{{session_key_open := false}}).

(** An answer to the request of a stream: too short, the word [ERROR], or the
    number of fields read and their values. *)
Inductive ctl_reply :=
  | CtlShort
  | CtlError
  | CtlFields (l_arg_count l_stream_id_int l_remote_protocol_version : Z) (l_enc_headers : bool).

Definition s_stream_ctl_response (s : client) (r : ctl_reply) : option client :=
  match r with
  | CtlShort => after (fail ERROR_STREAM_CTL_ERROR_RESPONSE_FORMAT s)
  | CtlError => after (fail ERROR_STREAM_CTL_ERROR_AUTH s)
  | CtlFields l_arg_count l_stream_id_int l_remote_protocol_version l_enc_headers =>
    if l_arg_count <? 2 then after (fail ERROR_STREAM_CTL_ERROR_RESPONSE_FORMAT s) else
    let s := s{{uplink_protocol_version := if 2 <? l_arg_count then l_remote_protocol_version else DAP_PROTOCOL_VERSION_DEFAULT}} in
    if negb (l_stream_id_int =? 0) then
      let s := s{{stream_id := l_stream_id_int; stream_key := true; is_encrypted_headers := l_enc_headers}} in
      if stage s =? STAGE_STREAM_CTL then after (s{{stage_status := STAGE_STATUS_DONE}}) else Some s
    else after (fail ERROR_STREAM_CTL_ERROR_RESPONSE_FORMAT s)
  end.

(** [None] for an empty answer. *)
Definition s_request_response (s : client) (r : option (enc_reply + ctl_reply)) : option client :=
  match request_callbacks s with
  | None => Some s
  | Some _ =>
    let s := s{{http_client := false}} in
    match r with
    | None => Some s
    | Some r =>
      if is_encrypted s && negb (session_key s) then Some s else
      match r with inl r => s_enc_init_response s r | inr r => s_stream_ctl_response s r end
    end
  end.

Definition s_stream_connected (s : client) : option client :=
  s ← after (s{{stage_status := STAGE_STATUS_DONE}});
  if negb (uuid_ok e) then Some s else
  match stream_es s with
  | None => None
  | Some _ => Some (emit (TimerStart (s_client_timeout_active_after_connect_seconds * 1024)) s)
  end.

(** The stream forgets its socket. *)
Definition drop_esocket (s : client) : option client :=
  match stream s with None => None | Some (chs, _) => Some (s{{stream := Some (chs, false)}}) end.

Definition s_stream_es_callback_delete (s : client) : option client :=
  s ← drop_esocket (fail ERROR_STREAM_ABORTED s); after s.

Definition s_stream_es_callback_error (s : client) (a_error : Z) : option client :=
  s ← drop_esocket (fail (if a_error =? ETIMEDOUT then ERROR_NETWORK_CONNECTION_TIMEOUT else ERROR_STREAM_RESPONSE_WRONG) s);
  after s.

(** [header]: the input holds the end of a line. *)
Definition s_stream_es_callback_read (s : client) (header : bool) : option client :=
  let s := s{{ts_last_active := now e}} in
  if stage s =? STAGE_STREAM_SESSION then Some (emit (GoStageQueued STAGE_STREAM_STREAMING) s)
  else if stage s =? STAGE_STREAM_CONNECTED then
    if header then
      s ← after (s{{stage := STAGE_STREAM_STREAMING; stage_status := STAGE_STATUS_DONE}});
      Some (emit StreamRead s)
    else Some s
  else if stage s =? STAGE_STREAM_STREAMING then Some (emit StreamRead s)
  else Some s.

Definition s_timer_reconnect_callback (s : client) : option client := after (s{{reconnect_timer := false}}).

Definition s_stream_timer_timeout_check (s : client) : option client :=
  if bool_decide (stream_es s = Some Connecting) then s_stream_es_callback_error (s{{is_closed_by_timeout := true}}) ETIMEDOUT
  else Some s.

Definition s_stream_timer_timeout_after_connected_check (s : client) : option client :=
  if s_client_timeout_active_after_connect_seconds <=? now e - ts_last_active s
  then s_stream_es_callback_error (s{{is_closed_by_timeout := true}}) ETIMEDOUT
  else Some s.

Definition dap_client_pvt_queue_clear (s : client) : client := s{{pkt_queue := [] }}.

Definition dap_client_write (s : client) (p : dap_client_pkt) : option (Z * client) :=
  '(n, s) ← dap_client_write_unsafe after s p; Some (if 0 <? n then 0 else -2, s).

(** ** Events *)

Inductive event :=
  | GoStage (target : Z) (cb : option Z)
  | Write (p : dap_client_pkt)
  | QueueClear
  | Reply (r : option (enc_reply + ctl_reply))
  | RequestError (err : Z)
  | Connected
  | EsDelete
  | EsError (err : Z)
  | Read (header : bool)
  | ConnectTimer
  | ActivityTimer
  | ReconnectTimer.

(** The stream has a socket the reactor knows. *)
Definition es_live (s : client) : bool :=
  match stream s, stream_es s with Some (_, true), Some _ => true | _, _ => false end.

(** An answer is given to the callback of its request. *)
Definition reply_for (r : option (enc_reply + ctl_reply)) (q : option request) : bool :=
  match r, q with
  | None, _ => true
  | Some (inl _), Some EncInit => true
  | Some (inr _), Some StreamCtl => true
  | _, _ => false
  end.

Definition enabled (s : client) (ev : event) : bool :=
  match ev with
  | GoStage target _ => (STAGE_BEGIN <=? target) && (target <=? STAGE_STREAM_STREAMING)
  | Write _ | QueueClear => true
  | Reply r => http_client s && reply_for r (request_callbacks s)
  | RequestError _ => http_client s
  | Connected => es_live s && bool_decide (stream_es s = Some Connecting)
  | EsDelete | EsError _ | Read _ | ConnectTimer | ActivityTimer => es_live s
  | ReconnectTimer => reconnect_timer s
  end.

Definition handle (s : client) (ev : event) : option client :=
  match ev with
  | GoStage target cb => s_go_stage_on_client_worker_unsafe s target cb
  | Write p => '(_, s) ← dap_client_write s p; Some s
  | QueueClear => Some (dap_client_pvt_queue_clear s)
  | Reply r => s_request_response s r
  | RequestError err => s_request_error after s err
  | Connected => s_stream_connected (s{{stream_es := Some Open}})
  | EsDelete => s_stream_es_callback_delete s
  | EsError err => s_stream_es_callback_error s err
  | Read header => s_stream_es_callback_read s header
  | ConnectTimer => s_stream_timer_timeout_check s
  | ActivityTimer => s_stream_timer_timeout_after_connected_check s
  | ReconnectTimer => s_timer_reconnect_callback s
  end.
End Machine.

(** [dap_client_new]. *)
Definition dap_client_new (a_stage_status_error_callback : bool) : client := {|
  active_channels := None; uplink_addr := []; uplink_port := 0; always_reconnect := false; connect_on_demand := false;
  stage_target := STAGE_BEGIN; stage_target_done_callback := None;
  stage_status_error_callback := a_stage_status_error_callback;
  stream := None; stream_es := None; authorized := false; http_client := false;
  session_key_open := false; session_key := false; stream_key := false; stream_id := 0; session_key_id := false;
  uplink_protocol_version := DAP_PROTOCOL_VERSION; remote_protocol_version := 0;
  stage := STAGE_BEGIN; stage_status := STAGE_STATUS_COMPLETE; last_error := ERROR_NO_ERROR;
  stage_status_done_callback := false; reconnect_attempts := 0;
  is_encrypted := false; is_encrypted_headers := false; is_close_session := false; is_closed_by_timeout := false;
  ts_last_active := 0; request_callbacks := None; pkt_queue := []; reconnect_timer := false; trace := [] |}.

Definition dap_client_set_uplink_unsafe (s : client) (a_addr : list Z) (a_port : Z) : client :=
  if bool_decide (a_addr = []) || (a_port =? 0) then s else s{{uplink_addr := take 255 a_addr; uplink_port := a_port}}.

Definition dap_client_set_active_channels_unsafe (s : client) (a_active_channels : list Z) : client :=
  s{{active_channels := Some a_active_channels}}.

Definition dap_client_set_is_always_reconnect (s : client) (a_value : bool) : client := s{{always_reconnect := a_value}}.
