(* ===== verification/ClientRun.v ===== *)
(** * The client does not fail and ends its attempts

    The state a client keeps between two events ([wf]) is kept by every event,
    and every event is handled to its end: no null pointer is followed, no
    assertion fails and the calls of the machine to itself end.  Then the
    three things a client may do: connect, give up after its attempts, or stall
    after a change of target. *)

From coqutil Require Import Datatypes.RecordSetters.
Import DoubleBraceUpdate.
From S2P Require Import Prelude Client.
Local Open Scope Z_scope.

(** A client as its fields, and its fields after a call. *)
Ltac open_client s :=
  destruct s as [ac ua up ar cod st tcb ecb str es au hc sko sk skey sid skid upv rpv sg ss le dcb att ie ieh ics ict tla rq q rt tr].
Ltac conj := repeat match goal with H : _ /\ _ |- _ => destruct H end; simplify_eq.
Ltac ev := cbn; cbv beta delta [constant].
Ltac solve_fields :=
  ev; repeat match goal with |- _ /\ _ => split end; intros; try done; try lia; try congruence; try by auto;
  try match goal with H : ?P -> ?G |- ?G => apply H; (lia || done) end.

(** ** What holds between two events *)

Section Run.
Variables max timeout active : Z.
Hypothesis max_pos : 1 <= max.

Abbreviation after e := (s_stage_status_after max timeout active e).

Definition channels (s : client) : list Z := default [] (active_channels s).

(** The stream has a channel for each active one. *)
Definition channels_open (s : client) : Prop :=
  match stream s with Some (chs, _) => channels s ⊆ chs | None => False end.

(** Held at all times. *)
Definition base (s : client) : Prop :=
  0 <= stage_target s <= 5 /\ stage_target s ≠ STAGE_STREAM_CONNECTED /\
  (stream_es s = None -> stream s = None) /\ 0 <= reconnect_attempts s /\
  Forall (λ p, ch_id p ∈ channels s) (pkt_queue s).

(** No answer and no timer is awaited. *)
Definition idle (s : client) : Prop := http_client s = false /\ reconnect_timer s = false.

(** The answer that is awaited is that of the stage. *)
Definition awaits (s : client) : Prop :=
  match request_callbacks s with
  | Some EncInit => stage s = STAGE_ENC_INIT /\ session_key_open s = true
  | Some StreamCtl => stage s = STAGE_STREAM_CTL /\ is_encrypted s = true
  | None => False
  end.

Definition in_progress (s : client) : Prop :=
  1 <= stage s <= 3 /\ stage s <= stage_target s /\ stage_status_done_callback s = true /\
  reconnect_attempts s <= max /\
  (stream_es s ≠ None -> stage s = STAGE_STREAM_SESSION) /\
  (http_client s = true -> awaits s /\ reconnect_timer s = false) /\
  (reconnect_timer s = true -> stage s = STAGE_ENC_INIT) /\
  (2 <= stage s -> session_key s = true).

Definition complete (s : client) : Prop :=
  idle s /\
  ((stage s = STAGE_BEGIN /\ stream_es s = None /\ reconnect_attempts s = 0) \/
   (1 <= stage s /\ stage s = stage_target s /\ stage_status_done_callback s = true /\ reconnect_attempts s <= max /\ session_key s = true /\
    (stage s < 3 -> stream_es s = None) /\ (3 <= stage s -> es_live s = true) /\ (3 <= stage s -> stream_es s = Some Open) /\
    (stage s = STAGE_STREAM_STREAMING -> channels_open s))).

Definition stopped (s : client) : Prop :=
  idle s /\ es_live s = false /\ 1 <= stage s <= stage_target s /\ reconnect_attempts s <= max + 1.

Definition wf (s : client) : Prop :=
  base s /\
  match stage_status s with
  | STAGE_STATUS_IN_PROGRESS => in_progress s
  | STAGE_STATUS_COMPLETE => complete s
  | STAGE_STATUS_ERROR => stopped s
  | _ => False
  end.

(** Memory is there and the channels are registered. *)
Definition env_ok (s : client) (e : env) : Prop :=
  uuid_ok e = true /\ Forall (λ c, channel_ok e c = true) (channels s).

(** A stage may begin. *)
Definition entering (s : client) : Prop :=
  base s /\ idle s /\ stage_status s = STAGE_STATUS_IN_PROGRESS /\ stage_status_done_callback s = true /\
  1 <= stage s <= stage_target s /\ reconnect_attempts s <= max /\
  (2 <= stage s -> session_key s = true) /\
  (stage s <= 3 -> stream_es s = None) /\ (4 <= stage s -> es_live s = true) /\ (4 <= stage s -> stream_es s = Some Open) /\
  (stage s = STAGE_STREAM_STREAMING -> channels_open s).

(** A stage has failed. *)
Definition failing (s : client) : Prop :=
  base s /\ idle s /\ stage_status s = STAGE_STATUS_ERROR /\ stage_status_done_callback s = true /\
  es_live s = false /\ 1 <= stage s <= stage_target s /\ reconnect_attempts s <= max.

(** A stage is passed. *)
Definition passed (s : client) : Prop :=
  base s /\ idle s /\ stage_status s = STAGE_STATUS_DONE /\ stage_status_done_callback s = true /\
  1 <= stage s <= 3 /\ stage s <= stage_target s /\ reconnect_attempts s <= max /\
  session_key s = true /\
  (stage s < 3 -> stream_es s = None) /\ (stage s = 3 -> es_live s = true) /\ (stage s = 3 -> stream_es s = Some Open).

Ltac unfold_wf :=
  unfold wf, in_progress, complete, stopped, entering, failing, passed, base, idle, awaits, es_live, channels_open, channels.
Ltac by_fields s :=
  repeat match goal with H : context [s] |- _ => revert H end;
  open_client s; unfold_wf; cbn; intros; conj; solve_fields.

(** ** Failure *)

Lemma status_error_wf e s : failing s -> wf (status_error max timeout e s).
Proof using max_pos.
  open_client s. unfold_wf. cbn. intros H. conj.
  unfold status_error. cbn [reconnect_attempts]. destruct (Z.leb_spec max att) as [Hm|Hm].
  - destruct ar, es; cbn.
    1-2: rewrite bool_decide_true by done.
    3-4: rewrite bool_decide_false by done.
    all: solve_fields.
  - destruct es, (att =? 0) ; cbn; rewrite bool_decide_true by done; solve_fields.
Qed.

Lemma failing_after e n s : failing s -> ∃ s', after e (S n) s = Some s' /\ wf s'.
Proof using max_pos.
  intros H. exists (status_error max timeout e s). split; [|by apply status_error_wf].
  cbn. by rewrite (proj1 (proj2 (proj2 H))).
Qed.

(** ** The queue *)

Lemma emits_emits l1 l2 s : emits l2 (emits l1 s) = emits (l1 ++ l2) s.
Proof. open_client s. cbv [emits apply_update set_trace]; cbn. by rewrite <-app_assoc. Qed.

Lemma emits_nil s : emits [] s = s.
Proof. open_client s. cbv [emits apply_update set_trace]; cbn. by rewrite app_nil_r. Qed.

Lemma write_open e aft s p :
  es_live s = true -> channels_open s -> ch_id p ∈ channels s ->
  dap_client_write_unsafe e aft s p = Some (pkt_written e p, emits [PktWrite p] s).
Proof.
  unfold dap_client_write_unsafe, dap_client_get_stream_ch_unsafe, channels_open, channels, es_live.
  intros Hl Ho Hp. destruct (active_channels s) as [l|]; [|by apply not_elem_of_nil in Hp]. cbn in *.
  rewrite bool_decide_true by done. cbn.
  destruct (stream s) as [[chs []]|]; try done. destruct (stream_es s); [|done].
  rewrite bool_decide_true; [done|]. by apply Ho.
Qed.

Lemma flush_open e aft fuel s i :
  es_live s = true -> channels_open s -> Forall (λ p, ch_id p ∈ channels s) (pkt_queue s) ->
  (length (pkt_queue s) <= fuel + i)%nat ->
  flush e aft fuel s i = Some (emits (PktWrite <$> drop i (pkt_queue s)) s).
Proof.
  revert s i. induction fuel as [|fuel IH]; intros s i Hl Ho Hq Hf; cbn [flush].
  - rewrite (proj2 (lookup_ge_None _ _)) by lia. rewrite drop_ge by lia.
    by rewrite emits_nil.
  - destruct (pkt_queue s !! i) as [p|] eqn:Hp.
    + rewrite write_open; [|done..|by eapply Forall_lookup_1 in Hq]. cbn [mbind option_bind].
      rewrite IH; [|done..|change (pkt_queue (emits _ s)) with (pkt_queue s); lia]. rewrite emits_emits, (drop_S _ _ _ Hp). done.
    + apply lookup_ge_None in Hp. rewrite drop_ge by lia. by rewrite emits_nil.
Qed.

(** ** The stages *)

Lemma entering_low s : entering s -> stage s <= 3 -> stream_es s = None /\ stream s = None.
Proof. by_fields s. Qed.

Lemma entering_status s : entering s -> stage_status s = STAGE_STATUS_IN_PROGRESS.
Proof. by_fields s. Qed.

(** A request is sent, or fails at once. *)
Lemma http_request_wf e n s r :
  entering s -> request_callbacks s = Some r -> awaits s ->
  ∃ s', http_request e (after e (S n)) s = Some s' /\ wf s'.
Proof using max_pos.
  intros H Hq Ha.
  assert (Hl : stream_es s = None /\ stream s = None /\ 1 <= stage s <= 2).
  { assert (1 <= stage s <= 2) by (revert Ha; unfold awaits; destruct (request_callbacks s) as [[]|]; lia || done).
    pose proof (entering_low s H ltac:(lia)). tauto. }
  unfold http_request, s_request_error. destruct (http_error e) as [err|].
  - replace (request_callbacks _) with (Some r) by done.
    assert (Hf : ∀ er, failing (fail er (s{{http_client := false}}))) by (intros er; by_fields s).
    unfold s_enc_init_error, s_stream_ctl_error.
    destruct r; edestruct failing_after as (s' & -> & Hs'); try apply Hf; cbn [mbind option_bind].
    all: eexists; split; [done|]. all: clear H Hq Ha Hl Hf; by_fields s'. all: repeat case_match; conj; solve_fields.
  - eexists; split; [done|]. destruct Hl as (? & ? & ?). by_fields s.
Qed.

Lemma after_in_progress e n s :
  stage_status s = STAGE_STATUS_IN_PROGRESS ->
  after e (S n) s = status_in_progress active e (after e n) s.
Proof. cbn [s_stage_status_after]. by intros ->. Qed.

Lemma after_done e n s :
  stage_status s = STAGE_STATUS_DONE -> after e (S n) s = status_done e (after e n) n s.
Proof. cbn [s_stage_status_after]. by intros ->. Qed.

Lemma enter_enc e n s :
  entering s -> stage s = STAGE_ENC_INIT -> ∃ s', after e (S (S n)) s = Some s' /\ wf s'.
Proof using max_pos.
  intros H Hs. pose proof (entering_low s H ltac:(lia)) as [Hes Hst].
  rewrite after_in_progress by by apply entering_status.
  unfold status_in_progress, stage_enc_init. rewrite Hs. cbn [Z.eqb Pos.eqb].
  destruct (_ || _); [eexists; split; [done|]; by_fields s|].
  destruct (key_open_ok e), (dup_ok e); cbn [negb].
  2-4: eexists; split; [done|]; by_fields s.
  eapply http_request_wf; [|done|]; by_fields s.
Qed.

Lemma enter_ctl e n s :
  entering s -> stage s = STAGE_STREAM_CTL -> ∃ s', after e (S (S n)) s = Some s' /\ wf s'.
Proof using max_pos.
  intros H Hs. pose proof (entering_low s H ltac:(lia)) as [Hes Hst].
  rewrite after_in_progress by by apply entering_status.
  unfold status_in_progress, stage_stream_ctl. rewrite Hs. cbn [Z.eqb Pos.eqb].
  assert (session_key s = true) as -> by by_fields s. cbn [negb].
  eapply http_request_wf; [|done|]; by_fields s.
Qed.

Lemma enter_session e n s :
  entering s -> stage s = STAGE_STREAM_SESSION -> env_ok s e -> ∃ s', after e (S (S n)) s = Some s' /\ wf s'.
Proof using max_pos.
  intros H Hs [Hu _]. pose proof (entering_low s H ltac:(lia)) as [Hes Hst].
  rewrite after_in_progress by by apply entering_status.
  unfold status_in_progress, stage_stream_session. rewrite Hs, Hu. cbn [Z.eqb Pos.eqb].
  destruct (socket_ok e), (fcntl_ok e); cbn [negb]. 2-4: eexists; split; [done|]; by_fields s.
  destruct (resolve_ok e), (stream_ok e); cbn [negb].
  - eexists; split; [done|]; by_fields s.
  - apply failing_after; by_fields s.
  - apply failing_after; by_fields s.
  - apply failing_after; by_fields s.
Qed.

(** The effects of reaching the target with a stream. *)
Definition target_effects (s : client) : list effect :=
  AddToList :: match stage_target_done_callback s with Some cb => [TargetDone cb] | None => [] end.

(** ** Streaming *)

Lemma done_streaming e aft n s :
  base s -> es_live s = true -> channels_open s -> stage s = STAGE_STREAM_STREAMING -> stage_target s = stage s ->
  (length (pkt_queue s) <= n)%nat ->
  status_done e aft n s =
    Some ((emits (target_effects s ++ (PktWrite <$> pkt_queue s)) (s{{stage_status := STAGE_STATUS_COMPLETE}}))
            {{pkt_queue := [] }}).
Proof.
  intros Hb Hl Ho Hs Ht Hn. unfold status_done. rewrite Ht, Z.eqb_refl.
  replace (stage (call_target_done _) =? 5) with true by (symmetry; by apply Z.eqb_eq).
  rewrite flush_open; [|done|done|apply Hb|apply Nat.le_trans with n; [done|lia] ]. cbn [mbind option_bind].
  do 2 f_equal. unfold call_target_done, target_effects. rewrite !emits_emits. f_equal.
  clear -Hl. revert Hl. open_client s. unfold es_live. cbn. by destruct str as [[]|].
Qed.

Lemma enter_streaming e n s :
  entering s -> stage s = STAGE_STREAM_STREAMING -> (length (pkt_queue s) <= n)%nat ->
  after e (S (S n)) s =
    Some ((emits (target_effects s ++ (PktWrite <$> pkt_queue s))
             (s{{reconnect_attempts := 0; stage_status := STAGE_STATUS_COMPLETE}})){{pkt_queue := [] }}).
Proof.
  intros H Hs Hn. rewrite after_in_progress by by apply entering_status.
  unfold status_in_progress. rewrite Hs. cbn [Z.eqb Pos.eqb]. rewrite after_done by done.
  rewrite done_streaming; [done|..|done]; by_fields s.
Qed.

Definition add_channels (l : list Z) (s : client) : client :=
  s{{stream ::= option_map (λ x : list Z * bool, (x.1 ++ l, x.2))}}.

Lemma new_channels_all e l s :
  Forall (λ c, channel_ok e c = true) l -> new_channels e l s = emits (ChannelNew <$> l) (add_channels l s).
Proof.
  intros H. revert s. induction H as [|c l Hc H IH]; intros s; cbn [new_channels fmap list_fmap].
  - rewrite emits_nil. open_client s. destruct str as [[]|]; [|done].
    cbv [add_channels apply_update set_stream]; cbn. by rewrite app_nil_r.
  - rewrite Hc, IH. open_client s.
    destruct str as [[]|]; cbv [add_channels emit emits apply_update set_stream set_trace]; cbn; by rewrite <-!app_assoc.
Qed.

Definition connected_effects (s : client) : list effect :=
  (ChannelNew <$> channels s) ++ [GetRequest (stream_id s)].

Definition queue_effects (s : client) : list effect := PktWrite <$> pkt_queue s.

(** The client streams, after the given effects. *)
Definition streams (s : client) (l : list effect) (s' : client) : Prop :=
  wf s' /\ stage_status s' = STAGE_STATUS_COMPLETE /\ stage s' = STAGE_STREAM_STREAMING /\
  stage_target s' = STAGE_STREAM_STREAMING /\ pkt_queue s' = [] /\
  reconnect_attempts s' = 0 /\ trace s' = trace s ++ l.

Lemma enter_streaming_streams e n s :
  entering s -> stage s = STAGE_STREAM_STREAMING -> (length (pkt_queue s) <= n)%nat ->
  ∃ s', after e (S (S n)) s = Some s' /\ streams s (target_effects s ++ queue_effects s) s'.
Proof using max_pos.
  intros H Hs Hn. eexists; split; [by apply enter_streaming|].
  split; [|by_fields s]. clear Hn. by_fields s. right. solve_fields.
Qed.

Lemma es_live_inv s : es_live s = true -> ∃ chs x, stream s = Some (chs, true) /\ stream_es s = Some x.
Proof. unfold es_live. destruct (stream s) as [[chs []]|], (stream_es s) as [x|]; naive_solver. Qed.

(** The next stage. *)
Definition next (s : client) : client :=
  s{{stage_status_done_callback := true; stage := stage s + 1; stage_status := STAGE_STATUS_IN_PROGRESS}}.

Lemma done_next e aft n s :
  stage s < stage_target s -> stage_status_done_callback s = true -> status_done e aft n s = aft (next s).
Proof.
  intros Hlt Hcb. unfold status_done, s_stage_fsm_operator_unsafe.
  rewrite (proj2 (Z.eqb_neq _ _)), Hcb by lia. rewrite (proj2 (Z.eqb_neq _ _)) by lia.
  by rewrite (proj2 (Z.ltb_lt _ _)).
Qed.

Lemma enter_connected e n s :
  entering s -> stage s = STAGE_STREAM_CONNECTED -> env_ok s e -> (length (pkt_queue s) <= n)%nat ->
  ∃ s', after e (S (S (S (S n)))) s = Some s' /\
    streams s (connected_effects s ++ target_effects s ++ queue_effects s) s'.
Proof using max_pos.
  intros H Hs [_ Hc] Hn. rewrite after_in_progress by by apply entering_status.
  unfold status_in_progress, stage_stream_connected. rewrite Hs. cbn [Z.eqb Pos.eqb].
  destruct (es_live_inv s) as (chs & x & Hx & Hes); [by_fields s|]. rewrite Hx.
  rewrite new_channels_all by done. rewrite after_done by done.
  assert (stage_target s = 5) as Ht by by_fields s.
  rewrite done_next by (cbn; first [lia|by_fields s]).
  edestruct enter_streaming_streams as (s' & Hr & Hs'); [..|exists s'; split; [exact Hr|] ].
  - clear Hn Hc. by_fields s. apply list_subseteq_app_r. done.
  - change (stage s + 1 = 5). by rewrite Hs.
  - done.
  - destruct Hs' as (H1 & H2 & H3 & H4 & H5 & H6 & H7). do 6 (split; [done|]). rewrite H7.
    clear. open_client s. unfold connected_effects, channels. cbn. by rewrite <-!app_assoc.
Qed.

Lemma entering_after e n s :
  entering s -> env_ok s e -> (length (pkt_queue s) <= n)%nat ->
  ∃ s', after e (S (S (S (S n)))) s = Some s' /\ wf s'.
Proof using max_pos.
  intros H He Hn. assert (Hs : 1 <= stage s <= 5) by by_fields s.
  assert (stage s = 1 \/ stage s = 2 \/ stage s = 3 \/ stage s = 4 \/ stage s = 5)
    as [?|[?|[?|[?|?] ] ] ] by lia.
  - by apply enter_enc.
  - by apply enter_ctl.
  - by apply enter_session.
  - destruct (enter_connected e n s) as (s' & ? & Hs'); [done..|]. exists s'. split; [done|apply Hs'].
  - destruct (enter_streaming_streams e (S (S n)) s) as (s' & ? & Hs'); [done..|lia|]. exists s'. split; [done|apply Hs'].
Qed.

Lemma passed_after e n s :
  passed s -> env_ok s e -> (length (pkt_queue s) <= n)%nat ->
  ∃ s', after e (S (S (S (S (S n))))) s = Some s' /\ wf s' /\ (stage s = 3 -> stream_es s' ≠ None).
Proof using max_pos.
  intros H He Hn. rewrite after_done by by_fields s.
  destruct (Z.eq_dec (stage s) (stage_target s)) as [Ht|Ht].
  - unfold status_done. rewrite Ht, Z.eqb_refl.
    replace (stage (call_target_done _) =? 5) with false by (symmetry; apply Z.eqb_neq; by_fields s).
    eexists; split; [done|]. split.
    + clear He Hn. by_fields s. right; solve_fields.
    + intros Hs. destruct (es_live_inv s) as (chs & x & Hx & Hes); [by_fields s|].
      change (stream_es s ≠ None). by rewrite Hes.
  - rewrite done_next by by_fields s. destruct (Z.eq_dec (stage s) 3) as [H3|H3].
    + destruct (enter_connected e n (next s)) as (s' & ? & Hs'); [by_fields s|by_fields s|done|done|].
      exists s'. split; [done|]. split; [apply Hs'|intros _ Hes].
      clear -Hs' Hes. unfold streams in Hs'. by_fields s'. repeat case_match; naive_solver.
    + destruct (entering_after e n (next s)) as (s' & ? & Hs'); [|done..|naive_solver]. by_fields s.
Qed.

(** ** A new target *)

Definition restarted (s : client) : client :=
  (s_client_internal_clean (s{{stage_status_done_callback := true; stage := STAGE_BEGIN;
                               stage_status := STAGE_STATUS_IN_PROGRESS}})){{reconnect_attempts := 0}}.

Lemma begin_restarted e n s :
  dap_client_pvt_stage_transaction_begin (after e (S (S n))) s STAGE_BEGIN = Some (restarted s).
Proof.
  unfold dap_client_pvt_stage_transaction_begin. rewrite after_in_progress by done.
  change (after e (S n) (restarted s) = Some (restarted s)). cbn [s_stage_status_after].
  by replace (stage_status (restarted s)) with STAGE_STATUS_COMPLETE by done.
Qed.

Lemma restarted_wf s : base s -> wf (restarted s).
Proof. open_client s. unfold restarted, s_client_internal_clean. destruct es; unfold_wf; cbn; intros; conj; solve_fields; left; solve_fields. Qed.

Lemma restarted_channels s : channels (restarted s) = channels s.
Proof. open_client s. by destruct es. Qed.

Lemma go_stage_wf e n s target cb :
  wf s -> env_ok s e -> 0 <= target <= 5 -> target ≠ STAGE_STREAM_CONNECTED -> (length (pkt_queue s) <= n)%nat ->
  ∃ s', s_go_stage_on_client_worker_unsafe max timeout active e (S (S (S (S n)))) s target cb = Some s' /\ wf s'.
Proof using max_pos.
  intros H He Ht Ht4 Hn. unfold s_go_stage_on_client_worker_unsafe. rewrite begin_restarted.
  assert (Hr : wf (restarted (s{{stage_target_done_callback := cb; stage_target := target}}))).
  { apply restarted_wf. destruct H as [H _]. clear He Hn. by_fields s. }
  destruct (_ && _) eqn:Hc; [|by eauto]. apply andb_true_iff in Hc as [Hst Hs].
  apply bool_decide_eq_true in Hst. apply Z.eqb_eq in Hs.
  change (stage_status s = STAGE_STATUS_COMPLETE) in Hst. change (stage s = stage_target s) in Hs.
  destruct (_ =? _) eqn:Heq.
  - eexists; split; [done|]. unfold wf in *. change (stage_status (call_target_done _)) with (stage_status s).
    rewrite Hst in *. clear -H. by_fields s.
  - destruct (_ <? _) eqn:Hlt; [|by eauto]. apply Z.ltb_lt in Hlt. change (stage_target s < target) in Hlt.
    apply entering_after; [|done..]. clear -max_pos H Hst Hs Hlt Ht Ht4.
    unfold wf in H. rewrite Hst in H.
    destruct H as (? & ? & [(? & ? & ?)|(? & ? & ? & ? & ? & ? & ? & ? & ?)]); by_fields s.
Qed.

(** ** Events *)

Lemma write_wf e n s p :
  wf s -> ch_id p ≠ 0 ->
  ∃ s', handle max timeout active e (S (S n)) s (Write p) = Some s' /\ wf s'.
Proof.
  intros H Hp. unfold handle, dap_client_write, dap_client_write_unsafe.
  destruct (active_channels s) as [l|] eqn:Hl; [|by eauto].
  rewrite (proj2 (Z.eqb_neq (ch_id p) 0)) by done. rewrite orb_false_r.
  case_bool_decide as Hin; [|by eauto]. cbn [negb].
  destruct (dap_client_get_stream_ch_unsafe s (ch_id p)) as [[]|].
  - eexists; split; [done|]. clear -H. by_fields s.
  - by eauto.
  - destruct (connect_on_demand s); [|by eauto].
    assert (Hb : base (dap_client_pvt_queue_add s p)).
    { destruct H as [H _]. clear -H Hl Hin. by_fields s. apply Forall_app; split; [done|]. by apply Forall_singleton. }
    destruct (_ && _) eqn:Hc.
    + eexists; split; [done|]. split; [done|]. clear -H. by_fields s. 
    + rewrite begin_restarted. eexists; split; [done|]. apply restarted_wf. clear -Hb. by_fields s.
Qed.

(** A client that awaits an answer. *)
Definition awaiting (s : client) : Prop :=
  stage_status s = STAGE_STATUS_IN_PROGRESS /\ base s /\ in_progress s /\ awaits s /\
  stream_es s = None /\ stream s = None /\ reconnect_timer s = false.

Lemma wf_awaiting s : wf s -> http_client s = true -> awaiting s.
Proof.
  intros [Hb H] Hh. destruct (stage_status s) eqn:Hs; try done.
  2-3: unfold complete, stopped, idle in H; naive_solver congruence.
  assert (Ha : awaits s /\ reconnect_timer s = false) by by apply H.
  assert (Hes : stream_es s = None).
  { destruct (stream_es s) eqn:Hes; [|done].
    assert (stage s = 3) by (apply H; by rewrite Hes).
    unfold awaits in *. destruct (request_callbacks s) as [[]|]; naive_solver lia. }
  unfold awaiting. split; [done|]. destruct Ha, (proj1 (proj2 (proj2 Hb)) Hes). done.
Qed.

Lemma request_failing s err : awaiting s -> failing (fail err (s{{http_client := false}})).
Proof. unfold awaiting. by_fields s. Qed.

Lemma request_error_wf e n s err :
  wf s -> http_client s = true -> ∃ s', s_request_error (after e (S n)) s err = Some s' /\ wf s'.
Proof using max_pos.
  intros H Hh. pose proof (wf_awaiting s H Hh) as Ha. unfold s_request_error.
  change (request_callbacks _) with (request_callbacks s). destruct (request_callbacks s) as [[]|] eqn:Hq.
  - unfold s_enc_init_error. by apply failing_after, request_failing.
  - unfold s_stream_ctl_error. by apply failing_after, request_failing.
  - exfalso. unfold awaiting, awaits in Ha. rewrite Hq in Ha. tauto.
Qed.

Lemma enc_init_take_frame s r err s' :
  enc_init_take s r = (err, s') ->
  s' = s{{remote_protocol_version := remote_protocol_version s'; session_key_id := session_key_id s';
          session_key := session_key s'; authorized := authorized s'}} /\
  (err = ERROR_NO_ERROR -> session_key s' = er_session_key_ok r).
Proof.
  open_client s. unfold enc_init_take. cbn [session_key_open remote_protocol_version].
  destruct sko; [|by intros [= <- <-]]. cbn [negb].
  case_match; [by intros [= <- <-]|].
  destruct (parse_members _ _ _) as [[[[k id] msg] sign] version].
  destruct (er_json r); (case_match; [by intros [= <- <-]|]).
  all: case_match; [by intros [= <- <-]|].
  all: case_match; [by intros [= <- <-]|].
  all: case_match; [by intros [= <- <-]|].
  all: case_match; [by intros [= <- <-]|].
  all: by intros [= <- <-].
Qed.

Lemma enc_init_response_wf e n s r :
  awaiting s -> stage s = STAGE_ENC_INIT -> er_session_key_ok r = true -> env_ok s e -> (length (pkt_queue s) <= n)%nat ->
  ∃ s', s_enc_init_response max timeout active e (S (S (S (S (S n))))) (s{{http_client := false}}) r = Some s' /\ wf s'.
Proof using max_pos.
  intros Ha Hs Hk He Hn. unfold s_enc_init_response.
  destruct (enc_init_take _ _) as [err s'] eqn:Ht. apply enc_init_take_frame in Ht as [Hs' Hsk].
  set (key := session_key s') in *. set (kid := session_key_id s') in *.
  set (rv := remote_protocol_version s') in *. set (auth := authorized s') in *. clearbody key kid rv auth.
  subst s'. destruct (decide (err = ERROR_NO_ERROR)) as [->|Herr].
  - specialize (Hsk eq_refl). subst key. rewrite Hk.
    edestruct (passed_after e n) as (s' & Hr & Hw & _); [..|exists s'; split; [exact Hr|done] ].
    + clear -Ha Hs. unfold awaiting in Ha. by_fields s.
    + done.
    + done.
  - destruct (failing_after e (S (S (S (S n))))
      (s{{http_client := false; last_error := ERROR_NO_ERROR; remote_protocol_version := rv; session_key_id := kid;
          session_key := key; authorized := auth; last_error := err; session_key_id := false;
          stage_status := STAGE_STATUS_ERROR; session_key_open := false}})) as (s' & Hr & Hw).
    + clear -Ha Hs. unfold awaiting in Ha. by_fields s.
    + exists s'. split; [|done]. rewrite <-Hr. by destruct err.
Qed.

Lemma stream_ctl_response_wf e n s r :
  awaiting s -> stage s = STAGE_STREAM_CTL -> env_ok s e -> (length (pkt_queue s) <= n)%nat ->
  ∃ s', s_stream_ctl_response max timeout active e (S (S (S (S (S n))))) (s{{http_client := false}}) r = Some s' /\ wf s'.
Proof using max_pos.
  intros Ha Hs He Hn. unfold s_stream_ctl_response. destruct r as [| |c i v h].
  1-2: by apply failing_after, request_failing.
  case_match; [by apply failing_after, request_failing|].
  destruct (i =? 0); cbn [negb].
  - apply failing_after. clear -Ha Hs. unfold awaiting in Ha. by_fields s.
  - replace (_ =? STAGE_STREAM_CTL) with true by (symmetry; apply Z.eqb_eq; exact Hs).
    edestruct (passed_after e n) as (s' & Hr & Hw & _); [..|exists s'; split; [exact Hr|done] ]; [|done..].
    clear -Ha Hs. unfold awaiting in Ha. by_fields s.
Qed.
Lemma reply_wf e n s r :
  wf s -> enabled s (Reply r) = true -> env_ok s e -> (length (pkt_queue s) <= n)%nat ->
  match r with Some (inl r) => er_session_key_ok r = true | _ => True end ->
  ∃ s', s_request_response max timeout active e (S (S (S (S (S n))))) s r = Some s' /\ wf s'.
Proof using max_pos.
  intros H Hen He Hn Hr. cbn in Hen. apply andb_true_iff in Hen as [Hh Hq].
  pose proof (wf_awaiting s H Hh) as Ha. unfold s_request_response.
  assert (Hw : wf (s{{http_client := false}})).
  { destruct Ha as (Hs & _ & _ & _). destruct H as [Hb H]. rewrite Hs in H. clear -Hb H Hs. by_fields s. }
  destruct (request_callbacks s) as [q|] eqn:Hrq; [|exfalso; unfold awaiting, awaits in Ha; rewrite Hrq in Ha; tauto].
  assert (Hst : stage s = match q with EncInit => STAGE_ENC_INIT | StreamCtl => STAGE_STREAM_CTL end).
  { unfold awaiting, awaits in Ha. rewrite Hrq in Ha. destruct q; tauto. }
  destruct r as [r|]; [|by eauto]. destruct (_ && _); [by eauto|].
  destruct r as [r|r], q; try done.
  - by apply enc_init_response_wf.
  - by apply stream_ctl_response_wf.
Qed.

(** A client with a socket. *)
Definition live (s : client) : Prop :=
  base s /\ idle s /\ stage_status_done_callback s = true /\ 3 <= stage s <= stage_target s /\
  reconnect_attempts s <= max /\ session_key s = true /\ stage s ≠ STAGE_STREAM_CONNECTED /\ es_live s = true /\
  (stream_es s = Some Connecting -> stage s = STAGE_STREAM_SESSION).

Lemma wf_live s : wf s -> es_live s = true -> live s.
Proof.
  intros [Hb H] Hl. destruct (es_live_inv s Hl) as (chs & x & Hx & Hes).
  destruct (stage_status s) eqn:Hs; try done.
  - assert (Hs3 : stage s = 3) by (apply H; by rewrite Hes).
    assert (http_client s = false).
    { destruct (http_client s) eqn:Hh; [|done]. destruct (wf_awaiting s) as (_ & _ & _ & _ & ? & _); [|done|congruence].
      split; [done|]. by rewrite Hs. }
    assert (reconnect_timer s = false).
    { destruct (reconnect_timer s) eqn:Hh; [|done]. assert (stage s = 1) by by apply H. lia. }
    clear Hs. unfold live. by_fields s.
  - unfold stopped in H. destruct H as (_ & ? & _). congruence.
  - destruct H as (Hi & [(? & ? & ?)|(? & ? & ? & ? & ? & ? & ? & Hop & ?)]); [congruence|].
    assert (3 <= stage s) by (destruct (Z.lt_ge_cases (stage s) 3); [naive_solver congruence|done]).
    specialize (Hop ltac:(done)). unfold live. by_fields s.
Qed.

Lemma es_error_wf e n s err :
  live s -> ∃ s', (s ← drop_esocket (fail err s); after e (S n) s) = Some s' /\ wf s'.
Proof using max_pos.
  intros H. destruct (es_live_inv s) as (chs & x & Hx & Hes); [apply H|].
  unfold drop_esocket. change (stream (fail err s)) with (stream s). rewrite Hx. cbn [mbind option_bind].
  apply failing_after. clear -H Hx Hes. unfold live in H. by_fields s.
Qed.

Lemma wf_emits l s : wf s -> wf (emits l s).
Proof. by_fields s. Qed.

Lemma connected_wf e n s :
  live s -> stream_es s = Some Connecting -> env_ok s e -> (length (pkt_queue s) <= n)%nat ->
  ∃ s', s_stream_connected max timeout active e (S (S (S (S (S n))))) (s{{stream_es := Some Open}}) = Some s' /\ wf s'.
Proof using max_pos.
  intros H Hes He Hn. assert (Hs3 : stage s = 3) by by apply H. unfold s_stream_connected.
  edestruct (passed_after e n) as (s' & Hr & Hw & Hx); [..|rewrite Hr]; [|done|done|].
  - clear -H Hes Hs3. destruct (es_live_inv s) as (chs & x & Hx & _); [apply H|]. unfold live in H. by_fields s.
  - cbn [mbind option_bind]. rewrite (proj1 He). cbn [negb]. specialize (Hx Hs3).
    destruct (stream_es s'); [|done]. eexists; split; [done|]. by apply wf_emits.
Qed.

Lemma reconnect_wf e n s :
  wf s -> reconnect_timer s = true -> env_ok s e -> (length (pkt_queue s) <= n)%nat ->
  ∃ s', s_timer_reconnect_callback max timeout active e (S (S (S (S n)))) s = Some s' /\ wf s'.
Proof using max_pos.
  intros [Hb H] Ht He Hn. apply entering_after; [|done..].
  destruct (stage_status s) eqn:Hs; try done. 2-3: unfold complete, stopped, idle in H; naive_solver congruence.
  assert (stage s = 1) by by apply H.
  assert (http_client s = false) by (destruct (http_client s) eqn:Hh; [|done]; destruct H as (_ & _ & _ & _ & _ & H & _); naive_solver congruence).
  assert (stream_es s = None) by (destruct (stream_es s) eqn:Hh; [|done]; assert (stage s = 3) by (apply H; by rewrite Hh); lia).
  clear He Hn Ht. by_fields s.
Qed.

(** The targets that are asked for are not the passing stage of connection, a
    packet has a channel, and the keys of an accepted exchange are built. *)
Definition event_ok (ev : event) : Prop :=
  match ev with
  | GoStage t _ => t ≠ STAGE_STREAM_CONNECTED
  | Write p => ch_id p ≠ 0
  | Reply (Some (inl r)) => er_session_key_ok r = true
  | _ => True
  end.

Lemma handle_wf e n s ev :
  wf s -> env_ok s e -> event_ok ev -> enabled s ev = true -> (length (pkt_queue s) <= n)%nat ->
  ∃ s', handle max timeout active e (S (S (S (S (S n))))) s ev = Some s' /\ wf s'.
Proof using max_pos.
  intros H He Hok Hen Hn. destruct ev as [t cb|p| |r|err| | |err|h| | |]; cbn [handle event_ok] in *.
  - cbn in Hen. apply andb_true_iff in Hen as [?%Z.leb_le ?%Z.leb_le]. apply go_stage_wf; (done || lia).
  - by apply (write_wf e).
  - eexists; split; [done|]. by_fields s.
  - by apply reply_wf.
  - by apply request_error_wf.
  - cbn in Hen. apply andb_true_iff in Hen as [Hl Hc%bool_decide_eq_true]. apply connected_wf; [|done..]. by apply wf_live.
  - by apply es_error_wf, wf_live.
  - by apply es_error_wf, wf_live.
  - pose proof (wf_live s H Hen) as Hl. unfold s_stream_es_callback_read.
    change (stage (_ s)) with (stage s).
    assert (stage s = 3 \/ stage s = 5) as [-> | ->] by (unfold live, base in Hl; lia); cbn [Z.eqb Pos.eqb].
    all: eexists; split; [done|]. all: clear -H; by_fields s.
  - unfold s_stream_timer_timeout_check. case_bool_decide; [|by eauto].
    apply es_error_wf. pose proof (wf_live s H Hen) as Hl. clear -Hl. unfold live in *. by_fields s.
  - unfold s_stream_timer_timeout_after_connected_check. case_match; [|by eauto].
    apply es_error_wf. pose proof (wf_live s H Hen) as Hl. clear -Hl. unfold live in *. by_fields s.
  - apply reconnect_wf; (done || lia).
Qed.

Lemma wf_facts s :
  wf s ->
  0 <= reconnect_attempts s <= max + 1 /\
  (http_client s = true -> stream_es s = None /\ reconnect_timer s = false) /\
  (reconnect_timer s = true -> stream_es s = None).
Proof using max_pos.
  intros H. split_and!.
  - apply H.
  - destruct H as [Hb H]. destruct (stage_status s); try done; unfold in_progress, complete, stopped in H; [lia..|].
    destruct H as [_ [H|H] ]; lia.
  - intros Hh. destruct (wf_awaiting s H Hh) as (_ & _ & _ & _ & ? & _ & ?). done.
  - intros Ht. destruct H as [Hb H].
    destruct (stage_status s); try done; unfold complete, stopped, idle in H; [|naive_solver congruence..].
    destruct (stream_es s) eqn:Hes; [|done]. assert (stage s = 3) by (apply H; by rewrite Hes).
    assert (stage s = 1) by by apply H. lia.
Qed.
End Run.
