(* ===== verification/ClientSpec.v ===== *)
(** * What a client does: connect, give up, stall

    The guarantees of the stages of a client: events within [event_ok] do not make
    it follow a null pointer or fail an assertion, and those outside do
    ([client_failures]); an uplink that answers is connected with exactly the
    expected requests, one that refuses when it is asked is tried a bounded number
    of times; and a target given before the previous one is reached is never
    started. *)

From coqutil Require Import Datatypes.RecordSetters.
Import DoubleBraceUpdate.
From stdpp Require Import relations.
From S2P Require Import Prelude Client ClientRun.
Local Open Scope Z_scope.

(** A client before its first stage. *)
Definition configured (error_callback on_demand : bool) (addr : list Z) (port : Z) (chans : list Z) : client :=
  dap_client_set_active_channels_unsafe
    (dap_client_set_uplink_unsafe ((dap_client_new error_callback){{connect_on_demand := on_demand}}) addr port) chans.

Section Spec.
Variables max timeout active : Z.

Abbreviation handle := (handle max timeout active).

Definition fuel_for (s : client) : nat := S (S (S (S (S (length (pkt_queue s)))))).

(** One event, under conditions the program relies on. *)
Definition step (s s' : client) : Prop :=
  ∃ e ev, env_ok s e /\ event_ok ev /\ enabled s ev = true /\ handle e (fuel_for s) s ev = Some s'.

Lemma configured_wf cb od addr port chans : 1 <= max -> wf max (configured cb od addr port chans).
Proof.
  intros. unfold configured, dap_client_set_uplink_unsafe. destruct (_ || _); repeat split; cbn; try done; auto.
Qed.

Lemma steps_wf s s' : 1 <= max -> rtc step s s' -> wf max s -> wf max s'.
Proof.
  intros Hm. induction 1 as [|s s1 s2 (e & ev & He & Hok & Hen & Hh) Hr IH]; [done|]. intros Hw. apply IH.
  destruct (handle_wf max timeout active Hm e (length (pkt_queue s)) s ev) as (s' & Hs' & Hw'); [done..|].
  unfold fuel_for in Hh. rewrite Hs' in Hh. by simplify_eq.
Qed.
End Spec.


(** ** A target that is never started *)

(** The first stage is complete, another one is the target, nothing is awaited. *)
Definition stalled (s : client) : Prop :=
  stage s = STAGE_BEGIN /\ stage_status s = STAGE_STATUS_COMPLETE /\ stage_target s ≠ STAGE_BEGIN /\
  idle s /\ stream_es s = None /\ stream s = None.

(** An event other than going back to the first stage. *)
Definition stall_step max timeout active (s s' : client) : Prop :=
  ∃ e ev n, (∀ cb, ev ≠ GoStage STAGE_BEGIN cb) /\ enabled s ev = true /\
            handle max timeout active e (2 + n) s ev = Some s'.

Lemma restarted_stalled s :
  (stream_es s = None -> stream s = None) -> stage_target s ≠ STAGE_BEGIN ->
  stalled (restarted s) /\
  trace (restarted s) = trace s ++ match stream_es s, stream s with Some _, Some _ => [StreamDelete] | _, _ => [] end.
Proof.
  open_client s. unfold restarted, s_client_internal_clean, stalled, idle.
  destruct es; cbn; intros H1 H2; rewrite ?H1, ?app_nil_r by done; split_and!; done.
Qed.

Lemma stall_step_stalled max timeout active s s' :
  stalled s -> stall_step max timeout active s s' -> stalled s' /\ trace s' = trace s.
Proof.
  intros Hall (e & ev & n & Hev & Hen & H).
  destruct (id Hall) as (Hs & Hst & Ht & [Hh Hr] & Hes & Hx).
  assert (Hl : es_live s = false) by (unfold es_live; by rewrite Hx).
  destruct ev as [t cb|p| |r|err| | |err|h| | |]; cbn [enabled] in Hen; rewrite ?Hl, ?Hh, ?Hr in Hen; try done.
  - unfold handle, s_go_stage_on_client_worker_unsafe in H. cbn [Nat.add] in H. rewrite begin_restarted in H.
    replace (stage _ =? stage_target _) with false in H by (symmetry; apply Z.eqb_neq; change (stage s ≠ stage_target s); congruence).
    rewrite andb_false_r in H. simplify_eq.
    destruct (restarted_stalled (s{{stage_target_done_callback := cb; stage_target := t}})) as [H1 H2]; [done|..].
    { intros Ht0. apply (Hev cb). by f_equal. }
    split; [done|]. rewrite H2. change (stream_es _) with (stream_es s). rewrite Hes. by rewrite app_nil_r.
  - unfold handle, dap_client_write, dap_client_write_unsafe, dap_client_get_stream_ch_unsafe in H.
    rewrite Hx in H. cbn [Nat.add] in H.
    destruct (active_channels s) as [l|]; [|cbn in H; by simplify_eq].
    destruct (negb _); [cbn in H; by simplify_eq|]. destruct (connect_on_demand s); [|cbn in H; by simplify_eq].
    change (stage_status (dap_client_pvt_queue_add s p)) with (stage_status s) in H. rewrite Hst in H.
    rewrite bool_decide_false, andb_false_r, begin_restarted in H by done. cbn [mbind option_bind] in H. simplify_eq.
    destruct (restarted_stalled ((dap_client_pvt_queue_add s p){{stage_target := 5}})) as [H1 H2]; [done..|].
    split; [done|]. rewrite H2. change (stream_es _) with (stream_es s). rewrite Hes. by rewrite app_nil_r.
  - cbn in H. by simplify_eq.
Qed.

(** C17: A target given to a client that is still on its way to another one, or has
    given up, is never started: the stages are reset to the first one, which is
    complete, and nothing continues from there.  Until the client is sent to the
    first stage, every further target and every packet leave it there, without
    a request to the uplink and without a call of a callback. *)
Theorem client_stalls max timeout active s e n t cb :
  wf max s -> stage_status s ≠ STAGE_STATUS_COMPLETE \/ stage s ≠ stage_target s -> t ≠ STAGE_BEGIN ->
  ∃ s', handle max timeout active e (2 + n) s (GoStage t cb) = Some s' /\ stalled s' /\
        ∀ s'', rtc (stall_step max timeout active) s' s'' -> stalled s'' /\ trace s'' = trace s'.
Proof.
  intros [Hb _] Hs Ht. set (s1 := s{{stage_target_done_callback := cb; stage_target := t}}).
  destruct (restarted_stalled s1) as [Hst _]; [apply Hb|done|].
  exists (restarted s1). split; [|split; [done|]].
  - unfold handle, s_go_stage_on_client_worker_unsafe. cbn [Nat.add]. rewrite begin_restarted.
    destruct (_ && _) eqn:Hc; [|done]. apply andb_true_iff in Hc as [Hc1%bool_decide_eq_true Hc2%Z.eqb_eq].
    change (stage_status s = STAGE_STATUS_COMPLETE) in Hc1. change (stage s = stage_target s) in Hc2. tauto.
  - intros s'' Hr. induction Hr as [|x y z Hxy Hyz IH]; [done|].
    destruct (stall_step_stalled _ _ _ x y Hst Hxy) as [Hy Hty]. destruct (IH Hy). split; [done|congruence].
Qed.

(** ** Giving up *)

(** The uplink refuses every request, at once: creating the request reports the
    error.  A refusal that arrives later takes the same path, [s_request_error]. *)
Definition refuses (e : env) (err : Z) : Prop :=
  key_open_ok e = true /\ dup_ok e = true /\ http_error e = Some err /\ timer_ok e = true.

Definition addressed (s : client) : Prop := uplink_addr s ≠ [] /\ uplink_port s ≠ 0.

(** Waits for the timer of its next attempt, after [k] failed ones. *)
Definition retrying (k : Z) (s : client) : Prop :=
  stage s = STAGE_ENC_INIT /\ stage_status s = STAGE_STATUS_IN_PROGRESS /\ reconnect_attempts s = k /\
  reconnect_timer s = true /\ stage_status_error_callback s = true /\ always_reconnect s = false /\
  stream_es s = None /\ http_client s = false /\ addressed s.

Definition gave_up (s : client) : Prop :=
  stage_status s = STAGE_STATUS_ERROR /\ idle s /\ es_live s = false.

(** The client when the request of an attempt is refused. *)
Definition refused (er : dap_client_error) (s : client) : client :=
  fail er (emit EncRequest
    (s{{session_key_open := true; request_callbacks := Some EncInit; is_encrypted := false; http_client := false}})).

Lemma attempt_refused max timeout active e err n s :
  refuses e err -> stage s = STAGE_ENC_INIT -> stage_status s = STAGE_STATUS_IN_PROGRESS -> addressed s ->
  ∃ er,
  s_stage_status_after max timeout active e (S (S n)) s =
    Some ((status_error max timeout e (refused er s)){{http_client := false}}).
Proof.
  intros (Hk & Hd & Hh & _) Hs Hst [Ha Hp]. eexists.
  rewrite after_in_progress by done. unfold status_in_progress, stage_enc_init. rewrite Hs. cbn [Z.eqb Pos.eqb].
  rewrite bool_decide_false by done. rewrite (proj2 (Z.eqb_neq _ _)) by done. cbn [orb].
  rewrite Hk, Hd. cbn [negb]. unfold http_request. rewrite Hh. unfold s_request_error.
  change (request_callbacks _) with (Some EncInit). unfold s_enc_init_error. cbn [s_stage_status_after].
  reflexivity.
Qed.

Lemma error_retries max timeout e s :
  reconnect_attempts s < max -> stream_es s = None -> timer_ok e = true ->
  stage_status_error_callback s = true -> always_reconnect s = false -> addressed s ->
  let s' := (status_error max timeout e s){{http_client := false}} in
  retrying (reconnect_attempts s + 1) s' /\
  trace s' = trace s ++ (if reconnect_attempts s =? 0 then [ErrorCallback false] else []) ++ [TimerStart 300].
Proof.
  unfold retrying, addressed. open_client s. cbn. intros Hm -> Hok -> -> Ha.
  unfold status_error. cbn [reconnect_attempts]. rewrite (proj2 (Z.leb_gt _ _)) by done.
  destruct (att =? 0); cbn; (rewrite bool_decide_true by done); cbn; cbv beta delta [constant].
  all: split; [split_and!; try done; first [lia|apply Ha]|by rewrite <-?app_assoc].
Qed.

Lemma error_stops max timeout e s :
  max <= reconnect_attempts s -> stage_status s = STAGE_STATUS_ERROR -> idle s -> es_live s = false ->
  stage_status_error_callback s = true -> always_reconnect s = false ->
  let s' := (status_error max timeout e s){{http_client := false}} in
  gave_up s' /\ reconnect_attempts s' = reconnect_attempts s + 1 /\ trace s' = trace s ++ [ErrorCallback true].
Proof.
  unfold gave_up, idle, es_live. open_client s. cbn. intros Hm -> [-> ->] Hl -> ->.
  unfold status_error. cbn [reconnect_attempts]. rewrite (proj2 (Z.leb_le _ _)) by done.
  cbn. (rewrite bool_decide_false by done); cbn. split_and!; try done. lia.
Qed.

(** The timer of the next attempt fires [k] times. *)
Fixpoint attempts max timeout active e fuel (k : nat) (s : client) : option client :=
  match k with
  | O => Some s
  | S k =>
    if enabled s ReconnectTimer then
      s ← handle max timeout active e fuel s ReconnectTimer; attempts max timeout active e fuel k s
    else None
  end.

Lemma retrying_refused max timeout active e err n s :
  refuses e err -> retrying (reconnect_attempts s) s -> reconnect_attempts s < max -> 0 < reconnect_attempts s ->
  ∃ s', handle max timeout active e (2 + n) s ReconnectTimer = Some s' /\
        retrying (reconnect_attempts s + 1) s' /\ trace s' = trace s ++ [EncRequest; TimerStart 300].
Proof.
  intros He (Hs & Hst & _ & Hr & Hc & Hal & Hes & Hh & Ha) Hm H0.
  set (s0 := s{{reconnect_timer := false}}).
  destruct (attempt_refused max timeout active e err n s0 He Hs Hst Ha) as [er Her].
  eexists. split; [cbn [handle Nat.add]; unfold s_timer_reconnect_callback; exact Her|].
  destruct (error_retries max timeout e (refused er s0)) as [H1 H2];
    [done|done|apply He|done..|].
  split; [exact H1|]. rewrite H2.
  change (reconnect_attempts (refused _ _)) with (reconnect_attempts s). rewrite (proj2 (Z.eqb_neq _ _)) by lia.
  clear. open_client s. cbn. by rewrite <-app_assoc.
Qed.

Lemma retrying_exhausted max timeout active e err n s :
  refuses e err -> retrying (reconnect_attempts s) s -> reconnect_attempts s = max ->
  ∃ s', handle max timeout active e (2 + n) s ReconnectTimer = Some s' /\
        gave_up s' /\ reconnect_attempts s' = max + 1 /\ trace s' = trace s ++ [EncRequest; ErrorCallback true].
Proof.
  intros He (Hs & Hst & _ & Hr & Hc & Hal & Hes & Hh & Ha) Hm.
  set (s0 := s{{reconnect_timer := false}}).
  destruct (attempt_refused max timeout active e err n s0 He Hs Hst Ha) as [er Her].
  eexists. split; [cbn [handle Nat.add]; unfold s_timer_reconnect_callback; exact Her|].
  destruct (error_stops max timeout e (refused er s0)) as (H1 & H2 & H3);
    [by rewrite <-Hm|done|done| |done..|].
  { clear -Hes. revert Hes. open_client s. cbn. intros ->. by destruct str as [[? []]|]. }
  split; [exact H1|]. split; [by rewrite H2, <-Hm|]. rewrite H3.
  clear. open_client s. cbn. by rewrite <-app_assoc.
Qed.

(** The attempts between the first and the last one. *)
Fixpoint retries (k : nat) : list effect :=
  match k with O => [] | S k => EncRequest :: TimerStart 300 :: retries k end.

Lemma attempts_refused max timeout active e err n (k : nat) s :
  refuses e err -> retrying (reconnect_attempts s) s -> 0 < reconnect_attempts s ->
  reconnect_attempts s + Z.of_nat k = max ->
  ∃ s', attempts max timeout active e (2 + n) (S k) s = Some s' /\
        gave_up s' /\ reconnect_attempts s' = max + 1 /\
        trace s' = trace s ++ retries k ++ [EncRequest; ErrorCallback true].
Proof.
  intros He. revert s. induction k as [|k IH]; intros s Hr H0 Hk; cbn [attempts enabled].
  - destruct (retrying_exhausted max timeout active e err n s He Hr) as (s' & -> & H); [lia|].
    exists s'. rewrite (proj1 (proj2 (proj2 (proj2 Hr)))). done.
  - destruct (retrying_refused max timeout active e err n s He Hr) as (s1 & Hs1 & Hr1 & Ht1); [lia..|].
    rewrite (proj1 (proj2 (proj2 (proj2 Hr)))), Hs1. cbn [mbind option_bind].
    assert (Ha : reconnect_attempts s1 = reconnect_attempts s + 1) by apply Hr1. rewrite <-Ha in Hr1.
    destruct (IH s1 Hr1) as (s' & Hs' & Hg & Hm & Ht); [lia..|].
    exists s'. do 3 (split; [done|]). rewrite Ht, Ht1. by rewrite <-!app_assoc.
Qed.

(** A client that may be given its first target. *)
Definition fresh (s : client) : Prop :=
  stage s = STAGE_BEGIN /\ stage_status s = STAGE_STATUS_COMPLETE /\ stage_target s = STAGE_BEGIN /\
  reconnect_attempts s = 0 /\ stream_es s = None /\ stream s = None /\ idle s /\ remote_protocol_version s = 0 /\
  addressed s.

(** The state in which the first stage after [BEGIN] starts. *)
Definition started (s : client) (t : Z) (cb : option Z) : client :=
  s{{stage_target_done_callback := cb; stage_target := t; stage_status_done_callback := true;
     stage := STAGE_ENC_INIT; stage_status := STAGE_STATUS_IN_PROGRESS}}.

Lemma go_stage_fresh max timeout active e n s t cb :
  fresh s -> STAGE_BEGIN < t ->
  handle max timeout active e n s (GoStage t cb) = s_stage_status_after max timeout active e n (started s t cb).
Proof.
  intros (Hs & Hst & Ht & _) H0. unfold handle, s_go_stage_on_client_worker_unsafe.
  change (stage_status (_ s)) with (stage_status s). change (stage (_ s)) with (stage s).
  change (stage_target (_ s)) with (stage_target s). rewrite Hs, Hst, Ht.
  rewrite bool_decide_true by done. rewrite (proj2 (Z.eqb_neq 0 t)), (proj2 (Z.ltb_lt 0 t)) by lia. done.
Qed.

(** C16: A client whose uplink refuses every request tries it once and then once per
    timer, as many times as configured; its user is told after the first and
    after the last failure only.  Then it stops, with no request, socket or
    timer left: no event of the reactor can start it again. *)
Theorem client_gives_up max timeout active e err n s t cb :
  1 <= max -> fresh s -> STAGE_BEGIN < t -> refuses e err ->
  stage_status_error_callback s = true -> always_reconnect s = false ->
  ∃ s', (s1 ← handle max timeout active e (2 + n) s (GoStage t cb);
         attempts max timeout active e (2 + n) (Z.to_nat max) s1) = Some s' /\
        gave_up s' /\ reconnect_attempts s' = max + 1 /\
        trace s' = trace s ++ [EncRequest; ErrorCallback false; TimerStart 300] ++
                   retries (Z.to_nat (max - 1)) ++ [EncRequest; ErrorCallback true].
Proof.
  intros Hm Hf Ht He Hc Hal. rewrite go_stage_fresh by done.
  destruct Hf as (_ & _ & _ & Ha & Hes & _ & _ & _ & Had).
  destruct (attempt_refused max timeout active e err n (started s t cb) He) as [er Her]; [done..|].
  cbn [Nat.add]. rewrite Her. cbn [mbind option_bind].
  destruct (error_retries max timeout e (refused er (started s t cb))) as [H1 H2]; [|done|apply He|done..|].
  { change (reconnect_attempts s < max). lia. }
  change (reconnect_attempts (refused er (started s t cb))) with (reconnect_attempts s) in *.
  set (s1 := (status_error max timeout e (refused er (started s t cb))){{http_client := false}}) in *.
  assert (Ha1 : reconnect_attempts s1 = 1) by (transitivity (reconnect_attempts s + 1); [apply H1|lia]).
  replace (Z.to_nat max) with (S (Z.to_nat (max - 1))) by lia.
  destruct (attempts_refused max timeout active e err n (Z.to_nat (max - 1)) s1 He) as (s' & Hs' & Hg & Hr & Htr).
  { rewrite Ha1. by rewrite Ha in H1. }
  { lia. }
  { lia. }
  exists s'. do 3 (split; [done|]). rewrite Htr, H2, Ha. clear. open_client s. cbn. by rewrite <-!app_assoc.
Qed.

(** ** Connecting *)

(** The system gives what it is asked for. *)
Definition env_good (s : client) (e : env) : Prop :=
  key_open_ok e = true /\ dup_ok e = true /\ http_error e = None /\ socket_ok e = true /\ fcntl_ok e = true /\
  resolve_ok e = true /\ stream_ok e = true /\ env_ok s e.

Definition enc_asked (s : client) : client :=
  (emit EncRequest (s{{session_key_open := true; request_callbacks := Some EncInit; is_encrypted := false}}))
    {{http_client := true}}.

Definition ctl_asked (s : client) : client :=
  (emit (CtlRequest (Z.min (remote_protocol_version s) (uplink_protocol_version s) <? 23))
     (s{{request_callbacks := Some StreamCtl; is_encrypted := true}})){{http_client := true}}.

Definition stream_opened (active : Z) (s : client) : client :=
  emits [StreamNew (authorized s); TimerStart (active * 1000)] (s{{stream_es := Some Connecting; stream := Some ([], true)}}).

Section Stages.
Variables max timeout active : Z.
Variable e : env.
Abbreviation after := (s_stage_status_after max timeout active e).

Lemma enc_asked_ok s n :
  env_good s e -> addressed s -> stage s = STAGE_ENC_INIT -> stage_status s = STAGE_STATUS_IN_PROGRESS ->
  after (S n) s = Some (enc_asked s).
Proof.
  intros (Hk & Hd & Hh & _) [Ha Hp] Hs Hst. rewrite after_in_progress by done.
  unfold status_in_progress, stage_enc_init. rewrite Hs. cbn [Z.eqb Pos.eqb].
  rewrite bool_decide_false by done. rewrite (proj2 (Z.eqb_neq _ _)) by done. cbn [orb].
  unfold http_request. rewrite Hk, Hd, Hh. done.
Qed.

Lemma ctl_asked_ok s n :
  env_good s e -> session_key s = true -> stage s = STAGE_STREAM_CTL -> stage_status s = STAGE_STATUS_IN_PROGRESS ->
  after (S n) s = Some (ctl_asked s).
Proof.
  intros (Hk & Hd & Hh & _) Hsk Hs Hst. rewrite after_in_progress by done.
  unfold status_in_progress, stage_stream_ctl. rewrite Hs, Hsk. cbn [Z.eqb Pos.eqb negb].
  unfold http_request. rewrite Hh. done.
Qed.

Lemma stream_opened_ok s n :
  env_good s e -> stage s = STAGE_STREAM_SESSION -> stage_status s = STAGE_STATUS_IN_PROGRESS ->
  after (S n) s = Some (stream_opened active s).
Proof.
  intros (_ & _ & _ & H1 & H2 & H3 & H4 & H5 & _) Hs Hst. rewrite after_in_progress by done.
  unfold status_in_progress, stage_stream_session. rewrite Hs, H1, H2, H3, H4, H5. cbn [Z.eqb Pos.eqb negb].
  unfold stream_opened. do 2 f_equal. open_client s. cbv [emit emits apply_update set_trace]; cbn. by rewrite <-app_assoc.
Qed.

(** The answers of an uplink that accepts. *)
Definition enc_good (r : enc_reply) (sign : bool) (v : Z) : Prop :=
  10 < er_size r /\ er_bob_message_size r ≠ 0 /\ er_alice_ok r = true /\ er_session_key_ok r = true /\
  ∃ l c, er_json r = Some l /\ 2 <= c <= 4 /\
         parse_members l (0, false, false, false) 0 = (c, true, true, sign, v).

Definition version_of (v : Z) : Z := if v =? 0 then DAP_PROTOCOL_VERSION_DEFAULT else v.

(** What is taken from an accepted exchange of keys. *)
Definition taken (auth : bool) (v : Z) (s : client) : client :=
  s{{remote_protocol_version := version_of v; session_key_id := true; session_key := true; authorized := auth}}.

Lemma enc_take_good s r sign v :
  enc_good r sign v -> session_key_open s = true -> remote_protocol_version s = 0 -> stage s = STAGE_ENC_INIT ->
  enc_init_take s r = (ERROR_NO_ERROR, taken (sign && er_sign_ok r && er_sign_addr_ok r) v s).
Proof.
  intros (Hsz & Hb & Hal & Hk & l & c & Hj & Hc & Hp) Ho Hv Hs. unfold enc_init_take. rewrite Ho, Hj. cbn [negb].
  rewrite (proj2 (Z.leb_gt _ _)) by lia. change (default [] (Some l)) with l. rewrite Hv, Hp.
  rewrite (proj2 (Z.ltb_ge c 2)), (proj2 (Z.ltb_ge 4 c)) by lia. cbn [orb negb].
  rewrite (proj2 (Z.eqb_neq _ _)) by done. rewrite Hal, Hk. cbn [negb].
  replace (stage _ =? 1) with true by (symmetry; by apply Z.eqb_eq). done.
Qed.

(** The stage of the exchange is passed. *)
Definition keyed (auth : bool) (v : Z) (s : client) : client :=
  next ((taken auth v (s{{http_client := false; last_error := ERROR_NO_ERROR}}))
          {{last_error := ERROR_NO_ERROR; stage_status := STAGE_STATUS_DONE; session_key_open := false}}).

Lemma enc_reply_ok s r sign v n :
  env_good s e -> enc_good r sign v -> request_callbacks s = Some EncInit -> is_encrypted s = false ->
  session_key_open s = true -> remote_protocol_version s = 0 -> stage s = STAGE_ENC_INIT ->
  stage_target s = STAGE_STREAM_STREAMING -> stage_status_done_callback s = true ->
  handle max timeout active e (S (S n)) s (Reply (Some (inl r))) =
    Some (ctl_asked (keyed (sign && er_sign_ok r && er_sign_addr_ok r) v s)).
Proof.
  intros He Hr Hq Hi Ho Hv Hs Ht Hd. unfold handle, s_request_response. rewrite Hq.
  replace (is_encrypted _) with false by done. cbn [andb]. unfold s_enc_init_response.
  rewrite (enc_take_good _ r sign v) by done. cbn [Nat.add]. rewrite after_done by done.
  rewrite done_next; [..|done].
  - apply ctl_asked_ok; [done|done| |done]. change (stage s + 1 = 2). by rewrite Hs.
  - change (stage s < stage_target s). lia.
Qed.

Definition admitted (i v : Z) (h : bool) (s : client) : client :=
  next (s{{http_client := false; uplink_protocol_version := v; stream_id := i; stream_key := true;
           is_encrypted_headers := h; stage_status := STAGE_STATUS_DONE}}).

Lemma ctl_reply_ok s c i v h n :
  env_good s e -> 2 <= c -> i ≠ 0 -> request_callbacks s = Some StreamCtl -> session_key s = true ->
  stage s = STAGE_STREAM_CTL -> stage_target s = STAGE_STREAM_STREAMING -> stage_status_done_callback s = true ->
  handle max timeout active e (S (S n)) s (Reply (Some (inr (CtlFields c i v h)))) =
    Some (stream_opened active (admitted i (if 2 <? c then v else DAP_PROTOCOL_VERSION_DEFAULT) h s)).
Proof.
  intros He Hc Hi Hq Hk Hs Ht Hd. unfold handle, s_request_response. rewrite Hq.
  replace (session_key _) with true by done. rewrite andb_false_r. unfold s_stream_ctl_response.
  rewrite (proj2 (Z.ltb_ge _ _)) by done. rewrite (proj2 (Z.eqb_neq _ _)) by done. cbn [negb].
  replace (stage _ =? 2) with true by (symmetry; by apply Z.eqb_eq).
  cbn [Nat.add]. rewrite after_done by done. rewrite done_next; [..|done].
  - apply stream_opened_ok; [done| |done]. change (stage s + 1 = 3). by rewrite Hs.
  - change (stage s < stage_target s). lia.
Qed.
End Stages.

(** The events one after the other, each when it can come. *)
Fixpoint run max timeout active e fuel (evs : list event) (s : client) : option client :=
  match evs with
  | [] => Some s
  | ev :: evs =>
    if enabled s ev then s ← handle max timeout active e fuel s ev; run max timeout active e fuel evs s else None
  end.

(** The client when its stream connects. *)
Definition reached (active : Z) (auth : bool) (v i u : Z) (h : bool) (s : client) (cb : option Z) : client :=
  stream_opened active (admitted i u h (ctl_asked (keyed auth v (enc_asked (started s STAGE_STREAM_STREAMING cb))))).

Lemma reached_entering max active auth v i u h s cb :
  1 <= max -> fresh s -> base s ->
  entering max (next ((reached active auth v i u h s cb){{stream_es := Some Open; stage_status := STAGE_STATUS_DONE}})).
Proof.
  open_client s. unfold fresh, base, entering, idle, es_live, channels_open, channels. cbn.
  intros; conj. solve_fields.
Qed.

Lemma connected_streams max timeout active e n s :
  1 <= max -> env_ok s e -> entering max (next (s{{stream_es := Some Open; stage_status := STAGE_STATUS_DONE}})) ->
  stage s = STAGE_STREAM_SESSION -> stage_target s = STAGE_STREAM_STREAMING -> stage_status_done_callback s = true ->
  (length (pkt_queue s) <= n)%nat ->
  ∃ s', handle max timeout active e (5 + n) s Connected = Some s' /\
        streams max s (connected_effects s ++ target_effects s ++ queue_effects s ++ [TimerStart (active * 1024)]) s'.
Proof.
  intros Hm He Hen Hs Ht Hd Hn. cbn [handle Nat.add]. unfold s_stream_connected. rewrite after_done by done.
  rewrite done_next; [..|done]; [|change (stage s < stage_target s); lia].
  match goal with |- context [s_stage_status_after _ _ _ _ _ ?x] => set (s1 := x) end.
  destruct (enter_connected max timeout active Hm e n s1) as (s' & -> & Hw & Hst & Hsg & Htg & Hq & Ha & Htr); [done| |done|done|].
  { change (stage s + 1 = 4). lia. }
  cbn [mbind option_bind]. rewrite (proj1 He). cbn [negb].
  destruct (stream_es s') eqn:Hes; [|exfalso].
  - eexists; split; [done|]. split; [by apply wf_emits|]. do 5 (split; [done|]).
    change (trace s' ++ [TimerStart (active * 1024)] = trace s ++ (connected_effects s ++ target_effects s ++ queue_effects s ++ [TimerStart (active * 1024)])).
    rewrite Htr. change (trace s1) with (trace s). change (connected_effects s1) with (connected_effects s).
    by rewrite <-!app_assoc.
  - destruct Hw as [_ Hw]. rewrite Hst in Hw. destruct Hw as (_ & [(? & _)|(_ & _ & _ & _ & _ & _ & _ & Ho & _)]); [congruence|].
    rewrite Ho in Hes by lia. done.
Qed.

(** C15: An uplink that answers is connected.  A client given the target of streaming
    asks for the exchange of keys, then for a stream, opens the stream with the
    authorization the exchange gave, opens a channel for each active one, asks
    for the data of the stream it was given, and only then tells its user, once,
    and sends what was queued meanwhile, in the order it was queued. *)
Theorem client_connects max timeout active e n s cb r sign v c i w h :
  let auth := sign && er_sign_ok r && er_sign_addr_ok r in
  1 <= max -> fresh s -> base s -> env_good s e -> enc_good r sign v -> 2 <= c -> i ≠ 0 ->
  (length (pkt_queue s) <= n)%nat ->
  ∃ s', run max timeout active e (5 + n)
          [GoStage STAGE_STREAM_STREAMING cb; Reply (Some (inl r)); Reply (Some (inr (CtlFields c i w h))); Connected] s
        = Some s' /\
        wf max s' /\ stage s' = STAGE_STREAM_STREAMING /\ stage_status s' = STAGE_STATUS_COMPLETE /\ pkt_queue s' = [] /\
        trace s' = trace s ++
          [EncRequest; CtlRequest (Z.min (version_of v) (uplink_protocol_version s) <? 23);
           StreamNew auth; TimerStart (active * 1000)] ++
          (ChannelNew <$> channels s) ++ [GetRequest i; AddToList] ++
          match cb with Some cb => [TargetDone cb] | None => [] end ++
          (PktWrite <$> pkt_queue s) ++ [TimerStart (active * 1024)].
Proof.
  intros auth Hm Hf Hb He Hr Hc Hi Hn. destruct (id Hf) as (Hs & Hst & Ht & Ha & Hes & Hx & [Hh Hti] & Hrv & Had).
  set (u := if 2 <? c then w else DAP_PROTOCOL_VERSION_DEFAULT).
  set (s3 := reached active auth v i u h s cb).
  destruct (connected_streams max timeout active e n s3) as (s' & Hs' & Hw & H1 & H2 & H3 & H4 & H5 & H6); try done.
  - apply He.
  - by apply reached_entering.
  - exists s'. split; [|split; [done|]; do 3 (split; [done|]) ].
    + cbn [run]. replace (enabled s _) with true by done.
      rewrite go_stage_fresh by done. cbn [Nat.add]. rewrite enc_asked_ok by done. cbn [mbind option_bind].
      set (s1 := enc_asked _). replace (enabled s1 _) with true by done.
      rewrite (enc_reply_ok max timeout active e s1 r sign v (S (S (S n)))) by done. cbn [mbind option_bind].
      set (s2 := ctl_asked _). replace (enabled s2 _) with true by done.
      rewrite (ctl_reply_ok max timeout active e s2 c i w h (S (S (S n)))) by done. cbn [mbind option_bind].
      replace (enabled _ Connected) with true by done. cbn [Nat.add] in Hs'. unfold s3, reached in Hs'.
      unfold s2, s1. fold auth. fold u. by rewrite Hs'.
    + rewrite H6. clear. unfold s3, auth. open_client s. cbn. by rewrite <-!app_assoc.
Qed.

(** ** Examples *)

Definition env0 : env := Env true true None true true true true true true (λ _, true) (λ _, 1) 0.
Definition env1 : env := Env true true (Some 111) true true true true true true (λ _, true) (λ _, 1) 0.
Definition client0 : client := configured true true [49] 8079 [67; 68].


Lemma client_stalls_witness :
  ∃ s', handle 3 15 15 env0 2 (enc_asked (started client0 5 (Some 1))) (GoStage 1 None) = Some s' /\ stalled s' /\
        ∀ s'', rtc (stall_step 3 15 15) s' s'' -> stalled s'' /\ trace s'' = trace s'.
Proof.
  apply (client_stalls 3 15 15 (enc_asked (started client0 5 (Some 1))) env0 0 1 None).
  - repeat split; simpl; try lia; try discriminate; try reflexivity; try constructor.
    + intros H; by contradiction H.
    + unfold constant. lia.
  - left. discriminate.
  - discriminate.
Defined.

Lemma client_gives_up_witness :
  ∃ s', (s1 ← handle 3 15 15 env1 2 client0 (GoStage 5 (Some 1)); attempts 3 15 15 env1 2 (Z.to_nat 3) s1) = Some s' /\
        gave_up s' /\ reconnect_attempts s' = 3 + 1 /\
        trace s' = trace client0 ++ [EncRequest; ErrorCallback false; TimerStart 300] ++
                   retries (Z.to_nat (3 - 1)) ++ [EncRequest; ErrorCallback true].
Proof.
  apply (client_gives_up 3 15 15 env1 111 0 client0 5 (Some 1)).
  - lia.
  - repeat split; discriminate.
  - lia.
  - repeat split.
  - reflexivity.
  - reflexivity.
Defined.

Definition reply0 : enc_reply :=
  EncReply 40 (Some [(Encrypt_id, JString [1]); (Encrypt_msg, JString [2]); (Node_sign, JString [3]);
                     (Dap_protocol_version, JInt 26)]) 16 true true true true.

Lemma client_connects_witness :
  ∃ s', run 3 15 15 env0 6 [GoStage 5 (Some 1); Reply (Some (inl reply0)); Reply (Some (inr (CtlFields 4 77 26 true))); Connected]
          (dap_client_pvt_queue_add client0 (Pkt 67 1 [5])) = Some s' /\
        wf 3 s' /\ stage s' = STAGE_STREAM_STREAMING /\ stage_status s' = STAGE_STATUS_COMPLETE /\ pkt_queue s' = [] /\
        trace s' = [] ++ [EncRequest; CtlRequest false; StreamNew true; TimerStart 15000] ++
          [ChannelNew 67; ChannelNew 68] ++ [GetRequest 77; AddToList] ++ [TargetDone 1] ++
          [PktWrite (Pkt 67 1 [5])] ++ [TimerStart 15360].
Proof.
  apply (client_connects 3 15 15 env0 1 (dap_client_pvt_queue_add client0 (Pkt 67 1 [5])) (Some 1) reply0 true 26 4 77 26 true).
  - lia.
  - repeat split; discriminate.
  - split; [simpl; lia|]. split; [discriminate|]. split; [reflexivity|]. split; [simpl; lia|].
    constructor; [|constructor]. simpl. left.
  - repeat split. repeat constructor.
  - repeat split; try discriminate. exists [(Encrypt_id, JString [1]); (Encrypt_msg, JString [2]); (Node_sign, JString [3]);
                     (Dap_protocol_version, JInt 26)], 4. repeat split; lia.
  - lia.
  - discriminate.
  - simpl; lia.
Defined.

(** What the events outside [event_ok] do.  A client that was to stop when its stream
    is connected fails the assertion of [s_stage_fsm_operator_unsafe] when the header
    of the answer arrives.  One whose session key could not be built uses it for the
    next request.  A packet written on demand to channel 0, which no stream has, is
    appended to the queue by the loop that empties it, for ever. *)
Lemma client_failures :
  (∀ n, ∃ s, run 3 15 15 env0 (5 + n)
     [GoStage STAGE_STREAM_CONNECTED None; Reply (Some (inl reply0)); Reply (Some (inr (CtlFields 4 77 26 true))); Connected]
       client0 = Some s /\
     enabled s (Read true) = true /\ handle 3 15 15 env0 (5 + n) s (Read true) = None) /\
  (let r := Reply (Some (inl (EncReply 100 (er_json reply0) 1 true false true true))) in
   ∀ n, ∃ s, run 3 15 15 env0 (5 + n) [GoStage STAGE_STREAM_STREAMING None] client0 = Some s /\
     enabled s r = true /\ handle 3 15 15 env0 (5 + n) s r = None) /\
  (∀ max timeout active e n fuel s l i p,
     active_channels s = Some l -> connect_on_demand s = true -> stage_target s = STAGE_STREAM_STREAMING ->
     stage_status s = STAGE_STATUS_IN_PROGRESS -> stream s = None -> pkt_queue s !! i = Some p -> ch_id p = 0 ->
     length (pkt_queue s) = S i -> flush e (s_stage_status_after max timeout active e n) fuel s i = None).
Proof.
  split; [intros n; eexists; split; [vm_compute; reflexivity | by split]|].
  split; [intros r n; eexists; split; [vm_compute; reflexivity | by split]|].
  intros max timeout active e n. generalize (s_stage_status_after max timeout active e n) as after. intros after fuel.
  induction fuel as [|fuel IH]; intros s l i p Hl Ho Ht Hs Hx Hq Hp Hn; cbn [flush]; rewrite Hq; [done|].
  unfold dap_client_write_unsafe, dap_client_get_stream_ch_unsafe.
  rewrite Hl, Hp, Hx, Ho. cbn [Z.eqb]. rewrite orb_true_r. cbn [negb].
  change (stage_target (dap_client_pvt_queue_add s p)) with (stage_target s).
  change (stage_status (dap_client_pvt_queue_add s p)) with (stage_status s). rewrite Ht, Hs. cbn [Z.eqb andb].
  rewrite bool_decide_eq_true_2 by done. cbn [mbind option_bind andb].
  apply (IH _ l (S i) p); try done;
    change (pkt_queue (dap_client_pvt_queue_add s p)) with (pkt_queue s ++ [p]).
  - by rewrite lookup_app_r, Hn, Nat.sub_diag by (by rewrite Hn).
  - rewrite length_app, Hn. cbn. lia.
Qed.
