(* ===== verification/Links.v ===== *)
(** * The link manager (net/link_manager/dap_link_manager.c)

    The manager keeps one link per peer: its client if the node connects to it,
    the clusters of links the peer is a member of while a stream with it exists,
    the managed nets that want it and the static clusters that require it.  The
    model runs one operation at a time.  Most callbacks do: they run on one thread
    and hold the lock of the links, which every operation releases on every path.
    [s_client_connected_callback], [s_links_request] and the parts of
    [dap_link_manager_remove_net] and [dap_link_manager_set_net_condition] that
    change nets take no lock, so what they do at the same time as another
    operation is outside the model.

    [mgr] is [dap_link_manager_t] with what it points to.  Clusters
    (dap_stream_cluster.c) are their status and members; adding and deleting a
    member calls the manager, as the clusters of links are set up to do by
    dap_global_db_cluster.c.  Nets are named by their address in [net_heap].
    Commands to clients, calls of the user's callbacks and closed sockets are
    appended to [out].  [None] is a null or freed pointer that is followed, a
    failed assertion, or a lock that is never released. *)

From coqutil Require Import Datatypes.RecordSetters.
Import DoubleBraceUpdate.
From stdpp Require Import gmap.
From S2P Require Import Prelude.
Local Open Scope Z_scope.

Inductive dap_link_state := LINK_STATE_DISCONNECTED | LINK_STATE_CONNECTING | LINK_STATE_ESTABLISHED.

#[export] Instance link_state_eq_dec : EqDecision dap_link_state.
Proof. solve_decision. Defined.

Abbreviation STAGE_BEGIN := 0.
Abbreviation STAGE_STREAM_STREAMING := 5.
Abbreviation DAP_NET_ID_INVALID := 18446744073709551615.

Record dap_link := Link {
  is_uplink : bool;
  active_clusters : list Z;
  link_state : dap_link_state;
  attempts_count : Z;
  client : bool;
  uplink_port : Z;
  associated_nets : list Z;
  start_after : Z;
  es_uuid : Z;
  ready : bool;
  static_clusters : list Z;
  stream_is_destroyed : bool;
}.

Record dap_managed_net := Net {
  net_active : bool;
  net_id : Z;
  uplinks : Z;
  min_links_num : Z;
  link_clusters : list Z;
}.

Record dap_cluster := Cluster { enabled : bool; members : list Z }.

Inductive effect :=
  | GoStage (addr stage : Z)
  | ClientNew (addr : Z)
  | ClientDelete (addr : Z)
  | SocketDelete (uuid : Z)
  | CallConnected (addr net : Z)
  | CallDisconnected (addr net count : Z)
  | CallError (addr net : Z)
  | CallCountChanged
  | CallFillNetInfo (addr : Z)
  | CallLinkRequest (net : Z)
  | HotListAdd (addr net : Z).

Record mgr := Mgr {
  active : bool;
  nets : list Z;
  net_heap : gmap Z dap_managed_net;
  nets_lock : bool;
  links : gmap Z dap_link;
  link_order : list Z;
  clusters : gmap Z dap_cluster;
  l_wakeup_mode : bool;
  out : list effect;
}.

#[export] Instance set_is_uplink : Setter is_uplink | 0 := ltac:(setter dap_link bool is_uplink).
#[export] Instance set_active_clusters : Setter active_clusters | 0 := ltac:(setter dap_link (list Z) active_clusters).
#[export] Instance set_link_state : Setter link_state | 0 := ltac:(setter dap_link dap_link_state link_state).
#[export] Instance set_attempts_count : Setter attempts_count | 0 := ltac:(setter dap_link Z attempts_count).
#[export] Instance set_client : Setter client | 0 := ltac:(setter dap_link bool client).
#[export] Instance set_uplink_port : Setter uplink_port | 0 := ltac:(setter dap_link Z uplink_port).
#[export] Instance set_associated_nets : Setter associated_nets | 0 := ltac:(setter dap_link (list Z) associated_nets).
#[export] Instance set_start_after : Setter start_after | 0 := ltac:(setter dap_link Z start_after).
#[export] Instance set_es_uuid : Setter es_uuid | 0 := ltac:(setter dap_link Z es_uuid).
#[export] Instance set_ready : Setter ready | 0 := ltac:(setter dap_link bool ready).
#[export] Instance set_static_clusters : Setter static_clusters | 0 := ltac:(setter dap_link (list Z) static_clusters).
#[export] Instance set_stream_is_destroyed : Setter stream_is_destroyed | 0 := ltac:(setter dap_link bool stream_is_destroyed).
#[export] Instance set_net_active : Setter net_active | 0 := ltac:(setter dap_managed_net bool net_active).
#[export] Instance set_uplinks : Setter uplinks | 0 := ltac:(setter dap_managed_net Z uplinks).
#[export] Instance set_link_clusters : Setter link_clusters | 0 := ltac:(setter dap_managed_net (list Z) link_clusters).
#[export] Instance set_enabled : Setter enabled | 0 := ltac:(setter dap_cluster bool enabled).
#[export] Instance set_members : Setter members | 0 := ltac:(setter dap_cluster (list Z) members).
#[export] Instance set_active : Setter active | 0 := ltac:(setter mgr bool active).
#[export] Instance set_nets : Setter nets | 0 := ltac:(setter mgr (list Z) nets).
#[export] Instance set_net_heap : Setter net_heap | 0 := ltac:(setter mgr (gmap Z dap_managed_net) net_heap).
#[export] Instance set_nets_lock : Setter nets_lock | 0 := ltac:(setter mgr bool nets_lock).
#[export] Instance set_links : Setter links | 0 := ltac:(setter mgr (gmap Z dap_link) links).
#[export] Instance set_link_order : Setter link_order | 0 := ltac:(setter mgr (list Z) link_order).
#[export] Instance set_clusters : Setter clusters | 0 := ltac:(setter mgr (gmap Z dap_cluster) clusters).
#[export] Instance set_wakeup_mode : Setter l_wakeup_mode | 0 := ltac:(setter mgr bool l_wakeup_mode).
#[export] Instance set_out : Setter out | 0 := ltac:(setter mgr (list effect) out).

Definition emits (x : list effect) (m : mgr) : mgr := m{{out ::= λ t, t ++ x}}.
Definition upd (a : Z) (f : dap_link -> dap_link) (m : mgr) : mgr := m{{links ::= alter f a}}.

(** The user's callbacks; [None] and [false] are absent ones.  [cb_fill_net_info] is
    whether its result is not 0: the address of the peer is not being looked up. *)
Record callbacks := Callbacks {
  cb_connected : bool;
  cb_disconnected : option (Z -> Z -> Z -> bool);
  cb_error : bool;
  cb_fill_net_info : Z -> bool;
  cb_link_request : bool;
  cb_link_count_changed : bool;
}.

(** The manager at its start; the callback that is required is there. *)
Definition dap_link_manager_new : mgr := Mgr false [] ∅ false ∅ [] ∅ false [].
Definition dap_link_manager_set_condition (m : mgr) (a_new_condition : bool) : mgr := m{{active := a_new_condition}}.

(** [dap_list_remove]: the first occurrence. *)
Fixpoint dap_list_remove (l : list Z) (x : Z) : list Z :=
  match l with [] => [] | y :: l => if y =? x then l else y :: dap_list_remove l x end.

(** ** Clusters *)

Definition s_link_manager_link_find (m : mgr) (a : Z) : option dap_link := if a =? 0 then None else links m !! a.

Definition dap_link_manager_add_links_cluster (m : mgr) (c a : Z) : mgr :=
  match s_link_manager_link_find m a with
  | None => m
  | Some _ => upd a (λ l, l{{active_clusters ::= λ x, x ++ [c] }}) m
  end.

Definition dap_link_manager_remove_links_cluster (m : mgr) (c a : Z) : mgr :=
  match s_link_manager_link_find m a with
  | None => m
  | Some _ => upd a (λ l, l{{active_clusters ::= λ x, dap_list_remove x c}}) m
  end.

Definition dap_cluster_member_add (m : mgr) (c a : Z) : option mgr :=
  C ← clusters m !! c;
  if bool_decide (a ∈ members C) then Some m
  else Some (dap_link_manager_add_links_cluster (m{{clusters ::= insert c (C{{members ::= λ x, x ++ [a] }})}}) c a).

Definition dap_cluster_member_delete (m : mgr) (c a : Z) : option mgr :=
  C ← clusters m !! c;
  if bool_decide (a ∈ members C)
  then Some ((dap_link_manager_remove_links_cluster m c a){{clusters ::= insert c (C{{members ::= λ x, dap_list_remove x a}})}})
  else Some m.

Fixpoint delete_from (m : mgr) (cs : list Z) (a : Z) : option mgr :=
  match cs with [] => Some m | c :: cs => m ← dap_cluster_member_delete m c a; delete_from m cs a end.
Definition dap_cluster_link_delete_from_all (m : mgr) (cs : list Z) (a : Z) : option mgr := delete_from m cs a.

Fixpoint delete_members (m : mgr) (c : Z) (l : list Z) : option mgr :=
  match l with [] => Some m | a :: l => m ← dap_cluster_member_delete m c a; delete_members m c l end.
Definition dap_cluster_delete_all_members (m : mgr) (c : Z) : option mgr :=
  C ← clusters m !! c; delete_members m c (members C).

Definition dap_cluster_members_count (m : mgr) (c : Z) : option Z :=
  C ← clusters m !! c; Some (Z.of_nat (length (members C))).

Section Manager.
(** The configuration, the clock, what the clients and the streams show, and the
    address of this node. *)
Variables max_attempts_num reconnect_delay : Z.
Variable cb : callbacks.
Variable now : Z.
Variable client_stage : Z -> Z.
Variable sockets : Z -> list Z.
Variable g_node_addr : Z.

Definition count_changed (m : mgr) : mgr :=
  if cb_link_count_changed cb then emits [CallCountChanged] m else m.

(** ** Nets *)

Fixpoint find_net (h : gmap Z dap_managed_net) (l : list Z) (a_net_id : Z) : option (option Z) :=
  match l with
  | [] => Some None
  | p :: l => n ← h !! p; if net_id n =? a_net_id then Some (Some p) else find_net h l a_net_id
  end.

(** The outer option is a freed net. *)
Definition s_find_net_by_id (m : mgr) (a_net_id : Z) : option (option Z) :=
  if a_net_id =? 0 then Some None else find_net (net_heap m) (nets m) a_net_id.

Definition dap_link_manager_links_count (m : mgr) (a_net_id : Z) : option Z :=
  p ← s_find_net_by_id m a_net_id;
  match p with
  | None => Some 0
  | Some p => n ← net_heap m !! p; c ← head (link_clusters n); dap_cluster_members_count m c
  end.

Definition dap_link_manager_required_links_count (m : mgr) (a_net_id : Z) : option Z :=
  p ← s_find_net_by_id m a_net_id;
  match p with None => Some 0 | Some p => n ← net_heap m !! p; Some (min_links_num n) end.

Definition dap_link_manager_needed_links_count (m : mgr) (a_net_id : Z) : option Z :=
  p ← s_find_net_by_id m a_net_id;
  match p with
  | None => Some 0
  | Some p => n ← net_heap m !! p; Some (if uplinks n <? min_links_num n then min_links_num n - uplinks n else 0)
  end.

Definition dap_link_manager_get_net_condition (m : mgr) (a_net_id : Z) : option bool :=
  p ← s_find_net_by_id m a_net_id;
  match p with None => Some false | Some p => n ← net_heap m !! p; Some (net_active n) end.

(** [p] is the address the allocator gives.  A net that is present returns with
    the lock held. *)
Definition dap_link_manager_add_net (m : mgr) (p a_net_id a_link_cluster a_min_links_number : Z) : option (Z * mgr) :=
  if (a_net_id =? 0) || (a_link_cluster =? 0) then Some (-2, m) else
  if nets_lock m then None else
  found ← find_net (net_heap m) (nets m) a_net_id;
  match found with
  | Some _ => Some (-3, m{{nets_lock := true}})
  | None =>
    Some (0, m{{net_heap ::= insert p (Net false a_net_id 0 a_min_links_number [a_link_cluster]); nets ::= λ l, l ++ [p] }})
  end.

Definition dap_link_manager_add_net_associate (m : mgr) (a_net_id a_link_cluster : Z) : option (Z * mgr) :=
  if a_net_id =? 0 then Some (-2, m) else
  p ← s_find_net_by_id m a_net_id;
  match p with
  | None => Some (-3, m)
  | Some p =>
    n ← net_heap m !! p;
    if bool_decide (a_link_cluster ∈ link_clusters n) then Some (-4, m)
    else Some (0, m{{net_heap ::= alter (λ n, n{{link_clusters ::= λ l, l ++ [a_link_cluster] }}) p}})
  end.

(** ** Links *)

Fixpoint call_nets (m : mgr) (f : Z -> effect) (l : list Z) : option mgr :=
  match l with [] => Some m | p :: l => n ← net_heap m !! p; call_nets (emits [f (net_id n)] m) f l end.

Definition s_link_delete (m : mgr) (a : Z) (a_force a_client_preserve : bool) : option mgr :=
  l ← links m !! a;
  m ← (if bool_decide (active_clusters l = []) then Some m else
       m ← dap_cluster_link_delete_from_all m (active_clusters l) a;
       if is_uplink l && cb_link_count_changed cb then call_nets m (λ _, CallCountChanged) (associated_nets l) else Some m);
  l ← links m !! a;
  if negb (bool_decide (active_clusters l = [])) then None else
  let l_link_preserve := (a_client_preserve || negb (bool_decide (static_clusters l = []))) && negb a_force in
  let m :=
    if stream_is_destroyed l && l_link_preserve then m else
    let l_client_uuid := if client l then es_uuid l else 0 in
    let m :=
      if client l then
        let m := upd a (λ l, l{{associated_nets := [] }}) m in
        if l_link_preserve then
          if bool_decide (link_state l = LINK_STATE_DISCONNECTED) then m
          else upd a (λ l, l{{link_state := LINK_STATE_DISCONNECTED}}) (emits [GoStage a STAGE_BEGIN] m)
        else emits [ClientDelete a] m
      else m in
    emits (SocketDelete <$> filter (λ u, u ≠ l_client_uuid) (sockets a)) m in
  if l_link_preserve then Some m
  else Some (m{{links ::= delete a; link_order ::= λ o, dap_list_remove o a}}).

(** The nets that keep wanting a link that was lost. *)
Fixpoint drop_nets (m : mgr) (a : Z) (permanent : Z -> Z -> Z -> bool) (l kept : list Z) : option (mgr * list Z) :=
  match l with
  | [] => Some (m, kept)
  | p :: l =>
    n ← net_heap m !! p;
    if negb (net_active n) then drop_nets m a permanent l kept else
    c ← head (link_clusters n); k ← dap_cluster_members_count m c;
    let m := emits [CallDisconnected a (net_id n) k] m in
    drop_nets m a permanent l (if permanent a (net_id n) k then kept ++ [p] else kept)
  end.

Definition s_link_drop (m : mgr) (a : Z) (a_disconnected : bool) : option mgr :=
  l ← links m !! a;
  if a_disconnected then
    let n := wrap 32 (attempts_count l + 1) in
    let m := upd a (λ l, l{{link_state := LINK_STATE_DISCONNECTED; start_after := now + reconnect_delay; attempts_count := n}}) m in
    let go m := if client l then emits [GoStage a STAGE_BEGIN] m else m in
    if n <? max_attempts_num then Some (go m) else
    '(m, kept) ← match cb_disconnected cb with
                 | None => Some (m, associated_nets l)
                 | Some permanent => drop_nets m a permanent (associated_nets l) []
                 end;
    let m := upd a (λ l, l{{associated_nets := kept}}) m in
    if bool_decide (active_clusters l = []) && bool_decide (kept = []) && bool_decide (static_clusters l = [])
    then s_link_delete m a false false
    else Some (upd a (λ l, l{{attempts_count := 0}}) (go m))
  else if cb_error cb then
    m ← (if negb (bool_decide (associated_nets l = [])) && negb (client l) then None
         else call_nets m (CallError a) (associated_nets l));
    if bool_decide (link_state l = LINK_STATE_ESTABLISHED) then
      s_link_delete (upd a (λ l, l{{stream_is_destroyed := true}}) m) a false true
    else if negb (bool_decide (active_clusters l = [])) then
      Some (upd a (λ l, l{{link_state := LINK_STATE_DISCONNECTED}}) (if client l then emits [GoStage a STAGE_BEGIN] m else m))
    else Some m
  else Some m.

Definition s_link_drop_callback (m : mgr) (a : Z) (disconnected : bool) : option mgr :=
  match s_link_manager_link_find m a with Some _ => s_link_drop m a disconnected | None => Some m end.

Definition s_client_connected_callback (m : mgr) (a uuid : Z) : option mgr :=
  l ← links m !! a;
  Some (upd a (λ l, l{{attempts_count := 0; link_state := LINK_STATE_ESTABLISHED; es_uuid := uuid}}) m).

Fixpoint s_link_have_clusters_enabled (m : mgr) (l : list Z) : option bool :=
  match l with
  | [] => Some false
  | c :: l => C ← clusters m !! c; if enabled C then Some true else s_link_have_clusters_enabled m l
  end.

Definition s_link_connect (m : mgr) (a : Z) : mgr :=
  emits [GoStage a STAGE_STREAM_STREAMING] (upd a (λ l, l{{link_state := LINK_STATE_CONNECTING}}) m).

(** The nets of an established link that is not yet a member of their cluster. *)
Fixpoint call_connected (m : mgr) (a : Z) (l : list Z) : option mgr :=
  match l with
  | [] => Some m
  | p :: l =>
    n ← net_heap m !! p; c ← head (link_clusters n); C ← clusters m !! c;
    call_connected (if bool_decide (a ∈ members C) then m else emits [CallConnected a (net_id n)] m) a l
  end.

Definition wake_up (m : mgr) (a : Z) : option mgr :=
  l ← links m !! a;
  if negb (client l) then Some m else
  m ← (if cb_connected cb && bool_decide (link_state l = LINK_STATE_ESTABLISHED) && (start_after l <? now)
       then call_connected m a (associated_nets l) else Some m);
  if negb (bool_decide (active_clusters l = [])) then Some m
  else if negb (bool_decide (link_state l = LINK_STATE_DISCONNECTED)) then Some m
  else
    have ← (if bool_decide (associated_nets l = []) then s_link_have_clusters_enabled m (static_clusters l) else Some true);
    if negb have then Some m
    else if now <=? start_after l then Some m
    else if negb (client_stage a =? STAGE_BEGIN) then Some (emits [GoStage a STAGE_BEGIN] m)
    else
      let m := emits [CallFillNetInfo a] m in
      if negb (cb_fill_net_info cb a) then Some m
      else if negb (uplink_port l =? 0) then Some (s_link_connect m a)
      else s_link_drop m a true.

Fixpoint wake_up_links (m : mgr) (l : list Z) : option mgr :=
  match l with [] => Some m | a :: l => m ← wake_up m a; wake_up_links m l end.
Definition s_links_wake_up (m : mgr) : option mgr := wake_up_links m (link_order m).

Fixpoint request_nets (m : mgr) (l : list Z) : option mgr :=
  match l with
  | [] => Some m
  | p :: l =>
    n ← net_heap m !! p;
    if net_active n then
      k ← dap_link_manager_links_count m (net_id n);
      let m := m{{net_heap ::= alter (λ n, n{{uplinks := wrap 32 k}}) p}} in
      request_nets (if cb_link_request cb && (wrap 32 k <? min_links_num n) then emits [CallLinkRequest (net_id n)] m else m) l
    else request_nets m l
  end.
Definition s_links_request (m : mgr) : option mgr := request_nets m (nets m).

Definition s_update_states (m : mgr) : option mgr :=
  if negb (active m) then Some m else
  m ← (if l_wakeup_mode m then s_links_wake_up m else s_links_request m);
  Some (m{{l_wakeup_mode ::= negb}}).

(** The result is whether a link is returned. *)
Definition s_link_manager_link_create (m : mgr) (a : Z) (a_with_client : bool) (a_associated_net_id : Z) : option (bool * mgr) :=
  let m := match s_link_manager_link_find m a with
           | Some _ => m
           | None => m{{links ::= insert a (Link false [] LINK_STATE_DISCONNECTED 0 false 0 [] 0 0 false [] false);
                        link_order ::= λ o, o ++ [a] }}
           end in
  l ← links m !! a;
  if negb a_with_client then Some (true, m) else
  let m := if client l then m else emits [ClientNew a] (upd a (λ l, l{{client := true; uplink_port := 0}}) m) in
  if a_associated_net_id =? DAP_NET_ID_INVALID then Some (true, m) else
  p ← s_find_net_by_id m a_associated_net_id;
  match p with
  | None => Some (false, m)
  | Some p =>
    present ← find_net (net_heap m) (associated_nets l) a_associated_net_id;
    match present with
    | Some _ => Some (false, m)
    | None => Some (true, upd a (λ l, l{{associated_nets ::= λ x, x ++ [p] }}) m)
    end
  end.

Definition dap_link_manager_link_create (m : mgr) (a a_associated_net_id : Z) : option (Z * mgr) :=
  if a =? 0 then Some (-5, m) else
  if a =? g_node_addr then Some (-1, m) else
  '(ok, m) ← s_link_manager_link_create m a true a_associated_net_id;
  Some (if ok : bool then 0 else -2, emits [HotListAdd a a_associated_net_id] m).

(** The client takes a host and a port if both are there. *)
Definition s_link_update_callback (m : mgr) (a : Z) (host : list Z) (port : Z) : option mgr :=
  match s_link_manager_link_find m a with
  | None => Some m
  | Some l =>
    if negb (client l) then Some m
    else if negb (bool_decide (link_state l = LINK_STATE_DISCONNECTED)) then Some (upd a (λ l, l{{ready := false}}) m)
    else
      let m := if bool_decide (host = []) || (port =? 0) then m else upd a (λ l, l{{uplink_port := port}}) m in
      if ready l then Some (s_link_connect (upd a (λ l, l{{ready := false}}) m) a) else Some m
  end.

Definition dap_link_manager_link_find (m : mgr) (a a_net_id : Z) : option bool :=
  if a =? 0 then Some false else
  match links m !! a with
  | None => Some false
  | Some l => p ← find_net (net_heap m) (associated_nets l) a_net_id; Some (match p with Some _ => true | None => false end)
  end.

(** ** Streams *)

Fixpoint add_static (m : mgr) (a : Z) (l : list Z) : option mgr :=
  match l with
  | [] => Some m
  | c :: l =>
    C ← clusters m !! c;
    if enabled C then m ← dap_cluster_member_add m c a; add_static (count_changed m) a l else add_static m a l
  end.

Fixpoint connect_nets (m : mgr) (a : Z) (l : list Z) : option mgr :=
  match l with
  | [] => Some m
  | p :: l =>
    n ← net_heap m !! p;
    connect_nets (if net_active n && cb_connected cb then emits [CallConnected a (net_id n)] m else m) a l
  end.

Definition s_stream_add_callback (m : mgr) (a : Z) (uplink : bool) : option mgr :=
  '(m, l) ← (match s_link_manager_link_find m a with
             | None =>
               if uplink then Some (m, None)
               else '(_, m) ← s_link_manager_link_create m a false DAP_NET_ID_INVALID; Some (m, links m !! a)
             | Some l => Some (m, Some l)
             end);
  match l with
  | None => Some m
  | Some l =>
    if negb (bool_decide (active_clusters l = [])) then Some m else
    m ← add_static m a (static_clusters l);
    m ← (if uplink then connect_nets m a (associated_nets l) else Some m);
    Some (upd a (λ l, l{{is_uplink := uplink}}) m)
  end.

Definition s_stream_replace_callback (m : mgr) (a : Z) (uplink : bool) : option mgr :=
  match s_link_manager_link_find m a with
  | None => Some m
  | Some l =>
    if bool_decide (active_clusters l = []) then Some m else
    m ← (if is_uplink l && negb uplink then
           if negb (client l) then None
           else Some (upd a (λ l, l{{link_state := LINK_STATE_DISCONNECTED}}) (emits [GoStage a STAGE_BEGIN] m))
         else Some m);
    Some (upd a (λ l, l{{is_uplink := uplink}}) m)
  end.

Definition s_stream_delete_callback (m : mgr) (a : Z) : option mgr :=
  match s_link_manager_link_find m a with
  | None => Some m
  | Some l =>
    if bool_decide (active_clusters l = []) then Some m else
    let m := upd a (λ l, l{{stream_is_destroyed := true}}) m in
    m ← dap_cluster_link_delete_from_all m (active_clusters l) a;
    let m := count_changed m in
    if client l then Some m else s_link_delete m a false false
  end.

(** ** Accounting *)

Fixpoint account (m : mgr) (a : Z) (first : bool) (l statics : list Z) : option mgr :=
  match l with
  | [] => Some m
  | c :: l =>
    m ← (if first then m ← dap_cluster_member_add m c a; Some (count_changed m)
         else if bool_decide (c ∈ statics) then
           C ← clusters m !! c;
           if negb (enabled C) then None
           else m ← dap_cluster_member_add m c a; Some (count_changed m)
         else Some m);
    account m a false l statics
  end.

Definition s_link_accounting_callback (m : mgr) (a p : Z) (no_error : bool) : option mgr :=
  match s_link_manager_link_find m a with
  | None => Some m
  | Some l =>
    n ← net_heap m !! p;
    if no_error then
      if negb (net_active n) then None else account m a true (link_clusters n) (static_clusters l)
    else
      m ← dap_cluster_link_delete_from_all m (link_clusters n) a;
      let m := upd a (λ l, l{{start_after := now + reconnect_delay}}) (count_changed m) in
      '(m, keep) ← match cb_disconnected cb with
                   | None => Some (m, false)
                   | Some permanent =>
                     c ← head (link_clusters n); k ← dap_cluster_members_count m c;
                     Some (emits [CallDisconnected a (net_id n) k] m, permanent a (net_id n) k)
                   end;
      if keep : bool then Some m else
      let m := upd a (λ l, l{{associated_nets ::= λ x, dap_list_remove x p}}) m in
      l ← links m !! a;
      if client l && bool_decide (associated_nets l = []) && bool_decide (static_clusters l = [])
      then s_link_delete m a false false else Some m
  end.

(** ** Static links and the condition of a net *)

Definition dap_link_manager_add_static_links_cluster (m : mgr) (a c : Z) : option mgr :=
  if a =? g_node_addr then Some m else
  m ← (match s_link_manager_link_find m a with
       | Some _ => Some m
       | None => '(_, m) ← s_link_manager_link_create m a true DAP_NET_ID_INVALID; Some m
       end);
  Some (upd a (λ l, l{{static_clusters ::= λ x, x ++ [c] }}) m).

Definition dap_link_manager_remove_static_links_cluster (m : mgr) (a c : Z) : option mgr :=
  match s_link_manager_link_find m a with
  | None => Some m
  | Some _ =>
    let m := upd a (λ l, l{{static_clusters ::= λ x, dap_list_remove x c}}) m in
    l ← links m !! a;
    if bool_decide (static_clusters l = []) && bool_decide (active_clusters l = [])
    then s_link_delete m a false true else Some m
  end.

Fixpoint set_conditions (m : mgr) (a_new_condition : bool) (l : list Z) : option mgr :=
  match l with
  | [] => Some m
  | c :: l =>
    C ← clusters m !! c;
    let m := m{{clusters ::= alter (λ C, C{{enabled := a_new_condition}}) c}} in
    m ← (if a_new_condition then Some m else dap_cluster_delete_all_members m c);
    set_conditions m a_new_condition l
  end.

Definition forget_net (m : mgr) (p a : Z) : option mgr :=
  l ← links m !! a;
  if negb (bool_decide (p ∈ associated_nets l)) then Some m else
  let rest := dap_list_remove (associated_nets l) p in
  let m := upd a (λ l, l{{associated_nets := rest}}) m in
  if bool_decide (rest = []) then s_link_delete m a false false else Some m.

Fixpoint forget_nets (m : mgr) (p : Z) (l : list Z) : option mgr :=
  match l with [] => Some m | a :: l => m ← forget_net m p a; forget_nets m p l end.

Definition dap_link_manager_set_net_condition (m : mgr) (a_net_id : Z) (a_new_condition : bool) : option mgr :=
  p ← s_find_net_by_id m a_net_id;
  match p with
  | None => Some m
  | Some p =>
    n ← net_heap m !! p;
    if eqb (net_active n) a_new_condition then Some m else
    let m := m{{net_heap ::= alter (λ n, n{{net_active := a_new_condition}}) p}} in
    m ← set_conditions m a_new_condition (link_clusters n);
    if a_new_condition then Some m else forget_nets m p (link_order m)
  end.

Definition dap_link_manager_remove_net (m : mgr) (a_net_id : Z) : option mgr :=
  p ← s_find_net_by_id m a_net_id;
  match p with
  | None => Some m
  | Some p =>
    n ← net_heap m !! p;
    m ← dap_link_manager_set_net_condition m (net_id n) false;
    Some (m{{nets ::= λ l, dap_list_remove l p; net_heap ::= delete p}})
  end.

(** ** The links of a net *)

(** One pass of the loop that puts uplinks before downlinks in the array. *)
Definition place (m : mgr) (est : bool) (acc : list Z * nat * nat) (a : Z) : option (list Z * nat * nat) :=
  let '(ret, nu, nd) := acc in
  match links m !! a with
  | None => Some acc
  | Some l =>
    if is_uplink l && est && negb (bool_decide (link_state l = LINK_STATE_ESTABLISHED)) then Some acc
    else if is_uplink l then
      v ← ret !! nu;
      if (nu + nd <? length ret)%nat then Some (<[nu := a]> (<[(nu + nd)%nat := v]> ret), S nu, nd) else None
    else if (nu + nd <? length ret)%nat then Some (<[(nu + nd)%nat := a]> ret, nu, S nd) else None
  end.

Fixpoint place_all (m : mgr) (est : bool) (acc : list Z * nat * nat) (l : list Z) : option (list Z * nat * nat) :=
  match l with [] => Some acc | a :: l => acc ← place m est acc a; place_all m est acc l end.

(** The array, if any, and the two counts, if they are set. *)
Definition dap_link_manager_get_net_links_addrs (m : mgr) (a_net_id : Z) (a_established_only : bool)
    : option (option (list Z) * option (Z * Z)) :=
  p ← s_find_net_by_id m a_net_id;
  match p with
  | None => Some (None, None)
  | Some p =>
    n ← net_heap m !! p; c ← head (link_clusters n); C ← clusters m !! c;
    if bool_decide (members C = []) then Some (None, None) else
    '(ret, nu, nd) ← place_all m a_established_only (replicate (length (members C)) 0, O, O) (members C);
    Some (if ((nu =? 0) && (nd =? 0))%nat then None else Some ret, Some (Z.of_nat nu, Z.of_nat nd))
  end.
End Manager.
