(* ===== verification/LinksRun.v ===== *)
(** * The link manager keeps its tables

    Links and the clusters of links agree: a peer is a member of exactly the
    clusters its link lists, whatever operations run.  With that, no operation
    follows a freed pointer or fails an assertion. *)

From coqutil Require Import Datatypes.RecordSetters.
Import DoubleBraceUpdate.
From stdpp Require Import gmap.
From S2P Require Import Prelude Links.
Local Open Scope Z_scope.

(** ** Lists *)

Lemma dap_list_remove_elem l x y : NoDup l -> y ∈ dap_list_remove l x <-> y ∈ l /\ y ≠ x.
Proof.
  induction 1 as [|z l Hz Hn IH]; cbn [dap_list_remove]; [set_solver|].
  destruct (Z.eqb_spec z x) as [->|Hx]; set_solver.
Qed.

Lemma dap_list_remove_subset l x : dap_list_remove l x ⊆ l.
Proof. induction l as [|z l IH]; cbn [dap_list_remove]; [done|]. destruct (z =? x); set_solver. Qed.

Lemma dap_list_remove_NoDup l x : NoDup l -> NoDup (dap_list_remove l x).
Proof.
  induction 1 as [|z l Hz Hn IH]; cbn [dap_list_remove]; [constructor|]. destruct (z =? x); [done|].
  constructor; [|done]. intros H. by apply Hz, (dap_list_remove_subset l x).
Qed.

(** ** The invariant *)

(** The peer is a member of the cluster. *)
Definition memb (m : mgr) (c a : Z) : Prop := ∃ C, clusters m !! c = Some C /\ a ∈ members C.

(** Links and clusters agree. *)
Record sync (m : mgr) : Prop := {
  sync_order : NoDup (link_order m);
  sync_dom : ∀ a, a ∈ link_order m <-> is_Some (links m !! a);
  sync_zero : links m !! 0 = None;
  sync_active : ∀ a l, links m !! a = Some l -> NoDup (active_clusters l) /\ ∀ c, c ∈ active_clusters l <-> memb m c a;
  sync_members : ∀ c C, clusters m !! c = Some C -> NoDup (members C) /\ ∀ a, a ∈ members C -> is_Some (links m !! a);
}.

(** What a link refers to exists; a link without client is a downlink. *)
Definition link_ok (m : mgr) (l : dap_link) : Prop :=
  (NoDup (associated_nets l) /\ ∀ p, p ∈ associated_nets l -> is_Some (net_heap m !! p)) /\
  (∀ c, c ∈ static_clusters l -> is_Some (clusters m !! c)) /\
  (client l = false -> associated_nets l = [] /\ is_uplink l = false).

Definition net_ok (m : mgr) (n : dap_managed_net) : Prop :=
  link_clusters n ≠ [] /\ ∀ c, c ∈ link_clusters n -> is_Some (clusters m !! c).

Record refs (m : mgr) : Prop := {
  refs_links : ∀ a l, links m !! a = Some l -> link_ok m l;
  refs_nets : ∀ p n, net_heap m !! p = Some n -> net_ok m n;
  refs_list : NoDup (nets m) /\ ∀ p, p ∈ nets m <-> is_Some (net_heap m !! p);
}.

Definition inv (m : mgr) : Prop := sync m /\ refs m.

(** Only membership differs. *)
Definition bare (l : dap_link) : dap_link := l{{active_clusters := [] }}.
Definition same (m m' : mgr) : Prop :=
  nets m' = nets m /\ net_heap m' = net_heap m /\ nets_lock m' = nets_lock m /\ link_order m' = link_order m /\
  bare <$> links m' = bare <$> links m /\ enabled <$> clusters m' = enabled <$> clusters m.

#[export] Instance same_preorder : PreOrder same.
Proof. split; [by intros m|]. intros a b c (H1 & H2 & H3 & H4 & H5 & H6) (J1 & J2 & J3 & J4 & J5 & J6). repeat split; congruence. Qed.

Lemma same_link m m' a l' : same m m' -> links m' !! a = Some l' -> ∃ l, links m !! a = Some l /\ bare l' = bare l.
Proof.
  intros (_ & _ & _ & _ & H & _) Hl. apply (f_equal (lookup a)) in H. rewrite !lookup_fmap, Hl in H.
  destruct (links m !! a) as [l|]; [|done]. exists l. split; [done|]. by apply (inj Some) in H.
Qed.

Lemma same_cluster m m' c : same m m' -> is_Some (clusters m' !! c) <-> is_Some (clusters m !! c).
Proof.
  intros (_ & _ & _ & _ & _ & H). apply (f_equal (lookup c)) in H. rewrite !lookup_fmap in H.
  destruct (clusters m !! c), (clusters m' !! c); cbn in H; simplify_eq; split; intros [? [=]]; eauto.
Qed.

Lemma same_refs m m' : same m m' -> refs m -> refs m'.
Proof.
  intros Hs [H1 H2 H3]. pose proof Hs as (E1 & E2 & _).
  split.
  - intros a l' Hl. destruct (same_link m m' a l' Hs Hl) as (l & Hl0 & Hb).
    destruct (H1 a l Hl0) as (J1 & J2 & J3).
    assert (associated_nets l' = associated_nets l /\ static_clusters l' = static_clusters l /\
            client l' = client l /\ is_uplink l' = is_uplink l) as (Ea & Es & Ec & Eu).
    { destruct l, l'. unfold bare in Hb. cbn in Hb. by simplify_eq. }
    unfold link_ok. rewrite Ea, Es, Ec, Eu, E2. split; [done|]. split; [|done]. intros c Hc. by apply (same_cluster m m'), J2.
  - rewrite E2. intros p n Hn. destruct (H2 p n Hn) as [J1 J2]. split; [done|].
    intros c Hc. by apply (same_cluster m m'), J2.
  - by rewrite E1, E2.
Qed.

(** ** Members *)

Lemma alter_bare (ls : gmap Z dap_link) a g :
  bare <$> alter (λ l, l{{active_clusters ::= g}}) a ls = bare <$> ls.
Proof.
  apply map_eq. intros b. rewrite !lookup_fmap. destruct (decide (a = b)) as [->|Hb].
  - rewrite lookup_alter_eq. by destruct (ls !! b) as [[]|].
  - by rewrite lookup_alter_ne.
Qed.

Lemma insert_enabled (cs : gmap Z dap_cluster) c C g :
  cs !! c = Some C -> enabled <$> <[c := C{{members ::= g}}]> cs = enabled <$> cs.
Proof. intros H. rewrite fmap_insert. cbn. apply insert_id. by rewrite lookup_fmap, H. Qed.

Section Members.
Variables (m : mgr) (c a : Z) (C : dap_cluster) (l : dap_link).
Hypotheses (Hs : sync m) (HC : clusters m !! c = Some C) (Hl : links m !! a = Some l).

Lemma link_nonzero : (a =? 0) = false.
Proof using Hs Hl. apply Z.eqb_neq. intros ->. rewrite (sync_zero m Hs) in Hl. done. Qed.

(** The tables after a change of one membership. *)
Definition changed (x y : list Z) : mgr :=
  m{{links ::= alter (λ l, l{{active_clusters := x}}) a; clusters ::= insert c (C{{members := y}})}}.

Lemma changed_links x y : links (changed x y) = alter (λ l, l{{active_clusters := x}}) a (links m).
Proof using. done. Qed.
Lemma changed_clusters x y : clusters (changed x y) = <[c := C{{members := y}}]> (clusters m).
Proof using. done. Qed.

Lemma changed_same x y : same m (changed x y).
Proof using HC.
  repeat split.
  - change (bare <$> alter (λ l, l{{active_clusters ::= λ _, x}}) a (links m) = bare <$> links m). apply alter_bare.
  - change (enabled <$> <[c:=C{{members ::= λ _, y}}]> (clusters m) = enabled <$> clusters m). by apply insert_enabled.
Qed.

Lemma changed_memb x y c' b : memb (changed x y) c' b <-> (if decide (c' = c) then b ∈ y else memb m c' b).
Proof using.
  unfold memb. rewrite changed_clusters. destruct (decide (c' = c)) as [->|Hc].
  - rewrite lookup_insert_eq. split; [by intros (? & [= <-] & ?)|]. intros. by eexists.
  - by rewrite lookup_insert_ne.
Qed.

Lemma changed_sync x y :
  NoDup x -> NoDup y -> (∀ b, b ∈ y -> is_Some (links m !! b)) ->
  (∀ b, b ≠ a -> b ∈ y <-> b ∈ members C) ->
  (∀ c', c' ∈ x <-> if decide (c' = c) then a ∈ y else c' ∈ active_clusters l) ->
  sync (changed x y).
Proof using Hs HC Hl.
  intros Hx Hy Hyl Hyb Hxa. destruct Hs as [S1 S2 S3 S4 S5].
  assert (Hdom : ∀ b, is_Some (links (changed x y) !! b) <-> is_Some (links m !! b)).
  { intros b. rewrite changed_links. destruct (decide (a = b)) as [<-|]; [|by rewrite lookup_alter_ne].
    rewrite lookup_alter_eq, Hl. split; intros _; by eexists. }
  split; [done| | | |].
  - intros b. rewrite Hdom. apply S2.
  - rewrite changed_links. destruct (decide (a = 0)) as [->|]; [congruence|]. by rewrite lookup_alter_ne.
  - intros b lb Hb. rewrite changed_links in Hb. destruct (decide (a = b)) as [<-|Hab].
    + rewrite lookup_alter_eq, Hl in Hb. injection Hb as <-. split; [done|]. intros c'. change (c' ∈ x <-> memb (changed x y) c' a).
      rewrite Hxa, changed_memb. destruct (decide (c' = c)); [done|]. by apply (S4 a l Hl).
    + rewrite lookup_alter_ne in Hb by done. destruct (S4 b lb Hb) as [Hn Hm]. split; [done|]. intros c'.
      rewrite Hm, changed_memb. destruct (decide (c' = c)) as [->|]; [|done]. rewrite Hyb by done.
      unfold memb. rewrite HC. split; [by intros (? & [= <-] & ?)|by eauto].
  - intros c' C' HC'. rewrite changed_clusters in HC'. destruct (decide (c = c')) as [<-|Hc].
    + rewrite lookup_insert_eq in HC'. injection HC' as <-. split; [done|]. intros b Hb. by apply Hdom, Hyl.
    + rewrite lookup_insert_ne in HC' by done. destruct (S5 c' C' HC') as [Hn Hm]. split; [done|].
      intros b Hb. by apply Hdom, Hm.
Qed.
End Members.

Lemma mgr_eq (m m' : mgr) :
  active m = active m' -> nets m = nets m' -> net_heap m = net_heap m' -> nets_lock m = nets_lock m' ->
  links m = links m' -> link_order m = link_order m' -> clusters m = clusters m' ->
  l_wakeup_mode m = l_wakeup_mode m' -> out m = out m' -> m = m'.
Proof. destruct m, m'. cbn. by intros -> -> -> -> -> -> -> -> ->. Qed.

(** The outcome of an operation that changes membership only, so that exactly
    [P c a] are members. *)
Definition members_become (m : mgr) (r : option mgr) (P : Z -> Z -> Prop) : Prop :=
  ∃ m', r = Some m' /\ sync m' /\ same m m' /\ ∀ c a, memb m' c a <-> P c a.

Lemma member_add_ok m c a :
  sync m -> is_Some (clusters m !! c) -> is_Some (links m !! a) ->
  members_become m (dap_cluster_member_add m c a) (λ c' b, memb m c' b \/ (c' = c /\ b = a)).
Proof.
  intros Hs [C HC] [l Hl]. unfold dap_cluster_member_add. rewrite HC. cbn [mbind option_bind].
  case_bool_decide as Ha.
  - exists m. split; [done|]. split; [done|]. split; [reflexivity|]. intros c' b. split; [by left|].
    intros [?|[-> ->]]; [done|]. by exists C.
  - eexists. split; [done|].
    set (m' := changed m c a C (active_clusters l ++ [c]) (members C ++ [a])).
    match goal with |- sync ?x /\ _ => replace x with m' end.
    2: { unfold dap_link_manager_add_links_cluster, s_link_manager_link_find. rewrite (link_nonzero m a l Hs Hl).
         change (links _ !! a) with (links m !! a). rewrite Hl. apply mgr_eq; try done.
         unfold m'. rewrite changed_links. apply alter_ext. intros l0 Hl0.
         change (links m !! a = Some l0) in Hl0. rewrite Hl in Hl0. by injection Hl0 as ->. }
    destruct (sync_active m Hs a l Hl) as [Hn Hm]. destruct (sync_members m Hs c C HC) as [Hn' Hm'].
    assert (Hnc : c ∉ active_clusters l) by (rewrite Hm; intros (C' & HC' & Ha'); congruence).
    split; [|split; [by apply changed_same|]].
    + apply (changed_sync m c a C l Hs HC Hl).
      * apply list.NoDup_app. split; [done|]. split; [set_solver|apply NoDup_singleton].
      * apply list.NoDup_app. split; [done|]. split; [set_solver|apply NoDup_singleton].
      * intros b [Hb|Hb]%elem_of_app; [by apply Hm'|]. apply list_elem_of_singleton in Hb as ->. by eauto.
      * set_solver.
      * intros c'. destruct (decide (c' = c)); set_solver.
    + intros c' b. unfold m'. rewrite changed_memb. destruct (decide (c' = c)) as [->|].
      * rewrite elem_of_app, list_elem_of_singleton. unfold memb. rewrite HC. naive_solver.
      * naive_solver.
Qed.

Lemma member_delete_ok m c a :
  sync m -> is_Some (clusters m !! c) ->
  members_become m (dap_cluster_member_delete m c a) (λ c' b, memb m c' b /\ ~ (c' = c /\ b = a)).
Proof.
  intros Hs [C HC]. unfold dap_cluster_member_delete. rewrite HC. cbn [mbind option_bind].
  case_bool_decide as Ha.
  - destruct (sync_members m Hs c C HC) as [Hn' Hm']. destruct (Hm' a Ha) as [l Hl].
    destruct (sync_active m Hs a l Hl) as [Hn Hm].
    eexists. split; [done|].
    set (m' := changed m c a C (dap_list_remove (active_clusters l) c) (dap_list_remove (members C) a)).
    match goal with |- sync ?x /\ _ => replace x with m' end.
    2: { unfold dap_link_manager_remove_links_cluster, s_link_manager_link_find. rewrite (link_nonzero m a l Hs Hl), Hl.
         apply mgr_eq; try done. unfold m'. rewrite changed_links. apply alter_ext. intros l0 Hl0.
         change (links m !! a = Some l0) in Hl0. rewrite Hl in Hl0. by injection Hl0 as ->. }
    split; [|split; [by apply changed_same|]].
    + apply (changed_sync m c a C l Hs HC Hl).
      * by apply dap_list_remove_NoDup.
      * by apply dap_list_remove_NoDup.
      * intros b Hb. by apply Hm', (dap_list_remove_subset _ a).
      * intros b Hb. rewrite dap_list_remove_elem by done. naive_solver.
      * intros c'. rewrite !dap_list_remove_elem by done. destruct (decide (c' = c)) as [->|]; [rewrite dap_list_remove_elem by done|]; tauto.
    + intros c' b. unfold m'. rewrite changed_memb. destruct (decide (c' = c)) as [->|]; [|naive_solver].
      rewrite dap_list_remove_elem by done. unfold memb. rewrite HC. naive_solver.
  - exists m. split; [done|]. split; [done|]. split; [reflexivity|]. intros c' b. split; [|naive_solver].
    intros Hb. split; [done|]. intros [-> ->]. destruct Hb as (C' & HC' & Hb). congruence.
Qed.

Lemma delete_from_ok m cs a :
  sync m -> (∀ c, c ∈ cs -> is_Some (clusters m !! c)) ->
  members_become m (dap_cluster_link_delete_from_all m cs a) (λ c' b, memb m c' b /\ ~ (c' ∈ cs /\ b = a)).
Proof.
  unfold dap_cluster_link_delete_from_all. revert m. induction cs as [|c cs IH]; intros m Hs Hcs; cbn [delete_from].
  - exists m. split; [done|]. split; [done|]. split; [reflexivity|]. set_solver.
  - destruct (member_delete_ok m c a) as (m1 & -> & Hs1 & Hm1 & He1); [done|apply Hcs; set_solver|].
    cbn [mbind option_bind]. destruct (IH m1) as (m' & Hr & Hs' & Hm' & He'); [done| |].
    { intros c' Hc'. apply (same_cluster m m1); [done|]. apply Hcs. set_solver. }
    exists m'. split; [done|]. split; [done|]. split; [by transitivity m1|].
    intros c' b. rewrite He', He1. set_solver.
Qed.

Lemma delete_all_ok m c :
  sync m -> is_Some (clusters m !! c) ->
  members_become m (dap_cluster_delete_all_members m c) (λ c' b, memb m c' b /\ c' ≠ c).
Proof.
  intros Hs [C HC]. unfold dap_cluster_delete_all_members. rewrite HC. cbn [mbind option_bind].
  assert (Hloop : ∀ l m, sync m -> is_Some (clusters m !! c) ->
    members_become m (delete_members m c l) (λ c' b, memb m c' b /\ ~ (c' = c /\ b ∈ l))).
  { clear. induction l as [|a l IH]; intros m Hs Hc; cbn [delete_members].
    - exists m. split; [done|]. split; [done|]. split; [reflexivity|]. set_solver.
    - destruct (member_delete_ok m c a) as (m1 & -> & Hs1 & Hm1 & He1); [done..|].
      cbn [mbind option_bind]. destruct (IH m1) as (m' & Hr & Hs' & Hm' & He'); [done|by apply (same_cluster m m1)|].
      exists m'. split; [done|]. split; [done|]. split; [by transitivity m1|].
      intros c' b. rewrite He', He1. set_solver. }
  destruct (Hloop (members C) m Hs) as (m' & Hr & Hs' & Hm' & He'); [by eauto|].
  exists m'. split; [done|]. split; [done|]. split; [done|]. intros c' b. rewrite He'.
  unfold memb. split; [|naive_solver]. intros [(C' & HC' & Hb) Hn]. split; [by eauto|]. intros ->. naive_solver.
Qed.

(** ** Changes that keep the tables *)

Lemma emits_inv x m : inv m -> inv (emits x m).
Proof. intros [[] []]. done. Qed.

Lemma links_upd a f m : links (upd a f m) = alter f a (links m).
Proof. done. Qed.

Lemma upd_dom a f m b : is_Some (links (upd a f m) !! b) <-> is_Some (links m !! b).
Proof.
  rewrite links_upd. destruct (decide (a = b)) as [->|]; [|by rewrite lookup_alter_ne].
  rewrite lookup_alter_eq. by rewrite fmap_is_Some.
Qed.

Lemma upd_inv a f m :
  (∀ l, active_clusters (f l) = active_clusters l) ->
  (∀ l, links m !! a = Some l -> link_ok m l -> link_ok m (f l)) ->
  inv m -> inv (upd a f m).
Proof.
  intros Hf Hok [[S1 S2 S3 S4 S5] [R1 R2 R3]]. split; split; try done.
  - intros b. rewrite upd_dom. apply S2.
  - rewrite links_upd. destruct (decide (a = 0)) as [->|]; [by rewrite lookup_alter_eq, S3|by rewrite lookup_alter_ne].
  - intros b l Hl. rewrite links_upd in Hl. apply lookup_alter_Some in Hl as [(<- & l0 & Hl0 & ->)|[_ Hl0]]; [|by apply S4].
    rewrite Hf. by apply S4.
  - intros c C HC. destruct (S5 c C HC) as [Hn Hm]. split; [done|]. intros b Hb. by apply upd_dom, Hm.
  - intros b l Hl. rewrite links_upd in Hl. apply lookup_alter_Some in Hl as [(<- & l0 & Hl0 & ->)|[_ Hl0]].
    + by apply Hok, (R1 a).
    + by apply (R1 b).
Qed.

Lemma call_nets_ok m f l :
  refs m -> (∀ p, p ∈ l -> is_Some (net_heap m !! p)) -> ∃ x, call_nets m f l = Some (emits x m).
Proof.
  intros _. revert m. induction l as [|p l IH]; intros m Hl; cbn [call_nets].
  - exists []. f_equal. apply mgr_eq; try done. cbn. by rewrite app_nil_r.
  - destruct (Hl p) as [n ->]; [set_solver|]. cbn [mbind option_bind].
    destruct (IH (emits [f (net_id n)] m)) as [x ->]; [set_solver|].
    eexists. f_equal. apply mgr_eq; try done. cbn. by rewrite <-app_assoc.
Qed.

(** The tables apart from one link. *)
Definition others (a : Z) (m m' : mgr) : Prop :=
  nets m' = nets m /\ net_heap m' = net_heap m /\ nets_lock m' = nets_lock m /\
  (∀ b, b ≠ a -> bare <$> links m' !! b = bare <$> links m !! b) /\
  enabled <$> clusters m' = enabled <$> clusters m.

Lemma same_others a m m' : same m m' -> others a m m'.
Proof.
  intros (H1 & H2 & H3 & H4 & H5 & H6). repeat split; try done. intros b _. by rewrite <-!lookup_fmap, H5.
Qed.

Lemma others_trans a m1 m2 m3 : others a m1 m2 -> others a m2 m3 -> others a m1 m3.
Proof.
  intros (H1 & H2 & H3 & H4 & H5) (J1 & J2 & J3 & J4 & J5). repeat split; try congruence.
  intros b Hb. by rewrite J4, H4.
Qed.

Lemma others_upd a f m : others a m (upd a f m).
Proof. repeat split; try done. intros b Hb. rewrite links_upd. by rewrite lookup_alter_ne. Qed.

Lemma others_emits a x m : others a m (emits x m).
Proof. done. Qed.

Lemma others_dom a m m' b : others a m m' -> b ≠ a -> is_Some (links m' !! b) <-> is_Some (links m !! b).
Proof.
  intros (_ & _ & _ & H & _) Hb. specialize (H b Hb).
  destruct (links m !! b), (links m' !! b); cbn in H; simplify_eq; split; intros [? [=]]; by eexists.
Qed.

(** A change of one link that leaves its clusters and keeps it well-formed. *)
Definition harmless (f : dap_link -> dap_link) : Prop :=
  (∀ l, active_clusters (f l) = active_clusters l) /\ (∀ l, associated_nets (f l) ⊆ associated_nets l) /\
  ∀ m l, link_ok m l -> link_ok m (f l).

Record tweak (a : Z) (m m' : mgr) : Prop := {
  tweak_inv : inv m -> inv m';
  tweak_others : others a m m';
  tweak_clusters : clusters m' = clusters m;
  tweak_dom : ∀ b, is_Some (links m' !! b) <-> is_Some (links m !! b);
  tweak_order : link_order m' = link_order m;
  tweak_assoc : ∀ l', links m' !! a = Some l' -> ∃ l, links m !! a = Some l /\ associated_nets l' ⊆ associated_nets l;
}.

Lemma tweak_refl a m : tweak a m m.
Proof. split; try done. by eauto. Qed.

Lemma tweak_emits a x m m' : tweak a m m' -> tweak a m (emits x m').
Proof. intros [H1 H2 H3 H4 H5 H6]. split; try done. intros. by apply emits_inv, H1. Qed.

Lemma upd_lookup a f m l' : links (upd a f m) !! a = Some l' -> ∃ l, links m !! a = Some l /\ l' = f l.
Proof. rewrite links_upd, lookup_alter_eq. destruct (links m !! a) as [l|]; [|done]. intros [= <-]. by eauto. Qed.

Lemma tweak_upd a f m m' : harmless f -> tweak a m m' -> tweak a m (upd a f m').
Proof.
  intros (Hf & Hs & Hok) [H1 H2 H3 H4 H5 H6]. split; try done.
  - intros H. apply upd_inv; [done|by auto|by auto].
  - eapply others_trans; [done|apply others_upd].
  - intros b. by rewrite upd_dom.
  - intros l' Hl'. apply upd_lookup in Hl' as (l1 & Hl1 & ->). destruct (H6 l1 Hl1) as (l & Hl & Hsub).
    exists l. split; [done|]. etransitivity; [apply Hs|done].
Qed.

Lemma tweak_kept a m m' l0 kept :
  links m' !! a = Some l0 -> kept `sublist_of` associated_nets l0 -> tweak a m m' ->
  tweak a m (upd a (λ l, l{{associated_nets := kept}}) m').
Proof.
  intros Hl0 Hk [H1 H2 H3 H4 H5 H6]. split; try done.
  - intros H. apply upd_inv; [done| |by auto]. intros l Hl ([J0 J1] & J2 & J3). rewrite Hl0 in Hl. injection Hl as <-.
    split; [|split; [done|]].
    + split; [by eapply sublist_NoDup|]. intros p Hp. apply J1. by eapply elem_of_sublist.
    + intros Hc. destruct (J3 Hc) as [Hn Hu]. split; [|done]. change (kept = []). rewrite Hn in Hk. by apply sublist_nil_r.
  - eapply others_trans; [done|apply others_upd].
  - intros b. by rewrite upd_dom.
  - intros l' Hl'. apply upd_lookup in Hl' as (l1 & Hl1 & ->). rewrite Hl0 in Hl1. injection Hl1 as <-.
    destruct (H6 l0 Hl0) as (l & Hl & Hsub). exists l. split; [done|]. intros p Hp. apply Hsub. by eapply elem_of_sublist.
Qed.

Lemma tweak_done a m m' : inv m -> tweak a m m' -> ∃ m'', Some m' = Some m'' /\ inv m'' /\ others a m m''.
Proof. intros Hi Ht. exists m'. split; [done|]. split; [by apply Ht|apply Ht]. Qed.

Lemma tweak_trans a m1 m2 m3 : tweak a m1 m2 -> tweak a m2 m3 -> tweak a m1 m3.
Proof.
  intros [H1 H2 H3 H4 H5 H6] [J1 J2 J3 J4 J5 J6]. split; [by auto|by eapply others_trans|congruence| |congruence|].
  - intros b. by rewrite J4.
  - intros l3 Hl3. destruct (J6 l3 Hl3) as (l2 & Hl2 & Hs2). destruct (H6 l2 Hl2) as (l1 & Hl1 & Hs1).
    exists l1. split; [done|]. by etransitivity.
Qed.

Ltac harmless :=
  split; [done|]; split; [intros ?; cbn; set_solver|];
  intros ? ? ([? ?] & ? & ?); unfold link_ok; cbn; split_and!; try done; first [apply NoDup_nil_2|set_solver].

#[local] Hint Resolve tweak_refl tweak_emits tweak_upd : core.
#[local] Hint Extern 5 (harmless _) => harmless : core.

(** ** Deleting a link *)

Definition removed (a : Z) (m : mgr) : mgr := m{{links ::= delete a; link_order ::= λ o, dap_list_remove o a}}.

Lemma removed_inv a m : inv m -> (∀ c, ~ memb m c a) -> inv (removed a m).
Proof.
  intros [[S1 S2 S3 S4 S5] [R1 R2 R3]] Hn.
  assert (Hd : ∀ b, is_Some (links (removed a m) !! b) <-> is_Some (links m !! b) /\ b ≠ a).
  { intros b. change (links (removed a m)) with (delete a (links m)). rewrite lookup_delete_is_Some. naive_solver. }
  split; split; try done.
  - by apply dap_list_remove_NoDup.
  - intros b. rewrite Hd, <-S2. by apply dap_list_remove_elem.
  - change (delete a (links m) !! 0 = None). apply lookup_delete_None. by right.
  - intros b l Hl. change (delete a (links m) !! b = Some l) in Hl. apply lookup_delete_Some in Hl as [_ Hl]. by apply S4.
  - intros c C HC. destruct (S5 c C HC) as [Hnd Hm]. split; [done|]. intros b Hb. apply Hd. split; [by apply Hm|].
    intros ->. apply (Hn c). by exists C.
  - intros b l Hl. change (delete a (links m) !! b = Some l) in Hl. apply lookup_delete_Some in Hl as [_ Hl]. by apply (R1 b).
Qed.

Section Manager.
Variable cb : callbacks.
Variable sockets : Z -> list Z.

(** The link is kept, with its static clusters or its client. *)
Definition preserved (l : dap_link) (force preserve : bool) : bool :=
  (preserve || negb (bool_decide (static_clusters l = []))) && negb force.

Lemma link_delete_ok m a l force preserve :
  inv m -> links m !! a = Some l ->
  ∃ m', s_link_delete cb sockets m a force preserve = Some m' /\ inv m' /\ others a m m' /\
        (∀ c b, memb m' c b <-> memb m c b /\ b ≠ a) /\
        (is_Some (links m' !! a) <-> preserved l force preserve = true) /\
        (∀ l', links m' !! a = Some l' -> associated_nets l' ⊆ associated_nets l).
Proof.
  intros [Hs Hr] Hl. unfold s_link_delete. rewrite Hl. cbn [mbind option_bind].
  destruct (sync_active m Hs a l Hl) as [_ Ha]. destruct (refs_links m Hr a l Hl) as ([_ Hn] & Hst & Hc).
  assert (H1 : ∃ m1, (if bool_decide (active_clusters l = []) then Some m else
       m ← dap_cluster_link_delete_from_all m (active_clusters l) a;
       if is_uplink l && cb_link_count_changed cb then call_nets m (λ _, CallCountChanged) (associated_nets l) else Some m)
       = Some m1 /\ inv m1 /\ same m m1 /\ ∀ c b, memb m1 c b <-> memb m c b /\ b ≠ a).
  { case_bool_decide as Hact.
    - exists m. split; [done|]. split; [done|]. split; [reflexivity|]. intros c b. split; [|naive_solver].
      intros Hm. split; [done|]. intros ->. apply Ha in Hm. rewrite Hact in Hm. by apply not_elem_of_nil in Hm.
    - destruct (delete_from_ok m (active_clusters l) a) as (m1 & -> & Hs1 & Hm1 & He1); [done| |].
      { intros c Hc'. apply Ha in Hc' as (C & HC & _). by eauto. }
      assert (Hi : inv m1) by (split; [done|by apply (same_refs m)]).
      assert (He : ∀ c b, memb m1 c b <-> memb m c b /\ b ≠ a).
      { intros c b. rewrite He1, Ha. destruct (decide (b = a)) as [->|]; naive_solver. }
      cbn [mbind option_bind]. destruct (_ && _); [|by eauto].
      destruct (call_nets_ok m1 (λ _, CallCountChanged) (associated_nets l)) as [x ->]; [apply Hi| |].
      { intros p Hp. destruct Hm1 as (_ & -> & _). by apply Hn. }
      exists (emits x m1). split; [done|]. split; [by apply emits_inv|]. split; [by transitivity m1|done]. }
  destruct H1 as (m1 & -> & Hi1 & Hm1 & He1). cbn [mbind option_bind].
  destruct (links m1 !! a) as [l1|] eqn:Hl1.
  2:{ exfalso. destruct Hm1 as (_ & _ & _ & _ & Hb & _). apply (f_equal (lookup a)) in Hb.
      rewrite !lookup_fmap, Hl, Hl1 in Hb. done. }
  cbn [mbind option_bind]. destruct (same_link m m1 a l1 Hm1 Hl1) as (l' & Hl' & Hb). rewrite Hl in Hl'. injection Hl' as <-.
  assert (Hnil : active_clusters l1 = []).
  { destruct (sync_active m1 (proj1 Hi1) a l1 Hl1) as [_ Ha1]. destruct (active_clusters l1) as [|c cs]; [done|exfalso].
    assert (memb m1 c a) by (apply Ha1; set_solver). naive_solver. }
  rewrite bool_decide_true by done. cbn [negb].
  assert (static_clusters l1 = static_clusters l) as -> by (destruct l, l1; unfold bare in Hb; cbn in Hb; by simplify_eq).
  fold (preserved l force preserve). set (keep := preserved l force preserve).
  match goal with |- ∃ m', (if keep then Some ?x else _) = _ /\ _ => set (m2 := x) end.
  assert (Ht : tweak a m1 m2) by (unfold m2; repeat case_match; auto 10).
  assert (Ho : others a m m2) by (eapply others_trans; [by apply same_others|apply Ht]).
  assert (Hm : ∀ c b, memb m2 c b <-> memb m c b /\ b ≠ a).
  { intros c b. rewrite <-He1. unfold memb. by rewrite (tweak_clusters _ _ _ Ht). }
  assert (Hsub : ∀ l', links m2 !! a = Some l' -> associated_nets l' ⊆ associated_nets l).
  { intros l' Hl'. destruct (tweak_assoc _ _ _ Ht l' Hl') as (l0 & Hl0 & Hsub). rewrite Hl1 in Hl0. injection Hl0 as <-.
    assert (associated_nets l1 = associated_nets l) as <- by (destruct l, l1; unfold bare in Hb; cbn in Hb; by simplify_eq).
    done. }
  destruct keep.
  - exists m2. split; [done|]. split; [by apply Ht|]. split; [done|]. split; [done|]. split; [|done]. split; [done|]. intros _.
    apply (tweak_dom _ _ _ Ht). by eauto.
  - exists (removed a m2). split; [done|]. split; [|split; [|split; [done|split]]].
    + apply removed_inv; [by apply Ht|]. intros c Hc'. apply Hm in Hc'. naive_solver.
    + eapply others_trans; [exact Ho|]. repeat split; try done. intros b Hba.
      change (links (removed a m2)) with (delete a (links m2)). by rewrite lookup_delete_ne.
    + change (links (removed a m2)) with (delete a (links m2)). rewrite lookup_delete_eq. split; [by intros []|done].
    + change (links (removed a m2)) with (delete a (links m2)). by rewrite lookup_delete_eq.
Qed.
End Manager.

(** ** Nets *)

Lemma net_count m n : net_ok m n -> ∃ c C, head (link_clusters n) = Some c /\ clusters m !! c = Some C /\
  dap_cluster_members_count m c = Some (Z.of_nat (length (members C))).
Proof.
  intros [Hne Hc]. destruct (link_clusters n) as [|c cs]; [done|]. destruct (Hc c) as [C HC]; [set_solver|].
  exists c, C. split; [done|]. split; [done|]. unfold dap_cluster_members_count. by rewrite HC.
Qed.

Lemma find_net_ok h l id :
  (∀ p, p ∈ l -> is_Some (h !! p)) ->
  (find_net h l id = Some None /\ ∀ p n, p ∈ l -> h !! p = Some n -> net_id n ≠ id) \/
  ∃ p n, find_net h l id = Some (Some p) /\ p ∈ l /\ h !! p = Some n /\ net_id n = id.
Proof.
  induction l as [|p l IH]; intros Hl; cbn [find_net].
  { left. split; [done|]. by intros ? ? ?%not_elem_of_nil. }
  destruct (Hl p) as [n Hn]; [set_solver|]. rewrite Hn. cbn [mbind option_bind].
  destruct (Z.eqb_spec (net_id n) id) as [Hid|Hid].
  - right. exists p, n. set_solver.
  - destruct IH as [[-> Hno]|(p' & n' & -> & ? & ?)]; [set_solver| |].
    + left. split; [done|]. intros q nq Hq Hnq. apply elem_of_cons in Hq as [->|Hq]; [congruence|by apply (Hno q)].
    + right. exists p', n'. set_solver.
Qed.

Lemma find_by_id_ok m id :
  refs m -> s_find_net_by_id m id = Some None \/
  ∃ p n, s_find_net_by_id m id = Some (Some p) /\ p ∈ nets m /\ net_heap m !! p = Some n /\ net_id n = id.
Proof.
  intros [_ _ [_ Hl]]. unfold s_find_net_by_id. destruct (id =? 0); [by left|].
  destruct (find_net_ok (net_heap m) (nets m) id) as [[-> _]|H]; [intros p; apply Hl|by left|by right].
Qed.

Lemma links_count_ok m id : refs m -> ∃ k, dap_link_manager_links_count m id = Some k.
Proof.
  intros Hr. unfold dap_link_manager_links_count. destruct (find_by_id_ok m id Hr) as [->|(p & n & -> & _ & Hn & _)]; [by eexists|].
  cbn [mbind option_bind]. rewrite Hn. cbn [mbind option_bind].
  destruct (net_count m n) as (c & C & -> & _ & Hk); [by apply (refs_nets m Hr p)|]. cbn [mbind option_bind]. by eexists.
Qed.

(** A net is changed in place. *)
Lemma alter_net_inv m p g :
  inv m -> (∀ n, net_ok m n -> net_ok m (g n)) -> inv (m{{net_heap ::= alter g p}}).
Proof.
  intros [[] [R1 R2 R3]] Hg. split; [done|].
  assert (Hd : ∀ q, is_Some (alter g p (net_heap m) !! q) <-> is_Some (net_heap m !! q)).
  { intros q. destruct (decide (p = q)) as [->|]; [|by rewrite lookup_alter_ne]. rewrite lookup_alter_eq. by rewrite fmap_is_Some. }
  split.
  - intros a l Hl. destruct (R1 a l Hl) as ([J0 J1] & J2 & J3). split; [|done]. split; [done|]. intros q Hq. by apply Hd, J1.
  - intros q n Hn. change (alter g p (net_heap m) !! q = Some n) in Hn.
    apply lookup_alter_Some in Hn as [(<- & n0 & Hn0 & ->)|[_ Hn0]]; [|by apply (R2 q)].
    apply Hg. by apply (R2 p).
  - split; [apply R3|]. intros q. change (q ∈ nets m <-> is_Some (alter g p (net_heap m) !! q)). rewrite Hd. apply R3.
Qed.

Definition good (r : option mgr) : Prop := ∃ m', r = Some m' /\ inv m'.

Lemma links_request_ok cb m : inv m -> good (s_links_request cb m).
Proof.
  intros Hi. unfold s_links_request.
  assert (H : ∀ l m, inv m -> (∀ p, p ∈ l -> p ∈ nets m) -> good (request_nets cb m l)).
  2:{ by apply H. }
  clear. induction l as [|p l IH]; intros m Hi Hl; cbn [request_nets]; [by exists m|].
  destruct (proj2 (refs_list m (proj2 Hi)) p) as [Hp _]. destruct Hp as [n Hn]; [apply Hl; set_solver|].
  rewrite Hn. cbn [mbind option_bind]. destruct (net_active n); [|apply IH; set_solver].
  destruct (links_count_ok m (net_id n) (proj2 Hi)) as [k ->]. cbn [mbind option_bind].
  assert (Hi' : inv (m{{net_heap ::= alter (λ n, n{{uplinks := wrap 32 k}}) p}})) by (apply alter_net_inv; [done|by intros ? []]).
  destruct (_ && _); apply IH; try done; try (by apply emits_inv); set_solver.
Qed.

(** ** Losing a link *)

Lemma drop_nets_ok m a permanent l kept :
  refs m -> (∀ p, p ∈ l -> is_Some (net_heap m !! p)) ->
  ∃ x kept', drop_nets m a permanent l kept = Some (emits x m, kept') /\ kept' `sublist_of` kept ++ l.
Proof.
  revert m kept. induction l as [|p l IH]; intros m kept Hr Hl; cbn [drop_nets].
  - exists [], kept. split; [|by rewrite app_nil_r]. do 2 f_equal. apply mgr_eq; try done. cbn. by rewrite app_nil_r.
  - destruct (Hl p) as [n Hn]; [set_solver|]. rewrite Hn. cbn [mbind option_bind].
    destruct (net_active n); cbn [negb].
    2:{ destruct (IH m kept) as (x & k' & -> & Hk'); [done|set_solver|]. exists x, k'. split; [done|].
        etransitivity; [done|]. apply sublist_app; [done|by apply sublist_cons]. }
    destruct (net_count m n) as (c & C & -> & _ & Hk); [by apply (refs_nets m Hr p)|]. cbn [mbind option_bind].
    rewrite Hk. cbn [mbind option_bind]. set (m1 := emits _ m). match goal with |- context [drop_nets m1 a permanent l ?k] => set (k1 := k) end.
    destruct (IH m1 k1) as (x & k' & -> & Hk'); [by destruct Hr|set_solver|].
    eexists _, k'. split; [do 2 f_equal; apply mgr_eq; try done; cbn; by rewrite <-app_assoc|].
    etransitivity; [done|]. unfold k1. destruct (permanent _ _ _); [by rewrite <-app_assoc|].
    apply sublist_app; [done|by apply sublist_cons].
Qed.

(** ** Creating a link *)

Definition new_link : dap_link := Link false [] LINK_STATE_DISCONNECTED 0 false 0 [] 0 0 false [] false.

Lemma new_link_inv m a :
  inv m -> links m !! a = None -> a ≠ 0 -> inv (m{{links ::= insert a new_link; link_order ::= λ o, o ++ [a] }}).
Proof.
  intros [[S1 S2 S3 S4 S5] [R1 R2 R3]] Hl Ha.
  assert (Hm : ∀ c, ~ memb m c a).
  { intros c (C & HC & Hin). destruct (proj2 (S5 c C HC) a Hin) as [? ?]. congruence. }
  assert (Hd : ∀ b, is_Some (<[a := new_link]> (links m) !! b) <-> is_Some (links m !! b) \/ b = a).
  { intros b. rewrite lookup_insert_is_Some. destruct (decide (a = b)) as [->|Hab]; [tauto|].
    split; [intros [Hx|Hx]; [done|left; apply Hx]|intros [Hx|Hx]; [by right|by left]]. }
  split; split; try done.
  - apply list.NoDup_app. split; [done|]. split; [|apply NoDup_singleton]. intros b Hb Hba. apply list_elem_of_singleton in Hba as ->.
    apply S2 in Hb as [? ?]. congruence.
  - intros b. change (b ∈ link_order m ++ [a] <-> is_Some (<[a := new_link]> (links m) !! b)).
    rewrite Hd, elem_of_app, S2, list_elem_of_singleton. done.
  - change (<[a := new_link]> (links m) !! 0 = None). by rewrite lookup_insert_ne.
  - intros b l Hb. change (<[a := new_link]> (links m) !! b = Some l) in Hb.
    apply lookup_insert_Some in Hb as [[<- <-]|[_ Hb]]; [|by apply S4].
    split; [constructor|]. intros c. split; [by intros ?%not_elem_of_nil|]. intros Hc. by destruct (Hm c).
  - intros c C HC. destruct (S5 c C HC) as [Hn Hin]. split; [done|]. intros b Hb. apply Hd. left. by apply Hin.
  - intros b l Hb. change (<[a := new_link]> (links m) !! b = Some l) in Hb.
    apply lookup_insert_Some in Hb as [[<- <-]|[_ Hb]]; [|by apply (R1 b)].
    split; [split; [constructor|by intros ? ?%not_elem_of_nil]|]. split; [by intros ? ?%not_elem_of_nil|done].
Qed.

Lemma link_create_ok m a wc id :
  inv m -> a ≠ 0 ->
  ∃ ok m', s_link_manager_link_create m a wc id = Some (ok, m') /\ inv m' /\ is_Some (links m' !! a) /\
           net_heap m' = net_heap m /\ clusters m' = clusters m /\
           (wc = false -> links m !! a = None -> links m' !! a = Some new_link).
Proof.
  intros Hi Ha. unfold s_link_manager_link_create, s_link_manager_link_find.
  rewrite (proj2 (Z.eqb_neq a 0)) by done.
  set (m1 := match links m !! a with Some _ => m | None => _ end).
  assert (Hi1 : inv m1) by (unfold m1; destruct (links m !! a) eqn:Hl; [done|by apply new_link_inv]).
  assert (He : net_heap m1 = net_heap m /\ clusters m1 = clusters m) by (unfold m1; by destruct (links m !! a)).
  assert (Hl1 : is_Some (links m1 !! a)).
  { unfold m1. destruct (links m !! a) eqn:Hl; [by eexists|]. exists new_link. apply lookup_insert_eq. }
  assert (Hnew : links m !! a = None -> links m1 !! a = Some new_link).
  { intros Hl. unfold m1. rewrite Hl. apply lookup_insert_eq. }
  destruct Hl1 as [l Hl]. rewrite Hl. cbn [mbind option_bind].
  destruct wc; cbn [negb]; [|exists true, m1; split; [done|]; split; [done|]; split; [by eauto|]; destruct He; auto].
  set (m2 := if client l then m1 else _).
  assert (Ht : tweak a m1 m2).
  { unfold m2. destruct (client l); [auto|]. apply tweak_emits, tweak_upd; [|auto]. split; [done|]. split; [done|].
    intros m0 l0 (J1 & J2 & J3). split; [done|]. by split. }
  assert (He2 : net_heap m2 = net_heap m /\ clusters m2 = clusters m) by (unfold m2; by destruct (client l)).
  assert (Hl2 : is_Some (links m2 !! a)) by (apply (tweak_dom _ _ _ Ht); by eauto).
  assert (Hi2 : inv m2) by by apply Ht.
  destruct (id =? _); [exists true, m2; split; [done|]; split; [done|]; split; [done|]; by destruct He2|].
  destruct (find_by_id_ok m2 id (proj2 Hi2)) as [->|(p & n & -> & Hp & Hn & Hid)]; cbn [mbind option_bind];
    [exists false, m2; split; [done|]; split; [done|]; split; [done|]; by destruct He2|].
  destruct (find_net_ok (net_heap m2) (associated_nets l) id) as [[-> Hno]|(p' & n' & -> & _)]; cbn [mbind option_bind].
  { intros q Hq. rewrite (proj1 He2), <-(proj1 He). by apply (refs_links m1 (proj2 Hi1) a l Hl). }
  2: exists false, m2; split; [done|]; split; [done|]; split; [done|]; by destruct He2.
  exists true. eexists. split; [done|]. split; [|split; [by apply upd_dom|by destruct He2]].
  assert (Has : ∀ l2, links m2 !! a = Some l2 -> associated_nets l2 ⊆ associated_nets l).
  { intros l2 Hl2'. destruct (tweak_assoc _ _ _ Ht l2 Hl2') as (l0 & Hl0 & Hsub). rewrite Hl in Hl0. by injection Hl0 as <-. }
  apply upd_inv; [done| |done]. intros l2 Hl2' ([J0 J1] & J2 & J3). split; [split|split; [done|]].
  - change (NoDup (associated_nets l2 ++ [p])). apply list.NoDup_app. split; [done|]. split; [|apply NoDup_singleton].
    intros q Hq Hqp. apply list_elem_of_singleton in Hqp as ->. by apply (Hno p n); [apply (Has l2)|..].
  - intros q Hq. change (q ∈ associated_nets l2 ++ [p]) in Hq. apply elem_of_app in Hq as [Hq|Hq]; [by apply J1|].
    apply list_elem_of_singleton in Hq as ->. by eauto.
  - intros Hc. exfalso. revert Hl2' Hc. unfold m2. destruct (client l) eqn:Hcl; intros Hl2'.
    + rewrite Hl in Hl2'. injection Hl2' as <-. change (client l = false -> False). congruence.
    + change (links (upd a (λ l0, l0{{client := true; uplink_port := 0}}) m1) !! a = Some l2) in Hl2'.
      rewrite links_upd, lookup_alter_eq, Hl in Hl2'. injection Hl2' as <-. done.
Qed.

Section Operations.
Variables max_attempts_num reconnect_delay : Z.
Variable cb : callbacks.
Variable now : Z.
Variable client_stage : Z -> Z.
Variable sockets : Z -> list Z.
Variable g_node_addr : Z.

Lemma link_drop_ok m a l disc :
  inv m -> links m !! a = Some l ->
  ∃ m', s_link_drop max_attempts_num reconnect_delay cb now sockets m a disc = Some m' /\ inv m' /\ others a m m'.
Proof.
  intros Hi Hl. unfold s_link_drop. rewrite Hl. cbn [mbind option_bind].
  destruct (refs_links m (proj2 Hi) a l Hl) as ([_ Hn] & Hst & Hc).
  destruct disc.
  - set (m1 := upd a _ m). assert (Ht1 : tweak a m m1) by (unfold m1; auto).
    destruct (_ <? _); [apply tweak_done; [done|]; destruct (client l); auto|].
    assert (Hk : ∃ x kept, match cb_disconnected cb with
        | Some permanent => drop_nets m1 a permanent (associated_nets l) []
        | None => Some (m1, associated_nets l) end = Some (emits x m1, kept) /\ kept `sublist_of` associated_nets l).
    { destruct (cb_disconnected cb) as [permanent|].
      - destruct (drop_nets_ok m1 a permanent (associated_nets l) []) as (x & kept & -> & Hk); [by apply Ht1|done|].
        by exists x, kept.
      - exists [], (associated_nets l). split; [|done]. do 2 f_equal. apply mgr_eq; try done. cbn. by rewrite app_nil_r. }
    destruct Hk as (x & kept & -> & Hk). cbn [mbind option_bind].
    set (m2 := upd a _ (emits x m1)).
    assert (Ht2 : tweak a m m2).
    { assert (Hl1 : ∃ l1, links (emits x m1) !! a = Some l1 /\ associated_nets l1 = associated_nets l).
      { change (links (emits x m1)) with (links m1). unfold m1. rewrite links_upd, lookup_alter_eq, Hl. by eexists. }
      destruct Hl1 as (l1 & Hl1 & Ha1). unfold m2. eapply tweak_kept; [done| |by auto]. by rewrite Ha1. }
    destruct (_ && _); [|apply tweak_done; [done|]; destruct (client l); auto].
    destruct (proj2 (tweak_dom _ _ _ Ht2 a)) as [l2 Hl2]; [by eauto|].
    destruct (link_delete_ok cb sockets m2 a l2 false false) as (m' & -> & Hi' & Ho & _); [by apply Ht2|done|].
    exists m'. split; [done|]. split; [done|]. eapply others_trans; [apply Ht2|done].
  - destruct (cb_error cb); [|by exists m].
    assert (Hx : ∃ x, (if negb (bool_decide (associated_nets l = [])) && negb (client l) then None
         else call_nets m (CallError a) (associated_nets l)) = Some (emits x m)).
    { destruct (call_nets_ok m (CallError a) (associated_nets l)) as [x ->]; [apply Hi|done|]. exists x.
      destruct (client l) eqn:Hcl; [by rewrite andb_false_r|]. rewrite bool_decide_true; [done|]. by apply Hc. }
    destruct Hx as [x ->]. cbn [mbind option_bind].
    case_bool_decide.
    + set (m1 := upd a _ (emits x m)). assert (Ht1 : tweak a m m1) by (unfold m1; auto).
      destruct (proj2 (tweak_dom _ _ _ Ht1 a)) as [l2 Hl2]; [by eauto|].
      destruct (link_delete_ok cb sockets m1 a l2 false true) as (m' & -> & Hi' & Ho & _); [by apply Ht1|done|].
      exists m'. split; [done|]. split; [done|]. eapply others_trans; [apply Ht1|done].
    + destruct (negb _); [apply tweak_done; [done|]; destruct (client l); auto|]. apply tweak_done; by auto.
Qed.

Lemma call_connected_ok m a l :
  refs m -> (∀ p, p ∈ l -> is_Some (net_heap m !! p)) -> ∃ x, call_connected m a l = Some (emits x m).
Proof.
  revert m. induction l as [|p l IH]; intros m Hr Hl; cbn [call_connected].
  - exists []. f_equal. apply mgr_eq; try done. cbn. by rewrite app_nil_r.
  - destruct (Hl p) as [n Hn]; [set_solver|]. rewrite Hn. cbn [mbind option_bind].
    destruct (net_count m n) as (c & C & -> & HC & _); [by apply (refs_nets m Hr p)|]. cbn [mbind option_bind].
    rewrite HC. cbn [mbind option_bind]. case_bool_decide.
    + apply IH; [done|set_solver].
    + destruct (IH (emits [CallConnected a (net_id n)] m)) as [x ->]; [by destruct Hr|set_solver|].
      eexists. f_equal. apply mgr_eq; try done. cbn. by rewrite <-app_assoc.
Qed.

Lemma have_enabled_ok m l : (∀ c, c ∈ l -> is_Some (clusters m !! c)) -> ∃ b, s_link_have_clusters_enabled m l = Some b.
Proof.
  induction l as [|c l IH]; intros Hl; cbn [s_link_have_clusters_enabled]; [by eexists|].
  destruct (Hl c) as [C ->]; [set_solver|]. cbn [mbind option_bind]. destruct (enabled C); [by eexists|]. apply IH. set_solver.
Qed.

Lemma wake_up_ok m a l :
  inv m -> links m !! a = Some l ->
  ∃ m', wake_up max_attempts_num reconnect_delay cb now client_stage sockets m a = Some m' /\ inv m' /\ others a m m'.
Proof.
  intros Hi Hl. unfold wake_up. rewrite Hl. cbn [mbind option_bind].
  destruct (refs_links m (proj2 Hi) a l Hl) as ([_ Hn] & Hst & Hc).
  destruct (negb (client l)); [by exists m|].
  assert (Hx : ∃ x, (if cb_connected cb && bool_decide (link_state l = LINK_STATE_ESTABLISHED) && (start_after l <? now)
       then call_connected m a (associated_nets l) else Some m) = Some (emits x m)).
  { destruct (_ && _ && _); [by apply call_connected_ok; [apply Hi|]|]. exists []. f_equal. apply mgr_eq; try done. cbn. by rewrite app_nil_r. }
  destruct Hx as [x ->]. cbn [mbind option_bind].
  destruct (negb _); [apply tweak_done; by auto|]. destruct (negb _); [apply tweak_done; by auto|].
  assert (Hh : ∃ b, (if bool_decide (associated_nets l = []) then s_link_have_clusters_enabled (emits x m) (static_clusters l)
    else Some true) = Some b) by (case_bool_decide; [by apply have_enabled_ok|by eexists]).
  destruct Hh as [b ->]. cbn [mbind option_bind].
  destruct (negb b); [apply tweak_done; by auto|]. destruct (_ <=? _); [apply tweak_done; by auto|].
  destruct (negb _); [apply tweak_done; by auto|]. destruct (negb _); [apply tweak_done; by auto|].
  destruct (negb _); [apply tweak_done; [done|]; unfold s_link_connect; by auto|].
  set (m1 := emits _ (emits x m)). assert (Ht : tweak a m m1) by (unfold m1; auto).
  destruct (link_drop_ok m1 a l true) as (m' & -> & Hi' & Ho); [by apply Ht|done|].
  exists m'. split; [done|]. split; [done|]. eapply others_trans; [apply Ht|done].
Qed.

Lemma wake_up_links_ok l m :
  inv m -> NoDup l -> (∀ a, a ∈ l -> is_Some (links m !! a)) ->
  good (wake_up_links max_attempts_num reconnect_delay cb now client_stage sockets m l).
Proof.
  intros Hi Hn. revert m Hi. induction Hn as [|a l Ha Hn IH]; intros m Hi Hl; cbn [wake_up_links]; [by exists m|].
  destruct (Hl a) as [k Hk]; [set_solver|].
  destruct (wake_up_ok m a k Hi Hk) as (m1 & -> & Hi1 & Ho). cbn [mbind option_bind]. apply IH; [done|].
  intros b Hb. apply (others_dom a m m1); [done|set_solver|]. apply Hl. set_solver.
Qed.

Lemma update_states_ok m :
  inv m -> good (s_update_states max_attempts_num reconnect_delay cb now client_stage sockets m).
Proof.
  intros Hi. unfold s_update_states. destruct (negb (active m)); [by exists m|].
  assert (H : good (if l_wakeup_mode m
    then s_links_wake_up max_attempts_num reconnect_delay cb now client_stage sockets m else s_links_request cb m)).
  { destruct (l_wakeup_mode m); [|by apply links_request_ok]. apply wake_up_links_ok; [done|apply Hi|]. intros a. apply Hi. }
  destruct H as (m1 & -> & Hi1). eexists; split; [done|]. by destruct Hi1 as [[] []].
Qed.

Lemma tweak_good a m m' : inv m -> tweak a m m' -> good (Some m').
Proof. intros Hi Ht. exists m'. split; [done|by apply Ht]. Qed.

Lemma link_find_lookup m a l : s_link_manager_link_find m a = Some l -> links m !! a = Some l /\ a ≠ 0.
Proof. unfold s_link_manager_link_find. destruct (Z.eqb_spec a 0); [done|]. done. Qed.

Lemma drop_callback_ok m a d :
  inv m -> good (s_link_drop_callback max_attempts_num reconnect_delay cb now sockets m a d).
Proof.
  intros Hi. unfold s_link_drop_callback. destruct (s_link_manager_link_find m a) as [l|] eqn:Hl; [|by exists m].
  apply link_find_lookup in Hl as [Hl _]. destruct (link_drop_ok m a l d Hi Hl) as (m' & -> & Hi' & _). by exists m'.
Qed.

Lemma connected_callback_ok m a uuid : inv m -> is_Some (links m !! a) -> good (s_client_connected_callback m a uuid).
Proof.
  intros Hi [l Hl]. unfold s_client_connected_callback. rewrite Hl. cbn [mbind option_bind].
  apply (tweak_good a m); [done|]. by auto.
Qed.

Lemma link_update_ok m a host port : inv m -> good (s_link_update_callback m a host port).
Proof.
  intros Hi. unfold s_link_update_callback, s_link_connect. destruct (s_link_manager_link_find m a) as [l|]; [|by exists m].
  destruct (negb _); [by exists m|]. destruct (negb _); [apply (tweak_good a m); by auto|].
  destruct (_ || _), (ready l); apply (tweak_good a m); auto 10.
Qed.

Lemma dap_link_create_ok m a id : inv m -> ∃ rc m', dap_link_manager_link_create g_node_addr m a id = Some (rc, m') /\ inv m'.
Proof.
  intros Hi. unfold dap_link_manager_link_create. destruct (Z.eqb_spec a 0); [by eexists _, m|].
  destruct (a =? g_node_addr); [by eexists _, m|].
  destruct (link_create_ok m a true id) as (ok & m' & -> & Hi' & _); [done..|]. cbn [mbind option_bind].
  eexists _, _. split; [done|]. by apply emits_inv.
Qed.

(** ** Streams *)

Lemma count_changed_inv m : inv m -> inv (count_changed cb m).
Proof. intros Hi. unfold count_changed. destruct (cb_link_count_changed cb); [by apply emits_inv|done]. Qed.

Lemma count_changed_same m : same m (count_changed cb m).
Proof. unfold count_changed. by destruct (cb_link_count_changed cb). Qed.

Lemma count_changed_memb m c b : memb (count_changed cb m) c b <-> memb m c b.
Proof. unfold count_changed. by destruct (cb_link_count_changed cb). Qed.

Lemma same_dom m m' a : same m m' -> is_Some (links m' !! a) <-> is_Some (links m !! a).
Proof.
  intros (_ & _ & _ & _ & H & _). apply (f_equal (lookup a)) in H. rewrite !lookup_fmap in H.
  destruct (links m !! a), (links m' !! a); try done; split; by eexists.
Qed.

Lemma members_add_inv m c a :
  inv m -> is_Some (clusters m !! c) -> is_Some (links m !! a) ->
  ∃ m', dap_cluster_member_add m c a = Some m' /\ inv (count_changed cb m') /\ same m (count_changed cb m') /\
        ∀ c' b, memb (count_changed cb m') c' b <-> memb m c' b \/ (c' = c /\ b = a).
Proof.
  intros [Hs Hr] Hc Hl. destruct (member_add_ok m c a Hs Hc Hl) as (m' & -> & Hs' & Hm & He).
  exists m'. split; [done|]. split; [|split].
  - apply count_changed_inv. split; [done|by apply (same_refs m)].
  - transitivity m'; [done|apply count_changed_same].
  - intros c' b. by rewrite count_changed_memb.
Qed.

Lemma add_static_ok l m a :
  inv m -> (∀ c, c ∈ l -> is_Some (clusters m !! c)) -> is_Some (links m !! a) ->
  ∃ m', add_static cb m a l = Some m' /\ inv m' /\ same m m'.
Proof.
  revert m. induction l as [|c l IH]; intros m Hi Hl Ha; cbn [add_static].
  - exists m. split; [done|]. split; [done|]. reflexivity.
  - destruct (Hl c) as [C HC]; [set_solver|]. rewrite HC. cbn [mbind option_bind]. destruct (enabled C); [|apply IH; [done|set_solver|done]].
    destruct (members_add_inv m c a) as (m1 & -> & Hi1 & Hm1 & _); [done|by eauto|done|]. cbn [mbind option_bind].
    destruct (IH (count_changed cb m1)) as (m' & -> & Hi' & Hm'); [done| |by apply (same_dom m)|].
    { intros c' Hc'. apply (same_cluster m); [done|]. apply Hl. set_solver. }
    exists m'. split; [done|]. split; [done|]. by transitivity (count_changed cb m1).
Qed.

Lemma connect_nets_ok l m a :
  (∀ p, p ∈ l -> is_Some (net_heap m !! p)) -> ∃ x, connect_nets cb m a l = Some (emits x m).
Proof.
  revert m. induction l as [|p l IH]; intros m Hl; cbn [connect_nets].
  - exists []. f_equal. apply mgr_eq; try done. cbn. by rewrite app_nil_r.
  - destruct (Hl p) as [n ->]; [set_solver|]. cbn [mbind option_bind]. destruct (_ && _); [|apply IH; set_solver].
    destruct (IH (emits [CallConnected a (net_id n)] m)) as [x ->]; [set_solver|].
    eexists. f_equal. apply mgr_eq; try done. cbn. by rewrite <-app_assoc.
Qed.

(** A stream in the direction of the link has a client. *)
Definition uplink_ok (m : mgr) (a : Z) (uplink : bool) : Prop :=
  uplink = true -> ∀ l, links m !! a = Some l -> client l = true.

Lemma set_uplink_inv m m1 a uplink :
  same m m1 -> uplink_ok m a uplink -> inv m1 -> inv (upd a (λ l, l{{is_uplink := uplink}}) m1).
Proof.
  intros Hm Hu Hi. apply upd_inv; [done| |done]. intros l Hl (J1 & J2 & J3). split; [done|]. split; [done|].
  intros Hc. change (client l = false) in Hc. destruct (J3 Hc) as [Hn _]. split; [done|]. change (uplink = false).
  destruct uplink; [exfalso|done]. destruct (same_link m m1 a l Hm Hl) as (l0 & Hl0 & Hb).
  specialize (Hu eq_refl l0 Hl0). assert (client l = client l0) by (destruct l, l0; unfold bare in Hb; cbn in Hb; by simplify_eq).
  congruence.
Qed.

Lemma stream_add_ok m a uplink : inv m -> a ≠ 0 -> uplink_ok m a uplink -> good (s_stream_add_callback cb m a uplink).
Proof.
  intros Hi Ha Hu. unfold s_stream_add_callback.
  assert (Hc : ∃ m1 l1, (match s_link_manager_link_find m a with
             | None =>
               if uplink then Some (m, None)
               else '(_, m) ← s_link_manager_link_create m a false DAP_NET_ID_INVALID; Some (m, links m !! a)
             | Some l => Some (m, Some l) end) = Some (m1, l1) /\ inv m1 /\ uplink_ok m1 a uplink /\
             ∀ l, l1 = Some l -> links m1 !! a = Some l).
  { destruct (s_link_manager_link_find m a) as [l|] eqn:Hl.
    - apply link_find_lookup in Hl as [Hl _]. exists m, (Some l). split; [done|]. split; [done|]. split; [done|]. naive_solver.
    - destruct uplink; [by exists m, None|].
      destruct (link_create_ok m a false DAP_NET_ID_INVALID) as (ok & m1 & -> & Hi1 & _); [done..|]. cbn [mbind option_bind].
      by exists m1, (links m1 !! a). }
  destruct Hc as (m1 & l1 & -> & Hi1 & Hu1 & Hl1). cbn [mbind option_bind].
  destruct l1 as [l|]; [|by exists m1]. specialize (Hl1 l eq_refl).
  destruct (refs_links m1 (proj2 Hi1) a l Hl1) as ([_ Hn] & Hst & _).
  destruct (negb _); [by exists m1|].
  destruct (add_static_ok (static_clusters l) m1 a) as (m2 & -> & Hi2 & Hm2); [done|done|by eauto|]. cbn [mbind option_bind].
  assert (Hx : ∃ x, (if uplink then connect_nets cb m2 a (associated_nets l) else Some m2) = Some (emits x m2)).
  { destruct uplink; [|exists []; f_equal; apply mgr_eq; try done; cbn; by rewrite app_nil_r].
    apply connect_nets_ok. intros p Hp. destruct Hm2 as (_ & -> & _). by apply Hn. }
  destruct Hx as [x ->]. cbn [mbind option_bind]. eexists; split; [done|].
  apply (set_uplink_inv m1); [by transitivity m2|done|by apply emits_inv].
Qed.

Lemma stream_replace_ok m a uplink : inv m -> uplink_ok m a uplink -> good (s_stream_replace_callback m a uplink).
Proof.
  intros Hi Hu. unfold s_stream_replace_callback. destruct (s_link_manager_link_find m a) as [l|] eqn:Hl; [|by exists m].
  apply link_find_lookup in Hl as [Hl _]. case_bool_decide; [by exists m|].
  destruct (refs_links m (proj2 Hi) a l Hl) as ([_ Hn] & Hst & Hc).
  destruct (is_uplink l && negb uplink) eqn:Hb.
  - apply andb_true_iff in Hb as [Hup ->%negb_true_iff]. destruct (client l) eqn:Hcl; [|by destruct (Hc eq_refl); congruence].
    cbn [negb mbind option_bind]. eexists; split; [done|]. apply (upd_inv a (λ l, l{{is_uplink := false}})); [done| |].
    + intros l0 Hl0 (J1 & J2 & J3). split; [done|]. split; [done|]. intros Hf. split; [by apply J3|done].
    + apply (tweak_inv a m); [by auto|done].
  - cbn [mbind option_bind]. eexists; split; [done|]. by apply (set_uplink_inv m).
Qed.

Lemma stream_delete_ok m a : inv m -> good (s_stream_delete_callback cb sockets m a).
Proof.
  intros Hi. unfold s_stream_delete_callback. destruct (s_link_manager_link_find m a) as [l|] eqn:Hl; [|by exists m].
  apply link_find_lookup in Hl as [Hl _]. case_bool_decide; [by exists m|].
  set (m1 := upd a _ m). assert (Ht : tweak a m m1) by (unfold m1; auto). assert (Hi1 : inv m1) by by apply Ht.
  destruct (delete_from_ok m1 (active_clusters l) a) as (m2 & -> & Hs2 & Hm2 & He2); [apply Hi1| |].
  { intros c Hc. apply (sync_active m (proj1 Hi) a l Hl) in Hc as (C & HC & _). by exists C. }
  cbn [mbind option_bind]. assert (Hi2 : inv (count_changed cb m2)).
  { apply count_changed_inv. split; [done|]. apply (same_refs m1); [done|apply Hi1]. }
  destruct (client l); [by eexists|].
  assert (Hd : is_Some (links (count_changed cb m2) !! a)).
  { apply (same_dom m1); [transitivity m2; [done|apply count_changed_same]|]. apply (tweak_dom _ _ _ Ht). by eauto. }
  destruct Hd as [l2 Hl2]. destruct (link_delete_ok cb sockets _ a l2 false false Hi2 Hl2) as (m' & -> & Hi' & _). by exists m'.
Qed.

(** ** Accounting *)

Lemma account_ok l m a first statics :
  inv m -> is_Some (links m !! a) -> (∀ c, c ∈ l -> is_Some (clusters m !! c)) ->
  (∀ c C, c ∈ l -> clusters m !! c = Some C -> enabled C = true) ->
  good (account cb m a first l statics).
Proof.
  revert m first. induction l as [|c l IH]; intros m first Hi Ha Hl Hen; cbn [account]; [by exists m|].
  destruct (Hl c) as [C HC]; [set_solver|].
  assert (H : ∃ m1, (if first then m ← dap_cluster_member_add m c a; Some (count_changed cb m)
         else if bool_decide (c ∈ statics) then
           C ← clusters m !! c;
           if negb (enabled C) then None
           else m ← dap_cluster_member_add m c a; Some (count_changed cb m)
         else Some m) = Some m1 /\ inv m1 /\ same m m1).
  { destruct (members_add_inv m c a) as (m1 & Hadd & Hi1 & Hm1 & _); [done|by eauto|done|].
    rewrite Hadd, HC. cbn [mbind option_bind]. rewrite (Hen c C) by (done || set_solver). cbn [negb].
    destruct first; [by eauto|]. case_bool_decide; [by eauto|]. exists m. split; [done|]. split; [done|reflexivity]. }
  destruct H as (m1 & -> & Hi1 & Hm1). cbn [mbind option_bind]. apply IH; [done|by apply (same_dom m)| |].
  - intros c' Hc'. apply (same_cluster m); [done|]. apply Hl. set_solver.
  - intros c' C' Hc' HC'. destruct Hm1 as (_ & _ & _ & _ & _ & Hb). apply (f_equal (lookup c')) in Hb.
    rewrite !lookup_fmap, HC' in Hb. destruct (clusters m !! c') as [C0|] eqn:HC0; [|done]. cbn in Hb.
    injection Hb as ->. apply (Hen c'); [set_solver|done].
Qed.

Lemma accounting_ok m a p no_error n :
  inv m -> net_heap m !! p = Some n ->
  (no_error = true -> net_active n = true /\ ∀ c C, c ∈ link_clusters n -> clusters m !! c = Some C -> enabled C = true) ->
  good (s_link_accounting_callback reconnect_delay cb now sockets m a p no_error).
Proof.
  intros Hi Hn Hok. unfold s_link_accounting_callback.
  destruct (s_link_manager_link_find m a) as [l|] eqn:Hl; [|by exists m]. apply link_find_lookup in Hl as [Hl _].
  rewrite Hn. cbn [mbind option_bind]. destruct (refs_nets m (proj2 Hi) p n Hn) as [Hne Hcl].
  destruct no_error.
  { destruct (Hok eq_refl) as [-> Hen]. cbn [negb]. apply account_ok; [done|by eauto|done|done]. }
  destruct (delete_from_ok m (link_clusters n) a) as (m1 & -> & Hs1 & Hm1 & _); [apply Hi|done|]. cbn [mbind option_bind].
  assert (Hi1 : inv m1) by (split; [done|by apply (same_refs m); [|apply Hi]]).
  assert (Hm2 : same m (count_changed cb m1)) by (transitivity m1; [done|apply count_changed_same]).
  set (m2 := upd a _ (count_changed cb m1)).
  assert (Ht2 : tweak a (count_changed cb m1) m2) by (unfold m2; auto).
  assert (Hi2 : inv m2) by (apply Ht2; by apply count_changed_inv).
  assert (Hd : is_Some (links m2 !! a)) by (apply (tweak_dom _ _ _ Ht2), (same_dom m); [done|by eauto]).
  assert (H : ∃ x keep, match cb_disconnected cb with
       | None => Some (m2, false)
       | Some permanent =>
         c ← head (link_clusters n); k ← dap_cluster_members_count m2 c;
         Some (emits [CallDisconnected a (net_id n) k] m2, permanent a (net_id n) k) end = Some (emits x m2, keep)).
  { destruct (cb_disconnected cb) as [permanent|].
    - destruct (net_count m2 n) as (c & C & -> & _ & Hk).
      { apply (refs_nets m2 (proj2 Hi2) p). change (net_heap (count_changed cb m1) !! p = Some n).
        by destruct Hm2 as (_ & -> & _). }
      cbn [mbind option_bind]. rewrite Hk. cbn [mbind option_bind]. by eexists _, _.
    - exists [], false. do 2 f_equal. apply mgr_eq; try done. cbn. by rewrite app_nil_r. }
  destruct H as (x & keep & ->). cbn [mbind option_bind].
  destruct keep; [eexists; split; [done|by apply emits_inv]|].
  destruct Hd as [l2 Hl2]. set (m3 := upd a _ (emits x m2)).
  assert (Hi3 : inv m3).
  { unfold m3. apply upd_inv; [done| |by apply emits_inv]. intros l0 _ ([J0 J1] & J2 & J3). split; [|split; [done|]].
    - split; [by apply (dap_list_remove_NoDup _ p)|]. intros q Hq. apply J1. by apply (dap_list_remove_subset _ p).
    - intros Hc. destruct (J3 Hc) as [Hnil Hu]. split; [|done]. change (dap_list_remove (associated_nets l0) p = []). by rewrite Hnil. }
  assert (Hd3 : is_Some (links m3 !! a)) by (apply upd_dom; by eexists).
  destruct Hd3 as [l3 Hl3]. rewrite Hl3. cbn [mbind option_bind].
  destruct (_ && _ && _); [|by exists m3].
  destruct (link_delete_ok cb sockets m3 a l3 false false Hi3 Hl3) as (m' & -> & Hi' & _). by exists m'.
Qed.

(** ** Static links *)

Lemma add_static_cluster_ok m a c :
  inv m -> a ≠ 0 -> is_Some (clusters m !! c) -> good (dap_link_manager_add_static_links_cluster g_node_addr m a c).
Proof.
  intros Hi Ha Hc. unfold dap_link_manager_add_static_links_cluster. destruct (a =? g_node_addr); [by exists m|].
  assert (H : ∃ m1, (match s_link_manager_link_find m a with
       | Some _ => Some m
       | None => '(_, m) ← s_link_manager_link_create m a true DAP_NET_ID_INVALID; Some m end) = Some m1 /\
       inv m1 /\ clusters m1 = clusters m).
  { destruct (s_link_manager_link_find m a); [by exists m|].
    destruct (link_create_ok m a true DAP_NET_ID_INVALID) as (ok & m1 & -> & Hi1 & _ & _ & Hcl & _); [done..|].
    by exists m1. }
  destruct H as (m1 & -> & Hi1 & Hcl). cbn [mbind option_bind]. eexists; split; [done|].
  apply upd_inv; [done| |done]. intros l _ (J1 & J2 & J3). split; [done|]. split; [|done].
  intros c' Hc'. change (c' ∈ static_clusters l ++ [c]) in Hc'. apply elem_of_app in Hc' as [Hc'|Hc']; [by apply J2|].
  apply list_elem_of_singleton in Hc' as ->. by rewrite Hcl.
Qed.

Lemma remove_static_cluster_ok m a c :
  inv m -> good (dap_link_manager_remove_static_links_cluster cb sockets m a c).
Proof.
  intros Hi. unfold dap_link_manager_remove_static_links_cluster.
  destruct (s_link_manager_link_find m a) as [l|] eqn:Hl; [|by exists m]. apply link_find_lookup in Hl as [Hl _].
  set (m1 := upd a _ m). assert (Hi1 : inv m1).
  { unfold m1. apply upd_inv; [done| |done]. intros l0 _ (J1 & J2 & J3). split; [done|]. split; [|done].
    intros c' Hc'. apply J2. by apply (dap_list_remove_subset _ c). }
  assert (Hd : is_Some (links m1 !! a)) by (apply upd_dom; by eexists). destruct Hd as [l1 Hl1]. rewrite Hl1.
  cbn [mbind option_bind]. destruct (_ && _); [|by exists m1].
  destruct (link_delete_ok cb sockets m1 a l1 false true Hi1 Hl1) as (m' & -> & Hi' & _). by exists m'.
Qed.

(** ** The condition of a net *)

(** The tables apart from the status and the members of clusters. *)
Definition same_nets (m m' : mgr) : Prop :=
  nets m' = nets m /\ net_heap m' = net_heap m /\ nets_lock m' = nets_lock m /\ link_order m' = link_order m /\
  (∀ a, is_Some (links m' !! a) <-> is_Some (links m !! a)) /\ ∀ c, is_Some (clusters m' !! c) <-> is_Some (clusters m !! c).

Lemma same_same_nets m m' : same m m' -> same_nets m m'.
Proof.
  intros Hm. pose proof Hm as (H1 & H2 & H3 & H4 & _). repeat (split; [done|]). split; intros.
  - by apply same_dom.
  - by apply same_cluster.
Qed.

Lemma set_enabled_inv m c b : inv m -> inv (m{{clusters ::= alter (λ C, C{{enabled := b}}) c}}).
Proof.
  set (m' := m{{clusters ::= _}}). intros [[S1 S2 S3 S4 S5] [R1 R2 R3]].
  assert (Hl : ∀ c' C, clusters m' !! c' = Some C -> ∃ C0, clusters m !! c' = Some C0 /\ members C0 = members C).
  { intros c' C HC. change (alter (λ C, C{{enabled := b}}) c (clusters m) !! c' = Some C) in HC.
    apply lookup_alter_Some in HC as [(<- & C0 & HC0 & ->)|[_ HC]]; [|by exists C]. by exists C0. }
  assert (Hl' : ∀ c' C0, clusters m !! c' = Some C0 -> ∃ C, clusters m' !! c' = Some C /\ members C = members C0).
  { intros c' C0 HC0. change (clusters m') with (alter (λ C, C{{enabled := b}}) c (clusters m)).
    destruct (decide (c = c')) as [<-|]; [rewrite lookup_alter_eq, HC0; by eexists|].
    rewrite lookup_alter_ne by done. by exists C0. }
  assert (Hm : ∀ c' a, memb m' c' a <-> memb m c' a).
  { intros c' a. split; intros (C & HC & Ha).
    - apply Hl in HC as (C0 & HC0 & He). exists C0. by rewrite He.
    - apply Hl' in HC as (C0 & HC0 & He). exists C0. by rewrite He. }
  assert (Hd : ∀ c', is_Some (clusters m !! c') -> is_Some (clusters m' !! c')).
  { intros c' [C HC]. apply Hl' in HC as (C0 & HC0 & _). by eauto. }
  split; split; try done.
  - intros a l Hal. destruct (S4 a l Hal) as [Hn Ha]. split; [done|]. intros c'. by rewrite Hm.
  - intros c' C HC. apply Hl in HC as (C0 & HC0 & <-). by apply (S5 c').
  - intros a l Hal. destruct (R1 a l Hal) as (J1 & J2 & J3). split; [done|]. split; [|done]. intros c' Hc'. by apply Hd, J2.
  - intros p n Hn. destruct (R2 p n Hn) as [J1 J2]. split; [done|]. intros c' Hc'. by apply Hd, J2.
Qed.

Lemma set_conditions_ok l m b :
  inv m -> (∀ c, c ∈ l -> is_Some (clusters m !! c)) ->
  ∃ m', set_conditions m b l = Some m' /\ inv m' /\ same_nets m m'.
Proof.
  revert m. induction l as [|c l IH]; intros m Hi Hl; cbn [set_conditions]; [by exists m|].
  destruct (Hl c) as [C HC]; [set_solver|]. rewrite HC. cbn [mbind option_bind].
  set (m1 := m{{clusters ::= _}}). assert (Hi1 : inv m1) by by apply set_enabled_inv.
  assert (Hd : ∀ c', is_Some (clusters m1 !! c') <-> is_Some (clusters m !! c')).
  { intros c'. change (clusters m1) with (alter (λ C, C{{enabled := b}}) c (clusters m)).
    destruct (decide (c = c')) as [<-|]; [|by rewrite lookup_alter_ne]. rewrite lookup_alter_eq. by rewrite fmap_is_Some. }
  assert (H : ∃ m2, (if b then Some m1 else dap_cluster_delete_all_members m1 c) = Some m2 /\ inv m2 /\ same m1 m2).
  { destruct b; [exists m1; split; [done|]; split; [done|reflexivity]|].
    destruct (delete_all_ok m1 c) as (m2 & -> & Hs2 & Hm2 & _); [apply Hi1|apply Hd; by eexists|].
    exists m2. split; [done|]. split; [|done]. split; [done|]. apply (same_refs m1); [done|apply Hi1]. }
  destruct H as (m2 & -> & Hi2 & Hm2). cbn [mbind option_bind].
  pose proof (same_same_nets m1 m2 Hm2) as (E1 & E2 & E3 & E4 & E5 & E6).
  destruct (IH m2 Hi2) as (m' & -> & Hi' & (F1 & F2 & F3 & F4 & F5 & F6)).
  { intros c' Hc'. apply E6, Hd, Hl. set_solver. }
  exists m'. split; [done|]. split; [done|].
  split; [by rewrite F1, E1|]. split; [by rewrite F2, E2|]. split; [by rewrite F3, E3|]. split; [by rewrite F4, E4|].
  split; intros x; [by rewrite F5, E5|by rewrite F6, E6, Hd].
Qed.

Lemma forget_net_ok m p a l :
  inv m -> links m !! a = Some l ->
  ∃ m', forget_net cb sockets m p a = Some m' /\ inv m' /\ others a m m' /\
        ∀ l', links m' !! a = Some l' -> p ∉ associated_nets l'.
Proof.
  intros Hi Hl. unfold forget_net. rewrite Hl. cbn [mbind option_bind].
  case_bool_decide as Hp; cbn [negb].
  2:{ exists m. split; [done|]. split; [done|]. split; [done|]. intros l'. rewrite Hl. by intros [= <-]. }
  set (m1 := upd a _ m). destruct (refs_links m (proj2 Hi) a l Hl) as ([Hnd _] & _ & _).
  assert (Hno : p ∉ dap_list_remove (associated_nets l) p) by (rewrite dap_list_remove_elem by done; tauto).
  assert (Ht : tweak a m m1).
  { unfold m1. eapply tweak_kept; [done| |by auto]. clear. induction (associated_nets l) as [|q k IH]; cbn; [done|].
    destruct (q =? p); [by apply sublist_cons|]. by apply sublist_skip. }
  assert (Hl1 : ∃ l1, links m1 !! a = Some l1 /\ associated_nets l1 = dap_list_remove (associated_nets l) p).
  { unfold m1. rewrite links_upd, lookup_alter_eq, Hl. by eexists. }
  destruct Hl1 as (l1 & Hl1 & Ha1). case_bool_decide.
  - destruct (link_delete_ok cb sockets m1 a l1 false false) as (m' & -> & Hi' & Ho & _ & _ & Hsub); [by apply Ht|done|].
    exists m'. split; [done|]. split; [done|]. split; [by eapply others_trans; [apply Ht|]|].
    intros l' Hl' Hin. apply Hno. rewrite <-Ha1. by apply (Hsub l').
  - exists m1. split; [done|]. split; [by apply Ht|]. split; [apply Ht|]. intros l'. rewrite Hl1. intros [= <-]. by rewrite Ha1.
Qed.

Lemma others_assoc a m m' b l' :
  others a m m' -> b ≠ a -> links m' !! b = Some l' -> ∃ l, links m !! b = Some l /\ associated_nets l' = associated_nets l.
Proof.
  intros (_ & _ & _ & H & _) Hb Hl'. specialize (H b Hb). rewrite Hl' in H.
  destruct (links m !! b) as [l|]; [|done]. exists l. split; [done|]. destruct l, l'. cbn in H. by simplify_eq.
Qed.

Lemma forget_nets_ok l m p :
  inv m -> NoDup l -> (∀ a, a ∈ l -> is_Some (links m !! a)) ->
  (∀ a k, links m !! a = Some k -> a ∉ l -> p ∉ associated_nets k) ->
  ∃ m', forget_nets cb sockets m p l = Some m' /\ inv m' /\ nets m' = nets m /\ net_heap m' = net_heap m /\
        nets_lock m' = nets_lock m /\ ∀ a k, links m' !! a = Some k -> p ∉ associated_nets k.
Proof.
  intros Hi Hn. revert m Hi. induction Hn as [|a l Ha Hn IH]; intros m Hi Hl Hp; cbn [forget_nets].
  - exists m. repeat (split; [done|]). intros a k Hk. apply (Hp a k Hk). apply not_elem_of_nil.
  - destruct (Hl a) as [k Hk]; [set_solver|].
    destruct (forget_net_ok m p a k Hi Hk) as (m1 & -> & Hi1 & Ho & Hf). cbn [mbind option_bind].
    destruct (IH m1 Hi1) as (m' & -> & Hi' & E1 & E2 & E3 & E4).
    + intros b Hb. apply (others_dom a m m1); [done|set_solver|]. apply Hl. set_solver.
    + intros b kb Hkb Hb. destruct (decide (b = a)) as [->|Hba]; [by apply (Hf kb)|].
      destruct (others_assoc a m m1 b kb Ho Hba Hkb) as (k0 & Hk0 & ->). apply (Hp b k0 Hk0). set_solver.
    + destruct Ho as (F1 & F2 & F3 & _). exists m'. split; [done|]. split; [done|].
      split; [congruence|]. split; [congruence|]. split; [congruence|done].
Qed.

Lemma set_net_condition_ok m id b :
  inv m ->
  ∃ m', dap_link_manager_set_net_condition cb sockets m id b = Some m' /\ inv m' /\ nets m' = nets m /\
        ∀ p n, s_find_net_by_id m id = Some (Some p) -> net_heap m !! p = Some n ->
          is_Some (net_heap m' !! p) /\
          (b = false -> net_active n = true -> ∀ a k, links m' !! a = Some k -> p ∉ associated_nets k) /\
          (net_active n = b -> m' = m).
Proof.
  intros Hi. unfold dap_link_manager_set_net_condition.
  destruct (find_by_id_ok m id (proj2 Hi)) as [->|(p & n & -> & Hp & Hn & Hid)]; cbn [mbind option_bind].
  { exists m. split; [done|]. split; [done|]. split; [done|]. naive_solver. }
  rewrite Hn. cbn [mbind option_bind]. destruct (eqb (net_active n) b) eqn:Hb.
  { apply eqb_prop in Hb. exists m. split; [done|]. split; [done|]. split; [done|]. intros p0 n0 [= <-] Hn0.
    rewrite Hn in Hn0. injection Hn0 as <-. split; [by eauto|]. split; [|done]. intros -> Ht. congruence. }
  apply eqb_false_iff in Hb. set (m1 := m{{net_heap ::= _}}).
  assert (Hi1 : inv m1) by (apply alter_net_inv; [done|by intros ? []]).
  destruct (set_conditions_ok (link_clusters n) m1 b Hi1) as (m2 & -> & Hi2 & (E1 & E2 & E3 & E4 & E5 & E6)).
  { intros c Hc. by apply (refs_nets m (proj2 Hi) p n Hn). }
  cbn [mbind option_bind].
  assert (Hh : is_Some (net_heap m1 !! p)).
  { change (is_Some (alter (λ n, n{{net_active := b}}) p (net_heap m) !! p)). rewrite lookup_alter_eq, Hn. by eexists. }
  destruct b.
  - exists m2. split; [done|]. split; [done|]. split; [done|]. intros p0 n0 [= <-] Hn0. rewrite Hn in Hn0. injection Hn0 as <-.
    rewrite E2. done.
  - destruct (forget_nets_ok (link_order m2) m2 p Hi2) as (m' & -> & Hi' & F1 & F2 & F3 & F4).
    + apply Hi2.
    + intros a. apply Hi2.
    + intros a k Hk Ha. exfalso. apply Ha. apply Hi2. by eauto.
    + exists m'. split; [done|]. split; [done|]. split; [by rewrite F1, E1|]. intros p0 n0 [= <-] Hn0.
      rewrite Hn in Hn0. injection Hn0 as <-. rewrite F2, E2. split; [done|]. split; [done|]. congruence.
Qed.

Lemma remove_net_ok m id :
  inv m ->
  (∀ p n, s_find_net_by_id m id = Some (Some p) -> net_heap m !! p = Some n ->
     net_active n = true \/ ∀ a k, links m !! a = Some k -> p ∉ associated_nets k) ->
  good (dap_link_manager_remove_net cb sockets m id).
Proof.
  intros Hi Hno. unfold dap_link_manager_remove_net.
  destruct (find_by_id_ok m id (proj2 Hi)) as [->|(p & n & Hf & Hp & Hn & Hid)]; [by exists m|].
  rewrite Hf. cbn [mbind option_bind]. rewrite Hn. cbn [mbind option_bind]. rewrite Hid.
  destruct (set_net_condition_ok m id false Hi) as (m1 & -> & Hi1 & Hnets & Hspec). cbn [mbind option_bind].
  destruct (Hspec p n Hf Hn) as (Hh & Hact & Heq).
  assert (Hfree : ∀ a k, links m1 !! a = Some k -> p ∉ associated_nets k).
  { destruct (Hno p n Hf Hn) as [Ht|Hfree]; [by apply Hact|]. destruct (net_active n) eqn:Hb; [by apply Hact|].
    by rewrite (Heq eq_refl). }
  eexists; split; [done|]. destruct Hi1 as [[S1 S2 S3 S4 S5] [R1 R2 R3]]. split; [done|].
  assert (Hd : ∀ q, is_Some (delete p (net_heap m1) !! q) <-> is_Some (net_heap m1 !! q) /\ q ≠ p).
  { intros q. rewrite lookup_delete_is_Some. naive_solver. }
  split.
  - intros a k Hk. destruct (R1 a k Hk) as ([J0 J1] & J2 & J3). split; [split; [done|]|by split].
    intros q Hq. apply Hd. split; [by apply J1|]. intros ->. by apply (Hfree a k).
  - intros q nq Hq. change (delete p (net_heap m1) !! q = Some nq) in Hq. apply lookup_delete_Some in Hq as [_ Hq]. by apply (R2 q).
  - split; [apply dap_list_remove_NoDup, R3|]. intros q.
    change (q ∈ dap_list_remove (nets m1) p <-> is_Some (delete p (net_heap m1) !! q)).
    rewrite Hd, dap_list_remove_elem by apply R3. by rewrite (proj2 R3).
Qed.

(** ** Adding nets *)

Lemma add_net_ok m p id c min :
  inv m -> nets_lock m = false -> net_heap m !! p = None -> is_Some (clusters m !! c) ->
  ∃ rc m', dap_link_manager_add_net m p id c min = Some (rc, m') /\ inv m'.
Proof.
  intros Hi Hk Hp Hc. unfold dap_link_manager_add_net. destruct (_ || _); [by eexists _, m|]. rewrite Hk.
  destruct Hi as [[S1 S2 S3 S4 S5] [R1 R2 [R3 R4]]].
  destruct (find_net_ok (net_heap m) (nets m) id) as [[-> _]|(q & n & -> & _)]; [intros q; apply R4| |]; cbn [mbind option_bind].
  2:{ eexists _, _. split; [done|]. by split; split. }
  eexists _, _. split; [done|]. split; [done|]. set (n := Net false id 0 min [c]).
  assert (Hd : ∀ q, is_Some (<[p := n]> (net_heap m) !! q) <-> is_Some (net_heap m !! q) \/ q = p).
  { intros q. rewrite lookup_insert_is_Some'. naive_solver. }
  split.
  - intros a l Hl. destruct (R1 a l Hl) as ([J0 J1] & J2 & J3). split; [split; [done|]|by split]. intros q Hq. apply Hd. left. by apply J1.
  - intros q nq Hq. change (<[p := n]> (net_heap m) !! q = Some nq) in Hq.
    apply lookup_insert_Some in Hq as [[<- <-]|[_ Hq]]; [|by apply (R2 q)].
    split; [done|]. intros c' Hc'. apply list_elem_of_singleton in Hc' as ->. done.
  - split.
    + apply list.NoDup_app. split; [done|]. split; [|apply NoDup_singleton]. intros q Hq Hqp.
      apply list_elem_of_singleton in Hqp as ->. apply R4 in Hq as [? ?]. congruence.
    + intros q. change (q ∈ nets m ++ [p] <-> is_Some (<[p := n]> (net_heap m) !! q)).
      by rewrite Hd, elem_of_app, R4, list_elem_of_singleton.
Qed.

Lemma add_net_associate_ok m id c :
  inv m -> is_Some (clusters m !! c) ->
  ∃ rc m', dap_link_manager_add_net_associate m id c = Some (rc, m') /\ inv m'.
Proof.
  intros Hi Hc. unfold dap_link_manager_add_net_associate. destruct (_ =? 0); [by eexists _, m|].
  destruct (find_by_id_ok m id (proj2 Hi)) as [->|(p & n & -> & Hp & Hn & Hid)]; cbn [mbind option_bind]; [by eexists _, m|].
  rewrite Hn. cbn [mbind option_bind]. case_bool_decide; [by eexists _, m|]. eexists _, _. split; [done|].
  apply alter_net_inv; [done|]. intros n0 [J1 J2]. split.
  - change (link_clusters n0 ++ [c] ≠ []). by destruct (link_clusters n0).
  - intros c' Hc'. change (c' ∈ link_clusters n0 ++ [c]) in Hc'. apply elem_of_app in Hc' as [Hc'|Hc']; [by apply J2|].
    by apply list_elem_of_singleton in Hc' as ->.
Qed.
End Operations.
