(* ===== verification/LinksSpec.v ===== *)
(** * What the link manager does

    The guarantees of the manager of links: operations that are called when they
    are [allowed] follow no freed pointer and fail no assertion, and links and
    clusters agree in every state reached by them; a lost link is tried again, through the stages of its client, and
    given up after the configured number of attempts; the array of the links of a
    net has its uplinks first.  What the program must avoid is stated as well. *)

From coqutil Require Import Datatypes.RecordSetters.
Import DoubleBraceUpdate.
From stdpp Require Import gmap relations.
From S2P Require Import Prelude Links LinksRun.
Local Open Scope Z_scope.

(** ** Operations *)

(** What the manager reads of its surroundings. *)
Record world := World { w_now : Z; w_stage : Z -> Z; w_sockets : Z -> list Z }.

Inductive op :=
  | NewCluster (c : Z) (on : bool)
  | SetCondition (on : bool)
  | AddNet (p id c min : Z)
  | AddNetAssociate (id c : Z)
  | RemoveNet (id : Z)
  | SetNetCondition (id : Z) (on : bool)
  | LinkCreate (a id : Z)
  | LinkUpdate (a : Z) (host : list Z) (port : Z)
  | AddStatic (a c : Z)
  | RemoveStatic (a c : Z)
  | Connected (a uuid : Z)
  | Disconnected (a : Z)
  | Failed (a : Z)
  | StreamAdd (a : Z) (uplink : bool)
  | StreamReplace (a : Z) (uplink : bool)
  | StreamDelete (a : Z)
  | Account (a p : Z) (no_error : bool)
  | Timer.

Section Spec.
Variables max delay : Z.
Variable cb : callbacks.
Variable g_node_addr : Z.

Definition exec (w : world) (m : mgr) (o : op) : option mgr :=
  match o with
  | NewCluster c on => Some (m{{clusters ::= insert c (Cluster on [])}})
  | SetCondition on => Some (dap_link_manager_set_condition m on)
  | AddNet p id c min => snd <$> dap_link_manager_add_net m p id c min
  | AddNetAssociate id c => snd <$> dap_link_manager_add_net_associate m id c
  | RemoveNet id => dap_link_manager_remove_net cb (w_sockets w) m id
  | SetNetCondition id on => dap_link_manager_set_net_condition cb (w_sockets w) m id on
  | LinkCreate a id => snd <$> dap_link_manager_link_create g_node_addr m a id
  | LinkUpdate a host port => s_link_update_callback m a host port
  | AddStatic a c => dap_link_manager_add_static_links_cluster g_node_addr m a c
  | RemoveStatic a c => dap_link_manager_remove_static_links_cluster cb (w_sockets w) m a c
  | Connected a uuid => s_client_connected_callback m a uuid
  | Disconnected a => s_link_drop_callback max delay cb (w_now w) (w_sockets w) m a true
  | Failed a => s_link_drop_callback max delay cb (w_now w) (w_sockets w) m a false
  | StreamAdd a up => s_stream_add_callback cb m a up
  | StreamReplace a up => s_stream_replace_callback m a up
  | StreamDelete a => s_stream_delete_callback cb (w_sockets w) m a
  | Account a p ok => s_link_accounting_callback delay cb (w_now w) (w_sockets w) m a p ok
  | Timer => s_update_states max delay cb (w_now w) (w_stage w) (w_sockets w) m
  end.

(** What the callers of an operation must see to, since the operation does not
    check it. *)
Definition allowed (m : mgr) (o : op) : Prop :=
  match o with
  | NewCluster c _ => clusters m !! c = None
  | AddNet p _ c _ => nets_lock m = false /\ net_heap m !! p = None /\ is_Some (clusters m !! c)
  | AddNetAssociate _ c => is_Some (clusters m !! c)
  | RemoveNet id =>
    ∀ p n, s_find_net_by_id m id = Some (Some p) -> net_heap m !! p = Some n ->
           net_active n = true \/ ∀ a l, links m !! a = Some l -> p ∉ associated_nets l
  | AddStatic a c => a ≠ 0 /\ is_Some (clusters m !! c)
  | Connected a _ => is_Some (links m !! a)
  | StreamAdd a up => a ≠ 0 /\ uplink_ok m a up
  | StreamReplace a up => uplink_ok m a up
  | Account _ p ok =>
    ∃ n, net_heap m !! p = Some n /\
         (ok = true -> net_active n = true /\ ∀ c C, c ∈ link_clusters n -> clusters m !! c = Some C -> enabled C = true)
  | _ => True
  end.

Definition step (m m' : mgr) : Prop := ∃ w o, allowed m o /\ exec w m o = Some m'.

(** ** Every operation keeps the tables *)

Lemma new_inv : inv dap_link_manager_new.
Proof.
  split; split; cbn; try done.
  - constructor.
  - intros a. rewrite lookup_empty. split; [by intros ?%elem_of_nil|by intros []].
  - split; [constructor|]. intros p. rewrite lookup_empty. split; [by intros ?%elem_of_nil|by intros []].
Qed.

Lemma new_cluster_ok m c on : inv m -> clusters m !! c = None -> inv (m{{clusters ::= insert c (Cluster on [])}}).
Proof.
  intros [[S1 S2 S3 S4 S5] [R1 R2 R3]] Hc. set (cs := <[c := Cluster on []]> (clusters m)).
  assert (Hd : ∀ d, is_Some (clusters m !! d) -> is_Some (cs !! d)).
  { intros d Hd. apply lookup_insert_is_Some'. by right. }
  assert (Hm : ∀ d a, memb m d a <-> memb (m{{clusters ::= insert c (Cluster on [])}}) d a).
  { intros d a. unfold memb. change (clusters (m{{clusters ::= insert c (Cluster on [])}})) with cs. unfold cs.
    destruct (decide (d = c)) as [->|Hne]; [|by rewrite lookup_insert_ne]. rewrite Hc, lookup_insert_eq.
    split; [by intros (? & [=] & _)|]. by intros (? & [= <-] & ?%elem_of_nil). }
  split; split; try done.
  - intros a l Hl. destruct (S4 a l Hl) as [J1 J2]. split; [done|]. intros d. by rewrite <- Hm.
  - intros d D HD. change (cs !! d = Some D) in HD. apply lookup_insert_Some in HD as [[_ <-]|[_ HD]]; [|by apply (S5 d)].
    split; [constructor|]. by intros a ?%elem_of_nil.
  - intros a l Hl. destruct (R1 a l Hl) as (J1 & J2 & J3). split; [done|]. split; [|done]. intros d Hd'. by apply Hd, J2.
  - intros p n Hn. destruct (R2 p n Hn) as [J1 J2]. split; [done|]. intros d Hd'. by apply Hd, J2.
Qed.

Lemma exec_ok w m o : inv m -> allowed m o -> good (exec w m o).
Proof.
  intros Hi Ho. destruct o; cbn [exec allowed] in *.
  - eexists. split; [done|]. by apply new_cluster_ok.
  - eexists. split; [done|]. destruct Hi as [[] []]. by split; split.
  - destruct Ho as (H1 & H2 & H3). destruct (add_net_ok (w_stage w) (w_sockets w) m p id c min) as (? & m' & -> & ?); [done..|]. by exists m'.
  - destruct (add_net_associate_ok m id c) as (? & m' & -> & ?); [done..|]. by exists m'.
  - apply (remove_net_ok 0 cb (w_stage w)); done.
  - destruct (set_net_condition_ok 0 cb (w_stage w) (w_sockets w) m id on Hi) as (m' & -> & ? & _). by exists m'.
  - destruct (dap_link_create_ok g_node_addr m a id Hi) as (? & m' & -> & ?). by exists m'.
  - by apply link_update_ok.
  - destruct Ho. by apply add_static_cluster_ok.
  - by apply remove_static_cluster_ok.
  - by apply connected_callback_ok.
  - by apply drop_callback_ok.
  - by apply drop_callback_ok.
  - destruct Ho. by apply (stream_add_ok cb (w_stage w) (w_sockets w)).
  - by apply stream_replace_ok.
  - by apply stream_delete_ok.
  - destruct Ho as (n & Hn & Hok). by apply (accounting_ok delay cb _ (w_stage w) _ m a p no_error n).
  - by apply update_states_ok.
Qed.

Lemma steps_inv m m' : rtc step m m' -> inv m -> inv m'.
Proof.
  induction 1 as [|m m1 m2 (w & o & Ha & He) Hr IH]; [done|]. intros Hi. apply IH.
  destruct (exec_ok w m o Hi Ha) as (m' & Hm & ?). congruence.
Qed.
End Spec.

(** C18: The operations of the link manager, run one at a time and each in a state
    where it is [allowed], end without following a freed net, link or cluster and
    without failing an assertion, whatever the callbacks answer and whenever the
    timer runs.  Then a peer is a member of exactly the clusters its link lists,
    every member of a cluster has a link, and every net and static cluster a link
    names exists.  The manager does not check what [allowed] asks for: a net is
    added once and with a cluster that exists; an inactive net is removed only when no
    link names it; a link is accounted for a net that still exists and, without an
    error, is active with its clusters enabled; a client that connects has its link;
    a stream is announced as an uplink only to a link with a client.
    [unchecked_operations_fail], [removed_net_dangles] and [add_net_twice_hangs]
    show what happens otherwise. *)
Theorem links_never_fail max delay cb g_node_addr w m o :
  rtc (step max delay cb g_node_addr) dap_link_manager_new m -> allowed m o ->
  ∃ m', exec max delay cb g_node_addr w m o = Some m' /\
        (∀ a l c, links m' !! a = Some l ->
           (c ∈ active_clusters l <-> ∃ C, clusters m' !! c = Some C /\ a ∈ members C) /\
           (∀ p, p ∈ associated_nets l -> is_Some (net_heap m' !! p)) /\
           (∀ s, s ∈ static_clusters l -> is_Some (clusters m' !! s))) /\
        (∀ c C a, clusters m' !! c = Some C -> a ∈ members C -> is_Some (links m' !! a)).
Proof.
  intros Hr Ha. apply steps_inv in Hr; [|apply new_inv].
  destruct (exec_ok max delay cb g_node_addr w m o Hr Ha) as (m' & Hm & Hs & Hf). exists m'. split; [done|]. split.
  - intros a l c Hl. destruct (sync_active m' Hs a l Hl) as [_ J]. destruct (refs_links m' Hf a l Hl) as ([_ J1] & J2 & _).
    by split.
  - intros c C a HC. by apply (sync_members m' Hs c C HC).
Qed.

(** ** The links of a net *)

Definition shown (m : mgr) (est : bool) (a : Z) : bool :=
  match links m !! a with
  | Some l => is_uplink l && (negb est || bool_decide (link_state l = LINK_STATE_ESTABLISHED))
  | None => false
  end.
Definition downlink (m : mgr) (a : Z) : bool :=
  match links m !! a with Some l => negb (is_uplink l) | None => false end.

(** The array while it is filled. *)
Definition layout (us ds : list Z) (k : nat) : list Z * nat * nat := (us ++ ds ++ replicate k 0, length us, length ds).

Lemma layout_end us ds k : (us ++ ds ++ replicate (S k) 0) = (us ++ ds) ++ 0 :: replicate k 0.
Proof. by rewrite <- app_assoc. Qed.

Lemma insert_end us ds k a : <[(length us + length ds)%nat := a]> (us ++ ds ++ replicate (S k) 0) = us ++ ds ++ a :: replicate k 0.
Proof. rewrite layout_end, <- length_app, insert_app_r_alt, Nat.sub_diag by lia. cbn. by rewrite <- app_assoc. Qed.

Lemma room us ds k : (length us + length ds <? length (us ++ ds ++ replicate (S k) 0%Z))%nat = true.
Proof. apply Nat.ltb_lt. rewrite !length_app, length_replicate. lia. Qed.

Lemma lookup_length (us x : list Z) : (us ++ x) !! length us = head x.
Proof. rewrite lookup_app_r, Nat.sub_diag by done. by destruct x. Qed.

Lemma insert_length (us x : list Z) a : <[length us := a]> (us ++ x) = us ++ <[0%nat := a]> x.
Proof. by rewrite insert_app_r_alt, Nat.sub_diag by done. Qed.

Lemma place_spec m est us ds k a :
  ∃ us' ds' k', place m est (layout us ds (S k)) a = Some (layout us' ds' k') /\ (k <= k')%nat /\
    us' ≡ₚ us ++ (if shown m est a then [a] else []) /\ ds' ≡ₚ ds ++ (if downlink m a then [a] else []).
Proof.
  unfold place, layout, shown, downlink. destruct (links m !! a) as [l|].
  2:{ exists us, ds, (S k). rewrite !app_nil_r. split_and!; try done. lia. }
  cbn beta iota zeta. rewrite room. destruct (is_uplink l); cbn [andb negb].
  - destruct (est && _) eqn:He.
    { exists us, ds, (S k). apply andb_true_iff in He as [-> He]. apply negb_true_iff in He. rewrite He, !app_nil_r.
      split_and!; try done. lia. }
    replace (negb est || _) with true by (destruct est, (bool_decide _); done).
    destruct ds as [|d ds].
    + exists (us ++ [a]), [], k. rewrite lookup_length, app_nil_l. cbn [mbind option_bind length head replicate].
      rewrite Nat.add_0_r, list_insert_insert_eq, insert_length, length_app, Nat.add_1_r.
      split_and!; [|lia|done|done]. cbn. by rewrite <- app_assoc.
    + exists (us ++ [a]), (ds ++ [d]), k. rewrite lookup_length. change (head _) with (Some d). cbn [mbind option_bind].
      rewrite (insert_end us (d :: ds)), insert_length, !length_app.
      split_and!; [|lia|done|by rewrite app_nil_r, (Permutation_app_comm ds [d])].
      cbn. by rewrite <- !app_assoc, !Nat.add_1_r.
  - exists us, (ds ++ [a]), k. rewrite insert_end, length_app. cbn [length]. rewrite Nat.add_1_r, app_nil_r, <- !app_assoc.
    by split_and!.
Qed.

Lemma filter_cons_if (f : Z -> bool) a l : filter f (a :: l) = (if f a then [a] else []) ++ filter f l.
Proof. rewrite filter_cons. by destruct (f a). Qed.

Lemma place_all_spec m est l : ∀ us ds k,
  (length l <= k)%nat ->
  ∃ us' ds' k', place_all m est (layout us ds k) l = Some (layout us' ds' k') /\
    us' ≡ₚ us ++ filter (shown m est) l /\ ds' ≡ₚ ds ++ filter (downlink m) l.
Proof.
  induction l as [|a l IH]; intros us ds k Hk.
  - exists us, ds, k. by rewrite !filter_nil, !app_nil_r.
  - cbn [length] in Hk. destruct k as [|k]; [lia|]. cbn [place_all].
    destruct (place_spec m est us ds k a) as (us1 & ds1 & k1 & -> & Hk1 & Hu & Hd). cbn [mbind option_bind].
    destruct (IH us1 ds1 k1) as (us2 & ds2 & k2 & -> & Hu2 & Hd2); [lia|]. exists us2, ds2, k2.
    rewrite !filter_cons_if, !app_assoc, <- Hu, <- Hd. done.
Qed.

(** C21: The array of the links of a net holds the members of its first cluster:
    first the uplinks, of which only the established ones if so asked, then the
    downlinks, each of them once, then zeros; the two counts are their numbers.
    Without members there is no array and no count is set; without links to show
    there is no array. *)
Theorem net_links_partition m id est p :
  inv m -> s_find_net_by_id m id = Some (Some p) ->
  ∃ n c C us ds k, net_heap m !! p = Some n /\ head (link_clusters n) = Some c /\ clusters m !! c = Some C /\
    us ≡ₚ filter (shown m est) (members C) /\ ds ≡ₚ filter (downlink m) (members C) /\ NoDup (us ++ ds) /\
    dap_link_manager_get_net_links_addrs m id est =
      Some (if bool_decide (us ++ ds = []) then None else Some (us ++ ds ++ replicate k 0),
            if bool_decide (members C = []) then None else Some (Z.of_nat (length us), Z.of_nat (length ds))).
Proof.
  intros [Hs Hr] Hf. destruct (find_by_id_ok m id Hr) as [H|(q & n & Hq & _ & Hn & _)]; [congruence|].
  rewrite Hf in Hq. simplify_eq. destruct (net_count m n) as (c & C & Hc & HC & _); [by apply (refs_nets m Hr q)|].
  unfold dap_link_manager_get_net_links_addrs. rewrite Hf. cbn [mbind option_bind]. rewrite Hn. cbn [mbind option_bind].
  rewrite Hc. cbn [mbind option_bind]. rewrite HC. cbn [mbind option_bind].
  destruct (place_all_spec m est (members C) [] [] (length (members C))) as (us & ds & k & Hp & Hu & Hd); [done|].
  exists n, c, C, us, ds, k. do 3 (split; [done|]). do 2 (split; [done|]). cbn [app] in Hu, Hd. split.
  { rewrite Hu, Hd. apply list.NoDup_app. destruct (sync_members m Hs c C HC) as [HN _].
    split; [by apply list.NoDup_filter|]. split; [|by apply list.NoDup_filter].
    intros a [Ha _]%list_elem_of_filter [Hb _]%list_elem_of_filter. unfold shown, downlink in Ha, Hb.
    destruct (links m !! a) as [l|]; [|done]. by destruct (is_uplink l). }
  case_bool_decide as Hm.
  { rewrite Hm, filter_nil in Hu, Hd. apply Permutation_nil_r in Hu, Hd. by rewrite Hu, Hd. }
  change (replicate _ 0, 0%nat, 0%nat) with (layout [] [] (length (members C))). rewrite Hp. cbn.
  by destruct us, ds.
Qed.

(** ** A manager with one net and three peers *)

Definition demo_cb : callbacks := Callbacks true (Some (λ _ _ _, false)) true (λ _, true) true true.
Definition demo_w : world := World 100 (λ _, 0) (λ _, []).

Fixpoint run (ops : list op) (m : mgr) : option mgr :=
  match ops with [] => Some m | o :: ops => m ← exec 3 10 demo_cb 99 demo_w m o; run ops m end.

(** Peer 5 is an uplink; 6 and 4 came by themselves and were accounted. *)
Definition demo_ops : list op :=
  [NewCluster 1 false; AddNet 10 7 1 2; SetNetCondition 7 true; StreamAdd 6 false; Account 6 10 true;
   LinkCreate 5 7; LinkUpdate 5 [49] 8079; Connected 5 77; StreamAdd 5 true; Account 5 10 true;
   StreamAdd 4 false; Account 4 10 true].
Definition demo : mgr := default dap_link_manager_new (run demo_ops dap_link_manager_new).

Ltac demo_allowed :=
  cbn [allowed];
  first
    [ done | by vm_compute | by split
    | split; [done|]; intros _ l Hl; vm_compute in Hl; by simplify_eq
    | eexists; split; [vm_compute; reflexivity|]; intros _; split; [done|];
      intros c C Hc HC; apply list_elem_of_singleton in Hc as ->; vm_compute in HC; by simplify_eq
    | split_and!; [done|done|vm_compute; by eexists] ].

Ltac demo_step o :=
  eapply rtc_l; [exists demo_w, o; split; [|vm_compute; reflexivity]; demo_allowed|].

Lemma demo_reached : rtc (step 3 10 demo_cb 99) dap_link_manager_new demo.
Proof.
  demo_step (NewCluster 1 false).
  demo_step (AddNet 10 7 1 2).
  demo_step (SetNetCondition 7 true).
  demo_step (StreamAdd 6 false).
  demo_step (Account 6 10 true).
  demo_step (LinkCreate 5 7).
  demo_step (LinkUpdate 5 [49] 8079).
  demo_step (Connected 5 77).
  demo_step (StreamAdd 5 true).
  demo_step (Account 5 10 true).
  demo_step (StreamAdd 4 false).
  demo_step (Account 4 10 true).
  apply rtc_refl.
Qed.

Lemma demo_inv : inv demo.
Proof. eapply steps_inv; [apply demo_reached|apply new_inv]. Qed.

(** The stream with the uplink ends: its link stays for its net, out of the cluster. *)
Lemma links_never_fail_witness :
  ∃ m', exec 3 10 demo_cb 99 demo_w demo (StreamDelete 5) = Some m' /\
        (active_clusters <$> links m' !! 5) = Some [] /\ (members <$> clusters m' !! 1) = Some [6; 4] /\
        ∀ c C a, clusters m' !! c = Some C -> a ∈ members C -> is_Some (links m' !! a).
Proof.
  destruct (links_never_fail 3 10 demo_cb 99 demo_w demo (StreamDelete 5) demo_reached I) as (m' & Hm & _ & Hl).
  exists m'. split; [done|]. vm_compute in Hm. injection Hm as <-. split; [done|]. split; [done|]. exact Hl.
Defined.

Lemma net_links_partition_witness :
  ∃ us ds k, NoDup (us ++ ds) /\ us ++ ds ++ replicate k 0 = [5; 6; 4] /\ length us = 1%nat /\ length ds = 2%nat /\
    dap_link_manager_get_net_links_addrs demo 7 true = Some (Some [5; 6; 4], Some (1, 2)).
Proof.
  destruct (net_links_partition demo 7 true 10 demo_inv eq_refl) as (n & c & C & us & ds & k & _ & _ & _ & _ & _ & HN & H).
  assert (E : dap_link_manager_get_net_links_addrs demo 7 true = Some (Some [5; 6; 4], Some (1, 2))) by (vm_compute; reflexivity).
  exists us, ds, k. rewrite E in H. destruct (bool_decide (us ++ ds = [])); [done|].
  destruct (bool_decide (members C = [])); [done|]. injection H as H1 H2 H3. split_and!; [done|by symmetry|lia|lia|exact E].
Defined.

(** ** What the callers must avoid *)

(** Adding a net that is present leaves the lock of the nets held: the next call
    waits for ever. *)
Lemma add_net_twice_hangs m p q id c min c' min' p' id' :
  nets_lock m = false -> id ≠ 0 -> c ≠ 0 -> id' ≠ 0 -> c' ≠ 0 ->
  find_net (net_heap m) (nets m) id = Some (Some q) ->
  ∃ m', dap_link_manager_add_net m p id c min = Some (-3, m') /\ dap_link_manager_add_net m' p' id' c' min' = None.
Proof.
  intros Hk Hi Hc Hi' Hc' Hf. exists (m{{nets_lock := true}}). unfold dap_link_manager_add_net.
  rewrite !(proj2 (Z.eqb_neq _ 0)) by done. cbn [orb]. by rewrite Hk, Hf.
Qed.

(** A net that is removed while it is inactive is freed under the links that were
    created for it: the next search follows the pointer. *)
Lemma removed_net_dangles :
  ∃ m m', run [NewCluster 1 false; AddNet 10 7 1 2; LinkCreate 5 7] dap_link_manager_new = Some m /\
          exec 3 10 demo_cb 99 demo_w m (RemoveNet 7) = Some m' /\ dap_link_manager_link_find m' 5 7 = None.
Proof. eexists _, _. split; [vm_compute; reflexivity|]. by split; [vm_compute; reflexivity|]. Qed.

(** Accounting runs later than it is asked for, in a queue: when the net has become
    inactive or was removed in between, when a cluster associated with it is not
    enabled, or when a stream without a client was announced as an uplink, an
    assertion fails or a freed net is read. *)
Lemma unchecked_operations_fail :
  (∀ max delay cb g w m a l p n, a ≠ 0 -> links m !! a = Some l -> net_heap m !! p = Some n -> net_active n = false ->
     exec max delay cb g w m (Account a p true) = None) /\
  (∀ max delay cb g w m a l p ok, a ≠ 0 -> links m !! a = Some l -> net_heap m !! p = None ->
     exec max delay cb g w m (Account a p ok) = None) /\
  run [NewCluster 1 false; AddNet 10 7 1 2; SetNetCondition 7 true; StreamAdd 6 false; SetNetCondition 7 false;
       Account 6 10 true] dap_link_manager_new = None /\
  run [NewCluster 1 false; NewCluster 2 false; AddNet 10 7 1 2; SetNetCondition 7 true; AddNetAssociate 7 2;
       AddStatic 6 2; Account 6 10 true] dap_link_manager_new = None /\
  run [NewCluster 1 false; AddNet 10 7 1 2; SetNetCondition 7 true; StreamAdd 6 false; Account 6 10 true;
       StreamReplace 6 true; StreamReplace 6 false] dap_link_manager_new = None.
Proof.
  split_and!; [| |vm_compute; reflexivity..]; intros *; intros Ha Hl Hn; try intros Hi;
    cbn [exec]; unfold s_link_accounting_callback, s_link_manager_link_find;
    rewrite (proj2 (Z.eqb_neq a 0)), Hl, Hn by done; cbn [mbind option_bind]; [by rewrite Hi | done].
Qed.

Lemma upd_get m a f l : links m !! a = Some l -> links (upd a f m) !! a = Some (f l).
Proof. intros H. change (alter f a (links m) !! a = Some (f l)). by rewrite lookup_alter_eq, H. Qed.

(** A static link added to a peer that came by itself gets no client: when its
    stream ends, waking the link up does nothing. *)
Lemma static_downlink_no_client max delay cb now stage sockets g_node_addr m a c l m' :
  inv m -> links m !! a = Some l -> client l = false ->
  dap_link_manager_add_static_links_cluster g_node_addr m a c = Some m' ->
  wake_up max delay cb now stage sockets m' a = Some m'.
Proof.
  intros [Hs _] Hl Hc. unfold dap_link_manager_add_static_links_cluster.
  destruct (a =? g_node_addr); [intros [= <-]; unfold wake_up; rewrite Hl; cbn; by rewrite Hc|].
  unfold s_link_manager_link_find. destruct (Z.eqb_spec a 0) as [->|Ha]; [by rewrite (sync_zero m Hs) in Hl|].
  rewrite Hl. cbn [mbind option_bind]. intros [= <-]. unfold wake_up. erewrite upd_get by exact Hl.
  cbn [mbind option_bind]. change (client (_ l)) with (client l). by rewrite Hc.
Qed.
