(* ===== verification/LinksRetry.v ===== *)
(** * A lost link is tried again, then given up

    The manager and its clients together: a link whose client failed waits, then
    its client is sent to its first stage and to a stream, the one sequence of
    targets that starts a client whatever it was doing.  A link that fails as
    often as configured, and that no net wants to keep, is deleted. *)

From coqutil Require Import Datatypes.RecordSetters.
Import DoubleBraceUpdate.
From stdpp Require Import gmap.
From S2P Require Import Prelude Client ClientRun ClientSpec Links LinksRun LinksSpec.
Local Open Scope Z_scope.

(** ** The client *)

(** Whatever a client was doing, it is sent to its first stage and on to a stream. *)
Lemma client_restarts max timeout active e n s t cb :
  wf max s -> addressed s -> env_good s e -> STAGE_BEGIN < t ->
  ∃ s1 s2, handle max timeout active e (2 + n) s (Client.GoStage STAGE_BEGIN None) = Some s1 /\ stage s1 = STAGE_BEGIN /\
           handle max timeout active e (2 + n) s1 (Client.GoStage t cb) = Some s2 /\
           stage s2 = STAGE_ENC_INIT /\ http_client s2 = true /\ request_callbacks s2 = Some EncInit /\ stage_target s2 = t /\
           trace s2 = trace s1 ++ [EncRequest].
Proof.
  intros [Hb Hw] Ha He Ht.
  assert (H1 : ∃ s1, handle max timeout active e (2 + n) s (Client.GoStage STAGE_BEGIN None) = Some s1 /\
                     stage s1 = STAGE_BEGIN /\ stage_status s1 = STAGE_STATUS_COMPLETE /\ stage_target s1 = STAGE_BEGIN /\
                     addressed s1 /\ channels s1 = channels s).
  { unfold handle, s_go_stage_on_client_worker_unsafe. cbn [Nat.add]. rewrite begin_restarted.
    set (s0 := s{{stage_target_done_callback := None}}).
    assert (Hr : ∃ s1, Some (restarted (s0{{stage_target := STAGE_BEGIN}})) = Some s1 /\ stage s1 = STAGE_BEGIN /\
      stage_status s1 = STAGE_STATUS_COMPLETE /\ stage_target s1 = STAGE_BEGIN /\ addressed s1 /\ channels s1 = channels s).
    { eexists. split; [done|]. unfold addressed, channels in *. clear -Ha. revert Ha. open_client s. by destruct es. }
    destruct (_ && _) eqn:Hc; [|exact Hr]. apply andb_true_iff in Hc as [Hc1%bool_decide_eq_true Hc2%Z.eqb_eq].
    destruct (Z.eqb_spec (stage_target s0) STAGE_BEGIN) as [Hz|Hz].
    - eexists. split; [done|]. split; [by rewrite <- Hz|]. by rewrite <- Hz.
    - destruct Hb as [[Hb _] _]. rewrite (proj2 (Z.ltb_ge _ _)) by done. exact Hr. }
  destruct H1 as (s1 & H1 & Hs & Hst & Htg & Ha1 & Hch). exists s1, (enc_asked (started s1 t cb)).
  split; [done|]. split; [done|]. split.
  - assert (He1 : env_good (started s1 t cb) e).
    { destruct He as (?&?&?&?&?&?&?&?&He). do 7 (split; [done|]). split; [done|].
      by change (channels (started s1 t cb)) with (channels s1); rewrite Hch. }
    rewrite <- (enc_asked_ok max timeout active e (started s1 t cb) (S n)); [|done..].
    unfold handle, s_go_stage_on_client_worker_unsafe. change (stage_status (_ s1)) with (stage_status s1).
    change (stage (_ s1)) with (stage s1). change (stage_target (_ s1)) with (stage_target s1). rewrite Hs, Hst, Htg.
    rewrite bool_decide_true by done. rewrite (proj2 (Z.eqb_neq 0 t)), (proj2 (Z.ltb_lt 0 t)) by lia. done.
  - clear. open_client s1. done.
Qed.

(** ** Attempts *)

Lemma find_link m a l : inv m -> links m !! a = Some l -> s_link_manager_link_find m a = Some l.
Proof.
  intros [Hs _] Hl. unfold s_link_manager_link_find. destruct (Z.eqb_spec a 0) as [->|]; [|done].
  by rewrite (sync_zero m Hs) in Hl.
Qed.

Section Retry.
Variables max delay : Z.
Variable cb : callbacks.

(** The link after a failure that is not the last. *)
Definition failed (now : Z) (l : dap_link) : dap_link :=
  l{{link_state := LINK_STATE_DISCONNECTED; start_after := now + delay; attempts_count := wrap 32 (attempts_count l + 1)}}.

Lemma upd_failed m a l now : links m !! a = Some l ->
  upd a (λ k, k{{link_state := LINK_STATE_DISCONNECTED; start_after := now + delay;
                 attempts_count := wrap 32 (attempts_count l + 1)}}) m = upd a (failed now) m.
Proof.
  intros H. destruct m as [ac ns nh nl ls lo cs wm o]. cbn in H. unfold upd, apply_update, set_links. cbn [links].
  f_equal. apply map_eq. intros b. destruct (decide (b = a)) as [->|Hb]; [|by rewrite !lookup_alter_ne].
  by rewrite !lookup_alter_eq, H.
Qed.

Lemma failed_inv now m a : inv m -> inv (upd a (failed now) m).
Proof. apply (tweak_inv a), tweak_upd; [unfold failed; harmless|apply tweak_refl]. Qed.

Lemma drop_retries now sockets m a l :
  inv m -> links m !! a = Some l -> client l = true -> wrap 32 (attempts_count l + 1) < max ->
  s_link_drop_callback max delay cb now sockets m a true = Some (emits [GoStage a STAGE_BEGIN] (upd a (failed now) m)).
Proof.
  intros Hi Hl Hc Hn. unfold s_link_drop_callback, s_link_drop. rewrite (find_link m a l Hi Hl), Hl.
  cbn [mbind option_bind]. rewrite Hc, (proj2 (Z.ltb_lt _ _)) by done. by rewrite (upd_failed m a l).
Qed.

(** A link that may connect. *)
Definition waiting (l : dap_link) : Prop :=
  client l = true /\ active_clusters l = [] /\ link_state l = LINK_STATE_DISCONNECTED /\ associated_nets l ≠ [].

Lemma wake_up_waits now stage sockets m a l :
  links m !! a = Some l -> waiting l -> now <= start_after l -> wake_up max delay cb now stage sockets m a = Some m.
Proof.
  intros Hl (Hc & Hac & Hst & Has) Hn. unfold wake_up. rewrite Hl. cbn [mbind option_bind].
  rewrite Hc, Hac, Hst, (bool_decide_false (associated_nets l = [])) by done. cbn [negb].
  rewrite (bool_decide_false (_ = LINK_STATE_ESTABLISHED)), andb_false_r by done. cbn [andb mbind option_bind].
  rewrite !bool_decide_true by done. cbn [negb mbind option_bind]. by rewrite (proj2 (Z.leb_le _ _)) by done.
Qed.

Lemma wake_up_connects now stage sockets m a l :
  links m !! a = Some l -> waiting l -> start_after l < now -> stage a = STAGE_BEGIN ->
  cb_fill_net_info cb a = true -> uplink_port l ≠ 0 ->
  wake_up max delay cb now stage sockets m a = Some (s_link_connect (emits [CallFillNetInfo a] m) a).
Proof.
  intros Hl (Hc & Hac & Hst & Has) Hn Hs Hf Hp. unfold wake_up. rewrite Hl. cbn [mbind option_bind].
  rewrite Hc, Hac, Hst, (bool_decide_false (associated_nets l = [])) by done. cbn [negb].
  rewrite (bool_decide_false (_ = LINK_STATE_ESTABLISHED)), andb_false_r by done. cbn [andb mbind option_bind].
  rewrite !bool_decide_true by done. cbn [negb mbind option_bind]. rewrite (proj2 (Z.leb_gt _ _)) by done.
  by rewrite Hs, Hf, (proj2 (Z.eqb_neq (uplink_port l) 0)).
Qed.
End Retry.

(** A link without stream that a net wants and whose address is known. *)
Definition lost (l : dap_link) : Prop :=
  client l = true /\ active_clusters l = [] /\ associated_nets l ≠ [] /\ uplink_port l ≠ 0.

(** C19: A link whose client failed is connected again.  The failure sends the client
    to its first stage; until the delay has passed, waking the link up does
    nothing; then, unless its address is being looked up, it sends the client to
    a stream.  A client that gets these two targets, whatever it was doing
    before, asks its uplink for an exchange of keys. *)
Theorem link_reconnects max delay cb now sockets m a l :
  inv m -> links m !! a = Some l -> lost l ->
  wrap 32 (attempts_count l + 1) < max -> cb_fill_net_info cb a = true ->
  ∃ m1, s_link_drop_callback max delay cb now sockets m a true = Some m1 /\ out m1 = out m ++ [GoStage a STAGE_BEGIN] /\
    (∀ now' stage sockets',
       (now' <= now + delay -> wake_up max delay cb now' stage sockets' m1 a = Some m1) /\
       (now + delay < now' -> stage a = STAGE_BEGIN ->
        ∃ m2, wake_up max delay cb now' stage sockets' m1 a = Some m2 /\
              out m2 = out m1 ++ [CallFillNetInfo a; GoStage a STAGE_STREAM_STREAMING] /\
              link_state <$> links m2 !! a = Some LINK_STATE_CONNECTING)) /\
    (∀ attempts timeout active e n s done_cb,
       wf attempts s -> addressed s -> env_good s e ->
       ∃ s1 s2, handle attempts timeout active e (2 + n) s (Client.GoStage STAGE_BEGIN None) = Some s1 /\
                stage s1 = STAGE_BEGIN /\
                handle attempts timeout active e (2 + n) s1 (Client.GoStage STAGE_STREAM_STREAMING done_cb) = Some s2 /\
                stage s2 = STAGE_ENC_INIT /\ http_client s2 = true /\ trace s2 = trace s1 ++ [EncRequest]).
Proof.
  intros Hi Hl (Hc & Hac & Has & Hp) Hn Hf. rewrite (drop_retries max delay cb now sockets m a l) by done.
  eexists. split; [done|]. split; [done|].
  assert (Hl1 : links (emits [GoStage a STAGE_BEGIN] (upd a (failed delay now) m)) !! a = Some (failed delay now l)) by by apply upd_get.
  split.
  - intros now' st sk. split; [intros Hw; by apply wake_up_waits with (failed delay now l)|].
    intros Hw Hs. rewrite (wake_up_connects max delay cb now' st sk _ a (failed delay now l)) by done.
    eexists. split; [done|]. split; [cbn; by rewrite <- !app_assoc|].
    unfold s_link_connect. change (links (emits ?x ?y)) with (links y).
    by rewrite (upd_get _ a _ (failed delay now l)).
  - intros at' tm ac e n s dc Hw Ha He. destruct (client_restarts at' tm ac e n s 5 dc Hw Ha He) as (s1 & s2 & ? & ? & ? & ? & ? & ? & ? & ?); [lia|].
    exists s1, s2. done.
Qed.

(** ** Giving up *)

(** Failures at the given times. *)
Fixpoint drops max delay cb sockets (a : Z) (times : list Z) (m : mgr) : option mgr :=
  match times with
  | [] => Some m
  | now :: times => m ← s_link_drop_callback max delay cb now sockets m a true; drops max delay cb sockets a times m
  end.

(** What is told of a lost link: its active nets and the sizes of their clusters. *)
Definition told (m : mgr) (a p : Z) : option effect :=
  n ← net_heap m !! p;
  if negb (net_active n) then None else
  c ← head (link_clusters n); k ← dap_cluster_members_count m c; Some (CallDisconnected a (net_id n) k).

Lemma emits_none m : emits [] m = m.
Proof. destruct m. unfold emits, apply_update, set_out. cbn. by rewrite app_nil_r. Qed.
Lemma emits_two m x y : emits y (emits x m) = emits (x ++ y) m.
Proof. destruct m. unfold emits, apply_update, set_out. cbn. by rewrite app_assoc. Qed.

Lemma drop_nets_told a permanent l : ∀ m,
  refs m -> (∀ id k, permanent a id k = false) -> (∀ p, p ∈ l -> is_Some (net_heap m !! p)) ->
  drop_nets m a permanent l [] = Some (emits (omap (told m a) l) m, []).
Proof.
  induction l as [|p l IH]; intros m Hr Hp Hl; cbn [drop_nets]; [by rewrite emits_none|].
  destruct (Hl p) as [n Hn]; [left|]. destruct (net_count m n) as (c & C & Hc & HC & Hk); [by apply (refs_nets m Hr p)|].
  rewrite Hn. cbn [mbind option_bind]. change (omap (told m a) (p :: l)) with
    (match told m a p with Some x => x :: omap (told m a) l | None => omap (told m a) l end).
  unfold told at 1. rewrite Hn. cbn [mbind option_bind]. destruct (negb _).
  - apply IH; [done..|]. intros q Hq. apply Hl. by right.
  - rewrite Hc. cbn [mbind option_bind]. rewrite Hk. cbn [mbind option_bind]. rewrite Hp.
    rewrite IH; [|by destruct Hr; split|done|intros q Hq; apply Hl; by right]. by rewrite emits_two.
Qed.

Lemma upd_emits a f x m : upd a f (emits x m) = emits x (upd a f m).
Proof. done. Qed.

Lemma removed_upd a f m : removed a (upd a f m) = removed a m.
Proof.
  destruct m. unfold removed, upd, apply_update, set_links, set_link_order. cbn. f_equal.
  apply map_eq. intros b. destruct (decide (a = b)) as [->|]; [by rewrite !lookup_delete_eq|].
  by rewrite !lookup_delete_ne, lookup_alter_ne.
Qed.

(** A link that nothing but nets wants. *)
Definition dispensable (l : dap_link) : Prop := client l = true /\ active_clusters l = [] /\ static_clusters l = [].

Lemma delete_dispensable cb sockets m a l :
  links m !! a = Some l -> dispensable l ->
  s_link_delete cb sockets m a false false =
    Some (emits (ClientDelete a :: (SocketDelete <$> filter (λ u, u ≠ es_uuid l) (sockets a))) (removed a m)).
Proof.
  intros Hl (Hc & Hac & Hst). unfold s_link_delete. rewrite Hl. cbn [mbind option_bind].
  rewrite Hac, bool_decide_true by done. cbn [mbind option_bind]. rewrite Hl. cbn [mbind option_bind].
  rewrite Hac, Hst, Hc, !bool_decide_true by done. cbn [negb orb andb]. rewrite andb_false_r, emits_two.
  cbn [app]. match goal with |- context [upd a ?f m] => rewrite <- (removed_upd a f m) end. done.
Qed.

Lemma drop_last max delay cb permanent now sockets m a l :
  inv m -> links m !! a = Some l -> dispensable l -> max <= wrap 32 (attempts_count l + 1) ->
  cb_disconnected cb = Some permanent -> (∀ id k, permanent a id k = false) ->
  s_link_drop_callback max delay cb now sockets m a true =
    Some (emits (omap (told m a) (associated_nets l) ++ ClientDelete a :: (SocketDelete <$> filter (λ u, u ≠ es_uuid l) (sockets a)))
            (removed a m)).
Proof.
  intros Hi Hl (Hc & Hac & Hst) Hn Hcb Hp. unfold s_link_drop_callback, s_link_drop. rewrite (find_link m a l Hi Hl), Hl.
  cbn [mbind option_bind]. rewrite Hcb, Hac, Hst, (proj2 (Z.ltb_ge _ _)), (upd_failed delay m a l) by done.
  set (m1 := upd a (failed delay now) m).
  assert (Hi1 : inv m1) by by apply failed_inv.
  destruct (refs_links m (proj2 Hi) a l Hl) as ([_ Hnets] & _).
  rewrite drop_nets_told by (done || apply Hi1). cbn [mbind option_bind].
  rewrite !bool_decide_true by done. cbn [andb]. rewrite upd_emits.
  set (m2 := upd a _ m1). set (x := omap (told m1 a) (associated_nets l)).
  assert (Hl2 : links m2 !! a = Some ((failed delay now l){{associated_nets := [] }})).
  { unfold m2. rewrite (upd_get _ a _ (failed delay now l)); [done|]. by apply upd_get. }
  erewrite delete_dispensable; [|exact Hl2|done]. change (removed a (emits x m2)) with (emits x (removed a m2)).
  unfold m2, m1. by rewrite emits_two, !removed_upd.
Qed.

Lemma drops_app max delay cb sockets a t1 t2 m :
  drops max delay cb sockets a (t1 ++ t2) m = m ← drops max delay cb sockets a t1 m; drops max delay cb sockets a t2 m.
Proof.
  revert m. induction t1 as [|now t1 IH]; intros m; [done|]. cbn [drops app]. rewrite option_bind_assoc.
  by destruct (s_link_drop_callback _ _ _ _ _ _ _ _); cbn; [apply IH|].
Qed.

Lemma drops_retry max delay cb sockets a times : ∀ m l,
  inv m -> links m !! a = Some l -> dispensable l -> 0 <= attempts_count l ->
  attempts_count l + Z.of_nat (length times) < max < 2 ^ 32 ->
  ∃ m' l', drops max delay cb sockets a times m = Some m' /\ inv m' /\ links m' !! a = Some l' /\ dispensable l' /\
    attempts_count l' = attempts_count l + Z.of_nat (length times) /\
    associated_nets l' = associated_nets l /\ es_uuid l' = es_uuid l /\
    removed a m' = emits (replicate (length times) (GoStage a STAGE_BEGIN)) (removed a m).
Proof.
  induction times as [|now times IH]; intros m l Hi Hl Hd H0 Hm; cbn [length] in Hm.
  { exists m, l. split_and!; try done; [cbn; lia|by rewrite emits_none]. }
  assert (Hw : wrap 32 (attempts_count l + 1) = attempts_count l + 1) by (apply wrap_id; unfold fits; lia).
  cbn [drops]. rewrite (drop_retries max delay cb now sockets m a l); [|done..|apply Hd|lia]. cbn [mbind option_bind].
  set (m1 := upd a (failed delay now) m).
  destruct (IH (emits [GoStage a STAGE_BEGIN] m1) (failed delay now l)) as (m' & l' & -> & Hi' & Hl' & Hd' & Hn & Has & He & Hr).
  - by apply emits_inv, failed_inv.
  - by apply upd_get.
  - done.
  - change (0 <= wrap 32 (attempts_count l + 1)). lia.
  - change (wrap 32 (attempts_count l + 1) + Z.of_nat (length times) < max < 2 ^ 32). lia.
  - exists m', l'. split_and!; try done.
    + rewrite Hn. change (wrap 32 (attempts_count l + 1) + Z.of_nat (length times) = attempts_count l + Z.of_nat (S (length times))). lia.
    + rewrite Hr. change (removed a (emits ?x m1)) with (emits x (removed a m1)). unfold m1. by rewrite removed_upd, emits_two.
Qed.

(** C20: A link that no cluster requires is tried as many times as configured: after
    each failure but the last its client is sent to its first stage and the link
    stays.  The last failure tells every active net of the link, with the number
    of links it has left, and then, as none of them keeps it, deletes its client,
    the other sockets of the peer and the link, and nothing else. *)
Theorem link_given_up max delay cb permanent sockets m a l times now :
  inv m -> links m !! a = Some l -> dispensable l -> attempts_count l = 0 ->
  cb_disconnected cb = Some permanent -> (∀ id k, permanent a id k = false) ->
  Z.of_nat (length times) + 1 = max -> max < 2 ^ 32 ->
  (∃ m1, drops max delay cb sockets a times m = Some m1 /\ is_Some (links m1 !! a)) /\
  drops max delay cb sockets a (times ++ [now]) m =
    Some (emits (replicate (length times) (GoStage a STAGE_BEGIN) ++ omap (told m a) (associated_nets l) ++
                 ClientDelete a :: (SocketDelete <$> filter (λ u, u ≠ es_uuid l) (sockets a))) (removed a m)).
Proof.
  intros Hi Hl Hd H0 Hcb Hp Hn Hm.
  destruct (drops_retry max delay cb sockets a times m l) as (m' & l' & Hdr & Hi' & Hl' & Hd' & Hat & Has & He & Hr); [done..|lia|lia|].
  split; [by exists m'; split; [|exists l']|]. rewrite drops_app, Hdr. cbn [mbind option_bind drops].
  rewrite (drop_last max delay cb permanent now sockets m' a l'); [|done..| |done|done]; cycle 1.
  { rewrite Hat, H0, wrap_id; unfold fits; lia. }
  cbn [mbind option_bind]. rewrite Hr, emits_two, Has, He. assert (Ht : told m' a = told m a).
  { unfold told, dap_cluster_members_count. apply (f_equal net_heap) in Hr as H1. apply (f_equal clusters) in Hr as H2.
    change (net_heap m' = net_heap m) in H1. change (clusters m' = clusters m) in H2. by rewrite H1, H2. }
  by rewrite Ht.
Qed.

(** ** The uplink of the example *)

Definition demo_lost : mgr := default demo (exec 3 10 demo_cb 99 demo_w demo (LinksSpec.StreamDelete 5)).

Lemma demo_lost_inv : inv demo_lost.
Proof.
  destruct (exec_ok 3 10 demo_cb 99 demo_w demo (LinksSpec.StreamDelete 5) demo_inv I) as (m' & Hm & Hi).
  unfold demo_lost. by rewrite Hm.
Qed.

Definition demo_link : dap_link := Link true [] LINK_STATE_ESTABLISHED 0 true 8079 [10] 0 77 false [] true.
Lemma demo_lost_link : links demo_lost !! 5 = Some demo_link.
Proof. vm_compute. reflexivity. Qed.

Lemma link_reconnects_witness :
  ∃ m1 m2, s_link_drop_callback 3 10 demo_cb 100 (λ _, []) demo_lost 5 true = Some m1 /\
           wake_up 3 10 demo_cb 110 (λ _, 0) (λ _, []) m1 5 = Some m1 /\
           wake_up 3 10 demo_cb 111 (λ _, 0) (λ _, []) m1 5 = Some m2 /\
           out m2 = out m1 ++ [CallFillNetInfo 5; GoStage 5 STAGE_STREAM_STREAMING].
Proof.
  destruct (link_reconnects 3 10 demo_cb 100 (λ _, []) demo_lost 5 demo_link demo_lost_inv demo_lost_link)
    as (m1 & H1 & _ & H & _); [done..|].
  destruct (H 110 (λ _, 0) (λ _, [])) as [Hw _]. destruct (H 111 (λ _, 0) (λ _, [])) as [_ Hc].
  destruct Hc as (m2 & H2 & Ho & _); [lia|done|]. exists m1, m2. split; [done|]. split; [apply Hw; lia|]. done.
Defined.

Lemma link_given_up_witness :
  ∃ m', drops 3 10 demo_cb (λ _, [77; 78]) 5 ([100; 120] ++ [140]) demo_lost = Some m' /\
        out m' = out demo_lost ++ [GoStage 5 STAGE_BEGIN; GoStage 5 STAGE_BEGIN; CallDisconnected 5 7 2; ClientDelete 5; SocketDelete 78] /\
        links m' !! 5 = None.
Proof.
  destruct (link_given_up 3 10 demo_cb (λ _ _ _, false) (λ _, [77; 78]) demo_lost 5 demo_link [100; 120] 140
              demo_lost_inv demo_lost_link) as [_ H]; [done..|].
  eexists. split; [exact H|]. by split; [vm_compute|].
Defined.
