(* ===== verification/ClientHttp.v ===== *)
(** * The HTTP client (net/client/dap_client_http.c)

    One request over one socket: the request is printed when the socket is
    connected, the answer is collected in a block of fixed size until the length
    it announces has come, and then the user is called, with the answer or with
    an error.  Strings are their bytes without the final zero; the answer is
    kept in memory, and a string function on it that finds no zero, a number
    that is no [int], a write outside an array, a null callback that is called
    and a timer that is deleted twice are [None].  The build without SSL, on a
    system with [connect] and [fcntl]. *)

From coqutil Require Import Datatypes.RecordSetters.
Import DoubleBraceUpdate.
From Stdlib Require Import Ascii String.
From S2P Require Import Prelude HttpParse Esocket.
Local Open Scope Z_scope.

Definition DAP_CLIENT_HTTP_RESPONSE_SIZE_MAX : Z := 65536.
Definition DAP_HOSTADDR_STRLEN : nat := 256.
Definition ETIMEDOUT : Z := 110.

Inductive effect :=
  | ResponseCallback (data : list Z) (http_code : Z)
  | ErrorCallback (errno : Z).

Inductive timer_kind := ConnectTimer | ReadTimer.

(** [connecting], [es] and [in_reactor] are the socket, its flags and whether a
    worker has it; [connect_timer] and [read_timer] are the timers that run;
    [alive] is whether the structure is not freed.  An absent request is empty. *)
Record client_http := ClientHttpState {
  response_callback : bool;
  error_callback : bool;
  request : list Z;
  is_header_read : bool;
  is_closed_by_timeout : bool;
  were_callbacks_called : bool;
  header_length : Z;
  content_length : Z;
  ts_last_read : Z;
  response : list Z;
  response_size : Z;
  uplink_addr : list Z;
  meth : list Z;
  request_content_type : option (list Z);
  path : list Z;
  cookie : option (list Z);
  request_custom_headers : option (list Z);
  timer : option timer_kind;
  es : esocket;
  connecting : bool;
  in_reactor : bool;
  connect_timer : bool;
  read_timer : bool;
  alive : bool;
  trace : list effect;
}.

#[export] Instance set_is_header_read : Setter is_header_read | 0 := ltac:(setter client_http bool is_header_read).
#[export] Instance set_is_closed_by_timeout : Setter is_closed_by_timeout | 0 := ltac:(setter client_http bool is_closed_by_timeout).
#[export] Instance set_were_callbacks_called : Setter were_callbacks_called | 0 := ltac:(setter client_http bool were_callbacks_called).
#[export] Instance set_header_length : Setter header_length | 0 := ltac:(setter client_http Z header_length).
#[export] Instance set_content_length : Setter content_length | 0 := ltac:(setter client_http Z content_length).
#[export] Instance set_ts_last_read : Setter ts_last_read | 0 := ltac:(setter client_http Z ts_last_read).
#[export] Instance set_response : Setter response | 0 := ltac:(setter client_http (list Z) response).
#[export] Instance set_response_size : Setter response_size | 0 := ltac:(setter client_http Z response_size).
#[export] Instance set_timer : Setter timer | 0 := ltac:(setter client_http (option timer_kind) timer).
#[export] Instance set_es : Setter es | 0 := ltac:(setter client_http esocket es).
#[export] Instance set_connecting : Setter connecting | 0 := ltac:(setter client_http bool connecting).
#[export] Instance set_in_reactor : Setter in_reactor | 0 := ltac:(setter client_http bool in_reactor).
#[export] Instance set_connect_timer : Setter connect_timer | 0 := ltac:(setter client_http bool connect_timer).
#[export] Instance set_read_timer : Setter read_timer | 0 := ltac:(setter client_http bool read_timer).
#[export] Instance set_alive : Setter alive | 0 := ltac:(setter client_http bool alive).
#[export] Instance set_trace : Setter trace | 0 := ltac:(setter client_http (list effect) trace).

Definition emit (x : effect) (s : client_http) : client_http := s{{trace ::= λ t, t ++ [x] }}.
Definition signal_close (s : client_http) : client_http :=
  s{{es ::= λ e, Esocket true (es_ready_to_write e) (es_buf_in e) (es_buf_out e) (es_buf_out_alloc e) (es_buf_out_size_max e)}}.

(** A call of a callback that may be absent, and of one that is not checked. *)
Definition call_error (err : Z) (s : client_http) : client_http := if error_callback s then emit (ErrorCallback err) s else s.
Definition call_error_unchecked (err : Z) (s : client_http) : option client_http :=
  if error_callback s then Some (emit (ErrorCallback err) s) else None.

(** What the system gives: memory, timers, and the byte after the request in the
    block that [realloc] gives. *)
Record env := Env {
  now : Z;
  uuid_ok : bool;
  timer_ok : bool;
  print_ok : bool;
  realloc_ok : bool;
  write_realloc_ok : bool;
  junk : Z;
}.

(** ** Strings *)

(** The text after the first occurrence of [t]. *)
Fixpoint starts (t l : list Z) : option (list Z) :=
  match t, l with
  | [], _ => Some l
  | x :: t, y :: l => if x =? y then starts t l else None
  | _, [] => None
  end.
Fixpoint strstr (l t : list Z) : option (list Z) :=
  match starts t l with
  | Some r => Some r
  | None => match l with [] => None | _ :: l => strstr l t end
  end.

(** [sscanf(text, "%[^ ] %d", l_ver, &l_err)], with 16 bytes for [l_ver]. *)
Definition scan_int (l : list Z) : option (option Z) :=
  let l := skip_spaces l in
  let d := match l with 45 :: d => d | 43 :: d => d | d => d end in
  if isdigit (default 0 (head d)) then v ← atoi l; Some (Some v) else Some None.

Fixpoint until_space (l : list Z) : list Z * list Z :=
  match l with
  | [] => ([], [])
  | c :: r => if c =? 32 then ([], l) else let '(a, b) := until_space r in (c :: a, b)
  end.

Definition s_extract_http_code (a_response : list Z) : option Z :=
  text ← c_text a_response;
  let '(l_ver, rest) := until_space text in
  if (length l_ver =? 0)%nat then Some 0 else
  if (16 <=? length l_ver)%nat then None else
  l_err ← scan_int rest;
  Some (match l_err with Some v => if bool_decide (take 5 l_ver = txt "HTTP/") then v else 0 | None => 0 end).

(** The decimal digits of a number that is not negative. *)
Fixpoint print_digits (fuel : nat) (n : Z) : list Z :=
  match fuel with
  | O => []
  | S f => (if n <? 10 then [] else print_digits f (n / 10)) ++ [48 + n mod 10]
  end.
Definition print_nat (n : Z) : list Z := print_digits 20 n.

(** ** Sending the request *)

(** [snprintf(buf + off, size, "%s", t)]; a size of 0 writes nothing. *)
Definition snprintf (buf : list Z) (off size : Z) (t : list Z) : option (list Z) :=
  if size =? 0 then Some buf else mem_write buf off (take (Z.to_nat (Z.min (size - 1) (Z.of_nat (length t)))) t ++ [0]).

(** [l_offset += snprintf(l_request_headers + l_offset, l_offset2 -= l_offset, ...)] *)
Definition add_header (st : list Z * Z * Z) (t : list Z) : option (list Z * Z * Z) :=
  let '(buf, l_offset, l_offset2) := st in
  let l_offset2 := wrap 64 (l_offset2 - l_offset) in
  buf ← snprintf buf l_offset l_offset2 t;
  Some (buf, l_offset + Z.of_nat (length t), l_offset2).

Definition add_if (st : list Z * Z * Z) (o : option (list Z)) (f : list Z -> list Z) : option (list Z * Z * Z) :=
  match o with Some t => add_header st (f t) | None => Some st end.

Definition is_post (s : client_http) : bool :=
  bool_decide (meth s = txt "POST") || bool_decide (meth s = txt "POST_ENC").

Definition request_headers (s : client_http) : option (list Z) :=
  let st := (replicate 1024 0, 0, 1024) in
  st ← (if negb (bool_decide (request s = [])) && is_post s then
          st ← (match request_content_type s with
                | Some t =>
                  let line := txt "Content-Type: " ++ t ++ CRLF in
                  buf ← snprintf (replicate 1024 0) 0 1024 line; Some (buf, Z.of_nat (length line), 1024)
                | None => Some st
                end);
          st ← add_if st (request_custom_headers s) id;
          st ← add_if st (cookie s) (λ c, txt "Cookie: " ++ c ++ CRLF);
          add_header st (txt "Content-Length: " ++ print_nat (Z.of_nat (length (request s))) ++ CRLF)
        else Some st);
  st ← (if bool_decide (meth s = txt "GET") then
          st ← add_header st (txt "User-Agent: Mozilla" ++ CRLF);
          st ← add_if st (request_custom_headers s) id;
          add_if st (cookie s) (λ c, txt "Cookie: " ++ c ++ CRLF)
        else Some st);
  let '(buf, _, _) := st in c_text buf.

(** [l_get_str] has room for the request and two more bytes. *)
Definition get_str (s : client_http) : option (list Z) :=
  if bool_decide (meth s = txt "GET") && negb (bool_decide (request s = [])) then
    t ← c_text (request s ++ [0]);
    buf ← snprintf (replicate (length (request s) + 2) 0) 0 (Z.of_nat (length (request s) + 2)) (63 :: t);
    c_text buf
  else Some [].

Definition s_http_connected (e : env) (s : client_http) : option client_http :=
  if negb (uuid_ok e) then Some s else
  let s := s{{timer := if timer_ok e then Some ReadTimer else None; read_timer := timer_ok e}} in
  if negb (timer_ok e) then Some s else
  l_request_headers ← request_headers s;
  l_get_str ← get_str s;
  if negb (print_ok e) then Some s else
  let l_out_buf := meth s ++ txt " /" ++ path s ++ l_get_str ++ txt " HTTP/1.1" ++ CRLF ++
                   txt "Host: " ++ uplink_addr s ++ CRLF ++ l_request_headers ++ CRLF in
  let has_request := negb (bool_decide (request s = [])) in
  if has_request && negb (realloc_ok e) then Some s else
  let l_out_buf := if has_request then l_out_buf ++ request s ++ [junk e] else l_out_buf in
  '(es', _) ← dap_events_socket_write_unsafe (es s) (write_realloc_ok e) l_out_buf;
  Some (s{{es := es'}}).

(** ** Reading the answer *)

(** The first of [n] positions where the headers end. *)
Fixpoint find_end (m : list Z) (n : nat) {struct n} : option nat :=
  match n with
  | O => None
  | S n =>
    if bool_decide (take 4 m = CRLF ++ CRLF) then Some O
    else match m with [] => None | _ :: m => S <$> find_end m n end
  end.

Definition search_header (s : client_http) : client_http :=
  if negb (is_header_read s) && (4 <? response_size s) && (content_length s =? 0) then
    match find_end (response s) (Z.to_nat (response_size s - 4)) with
    | Some l_pos => s{{header_length := Z.of_nat l_pos + 4; is_header_read := true}}
    | None => s
    end
  else s.

Definition process_header (s : client_http) : option client_http :=
  if is_header_read s then
    text ← c_text (response s);
    match strstr text (txt "Content-Length: ") with
    | Some l_content_len_ptr =>
      v ← atoi l_content_len_ptr; Some (s{{content_length := wrap 64 v; is_header_read := false}})
    | None => Some s
    end
  else Some s.

Definition process_data (s : client_http) : option client_http :=
  if content_length s =? 0 then Some s else
  let s := s{{is_header_read := false}} in
  if wrap 64 (response_size s - header_length s) <? content_length s then Some s else
  response' ← mem_write (response s) (Z.min (response_size s) (DAP_CLIENT_HTTP_RESPONSE_SIZE_MAX - 1)) [0];
  let s := s{{response := response'}} in
  s ← (if response_callback s then
         data ← mem_read (response s) (header_length s) (content_length s);
         code ← s_extract_http_code (response s);
         Some (emit (ResponseCallback data code) s)
       else Some s);
  Some (signal_close (s{{response_size := wrap 64 (wrap 64 (response_size s - header_length s) - content_length s);
                         header_length := 0; content_length := 0; were_callbacks_called := true}})).

Definition s_http_read (t : Z) (s : client_http) : option client_http :=
  let s := s{{ts_last_read := t}} in
  let '(es', d) := dap_events_socket_pop_from_buf_in (es s) (wrap 64 (DAP_CLIENT_HTTP_RESPONSE_SIZE_MAX - response_size s)) in
  response' ← mem_write (response s) (response_size s) d;
  let s := s{{es := es'; response := response'; response_size := wrap 64 (response_size s + Z.of_nat (length d))}} in
  s ← process_header (search_header s);
  process_data s.

(** ** The end of a request *)

Definition s_http_error (a_errno : Z) (s : client_http) : client_http :=
  signal_close ((call_error a_errno s){{were_callbacks_called := true}}).

Definition timer_delete (k : timer_kind) (s : client_http) : option client_http :=
  match k with
  | ConnectTimer => if connect_timer s then Some (s{{connect_timer := false}}) else None
  | ReadTimer => if read_timer s then Some (s{{read_timer := false}}) else None
  end.

Definition s_client_http_delete (s : client_http) : option client_http :=
  s ← (match timer s with Some k => timer_delete k s | None => Some s end);
  Some (s{{alive := false}}).

Definition s_es_delete (s : client_http) : option client_http :=
  s ← (if were_callbacks_called s then Some s else
       let l_response_size := if header_length s <? response_size s then response_size s - header_length s else 0 in
       if negb (content_length s =? 0) then call_error_unchecked (-6) s
       else if negb (l_response_size =? 0) then
         l_status_code ← s_extract_http_code (response s);
         s ← (if response_callback s then
                data ← mem_read (response s) (header_length s) l_response_size;
                Some (emit (ResponseCallback data l_status_code) s)
              else Some s);
         Some (s{{were_callbacks_called := true}})
       else if negb (response_size s =? 0) then
         s ← call_error_unchecked (-7) s; Some (s{{were_callbacks_called := true}})
       else s ← call_error_unchecked (-8) s; Some (s{{were_callbacks_called := true}}));
  s ← s_client_http_delete s;
  Some (s{{in_reactor := false}}).

(** The end of a timer that closes the socket. *)
Definition close_by_timeout (s : client_http) : option client_http :=
  let s := s{{timer := None}} in
  let s := if error_callback s then (emit (ErrorCallback ETIMEDOUT) s){{were_callbacks_called := true}} else s in
  s_es_delete (s{{is_closed_by_timeout := true}}).

Definition s_timer_timeout_check (s : client_http) : option client_http :=
  let s := s{{connect_timer := false}} in
  if in_reactor s && connecting s then close_by_timeout s else Some s.

(** The limit is in milliseconds, the clock in seconds. *)
Definition s_timer_timeout_after_connected_check (s_client_timeout_read_after_connect_ms : Z) (t : Z) (s : client_http) : option client_http :=
  if in_reactor s then
    if s_client_timeout_read_after_connect_ms <=? t - ts_last_read s
    then close_by_timeout (s{{read_timer := false}}) else Some s
  else Some (s{{read_timer := false}}).

Definition dap_client_http_close_unsafe (s : client_http) : option client_http :=
  s_client_http_delete (s{{in_reactor := false}}).

(** ** Creating a request *)

(** What the system gives a new request; [connect_errno] is that of [connect]:
    0, [EINPROGRESS] or another one. *)
Record setup := Setup {
  socket_errno : option Z;
  getfl_errno : option Z;
  setfl_errno : option Z;
  client_mem : bool;
  request_mem : bool;
  response_mem : bool;
  mem_errno : Z;
  resolve_errno : option Z;
  connect_errno : Z;
  uuid_mem : bool;
  connect_timer_ok : bool;
}.

Definition EINPROGRESS : Z := 115.
Definition DAP_EVENTS_SOCKET_BUF_SIZE : Z := 16 * 1024 * 16.

Definition response_block : list Z := replicate (Z.to_nat DAP_CLIENT_HTTP_RESPONSE_SIZE_MAX) 0.

(** The result is the request, if any, and the error the user is told. *)
Definition dap_client_http_request_custom (u : setup) (a_uplink_addr a_method : list Z) (a_request_content_type : option (list Z))
    (a_path a_request : list Z) (a_cookie : option (list Z)) (a_response_callback a_error_callback : bool)
    (a_custom_headers : option (list Z)) : option client_http * list effect :=
  let failed err := (None, if a_error_callback then [ErrorCallback err] else []) in
  match socket_errno u, getfl_errno u, setfl_errno u with
  | Some err, _, _ | None, Some err, _ | None, None, Some err => failed err
  | None, None, None =>
    if negb (client_mem u) then failed (mem_errno u) else
    if negb (bool_decide (a_request = [])) && negb (request_mem u) then failed (mem_errno u) else
    if negb (response_mem u) then failed (mem_errno u) else
    let s := ClientHttpState a_response_callback a_error_callback a_request false false false 0 0 0
               response_block 0 (take (DAP_HOSTADDR_STRLEN - 1) a_uplink_addr)
               a_method a_request_content_type a_path a_cookie a_custom_headers None
               (Esocket false true [] [] DAP_EVENTS_SOCKET_BUF_SIZE DAP_EVENTS_SOCKET_BUF_SIZE)
               true false false false true [] in
    match resolve_errno u with
    | Some err => failed err
    | None =>
      if connect_errno u =? 0 then (Some s, [])
      else if connect_errno u =? EINPROGRESS then
        if negb (uuid_mem u) then failed (mem_errno u) else
        (Some (s{{timer := if connect_timer_ok u then Some ConnectTimer else None; connect_timer := connect_timer_ok u;
                  in_reactor := true}}), [])
      else failed (connect_errno u)
    end
  end.

(** ** What the reactor does with a request *)

Inductive event :=
  | Connected (e : env)
  | Received (t : Z) (d : list Z)
  | SocketError (errno : Z)
  | ConnectTimeout
  | ReadTimeout (t : Z)
  | Closed.

(** A socket that is to be closed is deleted by the same pass of the worker, unless
    its output waits; nothing else of it is handled before. *)
Definition enabled (s : client_http) (ev : event) : bool :=
  match ev with
  | Connected _ => in_reactor s && connecting s && negb (es_signal_close (es s))
  | Received _ d => in_reactor s && negb (es_signal_close (es s)) && negb (bool_decide (d = []))
  | SocketError _ => in_reactor s && negb (es_signal_close (es s))
  | ConnectTimeout => connect_timer s && negb (es_signal_close (es s) && in_reactor s)
  | ReadTimeout _ => read_timer s && negb (es_signal_close (es s) && in_reactor s)
  | Closed => in_reactor s
  end.

Definition handle (s_client_timeout_read_after_connect_ms : Z) (s : client_http) (ev : event) : option client_http :=
  match ev with
  | Connected e => s_http_connected e (s{{connecting := false}})
  | Received t d => s_http_read t (s{{es ::= λ x, set_buf_in x (es_buf_in x ++ d)}})
  | SocketError err => Some (s_http_error err s)
  | ConnectTimeout => s_timer_timeout_check s
  | ReadTimeout t => s_timer_timeout_after_connected_check s_client_timeout_read_after_connect_ms t s
  | Closed => s_es_delete s
  end.

(** Events that cannot come are left out. *)
Fixpoint run (limit : Z) (evs : list event) (s : client_http) : option client_http :=
  match evs with
  | [] => Some s
  | ev :: evs => if enabled s ev then s ← handle limit s ev; run limit evs s else run limit evs s
  end.
