(* ===== verification/ClientHttpRun.v ===== *)
(** * What the HTTP client does

    The request it sends is what the server of [Http] reads; the answer is handed
    over whole, however it is cut on its way; and a request ends with one call of
    one of its callbacks. *)

From coqutil Require Import Datatypes.RecordSetters.
Import DoubleBraceUpdate.
From Stdlib Require Import Ascii String.
From S2P Require Import Prelude HttpParse Http HttpRun HttpSimple Esocket ClientHttp.
Local Open Scope Z_scope.

(** ** Texts *)

Lemma starts_spec t l r : starts t l = Some r <-> l = t ++ r.
Proof.
  revert l. induction t as [|x t IH]; intros l; cbn [starts app].
  - split; [by intros [= <-]|by intros ->].
  - destruct l as [|y l]; [done|]. destruct (Z.eqb_spec x y) as [->|Hn].
    + rewrite IH. split; [by intros ->|by intros [= ->]].
    + split; [done|]. intros [= <- _]. done.
Qed.

Lemma starts_none t l m : starts t l = None -> (length t <= length l)%nat -> starts t (l ++ m) = None.
Proof.
  intros H Hl. destruct (starts t (l ++ m)) as [r|] eqn:E; [|done]. apply starts_spec in E.
  assert (H0 : l = t ++ drop (length t) l); [|apply starts_spec in H0; congruence].
  rewrite <- (take_drop (length t) l) at 1. f_equal. apply (f_equal (take (length t))) in E.
  rewrite take_app_le, take_app_length in E by done. done.
Qed.

Lemma strstr_split l t r : strstr l t = Some r -> exists p, l = p ++ t ++ r.
Proof.
  induction l as [|y l IH]; cbn [strstr]; destruct (starts t _) as [r0|] eqn:E; try done.
  - intros [= ->]. apply starts_spec in E. by exists [].
  - intros [= ->]. apply starts_spec in E. by exists [].
  - intros H. destruct (IH H) as [p ->]. by exists (y :: p).
Qed.

Lemma strstr_app l m t r : strstr l t = Some r -> strstr (l ++ m) t = Some (r ++ m).
Proof.
  induction l as [|y l IH]; cbn [strstr app].
  - destruct (starts t []) as [r0|] eqn:E; [|done]. intros [= ->]. apply starts_spec in E.
    assert (Hm : starts t m = Some (r ++ m)) by (apply starts_spec; by destruct t, r). by destruct m; cbn [strstr]; rewrite Hm.
  - destruct (starts t (y :: l)) as [r0|] eqn:E.
    + intros [= ->]. apply starts_spec in E.
      assert (Hm : starts t (y :: l ++ m) = Some (r ++ m)) by (apply starts_spec; change (y :: l ++ m) with ((y :: l) ++ m); by rewrite E, <- app_assoc).
      by rewrite Hm.
    + intros H. destruct (strstr_split l t r H) as [p Hp].
      change (y :: l ++ m) with ((y :: l) ++ m). rewrite starts_none; [by apply IH|done|].
      cbn [length]. rewrite Hp, !length_app. lia.
Qed.

(** The text at the start of a block that a zero follows. *)
Lemma c_text_zeros l k : (0 < k)%nat -> exists t, c_text (l ++ replicate k 0) = Some t /\ t `prefix_of` l.
Proof.
  intros Hk. induction l as [|c l (t & Ht & Hp)]; cbn [app c_text].
  - destruct k; [lia|]. by exists [].
  - destruct (c =? 0); [exists []; split; [done|apply prefix_nil]|]. rewrite Ht. exists (c :: t). split; [done|]. by apply prefix_cons.
Qed.

Lemma c_text_head h l k : Forall (λ c, c <> 0) h -> (0 < k)%nat -> exists t, c_text (h ++ l ++ replicate k 0) = Some (h ++ t).
Proof.
  intros Hh Hk. destruct (c_text_zeros l k Hk) as (t & Ht & _). exists t.
  induction Hh as [|c h Hc _ IH]; [done|]. cbn [app c_text]. rewrite (proj2 (Z.eqb_neq c 0)) by done. by rewrite IH.
Qed.

(** ** Numbers *)

Fixpoint digit_run (l : list Z) : nat :=
  match l with c :: l => if isdigit c then S (digit_run l) else O | [] => O end.

Lemma digit_run_prefix l m : l `prefix_of` m -> (digit_run l <= digit_run m)%nat.
Proof.
  intros [k ->]. induction l as [|c l IH]; cbn; [lia|]. destruct (isdigit c); lia.
Qed.

Lemma digits_bound l : forall acc, 0 <= acc -> 0 <= digits acc l < (acc + 1) * 10 ^ Z.of_nat (digit_run l).
Proof.
  induction l as [|c l IH]; intros acc Ha; cbn [digits digit_run]; [cbn; lia|].
  destruct (isdigit c) eqn:E; [|cbn; lia]. apply andb_true_iff in E as [E1%Z.leb_le E2%Z.leb_le].
  destruct (IH (10 * acc + (c - 48))) as [H1 H2]; [lia|]. split; [done|].
  rewrite Nat2Z.inj_succ, Z.pow_succ_r by lia. nia.
Qed.

(** No run of ten digits. *)
Definition digits_ok (l : list Z) : Prop := forall i, (digit_run (drop i l) <= 9)%nat.

Lemma digits_ok_prefix l m : l `prefix_of` m -> digits_ok m -> digits_ok l.
Proof.
  intros [k ->] H i. etransitivity; [|apply (H i)]. apply digit_run_prefix.
  destruct (decide (i <= length l)%nat); [rewrite drop_app_le by done; by eexists|].
  rewrite drop_ge by lia. apply prefix_nil.
Qed.

Lemma digits_ok_drop l k : digits_ok l -> digits_ok (drop k l).
Proof. intros H i. rewrite drop_drop. apply H. Qed.

Lemma skip_spaces_drop l : exists k, skip_spaces l = drop k l.
Proof. induction l as [|c l [k Hk]]; cbn; [by exists 0%nat|]. destruct (isspace c); [by exists (S k)|by exists 0%nat]. Qed.

Lemma digits_ok_value l : digits_ok l -> 0 <= digits 0 l < 2 ^ 30.
Proof.
  intros H. specialize (H 0%nat). rewrite drop_0 in H. destruct (digits_bound l 0) as [H1 H2]; [lia|]. split; [done|].
  assert (10 ^ Z.of_nat (digit_run l) <= 10 ^ 9) by (apply Z.pow_le_mono_r; lia). lia.
Qed.

Lemma atoi_some l : digits_ok l -> exists v, atoi l = Some v.
Proof.
  intros H. destruct (skip_spaces_drop l) as [k Hk]. apply (digits_ok_drop l k) in H. unfold atoi. rewrite Hk.
  set (d := drop k l) in *. assert (Ht : digits_ok (tail d)) by (change (digits_ok (tail d)); replace (tail d) with (drop 1 d) by (by destruct d); by apply digits_ok_drop).
  assert (B : forall x, digits_ok x -> (- 2 ^ 31 <=? digits 0 x) && (digits 0 x <? 2 ^ 31) = true /\
                                  (- 2 ^ 31 <=? - digits 0 x) && (- digits 0 x <? 2 ^ 31) = true).
  { intros x Hx%digits_ok_value. rewrite !(proj2 (Z.leb_le _ _)), !(proj2 (Z.ltb_lt _ _)) by lia. done. }
  destruct (B _ H) as [B1 _]. destruct (B _ Ht) as [B2 B3].
  destruct d as [|c d]; [by rewrite B1; eexists|]. cbn [tail] in *.
  repeat match goal with |- context [match ?c with _ => _ end] => is_var c; destruct c end; rewrite ?B1, ?B2, ?B3; by eexists.
Qed.

Lemma until_space_app l : l = (until_space l).1 ++ (until_space l).2.
Proof. induction l as [|c l IH]; cbn; [done|]. destruct (c =? 32); [done|]. destruct (until_space l) as [a b]. cbn in *. by rewrite IH at 1. Qed.

Lemma until_space_prefix l m : l `prefix_of` m -> (length (until_space l).1 <= length (until_space m).1)%nat.
Proof.
  intros [k ->]. induction l as [|c l IH]; cbn; [lia|]. destruct (c =? 32); [cbn; lia|].
  destruct (until_space l), (until_space (l ++ k)). cbn in *. lia.
Qed.

Lemma scan_int_some l : digits_ok l -> exists v, scan_int l = Some v.
Proof.
  intros H. unfold scan_int. destruct (skip_spaces_drop l) as [k ->]. apply (digits_ok_drop l k) in H.
  destruct (atoi_some _ H) as [v ->]. destruct (isdigit _); by eexists.
Qed.

(** An answer the client copes with: shorter than its block, a first word of less
    than 16 bytes, no run of ten digits. *)
Record tame (R : list Z) : Prop := {
  tame_size : Z.of_nat (length R) < 65536;
  tame_word : (length (until_space R).1 < 16)%nat;
  tame_digits : digits_ok R;
}.

Lemma tame_prefix R R' : R `prefix_of` R' -> tame R' -> tame R.
Proof.
  intros Hp [H1 H2 H3]. split.
  - apply prefix_length in Hp. lia.
  - apply until_space_prefix in Hp. lia.
  - by eapply digits_ok_prefix.
Qed.

Lemma extract_some R k : tame R -> (0 < k)%nat -> exists c, s_extract_http_code (R ++ replicate k 0) = Some c.
Proof.
  intros [_ Hw Hd] Hk. unfold s_extract_http_code. destruct (c_text_zeros R k Hk) as (t & -> & Hp). cbn [mbind option_bind].
  pose proof (until_space_prefix _ _ Hp) as Hl. pose proof (until_space_app t) as Ht.
  destruct (until_space t) as [v r]. cbn [fst snd] in *. destruct (_ =? _)%nat; [by eexists|].
  rewrite (proj2 (Nat.leb_gt _ _)) by lia. destruct (scan_int_some r) as [e ->].
  { replace r with (drop (length v) t) by (by rewrite Ht, drop_app_length). apply digits_ok_drop. by eapply digits_ok_prefix. }
  cbn [mbind option_bind]. by eexists.
Qed.

(** ** A request that waits for its answer *)

(** The block of the answer. *)
Definition block (R : list Z) : list Z := R ++ replicate (Z.to_nat (65536 - Z.of_nat (length R))) 0.

Lemma length_block R : Z.of_nat (length R) <= 65536 -> Z.of_nat (length (block R)) = 65536.
Proof. intros. unfold block. rewrite length_app, length_replicate. lia. Qed.

Lemma block_write R d : Z.of_nat (length R + length d) <= 65536 -> mem_write (block R) (Z.of_nat (length R)) d = Some (block (R ++ d)).
Proof.
  intros H. unfold block. rewrite length_app.
  replace (Z.to_nat (65536 - Z.of_nat (length R))) with (length d + Z.to_nat (65536 - Z.of_nat (length R + length d)))%nat by lia.
  rewrite replicate_add, mem_write_app by apply length_replicate. by rewrite <- app_assoc.
Qed.

Lemma block_zero R : Z.of_nat (length R) < 65536 -> mem_write (block R) (Z.of_nat (length R)) [0] = Some (block R).
Proof.
  intros H. unfold block. replace (Z.to_nat (65536 - Z.of_nat (length R))) with (S (Z.to_nat (65535 - Z.of_nat (length R)))) by lia.
  change (replicate (S ?n) 0) with ([0] ++ replicate n 0). by rewrite (mem_write_app R [0] [0]).
Qed.

Lemma block_read R h c : 0 <= h -> 0 <= c -> h + c <= Z.of_nat (length R) ->
  mem_read (block R) h c = Some (take (Z.to_nat c) (drop (Z.to_nat h) R)).
Proof.
  intros Hh Hc Hl. rewrite <- (Z2Nat.id h), <- (Z2Nat.id c) by done. rewrite !Nat2Z.id. unfold block.
  rewrite mem_read_nat by (rewrite length_app; lia). rewrite drop_app_le, take_app_le by (rewrite ?length_drop; lia). done.
Qed.

(** The timer the request refers to runs; a request that is connected does not
    refer to the timer of the connection. *)
Definition timers_ok (s : client_http) : Prop :=
  match timer s with
  | Some ConnectTimer => connect_timer s = true /\ connecting s = true
  | Some ReadTimer => read_timer s = true
  | None => True
  end.

Record open (R : list Z) (s : client_http) : Prop := {
  op_response : response s = block R;
  op_size : response_size s = Z.of_nat (length R);
  op_header : 0 <= header_length s <= Z.of_nat (length R);
  op_content : 0 <= content_length s < 2 ^ 64;
  op_callbacks : response_callback s = true /\ error_callback s = true;
  op_trace : were_callbacks_called s = false /\ trace s = [];
  op_es : es_buf_in (es s) = [] /\ es_signal_close (es s) = false /\ es_ok (es s);
  op_alive : alive s = true /\ in_reactor s = true;
  op_timers : timers_ok s;
}.

(** The user was called, and the socket is to be closed. *)
Record closing (x : effect) (s : client_http) : Prop := {
  cl_trace : were_callbacks_called s = true /\ trace s = [x];
  cl_close : es_signal_close (es s) = true /\ alive s = true /\ in_reactor s = true;
  cl_timers : timers_ok s;
}.

Definition dead (x : effect) (s : client_http) : Prop := alive s = false /\ in_reactor s = false /\ trace s = [x].

Lemma find_end_lt n : forall m p, find_end m n = Some p -> (p < n)%nat.
Proof.
  induction n as [|n IH]; intros m p; cbn [find_end]; [done|]. case_bool_decide; [intros [= <-]; lia|].
  destruct m as [|x m]; [done|]. destruct (find_end m n) as [q|] eqn:E; [|done]. intros [= <-]. apply IH in E. lia.
Qed.

Lemma search_open R s : open R s -> open R (search_header s).
Proof.
  intros [H1 H2 H3 H4 H5 H6 H7 H8 H9]. unfold search_header. destruct (_ && _) eqn:E; [|by split].
  apply andb_true_iff in E as [[_ E%Z.ltb_lt]%andb_true_iff _].
  destruct (find_end _ _) as [p|] eqn:Ep; [|by split]. apply find_end_lt in Ep. split; try done.
  change (0 <= Z.of_nat p + 4 <= Z.of_nat (length R)). lia.
Qed.

Lemma header_open R s : tame R -> open R s -> exists s', process_header s = Some s' /\ open R s'.
Proof.
  intros HR Ho. destruct (id Ho) as [H1 H2 H3 H4 H5 H6 H7 H8 H9]. unfold process_header. destruct (is_header_read s); [|by exists s].
  pose proof (tame_size R HR) as Hsz. rewrite H1.
  destruct (c_text_zeros R (Z.to_nat (65536 - Z.of_nat (length R)))) as (t & Ht & Hp); [lia|]. unfold block. rewrite Ht.
  cbn [mbind option_bind]. destruct (strstr t _) as [r|] eqn:Er; [|by exists s].
  destruct (strstr_split _ _ _ Er) as [q Hq]. destruct (atoi_some r) as [v ->].
  { replace r with (drop (length (q ++ txt "Content-Length: ")) t) by (by rewrite Hq, app_assoc, drop_app_length).
    apply digits_ok_drop. eapply digits_ok_prefix; [done|apply HR]. }
  cbn [mbind option_bind]. eexists. split; [done|]. split; try done. apply (wrap_fits 64). lia.
Qed.

(** The state after the user got an answer. *)
Definition answered (data : list Z) (code : Z) (s : client_http) : client_http :=
  signal_close ((emit (ResponseCallback data code) (s{{is_header_read := false}}))
    {{response_size := wrap 64 (wrap 64 (response_size s - header_length s) - content_length s);
      header_length := 0; content_length := 0; were_callbacks_called := true}}).

Lemma data_open R s : Z.of_nat (length R) < 65536 -> open R s ->
  process_data s =
    if content_length s =? 0 then Some s
    else if Z.of_nat (length R) <? header_length s + content_length s then Some (s{{is_header_read := false}})
    else code ← s_extract_http_code (block R);
         Some (answered (take (Z.to_nat (content_length s)) (drop (Z.to_nat (header_length s)) R)) code s).
Proof.
  intros Hsz [H1 H2 H3 H4 [H5 _] H6 H7 H8 H9]. unfold process_data. destruct (content_length s =? 0); [done|].
  change (response_size (s{{is_header_read := false}})) with (response_size s).
  change (header_length (s{{is_header_read := false}})) with (header_length s).
  change (content_length (s{{is_header_read := false}})) with (content_length s).
  change (response (s{{is_header_read := false}})) with (response s).
  rewrite H1, H2, (wrap_id 64 (Z.of_nat (length R) - header_length s)) by (unfold fits; lia).
  destruct (Z.ltb_spec (Z.of_nat (length R) - header_length s) (content_length s)) as [Hlt|Hge].
  { by rewrite (proj2 (Z.ltb_lt _ _)) by lia. }
  rewrite (proj2 (Z.ltb_ge _ _)), Z.min_l, block_zero by (unfold DAP_CLIENT_HTTP_RESPONSE_SIZE_MAX; lia).
  cbn [mbind option_bind]. change (response_callback _) with (response_callback s). rewrite H5.
  change (response (s{{is_header_read := false; response := ?x}})) with x.
  change (header_length (s{{is_header_read := false; response := ?x}})) with (header_length s).
  change (content_length (s{{is_header_read := false; response := ?x}})) with (content_length s).
  rewrite block_read by lia. cbn [mbind option_bind]. destruct (s_extract_http_code (block R)) as [code|]; [|done].
  cbn [mbind option_bind]. do 2 f_equal. unfold answered, emit. clear -H1. destruct s. cbn in *. by rewrite H1.
Qed.

Lemma data_ok R s : tame R -> open R s -> exists s', process_data s = Some s' /\ (open R s' \/ exists x, closing x s').
Proof.
  intros HR Ho. rewrite (data_open R s) by (done || apply HR). destruct (id Ho) as [H1 H2 H3 H4 H5 H6 H7 H8 H9].
  destruct (_ =? 0); [by exists s; auto|]. destruct (_ <? _).
  { eexists. split; [done|]. left. by split. }
  destruct (extract_some R (Z.to_nat (65536 - Z.of_nat (length R)))) as [c Hc]; [done|pose proof (tame_size R HR); lia|].
  unfold block. rewrite Hc. cbn [mbind option_bind]. eexists. split; [done|]. right. eexists. split; try done.
  split; [done|]. change (trace (answered ?x ?y s)) with (trace s ++ [ResponseCallback x y]). by rewrite (proj2 H6).
Qed.

(** The state when bytes have been taken from the socket. *)
Definition taken (t : Z) (R : list Z) (s : client_http) : client_http :=
  s{{ts_last_read := t; es := set_buf_in (es s) []; response := block R; response_size := Z.of_nat (length R)}}.

Lemma read_open t R d s : Z.of_nat (length (R ++ d)) < 65536 -> open R s ->
  handle 0 s (Received t d) = (s ← process_header (search_header (taken t (R ++ d) s)); process_data s) /\
  open (R ++ d) (taken t (R ++ d) s).
Proof.
  intros Hsz [H1 H2 H3 H4 H5 H6 (H7 & H7' & H7'') H8 H9]. rewrite length_app in Hsz. split.
  - cbn [handle]. unfold s_http_read.
    change (response_size _) with (response_size s). change (response _) with (response s). rewrite H1, H2.
    change (es _) with (set_buf_in (es s) (es_buf_in (es s) ++ d)). rewrite H7. cbn [app].
    unfold dap_events_socket_pop_from_buf_in. change (es_buf_in (set_buf_in (es s) d)) with d.
    rewrite wrap_id by (unfold fits, DAP_CLIENT_HTTP_RESPONSE_SIZE_MAX; lia).
    rewrite (proj2 (Z.ltb_ge _ _)) by (unfold DAP_CLIENT_HTTP_RESPONSE_SIZE_MAX; lia).
    rewrite block_write by lia. cbn [mbind option_bind]. rewrite wrap_id by (unfold fits; lia).
    unfold taken. rewrite length_app, Nat2Z.inj_add. done.
  - split; try done.
    + change (0 <= header_length s <= Z.of_nat (length (R ++ d))). rewrite length_app. lia.
    + split; [done|]. split; [done|]. by destruct H7''.
Qed.

Lemma received_ok l t R d s : tame (R ++ d) -> open R s ->
  exists s', handle l s (Received t d) = Some s' /\ (open (R ++ d) s' \/ exists x, closing x s').
Proof.
  intros HR Ho. destruct (read_open t R d s (tame_size _ HR) Ho) as [E Ho1].
  change (handle l s (Received t d)) with (handle 0 s (Received t d)). rewrite E.
  apply search_open in Ho1. destruct (header_open _ _ HR Ho1) as (s1 & -> & Ho2). by apply data_ok.
Qed.

(** ** The end of a request *)

Lemma error_ok R s err : open R s -> closing (ErrorCallback err) (s_http_error err s).
Proof.
  intros [H1 H2 H3 H4 [_ H5] [_ H6] H7 H8 H9]. unfold s_http_error, call_error. rewrite H5. split; try done.
  split; [done|]. change (trace s ++ [ErrorCallback err] = [ErrorCallback err]). by rewrite H6.
Qed.

Lemma http_delete_ok s : timers_ok s ->
  exists s', s_client_http_delete s = Some s' /\ alive s' = false /\ trace s' = trace s.
Proof.
  unfold timers_ok, s_client_http_delete, timer_delete. destruct (timer s) as [[]|].
  - intros [-> _]. by eexists.
  - intros ->. by eexists.
  - by eexists.
Qed.

Lemma delete_called s x : timers_ok s -> were_callbacks_called s = true -> trace s = [x] ->
  exists s', s_es_delete s = Some s' /\ dead x s'.
Proof.
  intros Ht Hw Hx. unfold s_es_delete. rewrite Hw. cbn [mbind option_bind].
  destruct (http_delete_ok s Ht) as (s' & -> & Ha & Hs). eexists. split; [done|].
  split; [exact Ha|]. split; [done|]. transitivity (trace s'); [done|]. by rewrite Hs.
Qed.

Lemma delete_after s x : timers_ok s -> trace s = [] ->
  exists s', (s ← s_client_http_delete (emit x s); Some (s{{in_reactor := false}})) = Some s' /\ dead x s'.
Proof.
  intros Ht Hx. destruct (http_delete_ok (emit x s)) as (s' & -> & Ha & Hs); [done|]. eexists. split; [done|].
  split; [exact Ha|]. split; [done|]. transitivity (trace s'); [done|]. rewrite Hs.
  change (trace s ++ [x] = [x]). by rewrite Hx.
Qed.

Lemma delete_open R s : tame R -> open R s -> exists x s', s_es_delete s = Some s' /\ dead x s'.
Proof.
  intros HR [H1 H2 H3 H4 [H5 H5'] [H6 H6'] H7 H8 H9]. unfold s_es_delete, call_error_unchecked. rewrite H6, H5', H5, H1, H2.
  pose proof (tame_size R HR) as Hsz.
  destruct (negb (content_length s =? 0)); [eexists; by apply delete_after|].
  destruct (Z.ltb_spec (header_length s) (Z.of_nat (length R))) as [Hlt|Hge].
  - rewrite (proj2 (Z.eqb_neq _ 0)) by lia. cbn [negb].
    destruct (extract_some R (Z.to_nat (65536 - Z.of_nat (length R)))) as [c Hc]; [done|lia|].
    change (R ++ replicate _ 0) with (block R) in Hc. rewrite Hc, block_read by lia. cbn [mbind option_bind].
    change ((emit ?x s){{were_callbacks_called := true}}) with (emit x (s{{were_callbacks_called := true}})). eexists. by apply delete_after.
  - cbn [negb Z.eqb]. destruct (negb _); cbn [mbind option_bind];
      change ((emit ?x s){{were_callbacks_called := true}}) with (emit x (s{{were_callbacks_called := true}})); eexists; by apply delete_after.
Qed.

Lemma timeout_closes s : error_callback s = true -> trace s = [] ->
  exists s', close_by_timeout s = Some s' /\ dead (ErrorCallback ETIMEDOUT) s'.
Proof.
  intros He Hx. unfold close_by_timeout. change (error_callback (s{{timer := None}})) with (error_callback s). rewrite He.
  apply delete_called; [done|done|]. change (trace s ++ [ErrorCallback ETIMEDOUT] = [ErrorCallback ETIMEDOUT]).
  by rewrite Hx.
Qed.

(** ** Printing the request *)

Definition opt_line (o : option (list Z)) (f : list Z -> list Z) : list Z := match o with Some t => f t | None => [] end.

(** The headers of a request, whole. *)
Definition header_text (s : client_http) : list Z :=
  if negb (bool_decide (request s = [])) && is_post s then
    opt_line (request_content_type s) (λ t, txt "Content-Type: " ++ t ++ CRLF) ++ opt_line (request_custom_headers s) id ++
    opt_line (cookie s) (λ c, txt "Cookie: " ++ c ++ CRLF) ++
    txt "Content-Length: " ++ print_nat (Z.of_nat (length (request s))) ++ CRLF
  else if bool_decide (meth s = txt "GET") then
    (txt "User-Agent: Mozilla" ++ CRLF) ++ opt_line (request_custom_headers s) id ++
    opt_line (cookie s) (λ c, txt "Cookie: " ++ c ++ CRLF)
  else [].

Definition hbuf (T : list Z) : list Z := T ++ replicate (Z.to_nat (1024 - Z.of_nat (length T))) 0.

Lemma snprintf_ok T t size :
  Z.of_nat (length T) + Z.of_nat (length t) < 1024 -> Z.of_nat (length t) < size ->
  snprintf (hbuf T) (Z.of_nat (length T)) size t = Some (hbuf (T ++ t)).
Proof.
  intros H1 H2. unfold snprintf. rewrite (proj2 (Z.eqb_neq size 0)) by lia. rewrite take_ge by lia. unfold hbuf. rewrite length_app.
  replace (Z.to_nat (1024 - Z.of_nat (length T))) with (length (t ++ [0%Z]) + Z.to_nat (1023 - Z.of_nat (length T + length t)))%nat
    by (rewrite length_app; cbn; lia).
  rewrite replicate_add, mem_write_app by apply length_replicate.
  replace (Z.to_nat (1024 - Z.of_nat (length T + length t))) with (S (Z.to_nat (1023 - Z.of_nat (length T + length t)))) by lia.
  cbn [replicate]. by rewrite <- !app_assoc.
Qed.

Lemma add_header_ok T t size :
  Z.of_nat (length T) + Z.of_nat (length t) < size <= 1024 ->
  add_header (hbuf T, Z.of_nat (length T), size) t = Some (hbuf (T ++ t), Z.of_nat (length (T ++ t)), size - Z.of_nat (length T)).
Proof.
  intros H. unfold add_header. rewrite wrap_id by (unfold fits; lia). rewrite snprintf_ok by lia. cbn [mbind option_bind].
  by rewrite length_app, Nat2Z.inj_add.
Qed.

Lemma add_if_ok T o f size :
  Z.of_nat (length T) + Z.of_nat (length (opt_line o f)) < size <= 1024 ->
  exists size', add_if (hbuf T, Z.of_nat (length T), size) o f = Some (hbuf (T ++ opt_line o f), Z.of_nat (length (T ++ opt_line o f)), size') /\
    size - Z.of_nat (length T) <= size' <= size.
Proof.
  intros H. destruct o as [t|]; cbn [add_if opt_line] in *.
  - rewrite add_header_ok by done. eexists. split; [done|]. lia.
  - rewrite app_nil_r. eexists. split; [done|]. lia.
Qed.

Lemma c_text_hbuf T : Forall (λ c, c <> 0) T -> Z.of_nat (length T) < 1024 -> c_text (hbuf T) = Some T.
Proof.
  intros HT Hl. unfold hbuf. destruct (Z.to_nat (1024 - Z.of_nat (length T))) as [|n] eqn:E; [lia|]. by apply c_text_app.
Qed.

Lemma hbuf_nil : replicate 1024 0 = hbuf [].
Proof. done. Qed.

Lemma headers_ok s : 3 * Z.of_nat (length (header_text s)) < 1024 -> Forall (λ c, c <> 0) (header_text s) ->
  request_headers s = Some (header_text s).
Proof.
  intros Hl Hz. assert (Hc : c_text (hbuf (header_text s)) = Some (header_text s)) by (apply c_text_hbuf; [done|lia]).
  clear Hz. unfold request_headers, header_text in *. rewrite hbuf_nil. destruct (_ && is_post s) eqn:E.
  - assert (Hg : meth s <> txt "GET").
    { apply andb_true_iff in E as [_ E]. apply orb_true_iff in E as [->%bool_decide_eq_true| ->%bool_decide_eq_true]; done. }
    rewrite (bool_decide_false _ Hg). clear E Hg. set (ct := opt_line (request_content_type s) _) in *.
    assert (E1 : match request_content_type s with
       | Some t => buf ← snprintf (hbuf []) 0 1024 (txt "Content-Type: " ++ t ++ CRLF);
                   Some (buf, Z.of_nat (length (txt "Content-Type: " ++ t ++ CRLF)), 1024)
       | None => Some (hbuf [], 0, 1024) end = Some (hbuf ct, Z.of_nat (length ct), 1024)).
    { unfold ct in *. destruct (request_content_type s) as [t|]; [|done]. cbn [opt_line] in *. rewrite !length_app in Hl.
      change 0 with (Z.of_nat (length (@nil Z))) at 1. rewrite snprintf_ok; [done|..]; rewrite !length_app; cbn [length]; lia. }
    cbv zeta. rewrite E1. cbn [mbind option_bind]. clear E1. rewrite !length_app in Hl.
    destruct (add_if_ok ct (request_custom_headers s) id 1024) as (z1 & -> & Hz1); [lia|]. cbn [mbind option_bind].
    edestruct add_if_ok as (z2 & -> & Hz2); [rewrite length_app; lia|]. cbn [mbind option_bind].
    rewrite add_header_ok by (rewrite !length_app in *; lia). cbn [mbind option_bind].
    by rewrite <- !app_assoc.
  - cbn [mbind option_bind]. destruct (bool_decide (meth s = txt "GET")) eqn:Eg; [|done].
    rewrite !length_app in Hl. change (hbuf [], 0, 1024) with (hbuf [], Z.of_nat (length (@nil Z)), 1024).
    rewrite add_header_ok by (rewrite !length_app; cbn [length]; lia). cbn [mbind option_bind app length].
    edestruct add_if_ok as (z1 & -> & Hz1); [rewrite !length_app; lia|]. cbn [mbind option_bind].
    edestruct add_if_ok as (z2 & -> & Hz2); [rewrite !length_app in *; lia|]. cbn [mbind option_bind].
    by rewrite <- !app_assoc.
Qed.

(** What a connected request sends. *)
Definition query (s : client_http) : option (list Z) :=
  if bool_decide (meth s = txt "GET") && negb (bool_decide (request s = [])) then Some (request s) else None.

Definition sent (e : env) (s : client_http) : list Z :=
  meth s ++ txt " /" ++ path s ++ query_part (query s) ++ txt " HTTP/1.1" ++ CRLF ++
  txt "Host: " ++ uplink_addr s ++ CRLF ++ header_text s ++ CRLF ++
  (if bool_decide (request s = []) then [] else request s ++ [junk e]).

(** The strings of a request: no zeros where a text is printed, room for the
    headers, and no more than the socket can take. *)
Record printable (e : env) (s : client_http) : Prop := {
  pr_headers : 3 * Z.of_nat (length (header_text s)) < 1024 /\ Forall (λ c, c <> 0) (header_text s);
  pr_query : match query s with Some q => Forall (λ c, c <> 0) q | None => True end;
  pr_size : Z.of_nat (length (es_buf_out (es s))) + Z.of_nat (length (sent e s)) < 2 ^ 61 /\ es_buf_out_size_max (es s) < 2 ^ 61;
}.

Lemma get_str_ok s : match query s with Some q => Forall (λ c, c <> 0) q | None => True end -> get_str s = Some (query_part (query s)).
Proof.
  unfold get_str, query. destruct (_ && _); [|done]. intros Hq.
  rewrite (c_text_app (request s) []) by done. cbn [mbind option_bind]. unfold snprintf.
  rewrite (proj2 (Z.eqb_neq _ 0)) by lia. rewrite take_ge by (cbn [length]; lia).
  rewrite mem_write_start by (rewrite length_replicate, length_app; cbn [length]; lia). cbn [mbind option_bind].
  rewrite drop_ge by (rewrite length_replicate, length_app; cbn [length]; lia). rewrite app_nil_r.
  by apply (c_text_app (63 :: request s) []), Forall_cons_2.
Qed.

(** The system gives what a connected request needs. *)
Definition env_good (e : env) : Prop :=
  uuid_ok e = true /\ timer_ok e = true /\ print_ok e = true /\ realloc_ok e = true /\ write_realloc_ok e = true.

Lemma connected_sends R e s : open R s -> env_good e -> printable e s ->
  exists s', s_http_connected e (s{{connecting := false}}) = Some s' /\ open R s' /\
    es_buf_out (es s') = es_buf_out (es s) ++ sent e s /\ connecting s' = false /\
    (forall e', sent e' s' = sent e' s) /\ header_text s' = header_text s /\ query s' = query s.
Proof.
  intros [H1 H2 H3 H4 H5 H6 (H7 & H7' & H7'') H8 H9] (E1 & E2 & E3 & E4 & E5) [[P1 P1'] P2 [P3 P4]].
  unfold s_http_connected. rewrite E1, E2. cbn [negb].
  set (s1 := s{{connecting := false; timer := _; read_timer := true}}).
  rewrite (headers_ok s1) by done. cbn [mbind option_bind]. rewrite (get_str_ok s1) by done. cbn [mbind option_bind].
  rewrite E3, E4. cbn [negb]. rewrite andb_false_r.
  destruct (write_appends (es s) (sent e s)) as (es' & Hw & Hb & Hi & Ho & Hc & Hr); [done..|].
  assert (Ew : dap_events_socket_write_unsafe (es s1) (write_realloc_ok e) (if negb (bool_decide (request s1 = [])) then
     (meth s1 ++ txt " /" ++ path s1 ++ query_part (query s1) ++ txt " HTTP/1.1" ++ CRLF ++ txt "Host: " ++ uplink_addr s1 ++ CRLF ++
      header_text s1 ++ CRLF) ++ request s1 ++ [junk e] else meth s1 ++ txt " /" ++ path s1 ++ query_part (query s1) ++ txt " HTTP/1.1" ++ CRLF ++
      txt "Host: " ++ uplink_addr s1 ++ CRLF ++ header_text s1 ++ CRLF) = Some (es', Z.of_nat (length (sent e s)))).
  { rewrite E5, <- Hw. f_equal. unfold sent. change (request s1) with (request s). change (query s1) with (query s).
    change (header_text s1) with (header_text s). case_bool_decide; cbn [negb]; rewrite ?app_nil_r; [done|].
    by rewrite <- !app_assoc. }
  rewrite Ew. cbn [mbind option_bind]. eexists. split; [done|]. split; [|done]. split; try done.
  split; [change (es_buf_in es' = []); by rewrite Hi|]. done.
Qed.


(** ** Any run *)

(** What is to be sent does not change. *)
Record kept (s s' : client_http) : Prop := {
  kp_sent : forall e, sent e s' = sent e s;
  kp_headers : header_text s' = header_text s;
  kp_query : query s' = query s;
  kp_es : connecting s' = true ->
          connecting s = true /\ es_buf_out (es s') = es_buf_out (es s) /\ es_buf_out_size_max (es s') = es_buf_out_size_max (es s);
}.

#[export] Instance kept_preorder : PreOrder kept.
Proof.
  split; [by intros s; split|]. intros a b c [A1 A2 A3 A4] [B1 B2 B3 B4].
  split; [intros e; by rewrite B1|congruence|congruence|]. intros Hc. destruct (B4 Hc) as (Hb & -> & ->). by apply A4.
Qed.

Lemma kept_printable e s s' : kept s s' -> connecting s' = true -> printable e s -> printable e s'.
Proof.
  intros [A1 A2 A3 A4] Hc [P1 P2 P3]. destruct (A4 Hc) as (_ & E1 & E2). split; [by rewrite A2|by rewrite A3|by rewrite E1, E2, A1].
Qed.

Lemma search_kept s : kept s (search_header s).
Proof. unfold search_header. destruct (_ && _); [|done]. destruct (find_end _ _); by split. Qed.

Lemma header_kept s s' : process_header s = Some s' -> kept s s'.
Proof.
  unfold process_header. destruct (is_header_read s); [|by intros [= <-]]. destruct (c_text _) as [x|]; [|done]. cbn [mbind option_bind].
  destruct (strstr _ _) as [y|]; [|by intros [= <-]]. destruct (atoi y); [|done]. intros [= <-]. by split.
Qed.

Lemma data_kept s s' : process_data s = Some s' -> kept s s'.
Proof.
  unfold process_data. destruct (_ =? 0); [by intros [= <-]|]. destruct (_ <? _); [by intros [= <-]; split|].
  destruct (mem_write _ _ _) as [x|]; [|done]. cbn [mbind option_bind]. destruct (response_callback _).
  - destruct (mem_read _ _ _) as [y|]; [|done]. cbn [mbind option_bind]. destruct (s_extract_http_code _) as [z|]; [|done].
    intros [= <-]. by split.
  - intros [= <-]. by split.
Qed.

Lemma taken_kept t R s : kept s (taken t R s).
Proof. by split. Qed.

Lemma received_kept l t R d s s' : tame (R ++ d) -> open R s -> handle l s (Received t d) = Some s' -> kept s s'.
Proof.
  intros HR Ho. destruct (read_open t R d s (tame_size _ HR) Ho) as [E _].
  change (handle l s (Received t d)) with (handle 0 s (Received t d)). rewrite E. set (s0 := taken t (R ++ d) s).
  destruct (process_header (search_header s0)) as [s1|] eqn:E1; [|done]. cbn [mbind option_bind]. intros E2.
  etransitivity; [apply (taken_kept t (R ++ d))|]. etransitivity; [apply search_kept|]. etransitivity; [by apply header_kept|].
  by apply data_kept.
Qed.

Definition data_of (ev : event) : list Z := match ev with Received _ d => d | _ => [] end.
Definition received (evs : list event) : list Z := concat (data_of <$> evs).

Lemma step_open limit s0 R s ev :
  kept s0 s -> open R s -> tame (R ++ data_of ev) -> enabled s ev = true ->
  match ev with Connected e => env_good e /\ printable e s0 | _ => True end ->
  exists s', handle limit s ev = Some s' /\
    (kept s0 s' /\ open (R ++ data_of ev) s' \/ (exists x, closing x s') \/ exists x, dead x s').
Proof.
  intros Hk Ho HR He Hev. destruct (id Ho) as [_ _ _ _ [_ Her] [_ Htr] (_ & Hcl & _) [_ Hre] Htm].
  destruct ev as [e|t d|err| |t|]; cbn [data_of] in *; rewrite ?app_nil_r in *.
  - destruct Hev as [Eg Hp]. cbn [enabled] in He. apply andb_true_iff in He as [[_ Hc]%andb_true_iff _].
    destruct (connected_sends R e s Ho Eg) as (s' & Hs & Ho' & _ & Hc' & K1 & K2 & K3); [by eapply kept_printable|].
    exists s'. split; [done|]. left. split; [|done]. etransitivity; [done|]. split; [done..|]. congruence.
  - destruct (received_ok limit t R d s HR Ho) as (s' & Hs & [Ho'|Hc]); exists s'; split; try done; [|by auto].
    left. split; [|done]. etransitivity; [done|]. by eapply received_kept.
  - eexists. split; [done|]. right. left. eexists. by eapply error_ok.
  - cbn [handle]. unfold s_timer_timeout_check. change (in_reactor _) with (in_reactor s). rewrite Hre.
    change (connecting (s{{connect_timer := false}})) with (connecting s). cbn [andb].
    destruct (connecting s) eqn:Hc.
    + destruct (timeout_closes (s{{connect_timer := false}})) as (s' & -> & Hd); [done..|]. eauto 10.
    + eexists. split; [done|]. left. split; [etransitivity; [done|]; by split|].
      destruct Ho as [H1 H2 H3 H4 H5 H6 H7 H8 H9]. split; try done. unfold timers_ok in *.
      change (timer (s{{connect_timer := false}})) with (timer s). destruct (timer s) as [[]|]; [|done..]. destruct H9. congruence.
  - cbn [handle]. unfold s_timer_timeout_after_connected_check. rewrite Hre. destruct (_ <=? _).
    + destruct (timeout_closes (s{{read_timer := false}})) as (s' & -> & Hd); [done..|]. eauto 10.
    + eexists. split; [done|]. auto.
  - destruct (delete_open R s) as (x & s' & Hs & Hd); [done..|]. exists s'. split; [done|]. eauto.
Qed.

Lemma dead_run limit x evs : forall s, dead x s -> exists s', run limit evs s = Some s' /\ dead x s'.
Proof.
  induction evs as [|ev evs IH]; intros s Hd; cbn [run]; [by exists s|]. destruct (enabled s ev) eqn:He; [|by apply IH].
  destruct (id Hd) as (H1 & H2 & H3). destruct ev as [e|t d|err| |t|]; cbn [enabled] in He; rewrite ?H2 in He; try done; cbn [handle].
  - unfold s_timer_timeout_check. change (in_reactor _) with (in_reactor s). rewrite H2. cbn [andb mbind option_bind]. by apply IH.
  - unfold s_timer_timeout_after_connected_check. rewrite H2. cbn [mbind option_bind]. by apply IH.
Qed.

Lemma closing_run limit x evs : forall s, closing x s ->
  exists s', run limit evs s = Some s' /\ (closing x s' \/ dead x s').
Proof.
  induction evs as [|ev evs IH]; intros s Hc; cbn [run]; [by exists s; auto|]. destruct (enabled s ev) eqn:He; [|by apply IH].
  destruct (id Hc) as [[H1 H2] (H3 & H4 & H5) H6].
  destruct ev as [e|t d|err| |t|]; cbn [enabled] in He; rewrite ?H3, ?H5, ?andb_false_r in He; try done; cbn [handle].
  destruct (delete_called s x) as (s' & -> & Hd); [done..|]. cbn [mbind option_bind].
  destruct (dead_run limit x evs s' Hd) as (s'' & -> & ?). eauto.
Qed.

Lemma open_run limit s0 evs : forall R s,
  kept s0 s -> open R s -> tame (R ++ received evs) -> (forall e, Connected e ∈ evs -> env_good e /\ printable e s0) ->
  exists s', run limit evs s = Some s' /\ (open (R ++ received evs) s' \/ exists x, closing x s' \/ dead x s').
Proof.
  induction evs as [|ev evs IH]; intros R s Hk Ho HR He; cbn [run].
  { exists s. split; [done|]. left. unfold received. cbn. by rewrite app_nil_r. }
  change (received (ev :: evs)) with (data_of ev ++ received evs) in *. rewrite app_assoc in *.
  assert (He' : forall e, Connected e ∈ evs -> env_good e /\ printable e s0) by (intros e Hin; apply He; by right).
  destruct (enabled s ev) eqn:Hen.
  - destruct (step_open limit s0 R s ev) as (s1 & -> & [[Hk1 Ho1]|[[x Hc]|[x Hd]]]); [done|done| | | | | |].
    + eapply tame_prefix; [|done]. by eexists.
    + done.
    + destruct ev; try done. apply He. left.
    + cbn [mbind option_bind]. by apply IH.
    + cbn [mbind option_bind]. destruct (closing_run limit x evs s1 Hc) as (s' & -> & ?).
      exists s'. split; [done|]. right. by exists x.
    + cbn [mbind option_bind]. destruct (dead_run limit x evs s1 Hd) as (s' & -> & ?).
      exists s'. split; [done|]. right. exists x. by right.
  - replace (R ++ data_of ev) with R in *; [by apply IH|]. destruct Ho as [_ _ _ _ _ _ (_ & H7 & _) [_ H8] _].
    destruct ev as [e|t d|err| |t|]; cbn [data_of enabled] in *; rewrite ?app_nil_r; try done.
    rewrite H7, H8 in Hen. cbn in Hen. apply negb_false_iff, bool_decide_eq_true in Hen as ->. by rewrite app_nil_r.
Qed.

Lemma run_app limit a b s : run limit (a ++ b) s = s ← run limit a s; run limit b s.
Proof.
  revert s. induction a as [|ev a IH]; intros s; [done|]. cbn [run app]. destruct (enabled s ev); [|apply IH].
  destruct (handle limit s ev); cbn [mbind option_bind]; [apply IH|done].
Qed.

Lemma block_nil : response_block = block [].
Proof. unfold response_block, block. rewrite app_nil_l. by f_equal. Qed.

(** A request that was started and awaits its connection. *)
Lemma request_open u addr m ct p req ck ch s :
  dap_client_http_request_custom u addr m ct p req ck true true ch = (Some s, []) -> connect_errno u <> 0 -> open [] s.
Proof.
  unfold dap_client_http_request_custom. intros H Hc. rewrite (proj2 (Z.eqb_neq _ 0)) in H by done.
  destruct (socket_errno u), (getfl_errno u), (setfl_errno u); try done. destruct (negb _); [done|]. destruct (_ && _); [done|].
  destruct (negb _); [done|]. destruct (resolve_errno u); [done|]. destruct (_ =? EINPROGRESS); [|done]. destruct (negb _); [done|].
  injection H as <-. split.
  - exact block_nil.
  - done.
  - change (0 <= 0 <= 0). lia.
  - change (0 <= 0 < 2 ^ 64). lia.
  - done.
  - done.
  - done.
  - done.
  - unfold timers_ok. cbn. by destruct (connect_timer_ok u).
Qed.


(** ** An answer *)

Lemma find_end_none n : forall m, (forall q, (q < n)%nat -> take 4 (drop q m) <> CRLF ++ CRLF) -> find_end m n = None.
Proof.
  induction n as [|n IH]; intros m H; [done|]. cbn [find_end]. rewrite bool_decide_false by (apply (H 0%nat); lia).
  destruct m as [|x m]; [done|]. rewrite IH; [done|]. intros q Hq. apply (H (S q)). lia.
Qed.

Lemma find_end_first p : forall n m, (p < n)%nat -> take 4 (drop p m) = CRLF ++ CRLF ->
  (forall q, (q < p)%nat -> take 4 (drop q m) <> CRLF ++ CRLF) -> find_end m n = Some p.
Proof.
  induction p as [|p IH]; intros [|n] m Hn He Hq; try lia; cbn [find_end].
  - by rewrite bool_decide_true.
  - rewrite bool_decide_false by (apply (Hq 0%nat); lia). destruct m as [|x m]; [done|].
    rewrite (IH n m); [done|lia|done|]. intros q Hq'. apply (Hq (S q)). lia.
Qed.

Lemma take_drop_app {A} (l m : list A) q k : (q + k <= length l)%nat -> take k (drop q (l ++ m)) = take k (drop q l).
Proof. intros H. rewrite drop_app_le by lia. apply take_app_le. rewrite length_drop. lia. Qed.

Lemma digits_stop ds c r : Forall (λ d, isdigit d = true) ds -> isdigit c = false -> forall acc, digits acc (ds ++ c :: r) = digits acc ds.
Proof. intros Hd Hc. induction Hd as [|d ds Hd _ IH]; intros acc; cbn [app digits]; [by rewrite Hc|]. rewrite Hd. apply IH. Qed.

Lemma digit_no_space d : isdigit d = true -> isspace d = false /\ d <> 45 /\ d <> 43 /\ d <> 32.
Proof.
  unfold isdigit, isspace. intros [H1%Z.leb_le H2%Z.leb_le]%andb_true_iff. split; [|lia].
  rewrite (proj2 (Z.eqb_neq d 32)), (proj2 (Z.leb_gt d 13)), andb_false_r by lia. done.
Qed.

Lemma atoi_digits d ds c r v : Forall (λ d, isdigit d = true) (d :: ds) -> isdigit c = false -> digits 0 (d :: ds) = v -> 0 <= v < 2 ^ 31 ->
  atoi ((d :: ds) ++ c :: r) = Some v.
Proof.
  intros Hd Hc Hv Hb. unfold atoi. cbn [app skip_spaces]. inversion Hd as [|? ? Hd1 Hd2]; subst.
  destruct (digit_no_space d Hd1) as (-> & _).
  assert (E : match d :: ds ++ c :: r with 45 :: l => - digits 0 l | 43 :: l => digits 0 l | l => digits 0 l end = digits 0 (d :: ds)).
  { rewrite <- (digits_stop (d :: ds) c r) by done. cbn [app].
    clear -Hd1. apply andb_true_iff in Hd1 as [H1%Z.leb_le H2%Z.leb_le].
    assert (E : d = 48 \/ d = 49 \/ d = 50 \/ d = 51 \/ d = 52 \/ d = 53 \/ d = 54 \/ d = 55 \/ d = 56 \/ d = 57) by lia.
    by destruct_or! E; subst. }
  rewrite E, (proj2 (Z.leb_le _ _)), (proj2 (Z.ltb_lt _ _)) by lia. done.
Qed.

Lemma scan_int_digits d ds c r v : Forall (λ d, isdigit d = true) (d :: ds) -> isdigit c = false -> digits 0 (d :: ds) = v -> 0 <= v < 2 ^ 31 ->
  scan_int (32 :: (d :: ds) ++ c :: r) = Some (Some v).
Proof.
  intros Hd Hc Hv Hb. unfold scan_int. pose proof (atoi_digits d ds c r v Hd Hc Hv Hb) as E.
  inversion Hd as [|? ? Hd1 Hd2]; subst. assert (Es : skip_spaces (32 :: (d :: ds) ++ c :: r) = (d :: ds) ++ c :: r).
  { cbn [skip_spaces app]. change (isspace 32) with true. by destruct (digit_no_space d Hd1) as (-> & _). }
  rewrite Es, E. cbn [app]. clear -Hd1. apply andb_true_iff in Hd1 as [H1%Z.leb_le H2%Z.leb_le].
  assert (H : d = 48 \/ d = 49 \/ d = 50 \/ d = 51 \/ d = 52 \/ d = 53 \/ d = 54 \/ d = 55 \/ d = 56 \/ d = 57) by lia.
  by destruct_or! H; subst.
Qed.

Lemma until_space_at v r : 32 ∉ v -> until_space (v ++ 32 :: r) = (v, 32 :: r).
Proof.
  induction v as [|c v IH]; intros H; cbn; [done|]. rewrite (proj2 (Z.eqb_neq c 32)); [|intros ->; apply H; left].
  by rewrite IH by (intros Hv; apply H; by right).
Qed.

(** An answer: a status line, headers without zeros that end with the first empty
    line and tell the length of the body, and a body that is not empty. *)
Record reply_ok (head body : list Z) (code : Z) : Prop := {
  ro_zero : Forall (λ c, c <> 0) head;
  ro_end : exists h, head = h ++ CRLF ++ CRLF;
  ro_first : forall q, (q + 4 < length head)%nat -> take 4 (drop q head) <> CRLF ++ CRLF;
  ro_status : exists ver d ds c r, head = ver ++ 32 :: (d :: ds) ++ c :: r /\ take 5 ver = txt "HTTP/" /\ (length ver < 16)%nat /\
                32 ∉ ver /\ Forall (λ d, isdigit d = true) (d :: ds) /\ isdigit c = false /\ digits 0 (d :: ds) = code /\ 0 <= code < 2 ^ 31;
  ro_length : exists d ds c r, strstr head (txt "Content-Length: ") = Some ((d :: ds) ++ c :: r) /\
                Forall (λ d, isdigit d = true) (d :: ds) /\ isdigit c = false /\ digits 0 (d :: ds) = Z.of_nat (length body);
  ro_body : body <> [];
  ro_size : Z.of_nat (length (head ++ body)) < 65536;
}.

Section Answer.
Variables (head body : list Z) (code : Z).
Hypothesis (Hok : reply_ok head body code).

Lemma head_length : (4 <= length head)%nat.
Proof using Hok. destruct (ro_end _ _ _ Hok) as [h ->]. rewrite length_app. cbn. lia. Qed.

Lemma code_read x : s_extract_http_code (block (head ++ x)) = Some code \/ 65536 <= Z.of_nat (length (head ++ x)).
Proof using Hok.
  destruct (Z.le_gt_cases 65536 (Z.of_nat (length (head ++ x)))) as [H|H]; [by right|left].
  unfold s_extract_http_code, block. rewrite <- app_assoc.
  destruct (c_text_head head x (Z.to_nat (65536 - Z.of_nat (length (head ++ x))))) as [t ->]; [apply Hok|lia|]. cbn [mbind option_bind].
  destruct (ro_status _ _ _ Hok) as (ver & d & ds & c & r & -> & Hv & Hl & Hs & Hd & Hc & Hn & Hb).
  assert (Ea : (ver ++ 32 :: (d :: ds) ++ c :: r) ++ t = ver ++ 32 :: ((d :: ds) ++ c :: (r ++ t))).
  { rewrite <- app_assoc. cbn [app]. by rewrite <- app_assoc. }
  rewrite Ea, until_space_at by done.
  rewrite (proj2 (Nat.eqb_neq _ 0)) by (by destruct ver). rewrite (proj2 (Nat.leb_gt _ _)) by lia.
  rewrite (scan_int_digits d ds c (r ++ t) code) by done. cbn [mbind option_bind].
  by rewrite bool_decide_true.
Qed.

(** The request when [P] has come. *)
Record waiting (P : list Z) (s : client_http) : Prop := {
  wa_open : open P s;
  wa_read : is_header_read s = false;
  wa_before : (length P <= length head)%nat -> header_length s = 0 /\ content_length s = 0;
  wa_after : (length head < length P)%nat -> header_length s = Z.of_nat (length head) /\ content_length s = Z.of_nat (length body);
}.

Lemma search_before P s : P `prefix_of` head ++ body -> (length P <= length head)%nat -> open P s -> search_header s = s.
Proof using Hok.
  intros [z Hz] Hl [H1 H2 _ _ _ _ _ _ _]. unfold search_header. destruct (_ && _); [|done]. rewrite H1, H2.
  rewrite find_end_none; [done|]. intros q Hq. unfold block. rewrite take_drop_app by lia.
  assert (E : take 4 (drop q P) = take 4 (drop q head)).
  { transitivity (take 4 (drop q (head ++ body))); [|apply take_drop_app; lia]. rewrite Hz. symmetry. apply take_drop_app. lia. }
  rewrite E. apply (ro_first _ _ _ Hok). lia.
Qed.

Lemma search_found x s : Z.of_nat (length (head ++ x)) < 65536 -> x <> [] -> open (head ++ x) s ->
  is_header_read s = false -> content_length s = 0 ->
  search_header s = s{{header_length := Z.of_nat (length head); is_header_read := true}}.
Proof using Hok.
  intros Hsz Hx [H1 H2 _ _ _ _ _ _ _] Hr Hc. unfold search_header. rewrite Hr, Hc, H1, H2. pose proof head_length as Hl.
  assert (Hx' : (0 < length x)%nat) by (by destruct x; [|cbn; lia]). rewrite length_app in *.
  rewrite (proj2 (Z.ltb_lt 4 _)) by lia. cbn [negb andb Z.eqb].
  rewrite (find_end_first (length head - 4)).
  - by replace (Z.of_nat (length head - 4) + 4) with (Z.of_nat (length head)) by lia.
  - lia.
  - unfold block. rewrite <- app_assoc, take_drop_app by lia. destruct (ro_end _ _ _ Hok) as [h ->].
    replace (length (h ++ CRLF ++ CRLF) - 4)%nat with (length h) by (rewrite length_app; cbn; lia). by rewrite drop_app_length.
  - intros q Hq. unfold block. rewrite <- app_assoc, take_drop_app by lia. apply (ro_first _ _ _ Hok). lia.
Qed.

Lemma header_found x s : Z.of_nat (length (head ++ x)) < 65536 -> open (head ++ x) s -> is_header_read s = true ->
  process_header s = Some (s{{content_length := Z.of_nat (length body); is_header_read := false}}).
Proof using Hok.
  intros Hsz [H1 _ _ _ _ _ _ _ _] Hr. unfold process_header. rewrite Hr, H1. unfold block. rewrite <- app_assoc.
  destruct (c_text_head head x (Z.to_nat (65536 - Z.of_nat (length (head ++ x))))) as [t ->]; [apply Hok|lia|]. cbn [mbind option_bind].
  destruct (ro_length _ _ _ Hok) as (d & ds & c & r & Hs & Hd & Hc & Hn). rewrite (strstr_app _ t _ _ Hs).
  pose proof (ro_size _ _ _ Hok) as Hb. rewrite length_app in Hb. rewrite <- app_assoc. change ((c :: r) ++ t) with (c :: r ++ t).
  rewrite (atoi_digits d ds c (r ++ t) (Z.of_nat (length body))) by (done || lia). cbn [mbind option_bind].
  by rewrite wrap_id by (unfold fits; lia).
Qed.

(** The headers have been read. *)
Lemma processed P d t s : waiting P s -> P ++ d `prefix_of` head ++ body -> (length head < length (P ++ d))%nat ->
  exists s1, process_header (search_header (taken t (P ++ d) s)) = Some s1 /\ open (P ++ d) s1 /\ is_header_read s1 = false /\
    header_length s1 = Z.of_nat (length head) /\ content_length s1 = Z.of_nat (length body).
Proof using Hok.
  intros [Ho Hr Hb Ha] [z Hz] Hl. pose proof (ro_size _ _ _ Hok) as Hsz. rewrite Hz, length_app in Hsz.
  destruct (read_open t P d s) as [_ Ho1]; [lia|done|]. set (s0 := taken t (P ++ d) s) in *.
  assert (exists x, P ++ d = head ++ x) as [x Hx].
  { exists (drop (length head) (P ++ d)). rewrite <- (take_drop (length head) (P ++ d)) at 1. f_equal.
    apply (f_equal (take (length head))) in Hz. rewrite take_app_length, take_app_le in Hz by lia. done. }
  destruct (decide (length P <= length head)%nat) as [Hp|Hp].
  - destruct (Hb Hp) as [B1 B2]. rewrite Hx in *. rewrite length_app in Hl.
    rewrite (search_found x s0); [|lia|destruct x; [cbn in Hl; lia|done]|done..].
    set (s2 := s0{{header_length := _; is_header_read := true}}).
    assert (Ho2 : open (head ++ x) s2).
    { destruct Ho1 as [O1 O2 O3 O4 O5 O6 O7 O8 O9]. split; try done. change (0 <= Z.of_nat (length head) <= Z.of_nat (length (head ++ x))).
      rewrite length_app. lia. }
    rewrite (header_found x s2); [|lia|done|done]. eexists. split; [done|]. split; [|done].
    destruct Ho2 as [O1 O2 O3 O4 O5 O6 O7 O8 O9]. split; try done. change (0 <= Z.of_nat (length body) < 2 ^ 64).
    pose proof (ro_size _ _ _ Hok) as Hs'. rewrite length_app in Hs'. lia.
  - destruct (Ha ltac:(lia)) as [A1 A2]. unfold search_header. change (content_length s0) with (content_length s). rewrite A2.
    rewrite (proj2 (Z.eqb_neq _ 0)), andb_false_r by (pose proof (ro_body _ _ _ Hok); destruct body; [done|cbn; lia]).
    unfold process_header. change (is_header_read s0) with (is_header_read s). rewrite Hr. exists s0. done.
Qed.

Lemma chunk_ok limit P d t s : waiting P s -> P ++ d `prefix_of` head ++ body ->
  exists s', handle limit s (Received t d) = Some s' /\
    (P ++ d <> head ++ body /\ waiting (P ++ d) s' \/
     P ++ d = head ++ body /\ trace s' = [ResponseCallback body code] /\ es_signal_close (es s') = true).
Proof using Hok.
  intros Hw Hpre. pose proof (ro_size _ _ _ Hok) as Hsz. pose proof (prefix_length _ _ Hpre) as Hlen.
  destruct (read_open t P d s) as [E Ho1]; [lia|apply Hw|].
  change (handle limit s (Received t d)) with (handle 0 s (Received t d)). rewrite E.
  destruct (decide (length head < length (P ++ d))%nat) as [Hl|Hl].
  - destruct (processed P d t s Hw Hpre Hl) as (s1 & -> & Ho2 & Hr & Hh & Hc). cbn [mbind option_bind].
    rewrite (data_open (P ++ d) s1) by (done || lia). rewrite Hh, Hc.
    rewrite (proj2 (Z.eqb_neq _ 0)) by (pose proof (ro_body _ _ _ Hok); destruct body; [done|cbn; lia]).
    rewrite length_app in Hlen. rewrite length_app in Hsz. destruct (Z.ltb_spec (Z.of_nat (length (P ++ d))) (Z.of_nat (length head) + Z.of_nat (length body))) as [Hlt|Hge].
    + eexists. split; [done|]. left. split.
      { intros Heq. rewrite Heq, length_app in Hlt. lia. }
      destruct Ho2 as [O1 O2 O3 O4 O5 O6 O7 O8 O9]. split; [by split|done|lia|done].
    + assert (Heq : P ++ d = head ++ body).
      { destruct Hpre as [[|y z] Hz]; [by rewrite app_nil_r in Hz|]. apply (f_equal length) in Hz. rewrite !length_app in *. cbn in Hz. lia. }
      rewrite Heq. destruct (code_read body) as [->|H]; [|rewrite length_app in H; lia]. cbn [mbind option_bind].
      eexists. split; [done|]. right. split; [done|]. split; [|done]. rewrite !Nat2Z.id, drop_app_length, take_ge by done.
      destruct Ho2 as [O1 O2 O3 O4 O5 [_ O6] O7 O8 O9]. change (trace s1 ++ [ResponseCallback body code] = [ResponseCallback body code]). by rewrite O6.
  - rewrite (search_before (P ++ d)) by (done || lia). unfold process_header.
    change (is_header_read (taken t (P ++ d) s)) with (is_header_read s). rewrite (wa_read _ _ Hw). cbn [mbind option_bind].
    assert (Hp : (length P <= length head)%nat) by (rewrite length_app in Hl; lia).
    destruct (wa_before _ _ Hw Hp) as [B1 B2].
    rewrite (data_open (P ++ d)) by (done || lia). change (content_length (taken t (P ++ d) s)) with (content_length s).
    rewrite B2. cbn [Z.eqb]. eexists. split; [done|]. left. split.
    { intros Heq. rewrite Heq, length_app in Hl. pose proof (ro_body _ _ _ Hok). destruct body; [done|]. cbn in Hl. lia. }
    split; [done|apply Hw|done|lia].
Qed.

Lemma chunks_ok limit chunks : forall P s,
  waiting P s -> P ++ concat chunks.*2 = head ++ body -> Forall (λ c, c.2 <> []) chunks -> P <> head ++ body ->
  exists s', run limit ((λ c, Received c.1 c.2) <$> chunks) s = Some s' /\ trace s' = [ResponseCallback body code] /\ es_signal_close (es s') = true.
Proof using Hok.
  induction chunks as [|[t d] chunks IH]; intros P s Hw Hc Hf Hn.
  { cbn in Hc. by rewrite app_nil_r in Hc. }
  inversion Hf as [|? ? Hd Hf']; subst. cbn [fmap list_fmap run]. cbn [fst snd concat] in *. change (concat (snd <$> (t, d) :: chunks)) with (d ++ concat (snd <$> chunks)) in Hc. rewrite app_assoc in Hc.
  destruct (id (wa_open _ _ Hw)) as [_ _ _ _ _ _ (_ & Hcl & _) [_ Hin] _].
  assert (He : enabled s (Received t d) = true) by (cbn [enabled]; rewrite Hin, Hcl; by rewrite bool_decide_false).
  rewrite He. destruct (chunk_ok limit P d t s Hw) as (s' & -> & [[Hne Hw']|(Heq & Ht & Hs)]); [rewrite <- Hc; by eexists|..]; cbn [mbind option_bind].
  - by apply (IH (P ++ d)).
  - rewrite Heq in Hc. assert (Hz : concat chunks.*2 = []) by (apply (app_inv_head (head ++ body)); by rewrite app_nil_r).
    destruct chunks as [|[t' d'] chunks]; [by exists s'|]. inversion Hf' as [|? ? Hd' ?]; subst. cbn in Hz, Hd'. by apply app_eq_nil in Hz as [-> _].
Qed.
End Answer.

(** A request whose answer has not begun. *)
Definition listening (s : client_http) : Prop :=
  open [] s /\ is_header_read s = false /\ header_length s = 0 /\ content_length s = 0.

(** C12: An answer with a length is handed to the user once, whole and with its
    status code, when its last byte comes, however the network cuts it; then the
    socket is to be closed.  Nothing is handed over before. *)
Theorem http_answer_delivered limit s head body code chunks :
  listening s -> reply_ok head body code -> concat chunks.*2 = head ++ body -> Forall (λ c, c.2 <> []) chunks ->
  exists s', run limit ((λ c, Received c.1 c.2) <$> chunks) s = Some s' /\
    trace s' = [ResponseCallback body code] /\ es_signal_close (es s') = true.
Proof.
  intros (Ho & Hr & Hh & Hc) Hok He Hf. apply (chunks_ok head body code Hok limit chunks []); try done.
  - split; [done|done|done|]. cbn. lia.
  - pose proof (ro_body _ _ _ Hok). intros H1. symmetry in H1. by apply app_eq_nil in H1 as [_ ?].
Qed.

(** ** The request reaches the server *)

Lemma digits_concat a b : Forall (λ d, isdigit d = true) a -> forall acc, digits acc (a ++ b) = digits (digits acc a) b.
Proof. induction 1 as [|d a Hd _ IH]; intros acc; cbn [app digits]; [done|]. rewrite Hd. apply IH. Qed.

Lemma isdigit_mod n : isdigit (48 + n mod 10) = true.
Proof. pose proof (Z.mod_pos_bound n 10). unfold isdigit. rewrite !(proj2 (Z.leb_le _ _)) by lia. done. Qed.

Lemma print_digits_spec f : forall n, 0 <= n < 10 ^ Z.of_nat f ->
  Forall (λ d, isdigit d = true) (print_digits f n) /\ digits 0 (print_digits f n) = n /\ (length (print_digits f n) <= f)%nat /\
  (print_digits f n = [] -> f = 0%nat).
Proof.
  induction f as [|f IH]; intros n Hn; [cbn in *; split_and!; [done|lia|done|done]|]. cbn [print_digits].
  rewrite Nat2Z.inj_succ, Z.pow_succ_r in Hn by lia. pose proof (Z.div_mod n 10) as Hdm.
  assert (Hlt : n / 10 < 10 ^ Z.of_nat f) by (apply Z.div_lt_upper_bound; lia). assert (0 <= n / 10) by (apply Z.div_pos; lia).
  destruct (Z.ltb_spec n 10) as [Hs|Hs].
  - cbn [app]. split_and!; [constructor; [apply isdigit_mod|done]| |cbn; lia|done].
    cbn [digits]. rewrite isdigit_mod, Z.mod_small by lia. lia.
  - destruct (IH (n / 10)) as (H1 & H2 & H3 & _); [lia|]. split_and!.
    + apply Forall_app. split; [done|]. constructor; [apply isdigit_mod|done].
    + rewrite digits_concat, H2 by done. cbn [digits]. rewrite isdigit_mod. lia.
    + rewrite length_app. cbn. lia.
    + intros Hx. by apply app_eq_nil in Hx as [_ ?].
Qed.

(** The header lines of a [POST] request. *)
Definition opt_item (name : list Z) (o : option (list Z)) : list header_item := match o with Some v => [Hdr name [32] v] | None => [] end.

Definition items (s : client_http) (custom : list header_item) : list header_item :=
  Hdr (txt "Host") [32] (uplink_addr s) :: opt_item (txt "Content-Type") (request_content_type s) ++ custom ++
  opt_item (txt "Cookie") (cookie s) ++ [Hdr (txt "Content-Length") [32] (print_nat (Z.of_nat (length (request s))))].

(** The headers the user adds are whole lines. *)
Definition custom_ok (s : client_http) (custom : list header_item) : Prop :=
  opt_line (request_custom_headers s) id = concat (line_of <$> custom).

Lemma sent_lines e s custom dir base : meth s = txt "POST" -> request s <> [] -> custom_ok s custom -> 47 :: path s = dir ++ 47 :: base ->
  sent e s = start_line (txt "POST") (dir ++ 47 :: base) None 49 ++ concat (line_of <$> items s custom) ++ CRLF ++ request s ++ [junk e].
Proof.
  intros Hm Hr Hc Hp. unfold sent, start_line, query, header_text, is_post. rewrite Hm, Hc, <- Hp.
  rewrite (bool_decide_false (request s = [])), (bool_decide_false (txt "POST" = txt "GET")) by done.
  rewrite (bool_decide_true (txt "POST" = txt "POST")) by done. cbn [negb andb orb query_part].
  unfold items. rewrite fmap_cons, concat_cons, !fmap_app, !concat_app.
  assert (E1 : concat (line_of <$> opt_item (txt "Content-Type") (request_content_type s)) =
               opt_line (request_content_type s) (λ t, txt "Content-Type: " ++ t ++ CRLF)).
  { destruct (request_content_type s); [|done]. cbn [opt_item fmap list_fmap concat opt_line]. by rewrite app_nil_r. }
  assert (E2 : concat (line_of <$> opt_item (txt "Cookie") (cookie s)) = opt_line (cookie s) (λ t, txt "Cookie: " ++ t ++ CRLF)).
  { destruct (cookie s); [|done]. cbn [opt_item fmap list_fmap concat opt_line]. by rewrite app_nil_r. }
  rewrite E1, E2. clear E1 E2 Hc. set (X := concat (line_of <$> custom)). cbn [fmap list_fmap concat]. rewrite app_nil_r.
  change (line_of (Hdr (txt "Host") [32] ?v)) with (txt "Host: " ++ v ++ CRLF).
  change (line_of (Hdr (txt "Content-Length") [32] ?v)) with (txt "Content-Length: " ++ v ++ CRLF).
  rewrite <- !app_assoc. reflexivity.
Qed.

Lemma length_told (l : list header_item) n : 0 <= n < 2 ^ 31 ->
  foldl with_length 0 (pair_of <$> l ++ [Hdr (txt "Content-Length") [32] (print_nat n)]) = n.
Proof.
  intros Hn. rewrite fmap_app, foldl_app. cbn [fmap list_fmap foldl pair_of hn hv]. unfold with_length at 1. cbn [fst snd].
  change (find_field (txt "Content-Length")) with (Some HTTP_FLD_CONTENT_LEN). cbn iota. unfold print_nat.
  destruct (print_digits_spec 20 n) as (H1 & H2 & H3 & H4); [split; [lia|]; eapply Z.lt_trans; [apply Hn|]; reflexivity|].
  rewrite (take_ge (print_digits 20 n)) by lia. destruct (print_digits 20 n) as [|d ds]; [by specialize (H4 eq_refl)|].
  rewrite (atoi_digits d ds 0 [] n) by (done || lia). cbn [default]. apply wrap_id. unfold fits. lia.
Qed.


(** ** A request for a key exchange *)

Definition sample_setup : setup := Setup None None None true true true 12 None EINPROGRESS true true.
Definition sample_client : client_http :=
  ClientHttpState true true (txt "ab") false false false 0 0 0 response_block 0 (txt "10.0.0.1") (txt "POST") (Some (txt "text/text"))
    (txt "enc_init/gd4y5yh78w42aaagh") None (Some (txt "KeyID: 7" ++ CRLF)) (Some ConnectTimer)
    (Esocket false true [] [] DAP_EVENTS_SOCKET_BUF_SIZE DAP_EVENTS_SOCKET_BUF_SIZE) true true true false true [].
Definition sample_env : env := Env 0 true true true true true 170.

Lemma sample_created :
  dap_client_http_request_custom sample_setup (txt "10.0.0.1") (txt "POST") (Some (txt "text/text")) (txt "enc_init/gd4y5yh78w42aaagh")
    (txt "ab") None true true (Some (txt "KeyID: 7" ++ CRLF)) = (Some sample_client, []).
Proof. reflexivity. Qed.

Lemma sample_open : open [] sample_client.
Proof. eapply request_open; [exact sample_created|done]. Qed.

Lemma sample_printable : printable sample_env sample_client.
Proof. split; [split; [vm_compute; done|]|exact I|split; vm_compute; done]. apply (bool_decide_unpack _). vm_compute. exact I. Qed.

Lemma digits_ok_check l : forallb (λ i, digit_run (drop i l) <=? 9)%nat (seq 0 (length l)) = true -> digits_ok l.
Proof.
  intros H i. destruct (decide (i < length l)%nat) as [Hi|Hi]; [|rewrite drop_ge by lia; cbn; lia].
  apply forallb_forall with (x := i) in H; [by apply Nat.leb_le in H|]. apply in_seq. lia.
Qed.

Definition sample_head : list Z := txt "HTTP/1.1 200 OK" ++ CRLF ++ txt "Content-Length: 2" ++ CRLF ++ CRLF.
Definition sample_events : list event := [Connected sample_env; Received 5 (take 20 sample_head); Received 6 (drop 20 sample_head ++ txt "h"); Received 7 (txt "i")].


Lemma first_check h : forallb (λ q, negb (bool_decide (take 4 (drop q h) = CRLF ++ CRLF))) (seq 0 (length h - 4)) = true ->
  forall q, (q + 4 < length h)%nat -> take 4 (drop q h) <> CRLF ++ CRLF.
Proof.
  intros H q Hq. apply forallb_forall with (x := q) in H; [|apply in_seq; lia]. by apply negb_true_iff, bool_decide_eq_false in H.
Qed.

Lemma sample_reply : reply_ok sample_head (txt "hi") 200.
Proof.
  split.
  - apply (bool_decide_unpack _). vm_compute. exact I.
  - by exists (txt "HTTP/1.1 200 OK" ++ CRLF ++ txt "Content-Length: 2").
  - apply first_check. vm_compute. reflexivity.
  - exists (txt "HTTP/1.1"), 50, [48; 48], 32, (txt "OK" ++ CRLF ++ txt "Content-Length: 2" ++ CRLF ++ CRLF).
    split_and!; try done; [cbn; lia|apply (bool_decide_unpack _); vm_compute; exact I|by repeat constructor].
  - exists 50, [], 13, [10; 13; 10]. split_and!; try done. by repeat constructor.
  - done.
  - vm_compute. done.
Qed.

Lemma http_answer_delivered_witness :
  exists s', run 5000 ((λ c, Received c.1 c.2) <$> [(1, take 20 sample_head); (2, drop 20 sample_head); (3, txt "h"); (4, txt "i")]) sample_client = Some s' /\
    trace s' = [ResponseCallback (txt "hi") 200] /\ es_signal_close (es s') = true.
Proof.
  apply (http_answer_delivered 5000 sample_client sample_head (txt "hi") 200).
  - split; [apply sample_open|done].
  - apply sample_reply.
  - reflexivity.
  - repeat constructor; done.
Defined.

Definition sample_custom : list header_item := [Hdr (txt "KeyID") [32] (txt "7")].

Lemma sample_items : items sample_client sample_custom =
  [Hdr (txt "Host") [32] (txt "10.0.0.1"); Hdr (txt "Content-Type") [32] (txt "text/text"); Hdr (txt "KeyID") [32] (txt "7");
   Hdr (txt "Content-Length") [32] (txt "2")].
Proof. reflexivity. Qed.

Lemma hdr_check n v : 58 ∉ n -> (length n < 256)%nat -> v <> [] -> (length v < 256)%nat -> isspace (default 32 (head v)) = false ->
  (find_field n = Some HTTP_FLD_CONTENT_LEN -> is_Some (atoi (take 31 v ++ [0]))) -> LF ∉ n ++ 58 :: [32] ++ v -> hdr_ok (Hdr n [32] v).
Proof.
  intros H1 H2 H3 H4 H5 H6 H7. split; [|split; [by repeat constructor|done]].
  split; [done|split_and!; [done|cbn [hv]; lia|done]|done|done].
Qed.

Lemma sample_request_ok : request_ok (txt "POST") (txt "/enc_init") (txt "gd4y5yh78w42aaagh") None 49 (items sample_client sample_custom).
Proof.
  rewrite sample_items. split.
  - split; split_and!; cbn; try lia; try done; repeat constructor; done.
  - split; [split; [done | by repeat constructor] | split; [apply (bool_decide_unpack _); reflexivity | by repeat constructor] | cbn; lia].
  - split; repeat constructor; done.
  - done.
  - repeat constructor; apply hdr_check; try done; try (cbn; lia); try (apply (bool_decide_unpack _); reflexivity); try (intros _; by eexists).
Qed.

(** The processor of the key exchange (dap_enc_http.c), and a server that has it. *)
Definition enc_proc : dap_http_url_proc :=
  default (UrlProc None None None None None None) (dap_http_simple_proc_add (λ _, true) 0 140000).
Definition enc_server (b : list Z) : http := HttpState {[ txt "/enc_init" := enc_proc ]} dap_http_client_new None b (length b) true [].


(** ** What goes wrong *)

(** A first word of 16 bytes or more is written outside its array. *)
Lemma long_word_overflows w r m : Forall (λ c, c <> 0) (w ++ 32 :: r) -> 32 ∉ w -> (16 <= length w)%nat ->
  s_extract_http_code ((w ++ 32 :: r) ++ 0 :: m) = None.
Proof.
  intros Hz Hs Hl. unfold s_extract_http_code. rewrite c_text_app by done. cbn [mbind option_bind]. rewrite until_space_at by done.
  rewrite (proj2 (Nat.eqb_neq _ 0)), (proj2 (Nat.leb_le _ _)) by lia. done.
Qed.

(** A request that is connected at once is given to no worker: whatever follows,
    it sends nothing and calls nobody. *)
Lemma immediate_connection_lost limit u addr m ct p req ck ch s evs :
  dap_client_http_request_custom u addr m ct p req ck true true ch = (Some s, []) -> connect_errno u = 0 -> run limit evs s = Some s.
Proof.
  unfold dap_client_http_request_custom. intros H Hc. rewrite Hc in H.
  destruct (socket_errno u), (getfl_errno u), (setfl_errno u); try done. destruct (negb _); [done|]. destruct (_ && _); [done|].
  destruct (negb _); [done|]. destruct (resolve_errno u); [done|]. injection H as <-.
  induction evs as [|[] evs IH]; [done|exact IH..].
Qed.

(** Headers of less than the 1024 bytes of their array are cut: the length of the
    request is lost. *)
Definition long_headers : client_http :=
  ClientHttpState true true (txt "ab") false false false 0 0 0 [] 0 (txt "10.0.0.1") (txt "POST") (Some (replicate 300 97)) [] (Some (replicate 300 98))
    (Some (replicate 300 99)) None (Esocket false true [] [] 0 0) true true true false true [].

Lemma headers_truncated : (length (header_text long_headers) < 1024)%nat /\
  exists t, request_headers long_headers = Some t /\ t <> header_text long_headers.
Proof.
  split; [apply Nat.ltb_lt; vm_compute; reflexivity|]. eexists. split; [vm_compute; reflexivity|].
  intros H. apply (f_equal length) in H. vm_compute in H. discriminate.
Qed.

(** Headers that do not fit are written outside it. *)
Definition longer_headers : client_http :=
  ClientHttpState true true (txt "ab") false false false 0 0 0 [] 0 (txt "10.0.0.1") (txt "POST") (Some (replicate 300 97)) [] (Some (replicate 400 98))
    (Some (replicate 400 99)) None (Esocket false true [] [] 0 0) true true true false true [].

Lemma headers_overflow : request_headers longer_headers = None.
Proof. vm_compute. reflexivity. Qed.
